(* ===== verification/_CoqProject ===== *)
-Q . S2P
Prelude.v
Wire.v
Abi.v
Codec.v
ProtocolBase.v
ProtocolInstance.v
ProtocolDevice.v
ProtocolCommand.v
ProtocolResource.v
ProtocolSync.v
ProtocolSetup.v
ProtocolRegistry.v
Handle.v
Lifecycle.v
Activity.v
Shared.v
FrameSync.v
FrameRing.v
DescriptorRing.v
DescriptorLease.v
Window.v
Transport.v
TransportTheorems.v
Element.v
Frame.v
MessageLists.v
MessageData.v
DescriptorTypes.v
Segments.v
MessagePlan.v
MessageSubmit.v
MessageDescriptor.v
MessageBinding.v
MessageRegistry.v
CommandTypes.v
CommandBase.v
CommandElements.v
CommandArrays.v
CommandFixed.v
CommandTransfer.v
CommandBarrier.v
CommandState.v
CommandBindings.v
CommandDispatch.v
CommandBatch.v
CommandLayout.v
CommandTheorems.v
StreamGeneration.v
MessageImage.v
Backend.v
BackendInvariant.v
BackendRules.v
BackendDriver.v
BackendSync.v
BackendDescriptor.v
BackendPipeline.v
MemoryMirror.v
BackendMirror.v
BackendPhysical.v
BackendMemory.v
BackendImage.v
BackendCommand.v
StreamBase.v
BackendSubmit.v
StreamRecord.v
StreamReplay.v
StreamSpec.v
StreamTheorems.v
StreamSubmit.v
BackendInstance.v
BackendDevice.v
BackendService.v
MessageCreate.v
ServiceBase.v
ServiceHandlers.v
ServiceResources.v
Service.v
ServiceExample.v
ServiceCalls.v
ServiceSafety.v
