(* ===== verification/Prelude.v ===== *)
(** * Bionic Vulkan bridge: a verification library

    The bridge lets a glibc Vulkan application use the Android (bionic) Vulkan
    driver of another process.  A client layer (src/global_dispatch.c)
    marshals Vulkan calls into packets (src/protocol.c), sends them over a
    socket (src/transport.c) to a service (src/bridge_service.c), which decodes
    them, resolves wire identifiers through handle tables (src/handle.c) and
    calls the driver (src/vulkan_global.c).  Commands travel in batches
    (src/command_batch.c).  Three pages of shared memory carry data past the
    socket: a frame synchroniser (src/frame_sync.c), an image ring
    (src/wsi_frame_ring.c) and a descriptor transaction ring
    (src/descriptor_transaction_ring.c).  An Android Activity reports its life
    cycle to the service in authenticated records (src/lifecycle.c).

    ** The files

    - Prelude: C results ([result], [Ok]/[Err] of a negative errno), the
      early-return notations, fixed-width integers, tactics and hint bases.
    - Wire: byte buffers and the [bvb_wire_put_*]/[bvb_wire_get_*] helpers.
    - Abi: the enumerators of include/bvb as abbreviations; the constants of
      the Vulkan headers, which are not part of the repository, are the class
      [VulkanHeader], a parameter of every codec.
    - Codec: the contract of an encoder and its decoder as classes [Lawful],
      [Canonical] and [ErrorsByRole], and the tactics that discharge them.
    - ProtocolBase, ProtocolInstance, ProtocolDevice, ProtocolCommand,
      ProtocolResource, ProtocolSync, ProtocolSetup: the records of
      include/bvb/protocol.h and the validators, encoders and decoders of
      src/protocol.c for all 82 messages of fixed size, under their C names.
    - ProtocolRegistry: the list of all those messages, and the theorems that
      hold of each, proved against the classes of Codec.
    - Handle: src/handle.c, with the finite map a table stands for.
    - Lifecycle: src/lifecycle.c.
    - Activity: the Activity state machine of src/bridge_service.c
      ([token_matches], [apply_lifecycle_event],
      [handle_activity_connection]).
    - Shared: programs over shared memory, their interleavings and a
      rely-guarantee logic for them; the clock and futex helpers the three
      shared pages repeat.
    - FrameSync: src/frame_sync.c.
    - FrameRing: src/wsi_frame_ring.c.
    - DescriptorRing: the transactions of src/descriptor_transaction_ring.c.
    - DescriptorLease: the lease banks of the same file.
    - Transport: packets and descriptors over a stream socket
      (src/transport.c).  TransportTheorems: what arrives of what is sent,
      however the kernel serves the calls.
    - Window: parts of a buffer, loops over an index, arrays of fixed
      capacity.  Element: what is laid out at one place of a payload as a
      class [LawfulElement], and the loops that write and read an array of
      elements, proved once against it.
    - CommandTypes, CommandBase: the records and constants of
      include/bvb/command_batch.h and the static helpers of
      src/command_batch.c; the contract of one command, the class
      [Recorded]: what its append function writes, its case of
      [validate_payload] accepts, what that accepts is the encoding of what
      its decoder returns, and neither depends on anything outside the
      payload.
    - CommandElements, CommandArrays: the elements of commands and the
      tactics for their arrays.  CommandFixed, CommandTransfer,
      CommandBarrier, CommandState, CommandBindings: every command of the
      file, one [Recorded] instance each.
    - CommandDispatch: [validate_payload] and the union of all commands.
      CommandBatch: building, validating, iterating and copying a batch.
      CommandLayout: the bytes of a batch as a list of commands, and what
      each operation does to it.  CommandTheorems: the properties of batches.
    - StreamGeneration: the table of the last sequence number of every
      command buffer, of the same file.
    - Frame, Segments, MessagePlan: the contract of a message whose length
      varies ([framed], [LawfulFrame], [CanonicalFrame]), one array after the
      prefix, several arrays, arrays that are lists.  MessageLists,
      MessageData, MessageSubmit: such messages of src/protocol.c;
      DescriptorTypes, MessageDescriptor, MessageBinding:
      src/vulkan_descriptor_wire.c and the pipeline layout of
      src/vulkan_pipeline_wire.c.  MessageRegistry: the list of them and what
      holds of each.  MessageImage: the request that creates an image.
      MessageCreate: creation requests with names and features.
    - Backend: the object store of src/vulkan_global.c ([world]: the context
      and the log of the calls into the driver), the monad of its operations,
      and what the Vulkan specification requires of the handles in a log
      ([disciplined], [driver_after]).  BackendInvariant, BackendRules: the ownership
      invariant and one proof rule per primitive ([wp], [keeps]).
      BackendDriver: the promises of a driver ([ConformingDriver]) and a
      driver that keeps them.
    - BackendInstance, BackendDevice, BackendPhysical, BackendSync,
      BackendDescriptor, BackendPipeline, BackendMemory, BackendMirror,
      BackendImage, BackendCommand, BackendSubmit: the operations of
      src/vulkan_global.c, under their C names.
      MemoryMirror: the copy between a client's region and device memory.
      BackendService: any sequence of them, interleaved with the writes of
      the client and the device to shared memory.
    - StreamBase, StreamRecord, StreamReplay: recording single commands and
      validating and replaying command streams (src/vulkan_global.c);
      StreamSpec: what an acceptable stream is, independently of the loops;
      StreamTheorems: what a replay records; StreamSubmit: the streams of a
      submission ([replay_submit_command_streams] of src/bridge_service.c).
    - ServiceBase: packets, the frame every handler of src/bridge_service.c
      shares, and its specification: a [procedure] has the formats of its
      request and answer and an operation of the store.  ServiceHandlers,
      ServiceResources: the handlers, under their C names.  Service: the
      state of a connection and [serve_connection].  ServiceExample: a
      session the witnesses run.  ServiceCalls: every handler implements its
      procedure.  ServiceSafety: what holds of whole connections.

    ** How the models correspond to the code

    A C structure is a Record whose fields carry the structure's names behind
    a prefix; a field is a [Z] and [is_u32] and its siblings state its width;
    wrap-around is written [u32 _].  A function that returns 0 or a negative
    errno and writes through pointers is a function to [result]; a pointer
    that may be null is an [option] ([ptr]).  A function that changes a buffer
    in place takes and returns the buffer.  What the code leaves in an output
    object after it has failed is not modelled, except where a caller reads it
    (the cleared token of [bvb_lifecycle_token_from_hex]).  A [float] is its
    binary32 word with the comparisons of IEEE 754.  [malloc] is a boolean
    that tells whether it succeeds; a callback is a function argument.  A
    C array member is a list of its capacity; a pointer into a buffer is the
    rest of the buffer ([ptr_add]).

    A routine over a shared page is a [prog]: one [Act] for each atomic load,
    store or compare-exchange of the code, one [Sys] for each system call,
    whose answer is arbitrary.  The [__ATOMIC_ACQUIRE]/[__ATOMIC_RELEASE]
    accesses are modelled as sequentially consistent.  The [for (;;)] loops
    that wait take a number of [rounds], the iterations they are watched
    for, and yield [None] while they are still waiting; the theorems quantify
    over it, and [frame_sync_wait_times_out] shows that rounds enough for the
    wake-ups that happen give the C result.  Loops over slots and table
    positions recurse on the number of positions left, which the code's own
    bound supplies.

    ** What the theorems show

    - Messages (ProtocolRegistry): decode after encode is the identity; a
      decoder accepts only what its encoder writes; encodings are injective;
      an encoder changes nothing outside its record and a decoder's result
      depends on nothing else; every refusal has the documented code; every
      message fits the packet its header announces; the header test is
      characterised.
    - Packets (TransportTheorems): packets arrive as they were sent and in
      order, however the stream is cut and whenever either side stops; every
      descriptor that arrives is handed over or closed, once.
    - Batches: what a client builds the service reads back, whatever the
      commands; a batch the validator accepts is the one building it from the
      commands it reads as gives, every command is well formed and its counts
      fit the arrays a reader copies into; a submission's sequence numbers refine a finite map and none is
      accepted twice.
    - Handles: identifiers round trip; insertion, removal and lookup refine a
      finite map, tombstones and full tables included.
    - Activity: only authenticated records in order move the status, a
      record that creates an Activity starting it anew; other replays are
      refused; the status stays well formed.
    - Shared pages: invariants of any interleaving of any calls of the two
      processes, and what each call may rely on when it returns; exact
      results of calls that run undisturbed; waits end at their deadline.
    - Messages of varying length (MessageRegistry): the same, for whatever
      follows the message in the buffer it arrives in.
    - The object store (BackendService): whatever is asked for, every handle
      passed to the driver is alive, of the right kind and owned where it is
      destroyed; the driver owns what the store holds; the buffers of a mirror
      hold its range while its mapping lasts, and a mapping is only lost to a
      direct access to the same memory; a destroyed device leaves nothing
      behind.  An upload is the byte-wise merge of the
      client's changes (MemoryMirror).
    - Command streams (StreamSpec, StreamTheorems, StreamSubmit): the
      validator decides exactly the specification; what it accepts is
      replayed command for command; a submission replays all of its streams
      or none.
    - Connections (ServiceCalls, ServiceSafety): a remote call returns what
      the operation called directly would; whatever packets arrive, up to
      the first request for a handler outside the model, the handles given to
      the driver are used as above; the responses answer the requests in
      order; before the greeting there are only refusals.
    - Divergences: messages and commands whose encoder and decoder disagree
      ([binder_status_is_undecodable], [buffer_create_accepts_zero_usage],
      [transfer_filter_is_not_checked]).

    ** Fuel and bounds

    Loops whose count is in the code recurse on it ([for_loop], [loop_m],
    [for_records]); the scans of the object table recurse on its capacity.
    The three nested loops of an upload take fuel, and the length of the range
    is enough ([upload_is_the_byte_wise_merge]); so does reading a batch, and
    more fuel than commands is enough ([batch_round_trip]).  A loop over a
    socket recurses on how the kernel serves its calls, and blocks when no
    call is left; as many calls as bytes are enough ([packets_travel]).  [disciplined] is
    an inductive predicate on logs, and a connection is a list of what happens
    to it, so the theorems on them are inductions without fuel.

    ** What is not modelled

    The client layer (src/global_dispatch.c), which marshals each entry point
    of Vulkan; listening, connecting and peer credentials
    (src/transport.c); the Android host application, the
    self-tests, probes, diagnostics and demo programs.  Of src/vulkan_global.c:
    swapchains, acquire and present, the creation of graphics pipelines, the
    destruction of the context, and the queries of a physical device whose
    results only pass through.  Of src/bridge_service.c: their handlers, the
    descriptor journal and the worker of the descriptor transactions, and the
    self-tests; [serve_connection] ends without a status when a request is for
    one of them ([outside_opcodes]).  What a valid call is ([allowed]) speaks
    of handles: that memory is mapped once, and that a command buffer is
    recording when it is recorded to, are not tracked, and the service does
    not ensure them.  A read past the end of a buffer gives a default byte:
    the theorems on parsers and validators are about their results, not about
    which bytes they touch.  Timings and profiles, and the text of
    diagnostics, have no effect on what is modelled. *)

From stdpp Require Export base tactics list numbers option.
From Stdlib Require Export ZArith Lia Bool Strings.Byte.

#[global] Open Scope Z_scope.

(** ** C results

    Every function of the bridge that can fail returns [0] or a negative
    errno value.  A model returns [Ok] of what the function wrote through
    its output pointers, or [Err] of the code it returned. *)
Inductive result (A : Type) : Type :=
| Ok (a : A)
| Err (code : Z).
Arguments Ok {A} a.
Arguments Err {A} code.

#[export] Instance result_ret : MRet result := fun A a => Ok a.
#[export] Instance result_bind : MBind result := fun A B f m =>
  match m with Ok a => f a | Err e => Err e end.
#[export] Instance result_fmap : FMap result := fun A B f m =>
  match m with Ok a => Ok (f a) | Err e => Err e end.

Definition is_ok {A} (r : result A) : bool :=
  match r with Ok _ => true | Err _ => false end.

#[export] Instance result_eq_dec {A} `{EqDecision A} : EqDecision (result A).
Proof. solve_decision. Defined.

(** A pointer argument: [None] is [NULL]. *)
Abbreviation ptr := option.

Declare Scope c_scope.
Delimit Scope c_scope with c.
#[global] Open Scope c_scope.

(** [fail_if c e ;; k] is [if (c) return e;] followed by [k]. *)
Notation "'fail_if' c 'with' e ;; k" :=
  (if c then Err e else k)
  (at level 100, c at level 99, e at level 99, k at level 200,
   format "'[v' 'fail_if'  c  'with'  e ;; '/' k ']'") : c_scope.

(** [deref x := p or e ;; k] is the test [p == NULL], returning [e] then. *)
Notation "'deref' x ':=' p 'or' e ;; k" :=
  (match p with Some x => k | None => Err e end)
  (at level 100, x binder, p at level 99, e at level 99, k at level 200,
   format "'[v' 'deref'  x  ':='  p  'or'  e ;; '/' k ']'") : c_scope.

(** [call x := m or e ;; k] runs a fallible function and returns [e] if it
    fails; [try x := m ;; k] returns the code it failed with. *)
Notation "'call' x ':=' m 'or' e ;; k" :=
  (match m with Ok x => k | Err _ => Err e end)
  (at level 100, x binder, m at level 99, e at level 99, k at level 200,
   format "'[v' 'call'  x  ':='  m  'or'  e ;; '/' k ']'") : c_scope.
Notation "'try' x ':=' m ;; k" :=
  (match m with Ok x => k | Err e => Err e end)
  (at level 100, x binder, m at level 99, k at level 200,
   format "'[v' 'try'  x  ':='  m ;; '/' k ']'") : c_scope.

(** The same test in a predicate, which returns [d] for [NULL]. *)
Notation "'deref_bool' x ':=' p 'or' d ;; k" :=
  (match p with Some x => k | None => d end)
  (at level 100, x binder, p at level 99, d at level 99, k at level 200,
   only parsing) : c_scope.

(** ** errno values (Linux) *)
Definition ENOENT : Z := 2.
Definition EIO : Z := 5.
Definition EAGAIN : Z := 11.
Definition ENOMEM : Z := 12.
Definition EBUSY : Z := 16.
Definition EEXIST : Z := 17.
Definition E2BIG : Z := 7.
Definition EINVAL : Z := 22.
Definition ENOSPC : Z := 28.
Definition ERANGE : Z := 34.
Definition EPROTO : Z := 71.
Definition EOVERFLOW : Z := 75.
Definition EMSGSIZE : Z := 90.
Definition ETIMEDOUT : Z := 110.
Definition ESTALE : Z := 116.

(** ** Fixed-width integers

    A C unsigned integer of width [w] is a [Z] in [[0, 2^w)]; conversions
    and arithmetic wrap with [u8], [u16], [u32] and [u64], signed ones with
    [i32] (two's complement, as gcc and clang define it). *)
Definition u8 (z : Z) : Z := z mod 2 ^ 8.
Definition u16 (z : Z) : Z := z mod 2 ^ 16.
Definition u32 (z : Z) : Z := z mod 2 ^ 32.
Definition u64 (z : Z) : Z := z mod 2 ^ 64.
Definition i32 (z : Z) : Z :=
  let m := z mod 2 ^ 32 in if m <? 2 ^ 31 then m else m - 2 ^ 32.

Definition UINT32_MAX : Z := 2 ^ 32 - 1.
Definition UINT64_MAX : Z := 2 ^ 64 - 1.
Definition INT64_MAX : Z := 2 ^ 63 - 1.

Definition is_u8 (z : Z) : bool := (0 <=? z) && (z <? 2 ^ 8).
Definition is_u16 (z : Z) : bool := (0 <=? z) && (z <? 2 ^ 16).
Definition is_u32 (z : Z) : bool := (0 <=? z) && (z <? 2 ^ 32).
Definition is_u64 (z : Z) : bool := (0 <=? z) && (z <? 2 ^ 64).
Definition is_i32 (z : Z) : bool := (- 2 ^ 31 <=? z) && (z <? 2 ^ 31).

Lemma is_u8_spec z : is_u8 z = true <-> 0 <= z < 2 ^ 8.
Proof. unfold is_u8. lia. Qed.
Lemma is_u16_spec z : is_u16 z = true <-> 0 <= z < 2 ^ 16.
Proof. unfold is_u16. lia. Qed.
Lemma is_u32_spec z : is_u32 z = true <-> 0 <= z < 2 ^ 32.
Proof. unfold is_u32. lia. Qed.
Lemma is_u64_spec z : is_u64 z = true <-> 0 <= z < 2 ^ 64.
Proof. unfold is_u64. lia. Qed.
Lemma is_i32_spec z : is_i32 z = true <-> - 2 ^ 31 <= z < 2 ^ 31.
Proof. unfold is_i32. lia. Qed.

Lemma u8_small z : is_u8 z = true -> u8 z = z.
Proof. rewrite is_u8_spec. apply Z.mod_small. Qed.
Lemma u16_small z : is_u16 z = true -> u16 z = z.
Proof. rewrite is_u16_spec. apply Z.mod_small. Qed.
Lemma u32_small z : is_u32 z = true -> u32 z = z.
Proof. rewrite is_u32_spec. apply Z.mod_small. Qed.
Lemma u64_small z : is_u64 z = true -> u64 z = z.
Proof. rewrite is_u64_spec. apply Z.mod_small. Qed.

Lemma is_u32_u32 z : is_u32 (u32 z) = true.
Proof. apply is_u32_spec, Z.mod_pos_bound. lia. Qed.

Lemma i32_range z : is_i32 (i32 z) = true.
Proof.
  apply is_i32_spec. unfold i32.
  pose proof (Z.mod_pos_bound z (2 ^ 32)). case_match; lia.
Qed.

Lemma i32_u32 z : is_i32 z = true -> i32 (u32 z) = z.
Proof.
  rewrite is_i32_spec. intros Hz. unfold i32, u32.
  rewrite Z.mod_mod by lia.
  destruct (decide (0 <= z)).
  - rewrite Z.mod_small by lia. case_match; lia.
  - replace (z mod 2 ^ 32) with (z + 2 ^ 32); [case_match; lia|].
    apply Z.mod_unique_pos with (q := -1); lia.
Qed.

Lemma u32_i32 z : is_u32 z = true -> u32 (i32 z) = z.
Proof.
  rewrite is_u32_spec. intros Hz. unfold i32, u32.
  rewrite (Z.mod_small z) by lia. case_match; [by rewrite Z.mod_small by lia|].
  symmetry. apply Z.mod_unique_pos with (q := -1); lia.
Qed.

(** Bitwise facts used by the byte-order and handle code. *)
Lemma lor_shiftl_add a b n :
  0 <= n -> 0 <= a < 2 ^ n -> Z.lor a (Z.shiftl b n) = a + b * 2 ^ n.
Proof.
  intros Hn Ha. rewrite Z.shiftl_mul_pow2 by done.
  assert (Hland : Z.land a (b * 2 ^ n) = 0).
  { apply Z.bits_inj'. intros i Hi. rewrite Z.land_spec, Z.bits_0.
    destruct (decide (i < n)).
    - rewrite Z.mul_pow2_bits_low by lia. apply andb_false_r.
    - rewrite <- (Z.mod_small a (2 ^ n)) by done.
      by rewrite Z.mod_pow2_bits_high by lia. }
  pose proof (Z.add_lor_land a (b * 2 ^ n)). lia.
Qed.

Lemma land_ones_mod a n : 0 <= n -> Z.land a (2 ^ n - 1) = a mod 2 ^ n.
Proof.
  intros. rewrite <- Z.land_ones by done. by rewrite Z.ones_equiv.
Qed.

(** ** Tactics of the development *)

(** Turn every boolean test among the hypotheses into a proposition. *)
Ltac bool_hyps :=
  repeat match goal with
  | H : _ && _ = true |- _ => apply andb_true_iff in H as [? ?]
  | H : _ || _ = false |- _ => apply orb_false_iff in H as [? ?]
  | H : negb _ = true |- _ => apply negb_true_iff in H
  | H : negb _ = false |- _ => apply negb_false_iff in H
  end.

(** Decide every integer comparison of the goal. *)
Ltac case_cmp :=
  repeat match goal with
  | |- context [?a =? ?b] => destruct (Z.eqb_spec a b); try lia
  | |- context [?a <? ?b] => destruct (Z.ltb_spec a b); try lia
  | |- context [?a <=? ?b] => destruct (Z.leb_spec a b); try lia
  end.

(** Case analysis on the first test a function makes. *)
Ltac split_guard :=
  match goal with
  | |- context [if ?c then _ else _] =>
      let E := fresh "Hguard" in destruct c eqn:E
  | H : context [if ?c then _ else _] |- _ =>
      let E := fresh "Hguard" in destruct c eqn:E
  end.

Create HintDb bvb.
#[export] Hint Resolve i32_range is_u32_u32 : bvb.
