(* ===== verification/Wire.v ===== *)
(** * Wire: byte buffers and the fixed-width little-endian primitives

    Models [bvb_wire_put_*] and [bvb_wire_get_*] of src/protocol.c (the same
    static helpers are repeated in src/lifecycle.c).  A [uint8_t *] buffer is
    the list of the bytes it points to; an index is the [Z] added to the
    pointer.  The lemmas give the algebra the codecs are proved with: what a
    read returns after a write, at the same place, at a disjoint place and in
    a cleared region, and that a buffer is determined by its words. *)

From S2P Require Import Prelude.

Abbreviation bytes := (list byte).

(** ** Bytes *)

#[export] Instance byte_eq_dec : EqDecision byte := Byte.byte_eq_dec.

(** The conversion of an integer to [uint8_t]. *)
Definition byte_of_Z (z : Z) : byte :=
  match Byte.of_N (Z.to_N (u8 z)) with Some b => b | None => x00 end.
Definition Z_of_byte (b : byte) : Z := Z.of_N (Byte.to_N b).

(** [b[i]] and [b[i] = v]. *)
Definition rd8 (b : bytes) (i : Z) : Z :=
  Z_of_byte (nth (Z.to_nat i) b x00).
Definition wr8 (b : bytes) (i v : Z) : bytes :=
  <[Z.to_nat i := byte_of_Z v]> b.

(** [memcpy(b + i, src, length of src)], [memset(b + i, 0, n)], and the [n]
    bytes at [b + i]. *)
Definition wr_bytes (b : bytes) (i : Z) (src : bytes) : bytes :=
  list_inserts (Z.to_nat i) src b.
Definition memset0 (b : bytes) (i n : Z) : bytes :=
  wr_bytes b i (replicate (Z.to_nat n) x00).
Definition rd_bytes (b : bytes) (i n : Z) : bytes :=
  take (Z.to_nat n) (drop (Z.to_nat i) b).

Definition blen (b : bytes) : Z := Z.of_nat (length b).

(** ** The primitives of src/protocol.c *)

Definition bvb_wire_put_u16 (output : bytes) (i value : Z) : bytes :=
  let output := wr8 output i (Z.land value 255) in
  wr8 output (i + 1) (Z.shiftr value 8).

Definition bvb_wire_put_u32 (output : bytes) (i value : Z) : bytes :=
  let output := wr8 output i (Z.land value 255) in
  let output := wr8 output (i + 1) (Z.land (Z.shiftr value 8) 255) in
  let output := wr8 output (i + 2) (Z.land (Z.shiftr value 16) 255) in
  wr8 output (i + 3) (Z.shiftr value 24).

Definition bvb_wire_put_i32 (output : bytes) (i value : Z) : bytes :=
  bvb_wire_put_u32 output i (u32 value).

Definition bvb_wire_put_u64 (output : bytes) (i value : Z) : bytes :=
  let output := bvb_wire_put_u32 output i (u32 value) in
  bvb_wire_put_u32 output (i + 4) (u32 (Z.shiftr value 32)).

Definition bvb_wire_get_u16 (input : bytes) (i : Z) : Z :=
  u16 (Z.lor (rd8 input i) (Z.shiftl (rd8 input (i + 1)) 8)).

Definition bvb_wire_get_u32 (input : bytes) (i : Z) : Z :=
  Z.lor (Z.lor (Z.lor (rd8 input i) (Z.shiftl (rd8 input (i + 1)) 8))
               (Z.shiftl (rd8 input (i + 2)) 16))
        (Z.shiftl (rd8 input (i + 3)) 24).

Definition bvb_wire_get_i32 (input : bytes) (i : Z) : Z :=
  i32 (bvb_wire_get_u32 input i).

Definition bvb_wire_get_u64 (input : bytes) (i : Z) : Z :=
  Z.lor (bvb_wire_get_u32 input i)
        (Z.shiftl (bvb_wire_get_u32 input (i + 4)) 32).

(** ** Byte lemmas *)

Lemma Z_of_byte_range b : 0 <= Z_of_byte b < 2 ^ 8.
Proof.
  unfold Z_of_byte. pose proof (Byte.to_N_bounded b). lia.
Qed.

Lemma Z_of_byte_of_Z z : Z_of_byte (byte_of_Z z) = u8 z.
Proof.
  unfold Z_of_byte, byte_of_Z, u8.
  pose proof (Z.mod_pos_bound z (2 ^ 8) eq_refl) as Hr.
  destruct (Byte.of_N (Z.to_N (z mod 2 ^ 8))) as [b|] eqn:E.
  - apply Byte.to_of_N in E. lia.
  - apply Byte.of_N_None_iff in E. lia.
Qed.

Lemma byte_of_Z_of_byte b : byte_of_Z (Z_of_byte b) = b.
Proof.
  unfold byte_of_Z, Z_of_byte, u8.
  pose proof (Byte.to_N_bounded b).
  rewrite Z.mod_small by lia. by rewrite N2Z.id, Byte.of_to_N.
Qed.

Lemma Z_of_byte_inj a b : Z_of_byte a = Z_of_byte b -> a = b.
Proof.
  intros H. by rewrite <- (byte_of_Z_of_byte a), H, byte_of_Z_of_byte.
Qed.

Lemma rd8_range b i : 0 <= rd8 b i < 2 ^ 8.
Proof. apply Z_of_byte_range. Qed.

Lemma rd8_lookup b i x : b !! Z.to_nat i = Some x -> rd8 b i = Z_of_byte x.
Proof. intros H. unfold rd8. by rewrite (nth_lookup_Some _ _ _ _ H). Qed.

Lemma rd8_ext a b :
  length a = length b ->
  (forall i, 0 <= i < blen a -> rd8 a i = rd8 b i) -> a = b.
Proof.
  intros Hl H. apply (nth_ext _ _ x00 x00 Hl). intros n Hn.
  apply Z_of_byte_inj. specialize (H (Z.of_nat n)).
  unfold rd8, blen in H. rewrite Nat2Z.id in H. apply H. lia.
Qed.

(** ** Lengths *)

Lemma blen_nonneg b : 0 <= blen b.
Proof. unfold blen. lia. Qed.

Lemma blen_wr8 b i v : blen (wr8 b i v) = blen b.
Proof. unfold blen, wr8. by rewrite length_insert. Qed.

Lemma blen_wr_bytes b i l : blen (wr_bytes b i l) = blen b.
Proof. unfold blen, wr_bytes. by rewrite length_inserts. Qed.

Lemma blen_memset0 b i n : blen (memset0 b i n) = blen b.
Proof. apply blen_wr_bytes. Qed.

Lemma blen_put_u16 b i v : blen (bvb_wire_put_u16 b i v) = blen b.
Proof. unfold bvb_wire_put_u16. by rewrite !blen_wr8. Qed.

Lemma blen_put_u32 b i v : blen (bvb_wire_put_u32 b i v) = blen b.
Proof. unfold bvb_wire_put_u32. by rewrite !blen_wr8. Qed.

Lemma blen_put_i32 b i v : blen (bvb_wire_put_i32 b i v) = blen b.
Proof. apply blen_put_u32. Qed.

Lemma blen_put_u64 b i v : blen (bvb_wire_put_u64 b i v) = blen b.
Proof. unfold bvb_wire_put_u64. by rewrite !blen_put_u32. Qed.

Lemma blen_rd_bytes b i n :
  0 <= i -> 0 <= n -> i + n <= blen b -> blen (rd_bytes b i n) = n.
Proof.
  intros. unfold blen, rd_bytes in *.
  rewrite length_take, length_drop. lia.
Qed.

Create Rewrite HintDb blen.
#[export] Hint Rewrite blen_wr8 blen_wr_bytes blen_memset0 blen_put_u16
  blen_put_u32 blen_put_i32 blen_put_u64 : blen.

(** ** Single-byte reads after writes *)

Lemma rd8_wr8 b i v j :
  0 <= i < blen b -> 0 <= j ->
  rd8 (wr8 b i v) j = if i =? j then u8 v else rd8 b j.
Proof.
  intros Hi Hj. unfold blen in Hi. unfold wr8. destruct (Z.eqb_spec i j) as [->|Hne].
  - rewrite (rd8_lookup _ _ (byte_of_Z v)); [apply Z_of_byte_of_Z|].
    apply list_lookup_insert_eq. lia.
  - unfold rd8. f_equal.
    rewrite !nth_lookup. rewrite list_lookup_insert_ne; [done|lia].
Qed.

Lemma rd8_wr8_ne b i v j :
  0 <= i -> 0 <= j -> i <> j -> rd8 (wr8 b i v) j = rd8 b j.
Proof.
  intros. unfold rd8, wr8. f_equal. rewrite !nth_lookup.
  rewrite list_lookup_insert_ne; [done|lia].
Qed.

Lemma rd8_wr_bytes_in b i l j :
  0 <= i -> i + blen l <= blen b -> i <= j < i + blen l ->
  rd8 (wr_bytes b i l) j = rd8 l (j - i).
Proof.
  unfold blen. intros Hi Hl Hj. unfold rd8, wr_bytes. f_equal.
  rewrite !nth_lookup. f_equal.
  rewrite list_lookup_inserts by lia. f_equal. lia.
Qed.

Lemma rd8_wr_bytes_out b i l j :
  0 <= i -> 0 <= j -> (j < i \/ i + blen l <= j) ->
  rd8 (wr_bytes b i l) j = rd8 b j.
Proof.
  unfold blen. intros Hi Hj0 Hj. unfold rd8, wr_bytes. f_equal.
  rewrite !nth_lookup. f_equal. destruct Hj.
  - apply list_lookup_inserts_lt. lia.
  - apply list_lookup_inserts_ge. lia.
Qed.

Lemma rd8_replicate0 n j : rd8 (replicate n x00) j = 0.
Proof.
  unfold rd8. revert n. induction (Z.to_nat j) as [|k IH]; intros [|n]; simpl;
    try done; apply IH.
Qed.

Lemma rd8_memset0 b i n j :
  0 <= i -> 0 <= n -> i + n <= blen b -> i <= j < i + n ->
  rd8 (memset0 b i n) j = 0.
Proof.
  intros. unfold memset0. rewrite rd8_wr_bytes_in.
  - apply rd8_replicate0.
  - done.
  - unfold blen in *. rewrite length_replicate. lia.
  - unfold blen. rewrite length_replicate. lia.
Qed.

Lemma rd8_memset0_out b i n j :
  0 <= i -> 0 <= n -> 0 <= j -> (j < i \/ i + n <= j) ->
  rd8 (memset0 b i n) j = rd8 b j.
Proof.
  intros. unfold memset0. apply rd8_wr_bytes_out; [done|done|].
  unfold blen. rewrite length_replicate. lia.
Qed.

(** ** Words as sums of bytes *)

Lemma get_u16_sum b i :
  bvb_wire_get_u16 b i = rd8 b i + rd8 b (i + 1) * 2 ^ 8.
Proof.
  unfold bvb_wire_get_u16, u16.
  pose proof (rd8_range b i). pose proof (rd8_range b (i + 1)).
  rewrite lor_shiftl_add by lia. apply Z.mod_small. lia.
Qed.

Lemma get_u32_sum b i :
  bvb_wire_get_u32 b i =
  rd8 b i + rd8 b (i + 1) * 2 ^ 8 + rd8 b (i + 2) * 2 ^ 16 +
  rd8 b (i + 3) * 2 ^ 24.
Proof.
  unfold bvb_wire_get_u32.
  pose proof (rd8_range b i). pose proof (rd8_range b (i + 1)).
  pose proof (rd8_range b (i + 2)).
  rewrite (lor_shiftl_add (rd8 b i)) by lia.
  rewrite (lor_shiftl_add (rd8 b i + _)) by lia.
  by rewrite lor_shiftl_add by lia.
Qed.

Lemma get_u16_range b i : is_u16 (bvb_wire_get_u16 b i) = true.
Proof. apply is_u16_spec. unfold bvb_wire_get_u16. apply Z.mod_pos_bound. lia. Qed.

Lemma get_u32_range b i : is_u32 (bvb_wire_get_u32 b i) = true.
Proof.
  apply is_u32_spec. rewrite get_u32_sum.
  pose proof (rd8_range b i). pose proof (rd8_range b (i + 1)).
  pose proof (rd8_range b (i + 2)). pose proof (rd8_range b (i + 3)). lia.
Qed.

Lemma get_u64_sum b i :
  bvb_wire_get_u64 b i =
  bvb_wire_get_u32 b i + bvb_wire_get_u32 b (i + 4) * 2 ^ 32.
Proof.
  pose proof (proj1 (is_u32_spec _) (get_u32_range b i)).
  unfold bvb_wire_get_u64. by rewrite lor_shiftl_add by lia.
Qed.

Lemma get_u64_range b i : is_u64 (bvb_wire_get_u64 b i) = true.
Proof.
  apply is_u64_spec. rewrite get_u64_sum.
  pose proof (proj1 (is_u32_spec _) (get_u32_range b i)).
  pose proof (proj1 (is_u32_spec _) (get_u32_range b (i + 4))). lia.
Qed.

Lemma get_i32_range b i : is_i32 (bvb_wire_get_i32 b i) = true.
Proof. apply i32_range. Qed.

#[export] Hint Resolve get_u16_range get_u32_range get_u64_range
  get_i32_range : bvb.

(** ** Bytes stored by the writers *)

Lemma rd8_put_u16 b i v k :
  0 <= i -> i + 2 <= blen b -> 0 <= k < 2 ->
  rd8 (bvb_wire_put_u16 b i v) (i + k) = u8 (Z.shiftr v (8 * k)).
Proof.
  intros Hi Hl Hk. unfold bvb_wire_put_u16.
  rewrite !rd8_wr8 by (autorewrite with blen; lia).
  change 255 with (2 ^ 8 - 1). rewrite !land_ones_mod by done. unfold u8.
  assert (k = 0 \/ k = 1) as [-> | ->] by lia;
    case_cmp;
    rewrite ?Z.mod_mod, ?Z.shiftr_0_r by lia; done.
Qed.

Lemma rd8_put_u32 b i v k :
  0 <= i -> i + 4 <= blen b -> 0 <= k < 4 ->
  rd8 (bvb_wire_put_u32 b i v) (i + k) = u8 (Z.shiftr v (8 * k)).
Proof.
  intros Hi Hl Hk. unfold bvb_wire_put_u32.
  rewrite !rd8_wr8 by (autorewrite with blen; lia).
  change 255 with (2 ^ 8 - 1). rewrite !land_ones_mod by done. unfold u8.
  assert (k = 0 \/ k = 1 \/ k = 2 \/ k = 3) as [-> | [-> | [-> | ->]]] by lia;
    case_cmp;
    rewrite ?Z.mod_mod, ?Z.shiftr_0_r by lia; done.
Qed.

(** ** Regions

    [agree a b j n]: the two buffers hold the same [n] bytes at [j].  Every
    reader is determined by the region it reads, and every writer leaves the
    bytes outside its own region alone. *)
Definition agree (a b : bytes) (j n : Z) : Prop :=
  forall k, j <= k < j + n -> rd8 a k = rd8 b k.

Lemma agree_refl a j n : agree a a j n.
Proof. by intros k _. Qed.

Lemma agree_sym a b j n : agree a b j n -> agree b a j n.
Proof. intros H k Hk. symmetry. by apply H. Qed.

Lemma agree_trans a b c j n : agree a b j n -> agree b c j n -> agree a c j n.
Proof. intros H1 H2 k Hk. rewrite H1 by done. by apply H2. Qed.

Lemma agree_sub a b j n j' n' :
  agree a b j n -> j <= j' -> j' + n' <= j + n -> agree a b j' n'.
Proof. intros H ?? k Hk. apply H. lia. Qed.

Lemma agree_join a b j n m :
  agree a b j n -> agree a b (j + n) m -> agree a b j (n + m).
Proof.
  intros H1 H2 k Hk. destruct (decide (k < j + n)); [apply H1|apply H2]; lia.
Qed.

Lemma agree_eq a b : blen a = blen b -> agree a b 0 (blen a) -> a = b.
Proof.
  unfold blen. intros Hl H. apply rd8_ext; [lia|].
  intros i Hi. apply H. unfold blen in Hi. lia.
Qed.

(** Disjointness of [[i, i+w)] and [[j, j+n)]. *)
Definition disjoint (i w j n : Z) : Prop :=
  0 <= i /\ 0 <= j /\ (j + n <= i \/ i + w <= j).

Lemma agree_put_u16 b i v j n :
  disjoint i 2 j n -> agree (bvb_wire_put_u16 b i v) b j n.
Proof.
  intros [? ?] k Hk. unfold bvb_wire_put_u16. rewrite !rd8_wr8_ne by lia. done.
Qed.

Lemma agree_put_u32 b i v j n :
  disjoint i 4 j n -> agree (bvb_wire_put_u32 b i v) b j n.
Proof.
  intros [? ?] k Hk. unfold bvb_wire_put_u32. rewrite !rd8_wr8_ne by lia. done.
Qed.

Lemma agree_put_i32 b i v j n :
  disjoint i 4 j n -> agree (bvb_wire_put_i32 b i v) b j n.
Proof. apply agree_put_u32. Qed.

Lemma agree_put_u64 b i v j n :
  disjoint i 8 j n -> agree (bvb_wire_put_u64 b i v) b j n.
Proof.
  intros [? ?]. unfold bvb_wire_put_u64.
  eapply agree_trans; apply agree_put_u32; unfold disjoint; lia.
Qed.

Lemma agree_wr_bytes b i l j n :
  disjoint i (blen l) j n -> agree (wr_bytes b i l) b j n.
Proof. intros [? ?] k Hk. apply rd8_wr_bytes_out; lia. Qed.

Lemma agree_memset0 b i w j n :
  0 <= w -> disjoint i w j n -> agree (memset0 b i w) b j n.
Proof. intros ? [? ?] k Hk. apply rd8_memset0_out; lia. Qed.

Lemma rd_bytes_lookup b j n k :
  0 <= j -> 0 <= k < n -> rd8 (rd_bytes b j n) k = rd8 b (j + k).
Proof.
  intros. unfold rd8, rd_bytes. f_equal. rewrite !nth_lookup.
  rewrite lookup_take_lt by lia. rewrite lookup_drop. do 2 f_equal. lia.
Qed.

Lemma get_u16_agree a b j :
  agree a b j 2 -> bvb_wire_get_u16 a j = bvb_wire_get_u16 b j.
Proof. intros H. rewrite !get_u16_sum, !H by lia. done. Qed.

Lemma get_u32_agree a b j :
  agree a b j 4 -> bvb_wire_get_u32 a j = bvb_wire_get_u32 b j.
Proof. intros H. rewrite !get_u32_sum, !H by lia. done. Qed.

Lemma get_i32_agree a b j :
  agree a b j 4 -> bvb_wire_get_i32 a j = bvb_wire_get_i32 b j.
Proof. intros H. unfold bvb_wire_get_i32. by rewrite (get_u32_agree a b). Qed.

Lemma get_u64_agree a b j :
  agree a b j 8 -> bvb_wire_get_u64 a j = bvb_wire_get_u64 b j.
Proof.
  intros H. unfold bvb_wire_get_u64.
  rewrite !(get_u32_agree a b); [done|eapply agree_sub; [apply H|lia|lia]..].
Qed.

Lemma rd_bytes_agree a b j n :
  0 <= j -> 0 <= n -> j + n <= blen a -> j + n <= blen b ->
  agree a b j n -> rd_bytes a j n = rd_bytes b j n.
Proof.
  intros ?? Ha Hb H.
  pose proof (blen_rd_bytes a j n). pose proof (blen_rd_bytes b j n).
  apply rd8_ext; [unfold blen in *; lia|].
  intros k Hk. rewrite !rd_bytes_lookup by lia. apply H. lia.
Qed.

(** ** Reading back what was written *)

Lemma get_u16_put_u16 b i v :
  0 <= i -> i + 2 <= blen b -> is_u16 v = true ->
  bvb_wire_get_u16 (bvb_wire_put_u16 b i v) i = v.
Proof.
  rewrite is_u16_spec. intros. rewrite get_u16_sum.
  rewrite <- (Z.add_0_r i) at 2. rewrite !rd8_put_u16 by lia.
  rewrite !Z.shiftr_div_pow2 by lia. unfold u8.
  change (2 ^ (8 * 0)) with 1. change (2 ^ (8 * 1)) with 256.
  Z.to_euclidean_division_equations. lia.
Qed.

Lemma get_u32_put_u32_raw b i v :
  0 <= i -> i + 4 <= blen b ->
  bvb_wire_get_u32 (bvb_wire_put_u32 b i v) i = u32 v.
Proof.
  intros. rewrite get_u32_sum.
  rewrite <- (Z.add_0_r i) at 2. rewrite !rd8_put_u32 by lia.
  rewrite !Z.shiftr_div_pow2 by lia. unfold u8, u32.
  change (2 ^ (8 * 0)) with 1. change (2 ^ (8 * 1)) with 256.
  change (2 ^ (8 * 2)) with 65536. change (2 ^ (8 * 3)) with 16777216.
  Z.to_euclidean_division_equations. lia.
Qed.

Lemma get_u32_put_u32 b i v :
  0 <= i -> i + 4 <= blen b -> is_u32 v = true ->
  bvb_wire_get_u32 (bvb_wire_put_u32 b i v) i = v.
Proof. intros. rewrite get_u32_put_u32_raw by done. by apply u32_small. Qed.

Lemma get_i32_put_i32 b i v :
  0 <= i -> i + 4 <= blen b -> is_i32 v = true ->
  bvb_wire_get_i32 (bvb_wire_put_i32 b i v) i = v.
Proof.
  intros. unfold bvb_wire_get_i32, bvb_wire_put_i32.
  rewrite get_u32_put_u32 by auto with bvb. by apply i32_u32.
Qed.

Lemma get_u32_put_i32 b i v :
  0 <= i -> i + 4 <= blen b ->
  bvb_wire_get_u32 (bvb_wire_put_i32 b i v) i = u32 v.
Proof. intros. apply get_u32_put_u32; auto with bvb. Qed.

Lemma u32_get_i32 b i : u32 (bvb_wire_get_i32 b i) = bvb_wire_get_u32 b i.
Proof. apply u32_i32. auto with bvb. Qed.

(** The two halves of a 64-bit field. *)
Lemma u32_lo_get_u64 b i : u32 (bvb_wire_get_u64 b i) = bvb_wire_get_u32 b i.
Proof.
  pose proof (proj1 (is_u32_spec _) (get_u32_range b i)).
  rewrite get_u64_sum. unfold u32. rewrite Z.mod_add by lia.
  apply Z.mod_small. lia.
Qed.

Lemma u32_hi_get_u64 b i :
  u32 (Z.shiftr (bvb_wire_get_u64 b i) 32) = bvb_wire_get_u32 b (i + 4).
Proof.
  pose proof (proj1 (is_u32_spec _) (get_u32_range b i)).
  pose proof (proj1 (is_u32_spec _) (get_u32_range b (i + 4))).
  rewrite get_u64_sum, Z.shiftr_div_pow2 by lia.
  rewrite Z.div_add, Z.div_small by lia. apply Z.mod_small. lia.
Qed.

Lemma get_lo_put_u64 b i v :
  0 <= i -> i + 8 <= blen b ->
  bvb_wire_get_u32 (bvb_wire_put_u64 b i v) i = u32 v.
Proof.
  intros. unfold bvb_wire_put_u64.
  rewrite (get_u32_agree _ (bvb_wire_put_u32 b i (u32 v))).
  - apply get_u32_put_u32; [done|lia|auto with bvb].
  - apply agree_put_u32. unfold disjoint. lia.
Qed.

Lemma get_hi_put_u64 b i v j :
  0 <= i -> i + 8 <= blen b -> j = i + 4 ->
  bvb_wire_get_u32 (bvb_wire_put_u64 b i v) j = u32 (Z.shiftr v 32).
Proof.
  intros ?? ->. unfold bvb_wire_put_u64.
  apply get_u32_put_u32; [lia|autorewrite with blen; lia|auto with bvb].
Qed.

Lemma get_u64_put_u64 b i v :
  0 <= i -> i + 8 <= blen b -> is_u64 v = true ->
  bvb_wire_get_u64 (bvb_wire_put_u64 b i v) i = v.
Proof.
  rewrite is_u64_spec. intros. rewrite get_u64_sum, get_lo_put_u64 by done.
  rewrite (get_hi_put_u64 b i v) by lia. unfold u32.
  rewrite Z.shiftr_div_pow2 by done.
  Z.to_euclidean_division_equations. lia.
Qed.

Lemma rd_bytes_wr_bytes b i l n :
  0 <= i -> i + blen l <= blen b -> n = blen l ->
  rd_bytes (wr_bytes b i l) i n = l.
Proof.
  intros Hi Hl ->. pose proof (blen_nonneg l).
  pose proof (blen_rd_bytes (wr_bytes b i l) i (blen l)) as HL.
  rewrite blen_wr_bytes in HL. specialize (HL Hi H Hl).
  apply rd8_ext; [unfold blen in *; lia|]. intros k Hk.
  rewrite rd_bytes_lookup by lia. rewrite rd8_wr_bytes_in by lia.
  f_equal. lia.
Qed.

Lemma rd_bytes_all t n : blen t = n -> rd_bytes t 0 n = t.
Proof.
  unfold rd_bytes, blen. intros <-. rewrite Nat2Z.id. simpl.
  by rewrite drop_0, firstn_all.
Qed.

Lemma get_u32_memset0 b i n j :
  0 <= i -> i + n <= blen b -> i <= j -> j + 4 <= i + n ->
  bvb_wire_get_u32 (memset0 b i n) j = 0.
Proof. intros. rewrite get_u32_sum, !rd8_memset0 by lia. done. Qed.

Lemma get_u16_memset0 b i n j :
  0 <= i -> i + n <= blen b -> i <= j -> j + 2 <= i + n ->
  bvb_wire_get_u16 (memset0 b i n) j = 0.
Proof. intros. rewrite get_u16_sum, !rd8_memset0 by lia. done. Qed.

Lemma get_u64_memset0 b i n j :
  0 <= i -> i + n <= blen b -> i <= j -> j + 8 <= i + n ->
  bvb_wire_get_u64 (memset0 b i n) j = 0.
Proof. intros. rewrite get_u64_sum, !get_u32_memset0 by lia. done. Qed.

(** ** Buffers are determined by their words *)

Lemma get_u16_rd8 a b i :
  bvb_wire_get_u16 a i = bvb_wire_get_u16 b i -> agree a b i 2.
Proof.
  rewrite !get_u16_sum. intros E k Hk.
  pose proof (rd8_range a i). pose proof (rd8_range a (i + 1)).
  pose proof (rd8_range b i). pose proof (rd8_range b (i + 1)).
  assert (k = i \/ k = i + 1) as [-> | ->] by lia; lia.
Qed.

Lemma get_u32_rd8 a b i :
  bvb_wire_get_u32 a i = bvb_wire_get_u32 b i -> agree a b i 4.
Proof.
  rewrite !get_u32_sum. intros E k Hk.
  pose proof (rd8_range a i). pose proof (rd8_range a (i + 1)).
  pose proof (rd8_range a (i + 2)). pose proof (rd8_range a (i + 3)).
  pose proof (rd8_range b i). pose proof (rd8_range b (i + 1)).
  pose proof (rd8_range b (i + 2)). pose proof (rd8_range b (i + 3)).
  assert (k = i \/ k = i + 1 \/ k = i + 2 \/ k = i + 3)
    as [-> | [-> | [-> | ->]]] by lia; lia.
Qed.

Lemma get_i32_rd8 a b i :
  bvb_wire_get_i32 a i = bvb_wire_get_i32 b i -> agree a b i 4.
Proof.
  intros E. apply get_u32_rd8. apply (f_equal u32) in E.
  unfold bvb_wire_get_i32 in E. by rewrite !u32_i32 in E by auto with bvb.
Qed.

Lemma get_u64_rd8 a b i :
  bvb_wire_get_u64 a i = bvb_wire_get_u64 b i -> agree a b i 8.
Proof.
  rewrite !get_u64_sum. intros E.
  pose proof (proj1 (is_u32_spec _) (get_u32_range a i)).
  pose proof (proj1 (is_u32_spec _) (get_u32_range b i)).
  pose proof (proj1 (is_u32_spec _) (get_u32_range a (i + 4))).
  pose proof (proj1 (is_u32_spec _) (get_u32_range b (i + 4))).
  apply (agree_join a b i 4 4); apply get_u32_rd8; lia.
Qed.

Lemma rd_bytes_rd8 a b i n :
  0 <= i -> rd_bytes a i n = rd_bytes b i n -> agree a b i n.
Proof.
  intros Hi E k Hk. replace k with (i + (k - i)) by lia.
  rewrite <- !(rd_bytes_lookup _ i n) by lia. by rewrite E.
Qed.

(** Cutting a region into words. *)
Lemma agree_step a b i n m :
  agree a b i n -> agree a b (i + n) (m - n) -> agree a b i m.
Proof.
  intros H1 H2 k Hk. destruct (decide (k < i + n)); [apply H1|apply H2]; lia.
Qed.

Lemma agree_nil a b i : agree a b i 0.
Proof. intros k Hk. lia. Qed.
