(* ===== verification/Abi.v ===== *)
(** * Abi: constants shared by the two sides of the bridge

    The enumerators and macros of include/bvb/*.h the models use, as numeric
    abbreviations, and the class of the Vulkan header constants the code
    compares against.  The Vulkan headers are a separate project fetched by
    CMakeLists.txt, so their values stay parameters. *)

From S2P Require Import Prelude.

(** include/bvb/activity_frame_transport.h *)
Abbreviation BVB_ACTIVITY_FRAME_SETUP_MAGIC := 827606594 (only parsing).
Abbreviation BVB_ACTIVITY_FRAME_SETUP_VERSION := 1 (only parsing).
Abbreviation BVB_ACTIVITY_FRAME_SETUP_BYTES := 128 (only parsing).
Abbreviation BVB_ACTIVITY_FRAME_FLAG_DMA_BUF := 1 (only parsing).
Abbreviation BVB_ACTIVITY_FRAME_FLAG_AHARDWAREBUFFER := 2 (only parsing).
Abbreviation BVB_ACTIVITY_FRAME_KNOWN_FLAGS := 3 (only parsing).

(** include/bvb/command_batch.h *)
Abbreviation BVB_COMMAND_BATCH_HEADER_SIZE := 32 (only parsing).
Abbreviation BVB_COMMAND_BATCH_MAX_BYTES := 16777216 (only parsing).

(** include/bvb/descriptor_transaction_ring.h *)
Abbreviation BVB_DESCRIPTOR_TRANSACTION_RING_MAGIC := 827475010 (only parsing).
Abbreviation BVB_DESCRIPTOR_TRANSACTION_RING_VERSION := 4 (only parsing).
Abbreviation BVB_DESCRIPTOR_TRANSACTION_RING_CONTROL_BYTES := 128 (only parsing).
Abbreviation BVB_DESCRIPTOR_TRANSACTION_RING_LEASE_OFFSET := 8192 (only parsing).
Abbreviation BVB_DESCRIPTOR_TRANSACTION_RING_REGION_BYTES := 131072 (only parsing).
Abbreviation BVB_DESCRIPTOR_TRANSACTION_RING_SLOT_COUNT := 16 (only parsing).
Abbreviation BVB_DESCRIPTOR_TRANSACTION_RING_SLOT_BYTES := 384 (only parsing).
Abbreviation BVB_DESCRIPTOR_TRANSACTION_RING_REQUEST_BYTES := 176 (only parsing).
Abbreviation BVB_DESCRIPTOR_TRANSACTION_RING_RESPONSE_BYTES := 136 (only parsing).
Abbreviation BVB_DESCRIPTOR_TRANSACTION_SLOT_AVAILABLE := 0 (only parsing).
Abbreviation BVB_DESCRIPTOR_TRANSACTION_SLOT_REQUESTED := 1 (only parsing).
Abbreviation BVB_DESCRIPTOR_TRANSACTION_SLOT_COMPLETED := 2 (only parsing).
Abbreviation BVB_DESCRIPTOR_TRANSACTION_WAIT_IDLE := 0 (only parsing).
Abbreviation BVB_DESCRIPTOR_TRANSACTION_WAIT_SPINNING := 1 (only parsing).
Abbreviation BVB_DESCRIPTOR_TRANSACTION_WAIT_SLEEPING := 2 (only parsing).
Abbreviation BVB_DESCRIPTOR_LEASE_BANK_COUNT := 64 (only parsing).
Abbreviation BVB_DESCRIPTOR_LEASE_BANK_CAPACITY := 64 (only parsing).
Abbreviation BVB_DESCRIPTOR_LEASE_MAX_CLAIM := 16 (only parsing).
Abbreviation BVB_DESCRIPTOR_LEASE_BANK_READY := 1 (only parsing).

(** include/bvb/frame_sync.h *)
Abbreviation BVB_FRAME_SYNC_MAGIC := 826692418 (only parsing).
Abbreviation BVB_FRAME_SYNC_VERSION := 1 (only parsing).
Abbreviation BVB_FRAME_SYNC_CONTROL_BYTES := 64 (only parsing).
Abbreviation BVB_FRAME_SYNC_REGION_BYTES := 4096 (only parsing).
Abbreviation BVB_FRAME_SYNC_MAX_FRAMES := 1048576 (only parsing).

(** include/bvb/handle.h *)
Abbreviation BVB_OBJECT_INVALID := 0 (only parsing).
Abbreviation BVB_OBJECT_INSTANCE := 1 (only parsing).
Abbreviation BVB_OBJECT_PHYSICAL_DEVICE := 2 (only parsing).
Abbreviation BVB_OBJECT_DEVICE := 3 (only parsing).
Abbreviation BVB_OBJECT_QUEUE := 4 (only parsing).
Abbreviation BVB_OBJECT_SURFACE := 5 (only parsing).
Abbreviation BVB_OBJECT_SWAPCHAIN := 6 (only parsing).
Abbreviation BVB_OBJECT_IMAGE := 7 (only parsing).
Abbreviation BVB_OBJECT_IMAGE_VIEW := 8 (only parsing).
Abbreviation BVB_OBJECT_DEVICE_MEMORY := 9 (only parsing).
Abbreviation BVB_OBJECT_COMMAND_POOL := 10 (only parsing).
Abbreviation BVB_OBJECT_COMMAND_BUFFER := 11 (only parsing).
Abbreviation BVB_OBJECT_SHADER_MODULE := 12 (only parsing).
Abbreviation BVB_OBJECT_RENDER_PASS := 13 (only parsing).
Abbreviation BVB_OBJECT_FRAMEBUFFER := 14 (only parsing).
Abbreviation BVB_OBJECT_PIPELINE_LAYOUT := 15 (only parsing).
Abbreviation BVB_OBJECT_PIPELINE := 16 (only parsing).
Abbreviation BVB_OBJECT_SEMAPHORE := 17 (only parsing).
Abbreviation BVB_OBJECT_FENCE := 18 (only parsing).
Abbreviation BVB_OBJECT_BUFFER := 19 (only parsing).
Abbreviation BVB_OBJECT_DESCRIPTOR_SET_LAYOUT := 20 (only parsing).
Abbreviation BVB_OBJECT_DESCRIPTOR_POOL := 21 (only parsing).
Abbreviation BVB_OBJECT_DESCRIPTOR_SET := 22 (only parsing).
Abbreviation BVB_OBJECT_SAMPLER := 23 (only parsing).
Abbreviation BVB_OBJECT_DESCRIPTOR_UPDATE_TEMPLATE := 24 (only parsing).
Abbreviation BVB_OBJECT_QUERY_POOL := 25 (only parsing).
Abbreviation BVB_HANDLE_TYPE_SHIFT := 56 (only parsing).
Abbreviation BVB_HANDLE_SERIAL_MASK := 72057594037927935 (only parsing).

(** include/bvb/lifecycle.h *)
Abbreviation BVB_LIFECYCLE_MAGIC := 827086402 (only parsing).
Abbreviation BVB_LIFECYCLE_VERSION := 1 (only parsing).
Abbreviation BVB_LIFECYCLE_TOKEN_SIZE := 32 (only parsing).
Abbreviation BVB_LIFECYCLE_TOKEN_HEX_SIZE := 64 (only parsing).
Abbreviation BVB_LIFECYCLE_RECORD_SIZE := 64 (only parsing).
Abbreviation BVB_LIFECYCLE_ACK_SIZE := 16 (only parsing).
Abbreviation BVB_LIFECYCLE_EVENT_CREATED := 1 (only parsing).
Abbreviation BVB_LIFECYCLE_EVENT_STARTED := 2 (only parsing).
Abbreviation BVB_LIFECYCLE_EVENT_RESUMED := 3 (only parsing).
Abbreviation BVB_LIFECYCLE_EVENT_PAUSED := 4 (only parsing).
Abbreviation BVB_LIFECYCLE_EVENT_STOPPED := 5 (only parsing).
Abbreviation BVB_LIFECYCLE_EVENT_DESTROYED := 6 (only parsing).
Abbreviation BVB_LIFECYCLE_EVENT_WINDOW_CREATED := 7 (only parsing).
Abbreviation BVB_LIFECYCLE_EVENT_WINDOW_DESTROYED := 8 (only parsing).
Abbreviation BVB_LIFECYCLE_EVENT_FOCUS_GAINED := 9 (only parsing).
Abbreviation BVB_LIFECYCLE_EVENT_FOCUS_LOST := 10 (only parsing).
Abbreviation BVB_LIFECYCLE_EVENT_RENDERER_READY := 11 (only parsing).
Abbreviation BVB_LIFECYCLE_EVENT_RENDERER_FAILED := 12 (only parsing).
Abbreviation BVB_LIFECYCLE_EVENT_NATIVE_BINDER_STATUS := 13 (only parsing).
Abbreviation BVB_ACTIVITY_CREATED := 1 (only parsing).
Abbreviation BVB_ACTIVITY_STARTED := 2 (only parsing).
Abbreviation BVB_ACTIVITY_RESUMED := 4 (only parsing).
Abbreviation BVB_ACTIVITY_WINDOW_PRESENT := 8 (only parsing).
Abbreviation BVB_ACTIVITY_RENDERER_READY := 16 (only parsing).
Abbreviation BVB_ACTIVITY_FOCUSED := 32 (only parsing).
Abbreviation BVB_ACTIVITY_DESTROYED := 64 (only parsing).

(** include/bvb/protocol.h *)
Abbreviation BVB_PROTOCOL_MAGIC := 826431042 (only parsing).
Abbreviation BVB_PROTOCOL_VERSION := 1 (only parsing).
Abbreviation BVB_PROTOCOL_HEADER_SIZE := 24 (only parsing).
Abbreviation BVB_PROTOCOL_MAX_PAYLOAD := 4096 (only parsing).
Abbreviation BVB_PROTOCOL_REQUEST := 1 (only parsing).
Abbreviation BVB_PROTOCOL_RESPONSE := 2 (only parsing).
Abbreviation BVB_OPCODE_HELLO := 1 (only parsing).
Abbreviation BVB_OPCODE_LAST := 125 (only parsing).
Abbreviation BVB_HELLO_REQUEST_SIZE := 8 (only parsing).
Abbreviation BVB_HELLO_RESPONSE_SIZE := 16 (only parsing).
Abbreviation BVB_VULKAN_SELFTEST_SIZE := 64 (only parsing).
Abbreviation BVB_ACTIVITY_STATUS_SIZE := 56 (only parsing).
Abbreviation BVB_SHARED_BATCH_SETUP_SIZE := 16 (only parsing).
Abbreviation BVB_SHARED_BATCH_EXECUTE_SIZE := 24 (only parsing).
Abbreviation BVB_VULKAN_GLOBAL_INFO_SIZE := 24 (only parsing).
Abbreviation BVB_VULKAN_INSTANCE_CREATE_REQUEST_SIZE := 16 (only parsing).
Abbreviation BVB_VULKAN_INSTANCE_CREATE_RESPONSE_SIZE := 16 (only parsing).
Abbreviation BVB_VULKAN_INSTANCE_ID_SIZE := 8 (only parsing).
Abbreviation BVB_VULKAN_PHYSICAL_DEVICE_ID_SIZE := 8 (only parsing).
Abbreviation BVB_VULKAN_FORMAT_QUERY_SIZE := 16 (only parsing).
Abbreviation BVB_VULKAN_FORMAT_PROPERTIES_SIZE := 12 (only parsing).
Abbreviation BVB_VULKAN_FORMAT_PROPERTIES_3_SIZE := 24 (only parsing).
Abbreviation BVB_VULKAN_IMAGE_FORMAT_QUERY_SIZE := 32 (only parsing).
Abbreviation BVB_VULKAN_IMAGE_FORMAT_PROPERTIES_SIZE := 40 (only parsing).
Abbreviation BVB_VULKAN_EXTERNAL_BUFFER_QUERY_SIZE := 24 (only parsing).
Abbreviation BVB_VULKAN_EXTERNAL_BUFFER_PROPERTIES_SIZE := 12 (only parsing).
Abbreviation BVB_VULKAN_EXTERNAL_SEMAPHORE_QUERY_SIZE := 16 (only parsing).
Abbreviation BVB_VULKAN_EXTERNAL_SEMAPHORE_PROPERTIES_SIZE := 12 (only parsing).
Abbreviation BVB_VULKAN_CORE_FEATURES_SIZE := 100 (only parsing).
Abbreviation BVB_VULKAN_DEVICE_EXTENSION_QUERY_SIZE := 16 (only parsing).
Abbreviation BVB_VULKAN_DEVICE_CREATE_REQUEST_SIZE := 32 (only parsing).
Abbreviation BVB_VULKAN_DEVICE_CREATE_RESPONSE_SIZE := 16 (only parsing).
Abbreviation BVB_VULKAN_DEVICE_ID_SIZE := 8 (only parsing).
Abbreviation BVB_VULKAN_DEVICE_QUEUE_REQUEST_SIZE := 16 (only parsing).
Abbreviation BVB_VULKAN_QUEUE_ID_SIZE := 8 (only parsing).
Abbreviation BVB_VULKAN_RESULT_SIZE := 4 (only parsing).
Abbreviation BVB_VULKAN_COMMAND_POOL_CREATE_REQUEST_SIZE := 16 (only parsing).
Abbreviation BVB_VULKAN_COMMAND_POOL_CREATE_RESPONSE_SIZE := 16 (only parsing).
Abbreviation BVB_VULKAN_COMMAND_POOL_ID_SIZE := 8 (only parsing).
Abbreviation BVB_VULKAN_COMMAND_POOL_RESET_REQUEST_SIZE := 16 (only parsing).
Abbreviation BVB_VULKAN_COMMAND_BUFFER_ALLOCATE_REQUEST_SIZE := 16 (only parsing).
Abbreviation BVB_VULKAN_COMMAND_BUFFER_ALLOCATE_RESPONSE_SIZE := 16 (only parsing).
Abbreviation BVB_VULKAN_COMMAND_BUFFER_FREE_REQUEST_SIZE := 16 (only parsing).
Abbreviation BVB_VULKAN_COMMAND_BUFFER_BEGIN_REQUEST_SIZE := 16 (only parsing).
Abbreviation BVB_VULKAN_COMMAND_BUFFER_ID_SIZE := 8 (only parsing).
Abbreviation BVB_VULKAN_QUEUE_SUBMIT_COMMAND_REQUEST_SIZE := 16 (only parsing).
Abbreviation BVB_VULKAN_BUFFER_CREATE_REQUEST_SIZE := 24 (only parsing).
Abbreviation BVB_VULKAN_OBJECT_CREATE_RESPONSE_SIZE := 16 (only parsing).
Abbreviation BVB_VULKAN_OBJECT_ID_SIZE := 8 (only parsing).
Abbreviation BVB_VULKAN_QUERY_POOL_CREATE_REQUEST_SIZE := 24 (only parsing).
Abbreviation BVB_VULKAN_QUERY_POOL_RESULTS_REQUEST_SIZE := 40 (only parsing).
Abbreviation BVB_VULKAN_QUERY_POOL_RESET_REQUEST_SIZE := 16 (only parsing).
Abbreviation BVB_VULKAN_QUERY_POOL_RESULTS_MAX_BYTES := 4088 (only parsing).
Abbreviation BVB_VULKAN_BUFFER_REQUIREMENTS_SIZE := 24 (only parsing).
Abbreviation BVB_VULKAN_DEVICE_BUFFER_MAX_QUEUE_FAMILIES := 8 (only parsing).
Abbreviation BVB_VULKAN_BUFFER_REQUIREMENTS_2_REQUEST_SIZE := 16 (only parsing).
Abbreviation BVB_VULKAN_BUFFER_REQUIREMENTS_2_RESPONSE_SIZE := 32 (only parsing).
Abbreviation BVB_VULKAN_BUFFER_DEVICE_ADDRESS_REQUEST_SIZE := 8 (only parsing).
Abbreviation BVB_VULKAN_BUFFER_DEVICE_ADDRESS_RESPONSE_SIZE := 8 (only parsing).
Abbreviation BVB_VULKAN_MEMORY_ALLOCATE_REQUEST_SIZE := 24 (only parsing).
Abbreviation BVB_VULKAN_MEMORY_ALLOCATE_EXTENDED_REQUEST_SIZE := 40 (only parsing).
Abbreviation BVB_VULKAN_MAX_MEMORY_ALLOCATION_SIZE := 268435456 (only parsing).
Abbreviation BVB_VULKAN_BUFFER_BIND_REQUEST_SIZE := 24 (only parsing).
Abbreviation BVB_VULKAN_IMAGE_REQUIREMENTS_SIZE := 24 (only parsing).
Abbreviation BVB_VULKAN_IMAGE_REQUIREMENTS_2_REQUEST_SIZE := 16 (only parsing).
Abbreviation BVB_VULKAN_IMAGE_REQUIREMENTS_2_RESPONSE_SIZE := 32 (only parsing).
Abbreviation BVB_VULKAN_IMAGE_BIND_REQUEST_SIZE := 24 (only parsing).
Abbreviation BVB_VULKAN_IMAGE_VIEW_CREATE_REQUEST_SIZE := 72 (only parsing).
Abbreviation BVB_VULKAN_COMMAND_BUFFER_FILL_REQUEST_SIZE := 40 (only parsing).
Abbreviation BVB_VULKAN_COMMAND_BUFFER_CLEAR_COLOR_IMAGE_REQUEST_SIZE := 16 (only parsing).
Abbreviation BVB_VULKAN_MEMORY_VERIFY_FILL_REQUEST_SIZE := 32 (only parsing).
Abbreviation BVB_VULKAN_MEMORY_VERIFY_FILL_RESPONSE_SIZE := 8 (only parsing).
Abbreviation BVB_VULKAN_FENCE_CREATE_REQUEST_SIZE := 16 (only parsing).
Abbreviation BVB_VULKAN_FENCE_WAIT_REQUEST_SIZE := 24 (only parsing).
Abbreviation BVB_VULKAN_QUEUE_SUBMIT_COMMAND_FENCE_REQUEST_SIZE := 24 (only parsing).
Abbreviation BVB_VULKAN_SEMAPHORE_CREATE_REQUEST_SIZE := 24 (only parsing).
Abbreviation BVB_VULKAN_SEMAPHORE_COUNTER_RESPONSE_SIZE := 16 (only parsing).
Abbreviation BVB_VULKAN_SEMAPHORE_SIGNAL_REQUEST_SIZE := 24 (only parsing).
Abbreviation BVB_VULKAN_MEMORY_IO_PREFIX_SIZE := 24 (only parsing).
Abbreviation BVB_VULKAN_MEMORY_MIRROR_SETUP_SIZE := 40 (only parsing).
Abbreviation BVB_VULKAN_MEMORY_MIRROR_RANGE_SIZE := 40 (only parsing).
Abbreviation BVB_VULKAN_MEMORY_MIRROR_UNMAP_SIZE := 24 (only parsing).
Abbreviation BVB_EXTERNAL_MEMORY_IMPORT_REQUEST_SIZE := 16 (only parsing).
Abbreviation BVB_EXTERNAL_SYNC_IMPORT_REQUEST_SIZE := 24 (only parsing).
Abbreviation BVB_EXTERNAL_IMAGE_IMPORT_REQUEST_SIZE := 32 (only parsing).
Abbreviation BVB_VULKAN_SWAPCHAIN_PREPARE_REQUEST_SIZE := 40 (only parsing).
Abbreviation BVB_VULKAN_SWAPCHAIN_ACQUIRE_REQUEST_SIZE := 40 (only parsing).
Abbreviation BVB_VULKAN_SWAPCHAIN_ACQUIRE_RESPONSE_SIZE := 8 (only parsing).
Abbreviation BVB_VULKAN_SWAPCHAIN_PRESENT_RESPONSE_SIZE := 8 (only parsing).
Abbreviation BVB_VULKAN_MEMORY_IO_MAX_BYTES := 4072 (only parsing).
Abbreviation BVB_SHARED_BATCH_MIN_BYTES := 4096 (only parsing).
Abbreviation BVB_SHARED_BATCH_MAX_BYTES := 16777216 (only parsing).
Abbreviation BVB_COMMAND_STREAM_REGION_BYTES := 134217728 (only parsing).
Abbreviation BVB_DESCRIPTOR_JOURNAL_REGION_BYTES := 16777216 (only parsing).
Abbreviation BVB_DESCRIPTOR_JOURNAL_FLUSH_SIZE := 24 (only parsing).
Abbreviation BVB_DESCRIPTOR_JOURNAL_MAX_RECORDS := 65536 (only parsing).
Abbreviation BVB_VULKAN_IMAGE_VIEW_CREATE_PNEXT_USAGE := 1 (only parsing).
Abbreviation BVB_VULKAN_IMAGE_VIEW_CREATE_PNEXT_MASK := 1 (only parsing).
Abbreviation BVB_VULKAN_IMAGE_REQUIREMENTS_2_PNEXT_DEDICATED := 1 (only parsing).
Abbreviation BVB_VULKAN_IMAGE_REQUIREMENTS_2_PNEXT_MASK := 1 (only parsing).
Abbreviation BVB_VULKAN_BUFFER_REQUIREMENTS_2_PNEXT_DEDICATED := 1 (only parsing).
Abbreviation BVB_VULKAN_BUFFER_REQUIREMENTS_2_PNEXT_MASK := 1 (only parsing).
Abbreviation BVB_VULKAN_MEMORY_ALLOCATE_PNEXT_DEDICATED_IMAGE := 1 (only parsing).
Abbreviation BVB_VULKAN_MEMORY_ALLOCATE_PNEXT_FLAGS := 2 (only parsing).
Abbreviation BVB_VULKAN_MEMORY_ALLOCATE_PNEXT_MASK := 7 (only parsing).
Abbreviation BVB_VULKAN_PHYSICAL_DEVICES_PREFIX_SIZE := 8 (only parsing).
Abbreviation BVB_VULKAN_MAX_PHYSICAL_DEVICES := 8 (only parsing).
Abbreviation BVB_VULKAN_ENABLED_EXTENSION_NAME_SIZE := 128 (only parsing).
Abbreviation BVB_VULKAN_MAX_ENABLED_EXTENSIONS := 24 (only parsing).
Abbreviation BVB_VULKAN_BASE_FEATURES_SIZE := 220 (only parsing).
Abbreviation BVB_VULKAN_DEVICE_CREATE_PACKED_PREFIX_SIZE := 32 (only parsing).
Abbreviation BVB_VULKAN_DEVICE_QUEUE_CREATE_INFO_SIZE := 16 (only parsing).
Abbreviation BVB_VULKAN_MAX_DEVICE_QUEUE_CREATE_INFOS := 8 (only parsing).
Abbreviation BVB_VULKAN_MAX_DEVICE_QUEUE_PRIORITIES := 16 (only parsing).
Abbreviation BVB_VULKAN_MAX_DEVICE_CREATE_EXTENSIONS := 64 (only parsing).
Abbreviation BVB_VULKAN_DEVICE_FEATURE_VULKAN_11 := 1 (only parsing).
Abbreviation BVB_VULKAN_DEVICE_FEATURE_VULKAN_12 := 2 (only parsing).
Abbreviation BVB_VULKAN_DEVICE_FEATURE_VULKAN_13 := 4 (only parsing).
Abbreviation BVB_VULKAN_DEVICE_FEATURE_DEPTH_CLIP_ENABLE := 8 (only parsing).
Abbreviation BVB_VULKAN_DEVICE_FEATURE_ROBUSTNESS_2 := 16 (only parsing).
Abbreviation BVB_VULKAN_DEVICE_FEATURE_MAINTENANCE_5 := 32 (only parsing).
Abbreviation BVB_VULKAN_DEVICE_FEATURE_MAINTENANCE_6 := 64 (only parsing).
Abbreviation BVB_VULKAN_DEVICE_FEATURE_BASE := 128 (only parsing).
Abbreviation BVB_VULKAN_DEVICE_FEATURE_STRUCT_MASK := 255 (only parsing).
Abbreviation BVB_VULKAN_QUERY_POOL_RESULTS_RESPONSE_PREFIX_SIZE := 8 (only parsing).
Abbreviation BVB_VULKAN_DEVICE_BUFFER_REQUIREMENTS_REQUEST_SIZE := 64 (only parsing).
Abbreviation BVB_VULKAN_DEVICE_BUFFER_REQUIREMENTS_RESPONSE_SIZE := 32 (only parsing).
Abbreviation BVB_VULKAN_IMAGE_MAX_QUEUE_FAMILIES := 8 (only parsing).
Abbreviation BVB_VULKAN_IMAGE_MAX_VIEW_FORMATS := 16 (only parsing).
Abbreviation BVB_VULKAN_IMAGE_CREATE_REQUEST_SIZE := 176 (only parsing).
Abbreviation BVB_VULKAN_INIT_IMAGE_MAX_BARRIERS := 4 (only parsing).
Abbreviation BVB_VULKAN_COMMAND_BUFFER_IMAGE_BARRIER_REQUEST_SIZE := 48 (only parsing).
Abbreviation BVB_VULKAN_SEMAPHORE_WAIT_PREFIX_SIZE := 24 (only parsing).
Abbreviation BVB_VULKAN_SEMAPHORE_WAIT_RECORD_SIZE := 16 (only parsing).
Abbreviation BVB_VULKAN_MAX_SEMAPHORES_PER_WAIT := 16 (only parsing).
Abbreviation BVB_VULKAN_SEMAPHORE_WAIT_MAX_SIZE := 280 (only parsing).
Abbreviation BVB_VULKAN_SUBMIT_2_PREFIX_SIZE := 32 (only parsing).
Abbreviation BVB_VULKAN_SUBMIT_2_SEMAPHORE_RECORD_SIZE := 32 (only parsing).
Abbreviation BVB_VULKAN_SUBMIT_2_COMMAND_RECORD_SIZE := 16 (only parsing).
Abbreviation BVB_VULKAN_SUBMIT_2_STREAM_COMMAND_RECORD_SIZE := 40 (only parsing).
Abbreviation BVB_VULKAN_MAX_COMMAND_BUFFERS_PER_SUBMIT := 16 (only parsing).
Abbreviation BVB_VULKAN_SUBMIT_2_MAX_SIZE := 1312 (only parsing).
Abbreviation BVB_VULKAN_SUBMIT_2_STREAM_MAX_SIZE := 1696 (only parsing).
Abbreviation BVB_VULKAN_SUBMIT_2_COMMAND_SHARED_STREAM := 1 (only parsing).
Abbreviation BVB_COMMAND_STREAM_SLOT_BYTES := 2097152 (only parsing).
Abbreviation BVB_VULKAN_MEMORY_IO_RESPONSE_PREFIX_SIZE := 8 (only parsing).
Abbreviation BVB_VULKAN_SWAPCHAIN_IMAGE_RECORD_SIZE := 24 (only parsing).
Abbreviation BVB_VULKAN_SWAPCHAIN_PREPARE_RESPONSE_SIZE := 128 (only parsing).
Abbreviation BVB_VULKAN_SWAPCHAIN_PRESENT_PREFIX_SIZE := 32 (only parsing).
Abbreviation BVB_VULKAN_MAX_PRESENT_WAIT_SEMAPHORES := 16 (only parsing).
Abbreviation BVB_VULKAN_SWAPCHAIN_PRESENT_MAX_SIZE := 160 (only parsing).
Abbreviation BVB_VISIBLE_BATCH_SETUP_SIZE := 48 (only parsing).
Abbreviation BVB_VISIBLE_BATCH_EXECUTE_SIZE := 56 (only parsing).
Abbreviation BVB_VULKAN_CAPS_PREFIX_SIZE := 16 (only parsing).
Abbreviation BVB_VULKAN_CAPS_DEVICE_SIZE := 296 (only parsing).

(** include/bvb/vulkan_caps.h *)
Abbreviation BVB_VULKAN_MAX_DEVICES := 8 (only parsing).
Abbreviation BVB_VULKAN_DEVICE_NAME_SIZE := 256 (only parsing).

(** include/bvb/visible_batch.h *)

(** include/bvb/wsi_frame_ring.h *)
Abbreviation BVB_WSI_FRAME_RING_MAGIC := 827479874 (only parsing).
Abbreviation BVB_WSI_FRAME_RING_VERSION := 1 (only parsing).
Abbreviation BVB_WSI_FRAME_RING_CONTROL_BYTES := 128 (only parsing).
Abbreviation BVB_WSI_FRAME_RING_REGION_BYTES := 4096 (only parsing).
Abbreviation BVB_WSI_FRAME_RING_MAX_SLOTS := 4 (only parsing).
Abbreviation BVB_WSI_SLOT_AVAILABLE := 0 (only parsing).
Abbreviation BVB_WSI_SLOT_ACQUIRED := 1 (only parsing).
Abbreviation BVB_WSI_SLOT_PRESENTED := 2 (only parsing).

(** Constants of <vulkan/vulkan.h>. *)
Class VulkanHeader := {
  VK_COMPONENT_SWIZZLE_A : Z;
  VK_FORMAT_UNDEFINED : Z;
  VK_IMAGE_ASPECT_COLOR_BIT : Z;
  VK_IMAGE_ASPECT_DEPTH_BIT : Z;
  VK_IMAGE_ASPECT_METADATA_BIT : Z;
  VK_IMAGE_ASPECT_PLANE_0_BIT : Z;
  VK_IMAGE_ASPECT_PLANE_1_BIT : Z;
  VK_IMAGE_ASPECT_PLANE_2_BIT : Z;
  VK_IMAGE_ASPECT_STENCIL_BIT : Z;
  VK_IMAGE_USAGE_COLOR_ATTACHMENT_BIT : Z;
  VK_IMAGE_USAGE_DEPTH_STENCIL_ATTACHMENT_BIT : Z;
  VK_IMAGE_USAGE_INPUT_ATTACHMENT_BIT : Z;
  VK_IMAGE_USAGE_SAMPLED_BIT : Z;
  VK_IMAGE_USAGE_STORAGE_BIT : Z;
  VK_IMAGE_USAGE_TRANSFER_DST_BIT : Z;
  VK_IMAGE_USAGE_TRANSFER_SRC_BIT : Z;
  VK_IMAGE_USAGE_TRANSIENT_ATTACHMENT_BIT : Z;
  VK_IMAGE_VIEW_TYPE_CUBE_ARRAY : Z;
  VK_MAX_MEMORY_TYPES : Z;
  VK_MEMORY_ALLOCATE_DEVICE_ADDRESS_BIT : Z;
  VK_QUERY_TYPE_OCCLUSION : Z;
  VK_QUERY_TYPE_PIPELINE_STATISTICS : Z;
  VK_QUERY_TYPE_TIMESTAMP : Z;
  VK_QUERY_TYPE_TRANSFORM_FEEDBACK_STREAM_EXT : Z;
  VK_SHARING_MODE_CONCURRENT : Z;
  VK_SHARING_MODE_EXCLUSIVE : Z
}.
