(* ===== verification/Codec.v ===== *)
(** * Codec: the contract between an encoder and its decoder

    A fixed-size message of the protocol is a pair of C functions
    [bvb_protocol_encode_X] and [bvb_protocol_decode_X].  [codec] packs the
    two models; the class [Lawful] is what a client of the wire relies on and
    [Canonical] is the stronger promise that the decoder accepts nothing but
    what the encoder writes.  The tactics [solve_lawful] and
    [solve_canonical] prove the instances of the protocol files. *)

From S2P Require Import Prelude Wire.

Record codec (T : Type) := mk_codec {
  codec_size : Z;
  codec_rep : T -> bool;
  encode : ptr bytes -> ptr T -> result bytes;
  decode : ptr bytes -> ptr T -> result T
}.
Arguments mk_codec {T}.
Arguments codec_size {T}.
Arguments codec_rep {T}.
Arguments encode {T}.
Arguments decode {T}.

(** A scalar argument is passed by value: there is no null case. *)
Definition by_value {T} (f : ptr bytes -> T -> result bytes) :
    ptr bytes -> ptr T -> result bytes :=
  fun out v => match v with Some v => f out v | None => Err (- EINVAL) end.

(** [codec_rep] says the fields fit their C types.  [encode_frame]: only the
    record's own bytes are written.  [decode_extent]: the result does
    not depend on a byte past the record. *)
Class Lawful {T} (c : codec T) : Prop := {
  encode_null out v :
    out = None \/ v = None -> c.(encode) out v = Err (- EINVAL);
  decode_null inp old :
    inp = None \/ old = None -> c.(decode) inp old = Err (- EINVAL);
  encode_frame out v out' :
    c.(encode) (Some out) (Some v) = Ok out' ->
    blen out' = blen out /\
    agree out' out c.(codec_size) (blen out - c.(codec_size));
  decode_encode out v out' old :
    c.(codec_size) <= blen out -> c.(codec_rep) v = true ->
    c.(encode) (Some out) (Some v) = Ok out' ->
    c.(decode) (Some out') (Some old) = Ok v;
  decode_rep inp v old :
    c.(codec_size) <= blen inp ->
    c.(decode) (Some inp) (Some old) = Ok v -> c.(codec_rep) v = true;
  decode_extent a b old :
    c.(codec_size) <= blen a -> c.(codec_size) <= blen b ->
    agree a b 0 c.(codec_size) ->
    c.(decode) (Some a) (Some old) = c.(decode) (Some b) (Some old)
}.

(** Bytes the decoder accepts are the bytes the encoder writes. *)
Class Canonical {T} (c : codec T) : Prop :=
  encode_decode inp out v old :
    blen inp = c.(codec_size) -> blen out = c.(codec_size) ->
    c.(decode) (Some inp) (Some old) = Ok v ->
    c.(encode) (Some out) (Some v) = Ok inp.

(** A caller's mistake is [-EINVAL], a malformed message [-EPROTO]. *)
Class ErrorsByRole {T} (c : codec T) : Prop := {
  encode_error out v e :
    c.(encode) (Some out) (Some v) = Err e -> e = - EINVAL;
  decode_error inp old e :
    c.(decode) (Some inp) (Some old) = Err e -> e = - EPROTO
}.

(** Different records never share an encoding. *)
Lemma encode_inj {T} (c : codec T) `{!Lawful c} out v w out' :
  c.(codec_size) <= blen out ->
  c.(codec_rep) v = true -> c.(codec_rep) w = true ->
  c.(encode) (Some out) (Some v) = Ok out' ->
  c.(encode) (Some out) (Some w) = Ok out' -> v = w.
Proof.
  intros Hlen Hv Hw Ev Ew.
  pose proof (decode_encode out v out' v Hlen Hv Ev) as Hdv.
  pose proof (decode_encode out w out' v Hlen Hw Ew) as Hdw. congruence.
Qed.

(** ** Buffers used only to validate a decoded record *)

(** A local array of [n] bytes.  Its first contents are unspecified in C;
    the functions that use one write it before they read it. *)
Definition blank (n : Z) : bytes := replicate (Z.to_nat n) x00.

Definition memcmp_ne (a b : bytes) (n : Z) : bool :=
  negb (bool_decide (rd_bytes a 0 n = rd_bytes b 0 n)).

Lemma blen_blank n : 0 <= n -> blen (blank n) = n.
Proof. intros. unfold blen, blank. rewrite length_replicate. lia. Qed.

Lemma get_u32_blank n i : bvb_wire_get_u32 (blank n) i = 0.
Proof. rewrite get_u32_sum. unfold blank. by rewrite !rd8_replicate0. Qed.

Lemma get_u64_blank n i : bvb_wire_get_u64 (blank n) i = 0.
Proof. by rewrite get_u64_sum, !get_u32_blank. Qed.

Lemma memcmp_ne_false a b n :
  0 <= n -> n <= blen a -> n <= blen b ->
  memcmp_ne a b n = false <-> agree a b 0 n.
Proof.
  intros Hn Ha Hb. unfold memcmp_ne. rewrite negb_false_iff, bool_decide_eq_true.
  split.
  - intros E. by apply rd_bytes_rd8.
  - intros E. by apply rd_bytes_agree.
Qed.

Lemma memcmp_ne_ext v a b n :
  0 <= n -> n <= blen a -> n <= blen b -> agree a b 0 n ->
  memcmp_ne v a n = memcmp_ne v b n.
Proof. intros. unfold memcmp_ne. by rewrite (rd_bytes_agree a b 0 n). Qed.

(** ** Symbolic reads *)

Ltac agree_side := unfold disjoint; rewrite ?blen_memset0; lia.

(** One step of reading through a chain of writes. *)
Ltac wire_skip :=
  match goal with
  | |- agree (bvb_wire_put_u16 _ _ _) _ _ _ =>
      eapply agree_trans; [apply agree_put_u16; agree_side|]
  | |- agree (bvb_wire_put_u32 _ _ _) _ _ _ =>
      eapply agree_trans; [apply agree_put_u32; agree_side|]
  | |- agree (bvb_wire_put_i32 _ _ _) _ _ _ =>
      eapply agree_trans; [apply agree_put_i32; agree_side|]
  | |- agree (bvb_wire_put_u64 _ _ _) _ _ _ =>
      eapply agree_trans; [apply agree_put_u64; agree_side|]
  | |- agree (wr_bytes _ _ _) _ _ _ =>
      eapply agree_trans; [apply agree_wr_bytes; agree_side|]
  | |- agree (memset0 _ _ _) _ _ _ =>
      eapply agree_trans; [apply agree_memset0; [lia|agree_side]|]
  | |- agree ?a ?a _ _ => apply agree_refl
  end.

Ltac blen_side := autorewrite with blen; rewrite ?blen_blank by lia; lia.
Ltac read_side :=
  lazymatch goal with
  | |- _ <= _ => blen_side
  | |- _ => first [assumption | reflexivity | solve [trivial with bvb] | blen_side]
  end.

(** [wire_frame]: a chain of writes leaves [[j, j+n)] alone. *)
Ltac wire_frame := repeat wire_skip.

(** Replace each read of a freshly written field by the value written, and
    each read past a write by the read of the older buffer. *)
Ltac wire_read1 :=
  match goal with
  | |- context [bvb_wire_get_u32 (bvb_wire_put_u32 ?b ?i ?v) ?i] =>
      rewrite (get_u32_put_u32 b i v) by read_side
  | |- context [bvb_wire_get_u16 (bvb_wire_put_u16 ?b ?i ?v) ?i] =>
      rewrite (get_u16_put_u16 b i v) by read_side
  | |- context [bvb_wire_get_i32 (bvb_wire_put_i32 ?b ?i ?v) ?i] =>
      rewrite (get_i32_put_i32 b i v) by read_side
  | |- context [bvb_wire_get_u64 (bvb_wire_put_u64 ?b ?i ?v) ?i] =>
      rewrite (get_u64_put_u64 b i v) by read_side
  | |- context [bvb_wire_get_u32 (bvb_wire_put_i32 ?b ?i ?v) ?i] =>
      rewrite (get_u32_put_i32 b i v) by blen_side
  | |- context [bvb_wire_get_u32 (bvb_wire_put_u64 ?b ?i ?v) ?i] =>
      rewrite (get_lo_put_u64 b i v) by blen_side
  | |- context [bvb_wire_get_u32 (bvb_wire_put_u64 ?b ?i ?v) ?j] =>
      rewrite (get_hi_put_u64 b i v j) by first [reflexivity | blen_side]
  | |- context [bvb_wire_get_u32 (memset0 ?b ?i ?n) ?j] =>
      rewrite (get_u32_memset0 b i n j) by blen_side
  | |- context [bvb_wire_get_u16 (memset0 ?b ?i ?n) ?j] =>
      rewrite (get_u16_memset0 b i n j) by blen_side
  | |- context [bvb_wire_get_u64 (memset0 ?b ?i ?n) ?j] =>
      rewrite (get_u64_memset0 b i n j) by blen_side
  | |- context [bvb_wire_get_u32 (?w ?b ?i ?v) ?j] =>
      rewrite (get_u32_agree (w b i v) b j) by wire_skip1 w
  | |- context [bvb_wire_get_u16 (?w ?b ?i ?v) ?j] =>
      rewrite (get_u16_agree (w b i v) b j) by wire_skip1 w
  | |- context [bvb_wire_get_i32 (?w ?b ?i ?v) ?j] =>
      rewrite (get_i32_agree (w b i v) b j) by wire_skip1 w
  | |- context [bvb_wire_get_u64 (?w ?b ?i ?v) ?j] =>
      rewrite (get_u64_agree (w b i v) b j) by wire_skip1 w
  end
with wire_skip1 w :=
  lazymatch w with
  | bvb_wire_put_u32 => apply agree_put_u32; agree_side
  | bvb_wire_put_u64 => apply agree_put_u64; agree_side
  | bvb_wire_put_i32 => apply agree_put_i32; agree_side
  | bvb_wire_put_u16 => apply agree_put_u16; agree_side
  | wr_bytes => apply agree_wr_bytes; agree_side
  | memset0 => apply agree_memset0; [lia|agree_side]
  end.

Ltac wire_read := repeat wire_read1.

(** ** Proof automation for codec instances *)

#[global] Arguments bvb_wire_put_u16 : simpl never.
#[global] Arguments bvb_wire_put_u32 : simpl never.
#[global] Arguments bvb_wire_put_i32 : simpl never.
#[global] Arguments bvb_wire_put_u64 : simpl never.
#[global] Arguments bvb_wire_get_u16 : simpl never.
#[global] Arguments bvb_wire_get_u32 : simpl never.
#[global] Arguments bvb_wire_get_i32 : simpl never.
#[global] Arguments bvb_wire_get_u64 : simpl never.
#[global] Arguments memset0 : simpl never.
#[global] Arguments wr_bytes : simpl never.
#[global] Arguments rd_bytes : simpl never.
#[global] Arguments blen : simpl never.
#[global] Arguments blank : simpl never.
#[global] Arguments memcmp_ne : simpl never.
#[global] Arguments is_u8 : simpl never.
#[global] Arguments is_u16 : simpl never.
#[global] Arguments is_u32 : simpl never.
#[global] Arguments is_u64 : simpl never.
#[global] Arguments is_i32 : simpl never.
#[global] Arguments u8 : simpl never.
#[global] Arguments u16 : simpl never.
#[global] Arguments u32 : simpl never.
#[global] Arguments u64 : simpl never.
#[global] Arguments i32 : simpl never.
#[global] Arguments EINVAL : simpl never.
#[global] Arguments EPROTO : simpl never.
#[global] Arguments EMSGSIZE : simpl never.
#[global] Arguments Z.opp : simpl never.

(** Split the tests a successful path passed into single facts. *)
Ltac split_tests :=
  repeat match goal with
  | H : (_ && _)%bool = true |- _ => apply andb_true_iff in H; destruct H
  | H : (_ || _)%bool = false |- _ => apply orb_false_iff in H; destruct H
  | H : negb _ = true |- _ => apply negb_true_iff in H
  | H : negb _ = false |- _ => apply negb_false_iff in H
  end.

(** Replay those facts in the goal. *)
Ltac use_tests :=
  repeat match goal with
  | H : ?b = true |- context [?b] => rewrite H
  | H : ?b = false |- context [?b] => rewrite H
  | H : ?m = Ok _ |- context [?m] => rewrite H
  end; cbn [negb andb orb].

(** [agree_words]: two buffers hold the same record, word by word. *)
Ltac agree_read :=
  try match goal with
  | Hm : agree ?v ?b 0 ?n |- _ = ?get ?b ?i =>
      rewrite <- (get_u32_agree v b i) by (eapply agree_sub; [exact Hm|lia|lia])
  end;
  wire_read;
  rewrite ?u32_lo_get_u64, ?u32_hi_get_u64, ?u32_get_i32, ?get_u32_blank;
  first [reflexivity | congruence | lia | symmetry; assumption].
Ltac agree_word :=
  lazymatch goal with
  | |- agree ?a ?b ?i 4 =>
      first
        [ apply get_u32_rd8; agree_read
        | let i' := eval cbv in (i + 2) in
          apply (agree_step a b i 2 4); [|change (agree a b i' 2)];
          apply get_u16_rd8; agree_read ]
  end.
Ltac agree_words :=
  repeat lazymatch goal with
  | |- agree _ _ _ 0 => apply agree_nil
  | |- agree ?a ?b ?i ?m =>
      let i' := eval cbv in (i + 4) in
      let m' := eval cbv in (m - 4) in
      apply (agree_step a b i 4 m); [agree_word | change (agree a b i' m')]
  end.

(** Take the successful branch of every test of hypothesis [H]. *)
Ltac ok_path H :=
  repeat match type of H with
  | (if ?c then _ else _) = Ok _ =>
      let E := fresh "Ht" in destruct c eqn:E; try discriminate H
  | (match (if ?c then _ else _) with _ => _ end) = Ok _ =>
      let E := fresh "Ht" in destruct c eqn:E; try discriminate H
  | (match ?m with Ok _ => _ | Err _ => _ end) = Ok _ =>
      let E := fresh "Ht" in destruct m eqn:E; try discriminate H
  end.

(** Tests written differently on the two sides, closed by arithmetic. *)
Ltac settle_tests :=
  repeat match goal with
  | |- (if ?c then _ else _) = _ =>
      let E := fresh "Hc" in
      destruct c eqn:E; try reflexivity; try (exfalso; lia)
  end.

Ltac destruct_rec v :=
  lazymatch type of v with Z => idtac | _ => destruct v end.

(** A byte comparison with the record re-encoded into a scratch buffer. *)
Ltac settle_memcmp :=
  repeat match goal with
  | |- context [memcmp_ne ?a ?b ?n] =>
      rewrite (proj2 (memcmp_ne_false a b n ltac:(lia) ltac:(blen_side)
                        ltac:(blen_side))) by agree_words; cbn
  end.

(** Unfold a representability test into the ranges of the fields. *)
Ltac open_rep H :=
  lazymatch type of H with
  | is_u64 _ = true => idtac
  | is_u32 _ = true => idtac
  | is_i32 _ = true => idtac
  | ?f _ = true => unfold f in H; cbn in H
  end.
Ltac open_rep_goal :=
  lazymatch goal with
  | |- is_u64 _ = true => idtac
  | |- is_u32 _ = true => idtac
  | |- is_i32 _ = true => idtac
  | |- ?f _ = true => unfold f; cbn
  end.

Ltac solve_encode_null :=
  intros out v [-> | ->]; [destruct v; reflexivity|destruct out; reflexivity].

Ltac solve_decode_null :=
  intros inp old [-> | ->]; [reflexivity|destruct inp; reflexivity].

Ltac solve_encode_frame :=
  intros out v out' H; destruct_rec v; cbn in H; ok_path H; injection H as <-;
  split; [autorewrite with blen; reflexivity | cbn; wire_frame].

(** After [encode] the decoder reads every field back and passes every
    test the encoder passed. *)
Ltac solve_decode_encode :=
  intros out v out' old Hlen Hrep H; destruct_rec v; cbn in Hlen, Hrep, H |- *;
  open_rep Hrep; ok_path H; injection H as <-; split_tests;
  wire_read; use_tests; rewrite ?Z.eqb_refl, ?orb_false_r, ?andb_true_r;
  cbn; settle_memcmp; try reflexivity; settle_tests.

Ltac solve_decode_rep :=
  intros inp v old _ H; cbn in H; ok_path H; injection H as <-; cbn;
  open_rep_goal;
  rewrite ?get_u16_range, ?get_u32_range, ?get_i32_range, ?get_u64_range;
  first [reflexivity | lia].

(** Two inputs that agree on the record decode alike. *)
Ltac extent_read Ha :=
  repeat match type of Ha with
  | agree ?a ?b _ _ =>
      match goal with
      | |- context [bvb_wire_get_u16 a ?i] =>
          rewrite (get_u16_agree a b i) by (eapply agree_sub; [exact Ha|lia|lia])
      | |- context [bvb_wire_get_u32 a ?i] =>
          rewrite (get_u32_agree a b i) by (eapply agree_sub; [exact Ha|lia|lia])
      | |- context [bvb_wire_get_i32 a ?i] =>
          rewrite (get_i32_agree a b i) by (eapply agree_sub; [exact Ha|lia|lia])
      | |- context [bvb_wire_get_u64 a ?i] =>
          rewrite (get_u64_agree a b i) by (eapply agree_sub; [exact Ha|lia|lia])
      end
  end.

Ltac solve_decode_extent :=
  intros a b old Hla Hlb Ha; cbn in Hla, Hlb, Ha |- *; extent_read Ha;
  repeat match goal with
  | |- match ?m with _ => _ end = match ?m with _ => _ end => destruct m
  | |- context [memcmp_ne _ ?a ?n] =>
      rewrite (memcmp_ne_ext _ a b n) by first [lia | exact Ha]
  end; reflexivity.

Ltac solve_lawful :=
  constructor;
  [ solve_encode_null | solve_decode_null | solve_encode_frame
  | solve_decode_encode | solve_decode_rep | solve_decode_extent ].

(** A decoder that re-encodes the record: the encoder's tests passed, and the
    comparison that may follow found the two buffers equal. *)
Ltac open_validation :=
  repeat match goal with
  | Hv : (if ?c then Err _ else Ok _) = Ok _ |- _ =>
      let E := fresh "Ht" in
      destruct c eqn:E; [discriminate Hv | injection Hv as <-]
  | Hm : memcmp_ne ?a ?b ?n = false |- _ =>
      apply (proj1 (memcmp_ne_false a b n ltac:(lia) ltac:(blen_side)
                      ltac:(blen_side))) in Hm
  end.

(** What the decoder accepts is exactly what the encoder writes. *)
Ltac solve_canonical :=
  intros inp out v old Hi Ho H; cbn in Hi, Ho, H |- *;
  ok_path H; injection H as <-; open_validation; split_tests; cbn; use_tests;
  cbn; settle_tests;
  apply (f_equal Ok); apply agree_eq; autorewrite with blen; [lia|];
  rewrite Ho; agree_words.

(** Every failing branch of [H] carries the same code. *)
Ltac err_path H :=
  repeat match type of H with
  | context [if ?c then _ else _] => destruct c
  | context [match ?m with Ok _ => _ | Err _ => _ end] => destruct m
  end;
  first [discriminate H | injection H as <-; reflexivity].

Ltac solve_errors :=
  constructor;
  [ intros out v e H; destruct_rec v; cbn in H; err_path H
  | intros inp old e H; cbn in H; err_path H ].
