(* ===== verification/ProtocolBase.v ===== *)
(** * ProtocolBase: message header and version handshake

    Models part of src/protocol.c and the structures of
    include/bvb/protocol.h it uses.  [wire_id_is_type], [header_is_valid], the 24-byte packet header and the
    hello request and response. *)

From S2P Require Import Prelude Wire Abi Codec.

(** ** Structures *)

Record bvb_protocol_header := mk_bvb_protocol_header {
  hdr_version : Z;
  hdr_kind : Z;
  hdr_opcode : Z;
  hdr_request_id : Z;
  hdr_payload_length : Z;
  hdr_status : Z
}.
Definition hdr_rep (r : bvb_protocol_header) : bool :=
  is_u16 r.(hdr_version) &&
  is_u16 r.(hdr_kind) &&
  is_u16 r.(hdr_opcode) &&
  is_u32 r.(hdr_request_id) &&
  is_u32 r.(hdr_payload_length) &&
  is_i32 r.(hdr_status).

Record bvb_hello_request := mk_bvb_hello_request {
  hello_rq_minimum_version : Z;
  hello_rq_maximum_version : Z;
  hello_rq_client_flags : Z
}.
Definition hello_rq_rep (r : bvb_hello_request) : bool :=
  is_u16 r.(hello_rq_minimum_version) &&
  is_u16 r.(hello_rq_maximum_version) &&
  is_u32 r.(hello_rq_client_flags).

Record bvb_hello_response := mk_bvb_hello_response {
  hello_rs_negotiated_version : Z;
  hello_rs_service_flags : Z;
  hello_rs_pointer_bits : Z;
  hello_rs_page_size : Z
}.
Definition hello_rs_rep (r : bvb_hello_response) : bool :=
  is_u16 r.(hello_rs_negotiated_version) &&
  is_u32 r.(hello_rs_service_flags) &&
  is_u32 r.(hello_rs_pointer_bits) &&
  is_u32 r.(hello_rs_page_size).

(** ** Functions *)

Definition wire_id_is_type
    (wire_id : Z) (type : Z) : bool :=
  ((u8 (Z.shiftr wire_id 56)) =? type) &&
      negb ((Z.land wire_id 72057594037927935) =? 0).

Definition header_is_valid
    (header : ptr bvb_protocol_header) : result unit :=
  deref header := header or (- EPROTO) ;;
  fail_if negb (header.(hdr_version) =? BVB_PROTOCOL_VERSION)
      with (- EPROTO) ;;
  fail_if (negb (header.(hdr_kind) =? BVB_PROTOCOL_REQUEST) &&
      negb (header.(hdr_kind) =? BVB_PROTOCOL_RESPONSE)) with (- EPROTO) ;;
  fail_if (header.(hdr_opcode) <? BVB_OPCODE_HELLO) ||
          (BVB_OPCODE_LAST <? header.(hdr_opcode)) with (- EPROTO) ;;
  fail_if (BVB_PROTOCOL_MAX_PAYLOAD <? header.(hdr_payload_length))
      with (- EMSGSIZE) ;;
  fail_if ((header.(hdr_kind) =? BVB_PROTOCOL_REQUEST) &&
      negb (header.(hdr_status) =? 0)) with (- EPROTO) ;;
  Ok tt.

Definition bvb_protocol_encode_header
    (output : ptr bytes) (header : ptr bvb_protocol_header) : result bytes :=
  deref output := output or (- EINVAL) ;;
  deref header := header or (- EINVAL) ;;
  try _ := header_is_valid (Some header) ;;
  let output := bvb_wire_put_u32 output 0 BVB_PROTOCOL_MAGIC in
  let output := bvb_wire_put_u16 output 4 header.(hdr_version) in
  let output := bvb_wire_put_u16 output 6 header.(hdr_kind) in
  let output := bvb_wire_put_u16 output 8 header.(hdr_opcode) in
  let output := bvb_wire_put_u16 output 10 0 in
  let output := bvb_wire_put_u32 output 12 header.(hdr_request_id) in
  let output := bvb_wire_put_u32 output 16 header.(hdr_payload_length) in
  let output := bvb_wire_put_i32 output 20 header.(hdr_status) in
  Ok output.

Definition bvb_protocol_decode_header
    (input : ptr bytes) (header : ptr bvb_protocol_header) : result
        bvb_protocol_header :=
  deref input := input or (- EINVAL) ;;
  deref header := header or (- EINVAL) ;;
  fail_if negb ((bvb_wire_get_u32 input 0) =? BVB_PROTOCOL_MAGIC) ||
          negb ((bvb_wire_get_u16 input 10) =? 0) with (- EPROTO) ;;
  let decoded := {| hdr_version := bvb_wire_get_u16 input 4;
       hdr_kind := bvb_wire_get_u16 input 6;
       hdr_opcode := bvb_wire_get_u16 input 8;
       hdr_request_id := bvb_wire_get_u32 input 12;
       hdr_payload_length := bvb_wire_get_u32 input 16;
       hdr_status := bvb_wire_get_i32 input 20 |} in
  try _ := header_is_valid (Some decoded) ;;
  Ok decoded.

Definition bvb_protocol_encode_hello_request
    (output : ptr bytes) (request : ptr bvb_hello_request) : result bytes :=
  deref output := output or (- EINVAL) ;;
  deref request := request or (- EINVAL) ;;
  fail_if (request.(hello_rq_minimum_version) =? 0) ||
          (request.(hello_rq_maximum_version) <?
              request.(hello_rq_minimum_version)) with (- EINVAL) ;;
  let output := bvb_wire_put_u16 output 0
      request.(hello_rq_minimum_version) in
  let output := bvb_wire_put_u16 output 2
      request.(hello_rq_maximum_version) in
  let output := bvb_wire_put_u32 output 4 request.(hello_rq_client_flags) in
  Ok output.

Definition bvb_protocol_decode_hello_request
    (input : ptr bytes) (request : ptr bvb_hello_request) : result
        bvb_hello_request :=
  deref input := input or (- EINVAL) ;;
  deref request := request or (- EINVAL) ;;
  let decoded := {| hello_rq_minimum_version := bvb_wire_get_u16 input 0;
       hello_rq_maximum_version := bvb_wire_get_u16 input 2;
       hello_rq_client_flags := bvb_wire_get_u32 input 4 |} in
  fail_if (decoded.(hello_rq_minimum_version) =? 0) ||
          (decoded.(hello_rq_maximum_version) <?
              decoded.(hello_rq_minimum_version)) with (- EPROTO) ;;
  Ok decoded.

Definition bvb_protocol_encode_hello_response
    (output : ptr bytes) (response : ptr bvb_hello_response) : result bytes :=
  deref output := output or (- EINVAL) ;;
  deref response := response or (- EINVAL) ;;
  fail_if (response.(hello_rs_negotiated_version) =? 0) ||
          (response.(hello_rs_pointer_bits) =? 0) ||
          (response.(hello_rs_page_size) =? 0) with (- EINVAL) ;;
  let output := bvb_wire_put_u16 output 0
      response.(hello_rs_negotiated_version) in
  let output := bvb_wire_put_u16 output 2 0 in
  let output := bvb_wire_put_u32 output 4 response.(hello_rs_service_flags) in
  let output := bvb_wire_put_u32 output 8 response.(hello_rs_pointer_bits) in
  let output := bvb_wire_put_u32 output 12 response.(hello_rs_page_size) in
  Ok output.

Definition bvb_protocol_decode_hello_response
    (input : ptr bytes) (response : ptr bvb_hello_response) : result
        bvb_hello_response :=
  deref input := input or (- EINVAL) ;;
  deref response := response or (- EINVAL) ;;
  let decoded := {| hello_rs_negotiated_version := bvb_wire_get_u16 input 0;
       hello_rs_service_flags := bvb_wire_get_u32 input 4;
       hello_rs_pointer_bits := bvb_wire_get_u32 input 8;
       hello_rs_page_size := bvb_wire_get_u32 input 12 |} in
  fail_if negb ((bvb_wire_get_u16 input 2) =? 0) ||
          (decoded.(hello_rs_negotiated_version) =? 0) ||
          (decoded.(hello_rs_pointer_bits) =? 0) ||
          (decoded.(hello_rs_page_size) =? 0) with (- EPROTO) ;;
  Ok decoded.

#[global] Arguments wire_id_is_type : simpl never.
#[global] Arguments header_is_valid : simpl never.

(** ** Codecs *)

Definition header_codec : codec bvb_protocol_header :=
  mk_codec BVB_PROTOCOL_HEADER_SIZE hdr_rep bvb_protocol_encode_header
    bvb_protocol_decode_header.

Definition hello_request_codec : codec bvb_hello_request :=
  mk_codec BVB_HELLO_REQUEST_SIZE hello_rq_rep
      bvb_protocol_encode_hello_request
    bvb_protocol_decode_hello_request.

Definition hello_response_codec : codec bvb_hello_response :=
  mk_codec BVB_HELLO_RESPONSE_SIZE hello_rs_rep
      bvb_protocol_encode_hello_response
    bvb_protocol_decode_hello_response.

(** ** Their contracts *)

#[export] Instance header_codec_lawful : Lawful header_codec.
Proof. solve_lawful. Qed.
#[export] Instance header_codec_canonical : Canonical header_codec.
Proof. solve_canonical. Qed.

#[export] Instance hello_request_codec_lawful : Lawful hello_request_codec.
Proof. solve_lawful. Qed.
#[export] Instance hello_request_codec_canonical : Canonical
    hello_request_codec.
Proof. solve_canonical. Qed.
#[export] Instance hello_request_codec_errors : ErrorsByRole
    hello_request_codec.
Proof. solve_errors. Qed.

#[export] Instance hello_response_codec_lawful : Lawful hello_response_codec.
Proof. solve_lawful. Qed.
#[export] Instance hello_response_codec_canonical : Canonical
    hello_response_codec.
Proof. solve_canonical. Qed.
#[export] Instance hello_response_codec_errors : ErrorsByRole
    hello_response_codec.
Proof. solve_errors. Qed.
