(* ===== verification/ProtocolInstance.v ===== *)
(** * ProtocolInstance: instances and physical-device queries

    Models part of src/protocol.c and the structures of
    include/bvb/protocol.h it uses.  Messages of the instance and physical-device calls: global info, instance
    creation, identifiers, format, external-buffer and external-semaphore
    queries. *)

From S2P Require Import Prelude Wire Abi Codec ProtocolBase.

(** ** Structures *)

Record bvb_vulkan_global_info := mk_bvb_vulkan_global_info {
  gi_loader_api_version : Z;
  gi_native_extension_count : Z;
  gi_native_layer_count : Z;
  gi_exposed_extension_count : Z;
  gi_exposed_layer_count : Z
}.
Definition gi_rep (r : bvb_vulkan_global_info) : bool :=
  is_u32 r.(gi_loader_api_version) &&
  is_u32 r.(gi_native_extension_count) &&
  is_u32 r.(gi_native_layer_count) &&
  is_u32 r.(gi_exposed_extension_count) &&
  is_u32 r.(gi_exposed_layer_count).

Record bvb_vulkan_instance_create_request := mk_bvb_vulkan_instance_create_request {
  insc_rq_api_version : Z;
  insc_rq_flags : Z;
  insc_rq_enabled_layer_count : Z;
  insc_rq_enabled_extension_count : Z
}.
Definition insc_rq_rep (r : bvb_vulkan_instance_create_request) : bool :=
  is_u32 r.(insc_rq_api_version) &&
  is_u32 r.(insc_rq_flags) &&
  is_u32 r.(insc_rq_enabled_layer_count) &&
  is_u32 r.(insc_rq_enabled_extension_count).

Record bvb_vulkan_instance_create_response := mk_bvb_vulkan_instance_create_response {
  insc_rs_vulkan_result : Z;
  insc_rs_instance_id : Z
}.
Definition insc_rs_rep (r : bvb_vulkan_instance_create_response) : bool :=
  is_i32 r.(insc_rs_vulkan_result) &&
  is_u64 r.(insc_rs_instance_id).

Record bvb_vulkan_format_query := mk_bvb_vulkan_format_query {
  fq_physical_device_id : Z;
  fq_format : Z
}.
Definition fq_rep (r : bvb_vulkan_format_query) : bool :=
  is_u64 r.(fq_physical_device_id) &&
  is_u32 r.(fq_format).

Record bvb_vulkan_format_properties := mk_bvb_vulkan_format_properties {
  fp_linear_tiling_features : Z;
  fp_optimal_tiling_features : Z;
  fp_buffer_features : Z
}.
Definition fp_rep (r : bvb_vulkan_format_properties) : bool :=
  is_u32 r.(fp_linear_tiling_features) &&
  is_u32 r.(fp_optimal_tiling_features) &&
  is_u32 r.(fp_buffer_features).

Record bvb_vulkan_format_properties_3 := mk_bvb_vulkan_format_properties_3 {
  fp3_linear_tiling_features : Z;
  fp3_optimal_tiling_features : Z;
  fp3_buffer_features : Z
}.
Definition fp3_rep (r : bvb_vulkan_format_properties_3) : bool :=
  is_u64 r.(fp3_linear_tiling_features) &&
  is_u64 r.(fp3_optimal_tiling_features) &&
  is_u64 r.(fp3_buffer_features).

Record bvb_vulkan_image_format_query := mk_bvb_vulkan_image_format_query {
  ifq_physical_device_id : Z;
  ifq_format : Z;
  ifq_type : Z;
  ifq_tiling : Z;
  ifq_usage : Z;
  ifq_flags : Z
}.
Definition ifq_rep (r : bvb_vulkan_image_format_query) : bool :=
  is_u64 r.(ifq_physical_device_id) &&
  is_u32 r.(ifq_format) &&
  is_u32 r.(ifq_type) &&
  is_u32 r.(ifq_tiling) &&
  is_u32 r.(ifq_usage) &&
  is_u32 r.(ifq_flags).

Record bvb_vulkan_image_format_properties := mk_bvb_vulkan_image_format_properties {
  ifp_vulkan_result : Z;
  ifp_max_extent_width : Z;
  ifp_max_extent_height : Z;
  ifp_max_extent_depth : Z;
  ifp_max_mip_levels : Z;
  ifp_max_array_layers : Z;
  ifp_sample_counts : Z;
  ifp_max_resource_size : Z
}.
Definition ifp_rep (r : bvb_vulkan_image_format_properties) : bool :=
  is_i32 r.(ifp_vulkan_result) &&
  is_u32 r.(ifp_max_extent_width) &&
  is_u32 r.(ifp_max_extent_height) &&
  is_u32 r.(ifp_max_extent_depth) &&
  is_u32 r.(ifp_max_mip_levels) &&
  is_u32 r.(ifp_max_array_layers) &&
  is_u32 r.(ifp_sample_counts) &&
  is_u64 r.(ifp_max_resource_size).

Record bvb_vulkan_external_buffer_query := mk_bvb_vulkan_external_buffer_query {
  ebq_physical_device_id : Z;
  ebq_flags : Z;
  ebq_usage : Z;
  ebq_handle_type : Z
}.
Definition ebq_rep (r : bvb_vulkan_external_buffer_query) : bool :=
  is_u64 r.(ebq_physical_device_id) &&
  is_u32 r.(ebq_flags) &&
  is_u32 r.(ebq_usage) &&
  is_u32 r.(ebq_handle_type).

Record bvb_vulkan_external_buffer_properties := mk_bvb_vulkan_external_buffer_properties {
  ebp_external_memory_features : Z;
  ebp_export_from_imported_handle_types : Z;
  ebp_compatible_handle_types : Z
}.
Definition ebp_rep (r : bvb_vulkan_external_buffer_properties) : bool :=
  is_u32 r.(ebp_external_memory_features) &&
  is_u32 r.(ebp_export_from_imported_handle_types) &&
  is_u32 r.(ebp_compatible_handle_types).

Record bvb_vulkan_external_semaphore_query := mk_bvb_vulkan_external_semaphore_query {
  esq_physical_device_id : Z;
  esq_handle_type : Z
}.
Definition esq_rep (r : bvb_vulkan_external_semaphore_query) : bool :=
  is_u64 r.(esq_physical_device_id) &&
  is_u32 r.(esq_handle_type).

Record bvb_vulkan_external_semaphore_properties := mk_bvb_vulkan_external_semaphore_properties {
  esp_export_from_imported_handle_types : Z;
  esp_compatible_handle_types : Z;
  esp_external_semaphore_features : Z
}.
Definition esp_rep (r : bvb_vulkan_external_semaphore_properties) : bool :=
  is_u32 r.(esp_export_from_imported_handle_types) &&
  is_u32 r.(esp_compatible_handle_types) &&
  is_u32 r.(esp_external_semaphore_features).

(** ** Functions *)

Definition bvb_protocol_encode_vulkan_global_info
    (output : ptr bytes) (info : ptr bvb_vulkan_global_info) : result bytes :=
  deref output := output or (- EINVAL) ;;
  deref info := info or (- EINVAL) ;;
  fail_if (info.(gi_loader_api_version) =? 0) ||
          (info.(gi_native_extension_count) <?
              info.(gi_exposed_extension_count)) ||
          (info.(gi_native_layer_count) <? info.(gi_exposed_layer_count))
              with (- EINVAL) ;;
  let output := memset0 output 0 BVB_VULKAN_GLOBAL_INFO_SIZE in
  let output := bvb_wire_put_u32 output 0 info.(gi_loader_api_version) in
  let output := bvb_wire_put_u32 output 4 info.(gi_native_extension_count) in
  let output := bvb_wire_put_u32 output 8 info.(gi_native_layer_count) in
  let output := bvb_wire_put_u32 output 12
      info.(gi_exposed_extension_count) in
  let output := bvb_wire_put_u32 output 16 info.(gi_exposed_layer_count) in
  Ok output.

Definition bvb_protocol_decode_vulkan_global_info
    (input : ptr bytes) (info : ptr bvb_vulkan_global_info) : result
        bvb_vulkan_global_info :=
  deref input := input or (- EINVAL) ;;
  deref info := info or (- EINVAL) ;;
  let decoded := {| gi_loader_api_version := bvb_wire_get_u32 input 0;
       gi_native_extension_count := bvb_wire_get_u32 input 4;
       gi_native_layer_count := bvb_wire_get_u32 input 8;
       gi_exposed_extension_count := bvb_wire_get_u32 input 12;
       gi_exposed_layer_count := bvb_wire_get_u32 input 16 |} in
  fail_if (decoded.(gi_loader_api_version) =? 0) ||
          (decoded.(gi_native_extension_count) <?
              decoded.(gi_exposed_extension_count)) ||
          (decoded.(gi_native_layer_count) <?
              decoded.(gi_exposed_layer_count)) ||
          negb ((bvb_wire_get_u32 input 20) =? 0) with (- EPROTO) ;;
  Ok decoded.

Definition bvb_protocol_encode_vulkan_instance_create_request
    (output : ptr bytes) (request : ptr bvb_vulkan_instance_create_request) :
        result bytes :=
  deref output := output or (- EINVAL) ;;
  deref request := request or (- EINVAL) ;;
  let output := bvb_wire_put_u32 output 0 request.(insc_rq_api_version) in
  let output := bvb_wire_put_u32 output 4 request.(insc_rq_flags) in
  let output := bvb_wire_put_u32 output 8
      request.(insc_rq_enabled_layer_count) in
  let output := bvb_wire_put_u32 output 12
      request.(insc_rq_enabled_extension_count) in
  Ok output.

Definition bvb_protocol_decode_vulkan_instance_create_request
    (input : ptr bytes) (request : ptr bvb_vulkan_instance_create_request) :
        result bvb_vulkan_instance_create_request :=
  deref input := input or (- EINVAL) ;;
  deref request := request or (- EINVAL) ;;
  Ok {| insc_rq_api_version := bvb_wire_get_u32 input 0;
       insc_rq_flags := bvb_wire_get_u32 input 4;
       insc_rq_enabled_layer_count := bvb_wire_get_u32 input 8;
       insc_rq_enabled_extension_count := bvb_wire_get_u32 input 12 |}.

Definition bvb_protocol_encode_vulkan_instance_create_response
    (output : ptr bytes) (response : ptr bvb_vulkan_instance_create_response)
        : result bytes :=
  deref output := output or (- EINVAL) ;;
  deref response := response or (- EINVAL) ;;
  fail_if ((response.(insc_rs_vulkan_result) =? 0) &&
      (response.(insc_rs_instance_id) =? 0)) ||
          (negb (response.(insc_rs_vulkan_result) =? 0) &&
              negb (response.(insc_rs_instance_id) =? 0)) with (- EINVAL) ;;
  let output := memset0 output 0 BVB_VULKAN_INSTANCE_CREATE_RESPONSE_SIZE in
  let output := bvb_wire_put_i32 output 0 response.(insc_rs_vulkan_result) in
  let output := bvb_wire_put_u64 output 8 response.(insc_rs_instance_id) in
  Ok output.

Definition bvb_protocol_decode_vulkan_instance_create_response
    (input : ptr bytes) (response : ptr bvb_vulkan_instance_create_response)
        : result bvb_vulkan_instance_create_response :=
  deref input := input or (- EINVAL) ;;
  deref response := response or (- EINVAL) ;;
  fail_if negb ((bvb_wire_get_u32 input 4) =? 0) with (- EPROTO) ;;
  let decoded := {| insc_rs_vulkan_result := bvb_wire_get_i32 input 0;
       insc_rs_instance_id := bvb_wire_get_u64 input 8 |} in
  fail_if ((decoded.(insc_rs_vulkan_result) =? 0) &&
      (decoded.(insc_rs_instance_id) =? 0)) ||
          (negb (decoded.(insc_rs_vulkan_result) =? 0) &&
              negb (decoded.(insc_rs_instance_id) =? 0)) with (- EPROTO) ;;
  Ok decoded.

Definition bvb_protocol_encode_vulkan_instance_id
    (output : ptr bytes) (instance_id : Z) : result bytes :=
  deref output := output or (- EINVAL) ;;
  fail_if negb (wire_id_is_type instance_id 1) with (- EINVAL) ;;
  let output := bvb_wire_put_u64 output 0 instance_id in
  Ok output.

Definition bvb_protocol_decode_vulkan_instance_id
    (input : ptr bytes) (instance_id : ptr Z) : result Z :=
  deref input := input or (- EINVAL) ;;
  deref instance_id := instance_id or (- EINVAL) ;;
  let decoded := bvb_wire_get_u64 input 0 in
  fail_if negb (wire_id_is_type decoded 1) with (- EPROTO) ;;
  Ok decoded.

Definition bvb_protocol_encode_vulkan_physical_device_id
    (output : ptr bytes) (physical_device_id : Z) : result bytes :=
  deref output := output or (- EINVAL) ;;
  fail_if negb (wire_id_is_type physical_device_id 2) with (- EINVAL) ;;
  let output := bvb_wire_put_u64 output 0 physical_device_id in
  Ok output.

Definition bvb_protocol_decode_vulkan_physical_device_id
    (input : ptr bytes) (physical_device_id : ptr Z) : result Z :=
  deref input := input or (- EINVAL) ;;
  deref physical_device_id := physical_device_id or (- EINVAL) ;;
  let decoded := bvb_wire_get_u64 input 0 in
  fail_if negb (wire_id_is_type decoded 2) with (- EPROTO) ;;
  Ok decoded.

Definition bvb_protocol_encode_vulkan_format_query
    (output : ptr bytes) (query : ptr bvb_vulkan_format_query) : result bytes
        :=
  deref output := output or (- EINVAL) ;;
  deref query := query or (- EINVAL) ;;
  fail_if negb (wire_id_is_type query.(fq_physical_device_id) 2)
      with (- EINVAL) ;;
  let output := memset0 output 0 BVB_VULKAN_FORMAT_QUERY_SIZE in
  let output := bvb_wire_put_u64 output 0 query.(fq_physical_device_id) in
  let output := bvb_wire_put_u32 output 8 query.(fq_format) in
  Ok output.

Definition bvb_protocol_decode_vulkan_format_query
    (input : ptr bytes) (query : ptr bvb_vulkan_format_query) : result
        bvb_vulkan_format_query :=
  deref input := input or (- EINVAL) ;;
  deref query := query or (- EINVAL) ;;
  let decoded := {| fq_physical_device_id := bvb_wire_get_u64 input 0;
       fq_format := bvb_wire_get_u32 input 8 |} in
  fail_if negb (wire_id_is_type decoded.(fq_physical_device_id) 2) ||
          negb ((bvb_wire_get_u32 input 12) =? 0) with (- EPROTO) ;;
  Ok decoded.

Definition bvb_protocol_encode_vulkan_format_properties
    (output : ptr bytes) (properties : ptr bvb_vulkan_format_properties) :
        result bytes :=
  deref output := output or (- EINVAL) ;;
  deref properties := properties or (- EINVAL) ;;
  let output := bvb_wire_put_u32 output 0
      properties.(fp_linear_tiling_features) in
  let output := bvb_wire_put_u32 output 4
      properties.(fp_optimal_tiling_features) in
  let output := bvb_wire_put_u32 output 8 properties.(fp_buffer_features) in
  Ok output.

Definition bvb_protocol_decode_vulkan_format_properties
    (input : ptr bytes) (properties : ptr bvb_vulkan_format_properties) :
        result bvb_vulkan_format_properties :=
  deref input := input or (- EINVAL) ;;
  deref properties := properties or (- EINVAL) ;;
  Ok {| fp_linear_tiling_features := bvb_wire_get_u32 input 0;
       fp_optimal_tiling_features := bvb_wire_get_u32 input 4;
       fp_buffer_features := bvb_wire_get_u32 input 8 |}.

Definition bvb_protocol_encode_vulkan_format_properties_3
    (output : ptr bytes) (properties : ptr bvb_vulkan_format_properties_3) :
        result bytes :=
  deref output := output or (- EINVAL) ;;
  deref properties := properties or (- EINVAL) ;;
  let output := bvb_wire_put_u64 output 0
      properties.(fp3_linear_tiling_features) in
  let output := bvb_wire_put_u64 output 8
      properties.(fp3_optimal_tiling_features) in
  let output := bvb_wire_put_u64 output 16 properties.(fp3_buffer_features) in
  Ok output.

Definition bvb_protocol_decode_vulkan_format_properties_3
    (input : ptr bytes) (properties : ptr bvb_vulkan_format_properties_3) :
        result bvb_vulkan_format_properties_3 :=
  deref input := input or (- EINVAL) ;;
  deref properties := properties or (- EINVAL) ;;
  Ok {| fp3_linear_tiling_features := bvb_wire_get_u64 input 0;
       fp3_optimal_tiling_features := bvb_wire_get_u64 input 8;
       fp3_buffer_features := bvb_wire_get_u64 input 16 |}.

Definition bvb_protocol_encode_vulkan_image_format_query
    (output : ptr bytes) (query : ptr bvb_vulkan_image_format_query) : result
        bytes :=
  deref output := output or (- EINVAL) ;;
  deref query := query or (- EINVAL) ;;
  fail_if negb (wire_id_is_type query.(ifq_physical_device_id) 2)
      with (- EINVAL) ;;
  let output := memset0 output 0 BVB_VULKAN_IMAGE_FORMAT_QUERY_SIZE in
  let output := bvb_wire_put_u64 output 0 query.(ifq_physical_device_id) in
  let output := bvb_wire_put_u32 output 8 query.(ifq_format) in
  let output := bvb_wire_put_u32 output 12 query.(ifq_type) in
  let output := bvb_wire_put_u32 output 16 query.(ifq_tiling) in
  let output := bvb_wire_put_u32 output 20 query.(ifq_usage) in
  let output := bvb_wire_put_u32 output 24 query.(ifq_flags) in
  Ok output.

Definition bvb_protocol_decode_vulkan_image_format_query
    (input : ptr bytes) (query : ptr bvb_vulkan_image_format_query) : result
        bvb_vulkan_image_format_query :=
  deref input := input or (- EINVAL) ;;
  deref query := query or (- EINVAL) ;;
  let decoded := {| ifq_physical_device_id := bvb_wire_get_u64 input 0;
       ifq_format := bvb_wire_get_u32 input 8;
       ifq_type := bvb_wire_get_u32 input 12;
       ifq_tiling := bvb_wire_get_u32 input 16;
       ifq_usage := bvb_wire_get_u32 input 20;
       ifq_flags := bvb_wire_get_u32 input 24 |} in
  fail_if negb (wire_id_is_type decoded.(ifq_physical_device_id) 2) ||
          negb ((bvb_wire_get_u32 input 28) =? 0) with (- EPROTO) ;;
  Ok decoded.

Definition bvb_protocol_encode_vulkan_image_format_properties
    (output : ptr bytes)
        (properties : ptr bvb_vulkan_image_format_properties) : result bytes
        :=
  deref output := output or (- EINVAL) ;;
  deref properties := properties or (- EINVAL) ;;
  let output := memset0 output 0 BVB_VULKAN_IMAGE_FORMAT_PROPERTIES_SIZE in
  let output := bvb_wire_put_i32 output 0 properties.(ifp_vulkan_result) in
  let output := bvb_wire_put_u32 output 8 properties.(ifp_max_extent_width) in
  let output := bvb_wire_put_u32 output 12
      properties.(ifp_max_extent_height) in
  let output := bvb_wire_put_u32 output 16
      properties.(ifp_max_extent_depth) in
  let output := bvb_wire_put_u32 output 20 properties.(ifp_max_mip_levels) in
  let output := bvb_wire_put_u32 output 24
      properties.(ifp_max_array_layers) in
  let output := bvb_wire_put_u32 output 28 properties.(ifp_sample_counts) in
  let output := bvb_wire_put_u64 output 32
      properties.(ifp_max_resource_size) in
  Ok output.

Definition bvb_protocol_decode_vulkan_image_format_properties
    (input : ptr bytes) (properties : ptr bvb_vulkan_image_format_properties)
        : result bvb_vulkan_image_format_properties :=
  deref input := input or (- EINVAL) ;;
  deref properties := properties or (- EINVAL) ;;
  fail_if negb ((bvb_wire_get_u32 input 4) =? 0) with (- EPROTO) ;;
  Ok {| ifp_vulkan_result := bvb_wire_get_i32 input 0;
       ifp_max_extent_width := bvb_wire_get_u32 input 8;
       ifp_max_extent_height := bvb_wire_get_u32 input 12;
       ifp_max_extent_depth := bvb_wire_get_u32 input 16;
       ifp_max_mip_levels := bvb_wire_get_u32 input 20;
       ifp_max_array_layers := bvb_wire_get_u32 input 24;
       ifp_sample_counts := bvb_wire_get_u32 input 28;
       ifp_max_resource_size := bvb_wire_get_u64 input 32 |}.

Definition bvb_protocol_encode_vulkan_external_buffer_query
    (output : ptr bytes) (query : ptr bvb_vulkan_external_buffer_query) :
        result bytes :=
  deref output := output or (- EINVAL) ;;
  deref query := query or (- EINVAL) ;;
  fail_if negb (wire_id_is_type query.(ebq_physical_device_id) 2)
      with (- EINVAL) ;;
  let output := memset0 output 0 BVB_VULKAN_EXTERNAL_BUFFER_QUERY_SIZE in
  let output := bvb_wire_put_u64 output 0 query.(ebq_physical_device_id) in
  let output := bvb_wire_put_u32 output 8 query.(ebq_flags) in
  let output := bvb_wire_put_u32 output 12 query.(ebq_usage) in
  let output := bvb_wire_put_u32 output 16 query.(ebq_handle_type) in
  Ok output.

Definition bvb_protocol_decode_vulkan_external_buffer_query
    (input : ptr bytes) (query : ptr bvb_vulkan_external_buffer_query) :
        result bvb_vulkan_external_buffer_query :=
  deref input := input or (- EINVAL) ;;
  deref query := query or (- EINVAL) ;;
  let decoded := {| ebq_physical_device_id := bvb_wire_get_u64 input 0;
       ebq_flags := bvb_wire_get_u32 input 8;
       ebq_usage := bvb_wire_get_u32 input 12;
       ebq_handle_type := bvb_wire_get_u32 input 16 |} in
  fail_if negb (wire_id_is_type decoded.(ebq_physical_device_id) 2) ||
          negb ((bvb_wire_get_u32 input 20) =? 0) with (- EPROTO) ;;
  Ok decoded.

Definition bvb_protocol_encode_vulkan_external_buffer_properties
    (output : ptr bytes)
        (properties : ptr bvb_vulkan_external_buffer_properties) : result
        bytes :=
  deref output := output or (- EINVAL) ;;
  deref properties := properties or (- EINVAL) ;;
  let output := bvb_wire_put_u32 output 0
      properties.(ebp_external_memory_features) in
  let output := bvb_wire_put_u32 output 4
      properties.(ebp_export_from_imported_handle_types) in
  let output := bvb_wire_put_u32 output 8
      properties.(ebp_compatible_handle_types) in
  Ok output.

Definition bvb_protocol_decode_vulkan_external_buffer_properties
    (input : ptr bytes)
        (properties : ptr bvb_vulkan_external_buffer_properties) : result
        bvb_vulkan_external_buffer_properties :=
  deref input := input or (- EINVAL) ;;
  deref properties := properties or (- EINVAL) ;;
  Ok {| ebp_external_memory_features := bvb_wire_get_u32 input 0;
       ebp_export_from_imported_handle_types := bvb_wire_get_u32 input 4;
       ebp_compatible_handle_types := bvb_wire_get_u32 input 8 |}.

Definition bvb_protocol_encode_vulkan_external_semaphore_query
    (output : ptr bytes) (query : ptr bvb_vulkan_external_semaphore_query) :
        result bytes :=
  deref output := output or (- EINVAL) ;;
  deref query := query or (- EINVAL) ;;
  fail_if negb (wire_id_is_type query.(esq_physical_device_id) 2)
      with (- EINVAL) ;;
  let output := memset0 output 0 BVB_VULKAN_EXTERNAL_SEMAPHORE_QUERY_SIZE in
  let output := bvb_wire_put_u64 output 0 query.(esq_physical_device_id) in
  let output := bvb_wire_put_u32 output 8 query.(esq_handle_type) in
  Ok output.

Definition bvb_protocol_decode_vulkan_external_semaphore_query
    (input : ptr bytes) (query : ptr bvb_vulkan_external_semaphore_query) :
        result bvb_vulkan_external_semaphore_query :=
  deref input := input or (- EINVAL) ;;
  deref query := query or (- EINVAL) ;;
  let decoded := {| esq_physical_device_id := bvb_wire_get_u64 input 0;
       esq_handle_type := bvb_wire_get_u32 input 8 |} in
  fail_if negb (wire_id_is_type decoded.(esq_physical_device_id) 2) ||
          negb ((bvb_wire_get_u32 input 12) =? 0) with (- EPROTO) ;;
  Ok decoded.

Definition bvb_protocol_encode_vulkan_external_semaphore_properties
    (output : ptr bytes)
        (properties : ptr bvb_vulkan_external_semaphore_properties) : result
        bytes :=
  deref output := output or (- EINVAL) ;;
  deref properties := properties or (- EINVAL) ;;
  let output := bvb_wire_put_u32 output 0
      properties.(esp_export_from_imported_handle_types) in
  let output := bvb_wire_put_u32 output 4
      properties.(esp_compatible_handle_types) in
  let output := bvb_wire_put_u32 output 8
      properties.(esp_external_semaphore_features) in
  Ok output.

Definition bvb_protocol_decode_vulkan_external_semaphore_properties
    (input : ptr bytes)
        (properties : ptr bvb_vulkan_external_semaphore_properties) : result
        bvb_vulkan_external_semaphore_properties :=
  deref input := input or (- EINVAL) ;;
  deref properties := properties or (- EINVAL) ;;
  Ok {| esp_export_from_imported_handle_types := bvb_wire_get_u32 input 0;
       esp_compatible_handle_types := bvb_wire_get_u32 input 4;
       esp_external_semaphore_features := bvb_wire_get_u32 input 8 |}.

(** ** Codecs *)

Definition global_info_codec : codec bvb_vulkan_global_info :=
  mk_codec BVB_VULKAN_GLOBAL_INFO_SIZE gi_rep
      bvb_protocol_encode_vulkan_global_info
    bvb_protocol_decode_vulkan_global_info.

Definition instance_create_request_codec : codec
    bvb_vulkan_instance_create_request :=
  mk_codec BVB_VULKAN_INSTANCE_CREATE_REQUEST_SIZE insc_rq_rep
      bvb_protocol_encode_vulkan_instance_create_request
    bvb_protocol_decode_vulkan_instance_create_request.

Definition instance_create_response_codec : codec
    bvb_vulkan_instance_create_response :=
  mk_codec BVB_VULKAN_INSTANCE_CREATE_RESPONSE_SIZE insc_rs_rep
      bvb_protocol_encode_vulkan_instance_create_response
    bvb_protocol_decode_vulkan_instance_create_response.

Definition instance_id_codec : codec Z :=
  mk_codec BVB_VULKAN_INSTANCE_ID_SIZE is_u64
      (by_value bvb_protocol_encode_vulkan_instance_id)
    bvb_protocol_decode_vulkan_instance_id.

Definition physical_device_id_codec : codec Z :=
  mk_codec BVB_VULKAN_PHYSICAL_DEVICE_ID_SIZE is_u64
      (by_value bvb_protocol_encode_vulkan_physical_device_id)
    bvb_protocol_decode_vulkan_physical_device_id.

Definition format_query_codec : codec bvb_vulkan_format_query :=
  mk_codec BVB_VULKAN_FORMAT_QUERY_SIZE fq_rep
      bvb_protocol_encode_vulkan_format_query
    bvb_protocol_decode_vulkan_format_query.

Definition format_properties_codec : codec bvb_vulkan_format_properties :=
  mk_codec BVB_VULKAN_FORMAT_PROPERTIES_SIZE fp_rep
      bvb_protocol_encode_vulkan_format_properties
    bvb_protocol_decode_vulkan_format_properties.

Definition format_properties_3_codec : codec bvb_vulkan_format_properties_3 :=
  mk_codec BVB_VULKAN_FORMAT_PROPERTIES_3_SIZE fp3_rep
      bvb_protocol_encode_vulkan_format_properties_3
    bvb_protocol_decode_vulkan_format_properties_3.

Definition image_format_query_codec : codec bvb_vulkan_image_format_query :=
  mk_codec BVB_VULKAN_IMAGE_FORMAT_QUERY_SIZE ifq_rep
      bvb_protocol_encode_vulkan_image_format_query
    bvb_protocol_decode_vulkan_image_format_query.

Definition image_format_properties_codec : codec
    bvb_vulkan_image_format_properties :=
  mk_codec BVB_VULKAN_IMAGE_FORMAT_PROPERTIES_SIZE ifp_rep
      bvb_protocol_encode_vulkan_image_format_properties
    bvb_protocol_decode_vulkan_image_format_properties.

Definition external_buffer_query_codec : codec
    bvb_vulkan_external_buffer_query :=
  mk_codec BVB_VULKAN_EXTERNAL_BUFFER_QUERY_SIZE ebq_rep
      bvb_protocol_encode_vulkan_external_buffer_query
    bvb_protocol_decode_vulkan_external_buffer_query.

Definition external_buffer_properties_codec : codec
    bvb_vulkan_external_buffer_properties :=
  mk_codec BVB_VULKAN_EXTERNAL_BUFFER_PROPERTIES_SIZE ebp_rep
      bvb_protocol_encode_vulkan_external_buffer_properties
    bvb_protocol_decode_vulkan_external_buffer_properties.

Definition external_semaphore_query_codec : codec
    bvb_vulkan_external_semaphore_query :=
  mk_codec BVB_VULKAN_EXTERNAL_SEMAPHORE_QUERY_SIZE esq_rep
      bvb_protocol_encode_vulkan_external_semaphore_query
    bvb_protocol_decode_vulkan_external_semaphore_query.

Definition external_semaphore_properties_codec : codec
    bvb_vulkan_external_semaphore_properties :=
  mk_codec BVB_VULKAN_EXTERNAL_SEMAPHORE_PROPERTIES_SIZE esp_rep
      bvb_protocol_encode_vulkan_external_semaphore_properties
    bvb_protocol_decode_vulkan_external_semaphore_properties.

(** ** Their contracts *)

#[export] Instance global_info_codec_lawful : Lawful global_info_codec.
Proof. solve_lawful. Qed.
#[export] Instance global_info_codec_canonical : Canonical global_info_codec.
Proof. solve_canonical. Qed.
#[export] Instance global_info_codec_errors : ErrorsByRole global_info_codec.
Proof. solve_errors. Qed.

#[export] Instance instance_create_request_codec_lawful : Lawful
    instance_create_request_codec.
Proof. solve_lawful. Qed.
#[export] Instance instance_create_request_codec_canonical : Canonical
    instance_create_request_codec.
Proof. solve_canonical. Qed.
#[export] Instance instance_create_request_codec_errors : ErrorsByRole
    instance_create_request_codec.
Proof. solve_errors. Qed.

#[export] Instance instance_create_response_codec_lawful : Lawful
    instance_create_response_codec.
Proof. solve_lawful. Qed.
#[export] Instance instance_create_response_codec_canonical : Canonical
    instance_create_response_codec.
Proof. solve_canonical. Qed.
#[export] Instance instance_create_response_codec_errors : ErrorsByRole
    instance_create_response_codec.
Proof. solve_errors. Qed.

#[export] Instance instance_id_codec_lawful : Lawful instance_id_codec.
Proof. solve_lawful. Qed.
#[export] Instance instance_id_codec_canonical : Canonical instance_id_codec.
Proof. solve_canonical. Qed.
#[export] Instance instance_id_codec_errors : ErrorsByRole instance_id_codec.
Proof. solve_errors. Qed.

#[export] Instance physical_device_id_codec_lawful : Lawful
    physical_device_id_codec.
Proof. solve_lawful. Qed.
#[export] Instance physical_device_id_codec_canonical : Canonical
    physical_device_id_codec.
Proof. solve_canonical. Qed.
#[export] Instance physical_device_id_codec_errors : ErrorsByRole
    physical_device_id_codec.
Proof. solve_errors. Qed.

#[export] Instance format_query_codec_lawful : Lawful format_query_codec.
Proof. solve_lawful. Qed.
#[export] Instance format_query_codec_canonical : Canonical
    format_query_codec.
Proof. solve_canonical. Qed.
#[export] Instance format_query_codec_errors : ErrorsByRole
    format_query_codec.
Proof. solve_errors. Qed.

#[export] Instance format_properties_codec_lawful : Lawful
    format_properties_codec.
Proof. solve_lawful. Qed.
#[export] Instance format_properties_codec_canonical : Canonical
    format_properties_codec.
Proof. solve_canonical. Qed.
#[export] Instance format_properties_codec_errors : ErrorsByRole
    format_properties_codec.
Proof. solve_errors. Qed.

#[export] Instance format_properties_3_codec_lawful : Lawful
    format_properties_3_codec.
Proof. solve_lawful. Qed.
#[export] Instance format_properties_3_codec_canonical : Canonical
    format_properties_3_codec.
Proof. solve_canonical. Qed.
#[export] Instance format_properties_3_codec_errors : ErrorsByRole
    format_properties_3_codec.
Proof. solve_errors. Qed.

#[export] Instance image_format_query_codec_lawful : Lawful
    image_format_query_codec.
Proof. solve_lawful. Qed.
#[export] Instance image_format_query_codec_canonical : Canonical
    image_format_query_codec.
Proof. solve_canonical. Qed.
#[export] Instance image_format_query_codec_errors : ErrorsByRole
    image_format_query_codec.
Proof. solve_errors. Qed.

#[export] Instance image_format_properties_codec_lawful : Lawful
    image_format_properties_codec.
Proof. solve_lawful. Qed.
#[export] Instance image_format_properties_codec_canonical : Canonical
    image_format_properties_codec.
Proof. solve_canonical. Qed.
#[export] Instance image_format_properties_codec_errors : ErrorsByRole
    image_format_properties_codec.
Proof. solve_errors. Qed.

#[export] Instance external_buffer_query_codec_lawful : Lawful
    external_buffer_query_codec.
Proof. solve_lawful. Qed.
#[export] Instance external_buffer_query_codec_canonical : Canonical
    external_buffer_query_codec.
Proof. solve_canonical. Qed.
#[export] Instance external_buffer_query_codec_errors : ErrorsByRole
    external_buffer_query_codec.
Proof. solve_errors. Qed.

#[export] Instance external_buffer_properties_codec_lawful : Lawful
    external_buffer_properties_codec.
Proof. solve_lawful. Qed.
#[export] Instance external_buffer_properties_codec_canonical : Canonical
    external_buffer_properties_codec.
Proof. solve_canonical. Qed.
#[export] Instance external_buffer_properties_codec_errors : ErrorsByRole
    external_buffer_properties_codec.
Proof. solve_errors. Qed.

#[export] Instance external_semaphore_query_codec_lawful : Lawful
    external_semaphore_query_codec.
Proof. solve_lawful. Qed.
#[export] Instance external_semaphore_query_codec_canonical : Canonical
    external_semaphore_query_codec.
Proof. solve_canonical. Qed.
#[export] Instance external_semaphore_query_codec_errors : ErrorsByRole
    external_semaphore_query_codec.
Proof. solve_errors. Qed.

#[export] Instance external_semaphore_properties_codec_lawful : Lawful
    external_semaphore_properties_codec.
Proof. solve_lawful. Qed.
#[export] Instance external_semaphore_properties_codec_canonical : Canonical
    external_semaphore_properties_codec.
Proof. solve_canonical. Qed.
#[export] Instance external_semaphore_properties_codec_errors : ErrorsByRole
    external_semaphore_properties_codec.
Proof. solve_errors. Qed.
