(* ===== verification/ProtocolDevice.v ===== *)
(** * ProtocolDevice: device features, creation and queues

    Models part of src/protocol.c and the structures of
    include/bvb/protocol.h it uses.  The 25 core feature bits, device extension queries, the plain device
    creation request, queue requests and the bare Vulkan result. *)

From S2P Require Import Prelude Wire Abi Codec ProtocolBase.

(** ** Structures *)

Record bvb_vulkan_core_features := mk_bvb_vulkan_core_features {
  cf_shader_draw_parameters : Z;
  cf_buffer_device_address : Z;
  cf_descriptor_indexing : Z;
  cf_descriptor_binding_sampled_image_update_after_bind : Z;
  cf_descriptor_binding_update_unused_while_pending : Z;
  cf_descriptor_binding_partially_bound : Z;
  cf_host_query_reset : Z;
  cf_runtime_descriptor_array : Z;
  cf_sampler_mirror_clamp_to_edge : Z;
  cf_scalar_block_layout : Z;
  cf_timeline_semaphore : Z;
  cf_uniform_buffer_standard_layout : Z;
  cf_vulkan_memory_model : Z;
  cf_compute_full_subgroups : Z;
  cf_dynamic_rendering : Z;
  cf_maintenance4 : Z;
  cf_shader_demote_to_helper_invocation : Z;
  cf_shader_zero_initialize_workgroup_memory : Z;
  cf_subgroup_size_control : Z;
  cf_synchronization2 : Z;
  cf_depth_clip_enable : Z;
  cf_robust_buffer_access2 : Z;
  cf_null_descriptor : Z;
  cf_maintenance5 : Z;
  cf_maintenance6 : Z
}.
Definition cf_rep (r : bvb_vulkan_core_features) : bool :=
  is_u32 r.(cf_shader_draw_parameters) &&
  is_u32 r.(cf_buffer_device_address) &&
  is_u32 r.(cf_descriptor_indexing) &&
  is_u32 r.(cf_descriptor_binding_sampled_image_update_after_bind) &&
  is_u32 r.(cf_descriptor_binding_update_unused_while_pending) &&
  is_u32 r.(cf_descriptor_binding_partially_bound) &&
  is_u32 r.(cf_host_query_reset) &&
  is_u32 r.(cf_runtime_descriptor_array) &&
  is_u32 r.(cf_sampler_mirror_clamp_to_edge) &&
  is_u32 r.(cf_scalar_block_layout) &&
  is_u32 r.(cf_timeline_semaphore) &&
  is_u32 r.(cf_uniform_buffer_standard_layout) &&
  is_u32 r.(cf_vulkan_memory_model) &&
  is_u32 r.(cf_compute_full_subgroups) &&
  is_u32 r.(cf_dynamic_rendering) &&
  is_u32 r.(cf_maintenance4) &&
  is_u32 r.(cf_shader_demote_to_helper_invocation) &&
  is_u32 r.(cf_shader_zero_initialize_workgroup_memory) &&
  is_u32 r.(cf_subgroup_size_control) &&
  is_u32 r.(cf_synchronization2) &&
  is_u32 r.(cf_depth_clip_enable) &&
  is_u32 r.(cf_robust_buffer_access2) &&
  is_u32 r.(cf_null_descriptor) &&
  is_u32 r.(cf_maintenance5) &&
  is_u32 r.(cf_maintenance6).

Record bvb_vulkan_device_extension_query := mk_bvb_vulkan_device_extension_query {
  deq_physical_device_id : Z;
  deq_first : Z;
  deq_max_count : Z
}.
Definition deq_rep (r : bvb_vulkan_device_extension_query) : bool :=
  is_u64 r.(deq_physical_device_id) &&
  is_u32 r.(deq_first) &&
  is_u32 r.(deq_max_count).

Record bvb_vulkan_device_create_request := mk_bvb_vulkan_device_create_request {
  dc_rq_physical_device_id : Z;
  dc_rq_flags : Z;
  dc_rq_queue_family_index : Z;
  dc_rq_queue_count : Z;
  dc_rq_queue_priority_bits : Z;
  dc_rq_enabled_layer_count : Z;
  dc_rq_enabled_extension_count : Z
}.
Definition dc_rq_rep (r : bvb_vulkan_device_create_request) : bool :=
  is_u64 r.(dc_rq_physical_device_id) &&
  is_u32 r.(dc_rq_flags) &&
  is_u32 r.(dc_rq_queue_family_index) &&
  is_u32 r.(dc_rq_queue_count) &&
  is_u32 r.(dc_rq_queue_priority_bits) &&
  is_u32 r.(dc_rq_enabled_layer_count) &&
  is_u32 r.(dc_rq_enabled_extension_count).

Record bvb_vulkan_device_create_response := mk_bvb_vulkan_device_create_response {
  dc_rs_vulkan_result : Z;
  dc_rs_device_id : Z
}.
Definition dc_rs_rep (r : bvb_vulkan_device_create_response) : bool :=
  is_i32 r.(dc_rs_vulkan_result) &&
  is_u64 r.(dc_rs_device_id).

Record bvb_vulkan_device_queue_request := mk_bvb_vulkan_device_queue_request {
  dq_rq_device_id : Z;
  dq_rq_queue_family_index : Z;
  dq_rq_queue_index : Z
}.
Definition dq_rq_rep (r : bvb_vulkan_device_queue_request) : bool :=
  is_u64 r.(dq_rq_device_id) &&
  is_u32 r.(dq_rq_queue_family_index) &&
  is_u32 r.(dq_rq_queue_index).

(** ** Functions *)

Definition bvb_protocol_encode_vulkan_core_features
    (output : ptr bytes) (features : ptr bvb_vulkan_core_features) : result
        bytes :=
  deref output := output or (- EINVAL) ;;
  deref features := features or (- EINVAL) ;;
  fail_if (1 <? features.(cf_shader_draw_parameters)) ||
          (1 <? features.(cf_buffer_device_address)) ||
          (1 <? features.(cf_descriptor_indexing)) ||
          (1 <? features.(cf_descriptor_binding_sampled_image_update_after_bind)) ||
          (1 <? features.(cf_descriptor_binding_update_unused_while_pending)) ||
          (1 <? features.(cf_descriptor_binding_partially_bound)) ||
          (1 <? features.(cf_host_query_reset)) ||
          (1 <? features.(cf_runtime_descriptor_array)) ||
          (1 <? features.(cf_sampler_mirror_clamp_to_edge)) ||
          (1 <? features.(cf_scalar_block_layout)) ||
          (1 <? features.(cf_timeline_semaphore)) ||
          (1 <? features.(cf_uniform_buffer_standard_layout)) ||
          (1 <? features.(cf_vulkan_memory_model)) ||
          (1 <? features.(cf_compute_full_subgroups)) ||
          (1 <? features.(cf_dynamic_rendering)) ||
          (1 <? features.(cf_maintenance4)) ||
          (1 <? features.(cf_shader_demote_to_helper_invocation)) ||
          (1 <? features.(cf_shader_zero_initialize_workgroup_memory)) ||
          (1 <? features.(cf_subgroup_size_control)) ||
          (1 <? features.(cf_synchronization2)) ||
          (1 <? features.(cf_depth_clip_enable)) ||
          (1 <? features.(cf_robust_buffer_access2)) ||
          (1 <? features.(cf_null_descriptor)) ||
          (1 <? features.(cf_maintenance5)) ||
          (1 <? features.(cf_maintenance6)) with (- EINVAL) ;;
  let output := bvb_wire_put_u32 output 0
      features.(cf_shader_draw_parameters) in
  let output := bvb_wire_put_u32 output 4
      features.(cf_buffer_device_address) in
  let output := bvb_wire_put_u32 output 8 features.(cf_descriptor_indexing) in
  let output := bvb_wire_put_u32 output 12
      features.(cf_descriptor_binding_sampled_image_update_after_bind) in
  let output := bvb_wire_put_u32 output 16
      features.(cf_descriptor_binding_update_unused_while_pending) in
  let output := bvb_wire_put_u32 output 20
      features.(cf_descriptor_binding_partially_bound) in
  let output := bvb_wire_put_u32 output 24 features.(cf_host_query_reset) in
  let output := bvb_wire_put_u32 output 28
      features.(cf_runtime_descriptor_array) in
  let output := bvb_wire_put_u32 output 32
      features.(cf_sampler_mirror_clamp_to_edge) in
  let output := bvb_wire_put_u32 output 36
      features.(cf_scalar_block_layout) in
  let output := bvb_wire_put_u32 output 40 features.(cf_timeline_semaphore) in
  let output := bvb_wire_put_u32 output 44
      features.(cf_uniform_buffer_standard_layout) in
  let output := bvb_wire_put_u32 output 48
      features.(cf_vulkan_memory_model) in
  let output := bvb_wire_put_u32 output 52
      features.(cf_compute_full_subgroups) in
  let output := bvb_wire_put_u32 output 56 features.(cf_dynamic_rendering) in
  let output := bvb_wire_put_u32 output 60 features.(cf_maintenance4) in
  let output := bvb_wire_put_u32 output 64
      features.(cf_shader_demote_to_helper_invocation) in
  let output := bvb_wire_put_u32 output 68
      features.(cf_shader_zero_initialize_workgroup_memory) in
  let output := bvb_wire_put_u32 output 72
      features.(cf_subgroup_size_control) in
  let output := bvb_wire_put_u32 output 76 features.(cf_synchronization2) in
  let output := bvb_wire_put_u32 output 80 features.(cf_depth_clip_enable) in
  let output := bvb_wire_put_u32 output 84
      features.(cf_robust_buffer_access2) in
  let output := bvb_wire_put_u32 output 88 features.(cf_null_descriptor) in
  let output := bvb_wire_put_u32 output 92 features.(cf_maintenance5) in
  let output := bvb_wire_put_u32 output 96 features.(cf_maintenance6) in
  Ok output.

Definition bvb_protocol_decode_vulkan_core_features
    (input : ptr bytes) (features : ptr bvb_vulkan_core_features) : result
        bvb_vulkan_core_features :=
  deref input := input or (- EINVAL) ;;
  deref features := features or (- EINVAL) ;;
  let shader_draw_parameters := bvb_wire_get_u32 input 0 in
  let buffer_device_address := bvb_wire_get_u32 input 4 in
  let descriptor_indexing := bvb_wire_get_u32 input 8 in
  let descriptor_binding_sampled_image_update_after_bind
      := bvb_wire_get_u32 input 12 in
  let descriptor_binding_update_unused_while_pending
      := bvb_wire_get_u32 input 16 in
  let descriptor_binding_partially_bound := bvb_wire_get_u32 input 20 in
  let host_query_reset := bvb_wire_get_u32 input 24 in
  let runtime_descriptor_array := bvb_wire_get_u32 input 28 in
  let sampler_mirror_clamp_to_edge := bvb_wire_get_u32 input 32 in
  let scalar_block_layout := bvb_wire_get_u32 input 36 in
  let timeline_semaphore := bvb_wire_get_u32 input 40 in
  let uniform_buffer_standard_layout := bvb_wire_get_u32 input 44 in
  let vulkan_memory_model := bvb_wire_get_u32 input 48 in
  let compute_full_subgroups := bvb_wire_get_u32 input 52 in
  let dynamic_rendering := bvb_wire_get_u32 input 56 in
  let maintenance4 := bvb_wire_get_u32 input 60 in
  let shader_demote_to_helper_invocation := bvb_wire_get_u32 input 64 in
  let shader_zero_initialize_workgroup_memory := bvb_wire_get_u32 input 68 in
  let subgroup_size_control := bvb_wire_get_u32 input 72 in
  let synchronization2 := bvb_wire_get_u32 input 76 in
  let depth_clip_enable := bvb_wire_get_u32 input 80 in
  let robust_buffer_access2 := bvb_wire_get_u32 input 84 in
  let null_descriptor := bvb_wire_get_u32 input 88 in
  let maintenance5 := bvb_wire_get_u32 input 92 in
  let maintenance6 := bvb_wire_get_u32 input 96 in
  fail_if (1 <? shader_draw_parameters) ||
          (1 <? buffer_device_address) ||
          (1 <? descriptor_indexing) ||
          (1 <? descriptor_binding_sampled_image_update_after_bind) ||
          (1 <? descriptor_binding_update_unused_while_pending) ||
          (1 <? descriptor_binding_partially_bound) ||
          (1 <? host_query_reset) ||
          (1 <? runtime_descriptor_array) ||
          (1 <? sampler_mirror_clamp_to_edge) ||
          (1 <? scalar_block_layout) ||
          (1 <? timeline_semaphore) ||
          (1 <? uniform_buffer_standard_layout) ||
          (1 <? vulkan_memory_model) ||
          (1 <? compute_full_subgroups) ||
          (1 <? dynamic_rendering) ||
          (1 <? maintenance4) ||
          (1 <? shader_demote_to_helper_invocation) ||
          (1 <? shader_zero_initialize_workgroup_memory) ||
          (1 <? subgroup_size_control) ||
          (1 <? synchronization2) with (- EPROTO) ;;
  fail_if (1 <? depth_clip_enable) ||
          (1 <? robust_buffer_access2) ||
          (1 <? null_descriptor) ||
          (1 <? maintenance5) ||
          (1 <? maintenance6) with (- EPROTO) ;;
  Ok {| cf_shader_draw_parameters := shader_draw_parameters;
       cf_buffer_device_address := buffer_device_address;
       cf_descriptor_indexing := descriptor_indexing;
       cf_descriptor_binding_sampled_image_update_after_bind
           := descriptor_binding_sampled_image_update_after_bind;
       cf_descriptor_binding_update_unused_while_pending
           := descriptor_binding_update_unused_while_pending;
       cf_descriptor_binding_partially_bound
           := descriptor_binding_partially_bound;
       cf_host_query_reset := host_query_reset;
       cf_runtime_descriptor_array := runtime_descriptor_array;
       cf_sampler_mirror_clamp_to_edge := sampler_mirror_clamp_to_edge;
       cf_scalar_block_layout := scalar_block_layout;
       cf_timeline_semaphore := timeline_semaphore;
       cf_uniform_buffer_standard_layout := uniform_buffer_standard_layout;
       cf_vulkan_memory_model := vulkan_memory_model;
       cf_compute_full_subgroups := compute_full_subgroups;
       cf_dynamic_rendering := dynamic_rendering;
       cf_maintenance4 := maintenance4;
       cf_shader_demote_to_helper_invocation
           := shader_demote_to_helper_invocation;
       cf_shader_zero_initialize_workgroup_memory
           := shader_zero_initialize_workgroup_memory;
       cf_subgroup_size_control := subgroup_size_control;
       cf_synchronization2 := synchronization2;
       cf_depth_clip_enable := depth_clip_enable;
       cf_robust_buffer_access2 := robust_buffer_access2;
       cf_null_descriptor := null_descriptor;
       cf_maintenance5 := maintenance5;
       cf_maintenance6 := maintenance6 |}.

Definition bvb_protocol_encode_vulkan_device_extension_query
    (output : ptr bytes) (query : ptr bvb_vulkan_device_extension_query) :
        result bytes :=
  deref output := output or (- EINVAL) ;;
  deref query := query or (- EINVAL) ;;
  fail_if negb (wire_id_is_type query.(deq_physical_device_id) 2)
      with (- EINVAL) ;;
  let output := memset0 output 0 BVB_VULKAN_DEVICE_EXTENSION_QUERY_SIZE in
  let output := bvb_wire_put_u64 output 0 query.(deq_physical_device_id) in
  let output := bvb_wire_put_u32 output 8 query.(deq_first) in
  let output := bvb_wire_put_u32 output 12 query.(deq_max_count) in
  Ok output.

Definition bvb_protocol_decode_vulkan_device_extension_query
    (input : ptr bytes) (query : ptr bvb_vulkan_device_extension_query) :
        result bvb_vulkan_device_extension_query :=
  deref input := input or (- EINVAL) ;;
  deref query := query or (- EINVAL) ;;
  let decoded := {| deq_physical_device_id := bvb_wire_get_u64 input 0;
       deq_first := bvb_wire_get_u32 input 8;
       deq_max_count := bvb_wire_get_u32 input 12 |} in
  fail_if negb (wire_id_is_type decoded.(deq_physical_device_id) 2)
      with (- EPROTO) ;;
  Ok decoded.

Definition bvb_protocol_encode_vulkan_device_create_request
    (output : ptr bytes) (request : ptr bvb_vulkan_device_create_request) :
        result bytes :=
  deref output := output or (- EINVAL) ;;
  deref request := request or (- EINVAL) ;;
  fail_if negb (wire_id_is_type request.(dc_rq_physical_device_id) 2)
      with (- EINVAL) ;;
  let output := memset0 output 0 BVB_VULKAN_DEVICE_CREATE_REQUEST_SIZE in
  let output := bvb_wire_put_u64 output 0
      request.(dc_rq_physical_device_id) in
  let output := bvb_wire_put_u32 output 8 request.(dc_rq_flags) in
  let output := bvb_wire_put_u32 output 12
      request.(dc_rq_queue_family_index) in
  let output := bvb_wire_put_u32 output 16 request.(dc_rq_queue_count) in
  let output := bvb_wire_put_u32 output 20
      request.(dc_rq_queue_priority_bits) in
  let output := bvb_wire_put_u32 output 24
      request.(dc_rq_enabled_layer_count) in
  let output := bvb_wire_put_u32 output 28
      request.(dc_rq_enabled_extension_count) in
  Ok output.

Definition bvb_protocol_decode_vulkan_device_create_request
    (input : ptr bytes) (request : ptr bvb_vulkan_device_create_request) :
        result bvb_vulkan_device_create_request :=
  deref input := input or (- EINVAL) ;;
  deref request := request or (- EINVAL) ;;
  let decoded := {| dc_rq_physical_device_id := bvb_wire_get_u64 input 0;
       dc_rq_flags := bvb_wire_get_u32 input 8;
       dc_rq_queue_family_index := bvb_wire_get_u32 input 12;
       dc_rq_queue_count := bvb_wire_get_u32 input 16;
       dc_rq_queue_priority_bits := bvb_wire_get_u32 input 20;
       dc_rq_enabled_layer_count := bvb_wire_get_u32 input 24;
       dc_rq_enabled_extension_count := bvb_wire_get_u32 input 28 |} in
  fail_if negb (wire_id_is_type decoded.(dc_rq_physical_device_id) 2)
      with (- EPROTO) ;;
  Ok decoded.

Definition bvb_protocol_encode_vulkan_device_create_response
    (output : ptr bytes) (response : ptr bvb_vulkan_device_create_response) :
        result bytes :=
  deref output := output or (- EINVAL) ;;
  deref response := response or (- EINVAL) ;;
  fail_if ((response.(dc_rs_vulkan_result) =? 0) &&
      negb (wire_id_is_type response.(dc_rs_device_id) 3)) ||
          (negb (response.(dc_rs_vulkan_result) =? 0) &&
              negb (response.(dc_rs_device_id) =? 0)) with (- EINVAL) ;;
  let output := memset0 output 0 BVB_VULKAN_DEVICE_CREATE_RESPONSE_SIZE in
  let output := bvb_wire_put_i32 output 0 response.(dc_rs_vulkan_result) in
  let output := bvb_wire_put_u64 output 8 response.(dc_rs_device_id) in
  Ok output.

Definition bvb_protocol_decode_vulkan_device_create_response
    (input : ptr bytes) (response : ptr bvb_vulkan_device_create_response) :
        result bvb_vulkan_device_create_response :=
  deref input := input or (- EINVAL) ;;
  deref response := response or (- EINVAL) ;;
  fail_if negb ((bvb_wire_get_u32 input 4) =? 0) with (- EINVAL) ;;
  let decoded := {| dc_rs_vulkan_result := bvb_wire_get_i32 input 0;
       dc_rs_device_id := bvb_wire_get_u64 input 8 |} in
  fail_if ((decoded.(dc_rs_vulkan_result) =? 0) &&
      negb (wire_id_is_type decoded.(dc_rs_device_id) 3)) ||
          (negb (decoded.(dc_rs_vulkan_result) =? 0) &&
              negb (decoded.(dc_rs_device_id) =? 0)) with (- EPROTO) ;;
  Ok decoded.

Definition bvb_protocol_encode_vulkan_device_id
    (output : ptr bytes) (device_id : Z) : result bytes :=
  deref output := output or (- EINVAL) ;;
  fail_if negb (wire_id_is_type device_id 3) with (- EINVAL) ;;
  let output := bvb_wire_put_u64 output 0 device_id in
  Ok output.

Definition bvb_protocol_decode_vulkan_device_id
    (input : ptr bytes) (device_id : ptr Z) : result Z :=
  deref input := input or (- EINVAL) ;;
  deref device_id := device_id or (- EINVAL) ;;
  let decoded := bvb_wire_get_u64 input 0 in
  fail_if negb (wire_id_is_type decoded 3) with (- EPROTO) ;;
  Ok decoded.

Definition bvb_protocol_encode_vulkan_device_queue_request
    (output : ptr bytes) (request : ptr bvb_vulkan_device_queue_request) :
        result bytes :=
  deref output := output or (- EINVAL) ;;
  deref request := request or (- EINVAL) ;;
  fail_if negb (wire_id_is_type request.(dq_rq_device_id) 3)
      with (- EINVAL) ;;
  let output := memset0 output 0 BVB_VULKAN_DEVICE_QUEUE_REQUEST_SIZE in
  let output := bvb_wire_put_u64 output 0 request.(dq_rq_device_id) in
  let output := bvb_wire_put_u32 output 8
      request.(dq_rq_queue_family_index) in
  let output := bvb_wire_put_u32 output 12 request.(dq_rq_queue_index) in
  Ok output.

Definition bvb_protocol_decode_vulkan_device_queue_request
    (input : ptr bytes) (request : ptr bvb_vulkan_device_queue_request) :
        result bvb_vulkan_device_queue_request :=
  deref input := input or (- EINVAL) ;;
  deref request := request or (- EINVAL) ;;
  let decoded := {| dq_rq_device_id := bvb_wire_get_u64 input 0;
       dq_rq_queue_family_index := bvb_wire_get_u32 input 8;
       dq_rq_queue_index := bvb_wire_get_u32 input 12 |} in
  fail_if negb (wire_id_is_type decoded.(dq_rq_device_id) 3)
      with (- EPROTO) ;;
  Ok decoded.

Definition bvb_protocol_encode_vulkan_queue_id
    (output : ptr bytes) (queue_id : Z) : result bytes :=
  deref output := output or (- EINVAL) ;;
  fail_if negb (wire_id_is_type queue_id 4) with (- EINVAL) ;;
  let output := bvb_wire_put_u64 output 0 queue_id in
  Ok output.

Definition bvb_protocol_decode_vulkan_queue_id
    (input : ptr bytes) (queue_id : ptr Z) : result Z :=
  deref input := input or (- EINVAL) ;;
  deref queue_id := queue_id or (- EINVAL) ;;
  let decoded := bvb_wire_get_u64 input 0 in
  fail_if negb (wire_id_is_type decoded 4) with (- EPROTO) ;;
  Ok decoded.

Definition bvb_protocol_encode_vulkan_result
    (output : ptr bytes) (vulkan_result : Z) : result bytes :=
  deref output := output or (- EINVAL) ;;
  let output := bvb_wire_put_i32 output 0 vulkan_result in
  Ok output.

Definition bvb_protocol_decode_vulkan_result
    (input : ptr bytes) (vulkan_result : ptr Z) : result Z :=
  deref input := input or (- EINVAL) ;;
  deref vulkan_result := vulkan_result or (- EINVAL) ;;
  Ok (bvb_wire_get_i32 input 0).

(** ** Codecs *)

Definition core_features_codec : codec bvb_vulkan_core_features :=
  mk_codec BVB_VULKAN_CORE_FEATURES_SIZE cf_rep
      bvb_protocol_encode_vulkan_core_features
    bvb_protocol_decode_vulkan_core_features.

Definition device_extension_query_codec : codec
    bvb_vulkan_device_extension_query :=
  mk_codec BVB_VULKAN_DEVICE_EXTENSION_QUERY_SIZE deq_rep
      bvb_protocol_encode_vulkan_device_extension_query
    bvb_protocol_decode_vulkan_device_extension_query.

Definition device_create_request_codec : codec
    bvb_vulkan_device_create_request :=
  mk_codec BVB_VULKAN_DEVICE_CREATE_REQUEST_SIZE dc_rq_rep
      bvb_protocol_encode_vulkan_device_create_request
    bvb_protocol_decode_vulkan_device_create_request.

Definition device_create_response_codec : codec
    bvb_vulkan_device_create_response :=
  mk_codec BVB_VULKAN_DEVICE_CREATE_RESPONSE_SIZE dc_rs_rep
      bvb_protocol_encode_vulkan_device_create_response
    bvb_protocol_decode_vulkan_device_create_response.

Definition device_id_codec : codec Z :=
  mk_codec BVB_VULKAN_DEVICE_ID_SIZE is_u64
      (by_value bvb_protocol_encode_vulkan_device_id)
    bvb_protocol_decode_vulkan_device_id.

Definition device_queue_request_codec : codec bvb_vulkan_device_queue_request
    :=
  mk_codec BVB_VULKAN_DEVICE_QUEUE_REQUEST_SIZE dq_rq_rep
      bvb_protocol_encode_vulkan_device_queue_request
    bvb_protocol_decode_vulkan_device_queue_request.

Definition queue_id_codec : codec Z :=
  mk_codec BVB_VULKAN_QUEUE_ID_SIZE is_u64
      (by_value bvb_protocol_encode_vulkan_queue_id)
    bvb_protocol_decode_vulkan_queue_id.

Definition result_codec : codec Z :=
  mk_codec BVB_VULKAN_RESULT_SIZE is_i32
      (by_value bvb_protocol_encode_vulkan_result)
    bvb_protocol_decode_vulkan_result.

(** ** Their contracts *)

#[export] Instance core_features_codec_lawful : Lawful core_features_codec.
Proof. solve_lawful. Qed.
#[export] Instance core_features_codec_canonical : Canonical
    core_features_codec.
Proof. solve_canonical. Qed.
#[export] Instance core_features_codec_errors : ErrorsByRole
    core_features_codec.
Proof. solve_errors. Qed.

#[export] Instance device_extension_query_codec_lawful : Lawful
    device_extension_query_codec.
Proof. solve_lawful. Qed.
#[export] Instance device_extension_query_codec_canonical : Canonical
    device_extension_query_codec.
Proof. solve_canonical. Qed.
#[export] Instance device_extension_query_codec_errors : ErrorsByRole
    device_extension_query_codec.
Proof. solve_errors. Qed.

#[export] Instance device_create_request_codec_lawful : Lawful
    device_create_request_codec.
Proof. solve_lawful. Qed.
#[export] Instance device_create_request_codec_canonical : Canonical
    device_create_request_codec.
Proof. solve_canonical. Qed.
#[export] Instance device_create_request_codec_errors : ErrorsByRole
    device_create_request_codec.
Proof. solve_errors. Qed.

#[export] Instance device_create_response_codec_lawful : Lawful
    device_create_response_codec.
Proof. solve_lawful. Qed.
#[export] Instance device_create_response_codec_canonical : Canonical
    device_create_response_codec.
Proof. solve_canonical. Qed.

#[export] Instance device_id_codec_lawful : Lawful device_id_codec.
Proof. solve_lawful. Qed.
#[export] Instance device_id_codec_canonical : Canonical device_id_codec.
Proof. solve_canonical. Qed.
#[export] Instance device_id_codec_errors : ErrorsByRole device_id_codec.
Proof. solve_errors. Qed.

#[export] Instance device_queue_request_codec_lawful : Lawful
    device_queue_request_codec.
Proof. solve_lawful. Qed.
#[export] Instance device_queue_request_codec_canonical : Canonical
    device_queue_request_codec.
Proof. solve_canonical. Qed.
#[export] Instance device_queue_request_codec_errors : ErrorsByRole
    device_queue_request_codec.
Proof. solve_errors. Qed.

#[export] Instance queue_id_codec_lawful : Lawful queue_id_codec.
Proof. solve_lawful. Qed.
#[export] Instance queue_id_codec_canonical : Canonical queue_id_codec.
Proof. solve_canonical. Qed.
#[export] Instance queue_id_codec_errors : ErrorsByRole queue_id_codec.
Proof. solve_errors. Qed.

#[export] Instance result_codec_lawful : Lawful result_codec.
Proof. solve_lawful. Qed.
#[export] Instance result_codec_canonical : Canonical result_codec.
Proof. solve_canonical. Qed.
#[export] Instance result_codec_errors : ErrorsByRole result_codec.
Proof. solve_errors. Qed.
