(* ===== verification/ProtocolCommand.v ===== *)
(** * ProtocolCommand: command pools, command buffers and plain submission

    Models part of src/protocol.c and the structures of
    include/bvb/protocol.h it uses.  Messages that create, reset and free command pools and buffers, begin a
    recording and submit one command buffer. *)

From S2P Require Import Prelude Wire Abi Codec ProtocolBase.

(** ** Structures *)

Record bvb_vulkan_command_pool_create_request := mk_bvb_vulkan_command_pool_create_request {
  cpc_rq_device_id : Z;
  cpc_rq_flags : Z;
  cpc_rq_queue_family_index : Z
}.
Definition cpc_rq_rep (r : bvb_vulkan_command_pool_create_request) : bool :=
  is_u64 r.(cpc_rq_device_id) &&
  is_u32 r.(cpc_rq_flags) &&
  is_u32 r.(cpc_rq_queue_family_index).

Record bvb_vulkan_command_pool_create_response := mk_bvb_vulkan_command_pool_create_response {
  cpc_rs_vulkan_result : Z;
  cpc_rs_command_pool_id : Z
}.
Definition cpc_rs_rep (r : bvb_vulkan_command_pool_create_response) : bool :=
  is_i32 r.(cpc_rs_vulkan_result) &&
  is_u64 r.(cpc_rs_command_pool_id).

Record bvb_vulkan_command_pool_reset_request := mk_bvb_vulkan_command_pool_reset_request {
  cpr_rq_command_pool_id : Z;
  cpr_rq_flags : Z
}.
Definition cpr_rq_rep (r : bvb_vulkan_command_pool_reset_request) : bool :=
  is_u64 r.(cpr_rq_command_pool_id) &&
  is_u32 r.(cpr_rq_flags).

Record bvb_vulkan_command_buffer_allocate_request := mk_bvb_vulkan_command_buffer_allocate_request {
  cba_rq_command_pool_id : Z;
  cba_rq_level : Z;
  cba_rq_count : Z
}.
Definition cba_rq_rep (r : bvb_vulkan_command_buffer_allocate_request) : bool :=
  is_u64 r.(cba_rq_command_pool_id) &&
  is_u32 r.(cba_rq_level) &&
  is_u32 r.(cba_rq_count).

Record bvb_vulkan_command_buffer_allocate_response := mk_bvb_vulkan_command_buffer_allocate_response {
  cba_rs_vulkan_result : Z;
  cba_rs_command_buffer_id : Z
}.
Definition cba_rs_rep (r : bvb_vulkan_command_buffer_allocate_response) : bool :=
  is_i32 r.(cba_rs_vulkan_result) &&
  is_u64 r.(cba_rs_command_buffer_id).

Record bvb_vulkan_command_buffer_free_request := mk_bvb_vulkan_command_buffer_free_request {
  cbfree_rq_command_pool_id : Z;
  cbfree_rq_command_buffer_id : Z
}.
Definition cbfree_rq_rep (r : bvb_vulkan_command_buffer_free_request) : bool :=
  is_u64 r.(cbfree_rq_command_pool_id) &&
  is_u64 r.(cbfree_rq_command_buffer_id).

Record bvb_vulkan_command_buffer_begin_request := mk_bvb_vulkan_command_buffer_begin_request {
  cbb_rq_command_buffer_id : Z;
  cbb_rq_flags : Z
}.
Definition cbb_rq_rep (r : bvb_vulkan_command_buffer_begin_request) : bool :=
  is_u64 r.(cbb_rq_command_buffer_id) &&
  is_u32 r.(cbb_rq_flags).

Record bvb_vulkan_queue_submit_command_request := mk_bvb_vulkan_queue_submit_command_request {
  qsc_rq_queue_id : Z;
  qsc_rq_command_buffer_id : Z
}.
Definition qsc_rq_rep (r : bvb_vulkan_queue_submit_command_request) : bool :=
  is_u64 r.(qsc_rq_queue_id) &&
  is_u64 r.(qsc_rq_command_buffer_id).

(** ** Functions *)

Definition bvb_protocol_encode_vulkan_command_pool_create_request
    (output : ptr bytes)
        (request : ptr bvb_vulkan_command_pool_create_request) : result bytes
        :=
  deref output := output or (- EINVAL) ;;
  deref request := request or (- EINVAL) ;;
  fail_if negb (wire_id_is_type request.(cpc_rq_device_id) 3)
      with (- EINVAL) ;;
  let output := bvb_wire_put_u64 output 0 request.(cpc_rq_device_id) in
  let output := bvb_wire_put_u32 output 8 request.(cpc_rq_flags) in
  let output := bvb_wire_put_u32 output 12
      request.(cpc_rq_queue_family_index) in
  Ok output.

Definition bvb_protocol_decode_vulkan_command_pool_create_request
    (input : ptr bytes)
        (request : ptr bvb_vulkan_command_pool_create_request) : result
        bvb_vulkan_command_pool_create_request :=
  deref input := input or (- EINVAL) ;;
  deref request := request or (- EINVAL) ;;
  let decoded := {| cpc_rq_device_id := bvb_wire_get_u64 input 0;
       cpc_rq_flags := bvb_wire_get_u32 input 8;
       cpc_rq_queue_family_index := bvb_wire_get_u32 input 12 |} in
  fail_if negb (wire_id_is_type decoded.(cpc_rq_device_id) 3)
      with (- EPROTO) ;;
  Ok decoded.

Definition bvb_protocol_encode_vulkan_command_pool_create_response
    (output : ptr bytes)
        (response : ptr bvb_vulkan_command_pool_create_response) : result
        bytes :=
  deref output := output or (- EINVAL) ;;
  deref response := response or (- EINVAL) ;;
  fail_if ((response.(cpc_rs_vulkan_result) =? 0) &&
      negb (wire_id_is_type response.(cpc_rs_command_pool_id) 10)) ||
          (negb (response.(cpc_rs_vulkan_result) =? 0) &&
              negb (response.(cpc_rs_command_pool_id) =? 0))
              with (- EINVAL) ;;
  let output := memset0 output 0
      BVB_VULKAN_COMMAND_POOL_CREATE_RESPONSE_SIZE in
  let output := bvb_wire_put_i32 output 0 response.(cpc_rs_vulkan_result) in
  let output := bvb_wire_put_u64 output 8 response.(cpc_rs_command_pool_id) in
  Ok output.

Definition bvb_protocol_decode_vulkan_command_pool_create_response
    (input : ptr bytes)
        (response : ptr bvb_vulkan_command_pool_create_response) : result
        bvb_vulkan_command_pool_create_response :=
  deref input := input or (- EINVAL) ;;
  deref response := response or (- EINVAL) ;;
  let decoded := {| cpc_rs_vulkan_result := bvb_wire_get_i32 input 0;
       cpc_rs_command_pool_id := bvb_wire_get_u64 input 8 |} in
  fail_if negb ((bvb_wire_get_u32 input 4) =? 0) ||
          ((decoded.(cpc_rs_vulkan_result) =? 0) &&
              negb (wire_id_is_type decoded.(cpc_rs_command_pool_id) 10)) ||
          (negb (decoded.(cpc_rs_vulkan_result) =? 0) &&
              negb (decoded.(cpc_rs_command_pool_id) =? 0)) with (- EPROTO) ;;
  Ok decoded.

Definition bvb_protocol_encode_vulkan_command_pool_id
    (output : ptr bytes) (command_pool_id : Z) : result bytes :=
  deref output := output or (- EINVAL) ;;
  fail_if negb (wire_id_is_type command_pool_id 10) with (- EINVAL) ;;
  let output := bvb_wire_put_u64 output 0 command_pool_id in
  Ok output.

Definition bvb_protocol_decode_vulkan_command_pool_id
    (input : ptr bytes) (command_pool_id : ptr Z) : result Z :=
  deref input := input or (- EINVAL) ;;
  deref command_pool_id := command_pool_id or (- EINVAL) ;;
  let decoded := bvb_wire_get_u64 input 0 in
  fail_if negb (wire_id_is_type decoded 10) with (- EPROTO) ;;
  Ok decoded.

Definition bvb_protocol_encode_vulkan_command_pool_reset_request
    (output : ptr bytes)
        (request : ptr bvb_vulkan_command_pool_reset_request) : result bytes
        :=
  deref output := output or (- EINVAL) ;;
  deref request := request or (- EINVAL) ;;
  fail_if negb (wire_id_is_type request.(cpr_rq_command_pool_id) 10)
      with (- EINVAL) ;;
  let output := memset0 output 0 BVB_VULKAN_COMMAND_POOL_RESET_REQUEST_SIZE in
  let output := bvb_wire_put_u64 output 0 request.(cpr_rq_command_pool_id) in
  let output := bvb_wire_put_u32 output 8 request.(cpr_rq_flags) in
  Ok output.

Definition bvb_protocol_decode_vulkan_command_pool_reset_request
    (input : ptr bytes) (request : ptr bvb_vulkan_command_pool_reset_request)
        : result bvb_vulkan_command_pool_reset_request :=
  deref input := input or (- EINVAL) ;;
  deref request := request or (- EINVAL) ;;
  let decoded := {| cpr_rq_command_pool_id := bvb_wire_get_u64 input 0;
       cpr_rq_flags := bvb_wire_get_u32 input 8 |} in
  fail_if negb (wire_id_is_type decoded.(cpr_rq_command_pool_id) 10) ||
          negb ((bvb_wire_get_u32 input 12) =? 0) with (- EPROTO) ;;
  Ok decoded.

Definition bvb_protocol_encode_vulkan_command_buffer_allocate_request
    (output : ptr bytes)
        (request : ptr bvb_vulkan_command_buffer_allocate_request) : result
        bytes :=
  deref output := output or (- EINVAL) ;;
  deref request := request or (- EINVAL) ;;
  fail_if negb (wire_id_is_type request.(cba_rq_command_pool_id) 10)
      with (- EINVAL) ;;
  let output := bvb_wire_put_u64 output 0 request.(cba_rq_command_pool_id) in
  let output := bvb_wire_put_u32 output 8 request.(cba_rq_level) in
  let output := bvb_wire_put_u32 output 12 request.(cba_rq_count) in
  Ok output.

Definition bvb_protocol_decode_vulkan_command_buffer_allocate_request
    (input : ptr bytes)
        (request : ptr bvb_vulkan_command_buffer_allocate_request) : result
        bvb_vulkan_command_buffer_allocate_request :=
  deref input := input or (- EINVAL) ;;
  deref request := request or (- EINVAL) ;;
  let decoded := {| cba_rq_command_pool_id := bvb_wire_get_u64 input 0;
       cba_rq_level := bvb_wire_get_u32 input 8;
       cba_rq_count := bvb_wire_get_u32 input 12 |} in
  fail_if negb (wire_id_is_type decoded.(cba_rq_command_pool_id) 10)
      with (- EPROTO) ;;
  Ok decoded.

Definition bvb_protocol_encode_vulkan_command_buffer_allocate_response
    (output : ptr bytes)
        (response : ptr bvb_vulkan_command_buffer_allocate_response) : result
        bytes :=
  deref output := output or (- EINVAL) ;;
  deref response := response or (- EINVAL) ;;
  fail_if ((response.(cba_rs_vulkan_result) =? 0) &&
      negb (wire_id_is_type response.(cba_rs_command_buffer_id) 11)) ||
          (negb (response.(cba_rs_vulkan_result) =? 0) &&
              negb (response.(cba_rs_command_buffer_id) =? 0))
              with (- EINVAL) ;;
  let output := memset0 output 0
      BVB_VULKAN_COMMAND_BUFFER_ALLOCATE_RESPONSE_SIZE in
  let output := bvb_wire_put_i32 output 0 response.(cba_rs_vulkan_result) in
  let output := bvb_wire_put_u64 output 8
      response.(cba_rs_command_buffer_id) in
  Ok output.

Definition bvb_protocol_decode_vulkan_command_buffer_allocate_response
    (input : ptr bytes)
        (response : ptr bvb_vulkan_command_buffer_allocate_response) : result
        bvb_vulkan_command_buffer_allocate_response :=
  deref input := input or (- EINVAL) ;;
  deref response := response or (- EINVAL) ;;
  let decoded := {| cba_rs_vulkan_result := bvb_wire_get_i32 input 0;
       cba_rs_command_buffer_id := bvb_wire_get_u64 input 8 |} in
  fail_if negb ((bvb_wire_get_u32 input 4) =? 0) ||
          ((decoded.(cba_rs_vulkan_result) =? 0) &&
              negb (wire_id_is_type decoded.(cba_rs_command_buffer_id) 11)) ||
          (negb (decoded.(cba_rs_vulkan_result) =? 0) &&
              negb (decoded.(cba_rs_command_buffer_id) =? 0))
              with (- EPROTO) ;;
  Ok decoded.

Definition bvb_protocol_encode_vulkan_command_buffer_free_request
    (output : ptr bytes)
        (request : ptr bvb_vulkan_command_buffer_free_request) : result bytes
        :=
  deref output := output or (- EINVAL) ;;
  deref request := request or (- EINVAL) ;;
  fail_if negb (wire_id_is_type request.(cbfree_rq_command_pool_id) 10) ||
          negb (wire_id_is_type request.(cbfree_rq_command_buffer_id) 11)
              with (- EINVAL) ;;
  let output := bvb_wire_put_u64 output 0
      request.(cbfree_rq_command_pool_id) in
  let output := bvb_wire_put_u64 output 8
      request.(cbfree_rq_command_buffer_id) in
  Ok output.

Definition bvb_protocol_decode_vulkan_command_buffer_free_request
    (input : ptr bytes)
        (request : ptr bvb_vulkan_command_buffer_free_request) : result
        bvb_vulkan_command_buffer_free_request :=
  deref input := input or (- EINVAL) ;;
  deref request := request or (- EINVAL) ;;
  let decoded := {| cbfree_rq_command_pool_id := bvb_wire_get_u64 input 0;
       cbfree_rq_command_buffer_id := bvb_wire_get_u64 input 8 |} in
  fail_if negb (wire_id_is_type decoded.(cbfree_rq_command_pool_id) 10) ||
          negb (wire_id_is_type decoded.(cbfree_rq_command_buffer_id) 11)
              with (- EPROTO) ;;
  Ok decoded.

Definition bvb_protocol_encode_vulkan_command_buffer_begin_request
    (output : ptr bytes)
        (request : ptr bvb_vulkan_command_buffer_begin_request) : result
        bytes :=
  deref output := output or (- EINVAL) ;;
  deref request := request or (- EINVAL) ;;
  fail_if negb (wire_id_is_type request.(cbb_rq_command_buffer_id) 11)
      with (- EINVAL) ;;
  let output := memset0 output 0
      BVB_VULKAN_COMMAND_BUFFER_BEGIN_REQUEST_SIZE in
  let output := bvb_wire_put_u64 output 0
      request.(cbb_rq_command_buffer_id) in
  let output := bvb_wire_put_u32 output 8 request.(cbb_rq_flags) in
  Ok output.

Definition bvb_protocol_decode_vulkan_command_buffer_begin_request
    (input : ptr bytes)
        (request : ptr bvb_vulkan_command_buffer_begin_request) : result
        bvb_vulkan_command_buffer_begin_request :=
  deref input := input or (- EINVAL) ;;
  deref request := request or (- EINVAL) ;;
  let decoded := {| cbb_rq_command_buffer_id := bvb_wire_get_u64 input 0;
       cbb_rq_flags := bvb_wire_get_u32 input 8 |} in
  fail_if negb (wire_id_is_type decoded.(cbb_rq_command_buffer_id) 11) ||
          negb ((bvb_wire_get_u32 input 12) =? 0) with (- EPROTO) ;;
  Ok decoded.

Definition bvb_protocol_encode_vulkan_command_buffer_id
    (output : ptr bytes) (command_buffer_id : Z) : result bytes :=
  deref output := output or (- EINVAL) ;;
  fail_if negb (wire_id_is_type command_buffer_id 11) with (- EINVAL) ;;
  let output := bvb_wire_put_u64 output 0 command_buffer_id in
  Ok output.

Definition bvb_protocol_decode_vulkan_command_buffer_id
    (input : ptr bytes) (command_buffer_id : ptr Z) : result Z :=
  deref input := input or (- EINVAL) ;;
  deref command_buffer_id := command_buffer_id or (- EINVAL) ;;
  let decoded := bvb_wire_get_u64 input 0 in
  fail_if negb (wire_id_is_type decoded 11) with (- EPROTO) ;;
  Ok decoded.

Definition bvb_protocol_encode_vulkan_queue_submit_command_request
    (output : ptr bytes)
        (request : ptr bvb_vulkan_queue_submit_command_request) : result
        bytes :=
  deref output := output or (- EINVAL) ;;
  deref request := request or (- EINVAL) ;;
  fail_if negb (wire_id_is_type request.(qsc_rq_queue_id) 4) ||
          negb (wire_id_is_type request.(qsc_rq_command_buffer_id) 11)
              with (- EINVAL) ;;
  let output := bvb_wire_put_u64 output 0 request.(qsc_rq_queue_id) in
  let output := bvb_wire_put_u64 output 8
      request.(qsc_rq_command_buffer_id) in
  Ok output.

Definition bvb_protocol_decode_vulkan_queue_submit_command_request
    (input : ptr bytes)
        (request : ptr bvb_vulkan_queue_submit_command_request) : result
        bvb_vulkan_queue_submit_command_request :=
  deref input := input or (- EINVAL) ;;
  deref request := request or (- EINVAL) ;;
  let decoded := {| qsc_rq_queue_id := bvb_wire_get_u64 input 0;
       qsc_rq_command_buffer_id := bvb_wire_get_u64 input 8 |} in
  fail_if negb (wire_id_is_type decoded.(qsc_rq_queue_id) 4) ||
          negb (wire_id_is_type decoded.(qsc_rq_command_buffer_id) 11)
              with (- EPROTO) ;;
  Ok decoded.

(** ** Codecs *)

Definition command_pool_create_request_codec : codec
    bvb_vulkan_command_pool_create_request :=
  mk_codec BVB_VULKAN_COMMAND_POOL_CREATE_REQUEST_SIZE cpc_rq_rep
      bvb_protocol_encode_vulkan_command_pool_create_request
    bvb_protocol_decode_vulkan_command_pool_create_request.

Definition command_pool_create_response_codec : codec
    bvb_vulkan_command_pool_create_response :=
  mk_codec BVB_VULKAN_COMMAND_POOL_CREATE_RESPONSE_SIZE cpc_rs_rep
      bvb_protocol_encode_vulkan_command_pool_create_response
    bvb_protocol_decode_vulkan_command_pool_create_response.

Definition command_pool_id_codec : codec Z :=
  mk_codec BVB_VULKAN_COMMAND_POOL_ID_SIZE is_u64
      (by_value bvb_protocol_encode_vulkan_command_pool_id)
    bvb_protocol_decode_vulkan_command_pool_id.

Definition command_pool_reset_request_codec : codec
    bvb_vulkan_command_pool_reset_request :=
  mk_codec BVB_VULKAN_COMMAND_POOL_RESET_REQUEST_SIZE cpr_rq_rep
      bvb_protocol_encode_vulkan_command_pool_reset_request
    bvb_protocol_decode_vulkan_command_pool_reset_request.

Definition command_buffer_allocate_request_codec : codec
    bvb_vulkan_command_buffer_allocate_request :=
  mk_codec BVB_VULKAN_COMMAND_BUFFER_ALLOCATE_REQUEST_SIZE cba_rq_rep
      bvb_protocol_encode_vulkan_command_buffer_allocate_request
    bvb_protocol_decode_vulkan_command_buffer_allocate_request.

Definition command_buffer_allocate_response_codec : codec
    bvb_vulkan_command_buffer_allocate_response :=
  mk_codec BVB_VULKAN_COMMAND_BUFFER_ALLOCATE_RESPONSE_SIZE cba_rs_rep
      bvb_protocol_encode_vulkan_command_buffer_allocate_response
    bvb_protocol_decode_vulkan_command_buffer_allocate_response.

Definition command_buffer_free_request_codec : codec
    bvb_vulkan_command_buffer_free_request :=
  mk_codec BVB_VULKAN_COMMAND_BUFFER_FREE_REQUEST_SIZE cbfree_rq_rep
      bvb_protocol_encode_vulkan_command_buffer_free_request
    bvb_protocol_decode_vulkan_command_buffer_free_request.

Definition command_buffer_begin_request_codec : codec
    bvb_vulkan_command_buffer_begin_request :=
  mk_codec BVB_VULKAN_COMMAND_BUFFER_BEGIN_REQUEST_SIZE cbb_rq_rep
      bvb_protocol_encode_vulkan_command_buffer_begin_request
    bvb_protocol_decode_vulkan_command_buffer_begin_request.

Definition command_buffer_id_codec : codec Z :=
  mk_codec BVB_VULKAN_COMMAND_BUFFER_ID_SIZE is_u64
      (by_value bvb_protocol_encode_vulkan_command_buffer_id)
    bvb_protocol_decode_vulkan_command_buffer_id.

Definition queue_submit_command_request_codec : codec
    bvb_vulkan_queue_submit_command_request :=
  mk_codec BVB_VULKAN_QUEUE_SUBMIT_COMMAND_REQUEST_SIZE qsc_rq_rep
      bvb_protocol_encode_vulkan_queue_submit_command_request
    bvb_protocol_decode_vulkan_queue_submit_command_request.

(** ** Their contracts *)

#[export] Instance command_pool_create_request_codec_lawful : Lawful
    command_pool_create_request_codec.
Proof. solve_lawful. Qed.
#[export] Instance command_pool_create_request_codec_canonical : Canonical
    command_pool_create_request_codec.
Proof. solve_canonical. Qed.
#[export] Instance command_pool_create_request_codec_errors : ErrorsByRole
    command_pool_create_request_codec.
Proof. solve_errors. Qed.

#[export] Instance command_pool_create_response_codec_lawful : Lawful
    command_pool_create_response_codec.
Proof. solve_lawful. Qed.
#[export] Instance command_pool_create_response_codec_canonical : Canonical
    command_pool_create_response_codec.
Proof. solve_canonical. Qed.
#[export] Instance command_pool_create_response_codec_errors : ErrorsByRole
    command_pool_create_response_codec.
Proof. solve_errors. Qed.

#[export] Instance command_pool_id_codec_lawful : Lawful
    command_pool_id_codec.
Proof. solve_lawful. Qed.
#[export] Instance command_pool_id_codec_canonical : Canonical
    command_pool_id_codec.
Proof. solve_canonical. Qed.
#[export] Instance command_pool_id_codec_errors : ErrorsByRole
    command_pool_id_codec.
Proof. solve_errors. Qed.

#[export] Instance command_pool_reset_request_codec_lawful : Lawful
    command_pool_reset_request_codec.
Proof. solve_lawful. Qed.
#[export] Instance command_pool_reset_request_codec_canonical : Canonical
    command_pool_reset_request_codec.
Proof. solve_canonical. Qed.
#[export] Instance command_pool_reset_request_codec_errors : ErrorsByRole
    command_pool_reset_request_codec.
Proof. solve_errors. Qed.

#[export] Instance command_buffer_allocate_request_codec_lawful : Lawful
    command_buffer_allocate_request_codec.
Proof. solve_lawful. Qed.
#[export] Instance command_buffer_allocate_request_codec_canonical :
    Canonical command_buffer_allocate_request_codec.
Proof. solve_canonical. Qed.
#[export] Instance command_buffer_allocate_request_codec_errors :
    ErrorsByRole command_buffer_allocate_request_codec.
Proof. solve_errors. Qed.

#[export] Instance command_buffer_allocate_response_codec_lawful : Lawful
    command_buffer_allocate_response_codec.
Proof. solve_lawful. Qed.
#[export] Instance command_buffer_allocate_response_codec_canonical :
    Canonical command_buffer_allocate_response_codec.
Proof. solve_canonical. Qed.
#[export] Instance command_buffer_allocate_response_codec_errors :
    ErrorsByRole command_buffer_allocate_response_codec.
Proof. solve_errors. Qed.

#[export] Instance command_buffer_free_request_codec_lawful : Lawful
    command_buffer_free_request_codec.
Proof. solve_lawful. Qed.
#[export] Instance command_buffer_free_request_codec_canonical : Canonical
    command_buffer_free_request_codec.
Proof. solve_canonical. Qed.
#[export] Instance command_buffer_free_request_codec_errors : ErrorsByRole
    command_buffer_free_request_codec.
Proof. solve_errors. Qed.

#[export] Instance command_buffer_begin_request_codec_lawful : Lawful
    command_buffer_begin_request_codec.
Proof. solve_lawful. Qed.
#[export] Instance command_buffer_begin_request_codec_canonical : Canonical
    command_buffer_begin_request_codec.
Proof. solve_canonical. Qed.
#[export] Instance command_buffer_begin_request_codec_errors : ErrorsByRole
    command_buffer_begin_request_codec.
Proof. solve_errors. Qed.

#[export] Instance command_buffer_id_codec_lawful : Lawful
    command_buffer_id_codec.
Proof. solve_lawful. Qed.
#[export] Instance command_buffer_id_codec_canonical : Canonical
    command_buffer_id_codec.
Proof. solve_canonical. Qed.
#[export] Instance command_buffer_id_codec_errors : ErrorsByRole
    command_buffer_id_codec.
Proof. solve_errors. Qed.

#[export] Instance queue_submit_command_request_codec_lawful : Lawful
    queue_submit_command_request_codec.
Proof. solve_lawful. Qed.
#[export] Instance queue_submit_command_request_codec_canonical : Canonical
    queue_submit_command_request_codec.
Proof. solve_canonical. Qed.
#[export] Instance queue_submit_command_request_codec_errors : ErrorsByRole
    queue_submit_command_request_codec.
Proof. solve_errors. Qed.
