(* ===== verification/ProtocolResource.v ===== *)
(** * ProtocolResource: buffers, images, memory and query pools

    Models part of src/protocol.c and the structures of
    include/bvb/protocol.h it uses.  Messages that create resources, report memory requirements, allocate and
    bind memory and manage query pools, with their validators. *)

From S2P Require Import Prelude Wire Abi Codec ProtocolBase.

(** ** Structures *)

Record bvb_vulkan_buffer_create_request := mk_bvb_vulkan_buffer_create_request {
  bc_rq_device_id : Z;
  bc_rq_size : Z;
  bc_rq_usage : Z;
  bc_rq_flags : Z
}.
Definition bc_rq_rep (r : bvb_vulkan_buffer_create_request) : bool :=
  is_u64 r.(bc_rq_device_id) &&
  is_u64 r.(bc_rq_size) &&
  is_u32 r.(bc_rq_usage) &&
  is_u32 r.(bc_rq_flags).

Record bvb_vulkan_object_create_response := mk_bvb_vulkan_object_create_response {
  oc_rs_vulkan_result : Z;
  oc_rs_object_id : Z
}.
Definition oc_rs_rep (r : bvb_vulkan_object_create_response) : bool :=
  is_i32 r.(oc_rs_vulkan_result) &&
  is_u64 r.(oc_rs_object_id).

Record bvb_vulkan_query_pool_create_request := mk_bvb_vulkan_query_pool_create_request {
  qpc_rq_device_id : Z;
  qpc_rq_flags : Z;
  qpc_rq_query_type : Z;
  qpc_rq_query_count : Z;
  qpc_rq_pipeline_statistics : Z
}.
Definition qpc_rq_rep (r : bvb_vulkan_query_pool_create_request) : bool :=
  is_u64 r.(qpc_rq_device_id) &&
  is_u32 r.(qpc_rq_flags) &&
  is_u32 r.(qpc_rq_query_type) &&
  is_u32 r.(qpc_rq_query_count) &&
  is_u32 r.(qpc_rq_pipeline_statistics).

Record bvb_vulkan_query_pool_results_request := mk_bvb_vulkan_query_pool_results_request {
  qpr_rq_query_pool_id : Z;
  qpr_rq_data_size : Z;
  qpr_rq_stride : Z;
  qpr_rq_first_query : Z;
  qpr_rq_query_count : Z;
  qpr_rq_flags : Z
}.
Definition qpr_rq_rep (r : bvb_vulkan_query_pool_results_request) : bool :=
  is_u64 r.(qpr_rq_query_pool_id) &&
  is_u64 r.(qpr_rq_data_size) &&
  is_u64 r.(qpr_rq_stride) &&
  is_u32 r.(qpr_rq_first_query) &&
  is_u32 r.(qpr_rq_query_count) &&
  is_u32 r.(qpr_rq_flags).

Record bvb_vulkan_query_pool_reset_request := mk_bvb_vulkan_query_pool_reset_request {
  qpreset_rq_query_pool_id : Z;
  qpreset_rq_first_query : Z;
  qpreset_rq_query_count : Z
}.
Definition qpreset_rq_rep (r : bvb_vulkan_query_pool_reset_request) : bool :=
  is_u64 r.(qpreset_rq_query_pool_id) &&
  is_u32 r.(qpreset_rq_first_query) &&
  is_u32 r.(qpreset_rq_query_count).

Record bvb_vulkan_buffer_requirements := mk_bvb_vulkan_buffer_requirements {
  br_size : Z;
  br_alignment : Z;
  br_memory_type_bits : Z
}.
Definition br_rep (r : bvb_vulkan_buffer_requirements) : bool :=
  is_u64 r.(br_size) &&
  is_u64 r.(br_alignment) &&
  is_u32 r.(br_memory_type_bits).

Record bvb_vulkan_buffer_requirements_2_request := mk_bvb_vulkan_buffer_requirements_2_request {
  br2_rq_buffer_id : Z;
  br2_rq_pnext_flags : Z
}.
Definition br2_rq_rep (r : bvb_vulkan_buffer_requirements_2_request) : bool :=
  is_u64 r.(br2_rq_buffer_id) &&
  is_u32 r.(br2_rq_pnext_flags).

Record bvb_vulkan_buffer_requirements_2_response := mk_bvb_vulkan_buffer_requirements_2_response {
  br2_rs_size : Z;
  br2_rs_alignment : Z;
  br2_rs_memory_type_bits : Z;
  br2_rs_pnext_flags : Z;
  br2_rs_prefers_dedicated : Z;
  br2_rs_requires_dedicated : Z
}.
Definition br2_rs_rep (r : bvb_vulkan_buffer_requirements_2_response) : bool :=
  is_u64 r.(br2_rs_size) &&
  is_u64 r.(br2_rs_alignment) &&
  is_u32 r.(br2_rs_memory_type_bits) &&
  is_u32 r.(br2_rs_pnext_flags) &&
  is_u32 r.(br2_rs_prefers_dedicated) &&
  is_u32 r.(br2_rs_requires_dedicated).

Record bvb_vulkan_buffer_device_address_request := mk_bvb_vulkan_buffer_device_address_request {
  bda_rq_buffer_id : Z
}.
Definition bda_rq_rep (r : bvb_vulkan_buffer_device_address_request) : bool :=
  is_u64 r.(bda_rq_buffer_id).

Record bvb_vulkan_buffer_device_address_response := mk_bvb_vulkan_buffer_device_address_response {
  bda_rs_device_address : Z
}.
Definition bda_rs_rep (r : bvb_vulkan_buffer_device_address_response) : bool :=
  is_u64 r.(bda_rs_device_address).

Record bvb_vulkan_memory_allocate_request := mk_bvb_vulkan_memory_allocate_request {
  ma_rq_device_id : Z;
  ma_rq_allocation_size : Z;
  ma_rq_memory_type_index : Z
}.
Definition ma_rq_rep (r : bvb_vulkan_memory_allocate_request) : bool :=
  is_u64 r.(ma_rq_device_id) &&
  is_u64 r.(ma_rq_allocation_size) &&
  is_u32 r.(ma_rq_memory_type_index).

Record bvb_vulkan_memory_allocate_extended_request := mk_bvb_vulkan_memory_allocate_extended_request {
  mae_rq_device_id : Z;
  mae_rq_allocation_size : Z;
  mae_rq_dedicated_image_id : Z;
  mae_rq_memory_type_index : Z;
  mae_rq_pnext_flags : Z;
  mae_rq_allocation_flags : Z;
  mae_rq_device_mask : Z
}.
Definition mae_rq_rep (r : bvb_vulkan_memory_allocate_extended_request) : bool :=
  is_u64 r.(mae_rq_device_id) &&
  is_u64 r.(mae_rq_allocation_size) &&
  is_u64 r.(mae_rq_dedicated_image_id) &&
  is_u32 r.(mae_rq_memory_type_index) &&
  is_u32 r.(mae_rq_pnext_flags) &&
  is_u32 r.(mae_rq_allocation_flags) &&
  is_u32 r.(mae_rq_device_mask).

Record bvb_vulkan_buffer_bind_request := mk_bvb_vulkan_buffer_bind_request {
  bb_rq_buffer_id : Z;
  bb_rq_memory_id : Z;
  bb_rq_offset : Z
}.
Definition bb_rq_rep (r : bvb_vulkan_buffer_bind_request) : bool :=
  is_u64 r.(bb_rq_buffer_id) &&
  is_u64 r.(bb_rq_memory_id) &&
  is_u64 r.(bb_rq_offset).

Record bvb_vulkan_image_requirements := mk_bvb_vulkan_image_requirements {
  ir_size : Z;
  ir_alignment : Z;
  ir_memory_type_bits : Z
}.
Definition ir_rep (r : bvb_vulkan_image_requirements) : bool :=
  is_u64 r.(ir_size) &&
  is_u64 r.(ir_alignment) &&
  is_u32 r.(ir_memory_type_bits).

Record bvb_vulkan_image_requirements_2_request := mk_bvb_vulkan_image_requirements_2_request {
  ir2_rq_image_id : Z;
  ir2_rq_pnext_flags : Z
}.
Definition ir2_rq_rep (r : bvb_vulkan_image_requirements_2_request) : bool :=
  is_u64 r.(ir2_rq_image_id) &&
  is_u32 r.(ir2_rq_pnext_flags).

Record bvb_vulkan_image_requirements_2_response := mk_bvb_vulkan_image_requirements_2_response {
  ir2_rs_size : Z;
  ir2_rs_alignment : Z;
  ir2_rs_memory_type_bits : Z;
  ir2_rs_pnext_flags : Z;
  ir2_rs_prefers_dedicated : Z;
  ir2_rs_requires_dedicated : Z
}.
Definition ir2_rs_rep (r : bvb_vulkan_image_requirements_2_response) : bool :=
  is_u64 r.(ir2_rs_size) &&
  is_u64 r.(ir2_rs_alignment) &&
  is_u32 r.(ir2_rs_memory_type_bits) &&
  is_u32 r.(ir2_rs_pnext_flags) &&
  is_u32 r.(ir2_rs_prefers_dedicated) &&
  is_u32 r.(ir2_rs_requires_dedicated).

Record bvb_vulkan_image_bind_request := mk_bvb_vulkan_image_bind_request {
  ib_rq_image_id : Z;
  ib_rq_memory_id : Z;
  ib_rq_offset : Z
}.
Definition ib_rq_rep (r : bvb_vulkan_image_bind_request) : bool :=
  is_u64 r.(ib_rq_image_id) &&
  is_u64 r.(ib_rq_memory_id) &&
  is_u64 r.(ib_rq_offset).

Record bvb_vulkan_image_view_create_request := mk_bvb_vulkan_image_view_create_request {
  ivc_rq_device_id : Z;
  ivc_rq_image_id : Z;
  ivc_rq_flags : Z;
  ivc_rq_view_type : Z;
  ivc_rq_format : Z;
  ivc_rq_component_r : Z;
  ivc_rq_component_g : Z;
  ivc_rq_component_b : Z;
  ivc_rq_component_a : Z;
  ivc_rq_aspect_mask : Z;
  ivc_rq_base_mip_level : Z;
  ivc_rq_level_count : Z;
  ivc_rq_base_array_layer : Z;
  ivc_rq_layer_count : Z;
  ivc_rq_pnext_flags : Z;
  ivc_rq_usage : Z
}.
Definition ivc_rq_rep (r : bvb_vulkan_image_view_create_request) : bool :=
  is_u64 r.(ivc_rq_device_id) &&
  is_u64 r.(ivc_rq_image_id) &&
  is_u32 r.(ivc_rq_flags) &&
  is_u32 r.(ivc_rq_view_type) &&
  is_u32 r.(ivc_rq_format) &&
  is_u32 r.(ivc_rq_component_r) &&
  is_u32 r.(ivc_rq_component_g) &&
  is_u32 r.(ivc_rq_component_b) &&
  is_u32 r.(ivc_rq_component_a) &&
  is_u32 r.(ivc_rq_aspect_mask) &&
  is_u32 r.(ivc_rq_base_mip_level) &&
  is_u32 r.(ivc_rq_level_count) &&
  is_u32 r.(ivc_rq_base_array_layer) &&
  is_u32 r.(ivc_rq_layer_count) &&
  is_u32 r.(ivc_rq_pnext_flags) &&
  is_u32 r.(ivc_rq_usage).

(** ** Functions *)

Definition bvb_protocol_encode_vulkan_buffer_create_request
    (output : ptr bytes) (request : ptr bvb_vulkan_buffer_create_request) :
        result bytes :=
  deref output := output or (- EINVAL) ;;
  deref request := request or (- EINVAL) ;;
  fail_if (request.(bc_rq_size) =? 0) ||
          (request.(bc_rq_usage) =? 0) ||
          negb (wire_id_is_type request.(bc_rq_device_id) 3)
              with (- EINVAL) ;;
  let output := bvb_wire_put_u64 output 0 request.(bc_rq_device_id) in
  let output := bvb_wire_put_u64 output 8 request.(bc_rq_size) in
  let output := bvb_wire_put_u32 output 16 request.(bc_rq_usage) in
  let output := bvb_wire_put_u32 output 20 request.(bc_rq_flags) in
  Ok output.

Definition bvb_protocol_decode_vulkan_buffer_create_request
    (input : ptr bytes) (request : ptr bvb_vulkan_buffer_create_request) :
        result bvb_vulkan_buffer_create_request :=
  deref input := input or (- EINVAL) ;;
  deref request := request or (- EINVAL) ;;
  let request := {| bc_rq_device_id := bvb_wire_get_u64 input 0;
       bc_rq_size := bvb_wire_get_u64 input 8;
       bc_rq_usage := bvb_wire_get_u32 input 16;
       bc_rq_flags := bvb_wire_get_u32 input 20 |} in
  if wire_id_is_type request.(bc_rq_device_id) 3 &&
      negb (request.(bc_rq_size) =? 0) then Ok request else Err (- EPROTO).

Definition bvb_protocol_encode_vulkan_object_create_response
    (output : ptr bytes) (response : ptr bvb_vulkan_object_create_response)
        (expected_type : Z) : result bytes :=
  deref output := output or (- EINVAL) ;;
  deref response := response or (- EINVAL) ;;
  fail_if ((response.(oc_rs_vulkan_result) =? 0) &&
      negb (wire_id_is_type response.(oc_rs_object_id) expected_type)) ||
          (negb (response.(oc_rs_vulkan_result) =? 0) &&
              negb (response.(oc_rs_object_id) =? 0)) with (- EINVAL) ;;
  let output := memset0 output 0 BVB_VULKAN_OBJECT_CREATE_RESPONSE_SIZE in
  let output := bvb_wire_put_i32 output 0 response.(oc_rs_vulkan_result) in
  let output := bvb_wire_put_u64 output 8 response.(oc_rs_object_id) in
  Ok output.

Definition bvb_protocol_decode_vulkan_object_create_response
    (input : ptr bytes) (response : ptr bvb_vulkan_object_create_response)
        (expected_type : Z) : result bvb_vulkan_object_create_response :=
  deref input := input or (- EINVAL) ;;
  deref response := response or (- EINVAL) ;;
  let response := {| oc_rs_vulkan_result := bvb_wire_get_i32 input 0;
       oc_rs_object_id := bvb_wire_get_u64 input 8 |} in
  fail_if negb ((bvb_wire_get_u32 input 4) =? 0) ||
          ((response.(oc_rs_vulkan_result) =? 0) &&
              negb (wire_id_is_type response.(oc_rs_object_id)
              expected_type)) ||
          (negb (response.(oc_rs_vulkan_result) =? 0) &&
              negb (response.(oc_rs_object_id) =? 0)) with (- EPROTO) ;;
  Ok response.

Definition query_type_is_supported
    {VK : VulkanHeader} (query_type : Z) : bool :=
  (query_type =? VK_QUERY_TYPE_OCCLUSION) ||
      (query_type =? VK_QUERY_TYPE_PIPELINE_STATISTICS) ||
      (query_type =? VK_QUERY_TYPE_TIMESTAMP) ||
      (query_type =? VK_QUERY_TYPE_TRANSFORM_FEEDBACK_STREAM_EXT).

Definition bvb_protocol_encode_vulkan_query_pool_create_request
    {VK : VulkanHeader} (output : ptr bytes)
        (request : ptr bvb_vulkan_query_pool_create_request) : result bytes :=
  deref output := output or (- EINVAL) ;;
  deref request := request or (- EINVAL) ;;
  fail_if negb (wire_id_is_type request.(qpc_rq_device_id)
      BVB_OBJECT_DEVICE) ||
          negb (request.(qpc_rq_flags) =? 0) ||
          negb (query_type_is_supported request.(qpc_rq_query_type)) ||
          (request.(qpc_rq_query_count) =? 0) ||
          ((Z.shiftl 1 20) <? request.(qpc_rq_query_count)) ||
          (if (request.(qpc_rq_query_type) =?
              VK_QUERY_TYPE_PIPELINE_STATISTICS) then
              (request.(qpc_rq_pipeline_statistics) =? 0) ||
              negb ((Z.land request.(qpc_rq_pipeline_statistics)
              (Z.lnot 2047)) =? 0) else negb
              (request.(qpc_rq_pipeline_statistics) =? 0)) with (- EINVAL) ;;
  let output := memset0 output 0 BVB_VULKAN_QUERY_POOL_CREATE_REQUEST_SIZE in
  let output := bvb_wire_put_u64 output 0 request.(qpc_rq_device_id) in
  let output := bvb_wire_put_u32 output 8 request.(qpc_rq_flags) in
  let output := bvb_wire_put_u32 output 12 request.(qpc_rq_query_type) in
  let output := bvb_wire_put_u32 output 16 request.(qpc_rq_query_count) in
  let output := bvb_wire_put_u32 output 20
      request.(qpc_rq_pipeline_statistics) in
  Ok output.

Definition bvb_protocol_decode_vulkan_query_pool_create_request
    {VK : VulkanHeader} (input : ptr bytes)
        (request : ptr bvb_vulkan_query_pool_create_request) : result
        bvb_vulkan_query_pool_create_request :=
  deref input := input or (- EINVAL) ;;
  deref request := request or (- EINVAL) ;;
  let decoded := {| qpc_rq_device_id := bvb_wire_get_u64 input 0;
       qpc_rq_flags := bvb_wire_get_u32 input 8;
       qpc_rq_query_type := bvb_wire_get_u32 input 12;
       qpc_rq_query_count := bvb_wire_get_u32 input 16;
       qpc_rq_pipeline_statistics := bvb_wire_get_u32 input 20 |} in
  let validation := blank BVB_VULKAN_QUERY_POOL_CREATE_REQUEST_SIZE in
  call validation
      := bvb_protocol_encode_vulkan_query_pool_create_request
      (Some validation) (Some decoded) or (- EPROTO) ;;
  fail_if memcmp_ne validation input
      BVB_VULKAN_QUERY_POOL_CREATE_REQUEST_SIZE with (- EPROTO) ;;
  Ok decoded.

Definition bvb_protocol_encode_vulkan_query_pool_results_request
    (output : ptr bytes)
        (request : ptr bvb_vulkan_query_pool_results_request) : result bytes
        :=
  deref output := output or (- EINVAL) ;;
  deref request := request or (- EINVAL) ;;
  fail_if negb (wire_id_is_type request.(qpr_rq_query_pool_id)
      BVB_OBJECT_QUERY_POOL) ||
          (request.(qpr_rq_data_size) =? 0) ||
          (BVB_VULKAN_QUERY_POOL_RESULTS_MAX_BYTES <?
              request.(qpr_rq_data_size)) ||
          (request.(qpr_rq_stride) =? 0) ||
          (request.(qpr_rq_data_size) <? request.(qpr_rq_stride)) ||
          (request.(qpr_rq_query_count) =? 0) ||
          (256 <? request.(qpr_rq_query_count)) ||
          ((u32 (UINT32_MAX - request.(qpr_rq_query_count))) <?
              request.(qpr_rq_first_query)) ||
          negb ((Z.land request.(qpr_rq_flags) (Z.lnot 31)) =? 0)
              with (- EINVAL) ;;
  let output := memset0 output 0 BVB_VULKAN_QUERY_POOL_RESULTS_REQUEST_SIZE in
  let output := bvb_wire_put_u64 output 0 request.(qpr_rq_query_pool_id) in
  let output := bvb_wire_put_u64 output 8 request.(qpr_rq_data_size) in
  let output := bvb_wire_put_u64 output 16 request.(qpr_rq_stride) in
  let output := bvb_wire_put_u32 output 24 request.(qpr_rq_first_query) in
  let output := bvb_wire_put_u32 output 28 request.(qpr_rq_query_count) in
  let output := bvb_wire_put_u32 output 32 request.(qpr_rq_flags) in
  Ok output.

Definition bvb_protocol_decode_vulkan_query_pool_results_request
    (input : ptr bytes) (request : ptr bvb_vulkan_query_pool_results_request)
        : result bvb_vulkan_query_pool_results_request :=
  deref input := input or (- EINVAL) ;;
  deref request := request or (- EINVAL) ;;
  let decoded := {| qpr_rq_query_pool_id := bvb_wire_get_u64 input 0;
       qpr_rq_data_size := bvb_wire_get_u64 input 8;
       qpr_rq_stride := bvb_wire_get_u64 input 16;
       qpr_rq_first_query := bvb_wire_get_u32 input 24;
       qpr_rq_query_count := bvb_wire_get_u32 input 28;
       qpr_rq_flags := bvb_wire_get_u32 input 32 |} in
  let validation := blank BVB_VULKAN_QUERY_POOL_RESULTS_REQUEST_SIZE in
  call validation
      := bvb_protocol_encode_vulkan_query_pool_results_request
      (Some validation) (Some decoded) or (- EPROTO) ;;
  fail_if memcmp_ne validation input
      BVB_VULKAN_QUERY_POOL_RESULTS_REQUEST_SIZE with (- EPROTO) ;;
  Ok decoded.

Definition bvb_protocol_encode_vulkan_query_pool_reset_request
    (output : ptr bytes) (request : ptr bvb_vulkan_query_pool_reset_request)
        : result bytes :=
  deref output := output or (- EINVAL) ;;
  deref request := request or (- EINVAL) ;;
  fail_if negb (wire_id_is_type request.(qpreset_rq_query_pool_id)
      BVB_OBJECT_QUERY_POOL) ||
          (request.(qpreset_rq_query_count) =? 0) ||
          ((u32 (UINT32_MAX - request.(qpreset_rq_query_count))) <?
              request.(qpreset_rq_first_query)) with (- EINVAL) ;;
  let output := bvb_wire_put_u64 output 0
      request.(qpreset_rq_query_pool_id) in
  let output := bvb_wire_put_u32 output 8 request.(qpreset_rq_first_query) in
  let output := bvb_wire_put_u32 output 12 request.(qpreset_rq_query_count) in
  Ok output.

Definition bvb_protocol_decode_vulkan_query_pool_reset_request
    (input : ptr bytes) (request : ptr bvb_vulkan_query_pool_reset_request) :
        result bvb_vulkan_query_pool_reset_request :=
  deref input := input or (- EINVAL) ;;
  deref request := request or (- EINVAL) ;;
  let decoded := {| qpreset_rq_query_pool_id := bvb_wire_get_u64 input 0;
       qpreset_rq_first_query := bvb_wire_get_u32 input 8;
       qpreset_rq_query_count := bvb_wire_get_u32 input 12 |} in
  let validation := blank BVB_VULKAN_QUERY_POOL_RESET_REQUEST_SIZE in
  call validation
      := bvb_protocol_encode_vulkan_query_pool_reset_request
      (Some validation) (Some decoded) or (- EPROTO) ;;
  fail_if memcmp_ne validation input BVB_VULKAN_QUERY_POOL_RESET_REQUEST_SIZE
      with (- EPROTO) ;;
  Ok decoded.

Definition bvb_protocol_encode_vulkan_object_id
    (output : ptr bytes) (object_id : Z) (expected_type : Z) : result bytes :=
  deref output := output or (- EINVAL) ;;
  fail_if negb (wire_id_is_type object_id expected_type) with (- EINVAL) ;;
  let output := bvb_wire_put_u64 output 0 object_id in
  Ok output.

Definition bvb_protocol_decode_vulkan_object_id
    (input : ptr bytes) (object_id : ptr Z) (expected_type : Z) : result Z :=
  deref input := input or (- EINVAL) ;;
  deref object_id := object_id or (- EINVAL) ;;
  let object_id := (bvb_wire_get_u64 input 0) in
  if wire_id_is_type object_id expected_type then Ok object_id else Err
      (- EPROTO).

Definition bvb_protocol_encode_vulkan_buffer_requirements
    (output : ptr bytes) (requirements : ptr bvb_vulkan_buffer_requirements)
        : result bytes :=
  deref output := output or (- EINVAL) ;;
  deref requirements := requirements or (- EINVAL) ;;
  fail_if (requirements.(br_size) =? 0) ||
          (requirements.(br_alignment) =? 0) ||
          (requirements.(br_memory_type_bits) =? 0) with (- EINVAL) ;;
  let output := memset0 output 0 BVB_VULKAN_BUFFER_REQUIREMENTS_SIZE in
  let output := bvb_wire_put_u64 output 0 requirements.(br_size) in
  let output := bvb_wire_put_u64 output 8 requirements.(br_alignment) in
  let output := bvb_wire_put_u32 output 16
      requirements.(br_memory_type_bits) in
  Ok output.

Definition bvb_protocol_decode_vulkan_buffer_requirements
    (input : ptr bytes) (requirements : ptr bvb_vulkan_buffer_requirements) :
        result bvb_vulkan_buffer_requirements :=
  deref input := input or (- EINVAL) ;;
  deref requirements := requirements or (- EINVAL) ;;
  let requirements := {| br_size := bvb_wire_get_u64 input 0;
       br_alignment := bvb_wire_get_u64 input 8;
       br_memory_type_bits := bvb_wire_get_u32 input 16 |} in
  if ((negb (requirements.(br_size) =? 0) &&
      negb (requirements.(br_alignment) =? 0)) &&
      negb (requirements.(br_memory_type_bits) =? 0)) &&
      ((bvb_wire_get_u32 input 20) =? 0) then Ok requirements else Err
      (- EPROTO).

Definition device_buffer_sharing_is_valid
    {VK : VulkanHeader} (sharing_mode : Z) (queue_family_index_count : Z) :
        bool :=
  if (sharing_mode =? VK_SHARING_MODE_EXCLUSIVE) then
      (queue_family_index_count =? 0) else
  if (sharing_mode =? VK_SHARING_MODE_CONCURRENT) then
      (2 <=? queue_family_index_count) &&
      (queue_family_index_count
      <=? BVB_VULKAN_DEVICE_BUFFER_MAX_QUEUE_FAMILIES) else
  false.

Definition buffer_requirements_2_pnext_valid
    (pnext_flags : Z) : bool :=
  ((Z.land pnext_flags
      (Z.lnot BVB_VULKAN_BUFFER_REQUIREMENTS_2_PNEXT_MASK)) =? 0).

Definition bvb_protocol_encode_vulkan_buffer_requirements_2_request
    (output : ptr bytes)
        (request : ptr bvb_vulkan_buffer_requirements_2_request) : result
        bytes :=
  deref output := output or (- EINVAL) ;;
  deref request := request or (- EINVAL) ;;
  fail_if negb (wire_id_is_type request.(br2_rq_buffer_id)
      BVB_OBJECT_BUFFER) ||
          negb (buffer_requirements_2_pnext_valid
              request.(br2_rq_pnext_flags)) with (- EINVAL) ;;
  let output := memset0 output 0
      BVB_VULKAN_BUFFER_REQUIREMENTS_2_REQUEST_SIZE in
  let output := bvb_wire_put_u64 output 0 request.(br2_rq_buffer_id) in
  let output := bvb_wire_put_u32 output 8 request.(br2_rq_pnext_flags) in
  Ok output.

Definition bvb_protocol_decode_vulkan_buffer_requirements_2_request
    (input : ptr bytes)
        (request : ptr bvb_vulkan_buffer_requirements_2_request) : result
        bvb_vulkan_buffer_requirements_2_request :=
  deref input := input or (- EINVAL) ;;
  deref request := request or (- EINVAL) ;;
  let decoded := {| br2_rq_buffer_id := bvb_wire_get_u64 input 0;
       br2_rq_pnext_flags := bvb_wire_get_u32 input 8 |} in
  fail_if negb (wire_id_is_type decoded.(br2_rq_buffer_id)
      BVB_OBJECT_BUFFER) ||
          negb (buffer_requirements_2_pnext_valid
              decoded.(br2_rq_pnext_flags)) ||
          negb ((bvb_wire_get_u32 input 12) =? 0) with (- EPROTO) ;;
  Ok decoded.

Definition bvb_protocol_encode_vulkan_buffer_requirements_2_response
    (output : ptr bytes)
        (response : ptr bvb_vulkan_buffer_requirements_2_response) : result
        bytes :=
  deref output := output or (- EINVAL) ;;
  deref response := response or (- EINVAL) ;;
  fail_if (response.(br2_rs_size) =? 0) ||
          (response.(br2_rs_alignment) =? 0) ||
          (response.(br2_rs_memory_type_bits) =? 0) ||
          negb (buffer_requirements_2_pnext_valid
              response.(br2_rs_pnext_flags)) ||
          (1 <? response.(br2_rs_prefers_dedicated)) ||
          (1 <? response.(br2_rs_requires_dedicated)) ||
          (((Z.land response.(br2_rs_pnext_flags)
              BVB_VULKAN_BUFFER_REQUIREMENTS_2_PNEXT_DEDICATED) =? 0) &&
              (negb (response.(br2_rs_prefers_dedicated) =? 0) ||
              negb (response.(br2_rs_requires_dedicated) =? 0)))
              with (- EINVAL) ;;
  let output := bvb_wire_put_u64 output 0 response.(br2_rs_size) in
  let output := bvb_wire_put_u64 output 8 response.(br2_rs_alignment) in
  let output := bvb_wire_put_u32 output 16
      response.(br2_rs_memory_type_bits) in
  let output := bvb_wire_put_u32 output 20 response.(br2_rs_pnext_flags) in
  let output := bvb_wire_put_u32 output 24
      response.(br2_rs_prefers_dedicated) in
  let output := bvb_wire_put_u32 output 28
      response.(br2_rs_requires_dedicated) in
  Ok output.

Definition bvb_protocol_decode_vulkan_buffer_requirements_2_response
    (input : ptr bytes)
        (response : ptr bvb_vulkan_buffer_requirements_2_response) : result
        bvb_vulkan_buffer_requirements_2_response :=
  deref input := input or (- EINVAL) ;;
  deref response := response or (- EINVAL) ;;
  let decoded := {| br2_rs_size := bvb_wire_get_u64 input 0;
       br2_rs_alignment := bvb_wire_get_u64 input 8;
       br2_rs_memory_type_bits := bvb_wire_get_u32 input 16;
       br2_rs_pnext_flags := bvb_wire_get_u32 input 20;
       br2_rs_prefers_dedicated := bvb_wire_get_u32 input 24;
       br2_rs_requires_dedicated := bvb_wire_get_u32 input 28 |} in
  let canonical := blank BVB_VULKAN_BUFFER_REQUIREMENTS_2_RESPONSE_SIZE in
  call validation
      := bvb_protocol_encode_vulkan_buffer_requirements_2_response
      (Some canonical) (Some decoded) or (- EPROTO) ;;
  Ok decoded.

Definition bvb_protocol_encode_vulkan_buffer_device_address_request
    (output : ptr bytes)
        (request : ptr bvb_vulkan_buffer_device_address_request) : result
        bytes :=
  deref output := output or (- EINVAL) ;;
  deref request := request or (- EINVAL) ;;
  fail_if negb (wire_id_is_type request.(bda_rq_buffer_id) BVB_OBJECT_BUFFER)
      with (- EINVAL) ;;
  let output := bvb_wire_put_u64 output 0 request.(bda_rq_buffer_id) in
  Ok output.

Definition bvb_protocol_decode_vulkan_buffer_device_address_request
    (input : ptr bytes)
        (request : ptr bvb_vulkan_buffer_device_address_request) : result
        bvb_vulkan_buffer_device_address_request :=
  deref input := input or (- EINVAL) ;;
  deref request := request or (- EINVAL) ;;
  let decoded := {| bda_rq_buffer_id := bvb_wire_get_u64 input 0 |} in
  fail_if negb (wire_id_is_type decoded.(bda_rq_buffer_id) BVB_OBJECT_BUFFER)
      with (- EPROTO) ;;
  Ok decoded.

Definition bvb_protocol_encode_vulkan_buffer_device_address_response
    (output : ptr bytes)
        (response : ptr bvb_vulkan_buffer_device_address_response) : result
        bytes :=
  deref output := output or (- EINVAL) ;;
  deref response := response or (- EINVAL) ;;
  fail_if (response.(bda_rs_device_address) =? 0) with (- EINVAL) ;;
  let output := bvb_wire_put_u64 output 0 response.(bda_rs_device_address) in
  Ok output.

Definition bvb_protocol_decode_vulkan_buffer_device_address_response
    (input : ptr bytes)
        (response : ptr bvb_vulkan_buffer_device_address_response) : result
        bvb_vulkan_buffer_device_address_response :=
  deref input := input or (- EINVAL) ;;
  deref response := response or (- EINVAL) ;;
  let decoded := {| bda_rs_device_address := bvb_wire_get_u64 input 0 |} in
  fail_if (decoded.(bda_rs_device_address) =? 0) with (- EPROTO) ;;
  Ok decoded.

Definition bvb_protocol_encode_vulkan_memory_allocate_request
    {VK : VulkanHeader} (output : ptr bytes)
        (request : ptr bvb_vulkan_memory_allocate_request) : result bytes :=
  deref output := output or (- EINVAL) ;;
  deref request := request or (- EINVAL) ;;
  fail_if (request.(ma_rq_allocation_size) =? 0) ||
          (BVB_VULKAN_MAX_MEMORY_ALLOCATION_SIZE <?
              request.(ma_rq_allocation_size)) ||
          (VK_MAX_MEMORY_TYPES <=? request.(ma_rq_memory_type_index)) ||
          negb (wire_id_is_type request.(ma_rq_device_id) 3)
              with (- EINVAL) ;;
  let output := memset0 output 0 BVB_VULKAN_MEMORY_ALLOCATE_REQUEST_SIZE in
  let output := bvb_wire_put_u64 output 0 request.(ma_rq_device_id) in
  let output := bvb_wire_put_u64 output 8 request.(ma_rq_allocation_size) in
  let output := bvb_wire_put_u32 output 16
      request.(ma_rq_memory_type_index) in
  Ok output.

Definition bvb_protocol_decode_vulkan_memory_allocate_request
    {VK : VulkanHeader} (input : ptr bytes)
        (request : ptr bvb_vulkan_memory_allocate_request) : result
        bvb_vulkan_memory_allocate_request :=
  deref input := input or (- EINVAL) ;;
  deref request := request or (- EINVAL) ;;
  let request := {| ma_rq_device_id := bvb_wire_get_u64 input 0;
       ma_rq_allocation_size := bvb_wire_get_u64 input 8;
       ma_rq_memory_type_index := bvb_wire_get_u32 input 16 |} in
  if (((wire_id_is_type request.(ma_rq_device_id) 3 &&
      negb (request.(ma_rq_allocation_size) =? 0)) &&
      (request.(ma_rq_allocation_size)
      <=? BVB_VULKAN_MAX_MEMORY_ALLOCATION_SIZE)) &&
      (request.(ma_rq_memory_type_index) <? VK_MAX_MEMORY_TYPES)) &&
      ((bvb_wire_get_u32 input 20) =? 0) then Ok request else Err (- EPROTO).

Definition memory_allocate_extended_request_valid
    {VK : VulkanHeader}
        (request : ptr bvb_vulkan_memory_allocate_extended_request) : bool :=
  deref_bool request := request or false ;;
  if negb (wire_id_is_type request.(mae_rq_device_id) BVB_OBJECT_DEVICE) ||
      (request.(mae_rq_allocation_size) =? 0) ||
      (BVB_VULKAN_MAX_MEMORY_ALLOCATION_SIZE <?
      request.(mae_rq_allocation_size)) ||
      (VK_MAX_MEMORY_TYPES <=? request.(mae_rq_memory_type_index)) ||
      negb ((Z.land request.(mae_rq_pnext_flags)
      (Z.lnot BVB_VULKAN_MEMORY_ALLOCATE_PNEXT_MASK)) =? 0) ||
      (((Z.land request.(mae_rq_pnext_flags)
      BVB_VULKAN_MEMORY_ALLOCATE_PNEXT_DEDICATED_IMAGE) =? 0) &&
      negb (request.(mae_rq_dedicated_image_id) =? 0)) ||
      (negb ((Z.land request.(mae_rq_pnext_flags)
      BVB_VULKAN_MEMORY_ALLOCATE_PNEXT_DEDICATED_IMAGE) =? 0) &&
      negb (wire_id_is_type request.(mae_rq_dedicated_image_id)
      BVB_OBJECT_IMAGE)) ||
      (((Z.land request.(mae_rq_pnext_flags)
      BVB_VULKAN_MEMORY_ALLOCATE_PNEXT_FLAGS) =? 0) &&
      (negb (request.(mae_rq_allocation_flags) =? 0) ||
      negb (request.(mae_rq_device_mask) =? 0))) ||
      (negb ((Z.land request.(mae_rq_pnext_flags)
      BVB_VULKAN_MEMORY_ALLOCATE_PNEXT_FLAGS) =? 0) &&
      (negb (request.(mae_rq_allocation_flags) =?
      VK_MEMORY_ALLOCATE_DEVICE_ADDRESS_BIT) ||
      negb (request.(mae_rq_device_mask) =? 0))) then false else
  true.

Definition bvb_protocol_encode_vulkan_memory_allocate_extended_request
    {VK : VulkanHeader} (output : ptr bytes)
        (request : ptr bvb_vulkan_memory_allocate_extended_request) : result
        bytes :=
  deref output := output or (- EINVAL) ;;
  fail_if negb (memory_allocate_extended_request_valid request)
      with (- EINVAL) ;;
  deref request := request or (- EINVAL) ;;
  let output := bvb_wire_put_u64 output 0 request.(mae_rq_device_id) in
  let output := bvb_wire_put_u64 output 8 request.(mae_rq_allocation_size) in
  let output := bvb_wire_put_u64 output 16
      request.(mae_rq_dedicated_image_id) in
  let output := bvb_wire_put_u32 output 24
      request.(mae_rq_memory_type_index) in
  let output := bvb_wire_put_u32 output 28 request.(mae_rq_pnext_flags) in
  let output := bvb_wire_put_u32 output 32
      request.(mae_rq_allocation_flags) in
  let output := bvb_wire_put_u32 output 36 request.(mae_rq_device_mask) in
  Ok output.

Definition bvb_protocol_decode_vulkan_memory_allocate_extended_request
    {VK : VulkanHeader} (input : ptr bytes)
        (request : ptr bvb_vulkan_memory_allocate_extended_request) : result
        bvb_vulkan_memory_allocate_extended_request :=
  deref input := input or (- EINVAL) ;;
  deref request := request or (- EINVAL) ;;
  let decoded := {| mae_rq_device_id := bvb_wire_get_u64 input 0;
       mae_rq_allocation_size := bvb_wire_get_u64 input 8;
       mae_rq_dedicated_image_id := bvb_wire_get_u64 input 16;
       mae_rq_memory_type_index := bvb_wire_get_u32 input 24;
       mae_rq_pnext_flags := bvb_wire_get_u32 input 28;
       mae_rq_allocation_flags := bvb_wire_get_u32 input 32;
       mae_rq_device_mask := bvb_wire_get_u32 input 36 |} in
  fail_if negb (memory_allocate_extended_request_valid (Some decoded))
      with (- EPROTO) ;;
  Ok decoded.

Definition bvb_protocol_encode_vulkan_buffer_bind_request
    (output : ptr bytes) (request : ptr bvb_vulkan_buffer_bind_request) :
        result bytes :=
  deref output := output or (- EINVAL) ;;
  deref request := request or (- EINVAL) ;;
  fail_if negb (wire_id_is_type request.(bb_rq_buffer_id) 19) ||
          negb (wire_id_is_type request.(bb_rq_memory_id) 9)
              with (- EINVAL) ;;
  let output := bvb_wire_put_u64 output 0 request.(bb_rq_buffer_id) in
  let output := bvb_wire_put_u64 output 8 request.(bb_rq_memory_id) in
  let output := bvb_wire_put_u64 output 16 request.(bb_rq_offset) in
  Ok output.

Definition bvb_protocol_decode_vulkan_buffer_bind_request
    (input : ptr bytes) (request : ptr bvb_vulkan_buffer_bind_request) :
        result bvb_vulkan_buffer_bind_request :=
  deref input := input or (- EINVAL) ;;
  deref request := request or (- EINVAL) ;;
  let request := {| bb_rq_buffer_id := bvb_wire_get_u64 input 0;
       bb_rq_memory_id := bvb_wire_get_u64 input 8;
       bb_rq_offset := bvb_wire_get_u64 input 16 |} in
  if wire_id_is_type request.(bb_rq_buffer_id) 19 &&
      wire_id_is_type request.(bb_rq_memory_id) 9 then Ok request else Err
      (- EPROTO).

Definition image_usage_valid
    {VK : VulkanHeader} (usage : Z) : bool :=
  let supported
      := Z.lor (Z.lor
      (Z.lor (Z.lor
      (Z.lor (Z.lor
      (Z.lor VK_IMAGE_USAGE_TRANSFER_SRC_BIT VK_IMAGE_USAGE_TRANSFER_DST_BIT)
      VK_IMAGE_USAGE_SAMPLED_BIT) VK_IMAGE_USAGE_STORAGE_BIT)
      VK_IMAGE_USAGE_COLOR_ATTACHMENT_BIT)
      VK_IMAGE_USAGE_DEPTH_STENCIL_ATTACHMENT_BIT)
      VK_IMAGE_USAGE_TRANSIENT_ATTACHMENT_BIT)
      VK_IMAGE_USAGE_INPUT_ATTACHMENT_BIT in
  negb (usage =? 0) && ((Z.land usage (Z.lnot supported)) =? 0).

Definition bvb_protocol_encode_vulkan_image_requirements
    (output : ptr bytes) (requirements : ptr bvb_vulkan_image_requirements) :
        result bytes :=
  deref output := output or (- EINVAL) ;;
  deref requirements := requirements or (- EINVAL) ;;
  fail_if (requirements.(ir_size) =? 0) ||
          (requirements.(ir_alignment) =? 0) ||
          (requirements.(ir_memory_type_bits) =? 0) with (- EINVAL) ;;
  let output := memset0 output 0 BVB_VULKAN_IMAGE_REQUIREMENTS_SIZE in
  let output := bvb_wire_put_u64 output 0 requirements.(ir_size) in
  let output := bvb_wire_put_u64 output 8 requirements.(ir_alignment) in
  let output := bvb_wire_put_u32 output 16
      requirements.(ir_memory_type_bits) in
  Ok output.

Definition bvb_protocol_decode_vulkan_image_requirements
    (input : ptr bytes) (requirements : ptr bvb_vulkan_image_requirements) :
        result bvb_vulkan_image_requirements :=
  deref input := input or (- EINVAL) ;;
  deref requirements := requirements or (- EINVAL) ;;
  let decoded := {| ir_size := bvb_wire_get_u64 input 0;
       ir_alignment := bvb_wire_get_u64 input 8;
       ir_memory_type_bits := bvb_wire_get_u32 input 16 |} in
  fail_if (decoded.(ir_size) =? 0) ||
          (decoded.(ir_alignment) =? 0) ||
          (decoded.(ir_memory_type_bits) =? 0) ||
          negb ((bvb_wire_get_u32 input 20) =? 0) with (- EPROTO) ;;
  Ok decoded.

Definition image_requirements_2_pnext_valid
    (pnext_flags : Z) : bool :=
  ((Z.land pnext_flags
      (Z.lnot BVB_VULKAN_IMAGE_REQUIREMENTS_2_PNEXT_MASK)) =? 0).

Definition bvb_protocol_encode_vulkan_image_requirements_2_request
    (output : ptr bytes)
        (request : ptr bvb_vulkan_image_requirements_2_request) : result
        bytes :=
  deref output := output or (- EINVAL) ;;
  deref request := request or (- EINVAL) ;;
  fail_if negb (wire_id_is_type request.(ir2_rq_image_id) BVB_OBJECT_IMAGE) ||
          negb (image_requirements_2_pnext_valid
              request.(ir2_rq_pnext_flags)) with (- EINVAL) ;;
  let output := memset0 output 0
      BVB_VULKAN_IMAGE_REQUIREMENTS_2_REQUEST_SIZE in
  let output := bvb_wire_put_u64 output 0 request.(ir2_rq_image_id) in
  let output := bvb_wire_put_u32 output 8 request.(ir2_rq_pnext_flags) in
  Ok output.

Definition bvb_protocol_decode_vulkan_image_requirements_2_request
    (input : ptr bytes)
        (request : ptr bvb_vulkan_image_requirements_2_request) : result
        bvb_vulkan_image_requirements_2_request :=
  deref input := input or (- EINVAL) ;;
  deref request := request or (- EINVAL) ;;
  let decoded := {| ir2_rq_image_id := bvb_wire_get_u64 input 0;
       ir2_rq_pnext_flags := bvb_wire_get_u32 input 8 |} in
  fail_if negb (wire_id_is_type decoded.(ir2_rq_image_id) BVB_OBJECT_IMAGE) ||
          negb (image_requirements_2_pnext_valid
              decoded.(ir2_rq_pnext_flags)) ||
          negb ((bvb_wire_get_u32 input 12) =? 0) with (- EPROTO) ;;
  Ok decoded.

Definition bvb_protocol_encode_vulkan_image_requirements_2_response
    (output : ptr bytes)
        (response : ptr bvb_vulkan_image_requirements_2_response) : result
        bytes :=
  deref output := output or (- EINVAL) ;;
  deref response := response or (- EINVAL) ;;
  fail_if (response.(ir2_rs_size) =? 0) ||
          (response.(ir2_rs_alignment) =? 0) ||
          (response.(ir2_rs_memory_type_bits) =? 0) ||
          negb (image_requirements_2_pnext_valid
              response.(ir2_rs_pnext_flags)) ||
          (1 <? response.(ir2_rs_prefers_dedicated)) ||
          (1 <? response.(ir2_rs_requires_dedicated)) ||
          (((Z.land response.(ir2_rs_pnext_flags)
              BVB_VULKAN_IMAGE_REQUIREMENTS_2_PNEXT_DEDICATED) =? 0) &&
              (negb (response.(ir2_rs_prefers_dedicated) =? 0) ||
              negb (response.(ir2_rs_requires_dedicated) =? 0)))
              with (- EINVAL) ;;
  let output := bvb_wire_put_u64 output 0 response.(ir2_rs_size) in
  let output := bvb_wire_put_u64 output 8 response.(ir2_rs_alignment) in
  let output := bvb_wire_put_u32 output 16
      response.(ir2_rs_memory_type_bits) in
  let output := bvb_wire_put_u32 output 20 response.(ir2_rs_pnext_flags) in
  let output := bvb_wire_put_u32 output 24
      response.(ir2_rs_prefers_dedicated) in
  let output := bvb_wire_put_u32 output 28
      response.(ir2_rs_requires_dedicated) in
  Ok output.

Definition bvb_protocol_decode_vulkan_image_requirements_2_response
    (input : ptr bytes)
        (response : ptr bvb_vulkan_image_requirements_2_response) : result
        bvb_vulkan_image_requirements_2_response :=
  deref input := input or (- EINVAL) ;;
  deref response := response or (- EINVAL) ;;
  let decoded := {| ir2_rs_size := bvb_wire_get_u64 input 0;
       ir2_rs_alignment := bvb_wire_get_u64 input 8;
       ir2_rs_memory_type_bits := bvb_wire_get_u32 input 16;
       ir2_rs_pnext_flags := bvb_wire_get_u32 input 20;
       ir2_rs_prefers_dedicated := bvb_wire_get_u32 input 24;
       ir2_rs_requires_dedicated := bvb_wire_get_u32 input 28 |} in
  let canonical := blank BVB_VULKAN_IMAGE_REQUIREMENTS_2_RESPONSE_SIZE in
  call validation
      := bvb_protocol_encode_vulkan_image_requirements_2_response
      (Some canonical) (Some decoded) or (- EPROTO) ;;
  Ok decoded.

Definition bvb_protocol_encode_vulkan_image_bind_request
    (output : ptr bytes) (request : ptr bvb_vulkan_image_bind_request) :
        result bytes :=
  deref output := output or (- EINVAL) ;;
  deref request := request or (- EINVAL) ;;
  fail_if negb (wire_id_is_type request.(ib_rq_image_id) BVB_OBJECT_IMAGE) ||
          negb (wire_id_is_type request.(ib_rq_memory_id)
              BVB_OBJECT_DEVICE_MEMORY) with (- EINVAL) ;;
  let output := bvb_wire_put_u64 output 0 request.(ib_rq_image_id) in
  let output := bvb_wire_put_u64 output 8 request.(ib_rq_memory_id) in
  let output := bvb_wire_put_u64 output 16 request.(ib_rq_offset) in
  Ok output.

Definition bvb_protocol_decode_vulkan_image_bind_request
    (input : ptr bytes) (request : ptr bvb_vulkan_image_bind_request) :
        result bvb_vulkan_image_bind_request :=
  deref input := input or (- EINVAL) ;;
  deref request := request or (- EINVAL) ;;
  let decoded := {| ib_rq_image_id := bvb_wire_get_u64 input 0;
       ib_rq_memory_id := bvb_wire_get_u64 input 8;
       ib_rq_offset := bvb_wire_get_u64 input 16 |} in
  fail_if negb (wire_id_is_type decoded.(ib_rq_image_id) BVB_OBJECT_IMAGE) ||
          negb (wire_id_is_type decoded.(ib_rq_memory_id)
              BVB_OBJECT_DEVICE_MEMORY) with (- EPROTO) ;;
  Ok decoded.

Definition image_view_create_request_valid
    {VK : VulkanHeader} (request : ptr bvb_vulkan_image_view_create_request)
        : bool :=
  let aspect_mask
      := Z.lor (Z.lor
      (Z.lor (Z.lor
      (Z.lor (Z.lor VK_IMAGE_ASPECT_COLOR_BIT VK_IMAGE_ASPECT_DEPTH_BIT)
      VK_IMAGE_ASPECT_STENCIL_BIT) VK_IMAGE_ASPECT_METADATA_BIT)
      VK_IMAGE_ASPECT_PLANE_0_BIT) VK_IMAGE_ASPECT_PLANE_1_BIT)
      VK_IMAGE_ASPECT_PLANE_2_BIT in
  deref_bool request := request or false ;;
  if negb (wire_id_is_type request.(ivc_rq_device_id) BVB_OBJECT_DEVICE) ||
      negb (wire_id_is_type request.(ivc_rq_image_id) BVB_OBJECT_IMAGE) ||
      negb (request.(ivc_rq_flags) =? 0) ||
      (VK_IMAGE_VIEW_TYPE_CUBE_ARRAY <? request.(ivc_rq_view_type)) ||
      (request.(ivc_rq_format) =? VK_FORMAT_UNDEFINED) ||
      (VK_COMPONENT_SWIZZLE_A <? request.(ivc_rq_component_r)) ||
      (VK_COMPONENT_SWIZZLE_A <? request.(ivc_rq_component_g)) ||
      (VK_COMPONENT_SWIZZLE_A <? request.(ivc_rq_component_b)) ||
      (VK_COMPONENT_SWIZZLE_A <? request.(ivc_rq_component_a)) ||
      (request.(ivc_rq_aspect_mask) =? 0) ||
      negb ((Z.land request.(ivc_rq_aspect_mask)
      (Z.lnot aspect_mask)) =? 0) || (request.(ivc_rq_level_count) =? 0) ||
      (request.(ivc_rq_layer_count) =? 0) ||
      negb ((Z.land request.(ivc_rq_pnext_flags)
      (Z.lnot BVB_VULKAN_IMAGE_VIEW_CREATE_PNEXT_MASK)) =? 0) ||
      (((Z.land request.(ivc_rq_pnext_flags)
      BVB_VULKAN_IMAGE_VIEW_CREATE_PNEXT_USAGE) =? 0) &&
      negb (request.(ivc_rq_usage) =? 0)) ||
      (negb ((Z.land request.(ivc_rq_pnext_flags)
      BVB_VULKAN_IMAGE_VIEW_CREATE_PNEXT_USAGE) =? 0) &&
      negb (image_usage_valid request.(ivc_rq_usage))) then false else
  true.

Definition bvb_protocol_encode_vulkan_image_view_create_request
    {VK : VulkanHeader} (output : ptr bytes)
        (request : ptr bvb_vulkan_image_view_create_request) : result bytes :=
  deref output := output or (- EINVAL) ;;
  fail_if negb (image_view_create_request_valid request) with (- EINVAL) ;;
  let output := memset0 output 0 BVB_VULKAN_IMAGE_VIEW_CREATE_REQUEST_SIZE in
  deref request := request or (- EINVAL) ;;
  let output := bvb_wire_put_u64 output 0 request.(ivc_rq_device_id) in
  let output := bvb_wire_put_u64 output 8 request.(ivc_rq_image_id) in
  let output := bvb_wire_put_u32 output 16 request.(ivc_rq_flags) in
  let output := bvb_wire_put_u32 output 20 request.(ivc_rq_view_type) in
  let output := bvb_wire_put_u32 output 24 request.(ivc_rq_format) in
  let output := bvb_wire_put_u32 output 28 request.(ivc_rq_component_r) in
  let output := bvb_wire_put_u32 output 32 request.(ivc_rq_component_g) in
  let output := bvb_wire_put_u32 output 36 request.(ivc_rq_component_b) in
  let output := bvb_wire_put_u32 output 40 request.(ivc_rq_component_a) in
  let output := bvb_wire_put_u32 output 44 request.(ivc_rq_aspect_mask) in
  let output := bvb_wire_put_u32 output 48 request.(ivc_rq_base_mip_level) in
  let output := bvb_wire_put_u32 output 52 request.(ivc_rq_level_count) in
  let output := bvb_wire_put_u32 output 56
      request.(ivc_rq_base_array_layer) in
  let output := bvb_wire_put_u32 output 60 request.(ivc_rq_layer_count) in
  let output := bvb_wire_put_u32 output 64 request.(ivc_rq_pnext_flags) in
  let output := bvb_wire_put_u32 output 68 request.(ivc_rq_usage) in
  Ok output.

Definition bvb_protocol_decode_vulkan_image_view_create_request
    {VK : VulkanHeader} (input : ptr bytes)
        (request : ptr bvb_vulkan_image_view_create_request) : result
        bvb_vulkan_image_view_create_request :=
  deref input := input or (- EINVAL) ;;
  deref request := request or (- EINVAL) ;;
  let decoded := {| ivc_rq_device_id := bvb_wire_get_u64 input 0;
       ivc_rq_image_id := bvb_wire_get_u64 input 8;
       ivc_rq_flags := bvb_wire_get_u32 input 16;
       ivc_rq_view_type := bvb_wire_get_u32 input 20;
       ivc_rq_format := bvb_wire_get_u32 input 24;
       ivc_rq_component_r := bvb_wire_get_u32 input 28;
       ivc_rq_component_g := bvb_wire_get_u32 input 32;
       ivc_rq_component_b := bvb_wire_get_u32 input 36;
       ivc_rq_component_a := bvb_wire_get_u32 input 40;
       ivc_rq_aspect_mask := bvb_wire_get_u32 input 44;
       ivc_rq_base_mip_level := bvb_wire_get_u32 input 48;
       ivc_rq_level_count := bvb_wire_get_u32 input 52;
       ivc_rq_base_array_layer := bvb_wire_get_u32 input 56;
       ivc_rq_layer_count := bvb_wire_get_u32 input 60;
       ivc_rq_pnext_flags := bvb_wire_get_u32 input 64;
       ivc_rq_usage := bvb_wire_get_u32 input 68 |} in
  fail_if negb (image_view_create_request_valid (Some decoded))
      with (- EPROTO) ;;
  Ok decoded.

#[global] Arguments query_type_is_supported : simpl never.
#[global] Arguments device_buffer_sharing_is_valid : simpl never.
#[global] Arguments buffer_requirements_2_pnext_valid : simpl never.
#[global] Arguments memory_allocate_extended_request_valid : simpl never.
#[global] Arguments image_usage_valid : simpl never.
#[global] Arguments image_requirements_2_pnext_valid : simpl never.
#[global] Arguments image_view_create_request_valid : simpl never.

(** ** Codecs *)

Definition buffer_create_request_codec : codec
    bvb_vulkan_buffer_create_request :=
  mk_codec BVB_VULKAN_BUFFER_CREATE_REQUEST_SIZE bc_rq_rep
      bvb_protocol_encode_vulkan_buffer_create_request
    bvb_protocol_decode_vulkan_buffer_create_request.

Definition object_create_response_codec (expected_type : Z) : codec
    bvb_vulkan_object_create_response :=
  mk_codec BVB_VULKAN_OBJECT_CREATE_RESPONSE_SIZE oc_rs_rep
    (fun o v => bvb_protocol_encode_vulkan_object_create_response o v
        expected_type)
    (fun i v => bvb_protocol_decode_vulkan_object_create_response i v
        expected_type).

Definition query_pool_create_request_codec {VK : VulkanHeader} : codec
    bvb_vulkan_query_pool_create_request :=
  mk_codec BVB_VULKAN_QUERY_POOL_CREATE_REQUEST_SIZE qpc_rq_rep
      bvb_protocol_encode_vulkan_query_pool_create_request
    bvb_protocol_decode_vulkan_query_pool_create_request.

Definition query_pool_results_request_codec : codec
    bvb_vulkan_query_pool_results_request :=
  mk_codec BVB_VULKAN_QUERY_POOL_RESULTS_REQUEST_SIZE qpr_rq_rep
      bvb_protocol_encode_vulkan_query_pool_results_request
    bvb_protocol_decode_vulkan_query_pool_results_request.

Definition query_pool_reset_request_codec : codec
    bvb_vulkan_query_pool_reset_request :=
  mk_codec BVB_VULKAN_QUERY_POOL_RESET_REQUEST_SIZE qpreset_rq_rep
      bvb_protocol_encode_vulkan_query_pool_reset_request
    bvb_protocol_decode_vulkan_query_pool_reset_request.

Definition object_id_codec (expected_type : Z) : codec Z :=
  mk_codec BVB_VULKAN_OBJECT_ID_SIZE is_u64
    (by_value (fun o v => bvb_protocol_encode_vulkan_object_id o v
        expected_type))
    (fun i v => bvb_protocol_decode_vulkan_object_id i v expected_type).

Definition buffer_requirements_codec : codec bvb_vulkan_buffer_requirements :=
  mk_codec BVB_VULKAN_BUFFER_REQUIREMENTS_SIZE br_rep
      bvb_protocol_encode_vulkan_buffer_requirements
    bvb_protocol_decode_vulkan_buffer_requirements.

Definition buffer_requirements_2_request_codec : codec
    bvb_vulkan_buffer_requirements_2_request :=
  mk_codec BVB_VULKAN_BUFFER_REQUIREMENTS_2_REQUEST_SIZE br2_rq_rep
      bvb_protocol_encode_vulkan_buffer_requirements_2_request
    bvb_protocol_decode_vulkan_buffer_requirements_2_request.

Definition buffer_requirements_2_response_codec : codec
    bvb_vulkan_buffer_requirements_2_response :=
  mk_codec BVB_VULKAN_BUFFER_REQUIREMENTS_2_RESPONSE_SIZE br2_rs_rep
      bvb_protocol_encode_vulkan_buffer_requirements_2_response
    bvb_protocol_decode_vulkan_buffer_requirements_2_response.

Definition buffer_device_address_request_codec : codec
    bvb_vulkan_buffer_device_address_request :=
  mk_codec BVB_VULKAN_BUFFER_DEVICE_ADDRESS_REQUEST_SIZE bda_rq_rep
      bvb_protocol_encode_vulkan_buffer_device_address_request
    bvb_protocol_decode_vulkan_buffer_device_address_request.

Definition buffer_device_address_response_codec : codec
    bvb_vulkan_buffer_device_address_response :=
  mk_codec BVB_VULKAN_BUFFER_DEVICE_ADDRESS_RESPONSE_SIZE bda_rs_rep
      bvb_protocol_encode_vulkan_buffer_device_address_response
    bvb_protocol_decode_vulkan_buffer_device_address_response.

Definition memory_allocate_request_codec {VK : VulkanHeader} : codec
    bvb_vulkan_memory_allocate_request :=
  mk_codec BVB_VULKAN_MEMORY_ALLOCATE_REQUEST_SIZE ma_rq_rep
      bvb_protocol_encode_vulkan_memory_allocate_request
    bvb_protocol_decode_vulkan_memory_allocate_request.

Definition memory_allocate_extended_request_codec {VK : VulkanHeader} : codec
    bvb_vulkan_memory_allocate_extended_request :=
  mk_codec BVB_VULKAN_MEMORY_ALLOCATE_EXTENDED_REQUEST_SIZE mae_rq_rep
      bvb_protocol_encode_vulkan_memory_allocate_extended_request
    bvb_protocol_decode_vulkan_memory_allocate_extended_request.

Definition buffer_bind_request_codec : codec bvb_vulkan_buffer_bind_request :=
  mk_codec BVB_VULKAN_BUFFER_BIND_REQUEST_SIZE bb_rq_rep
      bvb_protocol_encode_vulkan_buffer_bind_request
    bvb_protocol_decode_vulkan_buffer_bind_request.

Definition image_requirements_codec : codec bvb_vulkan_image_requirements :=
  mk_codec BVB_VULKAN_IMAGE_REQUIREMENTS_SIZE ir_rep
      bvb_protocol_encode_vulkan_image_requirements
    bvb_protocol_decode_vulkan_image_requirements.

Definition image_requirements_2_request_codec : codec
    bvb_vulkan_image_requirements_2_request :=
  mk_codec BVB_VULKAN_IMAGE_REQUIREMENTS_2_REQUEST_SIZE ir2_rq_rep
      bvb_protocol_encode_vulkan_image_requirements_2_request
    bvb_protocol_decode_vulkan_image_requirements_2_request.

Definition image_requirements_2_response_codec : codec
    bvb_vulkan_image_requirements_2_response :=
  mk_codec BVB_VULKAN_IMAGE_REQUIREMENTS_2_RESPONSE_SIZE ir2_rs_rep
      bvb_protocol_encode_vulkan_image_requirements_2_response
    bvb_protocol_decode_vulkan_image_requirements_2_response.

Definition image_bind_request_codec : codec bvb_vulkan_image_bind_request :=
  mk_codec BVB_VULKAN_IMAGE_BIND_REQUEST_SIZE ib_rq_rep
      bvb_protocol_encode_vulkan_image_bind_request
    bvb_protocol_decode_vulkan_image_bind_request.

Definition image_view_create_request_codec {VK : VulkanHeader} : codec
    bvb_vulkan_image_view_create_request :=
  mk_codec BVB_VULKAN_IMAGE_VIEW_CREATE_REQUEST_SIZE ivc_rq_rep
      bvb_protocol_encode_vulkan_image_view_create_request
    bvb_protocol_decode_vulkan_image_view_create_request.

(** ** Their contracts *)

#[export] Instance buffer_create_request_codec_lawful : Lawful
    buffer_create_request_codec.
Proof. solve_lawful. Qed.
#[export] Instance buffer_create_request_codec_errors : ErrorsByRole
    buffer_create_request_codec.
Proof. solve_errors. Qed.

#[export] Instance object_create_response_codec_lawful expected_type : Lawful
    (object_create_response_codec expected_type).
Proof. solve_lawful. Qed.
#[export] Instance object_create_response_codec_canonical expected_type :
    Canonical (object_create_response_codec expected_type).
Proof. solve_canonical. Qed.
#[export] Instance object_create_response_codec_errors expected_type :
    ErrorsByRole (object_create_response_codec expected_type).
Proof. solve_errors. Qed.

#[export] Instance query_pool_create_request_codec_lawful {VK : VulkanHeader}
    : Lawful query_pool_create_request_codec.
Proof. solve_lawful. Qed.
#[export] Instance query_pool_create_request_codec_canonical
    {VK : VulkanHeader} : Canonical query_pool_create_request_codec.
Proof. solve_canonical. Qed.
#[export] Instance query_pool_create_request_codec_errors {VK : VulkanHeader}
    : ErrorsByRole query_pool_create_request_codec.
Proof. solve_errors. Qed.

#[export] Instance query_pool_results_request_codec_lawful : Lawful
    query_pool_results_request_codec.
Proof. solve_lawful. Qed.
#[export] Instance query_pool_results_request_codec_canonical : Canonical
    query_pool_results_request_codec.
Proof. solve_canonical. Qed.
#[export] Instance query_pool_results_request_codec_errors : ErrorsByRole
    query_pool_results_request_codec.
Proof. solve_errors. Qed.

#[export] Instance query_pool_reset_request_codec_lawful : Lawful
    query_pool_reset_request_codec.
Proof. solve_lawful. Qed.
#[export] Instance query_pool_reset_request_codec_canonical : Canonical
    query_pool_reset_request_codec.
Proof. solve_canonical. Qed.
#[export] Instance query_pool_reset_request_codec_errors : ErrorsByRole
    query_pool_reset_request_codec.
Proof. solve_errors. Qed.

#[export] Instance object_id_codec_lawful expected_type : Lawful
    (object_id_codec expected_type).
Proof. solve_lawful. Qed.
#[export] Instance object_id_codec_canonical expected_type : Canonical
    (object_id_codec expected_type).
Proof. solve_canonical. Qed.
#[export] Instance object_id_codec_errors expected_type : ErrorsByRole
    (object_id_codec expected_type).
Proof. solve_errors. Qed.

#[export] Instance buffer_requirements_codec_lawful : Lawful
    buffer_requirements_codec.
Proof. solve_lawful. Qed.
#[export] Instance buffer_requirements_codec_canonical : Canonical
    buffer_requirements_codec.
Proof. solve_canonical. Qed.
#[export] Instance buffer_requirements_codec_errors : ErrorsByRole
    buffer_requirements_codec.
Proof. solve_errors. Qed.

#[export] Instance buffer_requirements_2_request_codec_lawful : Lawful
    buffer_requirements_2_request_codec.
Proof. solve_lawful. Qed.
#[export] Instance buffer_requirements_2_request_codec_canonical : Canonical
    buffer_requirements_2_request_codec.
Proof. solve_canonical. Qed.
#[export] Instance buffer_requirements_2_request_codec_errors : ErrorsByRole
    buffer_requirements_2_request_codec.
Proof. solve_errors. Qed.

#[export] Instance buffer_requirements_2_response_codec_lawful : Lawful
    buffer_requirements_2_response_codec.
Proof. solve_lawful. Qed.
#[export] Instance buffer_requirements_2_response_codec_canonical : Canonical
    buffer_requirements_2_response_codec.
Proof. solve_canonical. Qed.
#[export] Instance buffer_requirements_2_response_codec_errors : ErrorsByRole
    buffer_requirements_2_response_codec.
Proof. solve_errors. Qed.

#[export] Instance buffer_device_address_request_codec_lawful : Lawful
    buffer_device_address_request_codec.
Proof. solve_lawful. Qed.
#[export] Instance buffer_device_address_request_codec_canonical : Canonical
    buffer_device_address_request_codec.
Proof. solve_canonical. Qed.
#[export] Instance buffer_device_address_request_codec_errors : ErrorsByRole
    buffer_device_address_request_codec.
Proof. solve_errors. Qed.

#[export] Instance buffer_device_address_response_codec_lawful : Lawful
    buffer_device_address_response_codec.
Proof. solve_lawful. Qed.
#[export] Instance buffer_device_address_response_codec_canonical : Canonical
    buffer_device_address_response_codec.
Proof. solve_canonical. Qed.
#[export] Instance buffer_device_address_response_codec_errors : ErrorsByRole
    buffer_device_address_response_codec.
Proof. solve_errors. Qed.

#[export] Instance memory_allocate_request_codec_lawful {VK : VulkanHeader} :
    Lawful memory_allocate_request_codec.
Proof. solve_lawful. Qed.
#[export] Instance memory_allocate_request_codec_canonical
    {VK : VulkanHeader} : Canonical memory_allocate_request_codec.
Proof. solve_canonical. Qed.
#[export] Instance memory_allocate_request_codec_errors {VK : VulkanHeader} :
    ErrorsByRole memory_allocate_request_codec.
Proof. solve_errors. Qed.

#[export] Instance memory_allocate_extended_request_codec_lawful
    {VK : VulkanHeader} : Lawful memory_allocate_extended_request_codec.
Proof. solve_lawful. Qed.
#[export] Instance memory_allocate_extended_request_codec_canonical
    {VK : VulkanHeader} : Canonical memory_allocate_extended_request_codec.
Proof. solve_canonical. Qed.
#[export] Instance memory_allocate_extended_request_codec_errors
    {VK : VulkanHeader} : ErrorsByRole memory_allocate_extended_request_codec.
Proof. solve_errors. Qed.

#[export] Instance buffer_bind_request_codec_lawful : Lawful
    buffer_bind_request_codec.
Proof. solve_lawful. Qed.
#[export] Instance buffer_bind_request_codec_canonical : Canonical
    buffer_bind_request_codec.
Proof. solve_canonical. Qed.
#[export] Instance buffer_bind_request_codec_errors : ErrorsByRole
    buffer_bind_request_codec.
Proof. solve_errors. Qed.

#[export] Instance image_requirements_codec_lawful : Lawful
    image_requirements_codec.
Proof. solve_lawful. Qed.
#[export] Instance image_requirements_codec_canonical : Canonical
    image_requirements_codec.
Proof. solve_canonical. Qed.
#[export] Instance image_requirements_codec_errors : ErrorsByRole
    image_requirements_codec.
Proof. solve_errors. Qed.

#[export] Instance image_requirements_2_request_codec_lawful : Lawful
    image_requirements_2_request_codec.
Proof. solve_lawful. Qed.
#[export] Instance image_requirements_2_request_codec_canonical : Canonical
    image_requirements_2_request_codec.
Proof. solve_canonical. Qed.
#[export] Instance image_requirements_2_request_codec_errors : ErrorsByRole
    image_requirements_2_request_codec.
Proof. solve_errors. Qed.

#[export] Instance image_requirements_2_response_codec_lawful : Lawful
    image_requirements_2_response_codec.
Proof. solve_lawful. Qed.
#[export] Instance image_requirements_2_response_codec_canonical : Canonical
    image_requirements_2_response_codec.
Proof. solve_canonical. Qed.
#[export] Instance image_requirements_2_response_codec_errors : ErrorsByRole
    image_requirements_2_response_codec.
Proof. solve_errors. Qed.

#[export] Instance image_bind_request_codec_lawful : Lawful
    image_bind_request_codec.
Proof. solve_lawful. Qed.
#[export] Instance image_bind_request_codec_canonical : Canonical
    image_bind_request_codec.
Proof. solve_canonical. Qed.
#[export] Instance image_bind_request_codec_errors : ErrorsByRole
    image_bind_request_codec.
Proof. solve_errors. Qed.

#[export] Instance image_view_create_request_codec_lawful {VK : VulkanHeader}
    : Lawful image_view_create_request_codec.
Proof. solve_lawful. Qed.
#[export] Instance image_view_create_request_codec_canonical
    {VK : VulkanHeader} : Canonical image_view_create_request_codec.
Proof. solve_canonical. Qed.
#[export] Instance image_view_create_request_codec_errors {VK : VulkanHeader}
    : ErrorsByRole image_view_create_request_codec.
Proof. solve_errors. Qed.

(** ** The usage the decoder accepts *)

(** The decoder of a buffer-create request takes a usage of 0 that the
    encoder never sends; with any other usage the two agree. *)
Theorem buffer_create_accepts_zero_usage inp out v old :
  blen inp = BVB_VULKAN_BUFFER_CREATE_REQUEST_SIZE ->
  blen out = BVB_VULKAN_BUFFER_CREATE_REQUEST_SIZE ->
  bvb_protocol_decode_vulkan_buffer_create_request (Some inp) (Some old) =
    Ok v ->
  bvb_protocol_encode_vulkan_buffer_create_request (Some out) (Some v) =
    if v.(bc_rq_usage) =? 0 then Err (- EINVAL) else Ok inp.
Proof.
  intros Hi Ho E. cbn in *. ok_path E. injection E as <-. split_tests. cbn.
  use_tests. cbn. destruct (bvb_wire_get_u32 inp 16 =? 0); cbn; [done|].
  apply (f_equal Ok), agree_eq; autorewrite with blen; [lia|].
  rewrite Ho. agree_words.
Qed.

Definition zero_usage_bytes : bytes :=
  bvb_wire_put_u64 (bvb_wire_put_u64 (blank 24) 0 (3 * 2 ^ 56 + 1)) 8 64.
Definition zero_usage_request : bvb_vulkan_buffer_create_request :=
  mk_bvb_vulkan_buffer_create_request (3 * 2 ^ 56 + 1) 64 0 0.

Lemma buffer_create_accepts_zero_usage_witness :
  bvb_protocol_decode_vulkan_buffer_create_request (Some zero_usage_bytes)
    (Some zero_usage_request) = Ok zero_usage_request /\
  bvb_protocol_encode_vulkan_buffer_create_request (Some (blank 24))
    (Some zero_usage_request) = Err (- EINVAL).
Proof.
  split; [vm_compute; reflexivity|].
  rewrite (buffer_create_accepts_zero_usage zero_usage_bytes (blank 24)
             zero_usage_request zero_usage_request); vm_compute; reflexivity.
Defined.
