(* ===== verification/ProtocolSync.v ===== *)
(** * ProtocolSync: fills, fences and semaphores

    Models part of src/protocol.c and the structures of
    include/bvb/protocol.h it uses.  The strict-path fill, clear and verify requests, and fence and semaphore
    messages. *)

From S2P Require Import Prelude Wire Abi Codec ProtocolBase.

(** ** Structures *)

Record bvb_vulkan_command_buffer_fill_request := mk_bvb_vulkan_command_buffer_fill_request {
  cbfill_rq_command_buffer_id : Z;
  cbfill_rq_buffer_id : Z;
  cbfill_rq_offset : Z;
  cbfill_rq_size : Z;
  cbfill_rq_data : Z
}.
Definition cbfill_rq_rep (r : bvb_vulkan_command_buffer_fill_request) : bool :=
  is_u64 r.(cbfill_rq_command_buffer_id) &&
  is_u64 r.(cbfill_rq_buffer_id) &&
  is_u64 r.(cbfill_rq_offset) &&
  is_u64 r.(cbfill_rq_size) &&
  is_u32 r.(cbfill_rq_data).

Record bvb_vulkan_command_buffer_clear_color_image_request := mk_bvb_vulkan_command_buffer_clear_color_image_request {
  cbcci_rq_command_buffer_id : Z;
  cbcci_rq_image_id : Z
}.
Definition cbcci_rq_rep (r : bvb_vulkan_command_buffer_clear_color_image_request) : bool :=
  is_u64 r.(cbcci_rq_command_buffer_id) &&
  is_u64 r.(cbcci_rq_image_id).

Record bvb_vulkan_memory_verify_fill_request := mk_bvb_vulkan_memory_verify_fill_request {
  mvf_rq_memory_id : Z;
  mvf_rq_offset : Z;
  mvf_rq_size : Z;
  mvf_rq_expected_word : Z
}.
Definition mvf_rq_rep (r : bvb_vulkan_memory_verify_fill_request) : bool :=
  is_u64 r.(mvf_rq_memory_id) &&
  is_u64 r.(mvf_rq_offset) &&
  is_u64 r.(mvf_rq_size) &&
  is_u32 r.(mvf_rq_expected_word).

Record bvb_vulkan_memory_verify_fill_response := mk_bvb_vulkan_memory_verify_fill_response {
  mvf_rs_vulkan_result : Z;
  mvf_rs_mismatched_words : Z
}.
Definition mvf_rs_rep (r : bvb_vulkan_memory_verify_fill_response) : bool :=
  is_i32 r.(mvf_rs_vulkan_result) &&
  is_u32 r.(mvf_rs_mismatched_words).

Record bvb_vulkan_fence_create_request := mk_bvb_vulkan_fence_create_request {
  fc_rq_device_id : Z;
  fc_rq_flags : Z
}.
Definition fc_rq_rep (r : bvb_vulkan_fence_create_request) : bool :=
  is_u64 r.(fc_rq_device_id) &&
  is_u32 r.(fc_rq_flags).

Record bvb_vulkan_fence_wait_request := mk_bvb_vulkan_fence_wait_request {
  fw_rq_fence_id : Z;
  fw_rq_timeout : Z;
  fw_rq_wait_all : Z
}.
Definition fw_rq_rep (r : bvb_vulkan_fence_wait_request) : bool :=
  is_u64 r.(fw_rq_fence_id) &&
  is_u64 r.(fw_rq_timeout) &&
  is_u32 r.(fw_rq_wait_all).

Record bvb_vulkan_queue_submit_command_fence_request := mk_bvb_vulkan_queue_submit_command_fence_request {
  qscf_rq_queue_id : Z;
  qscf_rq_command_buffer_id : Z;
  qscf_rq_fence_id : Z
}.
Definition qscf_rq_rep (r : bvb_vulkan_queue_submit_command_fence_request) : bool :=
  is_u64 r.(qscf_rq_queue_id) &&
  is_u64 r.(qscf_rq_command_buffer_id) &&
  is_u64 r.(qscf_rq_fence_id).

Record bvb_vulkan_semaphore_create_request := mk_bvb_vulkan_semaphore_create_request {
  sc_rq_device_id : Z;
  sc_rq_initial_value : Z;
  sc_rq_semaphore_type : Z;
  sc_rq_flags : Z
}.
Definition sc_rq_rep (r : bvb_vulkan_semaphore_create_request) : bool :=
  is_u64 r.(sc_rq_device_id) &&
  is_u64 r.(sc_rq_initial_value) &&
  is_u32 r.(sc_rq_semaphore_type) &&
  is_u32 r.(sc_rq_flags).

Record bvb_vulkan_semaphore_counter_response := mk_bvb_vulkan_semaphore_counter_response {
  sc_rs_vulkan_result : Z;
  sc_rs_value : Z
}.
Definition sc_rs_rep (r : bvb_vulkan_semaphore_counter_response) : bool :=
  is_i32 r.(sc_rs_vulkan_result) &&
  is_u64 r.(sc_rs_value).

Record bvb_vulkan_semaphore_signal_request := mk_bvb_vulkan_semaphore_signal_request {
  ss_rq_device_id : Z;
  ss_rq_semaphore_id : Z;
  ss_rq_value : Z
}.
Definition ss_rq_rep (r : bvb_vulkan_semaphore_signal_request) : bool :=
  is_u64 r.(ss_rq_device_id) &&
  is_u64 r.(ss_rq_semaphore_id) &&
  is_u64 r.(ss_rq_value).

(** ** Functions *)

Definition bvb_protocol_encode_vulkan_command_buffer_fill_request
    (output : ptr bytes)
        (request : ptr bvb_vulkan_command_buffer_fill_request) : result bytes
        :=
  deref output := output or (- EINVAL) ;;
  deref request := request or (- EINVAL) ;;
  fail_if (request.(cbfill_rq_size) =? 0) ||
          negb (wire_id_is_type request.(cbfill_rq_command_buffer_id) 11) ||
          negb (wire_id_is_type request.(cbfill_rq_buffer_id) 19)
              with (- EINVAL) ;;
  let output := memset0 output 0
      BVB_VULKAN_COMMAND_BUFFER_FILL_REQUEST_SIZE in
  let output := bvb_wire_put_u64 output 0
      request.(cbfill_rq_command_buffer_id) in
  let output := bvb_wire_put_u64 output 8 request.(cbfill_rq_buffer_id) in
  let output := bvb_wire_put_u64 output 16 request.(cbfill_rq_offset) in
  let output := bvb_wire_put_u64 output 24 request.(cbfill_rq_size) in
  let output := bvb_wire_put_u32 output 32 request.(cbfill_rq_data) in
  Ok output.

Definition bvb_protocol_decode_vulkan_command_buffer_fill_request
    (input : ptr bytes)
        (request : ptr bvb_vulkan_command_buffer_fill_request) : result
        bvb_vulkan_command_buffer_fill_request :=
  deref input := input or (- EINVAL) ;;
  deref request := request or (- EINVAL) ;;
  let request := {| cbfill_rq_command_buffer_id := bvb_wire_get_u64 input 0;
       cbfill_rq_buffer_id := bvb_wire_get_u64 input 8;
       cbfill_rq_offset := bvb_wire_get_u64 input 16;
       cbfill_rq_size := bvb_wire_get_u64 input 24;
       cbfill_rq_data := bvb_wire_get_u32 input 32 |} in
  if ((wire_id_is_type request.(cbfill_rq_command_buffer_id) 11 &&
      wire_id_is_type request.(cbfill_rq_buffer_id) 19) &&
      negb (request.(cbfill_rq_size) =? 0)) &&
      ((bvb_wire_get_u32 input 36) =? 0) then Ok request else Err (- EPROTO).

Definition bvb_protocol_encode_vulkan_command_buffer_clear_color_image_request
    (output : ptr bytes)
        (request : ptr bvb_vulkan_command_buffer_clear_color_image_request) :
        result bytes :=
  deref output := output or (- EINVAL) ;;
  deref request := request or (- EINVAL) ;;
  fail_if negb (wire_id_is_type request.(cbcci_rq_command_buffer_id) 11) ||
          negb (wire_id_is_type request.(cbcci_rq_image_id) BVB_OBJECT_IMAGE)
              with (- EINVAL) ;;
  let output := bvb_wire_put_u64 output 0
      request.(cbcci_rq_command_buffer_id) in
  let output := bvb_wire_put_u64 output 8 request.(cbcci_rq_image_id) in
  Ok output.

Definition bvb_protocol_decode_vulkan_command_buffer_clear_color_image_request
    (input : ptr bytes)
        (request : ptr bvb_vulkan_command_buffer_clear_color_image_request) :
        result bvb_vulkan_command_buffer_clear_color_image_request :=
  deref input := input or (- EINVAL) ;;
  deref request := request or (- EINVAL) ;;
  let request := {| cbcci_rq_command_buffer_id := bvb_wire_get_u64 input 0;
       cbcci_rq_image_id := bvb_wire_get_u64 input 8 |} in
  if wire_id_is_type request.(cbcci_rq_command_buffer_id) 11 &&
      wire_id_is_type request.(cbcci_rq_image_id) BVB_OBJECT_IMAGE then Ok
      request else Err (- EPROTO).

Definition bvb_protocol_encode_vulkan_memory_verify_fill_request
    (output : ptr bytes)
        (request : ptr bvb_vulkan_memory_verify_fill_request) : result bytes
        :=
  deref output := output or (- EINVAL) ;;
  deref request := request or (- EINVAL) ;;
  fail_if (request.(mvf_rq_size) =? 0) ||
          negb (wire_id_is_type request.(mvf_rq_memory_id) 9)
              with (- EINVAL) ;;
  let output := memset0 output 0 BVB_VULKAN_MEMORY_VERIFY_FILL_REQUEST_SIZE in
  let output := bvb_wire_put_u64 output 0 request.(mvf_rq_memory_id) in
  let output := bvb_wire_put_u64 output 8 request.(mvf_rq_offset) in
  let output := bvb_wire_put_u64 output 16 request.(mvf_rq_size) in
  let output := bvb_wire_put_u32 output 24 request.(mvf_rq_expected_word) in
  Ok output.

Definition bvb_protocol_decode_vulkan_memory_verify_fill_request
    (input : ptr bytes) (request : ptr bvb_vulkan_memory_verify_fill_request)
        : result bvb_vulkan_memory_verify_fill_request :=
  deref input := input or (- EINVAL) ;;
  deref request := request or (- EINVAL) ;;
  let request := {| mvf_rq_memory_id := bvb_wire_get_u64 input 0;
       mvf_rq_offset := bvb_wire_get_u64 input 8;
       mvf_rq_size := bvb_wire_get_u64 input 16;
       mvf_rq_expected_word := bvb_wire_get_u32 input 24 |} in
  if (wire_id_is_type request.(mvf_rq_memory_id) 9 &&
      negb (request.(mvf_rq_size) =? 0)) &&
      ((bvb_wire_get_u32 input 28) =? 0) then Ok request else Err (- EPROTO).

Definition bvb_protocol_encode_vulkan_memory_verify_fill_response
    (output : ptr bytes)
        (response : ptr bvb_vulkan_memory_verify_fill_response) : result
        bytes :=
  deref output := output or (- EINVAL) ;;
  deref response := response or (- EINVAL) ;;
  let output := bvb_wire_put_i32 output 0 response.(mvf_rs_vulkan_result) in
  let output := bvb_wire_put_u32 output 4
      response.(mvf_rs_mismatched_words) in
  Ok output.

Definition bvb_protocol_decode_vulkan_memory_verify_fill_response
    (input : ptr bytes)
        (response : ptr bvb_vulkan_memory_verify_fill_response) : result
        bvb_vulkan_memory_verify_fill_response :=
  deref input := input or (- EINVAL) ;;
  deref response := response or (- EINVAL) ;;
  Ok {| mvf_rs_vulkan_result := bvb_wire_get_i32 input 0;
       mvf_rs_mismatched_words := bvb_wire_get_u32 input 4 |}.

Definition bvb_protocol_encode_vulkan_fence_create_request
    (output : ptr bytes) (request : ptr bvb_vulkan_fence_create_request) :
        result bytes :=
  deref output := output or (- EINVAL) ;;
  deref request := request or (- EINVAL) ;;
  fail_if negb (wire_id_is_type request.(fc_rq_device_id) 3)
      with (- EINVAL) ;;
  let output := memset0 output 0 BVB_VULKAN_FENCE_CREATE_REQUEST_SIZE in
  let output := bvb_wire_put_u64 output 0 request.(fc_rq_device_id) in
  let output := bvb_wire_put_u32 output 8 request.(fc_rq_flags) in
  Ok output.

Definition bvb_protocol_decode_vulkan_fence_create_request
    (input : ptr bytes) (request : ptr bvb_vulkan_fence_create_request) :
        result bvb_vulkan_fence_create_request :=
  deref input := input or (- EINVAL) ;;
  deref request := request or (- EINVAL) ;;
  let request := {| fc_rq_device_id := bvb_wire_get_u64 input 0;
       fc_rq_flags := bvb_wire_get_u32 input 8 |} in
  if wire_id_is_type request.(fc_rq_device_id) 3 &&
      ((bvb_wire_get_u32 input 12) =? 0) then Ok request else Err (- EPROTO).

Definition bvb_protocol_encode_vulkan_fence_wait_request
    (output : ptr bytes) (request : ptr bvb_vulkan_fence_wait_request) :
        result bytes :=
  deref output := output or (- EINVAL) ;;
  deref request := request or (- EINVAL) ;;
  fail_if (1 <? request.(fw_rq_wait_all)) ||
          negb (wire_id_is_type request.(fw_rq_fence_id) 18)
              with (- EINVAL) ;;
  let output := memset0 output 0 BVB_VULKAN_FENCE_WAIT_REQUEST_SIZE in
  let output := bvb_wire_put_u64 output 0 request.(fw_rq_fence_id) in
  let output := bvb_wire_put_u64 output 8 request.(fw_rq_timeout) in
  let output := bvb_wire_put_u32 output 16 request.(fw_rq_wait_all) in
  Ok output.

Definition bvb_protocol_decode_vulkan_fence_wait_request
    (input : ptr bytes) (request : ptr bvb_vulkan_fence_wait_request) :
        result bvb_vulkan_fence_wait_request :=
  deref input := input or (- EINVAL) ;;
  deref request := request or (- EINVAL) ;;
  let request := {| fw_rq_fence_id := bvb_wire_get_u64 input 0;
       fw_rq_timeout := bvb_wire_get_u64 input 8;
       fw_rq_wait_all := bvb_wire_get_u32 input 16 |} in
  if (wire_id_is_type request.(fw_rq_fence_id) 18 &&
      (request.(fw_rq_wait_all) <=? 1)) &&
      ((bvb_wire_get_u32 input 20) =? 0) then Ok request else Err (- EPROTO).

Definition bvb_protocol_encode_vulkan_queue_submit_command_fence_request
    (output : ptr bytes)
        (request : ptr bvb_vulkan_queue_submit_command_fence_request) :
        result bytes :=
  deref output := output or (- EINVAL) ;;
  deref request := request or (- EINVAL) ;;
  fail_if negb (wire_id_is_type request.(qscf_rq_queue_id) 4) ||
          negb (wire_id_is_type request.(qscf_rq_command_buffer_id) 11) ||
          negb (wire_id_is_type request.(qscf_rq_fence_id) 18)
              with (- EINVAL) ;;
  let output := bvb_wire_put_u64 output 0 request.(qscf_rq_queue_id) in
  let output := bvb_wire_put_u64 output 8
      request.(qscf_rq_command_buffer_id) in
  let output := bvb_wire_put_u64 output 16 request.(qscf_rq_fence_id) in
  Ok output.

Definition bvb_protocol_decode_vulkan_queue_submit_command_fence_request
    (input : ptr bytes)
        (request : ptr bvb_vulkan_queue_submit_command_fence_request) :
        result bvb_vulkan_queue_submit_command_fence_request :=
  deref input := input or (- EINVAL) ;;
  deref request := request or (- EINVAL) ;;
  let request := {| qscf_rq_queue_id := bvb_wire_get_u64 input 0;
       qscf_rq_command_buffer_id := bvb_wire_get_u64 input 8;
       qscf_rq_fence_id := bvb_wire_get_u64 input 16 |} in
  if (wire_id_is_type request.(qscf_rq_queue_id) 4 &&
      wire_id_is_type request.(qscf_rq_command_buffer_id) 11) &&
      wire_id_is_type request.(qscf_rq_fence_id) 18 then Ok request else Err
      (- EPROTO).

Definition bvb_protocol_encode_vulkan_semaphore_create_request
    (output : ptr bytes) (request : ptr bvb_vulkan_semaphore_create_request)
        : result bytes :=
  deref output := output or (- EINVAL) ;;
  deref request := request or (- EINVAL) ;;
  fail_if negb (wire_id_is_type request.(sc_rq_device_id) 3)
      with (- EINVAL) ;;
  let output := memset0 output 0 BVB_VULKAN_SEMAPHORE_CREATE_REQUEST_SIZE in
  let output := bvb_wire_put_u64 output 0 request.(sc_rq_device_id) in
  let output := bvb_wire_put_u64 output 8 request.(sc_rq_initial_value) in
  let output := bvb_wire_put_u32 output 16 request.(sc_rq_semaphore_type) in
  let output := bvb_wire_put_u32 output 20 request.(sc_rq_flags) in
  Ok output.

Definition bvb_protocol_decode_vulkan_semaphore_create_request
    (input : ptr bytes) (request : ptr bvb_vulkan_semaphore_create_request) :
        result bvb_vulkan_semaphore_create_request :=
  deref input := input or (- EINVAL) ;;
  deref request := request or (- EINVAL) ;;
  let request := {| sc_rq_device_id := bvb_wire_get_u64 input 0;
       sc_rq_initial_value := bvb_wire_get_u64 input 8;
       sc_rq_semaphore_type := bvb_wire_get_u32 input 16;
       sc_rq_flags := bvb_wire_get_u32 input 20 |} in
  if wire_id_is_type request.(sc_rq_device_id) 3 then Ok request else Err
      (- EPROTO).

Definition bvb_protocol_encode_vulkan_semaphore_counter_response
    (output : ptr bytes)
        (response : ptr bvb_vulkan_semaphore_counter_response) : result bytes
        :=
  deref output := output or (- EINVAL) ;;
  deref response := response or (- EINVAL) ;;
  let output := memset0 output 0 BVB_VULKAN_SEMAPHORE_COUNTER_RESPONSE_SIZE in
  let output := bvb_wire_put_i32 output 0 response.(sc_rs_vulkan_result) in
  let output := bvb_wire_put_u64 output 8 response.(sc_rs_value) in
  Ok output.

Definition bvb_protocol_decode_vulkan_semaphore_counter_response
    (input : ptr bytes)
        (response : ptr bvb_vulkan_semaphore_counter_response) : result
        bvb_vulkan_semaphore_counter_response :=
  deref input := input or (- EINVAL) ;;
  deref response := response or (- EINVAL) ;;
  let response := {| sc_rs_vulkan_result := bvb_wire_get_i32 input 0;
       sc_rs_value := bvb_wire_get_u64 input 8 |} in
  if ((bvb_wire_get_u32 input 4) =? 0) then Ok response else Err (- EPROTO).

Definition bvb_protocol_encode_vulkan_semaphore_signal_request
    (output : ptr bytes) (request : ptr bvb_vulkan_semaphore_signal_request)
        : result bytes :=
  deref output := output or (- EINVAL) ;;
  deref request := request or (- EINVAL) ;;
  fail_if negb (wire_id_is_type request.(ss_rq_device_id) 3) ||
          negb (wire_id_is_type request.(ss_rq_semaphore_id) 17)
              with (- EINVAL) ;;
  let output := bvb_wire_put_u64 output 0 request.(ss_rq_device_id) in
  let output := bvb_wire_put_u64 output 8 request.(ss_rq_semaphore_id) in
  let output := bvb_wire_put_u64 output 16 request.(ss_rq_value) in
  Ok output.

Definition bvb_protocol_decode_vulkan_semaphore_signal_request
    (input : ptr bytes) (request : ptr bvb_vulkan_semaphore_signal_request) :
        result bvb_vulkan_semaphore_signal_request :=
  deref input := input or (- EINVAL) ;;
  deref request := request or (- EINVAL) ;;
  let request := {| ss_rq_device_id := bvb_wire_get_u64 input 0;
       ss_rq_semaphore_id := bvb_wire_get_u64 input 8;
       ss_rq_value := bvb_wire_get_u64 input 16 |} in
  if wire_id_is_type request.(ss_rq_device_id) 3 &&
      wire_id_is_type request.(ss_rq_semaphore_id) 17 then Ok request else
      Err (- EPROTO).

(** ** Codecs *)

Definition command_buffer_fill_request_codec : codec
    bvb_vulkan_command_buffer_fill_request :=
  mk_codec BVB_VULKAN_COMMAND_BUFFER_FILL_REQUEST_SIZE cbfill_rq_rep
      bvb_protocol_encode_vulkan_command_buffer_fill_request
    bvb_protocol_decode_vulkan_command_buffer_fill_request.

Definition command_buffer_clear_color_image_request_codec : codec
    bvb_vulkan_command_buffer_clear_color_image_request :=
  mk_codec BVB_VULKAN_COMMAND_BUFFER_CLEAR_COLOR_IMAGE_REQUEST_SIZE
      cbcci_rq_rep bvb_protocol_encode_vulkan_command_buffer_clear_color_image_request
    bvb_protocol_decode_vulkan_command_buffer_clear_color_image_request.

Definition memory_verify_fill_request_codec : codec
    bvb_vulkan_memory_verify_fill_request :=
  mk_codec BVB_VULKAN_MEMORY_VERIFY_FILL_REQUEST_SIZE mvf_rq_rep
      bvb_protocol_encode_vulkan_memory_verify_fill_request
    bvb_protocol_decode_vulkan_memory_verify_fill_request.

Definition memory_verify_fill_response_codec : codec
    bvb_vulkan_memory_verify_fill_response :=
  mk_codec BVB_VULKAN_MEMORY_VERIFY_FILL_RESPONSE_SIZE mvf_rs_rep
      bvb_protocol_encode_vulkan_memory_verify_fill_response
    bvb_protocol_decode_vulkan_memory_verify_fill_response.

Definition fence_create_request_codec : codec bvb_vulkan_fence_create_request
    :=
  mk_codec BVB_VULKAN_FENCE_CREATE_REQUEST_SIZE fc_rq_rep
      bvb_protocol_encode_vulkan_fence_create_request
    bvb_protocol_decode_vulkan_fence_create_request.

Definition fence_wait_request_codec : codec bvb_vulkan_fence_wait_request :=
  mk_codec BVB_VULKAN_FENCE_WAIT_REQUEST_SIZE fw_rq_rep
      bvb_protocol_encode_vulkan_fence_wait_request
    bvb_protocol_decode_vulkan_fence_wait_request.

Definition queue_submit_command_fence_request_codec : codec
    bvb_vulkan_queue_submit_command_fence_request :=
  mk_codec BVB_VULKAN_QUEUE_SUBMIT_COMMAND_FENCE_REQUEST_SIZE qscf_rq_rep
      bvb_protocol_encode_vulkan_queue_submit_command_fence_request
    bvb_protocol_decode_vulkan_queue_submit_command_fence_request.

Definition semaphore_create_request_codec : codec
    bvb_vulkan_semaphore_create_request :=
  mk_codec BVB_VULKAN_SEMAPHORE_CREATE_REQUEST_SIZE sc_rq_rep
      bvb_protocol_encode_vulkan_semaphore_create_request
    bvb_protocol_decode_vulkan_semaphore_create_request.

Definition semaphore_counter_response_codec : codec
    bvb_vulkan_semaphore_counter_response :=
  mk_codec BVB_VULKAN_SEMAPHORE_COUNTER_RESPONSE_SIZE sc_rs_rep
      bvb_protocol_encode_vulkan_semaphore_counter_response
    bvb_protocol_decode_vulkan_semaphore_counter_response.

Definition semaphore_signal_request_codec : codec
    bvb_vulkan_semaphore_signal_request :=
  mk_codec BVB_VULKAN_SEMAPHORE_SIGNAL_REQUEST_SIZE ss_rq_rep
      bvb_protocol_encode_vulkan_semaphore_signal_request
    bvb_protocol_decode_vulkan_semaphore_signal_request.

(** ** Their contracts *)

#[export] Instance command_buffer_fill_request_codec_lawful : Lawful
    command_buffer_fill_request_codec.
Proof. solve_lawful. Qed.
#[export] Instance command_buffer_fill_request_codec_canonical : Canonical
    command_buffer_fill_request_codec.
Proof. solve_canonical. Qed.
#[export] Instance command_buffer_fill_request_codec_errors : ErrorsByRole
    command_buffer_fill_request_codec.
Proof. solve_errors. Qed.

#[export] Instance command_buffer_clear_color_image_request_codec_lawful :
    Lawful command_buffer_clear_color_image_request_codec.
Proof. solve_lawful. Qed.
#[export] Instance command_buffer_clear_color_image_request_codec_canonical :
    Canonical command_buffer_clear_color_image_request_codec.
Proof. solve_canonical. Qed.
#[export] Instance command_buffer_clear_color_image_request_codec_errors :
    ErrorsByRole command_buffer_clear_color_image_request_codec.
Proof. solve_errors. Qed.

#[export] Instance memory_verify_fill_request_codec_lawful : Lawful
    memory_verify_fill_request_codec.
Proof. solve_lawful. Qed.
#[export] Instance memory_verify_fill_request_codec_canonical : Canonical
    memory_verify_fill_request_codec.
Proof. solve_canonical. Qed.
#[export] Instance memory_verify_fill_request_codec_errors : ErrorsByRole
    memory_verify_fill_request_codec.
Proof. solve_errors. Qed.

#[export] Instance memory_verify_fill_response_codec_lawful : Lawful
    memory_verify_fill_response_codec.
Proof. solve_lawful. Qed.
#[export] Instance memory_verify_fill_response_codec_canonical : Canonical
    memory_verify_fill_response_codec.
Proof. solve_canonical. Qed.
#[export] Instance memory_verify_fill_response_codec_errors : ErrorsByRole
    memory_verify_fill_response_codec.
Proof. solve_errors. Qed.

#[export] Instance fence_create_request_codec_lawful : Lawful
    fence_create_request_codec.
Proof. solve_lawful. Qed.
#[export] Instance fence_create_request_codec_canonical : Canonical
    fence_create_request_codec.
Proof. solve_canonical. Qed.
#[export] Instance fence_create_request_codec_errors : ErrorsByRole
    fence_create_request_codec.
Proof. solve_errors. Qed.

#[export] Instance fence_wait_request_codec_lawful : Lawful
    fence_wait_request_codec.
Proof. solve_lawful. Qed.
#[export] Instance fence_wait_request_codec_canonical : Canonical
    fence_wait_request_codec.
Proof. solve_canonical. Qed.
#[export] Instance fence_wait_request_codec_errors : ErrorsByRole
    fence_wait_request_codec.
Proof. solve_errors. Qed.

#[export] Instance queue_submit_command_fence_request_codec_lawful : Lawful
    queue_submit_command_fence_request_codec.
Proof. solve_lawful. Qed.
#[export] Instance queue_submit_command_fence_request_codec_canonical :
    Canonical queue_submit_command_fence_request_codec.
Proof. solve_canonical. Qed.
#[export] Instance queue_submit_command_fence_request_codec_errors :
    ErrorsByRole queue_submit_command_fence_request_codec.
Proof. solve_errors. Qed.

#[export] Instance semaphore_create_request_codec_lawful : Lawful
    semaphore_create_request_codec.
Proof. solve_lawful. Qed.
#[export] Instance semaphore_create_request_codec_canonical : Canonical
    semaphore_create_request_codec.
Proof. solve_canonical. Qed.
#[export] Instance semaphore_create_request_codec_errors : ErrorsByRole
    semaphore_create_request_codec.
Proof. solve_errors. Qed.

#[export] Instance semaphore_counter_response_codec_lawful : Lawful
    semaphore_counter_response_codec.
Proof. solve_lawful. Qed.
#[export] Instance semaphore_counter_response_codec_canonical : Canonical
    semaphore_counter_response_codec.
Proof. solve_canonical. Qed.
#[export] Instance semaphore_counter_response_codec_errors : ErrorsByRole
    semaphore_counter_response_codec.
Proof. solve_errors. Qed.

#[export] Instance semaphore_signal_request_codec_lawful : Lawful
    semaphore_signal_request_codec.
Proof. solve_lawful. Qed.
#[export] Instance semaphore_signal_request_codec_canonical : Canonical
    semaphore_signal_request_codec.
Proof. solve_canonical. Qed.
#[export] Instance semaphore_signal_request_codec_errors : ErrorsByRole
    semaphore_signal_request_codec.
Proof. solve_errors. Qed.
