(* ===== verification/ProtocolSetup.v ===== *)
(** * ProtocolSetup: external imports, swapchain, memory mirrors, shared regions and status

    Models part of src/protocol.c and the structures of
    include/bvb/protocol.h it uses.  Fixed-size messages that set up and drive the shared data planes:
    external imports, swapchain requests, memory reads and mirrors, shared
    batch, command-stream and descriptor-journal setup, self-test results and
    the activity status. *)

From S2P Require Import Prelude Wire Abi Codec ProtocolBase.

(** ** Structures *)

Record bvb_vulkan_selftest_result := mk_bvb_vulkan_selftest_result {
  sr_instance_extension_count : Z;
  sr_device_extension_count : Z;
  sr_instance_extension_flags : Z;
  sr_device_extension_flags : Z;
  sr_queue_family_index : Z;
  sr_queue_flags : Z;
  sr_memory_type_index : Z;
  sr_memory_property_flags : Z;
  sr_buffer_bytes : Z;
  sr_fill_word : Z;
  sr_mismatched_words : Z;
  sr_submit_wait_elapsed_ns : Z
}.
Definition sr_rep (r : bvb_vulkan_selftest_result) : bool :=
  is_u32 r.(sr_instance_extension_count) &&
  is_u32 r.(sr_device_extension_count) &&
  is_u64 r.(sr_instance_extension_flags) &&
  is_u64 r.(sr_device_extension_flags) &&
  is_u32 r.(sr_queue_family_index) &&
  is_u32 r.(sr_queue_flags) &&
  is_u32 r.(sr_memory_type_index) &&
  is_u32 r.(sr_memory_property_flags) &&
  is_u32 r.(sr_buffer_bytes) &&
  is_u32 r.(sr_fill_word) &&
  is_u32 r.(sr_mismatched_words) &&
  is_u64 r.(sr_submit_wait_elapsed_ns).

Record bvb_activity_status := mk_bvb_activity_status {
  as_ingress_configured : Z;
  as_authenticated_event_count : Z;
  as_rejected_event_count : Z;
  as_last_sequence : Z;
  as_last_event : Z;
  as_state_flags : Z;
  as_width : Z;
  as_height : Z;
  as_activity_pid : Z;
  as_last_event_monotonic_ns : Z;
  as_last_event_received_ns : Z
}.
Definition as_rep (r : bvb_activity_status) : bool :=
  is_u32 r.(as_ingress_configured) &&
  is_u32 r.(as_authenticated_event_count) &&
  is_u32 r.(as_rejected_event_count) &&
  is_u32 r.(as_last_sequence) &&
  is_u32 r.(as_last_event) &&
  is_u32 r.(as_state_flags) &&
  is_u32 r.(as_width) &&
  is_u32 r.(as_height) &&
  is_u32 r.(as_activity_pid) &&
  is_u64 r.(as_last_event_monotonic_ns) &&
  is_u64 r.(as_last_event_received_ns).

Record bvb_external_memory_import_request := mk_bvb_external_memory_import_request {
  emi_rq_allocation_size : Z;
  emi_rq_memory_type_index : Z;
  emi_rq_buffer_bytes : Z
}.
Definition emi_rq_rep (r : bvb_external_memory_import_request) : bool :=
  is_u64 r.(emi_rq_allocation_size) &&
  is_u32 r.(emi_rq_memory_type_index) &&
  is_u32 r.(emi_rq_buffer_bytes).

Record bvb_external_sync_import_request := mk_bvb_external_sync_import_request {
  esi_rq_allocation_size : Z;
  esi_rq_memory_type_index : Z;
  esi_rq_buffer_bytes : Z;
  esi_rq_expected_fill_word : Z
}.
Definition esi_rq_rep (r : bvb_external_sync_import_request) : bool :=
  is_u64 r.(esi_rq_allocation_size) &&
  is_u32 r.(esi_rq_memory_type_index) &&
  is_u32 r.(esi_rq_buffer_bytes) &&
  is_u32 r.(esi_rq_expected_fill_word).

Record bvb_external_image_import_request := mk_bvb_external_image_import_request {
  eii_rq_allocation_size : Z;
  eii_rq_memory_type_index : Z;
  eii_rq_width : Z;
  eii_rq_height : Z;
  eii_rq_format : Z;
  eii_rq_expected_color : Z
}.
Definition eii_rq_rep (r : bvb_external_image_import_request) : bool :=
  is_u64 r.(eii_rq_allocation_size) &&
  is_u32 r.(eii_rq_memory_type_index) &&
  is_u32 r.(eii_rq_width) &&
  is_u32 r.(eii_rq_height) &&
  is_u32 r.(eii_rq_format) &&
  is_u32 r.(eii_rq_expected_color).

Record bvb_vulkan_swapchain_prepare_request := mk_bvb_vulkan_swapchain_prepare_request {
  scprep_rq_device_id : Z;
  scprep_rq_width : Z;
  scprep_rq_height : Z;
  scprep_rq_format : Z;
  scprep_rq_image_usage : Z;
  scprep_rq_min_image_count : Z;
  scprep_rq_flags : Z;
  scprep_rq_generation : Z
}.
Definition scprep_rq_rep (r : bvb_vulkan_swapchain_prepare_request) : bool :=
  is_u64 r.(scprep_rq_device_id) &&
  is_u32 r.(scprep_rq_width) &&
  is_u32 r.(scprep_rq_height) &&
  is_u32 r.(scprep_rq_format) &&
  is_u32 r.(scprep_rq_image_usage) &&
  is_u32 r.(scprep_rq_min_image_count) &&
  is_u32 r.(scprep_rq_flags) &&
  is_u64 r.(scprep_rq_generation).

Record bvb_vulkan_swapchain_acquire_request := mk_bvb_vulkan_swapchain_acquire_request {
  scacq_rq_device_id : Z;
  scacq_rq_swapchain_id : Z;
  scacq_rq_timeout_ns : Z;
  scacq_rq_semaphore_id : Z;
  scacq_rq_fence_id : Z
}.
Definition scacq_rq_rep (r : bvb_vulkan_swapchain_acquire_request) : bool :=
  is_u64 r.(scacq_rq_device_id) &&
  is_u64 r.(scacq_rq_swapchain_id) &&
  is_u64 r.(scacq_rq_timeout_ns) &&
  is_u64 r.(scacq_rq_semaphore_id) &&
  is_u64 r.(scacq_rq_fence_id).

Record bvb_vulkan_swapchain_acquire_response := mk_bvb_vulkan_swapchain_acquire_response {
  scacq_rs_vulkan_result : Z;
  scacq_rs_image_index : Z
}.
Definition scacq_rs_rep (r : bvb_vulkan_swapchain_acquire_response) : bool :=
  is_i32 r.(scacq_rs_vulkan_result) &&
  is_u32 r.(scacq_rs_image_index).

Record bvb_vulkan_swapchain_present_response := mk_bvb_vulkan_swapchain_present_response {
  scpres_rs_vulkan_result : Z;
  scpres_rs_sequence : Z
}.
Definition scpres_rs_rep (r : bvb_vulkan_swapchain_present_response) : bool :=
  is_i32 r.(scpres_rs_vulkan_result) &&
  is_u32 r.(scpres_rs_sequence).

Record bvb_shared_batch_setup := mk_bvb_shared_batch_setup {
  sbs_region_bytes : Z;
  sbs_generation : Z
}.
Definition sbs_rep (r : bvb_shared_batch_setup) : bool :=
  is_u32 r.(sbs_region_bytes) &&
  is_u64 r.(sbs_generation).

Record bvb_shared_batch_execute := mk_bvb_shared_batch_execute {
  sbe_generation : Z;
  sbe_offset : Z;
  sbe_length : Z;
  sbe_sequence : Z
}.
Definition sbe_rep (r : bvb_shared_batch_execute) : bool :=
  is_u64 r.(sbe_generation) &&
  is_u32 r.(sbe_offset) &&
  is_u32 r.(sbe_length) &&
  is_u64 r.(sbe_sequence).

Record bvb_descriptor_journal_flush := mk_bvb_descriptor_journal_flush {
  djf_generation : Z;
  djf_sequence : Z;
  djf_length : Z;
  djf_record_count : Z
}.
Definition djf_rep (r : bvb_descriptor_journal_flush) : bool :=
  is_u64 r.(djf_generation) &&
  is_u64 r.(djf_sequence) &&
  is_u32 r.(djf_length) &&
  is_u32 r.(djf_record_count).

Record bvb_vulkan_memory_io_request := mk_bvb_vulkan_memory_io_request {
  mi_rq_memory_id : Z;
  mi_rq_offset : Z;
  mi_rq_length : Z
}.
Definition mi_rq_rep (r : bvb_vulkan_memory_io_request) : bool :=
  is_u64 r.(mi_rq_memory_id) &&
  is_u64 r.(mi_rq_offset) &&
  is_u32 r.(mi_rq_length).

Record bvb_vulkan_memory_mirror_setup_request := mk_bvb_vulkan_memory_mirror_setup_request {
  mms_rq_device_id : Z;
  mms_rq_memory_id : Z;
  mms_rq_generation : Z;
  mms_rq_offset : Z;
  mms_rq_length : Z
}.
Definition mms_rq_rep (r : bvb_vulkan_memory_mirror_setup_request) : bool :=
  is_u64 r.(mms_rq_device_id) &&
  is_u64 r.(mms_rq_memory_id) &&
  is_u64 r.(mms_rq_generation) &&
  is_u64 r.(mms_rq_offset) &&
  is_u64 r.(mms_rq_length).

Record bvb_vulkan_memory_mirror_range_request := mk_bvb_vulkan_memory_mirror_range_request {
  mmr_rq_device_id : Z;
  mmr_rq_memory_id : Z;
  mmr_rq_generation : Z;
  mmr_rq_offset : Z;
  mmr_rq_size : Z
}.
Definition mmr_rq_rep (r : bvb_vulkan_memory_mirror_range_request) : bool :=
  is_u64 r.(mmr_rq_device_id) &&
  is_u64 r.(mmr_rq_memory_id) &&
  is_u64 r.(mmr_rq_generation) &&
  is_u64 r.(mmr_rq_offset) &&
  is_u64 r.(mmr_rq_size).

Record bvb_vulkan_memory_mirror_unmap_request := mk_bvb_vulkan_memory_mirror_unmap_request {
  mmu_rq_device_id : Z;
  mmu_rq_memory_id : Z;
  mmu_rq_generation : Z
}.
Definition mmu_rq_rep (r : bvb_vulkan_memory_mirror_unmap_request) : bool :=
  is_u64 r.(mmu_rq_device_id) &&
  is_u64 r.(mmu_rq_memory_id) &&
  is_u64 r.(mmu_rq_generation).

(** ** Functions *)

Definition bvb_protocol_encode_external_memory_import_request
    (output : ptr bytes) (request : ptr bvb_external_memory_import_request) :
        result bytes :=
  deref output := output or (- EINVAL) ;;
  deref request := request or (- EINVAL) ;;
  fail_if (request.(emi_rq_allocation_size) =? 0) ||
          (BVB_SHARED_BATCH_MAX_BYTES <? request.(emi_rq_allocation_size)) ||
          (32 <=? request.(emi_rq_memory_type_index)) ||
          (request.(emi_rq_buffer_bytes) =? 0) ||
          (request.(emi_rq_allocation_size) <? request.(emi_rq_buffer_bytes))
              with (- EINVAL) ;;
  let output := bvb_wire_put_u64 output 0 request.(emi_rq_allocation_size) in
  let output := bvb_wire_put_u32 output 8
      request.(emi_rq_memory_type_index) in
  let output := bvb_wire_put_u32 output 12 request.(emi_rq_buffer_bytes) in
  Ok output.

Definition bvb_protocol_decode_external_memory_import_request
    (input : ptr bytes) (request : ptr bvb_external_memory_import_request) :
        result bvb_external_memory_import_request :=
  deref input := input or (- EINVAL) ;;
  deref request := request or (- EINVAL) ;;
  let decoded := {| emi_rq_allocation_size := bvb_wire_get_u64 input 0;
       emi_rq_memory_type_index := bvb_wire_get_u32 input 8;
       emi_rq_buffer_bytes := bvb_wire_get_u32 input 12 |} in
  let validation := blank BVB_EXTERNAL_MEMORY_IMPORT_REQUEST_SIZE in
  call validation
      := bvb_protocol_encode_external_memory_import_request (Some validation)
      (Some decoded) or (- EPROTO) ;;
  Ok decoded.

Definition bvb_protocol_encode_external_sync_import_request
    (output : ptr bytes) (request : ptr bvb_external_sync_import_request) :
        result bytes :=
  deref output := output or (- EINVAL) ;;
  deref request := request or (- EINVAL) ;;
  fail_if (request.(esi_rq_allocation_size) =? 0) ||
          (BVB_SHARED_BATCH_MAX_BYTES <? request.(esi_rq_allocation_size)) ||
          (32 <=? request.(esi_rq_memory_type_index)) ||
          (request.(esi_rq_buffer_bytes) =? 0) ||
          (request.(esi_rq_allocation_size) <?
              request.(esi_rq_buffer_bytes)) ||
          negb ((request.(esi_rq_buffer_bytes) mod 4) =? 0) with (- EINVAL) ;;
  let output := bvb_wire_put_u64 output 0 request.(esi_rq_allocation_size) in
  let output := bvb_wire_put_u32 output 8
      request.(esi_rq_memory_type_index) in
  let output := bvb_wire_put_u32 output 12 request.(esi_rq_buffer_bytes) in
  let output := bvb_wire_put_u32 output 16
      request.(esi_rq_expected_fill_word) in
  let output := bvb_wire_put_u32 output 20 0 in
  Ok output.

Definition bvb_protocol_decode_external_sync_import_request
    (input : ptr bytes) (request : ptr bvb_external_sync_import_request) :
        result bvb_external_sync_import_request :=
  deref input := input or (- EINVAL) ;;
  deref request := request or (- EINVAL) ;;
  fail_if negb ((bvb_wire_get_u32 input 20) =? 0) with (- EINVAL) ;;
  let decoded := {| esi_rq_allocation_size := bvb_wire_get_u64 input 0;
       esi_rq_memory_type_index := bvb_wire_get_u32 input 8;
       esi_rq_buffer_bytes := bvb_wire_get_u32 input 12;
       esi_rq_expected_fill_word := bvb_wire_get_u32 input 16 |} in
  let validation := blank BVB_EXTERNAL_SYNC_IMPORT_REQUEST_SIZE in
  call validation
      := bvb_protocol_encode_external_sync_import_request (Some validation)
      (Some decoded) or (- EPROTO) ;;
  Ok decoded.

Definition bvb_protocol_encode_external_image_import_request
    (output : ptr bytes) (request : ptr bvb_external_image_import_request) :
        result bytes :=
  deref output := output or (- EINVAL) ;;
  deref request := request or (- EINVAL) ;;
  fail_if (request.(eii_rq_allocation_size) =? 0) ||
          (BVB_SHARED_BATCH_MAX_BYTES <? request.(eii_rq_allocation_size)) ||
          (32 <=? request.(eii_rq_memory_type_index)) ||
          (request.(eii_rq_width) =? 0) ||
          (request.(eii_rq_height) =? 0) ||
          (4096 <? request.(eii_rq_width)) ||
          (4096 <? request.(eii_rq_height)) ||
          (request.(eii_rq_format) =? 0) ||
          (((BVB_SHARED_BATCH_MAX_BYTES / 4) /
              request.(eii_rq_height)) <? request.(eii_rq_width))
              with (- EINVAL) ;;
  let output := bvb_wire_put_u64 output 0 request.(eii_rq_allocation_size) in
  let output := bvb_wire_put_u32 output 8
      request.(eii_rq_memory_type_index) in
  let output := bvb_wire_put_u32 output 12 request.(eii_rq_width) in
  let output := bvb_wire_put_u32 output 16 request.(eii_rq_height) in
  let output := bvb_wire_put_u32 output 20 request.(eii_rq_format) in
  let output := bvb_wire_put_u32 output 24 request.(eii_rq_expected_color) in
  let output := bvb_wire_put_u32 output 28 0 in
  Ok output.

Definition bvb_protocol_decode_external_image_import_request
    (input : ptr bytes) (request : ptr bvb_external_image_import_request) :
        result bvb_external_image_import_request :=
  deref input := input or (- EINVAL) ;;
  deref request := request or (- EINVAL) ;;
  fail_if negb ((bvb_wire_get_u32 input 28) =? 0) with (- EINVAL) ;;
  let decoded := {| eii_rq_allocation_size := bvb_wire_get_u64 input 0;
       eii_rq_memory_type_index := bvb_wire_get_u32 input 8;
       eii_rq_width := bvb_wire_get_u32 input 12;
       eii_rq_height := bvb_wire_get_u32 input 16;
       eii_rq_format := bvb_wire_get_u32 input 20;
       eii_rq_expected_color := bvb_wire_get_u32 input 24 |} in
  let validation := blank BVB_EXTERNAL_IMAGE_IMPORT_REQUEST_SIZE in
  call validation
      := bvb_protocol_encode_external_image_import_request (Some validation)
      (Some decoded) or (- EPROTO) ;;
  Ok decoded.

Definition bvb_protocol_encode_vulkan_swapchain_prepare_request
    (output : ptr bytes) (request : ptr bvb_vulkan_swapchain_prepare_request)
        : result bytes :=
  deref output := output or (- EINVAL) ;;
  deref request := request or (- EINVAL) ;;
  fail_if negb (wire_id_is_type request.(scprep_rq_device_id)
      BVB_OBJECT_DEVICE) ||
          (request.(scprep_rq_width) =? 0) ||
          (request.(scprep_rq_height) =? 0) ||
          (request.(scprep_rq_format) =? 0) ||
          (request.(scprep_rq_image_usage) =? 0) ||
          (request.(scprep_rq_min_image_count) <? 2) ||
          (BVB_WSI_FRAME_RING_MAX_SLOTS <?
              request.(scprep_rq_min_image_count)) ||
          negb (request.(scprep_rq_flags) =? 0) ||
          (request.(scprep_rq_generation) =? 0) with (- EINVAL) ;;
  let output := memset0 output 0 BVB_VULKAN_SWAPCHAIN_PREPARE_REQUEST_SIZE in
  let output := bvb_wire_put_u64 output 0 request.(scprep_rq_device_id) in
  let output := bvb_wire_put_u32 output 8 request.(scprep_rq_width) in
  let output := bvb_wire_put_u32 output 12 request.(scprep_rq_height) in
  let output := bvb_wire_put_u32 output 16 request.(scprep_rq_format) in
  let output := bvb_wire_put_u32 output 20 request.(scprep_rq_image_usage) in
  let output := bvb_wire_put_u32 output 24
      request.(scprep_rq_min_image_count) in
  let output := bvb_wire_put_u32 output 28 request.(scprep_rq_flags) in
  let output := bvb_wire_put_u64 output 32 request.(scprep_rq_generation) in
  Ok output.

Definition bvb_protocol_decode_vulkan_swapchain_prepare_request
    (input : ptr bytes) (request : ptr bvb_vulkan_swapchain_prepare_request)
        : result bvb_vulkan_swapchain_prepare_request :=
  deref input := input or (- EINVAL) ;;
  deref request := request or (- EINVAL) ;;
  let decoded := {| scprep_rq_device_id := bvb_wire_get_u64 input 0;
       scprep_rq_width := bvb_wire_get_u32 input 8;
       scprep_rq_height := bvb_wire_get_u32 input 12;
       scprep_rq_format := bvb_wire_get_u32 input 16;
       scprep_rq_image_usage := bvb_wire_get_u32 input 20;
       scprep_rq_min_image_count := bvb_wire_get_u32 input 24;
       scprep_rq_flags := bvb_wire_get_u32 input 28;
       scprep_rq_generation := bvb_wire_get_u64 input 32 |} in
  let validation := blank BVB_VULKAN_SWAPCHAIN_PREPARE_REQUEST_SIZE in
  call validation
      := bvb_protocol_encode_vulkan_swapchain_prepare_request
      (Some validation) (Some decoded) or (- EPROTO) ;;
  Ok decoded.

Definition bvb_protocol_encode_vulkan_swapchain_acquire_request
    (output : ptr bytes) (request : ptr bvb_vulkan_swapchain_acquire_request)
        : result bytes :=
  deref output := output or (- EINVAL) ;;
  deref request := request or (- EINVAL) ;;
  fail_if negb (wire_id_is_type request.(scacq_rq_device_id)
      BVB_OBJECT_DEVICE) ||
          negb (wire_id_is_type request.(scacq_rq_swapchain_id)
              BVB_OBJECT_SWAPCHAIN) ||
          ((request.(scacq_rq_semaphore_id) =? 0) &&
              (request.(scacq_rq_fence_id) =? 0)) ||
          (negb (request.(scacq_rq_semaphore_id) =? 0) &&
              negb (wire_id_is_type request.(scacq_rq_semaphore_id)
              BVB_OBJECT_SEMAPHORE)) ||
          (negb (request.(scacq_rq_fence_id) =? 0) &&
              negb (wire_id_is_type request.(scacq_rq_fence_id)
              BVB_OBJECT_FENCE)) with (- EINVAL) ;;
  let output := memset0 output 0 BVB_VULKAN_SWAPCHAIN_ACQUIRE_REQUEST_SIZE in
  let output := bvb_wire_put_u64 output 0 request.(scacq_rq_device_id) in
  let output := bvb_wire_put_u64 output 8 request.(scacq_rq_swapchain_id) in
  let output := bvb_wire_put_u64 output 16 request.(scacq_rq_timeout_ns) in
  let output := bvb_wire_put_u64 output 24 request.(scacq_rq_semaphore_id) in
  let output := bvb_wire_put_u64 output 32 request.(scacq_rq_fence_id) in
  Ok output.

Definition bvb_protocol_decode_vulkan_swapchain_acquire_request
    (input : ptr bytes) (request : ptr bvb_vulkan_swapchain_acquire_request)
        : result bvb_vulkan_swapchain_acquire_request :=
  deref input := input or (- EINVAL) ;;
  deref request := request or (- EINVAL) ;;
  let decoded := {| scacq_rq_device_id := bvb_wire_get_u64 input 0;
       scacq_rq_swapchain_id := bvb_wire_get_u64 input 8;
       scacq_rq_timeout_ns := bvb_wire_get_u64 input 16;
       scacq_rq_semaphore_id := bvb_wire_get_u64 input 24;
       scacq_rq_fence_id := bvb_wire_get_u64 input 32 |} in
  let validation := blank BVB_VULKAN_SWAPCHAIN_ACQUIRE_REQUEST_SIZE in
  call validation
      := bvb_protocol_encode_vulkan_swapchain_acquire_request
      (Some validation) (Some decoded) or (- EPROTO) ;;
  Ok decoded.

Definition bvb_protocol_encode_vulkan_swapchain_acquire_response
    (output : ptr bytes)
        (response : ptr bvb_vulkan_swapchain_acquire_response) : result bytes
        :=
  deref output := output or (- EINVAL) ;;
  deref response := response or (- EINVAL) ;;
  fail_if ((response.(scacq_rs_vulkan_result) =? 0) &&
      (BVB_WSI_FRAME_RING_MAX_SLOTS <=? response.(scacq_rs_image_index))) ||
          (negb (response.(scacq_rs_vulkan_result) =? 0) &&
              negb (response.(scacq_rs_image_index) =? 0)) with (- EINVAL) ;;
  let output := bvb_wire_put_i32 output 0 response.(scacq_rs_vulkan_result) in
  let output := bvb_wire_put_u32 output 4 response.(scacq_rs_image_index) in
  Ok output.

Definition bvb_protocol_decode_vulkan_swapchain_acquire_response
    (input : ptr bytes)
        (response : ptr bvb_vulkan_swapchain_acquire_response) : result
        bvb_vulkan_swapchain_acquire_response :=
  deref input := input or (- EINVAL) ;;
  deref response := response or (- EINVAL) ;;
  let decoded := {| scacq_rs_vulkan_result := bvb_wire_get_i32 input 0;
       scacq_rs_image_index := bvb_wire_get_u32 input 4 |} in
  let validation := blank BVB_VULKAN_SWAPCHAIN_ACQUIRE_RESPONSE_SIZE in
  call validation
      := bvb_protocol_encode_vulkan_swapchain_acquire_response
      (Some validation) (Some decoded) or (- EPROTO) ;;
  Ok decoded.

Definition bvb_protocol_encode_vulkan_swapchain_present_response
    (output : ptr bytes)
        (response : ptr bvb_vulkan_swapchain_present_response) : result bytes
        :=
  deref output := output or (- EINVAL) ;;
  deref response := response or (- EINVAL) ;;
  fail_if ((response.(scpres_rs_vulkan_result) =? 0) &&
      (response.(scpres_rs_sequence) =? 0)) ||
          (negb (response.(scpres_rs_vulkan_result) =? 0) &&
              negb (response.(scpres_rs_sequence) =? 0)) with (- EINVAL) ;;
  let output := bvb_wire_put_i32 output 0
      response.(scpres_rs_vulkan_result) in
  let output := bvb_wire_put_u32 output 4 response.(scpres_rs_sequence) in
  Ok output.

Definition bvb_protocol_decode_vulkan_swapchain_present_response
    (input : ptr bytes)
        (response : ptr bvb_vulkan_swapchain_present_response) : result
        bvb_vulkan_swapchain_present_response :=
  deref input := input or (- EINVAL) ;;
  deref response := response or (- EINVAL) ;;
  let decoded := {| scpres_rs_vulkan_result := bvb_wire_get_i32 input 0;
       scpres_rs_sequence := bvb_wire_get_u32 input 4 |} in
  let validation := blank BVB_VULKAN_SWAPCHAIN_PRESENT_RESPONSE_SIZE in
  call validation
      := bvb_protocol_encode_vulkan_swapchain_present_response
      (Some validation) (Some decoded) or (- EPROTO) ;;
  Ok decoded.

Definition validate_memory_io_request
    (request : ptr bvb_vulkan_memory_io_request) : result unit :=
  deref request := request or (- EINVAL) ;;
  if ((wire_id_is_type request.(mi_rq_memory_id) 9 &&
      negb (request.(mi_rq_length) =? 0)) &&
      (request.(mi_rq_length) <=? BVB_VULKAN_MEMORY_IO_MAX_BYTES)) &&
      (request.(mi_rq_offset)
      <=? (u64 (UINT64_MAX - request.(mi_rq_length)))) then Ok tt else Err
      (- EINVAL).

Definition bvb_protocol_encode_vulkan_memory_read_request
    (output : ptr bytes) (request : ptr bvb_vulkan_memory_io_request) :
        result bytes :=
  deref output := output or (- EINVAL) ;;
  fail_if negb (is_ok (validate_memory_io_request request)) with (- EINVAL) ;;
  deref request := request or (- EINVAL) ;;
  let output := bvb_wire_put_u64 output 0 request.(mi_rq_memory_id) in
  let output := bvb_wire_put_u64 output 8 request.(mi_rq_offset) in
  let output := bvb_wire_put_u32 output 16 request.(mi_rq_length) in
  let output := bvb_wire_put_u32 output 20 0 in
  Ok output.

Definition bvb_protocol_decode_vulkan_memory_read_request
    (input : ptr bytes) (request : ptr bvb_vulkan_memory_io_request) : result
        bvb_vulkan_memory_io_request :=
  deref input := input or (- EINVAL) ;;
  deref request := request or (- EINVAL) ;;
  let decoded := {| mi_rq_memory_id := bvb_wire_get_u64 input 0;
       mi_rq_offset := bvb_wire_get_u64 input 8;
       mi_rq_length := bvb_wire_get_u32 input 16 |} in
  fail_if negb (is_ok (validate_memory_io_request (Some decoded))) ||
          negb ((bvb_wire_get_u32 input 20) =? 0) with (- EPROTO) ;;
  Ok decoded.

Definition validate_memory_mirror_identity
    (device_id : Z) (memory_id : Z) (generation : Z) : result unit :=
  if (wire_id_is_type device_id 3 && wire_id_is_type memory_id 9) &&
      negb (generation =? 0) then Ok tt else Err (- EINVAL).

Definition bvb_protocol_encode_vulkan_memory_mirror_setup_request
    (output : ptr bytes)
        (request : ptr bvb_vulkan_memory_mirror_setup_request) : result bytes
        :=
  deref output := output or (- EINVAL) ;;
  deref request := request or (- EINVAL) ;;
  fail_if negb (is_ok
      (validate_memory_mirror_identity request.(mms_rq_device_id)
      request.(mms_rq_memory_id) request.(mms_rq_generation))) ||
          (request.(mms_rq_length) =? 0) ||
          (BVB_VULKAN_MAX_MEMORY_ALLOCATION_SIZE <?
              request.(mms_rq_length)) ||
          ((u64 (UINT64_MAX - request.(mms_rq_length))) <?
              request.(mms_rq_offset)) with (- EINVAL) ;;
  let output := bvb_wire_put_u64 output 0 request.(mms_rq_device_id) in
  let output := bvb_wire_put_u64 output 8 request.(mms_rq_memory_id) in
  let output := bvb_wire_put_u64 output 16 request.(mms_rq_generation) in
  let output := bvb_wire_put_u64 output 24 request.(mms_rq_offset) in
  let output := bvb_wire_put_u64 output 32 request.(mms_rq_length) in
  Ok output.

Definition bvb_protocol_decode_vulkan_memory_mirror_setup_request
    (input : ptr bytes)
        (request : ptr bvb_vulkan_memory_mirror_setup_request) : result
        bvb_vulkan_memory_mirror_setup_request :=
  deref input := input or (- EINVAL) ;;
  deref request := request or (- EINVAL) ;;
  let decoded := {| mms_rq_device_id := bvb_wire_get_u64 input 0;
       mms_rq_memory_id := bvb_wire_get_u64 input 8;
       mms_rq_generation := bvb_wire_get_u64 input 16;
       mms_rq_offset := bvb_wire_get_u64 input 24;
       mms_rq_length := bvb_wire_get_u64 input 32 |} in
  let validation := blank BVB_VULKAN_MEMORY_MIRROR_SETUP_SIZE in
  call validation
      := bvb_protocol_encode_vulkan_memory_mirror_setup_request
      (Some validation) (Some decoded) or (- EPROTO) ;;
  fail_if memcmp_ne validation input BVB_VULKAN_MEMORY_MIRROR_SETUP_SIZE
      with (- EPROTO) ;;
  Ok decoded.

Definition bvb_protocol_encode_vulkan_memory_mirror_range_request
    (output : ptr bytes)
        (request : ptr bvb_vulkan_memory_mirror_range_request) : result bytes
        :=
  deref output := output or (- EINVAL) ;;
  deref request := request or (- EINVAL) ;;
  fail_if negb (is_ok
      (validate_memory_mirror_identity request.(mmr_rq_device_id)
      request.(mmr_rq_memory_id) request.(mmr_rq_generation))) ||
          (request.(mmr_rq_size) =? 0) ||
          (BVB_VULKAN_MAX_MEMORY_ALLOCATION_SIZE <? request.(mmr_rq_size)) ||
          ((u64 (UINT64_MAX - request.(mmr_rq_size))) <?
              request.(mmr_rq_offset)) with (- EINVAL) ;;
  let output := bvb_wire_put_u64 output 0 request.(mmr_rq_device_id) in
  let output := bvb_wire_put_u64 output 8 request.(mmr_rq_memory_id) in
  let output := bvb_wire_put_u64 output 16 request.(mmr_rq_generation) in
  let output := bvb_wire_put_u64 output 24 request.(mmr_rq_offset) in
  let output := bvb_wire_put_u64 output 32 request.(mmr_rq_size) in
  Ok output.

Definition bvb_protocol_decode_vulkan_memory_mirror_range_request
    (input : ptr bytes)
        (request : ptr bvb_vulkan_memory_mirror_range_request) : result
        bvb_vulkan_memory_mirror_range_request :=
  deref input := input or (- EINVAL) ;;
  deref request := request or (- EINVAL) ;;
  let decoded := {| mmr_rq_device_id := bvb_wire_get_u64 input 0;
       mmr_rq_memory_id := bvb_wire_get_u64 input 8;
       mmr_rq_generation := bvb_wire_get_u64 input 16;
       mmr_rq_offset := bvb_wire_get_u64 input 24;
       mmr_rq_size := bvb_wire_get_u64 input 32 |} in
  let validation := blank BVB_VULKAN_MEMORY_MIRROR_RANGE_SIZE in
  call validation
      := bvb_protocol_encode_vulkan_memory_mirror_range_request
      (Some validation) (Some decoded) or (- EPROTO) ;;
  fail_if memcmp_ne validation input BVB_VULKAN_MEMORY_MIRROR_RANGE_SIZE
      with (- EPROTO) ;;
  Ok decoded.

Definition bvb_protocol_encode_vulkan_memory_mirror_unmap_request
    (output : ptr bytes)
        (request : ptr bvb_vulkan_memory_mirror_unmap_request) : result bytes
        :=
  deref output := output or (- EINVAL) ;;
  deref request := request or (- EINVAL) ;;
  fail_if negb (is_ok
      (validate_memory_mirror_identity request.(mmu_rq_device_id)
      request.(mmu_rq_memory_id) request.(mmu_rq_generation)))
      with (- EINVAL) ;;
  let output := bvb_wire_put_u64 output 0 request.(mmu_rq_device_id) in
  let output := bvb_wire_put_u64 output 8 request.(mmu_rq_memory_id) in
  let output := bvb_wire_put_u64 output 16 request.(mmu_rq_generation) in
  Ok output.

Definition bvb_protocol_decode_vulkan_memory_mirror_unmap_request
    (input : ptr bytes)
        (request : ptr bvb_vulkan_memory_mirror_unmap_request) : result
        bvb_vulkan_memory_mirror_unmap_request :=
  deref input := input or (- EINVAL) ;;
  deref request := request or (- EINVAL) ;;
  let decoded := {| mmu_rq_device_id := bvb_wire_get_u64 input 0;
       mmu_rq_memory_id := bvb_wire_get_u64 input 8;
       mmu_rq_generation := bvb_wire_get_u64 input 16 |} in
  let validation := blank BVB_VULKAN_MEMORY_MIRROR_UNMAP_SIZE in
  call validation
      := bvb_protocol_encode_vulkan_memory_mirror_unmap_request
      (Some validation) (Some decoded) or (- EPROTO) ;;
  fail_if memcmp_ne validation input BVB_VULKAN_MEMORY_MIRROR_UNMAP_SIZE
      with (- EPROTO) ;;
  Ok decoded.

Definition bvb_protocol_encode_shared_batch_setup
    (output : ptr bytes) (setup : ptr bvb_shared_batch_setup) : result bytes
        :=
  deref output := output or (- EINVAL) ;;
  deref setup := setup or (- EINVAL) ;;
  fail_if (setup.(sbs_generation) =? 0) ||
          (setup.(sbs_region_bytes) <? BVB_SHARED_BATCH_MIN_BYTES) ||
          (BVB_SHARED_BATCH_MAX_BYTES <? setup.(sbs_region_bytes))
              with (- EINVAL) ;;
  let output := bvb_wire_put_u32 output 0 setup.(sbs_region_bytes) in
  let output := bvb_wire_put_u32 output 4 0 in
  let output := bvb_wire_put_u64 output 8 setup.(sbs_generation) in
  Ok output.

Definition bvb_protocol_decode_shared_batch_setup
    (input : ptr bytes) (setup : ptr bvb_shared_batch_setup) : result
        bvb_shared_batch_setup :=
  deref input := input or (- EINVAL) ;;
  deref setup := setup or (- EINVAL) ;;
  let decoded := {| sbs_region_bytes := bvb_wire_get_u32 input 0;
       sbs_generation := bvb_wire_get_u64 input 8 |} in
  fail_if negb ((bvb_wire_get_u32 input 4) =? 0) ||
          (decoded.(sbs_generation) =? 0) ||
          (decoded.(sbs_region_bytes) <? BVB_SHARED_BATCH_MIN_BYTES) ||
          (BVB_SHARED_BATCH_MAX_BYTES <? decoded.(sbs_region_bytes))
              with (- EPROTO) ;;
  Ok decoded.

Definition bvb_protocol_encode_vulkan_command_stream_setup
    (output : ptr bytes) (setup : ptr bvb_shared_batch_setup) : result bytes
        :=
  deref output := output or (- EINVAL) ;;
  deref setup := setup or (- EINVAL) ;;
  fail_if (setup.(sbs_generation) =? 0) ||
          negb (setup.(sbs_region_bytes) =? BVB_COMMAND_STREAM_REGION_BYTES)
              with (- EINVAL) ;;
  let output := bvb_wire_put_u32 output 0 setup.(sbs_region_bytes) in
  let output := bvb_wire_put_u32 output 4 0 in
  let output := bvb_wire_put_u64 output 8 setup.(sbs_generation) in
  Ok output.

Definition bvb_protocol_decode_vulkan_command_stream_setup
    (input : ptr bytes) (setup : ptr bvb_shared_batch_setup) : result
        bvb_shared_batch_setup :=
  deref input := input or (- EINVAL) ;;
  deref setup := setup or (- EINVAL) ;;
  let decoded := {| sbs_region_bytes := bvb_wire_get_u32 input 0;
       sbs_generation := bvb_wire_get_u64 input 8 |} in
  fail_if negb ((bvb_wire_get_u32 input 4) =? 0) ||
          (decoded.(sbs_generation) =? 0) ||
          negb (decoded.(sbs_region_bytes) =?
              BVB_COMMAND_STREAM_REGION_BYTES) with (- EPROTO) ;;
  Ok decoded.

Definition bvb_protocol_encode_vulkan_descriptor_journal_setup
    (output : ptr bytes) (setup : ptr bvb_shared_batch_setup) : result bytes
        :=
  deref output := output or (- EINVAL) ;;
  deref setup := setup or (- EINVAL) ;;
  fail_if (setup.(sbs_generation) =? 0) ||
          negb (setup.(sbs_region_bytes) =?
              BVB_DESCRIPTOR_JOURNAL_REGION_BYTES) with (- EINVAL) ;;
  let output := bvb_wire_put_u32 output 0 setup.(sbs_region_bytes) in
  let output := bvb_wire_put_u32 output 4 0 in
  let output := bvb_wire_put_u64 output 8 setup.(sbs_generation) in
  Ok output.

Definition bvb_protocol_decode_vulkan_descriptor_journal_setup
    (input : ptr bytes) (setup : ptr bvb_shared_batch_setup) : result
        bvb_shared_batch_setup :=
  deref input := input or (- EINVAL) ;;
  deref setup := setup or (- EINVAL) ;;
  let decoded := {| sbs_region_bytes := bvb_wire_get_u32 input 0;
       sbs_generation := bvb_wire_get_u64 input 8 |} in
  fail_if negb ((bvb_wire_get_u32 input 4) =? 0) ||
          (decoded.(sbs_generation) =? 0) ||
          negb (decoded.(sbs_region_bytes) =?
              BVB_DESCRIPTOR_JOURNAL_REGION_BYTES) with (- EPROTO) ;;
  Ok decoded.

Definition bvb_protocol_encode_vulkan_descriptor_journal_flush
    (output : ptr bytes) (flush : ptr bvb_descriptor_journal_flush) : result
        bytes :=
  deref output := output or (- EINVAL) ;;
  deref flush := flush or (- EINVAL) ;;
  fail_if (flush.(djf_generation) =? 0) ||
          (flush.(djf_sequence) =? 0) ||
          (flush.(djf_length) =? 0) ||
          (BVB_DESCRIPTOR_JOURNAL_REGION_BYTES <? flush.(djf_length)) ||
          (flush.(djf_record_count) =? 0) ||
          (BVB_DESCRIPTOR_JOURNAL_MAX_RECORDS <? flush.(djf_record_count))
              with (- EINVAL) ;;
  let output := bvb_wire_put_u64 output 0 flush.(djf_generation) in
  let output := bvb_wire_put_u64 output 8 flush.(djf_sequence) in
  let output := bvb_wire_put_u32 output 16 flush.(djf_length) in
  let output := bvb_wire_put_u32 output 20 flush.(djf_record_count) in
  Ok output.

Definition bvb_protocol_decode_vulkan_descriptor_journal_flush
    (input : ptr bytes) (flush : ptr bvb_descriptor_journal_flush) : result
        bvb_descriptor_journal_flush :=
  deref input := input or (- EINVAL) ;;
  deref flush := flush or (- EINVAL) ;;
  let decoded := {| djf_generation := bvb_wire_get_u64 input 0;
       djf_sequence := bvb_wire_get_u64 input 8;
       djf_length := bvb_wire_get_u32 input 16;
       djf_record_count := bvb_wire_get_u32 input 20 |} in
  fail_if (decoded.(djf_generation) =? 0) ||
          (decoded.(djf_sequence) =? 0) ||
          (decoded.(djf_length) =? 0) ||
          (BVB_DESCRIPTOR_JOURNAL_REGION_BYTES <? decoded.(djf_length)) ||
          (decoded.(djf_record_count) =? 0) ||
          (BVB_DESCRIPTOR_JOURNAL_MAX_RECORDS <? decoded.(djf_record_count))
              with (- EPROTO) ;;
  Ok decoded.

Definition bvb_protocol_encode_shared_batch_execute
    (output : ptr bytes) (execute : ptr bvb_shared_batch_execute) : result
        bytes :=
  deref output := output or (- EINVAL) ;;
  deref execute := execute or (- EINVAL) ;;
  fail_if (execute.(sbe_generation) =? 0) ||
          (execute.(sbe_length) <? BVB_COMMAND_BATCH_HEADER_SIZE) ||
          (BVB_COMMAND_BATCH_MAX_BYTES <? execute.(sbe_length)) ||
          (execute.(sbe_sequence) =? 0) with (- EINVAL) ;;
  let output := bvb_wire_put_u64 output 0 execute.(sbe_generation) in
  let output := bvb_wire_put_u32 output 8 execute.(sbe_offset) in
  let output := bvb_wire_put_u32 output 12 execute.(sbe_length) in
  let output := bvb_wire_put_u64 output 16 execute.(sbe_sequence) in
  Ok output.

Definition bvb_protocol_decode_shared_batch_execute
    (input : ptr bytes) (execute : ptr bvb_shared_batch_execute) : result
        bvb_shared_batch_execute :=
  deref input := input or (- EINVAL) ;;
  deref execute := execute or (- EINVAL) ;;
  let decoded := {| sbe_generation := bvb_wire_get_u64 input 0;
       sbe_offset := bvb_wire_get_u32 input 8;
       sbe_length := bvb_wire_get_u32 input 12;
       sbe_sequence := bvb_wire_get_u64 input 16 |} in
  fail_if (decoded.(sbe_generation) =? 0) ||
          (decoded.(sbe_length) <? BVB_COMMAND_BATCH_HEADER_SIZE) ||
          (BVB_COMMAND_BATCH_MAX_BYTES <? decoded.(sbe_length)) ||
          (decoded.(sbe_sequence) =? 0) with (- EPROTO) ;;
  Ok decoded.

Definition bvb_protocol_encode_vulkan_selftest
    (output : ptr bytes) (result_ : ptr bvb_vulkan_selftest_result) : result bytes :=
  deref output := output or (- EINVAL) ;;
  deref result_ := result_ or (- EINVAL) ;;
  fail_if (result_.(sr_buffer_bytes) =? 0) with (- EINVAL) ;;
  let output := memset0 output 0 BVB_VULKAN_SELFTEST_SIZE in
  let output := bvb_wire_put_u32 output 0
      result_.(sr_instance_extension_count) in
  let output := bvb_wire_put_u32 output 4
      result_.(sr_device_extension_count) in
  let output := bvb_wire_put_u64 output 8
      result_.(sr_instance_extension_flags) in
  let output := bvb_wire_put_u64 output 16
      result_.(sr_device_extension_flags) in
  let output := bvb_wire_put_u32 output 24 result_.(sr_queue_family_index) in
  let output := bvb_wire_put_u32 output 28 result_.(sr_queue_flags) in
  let output := bvb_wire_put_u32 output 32 result_.(sr_memory_type_index) in
  let output := bvb_wire_put_u32 output 36
      result_.(sr_memory_property_flags) in
  let output := bvb_wire_put_u32 output 40 result_.(sr_buffer_bytes) in
  let output := bvb_wire_put_u32 output 44 result_.(sr_fill_word) in
  let output := bvb_wire_put_u32 output 48 result_.(sr_mismatched_words) in
  let output := bvb_wire_put_u32 output 52 0 in
  let output := bvb_wire_put_u64 output 56
      result_.(sr_submit_wait_elapsed_ns) in
  Ok output.

Definition bvb_protocol_decode_vulkan_selftest
    (input : ptr bytes) (result_ : ptr bvb_vulkan_selftest_result) : result bvb_vulkan_selftest_result :=
  deref input := input or (- EINVAL) ;;
  deref result_ := result_ or (- EINVAL) ;;
  fail_if negb ((bvb_wire_get_u32 input 52) =? 0) with (- EPROTO) ;;
  let decoded := {| sr_instance_extension_count := bvb_wire_get_u32 input 0;
       sr_device_extension_count := bvb_wire_get_u32 input 4;
       sr_instance_extension_flags := bvb_wire_get_u64 input 8;
       sr_device_extension_flags := bvb_wire_get_u64 input 16;
       sr_queue_family_index := bvb_wire_get_u32 input 24;
       sr_queue_flags := bvb_wire_get_u32 input 28;
       sr_memory_type_index := bvb_wire_get_u32 input 32;
       sr_memory_property_flags := bvb_wire_get_u32 input 36;
       sr_buffer_bytes := bvb_wire_get_u32 input 40;
       sr_fill_word := bvb_wire_get_u32 input 44;
       sr_mismatched_words := bvb_wire_get_u32 input 48;
       sr_submit_wait_elapsed_ns := bvb_wire_get_u64 input 56 |} in
  fail_if (decoded.(sr_buffer_bytes) =? 0) with (- EPROTO) ;;
  Ok decoded.

Definition bvb_protocol_encode_activity_status
    (output : ptr bytes) (status : ptr bvb_activity_status) : result bytes :=
  deref output := output or (- EINVAL) ;;
  deref status := status or (- EINVAL) ;;
  fail_if (1 <? status.(as_ingress_configured)) with (- EINVAL) ;;
  let output := memset0 output 0 BVB_ACTIVITY_STATUS_SIZE in
  let output := bvb_wire_put_u32 output 0 status.(as_ingress_configured) in
  let output := bvb_wire_put_u32 output 4
      status.(as_authenticated_event_count) in
  let output := bvb_wire_put_u32 output 8 status.(as_rejected_event_count) in
  let output := bvb_wire_put_u32 output 12 status.(as_last_sequence) in
  let output := bvb_wire_put_u32 output 16 status.(as_last_event) in
  let output := bvb_wire_put_u32 output 20 status.(as_state_flags) in
  let output := bvb_wire_put_u32 output 24 status.(as_width) in
  let output := bvb_wire_put_u32 output 28 status.(as_height) in
  let output := bvb_wire_put_u32 output 32 status.(as_activity_pid) in
  let output := bvb_wire_put_u32 output 36 0 in
  let output := bvb_wire_put_u64 output 40
      status.(as_last_event_monotonic_ns) in
  let output := bvb_wire_put_u64 output 48
      status.(as_last_event_received_ns) in
  Ok output.

Definition bvb_protocol_decode_activity_status
    (input : ptr bytes) (status : ptr bvb_activity_status) : result
        bvb_activity_status :=
  deref input := input or (- EINVAL) ;;
  deref status := status or (- EINVAL) ;;
  let decoded := {| as_ingress_configured := bvb_wire_get_u32 input 0;
       as_authenticated_event_count := bvb_wire_get_u32 input 4;
       as_rejected_event_count := bvb_wire_get_u32 input 8;
       as_last_sequence := bvb_wire_get_u32 input 12;
       as_last_event := bvb_wire_get_u32 input 16;
       as_state_flags := bvb_wire_get_u32 input 20;
       as_width := bvb_wire_get_u32 input 24;
       as_height := bvb_wire_get_u32 input 28;
       as_activity_pid := bvb_wire_get_u32 input 32;
       as_last_event_monotonic_ns := bvb_wire_get_u64 input 40;
       as_last_event_received_ns := bvb_wire_get_u64 input 48 |} in
  fail_if (1 <? decoded.(as_ingress_configured)) ||
          negb ((bvb_wire_get_u32 input 36) =? 0) ||
          (BVB_LIFECYCLE_EVENT_RENDERER_FAILED <? decoded.(as_last_event))
              with (- EPROTO) ;;
  Ok decoded.

#[global] Arguments validate_memory_io_request : simpl never.
#[global] Arguments validate_memory_mirror_identity : simpl never.

(** ** Codecs *)

Definition external_memory_import_request_codec : codec
    bvb_external_memory_import_request :=
  mk_codec BVB_EXTERNAL_MEMORY_IMPORT_REQUEST_SIZE emi_rq_rep
      bvb_protocol_encode_external_memory_import_request
    bvb_protocol_decode_external_memory_import_request.

Definition external_sync_import_request_codec : codec
    bvb_external_sync_import_request :=
  mk_codec BVB_EXTERNAL_SYNC_IMPORT_REQUEST_SIZE esi_rq_rep
      bvb_protocol_encode_external_sync_import_request
    bvb_protocol_decode_external_sync_import_request.

Definition external_image_import_request_codec : codec
    bvb_external_image_import_request :=
  mk_codec BVB_EXTERNAL_IMAGE_IMPORT_REQUEST_SIZE eii_rq_rep
      bvb_protocol_encode_external_image_import_request
    bvb_protocol_decode_external_image_import_request.

Definition swapchain_prepare_request_codec : codec
    bvb_vulkan_swapchain_prepare_request :=
  mk_codec BVB_VULKAN_SWAPCHAIN_PREPARE_REQUEST_SIZE scprep_rq_rep
      bvb_protocol_encode_vulkan_swapchain_prepare_request
    bvb_protocol_decode_vulkan_swapchain_prepare_request.

Definition swapchain_acquire_request_codec : codec
    bvb_vulkan_swapchain_acquire_request :=
  mk_codec BVB_VULKAN_SWAPCHAIN_ACQUIRE_REQUEST_SIZE scacq_rq_rep
      bvb_protocol_encode_vulkan_swapchain_acquire_request
    bvb_protocol_decode_vulkan_swapchain_acquire_request.

Definition swapchain_acquire_response_codec : codec
    bvb_vulkan_swapchain_acquire_response :=
  mk_codec BVB_VULKAN_SWAPCHAIN_ACQUIRE_RESPONSE_SIZE scacq_rs_rep
      bvb_protocol_encode_vulkan_swapchain_acquire_response
    bvb_protocol_decode_vulkan_swapchain_acquire_response.

Definition swapchain_present_response_codec : codec
    bvb_vulkan_swapchain_present_response :=
  mk_codec BVB_VULKAN_SWAPCHAIN_PRESENT_RESPONSE_SIZE scpres_rs_rep
      bvb_protocol_encode_vulkan_swapchain_present_response
    bvb_protocol_decode_vulkan_swapchain_present_response.

Definition memory_read_request_codec : codec bvb_vulkan_memory_io_request :=
  mk_codec BVB_VULKAN_MEMORY_IO_PREFIX_SIZE mi_rq_rep
      bvb_protocol_encode_vulkan_memory_read_request
    bvb_protocol_decode_vulkan_memory_read_request.

Definition memory_mirror_setup_request_codec : codec
    bvb_vulkan_memory_mirror_setup_request :=
  mk_codec BVB_VULKAN_MEMORY_MIRROR_SETUP_SIZE mms_rq_rep
      bvb_protocol_encode_vulkan_memory_mirror_setup_request
    bvb_protocol_decode_vulkan_memory_mirror_setup_request.

Definition memory_mirror_range_request_codec : codec
    bvb_vulkan_memory_mirror_range_request :=
  mk_codec BVB_VULKAN_MEMORY_MIRROR_RANGE_SIZE mmr_rq_rep
      bvb_protocol_encode_vulkan_memory_mirror_range_request
    bvb_protocol_decode_vulkan_memory_mirror_range_request.

Definition memory_mirror_unmap_request_codec : codec
    bvb_vulkan_memory_mirror_unmap_request :=
  mk_codec BVB_VULKAN_MEMORY_MIRROR_UNMAP_SIZE mmu_rq_rep
      bvb_protocol_encode_vulkan_memory_mirror_unmap_request
    bvb_protocol_decode_vulkan_memory_mirror_unmap_request.

Definition shared_batch_setup_codec : codec bvb_shared_batch_setup :=
  mk_codec BVB_SHARED_BATCH_SETUP_SIZE sbs_rep
      bvb_protocol_encode_shared_batch_setup
    bvb_protocol_decode_shared_batch_setup.

Definition command_stream_setup_codec : codec bvb_shared_batch_setup :=
  mk_codec BVB_SHARED_BATCH_SETUP_SIZE sbs_rep
      bvb_protocol_encode_vulkan_command_stream_setup
    bvb_protocol_decode_vulkan_command_stream_setup.

Definition descriptor_journal_setup_codec : codec bvb_shared_batch_setup :=
  mk_codec BVB_SHARED_BATCH_SETUP_SIZE sbs_rep
      bvb_protocol_encode_vulkan_descriptor_journal_setup
    bvb_protocol_decode_vulkan_descriptor_journal_setup.

Definition descriptor_journal_flush_codec : codec
    bvb_descriptor_journal_flush :=
  mk_codec BVB_DESCRIPTOR_JOURNAL_FLUSH_SIZE djf_rep
      bvb_protocol_encode_vulkan_descriptor_journal_flush
    bvb_protocol_decode_vulkan_descriptor_journal_flush.

Definition shared_batch_execute_codec : codec bvb_shared_batch_execute :=
  mk_codec BVB_SHARED_BATCH_EXECUTE_SIZE sbe_rep
      bvb_protocol_encode_shared_batch_execute
    bvb_protocol_decode_shared_batch_execute.

Definition selftest_codec : codec bvb_vulkan_selftest_result :=
  mk_codec BVB_VULKAN_SELFTEST_SIZE sr_rep bvb_protocol_encode_vulkan_selftest
    bvb_protocol_decode_vulkan_selftest.

(** The decoder refuses event 13 (BVB_LIFECYCLE_EVENT_NATIVE_BINDER_STATUS),
    which the encoder writes: the contract holds below it only. *)
Definition activity_status_wire_rep (r : bvb_activity_status) : bool :=
  Eval cbv beta delta [as_rep] in
  as_rep r && (r.(as_last_event) <=? BVB_LIFECYCLE_EVENT_RENDERER_FAILED).

Definition activity_status_codec : codec bvb_activity_status :=
  mk_codec BVB_ACTIVITY_STATUS_SIZE activity_status_wire_rep bvb_protocol_encode_activity_status
    bvb_protocol_decode_activity_status.

(** ** Their contracts *)

#[export] Instance external_memory_import_request_codec_lawful : Lawful
    external_memory_import_request_codec.
Proof. solve_lawful. Qed.
#[export] Instance external_memory_import_request_codec_canonical : Canonical
    external_memory_import_request_codec.
Proof. solve_canonical. Qed.
#[export] Instance external_memory_import_request_codec_errors : ErrorsByRole
    external_memory_import_request_codec.
Proof. solve_errors. Qed.

#[export] Instance external_sync_import_request_codec_lawful : Lawful
    external_sync_import_request_codec.
Proof. solve_lawful. Qed.
#[export] Instance external_sync_import_request_codec_canonical : Canonical
    external_sync_import_request_codec.
Proof. solve_canonical. Qed.

#[export] Instance external_image_import_request_codec_lawful : Lawful
    external_image_import_request_codec.
Proof. solve_lawful. Qed.
#[export] Instance external_image_import_request_codec_canonical : Canonical
    external_image_import_request_codec.
Proof. solve_canonical. Qed.

#[export] Instance swapchain_prepare_request_codec_lawful : Lawful
    swapchain_prepare_request_codec.
Proof. solve_lawful. Qed.
#[export] Instance swapchain_prepare_request_codec_canonical : Canonical
    swapchain_prepare_request_codec.
Proof. solve_canonical. Qed.
#[export] Instance swapchain_prepare_request_codec_errors : ErrorsByRole
    swapchain_prepare_request_codec.
Proof. solve_errors. Qed.

#[export] Instance swapchain_acquire_request_codec_lawful : Lawful
    swapchain_acquire_request_codec.
Proof. solve_lawful. Qed.
#[export] Instance swapchain_acquire_request_codec_canonical : Canonical
    swapchain_acquire_request_codec.
Proof. solve_canonical. Qed.
#[export] Instance swapchain_acquire_request_codec_errors : ErrorsByRole
    swapchain_acquire_request_codec.
Proof. solve_errors. Qed.

#[export] Instance swapchain_acquire_response_codec_lawful : Lawful
    swapchain_acquire_response_codec.
Proof. solve_lawful. Qed.
#[export] Instance swapchain_acquire_response_codec_canonical : Canonical
    swapchain_acquire_response_codec.
Proof. solve_canonical. Qed.
#[export] Instance swapchain_acquire_response_codec_errors : ErrorsByRole
    swapchain_acquire_response_codec.
Proof. solve_errors. Qed.

#[export] Instance swapchain_present_response_codec_lawful : Lawful
    swapchain_present_response_codec.
Proof. solve_lawful. Qed.
#[export] Instance swapchain_present_response_codec_canonical : Canonical
    swapchain_present_response_codec.
Proof. solve_canonical. Qed.
#[export] Instance swapchain_present_response_codec_errors : ErrorsByRole
    swapchain_present_response_codec.
Proof. solve_errors. Qed.

#[export] Instance memory_read_request_codec_lawful : Lawful
    memory_read_request_codec.
Proof. solve_lawful. Qed.
#[export] Instance memory_read_request_codec_canonical : Canonical
    memory_read_request_codec.
Proof. solve_canonical. Qed.
#[export] Instance memory_read_request_codec_errors : ErrorsByRole
    memory_read_request_codec.
Proof. solve_errors. Qed.

#[export] Instance memory_mirror_setup_request_codec_lawful : Lawful
    memory_mirror_setup_request_codec.
Proof. solve_lawful. Qed.
#[export] Instance memory_mirror_setup_request_codec_canonical : Canonical
    memory_mirror_setup_request_codec.
Proof. solve_canonical. Qed.
#[export] Instance memory_mirror_setup_request_codec_errors : ErrorsByRole
    memory_mirror_setup_request_codec.
Proof. solve_errors. Qed.

#[export] Instance memory_mirror_range_request_codec_lawful : Lawful
    memory_mirror_range_request_codec.
Proof. solve_lawful. Qed.
#[export] Instance memory_mirror_range_request_codec_canonical : Canonical
    memory_mirror_range_request_codec.
Proof. solve_canonical. Qed.
#[export] Instance memory_mirror_range_request_codec_errors : ErrorsByRole
    memory_mirror_range_request_codec.
Proof. solve_errors. Qed.

#[export] Instance memory_mirror_unmap_request_codec_lawful : Lawful
    memory_mirror_unmap_request_codec.
Proof. solve_lawful. Qed.
#[export] Instance memory_mirror_unmap_request_codec_canonical : Canonical
    memory_mirror_unmap_request_codec.
Proof. solve_canonical. Qed.
#[export] Instance memory_mirror_unmap_request_codec_errors : ErrorsByRole
    memory_mirror_unmap_request_codec.
Proof. solve_errors. Qed.

#[export] Instance shared_batch_setup_codec_lawful : Lawful
    shared_batch_setup_codec.
Proof. solve_lawful. Qed.
#[export] Instance shared_batch_setup_codec_canonical : Canonical
    shared_batch_setup_codec.
Proof. solve_canonical. Qed.
#[export] Instance shared_batch_setup_codec_errors : ErrorsByRole
    shared_batch_setup_codec.
Proof. solve_errors. Qed.

#[export] Instance command_stream_setup_codec_lawful : Lawful
    command_stream_setup_codec.
Proof. solve_lawful. Qed.
#[export] Instance command_stream_setup_codec_canonical : Canonical
    command_stream_setup_codec.
Proof. solve_canonical. Qed.
#[export] Instance command_stream_setup_codec_errors : ErrorsByRole
    command_stream_setup_codec.
Proof. solve_errors. Qed.

#[export] Instance descriptor_journal_setup_codec_lawful : Lawful
    descriptor_journal_setup_codec.
Proof. solve_lawful. Qed.
#[export] Instance descriptor_journal_setup_codec_canonical : Canonical
    descriptor_journal_setup_codec.
Proof. solve_canonical. Qed.
#[export] Instance descriptor_journal_setup_codec_errors : ErrorsByRole
    descriptor_journal_setup_codec.
Proof. solve_errors. Qed.

#[export] Instance descriptor_journal_flush_codec_lawful : Lawful
    descriptor_journal_flush_codec.
Proof. solve_lawful. Qed.
#[export] Instance descriptor_journal_flush_codec_canonical : Canonical
    descriptor_journal_flush_codec.
Proof. solve_canonical. Qed.
#[export] Instance descriptor_journal_flush_codec_errors : ErrorsByRole
    descriptor_journal_flush_codec.
Proof. solve_errors. Qed.

#[export] Instance shared_batch_execute_codec_lawful : Lawful
    shared_batch_execute_codec.
Proof. solve_lawful. Qed.
#[export] Instance shared_batch_execute_codec_canonical : Canonical
    shared_batch_execute_codec.
Proof. solve_canonical. Qed.
#[export] Instance shared_batch_execute_codec_errors : ErrorsByRole
    shared_batch_execute_codec.
Proof. solve_errors. Qed.

#[export] Instance selftest_codec_lawful : Lawful selftest_codec.
Proof. solve_lawful. Qed.
#[export] Instance selftest_codec_canonical : Canonical selftest_codec.
Proof. solve_canonical. Qed.
#[export] Instance selftest_codec_errors : ErrorsByRole selftest_codec.
Proof. solve_errors. Qed.

#[export] Instance activity_status_codec_lawful : Lawful
    activity_status_codec.
Proof. solve_lawful. Qed.
#[export] Instance activity_status_codec_canonical : Canonical
    activity_status_codec.
Proof. solve_canonical. Qed.
#[export] Instance activity_status_codec_errors : ErrorsByRole
    activity_status_codec.
Proof. solve_errors. Qed.

(** ** The last event the decoder refuses *)

(** C40: a status whose last event is the native-binder report (13, the
    highest lifecycle event) is encoded by the service and refused by every
    decoder. *)
Theorem binder_status_is_undecodable s out out' old :
  BVB_ACTIVITY_STATUS_SIZE <= blen out ->
  s.(as_last_event) = 13 ->
  bvb_protocol_encode_activity_status (Some out) (Some s) = Ok out' ->
  bvb_protocol_decode_activity_status (Some out') (Some old) = Err (- EPROTO).
Proof.
  intros Hlen Hev E. destruct s; cbn in *. subst. ok_path E.
  injection E as <-. cbn in Hlen. wire_read. cbn. by rewrite orb_true_r.
Qed.

Lemma binder_status_is_undecodable_witness :
  exists out',
    bvb_protocol_encode_activity_status (Some (blank 56))
      (Some (mk_bvb_activity_status 1 13 0 13 13 0 1080 2400 4242 7 9))
    = Ok out' /\
    bvb_protocol_decode_activity_status (Some out')
      (Some (mk_bvb_activity_status 0 0 0 0 0 0 0 0 0 0 0)) = Err (- EPROTO).
Proof.
  eexists. split; [vm_compute; reflexivity|].
  eapply (binder_status_is_undecodable
            (mk_bvb_activity_status 1 13 0 13 13 0 1080 2400 4242 7 9)
            (blank 56)); [vm_compute; discriminate|reflexivity|].
  vm_compute. reflexivity.
Defined.
