(* ===== verification/ProtocolRegistry.v ===== *)
(** * ProtocolRegistry: every fixed-size message of the control protocol

    Collects the codecs of the Protocol* files into lists of [message]s, each
    with a sample record, and states what the protocol promises for all of
    them at once: round trips, canonical encodings, error codes, sizes that
    fit a packet.  The header's validity test has theorems of its own. *)

From S2P Require Import Prelude Wire Abi Codec ProtocolBase ProtocolInstance ProtocolDevice ProtocolCommand ProtocolResource ProtocolSync ProtocolSetup.

Record message := mk_message {
  msg_type : Type;
  msg_codec : codec msg_type;
  msg_sample : msg_type
}.
Definition message_of {T} (c : codec T) (sample : T) : message :=
  mk_message T c sample.

(** Handshake, instance, physical-device, device and queue messages. *)
Definition session_messages : list message := [
  message_of hello_request_codec (mk_bvb_hello_request 1 1 1);
  message_of hello_response_codec (mk_bvb_hello_response 1 1 64 4096);
  message_of global_info_codec (mk_bvb_vulkan_global_info 1 1 1 1 1);
  message_of instance_create_request_codec
     (mk_bvb_vulkan_instance_create_request 1 1 1 1);
  message_of instance_create_response_codec
     (mk_bvb_vulkan_instance_create_response 0 (1 * 2 ^ 56 + 1));
  message_of instance_id_codec (1 * 2 ^ 56 + 1);
  message_of physical_device_id_codec (2 * 2 ^ 56 + 1);
  message_of format_query_codec (mk_bvb_vulkan_format_query (2 * 2 ^ 56 + 1)
     1);
  message_of format_properties_codec (mk_bvb_vulkan_format_properties 1 1 1);
  message_of format_properties_3_codec (mk_bvb_vulkan_format_properties_3 1 1
     1);
  message_of image_format_query_codec (mk_bvb_vulkan_image_format_query (2 * 2
     ^ 56 + 1) 1 1 1 1 1);
  message_of image_format_properties_codec
     (mk_bvb_vulkan_image_format_properties 1 1 1 1 1 1 1 1);
  message_of external_buffer_query_codec (mk_bvb_vulkan_external_buffer_query
     (2 * 2 ^ 56 + 1) 1 1 1);
  message_of external_buffer_properties_codec
     (mk_bvb_vulkan_external_buffer_properties 1 1 1);
  message_of external_semaphore_query_codec
     (mk_bvb_vulkan_external_semaphore_query (2 * 2 ^ 56 + 1) 1);
  message_of external_semaphore_properties_codec
     (mk_bvb_vulkan_external_semaphore_properties 1 1 1);
  message_of core_features_codec (mk_bvb_vulkan_core_features 1 1 1 1 1 1 1 1
     1 1 1 1 1 1 1 1 1 1 1 1 1 1 1 1 1);
  message_of device_extension_query_codec
     (mk_bvb_vulkan_device_extension_query (2 * 2 ^ 56 + 1) 1 1);
  message_of device_create_request_codec (mk_bvb_vulkan_device_create_request
     (2 * 2 ^ 56 + 1) 1 1 1 1 1 1);
  message_of device_id_codec (3 * 2 ^ 56 + 1);
  message_of device_queue_request_codec (mk_bvb_vulkan_device_queue_request (3
     * 2 ^ 56 + 1) 1 1);
  message_of queue_id_codec (4 * 2 ^ 56 + 1);
  message_of result_codec (-3)
].

(** Command-pool, command-buffer, submission, fence and semaphore messages. *)
Definition command_messages : list message := [
  message_of command_pool_create_request_codec
     (mk_bvb_vulkan_command_pool_create_request (3 * 2 ^ 56 + 1) 1 1);
  message_of command_pool_create_response_codec
     (mk_bvb_vulkan_command_pool_create_response 0 (10 * 2 ^ 56 + 1));
  message_of command_pool_id_codec (10 * 2 ^ 56 + 1);
  message_of command_pool_reset_request_codec
     (mk_bvb_vulkan_command_pool_reset_request (10 * 2 ^ 56 + 1) 1);
  message_of command_buffer_allocate_request_codec
     (mk_bvb_vulkan_command_buffer_allocate_request (10 * 2 ^ 56 + 1) 1 1);
  message_of command_buffer_allocate_response_codec
     (mk_bvb_vulkan_command_buffer_allocate_response 0 (11 * 2 ^ 56 + 1));
  message_of command_buffer_free_request_codec
     (mk_bvb_vulkan_command_buffer_free_request (10 * 2 ^ 56 + 1) (11 * 2 ^ 56
     + 1));
  message_of command_buffer_begin_request_codec
     (mk_bvb_vulkan_command_buffer_begin_request (11 * 2 ^ 56 + 1) 1);
  message_of command_buffer_id_codec (11 * 2 ^ 56 + 1);
  message_of queue_submit_command_request_codec
     (mk_bvb_vulkan_queue_submit_command_request (4 * 2 ^ 56 + 1) (11 * 2 ^ 56
     + 1));
  message_of command_buffer_fill_request_codec
     (mk_bvb_vulkan_command_buffer_fill_request (11 * 2 ^ 56 + 1) (19 * 2 ^ 56
     + 1) 1 64 1);
  message_of command_buffer_clear_color_image_request_codec
     (mk_bvb_vulkan_command_buffer_clear_color_image_request (11 * 2 ^ 56 + 1)
     (7 * 2 ^ 56 + 1));
  message_of memory_verify_fill_request_codec
     (mk_bvb_vulkan_memory_verify_fill_request (9 * 2 ^ 56 + 1) 1 64 1);
  message_of memory_verify_fill_response_codec
     (mk_bvb_vulkan_memory_verify_fill_response 1 1);
  message_of fence_create_request_codec (mk_bvb_vulkan_fence_create_request (3
     * 2 ^ 56 + 1) 1);
  message_of fence_wait_request_codec (mk_bvb_vulkan_fence_wait_request (18 *
     2 ^ 56 + 1) 1 1);
  message_of queue_submit_command_fence_request_codec
     (mk_bvb_vulkan_queue_submit_command_fence_request (4 * 2 ^ 56 + 1) (11 *
     2 ^ 56 + 1) (18 * 2 ^ 56 + 1));
  message_of semaphore_create_request_codec
     (mk_bvb_vulkan_semaphore_create_request (3 * 2 ^ 56 + 1) 1 1 1);
  message_of semaphore_counter_response_codec
     (mk_bvb_vulkan_semaphore_counter_response 1 1);
  message_of semaphore_signal_request_codec
     (mk_bvb_vulkan_semaphore_signal_request (3 * 2 ^ 56 + 1) (17 * 2 ^ 56 +
     1) 1)
].

(** Resource messages; [object_type] is the type the caller expects. *)
Definition resource_messages {VK : VulkanHeader} (object_type : Z) : list message := [
  message_of (object_create_response_codec object_type)
     (mk_bvb_vulkan_object_create_response 0 (object_type * 2 ^ 56 + 1));
  message_of query_pool_create_request_codec
     (mk_bvb_vulkan_query_pool_create_request (3 * 2 ^ 56 + 1) 0 2 1 0);
  message_of query_pool_results_request_codec
     (mk_bvb_vulkan_query_pool_results_request (25 * 2 ^ 56 + 1) 64 8 1 4 1);
  message_of query_pool_reset_request_codec
     (mk_bvb_vulkan_query_pool_reset_request (25 * 2 ^ 56 + 1) 1 1);
  message_of (object_id_codec object_type) (object_type * 2 ^ 56 + 1);
  message_of buffer_requirements_codec (mk_bvb_vulkan_buffer_requirements 64
     16 1);
  message_of buffer_requirements_2_request_codec
     (mk_bvb_vulkan_buffer_requirements_2_request (19 * 2 ^ 56 + 1) 1);
  message_of buffer_requirements_2_response_codec
     (mk_bvb_vulkan_buffer_requirements_2_response 64 16 1 1 1 1);
  message_of buffer_device_address_request_codec
     (mk_bvb_vulkan_buffer_device_address_request (19 * 2 ^ 56 + 1));
  message_of buffer_device_address_response_codec
     (mk_bvb_vulkan_buffer_device_address_response 1);
  message_of memory_allocate_request_codec
     (mk_bvb_vulkan_memory_allocate_request (3 * 2 ^ 56 + 1) 1 1);
  message_of memory_allocate_extended_request_codec
     (mk_bvb_vulkan_memory_allocate_extended_request (3 * 2 ^ 56 + 1) 1 (7 * 2
     ^ 56 + 1) 1 1 0 0);
  message_of buffer_bind_request_codec (mk_bvb_vulkan_buffer_bind_request (19
     * 2 ^ 56 + 1) (9 * 2 ^ 56 + 1) 1);
  message_of image_requirements_codec (mk_bvb_vulkan_image_requirements 64 16
     1);
  message_of image_requirements_2_request_codec
     (mk_bvb_vulkan_image_requirements_2_request (7 * 2 ^ 56 + 1) 1);
  message_of image_requirements_2_response_codec
     (mk_bvb_vulkan_image_requirements_2_response 64 16 1 1 1 1);
  message_of image_bind_request_codec (mk_bvb_vulkan_image_bind_request (7 * 2
     ^ 56 + 1) (9 * 2 ^ 56 + 1) 1);
  message_of image_view_create_request_codec
     (mk_bvb_vulkan_image_view_create_request (3 * 2 ^ 56 + 1) (7 * 2 ^ 56 +
     1) 0 1 1 1 1 1 1 1 1 1 1 1 0 0)
].

(** Import, swapchain, mirror, shared-region and status messages. *)
Definition setup_messages : list message := [
  message_of external_memory_import_request_codec
     (mk_bvb_external_memory_import_request 1 1 1);
  message_of swapchain_prepare_request_codec
     (mk_bvb_vulkan_swapchain_prepare_request (3 * 2 ^ 56 + 1) 1 1 1 1 3 0 1);
  message_of swapchain_acquire_request_codec
     (mk_bvb_vulkan_swapchain_acquire_request (3 * 2 ^ 56 + 1) (6 * 2 ^ 56 +
     1) 1 (17 * 2 ^ 56 + 1) (18 * 2 ^ 56 + 1));
  message_of swapchain_acquire_response_codec
     (mk_bvb_vulkan_swapchain_acquire_response 0 2);
  message_of swapchain_present_response_codec
     (mk_bvb_vulkan_swapchain_present_response 0 1);
  message_of memory_read_request_codec (mk_bvb_vulkan_memory_io_request (9 * 2
     ^ 56 + 1) 1 1);
  message_of memory_mirror_setup_request_codec
     (mk_bvb_vulkan_memory_mirror_setup_request (3 * 2 ^ 56 + 1) (9 * 2 ^ 56 +
     1) 1 1 1);
  message_of memory_mirror_range_request_codec
     (mk_bvb_vulkan_memory_mirror_range_request (3 * 2 ^ 56 + 1) (9 * 2 ^ 56 +
     1) 1 1 64);
  message_of memory_mirror_unmap_request_codec
     (mk_bvb_vulkan_memory_mirror_unmap_request (3 * 2 ^ 56 + 1) (9 * 2 ^ 56 +
     1) 1);
  message_of shared_batch_setup_codec (mk_bvb_shared_batch_setup 4096 1);
  message_of command_stream_setup_codec (mk_bvb_shared_batch_setup 134217728
     1);
  message_of descriptor_journal_setup_codec (mk_bvb_shared_batch_setup
     16777216 1);
  message_of descriptor_journal_flush_codec (mk_bvb_descriptor_journal_flush 1
     1 1 1);
  message_of shared_batch_execute_codec (mk_bvb_shared_batch_execute 1 1 64 1);
  message_of selftest_codec (mk_bvb_vulkan_selftest_result 1 1 1 1 1 1 1 1 1 1
     1 1);
  message_of activity_status_codec (mk_bvb_activity_status 1 1 1 1 1 1 1 1 1 1
     1)
].

(** The packet header, whose failures keep the code of [header_is_valid]. *)
Definition header_messages : list message := [
  message_of header_codec (mk_bvb_protocol_header 1 1 1 1 8 0)
].

(** The decoder accepts a usage of 0, which the encoder refuses. *)
Definition lenient_messages : list message := [
  message_of buffer_create_request_codec (mk_bvb_vulkan_buffer_create_request
     (3 * 2 ^ 56 + 1) 64 1 1)
].

(** The decoders answer [-EINVAL], the code of a caller mistake, to a
    received message whose reserved word is not zero. *)
Definition blaming_messages : list message := [
  message_of device_create_response_codec
     (mk_bvb_vulkan_device_create_response 0 (3 * 2 ^ 56 + 1));
  message_of external_sync_import_request_codec
     (mk_bvb_external_sync_import_request 64 1 16 1);
  message_of external_image_import_request_codec
     (mk_bvb_external_image_import_request 1 1 1 1 1 1)
].
(** Messages whose decoder accepts what the encoder writes, and no more. *)
Definition canonical_messages `{VulkanHeader} (object_type : Z) :=
  header_messages ++ blaming_messages ++ session_messages ++ command_messages
  ++ resource_messages object_type ++ setup_messages.

(** Messages whose failures follow the convention of [ErrorsByRole]. *)
Definition plain_messages `{VulkanHeader} (object_type : Z) : list message :=
  lenient_messages ++ session_messages ++ command_messages ++
  resource_messages object_type ++ setup_messages.

(** Every fixed-size message. *)
Definition messages `{VulkanHeader} (object_type : Z) : list message :=
  header_messages ++ blaming_messages ++ plain_messages object_type.

(** The sample is representable, is accepted by the encoder, and comes back
    from the decoder. *)
Definition sample_accepted (m : message) : Prop :=
  let c := m.(msg_codec) in
  c.(codec_rep) m.(msg_sample) = true /\
  exists wire,
    c.(encode) (Some (blank c.(codec_size))) (Some m.(msg_sample)) = Ok wire /\
    blen wire = c.(codec_size) /\
    c.(decode) (Some wire) (Some m.(msg_sample)) = Ok m.(msg_sample).

(** A packet header a client may send in front of message [m]. *)
Definition request_header (m : message) (opcode request_id : Z) :
    bvb_protocol_header :=
  {| hdr_version := BVB_PROTOCOL_VERSION;
     hdr_kind := BVB_PROTOCOL_REQUEST;
     hdr_opcode := opcode;
     hdr_request_id := request_id;
     hdr_payload_length := m.(msg_codec).(codec_size);
     hdr_status := 0 |}.

(** ** Every message obeys its contract *)

Ltac each_instance := repeat (constructor; [apply _|]); constructor.

(** Discharge one goal per entry of a literal list of messages. *)
Ltac each_entry t := repeat (constructor; [t|]); constructor.

(** The values <vulkan/vulkan_core.h> gives the constants. *)
Definition vulkan_1_4 : VulkanHeader := {|
  VK_COMPONENT_SWIZZLE_A := 6;
  VK_FORMAT_UNDEFINED := 0;
  VK_IMAGE_ASPECT_COLOR_BIT := 1;
  VK_IMAGE_ASPECT_DEPTH_BIT := 2;
  VK_IMAGE_ASPECT_METADATA_BIT := 8;
  VK_IMAGE_ASPECT_PLANE_0_BIT := 16;
  VK_IMAGE_ASPECT_PLANE_1_BIT := 32;
  VK_IMAGE_ASPECT_PLANE_2_BIT := 64;
  VK_IMAGE_ASPECT_STENCIL_BIT := 4;
  VK_IMAGE_USAGE_COLOR_ATTACHMENT_BIT := 16;
  VK_IMAGE_USAGE_DEPTH_STENCIL_ATTACHMENT_BIT := 32;
  VK_IMAGE_USAGE_INPUT_ATTACHMENT_BIT := 128;
  VK_IMAGE_USAGE_SAMPLED_BIT := 4;
  VK_IMAGE_USAGE_STORAGE_BIT := 8;
  VK_IMAGE_USAGE_TRANSFER_DST_BIT := 2;
  VK_IMAGE_USAGE_TRANSFER_SRC_BIT := 1;
  VK_IMAGE_USAGE_TRANSIENT_ATTACHMENT_BIT := 64;
  VK_IMAGE_VIEW_TYPE_CUBE_ARRAY := 6;
  VK_MAX_MEMORY_TYPES := 32;
  VK_MEMORY_ALLOCATE_DEVICE_ADDRESS_BIT := 2;
  VK_QUERY_TYPE_OCCLUSION := 0;
  VK_QUERY_TYPE_PIPELINE_STATISTICS := 1;
  VK_QUERY_TYPE_TIMESTAMP := 2;
  VK_QUERY_TYPE_TRANSFORM_FEEDBACK_STREAM_EXT := 1000028004;
  VK_SHARING_MODE_CONCURRENT := 1;
  VK_SHARING_MODE_EXCLUSIVE := 0
|}.

Lemma messages_lawful `{VulkanHeader} t :
  Forall (fun m => Lawful m.(msg_codec)) (messages t).
Proof. each_instance. Qed.

Lemma message_lawful `{VulkanHeader} t m :
  m ∈ messages t -> Lawful m.(msg_codec).
Proof. intros Hm. revert m Hm. apply (proj1 (list.Forall_forall _ _)), messages_lawful. Qed.

Lemma message_canonical `{VulkanHeader} t m :
  m ∈ canonical_messages t -> Canonical m.(msg_codec).
Proof.
  intros Hm. revert m Hm. apply (proj1 (list.Forall_forall _ _)). each_instance.
Qed.

Lemma message_errors `{VulkanHeader} t m :
  m ∈ plain_messages t -> ErrorsByRole m.(msg_codec).
Proof.
  intros Hm. revert m Hm. apply (proj1 (list.Forall_forall _ _)). each_instance.
Qed.

(** ** What the protocol promises *)

(** C1: for every fixed-size message, whatever the encoder writes into a
    buffer, the decoder reads back as the same record. *)
Theorem message_round_trip `{VulkanHeader} object_type m out v out' old :
  m ∈ messages object_type ->
  m.(msg_codec).(codec_size) <= blen out ->
  m.(msg_codec).(codec_rep) v = true ->
  m.(msg_codec).(encode) (Some out) (Some v) = Ok out' ->
  m.(msg_codec).(decode) (Some out') (Some old) = Ok v.
Proof.
  intros Hm. pose proof (message_lawful _ m Hm). apply decode_encode.
Qed.

Definition hello_message : message :=
  message_of hello_request_codec (mk_bvb_hello_request 1 1 1).

Lemma message_round_trip_witness :
  exists out', hello_request_codec.(encode) (Some (blank 8))
                 (Some (mk_bvb_hello_request 1 2 7)) = Ok out' /\
    hello_request_codec.(decode) (Some out')
                 (Some (mk_bvb_hello_request 0 0 0)) =
      Ok (mk_bvb_hello_request 1 2 7).
Proof.
  eexists. split; [vm_compute; reflexivity|].
  apply (message_round_trip (H := vulkan_1_4) 19 hello_message (blank 8)).
  - apply (list_elem_of_lookup_2 _ 5%nat). reflexivity.
  - vm_compute. discriminate.
  - vm_compute. reflexivity.
  - vm_compute. reflexivity.
Defined.

(** C2: a message of the record's length that the decoder accepts is exactly
    what the encoder writes for the record it yielded: no two wire forms of a
    record are accepted, and no padding or reserved bit passes unnoticed. *)
Theorem accepted_bytes_are_canonical `{VulkanHeader} object_type m inp out v
    old :
  m ∈ canonical_messages object_type ->
  blen inp = m.(msg_codec).(codec_size) ->
  blen out = m.(msg_codec).(codec_size) ->
  m.(msg_codec).(decode) (Some inp) (Some old) = Ok v ->
  m.(msg_codec).(encode) (Some out) (Some v) = Ok inp.
Proof.
  intros Hm. pose proof (message_canonical _ m Hm). apply encode_decode.
Qed.

Definition hello_bytes : bytes :=
  [x01; x00; x02; x00; x07; x00; x00; x00]%byte.

Lemma accepted_bytes_are_canonical_witness :
  hello_request_codec.(decode) (Some hello_bytes)
    (Some (mk_bvb_hello_request 0 0 0)) = Ok (mk_bvb_hello_request 1 2 7) /\
  hello_request_codec.(encode) (Some (blank 8))
    (Some (mk_bvb_hello_request 1 2 7)) = Ok hello_bytes.
Proof.
  split; [vm_compute; reflexivity|].
  apply (accepted_bytes_are_canonical (H := vulkan_1_4) 19 hello_message
           hello_bytes (blank 8) _ (mk_bvb_hello_request 0 0 0)).
  - apply (list_elem_of_lookup_2 _ 4%nat). reflexivity.
  - vm_compute. reflexivity.
  - vm_compute. reflexivity.
  - vm_compute. reflexivity.
Defined.

(** Two different records of a message kind never share their wire
    form. *)
Theorem encodings_are_injective `{VulkanHeader} object_type m out v w out' :
  m ∈ messages object_type ->
  m.(msg_codec).(codec_size) <= blen out ->
  m.(msg_codec).(codec_rep) v = true -> m.(msg_codec).(codec_rep) w = true ->
  m.(msg_codec).(encode) (Some out) (Some v) = Ok out' ->
  m.(msg_codec).(encode) (Some out) (Some w) = Ok out' -> v = w.
Proof.
  intros Hm. pose proof (message_lawful _ m Hm). apply encode_inj; assumption.
Qed.

Lemma encodings_are_injective_witness :
  mk_bvb_hello_request 1 2 7 = mk_bvb_hello_request 1 2 7.
Proof.
  apply (encodings_are_injective (H := vulkan_1_4) 19 hello_message (blank 8)
           _ _ hello_bytes).
  - apply (list_elem_of_lookup_2 _ 5%nat). reflexivity.
  - vm_compute. discriminate.
  - vm_compute. reflexivity.
  - vm_compute. reflexivity.
  - vm_compute. reflexivity.
  - vm_compute. reflexivity.
Defined.

(** An encoder writes inside its record only, and a decoder reads inside
    it only: bytes past [codec_size] neither change nor matter. *)
Theorem codecs_stay_in_their_record `{VulkanHeader} object_type m :
  m ∈ messages object_type ->
  (forall out v out',
     m.(msg_codec).(encode) (Some out) (Some v) = Ok out' ->
     blen out' = blen out /\
     agree out' out m.(msg_codec).(codec_size)
       (blen out - m.(msg_codec).(codec_size))) /\
  (forall a b old,
     m.(msg_codec).(codec_size) <= blen a ->
     m.(msg_codec).(codec_size) <= blen b ->
     agree a b 0 m.(msg_codec).(codec_size) ->
     m.(msg_codec).(decode) (Some a) (Some old) =
     m.(msg_codec).(decode) (Some b) (Some old)).
Proof.
  intros Hm. pose proof (message_lawful _ m Hm).
  split; [apply encode_frame | apply decode_extent].
Qed.

Lemma codecs_stay_in_their_record_witness :
  hello_request_codec.(decode) (Some (hello_bytes ++ [xff]%byte))
    (Some (mk_bvb_hello_request 0 0 0)) =
  hello_request_codec.(decode) (Some hello_bytes)
    (Some (mk_bvb_hello_request 0 0 0)).
Proof.
  assert (Hm : hello_message ∈ messages (H := vulkan_1_4) 19)
    by (apply (list_elem_of_lookup_2 _ 5%nat); reflexivity).
  apply (proj2 (codecs_stay_in_their_record 19 hello_message Hm)).
  - vm_compute. discriminate.
  - vm_compute. discriminate.
  - apply rd_bytes_rd8; [done|]. vm_compute. reflexivity.
Defined.

(** C36: null pointers are refused with [-EINVAL] by every encoder and
    decoder, and outside the listed exceptions a record the encoder refuses is
    [-EINVAL] while bytes the decoder refuses are [-EPROTO]. *)
Theorem failures_have_the_documented_code `{VulkanHeader} object_type m :
  m ∈ plain_messages object_type ->
  (forall out v, m.(msg_codec).(encode) None v = Err (- EINVAL) /\
                 m.(msg_codec).(encode) out None = Err (- EINVAL)) /\
  (forall inp old, m.(msg_codec).(decode) None old = Err (- EINVAL) /\
                   m.(msg_codec).(decode) inp None = Err (- EINVAL)) /\
  (forall out v e,
     m.(msg_codec).(encode) (Some out) (Some v) = Err e -> e = - EINVAL) /\
  (forall inp old e,
     m.(msg_codec).(decode) (Some inp) (Some old) = Err e -> e = - EPROTO).
Proof.
  intros Hm. pose proof (message_errors _ m Hm).
  assert (Hl : Lawful m.(msg_codec)).
  { apply (message_lawful object_type). unfold messages.
    rewrite !elem_of_app. auto. }
  split_and!.
  - split; apply encode_null; auto.
  - split; apply decode_null; auto.
  - apply encode_error.
  - apply decode_error.
Qed.

Lemma failures_have_the_documented_code_witness :
  hello_request_codec.(decode) (Some (blank 8))
    (Some (mk_bvb_hello_request 0 0 0)) = Err (- EPROTO).
Proof.
  assert (Hm : hello_message ∈ plain_messages (H := vulkan_1_4) 19)
    by (apply (list_elem_of_lookup_2 _ 1%nat); reflexivity).
  destruct (failures_have_the_documented_code 19 hello_message Hm)
    as (_ & _ & _ & Hd).
  destruct (hello_request_codec.(decode) (Some (blank 8))
              (Some (mk_bvb_hello_request 0 0 0))) as [v|e] eqn:E.
  - vm_compute in E. discriminate E.
  - f_equal. exact (Hd (blank 8) (mk_bvb_hello_request 0 0 0) e E).
Defined.

(** Each message has a record its encoder accepts and its decoder reads back. *)
Example sample_records_accepted :
  Forall sample_accepted (messages (H := vulkan_1_4) BVB_OBJECT_BUFFER).
Proof.
  repeat (constructor;
    [split; [vm_compute; reflexivity|];
     eexists; split; [vm_compute; reflexivity|]; split; vm_compute; reflexivity
    |]).
  constructor.
Qed.

(** ** The packet header *)

(** What [header_is_valid] asks, as a proposition. *)
Definition header_ok (h : bvb_protocol_header) : Prop :=
  h.(hdr_version) = BVB_PROTOCOL_VERSION /\
  (h.(hdr_kind) = BVB_PROTOCOL_REQUEST \/
   h.(hdr_kind) = BVB_PROTOCOL_RESPONSE) /\
  BVB_OPCODE_HELLO <= h.(hdr_opcode) <= BVB_OPCODE_LAST /\
  (h.(hdr_kind) = BVB_PROTOCOL_REQUEST -> h.(hdr_status) = 0).

(** The header test accepts exactly the headers of this protocol version,
    a known kind, an opcode in range, a request without a status and at most
    4096 payload bytes; a header wrong only from its length on is
    [-EMSGSIZE], every other one [-EPROTO]. *)
Theorem header_is_valid_spec h :
  (header_is_valid (Some h) = Ok tt <->
     header_ok h /\ h.(hdr_payload_length) <= BVB_PROTOCOL_MAX_PAYLOAD) /\
  (header_ok h -> BVB_PROTOCOL_MAX_PAYLOAD < h.(hdr_payload_length) ->
     header_is_valid (Some h) = Err (- EMSGSIZE)) /\
  (forall e, header_is_valid (Some h) = Err e ->
     e = - EPROTO \/
     (e = - EMSGSIZE /\ BVB_PROTOCOL_MAX_PAYLOAD < h.(hdr_payload_length))).
Proof.
  unfold header_is_valid, header_ok. destruct h; cbn.
  split_and!; [split|..].
  - intros E. ok_path E. lia.
  - intros E. settle_tests.
  - intros. settle_tests.
  - intros e E.
    repeat match type of E with
    | (if ?c then _ else _) = _ => let Hc := fresh "Hc" in destruct c eqn:Hc
    end; try discriminate E; injection E as <-; lia.
Qed.

Lemma header_is_valid_spec_witness :
  header_is_valid (Some (mk_bvb_protocol_header 1 1 9 3 4097 0)) =
  Err (- EMSGSIZE).
Proof.
  apply (proj1 (proj2 (header_is_valid_spec
           (mk_bvb_protocol_header 1 1 9 3 4097 0)))).
  - unfold header_ok; cbn. lia.
  - cbn. lia.
Defined.

(** Every fixed-size message fits a packet: the header announcing its
    payload is valid for any opcode of the protocol and survives its own
    encoding. *)
Theorem messages_fit_a_packet `{VulkanHeader} object_type m opcode request_id
    out :
  m ∈ messages object_type ->
  BVB_OPCODE_HELLO <= opcode <= BVB_OPCODE_LAST ->
  is_u32 request_id = true ->
  BVB_PROTOCOL_HEADER_SIZE <= blen out ->
  0 < m.(msg_codec).(codec_size) <= BVB_PROTOCOL_MAX_PAYLOAD /\
  exists out',
    bvb_protocol_encode_header (Some out)
      (Some (request_header m opcode request_id)) = Ok out' /\
    bvb_protocol_decode_header (Some out')
      (Some (request_header m 1 0)) = Ok (request_header m opcode request_id).
Proof.
  intros Hm Hop Hid Hout.
  assert (Hsize : 0 < m.(msg_codec).(codec_size) <= BVB_PROTOCOL_MAX_PAYLOAD).
  { revert m Hm. apply (proj1 (list.Forall_forall _ _)).
    repeat (constructor; [cbn; lia|]). constructor. }
  split; [done|].
  assert (Hv : exists out', header_codec.(encode) (Some out)
            (Some (request_header m opcode request_id)) = Ok out').
  { cbn. unfold header_is_valid. cbn.
    destruct (Z.ltb_spec opcode 1); [lia|].
    destruct (Z.ltb_spec 125 opcode); [lia|].
    destruct (Z.ltb_spec 4096 m.(msg_codec).(codec_size)); [lia|]. cbn. eauto. }
  destruct Hv as [out' Hv]. exists out'. split; [exact Hv|].
  apply (decode_encode (c := header_codec) out); [done| |exact Hv].
  cbn. unfold hdr_rep, is_u16, is_u32, is_i32 in *; cbn. lia.
Qed.

Lemma messages_fit_a_packet_witness :
  exists out',
    bvb_protocol_encode_header (Some (blank 24))
      (Some (request_header hello_message 1 5)) = Ok out' /\
    bvb_protocol_decode_header (Some out')
      (Some (request_header hello_message 1 0)) =
    Ok (request_header hello_message 1 5).
Proof.
  apply (messages_fit_a_packet (H := vulkan_1_4) 19 hello_message 1 5).
  - apply (list_elem_of_lookup_2 _ 5%nat). reflexivity.
  - lia.
  - vm_compute. reflexivity.
  - vm_compute. discriminate.
Defined.
