(* ===== verification/Handle.v ===== *)
(** * Handle: wire identifiers and the handle table

    Models src/handle.c and include/bvb/handle.h.  A wire identifier is an
    object type in the top byte and a serial number below it.  The table is
    an open-addressing hash table in an array the caller owns: linear probing
    from a mixed hash, removal by tombstones.  [wf] is its invariant,
    [table_map] the finite map it stands for, and the [spec_*] functions are
    what each operation promises of that map, errors included. *)

From stdpp Require Import gmap.
From S2P Require Import Prelude.

(** ** Wire identifiers *)

Definition BVB_OBJECT_INVALID : Z := 0.
Definition BVB_OBJECT_INSTANCE : Z := 1.
Definition BVB_OBJECT_QUERY_POOL : Z := 25.
Definition BVB_HANDLE_TYPE_SHIFT : Z := 56.
Definition BVB_HANDLE_SERIAL_MASK : Z := 0x00ffffffffffffff.

Definition object_type_is_valid (type : Z) : bool :=
  (BVB_OBJECT_INSTANCE <=? type) && (type <=? BVB_OBJECT_QUERY_POOL).

Definition bvb_handle_id (type serial : Z) : Z :=
  if negb (object_type_is_valid type) || (serial =? 0) ||
     (BVB_HANDLE_SERIAL_MASK <? serial)
  then 0
  else Z.lor (u64 (Z.shiftl type BVB_HANDLE_TYPE_SHIFT)) serial.

Definition bvb_handle_type (wire_id : Z) : Z :=
  let type := Z.shiftr wire_id BVB_HANDLE_TYPE_SHIFT in
  if object_type_is_valid type then type else BVB_OBJECT_INVALID.

Definition bvb_handle_serial (wire_id : Z) : Z :=
  Z.land wire_id BVB_HANDLE_SERIAL_MASK.

Definition bvb_handle_expect (wire_id expected_type : Z) : result unit :=
  fail_if negb (object_type_is_valid expected_type) ||
          negb (bvb_handle_type wire_id =? expected_type) ||
          (bvb_handle_serial wire_id =? 0) with (- EINVAL) ;;
  Ok tt.

(** ** The table *)

Definition BVB_HANDLE_EMPTY : Z := 0.
Definition BVB_HANDLE_OCCUPIED : Z := 1.
Definition BVB_HANDLE_TOMBSTONE : Z := 2.

Record bvb_handle_entry := mk_handle_entry {
  he_wire_id : Z;
  he_parent_id : Z;
  he_native_bits : Z;
  he_state : Z
}.

(** [ht_entries] is the pointer to the caller's array with its contents; the
    table is the only user of that array while it is registered. *)
Record bvb_handle_table := mk_handle_table {
  ht_entries : ptr (list bvb_handle_entry);
  ht_capacity : Z;
  ht_count : Z
}.

Definition zero_entry : bvb_handle_entry := mk_handle_entry 0 0 0 0.

Definition hash_wire_id (value capacity : Z) : Z :=
  let value := Z.lxor value (Z.shiftr value 30) in
  let value := u64 (value * 0xbf58476d1ce4e5b9) in
  let value := Z.lxor value (Z.shiftr value 27) in
  let value := u64 (value * 0x94d049bb133111eb) in
  let value := Z.lxor value (Z.shiftr value 31) in
  Z.land value (u64 (capacity - 1)).

Definition table_is_valid (table : ptr bvb_handle_table) : bool :=
  deref_bool table := table or false ;;
  match table.(ht_entries) with
  | None => false
  | Some _ =>
      (8 <=? table.(ht_capacity)) &&
      (Z.land table.(ht_capacity) (u64 (table.(ht_capacity) - 1)) =? 0) &&
      (table.(ht_count) <=? table.(ht_capacity))
  end.

(** The memory [entries] points to holds [capacity] entries. *)
Definition bvb_handle_table_init (table : ptr bvb_handle_table)
    (entries : ptr (list bvb_handle_entry)) (capacity : Z) :
    result bvb_handle_table :=
  deref _ := table or (- EINVAL) ;;
  deref _ := entries or (- EINVAL) ;;
  fail_if (capacity <? 8) ||
          negb (Z.land capacity (u64 (capacity - 1)) =? 0) with (- EINVAL) ;;
  Ok {| ht_entries := Some (replicate (Z.to_nat capacity) zero_entry);
        ht_capacity := capacity;
        ht_count := 0 |}.

(** [entries[index]]; [probe_in_range] below shows that the index of every
    read and write lies in the array. *)
Definition entry_at (entries : list bvb_handle_entry) (index : Z) :
    bvb_handle_entry :=
  default zero_entry (entries !! Z.to_nat index).

Definition next_index (index capacity : Z) : Z :=
  Z.land (u64 (index + 1)) (u64 (capacity - 1)).

Definition holds (entry : bvb_handle_entry) (wire_id : Z) : bool :=
  (entry.(he_state) =? BVB_HANDLE_OCCUPIED) &&
  (entry.(he_wire_id) =? wire_id).

#[global] Arguments hash_wire_id : simpl never.
#[global] Arguments next_index : simpl never.
#[global] Arguments table_is_valid : simpl never.
#[global] Arguments u64 : simpl never.

(** The loop of [bvb_handle_table_insert] with [remaining] probes to go: the
    slot it decides to write. *)
Fixpoint insert_probe (remaining : nat) (entries : list bvb_handle_entry)
    (capacity index tombstone wire_id : Z) : result Z :=
  match remaining with
  | O =>
      if negb (tombstone =? capacity) then Ok tombstone else Err (- ENOSPC)
  | S remaining =>
      let entry := entry_at entries index in
      fail_if holds entry wire_id with (- EEXIST) ;;
      let tombstone :=
        if (entry.(he_state) =? BVB_HANDLE_TOMBSTONE) &&
           (tombstone =? capacity)
        then index else tombstone in
      if entry.(he_state) =? BVB_HANDLE_EMPTY then
        Ok (if negb (tombstone =? capacity) then tombstone else index)
      else
        insert_probe remaining entries capacity (next_index index capacity)
          tombstone wire_id
  end.

(** The arguments [bvb_handle_table_insert] accepts. *)
Definition insert_args_valid (wire_id parent_id native_bits : Z) : bool :=
  negb ((bvb_handle_type wire_id =? BVB_OBJECT_INVALID) ||
        (bvb_handle_serial wire_id =? 0) || (native_bits =? 0)) &&
  negb (negb (parent_id =? 0) &&
        ((bvb_handle_type parent_id =? BVB_OBJECT_INVALID) ||
         (bvb_handle_serial parent_id =? 0))).

#[global] Arguments insert_args_valid : simpl never.

Definition bvb_handle_table_insert (table : ptr bvb_handle_table)
    (wire_id parent_id native_bits : Z) : result bvb_handle_table :=
  fail_if negb (table_is_valid table) with (- EINVAL) ;;
  deref table := table or (- EINVAL) ;;
  deref entries := table.(ht_entries) or (- EINVAL) ;;
  fail_if negb (insert_args_valid wire_id parent_id native_bits)
    with (- EINVAL) ;;
  fail_if table.(ht_count) =? table.(ht_capacity) with (- ENOSPC) ;;
  let capacity := table.(ht_capacity) in
  try slot := insert_probe (Z.to_nat capacity) entries capacity
                (hash_wire_id wire_id capacity) capacity wire_id ;;
  Ok {| ht_entries := Some (<[Z.to_nat slot :=
            {| he_wire_id := wire_id; he_parent_id := parent_id;
               he_native_bits := native_bits;
               he_state := BVB_HANDLE_OCCUPIED |}]> entries);
        ht_capacity := capacity;
        ht_count := u64 (table.(ht_count) + 1) |}.

(** The loop shared by [find_entry] and [bvb_handle_table_remove]. *)
Fixpoint find_probe (remaining : nat) (entries : list bvb_handle_entry)
    (capacity index wire_id : Z) : option Z :=
  match remaining with
  | O => None
  | S remaining =>
      let entry := entry_at entries index in
      if entry.(he_state) =? BVB_HANDLE_EMPTY then None
      else if holds entry wire_id then Some index
      else find_probe remaining entries capacity (next_index index capacity)
             wire_id
  end.

Definition find_entry (entries : list bvb_handle_entry)
    (capacity wire_id : Z) : option Z :=
  find_probe (Z.to_nat capacity) entries capacity
    (hash_wire_id wire_id capacity) wire_id.

(** [native_bits] is a required output, [parent_id] an optional one: both are
    returned, and [want_native] is [native_bits != NULL]. *)
Definition bvb_handle_table_lookup (table : ptr bvb_handle_table)
    (wire_id expected_type : Z) (want_native : bool) : result (Z * Z) :=
  fail_if negb (table_is_valid table) || negb want_native ||
          negb (is_ok (bvb_handle_expect wire_id expected_type))
    with (- EINVAL) ;;
  deref table := table or (- EINVAL) ;;
  deref entries := table.(ht_entries) or (- EINVAL) ;;
  deref index := find_entry entries table.(ht_capacity) wire_id
    or (- ENOENT) ;;
  let entry := entry_at entries index in
  Ok (entry.(he_parent_id), entry.(he_native_bits)).

Definition tombstone_entry : bvb_handle_entry :=
  mk_handle_entry 0 0 0 BVB_HANDLE_TOMBSTONE.

Definition bvb_handle_table_remove (table : ptr bvb_handle_table)
    (wire_id expected_type : Z) : result (bvb_handle_table * Z) :=
  fail_if negb (table_is_valid table) ||
          negb (is_ok (bvb_handle_expect wire_id expected_type))
    with (- EINVAL) ;;
  deref table := table or (- EINVAL) ;;
  deref entries := table.(ht_entries) or (- EINVAL) ;;
  deref index := find_entry entries table.(ht_capacity) wire_id
    or (- ENOENT) ;;
  Ok ({| ht_entries := Some (<[Z.to_nat index := tombstone_entry]> entries);
         ht_capacity := table.(ht_capacity);
         ht_count := u64 (table.(ht_count) - 1) |},
      (entry_at entries index).(he_native_bits)).

(** ** Identifier lemmas *)

Lemma bvb_handle_type_bits type serial :
  object_type_is_valid type = true ->
  0 <= serial <= BVB_HANDLE_SERIAL_MASK ->
  Z.lor (u64 (Z.shiftl type BVB_HANDLE_TYPE_SHIFT)) serial =
  serial + type * 2 ^ 56.
Proof.
  unfold object_type_is_valid, BVB_OBJECT_INSTANCE, BVB_OBJECT_QUERY_POOL,
    BVB_HANDLE_SERIAL_MASK, BVB_HANDLE_TYPE_SHIFT. intros Ht Hs.
  rewrite u64_small; [rewrite Z.lor_comm; apply lor_shiftl_add; lia|].
  apply is_u64_spec. rewrite Z.shiftl_mul_pow2 by lia. lia.
Qed.

Lemma handle_serial_mod w : bvb_handle_serial w = w mod 2 ^ 56.
Proof. apply (land_ones_mod w 56). lia. Qed.

(** ** Powers of two and probe positions *)

(** The capacities [table_is_valid] lets through. *)
Lemma pow2_mask c : 0 < c -> Z.land c (c - 1) = 0 -> c = 2 ^ Z.log2 c.
Proof.
  intros Hc Hland. pose proof (Z.log2_spec c Hc) as [Hlo Hhi].
  destruct (decide (c = 2 ^ Z.log2 c)) as [|Hne]; [done|exfalso].
  assert (Hlog : Z.log2 (c - 1) = Z.log2 c).
  { apply Z.log2_unique; [apply Z.log2_nonneg|]. lia. }
  assert (Z.testbit (Z.land c (c - 1)) (Z.log2 c) = true).
  { rewrite Z.land_spec. apply andb_true_iff. split; [by apply Z.bit_log2|].
    rewrite <- Hlog. apply Z.bit_log2.
    destruct (decide (c = 1)) as [->|]; [done|lia]. }
  rewrite Hland, Z.bits_0 in *. done.
Qed.

(** The [k]-th slot probed from [start]. *)
Definition pos (start capacity : Z) (k : nat) : Z :=
  (start + Z.of_nat k) mod capacity.

Section probing.
Context (capacity : Z).
Context (Hcap : 8 <= capacity) (Hcap64 : is_u64 capacity = true).
Context (Hpow : Z.land capacity (u64 (capacity - 1)) = 0).

Lemma mask_mod x : Z.land x (u64 (capacity - 1)) = x mod capacity.
Proof using Hcap Hcap64 Hpow.
  apply is_u64_spec in Hcap64. revert Hpow.
  rewrite u64_small by (apply is_u64_spec; lia). intros Hland.
  rewrite (pow2_mask capacity) by first [lia|done].
  apply land_ones_mod, Z.log2_nonneg.
Qed.

Lemma pos_range s k : 0 <= pos s capacity k < capacity.
Proof using Hcap. apply Z.mod_pos_bound. lia. Qed.

Lemma hash_pos w : hash_wire_id w capacity = pos (hash_wire_id w capacity) capacity 0.
Proof using Hcap Hcap64 Hpow.
  unfold pos, hash_wire_id. rewrite mask_mod, Z.add_0_r, Z.mod_mod; lia.
Qed.

Lemma next_pos s k :
  next_index (pos s capacity k) capacity = pos s capacity (S k).
Proof using Hcap Hcap64 Hpow.
  unfold next_index. rewrite mask_mod. pose proof (pos_range s k).
  rewrite u64_small; [|apply is_u64_spec; apply is_u64_spec in Hcap64].
  - unfold pos. rewrite Zplus_mod_idemp_l. f_equal. lia.
  - destruct (decide (pos s capacity k + 1 < capacity)); [lia|].
    split; [lia|]. enough (capacity <> 2 ^ 64 - 1 + 1) by lia. lia.
Qed.

(** Probing [capacity] times visits every slot. *)
Lemma pos_surj s i :
  0 <= i < capacity ->
  exists k, (k < Z.to_nat capacity)%nat /\ pos s capacity k = i.
Proof using Hcap.
  intros Hi. exists (Z.to_nat ((i - s) mod capacity)).
  pose proof (Z.mod_pos_bound (i - s) capacity ltac:(lia)). split; [lia|].
  unfold pos. rewrite Z2Nat.id by lia. rewrite Zplus_mod_idemp_r.
  replace (s + (i - s)) with i by lia. by apply Z.mod_small.
Qed.

(** The loops read and write inside the array. *)
Lemma probe_in_range s k (entries : list bvb_handle_entry) :
  Z.of_nat (length entries) = capacity ->
  (Z.to_nat (pos s capacity k) < length entries)%nat.
Proof using Hcap. pose proof (pos_range s k). lia. Qed.
End probing.

(** ** The map a table stands for *)

Definition live (entry : bvb_handle_entry) : option (Z * (Z * Z)) :=
  if entry.(he_state) =? BVB_HANDLE_OCCUPIED
  then Some (entry.(he_wire_id), (entry.(he_parent_id), entry.(he_native_bits)))
  else None.

Definition entries_map (entries : list bvb_handle_entry) : gmap Z (Z * Z) :=
  list_to_map (omap live entries).

Definition table_entries (t : bvb_handle_table) : list bvb_handle_entry :=
  default [] t.(ht_entries).

Definition table_map (t : bvb_handle_table) : gmap Z (Z * Z) :=
  entries_map (table_entries t).

(** No two occupied slots hold the same identifier. *)
Definition unique_keys (entries : list bvb_handle_entry) : Prop :=
  forall i j e f,
    entries !! i = Some e -> entries !! j = Some f ->
    he_state e = BVB_HANDLE_OCCUPIED -> he_state f = BVB_HANDLE_OCCUPIED ->
    he_wire_id e = he_wire_id f -> i = j.

(** Probing for the identifier in an occupied slot meets no empty slot before
    it. *)
Definition reachable_keys (entries : list bvb_handle_entry) (capacity : Z) :=
  forall i e,
    entries !! i = Some e -> he_state e = BVB_HANDLE_OCCUPIED ->
    exists k, pos (hash_wire_id (he_wire_id e) capacity) capacity k =
                Z.of_nat i /\ (k < Z.to_nat capacity)%nat /\
      forall j, (j < k)%nat ->
        he_state (entry_at entries
          (pos (hash_wire_id (he_wire_id e) capacity) capacity j))
        <> BVB_HANDLE_EMPTY.

Record wf (t : bvb_handle_table) : Prop := {
  wf_entries : exists entries, t.(ht_entries) = Some entries;
  wf_capacity : 8 <= t.(ht_capacity) /\ is_u64 t.(ht_capacity) = true /\
    Z.land t.(ht_capacity) (u64 (t.(ht_capacity) - 1)) = 0;
  wf_length : Z.of_nat (length (table_entries t)) = t.(ht_capacity);
  wf_count : t.(ht_count) = Z.of_nat (size (table_map t));
  wf_states : Forall (fun e => 0 <= he_state e <= 2) (table_entries t);
  wf_unique : unique_keys (table_entries t);
  wf_reach : reachable_keys (table_entries t) t.(ht_capacity)
}.

Lemma live_Some e w x :
  live e = Some (w, x) <->
  he_state e = BVB_HANDLE_OCCUPIED /\ he_wire_id e = w /\
  x = (he_parent_id e, he_native_bits e).
Proof.
  unfold live.
  destruct (Z.eqb_spec (he_state e) BVB_HANDLE_OCCUPIED); split;
    [by intros [= <- <-]|by intros (_ & <- & ->)|done|by intros (? & _)].
Qed.

Lemma live_keys_NoDup entries :
  unique_keys entries -> NoDup (omap live entries).*1.
Proof.
  induction entries as [|e l IH]; intros Hu; simpl; [constructor|].
  assert (Hl : unique_keys l).
  { intros i j f g Hi Hj Hf Hg Hw.
    by injection (Hu (S i) (S j) f g Hi Hj Hf Hg Hw). }
  destruct (live e) as [[w x]|] eqn:E; simpl; [|by apply IH].
  constructor; [|by apply IH].
  rewrite list_elem_of_fmap. intros ([w' y] & -> & Hin).
  apply list_elem_of_omap in Hin as (f & Hf & Hfl).
  apply list_elem_of_lookup_1 in Hf as [j Hj].
  apply live_Some in E as (He & Hw & _). apply live_Some in Hfl as (Hfs & Hw' & _).
  by pose proof (Hu O (S j) e f eq_refl Hj He Hfs ltac:(simpl in *; congruence)).
Qed.

Lemma entries_map_lookup entries w x :
  unique_keys entries ->
  entries_map entries !! w = Some x <->
  exists i e, entries !! i = Some e /\ he_state e = BVB_HANDLE_OCCUPIED /\
    he_wire_id e = w /\ x = (he_parent_id e, he_native_bits e).
Proof.
  intros Hu. unfold entries_map.
  rewrite <- elem_of_list_to_map by by apply live_keys_NoDup.
  rewrite list_elem_of_omap. setoid_rewrite live_Some. split.
  - intros (e & He & H). apply list_elem_of_lookup_1 in He as [i Hi]. eauto.
  - intros (i & e & Hi & H). eauto using list_elem_of_lookup_2.
Qed.

Lemma entries_map_None entries w :
  unique_keys entries ->
  entries_map entries !! w = None <->
  forall i e, entries !! i = Some e -> he_state e = BVB_HANDLE_OCCUPIED ->
    he_wire_id e <> w.
Proof.
  intros Hu. rewrite eq_None_not_Some. split.
  - intros H i e Hi He Hw. apply H. eexists.
    apply (entries_map_lookup _ _ _ Hu). eauto 10.
  - intros H [x Hx]. apply (entries_map_lookup _ _ _ Hu) in Hx
      as (i & e & Hi & He & Hw & _). by apply (H i e Hi He).
Qed.

(** A table with every slot occupied holds [capacity] entries. *)
Lemma entries_map_full entries :
  unique_keys entries ->
  (forall i e, entries !! i = Some e -> he_state e = BVB_HANDLE_OCCUPIED) ->
  size (entries_map entries) = length entries.
Proof.
  intros Hu Hall. unfold entries_map.
  rewrite map_size_list_to_map by by apply live_keys_NoDup.
  clear Hu. induction entries as [|e l IH]; [done|]. simpl.
  unfold live at 1. rewrite (Hall O e eq_refl). simpl.
  f_equal. apply IH. intros i f Hf. by apply (Hall (S i)).
Qed.

Lemma entries_map_size entries :
  unique_keys entries -> (size (entries_map entries) <= length entries)%nat.
Proof.
  intros Hu. unfold entries_map.
  rewrite map_size_list_to_map by by apply live_keys_NoDup.
  clear Hu. induction entries as [|e l IH]; [done|]. simpl.
  destruct (live e); [by apply le_n_S|by apply le_S].
Qed.

Lemma entry_at_lookup entries i :
  (Z.to_nat i < length entries)%nat ->
  entries !! Z.to_nat i = Some (entry_at entries i).
Proof.
  intros Hi. unfold entry_at.
  destruct (lookup_lt_is_Some_2 entries _ Hi) as [e He]. by rewrite He.
Qed.

Lemma entry_at_nat entries i e :
  entries !! i = Some e -> entry_at entries (Z.of_nat i) = e.
Proof. intros Hi. unfold entry_at. by rewrite Nat2Z.id, Hi. Qed.

Lemma holds_spec e w :
  holds e w = true <-> he_state e = BVB_HANDLE_OCCUPIED /\ he_wire_id e = w.
Proof. unfold holds. by rewrite andb_true_iff, !Z.eqb_eq. Qed.

(** ** What the probing loops find *)

Section finding.
Context (entries : list bvb_handle_entry) (capacity w : Z).
Context (Hcap : 8 <= capacity) (Hcap64 : is_u64 capacity = true).
Context (Hpow : Z.land capacity (u64 (capacity - 1)) = 0).
Context (Hlen : Z.of_nat (length entries) = capacity).
Context (Hstates : Forall (fun e => 0 <= he_state e <= 2) entries).
Context (Hunique : unique_keys entries).
Context (Hreach : reachable_keys entries capacity).

#[local] Abbreviation slot := (pos (hash_wire_id w capacity) capacity).
#[local] Abbreviation state k := (he_state (entry_at entries (slot k))).

Lemma slot_lookup k :
  entries !! Z.to_nat (slot k) = Some (entry_at entries (slot k)).
Proof using Hcap Hlen. by apply entry_at_lookup, probe_in_range. Qed.

(** The slot holding [w], if any, is reached by probing through slots that
    are not empty. *)
Lemma held_reachable k :
  holds (entry_at entries (slot k)) w = true ->
  exists k', slot k' = slot k /\ (k' < Z.to_nat capacity)%nat /\
    forall j, (j < k')%nat -> state j <> BVB_HANDLE_EMPTY.
Proof using Hcap Hlen Hreach.
  intros [Hs Hw]%holds_spec.
  destruct (Hreach _ _ (slot_lookup k) Hs) as (k' & Hk & Hlt & Hj).
  rewrite Hw in Hk, Hj. exists k'. rewrite Hk. pose proof (pos_range capacity Hcap (hash_wire_id w capacity) k).
  split; [lia|]. done.
Qed.

Lemma held_unique k j :
  holds (entry_at entries (slot k)) w = true ->
  holds (entry_at entries (slot j)) w = true -> slot k = slot j.
Proof using Hcap Hlen Hunique.
  intros [Hs Hw]%holds_spec [Hs' Hw']%holds_spec.
  pose proof (Hunique _ _ _ _ (slot_lookup k) (slot_lookup j) Hs Hs' ltac:(congruence)).
  pose proof (pos_range capacity Hcap (hash_wire_id w capacity) k).
  pose proof (pos_range capacity Hcap (hash_wire_id w capacity) j). lia.
Qed.

(** [w] is absent as soon as the slots up to an empty one, or all of them,
    do not hold it. *)
Lemma absent n :
  (n <= Z.to_nat capacity)%nat ->
  (forall j, (j < n)%nat -> holds (entry_at entries (slot j)) w = false) ->
  n = Z.to_nat capacity \/ state n = BVB_HANDLE_EMPTY ->
  entries_map entries !! w = None.
Proof using Hcap Hcap64 Hpow Hlen Hunique Hreach.
  intros Hn Hno Hend. apply (entries_map_None _ _ Hunique).
  intros i e Hi Hs Hw.
  destruct (Hreach i e Hi Hs) as (k & Hk & Hlt & Hj). rewrite Hw in Hk, Hj.
  assert (Hheld : holds (entry_at entries (slot k)) w = true).
  { apply holds_spec. by rewrite Hk, (entry_at_nat _ _ _ Hi). }
  destruct (decide (k < n)%nat) as [Hkn|Hkn]; [by rewrite Hno in Hheld by done|].
  destruct Hend as [->|Hempty]; [lia|].
  destruct (decide (k = n)) as [->|Hne].
  - apply holds_spec in Hheld as [Hst _]. by rewrite Hempty in Hst.
  - by apply (Hj n ltac:(lia)).
Qed.

Lemma present k :
  holds (entry_at entries (slot k)) w = true ->
  entries_map entries !! w =
    Some (he_parent_id (entry_at entries (slot k)),
          he_native_bits (entry_at entries (slot k))).
Proof using Hcap Hlen Hunique.
  intros [Hs Hw]%holds_spec. apply (entries_map_lookup _ _ _ Hunique).
  eauto 10 using slot_lookup.
Qed.

Lemma find_probe_spec remaining n :
  (n + remaining = Z.to_nat capacity)%nat ->
  (forall j, (j < n)%nat -> holds (entry_at entries (slot j)) w = false) ->
  match find_probe remaining entries capacity (slot n) w with
  | Some i => exists k, i = slot k /\ holds (entry_at entries i) w = true
  | None => entries_map entries !! w = None
  end.
Proof using Hcap Hcap64 Hpow Hlen Hunique Hreach.
  revert n. induction remaining as [|r IH]; intros n Hn Hno; simpl.
  { apply (absent n); [lia|done|left; lia]. }
  destruct (Z.eqb_spec (state n) BVB_HANDLE_EMPTY) as [He|He].
  { apply (absent n); [lia|done|by right]. }
  destruct (holds (entry_at entries (slot n)) w) eqn:Eh; [by eauto|].
  rewrite next_pos by done. apply IH; [lia|]. intros j Hj.
  destruct (decide (j = n)) as [->|]; [done|apply Hno; lia].
Qed.

Lemma find_entry_spec :
  match find_entry entries capacity w with
  | Some i => exists k, i = slot k /\ holds (entry_at entries i) w = true
  | None => entries_map entries !! w = None
  end.
Proof using Hcap Hcap64 Hpow Hlen Hunique Hreach.
  pose proof (find_probe_spec (Z.to_nat capacity) 0 ltac:(lia)) as H.
  rewrite <- (hash_pos capacity) in H by done. apply H. intros j Hj. lia.
Qed.

(** What the insertion loop has seen before probe [n]: no empty slot, not
    [w], and [tombstone] is the first tombstone if there was one. *)
Record seen (n : nat) (tombstone : Z) : Prop := {
  seen_held j : (j < n)%nat -> holds (entry_at entries (slot j)) w = false;
  seen_nonempty j : (j < n)%nat -> state j <> BVB_HANDLE_EMPTY;
  seen_tombstone :
    (tombstone = capacity /\
     forall j, (j < n)%nat -> state j <> BVB_HANDLE_TOMBSTONE) \/
    exists k, (k < n)%nat /\ tombstone = slot k /\
              state k = BVB_HANDLE_TOMBSTONE
}.

(** A slot an insertion may use: free, and reached through slots that are
    not empty. *)
Definition insertable (i : Z) : Prop :=
  exists k, i = slot k /\ (k < Z.to_nat capacity)%nat /\
    state k <> BVB_HANDLE_OCCUPIED /\
    forall j, (j < k)%nat -> state j <> BVB_HANDLE_EMPTY.

Definition all_occupied : Prop :=
  forall i e, entries !! i = Some e -> he_state e = BVB_HANDLE_OCCUPIED.

Lemma seen_insertable n tombstone :
  (n <= Z.to_nat capacity)%nat -> seen n tombstone ->
  tombstone <> capacity -> insertable tombstone.
Proof using Hcap.
  intros Hn Hs Ht. destruct (seen_tombstone _ _ Hs) as [[? _]|(k & Hk & -> & Hst)];
    [done|].
  exists k. split_and!; [done|lia|by rewrite Hst|].
  intros j Hj. apply (seen_nonempty _ _ Hs). lia.
Qed.

Lemma seen_full :
  seen (Z.to_nat capacity) capacity -> all_occupied.
Proof using Hcap Hlen Hstates.
  intros Hs i e Hi. pose proof (lookup_lt_Some _ _ _ Hi) as Hlt.
  destruct (pos_surj capacity Hcap (hash_wire_id w capacity) (Z.of_nat i)
              ltac:(lia)) as (k & Hk & Hslot).
  pose proof (seen_nonempty _ _ Hs k Hk) as Hne.
  destruct (seen_tombstone _ _ Hs) as [[_ Hnt]|(j & _ & Hj & _)].
  - pose proof (Hnt k Hk) as Hnt'. rewrite Hslot in Hne, Hnt'.
    rewrite (entry_at_nat _ _ _ Hi) in Hne, Hnt'.
    pose proof (Forall_lookup_1 _ _ _ _ Hstates Hi) as Hr.
    unfold BVB_HANDLE_EMPTY, BVB_HANDLE_TOMBSTONE, BVB_HANDLE_OCCUPIED in *.
    simpl in Hr. lia.
  - pose proof (pos_range capacity Hcap (hash_wire_id w capacity) j). lia.
Qed.

Lemma insert_probe_spec remaining n tombstone :
  (n + remaining = Z.to_nat capacity)%nat -> seen n tombstone ->
  match insert_probe remaining entries capacity (slot n) tombstone w with
  | Ok i => insertable i /\ entries_map entries !! w = None
  | Err e =>
      (e = - EEXIST /\ is_Some (entries_map entries !! w)) \/
      (e = - ENOSPC /\ all_occupied)
  end.
Proof using Hcap Hcap64 Hpow Hlen Hstates Hunique Hreach.
  revert n tombstone. induction remaining as [|r IH]; intros n t Hn Hs; simpl.
  { replace n with (Z.to_nat capacity) in * by lia.
    destruct (Z.eqb_spec t capacity) as [->|Ht]; simpl.
    - right. split; [done|]. by apply seen_full.
    - split; [by apply (seen_insertable (Z.to_nat capacity))|].
      apply (absent (Z.to_nat capacity)); [lia|apply Hs|by left]. }
  destruct (holds (entry_at entries (slot n)) w) eqn:Eh.
  { left. split; [done|]. rewrite (present n) by done. eauto. }
  set (t' := if (state n =? BVB_HANDLE_TOMBSTONE) && (t =? capacity)
             then slot n else t).
  assert (Hs' : state n <> BVB_HANDLE_EMPTY -> seen (S n) t').
  { intros Hne. split.
    - intros j Hj. destruct (decide (j = n)) as [->|]; [done|].
      apply (seen_held _ _ Hs). lia.
    - intros j Hj. destruct (decide (j = n)) as [->|]; [done|].
      apply (seen_nonempty _ _ Hs). lia.
    - subst t'.
      destruct (Z.eqb_spec (state n) BVB_HANDLE_TOMBSTONE) as [Hst|Hst];
        destruct (Z.eqb_spec t capacity) as [->|Ht]; simpl.
      + right. eauto with lia.
      + destruct (seen_tombstone _ _ Hs) as [[? _]|(k & Hk & H)]; [done|].
        right. eauto with lia.
      + destruct (seen_tombstone _ _ Hs) as [[_ H]|(k & Hk & H)].
        * left. split; [done|]. intros j Hj.
          destruct (decide (j = n)) as [->|]; [done|]. apply H. lia.
        * right. eauto with lia.
      + destruct (seen_tombstone _ _ Hs) as [[? _]|(k & Hk & H)]; [done|].
        right. eauto with lia. }
  destruct (Z.eqb_spec (state n) BVB_HANDLE_EMPTY) as [He|He].
  - split; [|by apply (absent n); [lia|apply Hs|right]].
    assert (t' = t) as -> by (subst t'; by rewrite He).
    destruct (Z.eqb_spec t capacity) as [->|Ht]; simpl.
    + exists n. split_and!; [done|lia|by rewrite He|apply Hs].
    + apply (seen_insertable n); [lia|done|done].
  - rewrite next_pos by done. apply IH; [lia|]. by apply Hs'.
Qed.
End finding.

(** ** Writing a slot *)

(** Occupying a free slot with a new identifier. *)
Lemma unique_occupy entries i e new :
  unique_keys entries -> entries !! i = Some e ->
  he_state e <> BVB_HANDLE_OCCUPIED ->
  entries_map entries !! he_wire_id new = None ->
  unique_keys (<[i:=new]> entries).
Proof.
  intros Hu Hi He Hnone.
  pose proof (proj1 (entries_map_None _ _ Hu) Hnone) as Hno.
  intros j k f g Hj Hk Hf Hg Hw.
  apply list_lookup_insert_Some in Hj as [(<- & <- & _)|[Hij Hj]];
    apply list_lookup_insert_Some in Hk as [(<- & <- & _)|[Hik Hk]].
  - done.
  - by apply (Hno _ _ Hk) in Hg.
  - by apply (Hno _ _ Hj) in Hf.
  - by apply (Hu _ _ _ _ Hj Hk).
Qed.

Lemma entries_map_occupy entries i e new :
  unique_keys entries -> entries !! i = Some e ->
  he_state e <> BVB_HANDLE_OCCUPIED ->
  he_state new = BVB_HANDLE_OCCUPIED ->
  entries_map entries !! he_wire_id new = None ->
  entries_map (<[i:=new]> entries) =
    <[he_wire_id new := (he_parent_id new, he_native_bits new)]>
      (entries_map entries).
Proof.
  intros Hu Hi He Hnew Hnone. pose proof (lookup_lt_Some _ _ _ Hi) as Hlt.
  pose proof (unique_occupy _ _ _ _ Hu Hi He Hnone) as Hu'.
  apply map_eq. intros v. apply option_eq. intros x.
  rewrite (entries_map_lookup _ _ _ Hu'), lookup_insert_Some,
    (entries_map_lookup _ _ _ Hu).
  pose proof (proj1 (entries_map_None _ _ Hu) Hnone) as Hno. split.
  - intros (j & f & Hj & Hf & Hw & Hx).
    apply list_lookup_insert_Some in Hj as [(<- & <- & _)|[Hij Hj]]; [by left|].
    right. split; [|by eauto 10]. intros Heq. apply (Hno _ _ Hj Hf). congruence.
  - intros [[Hw Hx]|[Hne (j & f & Hj & Hf & Hw & Hx)]].
    + exists i, new. by rewrite list_lookup_insert_eq.
    + exists j, f. rewrite list_lookup_insert_ne; [done|]. intros ->.
      by rewrite Hj in Hi; injection Hi as ->.
Qed.

(** Clearing the occupied slot of an identifier. *)
Lemma unique_clear entries i new :
  unique_keys entries -> he_state new <> BVB_HANDLE_OCCUPIED ->
  unique_keys (<[i:=new]> entries).
Proof.
  intros Hu Hn j k f g Hj Hk Hf Hg Hw.
  apply list_lookup_insert_Some in Hj as [(<- & <- & _)|[Hij Hj]]; [done|].
  apply list_lookup_insert_Some in Hk as [(<- & <- & _)|[Hik Hk]]; [done|].
  by apply (Hu _ _ _ _ Hj Hk).
Qed.

Lemma entries_map_clear entries i e new :
  unique_keys entries -> entries !! i = Some e ->
  he_state e = BVB_HANDLE_OCCUPIED -> he_state new <> BVB_HANDLE_OCCUPIED ->
  entries_map (<[i:=new]> entries) = delete (he_wire_id e) (entries_map entries).
Proof.
  intros Hu Hi He Hn. pose proof (unique_clear _ i _ Hu Hn) as Hu'.
  apply map_eq. intros v. apply option_eq. intros x.
  rewrite (entries_map_lookup _ _ _ Hu'), lookup_delete_Some,
    (entries_map_lookup _ _ _ Hu). split.
  - intros (j & f & Hj & Hf & Hw & Hx).
    apply list_lookup_insert_Some in Hj as [(<- & <- & _)|[Hij Hj]]; [done|].
    split; [|by eauto 10]. intros Heq. apply Hij.
    by apply (Hu _ _ _ _ Hi Hj); [..|congruence].
  - intros [Hne (j & f & Hj & Hf & Hw & Hx)].
    exists j, f. rewrite list_lookup_insert_ne; [done|]. intros ->.
    rewrite Hj in Hi; injection Hi as ->. done.
Qed.

Lemma entry_at_insert entries i new j :
  (i < length entries)%nat -> 0 <= j ->
  entry_at (<[i:=new]> entries) j =
    if decide (Z.to_nat j = i) then new else entry_at entries j.
Proof.
  intros Hi Hj. unfold entry_at. case_decide as E.
  - subst. by rewrite list_lookup_insert_eq.
  - by rewrite list_lookup_insert_ne.
Qed.

(** A slot that is not empty afterwards keeps every identifier reachable. *)
Lemma reachable_write entries capacity i new :
  8 <= capacity ->
  reachable_keys entries capacity -> (i < length entries)%nat ->
  he_state new <> BVB_HANDLE_EMPTY ->
  (he_state new = BVB_HANDLE_OCCUPIED ->
     exists k, pos (hash_wire_id (he_wire_id new) capacity) capacity k =
                 Z.of_nat i /\ (k < Z.to_nat capacity)%nat /\
       forall j, (j < k)%nat ->
         he_state (entry_at entries
           (pos (hash_wire_id (he_wire_id new) capacity) capacity j))
         <> BVB_HANDLE_EMPTY) ->
  reachable_keys (<[i:=new]> entries) capacity.
Proof.
  intros Hcap Hr Hi Hne Hocc j e Hj He.
  assert (Hkeep : forall w k,
    he_state (entry_at entries (pos (hash_wire_id w capacity) capacity k))
      <> BVB_HANDLE_EMPTY ->
    he_state (entry_at (<[i:=new]> entries)
      (pos (hash_wire_id w capacity) capacity k)) <> BVB_HANDLE_EMPTY).
  { intros w k H. rewrite entry_at_insert by (done || by apply pos_range).
    by case_decide. }
  apply list_lookup_insert_Some in Hj as [(<- & <- & _)|[Hij Hj]].
  - destruct (Hocc He) as (k & Hk & Hlt & Hb). eauto 10.
  - destruct (Hr _ _ Hj He) as (k & Hk & Hlt & Hb). eauto 10.
Qed.

(** ** What the table promises *)

Definition spec_insert (capacity : Z) (m : gmap Z (Z * Z))
    (wire_id parent_id native_bits : Z) : result (gmap Z (Z * Z)) :=
  fail_if negb (insert_args_valid wire_id parent_id native_bits)
    with (- EINVAL) ;;
  fail_if Z.of_nat (size m) =? capacity with (- ENOSPC) ;;
  match m !! wire_id with
  | Some _ => Err (- EEXIST)
  | None => Ok (<[wire_id := (parent_id, native_bits)]> m)
  end.

Definition spec_lookup (m : gmap Z (Z * Z)) (wire_id expected_type : Z) :
    result (Z * Z) :=
  fail_if negb (is_ok (bvb_handle_expect wire_id expected_type))
    with (- EINVAL) ;;
  deref x := m !! wire_id or (- ENOENT) ;;
  Ok x.

Definition spec_remove (m : gmap Z (Z * Z)) (wire_id expected_type : Z) :
    result (gmap Z (Z * Z) * Z) :=
  fail_if negb (is_ok (bvb_handle_expect wire_id expected_type))
    with (- EINVAL) ;;
  deref x := m !! wire_id or (- ENOENT) ;;
  Ok (delete wire_id m, x.2).

Lemma wf_valid t : wf t -> table_is_valid (Some t) = true.
Proof.
  intros [[es He] (Hc & _ & Hp) Hlen Hcnt _ Hu _]. unfold table_is_valid.
  rewrite He, Hp. assert (ht_count t <= ht_capacity t); [|lia].
  rewrite Hcnt, <- Hlen. by apply inj_le, entries_map_size.
Qed.

(** Everything the operations need of a well-formed table, as hypotheses on
    its entries and capacity. *)
Ltac run :=
  cbn [negb orb andb is_ok fst snd from_option id ht_entries ht_capacity
       ht_count].
Ltac open_wf H :=
  let es := fresh "entries" in
  let He := fresh "Hentries" in
  pose proof (wf_valid _ H) as Hvalid;
  destruct H as [[es He] (Hcap & Hcap64 & Hpow) Hlen Hcount Hstates Hu Hreach];
  unfold table_map, table_entries in *; rewrite He in *;
  cbn [from_option id] in *.

Lemma insert_step t w p n :
  wf t ->
  match bvb_handle_table_insert (Some t) w p n with
  | Ok t' => wf t' /\ ht_capacity t' = ht_capacity t /\
      spec_insert (ht_capacity t) (table_map t) w p n = Ok (table_map t')
  | Err e => spec_insert (ht_capacity t) (table_map t) w p n = Err e
  end.
Proof.
  intros Hwf. open_wf Hwf. unfold bvb_handle_table_insert, spec_insert.
  rewrite Hvalid, Hentries. run.
  destruct (insert_args_valid w p n) eqn:Hargs; run; [|done].
  rewrite <- Hcount. destruct (Z.eqb_spec (ht_count t) (ht_capacity t)) as [|Hfree]; [done|].
  pose proof (insert_probe_spec entries (ht_capacity t) w Hcap Hcap64 Hpow Hlen
    Hstates Hu Hreach (Z.to_nat (ht_capacity t)) 0 (ht_capacity t)
    ltac:(lia)) as Hprobe.
  rewrite <- (hash_pos (ht_capacity t)) in Hprobe by done.
  destruct insert_probe as [i|e]; run.
  - destruct Hprobe as [(k & -> & Hk & Hst & Hbefore) Hnone].
    { by split; [intros j ?; lia|intros j ?; lia|left; split; [|intros j ?; lia]]. }
    set (new := mk_handle_entry w p n BVB_HANDLE_OCCUPIED).
    pose proof (slot_lookup entries (ht_capacity t) w Hcap Hlen k) as Hi.
    pose proof (pos_range (ht_capacity t) Hcap (hash_wire_id w (ht_capacity t)) k).
    pose proof (entries_map_occupy entries _ _ new Hu Hi Hst eq_refl Hnone) as Hmap.
    rewrite Hnone, Hmap. split; [|done].
    pose proof (entries_map_size entries Hu) as Hsize.
    constructor; unfold table_map, table_entries; run; [by eauto|done|..].
    + by rewrite length_insert.
    + rewrite Hmap, map_size_insert_None by done. apply is_u64_spec in Hcap64.
      rewrite u64_small; [lia|]. apply is_u64_spec. lia.
    + by apply Forall_insert.
    + by apply (unique_occupy _ _ _ _ Hu Hi Hst).
    + apply reachable_write; [done|done|by apply lookup_lt_Some in Hi|done|].
      intros _. exists k. split_and!; [simpl; lia|done|done].
  - destruct Hprobe as [[-> [x Hx]]|[-> Hall]].
    { by split; [intros j ?; lia|intros j ?; lia|left; split; [|intros j ?; lia]]. }
    + by rewrite Hx.
    + pose proof (entries_map_full _ Hu Hall). lia.
Qed.

Lemma find_step t w :
  wf t ->
  match find_entry (table_entries t) (ht_capacity t) w with
  | Some i => 0 <= i < ht_capacity t /\
      let e := entry_at (table_entries t) i in
      table_entries t !! Z.to_nat i = Some e /\
      he_state e = BVB_HANDLE_OCCUPIED /\ he_wire_id e = w /\
      table_map t !! w = Some (he_parent_id e, he_native_bits e)
  | None => table_map t !! w = None
  end.
Proof.
  intros Hwf. open_wf Hwf.
  pose proof (find_entry_spec entries (ht_capacity t) w Hcap Hcap64 Hpow Hlen
                Hu Hreach) as Hf.
  destruct find_entry as [i|]; [|done]. destruct Hf as (k & -> & Hh).
  pose proof (proj1 (holds_spec _ _) Hh) as [Hs Hid].
  split_and!; [by apply pos_range..| |done|done|].
  - by apply slot_lookup.
  - by apply present.
Qed.

Lemma remove_step t w ty :
  wf t ->
  match bvb_handle_table_remove (Some t) w ty with
  | Ok (t', bits) => wf t' /\ ht_capacity t' = ht_capacity t /\
      spec_remove (table_map t) w ty = Ok (table_map t', bits)
  | Err e => spec_remove (table_map t) w ty = Err e
  end.
Proof.
  intros Hwf. pose proof (find_step t w Hwf) as Hfind. open_wf Hwf.
  unfold bvb_handle_table_remove, spec_remove. rewrite Hvalid, Hentries. run.
  destruct (is_ok (bvb_handle_expect w ty)); run; [|done].
  destruct find_entry as [i|]; [|by rewrite Hfind].
  destruct Hfind as (Hi & Hlook & Hs & Hid & Hm). rewrite Hm. run.
  pose proof (entries_map_clear entries _ _ tombstone_entry Hu Hlook Hs
                ltac:(done)) as Hmap. rewrite Hid in Hmap.
  rewrite Hmap. split; [|done].
  pose proof (entries_map_size entries Hu) as Hsize.
  constructor; unfold table_map, table_entries; run; [by eauto|done|..].
  - by rewrite length_insert.
  - assert (Hpos : size (entries_map entries) <> 0%nat).
    { intros H0. apply map_size_empty_inv in H0. rewrite H0 in Hm. done. }
    rewrite Hmap, map_size_delete, Hm. simpl. apply is_u64_spec in Hcap64.
    rewrite u64_small; [lia|]. apply is_u64_spec. lia.
  - by apply Forall_insert.
  - by apply unique_clear.
  - by apply reachable_write; [..|by apply lookup_lt_Some in Hlook|done|].
Qed.

Lemma lookup_step t w ty :
  wf t ->
  bvb_handle_table_lookup (Some t) w ty true = spec_lookup (table_map t) w ty.
Proof.
  intros Hwf. pose proof (find_step t w Hwf) as Hfind. open_wf Hwf.
  unfold bvb_handle_table_lookup, spec_lookup. rewrite Hvalid, Hentries. run.
  destruct (is_ok (bvb_handle_expect w ty)); run; [|done].
  destruct find_entry as [i|]; [|by rewrite Hfind].
  by destruct Hfind as (Hi & Hlook & Hs & Hid & ->).
Qed.

Lemma init_wf t entries capacity t' :
  is_u64 capacity = true ->
  bvb_handle_table_init (Some t) (Some entries) capacity = Ok t' ->
  wf t' /\ ht_capacity t' = capacity /\ table_map t' = ∅.
Proof.
  intros H64 H. unfold bvb_handle_table_init in H. cbn beta iota in H.
  destruct (Z.ltb_spec capacity 8) as [|Hcap]; [done|]. simpl in H.
  destruct (Z.eqb_spec (Z.land capacity (u64 (capacity - 1))) 0) as [Hpow|];
    [|done]. simpl in H. injection H as <-.
  assert (Hzero : forall i e, replicate (Z.to_nat capacity) zero_entry !! i =
            Some e -> e = zero_entry).
  { intros i e He. by apply lookup_replicate in He as [-> _]. }
  assert (Hmap : entries_map (replicate (Z.to_nat capacity) zero_entry) = ∅).
  { unfold entries_map. induction (Z.to_nat capacity) as [|k IH]; [done|].
    apply IH. intros i e. apply (Hzero (S i)). }
  split; [|done].
  constructor; unfold table_map, table_entries; run; [by eauto|done|..].
  - rewrite length_replicate. lia.
  - by rewrite Hmap.
  - apply Forall_lookup_2. intros i e He. by apply Hzero in He as ->.
  - intros i j e f He _ Hs. by apply Hzero in He as ->.
  - intros i e He Hs. by apply Hzero in He as ->.
Qed.

(** ** Sequences of operations *)

Inductive handle_op : Type :=
| Insert (wire_id parent_id native_bits : Z)
| Remove (wire_id expected_type : Z).

(** A failing call leaves the table as it was. *)
Definition apply_op (t : bvb_handle_table) (op : handle_op) :
    bvb_handle_table :=
  match op with
  | Insert w p n =>
      match bvb_handle_table_insert (Some t) w p n with
      | Ok t' => t' | Err _ => t end
  | Remove w ty =>
      match bvb_handle_table_remove (Some t) w ty with
      | Ok (t', _) => t' | Err _ => t end
  end.

Definition spec_op (capacity : Z) (m : gmap Z (Z * Z)) (op : handle_op) :
    gmap Z (Z * Z) :=
  match op with
  | Insert w p n =>
      match spec_insert capacity m w p n with Ok m' => m' | Err _ => m end
  | Remove w ty =>
      match spec_remove m w ty with Ok (m', _) => m' | Err _ => m end
  end.

Lemma apply_op_step t op :
  wf t -> wf (apply_op t op) /\ ht_capacity (apply_op t op) = ht_capacity t /\
    table_map (apply_op t op) = spec_op (ht_capacity t) (table_map t) op.
Proof.
  intros Hwf. destruct op as [w p n|w ty]; cbn [apply_op spec_op].
  - pose proof (insert_step t w p n Hwf) as H.
    destruct bvb_handle_table_insert as [t'|e]; [|by rewrite H].
    destruct H as (? & ? & ->). done.
  - pose proof (remove_step t w ty Hwf) as H.
    destruct bvb_handle_table_remove as [[t' b]|e]; [|by rewrite H].
    destruct H as (? & ? & ->). done.
Qed.

Lemma run_ops ops t :
  wf t -> wf (fold_left apply_op ops t) /\
    table_map (fold_left apply_op ops t) =
      fold_left (spec_op (ht_capacity t)) ops (table_map t).
Proof.
  revert t. induction ops as [|op ops IH]; intros t Hwf; [done|]. simpl.
  destruct (apply_op_step t op Hwf) as (Hwf' & Hcap & Hm).
  rewrite <- Hm, <- Hcap. by apply IH.
Qed.

(** ** Properties *)

(** On a well-formed table an insertion does what the finite map says:
    refused arguments, a full table and an identifier already present are
    [-EINVAL], [-ENOSPC] and [-EEXIST]; otherwise the identifier is added, the
    table stays well formed, and tombstones never make it report a full table
    early. *)
Theorem handle_insert_refines t wire_id parent_id native_bits :
  wf t ->
  match bvb_handle_table_insert (Some t) wire_id parent_id native_bits with
  | Ok t' => wf t' /\ ht_capacity t' = ht_capacity t /\
      spec_insert (ht_capacity t) (table_map t) wire_id parent_id native_bits =
        Ok (table_map t')
  | Err e =>
      spec_insert (ht_capacity t) (table_map t) wire_id parent_id native_bits =
        Err e
  end.
Proof. apply insert_step. Qed.

(** A removal deletes exactly its identifier, returns the native bits
    stored with it, keeps the table well formed, and reports [-ENOENT] exactly
    for absent identifiers and [-EINVAL] for ones of another type. *)
Theorem handle_remove_refines t wire_id expected_type :
  wf t ->
  match bvb_handle_table_remove (Some t) wire_id expected_type with
  | Ok (t', native_bits) => wf t' /\ ht_capacity t' = ht_capacity t /\
      spec_remove (table_map t) wire_id expected_type =
        Ok (table_map t', native_bits)
  | Err e => spec_remove (table_map t) wire_id expected_type = Err e
  end.
Proof. apply remove_step. Qed.

(** C21: after any sequence of insertions and removals on a freshly
    initialised table, the table is well formed, stands for the finite map the
    sequence builds, and every lookup answers from that map. *)
Theorem handle_table_refines_map t entries capacity t0 ops :
  is_u64 capacity = true ->
  bvb_handle_table_init (Some t) (Some entries) capacity = Ok t0 ->
  let t' := fold_left apply_op ops t0 in
  let m := fold_left (spec_op capacity) ops ∅ in
  wf t' /\ table_map t' = m /\
  forall wire_id expected_type,
    bvb_handle_table_lookup (Some t') wire_id expected_type true =
    spec_lookup m wire_id expected_type.
Proof.
  intros H64 Hinit t' m. destruct (init_wf _ _ _ _ H64 Hinit) as (Hwf & Hcap & Hm).
  destruct (run_ops ops t0 Hwf) as [Hwf' Hmap]. rewrite Hcap, Hm in Hmap.
  split_and!; [done|done|]. intros w ty. subst m. rewrite <- Hmap.
  by apply lookup_step.
Qed.

(** C33: identifiers round trip: a valid type and serial are read back from
    the identifier built of them, it passes the test for that type and no
    other, and an argument out of range yields 0, which no test accepts. *)
Theorem handle_id_round_trip type serial :
  let w := bvb_handle_id type serial in
  (object_type_is_valid type = true /\ 0 < serial <= BVB_HANDLE_SERIAL_MASK ->
     bvb_handle_type w = type /\ bvb_handle_serial w = serial /\
     is_u64 w = true /\
     forall ty, bvb_handle_expect w ty =
       if ty =? type then Ok tt else Err (- EINVAL)) /\
  (0 <= serial ->
   object_type_is_valid type = false \/ serial = 0 \/
   BVB_HANDLE_SERIAL_MASK < serial -> w = 0) /\
  (forall ty, bvb_handle_expect 0 ty = Err (- EINVAL)).
Proof.
  cbn zeta. split_and!.
  - intros [Ht Hs].
    assert (Hw : bvb_handle_id type serial = serial + type * 2 ^ 56).
    { unfold bvb_handle_id. rewrite Ht. cbn [negb orb].
      destruct (Z.eqb_spec serial 0); [lia|].
      destruct (Z.ltb_spec BVB_HANDLE_SERIAL_MASK serial); [lia|].
      cbn [orb]. apply bvb_handle_type_bits; [done|lia]. }
    unfold BVB_HANDLE_SERIAL_MASK in Hs.
    assert (Hty : bvb_handle_type (bvb_handle_id type serial) = type).
    { unfold bvb_handle_type. rewrite Hw.
      rewrite Z.shiftr_div_pow2 by done. unfold BVB_HANDLE_TYPE_SHIFT.
      rewrite Z.div_add, Z.div_small, Z.add_0_l by lia. by rewrite Ht. }
    assert (Hser : bvb_handle_serial (bvb_handle_id type serial) = serial).
    { rewrite handle_serial_mod, Hw, Z.mod_add, Z.mod_small; lia. }
    split_and!; [done|done| |].
    + rewrite Hw. apply is_u64_spec. unfold object_type_is_valid,
        BVB_OBJECT_INSTANCE, BVB_OBJECT_QUERY_POOL in Ht. lia.
    + intros ty. unfold bvb_handle_expect. rewrite Hty, Hser.
      rewrite (Z.eqb_sym ty). destruct (Z.eqb_spec type ty) as [<-|]; cbn [negb].
      * rewrite Ht. cbn [negb orb]. destruct (Z.eqb_spec serial 0); [lia|done].
      * by rewrite orb_true_r.
  - intros Hs H. unfold bvb_handle_id.
    destruct H as [-> | [-> | H]]; [done|by rewrite orb_true_r|].
    apply Z.ltb_lt in H. rewrite H. by rewrite orb_true_r.
  - intros ty. unfold bvb_handle_expect.
    change (bvb_handle_serial 0 =? 0) with true. by rewrite !orb_true_r.
Qed.

(** ** Concrete tables *)

Definition table8 : bvb_handle_table :=
  mk_handle_table (Some (replicate 8 zero_entry)) 8 0.
Definition instance_id : Z := bvb_handle_id BVB_OBJECT_INSTANCE 1.
Definition table8_instance : bvb_handle_table :=
  apply_op table8 (Insert instance_id 0 4096).

Lemma table8_wf : wf table8.
Proof.
  refine (proj1 (init_wf table8 [] 8 table8 _ _)); vm_compute; reflexivity.
Qed.

Lemma handle_insert_refines_witness :
  exists t', bvb_handle_table_insert (Some table8) instance_id 0 4096 = Ok t' /\
    spec_insert 8 (table_map table8) instance_id 0 4096 = Ok (table_map t').
Proof.
  pose proof (handle_insert_refines table8 instance_id 0 4096 table8_wf) as H.
  destruct (bvb_handle_table_insert (Some table8) instance_id 0 4096)
    as [t'|e] eqn:E; [|vm_compute in E; discriminate E].
  exists t'. split; [reflexivity|]. apply H.
Defined.

Lemma handle_remove_refines_witness :
  exists t', bvb_handle_table_remove (Some table8_instance) instance_id
               BVB_OBJECT_INSTANCE = Ok (t', 4096) /\ table_map t' = ∅.
Proof.
  assert (Hwf : wf table8_instance) by (apply apply_op_step, table8_wf).
  pose proof (handle_remove_refines table8_instance instance_id
                BVB_OBJECT_INSTANCE Hwf) as H.
  destruct (bvb_handle_table_remove (Some table8_instance) instance_id
              BVB_OBJECT_INSTANCE) as [[t' b]|e] eqn:E;
    [|vm_compute in E; discriminate E].
  destruct H as (_ & _ & H).
  assert (Hm : spec_remove (table_map table8_instance) instance_id
            BVB_OBJECT_INSTANCE = Ok (∅, 4096)) by (vm_compute; reflexivity).
  rewrite Hm in H. injection H as H1 H2. subst b.
  exists t'. split; [reflexivity|symmetry; exact H1].
Defined.

Lemma handle_table_refines_map_witness :
  bvb_handle_table_lookup
    (Some (fold_left apply_op
       [Insert instance_id 0 4096; Remove instance_id BVB_OBJECT_INSTANCE;
        Insert instance_id 0 8192] table8))
    instance_id BVB_OBJECT_INSTANCE true = Ok (0, 8192).
Proof.
  destruct (handle_table_refines_map table8 [] 8 table8
    [Insert instance_id 0 4096; Remove instance_id BVB_OBJECT_INSTANCE;
     Insert instance_id 0 8192]) as (_ & _ & H);
    [vm_compute; reflexivity | vm_compute; reflexivity |].
  rewrite H. vm_compute. reflexivity.
Defined.

Lemma handle_id_round_trip_witness :
  bvb_handle_expect (bvb_handle_id 3 77) 3 = Ok tt /\
  bvb_handle_expect (bvb_handle_id 3 77) 4 = Err (- EINVAL).
Proof.
  destruct (proj1 (handle_id_round_trip 3 77)) as (_ & _ & _ & H).
  - vm_compute. repeat split; discriminate.
  - by rewrite !H.
Defined.
