(* ===== verification/Lifecycle.v ===== *)
(** * Lifecycle: Activity lifecycle records, acknowledgements and tokens

    Models src/lifecycle.c and include/bvb/lifecycle.h.  The static [put_*]
    and [get_*] helpers of that file have the bodies of the ones of
    src/protocol.c, so the models of Wire.v stand for both. *)

From S2P Require Import Prelude Wire Abi Codec.

(** ** Records *)

Record bvb_lifecycle_record := mk_bvb_lifecycle_record {
  lr_event : Z;
  lr_sequence : Z;
  lr_width : Z;
  lr_height : Z;
  lr_activity_pid : Z;
  lr_monotonic_ns : Z;
  lr_token : bytes
}.
Definition lr_rep (r : bvb_lifecycle_record) : bool :=
  is_u16 r.(lr_event) && is_u32 r.(lr_sequence) && is_u32 r.(lr_width) &&
  is_u32 r.(lr_height) && is_u32 r.(lr_activity_pid) &&
  is_u64 r.(lr_monotonic_ns) &&
  (blen r.(lr_token) =? BVB_LIFECYCLE_TOKEN_SIZE).

Record bvb_lifecycle_ack := mk_bvb_lifecycle_ack {
  la_sequence : Z;
  la_status : Z
}.
Definition la_rep (a : bvb_lifecycle_ack) : bool :=
  is_u32 a.(la_sequence) && is_i32 a.(la_status).

Definition record_is_valid (record : ptr bvb_lifecycle_record) : result unit :=
  deref record := record or (- EINVAL) ;;
  fail_if (record.(lr_event) <? BVB_LIFECYCLE_EVENT_CREATED) ||
          (BVB_LIFECYCLE_EVENT_NATIVE_BINDER_STATUS <? record.(lr_event)) ||
          (record.(lr_sequence) =? 0) || (record.(lr_activity_pid) =? 0) ||
          (record.(lr_monotonic_ns) =? 0) with (- EINVAL) ;;
  fail_if ((record.(lr_event) =? BVB_LIFECYCLE_EVENT_WINDOW_CREATED) ||
           (record.(lr_event) =? BVB_LIFECYCLE_EVENT_RENDERER_READY) ||
           (record.(lr_event) =? BVB_LIFECYCLE_EVENT_RENDERER_FAILED)) &&
          ((record.(lr_width) =? 0) || (record.(lr_height) =? 0))
    with (- EINVAL) ;;
  Ok tt.

Definition bvb_lifecycle_encode_record (output : ptr bytes)
    (record : ptr bvb_lifecycle_record) : result bytes :=
  deref output := output or (- EINVAL) ;;
  try _ := record_is_valid record ;;
  deref record := record or (- EINVAL) ;;
  let output := bvb_wire_put_u32 output 0 BVB_LIFECYCLE_MAGIC in
  let output := bvb_wire_put_u16 output 4 BVB_LIFECYCLE_VERSION in
  let output := bvb_wire_put_u16 output 6 record.(lr_event) in
  let output := bvb_wire_put_u32 output 8 record.(lr_sequence) in
  let output := bvb_wire_put_u32 output 12 record.(lr_width) in
  let output := bvb_wire_put_u32 output 16 record.(lr_height) in
  let output := bvb_wire_put_u32 output 20 record.(lr_activity_pid) in
  let output := bvb_wire_put_u64 output 24 record.(lr_monotonic_ns) in
  let output := wr_bytes output 32
    (rd_bytes record.(lr_token) 0 BVB_LIFECYCLE_TOKEN_SIZE) in
  Ok output.

Definition bvb_lifecycle_decode_record (input : ptr bytes)
    (record : ptr bvb_lifecycle_record) : result bvb_lifecycle_record :=
  deref input := input or (- EINVAL) ;;
  deref record := record or (- EINVAL) ;;
  fail_if negb (bvb_wire_get_u32 input 0 =? BVB_LIFECYCLE_MAGIC) ||
          negb (bvb_wire_get_u16 input 4 =? BVB_LIFECYCLE_VERSION)
    with (- EPROTO) ;;
  let decoded := {|
    lr_event := bvb_wire_get_u16 input 6;
    lr_sequence := bvb_wire_get_u32 input 8;
    lr_width := bvb_wire_get_u32 input 12;
    lr_height := bvb_wire_get_u32 input 16;
    lr_activity_pid := bvb_wire_get_u32 input 20;
    lr_monotonic_ns := bvb_wire_get_u64 input 24;
    lr_token := rd_bytes input 32 BVB_LIFECYCLE_TOKEN_SIZE |} in
  call _ := record_is_valid (Some decoded) or (- EPROTO) ;;
  Ok decoded.

Definition bvb_lifecycle_encode_ack (output : ptr bytes)
    (ack : ptr bvb_lifecycle_ack) : result bytes :=
  deref output := output or (- EINVAL) ;;
  deref ack := ack or (- EINVAL) ;;
  fail_if (ack.(la_sequence) =? 0) || (0 <? ack.(la_status))
    with (- EINVAL) ;;
  let output := bvb_wire_put_u32 output 0 BVB_LIFECYCLE_MAGIC in
  let output := bvb_wire_put_u16 output 4 BVB_LIFECYCLE_VERSION in
  let output := bvb_wire_put_u16 output 6 0 in
  let output := bvb_wire_put_u32 output 8 ack.(la_sequence) in
  let output := bvb_wire_put_u32 output 12 (u32 ack.(la_status)) in
  Ok output.

Definition bvb_lifecycle_decode_ack (input : ptr bytes)
    (ack : ptr bvb_lifecycle_ack) : result bvb_lifecycle_ack :=
  deref input := input or (- EINVAL) ;;
  deref ack := ack or (- EINVAL) ;;
  fail_if negb (bvb_wire_get_u32 input 0 =? BVB_LIFECYCLE_MAGIC) ||
          negb (bvb_wire_get_u16 input 4 =? BVB_LIFECYCLE_VERSION) ||
          negb (bvb_wire_get_u16 input 6 =? 0) with (- EPROTO) ;;
  let decoded := {|
    la_sequence := bvb_wire_get_u32 input 8;
    la_status := i32 (bvb_wire_get_u32 input 12) |} in
  fail_if (decoded.(la_sequence) =? 0) || (0 <? decoded.(la_status))
    with (- EPROTO) ;;
  Ok decoded.

(** ** Tokens *)

(** A [char]: the code of a character, signed or not, is compared with ASCII
    letters and digits only. *)
Definition hex_nibble (value : Z) : Z :=
  if (48 <=? value) && (value <=? 57) then value - 48
  else if (97 <=? value) && (value <=? 102) then value - 97 + 10
  else if (65 <=? value) && (value <=? 70) then value - 65 + 10
  else - 1.

(** The loop from [index], with [remaining] bytes of the token to go. *)
Fixpoint token_loop (remaining : nat) (input output : bytes) (index : Z) :
    Z * bytes :=
  match remaining with
  | O => (0, output)
  | S remaining =>
      let high := hex_nibble (rd8 input (index * 2)) in
      let low := hex_nibble (rd8 input (index * 2 + 1)) in
      if (high <? 0) || (low <? 0)
      then (- EINVAL, memset0 output 0 BVB_LIFECYCLE_TOKEN_SIZE)
      else token_loop remaining input
             (wr8 output index (Z.lor (u8 (Z.shiftl high 4)) (u8 low)))
             (index + 1)
  end.

(** [input] holds the characters before the terminating NUL, so its length
    is [strlen(input)].  Returns the code and the token buffer afterwards. *)
Definition bvb_lifecycle_token_from_hex (input output : ptr bytes) :
    Z * ptr bytes :=
  match input, output with
  | Some text, Some buffer =>
      if negb (blen text =? BVB_LIFECYCLE_TOKEN_HEX_SIZE)
      then (- EINVAL, Some buffer)
      else
        let '(code, buffer) :=
          token_loop (Z.to_nat BVB_LIFECYCLE_TOKEN_SIZE) text buffer 0 in
        (code, Some buffer)
  | _, _ => (- EINVAL, output)
  end.

(** ** The codecs *)

Definition lifecycle_record_codec : codec bvb_lifecycle_record :=
  mk_codec BVB_LIFECYCLE_RECORD_SIZE lr_rep bvb_lifecycle_encode_record
    bvb_lifecycle_decode_record.
Definition lifecycle_ack_codec : codec bvb_lifecycle_ack :=
  mk_codec BVB_LIFECYCLE_ACK_SIZE la_rep bvb_lifecycle_encode_ack
    bvb_lifecycle_decode_ack.

#[global] Arguments record_is_valid : simpl never.

(** The casts of the status field are the signed accessors of Wire.v. *)
Ltac signed_status :=
  unfold lifecycle_ack_codec, bvb_lifecycle_encode_ack, bvb_lifecycle_decode_ack;
  change (bvb_wire_put_u32 ?b 12 (u32 ?v)) with (bvb_wire_put_i32 b 12 v);
  change (i32 (bvb_wire_get_u32 ?b 12)) with (bvb_wire_get_i32 b 12).

#[export] Instance lifecycle_ack_lawful : Lawful lifecycle_ack_codec.
Proof. signed_status. solve_lawful. Qed.
#[export] Instance lifecycle_ack_canonical : Canonical lifecycle_ack_codec.
Proof. signed_status. solve_canonical. Qed.
#[export] Instance lifecycle_ack_errors : ErrorsByRole lifecycle_ack_codec.
Proof. solve_errors. Qed.



Lemma blen_rd_bytes_le t i n : 0 <= n -> blen (rd_bytes t i n) <= n.
Proof.
  intros. unfold rd_bytes, blen. rewrite length_take. lia.
Qed.

#[export] Instance lifecycle_record_lawful : Lawful lifecycle_record_codec.
Proof.
  constructor; [| solve_decode_null | | | |].
  - intros out v [-> | ->]; [done|]. by destruct out.
  - intros out v out' H. cbn in H. ok_path H. injection H as <-.
    pose proof (blen_rd_bytes_le v.(lr_token) 0 32 ltac:(lia)).
    pose proof (blen_nonneg (rd_bytes v.(lr_token) 0 32)).
    split; [by autorewrite with blen|]. cbn. wire_frame.
  - intros out v out' old Hlen Hrep H. cbn in Hlen, Hrep, H |- *.
    ok_path H. injection H as <-. open_rep Hrep. split_tests.
    assert (Htok : blen v.(lr_token) = 32) by lia.
    rewrite !(rd_bytes_all _ 32 Htok). wire_read. cbn.
    rewrite rd_bytes_wr_bytes by (autorewrite with blen; lia).
    destruct v as [ev sq w h pid ns tok]. cbn in *. by rewrite Ht.
  - intros inp v old Hl H. cbn in Hl, H. ok_path H. injection H as <-. cbn.
    open_rep_goal. rewrite !get_u16_range, !get_u32_range, get_u64_range.
    rewrite blen_rd_bytes by lia. done.
  - intros a b old Hla Hlb Ha. cbn in Hla, Hlb, Ha |- *. extent_read Ha.
    rewrite (rd_bytes_agree a b 32 32); [done|lia..|].
    eapply agree_sub; [exact Ha|lia|lia].
Qed.

#[export] Instance lifecycle_record_canonical : Canonical lifecycle_record_codec.
Proof.
  intros inp out v old Hi Ho H. cbn in Hi, Ho, H |- *.
  ok_path H. injection H as <-. cbn. split_tests. rewrite Ht0.
  rewrite rd_bytes_all by (apply blen_rd_bytes; lia).
  apply (f_equal Ok), agree_eq; autorewrite with blen; [lia|]. rewrite Ho.
  apply (agree_step _ _ 0 32 64).
  - eapply agree_trans; [apply agree_wr_bytes|].
    + rewrite blen_rd_bytes by lia. unfold disjoint. lia.
    + agree_words.
  - intros k Hk. rewrite rd8_wr_bytes_in; autorewrite with blen;
      rewrite ?blen_rd_bytes by lia; [|lia..].
    rewrite rd_bytes_lookup by lia. f_equal. lia.
Qed.

#[export] Instance lifecycle_record_errors : ErrorsByRole lifecycle_record_codec.
Proof.
  constructor.
  - intros out v e H. cbn in H.
    destruct (record_is_valid (Some v)) as [|e'] eqn:E; [done|].
    injection H as <-. unfold record_is_valid in E. err_path E.
  - intros inp old e H. cbn in H. err_path H.
Qed.

(** ** Tokens *)

Lemma hex_nibble_range v : - 1 <= hex_nibble v < 16.
Proof. unfold hex_nibble. repeat (case_match; [lia|]). lia. Qed.

(** Byte [i] of the token the text spells, when both digits are valid. *)
Definition token_byte (text : bytes) (i : Z) : Z :=
  hex_nibble (rd8 text (i * 2)) * 16 + hex_nibble (rd8 text (i * 2 + 1)).
Definition digits_valid (text : bytes) (i : Z) : Prop :=
  0 <= hex_nibble (rd8 text (i * 2)) /\ 0 <= hex_nibble (rd8 text (i * 2 + 1)).

Lemma nibbles_join h l :
  0 <= h < 16 -> 0 <= l < 16 -> u8 (Z.lor (u8 (Z.shiftl h 4)) (u8 l)) = h * 16 + l.
Proof.
  intros Hh Hl. rewrite Z.shiftl_mul_pow2 by done.
  rewrite (u8_small (h * 2 ^ 4)), (u8_small l) by (apply is_u8_spec; lia).
  rewrite Z.lor_comm, <- Z.shiftl_mul_pow2 by done.
  rewrite lor_shiftl_add by lia. rewrite u8_small; [lia|]. apply is_u8_spec. lia.
Qed.

Lemma token_loop_spec r text out i :
  0 <= i -> i + Z.of_nat r = 32 -> blen out = 32 ->
  let '(code, out') := token_loop r text out i in
  blen out' = 32 /\
  ((code = 0 /\ agree out' out 0 i /\
    forall j, i <= j < 32 ->
      digits_valid text j /\ rd8 out' j = token_byte text j) \/
   (code = - EINVAL /\ (forall j, 0 <= j < 32 -> rd8 out' j = 0) /\
    exists j, i <= j < 32 /\ ~ digits_valid text j)).
Proof.
  revert out i. induction r as [|r IH]; intros out i Hi Hr Hlen; simpl.
  { split; [done|]. left. split_and!; [done|apply agree_refl|]. intros j Hj. lia. }
  pose proof (hex_nibble_range (rd8 text (i * 2))) as Hh.
  pose proof (hex_nibble_range (rd8 text (i * 2 + 1))) as Hl.
  destruct ((hex_nibble (rd8 text (i * 2)) <? 0) ||
            (hex_nibble (rd8 text (i * 2 + 1)) <? 0)) eqn:E.
  { split; [by rewrite blen_memset0|]. right. split_and!; [done| |].
    - intros j Hj. apply rd8_memset0; lia.
    - exists i. split; [lia|]. unfold digits_valid. lia. }
  set (out1 := wr8 out i _).
  specialize (IH out1 (i + 1) ltac:(lia) ltac:(lia)
                ltac:(subst out1; by rewrite blen_wr8)).
  destruct (token_loop r text out1 (i + 1)) as [code out'].
  destruct IH as [Hlen' [(-> & Hag & Hall)|(-> & Hz & j & Hj & Hbad)]];
    (split; [done|]).
  - left. split_and!; [done| |].
    + intros k Hk. rewrite Hag by lia. subst out1. by rewrite rd8_wr8_ne by lia.
    + intros j Hj. destruct (decide (j = i)) as [->|]; [|apply Hall; lia].
      split; [unfold digits_valid; lia|]. rewrite Hag by lia. subst out1.
      rewrite rd8_wr8 by lia. rewrite Z.eqb_refl. unfold token_byte.
      apply nibbles_join; lia.
  - right. split_and!; [done|done|]. exists j. split; [lia|done].
Qed.

(** ** What the lifecycle wire format promises *)

(** C38: an authentication token is taken from exactly 64 hexadecimal digits of
    either case, byte [i] from digits [2i] and [2i+1]; any other character
    gives [-EINVAL] and leaves an all-zero token, and a text of another length
    leaves the buffer alone. *)
Theorem token_from_hex_spec text buffer :
  blen buffer = BVB_LIFECYCLE_TOKEN_SIZE ->
  let '(code, token) :=
    bvb_lifecycle_token_from_hex (Some text) (Some buffer) in
  (code = 0 /\ blen text = BVB_LIFECYCLE_TOKEN_HEX_SIZE /\
   exists t, token = Some t /\ blen t = BVB_LIFECYCLE_TOKEN_SIZE /\
     forall i, 0 <= i < BVB_LIFECYCLE_TOKEN_SIZE ->
       digits_valid text i /\ rd8 t i = token_byte text i) \/
  (code = - EINVAL /\ blen text = BVB_LIFECYCLE_TOKEN_HEX_SIZE /\
   token = Some (blank BVB_LIFECYCLE_TOKEN_SIZE) /\
   exists i, 0 <= i < BVB_LIFECYCLE_TOKEN_SIZE /\ ~ digits_valid text i) \/
  (code = - EINVAL /\ blen text <> BVB_LIFECYCLE_TOKEN_HEX_SIZE /\
   token = Some buffer).
Proof.
  intros Hb. unfold bvb_lifecycle_token_from_hex.
  destruct (Z.eqb_spec (blen text) 64) as [Ht|Ht]; cbn [negb]; [|by right; right].
  pose proof (token_loop_spec (Z.to_nat 32) text buffer 0 ltac:(lia) ltac:(lia) Hb)
    as H.
  destruct (token_loop (Z.to_nat 32) text buffer 0) as [code t].
  destruct H as [Hlen [(-> & _ & H)|(-> & Hz & H)]].
  - left. eauto 10.
  - right. left. split_and!; [done|done| |done]. f_equal.
    apply rd8_ext; [pose proof (blen_blank 32 ltac:(lia)); unfold blen in *; lia|].
    intros i Hi. rewrite Hz by lia. symmetry. apply rd8_replicate0.
Qed.

Lemma token_from_hex_spec_witness :
  bvb_lifecycle_token_from_hex (Some (replicate 63 x30 ++ [x67]))
    (Some (replicate 32 xff)) = (- EINVAL, Some (blank 32)).
Proof.
  pose proof (token_from_hex_spec (replicate 63 x30 ++ [x67])
                (replicate 32 xff) eq_refl) as H.
  destruct (bvb_lifecycle_token_from_hex (Some (replicate 63 x30 ++ [x67]))
              (Some (replicate 32 xff))) as [code token] eqn:E.
  destruct H as [(-> & _)|[(-> & _ & -> & _)|(_ & H & _)]].
  - vm_compute in E. discriminate E.
  - reflexivity.
  - exfalso. apply H. vm_compute. reflexivity.
Defined.

(** C38: lifecycle records and acknowledgements obey the codec contract, both
    decoders accept only canonical bytes, and their failures carry the code of
    the side at fault. *)
Theorem lifecycle_codecs_lawful :
  (Lawful lifecycle_record_codec /\ Canonical lifecycle_record_codec /\
   ErrorsByRole lifecycle_record_codec) /\
  (Lawful lifecycle_ack_codec /\ Canonical lifecycle_ack_codec /\
   ErrorsByRole lifecycle_ack_codec).
Proof. split; (split; [apply _|split; apply _]). Qed.
