(* ===== verification/Activity.v ===== *)
(** * Activity: the Activity state machine of the bridge service

    Models [token_matches], [apply_lifecycle_event] and
    [handle_activity_connection] of src/bridge_service.c.  The status record
    is the one of ProtocolSetup.v.  What the socket delivers is the argument
    [received], the effect of sending an acknowledgement is the argument
    [send], and the clock reading is [now]; these are calls into the
    operating system. *)

From S2P Require Import Prelude Wire Abi Codec ProtocolSetup Lifecycle.

Definition EACCES : Z := 13.

Fixpoint token_difference (remaining : nat) (left right : bytes)
    (index difference : Z) : Z :=
  match remaining with
  | O => difference
  | S remaining =>
      token_difference remaining left right (index + 1)
        (Z.lor difference (Z.lxor (rd8 left index) (rd8 right index)))
  end.

Definition token_matches (left right : bytes) : bool :=
  token_difference (Z.to_nat BVB_LIFECYCLE_TOKEN_SIZE) left right 0 0 =? 0.

(** [status->state_flags |= m], [status->state_flags &= ~m] and assignments of
    the three fields an event can change. *)
Definition with_flags (s : bvb_activity_status) (flags : Z) :
    bvb_activity_status :=
  mk_bvb_activity_status (as_ingress_configured s)
    (as_authenticated_event_count s) (as_rejected_event_count s)
    (as_last_sequence s) (as_last_event s) flags (as_width s) (as_height s)
    (as_activity_pid s) (as_last_event_monotonic_ns s)
    (as_last_event_received_ns s).
Definition with_size (s : bvb_activity_status) (width height : Z) :
    bvb_activity_status :=
  mk_bvb_activity_status (as_ingress_configured s)
    (as_authenticated_event_count s) (as_rejected_event_count s)
    (as_last_sequence s) (as_last_event s) (as_state_flags s) width height
    (as_activity_pid s) (as_last_event_monotonic_ns s)
    (as_last_event_received_ns s).
Definition with_pid (s : bvb_activity_status) (pid : Z) :
    bvb_activity_status :=
  mk_bvb_activity_status (as_ingress_configured s)
    (as_authenticated_event_count s) (as_rejected_event_count s)
    (as_last_sequence s) (as_last_event s) (as_state_flags s) (as_width s)
    (as_height s) pid (as_last_event_monotonic_ns s)
    (as_last_event_received_ns s).
Definition with_rejected (s : bvb_activity_status) (count : Z) :
    bvb_activity_status :=
  mk_bvb_activity_status (as_ingress_configured s)
    (as_authenticated_event_count s) count
    (as_last_sequence s) (as_last_event s) (as_state_flags s) (as_width s)
    (as_height s) (as_activity_pid s) (as_last_event_monotonic_ns s)
    (as_last_event_received_ns s).
Definition with_event (s : bvb_activity_status)
    (record : bvb_lifecycle_record) (now : Z) : bvb_activity_status :=
  mk_bvb_activity_status (as_ingress_configured s)
    (u32 (as_authenticated_event_count s + 1)) (as_rejected_event_count s)
    (lr_sequence record) (lr_event record) (as_state_flags s) (as_width s)
    (as_height s) (as_activity_pid s) (lr_monotonic_ns record) now.

Definition set_flags (s : bvb_activity_status) (m : Z) : bvb_activity_status :=
  with_flags s (Z.lor (as_state_flags s) m).
Definition clear_flags (s : bvb_activity_status) (m : Z) :
    bvb_activity_status :=
  with_flags s (Z.land (as_state_flags s) (Z.lnot m)).

(** The guards before the switch. *)
Definition lifecycle_guard (status : bvb_activity_status)
    (record : bvb_lifecycle_record) : result bvb_activity_status :=
  if record.(lr_event) =? BVB_LIFECYCLE_EVENT_CREATED then
    fail_if negb (record.(lr_sequence) =? 1) with (- EPROTO) ;;
    Ok (with_pid (with_size (with_flags status BVB_ACTIVITY_CREATED) 0 0)
          record.(lr_activity_pid))
  else
    fail_if (status.(as_authenticated_event_count) =? 0) ||
            negb (status.(as_activity_pid) =? record.(lr_activity_pid)) ||
            (record.(lr_sequence) <=? status.(as_last_sequence))
      with (- EPROTO) ;;
    Ok status.

(** The switch over the event. *)
Definition lifecycle_switch (status : bvb_activity_status)
    (record : bvb_lifecycle_record) : result bvb_activity_status :=
  let event := record.(lr_event) in
  if event =? BVB_LIFECYCLE_EVENT_CREATED then Ok status
  else if event =? BVB_LIFECYCLE_EVENT_STARTED then
    Ok (set_flags status BVB_ACTIVITY_STARTED)
  else if event =? BVB_LIFECYCLE_EVENT_RESUMED then
    Ok (set_flags status BVB_ACTIVITY_RESUMED)
  else if event =? BVB_LIFECYCLE_EVENT_PAUSED then
    Ok (clear_flags status
          (Z.lor BVB_ACTIVITY_RESUMED BVB_ACTIVITY_FOCUSED))
  else if event =? BVB_LIFECYCLE_EVENT_STOPPED then
    Ok (clear_flags status
          (Z.lor (Z.lor BVB_ACTIVITY_STARTED BVB_ACTIVITY_RESUMED)
                 BVB_ACTIVITY_FOCUSED))
  else if event =? BVB_LIFECYCLE_EVENT_DESTROYED then
    Ok (with_size (with_flags status BVB_ACTIVITY_DESTROYED) 0 0)
  else if event =? BVB_LIFECYCLE_EVENT_WINDOW_CREATED then
    Ok (with_size (set_flags status BVB_ACTIVITY_WINDOW_PRESENT)
          record.(lr_width) record.(lr_height))
  else if event =? BVB_LIFECYCLE_EVENT_WINDOW_DESTROYED then
    Ok (with_size
          (clear_flags status
             (Z.lor BVB_ACTIVITY_WINDOW_PRESENT BVB_ACTIVITY_RENDERER_READY))
          0 0)
  else if event =? BVB_LIFECYCLE_EVENT_FOCUS_GAINED then
    Ok (set_flags status BVB_ACTIVITY_FOCUSED)
  else if event =? BVB_LIFECYCLE_EVENT_FOCUS_LOST then
    Ok (clear_flags status BVB_ACTIVITY_FOCUSED)
  else if event =? BVB_LIFECYCLE_EVENT_RENDERER_READY then
    Ok (with_size
          (set_flags status
             (Z.lor BVB_ACTIVITY_WINDOW_PRESENT BVB_ACTIVITY_RENDERER_READY))
          record.(lr_width) record.(lr_height))
  else if event =? BVB_LIFECYCLE_EVENT_RENDERER_FAILED then
    Ok (with_size
          (set_flags (clear_flags status BVB_ACTIVITY_RENDERER_READY)
             BVB_ACTIVITY_WINDOW_PRESENT)
          record.(lr_width) record.(lr_height))
  else if event =? BVB_LIFECYCLE_EVENT_NATIVE_BINDER_STATUS then Ok status
  else Err (- EPROTO).

(** The code returned and the status afterwards: a creation record of a
    wrong event value is impossible here, so a failure of the switch leaves
    only what the guard wrote. *)
Definition apply_lifecycle_event (status : bvb_activity_status)
    (record : bvb_lifecycle_record) (now : Z) : Z * bvb_activity_status :=
  match lifecycle_guard status record with
  | Err code => (code, status)
  | Ok guarded =>
      match lifecycle_switch guarded record with
      | Err code => (code, guarded)
      | Ok updated => (0, with_event updated record now)
      end
  end.

(** The decoding, the token test and the event of one received record: the
    code [result] has before the acknowledgement. *)
Definition judge_record (wire token : bytes) (now : Z)
    (record : bvb_lifecycle_record) (status : bvb_activity_status) :
    Z * bvb_activity_status :=
  match bvb_lifecycle_decode_record (Some wire) (Some record) with
  | Err code => (code, status)
  | Ok record =>
      if negb (token_matches record.(lr_token) token)
      then (- EACCES, status)
      else apply_lifecycle_event status record now
  end.

(** The status, the acknowledgement handed to [send_exact] if any, and the
    code returned.  [record] is an uninitialised local until the decoder fills
    it. *)
Definition handle_activity_connection (received : result bytes)
    (send_exact : bytes -> Z) (token : bytes) (now : Z)
    (record : bvb_lifecycle_record) (status : bvb_activity_status) :
    bvb_activity_status * option bytes * Z :=
  match received with
  | Err code =>
      (with_rejected status (u32 (status.(as_rejected_event_count) + 1)), None,
       code)
  | Ok wire =>
      let sequence := bvb_wire_get_u32 wire 8 in
      let '(code, status) := judge_record wire token now record status in
      let status :=
        if negb (code =? 0)
        then with_rejected status (u32 (status.(as_rejected_event_count) + 1))
        else status in
      if sequence =? 0 then
        (status, None, if code =? 0 then - EPROTO else code)
      else
        match bvb_lifecycle_encode_ack
                (Some (blank BVB_LIFECYCLE_ACK_SIZE))
                (Some {| la_sequence := sequence; la_status := code |}) with
        | Err e => (status, None, e)
        | Ok ack_wire =>
            let sent := send_exact ack_wire in
            (status, Some ack_wire, if negb (sent =? 0) then sent else code)
        end
  end.

(** ** The invariant of the status record *)

Definition window_present (s : bvb_activity_status) : bool :=
  Z.testbit s.(as_state_flags) 3.
Definition renderer_ready (s : bvb_activity_status) : bool :=
  Z.testbit s.(as_state_flags) 4.

Record status_ok (s : bvb_activity_status) : Prop := {
  ok_rep : as_rep s = true;
  ok_flags : Z.land s.(as_state_flags) 127 = s.(as_state_flags);
  ok_event : s.(as_last_event) <= BVB_LIFECYCLE_EVENT_NATIVE_BINDER_STATUS;
  ok_ready : renderer_ready s = true -> window_present s = true;
  ok_window : if window_present s then s.(as_width) <> 0 /\ s.(as_height) <> 0
              else s.(as_width) = 0 /\ s.(as_height) = 0
}.

(** The same facts about the fields an event can change, as the switch sees
    them. *)
Definition fields_ok (flags width height : Z) : Prop :=
  Z.land flags 127 = flags /\
  is_u32 width = true /\ is_u32 height = true /\
  (Z.testbit flags 4 = true -> Z.testbit flags 3 = true) /\
  if Z.testbit flags 3 then width <> 0 /\ height <> 0
  else width = 0 /\ height = 0.

Lemma flags_range f : Z.land f 127 = f -> 0 <= f < 2 ^ 7.
Proof.
  intros H. rewrite <- H. change 127 with (2 ^ 7 - 1).
  rewrite land_ones_mod by done. by apply Z.mod_pos_bound.
Qed.

Lemma flags_set f m : Z.land f 127 = f -> Z.land m 127 = m ->
  Z.land (Z.lor f m) 127 = Z.lor f m.
Proof. intros Hf Hm. by rewrite Z.land_lor_distr_l, Hf, Hm. Qed.

Lemma flags_clear f m : Z.land f 127 = f ->
  Z.land (Z.land f m) 127 = Z.land f m.
Proof.
  intros Hf. by rewrite <- Z.land_assoc, (Z.land_comm m), Z.land_assoc, Hf.
Qed.

#[local] Arguments Z.testbit : simpl never.

(** Read a flag of an updated flag word. *)
Ltac flag_bits :=
  rewrite ?Z.lor_spec, ?Z.land_spec, ?Z.lnot_spec by lia;
  repeat match goal with
  | |- context [Z.testbit ?m ?i] =>
      let b := eval compute in (Z.testbit m i) in
      lazymatch b with
      | true => change (Z.testbit m i) with true
      | false => change (Z.testbit m i) with false
      end
  end;
  cbn [negb]; rewrite ?orb_false_r, ?orb_true_r, ?andb_true_r, ?andb_false_r.

Lemma switch_fields s r s' :
  record_is_valid (Some r) = Ok tt -> lr_rep r = true ->
  fields_ok (as_state_flags s) (as_width s) (as_height s) ->
  lifecycle_switch s r = Ok s' ->
  fields_ok (as_state_flags s') (as_width s') (as_height s').
Proof.
  intros Hv Hrep (Hf & Hw & Hh & Hr & Hp) H.
  unfold record_is_valid in Hv. ok_path Hv. open_rep Hrep. split_tests.
  unfold lifecycle_switch in H.
  repeat match type of H with
  | (if ?c then _ else _) = _ => destruct c eqn:?
  end; try discriminate H; injection H as <-;
    unfold fields_ok, set_flags, clear_flags, with_flags, with_size; cbn;
    split_and!;
    first [ done | by apply flags_set | by apply flags_clear
          | by apply flags_set; [apply flags_clear|]
          | flag_bits; first [done | tauto | lia] | idtac ].
Qed.

Lemma status_fields s :
  status_ok s -> fields_ok (as_state_flags s) (as_width s) (as_height s).
Proof.
  intros [Hrep Hf _ Hr Hw]. unfold as_rep in Hrep. split_tests.
  unfold fields_ok. by split_and!.
Qed.

(** Fields the switch and the guard leave alone. *)
Lemma switch_keeps s r s' :
  lifecycle_switch s r = Ok s' ->
  s' = with_size (with_flags s (as_state_flags s')) (as_width s') (as_height s').
Proof.
  unfold lifecycle_switch. intros H.
  repeat match type of H with
  | (if ?c then _ else _) = _ => destruct c
  end; try discriminate H; injection H as <-; by destruct s.
Qed.

Lemma guard_keeps s r s' :
  lifecycle_guard s r = Ok s' ->
  (lr_event r = BVB_LIFECYCLE_EVENT_CREATED /\ lr_sequence r = 1 /\
   s' = with_pid (with_size (with_flags s BVB_ACTIVITY_CREATED) 0 0)
          (lr_activity_pid r)) \/
  (lr_event r <> BVB_LIFECYCLE_EVENT_CREATED /\ s' = s /\
   as_authenticated_event_count s <> 0 /\
   as_activity_pid s = lr_activity_pid r /\
   as_last_sequence s < lr_sequence r).
Proof.
  unfold lifecycle_guard. intros H.
  destruct (Z.eqb_spec (lr_event r) BVB_LIFECYCLE_EVENT_CREATED).
  - ok_path H. injection H as <-. left. split_and!; [done|lia|done].
  - ok_path H. injection H as <-. right. split_and!; (lia || done).
Qed.

(** A valid record never falls through the switch. *)
Lemma switch_total s r :
  record_is_valid (Some r) = Ok tt -> is_ok (lifecycle_switch s r) = true.
Proof.
  unfold record_is_valid. intros H. ok_path H. unfold lifecycle_switch.
  repeat (case_match; [done|]). lia.
Qed.

Lemma apply_ok s r now :
  record_is_valid (Some r) = Ok tt -> lr_rep r = true -> is_u64 now = true ->
  status_ok s ->
  let '(code, s') := apply_lifecycle_event s r now in
  (code = 0 \/ (code = - EPROTO /\ s' = s)) /\ status_ok s'.
Proof.
  intros Hv Hrep Hnow Hs. unfold apply_lifecycle_event.
  destruct (lifecycle_guard s r) as [g|e] eqn:Eg.
  2: { split; [right; split; [|done]|done].
       unfold lifecycle_guard in Eg.
       repeat case_match; try discriminate Eg; by injection Eg as <-. }
  pose proof (switch_total g r Hv) as Htot.
  destruct (lifecycle_switch g r) as [u|e] eqn:Eu; [clear Htot|done].
  split; [by left|].
  pose proof (status_fields s Hs) as Hfs.
  assert (Hg : fields_ok (as_state_flags g) (as_width g) (as_height g)).
  { by destruct (guard_keeps _ _ _ Eg) as [(_ & _ & ->)|(_ & -> & _)]. }
  pose proof (switch_fields _ _ _ Hv Hrep Hg Eu) as (Hf & Hw & Hh & Hr & Hp).
  pose proof (flags_range _ Hf) as Hrange.
  assert (Hkeep : as_ingress_configured u = as_ingress_configured s /\
    as_rejected_event_count u = as_rejected_event_count s /\
    is_u32 (as_activity_pid u) = true).
  { rewrite (switch_keeps _ _ _ Eu). destruct Hs as [Hsr _ _ _ _].
    unfold as_rep in Hsr. open_rep Hrep. split_tests.
    by destruct (guard_keeps _ _ _ Eg) as [(_ & _ & ->)|(_ & -> & _)]. }
  destruct Hkeep as (Hi & Hrc & Hpid).
  unfold record_is_valid in Hv. ok_path Hv.
  destruct Hs as [Hsr _ _ _ _]. unfold as_rep in Hsr. open_rep Hrep. split_tests.
  constructor; try done; cbn; [|lia].
  unfold as_rep; cbn. rewrite Hi, Hrc, Hpid, Hw, Hh, Hnow.
  rewrite is_u32_u32. use_tests. rewrite !andb_true_r.
  unfold is_u32, is_u16 in *. lia.
Qed.

Lemma rejected_ok s : status_ok s ->
  status_ok (with_rejected s (u32 (as_rejected_event_count s + 1))).
Proof.
  intros [Hrep Hf He Hr Hw]. constructor; try done.
  unfold as_rep in *; cbn. split_tests. rewrite is_u32_u32. by use_tests.
Qed.

(** ** Tokens *)

Lemma token_difference_zero n l r i d :
  0 <= i -> token_difference n l r i d = 0 <->
  d = 0 /\ agree l r i (Z.of_nat n).
Proof.
  revert i d. induction n as [|n IH]; intros i d Hi; cbn [token_difference].
  { split; [intros ->; split; [done|apply agree_nil]|by intros [-> _]]. }
  rewrite IH by lia. rewrite Z.lor_eq_0_iff, Z.lxor_eq_0_iff. split.
  - intros [[-> E] H]. split; [done|]. apply (agree_step _ _ _ 1).
    + intros k Hk. by replace k with i by lia.
    + by replace (Z.of_nat (S n) - 1) with (Z.of_nat n) by lia.
  - intros [-> H]. split_and!; [done|apply H; lia|].
    intros k Hk. apply H. lia.
Qed.

(** The comparison that looks at all 32 bytes is equality of tokens. *)
Lemma token_matches_eq l r :
  blen l = BVB_LIFECYCLE_TOKEN_SIZE -> blen r = BVB_LIFECYCLE_TOKEN_SIZE ->
  token_matches l r = true <-> l = r.
Proof.
  intros Hl Hr. unfold token_matches.
  rewrite Z.eqb_eq, token_difference_zero by done. split; [|by intros ->].
  intros [_ H]. apply agree_eq; [unfold blen in *; lia|]. by rewrite Hl.
Qed.

(** ** One connection *)

Definition event_applied (s : bvb_activity_status) (token : bytes) (now : Z)
    (wire : bytes) (s' : bvb_activity_status) : Prop :=
  exists r, bvb_lifecycle_decode_record (Some wire) (Some r) = Ok r /\
    lr_token r = token /\
    as_last_sequence s' = lr_sequence r /\ as_last_event s' = lr_event r /\
    as_activity_pid s' = lr_activity_pid r /\
    ((lr_event r = BVB_LIFECYCLE_EVENT_CREATED /\ lr_sequence r = 1) \/
     (lr_event r <> BVB_LIFECYCLE_EVENT_CREATED /\
      as_activity_pid s = lr_activity_pid r /\
      as_last_sequence s < lr_sequence r)) /\
    s' = (apply_lifecycle_event s r now).2.

Definition rejected (s : bvb_activity_status) : bvb_activity_status :=
  with_rejected s (u32 (as_rejected_event_count s + 1)).

Lemma decode_record_old wire old old' :
  bvb_lifecycle_decode_record (Some wire) (Some old) =
  bvb_lifecycle_decode_record (Some wire) (Some old').
Proof. done. Qed.

Lemma decode_record_valid wire old r :
  bvb_lifecycle_decode_record (Some wire) (Some old) = Ok r ->
  record_is_valid (Some r) = Ok tt.
Proof.
  cbn. intros H. ok_path H. injection H as <-. destruct a. exact Ht0.
Qed.

Lemma apply_success s r now s' :
  apply_lifecycle_event s r now = (0, s') ->
  as_last_sequence s' = lr_sequence r /\ as_last_event s' = lr_event r /\
  as_activity_pid s' = lr_activity_pid r /\
  ((lr_event r = BVB_LIFECYCLE_EVENT_CREATED /\ lr_sequence r = 1) \/
   (lr_event r <> BVB_LIFECYCLE_EVENT_CREATED /\
    as_activity_pid s = lr_activity_pid r /\
    as_last_sequence s < lr_sequence r)).
Proof.
  unfold apply_lifecycle_event. intros H.
  destruct (lifecycle_guard s r) as [g|e] eqn:Eg.
  2: { unfold lifecycle_guard in Eg.
       repeat case_match; try discriminate Eg; injection Eg as <-;
         injection H; discriminate. }
  destruct (lifecycle_switch g r) as [u|e] eqn:Eu.
  2: { unfold lifecycle_switch in Eu.
       repeat case_match; try discriminate Eu; injection Eu as <-;
         injection H; discriminate. }
  injection H as <-. cbn. pose proof (switch_keeps _ _ _ Eu) as ->. cbn.
  destruct (guard_keeps _ _ _ Eg) as [(? & ? & ->)|(? & -> & ? & ? & ?)];
    cbn; auto 10.
Qed.

(** The verdict on one whole record. *)
Lemma judge_step s wire token now scratch :
  status_ok s -> blen wire = BVB_LIFECYCLE_RECORD_SIZE -> is_u64 now = true ->
  blen token = BVB_LIFECYCLE_TOKEN_SIZE ->
  let '(code, s') := judge_record wire token now scratch s in
  (code = 0 \/ (- 2 ^ 31 <= code < 0 /\ s' = s)) /\ status_ok s' /\
  (code = 0 -> event_applied s token now wire s').
Proof.
  intros Hs Hw Hnow Htok. unfold judge_record.
  destruct (bvb_lifecycle_decode_record (Some wire) (Some scratch))
    as [r|e] eqn:Ed.
  2: { assert (e = - EPROTO) as -> by
         exact (decode_error (c := lifecycle_record_codec) wire scratch e Ed).
       split_and!; [right; split; [vm_compute; split; congruence|done]|done|done]. }
  pose proof (decode_record_valid _ _ _ Ed) as Hv.
  pose proof (decode_rep (c := lifecycle_record_codec) wire r scratch
                ltac:(cbn; lia) Ed) as Hrep. cbn in Hrep.
  assert (Hlt : blen (lr_token r) = 32) by (open_rep Hrep; lia).
  destruct (token_matches (lr_token r) token) eqn:Em; cbn [negb].
  2: { split_and!; [right; split; [vm_compute; split; congruence|done]|done|done]. }
  pose proof (apply_ok s r now Hv Hrep Hnow Hs) as Ha.
  destruct (apply_lifecycle_event s r now) as [code s'] eqn:E.
  destruct Ha as [Hc Hok]. split_and!; [|done|].
  - destruct Hc as [|[-> ->]]; [by left|].
    right. split; [vm_compute; split; congruence|done].
  - intros ->. exists r. destruct (apply_success _ _ _ _ E) as (?&?&?&?).
    rewrite (decode_record_old wire r scratch), E.
    apply token_matches_eq in Em; [|done|done]. auto 10.
Qed.

(** An acknowledgement is always encodable and says what was decided. *)
Lemma ack_step sequence code :
  is_u32 sequence = true -> sequence <> 0 -> - 2 ^ 31 <= code <= 0 ->
  exists w,
    bvb_lifecycle_encode_ack (Some (blank BVB_LIFECYCLE_ACK_SIZE))
      (Some (mk_bvb_lifecycle_ack sequence code)) = Ok w /\
    forall old, bvb_lifecycle_decode_ack (Some w) (Some old) =
      Ok (mk_bvb_lifecycle_ack sequence code).
Proof.
  intros Hseq H0 Hc.
  assert (Henc : exists w, bvb_lifecycle_encode_ack (Some (blank 16))
            (Some (mk_bvb_lifecycle_ack sequence code)) = Ok w).
  { cbn. destruct (Z.eqb_spec sequence 0); [done|].
    destruct (Z.ltb_spec 0 code); [lia|]. cbn. eauto. }
  destruct Henc as [w Henc]. exists w. split; [done|]. intros old.
  apply (decode_encode (c := lifecycle_ack_codec) (blank 16));
    [cbn; rewrite blen_blank; lia| |exact Henc].
  cbn. unfold la_rep; cbn. rewrite Hseq. unfold is_i32. lia.
Qed.

(** A record that creates an Activity is accepted in any state. *)
Lemma creation_accepted s wire token now scratch r :
  blen token = BVB_LIFECYCLE_TOKEN_SIZE ->
  bvb_lifecycle_decode_record (Some wire) (Some r) = Ok r ->
  lr_token r = token -> lr_event r = BVB_LIFECYCLE_EVENT_CREATED ->
  lr_sequence r = 1 -> (judge_record wire token now scratch s).1 = 0.
Proof.
  intros Ht Hd Htok He Hs. unfold judge_record.
  rewrite (decode_record_old wire scratch r), Hd.
  rewrite (proj2 (token_matches_eq (lr_token r) token ltac:(by rewrite Htok) Ht)
             Htok).
  unfold apply_lifecycle_event, lifecycle_guard, lifecycle_switch.
  by rewrite He, Hs.
Qed.

(** What one connection with a whole record on it does. *)
Lemma connection_step s wire send token now scratch :
  status_ok s -> blen wire = BVB_LIFECYCLE_RECORD_SIZE -> is_u64 now = true ->
  blen token = BVB_LIFECYCLE_TOKEN_SIZE ->
  exists code,
    let '(s', ack, ret) :=
      handle_activity_connection (Ok wire) send token now scratch s in
    status_ok s' /\
    (if code =? 0 then event_applied s token now wire s' else s' = rejected s) /\
    (bvb_wire_get_u32 wire 8 = 0 -> ack = None) /\
    (bvb_wire_get_u32 wire 8 <> 0 ->
       exists w, ack = Some w /\ ret = (if send w =? 0 then code else send w) /\
         forall old, bvb_lifecycle_decode_ack (Some w) (Some old) =
           Ok (mk_bvb_lifecycle_ack (bvb_wire_get_u32 wire 8) code)) /\
    code = (judge_record wire token now scratch s).1.
Proof.
  intros Hs Hw Hnow Htok. unfold handle_activity_connection.
  pose proof (judge_step s wire token now scratch Hs Hw Hnow Htok) as Hj.
  destruct (judge_record wire token now scratch s) as [code s1].
  destruct Hj as (Hc & Hok & Happ). exists code.
  set (s2 := if negb (code =? 0) then _ else s1).
  assert (Hs2 : status_ok s2 /\
    if code =? 0 then event_applied s token now wire s2 else s2 = rejected s).
  { subst s2. destruct (Z.eqb_spec code 0) as [|Hne]; cbn [negb]; [auto|].
    destruct Hc as [|[_ ->]]; [done|]. split; [by apply rejected_ok|done]. }
  destruct Hs2 as [Hok2 Hcase].
  destruct (Z.eqb_spec (bvb_wire_get_u32 wire 8) 0) as [H0|H0];
    [by split_and!|].
  destruct (ack_step (bvb_wire_get_u32 wire 8) code (get_u32_range _ _) H0
              ltac:(lia)) as (w & Henc & Hdec).
  rewrite Henc. split_and!; [done|done|done| |done]. intros _. exists w.
  split_and!; [done|by destruct (send w =? 0)|exact Hdec].
Qed.

(** ** Histories *)

Definition initial_status (configured : bool) : bvb_activity_status :=
  mk_bvb_activity_status (if configured then 1 else 0) 0 0 0 0 0 0 0 0 0 0.

(** The statuses the service can have: any peer may connect, at any time, and
    deliver any 64 bytes or fail. *)
Inductive activity_reachable (token : bytes) : bvb_activity_status -> Prop :=
| activity_start configured :
    activity_reachable token (initial_status configured)
| activity_connection s received send now scratch :
    activity_reachable token s -> is_u64 now = true ->
    (forall wire, received = Ok wire -> blen wire = BVB_LIFECYCLE_RECORD_SIZE) ->
    activity_reachable token
      (handle_activity_connection received send token now scratch s).1.1.

(** C29: whatever peers send, the status the service reports is well formed:
    every field fits its wire width, the flags are the seven defined ones, a
    ready renderer has a window, and the size is non-zero exactly while a
    window is present. *)
Theorem activity_status_invariant token s :
  blen token = BVB_LIFECYCLE_TOKEN_SIZE ->
  activity_reachable token s -> status_ok s.
Proof.
  intros Ht. induction 1 as [c|s received send now scratch _ IH Hnow Hw].
  { destruct c; by constructor. }
  destruct received as [wire|e]; [|by apply rejected_ok].
  destruct (connection_step s wire send token now scratch IH (Hw _ eq_refl)
              Hnow Ht) as (code & H).
  by destruct handle_activity_connection as [[s' ack] ret], H.
Qed.

(** C28: the status moves for a record only if the record decodes, carries the
    service's token, and either creates an Activity with sequence 1 or
    continues the reported process with a larger sequence than the last; any
    other record (malformed, without the token, of another process, or with an
    old sequence and not creating an Activity) changes nothing but the
    rejection counter.  A record with the token that creates an Activity is
    accepted whatever came before, so that one sent again starts the status
    anew.  The peer is told: with a
    non-zero sequence on the wire an acknowledgement is sent, and it decodes
    to that sequence and the verdict. *)
Theorem activity_connection_authenticates s wire send token now scratch :
  status_ok s -> blen wire = BVB_LIFECYCLE_RECORD_SIZE -> is_u64 now = true ->
  blen token = BVB_LIFECYCLE_TOKEN_SIZE ->
  exists code,
    let '(s', ack, ret) :=
      handle_activity_connection (Ok wire) send token now scratch s in
    (if code =? 0 then event_applied s token now wire s' else s' = rejected s) /\
    (bvb_wire_get_u32 wire 8 = 0 -> ack = None) /\
    (bvb_wire_get_u32 wire 8 <> 0 ->
       exists w, ack = Some w /\ ret = (if send w =? 0 then code else send w) /\
         forall old, bvb_lifecycle_decode_ack (Some w) (Some old) =
           Ok (mk_bvb_lifecycle_ack (bvb_wire_get_u32 wire 8) code)) /\
    (forall r, bvb_lifecycle_decode_record (Some wire) (Some r) = Ok r ->
       lr_token r = token -> lr_event r = BVB_LIFECYCLE_EVENT_CREATED ->
       lr_sequence r = 1 -> code = 0).
Proof.
  intros Hs Hw Hnow Ht.
  destruct (connection_step s wire send token now scratch Hs Hw Hnow Ht)
    as (code & H). exists code.
  destruct handle_activity_connection as [[s' ack] ret].
  destruct H as (_ & H1 & H2 & H3 & ->). split_and!; [done..|].
  intros r. by apply creation_accepted.
Qed.

(** A record that was accepted is refused when it is sent again, by any
    connection, unless it is the record that creates an Activity. *)
Theorem replayed_record_is_rejected s s' wire send token now now' scratch :
  status_ok s' -> blen wire = BVB_LIFECYCLE_RECORD_SIZE ->
  is_u64 now' = true -> blen token = BVB_LIFECYCLE_TOKEN_SIZE ->
  event_applied s token now wire s' ->
  bvb_wire_get_u16 wire 6 <> BVB_LIFECYCLE_EVENT_CREATED ->
  (handle_activity_connection (Ok wire) send token now' scratch s').1.1 =
    rejected s'.
Proof.
  intros Hs Hw Hnow Ht (r & Hdec & _ & Hseq & _) Hev.
  destruct (connection_step s' wire send token now' scratch Hs Hw Hnow Ht)
    as (code & H).
  destruct handle_activity_connection as [[s'' ack] ret].
  destruct H as (_ & H & _). cbn [fst].
  destruct (Z.eqb_spec code 0) as [_|]; [exfalso|done].
  destruct H as (r' & Hdec' & _ & _ & _ & _ & Hguard & _).
  rewrite (decode_record_old wire r' r), Hdec in Hdec'. injection Hdec' as <-.
  assert (Hr : lr_event r = bvb_wire_get_u16 wire 6).
  { cbn in Hdec. ok_path Hdec. injection Hdec as <-. done. }
  destruct Hguard as [[? _]|(_ & _ & ?)]; [congruence|lia].
Qed.

(** ** Concrete histories *)

Definition token0 : bytes := replicate 32 x07.
Definition record_wire (event sequence : Z) : bytes :=
  match bvb_lifecycle_encode_record (Some (blank 64))
          (Some (mk_bvb_lifecycle_record event sequence 1080 2400 4242 99
                   token0)) with
  | Ok w => w
  | Err _ => []
  end.
Definition scratch0 : bvb_lifecycle_record :=
  mk_bvb_lifecycle_record 0 0 0 0 0 0 [].
Definition connect (wire : bytes) (s : bvb_activity_status) :
    bvb_activity_status :=
  (handle_activity_connection (Ok wire) (fun _ => 0) token0 5 scratch0 s).1.1.

Definition created_status : bvb_activity_status :=
  connect (record_wire 1 1) (initial_status true).
Definition window_status : bvb_activity_status :=
  connect (record_wire 7 2) created_status.

Lemma connect_reachable wire s :
  blen wire = 64 -> activity_reachable token0 s ->
  activity_reachable token0 (connect wire s).
Proof.
  intros Hw Hs. unfold connect. constructor; [done|done|].
  by intros w [= <-].
Qed.

Lemma activity_status_invariant_witness : status_ok window_status.
Proof.
  apply (activity_status_invariant token0); [vm_compute; reflexivity|].
  unfold window_status, created_status.
  apply connect_reachable; [vm_compute; reflexivity|].
  apply connect_reachable; [vm_compute; reflexivity|]. apply activity_start.
Defined.

Ltac concrete_status :=
  constructor; vm_compute;
  first [ reflexivity | discriminate | split; first [reflexivity|discriminate]
        | auto ].

Lemma created_status_ok : status_ok created_status.
Proof. concrete_status. Qed.

Lemma activity_connection_authenticates_witness :
  exists code,
    let '(s', ack, ret) :=
      handle_activity_connection (Ok (record_wire 7 2)) (fun _ => 0) token0 5
        scratch0 created_status in
    code = 0 /\ event_applied created_status token0 5 (record_wire 7 2) s'.
Proof.
  destruct (activity_connection_authenticates created_status (record_wire 7 2)
              (fun _ => 0) token0 5 scratch0) as (code & H);
    [exact created_status_ok|vm_compute; reflexivity..|].
  exists code.
  destruct (handle_activity_connection (Ok (record_wire 7 2)) (fun _ => 0)
              token0 5 scratch0 created_status) as [[s' ack] ret] eqn:E.
  destruct H as (H & _). destruct (Z.eqb_spec code 0) as [->|Hne].
  - split; [reflexivity|exact H].
  - exfalso. rewrite H in E. vm_compute in E. discriminate E.
Defined.

Lemma replayed_record_is_rejected_witness :
  connect (record_wire 7 2) window_status = rejected window_status.
Proof.
  apply (replayed_record_is_rejected created_status window_status
           (record_wire 7 2) (fun _ => 0) token0 5 5 scratch0).
  - concrete_status.
  - vm_compute. reflexivity.
  - vm_compute. reflexivity.
  - vm_compute. reflexivity.
  - exists (mk_bvb_lifecycle_record 7 2 1080 2400 4242 99 token0).
    vm_compute. repeat split. right. repeat split; discriminate.
  - vm_compute. discriminate.
Defined.
