(* ===== verification/Shared.v ===== *)
(** * Shared: programs over shared memory and their rely-guarantee logic

    The frame synchroniser, the frame ring and the descriptor ring are used by
    two processes that map the same page.  A [prog] is one thread of such a
    protocol: each [Act] is one atomic access to the shared memory [M], each
    [Sys] a system call whose result the environment chooses.  [run] executes
    a program alone, with a list of system-call results; [sys_step]
    interleaves two programs access by access.  [wp] is the logic: a program
    is proved once, against a relation that bounds what the other side may
    do between its accesses, and [parallel_sound] composes two proofs. *)

From stdpp Require Import relations.
From S2P Require Import Prelude.

(** System calls of the models: the monotonic clock and the futex calls, whose
    word is named by a number. *)
Inductive syscall : Type :=
| ClockMonotonic
| FutexWake (word : Z)
| FutexWait (word expected timeout_ns : Z).

Inductive prog (M A : Type) : Type :=
| Ret (a : A)
| Act (act : M -> M * Z) (k : Z -> prog M A)
| Sys (sysc : syscall) (k : Z -> prog M A).
Arguments Ret {M A} a.
Arguments Act {M A} act k.
Arguments Sys {M A} sysc k.

Fixpoint bind {M A B} (p : prog M A) (f : A -> prog M B) : prog M B :=
  match p with
  | Ret a => f a
  | Act act k => Act act (fun v => bind (k v) f)
  | Sys c k => Sys c (fun v => bind (k v) f)
  end.

(** [x <- p ;; q] runs [p] and then [q]; [load x := f ;; q] is one atomic
    load, [store f ;; q] one atomic store. *)
Declare Scope prog_scope.
Delimit Scope prog_scope with prog.
#[global] Open Scope prog_scope.
Notation "'do' x '<-' p ;; q" := (bind p (fun x => q))
  (at level 100, x binder, p at level 99, q at level 200,
   format "'[v' 'do'  x  '<-'  p ;; '/' q ']'") : prog_scope.
Notation "'load' x ':=' f ;; q" := (Act (fun m => (m, f m)) (fun x => q))
  (at level 100, x binder, f at level 99, q at level 200,
   format "'[v' 'load'  x  ':='  f ;; '/' q ']'") : prog_scope.
Notation "'store' f ;; q" := (Act (fun m => (f m, 0)) (fun _ => q))
  (at level 100, f at level 99, q at level 200,
   format "'[v' 'store'  f ;; '/' q ']'") : prog_scope.

(** [__atomic_compare_exchange_n]: the old value is returned, and the store
    happened when it is [expected]. *)
Definition cas {M} (get : M -> Z) (set : Z -> M -> M) (expected desired : Z) :
    prog M Z :=
  Act (fun m => if get m =? expected then (set desired m, get m)
                else (m, get m)) Ret.

(** ** Running alone *)

Fixpoint run {M A} (answers : list Z) (p : prog M A) (m : M) :
    option (A * M) :=
  match p with
  | Ret a => Some (a, m)
  | Act act k => let '(m', v) := act m in run answers (k v) m'
  | Sys _ k =>
      match answers with
      | [] => None
      | v :: rest => run rest (k v) m
      end
  end.

(** ** Interleaving two threads *)

Inductive prog_step {M A} : prog M A * M -> prog M A * M -> Prop :=
| step_act act k m :
    prog_step (Act act k, m) (k (act m).2, (act m).1)
| step_sys c k v m :
    prog_step (Sys c k, m) (k v, m).

Inductive sys_step {M A B} :
    prog M A * prog M B * M -> prog M A * prog M B * M -> Prop :=
| step_left p p' q m m' :
    prog_step (p, m) (p', m') -> sys_step (p, q, m) (p', q, m')
| step_right p q q' m m' :
    prog_step (q, m) (q', m') -> sys_step (p, q, m) (p, q', m').

(** ** Rely-guarantee reasoning *)

(** From memory [m], with the other side making any number of [rely] steps
    between the accesses of [p], every access of [p] is a [guar] step and [p]
    ends only where [post] holds. *)
Fixpoint wp {M A} (rely guar : M -> M -> Prop) (p : prog M A)
    (post : A -> M -> Prop) (m : M) : Prop :=
  match p with
  | Ret a => forall m', rtc rely m m' -> post a m'
  | Act act k => forall m', rtc rely m m' ->
      guar m' (act m').1 /\ wp rely guar (k (act m').2) post (act m').1
  | Sys _ k => forall v m', rtc rely m m' -> wp rely guar (k v) post m'
  end.

Section logic.
Context {M : Type}.
Implicit Types (rely guar : M -> M -> Prop).

Lemma wp_rely {A} rely guar (p : prog M A) post m m' :
  wp rely guar p post m -> rtc rely m m' -> wp rely guar p post m'.
Proof.
  destruct p; simpl; intros H Hr; intros; apply H; by etransitivity.
Qed.

Lemma wp_mono {A} rely guar (p : prog M A) (post post' : A -> M -> Prop) m :
  (forall a m', post a m' -> post' a m') ->
  wp rely guar p post m -> wp rely guar p post' m.
Proof.
  intros Hpp. revert m. induction p as [a|act k IH|c k IH]; simpl; intros m H.
  - auto.
  - intros m' Hm. destruct (H m' Hm) as [Hg Hk]. auto.
  - intros v m' Hm. eauto.
Qed.

Lemma wp_bind {A B} rely guar (p : prog M A) (f : A -> prog M B) post m :
  wp rely guar p (fun a m' => wp rely guar (f a) post m') m ->
  wp rely guar (bind p f) post m.
Proof.
  revert m. induction p as [a|act k IH|c k IH]; simpl; intros m H.
  - by apply H.
  - intros m' Hm. destruct (H m' Hm) as [Hg Hk]. auto.
  - intros v m' Hm. eauto.
Qed.

Lemma wp_ret {A} rely guar (a : A) (post : A -> M -> Prop) m :
  (forall m', rtc rely m m' -> post a m') -> wp rely guar (Ret a) post m.
Proof. done. Qed.

Lemma wp_load {A} rely guar (f : M -> Z) (k : Z -> prog M A) post m :
  (forall m', guar m' m') ->
  (forall m', rtc rely m m' -> wp rely guar (k (f m')) post m') ->
  wp rely guar (Act (fun m => (m, f m)) k) post m.
Proof. intros Hg H m' Hm. split; [apply Hg|by apply H]. Qed.

Lemma wp_act {A} rely guar act (k : Z -> prog M A) post m :
  (forall m', rtc rely m m' ->
     guar m' (act m').1 /\ wp rely guar (k (act m').2) post (act m').1) ->
  wp rely guar (Act act k) post m.
Proof. done. Qed.

Lemma wp_sys {A} rely guar c (k : Z -> prog M A) post m :
  (forall v m', rtc rely m m' -> wp rely guar (k v) post m') ->
  wp rely guar (Sys c k) post m.
Proof. done. Qed.

(** One step of a proved thread is a guaranteed step, or leaves the memory
    alone, and the rest of the thread stays proved. *)
Lemma wp_step {A} rely guar (p p' : prog M A) post m m' :
  wp rely guar p post m -> prog_step (p, m) (p', m') ->
  (guar m m' \/ m' = m) /\ wp rely guar p' post m'.
Proof.
  intros H Hs. inversion Hs; subst; simpl in H.
  - destruct (H _ (rtc_refl _ _)) as [Hg Hk]. split; [by left|done].
  - split; [by right|]. by apply (H v _ (rtc_refl _ _)).
Qed.

(** Two proved threads whose guarantees are what the other relies on: the
    memory only ever moves by guaranteed steps, and when both have ended
    both postconditions hold. *)
Lemma parallel_sound {A B} guar1 guar2 (p : prog M A) (q : prog M B)
    post1 post2 m p' q' m' :
  wp guar2 guar1 p post1 m -> wp guar1 guar2 q post2 m ->
  rtc sys_step (p, q, m) (p', q', m') ->
  rtc (fun x y => guar1 x y \/ guar2 x y) m m' /\
  wp guar2 guar1 p' post1 m' /\ wp guar1 guar2 q' post2 m'.
Proof.
  intros Hp Hq Hrun.
  remember (p, q, m) as s eqn:Es. remember (p', q', m') as s' eqn:Es'.
  revert p q m Es Hp Hq.
  induction Hrun as [s|s t s' Hst Hrun IH]; intros p q m -> Hp Hq.
  - injection Es' as -> -> ->. by split_and!.
  - inversion Hst as [? p1 ? ? m1 Hs|? ? q1 ? m1 Hs]; subst.
    + destruct (wp_step _ _ _ _ _ _ _ Hp Hs) as [Hg Hp1].
      destruct (IH eq_refl p1 q m1 eq_refl Hp1) as (Hr & H).
      { destruct Hg as [Hg| ->]; [|done].
        apply (wp_rely _ _ _ _ _ _ Hq). by apply rtc_once. }
      split; [|done]. destruct Hg as [Hg| ->]; [|done].
      eapply rtc_l; [by left|done].
    + destruct (wp_step _ _ _ _ _ _ _ Hq Hs) as [Hg Hq1].
      destruct (IH eq_refl p q1 m1 eq_refl) as (Hr & H); [|done|].
      { destruct Hg as [Hg| ->]; [|done].
        apply (wp_rely _ _ _ _ _ _ Hp). by apply rtc_once. }
      split; [|done]. destruct Hg as [Hg| ->]; [|done].
      eapply rtc_l; [by right|done].
Qed.

(** An invariant both guarantees preserve holds at every moment. *)
Lemma parallel_invariant {A B} (inv : M -> Prop) guar1 guar2 (p : prog M A)
    (q : prog M B) post1 post2 m p' q' m' :
  (forall x y, guar1 x y -> inv x -> inv y) ->
  (forall x y, guar2 x y -> inv x -> inv y) ->
  inv m -> wp guar2 guar1 p post1 m -> wp guar1 guar2 q post2 m ->
  rtc sys_step (p, q, m) (p', q', m') -> inv m'.
Proof.
  intros H1 H2 Hm Hp Hq Hrun.
  destruct (parallel_sound _ _ _ _ _ _ _ _ _ _ Hp Hq Hrun) as [Hr _].
  clear -H1 H2 Hm Hr. induction Hr as [|x y z [Hxy|Hxy] _ IH]; eauto.
Qed.
End logic.

(** An execution alone is one of the interleavings. *)
Lemma run_steps {M A} answers (p : prog M A) m a m' :
  run answers p m = Some (a, m') -> rtc prog_step (p, m) (Ret a, m').
Proof.
  revert answers m. induction p as [b|act k IH|c k IH]; intros answers m H;
    cbn [run] in H.
  - by injection H as -> ->.
  - pose proof (step_act act k m) as Hs. destruct (act m) as [m1 v].
    eapply rtc_l; [exact Hs|]. by apply (IH v answers).
  - destruct answers as [|v rest]; [done|].
    eapply rtc_l; [apply (step_sys c k v)|]. by apply (IH v rest).
Qed.

(** A program that makes no system call runs the same in front of another. *)
Lemma run_bind {M A B} (p : prog M A) (f : A -> prog M B) answers m a m' :
  run [] p m = Some (a, m') -> run answers (bind p f) m = run answers (f a) m'.
Proof.
  revert m. induction p as [b|act k IH|c k IH]; intros m H; cbn [run bind] in *.
  - by injection H as -> ->.
  - destruct (act m) as [m1 v]. by apply IH.
  - done.
Qed.

Lemma left_runs {M A B} answers (p : prog M A) (q : prog M B) m a m' :
  run answers p m = Some (a, m') ->
  rtc sys_step (p, q, m) (Ret a, q, m').
Proof.
  intros H%run_steps. remember (p, m) as s eqn:Es.
  remember (Ret a, m') as s' eqn:Es'. revert p m Es.
  induction H as [s|s [p1 m1] s' Hs _ IH]; intros p m ->.
  - by injection Es' as -> ->.
  - eapply rtc_l; [by apply step_left|]. by apply IH.
Qed.

Lemma right_runs {M A B} answers (p : prog M A) (q : prog M B) m b m' :
  run answers q m = Some (b, m') ->
  rtc sys_step (p, q, m) (p, Ret b, m').
Proof.
  intros H%run_steps. remember (q, m) as s eqn:Es.
  remember (Ret b, m') as s' eqn:Es'. revert q m Es.
  induction H as [s|s [q1 m1] s' Hs _ IH]; intros q m ->.
  - by injection Es' as -> ->.
  - eapply rtc_l; [by apply step_right|]. by apply IH.
Qed.

#[global] Arguments wp : simpl never.

(** ** System calls *)

Definition EINTR : Z := 4.

(** [clock_gettime]: the nanoseconds, or a negative value when it fails. *)
Definition monotonic_ns {M} : prog M Z :=
  Sys ClockMonotonic (fun now => Ret (if now <? 0 then - 1 else now)).

(** The answer of a futex call is 0 or the errno it failed with. *)
Definition futex_wake {M} (word : Z) : prog M Z :=
  Sys (FutexWake word) (fun errno => Ret (if errno =? 0 then 0 else - errno)).

Definition futex_wait_until {M} (word expected deadline_ns : Z) : prog M Z :=
  do now_ns <- monotonic_ns ;;
  if now_ns <? 0 then Ret (- EIO)
  else if deadline_ns <=? now_ns then Ret (- ETIMEDOUT)
  else
    Sys (FutexWait word expected (deadline_ns - now_ns)) (fun errno =>
      Ret (if (errno =? 0) || (errno =? EAGAIN) || (errno =? EINTR)
           then 0 else - errno)).

Definition deadline_from_timeout {M} (timeout_ms : Z) : prog M (result Z) :=
  if timeout_ms =? 0 then Ret (Err (- EINVAL)) else
  do now_ns <- monotonic_ns ;;
  if now_ns <? 0 then Ret (Err (- EIO)) else
  let timeout_ns := timeout_ms * 1000000 in
  if INT64_MAX - now_ns <? timeout_ns then Ret (Err (- EOVERFLOW)) else
  Ret (Ok (now_ns + timeout_ns)).

(** ** Quiet programs *)

(** A program that only loads and calls the system ends with the memory moved
    by the other side alone. *)
Section quietness.
Context {M : Type} (rely guar : M -> M -> Prop).
Context (guar_refl : forall m, guar m m).

Definition quiet {A} (p : prog M A) : Prop :=
  forall (post : A -> M -> Prop) m,
    (forall a m', rtc rely m m' -> post a m') -> wp rely guar p post m.

Lemma quiet_ret {A} (a : A) : quiet (Ret a).
Proof using Type. intros post m H. apply wp_ret. auto. Qed.

Lemma quiet_load {A} (f : M -> Z) (k : Z -> prog M A) :
  (forall v, quiet (k v)) -> quiet (Act (fun m => (m, f m)) k).
Proof using guar_refl.
  intros Hk post m H. apply wp_load; [done|]. intros m' Hm.
  apply Hk. intros a m2 Hm2. apply H. by etransitivity.
Qed.

Lemma quiet_sys {A} s (k : Z -> prog M A) :
  (forall v, quiet (k v)) -> quiet (Sys s k).
Proof using Type.
  intros Hk post m H. apply wp_sys. intros v m' Hm. apply Hk.
  intros a m2 Hm2. apply H. by etransitivity.
Qed.

Lemma quiet_bind {A B} (p : prog M A) (f : A -> prog M B) :
  quiet p -> (forall a, quiet (f a)) -> quiet (bind p f).
Proof using Type.
  intros Hp Hf post m H. apply wp_bind, Hp. intros a m' Hm. apply Hf.
  intros b m2 Hm2. apply H. by etransitivity.
Qed.

Lemma quiet_if {A} (b : bool) (p q : prog M A) :
  quiet p -> quiet q -> quiet (if b then p else q).
Proof using Type. by destruct b. Qed.

Lemma quiet_clock : quiet monotonic_ns.
Proof using Type. apply quiet_sys. intros v. apply quiet_ret. Qed.

Lemma quiet_wake word : quiet (futex_wake word).
Proof using Type. apply quiet_sys. intros v. apply quiet_ret. Qed.

Lemma quiet_wait word expected deadline :
  quiet (futex_wait_until word expected deadline).
Proof using Type.
  apply quiet_bind; [apply quiet_clock|]. intros now.
  apply quiet_if; [apply quiet_ret|]. apply quiet_if; [apply quiet_ret|].
  apply quiet_sys. intros v. apply quiet_ret.
Qed.

Lemma quiet_deadline timeout_ms : quiet (deadline_from_timeout timeout_ms).
Proof using Type.
  apply quiet_if; [apply quiet_ret|].
  apply quiet_bind; [apply quiet_clock|]. intros now.
  apply quiet_if; [apply quiet_ret|]. cbn zeta.
  apply quiet_if; apply quiet_ret.
Qed.
End quietness.

(** ** Threads of calls *)

(** A thread makes calls one after the other.  The list is arbitrary, so it
    covers a caller that chooses each call by the results of the earlier
    ones. *)
Fixpoint thread {M C} (body : C -> prog M unit) (calls : list C) : prog M unit :=
  match calls with
  | [] => Ret tt
  | c :: calls => do _ <- body c ;; thread body calls
  end.

Section threads.
Context {M C : Type} (rely guar : M -> M -> Prop) (rest : M -> Prop).
Context (stable : forall c d, rtc rely c d -> rest c -> rest d).

(** [rest] holds between the calls of the thread. *)
Lemma thread_wp (body : C -> prog M unit) calls m :
  (forall sc d, sc ∈ calls -> rest d -> wp rely guar (body sc) (fun _ => rest) d) ->
  rest m -> wp rely guar (thread body calls) (fun _ => rest) m.
Proof using stable.
  revert m. induction calls as [|sc calls IH]; intros m Hbody Hm; cbn [thread].
  - apply wp_ret. intros d Hd. by apply (stable m).
  - apply wp_bind. eapply wp_mono; [|apply Hbody; [constructor|done]].
    intros ? d Hd. apply IH; [|done]. intros sc' e Hin. apply Hbody.
    by constructor.
Qed.

(** Forget the result of a call. *)
Lemma call_wp {A} (p : prog M A) (post : A -> M -> Prop) m :
  (forall a d, post a d -> rest d) ->
  wp rely guar p post m ->
  wp rely guar (bind p (fun _ => Ret tt)) (fun _ => rest) m.
Proof using stable.
  intros Hpost H. apply wp_bind. eapply wp_mono; [|exact H].
  intros a d Ha. apply wp_ret. intros e He. apply (stable d); eauto.
Qed.
End threads.
