(* ===== verification/FrameSync.v ===== *)
(** * FrameSync: the single-frame hand-off page

    Models src/frame_sync.c and include/bvb/frame_sync.h.  A producer and a
    consumer process map one control record; each publishes its sequence
    number with release stores and waits for the other's with a futex.  Every
    access to a changing word is one atomic step of a [prog]; the header words
    are written before the page is shared, so validating them is one step. *)

From stdpp Require Import relations.
From S2P Require Import Prelude Abi Shared.

Record bvb_frame_sync_control := mk_frame_sync_control {
  fs_magic : Z;
  fs_version : Z;
  fs_control_bytes : Z;
  fs_frame_count : Z;
  fs_producer_sequence : Z;
  fs_consumer_sequence : Z;
  fs_producer_status : Z;
  fs_consumer_status : Z;
  fs_reserved : list Z
}.
Abbreviation control := bvb_frame_sync_control.

Definition set_producer_sequence (v : Z) (c : control) : control :=
  mk_frame_sync_control (fs_magic c) (fs_version c) (fs_control_bytes c)
    (fs_frame_count c) v (fs_consumer_sequence c) (fs_producer_status c)
    (fs_consumer_status c) (fs_reserved c).
Definition set_consumer_sequence (v : Z) (c : control) : control :=
  mk_frame_sync_control (fs_magic c) (fs_version c) (fs_control_bytes c)
    (fs_frame_count c) (fs_producer_sequence c) v (fs_producer_status c)
    (fs_consumer_status c) (fs_reserved c).
Definition set_producer_status (v : Z) (c : control) : control :=
  mk_frame_sync_control (fs_magic c) (fs_version c) (fs_control_bytes c)
    (fs_frame_count c) (fs_producer_sequence c) (fs_consumer_sequence c) v
    (fs_consumer_status c) (fs_reserved c).
Definition set_consumer_status (v : Z) (c : control) : control :=
  mk_frame_sync_control (fs_magic c) (fs_version c) (fs_control_bytes c)
    (fs_frame_count c) (fs_producer_sequence c) (fs_consumer_sequence c)
    (fs_producer_status c) v (fs_reserved c).

(** The futex words, by their offset in the record. *)
Definition producer_word : Z := 12.
Definition consumer_word : Z := 16.

(** ** Operations *)

(** A pointer is an address; its contents are the shared memory. *)
Definition aligned_u32 (address : Z) : bool := address mod 4 =? 0.

Definition bvb_frame_sync_initialize (address : ptr Z)
    (length frame_count : Z) : result control :=
  deref address := address or (- EINVAL) ;;
  fail_if negb (aligned_u32 address) ||
          (length <? BVB_FRAME_SYNC_REGION_BYTES) || (frame_count =? 0) ||
          (BVB_FRAME_SYNC_MAX_FRAMES <? frame_count) with (- EINVAL) ;;
  Ok (mk_frame_sync_control BVB_FRAME_SYNC_MAGIC BVB_FRAME_SYNC_VERSION
        BVB_FRAME_SYNC_CONTROL_BYTES frame_count 0 0 0 0 (replicate 9 0)).

Definition header_code (address : ptr Z) (c : control) : Z :=
  match address with
  | None => - EINVAL
  | Some address =>
      if negb (aligned_u32 address) ||
         negb (fs_magic c =? BVB_FRAME_SYNC_MAGIC) ||
         negb (fs_version c =? BVB_FRAME_SYNC_VERSION) ||
         negb (fs_control_bytes c =? BVB_FRAME_SYNC_CONTROL_BYTES) ||
         (fs_frame_count c =? 0) ||
         (BVB_FRAME_SYNC_MAX_FRAMES <? fs_frame_count c)
      then - EINVAL else 0
  end.

Definition bvb_frame_sync_validate (address : ptr Z) : prog control Z :=
  load status := header_code address ;;
  Ret status.

Definition peer_failure : prog control Z :=
  load producer := fs_producer_status ;;
  if producer <? 0 then Ret producer else
  load consumer := fs_consumer_status ;;
  Ret (if consumer <? 0 then consumer else 0).

Definition bvb_frame_sync_publish_producer (address : ptr Z)
    (sequence : Z) : prog control Z :=
  do status <- bvb_frame_sync_validate address ;;
  if negb (status =? 0) then Ret status else
  do status <- peer_failure ;;
  if negb (status =? 0) then Ret status else
  load current := fs_producer_sequence ;;
  load consumed := fs_consumer_sequence ;;
  load frame_count := fs_frame_count ;;
  if (sequence =? 0) || (frame_count <? sequence) ||
     (current =? UINT32_MAX) || negb (sequence =? u32 (current + 1))
  then Ret (- ERANGE) else
  if negb (consumed =? current) then Ret (- EBUSY) else
  store (set_producer_sequence sequence) ;;
  futex_wake producer_word.

Definition bvb_frame_sync_publish_consumer (address : ptr Z)
    (sequence : Z) : prog control Z :=
  do status <- bvb_frame_sync_validate address ;;
  if negb (status =? 0) then Ret status else
  do status <- peer_failure ;;
  if negb (status =? 0) then Ret status else
  load produced := fs_producer_sequence ;;
  load current := fs_consumer_sequence ;;
  load frame_count := fs_frame_count ;;
  if (sequence =? 0) || (frame_count <? sequence) ||
     (current =? UINT32_MAX) || negb (sequence =? u32 (current + 1))
  then Ret (- ERANGE) else
  if negb (produced =? sequence) then Ret (- EBUSY) else
  store (set_consumer_sequence sequence) ;;
  futex_wake consumer_word.

(** The [for (;;)] of [wait_sequence], cut after [rounds] iterations: [None]
    is a wait that is still going on.  The result pairs the code with the
    sequence stored through the output pointer. *)
Fixpoint wait_loop (rounds : nat) (get : control -> Z) (word : Z)
    (after_sequence deadline_ns : Z) : prog control (option (result Z)) :=
  match rounds with
  | O => Ret None
  | S rounds =>
      do failure <- peer_failure ;;
      if negb (failure =? 0) then Ret (Some (Err failure)) else
      load current := get ;;
      if after_sequence <? current then Ret (Some (Ok current)) else
      if current <? after_sequence then Ret (Some (Err (- EPROTO))) else
      do status <- futex_wait_until word current deadline_ns ;;
      if negb (status =? 0) then Ret (Some (Err status)) else
      wait_loop rounds get word after_sequence deadline_ns
  end.

(** [want_sequence] is [sequence != NULL]. *)
Definition wait_sequence (rounds : nat) (get : control -> Z) (word : Z)
    (after_sequence timeout_ms : Z) (want_sequence : bool) :
    prog control (option (result Z)) :=
  load frame_count := fs_frame_count ;;
  if negb want_sequence || (timeout_ms =? 0) ||
     (frame_count <? after_sequence)
  then Ret (Some (Err (- EINVAL))) else
  do started_ns <- monotonic_ns ;;
  if started_ns <? 0 then Ret (Some (Err (- EIO))) else
  let timeout_ns := timeout_ms * 1000000 in
  if INT64_MAX - started_ns <? timeout_ns
  then Ret (Some (Err (- EOVERFLOW))) else
  wait_loop rounds get word after_sequence (started_ns + timeout_ns).

Definition bvb_frame_sync_wait_producer (rounds : nat) (address : ptr Z)
    (after_sequence timeout_ms : Z) (want_sequence : bool) :
    prog control (option (result Z)) :=
  do status <- bvb_frame_sync_validate address ;;
  if negb (status =? 0) then Ret (Some (Err status)) else
  wait_sequence rounds fs_producer_sequence producer_word after_sequence
    timeout_ms want_sequence.

Definition bvb_frame_sync_wait_consumer (rounds : nat) (address : ptr Z)
    (after_sequence timeout_ms : Z) (want_sequence : bool) :
    prog control (option (result Z)) :=
  do status <- bvb_frame_sync_validate address ;;
  if negb (status =? 0) then Ret (Some (Err status)) else
  wait_sequence rounds fs_consumer_sequence consumer_word after_sequence
    timeout_ms want_sequence.

Definition publish_failure (address : ptr Z)
    (set_status : Z -> control -> control) (status : Z) : prog control Z :=
  do result <- bvb_frame_sync_validate address ;;
  if negb (result =? 0) then Ret result else
  if 0 <=? status then Ret (- EINVAL) else
  store (set_status status) ;;
  do result <- futex_wake producer_word ;;
  do consumer_wake <- futex_wake consumer_word ;;
  Ret (if negb (result =? 0) then result else consumer_wake).

Definition bvb_frame_sync_fail_producer (address : ptr Z) (status : Z) :
    prog control Z := publish_failure address set_producer_status status.
Definition bvb_frame_sync_fail_consumer (address : ptr Z) (status : Z) :
    prog control Z := publish_failure address set_consumer_status status.

(** ** The calls of the two processes *)

Inductive sync_call : Type :=
| Publish (sequence : Z)
| Await (rounds : nat) (after_sequence timeout_ms : Z)
| FailSelf (status : Z).

Definition producer_call (address : Z) (c : sync_call) : prog control unit :=
  match c with
  | Publish s => do _ <- bvb_frame_sync_publish_producer (Some address) s ;; Ret tt
  | Await n a t =>
      do _ <- bvb_frame_sync_wait_consumer n (Some address) a t true ;; Ret tt
  | FailSelf s => do _ <- bvb_frame_sync_fail_producer (Some address) s ;; Ret tt
  end.
Definition consumer_call (address : Z) (c : sync_call) : prog control unit :=
  match c with
  | Publish s => do _ <- bvb_frame_sync_publish_consumer (Some address) s ;; Ret tt
  | Await n a t =>
      do _ <- bvb_frame_sync_wait_producer n (Some address) a t true ;; Ret tt
  | FailSelf s => do _ <- bvb_frame_sync_fail_consumer (Some address) s ;; Ret tt
  end.

(** ** The hand-off invariant *)

Definition same_header (c d : control) : Prop :=
  fs_magic d = fs_magic c /\ fs_version d = fs_version c /\
  fs_control_bytes d = fs_control_bytes c /\
  fs_frame_count d = fs_frame_count c.

(** The consumer is at most one frame behind and never ahead. *)
Record handoff (c : control) : Prop := {
  ho_count : 0 < fs_frame_count c <= BVB_FRAME_SYNC_MAX_FRAMES;
  ho_order : 0 <= fs_consumer_sequence c <= fs_producer_sequence c;
  ho_one : fs_producer_sequence c <= fs_consumer_sequence c + 1;
  ho_bound : fs_producer_sequence c <= fs_frame_count c
}.

(** What one access of the producer may do to the page. *)
Definition producer_acts (c d : control) : Prop :=
  same_header c d /\
  fs_consumer_sequence d = fs_consumer_sequence c /\
  fs_consumer_status d = fs_consumer_status c /\
  (fs_producer_status d = fs_producer_status c \/ fs_producer_status d < 0) /\
  (fs_producer_sequence d = fs_producer_sequence c \/
   (fs_producer_sequence d = fs_producer_sequence c + 1 /\
    fs_consumer_sequence c = fs_producer_sequence c /\
    fs_producer_sequence d <= fs_frame_count c)).

(** What one access of the consumer may do. *)
Definition consumer_acts (c d : control) : Prop :=
  same_header c d /\
  fs_producer_sequence d = fs_producer_sequence c /\
  fs_producer_status d = fs_producer_status c /\
  (fs_consumer_status d = fs_consumer_status c \/ fs_consumer_status d < 0) /\
  (fs_consumer_sequence d = fs_consumer_sequence c \/
   (fs_consumer_sequence d = fs_consumer_sequence c + 1 /\
    fs_consumer_sequence d = fs_producer_sequence c)).

Lemma producer_acts_refl c : producer_acts c c.
Proof. unfold producer_acts, same_header. auto 10. Qed.
Lemma consumer_acts_refl c : consumer_acts c c.
Proof. unfold consumer_acts, same_header. auto 10. Qed.
#[local] Hint Resolve producer_acts_refl consumer_acts_refl : core.

Lemma producer_handoff c d : producer_acts c d -> handoff c -> handoff d.
Proof.
  intros ((_ & _ & _ & Hfc) & Hc & _ & _ & Hp) [Hn Ho H1 Hb].
  constructor; lia.
Qed.
Lemma consumer_handoff c d : consumer_acts c d -> handoff c -> handoff d.
Proof.
  intros ((_ & _ & _ & Hfc) & Hc & _ & _ & Hp) [Hn Ho H1 Hb].
  constructor; lia.
Qed.

(** What the other side's accesses preserve, seen from one side. *)
Lemma consumer_acts_rtc c d :
  rtc consumer_acts c d -> handoff c ->
  handoff d /\ fs_producer_sequence d = fs_producer_sequence c /\
  fs_consumer_sequence c <= fs_consumer_sequence d /\
  fs_frame_count d = fs_frame_count c.
Proof.
  induction 1 as [c|c d e Hcd _ IH]; intros Hh; [split_and!; done || lia|].
  destruct (IH (consumer_handoff _ _ Hcd Hh)) as (? & ? & ? & ?).
  destruct Hcd as ((_ & _ & _ & Hfc) & Hp & _ & _ & Hc).
  split_and!; [done|lia..].
Qed.
Lemma producer_acts_rtc c d :
  rtc producer_acts c d -> handoff c ->
  handoff d /\ fs_consumer_sequence d = fs_consumer_sequence c /\
  fs_producer_sequence c <= fs_producer_sequence d /\
  fs_frame_count d = fs_frame_count c.
Proof.
  induction 1 as [c|c d e Hcd _ IH]; intros Hh; [split_and!; done || lia|].
  destruct (IH (producer_handoff _ _ Hcd Hh)) as (? & ? & ? & ?).
  destruct Hcd as ((_ & _ & _ & Hfc) & Hp & _ & _ & Hc).
  split_and!; [done|lia..].
Qed.

(** ** Every operation, against any interference

    [sync_side rely guar]: the laws the two sides share, so that the helper
    operations are proved once. *)
Record sync_side (rely guar : control -> control -> Prop) : Prop := {
  side_refl c : guar c c;
  side_handoff c d : rely c d -> handoff c -> handoff d
}.

Lemma producer_side : sync_side consumer_acts producer_acts.
Proof. split; [done|exact consumer_handoff]. Qed.
Lemma consumer_side : sync_side producer_acts consumer_acts.
Proof. split; [done|exact producer_handoff]. Qed.

Section side.
Context (rely guar : control -> control -> Prop).
Context (side : sync_side rely guar).

Lemma rely_handoff c d : rtc rely c d -> handoff c -> handoff d.
Proof using side.
  induction 1 as [|x y z Hxy _ IH]; [done|]. intros Hh.
  by apply IH, (side_handoff _ _ side x y).
Qed.

Lemma quiet_validate address :
  quiet rely guar (bvb_frame_sync_validate address).
Proof using side.
  apply quiet_load; [apply side|]. intros v. apply quiet_ret.
Qed.

Lemma quiet_peer_failure : quiet rely guar peer_failure.
Proof using side.
  apply quiet_load; [apply side|]. intros v. apply quiet_if; [apply quiet_ret|].
  apply quiet_load; [apply side|]. intros w. apply quiet_ret.
Qed.

(** A finished wait returns a sequence past the one it was given, which the
    awaited side had published. *)
Definition awaited (get : control -> Z) (after_sequence : Z)
    (r : option (result Z)) (c : control) : Prop :=
  handoff c /\
  match r with
  | Some (Ok sequence) => after_sequence < sequence <= get c
  | _ => True
  end.

Context (get : control -> Z).
Context (get_grows : forall c d, rely c d -> handoff c -> get c <= get d).

Lemma get_grows_rtc c d : rtc rely c d -> handoff c -> get c <= get d.
Proof using side get_grows.
  induction 1 as [|x y z Hxy _ IH]; intros Hh; [lia|].
  pose proof (get_grows _ _ Hxy Hh). pose proof (side_handoff _ _ side _ _ Hxy Hh).
  intuition lia.
Qed.

(** A branch that ends the wait with a failure. *)
Lemma awaited_err after e c :
  handoff c ->
  wp rely guar (Ret (Some (Err e))) (awaited get after) c.
Proof using side.
  intros Hh. apply wp_ret. intros d Hd. split; [by apply (rely_handoff c)|done].
Qed.

Lemma wait_loop_wp rounds word after deadline c :
  handoff c ->
  wp rely guar (wait_loop rounds get word after deadline)
    (awaited get after) c.
Proof using side get_grows.
  revert c. induction rounds as [|n IH]; intros c Hh; cbn [wait_loop].
  { apply wp_ret. intros d Hd. split; [by apply (rely_handoff c)|done]. }
  apply wp_bind, quiet_peer_failure. intros failure d Hd.
  pose proof (rely_handoff _ _ Hd Hh) as Hhd.
  case_match; [by apply awaited_err|].
  apply wp_load; [apply (side_refl _ _ side)|]. intros e He.
  pose proof (rely_handoff _ _ He Hhd) as Hhe.
  destruct (Z.ltb_spec after (get e)).
  { apply wp_ret. intros f Hf. split; [by apply (rely_handoff e)|].
    pose proof (get_grows_rtc _ _ Hf Hhe). lia. }
  case_match; [by apply awaited_err|].
  apply wp_bind, quiet_wait. intros status f Hf.
  pose proof (rely_handoff _ _ Hf Hhe) as Hhf.
  case_match; [by apply awaited_err|by apply IH].
Qed.

Lemma wait_sequence_wp rounds word after timeout want c :
  handoff c ->
  wp rely guar (wait_sequence rounds get word after timeout want)
    (awaited get after) c.
Proof using side get_grows.
  intros Hh. apply wp_load; [apply (side_refl _ _ side)|]. intros d Hd.
  pose proof (rely_handoff _ _ Hd Hh) as Hhd.
  case_match; [by apply awaited_err|].
  apply wp_bind, quiet_clock. intros started e He.
  pose proof (rely_handoff _ _ He Hhd) as Hhe.
  case_match; [by apply awaited_err|]. cbn zeta.
  case_match; [by apply awaited_err|]. by apply wait_loop_wp.
Qed.
End side.

(** ** Publishing *)

(** A call that returns 0 published its sequence number. *)
Definition published (get : control -> Z) (sequence : Z) (code : Z)
    (c : control) : Prop :=
  handoff c /\ (code = 0 -> get c = sequence).

Lemma published_err rely guar (side : sync_side rely guar) get sequence e c :
  handoff c -> e <> 0 -> wp rely guar (Ret e) (published get sequence) c.
Proof.
  intros Hh He. apply wp_ret. intros d Hd.
  split; [by apply (rely_handoff _ _ side c)|done].
Qed.

(** Carry the hand-off invariant over the interference of hypothesis [H]. *)
Ltac follow H :=
  lazymatch type of H with
  | rtc consumer_acts ?c ?d =>
      let Hh := fresh "Hh" in let Hp := fresh "Hp" in
      let Hc := fresh "Hc" in let Hf := fresh "Hf" in
      destruct (consumer_acts_rtc c d H ltac:(assumption)) as (Hh & Hp & Hc & Hf)
  | rtc producer_acts ?c ?d =>
      let Hh := fresh "Hh" in let Hp := fresh "Hp" in
      let Hc := fresh "Hc" in let Hf := fresh "Hf" in
      destruct (producer_acts_rtc c d H ltac:(assumption)) as (Hh & Hc & Hp & Hf)
  end.

(** The two status tests every operation starts with. *)
Ltac refuse side :=
  apply published_err; [exact side | assumption | lia || done].

Lemma publish_producer_wp address sequence c :
  handoff c ->
  wp consumer_acts producer_acts (bvb_frame_sync_publish_producer address sequence)
    (published fs_producer_sequence sequence) c.
Proof.
  intros Hh. unfold bvb_frame_sync_publish_producer.
  apply wp_bind, (quiet_validate _ _ producer_side). intros st d Hd. follow Hd.
  destruct (Z.eqb_spec st 0); cbn [negb]; [|refuse producer_side].
  apply wp_bind, (quiet_peer_failure _ _ producer_side). intros pf g Hg. follow Hg.
  destruct (Z.eqb_spec pf 0); cbn [negb]; [|refuse producer_side].
  apply wp_load; [done|]. intros h Hch. follow Hch.
  apply wp_load; [done|]. intros i Hi. follow Hi.
  apply wp_load; [done|]. intros j Hj. follow Hj.
  case_match eqn:Hrange; [refuse producer_side|].
  destruct (Z.eqb_spec (fs_consumer_sequence i) (fs_producer_sequence h));
    cbn [negb]; [|refuse producer_side].
  bool_hyps.
  assert (Hs : sequence = fs_producer_sequence h + 1).
  { rewrite (u32_small (fs_producer_sequence h + 1)) in *; [lia|].
    apply is_u32_spec. destruct Hh2; lia. }
  apply wp_act. intros k Hk. cbn [fst snd]. follow Hk.
  assert (Hact : producer_acts k (set_producer_sequence sequence k)).
  { unfold producer_acts, same_header. cbn. destruct Hh5.
    split_and!; auto; right; lia. }
  split; [done|]. apply quiet_wake. intros code l Hl.
  pose proof (producer_handoff _ _ Hact ltac:(assumption)) as Hnew. follow Hl.
  by split.
Qed.

Lemma publish_consumer_wp address sequence c :
  handoff c ->
  wp producer_acts consumer_acts (bvb_frame_sync_publish_consumer address sequence)
    (published fs_consumer_sequence sequence) c.
Proof.
  intros Hh. unfold bvb_frame_sync_publish_consumer.
  apply wp_bind, (quiet_validate _ _ consumer_side). intros st d Hd. follow Hd.
  destruct (Z.eqb_spec st 0); cbn [negb]; [|refuse consumer_side].
  apply wp_bind, (quiet_peer_failure _ _ consumer_side). intros pf g Hg. follow Hg.
  destruct (Z.eqb_spec pf 0); cbn [negb]; [|refuse consumer_side].
  apply wp_load; [done|]. intros h Hch. follow Hch.
  apply wp_load; [done|]. intros i Hi. follow Hi.
  apply wp_load; [done|]. intros j Hj. follow Hj.
  case_match eqn:Hrange; [refuse consumer_side|].
  destruct (Z.eqb_spec (fs_producer_sequence h) sequence);
    cbn [negb]; [|refuse consumer_side].
  bool_hyps.
  assert (Hs : sequence = fs_consumer_sequence i + 1).
  { rewrite (u32_small (fs_consumer_sequence i + 1)) in *; [lia|].
    apply is_u32_spec. destruct Hh3; lia. }
  apply wp_act. intros k Hk. cbn [fst snd]. follow Hk.
  assert (Hact : consumer_acts k (set_consumer_sequence sequence k)).
  { unfold consumer_acts, same_header. cbn. destruct Hh5.
    split_and!; auto; right; lia. }
  split; [done|]. apply quiet_wake. intros code l Hl.
  pose proof (consumer_handoff _ _ Hact ltac:(assumption)) as Hnew. follow Hl.
  by split.
Qed.

(** Reporting a failure moves no sequence number. *)
Lemma publish_failure_wp rely guar (side : sync_side rely guar) address set
    status c :
  (forall v d, v < 0 -> guar d (set v d)) ->
  (forall v d, handoff d -> handoff (set v d)) ->
  handoff c ->
  wp rely guar (publish_failure address set status) (fun _ => handoff) c.
Proof.
  intros Hset Hkeep Hh. unfold publish_failure.
  apply wp_bind, (quiet_validate _ _ side). intros st d Hd.
  pose proof (rely_handoff _ _ side _ _ Hd Hh) as Hhd.
  case_match; [apply wp_ret; intros; by apply (rely_handoff _ _ side d)|].
  destruct (Z.leb_spec 0 status);
    [apply wp_ret; intros; by apply (rely_handoff _ _ side d)|].
  apply wp_act. intros e He. cbn [fst snd].
  pose proof (rely_handoff _ _ side _ _ He Hhd) as Hhe.
  split; [by apply Hset|].
  apply wp_bind, quiet_wake. intros r f Hf.
  apply wp_bind, quiet_wake. intros w g Hg.
  apply wp_ret. intros h Hr.
  eapply (rely_handoff _ _ side); [exact Hr|].
  eapply (rely_handoff _ _ side); [exact Hg|].
  eapply (rely_handoff _ _ side); [exact Hf|]. by apply Hkeep.
Qed.

Lemma set_producer_status_acts v d : v < 0 -> producer_acts d (set_producer_status v d).
Proof. intros. unfold producer_acts, same_header. cbn. auto 10. Qed.
Lemma set_consumer_status_acts v d : v < 0 -> consumer_acts d (set_consumer_status v d).
Proof. intros. unfold consumer_acts, same_header. cbn. auto 10. Qed.
Lemma set_producer_status_handoff v d : handoff d -> handoff (set_producer_status v d).
Proof. by intros []. Qed.
Lemma set_consumer_status_handoff v d : handoff d -> handoff (set_consumer_status v d).
Proof. by intros []. Qed.

Lemma wait_consumer_wp rounds address after timeout want c :
  handoff c ->
  wp consumer_acts producer_acts
    (bvb_frame_sync_wait_consumer rounds address after timeout want)
    (awaited fs_consumer_sequence after) c.
Proof.
  intros Hh. apply wp_bind, (quiet_validate _ _ producer_side). intros st d Hd.
  follow Hd. case_match; [by apply awaited_err; [exact producer_side|]|].
  apply wait_sequence_wp; [exact producer_side| |done].
  intros x y (_ & _ & _ & _ & Hseq) _. lia.
Qed.

Lemma wait_producer_wp rounds address after timeout want c :
  handoff c ->
  wp producer_acts consumer_acts
    (bvb_frame_sync_wait_producer rounds address after timeout want)
    (awaited fs_producer_sequence after) c.
Proof.
  intros Hh. apply wp_bind, (quiet_validate _ _ consumer_side). intros st d Hd.
  follow Hd. case_match; [by apply awaited_err; [exact consumer_side|]|].
  apply wait_sequence_wp; [exact consumer_side| |done].
  intros x y (_ & _ & _ & _ & Hseq) _. lia.
Qed.

(** ** Whole threads *)

Lemma producer_thread_wp address calls c :
  handoff c ->
  wp consumer_acts producer_acts (thread (producer_call address) calls)
    (fun _ => handoff) c.
Proof.
  apply thread_wp; [exact (rely_handoff _ _ producer_side)|].
  intros [s|n a t|s] d _ Hh; cbn [producer_call];
    (eapply call_wp; [exact (rely_handoff _ _ producer_side)|..]).
  2: by apply publish_producer_wp. 3: by apply wait_consumer_wp.
  4: apply publish_failure_wp; eauto using producer_side,
       set_producer_status_acts, set_producer_status_handoff.
  all: intros r e Hpost; first [exact Hpost | exact (proj1 Hpost)].
Qed.

Lemma consumer_thread_wp address calls c :
  handoff c ->
  wp producer_acts consumer_acts (thread (consumer_call address) calls)
    (fun _ => handoff) c.
Proof.
  apply thread_wp; [exact (rely_handoff _ _ consumer_side)|].
  intros [s|n a t|s] d _ Hh; cbn [consumer_call];
    (eapply call_wp; [exact (rely_handoff _ _ consumer_side)|..]).
  2: by apply publish_consumer_wp. 3: by apply wait_producer_wp.
  4: apply publish_failure_wp; eauto using consumer_side,
       set_consumer_status_acts, set_consumer_status_handoff.
  all: intros r e Hpost; first [exact Hpost | exact (proj1 Hpost)].
Qed.

Lemma initialize_handoff address length count c :
  is_u32 count = true ->
  bvb_frame_sync_initialize address length count = Ok c -> handoff c.
Proof.
  intros Hu H. unfold bvb_frame_sync_initialize in H.
  destruct address as [a|]; [|done].
  match type of H with (if ?b then _ else _) = _ => destruct b eqn:E end; [done|].
  injection H as <-. bool_hyps. apply is_u32_spec in Hu.
  constructor; cbn; lia.
Qed.

(** ** What the page promises *)

(** C22: from an initialised page, whatever calls the two processes make and
    however their accesses interleave, the consumer is never ahead of the
    producer and never more than one frame behind, and no frame past the
    configured count is published. *)
Theorem frame_sync_handoff_invariant address length count c producer_calls
    consumer_calls p q c' :
  is_u32 count = true ->
  bvb_frame_sync_initialize (Some address) length count = Ok c ->
  rtc sys_step
    (thread (producer_call address) producer_calls,
     thread (consumer_call address) consumer_calls, c)
    (p, q, c') ->
  handoff c'.
Proof.
  intros Hu Hinit Hrun. pose proof (initialize_handoff _ _ _ _ Hu Hinit) as Hh.
  eapply (parallel_invariant handoff producer_acts consumer_acts);
    [exact producer_handoff|exact consumer_handoff|exact Hh
    |by apply producer_thread_wp|by apply consumer_thread_wp|exact Hrun].
Qed.

(** C34: run against any interference of the other process, a publication that
    returns 0 has published its frame, and a wait that returns a sequence saw
    the other side publish it: it is past the one waited on and not past what
    the other side has published. *)
Theorem frame_sync_calls_are_sound address c sequence rounds after timeout :
  handoff c ->
  wp consumer_acts producer_acts
    (bvb_frame_sync_publish_producer address sequence)
    (fun code d => handoff d /\ (code = 0 -> fs_producer_sequence d = sequence))
    c /\
  wp producer_acts consumer_acts
    (bvb_frame_sync_publish_consumer address sequence)
    (fun code d => handoff d /\ (code = 0 -> fs_consumer_sequence d = sequence))
    c /\
  wp consumer_acts producer_acts
    (bvb_frame_sync_wait_consumer rounds address after timeout true)
    (awaited fs_consumer_sequence after) c /\
  wp producer_acts consumer_acts
    (bvb_frame_sync_wait_producer rounds address after timeout true)
    (awaited fs_producer_sequence after) c.
Proof.
  intros Hh. split_and!.
  - by apply publish_producer_wp.
  - by apply publish_consumer_wp.
  - by apply wait_consumer_wp.
  - by apply wait_producer_wp.
Qed.

(** The code a publication of the producer returns on an undisturbed page. *)
Definition publish_producer_code (c : control) (sequence : Z) : Z :=
  if fs_producer_status c <? 0 then fs_producer_status c
  else if fs_consumer_status c <? 0 then fs_consumer_status c
  else if (sequence =? 0) || (fs_frame_count c <? sequence) ||
          negb (sequence =? fs_producer_sequence c + 1) then - ERANGE
  else if negb (fs_consumer_sequence c =? fs_producer_sequence c) then - EBUSY
  else 0.

(** Run alone on a valid page, a publication returns a peer's failure,
    [-ERANGE] for anything but the next frame, [-EBUSY] while the consumer
    still holds the previous frame, and otherwise stores exactly its sequence
    number; every refusal leaves the page unchanged. *)
Theorem publish_producer_alone address c sequence :
  header_code (Some address) c = 0 -> handoff c ->
  run [0] (bvb_frame_sync_publish_producer (Some address) sequence) c =
    let code := publish_producer_code c sequence in
    Some (code, if code =? 0 then set_producer_sequence sequence c else c).
Proof.
  intros Hv [Hn Ho H1 Hb].
  unfold bvb_frame_sync_publish_producer, bvb_frame_sync_validate,
    peer_failure, publish_producer_code.
  cbn [bind run]. rewrite Hv. cbn [negb Z.eqb bind run].
  destruct (Z.ltb_spec (fs_producer_status c) 0) as [Hp|Hp]; cbn [bind run].
  { destruct (Z.eqb_spec (fs_producer_status c) 0); [lia|done]. }
  destruct (Z.ltb_spec (fs_consumer_status c) 0) as [Hc|Hc]; cbn [bind run].
  { destruct (Z.eqb_spec (fs_consumer_status c) 0); [lia|done]. }
  cbn [negb Z.eqb bind run].
  rewrite (u32_small (fs_producer_sequence c + 1)) by (apply is_u32_spec; lia).
  destruct (Z.eqb_spec (fs_producer_sequence c) UINT32_MAX) as [Hm|_];
    [unfold UINT32_MAX in Hm; lia|]. rewrite orb_false_r.
  case_match; [done|]. by case_match.
Qed.

(** One round of a futex wait that wakes without news: the clock reading and
    the errno the call failed with, if any. *)
Definition idle_round (deadline : Z) (round : Z * Z) : Prop :=
  0 <= round.1 < deadline /\
  (round.2 = 0 \/ round.2 = EAGAIN \/ round.2 = EINTR).

(** C39: a wait ends: alone on a page without news, after any number of idle
    wake-ups, the first clock reading at or past the deadline makes it return
    [-ETIMEDOUT], and the page is unchanged. *)
Theorem frame_sync_wait_times_out address c after timeout started idle now
    rounds :
  header_code (Some address) c = 0 ->
  fs_producer_status c = 0 -> fs_consumer_status c = 0 ->
  fs_consumer_sequence c = after -> 0 <= after <= fs_frame_count c ->
  0 < timeout -> 0 <= started -> started + timeout * 1000000 <= INT64_MAX ->
  Forall (idle_round (started + timeout * 1000000)) idle ->
  started + timeout * 1000000 <= now -> (length idle < rounds)%nat ->
  run (started :: flat_map (fun r => [r.1; r.2]) idle ++ [now])
    (bvb_frame_sync_wait_consumer rounds (Some address) after timeout true) c =
  Some (Some (Err (- ETIMEDOUT)), c).
Proof.
  intros Hv Hp Hc Hseq Ha Ht Hs Hmax Hidle Hnow Hr.
  unfold bvb_frame_sync_wait_consumer, bvb_frame_sync_validate, wait_sequence.
  cbn [bind run]. rewrite Hv. cbn [negb Z.eqb bind run orb].
  destruct (Z.eqb_spec timeout 0); [lia|].
  destruct (Z.ltb_spec (fs_frame_count c) after); [lia|]. cbn [bind run orb].
  cbn [monotonic_ns bind run].
  rewrite !(proj2 (Z.ltb_ge started 0)) by lia.
  destruct (Z.ltb_spec (INT64_MAX - started) (timeout * 1000000)); [lia|].
  assert (Hpos : 0 <= now) by lia.
  revert Hnow Hidle. generalize (started + timeout * 1000000) as deadline.
  intros deadline Hnow Hidle. revert rounds Hr.
  induction Hidle as [|[t e] idle [Ht' He] _ IH]; intros [|rounds] Hr;
    cbn [length] in Hr; try lia;
    cbn [flat_map app wait_loop bind run peer_failure];
    rewrite Hp; cbn [Z.ltb Z.compare bind run]; rewrite Hc;
    cbn [Z.ltb Z.compare bind run negb Z.eqb]; rewrite Hseq;
    rewrite Z.ltb_irrefl; cbn [bind run futex_wait_until monotonic_ns fst snd].
  - rewrite !(proj2 (Z.ltb_ge now 0)) by lia.
    destruct (Z.leb_spec deadline now); [done|lia].
  - cbn [fst snd] in Ht', He. rewrite !(proj2 (Z.ltb_ge t 0)) by lia.
    destruct (Z.leb_spec deadline t); [lia|].
    cbn [bind run].
    replace ((e =? 0) || (e =? EAGAIN) || (e =? EINTR)) with true by
      (destruct He as [->|[->| ->]]; done).
    cbn [negb Z.eqb]. apply IH. lia.
Qed.

(** ** A concrete page *)

Definition page0 : control :=
  mk_frame_sync_control BVB_FRAME_SYNC_MAGIC BVB_FRAME_SYNC_VERSION
    BVB_FRAME_SYNC_CONTROL_BYTES 3 0 0 0 0 (replicate 9 0).

Lemma page0_handoff : handoff page0.
Proof. constructor; cbn; lia. Qed.

(** The producer publishes frame 1 and the consumer takes it. *)
Lemma frame_sync_handoff_invariant_witness :
  handoff (set_consumer_sequence 1 (set_producer_sequence 1 page0)).
Proof.
  apply (frame_sync_handoff_invariant 4096 4096 3 page0 [Publish 1]
           [Publish 1] (Ret tt) (Ret tt));
    [vm_compute; reflexivity | vm_compute; reflexivity |].
  etransitivity.
  - apply (left_runs [0]). vm_compute. reflexivity.
  - apply (right_runs [0]). vm_compute. reflexivity.
Defined.

(** Against the silent consumer the guarantee of the postcondition is about
    the page itself. *)
Lemma frame_sync_calls_are_sound_witness :
  wp consumer_acts producer_acts (bvb_frame_sync_publish_producer (Some 4096) 1)
    (fun code d => handoff d /\ (code = 0 -> fs_producer_sequence d = 1)) page0.
Proof.
  apply (frame_sync_calls_are_sound (Some 4096) page0 1 0 0 0).
  exact page0_handoff.
Defined.

Lemma publish_producer_alone_witness :
  run [0] (bvb_frame_sync_publish_producer (Some 4096) 1) page0 =
  Some (0, set_producer_sequence 1 page0).
Proof.
  rewrite (publish_producer_alone 4096 page0 1);
    [reflexivity | reflexivity | exact page0_handoff].
Defined.

Lemma frame_sync_wait_times_out_witness :
  run [10; 500; 11; 2000000]
    (bvb_frame_sync_wait_consumer 2 (Some 4096) 0 1 true) page0 =
  Some (Some (Err (- ETIMEDOUT)), page0).
Proof.
  apply (frame_sync_wait_times_out 4096 page0 0 1 10 [(500, 11)] 2000000 2);
    try reflexivity; try (vm_compute; lia).
  - cbn. lia.
  - lia.
  - unfold INT64_MAX. lia.
  - repeat constructor; cbn; unfold EAGAIN; lia.
  - lia.
Defined.
