(* ===== verification/FrameRing.v ===== *)
(** * FrameRing: the image ring between the game and the Activity

    Models src/wsi_frame_ring.c and include/bvb/wsi_frame_ring.h.  A slot goes
    from available to acquired to presented and back; the producer acquires
    and presents, the consumer waits for the next frame in order and releases
    it.  Every access to a changing word is one atomic step of a [prog].

    The memory of the programs is the ring paired with [ghost] bookkeeping:
    auxiliary variables the proofs use to say who is in the middle of what.
    No operation reads them, so they do not influence any result. *)

From stdpp Require Import relations.
From S2P Require Import Prelude Abi Shared.

Record bvb_wsi_frame_ring := mk_wsi_frame_ring {
  wr_magic : Z;
  wr_version : Z;
  wr_control_bytes : Z;
  wr_slot_count : Z;
  wr_flags : Z;
  wr_generation : Z;
  wr_next_acquire : Z;
  wr_producer_sequence : Z;
  wr_consumer_sequence : Z;
  wr_producer_status : Z;
  wr_consumer_status : Z;
  wr_slot_state : list Z;
  wr_slot_sequence : list Z;
  wr_reserved : list Z
}.

(** [assigned]: the last sequence number given to a slot.  [taken]: the last
    one cleared by the consumer.  [presenting]: the slot the producer has
    marked presented and not yet numbered.  [clearing]: the slot whose number
    the consumer has cleared and which it has not yet made available. *)
Record ghost := mk_ghost {
  assigned : Z;
  taken : Z;
  presenting : option Z;
  clearing : option Z
}.

Record ring := mk_ring {
  shared : bvb_wsi_frame_ring;
  aux : ghost
}.

(** ** Accessors *)

Definition slot_state (r : ring) (slot : Z) : Z :=
  nth (Z.to_nat slot) (wr_slot_state (shared r)) 0.
Definition slot_sequence (r : ring) (slot : Z) : Z :=
  nth (Z.to_nat slot) (wr_slot_sequence (shared r)) 0.
Definition slot_count (r : ring) : Z := wr_slot_count (shared r).
Definition producer_sequence (r : ring) : Z := wr_producer_sequence (shared r).
Definition consumer_sequence (r : ring) : Z := wr_consumer_sequence (shared r).

Definition set_slot_state (slot v : Z) (w : bvb_wsi_frame_ring) :=
  mk_wsi_frame_ring (wr_magic w) (wr_version w) (wr_control_bytes w)
    (wr_slot_count w) (wr_flags w) (wr_generation w) (wr_next_acquire w)
    (wr_producer_sequence w) (wr_consumer_sequence w) (wr_producer_status w)
    (wr_consumer_status w) (<[Z.to_nat slot := v]> (wr_slot_state w))
    (wr_slot_sequence w) (wr_reserved w).
Definition set_slot_sequence (slot v : Z) (w : bvb_wsi_frame_ring) :=
  mk_wsi_frame_ring (wr_magic w) (wr_version w) (wr_control_bytes w)
    (wr_slot_count w) (wr_flags w) (wr_generation w) (wr_next_acquire w)
    (wr_producer_sequence w) (wr_consumer_sequence w) (wr_producer_status w)
    (wr_consumer_status w) (wr_slot_state w)
    (<[Z.to_nat slot := v]> (wr_slot_sequence w)) (wr_reserved w).
Definition set_next_acquire (v : Z) (w : bvb_wsi_frame_ring) :=
  mk_wsi_frame_ring (wr_magic w) (wr_version w) (wr_control_bytes w)
    (wr_slot_count w) (wr_flags w) (wr_generation w) v
    (wr_producer_sequence w) (wr_consumer_sequence w) (wr_producer_status w)
    (wr_consumer_status w) (wr_slot_state w) (wr_slot_sequence w)
    (wr_reserved w).
Definition set_ring_producer_sequence (v : Z) (w : bvb_wsi_frame_ring) :=
  mk_wsi_frame_ring (wr_magic w) (wr_version w) (wr_control_bytes w)
    (wr_slot_count w) (wr_flags w) (wr_generation w) (wr_next_acquire w) v
    (wr_consumer_sequence w) (wr_producer_status w) (wr_consumer_status w)
    (wr_slot_state w) (wr_slot_sequence w) (wr_reserved w).
Definition set_ring_consumer_sequence (v : Z) (w : bvb_wsi_frame_ring) :=
  mk_wsi_frame_ring (wr_magic w) (wr_version w) (wr_control_bytes w)
    (wr_slot_count w) (wr_flags w) (wr_generation w) (wr_next_acquire w)
    (wr_producer_sequence w) v (wr_producer_status w) (wr_consumer_status w)
    (wr_slot_state w) (wr_slot_sequence w) (wr_reserved w).
Definition set_ring_producer_status (v : Z) (w : bvb_wsi_frame_ring) :=
  mk_wsi_frame_ring (wr_magic w) (wr_version w) (wr_control_bytes w)
    (wr_slot_count w) (wr_flags w) (wr_generation w) (wr_next_acquire w)
    (wr_producer_sequence w) (wr_consumer_sequence w) v
    (wr_consumer_status w) (wr_slot_state w) (wr_slot_sequence w)
    (wr_reserved w).
Definition set_ring_consumer_status (v : Z) (w : bvb_wsi_frame_ring) :=
  mk_wsi_frame_ring (wr_magic w) (wr_version w) (wr_control_bytes w)
    (wr_slot_count w) (wr_flags w) (wr_generation w) (wr_next_acquire w)
    (wr_producer_sequence w) (wr_consumer_sequence w) (wr_producer_status w)
    v (wr_slot_state w) (wr_slot_sequence w) (wr_reserved w).

(** A store to the ring, and one that also moves the bookkeeping. *)
Definition on_shared (f : bvb_wsi_frame_ring -> bvb_wsi_frame_ring)
    (r : ring) : ring := mk_ring (f (shared r)) (aux r).
Definition with_aux (f : ghost -> ghost) (r : ring) : ring :=
  mk_ring (shared r) (f (aux r)).
Definition start_presenting (slot : Z) (g : ghost) : ghost :=
  mk_ghost (assigned g) (taken g) (Some slot) (clearing g).
Definition assign (sequence : Z) (g : ghost) : ghost :=
  mk_ghost sequence (taken g) None (clearing g).
Definition start_clearing (slot sequence : Z) (g : ghost) : ghost :=
  mk_ghost (assigned g) sequence (presenting g) (Some slot).
Definition stop_clearing (g : ghost) : ghost :=
  mk_ghost (assigned g) (taken g) (presenting g) None.

(** [compare_exchange_u32] on a slot's state: whether it succeeded is told by
    the old value returned; on success the bookkeeping moves with it. *)
Definition cas_slot (slot expected desired : Z) (f : ghost -> ghost) :
    prog ring Z :=
  Act (fun r =>
         if slot_state r slot =? expected
         then (with_aux f (on_shared (set_slot_state slot desired) r),
               slot_state r slot)
         else (r, slot_state r slot)) Ret.

Definition producer_word : Z := 36.
Definition consumer_word : Z := 40.

(** ** Operations *)

Definition aligned_u32 (address : Z) : bool := address mod 4 =? 0.

Definition peer_failure : prog ring Z :=
  load producer := (fun r => wr_producer_status (shared r)) ;;
  if producer <? 0 then Ret producer else
  load consumer := (fun r => wr_consumer_status (shared r)) ;;
  Ret (if consumer <? 0 then consumer else 0).

Definition bvb_wsi_frame_ring_initialize (address : ptr Z)
    (length slots generation : Z) : result bvb_wsi_frame_ring :=
  deref address := address or (- EINVAL) ;;
  fail_if negb (aligned_u32 address) ||
          (length <? BVB_WSI_FRAME_RING_REGION_BYTES) || (slots <? 2) ||
          (BVB_WSI_FRAME_RING_MAX_SLOTS <? slots) || (generation =? 0)
    with (- EINVAL) ;;
  Ok (mk_wsi_frame_ring BVB_WSI_FRAME_RING_MAGIC BVB_WSI_FRAME_RING_VERSION
        BVB_WSI_FRAME_RING_CONTROL_BYTES slots 0 generation 0 0 0 0 0
        (replicate 4 0) (replicate 4 0) (replicate 13 0)).

Definition header_code (address : ptr Z) (generation : Z) (r : ring) : Z :=
  match address with
  | None => - EINVAL
  | Some address =>
      let w := shared r in
      if negb (aligned_u32 address) ||
         negb (wr_magic w =? BVB_WSI_FRAME_RING_MAGIC) ||
         negb (wr_version w =? BVB_WSI_FRAME_RING_VERSION) ||
         negb (wr_control_bytes w =? BVB_WSI_FRAME_RING_CONTROL_BYTES) ||
         (wr_slot_count w <? 2) ||
         (BVB_WSI_FRAME_RING_MAX_SLOTS <? wr_slot_count w) ||
         negb (wr_flags w =? 0) || (wr_generation w =? 0) ||
         (negb (generation =? 0) && negb (wr_generation w =? generation))
      then - EINVAL else 0
  end.

(** The loop over the slot states, with [remaining] slots to go. *)
Fixpoint validate_slots (remaining : nat) (slot : Z) : prog ring Z :=
  match remaining with
  | O => Ret 0
  | S remaining =>
      load state := (fun r => slot_state r slot) ;;
      if BVB_WSI_SLOT_PRESENTED <? state then Ret (- EPROTO) else
      validate_slots remaining (slot + 1)
  end.

Definition bvb_wsi_frame_ring_validate (address : ptr Z) (generation : Z) :
    prog ring Z :=
  load status := header_code address generation ;;
  if negb (status =? 0) then Ret status else
  load count := slot_count ;;
  validate_slots (Z.to_nat count) 0.

(** One pass of [acquire] over the slots from [start + offset]. *)
Fixpoint acquire_scan (remaining : nat) (start offset count : Z) :
    prog ring (option Z) :=
  match remaining with
  | O => Ret None
  | S remaining =>
      let candidate := u32 (start + offset) mod count in
      do old <- cas_slot candidate BVB_WSI_SLOT_AVAILABLE
                  BVB_WSI_SLOT_ACQUIRED id ;;
      if old =? BVB_WSI_SLOT_AVAILABLE then
        store (on_shared (set_next_acquire (u32 (candidate + 1) mod count))) ;;
        Ret (Some candidate)
      else acquire_scan remaining start (offset + 1) count
  end.

(** The [for (;;)] of [acquire], cut after [rounds] iterations: [None] is a
    call still waiting. *)
Fixpoint acquire_loop (rounds : nat) (timeout_ms deadline_ns : Z) :
    prog ring (option (result Z)) :=
  match rounds with
  | O => Ret None
  | S rounds =>
      do status <- peer_failure ;;
      if negb (status =? 0) then Ret (Some (Err status)) else
      load next := (fun r => wr_next_acquire (shared r)) ;;
      load count := slot_count ;;
      do found <- acquire_scan (Z.to_nat count) (next mod count) 0 count ;;
      match found with
      | Some slot => Ret (Some (Ok slot))
      | None =>
          if timeout_ms =? 0 then Ret (Some (Err (- EAGAIN))) else
          load observed := consumer_sequence ;;
          do status <- futex_wait_until consumer_word observed deadline_ns ;;
          if negb (status =? 0) then Ret (Some (Err status)) else
          acquire_loop rounds timeout_ms deadline_ns
      end
  end.

(** [want_slot] is [slot != NULL]. *)
Definition bvb_wsi_frame_ring_acquire (rounds : nat) (address : ptr Z)
    (timeout_ms : Z) (want_slot : bool) : prog ring (option (result Z)) :=
  do status <- bvb_wsi_frame_ring_validate address 0 ;;
  if negb (status =? 0) || negb want_slot then
    Ret (Some (Err (if negb (status =? 0) then status else - EINVAL)))
  else if negb (timeout_ms =? 0) then
    do deadline <- deadline_from_timeout timeout_ms ;;
    match deadline with
    | Err e => Ret (Some (Err e))
    | Ok deadline_ns => acquire_loop rounds timeout_ms deadline_ns
    end
  else acquire_loop rounds timeout_ms 0.

Definition bvb_wsi_frame_ring_present (address : ptr Z) (slot : Z)
    (want_sequence : bool) : prog ring (result Z) :=
  do status <- bvb_wsi_frame_ring_validate address 0 ;;
  if negb (status =? 0) then Ret (Err status) else
  load count := slot_count ;;
  if negb want_sequence || (count <=? slot) then Ret (Err (- EINVAL)) else
  do status <- peer_failure ;;
  if negb (status =? 0) then Ret (Err status) else
  load current := producer_sequence ;;
  if current =? UINT32_MAX then Ret (Err (- EOVERFLOW)) else
  do old <- cas_slot slot BVB_WSI_SLOT_ACQUIRED BVB_WSI_SLOT_PRESENTED
              (start_presenting slot) ;;
  if negb (old =? BVB_WSI_SLOT_ACQUIRED) then
    Ret (Err (if old =? BVB_WSI_SLOT_PRESENTED then - EBUSY else - EPROTO))
  else
  let next := u32 (current + 1) in
  store (fun r => with_aux (assign next)
                    (on_shared (set_slot_sequence slot next) r)) ;;
  store (on_shared (set_ring_producer_sequence next)) ;;
  do status <- futex_wake producer_word ;;
  if negb (status =? 0) then Ret (Err status) else
  Ret (Ok next).

Fixpoint find_presented_loop (remaining : nat) (candidate expected : Z) :
    prog ring (option Z) :=
  match remaining with
  | O => Ret None
  | S remaining =>
      load state := (fun r => slot_state r candidate) ;;
      if negb (state =? BVB_WSI_SLOT_PRESENTED)
      then find_presented_loop remaining (candidate + 1) expected else
      load sequence := (fun r => slot_sequence r candidate) ;;
      if sequence =? expected then Ret (Some candidate)
      else find_presented_loop remaining (candidate + 1) expected
  end.

Definition find_presented (expected : Z) : prog ring (option Z) :=
  load count := slot_count ;;
  find_presented_loop (Z.to_nat count) 0 expected.

Fixpoint wait_present_loop (rounds : nat) (expected deadline_ns : Z) :
    prog ring (option (result (Z * Z))) :=
  match rounds with
  | O => Ret None
  | S rounds =>
      do status <- peer_failure ;;
      if negb (status =? 0) then Ret (Some (Err status)) else
      do found <- find_presented expected ;;
      match found with
      | Some slot => Ret (Some (Ok (slot, expected)))
      | None =>
          load produced := producer_sequence ;;
          if expected <=? produced then
            do found <- find_presented expected ;;
            match found with
            | Some slot => Ret (Some (Ok (slot, expected)))
            | None => Ret (Some (Err (- EPROTO)))
            end
          else
            do status <- futex_wait_until producer_word produced deadline_ns ;;
            if negb (status =? 0) then Ret (Some (Err status)) else
            wait_present_loop rounds expected deadline_ns
      end
  end.

(** [want] is [slot != NULL && sequence != NULL]; the result is the pair
    stored through them. *)
Definition bvb_wsi_frame_ring_wait_present (rounds : nat) (address : ptr Z)
    (after_sequence timeout_ms : Z) (want : bool) :
    prog ring (option (result (Z * Z))) :=
  do status <- bvb_wsi_frame_ring_validate address 0 ;;
  if negb (status =? 0) || negb want || (after_sequence =? UINT32_MAX) ||
     (timeout_ms =? 0)
  then Ret (Some (Err (if negb (status =? 0) then status else - EINVAL))) else
  do deadline <- deadline_from_timeout timeout_ms ;;
  match deadline with
  | Err e => Ret (Some (Err e))
  | Ok deadline_ns =>
      wait_present_loop rounds (u32 (after_sequence + 1)) deadline_ns
  end.

Definition bvb_wsi_frame_ring_release (address : ptr Z)
    (slot sequence : Z) : prog ring Z :=
  do status <- bvb_wsi_frame_ring_validate address 0 ;;
  if negb (status =? 0) then Ret status else
  load count := slot_count ;;
  if (count <=? slot) || (sequence =? 0) then Ret (- EINVAL) else
  do status <- peer_failure ;;
  if negb (status =? 0) then Ret status else
  load held := (fun r => slot_sequence r slot) ;;
  if negb (held =? sequence) then Ret (- ESTALE) else
  load consumed := consumer_sequence ;;
  if negb (u32 (consumed + 1) =? sequence) then Ret (- ESTALE) else
  store (fun r => with_aux (start_clearing slot sequence)
                    (on_shared (set_slot_sequence slot 0) r)) ;;
  do old <- cas_slot slot BVB_WSI_SLOT_PRESENTED BVB_WSI_SLOT_AVAILABLE
              stop_clearing ;;
  if negb (old =? BVB_WSI_SLOT_PRESENTED) then Ret (- EPROTO) else
  store (on_shared (set_ring_consumer_sequence sequence)) ;;
  futex_wake consumer_word.

Definition publish_failure (address : ptr Z)
    (set_status : Z -> bvb_wsi_frame_ring -> bvb_wsi_frame_ring)
    (status : Z) : prog ring Z :=
  do result <- bvb_wsi_frame_ring_validate address 0 ;;
  if negb (result =? 0) then Ret result else
  if 0 <=? status then Ret (- EINVAL) else
  store (on_shared (set_status status)) ;;
  do result <- futex_wake producer_word ;;
  do consumer_wake <- futex_wake consumer_word ;;
  Ret (if negb (result =? 0) then result else consumer_wake).

Definition bvb_wsi_frame_ring_fail_producer (address : ptr Z) (status : Z) :
    prog ring Z := publish_failure address set_ring_producer_status status.
Definition bvb_wsi_frame_ring_fail_consumer (address : ptr Z) (status : Z) :
    prog ring Z := publish_failure address set_ring_consumer_status status.

(** ** The invariant of the ring *)

(** Every slot is in one of the three states; one that is not presented has
    no number; one that is presented is being presented, is being cleared, or
    carries a number the consumer has not taken. *)
Record slot_ok (r : ring) (i : Z) : Prop := {
  so_range : 0 <= slot_state r i <= 2;
  so_idle : slot_state r i <> 2 -> slot_sequence r i = 0;
  so_busy : slot_state r i = 2 ->
    (slot_sequence r i = 0 /\
     (presenting (aux r) = Some i \/ clearing (aux r) = Some i)) \/
    (taken (aux r) < slot_sequence r i <= assigned (aux r) /\
     presenting (aux r) <> Some i /\ clearing (aux r) <> Some i)
}.

Definition in_ring (r : ring) (i : Z) : Prop := 0 <= i < slot_count r.

(** Sequence numbers are handed out, taken and published in order; each number
    between the two is in exactly one slot. *)
Record ring_ok (r : ring) : Prop := {
  ro_count : 2 <= slot_count r <= 4;
  ro_states : length (wr_slot_state (shared r)) = 4%nat;
  ro_sequences : length (wr_slot_sequence (shared r)) = 4%nat;
  ro_consumer : 0 <= consumer_sequence r <= taken (aux r) /\
                taken (aux r) <= consumer_sequence r + 1;
  ro_order : taken (aux r) <= assigned (aux r);
  ro_producer : 0 <= producer_sequence r <= assigned (aux r) /\
                assigned (aux r) <= producer_sequence r + 1;
  ro_width : assigned (aux r) <= UINT32_MAX;
  ro_slots i : in_ring r i -> slot_ok r i;
  ro_presenting i : presenting (aux r) = Some i ->
    in_ring r i /\ slot_state r i = 2 /\ slot_sequence r i = 0 /\
    clearing (aux r) <> Some i;
  ro_clearing i : clearing (aux r) = Some i ->
    in_ring r i /\ slot_state r i = 2 /\ slot_sequence r i = 0;
  ro_held s : taken (aux r) < s <= assigned (aux r) ->
    exists i, in_ring r i /\ slot_sequence r i = s;
  ro_distinct i j : in_ring r i -> in_ring r j ->
    slot_sequence r i = slot_sequence r j -> slot_sequence r i <> 0 -> i = j
}.

(** A slot the producer alone may change: not presented, or presented by a
    call that has not numbered it yet. *)
Definition producer_owns (r : ring) (i : Z) : Prop :=
  slot_state r i <> 2 \/ presenting (aux r) = Some i.

Definition same_slot (c d : ring) (i : Z) : Prop :=
  slot_state d i = slot_state c i /\ slot_sequence d i = slot_sequence c i.

(** What accesses of the producer may do: slots the consumer owns, its
    sequence and its bookkeeping stay; the published sequence only grows. *)
Record producer_acts (c d : ring) : Prop := {
  pa_ok : ring_ok c -> ring_ok d;
  pa_count : slot_count d = slot_count c;
  pa_consumer : consumer_sequence d = consumer_sequence c;
  pa_taken : taken (aux d) = taken (aux c);
  pa_clearing : clearing (aux d) = clearing (aux c);
  pa_grows : producer_sequence c <= producer_sequence d;
  pa_slots i : in_ring c i -> ~ producer_owns c i ->
    same_slot c d i /\ ~ producer_owns d i
}.

(** What accesses of the consumer may do. *)
Record consumer_acts (c d : ring) : Prop := {
  ca_ok : ring_ok c -> ring_ok d;
  ca_count : slot_count d = slot_count c;
  ca_producer : producer_sequence d = producer_sequence c;
  ca_assigned : assigned (aux d) = assigned (aux c);
  ca_presenting : presenting (aux d) = presenting (aux c);
  ca_slots i : in_ring c i -> producer_owns c i ->
    same_slot c d i /\ producer_owns d i
}.

#[export] Instance producer_acts_preorder : PreOrder producer_acts.
Proof.
  split.
  - intros c. by constructor.
  - intros c d e [] []. constructor; try congruence; try lia; auto.
    intros i Hi Ho. assert (Hd : in_ring d i) by (unfold in_ring in *; lia).
    destruct (pa_slots0 i Hi Ho) as [[] Ho'].
    destruct (pa_slots1 i Hd Ho') as [[] ?]. repeat split; congruence || done.
Qed.

#[export] Instance consumer_acts_preorder : PreOrder consumer_acts.
Proof.
  split.
  - intros c. by constructor.
  - intros c d e [] []. constructor; try congruence; auto.
    intros i Hi Ho. assert (Hd : in_ring d i) by (unfold in_ring in *; lia).
    destruct (ca_slots0 i Hi Ho) as [[] Ho'].
    destruct (ca_slots1 i Hd Ho') as [[] ?]. repeat split; congruence || done.
Qed.

Lemma rtc_preorder (R : ring -> ring -> Prop) `{!PreOrder R} c d :
  rtc R c d -> R c d.
Proof. induction 1; [reflexivity|]. by etransitivity. Qed.

(** ** Reading a ring after a store *)

Lemma slot_state_set r i v j :
  length (wr_slot_state (shared r)) = 4%nat -> 0 <= i < 4 -> 0 <= j ->
  slot_state (on_shared (set_slot_state i v) r) j =
    if decide (i = j) then v else slot_state r j.
Proof.
  intros Hl Hi Hj. unfold slot_state, on_shared, set_slot_state. cbn.
  rewrite !nth_lookup. case_decide as E.
  - subst. rewrite list_lookup_insert_eq; [done|lia].
  - rewrite list_lookup_insert_ne; [done|lia].
Qed.

Lemma slot_sequence_set r i v j :
  length (wr_slot_sequence (shared r)) = 4%nat -> 0 <= i < 4 -> 0 <= j ->
  slot_sequence (on_shared (set_slot_sequence i v) r) j =
    if decide (i = j) then v else slot_sequence r j.
Proof.
  intros Hl Hi Hj. unfold slot_sequence, on_shared, set_slot_sequence. cbn.
  rewrite !nth_lookup. case_decide as E.
  - subst. rewrite list_lookup_insert_eq; [done|lia].
  - rewrite list_lookup_insert_ne; [done|lia].
Qed.

Lemma slot_state_aux f r i : slot_state (with_aux f r) i = slot_state r i.
Proof. done. Qed.
Lemma slot_sequence_aux f r i : slot_sequence (with_aux f r) i = slot_sequence r i.
Proof. done. Qed.
Lemma slot_state_other r i v j :
  slot_state (on_shared (set_slot_sequence i v) r) j = slot_state r j.
Proof. done. Qed.
Lemma slot_sequence_other r i v j :
  slot_sequence (on_shared (set_slot_state i v) r) j = slot_sequence r j.
Proof. done. Qed.

#[global] Arguments slot_state : simpl never.
#[global] Arguments slot_sequence : simpl never.
#[global] Arguments slot_count : simpl never.
#[global] Arguments producer_sequence : simpl never.
#[global] Arguments consumer_sequence : simpl never.

(** What a step must show of the ring it leaves. *)
Ltac read_slots :=
  rewrite ?slot_state_aux, ?slot_sequence_aux, ?slot_state_other,
    ?slot_sequence_other, ?slot_state_set, ?slot_sequence_set in *
    by (first [assumption | lia]).

Lemma acquire_acts c i :
  ring_ok c -> in_ring c i -> slot_state c i = 0 ->
  producer_acts c (with_aux id (on_shared (set_slot_state i 1) c)).
Proof.
  intros Hok Hi Hs. pose proof (ro_count _ Hok).
  pose proof (ro_states _ Hok). unfold in_ring in Hi.
  constructor; try done.
  - intros _. destruct Hok. constructor; try done; cbn.
    + by rewrite length_insert.
    + intros j Hj. pose proof (ro_slots0 j Hj) as [Hr Hidle Hbusy].
      unfold in_ring in Hj. change (0 <= j < slot_count c) in Hj.
      constructor; read_slots; case_decide; subst; cbn; try lia; auto.
    + intros j Hj. destruct (ro_presenting0 j Hj) as (Hin & ? & ? & ?).
      split_and!; try done. unfold in_ring in Hin. read_slots.
      case_decide; [subst; lia|done].
    + intros j Hj. destruct (ro_clearing0 j Hj) as (Hin & ? & ?).
      split_and!; try done. unfold in_ring in Hin. read_slots.
      case_decide; [subst; lia|done].
  - intros j Hj Ho. unfold producer_owns, same_slot, in_ring in *.
    read_slots. case_decide; [exfalso; apply Ho; left; subst; lia|]. auto.
Qed.

Lemma present_acts c i :
  ring_ok c -> in_ring c i -> slot_state c i = 1 -> presenting (aux c) = None ->
  producer_acts c
    (with_aux (start_presenting i) (on_shared (set_slot_state i 2) c)).
Proof.
  intros Hok Hi Hs Hp. pose proof (ro_count _ Hok).
  pose proof (ro_states _ Hok). unfold in_ring in Hi.
  constructor; try done.
  - intros _. destruct Hok. constructor; try done; cbn.
    + by rewrite length_insert.
    + intros j Hj. pose proof (ro_slots0 j Hj) as [Hr Hidle Hbusy].
      change (0 <= j < slot_count c) in Hj.
      constructor; read_slots; case_decide; subst; cbn; try lia; auto.
      * intros _. left. split; [apply Hidle; lia|by left].
      * intros Hj2. destruct (Hbusy Hj2) as [[? [?|?]]|(? & ? & ?)];
          [congruence|by auto|]. right. split_and!; [lia|lia|congruence|done].
    + intros j [= <-]. split_and!; [done|read_slots; by case_decide| |].
      * read_slots. apply (so_idle _ _ (ro_slots0 i Hi)). lia.
      * intros Hc. destruct (ro_clearing0 _ Hc) as (_ & ? & _). lia.
    + intros j Hj. destruct (ro_clearing0 j Hj) as (Hin & ? & ?).
      split_and!; try done. unfold in_ring in Hin. read_slots.
      case_decide; [subst; lia|done].
  - intros j Hj Ho. unfold producer_owns, same_slot, in_ring in *. cbn.
    read_slots. case_decide; [exfalso; apply Ho; left; subst; lia|].
    split; [done|]. intros [?|[= ?]]; [|done]. by apply Ho; left.
Qed.

Lemma assign_acts c i next :
  ring_ok c -> presenting (aux c) = Some i ->
  assigned (aux c) = producer_sequence c -> next = assigned (aux c) + 1 ->
  next <= UINT32_MAX ->
  producer_acts c
    (with_aux (assign next) (on_shared (set_slot_sequence i next) c)).
Proof.
  intros Hok Hp Ha Hn Hmax. pose proof (ro_count _ Hok).
  pose proof (ro_sequences _ Hok).
  destruct (ro_presenting _ Hok i Hp) as (Hi & Hs & Hq & Hc).
  unfold in_ring in Hi.
  constructor; try done.
  - intros _. destruct Hok. constructor; try done; cbn; try lia.
    + by rewrite length_insert.
    + change (producer_sequence _) with (producer_sequence c). lia.
    + intros j Hj. pose proof (ro_slots0 j Hj) as [Hr Hidle Hbusy].
      change (0 <= j < slot_count c) in Hj.
      constructor; read_slots; try case_decide; subst; cbn; try lia; auto.
      * intros _. right. split_and!; [lia|lia|done|done].
      * intros Hj2. destruct (Hbusy Hj2) as [[? [?|?]]|(? & ? & ?)];
          [congruence|by auto|]. right. split_and!; [lia|lia|done|done].
    + intros j Hj. destruct (ro_clearing0 j Hj) as (Hin & ? & ?).
      split_and!; try done. unfold in_ring in Hin. read_slots.
      case_decide; [congruence|done].
    + intros s Hsr. destruct (decide (s = next)) as [->|Hne].
      * exists i. split; [done|]. read_slots. by case_decide.
      * destruct (ro_held0 s ltac:(lia)) as (j & Hj & Hjs). exists j.
        split; [done|]. unfold in_ring in Hj. read_slots.
        case_decide; [subst; lia|done].
    + intros j k Hj Hk.
      change (0 <= j < slot_count c) in Hj. change (0 <= k < slot_count c) in Hk.
      assert (Hlow : forall l, 0 <= l < slot_count c ->
                slot_sequence c l <= assigned (aux c)).
      { intros l Hl. pose proof (ro_slots0 l Hl) as [_ Hidle Hbusy].
        destruct (decide (slot_state c l = 2)) as [E|E]; [|rewrite Hidle; lia].
        destruct (Hbusy E) as [[-> _]|[? _]]; lia. }
      pose proof (Hlow j Hj). pose proof (Hlow k Hk).
      read_slots. repeat case_decide; subst; try lia; try done.
      by apply ro_distinct0.
  - cbn. intros j Hj Ho. unfold producer_owns, same_slot, in_ring in *. cbn.
    read_slots. case_decide; [exfalso; apply Ho; right; congruence|].
    split; [done|]. intros [?|?]; [|done]. by apply Ho; left.
Qed.

(** Stores that touch no slot. *)
Lemma ring_ok_same c d :
  slot_count d = slot_count c ->
  wr_slot_state (shared d) = wr_slot_state (shared c) ->
  wr_slot_sequence (shared d) = wr_slot_sequence (shared c) ->
  aux d = aux c ->
  0 <= consumer_sequence d <= taken (aux c) /\
    taken (aux c) <= consumer_sequence d + 1 ->
  0 <= producer_sequence d <= assigned (aux c) /\
    assigned (aux c) <= producer_sequence d + 1 ->
  ring_ok c -> ring_ok d.
Proof.
  intros Hn Hs Hq Ha Hc Hp [].
  assert (Est : forall i, slot_state d i = slot_state c i)
    by (intros i; unfold slot_state; by rewrite Hs).
  assert (Esq : forall i, slot_sequence d i = slot_sequence c i)
    by (intros i; unfold slot_sequence; by rewrite Hq).
  unfold in_ring in *.
  constructor; unfold in_ring; rewrite ?Hn, ?Ha, ?Hs, ?Hq; try done.
  - intros i Hi. destruct (ro_slots0 i Hi).
    constructor; rewrite ?Est, ?Esq, ?Ha; done.
  - intros i. rewrite Est, Esq. auto.
  - intros i. rewrite Est, Esq. auto.
  - intros s Hsr. destruct (ro_held0 s Hsr) as (i & ? & ?). exists i.
    by rewrite Esq.
  - intros i j. rewrite !Esq. auto.
Qed.

Lemma publish_acts c next :
  ring_ok c -> presenting (aux c) = None -> assigned (aux c) = next ->
  producer_sequence c <= next ->
  producer_acts c (on_shared (set_ring_producer_sequence next) c).
Proof.
  intros Hok Hp Ha Hn. constructor; try done.
  intros _. pose proof Hok as []. apply (ring_ok_same c); try done.
  change (producer_sequence (on_shared _ c)) with next. lia.
Qed.

Lemma next_acquire_acts c v :
  producer_acts c (on_shared (set_next_acquire v) c).
Proof.
  constructor; try done. intros Hok. pose proof Hok as [].
  by apply (ring_ok_same c).
Qed.
Lemma producer_status_acts c v :
  producer_acts c (on_shared (set_ring_producer_status v) c).
Proof.
  constructor; try done. intros Hok. pose proof Hok as [].
  by apply (ring_ok_same c).
Qed.
Lemma consumer_status_acts c v :
  consumer_acts c (on_shared (set_ring_consumer_status v) c).
Proof.
  constructor; try done. intros Hok. pose proof Hok as [].
  by apply (ring_ok_same c).
Qed.

Lemma clear_acts c i sequence :
  ring_ok c -> in_ring c i -> clearing (aux c) = None ->
  slot_sequence c i = sequence -> sequence <> 0 ->
  sequence = consumer_sequence c + 1 -> taken (aux c) = consumer_sequence c ->
  consumer_acts c
    (with_aux (start_clearing i sequence) (on_shared (set_slot_sequence i 0) c)).
Proof.
  intros Hok Hi Hc Hq Hq0 Hseq Htk. pose proof (ro_count _ Hok).
  pose proof (ro_sequences _ Hok).
  destruct (ro_slots _ Hok i Hi) as [Hr0 Hidle0 Hbusy0].
  assert (Hs : slot_state c i = 2).
  { destruct (decide (slot_state c i = 2)) as [|Hne]; [done|].
    by rewrite (Hidle0 Hne) in Hq. }
  destruct (Hbusy0 Hs) as [[? _]|(Hb & Hnp & _)]; [lia|].
  unfold in_ring in Hi.
  constructor; try done.
  - intros _. destruct Hok. constructor; try done; cbn; try lia.
    + by rewrite length_insert.
    + change (consumer_sequence _) with (consumer_sequence c). lia.
    + intros j Hj. pose proof (ro_slots0 j Hj) as [Hr Hidle Hbusy].
      change (0 <= j < slot_count c) in Hj.
      constructor; read_slots; try case_decide; subst; cbn; try lia; auto.
      intros Hj2. destruct (Hbusy Hj2) as [[? [?|?]]|(? & ? & ?)];
        [by auto|congruence|]. right.
      split_and!; [|lia|done|congruence].
      assert (slot_sequence c j <> slot_sequence c i); [|lia].
      intros E. by apply (ro_distinct0 j i) in E; [..|lia].
    + intros j Hj. destruct (ro_presenting0 j Hj) as (Hin & ? & ? & ?).
      split_and!; try done; [|congruence]. unfold in_ring in Hin. read_slots.
      by case_decide.
    + intros j [= <-]. split_and!; [done|done|]. read_slots. by case_decide.
    + intros s Hsr. destruct (ro_held0 s ltac:(lia)) as (j & Hj & Hjs).
      exists j. split; [done|]. unfold in_ring in Hj. read_slots.
      case_decide; [subst; lia|done].
    + intros j k Hj Hk.
      change (0 <= j < slot_count c) in Hj. change (0 <= k < slot_count c) in Hk.
      read_slots. repeat case_decide; subst; try lia; try done.
      by apply ro_distinct0.
  - intros j Hj Ho. unfold producer_owns, same_slot, in_ring in *. cbn.
    read_slots. case_decide; [exfalso; subst; by destruct Ho|]. auto.
Qed.

Lemma free_acts c i :
  ring_ok c -> clearing (aux c) = Some i ->
  consumer_acts c
    (with_aux stop_clearing (on_shared (set_slot_state i 0) c)).
Proof.
  intros Hok Hc. pose proof (ro_count _ Hok). pose proof (ro_states _ Hok).
  destruct (ro_clearing _ Hok i Hc) as (Hi & Hs & Hq).
  unfold in_ring in Hi.
  constructor; try done.
  - intros _. destruct Hok. constructor; try done; cbn; try lia.
    + by rewrite length_insert.
    + intros j Hj. pose proof (ro_slots0 j Hj) as [Hr Hidle Hbusy].
      change (0 <= j < slot_count c) in Hj.
      constructor; read_slots; try case_decide; subst; cbn; try lia; auto.
      intros Hj2. destruct (Hbusy Hj2) as [[? [?|?]]|(? & ? & ?)];
        [by auto|congruence|]. right. split_and!; [lia|lia|done|done].
    + intros j Hj. destruct (ro_presenting0 j Hj) as (Hin & ? & ? & ?).
      split_and!; try done. unfold in_ring in Hin. read_slots.
      case_decide; [subst; congruence|done].
  - intros j Hj Ho. unfold producer_owns, same_slot, in_ring in *. cbn.
    read_slots. case_decide; [|auto]. exfalso. subst.
    destruct Ho as [|Ho]; [done|].
    by destruct (ro_presenting _ Hok _ Ho) as (_ & _ & _ & ?).
Qed.

Lemma consume_acts c sequence :
  ring_ok c -> clearing (aux c) = None -> taken (aux c) = sequence ->
  consumer_sequence c <= sequence ->
  consumer_acts c (on_shared (set_ring_consumer_sequence sequence) c).
Proof.
  intros Hok Hc Ht Hs. constructor; try done.
  intros _. pose proof Hok as []. apply (ring_ok_same c); try done.
  change (consumer_sequence (on_shared _ c)) with sequence. lia.
Qed.

(** ** Between calls *)

(** What holds on the producer's side when it is not in the middle of a call,
    and on the consumer's. *)
Definition producer_rest (r : ring) : Prop :=
  ring_ok r /\ presenting (aux r) = None /\
  assigned (aux r) = producer_sequence r.
Definition consumer_rest (r : ring) : Prop :=
  ring_ok r /\ clearing (aux r) = None /\ taken (aux r) = consumer_sequence r.

Lemma producer_rest_stable c d :
  rtc consumer_acts c d -> producer_rest c -> producer_rest d.
Proof.
  intros H%rtc_preorder (Hok & Hp & Ha); [|apply _]. destruct H.
  split_and!; [auto|congruence|congruence].
Qed.

Lemma consumer_rest_stable c d :
  rtc producer_acts c d -> consumer_rest c -> consumer_rest d.
Proof.
  intros H%rtc_preorder (Hok & Hp & Ha); [|apply _]. destruct H.
  split_and!; [auto|congruence|congruence].
Qed.

(** A slot the producer has acquired stays acquired. *)
Lemma acquired_stable c d i :
  rtc consumer_acts c d -> in_ring c i -> slot_state c i = 1 ->
  in_ring d i /\ slot_state d i = 1.
Proof.
  intros H%rtc_preorder Hi Hs; [|apply _]. destruct H.
  destruct (ca_slots0 i Hi) as [[? _] _]; [left; lia|].
  unfold in_ring in *. split; [lia|congruence].
Qed.

(** A published frame stays in its slot until it is released. *)
Lemma published_stable c d i :
  rtc producer_acts c d -> ring_ok c -> in_ring c i -> slot_sequence c i <> 0 ->
  in_ring d i /\ slot_state d i = 2 /\ slot_sequence d i = slot_sequence c i.
Proof.
  intros H%rtc_preorder Hok Hi Hq; [|apply _].
  destruct (ro_slots _ Hok i Hi) as [_ Hidle Hbusy].
  assert (Hs : slot_state c i = 2)
    by (destruct (decide (slot_state c i = 2)); [done|by rewrite Hidle in Hq]).
  assert (Ho : ~ producer_owns c i).
  { intros [?|Hp]; [done|].
    by destruct (ro_presenting _ Hok i Hp) as (_ & _ & ? & _). }
  destruct H. destruct (pa_slots0 i Hi Ho) as [[? ?] _].
  unfold in_ring in *. split_and!; congruence || lia.
Qed.

Lemma producer_refl c : producer_acts c c.
Proof. reflexivity. Qed.
Lemma consumer_refl c : consumer_acts c c.
Proof. reflexivity. Qed.
#[local] Hint Resolve producer_refl consumer_refl : core.

Section quiet_parts.
Context (rely guar : ring -> ring -> Prop).
Context (guar_refl : forall c, guar c c).

Lemma ring_quiet_peer_failure : quiet rely guar peer_failure.
Proof using guar_refl.
  apply quiet_load; [done|]. intros v. apply quiet_if; [apply quiet_ret|].
  apply quiet_load; [done|]. intros w. apply quiet_ret.
Qed.

Lemma quiet_validate_slots n slot : quiet rely guar (validate_slots n slot).
Proof using guar_refl.
  revert slot. induction n as [|n IH]; intros slot; [apply quiet_ret|].
  apply quiet_load; [done|]. intros v. apply quiet_if; [apply quiet_ret|]. apply IH.
Qed.

Lemma ring_quiet_validate address generation :
  quiet rely guar (bvb_wsi_frame_ring_validate address generation).
Proof using guar_refl.
  apply quiet_load; [done|]. intros v. apply quiet_if; [apply quiet_ret|].
  apply quiet_load; [done|]. intros n. apply quiet_validate_slots.
Qed.

Lemma quiet_find_loop n candidate expected :
  quiet rely guar (find_presented_loop n candidate expected).
Proof using guar_refl.
  revert candidate. induction n as [|n IH]; intros candidate; [apply quiet_ret|].
  apply quiet_load; [done|]. intros v. apply quiet_if; [apply IH|].
  apply quiet_load; [done|]. intros w. apply quiet_if; [apply quiet_ret|apply IH].
Qed.
End quiet_parts.

(** ** Acquiring *)

(** The slot handed out is in the ring and acquired by the caller. *)
Definition acquired (r : ring) (slot : Z) : Prop :=
  in_ring r slot /\ slot_state r slot = 1.

Lemma acquire_scan_wp n start offset count c :
  producer_rest c -> slot_count c = count ->
  wp consumer_acts producer_acts (acquire_scan n start offset count)
    (fun found d => producer_rest d /\ forall slot, found = Some slot -> acquired d slot)
    c.
Proof.
  revert offset c. induction n as [|n IH]; intros offset c Hc Hn;
    cbn [acquire_scan bind cas_slot].
  { apply wp_ret. intros d Hd. split; [by apply (producer_rest_stable c)|done]. }
  set (candidate := u32 (start + offset) mod count).
  apply wp_act. intros d Hd. pose proof (producer_rest_stable _ _ Hd Hc) as Hdr.
  assert (Hnd : slot_count d = count)
    by (apply rtc_preorder in Hd; [by rewrite (ca_count _ _ Hd)|apply _]).
  pose proof Hdr as (Hok & Hp & Ha). pose proof (ro_count _ Hok).
  assert (Hin : in_ring d candidate).
  { unfold in_ring. rewrite Hnd. apply Z.mod_pos_bound. lia. }
  destruct (Z.eqb_spec (slot_state d candidate) BVB_WSI_SLOT_AVAILABLE) as [Hs|Hs];
    cbn [fst snd].
  2: { split; [done|]. destruct (Z.eqb_spec (slot_state d candidate) 0); [done|].
       by apply IH. }
  set (e := with_aux id (on_shared (set_slot_state candidate BVB_WSI_SLOT_ACQUIRED) d)).
  pose proof (acquire_acts d candidate Hok Hin Hs) as Hact. fold e in Hact.
  assert (Her : producer_rest e /\ acquired e candidate).
  { split; [split_and!; [by apply Hact|done|done]|]. split; [done|].
    pose proof (ro_states _ Hok). unfold in_ring in Hin. subst e. read_slots.
    by case_decide. }
  split; [done|]. rewrite Hs. change (0 =? 0) with true. cbv iota.
  apply wp_act. intros f Hf. cbn [fst snd]. destruct Her as [Her [Hein Hes]].
  pose proof (producer_rest_stable _ _ Hf Her) as Hfr.
  pose proof (acquired_stable _ _ _ Hf Hein Hes) as [Hfin Hfs].
  split; [apply next_acquire_acts|]. apply wp_ret. intros g Hg.
  set (f' := on_shared _ f) in Hg.
  assert (Hfr' : producer_rest f').
  { destruct Hfr as (Hfok & ? & ?). split_and!; [|done|done].
    by apply (next_acquire_acts f). }
  split; [by apply (producer_rest_stable f')|]. intros slot [= <-].
  by apply (acquired_stable f').
Qed.

Definition acquire_post (r : option (result Z)) (d : ring) : Prop :=
  producer_rest d /\ forall slot, r = Some (Ok slot) -> acquired d slot.

Lemma acquire_ret r c :
  producer_rest c -> (forall slot, r <> Some (Ok slot)) ->
  wp consumer_acts producer_acts (Ret r) acquire_post c.
Proof.
  intros Hc Hr. apply wp_ret. intros d Hd.
  split; [by apply (producer_rest_stable c)|]. intros slot E. by destruct (Hr slot).
Qed.

Lemma acquire_loop_wp rounds timeout deadline c :
  producer_rest c ->
  wp consumer_acts producer_acts (acquire_loop rounds timeout deadline)
    acquire_post c.
Proof.
  revert c. induction rounds as [|n IH]; intros c Hc; cbn [acquire_loop].
  { by apply acquire_ret. }
  apply wp_bind, ring_quiet_peer_failure; [done|]. intros st d Hd.
  pose proof (producer_rest_stable _ _ Hd Hc) as Hdr.
  case_match; [by apply acquire_ret|].
  apply wp_load; [done|]. intros e He.
  pose proof (producer_rest_stable _ _ He Hdr) as Her.
  apply wp_load; [done|]. intros f Hf.
  pose proof (producer_rest_stable _ _ Hf Her) as Hfr.
  apply wp_bind. eapply wp_mono; [|by apply acquire_scan_wp].
  intros [slot|] g [Hg Hs].
  { apply wp_ret. intros h Hh. split; [by apply (producer_rest_stable g)|].
    intros s [= <-]. destruct (Hs _ eq_refl) as [Hi Hst].
    by apply (acquired_stable g). }
  case_match; [by apply acquire_ret|].
  apply wp_load; [done|]. intros h Hh.
  pose proof (producer_rest_stable _ _ Hh Hg) as Hhr.
  apply wp_bind, quiet_wait. intros w i Hi.
  pose proof (producer_rest_stable _ _ Hi Hhr) as Hir.
  case_match; [by apply acquire_ret|by apply IH].
Qed.

Lemma acquire_wp rounds address timeout want c :
  producer_rest c ->
  wp consumer_acts producer_acts
    (bvb_wsi_frame_ring_acquire rounds address timeout want) acquire_post c.
Proof.
  intros Hc. apply wp_bind, ring_quiet_validate; [done|]. intros st d Hd.
  pose proof (producer_rest_stable _ _ Hd Hc) as Hdr.
  case_match; [by apply acquire_ret|].
  case_match; [|by apply acquire_loop_wp].
  apply wp_bind, quiet_deadline. intros r e He.
  pose proof (producer_rest_stable _ _ He Hdr) as Her.
  destruct r; [by apply acquire_loop_wp|by apply acquire_ret].
Qed.

(** ** Presenting *)

(** A presentation that returns a number has published it as the next one; a
    slot that was acquired has left that state. *)
Definition present_post (before : Z) (r : result Z) (d : ring) : Prop :=
  producer_rest d /\
  forall sequence, r = Ok sequence ->
    sequence = before + 1 /\ producer_sequence d = sequence.

Lemma present_err before e c :
  producer_rest c ->
  wp consumer_acts producer_acts (Ret (Err e)) (present_post before) c.
Proof.
  intros Hc. apply wp_ret. intros d Hd.
  split; [by apply (producer_rest_stable c)|done].
Qed.

Lemma producer_sequence_stable c d :
  rtc consumer_acts c d -> producer_sequence d = producer_sequence c.
Proof. intros H%rtc_preorder; [|apply _]. by destruct H. Qed.

(** The three stores of a presentation, from the compare-exchange on. *)
Lemma present_stores_wp slot current c :
  producer_rest c -> in_ring c slot -> slot_state c slot = 1 ->
  producer_sequence c = current -> current < UINT32_MAX ->
  let c1 := with_aux (start_presenting slot)
              (on_shared (set_slot_state slot BVB_WSI_SLOT_PRESENTED) c) in
  wp consumer_acts producer_acts
    (store (fun r => with_aux (assign (u32 (current + 1)))
              (on_shared (set_slot_sequence slot (u32 (current + 1))) r)) ;;
     store (on_shared (set_ring_producer_sequence (u32 (current + 1)))) ;;
     do status <- futex_wake producer_word ;;
     if negb (status =? 0) then Ret (Err status)
     else Ret (Ok (u32 (current + 1))))
    (present_post current) c1.
Proof.
  intros (Hok & Hp & Ha) Hin Hs Hc Hmax c1.
  assert (Hok1 : ring_ok c1) by (by apply (present_acts c)).
  pose proof (ro_producer _ Hok) as Hprod.
  rewrite (u32_small (current + 1))
    by (apply is_u32_spec; unfold UINT32_MAX in *; lia).
  apply wp_act. intros d Hd%rtc_preorder; [|apply _]. cbn [fst snd].
  destruct Hd as [Hokd _ Hqd Had Hpd _]. specialize (Hokd Hok1).
  change (producer_sequence d = producer_sequence c) in Hqd.
  change (assigned (aux d) = assigned (aux c)) in Had.
  change (presenting (aux d) = Some slot) in Hpd.
  pose proof (assign_acts d slot (current + 1) Hokd Hpd ltac:(lia) ltac:(lia)
                ltac:(lia)) as Hact.
  split; [done|]. set (e := with_aux (assign (current + 1)) _).
  assert (Hoke : ring_ok e) by (by apply Hact).
  apply wp_act. intros f Hf%rtc_preorder; [|apply _]. cbn [fst snd].
  destruct Hf as [Hokf _ Hqf Haf Hpf _]. specialize (Hokf Hoke).
  change (producer_sequence f = producer_sequence d) in Hqf.
  change (assigned (aux f) = current + 1) in Haf.
  change (presenting (aux f) = None) in Hpf.
  pose proof (publish_acts f (current + 1) Hokf Hpf Haf ltac:(lia)) as Hpub.
  split; [done|]. set (g := on_shared _ f).
  assert (Hg : producer_rest g) by (split_and!; [by apply Hpub|done|done]).
  apply wp_bind, quiet_wake. intros st h Hh.
  pose proof (producer_rest_stable _ _ Hh Hg) as Hhr.
  case_match; [by apply present_err|]. apply wp_ret. intros i Hi.
  split; [by apply (producer_rest_stable h)|]. intros s [= <-].
  split; [done|]. rewrite (producer_sequence_stable _ _ Hi).
  by rewrite (producer_sequence_stable _ _ Hh).
Qed.

Lemma present_wp address slot want c :
  producer_rest c -> 0 <= slot ->
  wp consumer_acts producer_acts (bvb_wsi_frame_ring_present address slot want)
    (present_post (producer_sequence c)) c.
Proof.
  intros Hc Hslot. apply wp_bind, ring_quiet_validate; [done|]. intros st d Hd.
  pose proof (producer_rest_stable _ _ Hd Hc) as Hdr.
  pose proof (producer_sequence_stable _ _ Hd) as Hqd.
  case_match; [by apply present_err|].
  apply wp_load; [done|]. intros e He.
  pose proof (producer_rest_stable _ _ He Hdr) as Her.
  pose proof (producer_sequence_stable _ _ He) as Hqe.
  case_match eqn:Hrange; [by apply present_err|].
  apply wp_bind, ring_quiet_peer_failure; [done|]. intros pf f Hf.
  pose proof (producer_rest_stable _ _ Hf Her) as Hfr.
  pose proof (producer_sequence_stable _ _ Hf) as Hqf.
  case_match; [by apply present_err|].
  apply wp_load; [done|]. intros g Hg.
  pose proof (producer_rest_stable _ _ Hg Hfr) as Hgr.
  pose proof (producer_sequence_stable _ _ Hg) as Hqg.
  destruct (Z.eqb_spec (producer_sequence g) UINT32_MAX); [by apply present_err|].
  cbn [bind cas_slot]. apply wp_act. intros h Hh.
  pose proof (producer_rest_stable _ _ Hh Hgr) as Hhr.
  pose proof (producer_sequence_stable _ _ Hh) as Hqh.
  destruct (Z.eqb_spec (slot_state h slot) BVB_WSI_SLOT_ACQUIRED) as [Hs|Hs];
    cbn [fst snd].
  2: { split; [done|]. destruct (Z.eqb_spec (slot_state h slot) 1); [done|].
       by apply present_err. }
  assert (Hcount : slot_count h = slot_count e).
  { apply rtc_preorder in Hh, Hg, Hf; [|apply _..].
    destruct Hh, Hg, Hf. congruence. }
  pose proof Hhr as (Hok & Hp & Ha).
  assert (Hin : in_ring h slot) by (unfold in_ring; lia).
  split; [by apply present_acts|]. rewrite Hs. change (1 =? 1) with true.
  cbn [negb]. rewrite <- Hqd, <- Hqe, <- Hqf, <- Hqg.
  apply present_stores_wp; [done..|].
  pose proof (ro_width _ Hok). pose proof (ro_producer _ Hok). lia.
Qed.

(** ** Finding, waiting for and releasing a frame *)

(** The slot holds the frame with that number, presented. *)
Definition holds (r : ring) (slot sequence : Z) : Prop :=
  in_ring r slot /\ slot_state r slot = 2 /\ slot_sequence r slot = sequence.

Lemma holds_stable c d slot sequence :
  rtc producer_acts c d -> ring_ok c -> sequence <> 0 ->
  holds c slot sequence -> holds d slot sequence.
Proof.
  intros Hd Hok H0 (Hi & _ & <-).
  by destruct (published_stable _ _ _ Hd Hok Hi H0) as (? & ? & ?).
Qed.

Lemma numbered_holds c slot :
  ring_ok c -> in_ring c slot -> slot_sequence c slot <> 0 ->
  holds c slot (slot_sequence c slot).
Proof.
  intros Hok Hi H0. by destruct (published_stable c c slot) as (? & ? & ?).
Qed.

(** What a scan of the slots from [candidate] on has found. *)
Definition scanned (c : ring) (candidate expected : Z) (found : option Z)
    (d : ring) : Prop :=
  consumer_rest d /\
  match found with
  | Some slot => holds d slot expected
  | None => forall i, candidate <= i -> ~ holds c i expected
  end.

Lemma scanned_weaken c c' candidate candidate' expected found d :
  (forall i, candidate <= i -> holds c i expected ->
     candidate' <= i /\ holds c' i expected) ->
  scanned c' candidate' expected found d -> scanned c candidate expected found d.
Proof.
  intros H [Hd Hf]. split; [done|]. destruct found; [done|].
  intros i Hi Hh. destruct (H i Hi Hh) as [Hi' Hh']. by apply (Hf i).
Qed.

Lemma find_loop_wp n candidate expected c :
  consumer_rest c -> expected <> 0 -> 0 <= candidate ->
  slot_count c = candidate + Z.of_nat n ->
  wp producer_acts consumer_acts (find_presented_loop n candidate expected)
    (scanned c candidate expected) c.
Proof.
  revert candidate c. induction n as [|n IH]; intros candidate c Hc H0 Hpos Hn;
    cbn [find_presented_loop].
  { apply wp_ret. intros d Hd. split; [by apply (consumer_rest_stable c)|].
    intros i Hi [Hin _]. unfold in_ring in Hin. lia. }
  apply wp_load; [done|]. intros d Hd.
  pose proof (consumer_rest_stable _ _ Hd Hc) as Hdr.
  assert (Hnd : slot_count d = slot_count c)
    by (apply rtc_preorder in Hd; [by destruct Hd|apply _]).
  assert (Hh : forall i, holds c i expected -> holds d i expected)
    by (intros i; apply holds_stable; [done|apply Hc|done]).
  destruct (Z.eqb_spec (slot_state d candidate) 2) as [Hs|Hs]; cbn [negb].
  2: { eapply wp_mono; [|apply (IH (candidate + 1) d); (done || lia)].
       intros f e. apply scanned_weaken. intros i Hi Hi2. split; [|by apply Hh].
       assert (i <> candidate); [|lia]. intros ->. by apply Hs, Hh. }
  apply wp_load; [done|]. intros e He.
  pose proof (consumer_rest_stable _ _ He Hdr) as Her.
  assert (Hne : slot_count e = slot_count d)
    by (apply rtc_preorder in He; [by destruct He|apply _]).
  assert (Hh' : forall i, holds c i expected -> holds e i expected)
    by (intros i Hi; apply (holds_stable d); [done|apply Hdr|done|by apply Hh]).
  destruct (Z.eqb_spec (slot_sequence e candidate) expected) as [Hq|Hq].
  - apply wp_ret. intros f Hf. split; [by apply (consumer_rest_stable e)|].
    apply (holds_stable e); [done|apply Her|done|]. rewrite <- Hq.
    apply numbered_holds; [apply Her| |congruence]. unfold in_ring. lia.
  - eapply wp_mono; [|apply (IH (candidate + 1) e); (done || lia)].
    intros f g. apply scanned_weaken. intros i Hi Hi2. split; [|by apply Hh'].
    assert (i <> candidate); [|lia]. intros ->. by apply Hq, Hh'.
Qed.

Lemma find_presented_wp expected c :
  consumer_rest c -> expected <> 0 ->
  wp producer_acts consumer_acts (find_presented expected)
    (scanned c 0 expected) c.
Proof.
  intros Hc H0. apply wp_load; [done|]. intros d Hd.
  pose proof (consumer_rest_stable _ _ Hd Hc) as Hdr.
  pose proof (ro_count _ (proj1 Hdr)).
  eapply wp_mono; [|apply (find_loop_wp _ 0 _ d); (done || lia)].
  intros f e. apply scanned_weaken. intros i Hi Hh. split; [done|].
  by apply (holds_stable c); [|apply Hc|..].
Qed.

(** A frame that was waited for is the one after the sequence named, and its
    slot holds it until the consumer releases it. *)
Definition wait_present_post (after : Z) (r : option (result (Z * Z))) (d : ring) :
    Prop :=
  consumer_rest d /\
  forall slot sequence, r = Some (Ok (slot, sequence)) ->
    sequence = after + 1 /\ holds d slot sequence.

Lemma wait_present_ret after r c :
  consumer_rest c -> (forall p, r <> Some (Ok p)) ->
  wp producer_acts consumer_acts (Ret r) (wait_present_post after) c.
Proof.
  intros Hc Hr. apply wp_ret. intros d Hd.
  split; [by apply (consumer_rest_stable c)|]. intros s q E. by destruct (Hr (s, q)).
Qed.

Lemma wait_present_found after slot c :
  consumer_rest c -> 0 <= after -> holds c slot (after + 1) ->
  wp producer_acts consumer_acts (Ret (Some (Ok (slot, after + 1))))
    (wait_present_post after) c.
Proof.
  intros Hc Ha Hh. apply wp_ret. intros d Hd.
  split; [by apply (consumer_rest_stable c)|]. intros s q [= <- <-].
  split; [done|]. apply (holds_stable c); [done|apply Hc|lia|done].
Qed.

Lemma wait_present_loop_wp rounds after deadline c :
  consumer_rest c -> 0 <= after ->
  wp producer_acts consumer_acts (wait_present_loop rounds (after + 1) deadline)
    (wait_present_post after) c.
Proof.
  intros Hc Ha. revert c Hc.
  induction rounds as [|n IH]; intros c Hc; cbn [wait_present_loop].
  { by apply wait_present_ret. }
  apply wp_bind, ring_quiet_peer_failure; [done|]. intros st d Hd.
  pose proof (consumer_rest_stable _ _ Hd Hc) as Hdr.
  case_match; [by apply wait_present_ret|].
  apply wp_bind. eapply wp_mono; [|apply find_presented_wp; (done || lia)].
  intros [slot|] e [Her He]; [by apply wait_present_found|].
  apply wp_load; [done|]. intros f Hf.
  pose proof (consumer_rest_stable _ _ Hf Her) as Hfr. case_match.
  - apply wp_bind. eapply wp_mono; [|apply find_presented_wp; (done || lia)].
    intros [slot|] g [Hg Hslot];
      [by apply wait_present_found|by apply wait_present_ret].
  - apply wp_bind, quiet_wait. intros w g Hg.
    pose proof (consumer_rest_stable _ _ Hg Hfr) as Hgr.
    case_match; [by apply wait_present_ret|by apply IH].
Qed.

Lemma wait_present_wp rounds address after timeout want c :
  consumer_rest c -> is_u32 after = true ->
  wp producer_acts consumer_acts
    (bvb_wsi_frame_ring_wait_present rounds address after timeout want)
    (wait_present_post after) c.
Proof.
  intros Hc Hu%is_u32_spec. apply wp_bind, ring_quiet_validate; [done|]. intros st d Hd.
  pose proof (consumer_rest_stable _ _ Hd Hc) as Hdr.
  case_match eqn:Hg; [by apply wait_present_ret|]. bool_hyps.
  apply wp_bind, quiet_deadline. intros [dl|e] f Hf;
    pose proof (consumer_rest_stable _ _ Hf Hdr) as Hfr;
    [|by apply wait_present_ret].
  rewrite u32_small by (apply is_u32_spec; unfold UINT32_MAX in *; lia).
  apply wait_present_loop_wp; (done || lia).
Qed.

Definition release_post (sequence : Z) (code : Z) (d : ring) : Prop :=
  consumer_rest d /\ (code = 0 -> consumer_sequence d = sequence).

Lemma release_err sequence code c :
  consumer_rest c -> code <> 0 ->
  wp producer_acts consumer_acts (Ret code) (release_post sequence) c.
Proof.
  intros Hc Hn. apply wp_ret. intros d Hd.
  by split; [apply (consumer_rest_stable c)|].
Qed.

Lemma consumer_sequence_stable c d :
  rtc producer_acts c d -> consumer_sequence d = consumer_sequence c.
Proof. intros H%rtc_preorder; [|apply _]. by destruct H. Qed.

(** From the clearing store of a release on. *)
Lemma release_stores_wp slot sequence c :
  consumer_rest c -> holds c slot sequence -> sequence <> 0 ->
  sequence = consumer_sequence c + 1 ->
  let c1 := with_aux (start_clearing slot sequence)
              (on_shared (set_slot_sequence slot 0) c) in
  consumer_acts c c1 /\
  wp producer_acts consumer_acts
    (do old <- cas_slot slot BVB_WSI_SLOT_PRESENTED BVB_WSI_SLOT_AVAILABLE
                 stop_clearing ;;
     if negb (old =? BVB_WSI_SLOT_PRESENTED) then Ret (- EPROTO) else
     store (on_shared (set_ring_consumer_sequence sequence)) ;;
     futex_wake consumer_word)
    (release_post sequence) c1.
Proof.
  intros (Hok & Hcl & Htk) (Hi & Hs & Hq) H0 Hseq c1.
  pose proof (clear_acts c slot sequence Hok Hi Hcl Hq H0 Hseq Htk) as Hact.
  split; [done|]. assert (Hok1 : ring_ok c1) by (by apply Hact).
  cbn [bind cas_slot]. apply wp_act. intros d Hd%rtc_preorder; [|apply _].
  destruct Hd as [Hokd _ Hcd Htd Hcld _ _]. specialize (Hokd Hok1).
  change (consumer_sequence d = consumer_sequence c) in Hcd.
  change (taken (aux d) = sequence) in Htd.
  change (clearing (aux d) = Some slot) in Hcld.
  destruct (ro_clearing _ Hokd slot Hcld) as (_ & Hsd & _).
  rewrite Hsd. change (2 =? BVB_WSI_SLOT_PRESENTED) with true. cbn [fst snd negb].
  pose proof (free_acts d slot Hokd Hcld) as Hfree.
  split; [done|]. set (e := with_aux stop_clearing _).
  assert (Hoke : ring_ok e) by (by apply Hfree).
  change (2 =? BVB_WSI_SLOT_PRESENTED) with true. cbn [negb].
  apply wp_act. intros f Hf%rtc_preorder; [|apply _]. cbn [fst snd].
  destruct Hf as [Hokf _ Hcf Htf Hclf _ _]. specialize (Hokf Hoke).
  change (consumer_sequence f = consumer_sequence d) in Hcf.
  change (taken (aux f) = taken (aux d)) in Htf.
  change (clearing (aux f) = None) in Hclf.
  pose proof (consume_acts f sequence Hokf Hclf ltac:(lia) ltac:(lia)) as Hcons.
  split; [done|]. set (g := on_shared _ f).
  assert (Hg : consumer_rest g)
    by (split_and!; [by apply Hcons|done|change (taken (aux f) = sequence); lia]).
  apply quiet_wake. intros code h Hh.
  split; [by apply (consumer_rest_stable g)|]. intros _.
  by rewrite (consumer_sequence_stable _ _ Hh).
Qed.

Lemma release_wp address slot sequence c :
  consumer_rest c -> 0 <= slot ->
  wp producer_acts consumer_acts (bvb_wsi_frame_ring_release address slot sequence)
    (release_post sequence) c.
Proof.
  intros Hc Hslot. apply wp_bind, ring_quiet_validate; [done|]. intros st d Hd.
  pose proof (consumer_rest_stable _ _ Hd Hc) as Hdr.
  destruct (Z.eqb_spec st 0); cbn [negb]; [|by apply release_err].
  apply wp_load; [done|]. intros e0 He.
  pose proof (consumer_rest_stable _ _ He Hdr) as Her.
  case_match eqn:Hrange; [by apply release_err|]. bool_hyps.
  apply wp_bind, ring_quiet_peer_failure; [done|]. intros pf f Hf.
  pose proof (consumer_rest_stable _ _ Hf Her) as Hfr.
  destruct (Z.eqb_spec pf 0); cbn [negb]; [|by apply release_err].
  apply wp_load; [done|]. intros g Hg.
  pose proof (consumer_rest_stable _ _ Hg Hfr) as Hgr.
  destruct (Z.eqb_spec (slot_sequence g slot) sequence) as [Hq|];
    cbn [negb]; [|by apply release_err].
  assert (Hin : in_ring g slot).
  { apply rtc_preorder in Hg, Hf; [|apply _..]. destruct Hg, Hf.
    unfold in_ring. lia. }
  assert (Hh : holds g slot sequence)
    by (rewrite <- Hq; apply numbered_holds; [apply Hgr|done|lia]).
  apply wp_load; [done|]. intros h Hrh.
  pose proof (consumer_rest_stable _ _ Hrh Hgr) as Hhr.
  assert (Hhh : holds h slot sequence)
    by (apply (holds_stable g); [done|apply Hgr|lia|done]).
  destruct (Z.eqb_spec (u32 (consumer_sequence h + 1)) sequence) as [Hs|];
    cbn [negb]; [|by apply release_err].
  apply wp_act. intros i Hi. cbn [fst snd].
  pose proof (consumer_rest_stable _ _ Hi Hhr) as Hir.
  pose proof (consumer_sequence_stable _ _ Hi) as Hcs.
  assert (Hhi : holds i slot sequence)
    by (apply (holds_stable h); [done|apply Hhr|lia|done]).
  apply release_stores_wp; [done..|lia|]. rewrite Hcs, <- Hs.
  destruct (decide (consumer_sequence h = UINT32_MAX)) as [E|].
  { rewrite E in Hs. change (0 = sequence) in Hs. lia. }
  apply u32_small, is_u32_spec.
  destruct (proj1 Hhr) as [_ _ _ ? ? _ ? _ _ _ _ _]. unfold UINT32_MAX in *. lia.
Qed.

(** Reporting a failure moves no slot and no sequence number. *)
Lemma ring_publish_failure_wp (rely guar : ring -> ring -> Prop) (rest : ring -> Prop)
    address set status c :
  (forall d, guar d d) ->
  (forall d e, rtc rely d e -> rest d -> rest e) ->
  (forall d, rest d ->
     guar d (on_shared (set status) d) /\ rest (on_shared (set status) d)) ->
  rest c -> wp rely guar (publish_failure address set status) (fun _ => rest) c.
Proof.
  intros Hrefl Hst Hset Hc. apply wp_bind, ring_quiet_validate; [done|]. intros r d Hd.
  case_match; [apply wp_ret; intros; eapply Hst; eauto|].
  destruct (Z.leb_spec 0 status); [apply wp_ret; intros; eapply Hst; eauto|].
  apply wp_act. intros e He. cbn [fst snd].
  destruct (Hset e) as [Hg Hr]; [eauto|]. split; [done|].
  apply wp_bind, quiet_wake. intros w f Hf. apply wp_bind, quiet_wake.
  intros v g Hg'. apply wp_ret. intros h Hh. eauto 10.
Qed.

Lemma fail_producer_wp address status c :
  producer_rest c ->
  wp consumer_acts producer_acts (bvb_wsi_frame_ring_fail_producer address status)
    (fun _ => producer_rest) c.
Proof.
  apply ring_publish_failure_wp; [done|exact producer_rest_stable|].
  intros d (Hok & ? & ?). split; [apply producer_status_acts|].
  split_and!; [by apply (producer_status_acts d)|done|done].
Qed.

Lemma fail_consumer_wp address status c :
  consumer_rest c ->
  wp producer_acts consumer_acts (bvb_wsi_frame_ring_fail_consumer address status)
    (fun _ => consumer_rest) c.
Proof.
  apply ring_publish_failure_wp; [done|exact consumer_rest_stable|].
  intros d (Hok & ? & ?). split; [apply consumer_status_acts|].
  split_and!; [by apply (consumer_status_acts d)|done|done].
Qed.

(** ** The calls of the two processes *)

Inductive producer_op : Type :=
| Acquire (rounds : nat) (timeout_ms : Z)
| Present (slot : Z)
| FailProducer (status : Z).

Inductive consumer_op : Type :=
| WaitPresent (rounds : nat) (after_sequence timeout_ms : Z)
| Release (slot sequence : Z)
| FailConsumer (status : Z).

Definition producer_op_program (address : Z) (op : producer_op) : prog ring unit :=
  match op with
  | Acquire n t =>
      do _ <- bvb_wsi_frame_ring_acquire n (Some address) t true ;; Ret tt
  | Present s => do _ <- bvb_wsi_frame_ring_present (Some address) s true ;; Ret tt
  | FailProducer s =>
      do _ <- bvb_wsi_frame_ring_fail_producer (Some address) s ;; Ret tt
  end.

Definition consumer_op_program (address : Z) (op : consumer_op) : prog ring unit :=
  match op with
  | WaitPresent n a t =>
      do _ <- bvb_wsi_frame_ring_wait_present n (Some address) a t true ;; Ret tt
  | Release s q => do _ <- bvb_wsi_frame_ring_release (Some address) s q ;; Ret tt
  | FailConsumer s =>
      do _ <- bvb_wsi_frame_ring_fail_consumer (Some address) s ;; Ret tt
  end.

(** The slots and sequences passed to the calls are [uint32_t]. *)
Definition producer_op_typed (op : producer_op) : bool :=
  match op with Present s => is_u32 s | _ => true end.
Definition consumer_op_typed (op : consumer_op) : bool :=
  match op with
  | WaitPresent _ a _ => is_u32 a
  | Release s _ => is_u32 s
  | FailConsumer _ => true
  end.

(** An initialised ring, before any call. *)
Definition fresh (w : bvb_wsi_frame_ring) : ring := mk_ring w (mk_ghost 0 0 None None).

Lemma initialize_rest address length slots generation w :
  bvb_wsi_frame_ring_initialize address length slots generation = Ok w ->
  producer_rest (fresh w) /\ consumer_rest (fresh w).
Proof.
  intros H. unfold bvb_wsi_frame_ring_initialize in H.
  destruct address as [a|]; [|done].
  match type of H with (if ?b then _ else _) = _ => destruct b eqn:E end; [done|].
  injection H as <-. bool_hyps.
  assert (ring_ok (fresh (mk_wsi_frame_ring BVB_WSI_FRAME_RING_MAGIC
    BVB_WSI_FRAME_RING_VERSION BVB_WSI_FRAME_RING_CONTROL_BYTES slots 0 generation
    0 0 0 0 0 (replicate 4 0) (replicate 4 0) (replicate 13 0)))) as Hok.
  { unfold fresh. assert (Hz : forall i, nth i (replicate 4 0) 0 = 0).
    { intros i. by do 5 (destruct i as [|i]; [done|]); destruct i. }
    constructor; unfold in_ring, slot_count, consumer_sequence, producer_sequence,
      slot_sequence, slot_state, UINT32_MAX; cbn [shared aux wr_slot_count
      wr_consumer_sequence wr_producer_sequence wr_slot_state wr_slot_sequence
      taken assigned presenting clearing]; try done; try lia; try (rewrite Hz; lia).
    - intros i Hi. constructor; unfold slot_state, slot_sequence;
        cbn [shared aux wr_slot_state wr_slot_sequence]; rewrite Hz; done || lia.
    - intros i j _ _ _. by rewrite Hz. }
  by split_and!.
Qed.

Lemma ring_producer_thread_wp address ops c :
  Forall (fun op => producer_op_typed op = true) ops -> producer_rest c ->
  wp consumer_acts producer_acts (thread (producer_op_program address) ops)
    (fun _ => producer_rest) c.
Proof.
  rewrite List.Forall_forall. setoid_rewrite <- list_elem_of_In. intros Hty.
  apply thread_wp; [exact producer_rest_stable|].
  intros [n t|s|s] d Hin Hr; cbn [producer_op_program];
    (eapply call_wp; [exact producer_rest_stable|..]).
  2: by apply acquire_wp.
  3: { apply present_wp; [done|]. apply Hty, is_u32_spec in Hin. lia. }
  4: by apply fail_producer_wp.
  all: intros r e Hpost; first [exact Hpost | exact (proj1 Hpost)].
Qed.

Lemma ring_consumer_thread_wp address ops c :
  Forall (fun op => consumer_op_typed op = true) ops -> consumer_rest c ->
  wp producer_acts consumer_acts (thread (consumer_op_program address) ops)
    (fun _ => consumer_rest) c.
Proof.
  rewrite List.Forall_forall. setoid_rewrite <- list_elem_of_In. intros Hty.
  apply thread_wp; [exact consumer_rest_stable|].
  intros [n a t|s q|s] d Hin Hr; cbn [consumer_op_program];
    (eapply call_wp; [exact consumer_rest_stable|..]).
  2: { apply wait_present_wp; [done|]. by apply Hty in Hin. }
  3: { apply release_wp; [done|]. apply Hty, is_u32_spec in Hin. lia. }
  4: by apply fail_consumer_wp.
  all: intros r e Hpost; first [exact Hpost | exact (proj1 Hpost)].
Qed.

(** ** What the ring promises *)

(** What two threads leave behind, however far they have come. *)
Lemma ring_threads_sound address producer_ops consumer_ops c p q r :
  Forall (fun op => producer_op_typed op = true) producer_ops ->
  Forall (fun op => consumer_op_typed op = true) consumer_ops ->
  producer_rest c -> consumer_rest c ->
  rtc sys_step
    (thread (producer_op_program address) producer_ops,
     thread (consumer_op_program address) consumer_ops, c) (p, q, r) ->
  ring_ok r /\ (p = Ret tt -> producer_rest r) /\ (q = Ret tt -> consumer_rest r).
Proof.
  intros Hp Hq Hpr Hcr Hrun.
  pose proof (ring_producer_thread_wp address _ c Hp Hpr) as Hpw.
  pose proof (ring_consumer_thread_wp address _ c Hq Hcr) as Hcw.
  split.
  - eapply (parallel_invariant ring_ok producer_acts consumer_acts);
      [by intros ? ? []|by intros ? ? []|apply Hpr|exact Hpw|exact Hcw|exact Hrun].
  - destruct (parallel_sound _ _ _ _ _ _ _ _ _ _ Hpw Hcw Hrun) as (_ & Hp' & Hq').
    split; intros ->; [by apply Hp'|by apply Hq'].
Qed.

(** C23: from an initialised ring, whatever calls the game and the Activity make
    and however their accesses interleave, every slot is available, acquired
    or presented, an unpresented slot carries no number, each number assigned
    and not yet taken is in exactly one slot, and both published sequences
    follow the numbers assigned and taken by at most one; a side that has
    finished its calls has published every number it assigned or took. *)
Theorem frame_ring_invariant address length slots generation w producer_ops
    consumer_ops p q r :
  Forall (fun op => producer_op_typed op = true) producer_ops ->
  Forall (fun op => consumer_op_typed op = true) consumer_ops ->
  bvb_wsi_frame_ring_initialize (Some address) length slots generation = Ok w ->
  rtc sys_step
    (thread (producer_op_program address) producer_ops,
     thread (consumer_op_program address) consumer_ops, fresh w)
    (p, q, r) ->
  ring_ok r /\ (p = Ret tt -> producer_rest r) /\ (q = Ret tt -> consumer_rest r).
Proof.
  intros Hp Hq Hinit. apply initialize_rest in Hinit as [Hpr Hcr].
  by apply ring_threads_sound.
Qed.

(** C35: against any interference of the other process, [acquire] hands out a
    slot that is now acquired and that nobody else changes, [present] gives
    the frame the next number and has published it when it returns, the
    frame [wait_present] returns is the one after the sequence it was given
    and its slot holds it, and a [release] that returns 0 has moved the
    consumed sequence to the frame released. *)
Theorem frame_ring_calls_are_sound address c d rounds timeout slot sequence after :
  producer_rest c -> consumer_rest d ->
  is_u32 slot = true -> is_u32 after = true ->
  wp consumer_acts producer_acts
    (bvb_wsi_frame_ring_acquire rounds (Some address) timeout true)
    acquire_post c /\
  wp consumer_acts producer_acts
    (bvb_wsi_frame_ring_present (Some address) slot true)
    (present_post (producer_sequence c)) c /\
  wp producer_acts consumer_acts
    (bvb_wsi_frame_ring_wait_present rounds (Some address) after timeout true)
    (wait_present_post after) d /\
  wp producer_acts consumer_acts
    (bvb_wsi_frame_ring_release (Some address) slot sequence)
    (release_post sequence) d.
Proof.
  intros Hc Hd Hs%is_u32_spec Ha. split_and!.
  - by apply acquire_wp.
  - apply present_wp; [done|lia].
  - by apply wait_present_wp.
  - apply release_wp; [done|lia].
Qed.

(** A frame that has been published and not yet released is found by the
    scan of [wait_present], whatever the producer does meanwhile: the
    [-EPROTO] after the second scan is never the answer to a race. *)
Theorem published_frame_is_found c sequence :
  consumer_rest c ->
  consumer_sequence c < sequence <= producer_sequence c ->
  wp producer_acts consumer_acts (find_presented sequence)
    (fun found d => consumer_rest d /\
       exists slot, found = Some slot /\ holds d slot sequence) c.
Proof.
  intros Hc Hs. pose proof Hc as (Hok & _ & Htk).
  pose proof (ro_consumer _ Hok). pose proof (ro_producer _ Hok).
  destruct (ro_held _ Hok sequence ltac:(lia)) as (i & Hi & Hq).
  assert (Hh : holds c i sequence)
    by (rewrite <- Hq; apply numbered_holds; [done..|lia]).
  eapply wp_mono; [|apply find_presented_wp; [done|lia]].
  intros [slot|] d [Hd Hf]; [by eauto|].
  exfalso. apply (Hf i); [unfold in_ring in Hi; lia|done].
Qed.

(** ** Acquiring without waiting *)

(** The slots in the order [acquire] tries them: round robin from the slot
    after the last one it handed out. *)
Definition scan_order (c : ring) : list Z :=
  map (fun k => (wr_next_acquire (shared c) mod slot_count c + Z.of_nat k)
                  mod slot_count c) (seq 0 (Z.to_nat (slot_count c))).

Definition first_free (c : ring) : list Z -> option Z :=
  find (fun i => slot_state c i =? BVB_WSI_SLOT_AVAILABLE).

(** The ring after handing out a slot. *)
Definition take (slot : Z) (c : ring) : ring :=
  on_shared (set_next_acquire ((slot + 1) mod slot_count c))
    (on_shared (set_slot_state slot BVB_WSI_SLOT_ACQUIRED) c).

Lemma scan_order_complete c i :
  ring_ok c -> in_ring c i -> In i (scan_order c).
Proof.
  intros Hok Hi. pose proof (ro_count _ Hok). unfold in_ring in Hi.
  set (n := slot_count c) in *. set (s := wr_next_acquire (shared c) mod n).
  assert (0 <= s < n) by (apply Z.mod_pos_bound; lia).
  pose proof (Z.mod_pos_bound (i - s) n ltac:(lia)).
  apply in_map_iff. exists (Z.to_nat ((i - s) mod n)). split.
  - rewrite Z2Nat.id by lia. fold n s. rewrite Z.add_mod_idemp_r by lia.
    rewrite Z.mod_small; lia.
  - apply in_seq. fold n. lia.
Qed.

Lemma first_free_none c i :
  ring_ok c -> first_free c (scan_order c) = None -> in_ring c i ->
  slot_state c i <> BVB_WSI_SLOT_AVAILABLE.
Proof.
  intros Hok Hn Hi. eapply find_none in Hn; [|by apply scan_order_complete].
  by apply Z.eqb_neq.
Qed.

Lemma run_scan c start offset n :
  2 <= slot_count c <= 4 -> 0 <= start < slot_count c ->
  0 <= offset <= 4 -> offset + Z.of_nat n <= 4 ->
  run [] (acquire_scan n start offset (slot_count c)) c =
  Some match first_free c (map (fun k => (start + Z.of_nat k) mod slot_count c)
                             (seq (Z.to_nat offset) n)) with
       | Some slot => (Some slot, take slot c)
       | None => (None, c)
       end.
Proof.
  intros Hn Hs. revert offset.
  induction n as [|n IH]; intros offset Ho Hm; [done|].
  cbn [acquire_scan bind cas_slot seq map first_free find run].
  rewrite Z2Nat.id by lia.
  rewrite (u32_small (start + offset)) by (apply is_u32_spec; lia).
  pose proof (Z.mod_pos_bound (start + offset) (slot_count c) ltac:(lia)).
  set (candidate := (start + offset) mod slot_count c) in *.
  destruct (Z.eqb_spec (slot_state c candidate) BVB_WSI_SLOT_AVAILABLE) as [E|E].
  - rewrite E. cbn [run Z.eqb].
    by rewrite (u32_small (candidate + 1)) by (apply is_u32_spec; lia).
  - rewrite (proj2 (Z.eqb_neq _ _) E).
    replace (S (Z.to_nat offset)) with (Z.to_nat (offset + 1)) by lia.
    by apply IH; lia.
Qed.

Lemma run_validate_slots c n slot :
  (forall i, slot <= i < slot + Z.of_nat n -> slot_state c i <= 2) ->
  run [] (validate_slots n slot) c = Some (0, c).
Proof.
  revert slot. induction n as [|n IH]; intros slot H; [done|].
  cbn [validate_slots run].
  destruct (Z.ltb_spec BVB_WSI_SLOT_PRESENTED (slot_state c slot)).
  - specialize (H slot ltac:(lia)). lia.
  - apply IH. intros i Hi. apply H. lia.
Qed.

Lemma run_validate c address :
  ring_ok c -> header_code address 0 c = 0 ->
  run [] (bvb_wsi_frame_ring_validate address 0) c = Some (0, c).
Proof.
  intros Hok Hh. unfold bvb_wsi_frame_ring_validate. cbn [run]. rewrite Hh.
  apply run_validate_slots. intros i Hi. pose proof (ro_count _ Hok).
  apply (ro_slots _ Hok). unfold in_ring. lia.
Qed.

Lemma run_peer_failure c :
  0 <= wr_producer_status (shared c) -> 0 <= wr_consumer_status (shared c) ->
  run [] peer_failure c = Some (0, c).
Proof.
  intros Hp Hc. cbn [peer_failure run].
  rewrite (proj2 (Z.ltb_ge _ _) Hp). cbn [run].
  by rewrite (proj2 (Z.ltb_ge _ _) Hc).
Qed.

(** Polled on a valid ring that nobody else touches, [acquire] returns
    the first available slot in round-robin order, marks it acquired and
    moves the starting point past it; it returns [-EAGAIN], and changes
    nothing, only when no slot of the ring is available. *)
Theorem acquire_poll_round_robin address c rounds :
  ring_ok c -> header_code (Some address) 0 c = 0 ->
  0 <= wr_producer_status (shared c) -> 0 <= wr_consumer_status (shared c) ->
  run [] (bvb_wsi_frame_ring_acquire (S rounds) (Some address) 0 true) c =
  Some match first_free c (scan_order c) with
       | Some slot => (Some (Ok slot), take slot c)
       | None => (Some (Err (- EAGAIN)), c)
       end /\
  (first_free c (scan_order c) = None ->
   forall i, in_ring c i -> slot_state c i <> BVB_WSI_SLOT_AVAILABLE).
Proof.
  intros Hok Hh Hp Hc. split; [|eauto using first_free_none].
  unfold bvb_wsi_frame_ring_acquire.
  erewrite run_bind by (by apply run_validate). cbn [negb Z.eqb orb acquire_loop].
  erewrite run_bind by (by apply run_peer_failure). cbn [negb Z.eqb run].
  pose proof (ro_count _ Hok).
  pose proof (Z.mod_pos_bound (wr_next_acquire (shared c)) (slot_count c)
                ltac:(lia)) as Hstart.
  pose proof (run_scan c _ 0 (Z.to_nat (slot_count c)) H Hstart ltac:(lia)
                ltac:(lia)) as Hscan.
  change (Z.to_nat 0) with O in Hscan. fold (scan_order c) in Hscan.
  by destruct (first_free c (scan_order c)); erewrite run_bind by exact Hscan.
Qed.

(** ** A concrete ring *)

(** An initialised ring of two slots, and the words of a ring of two slots in
    which slot 0 has been acquired. *)
Definition words0 : bvb_wsi_frame_ring :=
  mk_wsi_frame_ring BVB_WSI_FRAME_RING_MAGIC BVB_WSI_FRAME_RING_VERSION
    BVB_WSI_FRAME_RING_CONTROL_BYTES 2 0 7 0 0 0 0 0
    (replicate 4 0) (replicate 4 0) (replicate 13 0).
Definition ring0 : ring := fresh words0.

Lemma ring0_rest : producer_rest ring0 /\ consumer_rest ring0.
Proof. by apply (initialize_rest (Some 4096) 4096 2 7). Qed.

(** Two presented frames, the first of them released. *)
Definition ring2 : ring :=
  mk_ring
    (mk_wsi_frame_ring BVB_WSI_FRAME_RING_MAGIC BVB_WSI_FRAME_RING_VERSION
       BVB_WSI_FRAME_RING_CONTROL_BYTES 2 0 7 0 2 1 0 0
       [0; 2; 0; 0] [0; 2; 0; 0] (replicate 13 0))
    (mk_ghost 2 1 None None).

(** The game acquires and presents both slots, the Activity waits for the
    first frame and releases it. *)
Lemma cycle_runs :
  rtc sys_step
    (thread (producer_op_program 4096) [Acquire 1 0; Present 0; Acquire 1 0; Present 1],
     thread (consumer_op_program 4096) [WaitPresent 1 0 5; Release 0 1], ring0)
    (Ret tt, Ret tt, ring2).
Proof.
  etransitivity.
  - apply (left_runs [0; 0]). vm_compute. reflexivity.
  - apply (right_runs [10; 0]). vm_compute. reflexivity.
Qed.

Lemma frame_ring_invariant_witness :
  ring_ok ring2 /\ producer_rest ring2 /\ consumer_rest ring2.
Proof.
  destruct (frame_ring_invariant 4096 4096 2 7 words0
              [Acquire 1 0; Present 0; Acquire 1 0; Present 1]
              [WaitPresent 1 0 5; Release 0 1] (Ret tt) (Ret tt) ring2)
    as (Hok & Hp & Hc);
    [by repeat constructor|by repeat constructor|reflexivity|exact cycle_runs|].
  split; [exact Hok|]. split; [apply Hp|apply Hc]; reflexivity.
Defined.

Lemma ring2_rest : producer_rest ring2 /\ consumer_rest ring2.
Proof.
  destruct (ring_threads_sound 4096
              [Acquire 1 0; Present 0; Acquire 1 0; Present 1]
              [WaitPresent 1 0 5; Release 0 1] ring0 (Ret tt) (Ret tt) ring2)
    as (_ & Hp & Hc);
    [by repeat constructor|by repeat constructor|apply ring0_rest..
    |exact cycle_runs|by auto].
Qed.

Lemma frame_ring_calls_are_sound_witness :
  wp producer_acts consumer_acts
    (bvb_wsi_frame_ring_release (Some 4096) 1 2) (release_post 2) ring2.
Proof.
  apply (frame_ring_calls_are_sound 4096 ring0 ring2 0 0 1 2 0);
    [apply ring0_rest|apply ring2_rest|reflexivity|reflexivity].
Defined.

(** The second frame of [ring2] is found in slot 1. *)
Lemma published_frame_is_found_witness :
  wp producer_acts consumer_acts (find_presented 2)
    (fun found d => consumer_rest d /\
       exists slot, found = Some slot /\ holds d slot 2) ring2.
Proof.
  apply (published_frame_is_found ring2 2); [apply ring2_rest|].
  unfold consumer_sequence, producer_sequence. cbn. lia.
Defined.

(** In [ring2] slot 0 is free again and slot 1 is not. *)
Lemma acquire_poll_round_robin_witness :
  run [] (bvb_wsi_frame_ring_acquire 1 (Some 4096) 0 true) ring2 =
  Some (Some (Ok 0), take 0 ring2).
Proof.
  destruct (acquire_poll_round_robin 4096 ring2 0) as [H _];
    [apply ring2_rest|reflexivity|cbn; lia|cbn; lia|].
  rewrite H. reflexivity.
Defined.
