(* ===== verification/DescriptorRing.v ===== *)
(** * DescriptorRing: descriptor transactions over shared memory

    Models the transactions of src/descriptor_transaction_ring.c and the
    structures of include/bvb/descriptor_transaction_ring.h.  The client
    writes a request into the slot its sequence number names and waits; the
    worker of the service answers in the same slot.  Who may touch a slot is
    told by its state word: the client while it is available or completed, the
    service while it is requested.

    The memory of the programs is the mapped region paired with a [log] of
    the requests published and the answers completed so far; no operation
    reads the log.  [memset] and [memcpy] into a slot are one step each, and
    [memcpy] out of a slot reads byte by byte: the owner of a slot is the only
    one that touches its bytes, which is what the theorems show. *)

From stdpp Require Import relations.
From S2P Require Import Prelude Abi Shared.

Record bvb_descriptor_transaction_slot := mk_slot {
  ds_state : Z;
  ds_sequence : Z;
  ds_status : Z;
  ds_request_length : Z;
  ds_response_length : Z;
  ds_flags : Z;
  ds_request : list Z;
  ds_response : list Z;
  ds_reserved : list Z
}.

Record bvb_descriptor_lease_record := mk_lease_record {
  lr_layout_id : Z;
  lr_descriptor_set_id : Z
}.

Record bvb_descriptor_lease_bank := mk_lease_bank {
  lb_pool_id : Z;
  lb_epoch : Z;
  lb_count : Z;
  lb_cursor : Z;
  lb_ready : Z;
  lb_reserved : Z;
  lb_records : list bvb_descriptor_lease_record
}.

Record bvb_descriptor_transaction_ring := mk_descriptor_ring {
  dr_magic : Z;
  dr_version : Z;
  dr_control_bytes : Z;
  dr_slot_count : Z;
  dr_flags : Z;
  dr_generation : Z;
  dr_request_sequence : Z;
  dr_completion_sequence : Z;
  dr_client_status : Z;
  dr_service_status : Z;
  dr_next_slot : Z;
  dr_request_wait_state : Z;
  dr_completion_wait_state : Z;
  dr_reserved : list Z
}.

(** The mapped region: the control page, the slots behind it and the lease
    banks at their offset. *)
Record region := mk_region {
  rg_ring : bvb_descriptor_transaction_ring;
  rg_slots : list bvb_descriptor_transaction_slot;
  rg_banks : list bvb_descriptor_lease_bank
}.

(** The requests published, with their sequence; the answers completed, with
    sequence, status and response. *)
Record log := mk_log {
  requested : list (Z * list Z);
  completed : list (Z * Z * list Z)
}.

Record memory := mk_memory {
  region_of : region;
  log_of : log
}.

Definition zero_slot : bvb_descriptor_transaction_slot :=
  mk_slot 0 0 0 0 0 0
    (replicate (Z.to_nat BVB_DESCRIPTOR_TRANSACTION_RING_REQUEST_BYTES) 0)
    (replicate (Z.to_nat BVB_DESCRIPTOR_TRANSACTION_RING_RESPONSE_BYTES) 0)
    (replicate 48 0).
Definition zero_bank : bvb_descriptor_lease_bank :=
  mk_lease_bank 0 0 0 0 0 0
    (replicate (Z.to_nat BVB_DESCRIPTOR_LEASE_BANK_CAPACITY)
       (mk_lease_record 0 0)).

(** ** Reading and writing the region *)

Definition ring (m : memory) : bvb_descriptor_transaction_ring :=
  rg_ring (region_of m).
Definition slot_at (m : memory) (index : Z) : bvb_descriptor_transaction_slot :=
  nth (Z.to_nat index) (rg_slots (region_of m)) zero_slot.
Definition lease_bank_at (g : region) (index : Z) : bvb_descriptor_lease_bank :=
  nth (Z.to_nat index) (rg_banks g) zero_bank.

Definition on_ring
    (f : bvb_descriptor_transaction_ring -> bvb_descriptor_transaction_ring)
    (m : memory) : memory :=
  mk_memory (mk_region (f (ring m)) (rg_slots (region_of m))
               (rg_banks (region_of m))) (log_of m).
Definition on_slot (index : Z)
    (f : bvb_descriptor_transaction_slot -> bvb_descriptor_transaction_slot)
    (m : memory) : memory :=
  mk_memory (mk_region (ring m)
               (alter f (Z.to_nat index) (rg_slots (region_of m)))
               (rg_banks (region_of m))) (log_of m).
Definition log_request (sequence : Z) (request : list Z) (m : memory) : memory :=
  mk_memory (region_of m)
    (mk_log (requested (log_of m) ++ [(sequence, request)])
       (completed (log_of m))).

(** The answer a completed slot carries. *)
Definition answer (s : bvb_descriptor_transaction_slot) : Z * Z * list Z :=
  (ds_sequence s, ds_status s,
   take (Z.to_nat (ds_response_length s)) (ds_response s)).
Definition log_answer (index : Z) (m : memory) : memory :=
  mk_memory (region_of m)
    (mk_log (requested (log_of m))
       (completed (log_of m) ++ [answer (slot_at m index)])).

Definition set_request_sequence (v : Z) (r : bvb_descriptor_transaction_ring) :=
  mk_descriptor_ring (dr_magic r) (dr_version r) (dr_control_bytes r)
    (dr_slot_count r) (dr_flags r) (dr_generation r) v
    (dr_completion_sequence r) (dr_client_status r) (dr_service_status r)
    (dr_next_slot r) (dr_request_wait_state r) (dr_completion_wait_state r)
    (dr_reserved r).
Definition set_completion_sequence (v : Z) (r : bvb_descriptor_transaction_ring) :=
  mk_descriptor_ring (dr_magic r) (dr_version r) (dr_control_bytes r)
    (dr_slot_count r) (dr_flags r) (dr_generation r) (dr_request_sequence r)
    v (dr_client_status r) (dr_service_status r)
    (dr_next_slot r) (dr_request_wait_state r) (dr_completion_wait_state r)
    (dr_reserved r).
Definition set_client_status (v : Z) (r : bvb_descriptor_transaction_ring) :=
  mk_descriptor_ring (dr_magic r) (dr_version r) (dr_control_bytes r)
    (dr_slot_count r) (dr_flags r) (dr_generation r) (dr_request_sequence r)
    (dr_completion_sequence r) v (dr_service_status r)
    (dr_next_slot r) (dr_request_wait_state r) (dr_completion_wait_state r)
    (dr_reserved r).
Definition set_service_status (v : Z) (r : bvb_descriptor_transaction_ring) :=
  mk_descriptor_ring (dr_magic r) (dr_version r) (dr_control_bytes r)
    (dr_slot_count r) (dr_flags r) (dr_generation r) (dr_request_sequence r)
    (dr_completion_sequence r) (dr_client_status r) v
    (dr_next_slot r) (dr_request_wait_state r) (dr_completion_wait_state r)
    (dr_reserved r).
Definition set_next_slot (v : Z) (r : bvb_descriptor_transaction_ring) :=
  mk_descriptor_ring (dr_magic r) (dr_version r) (dr_control_bytes r)
    (dr_slot_count r) (dr_flags r) (dr_generation r) (dr_request_sequence r)
    (dr_completion_sequence r) (dr_client_status r) (dr_service_status r)
    v (dr_request_wait_state r) (dr_completion_wait_state r)
    (dr_reserved r).
Definition set_request_wait_state (v : Z) (r : bvb_descriptor_transaction_ring) :=
  mk_descriptor_ring (dr_magic r) (dr_version r) (dr_control_bytes r)
    (dr_slot_count r) (dr_flags r) (dr_generation r) (dr_request_sequence r)
    (dr_completion_sequence r) (dr_client_status r) (dr_service_status r)
    (dr_next_slot r) v (dr_completion_wait_state r)
    (dr_reserved r).
Definition set_completion_wait_state (v : Z) (r : bvb_descriptor_transaction_ring) :=
  mk_descriptor_ring (dr_magic r) (dr_version r) (dr_control_bytes r)
    (dr_slot_count r) (dr_flags r) (dr_generation r) (dr_request_sequence r)
    (dr_completion_sequence r) (dr_client_status r) (dr_service_status r)
    (dr_next_slot r) (dr_request_wait_state r) v
    (dr_reserved r).

(** [memcpy] to the start of an array. *)
Definition copy_in (source : list Z) (count : Z) (target : list Z) : list Z :=
  take (Z.to_nat count) source ++ drop (Z.to_nat count) target.

Definition set_slot_state (v : Z) (s : bvb_descriptor_transaction_slot) :=
  mk_slot v (ds_sequence s) (ds_status s) (ds_request_length s)
    (ds_response_length s) (ds_flags s) (ds_request s) (ds_response s)
    (ds_reserved s).
Definition set_slot_sequence (v : Z) (s : bvb_descriptor_transaction_slot) :=
  mk_slot (ds_state s) v (ds_status s) (ds_request_length s)
    (ds_response_length s) (ds_flags s) (ds_request s) (ds_response s)
    (ds_reserved s).
Definition set_slot_status (v : Z) (s : bvb_descriptor_transaction_slot) :=
  mk_slot (ds_state s) (ds_sequence s) v (ds_request_length s)
    (ds_response_length s) (ds_flags s) (ds_request s) (ds_response s)
    (ds_reserved s).
Definition set_request_length (v : Z) (s : bvb_descriptor_transaction_slot) :=
  mk_slot (ds_state s) (ds_sequence s) (ds_status s) v
    (ds_response_length s) (ds_flags s) (ds_request s) (ds_response s)
    (ds_reserved s).
Definition set_response_length (v : Z) (s : bvb_descriptor_transaction_slot) :=
  mk_slot (ds_state s) (ds_sequence s) (ds_status s) (ds_request_length s)
    v (ds_flags s) (ds_request s) (ds_response s)
    (ds_reserved s).
Definition write_request (source : list Z) (count : Z)
    (s : bvb_descriptor_transaction_slot) :=
  mk_slot (ds_state s) (ds_sequence s) (ds_status s) (ds_request_length s)
    (ds_response_length s) (ds_flags s) (copy_in source count (ds_request s))
    (ds_response s) (ds_reserved s).
Definition write_response (source : list Z) (count : Z)
    (s : bvb_descriptor_transaction_slot) :=
  mk_slot (ds_state s) (ds_sequence s) (ds_status s) (ds_request_length s)
    (ds_response_length s) (ds_flags s) (ds_request s)
    (copy_in source count (ds_response s)) (ds_reserved s).

(** ** Waiting and waking *)

Definition BVB_DESCRIPTOR_TRANSACTION_SPIN_NS : Z := 250000.
Definition BVB_DESCRIPTOR_TRANSACTION_SPIN_CLOCK_INTERVAL : Z := 64.

Definition request_word : Z := 24.
Definition completion_word : Z := 28.

Definition slot_count (m : memory) : Z := dr_slot_count (ring m).

Definition peer_status : prog memory Z :=
  load client := (fun m => dr_client_status (ring m)) ;;
  if client <? 0 then Ret client else
  load service := (fun m => dr_service_status (ring m)) ;;
  Ret (if service <? 0 then service else 0).

Section waiting.
Context (word : bvb_descriptor_transaction_ring -> Z) (word_name : Z).
Context (set_wait_state : Z -> bvb_descriptor_transaction_ring ->
                          bvb_descriptor_transaction_ring).
Context (expected deadline_ns : Z).

Definition set_wait (v : Z) (m : memory) : memory := on_ring (set_wait_state v) m.

(** The second [for (;;)]: what [result] is when it is left. *)
Fixpoint sleep_loop (rounds : nat) : prog memory (option Z) :=
  match rounds with
  | O => Ret None
  | S rounds =>
      do result <- peer_status ;;
      if negb (result =? 0) then Ret (Some result) else
      load observed := (fun m => word (ring m)) ;;
      if expected <=? observed then Ret (Some result) else
      do result <- futex_wait_until word_name observed deadline_ns ;;
      if negb (result =? 0) then Ret (Some result) else
      sleep_loop rounds
  end.

Definition sleep (rounds : nat) : prog memory (option Z) :=
  store (set_wait BVB_DESCRIPTOR_TRANSACTION_WAIT_SLEEPING) ;;
  do slept <- sleep_loop rounds ;;
  match slept with
  | None => Ret None
  | Some result =>
      store (set_wait BVB_DESCRIPTOR_TRANSACTION_WAIT_IDLE) ;;
      Ret (Some result)
  end.

(** The first [for (;;)], which ends in a result or goes on to [sleep].  The
    clock is read once every [SPIN_CLOCK_INTERVAL] iterations. *)
Fixpoint spin_loop (rounds sleeps : nat) (iterations spin_deadline_ns : Z) :
    prog memory (option Z) :=
  match rounds with
  | O => Ret None
  | S rounds =>
      do result <- peer_status ;;
      if negb (result =? 0) then
        store (set_wait BVB_DESCRIPTOR_TRANSACTION_WAIT_IDLE) ;;
        Ret (Some result)
      else
      load seen := (fun m => word (ring m)) ;;
      if expected <=? seen then
        store (set_wait BVB_DESCRIPTOR_TRANSACTION_WAIT_IDLE) ;;
        Ret (Some result)
      else
      let iterations := u32 (iterations + 1) in
      if iterations mod BVB_DESCRIPTOR_TRANSACTION_SPIN_CLOCK_INTERVAL =? 0 then
        do now_ns <- monotonic_ns ;;
        if now_ns <? 0 then
          store (set_wait BVB_DESCRIPTOR_TRANSACTION_WAIT_IDLE) ;;
          Ret (Some (- EIO))
        else if spin_deadline_ns <=? now_ns then sleep sleeps
        else spin_loop rounds sleeps iterations spin_deadline_ns
      else spin_loop rounds sleeps iterations spin_deadline_ns
  end.

Definition wait_for_sequence (spins sleeps : nat) : prog memory (option Z) :=
  do result <- peer_status ;;
  if negb (result =? 0) then Ret (Some result) else
  load seen := (fun m => word (ring m)) ;;
  if expected <=? seen then Ret (Some 0) else
  do started_ns <- monotonic_ns ;;
  if started_ns <? 0 then Ret (Some (- EIO)) else
  let spin_deadline_ns := started_ns + BVB_DESCRIPTOR_TRANSACTION_SPIN_NS in
  let spin_deadline_ns :=
    if (spin_deadline_ns <? started_ns) || (deadline_ns <? spin_deadline_ns)
    then deadline_ns else spin_deadline_ns in
  store (set_wait BVB_DESCRIPTOR_TRANSACTION_WAIT_SPINNING) ;;
  spin_loop spins sleeps 0 spin_deadline_ns.
End waiting.

Definition wake_if_sleeping (word_name : Z)
    (wait_state : bvb_descriptor_transaction_ring -> Z) : prog memory Z :=
  load state := (fun m => wait_state (ring m)) ;;
  if state =? BVB_DESCRIPTOR_TRANSACTION_WAIT_SLEEPING
  then futex_wake word_name else Ret 0.

(** ** Validation *)

(** The words of the header that never change once it is initialised. *)
Definition static_header_ok (address length : Z)
    (r : bvb_descriptor_transaction_ring) : bool :=
  (address mod 8 =? 0) &&
  (length =? BVB_DESCRIPTOR_TRANSACTION_RING_REGION_BYTES) &&
  (dr_magic r =? BVB_DESCRIPTOR_TRANSACTION_RING_MAGIC) &&
  (dr_version r =? BVB_DESCRIPTOR_TRANSACTION_RING_VERSION) &&
  (dr_control_bytes r =? BVB_DESCRIPTOR_TRANSACTION_RING_CONTROL_BYTES) &&
  negb (dr_slot_count r =? 0) &&
  (dr_slot_count r <=? BVB_DESCRIPTOR_TRANSACTION_RING_SLOT_COUNT) &&
  (dr_flags r =? 0) && negb (dr_generation r =? 0).

Definition generation_ok (generation : Z)
    (r : bvb_descriptor_transaction_ring) : bool :=
  (generation =? 0) || (dr_generation r =? generation).

Definition validate_header (address : ptr Z) (length generation : Z) :
    prog memory Z :=
  match address with
  | None => Ret (- EINVAL)
  | Some address =>
      load ok := (fun m => Z.b2z (static_header_ok address length (ring m))) ;;
      if negb (ok =? 1) then Ret (- EINVAL) else
      load request_wait := (fun m => dr_request_wait_state (ring m)) ;;
      if BVB_DESCRIPTOR_TRANSACTION_WAIT_SLEEPING <? request_wait
      then Ret (- EINVAL) else
      load completion_wait := (fun m => dr_completion_wait_state (ring m)) ;;
      if BVB_DESCRIPTOR_TRANSACTION_WAIT_SLEEPING <? completion_wait
      then Ret (- EINVAL) else
      load ok := (fun m => Z.b2z (generation_ok generation (ring m))) ;;
      if negb (ok =? 1) then Ret (- EINVAL) else Ret 0
  end.

Definition bvb_descriptor_transaction_ring_initialize (address : ptr Z)
    (length slot_count generation : Z) : result region :=
  deref address := address or (- EINVAL) ;;
  fail_if negb (address mod 8 =? 0) ||
          negb (length =? BVB_DESCRIPTOR_TRANSACTION_RING_REGION_BYTES) ||
          (slot_count =? 0) ||
          (BVB_DESCRIPTOR_TRANSACTION_RING_SLOT_COUNT <? slot_count) ||
          (generation =? 0)
    with (- EINVAL) ;;
  Ok (mk_region
        (mk_descriptor_ring BVB_DESCRIPTOR_TRANSACTION_RING_MAGIC
           BVB_DESCRIPTOR_TRANSACTION_RING_VERSION
           BVB_DESCRIPTOR_TRANSACTION_RING_CONTROL_BYTES slot_count 0 generation
           0 0 0 0 0 0 0 (replicate 19 0))
        (replicate (Z.to_nat BVB_DESCRIPTOR_TRANSACTION_RING_SLOT_COUNT) zero_slot)
        (replicate (Z.to_nat BVB_DESCRIPTOR_LEASE_BANK_COUNT) zero_bank)).

Fixpoint validate_slots (remaining : nat) (index : Z) : prog memory Z :=
  match remaining with
  | O => Ret 0
  | S remaining =>
      load state := (fun m => ds_state (slot_at m index)) ;;
      if BVB_DESCRIPTOR_TRANSACTION_SLOT_COMPLETED <? state
      then Ret (- EPROTO) else
      load flags := (fun m => ds_flags (slot_at m index)) ;;
      if negb (flags =? 0) then Ret (- EPROTO) else
      load request_length := (fun m => ds_request_length (slot_at m index)) ;;
      if BVB_DESCRIPTOR_TRANSACTION_RING_REQUEST_BYTES <? request_length
      then Ret (- EPROTO) else
      load response_length := (fun m => ds_response_length (slot_at m index)) ;;
      if BVB_DESCRIPTOR_TRANSACTION_RING_RESPONSE_BYTES <? response_length
      then Ret (- EPROTO) else
      validate_slots remaining (index + 1)
  end.

Fixpoint validate_banks (remaining : nat) (index : Z) : prog memory Z :=
  match remaining with
  | O => Ret 0
  | S remaining =>
      let bank m := lease_bank_at (region_of m) index in
      load ready := (fun m => lb_ready (bank m)) ;;
      load count := (fun m => lb_count (bank m)) ;;
      load cursor := (fun m => lb_cursor (bank m)) ;;
      load reserved := (fun m => lb_reserved (bank m)) ;;
      load pool_id := (fun m => lb_pool_id (bank m)) ;;
      load epoch := (fun m => lb_epoch (bank m)) ;;
      if (BVB_DESCRIPTOR_LEASE_BANK_READY <? ready) ||
         (BVB_DESCRIPTOR_LEASE_BANK_CAPACITY <? count) || (count <? cursor) ||
         negb (reserved =? 0) ||
         ((ready =? BVB_DESCRIPTOR_LEASE_BANK_READY) &&
          ((pool_id =? 0) || (epoch =? 0) || (count =? 0)))
      then Ret (- EPROTO) else
      validate_banks remaining (index + 1)
  end.

Definition bvb_descriptor_transaction_ring_validate (address : ptr Z)
    (length generation : Z) : prog memory Z :=
  do result <- validate_header address length generation ;;
  if negb (result =? 0) then Ret result else
  load next_slot := (fun m => dr_next_slot (ring m)) ;;
  load count := slot_count ;;
  if count <=? next_slot then Ret (- EINVAL) else
  do result <- validate_slots (Z.to_nat count) 0 ;;
  if negb (result =? 0) then Ret result else
  validate_banks (Z.to_nat BVB_DESCRIPTOR_LEASE_BANK_COUNT) 0.

(** ** Transactions *)

(** [memcpy] out of an array of the region, one byte at a time. *)
Fixpoint copy_out (array : memory -> list Z) (index count : nat) :
    prog memory (list Z) :=
  match count with
  | O => Ret []
  | S count =>
      load byte := (fun m => nth index (array m) 0) ;;
      do bytes <- copy_out array (S index) count ;;
      Ret (byte :: bytes)
  end.

(** The client's wait and what it reads from its slot. *)
Definition collect_response (index sequence response_capacity : Z) :
    prog memory (result (list Z)) :=
  load held := (fun m => ds_sequence (slot_at m index)) ;;
  if negb (held =? sequence) then Ret (Err (- EPROTO)) else
  load state := (fun m => ds_state (slot_at m index)) ;;
  if negb (state =? BVB_DESCRIPTOR_TRANSACTION_SLOT_COMPLETED)
  then Ret (Err (- EPROTO)) else
  load response_length := (fun m => ds_response_length (slot_at m index)) ;;
  if response_capacity <? response_length then Ret (Err (- EPROTO)) else
  load status := (fun m => ds_status (slot_at m index)) ;;
  if negb (status =? 0) then Ret (Err status) else
  do response <- copy_out (fun m => ds_response (slot_at m index)) 0
                   (Z.to_nat response_length) ;;
  store (on_slot index (fun _ => zero_slot)) ;;
  store (on_slot index
           (set_slot_state BVB_DESCRIPTOR_TRANSACTION_SLOT_AVAILABLE)) ;;
  load count := slot_count ;;
  store (on_ring (set_next_slot (u32 (index + 1) mod count))) ;;
  Ret (Ok response).

(** Filling the slot and publishing the request. *)
Definition publish_request (index sequence : Z) (request : list Z)
    (request_length : Z) : prog memory Z :=
  store (on_slot index (fun _ => zero_slot)) ;;
  store (on_slot index (write_request request request_length)) ;;
  store (on_slot index (set_request_length request_length)) ;;
  store (on_slot index (set_slot_sequence sequence)) ;;
  store (fun m => log_request sequence (take (Z.to_nat request_length) request)
           (on_slot index
              (set_slot_state BVB_DESCRIPTOR_TRANSACTION_SLOT_REQUESTED) m)) ;;
  store (on_ring (set_request_sequence sequence)) ;;
  wake_if_sleeping request_word dr_request_wait_state.

(** [want] is [response != NULL && response_length != NULL]; the result is
    what is stored through them.  [spins] and [sleeps] bound the two waiting
    loops. *)
Definition bvb_descriptor_transaction_ring_call (spins sleeps : nat)
    (address : ptr Z) (length generation sequence : Z) (request : ptr (list Z))
    (request_length : Z) (want : bool) (response_capacity timeout_ms : Z) :
    prog memory (option (result (list Z))) :=
  do result <- validate_header address length generation ;;
  match request with
  | None => Ret (Some (Err (if negb (result =? 0) then result else - EINVAL)))
  | Some request =>
  if negb (result =? 0) || (sequence =? 0) || (request_length =? 0) ||
     (BVB_DESCRIPTOR_TRANSACTION_RING_REQUEST_BYTES <? request_length) ||
     negb want || (timeout_ms =? 0)
  then Ret (Some (Err (if negb (result =? 0) then result else - EINVAL))) else
  do result <- peer_status ;;
  if negb (result =? 0) then Ret (Some (Err result)) else
  load count := slot_count ;;
  let index := u32 (sequence - 1) mod count in
  load state := (fun m => ds_state (slot_at m index)) ;;
  if negb (state =? BVB_DESCRIPTOR_TRANSACTION_SLOT_AVAILABLE)
  then Ret (Some (Err (- EBUSY))) else
  do result <- publish_request index sequence request request_length ;;
  if negb (result =? 0) then Ret (Some (Err result)) else
  do deadline <- deadline_from_timeout timeout_ms ;;
  match deadline with
  | Err e => Ret (Some (Err e))
  | Ok deadline_ns =>
      do waited <- wait_for_sequence dr_completion_sequence completion_word
                     set_completion_wait_state sequence deadline_ns
                     spins sleeps ;;
      match waited with
      | None => Ret None
      | Some result =>
          if negb (result =? 0) then Ret (Some (Err result)) else
          do response <- collect_response index sequence response_capacity ;;
          Ret (Some response)
      end
  end
  end.

(** What the service reads from the slot of a request: the bytes, the slot
    and the sequence. *)
Definition collect_request (expected request_capacity : Z) :
    prog memory (result (list Z * Z * Z)) :=
  load count := slot_count ;;
  let index := u32 (expected - 1) mod count in
  load held := (fun m => ds_sequence (slot_at m index)) ;;
  if negb (held =? expected) then Ret (Err (- EPROTO)) else
  load state := (fun m => ds_state (slot_at m index)) ;;
  if negb (state =? BVB_DESCRIPTOR_TRANSACTION_SLOT_REQUESTED)
  then Ret (Err (- EPROTO)) else
  load request_length := (fun m => ds_request_length (slot_at m index)) ;;
  if (request_length =? 0) || (request_capacity <? request_length)
  then Ret (Err (- EPROTO)) else
  do request <- copy_out (fun m => ds_request (slot_at m index)) 0
                  (Z.to_nat request_length) ;;
  Ret (Ok (request, index, expected)).

Definition bvb_descriptor_transaction_ring_wait_request (spins sleeps : nat)
    (address : ptr Z) (length generation after_sequence : Z) (want : bool)
    (request_capacity timeout_ms : Z) :
    prog memory (option (result (list Z * Z * Z))) :=
  do result <- validate_header address length generation ;;
  if negb (result =? 0) || (after_sequence =? UINT32_MAX) || negb want ||
     (timeout_ms =? 0)
  then Ret (Some (Err (if negb (result =? 0) then result else - EINVAL))) else
  let expected := u32 (after_sequence + 1) in
  do deadline <- deadline_from_timeout timeout_ms ;;
  match deadline with
  | Err e => Ret (Some (Err e))
  | Ok deadline_ns =>
      do waited <- wait_for_sequence dr_request_sequence request_word
                     set_request_wait_state expected deadline_ns
                     spins sleeps ;;
      match waited with
      | None => Ret None
      | Some result =>
          if negb (result =? 0) then Ret (Some (Err result)) else
          do request <- collect_request expected request_capacity ;;
          Ret (Some request)
      end
  end.

(** [response = None] is [NULL], allowed with [response_length = 0]. *)
Definition bvb_descriptor_transaction_ring_complete (address : ptr Z)
    (length generation slot_index sequence status : Z)
    (response : ptr (list Z)) (response_length : Z) : prog memory Z :=
  do result <- validate_header address length generation ;;
  if negb (result =? 0) then Ret result else
  load count := slot_count ;;
  if (count <=? slot_index) || (sequence =? 0) || (0 <? status) ||
     (BVB_DESCRIPTOR_TRANSACTION_RING_RESPONSE_BYTES <? response_length) ||
     (negb (response_length =? 0) &&
      match response with None => true | Some _ => false end) ||
     (negb (status =? 0) && negb (response_length =? 0))
  then Ret (- EINVAL) else
  load held := (fun m => ds_sequence (slot_at m slot_index)) ;;
  if negb (held =? sequence) then Ret (- ESTALE) else
  load state := (fun m => ds_state (slot_at m slot_index)) ;;
  if negb (state =? BVB_DESCRIPTOR_TRANSACTION_SLOT_REQUESTED)
  then Ret (- ESTALE) else
  store (on_slot slot_index (set_slot_status status)) ;;
  store (on_slot slot_index (set_response_length response_length)) ;;
  store (match response with
         | Some bytes => if negb (response_length =? 0)
                         then on_slot slot_index
                                (write_response bytes response_length)
                         else id
         | None => id
         end) ;;
  store (fun m => log_answer slot_index
           (on_slot slot_index
              (set_slot_state BVB_DESCRIPTOR_TRANSACTION_SLOT_COMPLETED) m)) ;;
  store (on_ring (set_completion_sequence sequence)) ;;
  wake_if_sleeping completion_word dr_completion_wait_state.

Definition fail_peer (address : ptr Z)
    (set_status : Z -> bvb_descriptor_transaction_ring ->
                  bvb_descriptor_transaction_ring) (status : Z) :
    prog memory Z :=
  do result <- validate_header address
                 BVB_DESCRIPTOR_TRANSACTION_RING_REGION_BYTES 0 ;;
  if negb (result =? 0) then Ret result else
  if 0 <=? status then Ret (- EINVAL) else
  store (on_ring (set_status status)) ;;
  do result <- futex_wake request_word ;;
  do completion_result <- futex_wake completion_word ;;
  Ret (if negb (result =? 0) then result else completion_result).

Definition bvb_descriptor_transaction_ring_fail_client (address : ptr Z)
    (status : Z) : prog memory Z := fail_peer address set_client_status status.
Definition bvb_descriptor_transaction_ring_fail_service (address : ptr Z)
    (status : Z) : prog memory Z := fail_peer address set_service_status status.

(** ** The invariant of the region *)

Abbreviation AVAILABLE := BVB_DESCRIPTOR_TRANSACTION_SLOT_AVAILABLE (only parsing).
Abbreviation REQUESTED := BVB_DESCRIPTOR_TRANSACTION_SLOT_REQUESTED (only parsing).
Abbreviation COMPLETED := BVB_DESCRIPTOR_TRANSACTION_SLOT_COMPLETED (only parsing).

(** The request a slot carries, as it is logged. *)
Definition request_of (s : bvb_descriptor_transaction_slot) : Z * list Z :=
  (ds_sequence s, take (Z.to_nat (ds_request_length s)) (ds_request s)).

(** A slot stays within its arrays; a requested slot carries a request that
    was published, a completed one an answer that was given. *)
Record slot_ok (l : log) (s : bvb_descriptor_transaction_slot) : Prop := {
  so_state : AVAILABLE <= ds_state s <= COMPLETED;
  so_flags : ds_flags s = 0;
  so_request_length :
    0 <= ds_request_length s <= BVB_DESCRIPTOR_TRANSACTION_RING_REQUEST_BYTES;
  so_response_length :
    0 <= ds_response_length s <= BVB_DESCRIPTOR_TRANSACTION_RING_RESPONSE_BYTES;
  so_request :
    length (ds_request s) = Z.to_nat BVB_DESCRIPTOR_TRANSACTION_RING_REQUEST_BYTES;
  so_response :
    length (ds_response s) = Z.to_nat BVB_DESCRIPTOR_TRANSACTION_RING_RESPONSE_BYTES;
  so_requested : ds_state s = REQUESTED ->
    ds_sequence s <> 0 /\ request_of s ∈ requested l;
  so_completed : ds_state s = COMPLETED ->
    ds_sequence s <> 0 /\ answer s ∈ completed l
}.

Definition in_slots (m : memory) (index : Z) : Prop :=
  0 <= index < slot_count m.

Record region_ok (m : memory) : Prop := {
  go_count : 1 <= slot_count m <= BVB_DESCRIPTOR_TRANSACTION_RING_SLOT_COUNT;
  go_slots : length (rg_slots (region_of m)) =
             Z.to_nat BVB_DESCRIPTOR_TRANSACTION_RING_SLOT_COUNT;
  go_slot i : in_slots m i -> slot_ok (log_of m) (slot_at m i)
}.

Abbreviation state m i := (ds_state (slot_at m i)) (only parsing).
Abbreviation sequence_of m i := (ds_sequence (slot_at m i)) (only parsing).

(** What accesses of the client may do: a requested slot stays as it is, and a
    slot that is being filled keeps the sequence written into it. *)
Record client_acts (c d : memory) : Prop := {
  cl_ok : region_ok c -> region_ok d;
  cl_count : slot_count d = slot_count c;
  cl_completed : completed (log_of d) = completed (log_of c);
  cl_requested : requested (log_of c) `prefix_of` requested (log_of d);
  cl_slots i : in_slots c i -> state c i = REQUESTED ->
    slot_at d i = slot_at c i;
  cl_filling i : in_slots c i -> state c i = AVAILABLE -> sequence_of c i <> 0 ->
    sequence_of d i = sequence_of c i /\
    (state d i = AVAILABLE \/ state d i = REQUESTED)
}.

(** What accesses of the service may do: only a requested slot changes, it
    keeps its request, and when it is completed the answer is a new one. *)
Record service_acts (c d : memory) : Prop := {
  sv_ok : region_ok c -> region_ok d;
  sv_count : slot_count d = slot_count c;
  sv_requested : requested (log_of d) = requested (log_of c);
  sv_completed : completed (log_of c) `prefix_of` completed (log_of d);
  sv_slots i : in_slots c i -> state c i <> REQUESTED ->
    slot_at d i = slot_at c i;
  sv_pending i : in_slots c i -> state c i = REQUESTED ->
    sequence_of d i = sequence_of c i /\
    (state d i = REQUESTED \/
     state d i = COMPLETED /\
     exists new, completed (log_of d) = completed (log_of c) ++ new /\
                 answer (slot_at d i) ∈ new)
}.

#[export] Instance client_acts_preorder : PreOrder client_acts.
Proof.
  split.
  - intros c. constructor; auto; try done.
  - intros c d e [] []. constructor; try congruence; auto.
    + by etransitivity.
    + intros i Hi Hs. assert (in_slots d i) by (unfold in_slots in *; lia).
      rewrite cl_slots1; auto. by rewrite cl_slots0.
    + intros i Hi Hs Hq. assert (in_slots d i) by (unfold in_slots in *; lia).
      destruct (cl_filling0 i Hi Hs Hq) as [Hq' [Hs'|Hs']].
      * destruct (cl_filling1 i) as [Hq'' ?]; [done|done|congruence|].
        split; congruence || done.
      * rewrite cl_slots1; auto.
Qed.

#[export] Instance service_acts_preorder : PreOrder service_acts.
Proof.
  split.
  - intros c. constructor; auto; try done.
  - intros c d e [] []. constructor; try congruence; auto.
    + by etransitivity.
    + intros i Hi Hs. assert (in_slots d i) by (unfold in_slots in *; lia).
      rewrite sv_slots1; auto. by rewrite sv_slots0.
    + intros i Hi Hs. assert (in_slots d i) by (unfold in_slots in *; lia).
      destruct (sv_pending0 i Hi Hs) as [Hq [Hs'|(Hs' & new & Hn & Hin)]].
      * destruct (sv_pending1 i) as [Hq' [?|(? & new & Hn & Hin)]]; [done..| |].
        { split; [congruence|by left]. }
        split; [congruence|]. right. split; [done|].
        destruct sv_completed0 as [k Hk]. exists (k ++ new).
        split; [by rewrite Hn, Hk, app_assoc|set_solver].
      * rewrite sv_slots1 by (done || congruence). split; [done|]. right.
        split; [done|]. destruct sv_completed1 as [k Hk]. exists (new ++ k).
        split; [by rewrite Hk, Hn, app_assoc|set_solver].
Qed.

Lemma rtc_acts {M} (R : M -> M -> Prop) `{!PreOrder R} c d : rtc R c d -> R c d.
Proof. induction 1; [reflexivity|]. by etransitivity. Qed.

(** ** Steps *)

Lemma slot_at_on_slot m i f j :
  (Z.to_nat i < length (rg_slots (region_of m)))%nat -> 0 <= i -> 0 <= j ->
  slot_at (on_slot i f m) j = if decide (i = j) then f (slot_at m i) else slot_at m j.
Proof.
  intros Hl Hi Hj. unfold slot_at, on_slot. cbn. rewrite !nth_lookup.
  case_decide as E.
  - subst. rewrite list_lookup_alter_eq.
    by destruct (lookup_lt_is_Some_2 _ _ Hl) as [x ->].
  - rewrite list_lookup_alter_ne by lia. done.
Qed.

Lemma slot_ok_more l l' s :
  requested l `prefix_of` requested l' -> completed l `prefix_of` completed l' ->
  slot_ok l s -> slot_ok l' s.
Proof.
  intros [k Hk] [k' Hk'] []. constructor; auto; rewrite ?Hk, ?Hk'; set_solver.
Qed.

(** A step that changes one slot, and lets the log grow. *)
Definition slot_step (c d : memory) (i : Z)
    (s : bvb_descriptor_transaction_slot) : Prop :=
  (forall j, in_slots c j -> slot_at d j = if decide (i = j) then s else slot_at c j) /\
  slot_count d = slot_count c /\
  length (rg_slots (region_of d)) = length (rg_slots (region_of c)) /\
  requested (log_of c) `prefix_of` requested (log_of d) /\
  completed (log_of c) `prefix_of` completed (log_of d).

Lemma slot_step_ok c d i s :
  slot_step c d i s -> slot_ok (log_of d) s -> region_ok c -> region_ok d.
Proof.
  intros (Hs & Hn & Hl & Hr & Hc) Hok []. constructor; try congruence.
  intros j Hj. unfold in_slots in *. rewrite Hs by lia. case_decide; [done|].
  eapply slot_ok_more; [done..|]. apply go_slot0. lia.
Qed.

Lemma region_index c i :
  region_ok c -> in_slots c i ->
  (Z.to_nat i < length (rg_slots (region_of c)))%nat /\ 0 <= i.
Proof. intros [Hc Hl _] Hi. unfold in_slots in Hi. rewrite Hl. lia. Qed.

Lemma on_slot_step c i f :
  region_ok c -> in_slots c i -> slot_step c (on_slot i f c) i (f (slot_at c i)).
Proof.
  intros Hok Hi. destruct (region_index c i Hok Hi).
  split_and!; try done.
  - intros j Hj. apply slot_at_on_slot; unfold in_slots in *; lia.
  - cbn. by rewrite length_alter.
Qed.

(** The client writes a slot it owns. *)
Lemma client_write c d i s :
  in_slots c i -> slot_step c d i s ->
  completed (log_of d) = completed (log_of c) ->
  (region_ok c -> slot_ok (log_of d) s) ->
  state c i = COMPLETED \/
    state c i = AVAILABLE /\
    (sequence_of c i <> 0 -> ds_sequence s = sequence_of c i /\
       (ds_state s = AVAILABLE \/ ds_state s = REQUESTED)) ->
  client_acts c d.
Proof.
  intros Hi Hst Hlog Hok Hown. pose proof Hst as (Hs & Hn & Hl & Hr & Hc).
  constructor; auto.
  - intros H. eapply slot_step_ok; eauto.
  - intros j Hj Hj1. rewrite Hs by done. case_decide; [|done].
    subst. destruct Hown as [?|[? _]]; lia.
  - intros j Hj Hj0 Hq. rewrite Hs by done. case_decide; [|auto].
    subst. destruct Hown as [?|[_ Hf]]; [lia|auto].
Qed.

(** The service writes a requested slot. *)
Lemma service_write c d i s :
  in_slots c i -> slot_step c d i s -> state c i = REQUESTED ->
  requested (log_of d) = requested (log_of c) ->
  (region_ok c -> slot_ok (log_of d) s) -> ds_sequence s = sequence_of c i ->
  ds_state s = REQUESTED \/
    (ds_state s = COMPLETED /\
     completed (log_of d) = completed (log_of c) ++ [answer s]) ->
  service_acts c d.
Proof.
  intros Hi Hst Hreq Hlog Hok Hq Hown. pose proof Hst as (Hs & Hn & Hl & Hr & Hc).
  constructor; auto.
  - intros H. eapply slot_step_ok; eauto.
  - intros j Hj Hj1. rewrite Hs by done. case_decide; [congruence|done].
  - intros j Hj Hj1. rewrite Hs by done. case_decide; [|by auto].
    subst. split; [done|]. destruct Hown as [?|[? Hlog']]; [by left|right].
    split; [done|]. exists [answer s]. split; [done|set_solver].
Qed.

(** Stores to the control page that keep the slot count. *)
Lemma on_ring_same f c :
  dr_slot_count (f (ring c)) = slot_count c ->
  (region_ok c -> region_ok (on_ring f c)) /\
  (forall i, slot_at (on_ring f c) i = slot_at c i) /\
  slot_count (on_ring f c) = slot_count c.
Proof.
  intros Hn. split_and!; try done. intros [].
  assert (Hn' : slot_count (on_ring f c) = slot_count c) by done.
  constructor; rewrite ?Hn'; try done.
  intros i Hi. unfold in_slots in Hi. rewrite Hn' in Hi. by apply go_slot0.
Qed.

Lemma client_ring f c :
  dr_slot_count (f (ring c)) = slot_count c -> client_acts c (on_ring f c).
Proof. intros (Hok & Hs & Hn)%on_ring_same. constructor; auto; by intros; rewrite Hs; auto. Qed.

Lemma service_ring f c :
  dr_slot_count (f (ring c)) = slot_count c -> service_acts c (on_ring f c).
Proof. intros (Hok & Hs & Hn)%on_ring_same. constructor; auto; by intros; rewrite Hs; auto. Qed.

(** ** Quiet parts and waits *)

Section waits.
Context (rely guar : memory -> memory -> Prop) (rest : memory -> Prop).
Context (guar_refl : forall m, guar m m).
Context (stable : forall c d, rtc rely c d -> rest c -> rest d).

Lemma quiet_peer_status : quiet rely guar peer_status.
Proof using guar_refl.
  apply quiet_load; [done|]. intros v. apply quiet_if; [apply quiet_ret|].
  apply quiet_load; [done|]. intros w. apply quiet_ret.
Qed.

Lemma quiet_validate_header address length generation :
  quiet rely guar (validate_header address length generation).
Proof using guar_refl.
  destruct address as [a|]; [|apply quiet_ret].
  do 4 (apply quiet_load; [done|]; intros ?;
        apply quiet_if; [apply quiet_ret|]). apply quiet_ret.
Qed.

Lemma quiet_wake_if_sleeping word wait_state :
  quiet rely guar (wake_if_sleeping word wait_state).
Proof using guar_refl.
  apply quiet_load; [done|]. intros v. apply quiet_if; [apply quiet_wake|apply quiet_ret].
Qed.

Lemma rest_ret {A} (a : A) c :
  rest c -> wp rely guar (Ret a) (fun _ => rest) c.
Proof using stable. intros Hc. apply wp_ret. intros d Hd. by apply (stable c). Qed.

Context (word : bvb_descriptor_transaction_ring -> Z) (word_name : Z).
Context (set_wait_state : Z -> bvb_descriptor_transaction_ring ->
                          bvb_descriptor_transaction_ring).
Context (expected deadline_ns : Z).
Context (wait_store : forall v d, rest d ->
  guar d (set_wait set_wait_state v d) /\ rest (set_wait set_wait_state v d)).

Lemma wait_store_wp {A} v (a : A) c :
  rest c ->
  wp rely guar (store (set_wait set_wait_state v) ;; Ret a) (fun _ => rest) c.
Proof using stable wait_store.
  intros Hc. apply wp_act. intros d Hd. cbn [fst snd].
  destruct (wait_store v d) as [Hg Hr]; [by apply (stable c)|].
  split; [done|]. by apply rest_ret.
Qed.

Lemma sleep_loop_wp rounds c :
  rest c ->
  wp rely guar (sleep_loop word word_name expected deadline_ns rounds)
    (fun _ => rest) c.
Proof using guar_refl stable.
  revert c. induction rounds as [|n IH]; intros c Hc; [by apply rest_ret|].
  cbn [sleep_loop]. apply wp_bind, quiet_peer_status. intros r d Hd.
  case_match; [apply rest_ret; eauto|]. apply wp_load; [done|]. intros e He.
  case_match; [apply rest_ret; eauto|]. apply wp_bind, quiet_wait.
  intros w f Hf. case_match; [apply rest_ret|apply IH]; eauto 6.
Qed.

Lemma sleep_wp rounds c :
  rest c ->
  wp rely guar (sleep word word_name set_wait_state expected deadline_ns rounds)
    (fun _ => rest) c.
Proof using guar_refl stable wait_store.
  intros Hc. apply wp_act. intros d Hd. cbn [fst snd].
  destruct (wait_store BVB_DESCRIPTOR_TRANSACTION_WAIT_SLEEPING d) as [Hg Hr]; [eauto|].
  split; [done|]. apply wp_bind. eapply wp_mono; [|by apply sleep_loop_wp].
  intros [r|] e He; [by apply wait_store_wp|by apply rest_ret].
Qed.

Lemma spin_loop_wp rounds sleeps iterations spin_deadline c :
  rest c ->
  wp rely guar (spin_loop word word_name set_wait_state expected deadline_ns
                  rounds sleeps iterations spin_deadline) (fun _ => rest) c.
Proof using guar_refl stable wait_store.
  revert iterations c. induction rounds as [|n IH]; intros iterations c Hc;
    [by apply rest_ret|].
  cbn [spin_loop]. apply wp_bind, quiet_peer_status. intros r d Hd.
  case_match; [apply wait_store_wp; eauto|]. apply wp_load; [done|]. intros e He.
  case_match; [apply wait_store_wp; eauto|].
  case_match; [|apply IH; eauto].
  apply wp_bind, quiet_clock. intros now f Hf.
  case_match; [apply wait_store_wp; eauto 6|].
  case_match; [apply sleep_wp|apply IH]; eauto 6.
Qed.

(** A wait keeps whatever the other side and the stores to the wait word keep. *)
Lemma wait_for_sequence_wp spins sleeps c :
  rest c ->
  wp rely guar (wait_for_sequence word word_name set_wait_state expected
                  deadline_ns spins sleeps) (fun _ => rest) c.
Proof using guar_refl stable wait_store.
  intros Hc. apply wp_bind, quiet_peer_status. intros r d Hd.
  case_match; [apply rest_ret; eauto|]. apply wp_load; [done|]. intros e He.
  case_match; [apply rest_ret; eauto|]. apply wp_bind, quiet_clock.
  intros started f Hf. case_match; [apply rest_ret; eauto 6|].
  apply wp_act. intros g Hg. cbn [fst snd].
  destruct (wait_store BVB_DESCRIPTOR_TRANSACTION_WAIT_SPINNING g) as [? Hr];
    [eauto 7|]. split; [done|]. by apply spin_loop_wp.
Qed.
End waits.

(** ** The client's side *)

Lemma client_refl c : client_acts c c.
Proof. reflexivity. Qed.
Lemma service_refl c : service_acts c c.
Proof. reflexivity. Qed.
#[local] Hint Resolve client_refl service_refl : core.

(** Between calls of the client, every available slot except perhaps [i] is
    cleared. *)
Definition cleared_but (i : Z) (m : memory) : Prop :=
  forall j, in_slots m j -> j <> i -> state m j = AVAILABLE -> sequence_of m j = 0.
Definition client_rest (m : memory) : Prop :=
  region_ok m /\ forall j, in_slots m j -> state m j = AVAILABLE -> sequence_of m j = 0.

(** The client owns slot [i], which reads [s]; the answers [l] had been given
    when its call began. *)
Record client_owns (l : list (Z * Z * list Z)) (i : Z)
    (s : bvb_descriptor_transaction_slot) (m : memory) : Prop := {
  co_ok : region_ok m;
  co_in : in_slots m i;
  co_slot : slot_at m i = s;
  co_rest : cleared_but i m;
  co_log : l `prefix_of` completed (log_of m)
}.

Lemma service_keeps c d j :
  service_acts c d -> in_slots c j -> state d j = AVAILABLE -> region_ok c ->
  slot_at d j = slot_at c j.
Proof.
  intros [] Hj Hs Hok. destruct (decide (state c j = REQUESTED)) as [E|E].
  - destruct (sv_pending0 j Hj E) as [_ [?|[? _]]]; lia.
  - by apply sv_slots0.
Qed.

Lemma cleared_but_stable i c d :
  service_acts c d -> region_ok c -> cleared_but i c -> cleared_but i d.
Proof.
  intros Hd Hok Hc j Hj Hne Hs. pose proof (sv_count _ _ Hd).
  assert (in_slots c j) by (unfold in_slots in *; lia).
  rewrite (service_keeps c d j) in * by done. by apply Hc.
Qed.

Lemma client_rest_stable c d : rtc service_acts c d -> client_rest c -> client_rest d.
Proof.
  intros Hd%rtc_acts [Hok Hc]; [|apply _]. split; [by apply Hd|].
  intros j Hj Hs. pose proof (sv_count _ _ Hd).
  assert (in_slots c j) by (unfold in_slots in *; lia).
  rewrite (service_keeps c d j) in * by done. by apply Hc.
Qed.

Lemma client_owns_stable l i s c d :
  ds_state s <> REQUESTED -> rtc service_acts c d ->
  client_owns l i s c -> client_owns l i s d.
Proof.
  intros Hs Hd%rtc_acts []; [|apply _].
  pose proof (sv_count _ _ Hd) as Hn. constructor.
  - by apply Hd.
  - unfold in_slots in *. lia.
  - rewrite (sv_slots _ _ Hd); [done|done|congruence].
  - by apply (cleared_but_stable i c).
  - etransitivity; [done|apply Hd].
Qed.

(** The store the client may make to a slot of its own. *)
Definition own_write (s s' : bvb_descriptor_transaction_slot) : Prop :=
  ds_state s = COMPLETED \/
  ds_state s = AVAILABLE /\
  (ds_sequence s <> 0 -> ds_sequence s' = ds_sequence s /\
     (ds_state s' = AVAILABLE \/ ds_state s' = REQUESTED)).

Lemma client_owns_write l i s s' c d :
  client_owns l i s c -> slot_step c d i s' ->
  completed (log_of d) = completed (log_of c) -> slot_ok (log_of d) s' ->
  own_write s s' -> client_acts c d /\ client_owns l i s' d.
Proof.
  intros [Hok Hi Hs Hr Hl] Hst Hlog Hok' Hown. pose proof Hst as (Hsl & Hn & _).
  assert (client_acts c d) as Hacts by (apply (client_write c d i s'); by subst).
  split; [done|]. constructor.
  - by apply Hacts.
  - unfold in_slots in *. lia.
  - rewrite Hsl by done. by case_decide.
  - intros j Hj Hne. assert (in_slots c j) by (unfold in_slots in *; lia).
    rewrite Hsl by done. case_decide; [done|]. by apply Hr.
  - by rewrite Hlog.
Qed.

Lemma fill_wp {A} l i s f (k : prog memory A) post c :
  client_owns l i s c -> ds_state s <> REQUESTED -> own_write s (f s) ->
  (forall g, slot_ok g s -> slot_ok g (f s)) ->
  (forall d, client_owns l i (f s) d -> wp service_acts client_acts k post d) ->
  wp service_acts client_acts (store (on_slot i f) ;; k) post c.
Proof.
  intros Hc Hs Hown Hok Hk. apply wp_act. intros d Hd. cbn [fst snd].
  pose proof (client_owns_stable _ _ _ _ _ Hs Hd Hc) as Hdo.
  pose proof Hdo as [Hdok Hin Hsl _ _].
  destruct (client_owns_write l i s (f s) d (on_slot i f d)) as [Ha Ho];
    [done| |done| |done|].
  - rewrite <- Hsl. by apply on_slot_step.
  - apply Hok. rewrite <- Hsl. by apply (go_slot _ Hdok).
  - split; [done|]. by apply Hk.
Qed.

(** The client has published the request of slot [i] and waits: the slot is
    still requested, or carries an answer given since the call began. *)
Record client_pending (l : list (Z * Z * list Z)) (i sequence : Z) (m : memory) :
    Prop := {
  cp_ok : region_ok m;
  cp_in : in_slots m i;
  cp_sequence : sequence_of m i = sequence;
  cp_rest : cleared_but i m;
  cp_new : exists new, completed (log_of m) = l ++ new /\
    (state m i = REQUESTED \/
     state m i = COMPLETED /\ answer (slot_at m i) ∈ new)
}.

Lemma client_pending_stable l i sequence c d :
  rtc service_acts c d -> client_pending l i sequence c ->
  client_pending l i sequence d.
Proof.
  intros Hd%rtc_acts [Hok Hin Hq Hr (new & Hl & Hs)]; [|apply _].
  pose proof (sv_count _ _ Hd) as Hn. constructor.
  - by apply Hd.
  - unfold in_slots in *. lia.
  - destruct Hs as [Hs|[Hs _]].
    + by rewrite (proj1 (sv_pending _ _ Hd i Hin Hs)).
    + rewrite (sv_slots _ _ Hd i Hin); [done|lia].
  - by apply (cleared_but_stable i c).
  - destruct (sv_completed _ _ Hd) as [k Hk]. exists (new ++ k).
    split; [by rewrite Hk, Hl, app_assoc|]. destruct Hs as [Hs|[Hs Ha]].
    + destruct (sv_pending _ _ Hd i Hin Hs) as [_ [?|(? & new' & Hk' & ?)]];
        [by left|right]. rewrite Hk in Hk'. apply app_inv_head in Hk'.
      set_solver.
    + right. rewrite (sv_slots _ _ Hd i Hin) by lia. set_solver.
Qed.

Lemma pending_rest l i sequence m : client_pending l i sequence m -> client_rest m.
Proof.
  intros []. split; [done|]. intros j Hj Hs. destruct (decide (j = i)) as [->|].
  - destruct cp_new0 as (? & _ & [?|[? _]]); lia.
  - by apply cp_rest0.
Qed.

Lemma owns_rest l i s m :
  client_owns l i s m -> ds_state s <> AVAILABLE \/ ds_sequence s = 0 ->
  client_rest m.
Proof.
  intros [] Hs. split; [done|]. intros j Hj Hj0. destruct (decide (j = i)) as [->|].
  - destruct Hs; congruence.
  - by apply co_rest0.
Qed.

Lemma pending_ring f l i sequence c :
  dr_slot_count (f (ring c)) = slot_count c ->
  client_pending l i sequence c -> client_pending l i sequence (on_ring f c).
Proof.
  intros Hf []. destruct (on_ring_same f c Hf) as (Hok & Hs & Hn).
  constructor; [by apply Hok|by unfold in_slots; rewrite Hn|done| |done].
  intros j Hj. unfold in_slots in Hj. rewrite Hn in Hj. by apply cp_rest0.
Qed.

Lemma rest_ring f c :
  dr_slot_count (f (ring c)) = slot_count c ->
  client_rest c -> client_rest (on_ring f c).
Proof.
  intros Hf [? Hc]. destruct (on_ring_same f c Hf) as (Hok & Hs & Hn).
  split; [by apply Hok|]. intros j Hj. unfold in_slots in Hj. rewrite Hn in Hj.
  by apply Hc.
Qed.

(** A copy into an array keeps its length. *)
Lemma length_copy_in source count target :
  Z.of_nat (length source) = count -> count <= Z.of_nat (length target) ->
  length (copy_in source count target) = length target.
Proof. intros. unfold copy_in. rewrite length_app, length_take, length_drop. lia. Qed.

Lemma take_copy_in source count target :
  Z.of_nat (length source) = count ->
  take (Z.to_nat count) (copy_in source count target) = source.
Proof.
  intros H. unfold copy_in. rewrite take_app_le by (rewrite length_take; lia).
  rewrite take_take, Nat.min_id. apply take_ge. lia.
Qed.

Lemma zero_slot_ok g : slot_ok g zero_slot.
Proof. by constructor. Qed.

(** The slot a request is published in. *)
Definition request_slot (sequence : Z) (request : list Z) :
    bvb_descriptor_transaction_slot :=
  set_slot_sequence sequence
    (set_request_length (Z.of_nat (length request))
       (write_request request (Z.of_nat (length request)) zero_slot)).

Definition published (l : list (Z * Z * list Z)) (i sequence : Z)
    (request : list Z) (m : memory) : Prop :=
  client_pending l i sequence m /\ (sequence, request) ∈ requested (log_of m).

Lemma request_published_stable l i sequence request c d :
  rtc service_acts c d -> published l i sequence request c ->
  published l i sequence request d.
Proof.
  intros Hd [Hp Hr]. split; [by apply (client_pending_stable l i sequence c)|].
  apply rtc_acts in Hd; [|apply _]. by rewrite (sv_requested _ _ Hd).
Qed.

(** The store of the state that hands the slot to the service. *)
Lemma hand_over_acts l i sequence request c :
  client_owns l i (request_slot sequence request) c -> sequence <> 0 ->
  Z.of_nat (length request) <= BVB_DESCRIPTOR_TRANSACTION_RING_REQUEST_BYTES ->
  let d := log_request sequence request (on_slot i (set_slot_state REQUESTED) c) in
  client_acts c d /\ published l i sequence request d.
Proof.
  intros Ho H0 Hlen d. pose proof Ho as [Hok Hin Hsl _ _].
  set (s := request_slot sequence request) in *.
  assert (Hst : slot_step c d i (set_slot_state REQUESTED s)).
  { destruct (on_slot_step c i (set_slot_state REQUESTED) Hok Hin)
      as (Ha & Hb & Hc & _ & He). rewrite Hsl in Ha.
    split_and!; try done. cbn. by apply prefix_app_r. }
  destruct (client_owns_write l i s (set_slot_state REQUESTED s) c d Ho Hst)
    as [Hacts Ho'].
  - done.
  - pose proof (go_slot _ Hok i Hin) as Hs. rewrite Hsl in Hs. destruct Hs.
    constructor; try done. intros _. split; [done|]. cbn [set_slot_state ds_sequence].
    apply elem_of_app; right. apply list_elem_of_singleton. unfold request_of. cbn.
    rewrite Nat2Z.id. f_equal. rewrite <- (Nat2Z.id (length request)) at 1.
    by apply take_copy_in.
  - right. split; [done|]. intros _. split; [done|by right].
  - split; [done|]. destruct Ho' as [? ? Hsd ? [new Hl]].
    split; [|cbn; set_solver]. constructor; try done; rewrite ?Hsd; [done|].
    exists new. split; [done|by left].
Qed.

Lemma publish_request_wp i sequence request count c :
  client_rest c -> in_slots c i -> state c i = AVAILABLE -> sequence <> 0 ->
  Z.of_nat (length request) = count ->
  count <= BVB_DESCRIPTOR_TRANSACTION_RING_REQUEST_BYTES ->
  wp service_acts client_acts (publish_request i sequence request count)
    (fun _ => published (completed (log_of c)) i sequence request) c.
Proof.
  intros [Hok Hc] Hin Hs H0 <- Hlen. set (l := completed (log_of c)).
  assert (Hz : sequence_of c i = 0) by auto.
  assert (Ho : client_owns l i (slot_at c i) c)
    by (constructor; try done; intros j Hj _; by apply Hc).
  eapply fill_wp; [exact Ho|lia|by right; split|by intros; apply zero_slot_ok|].
  intros c1 Ho1. eapply fill_wp; [exact Ho1|done|by right| |].
  { intros g _. constructor; try done. by apply length_copy_in. }
  intros c2 Ho2. eapply fill_wp; [exact Ho2|done|by right| |].
  { intros g []. constructor; try done. cbn [set_request_length ds_request_length]. lia. }
  intros c3 Ho3. eapply fill_wp; [exact Ho3|done|by right| |].
  { intros g []. by constructor. }
  intros c4 Ho4. rewrite Nat2Z.id, take_ge by done.
  fold (request_slot sequence request) in Ho4.
  apply wp_act. intros d Hd. cbn [fst snd].
  apply (client_owns_stable l i (request_slot sequence request)) in Hd; [|done..].
  destruct (hand_over_acts l i sequence request d Hd H0 Hlen) as [Ha Hp].
  split; [done|]. apply wp_act. intros e He. cbn [fst snd].
  apply (request_published_stable l i sequence request) in He as [Hpe Hre]; [|done].
  split; [by apply client_ring|]. apply quiet_wake_if_sleeping; [done|].
  intros r f Hf. eapply request_published_stable; [exact Hf|].
  split; [by apply pending_ring|done].
Qed.

(** The request of the call is published and it has been answered. *)
Definition answered (l : list (Z * Z * list Z)) (sequence : Z) (request : list Z)
    (a : Z * Z * list Z) (m : memory) : Prop :=
  (sequence, request) ∈ requested (log_of m) /\
  exists new, completed (log_of m) = l ++ new /\ a ∈ new.

Lemma answered_stable l sequence request a c d :
  rtc service_acts c d -> answered l sequence request a c ->
  answered l sequence request a d.
Proof.
  intros Hd%rtc_acts [Hr (new & Hl & Ha)]; [|apply _].
  split; [by rewrite (sv_requested _ _ Hd)|].
  destruct (sv_completed _ _ Hd) as [k Hk]. exists (new ++ k).
  split; [by rewrite Hk, Hl, app_assoc|set_solver].
Qed.

(** Reading an array the other side does not touch. *)
Lemma copy_out_wp (rely guar : memory -> memory -> Prop) (keep : memory -> Prop)
    array whole index count c :
  (forall m, guar m m) -> (forall d e, rtc rely d e -> keep d -> keep e) ->
  (forall d, keep d -> array d = whole) -> keep c ->
  wp rely guar (copy_out array index count)
    (fun bytes d => keep d /\ bytes = map (fun j => nth j whole 0) (seq index count))
    c.
Proof.
  intros Hg Hst Ha. revert index c.
  induction count as [|n IH]; intros index c Hc; cbn [copy_out seq map].
  { apply wp_ret. eauto. }
  apply wp_load; [done|]. intros d Hd. apply Hst in Hd; [|done].
  rewrite (Ha d Hd). apply wp_bind. eapply wp_mono; [|by apply IH].
  intros bytes e [He ->]. apply wp_ret. eauto.
Qed.

Lemma map_nth_take (whole : list Z) count :
  (count <= length whole)%nat ->
  map (fun j => nth j whole 0) (seq 0 count) = take count whole.
Proof.
  intros H. apply list_eq. intros i. rewrite list_lookup_fmap.
  destruct (decide (i < count)%nat) as [Hi|Hi].
  - rewrite lookup_seq_lt, lookup_take_lt by lia. cbn.
    rewrite nth_lookup. destruct (lookup_lt_is_Some_2 whole i) as [x ->]; [lia|done].
  - rewrite lookup_seq_ge, lookup_take_ge by lia. done.
Qed.

(** The client's slot has been answered with [a]. *)
Definition holding (l : list (Z * Z * list Z)) (i sequence : Z)
    (request : list Z) (s : bvb_descriptor_transaction_slot)
    (m : memory) : Prop :=
  client_owns l i s m /\ answered l sequence request (answer s) m.

Lemma holding_stable l i sequence request s c d :
  ds_state s = COMPLETED -> rtc service_acts c d ->
  holding l i sequence request s c -> holding l i sequence request s d.
Proof.
  intros Hs Hd [Ho Ha]. split; [|by apply (answered_stable _ _ _ _ c)].
  apply (client_owns_stable l i s c); [lia|done..].
Qed.

Lemma published_holding l i sequence request m :
  published l i sequence request m -> state m i = COMPLETED ->
  holding l i sequence request (slot_at m i) m.
Proof.
  intros [[? ? ? ? (new & Hl & [?|[_ Hn]])] Hr] Hs; [lia|].
  split; [|by split; eauto]. constructor; try done. rewrite Hl. by apply prefix_app_r.
Qed.

(** Giving the slot back keeps what is known of the answer. *)
Lemma free_slot_wp l i sequence request s bytes c :
  holding l i sequence request s c -> ds_state s = COMPLETED ->
  wp service_acts client_acts
    (store (on_slot i (fun _ => zero_slot)) ;;
     store (on_slot i (set_slot_state AVAILABLE)) ;;
     load count := slot_count ;;
     store (on_ring (set_next_slot (u32 (i + 1) mod count))) ;;
     Ret (Ok bytes : result (list Z)))
    (fun r d => r = Ok bytes /\ client_rest d /\
       answered l sequence request (answer s) d) c.
Proof.
  intros Hc Hs. apply wp_act. intros d Hd. cbn [fst snd].
  destruct (holding_stable _ _ _ _ _ _ _ Hs Hd Hc) as [Ho Ha].
  destruct (client_owns_write l i s zero_slot d (on_slot i (fun _ => zero_slot) d))
    as [Hacts Ho1]; [done| |done|apply zero_slot_ok|by left|].
  { apply (on_slot_step d i (fun _ => zero_slot)); apply Ho. }
  split; [done|]. apply wp_act. intros e He. cbn [fst snd].
  apply (client_owns_stable l i zero_slot) in He as Hoe; [|done..].
  apply (answered_stable l sequence request (answer s)) in He; [|done].
  destruct (client_owns_write l i zero_slot zero_slot e
              (on_slot i (set_slot_state AVAILABLE) e))
    as [Hacts2 Ho2]; [done| |done|apply zero_slot_ok|by right|].
  { destruct Hoe as [Hok Hin Hsl _ _].
    pose proof (on_slot_step e i (set_slot_state AVAILABLE) Hok Hin) as Hst.
    by rewrite Hsl in Hst. }
  split; [done|]. apply wp_load; [done|]. intros f Hf.
  apply (client_owns_stable l i zero_slot) in Hf as Hof; [|done..].
  apply (answered_stable l sequence request (answer s)) in Hf; [|done].
  apply wp_act. intros g Hg. cbn [fst snd].
  apply (client_owns_stable l i zero_slot) in Hg as Hog; [|done..].
  apply (answered_stable l sequence request (answer s)) in Hg; [|done].
  split; [by apply client_ring|]. apply wp_ret. intros h Hh.
  split; [done|]. split; [|by eapply answered_stable].
  eapply client_rest_stable; [exact Hh|]. apply rest_ring; [done|].
  eapply owns_rest; [exact Hog|by right].
Qed.

Definition response_post (l : list (Z * Z * list Z)) (sequence : Z)
    (request : list Z) (r : result (list Z)) (d : memory) : Prop :=
  client_rest d /\
  forall bytes, r = Ok bytes -> answered l sequence request (sequence, 0, bytes) d.

Lemma response_err l sequence request e c :
  client_rest c ->
  wp service_acts client_acts (Ret (Err e)) (response_post l sequence request) c.
Proof.
  intros Hc. apply wp_ret. intros d Hd. split; [by apply (client_rest_stable c)|done].
Qed.

Lemma published_rest l i sequence request m :
  published l i sequence request m -> client_rest m.
Proof. intros [H _]. by eapply pending_rest. Qed.

Lemma holding_rest l i sequence request s m :
  holding l i sequence request s m -> ds_state s = COMPLETED -> client_rest m.
Proof. intros [H _] Hs. eapply owns_rest; [done|left; lia]. Qed.

Lemma collect_response_wp l i sequence request capacity c :
  published l i sequence request c ->
  wp service_acts client_acts (collect_response i sequence capacity)
    (response_post l sequence request) c.
Proof.
  intros Hc. apply wp_load; [done|]. intros d Hd.
  pose proof (request_published_stable _ _ _ _ _ _ Hd Hc) as Hdp.
  case_match; [eapply response_err, published_rest; eassumption|].
  apply wp_load; [done|]. intros e He.
  pose proof (request_published_stable _ _ _ _ _ _ He Hdp) as Hep.
  destruct (Z.eqb_spec (state e i) COMPLETED) as [Hs|]; cbn [negb];
    [|eapply response_err, published_rest; eassumption].
  pose proof (published_holding _ _ _ _ _ Hep Hs) as Heh.
  assert (Hq : sequence_of e i = sequence) by apply Hep.
  pose proof (go_slot _ (co_ok _ _ _ _ (proj1 Heh)) i (cp_in _ _ _ _ (proj1 Hep)))
    as Hsok.
  set (s := slot_at e i) in *.
  assert (Hst : forall m n, rtc service_acts m n ->
            holding l i sequence request s m -> holding l i sequence request s n)
    by (intros m n; by apply holding_stable).
  apply wp_load; [done|]. intros f Hf. apply Hst in Hf; [|done].
  rewrite (co_slot _ _ _ _ (proj1 Hf)).
  case_match; [eapply response_err, holding_rest; eassumption|].
  apply wp_load; [done|]. intros g Hg. apply Hst in Hg; [|done].
  rewrite (co_slot _ _ _ _ (proj1 Hg)).
  destruct (Z.eqb_spec (ds_status s) 0) as [Hz|]; cbn [negb];
    [|eapply response_err, holding_rest; eassumption].
  apply wp_bind. eapply wp_mono; [|apply (copy_out_wp _ _
    (holding l i sequence request s) _ (ds_response s));
    [done|exact Hst|by intros m [[_ _ -> _ _] _]|exact Hg]].
  intros bytes h [Hh ->]. rewrite map_nth_take.
  2: { destruct Hsok. rewrite so_response0. lia. }
  eapply wp_mono; [|by apply (free_slot_wp l i sequence request s)].
  intros r m (-> & Hr & Ha). split; [done|]. intros bytes [= <-].
  unfold answer in Ha. by rewrite Hq, Hz in Ha.
Qed.

Definition call_post (c : memory) (sequence : Z) (request : list Z)
    (r : option (result (list Z))) (d : memory) : Prop :=
  client_rest d /\
  forall bytes, r = Some (Ok bytes) ->
    answered (completed (log_of c)) sequence request (sequence, 0, bytes) d.

Lemma call_ret c sequence request r d :
  client_rest d -> (forall bytes, r <> Some (Ok bytes)) ->
  wp service_acts client_acts (Ret r) (call_post c sequence request) d.
Proof.
  intros Hd Hr. apply wp_ret. intros e He.
  split; [by apply (client_rest_stable d)|]. intros b E. by destruct (Hr b).
Qed.

(** Answers given before the request was published are not new. *)
Lemma answered_more c d sequence request a m :
  rtc service_acts c d ->
  answered (completed (log_of d)) sequence request a m ->
  answered (completed (log_of c)) sequence request a m.
Proof.
  intros Hd%rtc_acts [Hr (new & Hl & Ha)]; [|apply _]. split; [done|].
  destruct (sv_completed _ _ Hd) as [k Hk]. exists (k ++ new).
  split; [by rewrite Hl, Hk, app_assoc|set_solver].
Qed.

Lemma transaction_wait_wp spins sleeps i sequence request deadline capacity c d e :
  rtc service_acts c d -> published (completed (log_of d)) i sequence request e ->
  wp service_acts client_acts
    (do waited <- wait_for_sequence dr_completion_sequence completion_word
                    set_completion_wait_state sequence deadline spins sleeps ;;
     match waited with
     | None => Ret None
     | Some result =>
         if negb (result =? 0) then Ret (Some (Err result)) else
         do response <- collect_response i sequence capacity ;;
         Ret (Some response)
     end)
    (call_post c sequence request) e.
Proof.
  intros Hd He. apply wp_bind.
  eapply wp_mono; [|apply (wait_for_sequence_wp _ _
    (published (completed (log_of d)) i sequence request) client_refl); [| |exact He]].
  2: { intros m n Hmn Hm. by eapply request_published_stable. }
  2: { intros v m [Hp Hr]. split; [by apply client_ring|].
       split; [by apply pending_ring|done]. }
  intros [result|] f Hf; [|by apply call_ret; [eapply published_rest|]].
  case_match; [by apply call_ret; [eapply published_rest|]|].
  apply wp_bind. eapply wp_mono; [|by apply collect_response_wp].
  intros r g [Hg Ha]. apply wp_ret. intros h Hh.
  split; [by apply (client_rest_stable g)|]. intros bytes [= ->].
  eapply (answered_more c d); [done|].
  eapply answered_stable; [exact Hh|]. by apply Ha.
Qed.

Lemma slot_index_in sequence m :
  region_ok m -> in_slots m (u32 (sequence - 1) mod slot_count m).
Proof. intros [Hn _ _]. apply Z.mod_pos_bound. lia. Qed.

Lemma transaction_call_wp spins sleeps address length generation sequence request
    count want capacity timeout c :
  client_rest c -> Z.of_nat (List.length request) = count ->
  wp service_acts client_acts
    (bvb_descriptor_transaction_ring_call spins sleeps address length generation
       sequence (Some request) count want capacity timeout)
    (call_post c sequence request) c.
Proof.
  intros Hc Hcount. apply wp_bind, quiet_validate_header; [done|]. intros st d Hd.
  pose proof (client_rest_stable _ _ Hd Hc) as Hdr.
  case_match eqn:Hargs; [by apply call_ret|]. bool_hyps.
  apply wp_bind, quiet_peer_status; [done|]. intros ps e He.
  pose proof (client_rest_stable _ _ He Hdr) as Her.
  case_match; [by apply call_ret|].
  apply wp_load; [done|]. intros f Hf.
  pose proof (client_rest_stable _ _ Hf Her) as Hfr.
  apply wp_load; [done|]. intros g Hg.
  pose proof (client_rest_stable _ _ Hg Hfr) as Hgr.
  assert (Hn : slot_count g = slot_count f)
    by (apply rtc_acts in Hg; [by destruct Hg|apply _]).
  rewrite <- Hn. set (i := u32 (sequence - 1) mod slot_count g).
  destruct (Z.eqb_spec (state g i) AVAILABLE) as [Hs|]; cbn [negb];
    [|by apply call_ret].
  apply wp_bind. eapply wp_mono;
    [|apply publish_request_wp; [done|apply slot_index_in, Hgr|done|lia|done|lia]].
  intros r h Hp. pose proof (published_rest _ _ _ _ _ Hp) as Hhr.
  case_match; [by apply call_ret|].
  apply wp_bind, quiet_deadline. intros [deadline|err] j Hj;
    pose proof (request_published_stable _ _ _ _ _ _ Hj Hp) as Hpj;
    [|by apply call_ret; [eapply published_rest|]].
  apply (transaction_wait_wp _ _ i _ _ _ _ c g); [|done].
  by do 3 (etransitivity; [done|]).
Qed.

(** ** The service's side *)

Definition unanswered (sequence : Z) (m : memory) : Prop :=
  forall status response, (sequence, status, response) ∉ completed (log_of m).

(** The slot carries a request the service has to answer. *)
Definition service_holds (m : memory) (i sequence : Z) (request : list Z) : Prop :=
  in_slots m i /\ i = u32 (sequence - 1) mod slot_count m /\
  state m i = REQUESTED /\ request_of (slot_at m i) = (sequence, request) /\
  (sequence, request) ∈ requested (log_of m).

Lemma region_ok_stable c d : rtc client_acts c d -> region_ok c -> region_ok d.
Proof. intros Hd%rtc_acts; [|apply _]. apply Hd. Qed.

Lemma unanswered_back sequence c d :
  rtc client_acts c d -> unanswered sequence d -> unanswered sequence c.
Proof. intros Hd%rtc_acts H; [|apply _]. intros s b. rewrite <- (cl_completed _ _ Hd). apply H. Qed.

(** A requested slot stays as the service found it. *)
Definition requested_slot (i : Z) (s : bvb_descriptor_transaction_slot)
    (m : memory) : Prop :=
  region_ok m /\ in_slots m i /\ slot_at m i = s /\ ds_state s = REQUESTED.

Lemma requested_slot_stable i s c d :
  rtc client_acts c d -> requested_slot i s c -> requested_slot i s d.
Proof.
  intros Hd%rtc_acts (Hok & Hin & Hs & Hst); [|apply _]. split; [by apply Hd|].
  pose proof (cl_count _ _ Hd). split; [unfold in_slots in *; lia|].
  split; [|done]. rewrite (cl_slots _ _ Hd i Hin); [done|congruence].
Qed.

Lemma requested_holds i s m sequence :
  requested_slot i s m -> ds_sequence s = sequence ->
  i = u32 (sequence - 1) mod slot_count m ->
  service_holds m i sequence (take (Z.to_nat (ds_request_length s)) (ds_request s)).
Proof.
  intros (Hok & Hin & <- & Hs) Hq Hi.
  destruct (so_requested _ _ (go_slot _ Hok i Hin) Hs) as [_ Hr].
  unfold service_holds, request_of in *. by rewrite Hq in *.
Qed.

(** A sequence number read from a slot is still there when the slot is seen
    requested, unless it had been answered before. *)
Lemma sequence_settles c d i sequence :
  rtc client_acts c d -> region_ok c -> in_slots c i ->
  sequence_of c i = sequence -> sequence <> 0 -> unanswered sequence c ->
  state d i = REQUESTED -> sequence_of d i = sequence.
Proof.
  intros Hd%rtc_acts Hok Hin Hq H0 Hf Hs; [|apply _].
  pose proof (go_slot _ Hok i Hin) as Hsl. pose proof (so_state _ _ Hsl).
  destruct (decide (state c i = AVAILABLE)) as [E|].
  { by rewrite (proj1 (cl_filling _ _ Hd i Hin E ltac:(congruence))). }
  destruct (decide (state c i = REQUESTED)) as [E|].
  { by rewrite (cl_slots _ _ Hd i Hin E). }
  destruct (so_completed _ _ Hsl ltac:(lia)) as [_ Ha]. unfold answer in Ha.
  rewrite Hq in Ha. by apply Hf in Ha.
Qed.

Definition request_post (expected : Z) (r : result (list Z * Z * Z)) (d : memory) :
    Prop :=
  region_ok d /\
  (unanswered expected d -> forall request i sequence,
     r = Ok (request, i, sequence) ->
     sequence = expected /\ service_holds d i sequence request).

Lemma request_err expected e c :
  region_ok c ->
  wp client_acts service_acts (Ret (Err e)) (request_post expected) c.
Proof.
  intros Hc. apply wp_ret. intros d Hd. split; [by apply (region_ok_stable c)|done].
Qed.

(** The slot of [expected] was seen requested. *)
Definition found (i expected : Z) (s : bvb_descriptor_transaction_slot)
    (m : memory) : Prop :=
  requested_slot i s m /\ i = u32 (expected - 1) mod slot_count m /\
  (unanswered expected m -> ds_sequence s = expected).

Lemma found_stable i expected s c d :
  rtc client_acts c d -> found i expected s c -> found i expected s d.
Proof.
  intros Hd (Hr & Hi & Hq). split; [by apply (requested_slot_stable i s c)|].
  split; [|by eauto using unanswered_back]. apply rtc_acts in Hd; [|apply _].
  by rewrite (cl_count _ _ Hd).
Qed.

Lemma collect_request_wp expected capacity c :
  region_ok c -> expected <> 0 ->
  wp client_acts service_acts (collect_request expected capacity)
    (request_post expected) c.
Proof.
  intros Hc H0. apply wp_load; [done|]. intros c1 H1.
  apply (region_ok_stable _ _ H1) in Hc. clear H1. rename Hc into H1.
  set (i := u32 (expected - 1) mod slot_count c1).
  apply wp_load; [done|]. intros d Hd.
  pose proof (region_ok_stable _ _ Hd H1) as Hdr.
  destruct (Z.eqb_spec (sequence_of d i) expected) as [Hq|]; cbn [negb];
    [|by apply request_err].
  assert (Hn : slot_count d = slot_count c1)
    by (apply rtc_acts in Hd; [by destruct Hd|apply _]).
  assert (Hin : in_slots d i) by (subst i; rewrite <- Hn; by apply slot_index_in).
  apply wp_load; [done|]. intros e He.
  pose proof (region_ok_stable _ _ He Hdr) as Her.
  destruct (Z.eqb_spec (state e i) REQUESTED) as [Hs|]; cbn [negb];
    [|by apply request_err].
  assert (Hne : slot_count e = slot_count d)
    by (apply rtc_acts in He; [by destruct He|apply _]).
  assert (Hh : found i expected (slot_at e i) e).
  { split; [split_and!; try done; unfold in_slots in *; lia|].
    split; [by subst i; rewrite Hne, Hn|]. intros Hf.
    eapply sequence_settles; eauto using unanswered_back. }
  revert Hh. generalize (slot_at e i) as s. intros s Hh.
  apply wp_load; [done|]. intros f Hf.
  apply (found_stable i expected s) in Hf; [|done].
  destruct Hf as [(Hfok & Hfin & Hfs & Hfst) Hfq] eqn:E; clear E. rewrite Hfs.
  case_match; [by apply request_err|].
  apply wp_bind. eapply wp_mono; [|apply (copy_out_wp _ _ (found i expected s) _
    (ds_request s)); [done|intros m n; apply found_stable
                     |by intros m [(_ & _ & -> & _) _]|done]].
  intros bytes g [Hg ->]. rewrite map_nth_take.
  2: { destruct (go_slot _ Hfok i Hfin). rewrite Hfs in *. rewrite so_request0. lia. }
  apply wp_ret. intros h Hh'. apply (found_stable i expected s) in Hh'; [|done].
  destruct Hh' as (Hr & Hi & Hqh). split; [apply Hr|].
  intros Hun request j sequence [= <- <- <-]. split; [done|].
  by apply requested_holds; auto.
Qed.

Definition wait_request_post (after : Z) (r : option (result (list Z * Z * Z)))
    (d : memory) : Prop :=
  region_ok d /\
  (unanswered (after + 1) d -> forall request i sequence,
     r = Some (Ok (request, i, sequence)) ->
     sequence = after + 1 /\ service_holds d i sequence request).

Lemma wait_request_ret after r c :
  region_ok c -> (forall x, r <> Some (Ok x)) ->
  wp client_acts service_acts (Ret r) (wait_request_post after) c.
Proof.
  intros Hc Hr. apply wp_ret. intros d Hd. split; [by apply (region_ok_stable c)|].
  intros _ ? ? ? E. by destruct (Hr _ E).
Qed.

Lemma wait_request_wp spins sleeps address length generation after want capacity
    timeout c :
  region_ok c -> is_u32 after = true ->
  wp client_acts service_acts
    (bvb_descriptor_transaction_ring_wait_request spins sleeps address length
       generation after want capacity timeout)
    (wait_request_post after) c.
Proof.
  intros Hc Hu%is_u32_spec. apply wp_bind, quiet_validate_header; [done|].
  intros st d Hd. pose proof (region_ok_stable _ _ Hd Hc) as Hdr.
  case_match eqn:Hargs; [by apply wait_request_ret|]. bool_hyps.
  assert (Hafter : after <> UINT32_MAX) by lia.
  rewrite (u32_small (after + 1)) by (apply is_u32_spec; unfold UINT32_MAX in *; lia).
  apply wp_bind, quiet_deadline. intros [deadline|err] e He;
    pose proof (region_ok_stable _ _ He Hdr) as Her; [|by apply wait_request_ret].
  apply wp_bind.
  eapply wp_mono; [|apply (wait_for_sequence_wp _ _ region_ok service_refl
    region_ok_stable); [|done]].
  2: { intros v m Hm. split; [by apply service_ring|by apply on_ring_same]. }
  intros [result|] f Hf; [|by apply wait_request_ret].
  case_match; [by apply wait_request_ret|].
  apply wp_bind. eapply wp_mono; [|apply collect_request_wp; [done|lia]].
  intros r g [Hg Hr]. apply wp_ret. intros h Hh.
  split; [by apply (region_ok_stable g)|]. intros Hun request i sequence [= ->].
  destruct (Hr (unanswered_back _ _ _ Hh Hun) _ _ _ eq_refl) as [-> Hs].
  split; [done|]. destruct Hs as (Hin & Hi & Hst & Hrq & Hlog).
  apply rtc_acts in Hh; [|apply _]. pose proof (cl_count _ _ Hh) as Hn.
  unfold service_holds, in_slots in *. rewrite Hn.
  rewrite !(cl_slots _ _ Hh i) by done. do 4 (split; [done|]).
  eapply elem_of_prefix; [exact Hlog|apply Hh].
Qed.

(** One store of the service to a requested slot. *)
Lemma answer_step_wp {A} i s f (k : prog memory A) post c :
  requested_slot i s c -> ds_state (f s) = REQUESTED ->
  ds_sequence (f s) = ds_sequence s ->
  (forall g, slot_ok g s -> slot_ok g (f s)) ->
  (forall d e, rtc client_acts c d -> e = on_slot i f d ->
     requested_slot i (f s) e -> wp client_acts service_acts k post e) ->
  wp client_acts service_acts (store (on_slot i f) ;; k) post c.
Proof.
  intros Hc Hs Hq Hf Hk. apply wp_act. intros d Hd. cbn [fst snd].
  destruct (requested_slot_stable i s c d Hd Hc) as (Hok & Hin & Hsl & Hst).
  pose proof (on_slot_step d i f Hok Hin) as Hstep. rewrite Hsl in Hstep.
  assert (Hacts : service_acts d (on_slot i f d)).
  { apply (service_write _ _ i (f s)); try done; [by rewrite Hsl|..|by left].
    - intros _. apply Hf. rewrite <- Hsl. by apply (go_slot _ Hok).
    - by rewrite Hsl. }
  split; [done|]. eapply Hk; [done|done|].
  destruct Hstep as (Hj & Hn & _). split; [by apply Hacts|].
  split; [unfold in_slots in *; lia|]. rewrite Hj by done. by case_decide.
Qed.

(** The answers are those given before, and the slot is still requested. *)
Definition answering (answers : list (Z * Z * list Z)) (i : Z)
    (s : bvb_descriptor_transaction_slot) (m : memory) : Prop :=
  requested_slot i s m /\ completed (log_of m) = answers.

Lemma answering_stable answers i s c d :
  rtc client_acts c d -> answering answers i s c -> answering answers i s d.
Proof.
  intros Hd [Hr Ha]. split; [by apply (requested_slot_stable i s c)|].
  apply rtc_acts in Hd; [|apply _]. by rewrite (cl_completed _ _ Hd).
Qed.

(** [answer_step_wp] in terms of [answering]. *)
Lemma answering_wp {A} answers i s f (k : prog memory A) post c :
  answering answers i s c -> ds_state (f s) = REQUESTED ->
  ds_sequence (f s) = ds_sequence s ->
  (forall g, slot_ok g s -> slot_ok g (f s)) ->
  (forall d, answering answers i (f s) d ->
     wp client_acts service_acts k post d) ->
  wp client_acts service_acts (store (on_slot i f) ;; k) post c.
Proof.
  intros [Hc Ha] Hs Hq Hf Hk. eapply answer_step_wp; [exact Hc|done..|].
  intros d e Hd -> He. apply Hk. split; [done|]. cbn.
  apply rtc_acts in Hd; [|apply _]. by rewrite (cl_completed _ _ Hd).
Qed.

(** The bytes [response] points to. *)
Definition response_bytes (response : ptr (list Z)) : list Z := default [] response.

(** The store of the state that hands the slot back. *)
Lemma hand_back_acts answers i s c :
  answering answers i s c ->
  ds_response_length s <= BVB_DESCRIPTOR_TRANSACTION_RING_RESPONSE_BYTES ->
  let d := log_answer i (on_slot i (set_slot_state COMPLETED) c) in
  service_acts c d /\ completed (log_of d) = answers ++ [answer s].
Proof.
  intros [(Hok & Hin & Hsl & Hst) Ha] Hlen d.
  pose proof (go_slot _ Hok i Hin) as Hs. rewrite Hsl in Hs.
  destruct (on_slot_step c i (set_slot_state COMPLETED) Hok Hin)
    as (Hj & Hn & Hl & Hr & Hc). rewrite Hsl in Hj.
  assert (Hans : slot_at (on_slot i (set_slot_state COMPLETED) c) i =
                 set_slot_state COMPLETED s) by (rewrite Hj by done; by case_decide).
  assert (Hlog : completed (log_of d) = completed (log_of c) ++ [answer s])
    by (subst d; unfold log_answer; cbn [log_of completed]; by rewrite Hans).
  split; [|by rewrite Hlog, Ha].
  apply (service_write c d i (set_slot_state COMPLETED s)); try done.
  - split_and!; try done. rewrite Hlog. by apply prefix_app_r.
  - by rewrite Hsl.
  - intros _. destruct Hs. constructor; try done. intros _.
    split; [by apply so_requested0|]. rewrite Hlog. set_solver.
  - by rewrite Hsl.
  - by right.
Qed.

Definition complete_post (c : memory) (i sequence status : Z)
    (response : list Z) (code : Z) (d : memory) : Prop :=
  region_ok d /\
  (forall request, service_holds c i sequence request -> code = 0 ->
     completed (log_of d) = completed (log_of c) ++ [(sequence, status, response)]).

Lemma complete_err c i sequence status response code d :
  region_ok d -> code <> 0 ->
  wp client_acts service_acts (Ret code)
    (complete_post c i sequence status response) d.
Proof.
  intros Hd H0. apply wp_ret. intros e He. by split; [apply (region_ok_stable d)|].
Qed.

(** The copy of the response, which is skipped when it is empty. *)
Lemma answering_copy_wp {A} answers i s response count (k : prog memory A) post c :
  answering answers i s c -> ds_response_length s = count ->
  0 <= count <= BVB_DESCRIPTOR_TRANSACTION_RING_RESPONSE_BYTES ->
  (response = None -> count = 0) ->
  (forall bytes, response = Some bytes -> Z.of_nat (length bytes) = count) ->
  (forall s' d, answering answers i s' d -> ds_response_length s' = count ->
     answer s' = (ds_sequence s, ds_status s, response_bytes response) ->
     wp client_acts service_acts k post d) ->
  wp client_acts service_acts
    (store (match response with
            | Some bytes => if negb (count =? 0)
                            then on_slot i (write_response bytes count) else id
            | None => id
            end) ;; k) post c.
Proof.
  intros Hc Hl Hcount Hnone Hsome Hk.
  assert (Hskip : count = 0 -> response_bytes response = [] ->
            wp client_acts service_acts (store id ;; k) post c).
  { intros H0 Hb. apply wp_act. intros d Hd. cbn [fst snd]. split; [done|].
    apply (answering_stable answers i s) in Hd; [|done].
    apply (Hk s); [done|done|]. unfold answer. by rewrite Hl, H0, Hb. }
  destruct response as [bytes|]; [|by apply Hskip; auto].
  specialize (Hsome _ eq_refl). destruct (Z.eqb_spec count 0) as [E|E]; cbn [negb].
  { apply Hskip; [done|]. destruct bytes; [done|]. cbn in Hsome. lia. }
  pose proof Hc as [(Hok & Hin & Hsl & Hs) _].
  pose proof (go_slot _ Hok i Hin) as Hsok. rewrite Hsl in Hsok. destruct Hsok.
  eapply answering_wp; [exact Hc|done|done| |].
  { intros g []. constructor; try done; cbn; [|lia].
    rewrite length_copy_in; [done|lia|]. rewrite so_response0. lia. }
  intros d Hd. eapply Hk; [exact Hd|done|]. unfold answer. cbn.
  rewrite Hl. by rewrite take_copy_in.
Qed.

(** The stores of an answer, from the status on. *)
Lemma answer_wp answers i s sequence status response count c :
  answering answers i s c ->
  0 <= count <= BVB_DESCRIPTOR_TRANSACTION_RING_RESPONSE_BYTES ->
  (response = None -> count = 0) ->
  (forall bytes, response = Some bytes -> Z.of_nat (length bytes) = count) ->
  wp client_acts service_acts
    (store (on_slot i (set_slot_status status)) ;;
     store (on_slot i (set_response_length count)) ;;
     store (match response with
            | Some bytes => if negb (count =? 0)
                            then on_slot i (write_response bytes count) else id
            | None => id
            end) ;;
     store (fun m => log_answer i (on_slot i (set_slot_state COMPLETED) m)) ;;
     store (on_ring (set_completion_sequence sequence)) ;;
     wake_if_sleeping completion_word dr_completion_wait_state)
    (fun _ d => region_ok d /\ completed (log_of d) =
       answers ++ [(ds_sequence s, status, response_bytes response)]) c.
Proof.
  intros Hc Hcount Hnone Hsome. pose proof Hc as [(_ & _ & _ & Hs) _].
  eapply answering_wp; [exact Hc|done|done| |].
  { intros g []. constructor; try done; cbn; lia. }
  intros c1 H1. eapply answering_wp; [exact H1|done|done| |].
  { intros g []. constructor; try done; cbn; lia. }
  intros c2 H2. set (s2 := set_response_length count (set_slot_status status s)) in *.
  apply (answering_copy_wp answers i s2 response count); try done.
  intros s3 c3 H3 Hlen3 Hans3. apply wp_act. intros d Hd. cbn [fst snd].
  apply (answering_stable answers i s3) in Hd; [|done].
  destruct (hand_back_acts answers i s3 d Hd) as [Ha Hl]; [lia|].
  assert (Hok : region_ok d) by apply Hd. rewrite Hans3 in Hl.
  apply Ha in Hok. split; [done|]. apply wp_act. intros e He. cbn [fst snd].
  split; [by apply service_ring|]. apply quiet_wake_if_sleeping; [done|].
  intros r f Hf. apply rtc_acts in He, Hf; [|apply _..]. split.
  - apply Hf, on_ring_same; [done|]. by apply He.
  - rewrite (cl_completed _ _ Hf). cbn. by rewrite (cl_completed _ _ He).
Qed.

Lemma complete_wp address length generation i sequence status response count c :
  region_ok c -> 0 <= i -> 0 <= count ->
  (forall bytes, response = Some bytes -> Z.of_nat (List.length bytes) = count) ->
  wp client_acts service_acts
    (bvb_descriptor_transaction_ring_complete address length generation i
       sequence status response count)
    (complete_post c i sequence status (response_bytes response)) c.
Proof.
  intros Hc Hi Hcount Hsome. apply wp_bind, quiet_validate_header; [done|].
  intros st d Hd. pose proof (region_ok_stable _ _ Hd Hc) as Hdr.
  destruct (Z.eqb_spec st 0) as [_|]; cbn [negb]; [|by apply complete_err].
  apply wp_load; [done|]. intros e He.
  pose proof (region_ok_stable _ _ He Hdr) as Her.
  case_match eqn:Hargs; [by apply complete_err|]. bool_hyps.
  apply wp_load; [done|]. intros f Hf.
  pose proof (region_ok_stable _ _ Hf Her) as Hfr.
  destruct (Z.eqb_spec (sequence_of f i) sequence); cbn [negb]; [|by apply complete_err].
  apply wp_load; [done|]. intros g Hg.
  pose proof (region_ok_stable _ _ Hg Hfr) as Hgr.
  destruct (Z.eqb_spec (state g i) REQUESTED) as [Hs|]; cbn [negb]; [|by apply complete_err].
  assert (Hcg : rtc client_acts c g) by (do 3 (etransitivity; [done|]); done).
  assert (Heg : rtc client_acts e g) by (by etransitivity).
  apply rtc_acts in Hcg, Heg; [|apply _..].
  assert (Hin : in_slots g i) by (pose proof (cl_count _ _ Heg); unfold in_slots; lia).
  eapply wp_mono; [|apply (answer_wp (completed (log_of g)) i (slot_at g i))];
    [|by split; [split; [|split; [|split]]|]|lia| |done].
  - intros code h [Hok Hl]. split; [done|]. intros request (Hic & _ & Hsc & Hrq & _) _.
    rewrite Hl, (cl_completed _ _ Hcg), (cl_slots _ _ Hcg i Hic Hsc).
    by injection Hrq as -> _.
  - intros ->. lia.
Qed.

(** Reporting a failure touches no slot. *)
Lemma fail_peer_wp (rely guar : memory -> memory -> Prop) (rest : memory -> Prop)
    address set status c :
  (forall d, guar d d) -> (forall d e, rtc rely d e -> rest d -> rest e) ->
  (forall d, rest d -> guar d (on_ring (set status) d) /\ rest (on_ring (set status) d)) ->
  rest c -> wp rely guar (fail_peer address set status) (fun _ => rest) c.
Proof.
  intros Hrefl Hst Hset Hc. apply wp_bind, quiet_validate_header; [done|]. intros r d Hd.
  case_match; [apply wp_ret; intros; eapply Hst; eauto|].
  destruct (Z.leb_spec 0 status); [apply wp_ret; intros; eapply Hst; eauto|].
  apply wp_act. intros e He. cbn [fst snd].
  destruct (Hset e) as [Hg Hr]; [eauto|]. split; [done|].
  apply wp_bind, quiet_wake. intros w f Hf. apply wp_bind, quiet_wake.
  intros v g Hg'. apply wp_ret. intros h Hh. eauto 10.
Qed.

Lemma fail_client_wp address status c :
  client_rest c ->
  wp service_acts client_acts (bvb_descriptor_transaction_ring_fail_client address status)
    (fun _ => client_rest) c.
Proof.
  apply fail_peer_wp; [done|exact client_rest_stable|].
  intros d Hd. split; [by apply client_ring|by apply rest_ring].
Qed.

Lemma fail_service_wp address status c :
  region_ok c ->
  wp client_acts service_acts (bvb_descriptor_transaction_ring_fail_service address status)
    (fun _ => region_ok) c.
Proof.
  apply fail_peer_wp; [done|exact region_ok_stable|].
  intros d Hd. split; [by apply service_ring|by apply on_ring_same].
Qed.

(** ** The calls of the two processes *)

Inductive client_op : Type :=
| Transact (spins sleeps : nat) (sequence : Z) (request : list Z)
    (response_capacity timeout_ms : Z)
| FailClient (status : Z).

Inductive service_op : Type :=
| WaitRequest (spins sleeps : nat) (after_sequence request_capacity timeout_ms : Z)
| Complete (slot_index sequence status : Z) (response : ptr (list Z))
| FailService (status : Z).

Definition client_program (address generation : Z) (op : client_op) : prog memory unit :=
  match op with
  | Transact spins sleeps sequence request capacity timeout =>
      do _ <- bvb_descriptor_transaction_ring_call spins sleeps (Some address)
                BVB_DESCRIPTOR_TRANSACTION_RING_REGION_BYTES generation sequence
                (Some request) (Z.of_nat (length request)) true capacity timeout ;;
      Ret tt
  | FailClient status =>
      do _ <- bvb_descriptor_transaction_ring_fail_client (Some address) status ;;
      Ret tt
  end.

Definition service_program (address generation : Z) (op : service_op) :
    prog memory unit :=
  match op with
  | WaitRequest spins sleeps after capacity timeout =>
      do _ <- bvb_descriptor_transaction_ring_wait_request spins sleeps
                (Some address) BVB_DESCRIPTOR_TRANSACTION_RING_REGION_BYTES
                generation after true capacity timeout ;;
      Ret tt
  | Complete slot_index sequence status response =>
      do _ <- bvb_descriptor_transaction_ring_complete (Some address)
                BVB_DESCRIPTOR_TRANSACTION_RING_REGION_BYTES generation
                slot_index sequence status response
                (Z.of_nat (length (response_bytes response))) ;;
      Ret tt
  | FailService status =>
      do _ <- bvb_descriptor_transaction_ring_fail_service (Some address) status ;;
      Ret tt
  end.

(** The slots and sequences the service passes are [uint32_t]. *)
Definition service_op_typed (op : service_op) : bool :=
  match op with
  | WaitRequest _ _ after _ _ => is_u32 after
  | Complete slot_index _ _ _ => is_u32 slot_index
  | FailService _ => true
  end.

(** An initialised region, before any call. *)
Definition fresh (g : region) : memory := mk_memory g (mk_log [] []).

Lemma initialize_client_rest address length count generation g :
  is_u32 count = true ->
  bvb_descriptor_transaction_ring_initialize address length count generation = Ok g ->
  client_rest (fresh g).
Proof.
  intros Hu%is_u32_spec H. unfold bvb_descriptor_transaction_ring_initialize in H.
  destruct address as [a|]; [|done].
  match type of H with (if ?b then _ else _) = _ => destruct b eqn:E end; [done|].
  injection H as <-. bool_hyps.
  assert (Hz : forall k j, nth j (replicate k zero_slot) zero_slot = zero_slot).
  { intros k j. destruct (nth_in_or_default j (replicate k zero_slot) zero_slot)
      as [Hin|]; [|done].
    by apply list_elem_of_In, elem_of_replicate in Hin as [? _]. }
  match goal with |- client_rest (fresh ?g) => set (m := fresh g) end.
  assert (Hsl : forall i, slot_at m i = zero_slot) by (intros i; exact (Hz 16%nat _)).
  split.
  - constructor; [unfold slot_count; cbn; lia|done|].
    intros i _. rewrite Hsl. apply zero_slot_ok.
  - intros i _. by rewrite Hsl.
Qed.

Lemma client_thread_wp address generation ops c :
  client_rest c ->
  wp service_acts client_acts (thread (client_program address generation) ops)
    (fun _ => client_rest) c.
Proof.
  apply thread_wp; [exact client_rest_stable|].
  intros [n k s r a t|s] d _ Hr; cbn [client_program];
    (eapply call_wp; [exact client_rest_stable|..]).
  2: by apply transaction_call_wp. 3: by apply fail_client_wp.
  all: intros r' e Hpost; first [exact Hpost | exact (proj1 Hpost)].
Qed.

Lemma service_thread_wp address generation ops c :
  Forall (fun op => service_op_typed op = true) ops -> region_ok c ->
  wp client_acts service_acts (thread (service_program address generation) ops)
    (fun _ => region_ok) c.
Proof.
  rewrite List.Forall_forall. setoid_rewrite <- list_elem_of_In. intros Hty.
  apply thread_wp; [exact region_ok_stable|].
  intros [n k a b t|i s st r|s] d Hin Hr; cbn [service_program];
    (eapply call_wp; [exact region_ok_stable|..]).
  2: { apply wait_request_wp; [done|]. by apply Hty in Hin. }
  3: { apply complete_wp; [done| |lia|by intros bytes ->].
       apply Hty, is_u32_spec in Hin. lia. }
  4: by apply fail_service_wp.
  all: intros r' e Hpost; first [exact Hpost | exact (proj1 Hpost)].
Qed.

(** ** What the ring promises *)

(** What two threads leave behind, however far they have come. *)
Lemma descriptor_threads_sound address generation client_ops service_ops c p q m :
  Forall (fun op => service_op_typed op = true) service_ops -> client_rest c ->
  rtc sys_step
    (thread (client_program address generation) client_ops,
     thread (service_program address generation) service_ops, c) (p, q, m) ->
  region_ok m /\ (p = Ret tt -> client_rest m).
Proof.
  intros Hq Hc Hrun.
  pose proof (client_thread_wp address generation client_ops c Hc) as Hcw.
  pose proof (service_thread_wp address generation _ c Hq (proj1 Hc)) as Hsw.
  split.
  - eapply (parallel_invariant region_ok client_acts service_acts);
      [by intros ? ? []|by intros ? ? []|apply Hc|exact Hcw|exact Hsw|exact Hrun].
  - destruct (parallel_sound _ _ _ _ _ _ _ _ _ _ Hcw Hsw Hrun) as (_ & Hp' & _).
    intros ->. by apply Hp'.
Qed.

(** C24: from an initialised region, whatever the client and the worker of the
    service call and however their accesses interleave, every slot stays
    within its arrays, a requested slot carries a request that was published
    under its sequence, a completed one an answer the service gave; and when
    the client is between calls every available slot is cleared. *)
Theorem descriptor_ring_invariant address length count generation g client_ops
    service_ops p q m :
  is_u32 count = true ->
  Forall (fun op => service_op_typed op = true) service_ops ->
  bvb_descriptor_transaction_ring_initialize (Some address) length count generation =
    Ok g ->
  rtc sys_step
    (thread (client_program address generation) client_ops,
     thread (service_program address generation) service_ops, fresh g) (p, q, m) ->
  region_ok m /\ (p = Ret tt -> client_rest m).
Proof.
  intros Hu Hq Hinit. eapply descriptor_threads_sound; [done|].
  by eapply initialize_client_rest.
Qed.

(** C25: against any interference of the other process, a transaction that
    succeeds returns a response the service gave, with status 0 and under the
    transaction's sequence, after the transaction began; the worker is handed
    the exact bytes published under the sequence it waits for, in a slot that
    stays its own until it answers; and an answer to such a slot is recorded
    under that sequence.  A sequence is one the service has not answered
    before. *)
Theorem descriptor_calls_are_sound spins sleeps address generation c d sequence
    request capacity timeout after slot status response :
  client_rest c -> region_ok d -> is_u32 after = true -> is_u32 slot = true ->
  wp service_acts client_acts
    (bvb_descriptor_transaction_ring_call spins sleeps (Some address)
       BVB_DESCRIPTOR_TRANSACTION_RING_REGION_BYTES generation sequence
       (Some request) (Z.of_nat (length request)) true capacity timeout)
    (call_post c sequence request) c /\
  wp client_acts service_acts
    (bvb_descriptor_transaction_ring_wait_request spins sleeps (Some address)
       BVB_DESCRIPTOR_TRANSACTION_RING_REGION_BYTES generation after true
       capacity timeout)
    (wait_request_post after) d /\
  wp client_acts service_acts
    (bvb_descriptor_transaction_ring_complete (Some address)
       BVB_DESCRIPTOR_TRANSACTION_RING_REGION_BYTES generation slot sequence
       status response (Z.of_nat (length (response_bytes response))))
    (complete_post d slot sequence status (response_bytes response)) d.
Proof.
  intros Hc Hd Ha Hs%is_u32_spec. split_and!.
  - by apply transaction_call_wp.
  - by apply wait_request_wp.
  - apply complete_wp; [done|lia|lia|by intros bytes ->].
Qed.

(** ** A concrete transaction *)

(** An initialised region of two slots. *)
Definition region0 : region :=
  mk_region
    (mk_descriptor_ring BVB_DESCRIPTOR_TRANSACTION_RING_MAGIC
       BVB_DESCRIPTOR_TRANSACTION_RING_VERSION
       BVB_DESCRIPTOR_TRANSACTION_RING_CONTROL_BYTES 2 0 5
       0 0 0 0 0 0 0 (replicate 19 0))
    (replicate (Z.to_nat BVB_DESCRIPTOR_TRANSACTION_RING_SLOT_COUNT) zero_slot)
    (replicate (Z.to_nat BVB_DESCRIPTOR_LEASE_BANK_COUNT) zero_bank).

(** The client publishes the request [7; 8] and is still waiting when it is
    left; the worker takes the request and answers [9]. *)
Definition client_ops0 : list client_op := [Transact 0 0 1 [7; 8] 16 1].
Definition service_ops0 : list service_op :=
  [WaitRequest 1 1 0 176 1; Complete 0 1 0 (Some [9])].

Definition after {A} (r : option (A * memory)) : memory :=
  match r with Some (_, m) => m | None => fresh region0 end.
Definition memory1 : memory :=
  after (run [10; 20] (thread (client_program 4096 5) client_ops0) (fresh region0)).
Definition memory2 : memory :=
  after (run [30; 40] (thread (service_program 4096 5) service_ops0) memory1).

Lemma transaction_runs :
  rtc sys_step
    (thread (client_program 4096 5) client_ops0,
     thread (service_program 4096 5) service_ops0, fresh region0)
    (Ret tt, Ret tt, memory2).
Proof.
  etransitivity.
  - apply (left_runs [10; 20]).
    instantiate (1 := memory1). vm_compute. reflexivity.
  - apply (right_runs [30; 40]). vm_compute. reflexivity.
Qed.

Lemma service_ops0_typed : Forall (fun op => service_op_typed op = true) service_ops0.
Proof. unfold service_ops0. repeat constructor. Qed.

Lemma transaction_rest : region_ok memory2 /\ client_rest memory2.
Proof.
  destruct (descriptor_threads_sound 4096 5 client_ops0 service_ops0 (fresh region0)
              (Ret tt) (Ret tt) memory2) as [Hok Hc];
    [exact service_ops0_typed| |exact transaction_runs|by auto].
  by apply (initialize_client_rest (Some 4096) 131072 2 5).
Qed.

Lemma descriptor_ring_invariant_witness :
  region_ok memory2 /\ completed (log_of memory2) = [(1, 0, [9])].
Proof.
  destruct (descriptor_ring_invariant 4096 131072 2 5 region0 client_ops0 service_ops0
              (Ret tt) (Ret tt) memory2) as [Hok _];
    [reflexivity|exact service_ops0_typed|reflexivity|exact transaction_runs|].
  split; [exact Hok|vm_compute; reflexivity].
Defined.

(** The second transaction of the client, whose slot is free, while the
    first still holds its answer. *)
Lemma descriptor_calls_are_sound_witness :
  wp service_acts client_acts
    (bvb_descriptor_transaction_ring_call 1 1 (Some 4096)
       BVB_DESCRIPTOR_TRANSACTION_RING_REGION_BYTES 5 2 (Some [6]) 1 true 16 1)
    (call_post memory2 2 [6]) memory2.
Proof.
  apply (descriptor_calls_are_sound 1 1 4096 5 memory2 memory2 2 [6] 16 1 0 0 0 None);
    [apply transaction_rest|apply transaction_rest|reflexivity|reflexivity].
Defined.

(** The client collects the answer and clears the slot. *)
Example transaction_collected :
  option_map fst (run [] (collect_response 0 1 16) memory2) = Some (Ok [9]).
Proof. reflexivity. Qed.
