(* ===== verification/DescriptorLease.v ===== *)
(** * DescriptorLease: banks of preallocated descriptor sets

    Models the lease banks of src/descriptor_transaction_ring.c, which live in
    the region of DescriptorRing.v: the service publishes descriptor sets it
    has allocated ahead of time, and the client claims them without a
    transaction.  The service writes a bank only while it answers a request
    of the client, so the two sides take turns and the operations are
    functions of the region.  A claim reads [records[cursor + index]]; for a
    well-formed bank the index stays below the capacity. *)

From stdpp Require Import list.
From S2P Require Import Prelude Abi Shared DescriptorRing.

(** ** Operations *)

(** [validate_header] with no other access in between. *)
Definition header_code (address : ptr Z) (length generation : Z) (g : region) : Z :=
  match address with
  | None => - EINVAL
  | Some address =>
      let r := rg_ring g in
      if static_header_ok address length r &&
         (dr_request_wait_state r <=? BVB_DESCRIPTOR_TRANSACTION_WAIT_SLEEPING) &&
         (dr_completion_wait_state r <=? BVB_DESCRIPTOR_TRANSACTION_WAIT_SLEEPING) &&
         generation_ok generation r
      then 0 else - EINVAL
  end.

Definition set_bank (index : Z) (b : bvb_descriptor_lease_bank) (g : region) : region :=
  mk_region (rg_ring g) (rg_slots g) (<[Z.to_nat index := b]> (rg_banks g)).

Definition set_cursor (v : Z) (b : bvb_descriptor_lease_bank) :
    bvb_descriptor_lease_bank :=
  mk_lease_bank (lb_pool_id b) (lb_epoch b) (lb_count b) v (lb_ready b)
    (lb_reserved b) (lb_records b).

Definition zero_record : bvb_descriptor_lease_record := mk_lease_record 0 0.

Definition bvb_descriptor_lease_bank_disable (address : ptr Z)
    (length bank_index : Z) (g : region) : result region :=
  let result := header_code address length 0 g in
  fail_if negb (result =? 0) || (BVB_DESCRIPTOR_LEASE_BANK_COUNT <=? bank_index)
    with (if negb (result =? 0) then result else - EINVAL) ;;
  Ok (set_bank bank_index zero_bank g).

(** The check of the records before anything is written. *)
Definition record_is_valid (r : bvb_descriptor_lease_record) : bool :=
  negb (lr_layout_id r =? 0) && negb (lr_descriptor_set_id r =? 0).

(** The bank a publication fills: cleared, its header written, [count] records
    copied, and made ready. *)
Definition published_bank (pool_id epoch : Z)
    (records : list bvb_descriptor_lease_record) (count : Z) :
    bvb_descriptor_lease_bank :=
  mk_lease_bank pool_id epoch count 0 BVB_DESCRIPTOR_LEASE_BANK_READY 0
    (take (Z.to_nat count) records ++
     drop (Z.to_nat count) (lb_records zero_bank)).

Definition bvb_descriptor_lease_bank_publish (address : ptr Z)
    (length bank_index pool_id epoch : Z)
    (records : ptr (list bvb_descriptor_lease_record)) (count : Z) (g : region) :
    result region :=
  let result := header_code address length 0 g in
  deref records := records or (if negb (result =? 0) then result else - EINVAL) ;;
  fail_if negb (result =? 0) || (BVB_DESCRIPTOR_LEASE_BANK_COUNT <=? bank_index) ||
          (pool_id =? 0) || (epoch =? 0) || (count =? 0) ||
          (BVB_DESCRIPTOR_LEASE_BANK_CAPACITY <? count)
    with (if negb (result =? 0) then result else - EINVAL) ;;
  fail_if negb (forallb record_is_valid (take (Z.to_nat count) records))
    with (- EINVAL) ;;
  Ok (set_bank bank_index (published_bank pool_id epoch records count) g).

Definition record_at (b : bvb_descriptor_lease_bank) (index : Z) :
    bvb_descriptor_lease_record :=
  nth (Z.to_nat index) (lb_records b) zero_record.

(** The loop that compares the layouts, from [index] on. *)
Fixpoint records_match (b : bvb_descriptor_lease_bank) (cursor index : Z)
    (layout_ids : list Z) : bool :=
  match layout_ids with
  | [] => true
  | layout_id :: layout_ids =>
      let record := record_at b (u32 (cursor + index)) in
      if negb (lr_layout_id record =? layout_id) ||
         (lr_descriptor_set_id record =? 0)
      then false
      else records_match b cursor (index + 1) layout_ids
  end.

(** The loop that copies the identifiers out. *)
Fixpoint copy_ids (b : bvb_descriptor_lease_bank) (cursor index : Z)
    (count : nat) : list Z :=
  match count with
  | O => []
  | S count => lr_descriptor_set_id (record_at b (u32 (cursor + index))) ::
               copy_ids b cursor (index + 1) count
  end.

(** The tests a bank passes to serve a claim, in the order of the code. *)
Definition bank_serves (pool_id : Z) (layout_ids : list Z) (count : Z)
    (b : bvb_descriptor_lease_bank) : bool :=
  if negb (lb_ready b =? BVB_DESCRIPTOR_LEASE_BANK_READY) ||
     negb (lb_pool_id b =? pool_id) then false else
  let cursor := lb_cursor b in
  let bank_count := lb_count b in
  if (bank_count <? cursor) || (u32 (bank_count - cursor) <? count) then false
  else records_match b cursor 0 layout_ids.

(** The loop over the banks: the identifiers, the epoch and the region with
    the cursor moved. *)
Fixpoint claim_loop (remaining : nat) (bank_index pool_id : Z)
    (layout_ids : list Z) (count : Z) (g : region) :
    result (list Z * Z * region) :=
  match remaining with
  | O => Err (- ENOENT)
  | S remaining =>
      let bank := lease_bank_at g bank_index in
      if bank_serves pool_id layout_ids count bank then
        let cursor := lb_cursor bank in
        Ok (copy_ids bank cursor 0 (Z.to_nat count), lb_epoch bank,
            set_bank bank_index (set_cursor (u32 (cursor + count)) bank) g)
      else claim_loop remaining (bank_index + 1) pool_id layout_ids count g
  end.

(** [want] is [descriptor_set_ids != NULL]; the epoch is stored only through
    a non-null pointer, and returned here in any case. *)
Definition bvb_descriptor_lease_claim (address : ptr Z) (length pool_id : Z)
    (layout_ids : ptr (list Z)) (count : Z) (want : bool) (g : region) :
    result (list Z * Z * region) :=
  let result := header_code address length 0 g in
  deref layout_ids := layout_ids
    or (if negb (result =? 0) then result else - EINVAL) ;;
  fail_if negb (result =? 0) || (pool_id =? 0) || (count =? 0) ||
          (BVB_DESCRIPTOR_LEASE_MAX_CLAIM <? count) || negb want
    with (if negb (result =? 0) then result else - EINVAL) ;;
  claim_loop (Z.to_nat BVB_DESCRIPTOR_LEASE_BANK_COUNT) 0 pool_id
    (take (Z.to_nat count) layout_ids) count g.

(** [want] is [cursor != NULL && count != NULL]. *)
Definition bvb_descriptor_lease_bank_cursor (address : ptr Z)
    (length bank_index : Z) (want : bool) (g : region) : result (Z * Z) :=
  let result := header_code address length 0 g in
  fail_if negb (result =? 0) || (BVB_DESCRIPTOR_LEASE_BANK_COUNT <=? bank_index) ||
          negb want
    with (if negb (result =? 0) then result else - EINVAL) ;;
  let bank := lease_bank_at g bank_index in
  fail_if negb (lb_ready bank =? BVB_DESCRIPTOR_LEASE_BANK_READY) with (- ENOENT) ;;
  fail_if lb_count bank <? lb_cursor bank with (- EPROTO) ;;
  Ok (lb_cursor bank, lb_count bank).

(** ** What a bank stands for *)

(** The leases still to be handed out. *)
Definition available (b : bvb_descriptor_lease_bank) :
    list bvb_descriptor_lease_record :=
  if lb_ready b =? BVB_DESCRIPTOR_LEASE_BANK_READY
  then drop (Z.to_nat (lb_cursor b)) (take (Z.to_nat (lb_count b)) (lb_records b))
  else [].

Record bank_ok (b : bvb_descriptor_lease_bank) : Prop := {
  bo_cursor : 0 <= lb_cursor b <= lb_count b;
  bo_count : lb_count b <= BVB_DESCRIPTOR_LEASE_BANK_CAPACITY;
  bo_records : length (lb_records b) = Z.to_nat BVB_DESCRIPTOR_LEASE_BANK_CAPACITY;
  bo_ready : lb_ready b = 0 \/
    lb_ready b = BVB_DESCRIPTOR_LEASE_BANK_READY /\ lb_pool_id b <> 0 /\
    lb_epoch b <> 0 /\ lb_count b <> 0;
  bo_reserved : lb_reserved b = 0;
  bo_ids : Forall (fun r => record_is_valid r = true)
             (take (Z.to_nat (lb_count b)) (lb_records b))
}.

Record banks_ok (g : region) : Prop := {
  ko_length : length (rg_banks g) = Z.to_nat BVB_DESCRIPTOR_LEASE_BANK_COUNT;
  ko_banks : Forall bank_ok (rg_banks g)
}.

(** The first bank of the pool whose leases begin with the layouts. *)
Definition serves (pool_id : Z) (layout_ids : list Z)
    (b : bvb_descriptor_lease_bank) : Prop :=
  lb_ready b = BVB_DESCRIPTOR_LEASE_BANK_READY /\ lb_pool_id b = pool_id /\
  layout_ids `prefix_of` map lr_layout_id (available b).

#[export] Instance serves_dec pool_id layout_ids b :
  Decision (serves pool_id layout_ids b).
Proof. solve_decision. Defined.

(** What a claim of the layouts does to the banks. *)
Definition claim_spec (pool_id : Z) (layout_ids : list Z) (g : region) :
    result (list Z * Z * region) :=
  match list_find (serves pool_id layout_ids) (rg_banks g) with
  | Some (i, b) =>
      let n := length layout_ids in
      Ok (map lr_descriptor_set_id (take n (available b)), lb_epoch b,
          set_bank (Z.of_nat i) (set_cursor (lb_cursor b + Z.of_nat n) b) g)
  | None => Err (- ENOENT)
  end.

(** ** Lemmas *)

Lemma header_run address length generation m :
  run [] (validate_header address length generation) m =
  Some (header_code address length generation (region_of m), m).
Proof.
  destruct address as [a|]; [|done]. unfold validate_header, header_code, ring.
  cbn [run]. destruct (static_header_ok a length (rg_ring (region_of m))); [|done].
  cbn [Z.b2z Z.eqb negb run Pos.eqb]. rewrite !Z.ltb_antisym.
  destruct (dr_request_wait_state _ <=? _); [|done]. cbn [negb run andb].
  rewrite Z.ltb_antisym. destruct (dr_completion_wait_state _ <=? _); [|done].
  cbn [negb run andb]. by destruct (generation_ok generation _).
Qed.

(** The leases of a bank from [k] on. *)
Definition leases_from (b : bvb_descriptor_lease_bank) (k : Z) :
    list bvb_descriptor_lease_record :=
  drop (Z.to_nat k) (take (Z.to_nat (lb_count b)) (lb_records b)).

Lemma leases_from_step b k :
  bank_ok b -> 0 <= k < lb_count b ->
  leases_from b k = record_at b k :: leases_from b (k + 1) /\
  record_is_valid (record_at b k) = true.
Proof.
  intros [_ Hn Hl _ _ Hv] Hk. unfold leases_from, record_at.
  set (l := take (Z.to_nat (lb_count b)) (lb_records b)) in *.
  assert (Hlen : length l = Z.to_nat (lb_count b))
    by (subst l; rewrite length_take; lia).
  destruct (lookup_lt_is_Some_2 l (Z.to_nat k)) as [x Hx]; [lia|].
  assert (Hx' : nth (Z.to_nat k) (lb_records b) zero_record = x).
  { apply nth_lookup_Some. subst l. rewrite lookup_take_lt in Hx by lia. done. }
  rewrite Hx'. split; [|by eapply (Forall_lookup_1 _ _ _ _ Hv)].
  replace (Z.to_nat (k + 1)) with (S (Z.to_nat k)) by lia. by apply drop_S.
Qed.

Lemma length_leases_from b k :
  bank_ok b -> 0 <= k <= lb_count b ->
  Z.of_nat (length (leases_from b k)) = lb_count b - k.
Proof.
  intros [? Hn Hl _ _ _] Hk. unfold leases_from. rewrite length_drop, length_take. lia.
Qed.

Lemma records_match_spec b cursor index layout_ids :
  bank_ok b -> 0 <= cursor -> 0 <= index ->
  cursor + index + Z.of_nat (length layout_ids) <= lb_count b ->
  records_match b cursor index layout_ids =
  bool_decide (layout_ids `prefix_of` map lr_layout_id (leases_from b (cursor + index))).
Proof.
  intros Hb Hc. revert index.
  induction layout_ids as [|x l IH]; intros index Hi Hlen; cbn [records_match].
  { by rewrite bool_decide_true by apply prefix_nil. }
  cbn [length] in Hlen. pose proof (bo_count _ Hb).
  rewrite u32_small by (apply is_u32_spec; lia).
  destruct (leases_from_step b (cursor + index) Hb ltac:(lia)) as [-> Hv].
  unfold record_is_valid in Hv. bool_hyps. cbn [map].
  destruct (Z.eqb_spec (lr_layout_id (record_at b (cursor + index))) x) as [<-|Hne];
    cbn [negb orb].
  - destruct (Z.eqb_spec (lr_descriptor_set_id (record_at b (cursor + index))) 0); [lia|].
    rewrite IH by lia. rewrite Z.add_assoc. apply bool_decide_ext.
    split; [apply prefix_cons|apply prefix_cons_inv_2].
  - rewrite bool_decide_false; [done|]. intros Hpre%prefix_cons_inv_1. congruence.
Qed.

Lemma copy_ids_spec b cursor index n :
  bank_ok b -> 0 <= cursor -> 0 <= index -> cursor + index + Z.of_nat n <= lb_count b ->
  copy_ids b cursor index n =
  map lr_descriptor_set_id (take n (leases_from b (cursor + index))).
Proof.
  intros Hb Hc. revert index. induction n as [|n IH]; intros index Hi Hlen; [done|].
  cbn [copy_ids]. pose proof (bo_count _ Hb).
  rewrite u32_small by (apply is_u32_spec; lia).
  destruct (leases_from_step b (cursor + index) Hb ltac:(lia)) as [-> _].
  cbn [take map]. f_equal. rewrite IH by lia. by rewrite Z.add_assoc.
Qed.

Lemma available_ready b :
  lb_ready b = BVB_DESCRIPTOR_LEASE_BANK_READY -> available b = leases_from b (lb_cursor b).
Proof. intros H. unfold available. by rewrite H. Qed.

Lemma serves_room pool_id layout_ids b :
  bank_ok b -> serves pool_id layout_ids b ->
  lb_cursor b + Z.of_nat (length layout_ids) <= lb_count b.
Proof.
  intros Hb (Hr & _ & Hp%prefix_length). rewrite available_ready, length_map in Hp by done.
  pose proof (bo_cursor _ Hb).
  pose proof (length_leases_from b (lb_cursor b) Hb ltac:(lia)). lia.
Qed.

Lemma bank_serves_spec pool_id layout_ids count b :
  bank_ok b -> Z.of_nat (length layout_ids) = count ->
  bank_serves pool_id layout_ids count b = bool_decide (serves pool_id layout_ids b).
Proof.
  intros Hb Hn. unfold bank_serves. symmetry.
  destruct (Z.eqb_spec (lb_ready b) BVB_DESCRIPTOR_LEASE_BANK_READY) as [Hr|Hr];
    cbn [negb orb]; [|by rewrite bool_decide_false by (intros []; lia)].
  destruct (Z.eqb_spec (lb_pool_id b) pool_id) as [Hp|Hp]; cbn [negb];
    [|by rewrite bool_decide_false by (intros (_ & ? & _); lia)].
  pose proof (bo_cursor _ Hb). pose proof (bo_count _ Hb).
  destruct (Z.ltb_spec (lb_count b) (lb_cursor b)); [lia|].
  rewrite u32_small by (apply is_u32_spec; lia). cbn [orb].
  destruct (Z.ltb_spec (lb_count b - lb_cursor b) count) as [Hlt|Hge].
  - rewrite bool_decide_false; [done|]. intros Hs%serves_room; [lia|done].
  - rewrite records_match_spec by (done || lia). rewrite Z.add_0_r.
    apply bool_decide_ext. unfold serves. rewrite available_ready by done. tauto.
Qed.

Lemma claim_loop_spec n index pool_id layout_ids count g :
  banks_ok g -> 0 <= index -> index + Z.of_nat n = BVB_DESCRIPTOR_LEASE_BANK_COUNT ->
  Z.of_nat (length layout_ids) = count ->
  claim_loop n index pool_id layout_ids count g =
  match list_find (serves pool_id layout_ids) (drop (Z.to_nat index) (rg_banks g)) with
  | Some (i, b) =>
      Ok (map lr_descriptor_set_id (take (length layout_ids) (available b)), lb_epoch b,
          set_bank (index + Z.of_nat i)
            (set_cursor (lb_cursor b + Z.of_nat (length layout_ids)) b) g)
  | None => Err (- ENOENT)
  end.
Proof.
  intros [Hl Hb] Hi Hn Hc. revert index Hi Hn.
  induction n as [|n IH]; intros index Hi Hn; cbn [claim_loop].
  { by rewrite drop_ge by lia. }
  destruct (lookup_lt_is_Some_2 (rg_banks g) (Z.to_nat index)) as [b Hlk]; [lia|].
  assert (Hat : lease_bank_at g index = b) by (by apply nth_lookup_Some).
  rewrite Hat, (drop_S _ _ _ Hlk). cbn [list_find].
  pose proof (Forall_lookup_1 _ _ _ _ Hb Hlk) as Hbo.
  rewrite bank_serves_spec by done.
  destruct (decide (serves pool_id layout_ids b)) as [Hs|Hs].
  - rewrite bool_decide_true by done. pose proof (serves_room _ _ _ Hbo Hs).
    pose proof (bo_cursor _ Hbo). pose proof (bo_count _ Hbo).
    rewrite u32_small by (apply is_u32_spec; lia).
    rewrite copy_ids_spec by (done || lia). rewrite Z.add_0_r.
    rewrite (available_ready _ (proj1 Hs)).
    rewrite <- Hc, Nat2Z.id, Z.add_0_r. done.
  - rewrite bool_decide_false by done. rewrite IH by lia.
    replace (Z.to_nat (index + 1)) with (S (Z.to_nat index)) by lia.
    destruct (list_find _ _) as [[i b']|]; cbn [fmap option_fmap option_map];
      [|done]. cbn. by replace (index + 1 + Z.of_nat i) with (index + Z.of_nat (S i)) by lia.
Qed.

Lemma banks_ok_set g i b :
  banks_ok g -> bank_ok b -> banks_ok (set_bank i b g).
Proof.
  intros [Hl Hb] Hok. constructor; cbn; [by rewrite length_insert|].
  by apply Forall_insert.
Qed.

Lemma claimed_ok pool_id layout_ids b :
  bank_ok b -> serves pool_id layout_ids b ->
  bank_ok (set_cursor (lb_cursor b + Z.of_nat (length layout_ids)) b).
Proof.
  intros Hb Hs. pose proof (serves_room _ _ _ Hb Hs). destruct Hb.
  constructor; try done. cbn. lia.
Qed.

Lemma claimed_available b n :
  0 <= lb_cursor b -> available (set_cursor (lb_cursor b + Z.of_nat n) b) = drop n (available b).
Proof.
  intros H. unfold available. cbn. case_match; [|by rewrite drop_nil].
  rewrite drop_drop. f_equal. lia.
Qed.

Lemma zero_bank_ok : bank_ok zero_bank.
Proof.
  constructor; cbn; try done; try lia; auto.
Qed.

Lemma published_bank_ok pool_id epoch records count :
  pool_id <> 0 -> epoch <> 0 ->
  0 < count <= BVB_DESCRIPTOR_LEASE_BANK_CAPACITY ->
  count <= Z.of_nat (length records) ->
  forallb record_is_valid (take (Z.to_nat count) records) = true ->
  bank_ok (published_bank pool_id epoch records count) /\
  available (published_bank pool_id epoch records count) =
    take (Z.to_nat count) records.
Proof.
  intros Hp He Hc Hlen Hv.
  assert (Hl : length (take (Z.to_nat count) records) = Z.to_nat count)
    by (rewrite length_take; lia).
  assert (Ht : take (Z.to_nat count) (lb_records (published_bank pool_id epoch records count))
               = take (Z.to_nat count) records).
  { cbn [published_bank lb_records]. rewrite take_app_le by lia.
    by rewrite take_take, Nat.min_id. }
  split.
  - constructor; try (cbn; lia).
    + cbn [published_bank lb_records]. rewrite length_app, Hl, length_drop.
      change (length (lb_records zero_bank)) with 64%nat. lia.
    + change (lb_count (published_bank pool_id epoch records count)) with count. rewrite Ht.
      apply List.Forall_forall. by apply forallb_forall.
  - unfold available. cbn [published_bank lb_ready lb_cursor lb_count].
    change (1 =? 1) with true. cbv iota. rewrite drop_0. exact Ht.
Qed.

(** ** What the banks promise *)

(** The code a bad header gives is always [-EINVAL]. *)
Lemma header_code_cases address length generation g :
  header_code address length generation g = 0 \/
  header_code address length generation g = - EINVAL.
Proof. destruct address; [|by right]. cbn. case_match; auto. Qed.

Lemma list_find_bank pool_id layout_ids g i b :
  banks_ok g -> list_find (serves pool_id layout_ids) (rg_banks g) = Some (i, b) ->
  rg_banks g !! i = Some b /\ bank_ok b /\ serves pool_id layout_ids b.
Proof.
  intros [_ Hb] (Hi & Hs & _)%list_find_Some. split_and!; try done.
  by apply (Forall_lookup_1 _ _ _ _ Hb Hi).
Qed.

(** The identifiers still to be handed out, over all banks. *)
Definition outstanding (g : region) : list Z :=
  flat_map (fun b => map lr_descriptor_set_id (available b)) (rg_banks g).

Lemma claim_spec_conserves pool_id layout_ids g ids epoch g' :
  banks_ok g -> claim_spec pool_id layout_ids g = Ok (ids, epoch, g') ->
  banks_ok g' /\ length ids = length layout_ids /\
  ids ++ outstanding g' ≡ₚ outstanding g.
Proof.
  intros Hg H. unfold claim_spec in H.
  destruct (list_find _ _) as [[i b]|] eqn:Hf; [|done]. injection H as <- <- <-.
  destruct (list_find_bank _ _ _ _ _ Hg Hf) as (Hi & Hb & Hs).
  split; [apply banks_ok_set; [done|by eapply claimed_ok]|].
  split.
  { rewrite length_map, length_take. destruct Hs as (_ & _ & Hp%prefix_length).
    rewrite length_map in Hp. lia. }
  pose proof (lookup_lt_Some _ _ _ Hi) as Hlt.
  unfold outstanding, set_bank. cbn [rg_banks]. rewrite Nat2Z.id.
  rewrite insert_take_drop by done.
  rewrite <- (take_drop_middle (rg_banks g) i b Hi) at 3.
  rewrite !flat_map_app. cbn [flat_map].
  rewrite claimed_available by apply (bo_cursor _ Hb).
  rewrite <- (take_drop (length layout_ids) (available b)) at 3.
  rewrite map_app, <- !app_assoc. apply Permutation_app_swap_app.
Qed.

(** The arguments a claim accepts. *)
Definition claim_accepted (address : ptr Z) (length pool_id count : Z) (want : bool)
    (g : region) : bool :=
  (header_code address length 0 g =? 0) && negb (pool_id =? 0) &&
  negb (count =? 0) && (count <=? BVB_DESCRIPTOR_LEASE_MAX_CLAIM) && want.

Lemma claim_run address length pool_id layout_ids count want g :
  banks_ok g -> Z.of_nat (List.length layout_ids) = count ->
  bvb_descriptor_lease_claim address length pool_id (Some layout_ids) count want g =
  if claim_accepted address length pool_id count want g
  then claim_spec pool_id layout_ids g else Err (- EINVAL).
Proof.
  intros Hg Hn. unfold bvb_descriptor_lease_claim, claim_accepted. cbn zeta.
  rewrite (Z.leb_antisym _ count), <- Hn.
  destruct (header_code_cases address length 0 g) as [-> | ->]; [|done].
  cbn [Z.eqb negb orb andb].
  destruct (pool_id =? 0), (_ =? 0), (_ <? Z.of_nat _), want; try done.
  cbn [negb orb andb]. rewrite Nat2Z.id, take_ge by done.
  rewrite claim_loop_spec by done. unfold claim_spec. cbn [Z.to_nat drop].
  by destruct (list_find _ _) as [[i b]|]; rewrite ?Z.add_0_l.
Qed.

(** C26: on well-formed banks a claim refuses bad arguments with [-EINVAL], is
    served by the first ready bank of the pool whose remaining leases begin
    with exactly the layouts asked for, and is [-ENOENT] when there is none;
    a claim that is served takes those leases off that bank and no other
    identifier appears or disappears. *)
Theorem lease_claim_refines address length pool_id layout_ids count want g :
  banks_ok g -> Z.of_nat (List.length layout_ids) = count ->
  let r := bvb_descriptor_lease_claim address length pool_id (Some layout_ids) count
             want g in
  r = (if claim_accepted address length pool_id count want g
       then claim_spec pool_id layout_ids g else Err (- EINVAL)) /\
  (forall ids epoch g', r = Ok (ids, epoch, g') ->
     banks_ok g' /\ Z.of_nat (List.length ids) = count /\
     ids ++ outstanding g' ≡ₚ outstanding g).
Proof.
  intros Hg Hn r. subst r. rewrite claim_run by done. split; [done|].
  intros ids epoch g' H. case_match; [|done].
  destruct (claim_spec_conserves _ _ _ _ _ _ Hg H) as (? & Hl & ?).
  split_and!; [done|congruence|done].
Qed.

(** Claims one after the other, each with its pool and layouts; what they
    were given. *)
Fixpoint run_claims (address : ptr Z) (length : Z) (claims : list (Z * list Z))
    (g : region) : list Z * region :=
  match claims with
  | [] => ([], g)
  | (pool_id, layout_ids) :: claims =>
      match bvb_descriptor_lease_claim address length pool_id (Some layout_ids)
              (Z.of_nat (List.length layout_ids)) true g with
      | Ok (ids, _, g') =>
          let '(rest, g'') := run_claims address length claims g' in
          (ids ++ rest, g'')
      | Err _ => run_claims address length claims g
      end
  end.

Lemma run_claims_conserve address length claims g :
  banks_ok g ->
  let '(ids, g') := run_claims address length claims g in
  banks_ok g' /\ ids ++ outstanding g' ≡ₚ outstanding g.
Proof.
  revert g. induction claims as [|[pool_id layout_ids] claims IH]; intros g Hg;
    cbn [run_claims]; [done|].
  rewrite claim_run by done. destruct (claim_accepted _ _ _ _ _ _); [|by apply IH].
  destruct (claim_spec _ _ _) as [[[ids epoch] g']|] eqn:E; [|by apply IH].
  destruct (claim_spec_conserves _ _ _ _ _ _ Hg E) as (Hg' & _ & Hp).
  specialize (IH g' Hg'). destruct (run_claims address length claims g') as [rest g''].
  destruct IH as [Hg'' Hp']. split; [done|]. by rewrite <- app_assoc, Hp', Hp.
Qed.

(** C27: when the published descriptor sets are distinct, no sequence of claims
    is handed the same set twice, nor one that was never published. *)
Theorem leases_are_handed_out_once address length claims g :
  banks_ok g -> NoDup (outstanding g) ->
  NoDup (run_claims address length claims g).1 /\
  forall id, id ∈ (run_claims address length claims g).1 -> id ∈ outstanding g.
Proof.
  intros Hg Hnd. pose proof (run_claims_conserve address length claims g Hg) as H.
  destruct (run_claims address length claims g) as [ids g']. destruct H as [_ Hp].
  cbn [fst]. rewrite <- Hp in Hnd. split; [by apply list.NoDup_app in Hnd as [? _]|].
  intros id Hid. rewrite <- Hp. apply elem_of_app. by left.
Qed.

(** The arguments a publication accepts. *)
Definition publish_accepted (address : ptr Z) (length bank_index pool_id epoch : Z)
    (records : list bvb_descriptor_lease_record) (count : Z) (g : region) : bool :=
  (header_code address length 0 g =? 0) &&
  (bank_index <? BVB_DESCRIPTOR_LEASE_BANK_COUNT) && negb (pool_id =? 0) &&
  negb (epoch =? 0) && negb (count =? 0) &&
  (count <=? BVB_DESCRIPTOR_LEASE_BANK_CAPACITY) &&
  forallb record_is_valid (take (Z.to_nat count) records).

(** a publication refuses bad arguments and records without a layout or a
    set with [-EINVAL]; otherwise the bank serves exactly the records given,
    in order, whatever it held before, the other banks are as they were and
    all banks stay well formed. *)
Theorem lease_publish_spec address length bank_index pool_id epoch records count g :
  banks_ok g -> 0 <= bank_index -> is_u32 count = true ->
  count <= Z.of_nat (List.length records) ->
  match bvb_descriptor_lease_bank_publish address length bank_index pool_id epoch
          (Some records) count g with
  | Ok g' =>
      publish_accepted address length bank_index pool_id epoch records count g = true /\
      banks_ok g' /\
      available (lease_bank_at g' bank_index) = take (Z.to_nat count) records /\
      forall i, 0 <= i -> i <> bank_index -> lease_bank_at g' i = lease_bank_at g i
  | Err e =>
      publish_accepted address length bank_index pool_id epoch records count g = false /\
      e = - EINVAL
  end.
Proof.
  intros Hg Hi Hu%is_u32_spec Hlen. unfold bvb_descriptor_lease_bank_publish, publish_accepted.
  cbn zeta. rewrite (Z.leb_antisym _ count), (Z.ltb_antisym _ bank_index).
  destruct (header_code_cases address length 0 g) as [-> | ->]; [|done].
  cbn [Z.eqb negb orb andb].
  destruct (Z.leb_spec BVB_DESCRIPTOR_LEASE_BANK_COUNT bank_index); [done|].
  destruct (Z.eqb_spec pool_id 0); [done|]. destruct (Z.eqb_spec epoch 0); [done|].
  destruct (Z.eqb_spec count 0); [done|].
  destruct (Z.ltb_spec BVB_DESCRIPTOR_LEASE_BANK_CAPACITY count); [done|].
  cbn [negb orb andb].
  destruct (forallb _ _) eqn:Hv; cbn [negb]; [|done].
  destruct (published_bank_ok pool_id epoch records count) as [Hok Ha]; [lia|lia|lia|lia|exact Hv|].
  assert (Hl : (Z.to_nat bank_index < List.length (rg_banks g))%nat)
    by (rewrite (ko_length _ Hg); lia).
  split_and!; [done|by apply banks_ok_set| |].
  - rewrite <- Ha. f_equal. unfold lease_bank_at, set_bank. cbn.
    apply nth_lookup_Some. by apply list_lookup_insert_eq.
  - intros i Hi0 Hne. unfold lease_bank_at, set_bank. cbn.
    rewrite !nth_lookup. rewrite list_lookup_insert_ne by lia. done.
Qed.

(** ** A concrete bank *)

(** Three sets of two layouts published in the first bank of an initialised
    region. *)
Definition leases0 : list bvb_descriptor_lease_record :=
  [mk_lease_record 11 101; mk_lease_record 12 102; mk_lease_record 11 103].
Definition leased : region :=
  set_bank 0 (published_bank 9 1 leases0 3) region0.

Lemma region0_banks_ok : banks_ok region0.
Proof.
  constructor; [done|]. apply List.Forall_forall. intros b Hb.
  apply list_elem_of_In, elem_of_replicate in Hb as [-> _]. exact zero_bank_ok.
Qed.

Lemma leased_ok : banks_ok leased.
Proof.
  apply banks_ok_set; [exact region0_banks_ok|].
  apply published_bank_ok; [lia|lia|lia|cbn; lia|reflexivity].
Qed.

Lemma lease_claim_refines_witness :
  bvb_descriptor_lease_claim (Some 4096) 131072 9 (Some [11; 12]) 2 true leased =
    Ok ([101; 102], 1, set_bank 0 (set_cursor 2 (published_bank 9 1 leases0 3)) leased).
Proof.
  destruct (lease_claim_refines (Some 4096) 131072 9 [11; 12] 2 true leased) as [H _];
    [exact leased_ok|reflexivity|]. rewrite H. vm_compute. reflexivity.
Defined.

(** Two claims, the second of which finds the layouts out of order. *)
Lemma leases_are_handed_out_once_witness :
  NoDup [101; 102] /\
  run_claims (Some 4096) 131072 [(9, [11; 12]); (9, [12]); (9, [11])] leased =
    ([101; 102; 103],
     set_bank 0 (set_cursor 3 (published_bank 9 1 leases0 3)) leased).
Proof.
  split; [|vm_compute; reflexivity].
  destruct (leases_are_handed_out_once (Some 4096) 131072 [(9, [11; 12])] leased)
    as [H _]; [exact leased_ok| |exact H].
  change (outstanding leased) with [101; 102; 103].
  apply (bool_decide_unpack _). vm_compute. exact I.
Defined.

Lemma lease_publish_spec_witness :
  available (lease_bank_at leased 0) = leases0.
Proof.
  apply (lease_publish_spec (Some 4096) 131072 0 9 1 leases0 3 region0);
    [exact region0_banks_ok|lia|reflexivity|cbn; lia].
Defined.
