(* ===== verification/Window.v ===== *)
(** * Window: pointers into a buffer, loops and fixed arrays

    src/command_batch.c walks buffers with [payload + base + index * size],
    passes such pointers to helpers that read or write one element, and
    copies counted arrays in [for] loops that may return early.  A pointer
    [p + k] is what the buffer holds from [k] on; a helper that writes
    through it gets the element's bytes and its result is put back; a loop
    is [for_loop] or, when it only tests, [for_all].  The lemmas say what a
    loop over consecutive elements leaves in each of them. *)

From S2P Require Import Prelude Wire Codec.

(** ** Pointers *)

Definition ptr_add (p : bytes) (k : Z) : bytes := drop (Z.to_nat k) p.
Notation "p +! k" := (ptr_add p k) (at level 50, left associativity) : c_scope.

(** A helper [f(uint8_t output[size], ...)] called on [output + offset]. *)
Definition write_window (output : bytes) (offset size : Z)
    (f : bytes -> bytes) : bytes :=
  wr_bytes output offset (f (rd_bytes output offset size)).

(** ** Loops *)

Fixpoint loop_from {S} (n : nat) (index : Z) (body : Z -> S -> result S)
    (s : S) : result S :=
  match n with
  | O => Ok s
  | Datatypes.S n => try s := body index s ;; loop_from n (index + 1) body s
  end.

(** [for (index = 0; index < count; ++index) body] *)
Definition for_loop {S} (count : Z) (body : Z -> S -> result S) (s : S) :
    result S :=
  loop_from (Z.to_nat count) 0 body s.

(** [for (index = 0; index < count; ++index) if (!test(index)) return ...] *)
Definition for_all (count : Z) (test : Z -> bool) : bool :=
  forallb test (seqZ 0 count).

(** The same, from [index = first]. *)
Definition for_all_from (first last : Z) (test : Z -> bool) : bool :=
  forallb test (seqZ first (last - first)).

(** ** Fixed arrays *)

(** [arr[index]]; no caller reads past the declared length. *)
Definition elt {A} (zero : A) (arr : list A) (index : Z) : A :=
  nth (Z.to_nat index) arr zero.
#[global] Arguments elt : simpl never.

Fixpoint fill_from {A} (n : nat) (index : nat) (f : Z -> A) (arr : list A) :
    list A :=
  match n with
  | O => arr
  | S n => fill_from n (S index) f (<[index := f (Z.of_nat index)]> arr)
  end.

(** [for (index = 0; index < count; ++index) arr[index] = f(index);] *)
Definition fill_array {A} (count : Z) (f : Z -> A) (arr : list A) : list A :=
  fill_from (Z.to_nat count) 0 f arr.

(** The part of a counted array that its count covers, over zeroes: what a
    decoder that starts with [memset] can give back. *)
Definition keep {A} (count : Z) (zero : A) (arr : list A) : list A :=
  take (Z.to_nat count) arr ++
  replicate (length arr - Z.to_nat count) zero.

Definition array_rep {A} (size : Z) (rep : A -> bool) (arr : list A) : bool :=
  (Z.of_nat (length arr) =? size) && forallb rep arr.

(** Four words or so, written and read one after the other. *)
Fixpoint put_words (output : bytes) (i : Z) (words : list Z) : bytes :=
  match words with
  | [] => output
  | w :: words => put_words (bvb_wire_put_u32 output i w) (i + 4) words
  end.

Fixpoint get_words (input : bytes) (i : Z) (n : nat) : list Z :=
  match n with
  | O => []
  | S n => bvb_wire_get_u32 input i :: get_words input (i + 4) n
  end.

Definition bytes_are_zero (input : bytes) (size : Z) : bool :=
  for_all size (fun index => rd8 input index =? 0).

#[global] Arguments replicate : simpl never.

(** ** Pointer lemmas *)

Lemma rd8_ptr_add p k i :
  0 <= k -> 0 <= i -> rd8 (p +! k) i = rd8 p (k + i).
Proof.
  intros. unfold rd8, ptr_add. f_equal. rewrite !nth_lookup, lookup_drop.
  do 2 f_equal. lia.
Qed.

Lemma agree_ptr_add p q k i n :
  0 <= k -> 0 <= i -> agree p q (k + i) n -> agree (p +! k) (q +! k) i n.
Proof. intros ?? H j Hj. rewrite !rd8_ptr_add by lia. apply H. lia. Qed.

Lemma get_u16_ptr_add p k i :
  0 <= k -> 0 <= i -> bvb_wire_get_u16 (p +! k) i = bvb_wire_get_u16 p (k + i).
Proof. intros. by rewrite !get_u16_sum, !rd8_ptr_add, !Z.add_assoc by lia. Qed.

Lemma get_u32_ptr_add p k i :
  0 <= k -> 0 <= i -> bvb_wire_get_u32 (p +! k) i = bvb_wire_get_u32 p (k + i).
Proof. intros. by rewrite !get_u32_sum, !rd8_ptr_add, !Z.add_assoc by lia. Qed.

Lemma get_u64_ptr_add p k i :
  0 <= k -> 0 <= i -> bvb_wire_get_u64 (p +! k) i = bvb_wire_get_u64 p (k + i).
Proof.
  intros. unfold bvb_wire_get_u64.
  by rewrite !get_u32_ptr_add, !Z.add_assoc by lia.
Qed.

Lemma ptr_add_0 p : p +! 0 = p.
Proof. done. Qed.

Lemma ptr_add_add p k j : 0 <= k -> 0 <= j -> p +! k +! j = p +! (k + j).
Proof. intros. unfold ptr_add. rewrite drop_drop. f_equal. lia. Qed.

Lemma blen_ptr_add p k : 0 <= k <= blen p -> blen (p +! k) = blen p - k.
Proof. unfold blen, ptr_add. intros. rewrite length_drop. lia. Qed.

Lemma rd_bytes_ptr_add p k i n :
  0 <= k -> 0 <= i -> rd_bytes (p +! k) i n = rd_bytes p (k + i) n.
Proof.
  intros. unfold rd_bytes, ptr_add. rewrite drop_drop. do 2 f_equal. lia.
Qed.

(** Reading an element through its own bytes. *)
Lemma agree_window p k n :
  0 <= k -> agree (p +! k) (rd_bytes p k n) 0 n.
Proof.
  intros Hk j Hj. rewrite rd8_ptr_add, rd_bytes_lookup by lia. done.
Qed.

(** ** Loops, in general *)

Lemma loop_from_inv {S} (P : Z -> S -> Prop) body n : forall index s s',
  (forall i t t', index <= i < index + Z.of_nat n -> P i t ->
     body i t = Ok t' -> P (i + 1) t') ->
  P index s -> loop_from n index body s = Ok s' -> P (index + Z.of_nat n) s'.
Proof.
  induction n as [|n IH]; intros index s s' Hstep HP; cbn [loop_from].
  - intros [= <-]. by rewrite Z.add_0_r.
  - intros H. destruct (body index s) as [t|e] eqn:Eb; [|discriminate].
    replace (index + Z.of_nat (Datatypes.S n))
      with (index + 1 + Z.of_nat n) by lia.
    apply (IH (index + 1) t s'); [|by apply (Hstep index s t); [lia| |]|done].
    intros i u u' Hi. apply Hstep. lia.
Qed.

(** What each turn establishes of the next state holds at the end. *)
Lemma for_loop_inv {S} (P : Z -> S -> Prop) body count s s' :
  0 <= count ->
  (forall i t t', 0 <= i < count -> P i t -> body i t = Ok t' ->
     P (i + 1) t') ->
  P 0 s -> for_loop count body s = Ok s' -> P count s'.
Proof.
  intros Hc Hstep H0 H. replace count with (0 + Z.of_nat (Z.to_nat count)) by lia.
  eapply loop_from_inv; [|done|done]. intros i t t' Hi. apply Hstep. lia.
Qed.

Lemma loop_from_ok {S} (P : Z -> S -> Prop) body n : forall index s,
  (forall i t, index <= i < index + Z.of_nat n -> P i t ->
     exists t', body i t = Ok t' /\ P (i + 1) t') ->
  P index s ->
  exists s', loop_from n index body s = Ok s' /\ P (index + Z.of_nat n) s'.
Proof.
  induction n as [|n IH]; intros index s Hstep HP; cbn [loop_from].
  - exists s. by rewrite Z.add_0_r.
  - destruct (Hstep index s) as (t & -> & HP'); [lia|done|].
    replace (index + Z.of_nat (Datatypes.S n))
      with (index + 1 + Z.of_nat n) by lia.
    apply IH; [|done]. intros i u Hi. apply Hstep. lia.
Qed.

(** A loop none of whose turns returns early. *)
Lemma for_loop_ok {S} (P : Z -> S -> Prop) body count s :
  0 <= count ->
  (forall i t, 0 <= i < count -> P i t ->
     exists t', body i t = Ok t' /\ P (i + 1) t') ->
  P 0 s -> exists s', for_loop count body s = Ok s' /\ P count s'.
Proof.
  intros Hc Hstep H0.
  destruct (loop_from_ok P body (Z.to_nat count) 0 s) as (s' & Hs & HP).
  - intros i t Hi. apply Hstep. lia.
  - done.
  - exists s'. split; [done|]. by rewrite Z2Nat.id in HP by done.
Qed.

Lemma for_all_spec count test :
  for_all count test = true <-> (forall i, 0 <= i < count -> test i = true).
Proof.
  unfold for_all. rewrite forallb_forall. split.
  - intros H i Hi. apply H, list_elem_of_In, elem_of_seqZ. lia.
  - intros H i Hi%list_elem_of_In%elem_of_seqZ. apply H. lia.
Qed.

Lemma for_all_ext count f g :
  (forall i, 0 <= i < count -> f i = g i) -> for_all count f = for_all count g.
Proof.
  intros H. apply eq_true_iff_eq. rewrite !for_all_spec.
  split; intros Ht i Hi; [rewrite <- H|rewrite H]; auto.
Qed.

(** A scan of a whole array whose used part is tested one way and whose rest
    another. *)
Lemma for_all_split count max f g :
  0 <= count <= max ->
  for_all max (fun i => if i <? count then f i else g i) = true <->
  (forall i, 0 <= i < count -> f i = true) /\
  (forall i, count <= i < max -> g i = true).
Proof.
  intros Hc. rewrite for_all_spec. split.
  - intros H. split; intros i Hi; specialize (H i ltac:(lia)); case_match; lia || done.
  - intros [Hf Hg] i Hi. destruct (Z.ltb_spec i count); [apply Hf|apply Hg]; lia.
Qed.

(** A validator's scan, whose test reads [count <= index] first. *)
Lemma for_all_unused count max (f g : Z -> bool) :
  for_all max (fun i => if count <=? i then g i else f i) =
  for_all max (fun i => if i <? count then f i else g i).
Proof.
  apply for_all_ext. intros i _.
  destruct (Z.leb_spec count i), (Z.ltb_spec i count); done || lia.
Qed.

Lemma for_all_from_spec first last test :
  for_all_from first last test = true <->
  (forall i, first <= i < last -> test i = true).
Proof.
  unfold for_all_from. rewrite forallb_forall. split.
  - intros H i Hi. apply H, list_elem_of_In, elem_of_seqZ. lia.
  - intros H i Hi%list_elem_of_In%elem_of_seqZ. apply H. lia.
Qed.

Lemma loop_from_error {S} (body : Z -> S -> result S) e n : forall index s e',
  (forall i t e', body i t = Err e' -> e' = e) ->
  loop_from n index body s = Err e' -> e' = e.
Proof.
  induction n as [|n IH]; intros index s e' Hb; cbn; [done|].
  destruct (body index s) eqn:E; [by apply IH|].
  intros [= <-]. by eapply Hb.
Qed.

Lemma for_loop_error {S} (body : Z -> S -> result S) count s e e' :
  (forall i t e', body i t = Err e' -> e' = e) ->
  for_loop count body s = Err e' -> e' = e.
Proof. apply loop_from_error. Qed.

(** ** Loops that write consecutive elements *)

Lemma write_window_spec out k size f :
  0 <= k -> 0 <= size -> k + size <= blen out ->
  (forall w, blen w = size -> blen (f w) = size) ->
  blen (write_window out k size f) = blen out /\
  rd_bytes (write_window out k size f) k size = f (rd_bytes out k size) /\
  (forall j n, 0 <= j -> j + n <= k \/ k + size <= j ->
     agree (write_window out k size f) out j n).
Proof.
  intros Hk Hs Hb Hf. unfold write_window.
  assert (Hl : blen (f (rd_bytes out k size)) = size)
    by (apply Hf, blen_rd_bytes; lia).
  split_and!.
  - apply blen_wr_bytes.
  - apply rd_bytes_wr_bytes; lia.
  - intros j n Hj Hd. apply agree_wr_bytes. unfold disjoint. lia.
Qed.

Section windows.
Context (base size : Z) (g : Z -> bytes -> bytes).
Hypothesis Hbase : 0 <= base.
Hypothesis Hsize : 0 <= size.
Hypothesis Hg : forall i w, blen w = size -> blen (g i w) = size.

(** The first [n] elements of [out] are rewritten by [g], and no other byte. *)
Definition windows (n : Z) (out out' : bytes) : Prop :=
  blen out' = blen out /\
  (forall i, 0 <= i < n ->
     rd_bytes out' (base + i * size) size =
     g i (rd_bytes out (base + i * size) size)) /\
  (forall j m, 0 <= j -> 0 <= m ->
     j + m <= base \/ base + n * size <= j -> agree out' out j m).

Lemma windows_step n out out' :
  0 <= n -> base + (n + 1) * size <= blen out -> windows n out out' ->
  windows (n + 1) out
    (write_window out' (base + n * size) size (g n)).
Proof.
  intros Hn Hb (Hl & Hw & Ho).
  destruct (write_window_spec out' (base + n * size) size (g n))
    as (Hl' & Hr & Hd); [nia|done|nia|apply Hg|].
  split_and!.
  - by rewrite Hl', Hl.
  - intros i Hi. destruct (decide (i = n)) as [->|Hne].
    + rewrite Hr. f_equal. apply rd_bytes_agree; [nia|done|nia|nia|].
      apply Ho; nia.
    + rewrite <- Hw by lia. apply rd_bytes_agree; [nia|done|nia|nia|].
      apply Hd; nia.
  - intros j m Hj Hm Hjm. eapply agree_trans; [apply Hd; nia|].
    apply Ho; nia.
Qed.

Context (count : Z) (valid : Z -> bool) (e : Z)
        (body : Z -> bytes -> result bytes).
Hypothesis Hcount : 0 <= count.
Hypothesis Hbody : forall i out, 0 <= i < count ->
  base + count * size <= blen out ->
  body i out = if valid i
               then Ok (write_window out (base + i * size) size (g i))
               else Err e.

(** Agreement on a run of windows is agreement on each. *)
Lemma windows_agree (out out' : bytes) :
  (forall i, 0 <= i < count -> agree out out' (base + i * size) size) ->
  agree out out' base (count * size).
Proof.
  intros H k Hk. assert (size <> 0) by nia.
  pose proof (Z.div_mod (k - base) size) as Hdm.
  pose proof (Z.mod_pos_bound (k - base) size).
  apply (H ((k - base) / size)); [|lia].
  split; [apply Z.div_pos; lia|]. apply Z.div_lt_upper_bound; lia.
Qed.

Lemma for_windows_ok out :
  base + count * size <= blen out ->
  (forall i, 0 <= i < count -> valid i = true) ->
  exists out', for_loop count body out = Ok out' /\ windows count out out'.
Proof.
  intros Hb Hv. apply (for_loop_ok (fun n => windows n out)); [done| |].
  - intros i t Hi Ht. pose proof (proj1 Ht). rewrite Hbody, Hv by (done || lia).
    eexists. split; [done|]. apply windows_step; [lia|nia|done].
  - split_and!; [done|intros; lia|intros; apply agree_refl].
Qed.

Lemma for_windows_inv out out' :
  base + count * size <= blen out ->
  for_loop count body out = Ok out' ->
  (forall i, 0 <= i < count -> valid i = true) /\ windows count out out'.
Proof.
  intros Hb H.
  assert (Hv : forall i, 0 <= i < count -> valid i = true).
  { apply (for_loop_inv
             (fun n t => blen t = blen out /\
                forall i, 0 <= i < n -> valid i = true)
             body count out out' Hcount); [|split; [done|intros; lia]|done].
    intros i t t' Hi [Hl Hlt] E. rewrite Hbody in E by (done || lia).
    destruct (valid i) eqn:Ev; [|discriminate]. injection E as <-. split.
    - unfold write_window. by rewrite blen_wr_bytes.
    - intros j Hj. destruct (decide (j = i)) as [->|]; [done|apply Hlt; lia]. }
  destruct (for_windows_ok out Hb Hv) as (u & Hu & Hw).
  split; [done|]. rewrite H in Hu. by injection Hu as ->.
Qed.
End windows.

(** ** Arrays *)

Lemma length_fill_from {A} n (f : Z -> A) : forall k arr,
  length (fill_from n k f arr) = length arr.
Proof.
  induction n as [|n IH]; intros k arr; cbn; [done|].
  by rewrite IH, length_insert.
Qed.

Lemma lookup_fill_from {A} n (f : Z -> A) : forall k arr j,
  (k + n <= length arr)%nat ->
  fill_from n k f arr !! j =
    if decide (k <= j < k + n)%nat then Some (f (Z.of_nat j)) else arr !! j.
Proof.
  induction n as [|n IH]; intros k arr j Hl; cbn.
  - rewrite decide_False by lia. done.
  - rewrite IH by (rewrite length_insert; lia).
    destruct (decide (j = k)) as [->|Hne].
    + rewrite decide_False, decide_True by lia. apply list_lookup_insert_eq. lia.
    + rewrite list_lookup_insert_ne by done.
      destruct (decide (S k <= j < S k + n)%nat).
      * by rewrite decide_True by lia.
      * by rewrite decide_False by lia.
Qed.

Lemma elt_lookup {A} (zero : A) arr i :
  elt zero arr i = default zero (arr !! Z.to_nat i).
Proof. unfold elt. apply nth_lookup. Qed.

Lemma lookup_elt {A} (zero : A) arr j :
  (j < length arr)%nat -> arr !! j = Some (elt zero arr (Z.of_nat j)).
Proof.
  intros Hj. rewrite elt_lookup, Nat2Z.id.
  destruct (lookup_lt_is_Some_2 arr j Hj) as [x Hx]. by rewrite Hx.
Qed.

Lemma lookup_keep {A} count (zero : A) arr j :
  0 <= count <= Z.of_nat (length arr) ->
  keep count zero arr !! j =
    if decide (Z.of_nat j < count) then arr !! j
    else if decide (j < length arr)%nat then Some zero else None.
Proof.
  intros Hc. unfold keep. destruct (decide (Z.of_nat j < count)).
  - rewrite lookup_app_l by (rewrite length_take; lia).
    apply lookup_take_lt. lia.
  - rewrite lookup_app_r by (rewrite length_take; lia).
    rewrite length_take. case_decide.
    + rewrite lookup_replicate_2; [done|lia].
    + apply lookup_replicate_None. lia.
Qed.

Lemma length_keep {A} count (zero : A) arr :
  0 <= count <= Z.of_nat (length arr) ->
  length (keep count zero arr) = length arr.
Proof.
  intros. unfold keep. rewrite length_app, length_take, length_replicate. lia.
Qed.

(** A decoder's loop gives back the counted part of the array. *)
Lemma fill_array_keep {A} count (f : Z -> A) zero arr n :
  0 <= count <= Z.of_nat (length arr) -> n = length arr ->
  (forall i, 0 <= i < count -> f i = elt zero arr i) ->
  fill_array count f (replicate n zero) = keep count zero arr.
Proof.
  intros Hc -> Hf. apply list_eq. intros j.
  unfold fill_array. rewrite lookup_fill_from by (rewrite length_replicate; lia).
  rewrite lookup_keep by done.
  destruct (decide (Z.of_nat j < count)).
  - rewrite decide_True by lia. rewrite Hf by lia. symmetry. apply lookup_elt. lia.
  - rewrite decide_False by lia. case_decide.
    + rewrite lookup_replicate_2; [done|lia].
    + apply lookup_replicate_None. lia.
Qed.

Lemma elt_fill_array {A} count (f : Z -> A) zero n i :
  0 <= i < count -> count <= Z.of_nat n ->
  elt zero (fill_array count f (replicate n zero)) i = f i.
Proof.
  intros Hi Hn. rewrite elt_lookup. unfold fill_array.
  rewrite lookup_fill_from by (rewrite length_replicate; lia).
  rewrite decide_True by lia. cbn. f_equal. lia.
Qed.

Lemma array_rep_fill {A} count (f : Z -> A) zero (rep : A -> bool) n :
  0 <= count <= Z.of_nat n -> rep zero = true ->
  (forall i, 0 <= i < count -> rep (f i) = true) ->
  array_rep (Z.of_nat n) rep (fill_array count f (replicate n zero)) = true.
Proof.
  intros Hc Hz Hf. unfold array_rep, fill_array.
  rewrite length_fill_from, length_replicate, Z.eqb_refl. cbn [andb].
  apply forallb_forall. intros x Hx.
  apply list_elem_of_In, list_elem_of_lookup in Hx as [j Hj].
  rewrite lookup_fill_from in Hj by (rewrite length_replicate; lia).
  case_decide; [simplify_eq; apply Hf; lia|].
  apply lookup_replicate in Hj as [-> _]. done.
Qed.

Lemma array_rep_length {A} size (rep : A -> bool) arr :
  array_rep size rep arr = true -> Z.of_nat (length arr) = size.
Proof. unfold array_rep. intros [H%Z.eqb_eq _]%andb_true_iff. done. Qed.

Lemma array_rep_elt {A} size (rep : A -> bool) zero arr i :
  array_rep size rep arr = true -> 0 <= i < size -> rep (elt zero arr i) = true.
Proof.
  unfold array_rep. intros [Hl%Z.eqb_eq Hf]%andb_true_iff Hi.
  rewrite forallb_forall in Hf. apply Hf. unfold elt. apply nth_In. lia.
Qed.

Lemma keep_fill_array {A} count (f : Z -> A) zero n :
  0 <= count <= Z.of_nat n ->
  keep count zero (fill_array count f (replicate n zero)) =
  fill_array count f (replicate n zero).
Proof.
  intros Hc. apply list_eq. intros j. unfold fill_array.
  rewrite lookup_keep by (rewrite length_fill_from, length_replicate; lia).
  rewrite lookup_fill_from, length_fill_from, length_replicate
    by (rewrite length_replicate; lia).
  destruct (decide (Z.of_nat j < count)); [by rewrite decide_True by lia|].
  rewrite (decide_False (P := (0 <= j < _)%nat)) by lia.
  case_decide; [by rewrite lookup_replicate_2|].
  symmetry. apply lookup_replicate_None. lia.
Qed.

(** ** Cleared bytes *)

Lemma bytes_are_zero_spec p n :
  bytes_are_zero p n = true <-> (forall i, 0 <= i < n -> rd8 p i = 0).
Proof.
  unfold bytes_are_zero. rewrite for_all_spec.
  split; intros H i Hi; specialize (H i Hi); lia.
Qed.

Lemma bytes_are_zero_agree p q n :
  agree p q 0 n -> bytes_are_zero p n = bytes_are_zero q n.
Proof. intros H. apply for_all_ext. intros i Hi. by rewrite (H i) by lia. Qed.

Lemma bytes_are_zero_cleared p n :
  bytes_are_zero p n = true <-> agree p (blank n) 0 n.
Proof.
  rewrite bytes_are_zero_spec. unfold agree, blank.
  split; intros H i Hi; specialize (H i Hi); rewrite rd8_replicate0 in *; lia.
Qed.

Lemma bytes_are_zero_blank n k : bytes_are_zero (blank k) n = true.
Proof. apply bytes_are_zero_spec. intros. apply rd8_replicate0. Qed.

Lemma memset0_blank n : 0 <= n -> memset0 (blank n) 0 n = blank n.
Proof.
  intros Hn. apply rd8_ext.
  - pose proof (blen_memset0 (blank n) 0 n). unfold blen in *. lia.
  - rewrite blen_memset0, blen_blank by done. intros i Hi.
    rewrite rd8_memset0 by (rewrite ?blen_blank; lia).
    unfold blank. by rewrite rd8_replicate0.
Qed.

Lemma blen_put_words ws : forall b i, blen (put_words b i ws) = blen b.
Proof.
  induction ws as [|w ws IH]; intros b i; cbn; [done|].
  by rewrite IH, blen_put_u32.
Qed.
#[export] Hint Rewrite blen_put_words : blen.

Lemma length_get_words p i n : length (get_words p i n) = n.
Proof. revert i. induction n as [|n IH]; intros i; cbn; by rewrite ?IH. Qed.

(** ** Constants

    [zconst] evaluates the closed sums, products and conversions that
    unfolding a helper at a fixed offset leaves behind. *)
Ltac z_literal a := lazymatch a with Z0 => idtac | Zpos _ => idtac | Zneg _ => idtac end.
Ltac z_short a :=
  z_literal a; lazymatch eval vm_compute in (a <=? 100) with true => idtac end.
Ltac zconst_of t k := let c := eval vm_compute in t in k c.
Ltac zconst :=
  repeat match goal with
  | |- context [(?a + ?b)%Z] => z_literal a; z_literal b;
      zconst_of (a + b) ltac:(fun c => change (a + b) with c)
  | |- context [(?a * ?b)%Z] => z_literal a; z_literal b;
      zconst_of (a * b) ltac:(fun c => change (a * b) with c)
  | |- context [Z.to_nat ?a] => z_short a;
      zconst_of (Z.to_nat a) ltac:(fun c => change (Z.to_nat a) with c)
  | H : context [(?a + ?b)%Z] |- _ => z_literal a; z_literal b;
      zconst_of (a + b) ltac:(fun c => change (a + b) with c in H)
  | H : context [(?a * ?b)%Z] |- _ => z_literal a; z_literal b;
      zconst_of (a * b) ltac:(fun c => change (a * b) with c in H)
  | H : context [Z.to_nat ?a] |- _ => z_short a;
      zconst_of (Z.to_nat a) ltac:(fun c => change (Z.to_nat a) with c in H)
  end.

(** [(int32_t)bvb_wire_get_u32(...)] is the signed read. *)
Ltac fold_i32 :=
  repeat match goal with
  | |- context [i32 (bvb_wire_get_u32 ?b ?i)] =>
      change (i32 (bvb_wire_get_u32 b i)) with (bvb_wire_get_i32 b i)
  end.
