(* ===== verification/Transport.v ===== *)
(** * Transport: packets over a stream socket

    Models [bvb_transport_receive*] and [bvb_transport_send*] of
    src/transport.c.  A packet is a header of fixed size and the payload the
    header announces; the first chunk of it can carry file descriptors.  The
    kernel moves bytes in chunks of its choice, interrupts calls and closes
    connections: the bytes in flight are a list, and how each call is served
    is an argument ([kernel]).  A call for which nothing is left blocks, and
    the model is [None].  Whatever the chunks, packets arrive as they were
    sent, and no descriptor is lost. *)

From stdpp Require Import base list.
From S2P Require Import Prelude Wire Abi Codec ProtocolBase Window.

#[local] Open Scope list_scope.

Abbreviation EINTR := 4 (only parsing).
Abbreviation EPIPE := 32 (only parsing).
Abbreviation BVB_TRANSPORT_EOF := 1 (only parsing).
Abbreviation BVB_TRANSPORT_MAX_FDS := 8 (only parsing).
Abbreviation SOL_SOCKET := 1 (only parsing).
Abbreviation SCM_RIGHTS := 1 (only parsing).

(** [CMSG_LEN(n)]: the header of an ancillary message is 16 bytes. *)
Definition CMSG_LEN (n : Z) : Z := 16 + n.

(** ** Packets *)

Record bvb_protocol_packet := mk_packet {
  pk_header : bvb_protocol_header;
  pk_payload : bytes
}.

Abbreviation opcode p := (p.(pk_header).(hdr_opcode)).
Abbreviation payload_length p := (p.(pk_header).(hdr_payload_length)).

(** ** The kernel *)

(** How it serves one call: it moves about [n] bytes, or it fails. *)
Inductive kernel :=
| Moves (n : Z)
| Fails (errno : Z).

(** What [recv] gives when [available] bytes are in flight and [room] are
    asked for: at least one, unless the peer has closed its end. *)
Definition received_count (n available room : Z) : Z :=
  Z.min available (Z.min room (Z.max 1 n)).

(** ** Receiving bytes *)

(** The loop of [receive_exact], from [offset]; with the outcome it returns
    the bytes still in flight and how the next calls will be served. *)
Fixpoint receive_loop (calls : list kernel) (stream output : bytes)
    (offset length : Z) (clean_eof_allowed : bool) :
    option (result bytes * (bytes * list kernel)) :=
  if offset <? length then
    match calls with
    | [] => None
    | Moves n :: calls =>
        let received := received_count n (blen stream) (length - offset) in
        if 0 <? received then
          receive_loop calls (stream +! received)
            (wr_bytes output offset (rd_bytes stream 0 received))
            (offset + received) length clean_eof_allowed
        else
          Some (Err (if clean_eof_allowed && (offset =? 0)
                     then BVB_TRANSPORT_EOF else - EPROTO), (stream, calls))
    | Fails errno :: calls =>
        if negb (errno =? EINTR) then Some (Err (- errno), (stream, calls))
        else receive_loop calls stream output offset length clean_eof_allowed
    end
  else Some (Ok output, (stream, calls)).

Definition receive_exact (calls : list kernel) (stream output : bytes)
    (length : Z) (clean_eof_allowed : bool) :
    option (result bytes * (bytes * list kernel)) :=
  receive_loop calls stream output 0 length clean_eof_allowed.

(** The [do]-[while] around [recvmsg]: the first chunk of a packet, at most
    [room] bytes. *)
Fixpoint receive_first (calls : list kernel) (stream : bytes) (room : Z) :
    option (result bytes * (bytes * list kernel)) :=
  match calls with
  | [] => None
  | Moves n :: calls =>
      let received := received_count n (blen stream) room in
      if received =? 0 then Some (Err BVB_TRANSPORT_EOF, (stream, calls))
      else Some (Ok (rd_bytes stream 0 received),
                 (stream +! received, calls))
  | Fails errno :: calls =>
      if errno =? EINTR then receive_first calls stream room
      else Some (Err (- errno), (stream, calls))
  end.

(** ** Receiving descriptors *)

(** One ancillary message; [cm_data] are the integers at [CMSG_DATA]. *)
Record cmsghdr := mk_cmsghdr {
  cmsg_level : Z;
  cmsg_type : Z;
  cmsg_len : Z;
  cm_data : list Z
}.

(** What comes with the first chunk; [an_truncated] is
    [(msg_flags & (MSG_CTRUNC | MSG_TRUNC)) != 0]. *)
Record ancillary := mk_ancillary {
  an_truncated : bool;
  an_messages : list cmsghdr
}.

(** The variables of the loop over the ancillary messages, and the
    descriptors that were closed. *)
Record rights := mk_rights {
  rt_received_fds : list Z;
  rt_received_fd_count : Z;
  rt_ancillary_invalid : bool;
  rt_closed : list Z
}.

(** The integers one message carries. *)
Definition carried (header : cmsghdr) : list Z :=
  take (Z.to_nat ((header.(cmsg_len) - CMSG_LEN 0) / 4)) header.(cm_data).

Definition is_open (fd : Z) : bool := 0 <=? fd.

(** One turn of the loop. *)
Definition take_message (fd_capacity : Z) (r : rights) (header : cmsghdr) :
    rights :=
  if negb (header.(cmsg_level) =? SOL_SOCKET) ||
     negb (header.(cmsg_type) =? SCM_RIGHTS) ||
     (header.(cmsg_len) <? CMSG_LEN 0)
  then mk_rights r.(rt_received_fds) r.(rt_received_fd_count) true
         r.(rt_closed)
  else
    let descriptor_bytes := header.(cmsg_len) - CMSG_LEN 0 in
    let descriptor_count := descriptor_bytes / 4 in
    if negb (descriptor_bytes mod 4 =? 0) ||
       (fd_capacity - r.(rt_received_fd_count) <? descriptor_count)
    then mk_rights r.(rt_received_fds) r.(rt_received_fd_count) true
           (r.(rt_closed) ++ List.filter is_open (carried header))
    else mk_rights
           (list_inserts (Z.to_nat r.(rt_received_fd_count)) (carried header)
              r.(rt_received_fds))
           (r.(rt_received_fd_count) + descriptor_count)
           r.(rt_ancillary_invalid) r.(rt_closed).

(** The loops that close what was received. *)
Definition close_received (r : rights) : rights :=
  let received := take (Z.to_nat r.(rt_received_fd_count)) r.(rt_received_fds)
    in
  mk_rights
    (((fun fd => if is_open fd then -1 else fd) <$> received) ++
     drop (Z.to_nat r.(rt_received_fd_count)) r.(rt_received_fds))
    0 r.(rt_ancillary_invalid)
    (r.(rt_closed) ++ List.filter is_open received).

(** ** Receiving a packet *)

(** The packet and the descriptors, those that were closed, and what is left
    of the stream. *)
Definition bvb_transport_receive_fds (socket_fd : Z)
    (packet : ptr bvb_protocol_packet) (received_fds : ptr (list Z))
    (fd_capacity : Z) (received_fd_count : ptr Z) (control : ancillary)
    (calls : list kernel) (stream : bytes) :
    option (result bvb_protocol_packet * rights * (bytes * list kernel)) :=
  let unchanged := mk_rights (default [] received_fds)
    (default 0 received_fd_count) false [] in
  match packet, received_fds, received_fd_count with
  | Some packet, Some received_fds, Some _ =>
      if (socket_fd <? 0) || (fd_capacity =? 0) ||
         (BVB_TRANSPORT_MAX_FDS <? fd_capacity)
      then Some (Err (- EINVAL), unchanged, (stream, calls))
      else
        let none := mk_rights
          (list_inserts 0 (replicate (Z.to_nat fd_capacity) (-1)) received_fds)
          0 false [] in
        match receive_first calls stream BVB_PROTOCOL_HEADER_SIZE with
        | None => None
        | Some (Err status, after) => Some (Err status, none, after)
        | Some (Ok chunk, (stream, calls)) =>
            let r := fold_left (take_message fd_capacity)
              control.(an_messages)
              (mk_rights none.(rt_received_fds) 0 control.(an_truncated) []) in
            let header_bytes := blen chunk in
            if r.(rt_ancillary_invalid) then
              Some (Err (- EPROTO), close_received r, (stream, calls))
            else if BVB_PROTOCOL_HEADER_SIZE <? header_bytes then
              Some (Err (- EPROTO), close_received r, (stream, calls))
            else
              let wire_header :=
                wr_bytes (blank BVB_PROTOCOL_HEADER_SIZE) 0 chunk in
              match
                (if header_bytes <? BVB_PROTOCOL_HEADER_SIZE
                 then receive_exact calls stream (wire_header +! header_bytes)
                        (BVB_PROTOCOL_HEADER_SIZE - header_bytes) false
                 else Some (Ok [], (stream, calls)))
              with
              | None => None
              | Some (Err status, after) =>
                  Some (Err status, close_received r, after)
              | Some (Ok tail, (stream, calls)) =>
                  let wire_header := wr_bytes wire_header header_bytes tail in
                  match bvb_protocol_decode_header (Some wire_header)
                          (Some packet.(pk_header)) with
                  | Err status =>
                      Some (Err status, close_received r, (stream, calls))
                  | Ok header =>
                      match receive_exact calls stream packet.(pk_payload)
                              header.(hdr_payload_length) false with
                      | None => None
                      | Some (Err status, after) =>
                          Some (Err status, close_received r, after)
                      | Some (Ok payload, after) =>
                          Some (Ok (mk_packet header payload), r, after)
                      end
                  end
              end
        end
  | _, _, _ => Some (Err (- EINVAL), unchanged, (stream, calls))
  end.

(** [received_fd] is the one variable the descriptor goes to. *)
Definition bvb_transport_receive_fd (socket_fd : Z)
    (packet : ptr bvb_protocol_packet) (received_fd : ptr Z)
    (control : ancillary) (calls : list kernel) (stream : bytes) :
    option (result bvb_protocol_packet * rights * (bytes * list kernel)) :=
  match received_fd with
  | None => Some (Err (- EINVAL), mk_rights [] 0 false [], (stream, calls))
  | Some fd =>
      bvb_transport_receive_fds socket_fd packet (Some [fd]) 1 (Some 0)
        control calls stream
  end.

Definition bvb_transport_receive (socket_fd : Z)
    (packet : ptr bvb_protocol_packet) (control : ancillary)
    (calls : list kernel) (stream : bytes) :
    option (result bvb_protocol_packet * rights * (bytes * list kernel)) :=
  match bvb_transport_receive_fd socket_fd packet (Some (-1)) control calls
          stream with
  | None => None
  | Some (Err status, r, after) => Some (Err status, r, after)
  | Some (Ok packet, r, after) =>
      let descriptor := elt (-1) r.(rt_received_fds) 0 in
      if is_open descriptor then
        Some (Err (- EPROTO), close_received r, after)
      else Some (Ok packet, r, after)
  end.

(** ** Sending *)

(** [send] moves at most [room] bytes, perhaps none. *)
Definition sent_count (n room : Z) : Z := Z.min room (Z.max 0 n).

(** The loop of [send_exact]; [stream] is what has been sent. *)
Fixpoint send_loop (calls : list kernel) (input : bytes) (offset length : Z)
    (stream : bytes) : option (result unit * (bytes * list kernel)) :=
  if offset <? length then
    match calls with
    | [] => None
    | Moves n :: calls =>
        let sent := sent_count n (length - offset) in
        if 0 <? sent then
          send_loop calls input (offset + sent) length
            (stream ++ rd_bytes input offset sent)
        else Some (Err (- EPIPE), (stream, calls))
    | Fails errno :: calls =>
        if negb (errno =? EINTR) then Some (Err (- errno), (stream, calls))
        else send_loop calls input offset length stream
    end
  else Some (Ok tt, (stream, calls)).

Definition send_exact (calls : list kernel) (input : bytes) (length : Z)
    (stream : bytes) : option (result unit * (bytes * list kernel)) :=
  send_loop calls input 0 length stream.

(** The bytes of a packet. *)
Definition wire_of (packet : bvb_protocol_packet) : result bytes :=
  try wire := bvb_protocol_encode_header
    (Some (blank (BVB_PROTOCOL_HEADER_SIZE + BVB_PROTOCOL_MAX_PAYLOAD)))
    (Some packet.(pk_header)) ;;
  Ok (if 0 <? payload_length packet
      then wr_bytes wire BVB_PROTOCOL_HEADER_SIZE
             (rd_bytes packet.(pk_payload) 0 (payload_length packet))
      else wire).

Definition bvb_transport_send (socket_fd : Z)
    (packet : ptr bvb_protocol_packet) (calls : list kernel)
    (stream : bytes) : option (result unit * (bytes * list kernel)) :=
  match packet with
  | None => Some (Err (- EINVAL), (stream, calls))
  | Some packet =>
      if socket_fd <? 0 then Some (Err (- EINVAL), (stream, calls))
      else match wire_of packet with
      | Err status => Some (Err status, (stream, calls))
      | Ok wire =>
          send_exact calls wire
            (BVB_PROTOCOL_HEADER_SIZE + payload_length packet) stream
      end
  end.

(** The [do]-[while] around [sendmsg]. *)
Fixpoint send_first (calls : list kernel) (wire : bytes) (length : Z)
    (stream : bytes) : option (result Z * (bytes * list kernel)) :=
  match calls with
  | [] => None
  | Moves n :: calls =>
      let sent := sent_count n length in
      if sent =? 0 then Some (Err (- EPIPE), (stream, calls))
      else Some (Ok sent, (stream ++ rd_bytes wire 0 sent, calls))
  | Fails errno :: calls =>
      if errno =? EINTR then send_first calls wire length stream
      else Some (Err (- errno), (stream, calls))
  end.

(** [valid fd] is [fcntl(fd, F_GETFD) >= 0].  The ancillary message travels
    with the first chunk. *)
Definition bvb_transport_send_fds (valid : Z -> bool) (socket_fd : Z)
    (packet : ptr bvb_protocol_packet) (passed_fds : ptr (list Z))
    (fd_count : Z) (calls : list kernel) (stream : bytes) :
    option (result unit * ptr ancillary * (bytes * list kernel)) :=
  match packet, passed_fds with
  | Some packet, Some passed_fds =>
      if (socket_fd <? 0) || (fd_count =? 0) ||
         (BVB_TRANSPORT_MAX_FDS <? fd_count) ||
         negb (for_all fd_count (fun index =>
           is_open (elt (-1) passed_fds index) &&
           valid (elt (-1) passed_fds index)))
      then Some (Err (- EINVAL), None, (stream, calls))
      else match wire_of packet with
      | Err status => Some (Err status, None, (stream, calls))
      | Ok wire =>
          let wire_length :=
            BVB_PROTOCOL_HEADER_SIZE + payload_length packet in
          let control := mk_ancillary false
            [mk_cmsghdr SOL_SOCKET SCM_RIGHTS (CMSG_LEN (4 * fd_count))
               (take (Z.to_nat fd_count) passed_fds)] in
          match send_first calls wire wire_length stream with
          | None => None
          | Some (Err status, after) => Some (Err status, None, after)
          | Some (Ok sent, (stream, calls)) =>
              if sent <? wire_length then
                match send_exact calls (wire +! sent) (wire_length - sent)
                        stream with
                | None => None
                | Some (status, after) => Some (status, Some control, after)
                end
              else
                Some (if sent =? wire_length then Ok tt else Err (- EPROTO),
                      Some control, (stream, calls))
          end
      end
  | _, _ => Some (Err (- EINVAL), None, (stream, calls))
  end.

Definition bvb_transport_send_fd (valid : Z -> bool) (socket_fd : Z)
    (packet : ptr bvb_protocol_packet) (passed_fd : Z) (calls : list kernel)
    (stream : bytes) :
    option (result unit * ptr ancillary * (bytes * list kernel)) :=
  bvb_transport_send_fds valid socket_fd packet (Some [passed_fd]) 1 calls
    stream.
