(* ===== verification/TransportTheorems.v ===== *)
(** * TransportTheorems: packets arrive as they were sent

    One process sends packets, one after the other, into a stream that
    another receives them from; the kernel cuts the stream as it likes on
    both sides.  What is received is what was sent, in order, and all of it
    if neither side is failed; the descriptors that come with a packet are
    handed over or closed. *)

From stdpp Require Import base list.
From S2P Require Import Prelude Wire Abi Codec ProtocolBase Window Transport.

#[local] Open Scope list_scope.

(** The kernel interrupts calls but does not fail them. *)
Definition served (calls : list kernel) : Prop :=
  Forall (fun k => match k with Moves _ => True | Fails e => e = EINTR end)
    calls.

(** How many calls it lets move something. *)
Fixpoint moves (calls : list kernel) : Z :=
  match calls with
  | [] => 0
  | Moves _ :: calls => 1 + moves calls
  | Fails _ :: calls => moves calls
  end.

(** ** Bytes in a row *)

Lemma rd_bytes_join b i n m :
  0 <= i -> 0 <= n -> 0 <= m ->
  rd_bytes b i n ++ rd_bytes b (i + n) m = rd_bytes b i (n + m).
Proof.
  intros. unfold rd_bytes.
  replace (Z.to_nat (i + n)) with (Z.to_nat i + Z.to_nat n)%nat by lia.
  replace (Z.to_nat (n + m)) with (Z.to_nat n + Z.to_nat m)%nat by lia.
  by rewrite <- drop_drop, take_take_drop.
Qed.

Lemma rd_bytes_0 b n : rd_bytes b 0 n = take (Z.to_nat n) b.
Proof. unfold rd_bytes. by rewrite drop_0. Qed.

Lemma wr_bytes_join output offset a b :
  0 <= offset -> wr_bytes (wr_bytes output offset a) (offset + blen a) b =
  wr_bytes output offset (a ++ b).
Proof.
  intros. unfold wr_bytes, blen. rewrite list_inserts_app_l.
  f_equal. lia.
Qed.

Lemma wr_bytes_full b l : blen l = blen b -> wr_bytes b 0 l = l.
Proof.
  unfold blen, wr_bytes. intros. rewrite <- (app_nil_r l) at 1.
  apply list_inserts_0_l. lia.
Qed.

(** ** Receiving a number of bytes *)

Lemma received_count_bounds n available room :
  0 <= available -> 0 < room ->
  0 <= received_count n available room <= available /\
  received_count n available room <= room /\
  (0 < available -> 0 < received_count n available room).
Proof. unfold received_count. lia. Qed.

(** What a loop that ends well has received. *)
Lemma receive_loop_sound calls stream output offset length clean out stream'
    calls' :
  0 <= offset <= length ->
  receive_loop calls stream output offset length clean =
    Some (Ok out, (stream', calls')) ->
  length - offset <= blen stream /\ stream' = stream +! (length - offset) /\
  out = wr_bytes output offset (rd_bytes stream 0 (length - offset)).
Proof.
  revert stream output offset.
  induction calls as [|[n|e] calls IH]; intros stream output offset Hb H;
    cbn [receive_loop] in H; destruct (Z.ltb_spec offset length); try done.
  all: try (injection H as <- <- <-; replace (length - offset) with 0 by lia;
    rewrite ptr_add_0; pose proof (blen_nonneg stream); by split_and!).
  - pose proof (blen_nonneg stream) as Hs.
    pose proof (received_count_bounds n (blen stream) (length - offset) Hs
      ltac:(lia)) as (Hr & Hr' & _).
    destruct (Z.ltb_spec 0 (received_count n (blen stream) (length - offset)));
      [|done].
    set (r := received_count _ _ _) in *.
    destruct (IH _ _ (offset + r) ltac:(lia) H) as (Hl & -> & ->).
    rewrite blen_ptr_add in Hl by lia. rewrite ptr_add_add by lia.
    split; [lia|]. split; [f_equal; lia|].
    rewrite <- (blen_rd_bytes stream 0 r) at 2 by lia.
    rewrite wr_bytes_join by lia. f_equal.
    replace (rd_bytes (stream +! r) 0 (length - (offset + r)))
      with (rd_bytes stream (0 + r) (length - (offset + r)))
      by (by rewrite rd_bytes_ptr_add by lia; f_equal; lia).
    rewrite rd_bytes_join by lia. f_equal. lia.
  - destruct (negb (e =? EINTR)); [done|]. by apply IH.
Qed.

(** A loop that is served and has enough bytes in flight does not fail, and
    blocks only when no call is left. *)
Lemma receive_loop_served calls stream output offset length clean :
  0 <= offset <= length -> served calls -> length - offset <= blen stream ->
  match receive_loop calls stream output offset length clean with
  | None => moves calls < length - offset
  | Some (Ok _, (_, calls')) =>
      served calls' /\ moves calls - (length - offset) <= moves calls'
  | Some (Err _, _) => False
  end.
Proof.
  revert stream output offset.
  induction calls as [|[n|e] calls IH]; intros stream output offset Hb Hc Hs;
    cbn [receive_loop moves]; destruct (Z.ltb_spec offset length);
    try (split; [done|cbn [moves]; lia]); [lia| |].
  - apply List.Forall_cons_iff in Hc as [_ Hc].
    pose proof (received_count_bounds n (blen stream) (length - offset)
      ltac:(lia) ltac:(lia)) as (Hr & Hr' & Hr'').
    destruct (Z.ltb_spec 0 (received_count n (blen stream) (length - offset)));
      [|lia].
    set (r := received_count _ _ _) in *.
    specialize (IH (stream +! r) (wr_bytes output offset (rd_bytes stream 0 r))
      (offset + r) ltac:(lia) Hc ltac:(rewrite blen_ptr_add by lia; lia)).
    destruct (receive_loop _ _ _ _ _ _) as [[[o|] [s c]]|]; [|done|lia].
    destruct IH. split; [done|lia].
  - apply List.Forall_cons_iff in Hc as [-> Hc]. by apply IH.
Qed.

Lemma receive_exact_sound calls stream output length clean out stream' calls' :
  0 <= length ->
  receive_exact calls stream output length clean =
    Some (Ok out, (stream', calls')) ->
  length <= blen stream /\ stream' = stream +! length /\
  out = wr_bytes output 0 (rd_bytes stream 0 length).
Proof.
  intros Hl H. apply receive_loop_sound in H; [|lia].
  by rewrite Z.sub_0_r in H.
Qed.

Lemma receive_exact_served calls stream output length clean :
  0 <= length -> served calls -> length <= blen stream ->
  match receive_exact calls stream output length clean with
  | None => moves calls < length
  | Some (Ok _, (_, calls')) =>
      served calls' /\ moves calls - length <= moves calls'
  | Some (Err _, _) => False
  end.
Proof.
  intros Hl Hc Hs.
  pose proof (receive_loop_served calls stream output 0 length clean
    ltac:(lia) Hc ltac:(lia)) as H. unfold receive_exact.
  by rewrite !Z.sub_0_r in H.
Qed.

(** The first chunk of a packet. *)
Lemma receive_first_sound calls stream room chunk stream' calls' :
  0 < room ->
  receive_first calls stream room = Some (Ok chunk, (stream', calls')) ->
  exists n, 0 < n <= room /\ n <= blen stream /\ chunk = rd_bytes stream 0 n /\
            stream' = stream +! n.
Proof.
  intros Hr. induction calls as [|[n|e] calls IH]; cbn; [done| |].
  - intros H. pose proof (blen_nonneg stream) as Hs.
    pose proof (received_count_bounds n (blen stream) room Hs Hr)
      as (? & ? & _).
    destruct (Z.eqb_spec (received_count n (blen stream) room) 0); [done|].
    injection H as <- <- <-. exists (received_count n (blen stream) room).
    split_and!; [lia|lia|lia|done|done].
  - destruct (e =? EINTR); [exact IH|done].
Qed.

Lemma receive_first_served calls stream room :
  0 < room -> served calls -> 0 < blen stream ->
  match receive_first calls stream room with
  | None => moves calls < 1
  | Some (Ok _, (_, calls')) => served calls' /\ moves calls - 1 <= moves calls'
  | Some (Err _, _) => False
  end.
Proof.
  intros Hr Hc Hs. induction calls as [|[n|e] calls IH]; cbn; [lia| |];
    apply List.Forall_cons_iff in Hc as [He Hc].
  - pose proof (received_count_bounds n (blen stream) room ltac:(lia) Hr)
      as (_ & _ & H). specialize (H Hs).
    destruct (Z.eqb_spec (received_count n (blen stream) room) 0); [lia|].
    split; [done|lia].
  - rewrite He. by apply IH.
Qed.

(** Once the peer has closed its end, there is no next packet. *)
Lemma receive_first_closed calls room :
  0 < room -> served calls -> 0 < moves calls ->
  exists after, receive_first calls [] room =
    Some (Err BVB_TRANSPORT_EOF, after).
Proof.
  intros Hr Hc Hm. induction calls as [|[n|e] calls IH]; cbn in *; [lia| |];
    apply List.Forall_cons_iff in Hc as [He Hc].
  - unfold received_count. change (blen []) with 0.
    replace (Z.min 0 (Z.min room (Z.max 1 n))) with 0 by lia. cbn. eauto.
  - rewrite He. by apply IH.
Qed.

(** ** Receiving packets *)

(** A call without descriptors. *)
Definition no_control : ancillary := mk_ancillary false [].

(** The header of 24 bytes in front of [stream]. *)
Definition header_of (stream : bytes) : result bvb_protocol_header :=
  bvb_protocol_decode_header
    (Some (rd_bytes stream 0 BVB_PROTOCOL_HEADER_SIZE))
    (Some (mk_bvb_protocol_header 0 0 0 0 0 0)).

(** The header decoder looks at nothing but its 24 bytes, nor at the record
    it fills. *)
Lemma decode_header_prefix a b old :
  rd_bytes a 0 BVB_PROTOCOL_HEADER_SIZE = rd_bytes b 0 BVB_PROTOCOL_HEADER_SIZE ->
  BVB_PROTOCOL_HEADER_SIZE <= blen a -> BVB_PROTOCOL_HEADER_SIZE <= blen b ->
  bvb_protocol_decode_header (Some a) (Some old) = header_of b.
Proof.
  intros E Ha Hb. unfold header_of. rewrite <- E.
  change (header_codec.(decode) (Some a) (Some old) =
    header_codec.(decode) (Some (rd_bytes a 0 BVB_PROTOCOL_HEADER_SIZE))
      (Some old)).
  apply decode_extent; cbn [codec_size header_codec]; [done| |].
  - rewrite blen_rd_bytes; lia.
  - intros k Hk. by rewrite rd_bytes_lookup by lia.
Qed.

Lemma header_of_bound stream h :
  BVB_PROTOCOL_HEADER_SIZE <= blen stream -> header_of stream = Ok h ->
  0 <= h.(hdr_payload_length) <= BVB_PROTOCOL_MAX_PAYLOAD.
Proof.
  intros Hl H. unfold header_of, bvb_protocol_decode_header in H.
  destruct (_ || _); [done|]. set (d := mk_bvb_protocol_header _ _ _ _ _ _) in H.
  destruct (header_is_valid (Some d)) as [[]|] eqn:E; [|done].
  injection H as <-. unfold d in *. cbn [hdr_payload_length].
  pose proof (proj1 (is_u32_spec _)
    (get_u32_range (rd_bytes stream 0 BVB_PROTOCOL_HEADER_SIZE) 16)) as Hr.
  split; [apply Hr|]. unfold header_is_valid in E. ok_path E.
  cbn [hdr_payload_length] in *. lia.
Qed.

(** What comes with the packet, sorted. *)
Definition sorted_rights (fd_capacity : Z) (received_fds : list Z)
    (control : ancillary) : rights :=
  fold_left (take_message fd_capacity) control.(an_messages)
    (mk_rights (list_inserts 0 (replicate (Z.to_nat fd_capacity) (-1))
       received_fds) 0 control.(an_truncated) []).

(** The rest of the header after the first [n] bytes of it. *)
Definition receive_header (calls : list kernel) (stream : bytes) (n : Z) :
    option (result bytes * (bytes * list kernel)) :=
  if n <? BVB_PROTOCOL_HEADER_SIZE
  then receive_exact calls (stream +! n)
         (wr_bytes (blank BVB_PROTOCOL_HEADER_SIZE) 0 (rd_bytes stream 0 n) +! n)
         (BVB_PROTOCOL_HEADER_SIZE - n) false
  else Some (Ok [], (stream +! n, calls)).

Lemma receive_header_sound calls stream n tail stream' calls' :
  0 < n <= BVB_PROTOCOL_HEADER_SIZE -> n <= blen stream ->
  receive_header calls stream n = Some (Ok tail, (stream', calls')) ->
  BVB_PROTOCOL_HEADER_SIZE <= blen stream /\
  stream' = stream +! BVB_PROTOCOL_HEADER_SIZE /\
  wr_bytes (wr_bytes (blank BVB_PROTOCOL_HEADER_SIZE) 0 (rd_bytes stream 0 n))
    n tail = rd_bytes stream 0 BVB_PROTOCOL_HEADER_SIZE.
Proof.
  unfold receive_header. intros Hn Hs H.
  set (wire := wr_bytes (blank _) 0 (rd_bytes stream 0 n)) in *.
  assert (Hw : blen wire = BVB_PROTOCOL_HEADER_SIZE)
    by (unfold wire; rewrite blen_wr_bytes, blen_blank; lia).
  assert (Hrow : BVB_PROTOCOL_HEADER_SIZE <= blen stream ->
    wr_bytes wire n (rd_bytes stream n (BVB_PROTOCOL_HEADER_SIZE - n)) =
    rd_bytes stream 0 BVB_PROTOCOL_HEADER_SIZE).
  { intros Hb. unfold wire.
    rewrite <- (blen_rd_bytes stream 0 n) at 2 by lia.
    rewrite wr_bytes_join, <- (Z.add_0_l n) at 1 by lia.
    rewrite rd_bytes_join by lia. rewrite wr_bytes_full; [f_equal; lia|].
    rewrite blen_rd_bytes, blen_blank; lia. }
  destruct (Z.ltb_spec n BVB_PROTOCOL_HEADER_SIZE).
  - apply receive_exact_sound in H as (Hl & -> & ->); [|lia].
    rewrite blen_ptr_add in Hl by lia. rewrite ptr_add_add by lia.
    split; [lia|]. split; [f_equal; lia|].
    rewrite wr_bytes_full.
    2: { rewrite blen_rd_bytes, blen_ptr_add by (rewrite ?blen_ptr_add; lia).
         lia. }
    rewrite rd_bytes_ptr_add by lia. rewrite Z.add_0_r. apply Hrow. lia.
  - injection H as <- <- <-. assert (n = BVB_PROTOCOL_HEADER_SIZE) as -> by lia.
    split; [lia|]. split; [done|]. by apply Hrow.
Qed.

(** A packet that was received is what the stream began with. *)
Lemma receive_fds_sound socket_fd old fds capacity count control calls stream
    p r stream' calls' :
  blen old.(pk_payload) = BVB_PROTOCOL_MAX_PAYLOAD ->
  bvb_transport_receive_fds socket_fd (Some old) (Some fds) capacity
    (Some count) control calls stream = Some (Ok p, r, (stream', calls')) ->
  let length := BVB_PROTOCOL_HEADER_SIZE + payload_length p in
  0 <= payload_length p <= BVB_PROTOCOL_MAX_PAYLOAD /\
  length <= blen stream /\ header_of stream = Ok p.(pk_header) /\
  p.(pk_payload) = wr_bytes old.(pk_payload) 0
    (rd_bytes stream BVB_PROTOCOL_HEADER_SIZE (payload_length p)) /\
  stream' = stream +! length /\ r = sorted_rights capacity fds control /\
  r.(rt_ancillary_invalid) = false.
Proof.
  intros Hold H length. unfold bvb_transport_receive_fds in H.
  destruct (_ || _); [done|].
  destruct (receive_first calls stream BVB_PROTOCOL_HEADER_SIZE)
    as [[[chunk|e] [s1 c1]]|] eqn:E1; [|done|done].
  fold (sorted_rights capacity fds control) in H.
  change (fold_left _ _ _) with (sorted_rights capacity fds control) in H.
  destruct (receive_first_sound _ _ BVB_PROTOCOL_HEADER_SIZE _ _ _ eq_refl E1)
    as (n & Hn & Hs & -> & ->).
  rewrite blen_rd_bytes in H by lia.
  destruct (rt_ancillary_invalid _) eqn:Hi; [done|].
  destruct (Z.ltb_spec BVB_PROTOCOL_HEADER_SIZE n); [lia|].
  fold (receive_header c1 stream n) in H.
  destruct (receive_header c1 stream n) as [[[tail|e] [s2 c2]]|] eqn:E2;
    [|done|done].
  destruct (receive_header_sound _ _ _ _ _ _ Hn Hs E2) as (Hl & -> & Hw).
  rewrite Hw in H.
  change (bvb_protocol_decode_header _ _) with (header_of stream) in H.
  destruct (header_of stream) as [h|e] eqn:Hh; [|done].
  pose proof (header_of_bound stream h Hl Hh) as Hb.
  destruct (receive_exact c2 _ _ _ _) as [[[payload|e] [s3 c3]]|] eqn:E3;
    [|done|done].
  apply receive_exact_sound in E3 as (Hp & -> & ->); [|lia].
  rewrite blen_ptr_add in Hp by lia. injection H as <- <- <- <-.
  unfold length. cbn [pk_header pk_payload].
  rewrite ptr_add_add, rd_bytes_ptr_add by lia.
  split_and!; try done; lia.
Qed.

Lemma receive_header_served calls stream n :
  0 < n <= BVB_PROTOCOL_HEADER_SIZE -> served calls ->
  BVB_PROTOCOL_HEADER_SIZE <= blen stream ->
  match receive_header calls stream n with
  | None => moves calls < BVB_PROTOCOL_HEADER_SIZE - n
  | Some (Ok _, (_, calls')) =>
      served calls' /\
      moves calls - (BVB_PROTOCOL_HEADER_SIZE - n) <= moves calls'
  | Some (Err _, _) => False
  end.
Proof.
  intros Hn Hc Hs. unfold receive_header.
  destruct (Z.ltb_spec n BVB_PROTOCOL_HEADER_SIZE); [|split; [done|lia]].
  apply receive_exact_served; [lia|done|]. rewrite blen_ptr_add; lia.
Qed.

(** A packet that is in flight as a whole is received, unless the kernel stops
    serving. *)
Lemma receive_fds_served socket_fd old fds capacity count control calls stream
    h :
  0 <= socket_fd -> 1 <= capacity <= BVB_TRANSPORT_MAX_FDS -> served calls ->
  (sorted_rights capacity fds control).(rt_ancillary_invalid) = false ->
  header_of stream = Ok h ->
  BVB_PROTOCOL_HEADER_SIZE + h.(hdr_payload_length) <= blen stream ->
  0 <= h.(hdr_payload_length) ->
  match bvb_transport_receive_fds socket_fd (Some old) (Some fds) capacity
          (Some count) control calls stream with
  | None => moves calls < BVB_PROTOCOL_HEADER_SIZE + h.(hdr_payload_length)
  | Some (Ok _, _, (_, calls')) =>
      served calls' /\
      moves calls - (BVB_PROTOCOL_HEADER_SIZE + h.(hdr_payload_length)) <=
        moves calls'
  | Some (Err _, _, _) => False
  end.
Proof.
  intros Hfd Hcap Hc Hi Hh Hl Hp. unfold bvb_transport_receive_fds.
  destruct (Z.ltb_spec socket_fd 0); [lia|].
  destruct (Z.eqb_spec capacity 0) as [|_]; [lia|].
  destruct (Z.ltb_spec BVB_TRANSPORT_MAX_FDS capacity); [lia|]. cbn [orb].
  pose proof (receive_first_served calls stream BVB_PROTOCOL_HEADER_SIZE
    eq_refl Hc ltac:(lia)) as H1.
  destruct (receive_first calls stream BVB_PROTOCOL_HEADER_SIZE)
    as [[[chunk|e] [s1 c1]]|] eqn:E1; [|done|lia].
  destruct (receive_first_sound _ _ BVB_PROTOCOL_HEADER_SIZE _ _ _ eq_refl E1)
    as (n & Hn & Hs & -> & ->). destruct H1 as [Hc1 Hm1].
  change (fold_left _ _ _) with (sorted_rights capacity fds control).
  rewrite Hi, blen_rd_bytes by lia.
  destruct (Z.ltb_spec BVB_PROTOCOL_HEADER_SIZE n); [lia|].
  fold (receive_header c1 stream n).
  pose proof (receive_header_served c1 stream n Hn Hc1 ltac:(lia)) as H2.
  destruct (receive_header c1 stream n) as [[[tail|e] [s2 c2]]|] eqn:E2;
    [|done|lia].
  destruct (receive_header_sound _ _ _ _ _ _ Hn Hs E2) as (_ & -> & Hw).
  destruct H2 as [Hc2 Hm2]. rewrite Hw.
  change (bvb_protocol_decode_header _ _) with (header_of stream). rewrite Hh.
  pose proof (receive_exact_served c2
    (stream +! BVB_PROTOCOL_HEADER_SIZE) old.(pk_payload)
    h.(hdr_payload_length) false Hp Hc2
    ltac:(rewrite blen_ptr_add; lia)) as H3.
  destruct (receive_exact _ _ _ _ _) as [[[payload|e] [s3 c3]]|];
    [|done|lia].
  destruct H3. split; [done|lia].
Qed.


(** ** The bytes of a packet *)

(** A packet a program can hold: fields of their widths, a whole payload
    array. *)
Definition well_typed (p : bvb_protocol_packet) : Prop :=
  hdr_rep p.(pk_header) = true /\
  blen p.(pk_payload) = BVB_PROTOCOL_MAX_PAYLOAD.

Definition packet_length (p : bvb_protocol_packet) : Z :=
  BVB_PROTOCOL_HEADER_SIZE + payload_length p.

Definition packet_bytes (p : bvb_protocol_packet) : bytes :=
  match wire_of p with
  | Ok wire => rd_bytes wire 0 (packet_length p)
  | Err _ => []
  end.

(** The parts of two packets that are sent agree. *)
Definition same_packet (p q : bvb_protocol_packet) : Prop :=
  p.(pk_header) = q.(pk_header) /\
  rd_bytes p.(pk_payload) 0 (payload_length p) =
    rd_bytes q.(pk_payload) 0 (payload_length q).

(** What is sent of a packet whose header can be encoded. *)
Lemma packet_bytes_spec p wire :
  well_typed p -> wire_of p = Ok wire ->
  0 <= payload_length p <= BVB_PROTOCOL_MAX_PAYLOAD /\
  packet_length p <= blen wire /\
  packet_bytes p = rd_bytes wire 0 (packet_length p) /\
  blen (packet_bytes p) = packet_length p /\
  header_of (packet_bytes p) = Ok p.(pk_header) /\
  rd_bytes (packet_bytes p) BVB_PROTOCOL_HEADER_SIZE (payload_length p) =
    rd_bytes p.(pk_payload) 0 (payload_length p).
Proof.
  intros [Hrep Hp] Hw. unfold packet_bytes. rewrite Hw.
  unfold wire_of in Hw.
  set (out := blank (BVB_PROTOCOL_HEADER_SIZE + BVB_PROTOCOL_MAX_PAYLOAD)) in *.
  assert (Hout : blen out = 4120) by (apply blen_blank; lia).
  destruct (bvb_protocol_encode_header (Some out) (Some (pk_header p)))
    as [w|] eqn:He; [|done].
  assert (Hlen : 0 <= payload_length p <= BVB_PROTOCOL_MAX_PAYLOAD).
  { pose proof He as Hv. unfold bvb_protocol_encode_header in Hv.
    destruct (header_is_valid (Some (pk_header p))) as [[]|] eqn:E; [|done].
    unfold header_is_valid in E. ok_path E.
    unfold hdr_rep, is_u32 in Hrep. lia. }
  pose proof (decode_encode (c := header_codec) out (pk_header p) w
    (mk_bvb_protocol_header 0 0 0 0 0 0) ltac:(cbn; lia) Hrep He) as Hd.
  destruct (encode_frame (c := header_codec) out (pk_header p) w
    He) as (Hbw & _). rewrite Hout in Hbw.
  assert (E : wire = if 0 <? payload_length p
    then wr_bytes w 24 (rd_bytes (pk_payload p) 0 (payload_length p)) else w)
    by congruence.
  assert (Hwire : blen wire = 4120).
  { rewrite E. destruct (0 <? _); [by rewrite blen_wr_bytes|done]. }
  assert (Hhead : rd_bytes wire 0 24 = rd_bytes w 0 24).
  { rewrite E. destruct (0 <? _); [|done].
    apply rd_bytes_agree; [rewrite ?blen_wr_bytes; lia..|].
    apply agree_wr_bytes. unfold disjoint. rewrite blen_rd_bytes; lia. }
  assert (Hbody : rd_bytes wire 24 (payload_length p) =
                  rd_bytes (pk_payload p) 0 (payload_length p)).
  { rewrite E. destruct (Z.ltb_spec 0 (payload_length p)).
    - rewrite rd_bytes_wr_bytes; [done|lia| |]; rewrite ?blen_rd_bytes; lia.
    - replace (payload_length p) with 0 by lia. done. }
  clear E. unfold packet_length. split_and!; try done; try lia.
  - rewrite blen_rd_bytes; lia.
  - rewrite <- Hd. symmetry. apply decode_header_prefix; [|lia|].
    + rewrite <- Hhead. symmetry. rewrite !rd_bytes_0, take_take. f_equal. lia.
    + rewrite blen_rd_bytes; lia.
  - rewrite <- Hbody. unfold rd_bytes. rewrite drop_0.
    rewrite skipn_firstn_comm, take_take. f_equal. lia.
Qed.

(** ** Sending *)

Lemma sent_count_bounds n room :
  0 < room -> 0 <= sent_count n room <= room.
Proof. unfold sent_count. lia. Qed.

(** What has been sent when the loop ends, well or not, is a beginning of what
    was to be sent. *)
Lemma send_loop_sound calls input offset length stream status stream' calls' :
  0 <= offset <= length ->
  send_loop calls input offset length stream = Some (status, (stream', calls')) ->
  exists k, 0 <= k <= length - offset /\
    stream' = stream ++ rd_bytes input offset k /\
    (status = Ok tt -> k = length - offset).
Proof.
  revert offset stream.
  assert (Hnone : forall offset stream, 0 <= offset <= length ->
    exists k, 0 <= k <= length - offset /\
      stream = stream ++ rd_bytes input offset k /\ k = 0).
  { intros o s Ho. exists 0. split; [lia|]. split; [|done].
    unfold rd_bytes. by rewrite take_0, app_nil_r. }
  induction calls as [|[n|e] calls IH]; intros offset stream Hb H;
    cbn [send_loop] in H; destruct (Z.ltb_spec offset length); try done.
  all: try (injection H as <- <- <-; destruct (Hnone offset stream Hb)
    as (k & ? & ? & ?); exists k; split; [lia|split; [done|lia]]).
  - pose proof (sent_count_bounds n (length - offset) ltac:(lia)) as Hr.
    destruct (Z.ltb_spec 0 (sent_count n (length - offset))).
    + set (r := sent_count _ _) in *.
      destruct (IH (offset + r) _ ltac:(lia) H) as (k & Hk & -> & Hs).
      exists (r + k). split; [lia|]. split; [|intros E; specialize (Hs E); lia].
      by rewrite <- rd_bytes_join, app_assoc by lia.
    + injection H as <- <- <-. destruct (Hnone offset stream Hb)
        as (k & ? & ? & ?). exists k. split; [lia|by split].
  - destruct (negb (e =? EINTR)); [|by apply IH].
    injection H as <- <- <-. destruct (Hnone offset stream Hb)
      as (k & ? & ? & ?). exists k. split; [lia|by split].
Qed.

(** A packet's bytes, or a beginning of them, are what a call sends. *)
Lemma send_sound socket_fd p calls stream status stream' calls' :
  well_typed p ->
  bvb_transport_send socket_fd (Some p) calls stream =
    Some (status, (stream', calls')) ->
  exists k, stream' = stream ++ take k (packet_bytes p) /\
    (status = Ok tt -> is_ok (wire_of p) = true /\
                       stream' = stream ++ packet_bytes p).
Proof.
  intros Hp H. cbn in H.
  assert (Hfail : forall e, status = Err e -> stream' = stream ->
    exists k, stream' = stream ++ take k (packet_bytes p) /\
      (status = Ok tt -> is_ok (wire_of p) = true /\
                         stream' = stream ++ packet_bytes p)).
  { intros e -> ->. exists 0%nat. split; [|done]. by rewrite take_0, app_nil_r. }
  destruct (socket_fd <? 0); [injection H as <- <- <-; by eapply Hfail|].
  destruct (wire_of p) as [w|e] eqn:Hw;
    [|injection H as <- <- <-; by eapply Hfail].
  destruct (packet_bytes_spec p w Hp Hw) as (Hl & Hb & Hpb & _).
  apply send_loop_sound in H as (k & Hk & -> & Hs); [|lia].
  exists (Z.to_nat k). rewrite Hpb, !rd_bytes_0, take_take.
  fold (packet_length p) in *. split.
  - do 2 f_equal. lia.
  - intros E. split; [done|]. rewrite (Hs E). do 2 f_equal. lia.
Qed.

(** Packets sent one after the other, until one fails. *)
Fixpoint send_packets (socket_fd : Z) (packets : list bvb_protocol_packet)
    (calls : list kernel) (stream : bytes) :
    option (result unit * (bytes * list kernel)) :=
  match packets with
  | [] => Some (Ok tt, (stream, calls))
  | p :: packets =>
      match bvb_transport_send socket_fd (Some p) calls stream with
      | Some (Ok _, (stream, calls)) =>
          send_packets socket_fd packets calls stream
      | other => other
      end
  end.

Definition wires (packets : list bvb_protocol_packet) : bytes :=
  List.concat (packet_bytes <$> packets).

Lemma wires_cons p packets :
  wires (p :: packets) = packet_bytes p ++ wires packets.
Proof. done. Qed.

(** A packet whose header can be encoded. *)
Definition sendable (p : bvb_protocol_packet) : Prop :=
  well_typed p /\ is_ok (wire_of p) = true.

Lemma send_packets_sound socket_fd packets calls stream status stream' calls' :
  Forall well_typed packets ->
  send_packets socket_fd packets calls stream =
    Some (status, (stream', calls')) ->
  exists j k, Forall sendable (take j packets) /\
    stream' = stream ++ take k (wires (take j packets)) /\
    (status = Ok tt -> j = length packets /\
       stream' = stream ++ wires packets).
Proof.
  revert calls stream. induction packets as [|p packets IH];
    intros calls stream Hp H; cbn [send_packets] in H.
  { injection H as <- <- <-. exists 0%nat, 0%nat. rewrite take_0, app_nil_r.
    split_and!; [constructor|done|]. intros _. split; [done|].
    by rewrite app_nil_r. }
  inversion_clear Hp as [|?? Hp1 Hps].
  destruct (bvb_transport_send socket_fd (Some p) calls stream)
    as [[st [s1 c1]]|] eqn:E; [|done].
  destruct (send_sound _ _ _ _ _ _ _ Hp1 E) as (k & Hk & Hok).
  destruct st as [[]|e].
  - destruct (Hok eq_refl) as [Hw ->]. clear Hk Hok.
    destruct (IH _ _ Hps H) as (j & k' & Hj & -> & Hdone).
    exists (S j), (length (packet_bytes p) + k')%nat. cbn [take].
    rewrite !wires_cons. split_and!; [|by rewrite take_app_add, app_assoc|].
    + constructor; [by split|done].
    + intros Es. destruct (Hdone Es) as [-> Hs]. split; [done|].
      by rewrite Hs, app_assoc.
  - injection H as <- <- <-.
    destruct (is_ok (wire_of p)) eqn:Hw.
    + exists 1%nat, k. cbn [take].
      rewrite take_0, wires_cons. cbn [wires fmap list_fmap List.concat].
      rewrite app_nil_r.
      split_and!; [|done|done]. constructor; [by split|constructor].
    + exists 0%nat, 0%nat. rewrite take_0. split_and!; [constructor| |done].
      rewrite Hk. unfold packet_bytes. destruct (wire_of p); [done|].
      by rewrite take_nil.
Qed.

(** ** Receiving *)

Lemma receive_sound socket_fd old calls stream p r stream' calls' :
  blen old.(pk_payload) = BVB_PROTOCOL_MAX_PAYLOAD ->
  bvb_transport_receive socket_fd (Some old) no_control calls stream =
    Some (Ok p, r, (stream', calls')) ->
  0 <= payload_length p <= BVB_PROTOCOL_MAX_PAYLOAD /\
  packet_length p <= blen stream /\ header_of stream = Ok p.(pk_header) /\
  rd_bytes p.(pk_payload) 0 (payload_length p) =
    rd_bytes stream BVB_PROTOCOL_HEADER_SIZE (payload_length p) /\
  stream' = stream +! packet_length p /\
  blen p.(pk_payload) = BVB_PROTOCOL_MAX_PAYLOAD.
Proof.
  intros Hold H. unfold bvb_transport_receive, bvb_transport_receive_fd in H.
  destruct (bvb_transport_receive_fds _ _ _ _ _ _ _ _)
    as [[[[q|e] r'] [s c]]|] eqn:E; [|done|done].
  destruct (is_open _); [done|]. injection H as -> <- <- <-.
  destruct (receive_fds_sound _ _ _ _ _ _ _ _ _ _ _ _ Hold E)
    as (Hl & Hs & Hh & Hp & -> & _).
  unfold packet_length. rewrite Hp, blen_wr_bytes. split_and!; try done; try lia.
  rewrite rd_bytes_wr_bytes; [done|lia| |]; rewrite ?blen_rd_bytes; lia.
Qed.

Lemma receive_served socket_fd old calls stream h :
  0 <= socket_fd -> served calls -> header_of stream = Ok h ->
  BVB_PROTOCOL_HEADER_SIZE + h.(hdr_payload_length) <= blen stream ->
  0 <= h.(hdr_payload_length) ->
  match bvb_transport_receive socket_fd (Some old) no_control calls stream with
  | None => moves calls < BVB_PROTOCOL_HEADER_SIZE + h.(hdr_payload_length)
  | Some (Ok _, _, (_, calls')) =>
      served calls' /\
      moves calls - (BVB_PROTOCOL_HEADER_SIZE + h.(hdr_payload_length)) <=
        moves calls'
  | Some (Err _, _, _) => False
  end.
Proof.
  intros Hfd Hc Hh Hl Hp.
  pose proof (receive_fds_served socket_fd old [-1] 1 0 no_control calls stream
    h Hfd ltac:(lia) Hc eq_refl Hh Hl Hp) as H.
  unfold bvb_transport_receive, bvb_transport_receive_fd.
  destruct (bvb_transport_receive_fds _ _ _ _ _ _ _ _)
    as [[[[q|e] r] [s c]]|] eqn:E; [|done|done].
  assert (r = sorted_rights 1 [-1] no_control) as ->; [|exact H].
  clear H. unfold bvb_transport_receive_fds in E. repeat case_match; try done;
    by injection E.
Qed.

(** The first packet of a stream that was sent, or of a beginning of it. *)
Lemma first_packet p rest k :
  sendable p ->
  let stream := take k (packet_bytes p ++ rest) in
  0 <= payload_length p <= BVB_PROTOCOL_MAX_PAYLOAD /\
  blen (packet_bytes p) = packet_length p /\
  (BVB_PROTOCOL_HEADER_SIZE <= blen stream ->
   header_of stream = Ok p.(pk_header)) /\
  (packet_length p <= blen stream ->
   rd_bytes stream BVB_PROTOCOL_HEADER_SIZE (payload_length p) =
     rd_bytes p.(pk_payload) 0 (payload_length p) /\
   stream +! packet_length p =
     take (k - Z.to_nat (packet_length p)) rest).
Proof.
  intros [Ht Hw] stream. destruct (wire_of p) as [w|] eqn:E; [|done].
  destruct (packet_bytes_spec p w Ht E) as (Hl & _ & _ & Hb & Hh & Hp).
  split; [done|]. split; [done|].
  assert (Hk : blen stream <= Z.of_nat k).
  { unfold stream, blen. rewrite length_take. lia. }
  assert (Htake : forall i n, 0 <= i -> 0 <= n -> i + n <= blen stream ->
    i + n <= packet_length p ->
    rd_bytes stream i n = rd_bytes (packet_bytes p) i n).
  { intros i n Hi Hn Hs Hpl. unfold rd_bytes, stream. rewrite skipn_firstn_comm, take_take.
    rewrite drop_app_le by (unfold blen in Hb; lia).
    rewrite take_app_le by (rewrite length_drop; unfold blen in Hb; lia).
    f_equal. lia. }
  unfold packet_length in *. split.
  - intros Hs. rewrite <- Hh. unfold header_of. f_equal. f_equal.
    apply Htake; lia.
  - intros Hs. split; [by rewrite Htake by lia|].
    unfold ptr_add, stream. rewrite skipn_firstn_comm, drop_app_ge.
    + f_equal. unfold blen in Hb. rewrite <- Hb, Nat2Z.id, Nat.sub_diag.
      by rewrite drop_0.
    + unfold blen in Hb. lia.
Qed.

(** Packets received one after the other, until a call fails or waits; the
    next packet is received into the memory of the last. *)
Fixpoint receive_packets (n : nat) (socket_fd : Z) (packet : bvb_protocol_packet)
    (calls : list kernel) (stream : bytes) :
    list bvb_protocol_packet * option Z :=
  match n with
  | O => ([], Some 0)
  | S n =>
      match bvb_transport_receive socket_fd (Some packet) no_control calls
              stream with
      | None => ([], None)
      | Some (Err status, _, _) => ([], Some status)
      | Some (Ok packet, _, (stream, calls)) =>
          let '(packets, outcome) :=
            receive_packets n socket_fd packet calls stream in
          (packet :: packets, outcome)
      end
  end.

(** From a beginning of what was sent, a beginning of the packets arrives. *)
Lemma receive_packets_prefix n socket_fd packets old calls k :
  Forall sendable packets ->
  blen old.(pk_payload) = BVB_PROTOCOL_MAX_PAYLOAD ->
  exists j, Forall2 same_packet
    (receive_packets n socket_fd old calls (take k (wires packets))).1
    (take j packets).
Proof.
  revert packets old calls k. induction n as [|n IH];
    intros packets old calls k Hp Hold; cbn [receive_packets].
  { exists 0%nat. constructor. }
  destruct (bvb_transport_receive _ _ _ _ _) as [[[[p|e] r] [s c]]|] eqn:E;
    try (exists 0%nat; constructor).
  destruct (receive_sound _ _ _ _ _ _ _ _ Hold E)
    as (Hl & Hb & Hh & Hpay & -> & Hold').
  destruct packets as [|q packets].
  { cbn [wires fmap list_fmap List.concat] in Hb. rewrite take_nil in Hb.
    unfold packet_length in Hb. change (blen []) with 0 in Hb. lia. }
  rewrite wires_cons in *. inversion_clear Hp as [|?? Hq Hqs].
  destruct (first_packet q (wires packets) k Hq) as (Hl' & Hlen & Hhd & Hbody).
  assert (Eh : p.(pk_header) = q.(pk_header)).
  { rewrite Hhd in Hh by (unfold packet_length in Hb; lia). congruence. }
  assert (El : packet_length p = packet_length q)
    by (unfold packet_length; by rewrite Eh).
  rewrite El in *. destruct (Hbody Hb) as [Ebody Erest]. rewrite Erest.
  destruct (IH packets p c (k - Z.to_nat (packet_length q))%nat Hqs Hold')
    as (j & Hj).
  destruct (receive_packets _ _ _ _ _) as [ps outcome]. exists (S j).
  cbn [take fst]. constructor; [|exact Hj]. split; [exact Eh|].
  rewrite Hpay, Eh. exact Ebody.
Qed.

(** From all of it, all of them, and then the end. *)
Lemma receive_packets_all n socket_fd packets old calls :
  Forall sendable packets -> 0 <= socket_fd -> served calls ->
  blen (wires packets) < moves calls -> (length packets < n)%nat ->
  blen old.(pk_payload) = BVB_PROTOCOL_MAX_PAYLOAD ->
  let '(received, outcome) :=
    receive_packets n socket_fd old calls (wires packets) in
  length received = length packets /\ outcome = Some BVB_TRANSPORT_EOF.
Proof.
  intros Hp Hfd. revert n old calls.
  induction packets as [|q packets IH]; intros n old calls Hc Hm Hn Hold;
    (destruct n as [|n]; [lia|]); cbn [receive_packets].
  - change (wires []) with (@nil byte) in *. change (blen []) with 0 in Hm.
    destruct (receive_first_closed calls BVB_PROTOCOL_HEADER_SIZE eq_refl Hc Hm)
      as (after & E).
    unfold bvb_transport_receive, bvb_transport_receive_fd,
      bvb_transport_receive_fds.
    destruct (Z.ltb_spec socket_fd 0); [lia|]. cbn [orb Z.eqb Z.ltb Z.compare].
    rewrite E. done.
  - rewrite wires_cons in *. inversion_clear Hp as [|?? Hq Hqs].
    set (stream := packet_bytes q ++ wires packets) in *.
    destruct (first_packet q (wires packets) (length stream) Hq)
      as (Hl & Hlen & Hhd & Hbody).
    fold stream in Hhd, Hbody. rewrite take_ge in Hhd, Hbody by lia.
    assert (Hs : blen stream = packet_length q + blen (wires packets))
      by (unfold stream, blen in *; rewrite length_app; lia).
    pose proof (blen_nonneg (wires packets)) as Hw.
    specialize (Hhd ltac:(unfold packet_length in Hs; lia)).
    destruct (Hbody ltac:(lia)) as [_ Erest].
    pose proof (receive_served socket_fd old calls stream q.(pk_header) Hfd Hc
      Hhd ltac:(unfold packet_length in Hs; lia) ltac:(lia)) as H.
    destruct (bvb_transport_receive _ _ _ _ _) as [[[[p|e] r] [s c]]|] eqn:E;
      [|done|unfold packet_length in Hs; lia].
    destruct H as [Hc' Hm'].
    destruct (receive_sound _ _ _ _ _ _ _ _ Hold E)
      as (_ & _ & Hh & _ & -> & Hold').
    assert (Ep : packet_length p = packet_length q)
      by (unfold packet_length; congruence).
    rewrite Ep, Erest, take_ge.
    2: { unfold stream. rewrite length_app. unfold blen in Hlen. lia. }
    specialize (IH Hqs n p c Hc' ltac:(unfold packet_length in *; lia)
      ltac:(cbn in Hn; lia) Hold').
    destruct (receive_packets _ _ _ _ _) as [ps outcome]. cbn [length].
    destruct IH as [-> ->]. done.
Qed.

(** ** Sequences of packets *)

(** The kernel takes something in every call it does not interrupt. *)
Definition flowing (calls : list kernel) : Prop :=
  Forall (fun k => match k with Moves n => 0 < n | Fails e => e = EINTR end)
    calls.

Lemma send_loop_flowing calls input offset length stream :
  0 <= offset <= length -> flowing calls -> length - offset <= moves calls ->
  exists stream' calls',
    send_loop calls input offset length stream = Some (Ok tt, (stream', calls')) /\
    flowing calls' /\ moves calls - (length - offset) <= moves calls'.
Proof.
  revert offset stream. induction calls as [|[n|e] calls IH];
    intros offset stream Hb Hc Hm; cbn [send_loop moves] in *;
    destruct (Z.ltb_spec offset length); try lia;
    try (eexists _, _; split; [done|split; [done|cbn [moves]; lia]]);
    apply List.Forall_cons_iff in Hc as [He Hc].
  - assert (Hr : 0 < sent_count n (length - offset) <= length - offset)
      by (unfold sent_count; lia).
    destruct (Z.ltb_spec 0 (sent_count n (length - offset))); [|lia].
    set (r := sent_count _ _) in *.
    destruct (IH (offset + r) (stream ++ rd_bytes input offset r) ltac:(lia) Hc
      ltac:(lia)) as (s & c & -> & ? & ?).
    exists s, c. split; [done|split; [done|lia]].
  - rewrite He. by apply IH.
Qed.

Lemma send_packets_flowing socket_fd packets calls stream :
  0 <= socket_fd -> Forall sendable packets -> flowing calls ->
  blen (wires packets) <= moves calls ->
  exists stream' calls',
    send_packets socket_fd packets calls stream = Some (Ok tt, (stream', calls')).
Proof.
  intros Hfd Hp. revert calls stream.
  induction packets as [|p packets IH]; intros calls stream Hc Hm; [eauto|].
  inversion_clear Hp as [|?? [Ht Hw] Hps].
  rewrite wires_cons in Hm. unfold blen in Hm. rewrite length_app in Hm.
  cbn [send_packets bvb_transport_send].
  destruct (Z.ltb_spec socket_fd 0); [lia|].
  destruct (wire_of p) as [w|] eqn:E; [|done].
  destruct (packet_bytes_spec p w Ht E) as (Hl & _ & _ & Hb & _).
  unfold send_exact. fold (packet_length p).
  destruct (send_loop_flowing calls w 0 (packet_length p) stream
    ltac:(unfold packet_length; lia) Hc ltac:(unfold blen in Hb; lia))
    as (s & c & -> & Hc' & Hm').
  apply IH; [done|done|]. unfold blen in *. lia.
Qed.

(** C32: packets sent one after the other over a stream socket and received
    from it one after the other, where the kernel may cut the stream anywhere
    on both sides, interrupt any call and fail any: what the receiver accepts
    are the packets that were sent, in that order, each with its header and
    its payload, even if the sender was stopped in the middle of one.  If
    calls are only interrupted and enough of them are served, every packet is
    sent, every packet is received, and then the receiver sees the clean end
    of the stream. *)
Theorem packets_travel (sender receiver : Z)
    (packets : list bvb_protocol_packet) (sends receives : list kernel)
    (old : bvb_protocol_packet) (n : nat)
    (Htyped : Forall well_typed packets)
    (Hold : blen old.(pk_payload) = BVB_PROTOCOL_MAX_PAYLOAD) :
  (forall status stream calls,
     send_packets sender packets sends [] = Some (status, (stream, calls)) ->
     exists j, Forall2 same_packet
       (receive_packets n receiver old receives stream).1 (take j packets)) /\
  (Forall sendable packets -> 0 <= sender -> 0 <= receiver ->
   flowing sends -> blen (wires packets) <= moves sends ->
   served receives -> blen (wires packets) < moves receives ->
   (length packets < n)%nat ->
   exists stream calls,
     send_packets sender packets sends [] = Some (Ok tt, (stream, calls)) /\
     let '(received, outcome) :=
       receive_packets n receiver old receives stream in
     Forall2 same_packet received packets /\ outcome = Some BVB_TRANSPORT_EOF).
Proof.
  split.
  - intros status stream calls H.
    destruct (send_packets_sound _ _ _ _ _ _ _ Htyped H)
      as (j & k & Hs & -> & _). cbn [app].
    destruct (receive_packets_prefix n receiver (take j packets) old receives k
      Hs Hold) as (i & Hi).
    exists (i `min` j)%nat. by rewrite <- take_take.
  - intros Hs Hsend Hrecv Hf Hm Hserved Hm' Hn.
    destruct (send_packets_flowing sender packets sends [] Hsend Hs Hf Hm)
      as (stream & calls & E). exists stream, calls. split; [done|].
    destruct (send_packets_sound _ _ _ _ _ _ _ Htyped E) as (j & k & _ & _ & H).
    destruct (H eq_refl) as [_ ->]. cbn [app].
    pose proof (receive_packets_all n receiver packets old receives Hs Hrecv
      Hserved Hm' Hn Hold) as Hall.
    destruct (receive_packets_prefix n receiver packets old receives
      (length (wires packets)) Hs Hold) as (i & Hi).
    rewrite take_ge in Hi by lia.
    destruct (receive_packets _ _ _ _ _) as [received outcome].
    destruct Hall as [Hlen ->]. split; [|done]. cbn [fst] in Hi.
    pose proof (Forall2_length Hi) as Hl. rewrite length_take in Hl.
    by rewrite take_ge in Hi by lia.
Qed.

(** ** Descriptors *)

(** The descriptors an ancillary message delivers. *)
Definition delivers (header : cmsghdr) : list Z :=
  if (header.(cmsg_level) =? SOL_SOCKET) &&
     (header.(cmsg_type) =? SCM_RIGHTS) &&
     (CMSG_LEN 0 <=? header.(cmsg_len))
  then List.filter is_open (carried header) else [].

Definition kept (r : rights) : list Z :=
  take (Z.to_nat r.(rt_received_fd_count)) r.(rt_received_fds).

(** What has been sorted so far: [room] places, those not filled are -1. *)
Record sorted (capacity : Z) (delivered : list Z) (r : rights) : Prop :=
    mk_sorted {
  st_count : 0 <= r.(rt_received_fd_count) <= capacity;
  st_room : capacity <= Z.of_nat (length r.(rt_received_fds));
  st_empty : forall i, r.(rt_received_fd_count) <= Z.of_nat i < capacity ->
    r.(rt_received_fds) !! i = Some (-1);
  st_all : List.filter is_open (kept r) ++ r.(rt_closed) ≡ₚ delivered
}.

Lemma list_inserts_split {A} (l k : list A) i :
  (i + length l <= length k)%nat ->
  list_inserts i l k = take i k ++ l ++ drop (i + length l) k.
Proof.
  intros H. rewrite <- (take_drop i k) at 1.
  replace i with (length (take i k) + 0)%nat at 1
    by (rewrite length_take; lia).
  rewrite list_inserts_app_r. f_equal.
  rewrite <- (take_drop (length l) (drop i k)).
  rewrite list_inserts_0_r by (rewrite length_take, length_drop; lia).
  f_equal. by rewrite drop_drop.
Qed.

Lemma filter_nothing l :
  (forall x, x ∈ l -> x = -1) -> List.filter is_open l = [].
Proof.
  induction l as [|x l IH]; intros H; [done|]. cbn.
  rewrite (H x) by constructor. cbn. apply IH. intros y Hy. apply H.
  by constructor.
Qed.

Lemma take_message_sorted capacity delivered r header :
  sorted capacity delivered r ->
  sorted capacity (delivered ++ delivers header)
    (take_message capacity r header).
Proof.
  intros []. unfold take_message, delivers.
  destruct (Z.eqb_spec (cmsg_level header) SOL_SOCKET); cbn [negb orb andb];
    [|by rewrite app_nil_r; constructor].
  destruct (Z.eqb_spec (cmsg_type header) SCM_RIGHTS); cbn [negb orb andb];
    [|by rewrite app_nil_r; constructor].
  destruct (Z.ltb_spec (cmsg_len header) (CMSG_LEN 0)); cbn [negb orb andb].
  { destruct (Z.leb_spec (CMSG_LEN 0) (cmsg_len header)); [lia|].
    rewrite app_nil_r. by constructor. }
  destruct (Z.leb_spec (CMSG_LEN 0) (cmsg_len header)); [|lia].
  set (n := (cmsg_len header - CMSG_LEN 0) / 4).
  assert (Hn : 0 <= n) by (apply Z.div_pos; lia).
  assert (Hc : Z.of_nat (length (carried header)) <= n).
  { unfold carried. rewrite length_take. fold n. lia. }
  destruct (_ || _) eqn:E.
  { constructor; cbn; try done. unfold kept. cbn.
    by rewrite app_assoc, st_all0. }
  apply orb_false_iff in E as [_ E]. apply Z.ltb_ge in E. fold n in E.
  set (count := Z.to_nat (rt_received_fd_count r)).
  assert (Hsplit : list_inserts count (carried header) (rt_received_fds r) =
    take count (rt_received_fds r) ++ carried header ++
    drop (count + length (carried header)) (rt_received_fds r))
    by (apply list_inserts_split; lia).
  constructor; cbn [rt_received_fds rt_received_fd_count rt_closed].
  - lia.
  - by rewrite length_inserts.
  - intros i Hi. rewrite Hsplit.
    rewrite lookup_app_r by (rewrite length_take; lia).
    rewrite lookup_app_r by (rewrite length_take; lia).
    rewrite lookup_drop, length_take. rewrite <- (st_empty0 i) by lia.
    f_equal. lia.
  - unfold kept. cbn [rt_received_fds rt_received_fd_count rt_closed].
    rewrite Hsplit. fold count.
    replace (Z.to_nat (rt_received_fd_count r + n))
      with (count + (length (carried header) +
                     (Z.to_nat n - length (carried header))))%nat by lia.
    rewrite take_app_add' by (rewrite length_take; lia).
    rewrite take_app_add, !List.filter_app.
    rewrite (filter_nothing (take (_ - _) _)), app_nil_r.
    2: { intros x (i & Hi)%list_elem_of_lookup.
         apply lookup_take_Some in Hi as [Hi Hl]. rewrite lookup_drop in Hi.
         rewrite st_empty0 in Hi by lia. congruence. }
    fold (kept r). rewrite <- st_all0, <- !app_assoc.
    apply Permutation_app_head, Permutation_app_comm.
Qed.

Lemma sorted_messages capacity messages delivered r :
  sorted capacity delivered r ->
  sorted capacity (delivered ++ List.concat (delivers <$> messages))
    (fold_left (take_message capacity) messages r).
Proof.
  revert delivered r. induction messages as [|m messages IH]; intros d r H; cbn.
  - by rewrite app_nil_r.
  - rewrite app_assoc. by apply IH, take_message_sorted.
Qed.

Lemma take_message_valid capacity r header :
  (take_message capacity r header).(rt_ancillary_invalid) = false ->
  r.(rt_ancillary_invalid) = false /\
  (take_message capacity r header).(rt_closed) = r.(rt_closed).
Proof. unfold take_message. by repeat case_match. Qed.

Lemma messages_valid capacity messages r :
  (fold_left (take_message capacity) messages r).(rt_ancillary_invalid) = false ->
  (fold_left (take_message capacity) messages r).(rt_closed) = r.(rt_closed).
Proof.
  enough (H : forall r,
    (fold_left (take_message capacity) messages r).(rt_ancillary_invalid) =
      false -> r.(rt_ancillary_invalid) = false /\
    (fold_left (take_message capacity) messages r).(rt_closed) =
      r.(rt_closed)) by apply H.
  induction messages as [|m messages IH]; intros r' H; [done|]. cbn in *.
  destruct (IH _ H) as [Hv ->]. by apply take_message_valid.
Qed.

Lemma sorted_rights_sorted capacity fds control :
  1 <= capacity <= Z.of_nat (length fds) ->
  sorted capacity (List.concat (delivers <$> control.(an_messages)))
    (sorted_rights capacity fds control).
Proof.
  intros Hc. unfold sorted_rights. rewrite <- (app_nil_l (List.concat _)).
  apply sorted_messages. constructor; cbn.
  - lia.
  - rewrite length_inserts. lia.
  - intros i Hi. rewrite list_inserts_split by (rewrite length_replicate; lia).
    rewrite take_0, app_nil_l, lookup_app_l by (rewrite length_replicate; lia).
    apply lookup_replicate_2. lia.
  - done.
Qed.

Lemma take_message_room capacity r header :
  length (take_message capacity r header).(rt_received_fds) =
  length r.(rt_received_fds).
Proof.
  unfold take_message. do 2 (destruct (_ || _); [done|]).
  apply length_inserts.
Qed.

Lemma sorted_rights_room capacity fds control :
  length (sorted_rights capacity fds control).(rt_received_fds) = length fds.
Proof.
  assert (H : forall messages r, length (fold_left (take_message capacity)
    messages r).(rt_received_fds) = length r.(rt_received_fds)).
  { induction messages as [|m messages IH]; intros r; [done|]. cbn.
    by rewrite IH, take_message_room. }
  unfold sorted_rights. rewrite H. apply length_inserts.
Qed.

Lemma negative_not_open fd : is_open (if is_open fd then -1 else fd) = false.
Proof. by destruct (is_open fd) eqn:E. Qed.

(** Closing what was received. *)
Lemma close_received_spec capacity delivered r :
  sorted capacity delivered r ->
  let r' := close_received r in
  r'.(rt_received_fd_count) = 0 /\ r'.(rt_closed) ≡ₚ delivered /\
  length r'.(rt_received_fds) = length r.(rt_received_fds) /\
  Forall (fun fd => is_open fd = false)
    (take (Z.to_nat capacity) r'.(rt_received_fds)).
Proof.
  intros [Hc Hr He Ha] r'. unfold r', close_received. cbn.
  set (n := Z.to_nat (rt_received_fd_count r)) in *.
  fold (kept r) in Ha |- *. split; [done|].
  split; [by rewrite <- Ha; apply Permutation_app_comm|]. split.
  - rewrite length_app, length_fmap, length_drop. unfold kept. fold n.
    rewrite length_take. lia.
  - apply Forall_forall. intros fd (i & Hi)%list_elem_of_In%list_elem_of_lookup.
    apply lookup_take_Some in Hi as [Hi Hl].
    apply lookup_app_Some in Hi as [Hi|[Hge Hi]].
    + apply list_lookup_fmap_Some in Hi as (x & -> & _).
      apply negative_not_open.
    + rewrite length_fmap, length_take, Nat.min_l in * by lia.
      rewrite lookup_drop, He in Hi by lia. by injection Hi as <-.
Qed.

(** How a receiving call ends. *)
Lemma receive_fds_ends socket_fd old fds capacity count control calls stream
    outcome r after :
  0 <= socket_fd -> 1 <= capacity <= BVB_TRANSPORT_MAX_FDS ->
  bvb_transport_receive_fds socket_fd (Some old) (Some fds) capacity
    (Some count) control calls stream = Some (outcome, r, after) ->
  match receive_first calls stream BVB_PROTOCOL_HEADER_SIZE with
  | None => False
  | Some (Err _, _) =>
      is_ok outcome = false /\
      r = sorted_rights capacity fds (mk_ancillary false [])
  | Some (Ok _, _) =>
      let s := sorted_rights capacity fds control in
      (is_ok outcome = true /\ r = s /\ s.(rt_ancillary_invalid) = false) \/
      (is_ok outcome = false /\ r = close_received s)
  end.
Proof.
  intros Hs Hc H. unfold bvb_transport_receive_fds in H.
  destruct (Z.ltb_spec socket_fd 0); [lia|].
  destruct (Z.eqb_spec capacity 0) as [|_]; [lia|].
  destruct (Z.ltb_spec BVB_TRANSPORT_MAX_FDS capacity); [lia|].
  cbn [orb] in H.
  destruct (receive_first calls stream BVB_PROTOCOL_HEADER_SIZE)
    as [[[chunk|e] [s1 c1]]|]; [|by injection H as <- <- <-|done].
  change (fold_left _ _ _) with (sorted_rights capacity fds control) in H.
  destruct (rt_ancillary_invalid (sorted_rights capacity fds control)) eqn:Hi;
    [injection H as <- <- <-; by right|].
  repeat case_match; try done; injection H as <- <- <-; auto.
Qed.

(** C37: every descriptor that arrives with a packet is accounted for, once:
    those handed to the caller and those the call closed are together the
    descriptors of the messages that came with the first chunk.  A call that
    succeeds hands all of them over and closes none; a call that fails, for
    whatever reason and at whatever point, hands over none, and leaves no
    descriptor in the caller's array.  The array never holds more than it has
    room for. *)
Theorem descriptors_are_accounted_for socket_fd old fds capacity count control
    calls stream outcome r after
    (Hsocket : 0 <= socket_fd) (Hcapacity : 1 <= capacity <= BVB_TRANSPORT_MAX_FDS)
    (Hroom : capacity <= Z.of_nat (length fds))
    (Hreceive : bvb_transport_receive_fds socket_fd (Some old) (Some fds)
       capacity (Some count) control calls stream = Some (outcome, r, after)) :
  let arrived :=
    match receive_first calls stream BVB_PROTOCOL_HEADER_SIZE with
    | Some (Ok _, _) => List.concat (delivers <$> control.(an_messages))
    | _ => []
    end in
  List.filter is_open (kept r) ++ r.(rt_closed) ≡ₚ arrived /\
  0 <= r.(rt_received_fd_count) <= capacity /\
  length r.(rt_received_fds) = length fds /\
  (is_ok outcome = true -> r.(rt_closed) = []) /\
  (is_ok outcome = false ->
     kept r = [] /\ Forall (fun fd => is_open fd = false)
                      (take (Z.to_nat capacity) r.(rt_received_fds))).
Proof.
  pose proof (receive_fds_ends _ _ _ _ _ _ _ _ _ _ _ Hsocket Hcapacity Hreceive)
    as Hend. clear Hreceive.
  destruct (receive_first calls stream BVB_PROTOCOL_HEADER_SIZE)
    as [[[chunk|e] [s1 c1]]|]; [|clear control|done].
  - pose proof (sorted_rights_sorted capacity fds control ltac:(lia)) as Hsort.
    destruct Hend as [(Hok & -> & Hv)|(Hok & ->)]; rewrite Hok.
    + split_and!; try apply Hsort; [apply sorted_rights_room| |done]. intros _.
      exact (messages_valid _ _ _ Hv).
    + destruct (close_received_spec _ _ _ Hsort) as (E0 & Hcl & El & Hf).
      unfold kept. rewrite E0, take_0. cbn [List.filter app].
      split_and!; try done; try lia. rewrite El. apply sorted_rights_room.
  - destruct Hend as [Hok ->]. rewrite Hok.
    pose proof (sorted_rights_sorted capacity fds (mk_ancillary false [])
      ltac:(lia)) as Hsort.
    split_and!; try apply Hsort; [apply sorted_rights_room|done|]. intros _. split; [done|].
    apply Forall_forall. intros fd (i & Hi)%list_elem_of_In%list_elem_of_lookup.
    apply lookup_take_Some in Hi as [Hi Hl].
    rewrite (st_empty _ _ _ Hsort) in Hi; [by injection Hi as <-|].
    change (rt_received_fd_count _) with 0. lia.
Qed.

(** ** An example

    Two packets of eight bytes of payload, sent seven bytes at a time and
    received five bytes at a time, with interruptions. *)

Definition sample_packet (opcode : Z) (payload : bytes) : bvb_protocol_packet :=
  mk_packet (mk_bvb_protocol_header BVB_PROTOCOL_VERSION BVB_PROTOCOL_REQUEST
               opcode 7 8 0)
    (wr_bytes (blank BVB_PROTOCOL_MAX_PAYLOAD) 0 payload).

Definition sample_packets : list bvb_protocol_packet :=
  [sample_packet 1 (replicate 8 Byte.x01); sample_packet 2 (replicate 8 Byte.x02)].

Definition sample_sends : list kernel :=
  List.concat (replicate 64 [Moves 7; Fails EINTR]).
Definition sample_receives : list kernel :=
  List.concat (replicate 65 [Fails EINTR; Moves 5]).

Example sample_arrives :
  match send_packets 3 sample_packets sample_sends [] with
  | Some (Ok _, (stream, _)) =>
      let '(received, outcome) := receive_packets 3 4 (sample_packet 0 [])
        sample_receives stream in
      ((fun p => (opcode p, rd_bytes p.(pk_payload) 0 8)) <$> received, outcome)
  | _ => ([], None)
  end = ([(1, replicate 8 Byte.x01); (2, replicate 8 Byte.x02)],
         Some BVB_TRANSPORT_EOF).
Proof. vm_compute. reflexivity. Qed.

Lemma packets_travel_witness :
  exists stream calls,
    send_packets 3 sample_packets sample_sends [] =
      Some (Ok tt, (stream, calls)) /\
    let '(received, outcome) :=
      receive_packets 3 4 (sample_packet 0 []) sample_receives stream in
    Forall2 same_packet received sample_packets /\
    outcome = Some BVB_TRANSPORT_EOF.
Proof.
  assert (Ht : Forall well_typed sample_packets)
    by (repeat (apply List.Forall_cons; [split; vm_compute; reflexivity|]);
        apply List.Forall_nil).
  apply (packets_travel 3 4 sample_packets sample_sends sample_receives
           (sample_packet 0 []) 3 Ht ltac:(vm_compute; reflexivity)).
  - repeat (apply List.Forall_cons;
      [split; [split; vm_compute; reflexivity|vm_compute; reflexivity]|]).
    apply List.Forall_nil.
  - lia.
  - lia.
  - repeat (apply List.Forall_cons; [vm_compute; reflexivity|]).
    apply List.Forall_nil.
  - vm_compute. discriminate.
  - repeat (apply List.Forall_cons; [vm_compute; first [reflexivity|exact I]|]).
    apply List.Forall_nil.
  - vm_compute. reflexivity.
  - cbn. lia.
Defined.

(** Two descriptors come with a packet where one is expected. *)
Definition two_descriptors : ancillary :=
  mk_ancillary false [mk_cmsghdr SOL_SOCKET SCM_RIGHTS (CMSG_LEN 8) [5; 6]].

Lemma descriptors_are_accounted_for_witness :
  exists r after,
    bvb_transport_receive_fds 3 (Some (sample_packet 0 [])) (Some [0]) 1 (Some 0)
      two_descriptors [Moves 24] (wires sample_packets) =
      Some (Err (- EPROTO), r, after) /\
    List.filter is_open (kept r) ++ r.(rt_closed) ≡ₚ [5; 6] /\ kept r = [].
Proof.
  destruct (bvb_transport_receive_fds 3 (Some (sample_packet 0 [])) (Some [0]) 1
    (Some 0) two_descriptors [Moves 24] (wires sample_packets))
    as [[[outcome r] after]|] eqn:E; [|vm_compute in E; discriminate E].
  exists r, after.
  destruct (descriptors_are_accounted_for 3 (sample_packet 0 []) [0] 1 0
    two_descriptors [Moves 24] (wires sample_packets) outcome r after
    ltac:(lia) ltac:(lia) ltac:(cbn; lia) E) as (Hp & _ & _ & _ & Hf).
  assert (Ho : outcome = Err (- EPROTO))
    by (vm_compute in E; injection E as <- _ _; reflexivity).
  subst outcome. split; [reflexivity|]. split; [exact Hp|].
  apply Hf. reflexivity.
Defined.
