(* ===== verification/Element.v ===== *)
(** * Element: counted arrays of fixed-size records

    Most payloads of src/command_batch.c carry a count and an array of
    encoded structures.  [element] packs the encoder and decoder of one
    structure through a pointer to its bytes, the class [Lawful_element] is
    what they promise each other, and the section [array] lifts it to the
    loops that write and read [count] of them at [base]: what an accepted
    command writes is read back, and what is read from an accepted payload is
    written back byte for byte. *)

From S2P Require Import Prelude Wire Codec Window.

(** [el_pad] holds of the bytes whose unused positions are zero. *)
Record element (T : Type) := mk_element {
  el_size : Z;
  el_zero : T;
  el_rep : T -> bool;
  el_pad : bytes -> bool;
  el_encode : bytes -> T -> bytes;
  el_decode : bytes -> T
}.
Arguments mk_element {T}.
Arguments el_size {T}.
Arguments el_zero {T}.
Arguments el_rep {T}.
Arguments el_pad {T}.
Arguments el_encode {T}.
Arguments el_decode {T}.

(** The element's bytes are written over cleared ones. *)
Class LawfulElement {T} (E : element T) : Prop := {
  el_size_pos : 0 <= E.(el_size);
  el_zero_rep : E.(el_rep) E.(el_zero) = true;
  el_length w v : blen (E.(el_encode) w v) = blen w;
  el_read w v q :
    blen w = E.(el_size) -> agree w (blank E.(el_size)) 0 E.(el_size) ->
    E.(el_rep) v = true -> agree q (E.(el_encode) w v) 0 E.(el_size) ->
    E.(el_decode) q = v /\ E.(el_pad) q = true;
  el_decode_rep q : E.(el_rep) (E.(el_decode) q) = true;
  el_write w q :
    blen w = E.(el_size) -> agree w (blank E.(el_size)) 0 E.(el_size) ->
    E.(el_pad) q = true ->
    agree (E.(el_encode) w (E.(el_decode) q)) q 0 E.(el_size)
}.

Lemma get_u32_cleared w n j :
  agree w (blank n) 0 n -> 0 <= j -> j + 4 <= n -> bvb_wire_get_u32 w j = 0.
Proof.
  intros Hz Hj Hn. rewrite get_u32_sum, !Hz by lia.
  unfold blank. by rewrite !rd8_replicate0.
Qed.

(** ** Two common elements *)

Definition u32_element : element Z :=
  {| el_size := 4; el_zero := 0; el_rep := is_u32; el_pad _ := true;
     el_encode w v := bvb_wire_put_u32 w 0 v;
     el_decode q := bvb_wire_get_u32 q 0 |}.

Definition u64_element : element Z :=
  {| el_size := 8; el_zero := 0; el_rep := is_u64; el_pad _ := true;
     el_encode w v := bvb_wire_put_u64 w 0 v;
     el_decode q := bvb_wire_get_u64 q 0 |}.

(** A fixed array, as its elements, and a nested structure, as its fields. *)
Ltac open_arrays :=
  repeat match goal with
  | H : array_rep ?n ?rep ?ws = true |- _ =>
      let L := fresh in
      pose proof (array_rep_length _ _ _ H) as L;
      unfold array_rep in H; apply andb_true_iff in H as [_ H];
      repeat (let w := fresh "w" in
              destruct ws as [|w ws]; cbn [length] in L; try lia);
      clear L; cbn [forallb] in H; split_tests
  end.
Ltac open_nested rep :=
  repeat match goal with
  | H : rep ?v = true |- _ =>
      is_var v; destruct v; unfold rep in H; cbn in H; split_tests
  end.

(** The helpers of an element's encoder and decoder, to be unfolded. *)
Create HintDb elements.
Ltac open_element :=
  autounfold with elements in *; cbn in *; zconst; cbn in *.

(** The padding was cleared before the element was written. *)
Ltac settle_pad w :=
  try match goal with
  | Hz : agree w (blank ?n) 0 ?n |- context [bvb_wire_get_u32 w ?j] =>
      rewrite (get_u32_cleared w n j Hz) by lia
  end; reflexivity.
Ltac pose_pad w :=
  try match goal with
  | Hz : agree w (blank ?n) 0 ?n, Hq : (bvb_wire_get_u32 _ ?j =? 0) = true
    |- _ => pose proof (get_u32_cleared w n j Hz ltac:(lia) ltac:(lia))
  end.

Ltac solve_element_with nested :=
  constructor; cbn;
  [ autounfold with elements; lia
  | vm_compute; reflexivity
  | intros; autounfold with elements; cbv zeta; autorewrite with blen;
    reflexivity
  | intros w v q Hw Hz Hv Ha; destruct_rec v; open_rep Hv; cbn in *;
    split_tests; open_arrays; nested; open_element;
    split; [|try reflexivity]; extent_read Ha; wire_read;
    rewrite ?i32_u32 by assumption; settle_pad w
  | intros q; open_element; try open_rep_goal; autounfold with elements;
    unfold array_rep; cbn;
    rewrite ?get_u32_range, ?get_u64_range, ?i32_range; reflexivity
  | intros w q Hw Hz Hq; open_element; split_tests; fold_i32; pose_pad w; agree_words ].
Tactic Notation "solve_element" := solve_element_with idtac.
Tactic Notation "solve_element" "with" tactic3(nested) :=
  solve_element_with nested.

#[export] Instance u32_element_lawful : LawfulElement u32_element.
Proof. solve_element. Qed.

#[export] Instance u64_element_lawful : LawfulElement u64_element.
Proof. solve_element. Qed.

(** ** Arrays of elements *)

Section array.
Context {T} (E : element T) `{!LawfulElement E}.
Context (base count len : Z) (ok : Z -> bool) (e : Z).
Hypothesis Hbase : 0 <= base.
Hypothesis Hcount : 0 <= count.
Hypothesis Hlen : base + count * E.(el_size) <= len.

Let at_ (i : Z) : Z := base + i * E.(el_size).

(** The encoding loop, writing the elements [arr i]. *)
Definition encodes (arr : Z -> T) (body : Z -> bytes -> result bytes) :
    Prop :=
  forall i out, 0 <= i < count ->
    body i out =
      if ok i
      then Ok (write_window out (at_ i) E.(el_size)
                 (fun w => E.(el_encode) w (arr i)))
      else Err e.

Definition cleared (out : bytes) : Prop :=
  blen out = len /\ agree out (blank len) base (count * E.(el_size)).

Lemma cleared_window out i :
  cleared out -> 0 <= i < count ->
  blen (rd_bytes out (at_ i) E.(el_size)) = E.(el_size) /\
  agree (rd_bytes out (at_ i) E.(el_size)) (blank E.(el_size)) 0
    E.(el_size).
Proof.
  intros [Hl Hz] Hi. pose proof el_size_pos as Hs. split.
  - apply blen_rd_bytes; unfold at_; nia.
  - intros k Hk. rewrite rd_bytes_lookup by (unfold at_; nia).
    rewrite Hz by (unfold at_; nia). unfold blank. by rewrite !rd8_replicate0.
Qed.

Lemma element_at out q v i :
  cleared out -> 0 <= i < count -> E.(el_rep) v = true ->
  agree (q +! at_ i)
    (E.(el_encode) (rd_bytes out (at_ i) E.(el_size)) v) 0 E.(el_size) ->
  E.(el_decode) (q +! at_ i) = v /\ E.(el_pad) (q +! at_ i) = true.
Proof.
  intros Hc Hi Hv Ha. destruct (cleared_window out i Hc Hi) as [Hw Hz].
  by apply (el_read _ v _ Hw Hz).
Qed.

(** What the loop wrote is what the decoder reads. *)
Lemma array_sound arr body out out' q :
  encodes arr body -> cleared out ->
  (forall i, 0 <= i < count -> ok i = true -> E.(el_rep) (arr i) = true) ->
  for_loop count body out = Ok out' ->
  agree q out' base (count * E.(el_size)) ->
  blen out' = len /\
  (forall j m, 0 <= j -> 0 <= m ->
     j + m <= base \/ base + count * E.(el_size) <= j ->
     agree out' out j m) /\
  (forall i, 0 <= i < count ->
     ok i = true /\ E.(el_decode) (q +! at_ i) = arr i /\
     E.(el_pad) (q +! at_ i) = true).
Proof.
  intros Hbody Hc Hrep Hrun Ha. pose proof el_size_pos as Hs.
  destruct (for_windows_inv base E.(el_size)
              (fun i w => E.(el_encode) w (arr i)) Hbase Hs
              ltac:(intros; cbv beta; by rewrite el_length)
              count ok e body Hcount (fun i o Hi _ => Hbody i o Hi) out out')
    as (Hv & Hl & Hw & Ho); [destruct Hc; lia|done|].
  split_and!; [by rewrite Hl; destruct Hc|done|].
  intros i Hi. split; [by apply Hv|].
  apply (element_at out); [done|done|apply Hrep; auto|].
  intros k Hk. specialize (Hw i Hi). cbv beta in Hw. fold (at_ i) in Hw.
  rewrite <- Hw.
  rewrite rd8_ptr_add, rd_bytes_lookup by (unfold at_; nia).
  apply Ha. unfold at_. nia.
Qed.

(** What the decoder reads, the loop writes back. *)
Lemma array_complete arr body out q :
  encodes arr body -> cleared out ->
  (forall i, 0 <= i < count ->
     arr i = E.(el_decode) (q +! at_ i) /\ ok i = true /\
     E.(el_pad) (q +! at_ i) = true) ->
  exists out',
    for_loop count body out = Ok out' /\ blen out' = len /\
    (forall j m, 0 <= j -> 0 <= m ->
       j + m <= base \/ base + count * E.(el_size) <= j ->
       agree out' out j m) /\
    agree out' q base (count * E.(el_size)).
Proof.
  intros Hbody Hc Hq. pose proof el_size_pos as Hs.
  destruct (for_windows_ok base E.(el_size)
              (fun i w => E.(el_encode) w (arr i)) Hbase Hs
              ltac:(intros; cbv beta; by rewrite el_length)
              count ok e body Hcount (fun i o Hi _ => Hbody i o Hi) out)
    as (out' & Hrun & Hl & Hw & Ho); [destruct Hc; lia|intros; by apply Hq|].
  exists out'. split_and!; [done|by rewrite Hl; destruct Hc|done|].
  apply windows_agree; [done|]. intros i Hi k Hk.
  destruct (cleared_window out i Hc Hi) as [Hwl Hwz].
  destruct (Hq i Hi) as (Harr & _ & Hpad).
  pose proof (el_write _ _ Hwl Hwz Hpad) as Hwr.
  specialize (Hw i Hi). cbv beta in Hw. fold (at_ i) in Hw, Hk.
  rewrite <- Harr, <- Hw in Hwr.
  assert (0 <= at_ i) by (unfold at_; nia).
  specialize (Hwr (k - at_ i)).
  rewrite rd_bytes_lookup, rd8_ptr_add, Zplus_minus in Hwr by lia.
  apply Hwr. lia.
Qed.
End array.

(** The array occupies [max] elements of the buffer and its list has [n]. *)
Section fixed_array.
Context {T} (E : element T) `{!LawfulElement E}.
Context (base count max len : Z) (n : nat) (ok : Z -> bool) (e : Z).
Hypothesis Hbase : 0 <= base.
Hypothesis Hcount : 0 <= count <= max.
Hypothesis Hn : count <= Z.of_nat n.
Hypothesis Hlen : base + max * E.(el_size) <= len.
Context (body : Z -> bytes -> result bytes) (out : bytes).
Hypothesis Hout : blen out = len.
Hypothesis Hzero : agree out (blank len) base (max * E.(el_size)).

Lemma cleared_count : cleared E base count len out.
Proof.
  pose proof el_size_pos. split; [done|].
  eapply agree_sub; [exact Hzero|lia|nia].
Qed.

Lemma fixed_array_sound arr out' :
  encodes E base count ok e (elt E.(el_zero) arr) body ->
  array_rep (Z.of_nat n) E.(el_rep) arr = true ->
  for_loop count body out = Ok out' ->
  blen out' = len /\
  (forall j m, 0 <= j -> 0 <= m ->
     j + m <= base \/ base + max * E.(el_size) <= j ->
     agree out' out j m) /\
  (forall q, agree q out' base (max * E.(el_size)) ->
     (forall i, 0 <= i < count ->
        ok i = true /\
        E.(el_decode) (q +! (base + i * E.(el_size))) =
          elt E.(el_zero) arr i /\
        E.(el_pad) (q +! (base + i * E.(el_size))) = true) /\
     (forall i, count <= i < max ->
        agree (q +! (base + i * E.(el_size))) (blank E.(el_size)) 0
          E.(el_size)) /\
     fill_array count
       (fun i => E.(el_decode) (q +! (base + i * E.(el_size))))
       (replicate n E.(el_zero)) = keep count E.(el_zero) arr).
Proof.
  intros Hbody Harr Hrun. pose proof el_size_pos as Hs.
  assert (Hsound : forall q, agree q out' base (count * E.(el_size)) -> _)
    by (intros q Hq; exact (array_sound E base count len ok e Hbase
          ltac:(lia) ltac:(nia) (elt E.(el_zero) arr) body out out' q Hbody
          cleared_count
          (fun i Hi _ => array_rep_elt (Z.of_nat n) _ _ _ i Harr
             ltac:(lia)) Hrun Hq)).
  destruct (Hsound out') as (Hl & Ho & _); [apply agree_refl|].
  split_and!; [done|intros; apply Ho; nia|].
  intros q Hq.
  destruct (Hsound q) as (_ & _ & Hel); [eapply agree_sub; [exact Hq|lia|nia]|].
  split_and!; [done| |].
  - intros i Hi k Hk. rewrite rd8_ptr_add, Hq by nia.
    rewrite (Ho (base + i * E.(el_size)) E.(el_size)) by nia.
    rewrite Hzero by nia. unfold blank. by rewrite !rd8_replicate0.
  - pose proof (array_rep_length _ _ _ Harr).
    apply fill_array_keep; [lia|lia|]. intros i Hi. by apply Hel.
Qed.

Lemma fixed_array_complete q :
  let arr := fill_array count
    (fun i => E.(el_decode) (q +! (base + i * E.(el_size))))
    (replicate n E.(el_zero)) in
  encodes E base count ok e (elt E.(el_zero) arr) body ->
  (forall i, 0 <= i < count ->
     ok i = true /\ E.(el_pad) (q +! (base + i * E.(el_size))) = true) ->
  (forall i, count <= i < max ->
     agree (q +! (base + i * E.(el_size))) (blank E.(el_size)) 0
       E.(el_size)) ->
  exists out',
    for_loop count body out = Ok out' /\ blen out' = len /\
    (forall j m, 0 <= j -> 0 <= m ->
       j + m <= base \/ base + max * E.(el_size) <= j ->
       agree out' out j m) /\
    agree out' q base (max * E.(el_size)) /\
    array_rep (Z.of_nat n) E.(el_rep) arr = true /\
    keep count E.(el_zero) arr = arr.
Proof.
  intros arr Hbody Hq Hrest. pose proof el_size_pos as Hs.
  destruct (array_complete E base count len ok e Hbase ltac:(lia) ltac:(nia)
              (elt E.(el_zero) arr) body out q Hbody cleared_count)
    as (out' & Hrun & Hl & Ho & Ha).
  { intros i Hi. split; [|by apply Hq]. unfold arr.
    by rewrite elt_fill_array by lia. }
  exists out'. split_and!; [done|done|intros; apply Ho; nia| | |].
  - intros k Hk. destruct (decide (k < base + count * E.(el_size))).
    + apply Ha. lia.
    + assert (E.(el_size) <> 0) by nia.
      set (i := (k - base) / E.(el_size)).
      pose proof (Z.div_mod (k - base) E.(el_size)) as Hdm.
      pose proof (Z.mod_pos_bound (k - base) E.(el_size)).
      assert (count <= i < max).
      { split; [apply Z.div_le_lower_bound; lia|].
        apply Z.div_lt_upper_bound; lia. }
      assert (0 <= i * E.(el_size)) by nia.
      specialize (Hrest i ltac:(done) (k - (base + i * E.(el_size)))).
      fold i in Hdm. rewrite rd8_ptr_add, Zplus_minus in Hrest by nia.
      rewrite Hrest by nia.
      rewrite (Ho k 1) by lia. rewrite Hzero by lia.
      unfold blank. by rewrite !rd8_replicate0.
  - apply array_rep_fill; [lia|apply el_zero_rep|intros; apply el_decode_rep].
  - apply keep_fill_array. lia.
Qed.
End fixed_array.

(** ** An element written only when a flag is set *)

Definition write_optional {T} (E : element T) (present base : Z) (v : T)
    (out : bytes) : bytes :=
  if negb (present =? 0)
  then write_window out base E.(el_size) (fun w => E.(el_encode) w v) else out.

Definition read_optional {T} (E : element T) (present : Z) (v : T) : T :=
  if negb (present =? 0) then v else E.(el_zero).

Lemma read_optional_idem {T} (E : element T) present v :
  read_optional E present (read_optional E present v) =
  read_optional E present v.
Proof. unfold read_optional. by destruct (negb (present =? 0)). Qed.

Lemma read_optional_rep {T} (E : element T) `{!LawfulElement E} present q :
  E.(el_rep) (read_optional E present (E.(el_decode) q)) = true.
Proof. unfold read_optional. case_match; [apply el_decode_rep|apply el_zero_rep]. Qed.

Section optional.
Context {T} (E : element T) `{!LawfulElement E} (present base len : Z).
Hypothesis Hbase : 0 <= base.
Hypothesis Hpresent : 0 <= present <= 1.
Hypothesis Hlen : base + E.(el_size) <= len.
Context (out : bytes).
Hypothesis Hout : blen out = len.
Hypothesis Hzero : agree out (blank len) base (1 * E.(el_size)).

Let body v := fun i out =>
  Ok (write_window out (base + i * E.(el_size)) E.(el_size)
        (fun w => E.(el_encode) w (elt E.(el_zero) [v] i))).

Lemma optional_loop v :
  for_loop present (body v) out = Ok (write_optional E present base v out).
Proof.
  assert (present = 0 \/ present = 1) as [-> | ->] by lia; [done|].
  unfold for_loop. change (Z.to_nat 1) with 1%nat. cbn [loop_from].
  unfold body. by rewrite Z.mul_0_l, Z.add_0_r.
Qed.

Lemma optional_array f :
  fill_array present f [E.(el_zero)] = [read_optional E present (f 0)].
Proof. by assert (present = 0 \/ present = 1) as [-> | ->] by lia. Qed.

Lemma optional_sound v :
  E.(el_rep) v = true ->
  blen (write_optional E present base v out) = len /\
  (forall j m, 0 <= j -> 0 <= m -> j + m <= base \/ base + E.(el_size) <= j ->
     agree (write_optional E present base v out) out j m) /\
  (forall q, agree q (write_optional E present base v out) base E.(el_size) ->
     (present <> 0 -> E.(el_decode) (q +! base) = v) /\
     (present = 0 ->
        agree (q +! base) (blank E.(el_size)) 0 E.(el_size)) /\
     read_optional E present (E.(el_decode) (q +! base)) =
       read_optional E present v).
Proof.
  intros Hv. pose proof el_size_pos as Hs.
  destruct (fixed_array_sound E base present 1 len 1 (fun _ => true) 0 Hbase
    ltac:(lia) ltac:(lia) ltac:(lia) (body v) out Hout Hzero [v] _
    ltac:(intros ? ? _; reflexivity)
    ltac:(unfold array_rep; cbn; by rewrite Hv) (optional_loop v))
    as (Hl & Ho & Hq).
  split_and!; [done|intros; apply Ho; lia|]. intros q Ha.
  destruct (Hq q) as (He & Hz & _); [by rewrite Z.mul_1_l|].
  assert (Hd : present <> 0 -> E.(el_decode) (q +! base) = v).
  { intros Hp. specialize (He 0 ltac:(lia)) as (_ & He & _).
    by rewrite Z.add_0_r in He. }
  split_and!; [done| |].
  - intros Hp. specialize (Hz 0 ltac:(lia)). by rewrite Z.add_0_r in Hz.
  - unfold read_optional. destruct (Z.eqb_spec present 0); [done|].
    by apply Hd.
Qed.

Lemma optional_complete q :
  let v := read_optional E present (E.(el_decode) (q +! base)) in
  (present <> 0 -> E.(el_pad) (q +! base) = true) ->
  (present = 0 -> agree (q +! base) (blank E.(el_size)) 0 E.(el_size)) ->
  blen (write_optional E present base v out) = len /\
  (forall j m, 0 <= j -> 0 <= m -> j + m <= base \/ base + E.(el_size) <= j ->
     agree (write_optional E present base v out) out j m) /\
  agree (write_optional E present base v out) q base E.(el_size).
Proof.
  intros v Hp Hz. pose proof el_size_pos as Hs.
  destruct (fixed_array_complete E base present 1 len 1 (fun _ => true) 0 Hbase
    ltac:(lia) ltac:(lia) ltac:(lia) (body v) out Hout Hzero q)
    as (out' & Hrun & Hl & Ho & Ha & _).
  - intros i o Hi. cbn -[Z.add Z.mul]. rewrite optional_array.
    unfold body, v. by rewrite Z.mul_0_l, Z.add_0_r.
  - intros i Hi. replace i with 0 by lia. rewrite Z.add_0_r.
    split; [done|apply Hp; lia].
  - intros i Hi. replace i with 0 by lia. rewrite Z.add_0_r. apply Hz. lia.
  - rewrite optional_loop in Hrun. injection Hrun as <-.
    split_and!; [done|intros; apply Ho; lia|by rewrite Z.mul_1_l in Ha].
Qed.
End optional.
