(* ===== verification/Frame.v ===== *)
(** * Frame: the contract of a message whose length varies

    Half of the messages with arrays or names of src/protocol.c have no fixed
    size: the encoder writes into a buffer of the payload's capacity and
    stores how much of it is used through [output_length]; the decoder is
    told how many bytes arrived.  [framed] packs the two models, [LawfulFrame]
    and [CanonicalFrame] are what the two ends of the wire may rely on, and
    the sections prove the common layouts once: a prefix of words followed by
    an array of records, and a prefix followed by raw bytes. *)

From S2P Require Import Prelude Wire Abi Codec Window Element.

(** ** The contract *)

(** [fr_norm] clears what the encoder does not send: array elements past
    their count, characters past a terminator.  [fr_code] is the code of a
    refused message. *)
Record framed (T : Type) := mk_framed {
  fr_capacity : Z;
  fr_rep : T -> bool;
  fr_norm : T -> T;
  fr_encode : ptr bytes -> ptr T -> ptr Z -> result (bytes * Z);
  fr_decode : ptr bytes -> Z -> ptr T -> result T;
  fr_code : bytes -> Z -> Z
}.
Arguments mk_framed {T}.
Arguments fr_capacity {T}.
Arguments fr_rep {T}.
Arguments fr_norm {T}.
Arguments fr_encode {T}.
Arguments fr_decode {T}.
Arguments fr_code {T}.

(** What the encoder wrote fits, nothing else was touched, and whoever
    receives those bytes decodes the value. *)
Definition frame_is_sound {T} (f : framed T) : Prop :=
  forall out v l out' n,
    f.(fr_capacity) <= blen out -> f.(fr_rep) v = true ->
    f.(fr_encode) (Some out) (Some v) (Some l) = Ok (out', n) ->
    0 <= n <= f.(fr_capacity) /\ blen out' = blen out /\
    agree out' out n (blen out - n) /\
    forall q old, n <= blen q -> agree q out' 0 n ->
      f.(fr_decode) (Some q) n (Some old) = Ok (f.(fr_norm) v).

(** What the decoder accepts is what the encoder writes for the value. *)
Definition frame_is_complete {T} (f : framed T) : Prop :=
  forall q n old v out l,
    n <= blen q -> f.(fr_capacity) <= blen out ->
    f.(fr_decode) (Some q) n (Some old) = Ok v ->
    f.(fr_rep) v = true /\ f.(fr_norm) v = v /\
    exists out', f.(fr_encode) (Some out) (Some v) (Some l) = Ok (out', n) /\
      agree out' q 0 n.

Class LawfulFrame {T} (f : framed T) : Prop := {
  frame_encode_null out v l :
    out = None \/ v = None \/ l = None ->
    f.(fr_encode) out v l = Err (- EINVAL);
  frame_decode_null inp n old :
    inp = None \/ old = None -> f.(fr_decode) inp n old = Err (- EINVAL);
  frame_encode_error out v l e :
    f.(fr_encode) (Some out) (Some v) (Some l) = Err e ->
    e = - EINVAL \/ e = - EMSGSIZE;
  frame_decode_error q n old e :
    f.(fr_decode) (Some q) n (Some old) = Err e -> e = f.(fr_code) q n;
  frame_sound : frame_is_sound f
}.

Class CanonicalFrame {T} (f : framed T) : Prop :=
  frame_complete : frame_is_complete f.

(** The usual code: the caller's mistake if not even the prefix arrived. *)
Definition prefix_code (prefix : Z) (q : bytes) (n : Z) : Z :=
  if n <? prefix then - EINVAL else - EPROTO.

(** The same when a reserved word is tested with the length. *)
Definition reserved_code (prefix reserved : Z) (q : bytes) (n : Z) : Z :=
  if (n <? prefix) || negb (bvb_wire_get_u32 q reserved =? 0) then - EINVAL
  else - EPROTO.

(** ** Loops of decoders *)

(** [decoded.items[index] = f(index); if (!ok(index)) return e;] *)
Lemma for_loop_fill {A} count (f : Z -> A) (ok : Z -> bool) e body arr :
  (forall i arr, 0 <= i < count ->
     body i arr = if ok i then Ok (<[Z.to_nat i := f i]> arr) else Err e) ->
  for_loop count body arr =
  if for_all count ok then Ok (fill_array count f arr) else Err e.
Proof.
  intros Hbody. unfold for_loop, for_all, fill_array.
  assert (Hgen : forall n k arr, Z.of_nat k + Z.of_nat n = Z.max 0 count ->
    loop_from n (Z.of_nat k) body arr =
    if forallb ok (seqZ (Z.of_nat k) (Z.of_nat n))
    then Ok (fill_from n k f arr) else Err e).
  { induction n as [|n IH]; intros k a Hk; [done|].
    cbn [loop_from fill_from]. rewrite seqZ_cons by lia. cbn [forallb].
    rewrite Hbody, Nat2Z.id by lia. destruct (ok (Z.of_nat k)); [|done].
    replace (Z.of_nat k + 1) with (Z.of_nat (Datatypes.S k)) by lia.
    rewrite IH by lia. cbn [andb].
    replace (Z.succ (Z.of_nat k)) with (Z.of_nat (Datatypes.S k)) by lia.
    by replace (Z.pred (Z.of_nat (Datatypes.S n))) with (Z.of_nat n) by lia. }
  specialize (Hgen (Z.to_nat count) O arr ltac:(lia)).
  destruct (Z.leb_spec 0 count); [by rewrite Z2Nat.id in Hgen by done|].
  unfold seqZ. by replace (Z.to_nat count) with O in * by lia.
Qed.

(** A loop that also moves a cursor by [size] each turn. *)
Lemma for_loop_cursor {S} count size base (body : Z -> Z -> S -> result S) s :
  0 <= count ->
  for_loop count (fun i '(s, cursor) =>
    try s := body i cursor s ;; Ok (s, cursor + size)) (s, base) =
  (try s := for_loop count (fun i s => body i (base + i * size) s) s ;;
   Ok (s, base + count * size)).
Proof.
  intros Hc. unfold for_loop. set (n := Z.to_nat count).
  assert (Hgen : forall n k s,
    loop_from n k (fun i '(s, cursor) =>
      try s := body i cursor s ;; Ok (s, cursor + size)) (s, base + k * size) =
    (try s := loop_from n k (fun i s => body i (base + i * size) s) s ;;
     Ok (s, base + (k + Z.of_nat n) * size))).
  { clear. induction n as [|n IH]; intros k s; cbn [loop_from].
    - do 3 f_equal. lia.
    - destruct (body k (base + k * size) s) as [s'|]; [|done].
      replace (base + k * size + size) with (base + (k + 1) * size) by lia.
      rewrite IH. destruct (loop_from n (k + 1) _ s'); [|done].
      do 3 f_equal. lia. }
  specialize (Hgen n 0 s). rewrite Z.mul_0_l, Z.add_0_r in Hgen.
  rewrite Hgen. unfold n. by rewrite Z2Nat.id by done.
Qed.

(** A loop that also collects whether some turn had a property. *)
Lemma for_loop_flag {S} count (body : Z -> S -> result S) (t : Z -> bool)
    flag s :
  for_loop count (fun i '(s, flag) =>
    try s := body i s ;; Ok (s, flag || t i)) (s, flag) =
  (try s := for_loop count body s ;;
   Ok (s, flag || existsb t (seqZ 0 count))).
Proof.
  unfold for_loop.
  assert (Hgen : forall n k s flag,
    loop_from n k (fun i '(s, flag) =>
      try s := body i s ;; Ok (s, flag || t i)) (s, flag) =
    (try s := loop_from n k body s ;;
     Ok (s, flag || existsb t (seqZ k (Z.of_nat n))))).
  { clear. induction n as [|n IH]; intros k s flag; cbn [loop_from].
    - by rewrite orb_false_r.
    - rewrite seqZ_cons by lia. cbn [existsb].
      destruct (body k s); [|done]. rewrite IH.
      replace (Z.pred (Z.of_nat (Datatypes.S n))) with (Z.of_nat n) by lia.
      replace (Z.succ k) with (k + 1) by lia.
      destruct (loop_from n (k + 1) body _); [|done].
      by rewrite orb_assoc. }
  rewrite Hgen. destruct (Z.leb_spec 0 count); [by rewrite Z2Nat.id by done|].
  unfold seqZ. by replace (Z.to_nat count) with O by lia.
Qed.

(** ** A prefix and an array *)

Lemma cleared_memset0 out len N base m :
  0 <= base -> base + m <= len -> len <= blen out ->
  agree (memset0 out 0 len) (blank N) base m.
Proof.
  intros Hb Hm Hl i Hi. rewrite rd8_memset0 by lia.
  unfold blank. by rewrite rd8_replicate0.
Qed.

Section prefixed.
Context {T} (E : element T) `{!LawfulElement E}.
Context (base count : Z) (ok : Z -> bool) (e : Z) (arr : Z -> T).
Context (body : Z -> bytes -> result bytes) (out hdr : bytes).
Let size := base + count * E.(el_size).
Hypothesis Hbase : 0 <= base.
Hypothesis Hcount : 0 <= count.
Hypothesis Hout : size <= blen out.
Hypothesis Hlen : blen hdr = blen out.
Hypothesis Hrest : agree hdr out size (blen out - size).
Hypothesis Hclear :
  agree hdr (blank (blen out)) base (count * E.(el_size)).
Hypothesis Hbody : encodes E base count ok e arr body.

Lemma prefixed_sound p :
  (forall i, 0 <= i < count -> ok i = true -> E.(el_rep) (arr i) = true) ->
  for_loop count body hdr = Ok p ->
  blen p = blen out /\ agree p out size (blen out - size) /\
  forall q, agree q p 0 size ->
    agree q hdr 0 base /\
    forall i, 0 <= i < count ->
      ok i = true /\ E.(el_decode) (q +! (base + i * E.(el_size))) = arr i /\
      E.(el_pad) (q +! (base + i * E.(el_size))) = true.
Proof.
  intros Hrep Hrun. pose proof el_size_pos as Hs.
  pose proof (fun q Hq => array_sound E base count (blen out) ok e Hbase
    Hcount Hout arr body hdr p q Hbody (conj Hlen Hclear) Hrep Hrun Hq)
    as Hsound.
  destruct (Hsound p) as (Hl & Ho & _); [apply agree_refl|].
  split_and!; [done| |].
  - eapply agree_trans; [apply Ho; unfold size in *; nia|done].
  - intros q Hq. split.
    + eapply agree_trans; [eapply agree_sub; [exact Hq|lia|unfold size; nia]|].
      apply Ho; lia.
    + apply Hsound. eapply agree_sub; [exact Hq|lia|unfold size; lia].
Qed.

Lemma prefixed_complete q :
  (forall i, 0 <= i < count ->
     arr i = E.(el_decode) (q +! (base + i * E.(el_size))) /\ ok i = true /\
     E.(el_pad) (q +! (base + i * E.(el_size))) = true) ->
  agree hdr q 0 base ->
  exists p, for_loop count body hdr = Ok p /\ blen p = blen out /\
    agree p q 0 size /\ agree p out size (blen out - size).
Proof.
  intros Hq Hh. pose proof el_size_pos as Hs.
  destruct (array_complete E base count (blen out) ok e Hbase Hcount Hout arr
    body hdr q Hbody (conj Hlen Hclear) Hq) as (p & Hrun & Hl & Ho & Ha).
  exists p. split_and!; [done|done| |].
  - apply (agree_join _ _ 0 base (count * E.(el_size))); [|done].
    eapply agree_trans; [apply Ho; lia|done].
  - eapply agree_trans; [apply Ho; unfold size in *; nia|done].
Qed.
End prefixed.

(** ** A prefix and raw bytes *)

(** [memcpy(output + base, data, n)] *)
Lemma raw_sound hdr out base data n :
  0 <= base -> 0 <= n -> base + n <= blen out -> n <= blen data ->
  blen hdr = blen out ->
  agree hdr out (base + n) (blen out - (base + n)) ->
  let p := wr_bytes hdr base (rd_bytes data 0 n) in
  blen p = blen out /\ agree p out (base + n) (blen out - (base + n)) /\
  forall q, base + n <= blen q -> agree q p 0 (base + n) ->
    agree q hdr 0 base /\ rd_bytes q base n = rd_bytes data 0 n.
Proof.
  intros Hb Hn Ho Hd Hl Hr p.
  pose proof (blen_rd_bytes data 0 n ltac:(lia) Hn ltac:(lia)) as Hdl.
  split_and!.
  - unfold p. by rewrite blen_wr_bytes.
  - eapply agree_trans; [apply agree_wr_bytes; unfold disjoint; lia|done].
  - intros q Hq Ha. split.
    + eapply agree_trans; [eapply agree_sub; [exact Ha|lia|lia]|].
      apply agree_wr_bytes. unfold disjoint. lia.
    + assert (Hp : blen p = blen out) by (unfold p; by rewrite blen_wr_bytes).
      rewrite (rd_bytes_agree q p base n) by
        (lia || (eapply agree_sub; [exact Ha|lia|lia])).
      apply rd_bytes_wr_bytes; lia.
Qed.

Lemma raw_complete hdr base q n :
  0 <= base -> 0 <= n -> base + n <= blen hdr -> base + n <= blen q ->
  agree hdr q 0 base ->
  agree (wr_bytes hdr base (rd_bytes q base n)) q 0 (base + n).
Proof.
  intros Hb Hn Hh Hq Ha.
  pose proof (blen_rd_bytes q base n Hb Hn Hq) as Hl.
  apply agree_join.
  - eapply agree_trans; [|exact Ha]. apply agree_wr_bytes.
    unfold disjoint. lia.
  - intros i Hi. rewrite rd8_wr_bytes_in by lia.
    rewrite rd_bytes_lookup by lia. f_equal. lia.
Qed.

(** A decoder's loop over zeroes, when every test passes and when it is known
    to have succeeded. *)
Lemma decode_array_ok {A} count (f : Z -> A) (ok : Z -> bool) e body (zero : A) arr n :
  (forall i (arr : list A), 0 <= i < count ->
     body i arr = if ok i then Ok (<[Z.to_nat i := f i]> arr) else Err e) ->
  0 <= count <= Z.of_nat (length arr) -> n = length arr ->
  (forall i, 0 <= i < count -> ok i = true /\ f i = elt zero arr i) ->
  for_loop count body (replicate n zero) = Ok (keep count zero arr).
Proof.
  intros Hbody Hc Hn H. rewrite (for_loop_fill count f ok e body _ Hbody).
  rewrite (proj2 (for_all_spec count ok)) by (intros i Hi; by apply H).
  f_equal. apply fill_array_keep; [done|done|]. intros i Hi. by apply H.
Qed.

Lemma decode_array_inv {A} count (f : Z -> A) (ok : Z -> bool) e body (arr arr' : list A) :
  (forall i (arr : list A), 0 <= i < count ->
     body i arr = if ok i then Ok (<[Z.to_nat i := f i]> arr) else Err e) ->
  for_loop count body arr = Ok arr' ->
  (forall i, 0 <= i < count -> ok i = true) /\ arr' = fill_array count f arr.
Proof.
  intros Hbody. rewrite (for_loop_fill count f ok e body _ Hbody).
  destruct (for_all count ok) eqn:E; [|discriminate]. intros [= <-].
  split; [by apply for_all_spec|done].
Qed.

(** ** Proof steps for messages *)

Ltac frame_guards H :=
  repeat match type of H with
  | (if ?c then Err _ else _) = Ok _ =>
      let E := fresh "Ht" in destruct c eqn:E; [discriminate H|]
  end.

(** The loops of a model, in order; each [Hrun]. *)
Ltac frame_loop H :=
  match type of H with
  | context [for_loop ?c ?b ?h] =>
      let Hr := fresh "Hrun" in
      destruct (for_loop c b h) eqn:Hr; [|discriminate H]
  end.

Ltac u32_bound c :=
  let H := fresh "Hbound" in
  pose proof (proj1 (is_u32_spec c)
                ltac:(first [assumption | apply get_u32_range])) as H.

Ltac begin_frame_sound Hb Hrep H :=
  cbn -[Z.add Z.mul] in Hb, Hrep, H; open_rep Hrep; split_tests;
  frame_guards H; split_tests.

Ltac prefix_body :=
  let i := fresh in let o := fresh in let Hi := fresh in
  intros i o Hi; cbn -[Z.add Z.mul write_window];
  first
    [ reflexivity
    | match goal with
      | |- (if negb ?c then _ else _) = (if ?d then _ else _) =>
          change d with c; destruct c; reflexivity
      end ].

Ltac prefix_frame :=
  cbn -[Z.add Z.mul Z.sub]; rewrite ?Z.add_0_r; wire_frame.
Ltac prefix_clear :=
  cbn -[Z.add Z.mul Z.sub];
  repeat wire_skip; apply cleared_memset0; lia.

(** The encoder's loop [Hrun] over [arr], after a prefix of [base] bytes. *)
Ltac prefix_ran E base ok arr Hrun :=
  match type of Hrun with
  | for_loop ?c ?b ?h = Ok ?p =>
      let o := match h with context [memset0 ?o 0 _] => o end in
      let L := fresh "Hlen" in let O := fresh "Hout" in let R := fresh "Hread" in
      pose proof (prefixed_sound E base c ok (- EINVAL) arr b o h
        ltac:(lia) ltac:(lia) ltac:(cbn -[Z.add Z.mul]; lia)
        ltac:(autorewrite with blen; reflexivity)
        ltac:(prefix_frame) ltac:(prefix_clear) ltac:(prefix_body) p)
        as (L & O & R);
      [ | exact Hrun | cbn -[Z.add Z.mul Z.sub] in L, O, R ]
  end.
Ltac prefix_rep := intros; eapply array_rep_elt; [eassumption|lia].

(** The decoder on what the encoder wrote: [Hh] gives the prefix. *)
Ltac frame_lengths :=
  repeat match goal with
  | |- context [u32 ?x] => rewrite (u32_small x) by (apply is_u32_spec; lia)
  | |- context [?x =? ?x] => rewrite (Z.eqb_refl x)
  | |- context [?a <? ?b] => rewrite (proj2 (Z.ltb_ge a b)) by lia
  end; cbn [negb andb orb].
Ltac read_prefix Hh :=
  cbn -[Z.add Z.mul]; extent_read Hh; wire_read; use_tests; frame_lengths;
  use_tests.

Ltac fill_body :=
  let i := fresh in let a := fresh in let Hi := fresh in
  intros i a Hi; cbn -[Z.add Z.mul];
  first
    [ reflexivity
    | match goal with
      | |- (if negb ?c then _ else _) = (if ?d then _ else _) =>
          change d with c; destruct c; reflexivity
      end ].

(** The decoder's next loop gives [arr] back. *)
Ltac fills f ok zero arr :=
  match goal with
  | |- context [for_loop ?c ?b (replicate ?n zero)] =>
      let L := fresh in
      pose proof (array_rep_length _ _ arr ltac:(eassumption)) as L;
      rewrite (decode_array_ok c f ok (- EPROTO) b zero arr n
                 ltac:(fill_body) ltac:(lia) ltac:(lia));
      clear L
  end.

Lemma filled_array {A} count (f : Z -> A) zero (rep : A -> bool) n size :
  0 <= count <= Z.of_nat n -> size = Z.of_nat n -> rep zero = true ->
  (forall i, 0 <= i < count -> rep (f i) = true) ->
  array_rep size rep (fill_array count f (replicate n zero)) = true /\
  keep count zero (fill_array count f (replicate n zero)) =
    fill_array count f (replicate n zero) /\
  forall i, 0 <= i < count ->
    elt zero (fill_array count f (replicate n zero)) i = f i.
Proof.
  intros Hc -> Hz Hf. split_and!.
  - by apply array_rep_fill.
  - by apply keep_fill_array.
  - intros i Hi. apply elt_fill_array; lia.
Qed.

(** The decoder's loop [Hrun] filled an array with [f]. *)
Ltac filled f ok rep size Hrun :=
  match type of Hrun with
  | for_loop ?c ?b (replicate ?n ?zero) = Ok ?arr =>
      let Hok := fresh "Hok" in let Harr := fresh "Hrep" in
      let Hk := fresh "Hkeep" in let He := fresh "Helt" in let Ea := fresh in
      pose proof (decode_array_inv c f ok (- EPROTO) b (replicate n zero) arr
        ltac:(fill_body) Hrun) as [Hok Ea];
      pose proof (filled_array c f zero rep n size ltac:(lia)
        ltac:(reflexivity) ltac:(reflexivity)
        ltac:(intros; cbn; open_rep_goal;
              rewrite ?get_u32_range, ?get_u64_range; reflexivity))
        as (Harr & Hk & He);
      rewrite <- Ea in Harr, Hk, He; clear Ea Hrun
  end.

(** The encoder's loop over what was decoded from [q] runs. *)
Ltac prefix_runs E base ok arr q :=
  match goal with
  | |- context [for_loop ?c ?b ?h] =>
      let o := match h with context [memset0 ?o 0 _] => o end in
      let p := fresh "p" in let R := fresh "Hrun" in let L := fresh "Hlen" in
      let A := fresh "Hagree" in let O := fresh "Hout" in
      edestruct (prefixed_complete E base c ok (- EINVAL) arr b o h
        ltac:(lia) ltac:(lia) ltac:(cbn -[Z.add Z.mul]; lia)
        ltac:(autorewrite with blen; reflexivity)
        ltac:(prefix_frame) ltac:(prefix_clear) ltac:(prefix_body) q)
        as (p & R & L & A & O);
      [ | | rewrite R; cbn -[Z.add Z.mul Z.sub] in A, O ]
  end.

Ltac begin_frame_complete Hb H :=
  cbn -[Z.add Z.mul] in Hb, H; frame_guards H; split_tests.
Ltac word_ranges :=
  rewrite ?get_u32_range, ?get_u64_range, ?get_i32_range; use_tests.

(** The encoder's tests hold of what the decoder accepted. *)
Ltac encode_frame :=
  cbn -[Z.add Z.mul]; use_tests;
  repeat match goal with
  | H : (?n =? u32 ?x) = true |- _ =>
      rewrite (u32_small x) in H by (apply is_u32_spec; lia)
  end.
Ltac encoded :=
  match goal with
  | H : (?n =? _) = true, A : agree ?o _ 0 _ |- exists p, _ = Ok (p, ?n) /\ @?P p =>
      apply Z.eqb_eq in H; exists o; split; [do 2 f_equal; lia|];
      rewrite H; assumption
  end.

(** Every failing branch of an encoder and of a decoder. *)
Ltac frame_errors H :=
  repeat match type of H with
  | (if ?c then _ else _) = Err _ => destruct c eqn:?
  | (match ?m with Ok _ => _ | Err _ => _ end) = Err _ =>
      let E := fresh "E" in destruct m eqn:E
  end.
Ltac loop_code code :=
  match goal with
  | H : for_loop _ _ _ = Err _ |- _ =>
      apply for_loop_error with (e := code) in H;
      [exact H | clear; intros ? ? ? H; cbv beta zeta in H; err_path H]
  end.
Lemma err_of_then_ok {A B} (m : result A) (f : A -> B) e :
  (try x := m ;; Ok (f x)) = Err e -> m = Err e.
Proof. destruct m; [discriminate|by intros [= <-]]. Qed.

Ltac frame_encode_errors :=
  let out := fresh in let v := fresh in let l := fresh in let e := fresh in
  let H := fresh in
  intros out v l e H; destruct v; cbn -[Z.add Z.mul] in H; frame_errors H;
  first
    [ discriminate H
    | injection H as <-; first [by left | by right | left; loop_code (- EINVAL)] ].
Ltac frame_decode_errors :=
  let q := fresh in let n := fresh in let old := fresh in let e := fresh in
  let H := fresh in
  intros q n old e H; cbn -[Z.add Z.mul] in H |- *; unfold prefix_code, reserved_code;
  try apply err_of_then_ok in H;
  frame_errors H;
  try discriminate H; injection H as <-;
  repeat match goal with
  | E : (?a <? ?b) = _ |- context [?a <? ?b] => rewrite E
  end; first [reflexivity | loop_code (- EPROTO)].

Ltac solve_lawful_frame sound :=
  constructor;
  [ let out := fresh in let v := fresh in let l := fresh in
    intros out v l [->|[->| ->]]; [done|by destruct out|
      by destruct out, v]
  | let inp := fresh in intros inp ? ? [->| ->]; [done|by destruct inp]
  | frame_encode_errors
  | frame_decode_errors
  | exact sound ].

(** A loop that never returns early, as when a decoder encodes what it read
    again only to test it. *)
Lemma for_loop_total {S} count (f : Z -> S -> S) s :
  exists s', for_loop count (fun i s => Ok (f i s)) s = Ok s'.
Proof.
  unfold for_loop. generalize 0. revert s.
  induction (Z.to_nat count) as [|n IH]; intros s k; cbn; [by eexists|].
  apply IH.
Qed.

Lemma elt_keep {A} count (zero : A) arr i :
  0 <= i < count -> count <= Z.of_nat (length arr) ->
  elt zero (keep count zero arr) i = elt zero arr i.
Proof.
  intros Hi Hc. rewrite !elt_lookup, lookup_keep by lia.
  by rewrite decide_True by lia.
Qed.

(** The loop of a re-encoding runs. *)
Ltac loop_total :=
  match goal with
  | |- context [for_loop ?c (fun i s => Ok (@?f i s)) ?s] =>
      let p := fresh "p" in
      destruct (for_loop_total c f s) as [p ->]
  end.

(** The encoder copied [n] bytes of [data] to [base]. *)
Ltac raw_ran out base data n :=
  match goal with
  | |- context [wr_bytes ?h base (rd_bytes data 0 n)] =>
      let L := fresh "Hlen" in let O := fresh "Hout" in let R := fresh "Hread" in
      destruct (raw_sound h out base data n ltac:(lia) ltac:(lia) ltac:(lia)
        ltac:(lia) ltac:(autorewrite with blen; reflexivity)
        ltac:(prefix_frame)) as (L & O & R)
  end.

(** The encoder copies the bytes at [q + base] after a prefix that is [q]'s. *)
Ltac raw_runs base q :=
  match goal with
  | H : (?n =? _) = true
    |- exists p, Ok (wr_bytes ?h base (rd_bytes q base ?m), _) = Ok (p, ?n) /\ _ =>
      apply Z.eqb_eq in H; eexists; split; [do 2 f_equal; lia|];
      rewrite H; apply raw_complete; autorewrite with blen;
      [lia|lia|lia|lia|agree_words]
  end.

(** A validator that succeeded. *)
Ltac ok_test H :=
  cbn in H;
  match type of H with
  | is_ok (if ?c then _ else _) = true =>
      let E := fresh "Ht" in destruct c eqn:E; [clear H|discriminate H];
      split_tests
  end.
Ltac ok_tests :=
  repeat match goal with E : is_ok (if _ then _ else _) = true |- _ => ok_test E end.

(** [if (n != 0) memcpy(...)] *)
Lemma copy_unless_empty h i d j n :
  0 <= n ->
  (if negb (n =? 0) then wr_bytes h i (rd_bytes d j n) else h) =
  wr_bytes h i (rd_bytes d j n).
Proof. intros Hn. by destruct (Z.eqb_spec n 0) as [->|]. Qed.
