(* ===== verification/MessageLists.v ===== *)
(** * MessageLists: messages that end in a counted array

    Models the messages of src/protocol.c whose payload is a prefix of words
    and an array the prefix counts: the physical devices of an instance, the
    semaphores of a host wait and of a present request. *)

From S2P Require Import Prelude Wire Abi Codec ProtocolBase Window Element Frame.

(** ** Structures *)

Record bvb_vulkan_physical_devices := mk_bvb_vulkan_physical_devices {
  pds_vulkan_result : Z;
  pds_count : Z;
  pds_ids : list Z
}.
Definition pds_rep (r : bvb_vulkan_physical_devices) : bool :=
  is_i32 r.(pds_vulkan_result) &&
  is_u32 r.(pds_count) &&
  array_rep BVB_VULKAN_MAX_PHYSICAL_DEVICES is_u64 r.(pds_ids).

Record bvb_vulkan_semaphore_wait_record := mk_bvb_vulkan_semaphore_wait_record {
  swr_semaphore_id : Z;
  swr_value : Z
}.
Definition swr_rep (r : bvb_vulkan_semaphore_wait_record) : bool :=
  is_u64 r.(swr_semaphore_id) &&
  is_u64 r.(swr_value).
Definition zero_swr := mk_bvb_vulkan_semaphore_wait_record 0 0.

Record bvb_vulkan_semaphore_wait_request := mk_bvb_vulkan_semaphore_wait_request {
  sw_rq_device_id : Z;
  sw_rq_timeout : Z;
  sw_rq_flags : Z;
  sw_rq_semaphore_count : Z;
  sw_rq_semaphores : list bvb_vulkan_semaphore_wait_record
}.
Definition sw_rq_rep (r : bvb_vulkan_semaphore_wait_request) : bool :=
  is_u64 r.(sw_rq_device_id) &&
  is_u64 r.(sw_rq_timeout) &&
  is_u32 r.(sw_rq_flags) &&
  is_u32 r.(sw_rq_semaphore_count) &&
  array_rep BVB_VULKAN_MAX_SEMAPHORES_PER_WAIT swr_rep r.(sw_rq_semaphores).

Record bvb_vulkan_swapchain_present_request := mk_bvb_vulkan_swapchain_present_request {
  sp_rq_queue_id : Z;
  sp_rq_swapchain_id : Z;
  sp_rq_image_index : Z;
  sp_rq_wait_semaphore_count : Z;
  sp_rq_flags : Z;
  sp_rq_wait_semaphore_ids : list Z
}.
Definition sp_rq_rep (r : bvb_vulkan_swapchain_present_request) : bool :=
  is_u64 r.(sp_rq_queue_id) &&
  is_u64 r.(sp_rq_swapchain_id) &&
  is_u32 r.(sp_rq_image_index) &&
  is_u32 r.(sp_rq_wait_semaphore_count) &&
  is_u32 r.(sp_rq_flags) &&
  array_rep BVB_VULKAN_MAX_PRESENT_WAIT_SEMAPHORES is_u64
    r.(sp_rq_wait_semaphore_ids).

(** ** Physical devices *)

Definition bvb_protocol_encode_vulkan_physical_devices
    (output : ptr bytes) (devices : ptr bvb_vulkan_physical_devices)
    (output_length : ptr Z) : result (bytes * Z) :=
  deref output := output or (- EINVAL) ;;
  deref devices := devices or (- EINVAL) ;;
  deref _ := output_length or (- EINVAL) ;;
  fail_if BVB_VULKAN_MAX_PHYSICAL_DEVICES <? devices.(pds_count)
    with (- EINVAL) ;;
  fail_if negb (for_all devices.(pds_count) (fun index =>
            wire_id_is_type (elt 0 devices.(pds_ids) index) 2))
    with (- EINVAL) ;;
  let length := BVB_VULKAN_PHYSICAL_DEVICES_PREFIX_SIZE +
                devices.(pds_count) * 8 in
  let output := memset0 output 0 length in
  let output := bvb_wire_put_i32 output 0 devices.(pds_vulkan_result) in
  let output := bvb_wire_put_u32 output 4 devices.(pds_count) in
  try output := for_loop devices.(pds_count) (fun index output =>
    Ok (write_window output
          (BVB_VULKAN_PHYSICAL_DEVICES_PREFIX_SIZE + index * 8) 8
          (fun output =>
             bvb_wire_put_u64 output 0 (elt 0 devices.(pds_ids) index))))
    output ;;
  Ok (output, length).

Definition bvb_protocol_decode_vulkan_physical_devices
    (input : ptr bytes) (input_length : Z)
    (devices : ptr bvb_vulkan_physical_devices) :
    result bvb_vulkan_physical_devices :=
  deref input := input or (- EINVAL) ;;
  deref _ := devices or (- EINVAL) ;;
  fail_if input_length <? BVB_VULKAN_PHYSICAL_DEVICES_PREFIX_SIZE
    with (- EINVAL) ;;
  let count := bvb_wire_get_u32 input 4 in
  fail_if (BVB_VULKAN_MAX_PHYSICAL_DEVICES <? count) ||
          negb (input_length =?
                  u32 (BVB_VULKAN_PHYSICAL_DEVICES_PREFIX_SIZE + count * 8))
    with (- EPROTO) ;;
  let ids := replicate 8 0 in
  try ids := for_loop count (fun index ids =>
    let id := bvb_wire_get_u64
                (input +! (BVB_VULKAN_PHYSICAL_DEVICES_PREFIX_SIZE + index * 8))
                0 in
    fail_if negb (wire_id_is_type id 2) with (- EPROTO) ;;
    Ok (<[Z.to_nat index := id]> ids)) ids ;;
  Ok {| pds_vulkan_result := bvb_wire_get_i32 input 0;
        pds_count := count;
        pds_ids := ids |}.

Definition physical_devices_frame : framed bvb_vulkan_physical_devices :=
  {| fr_capacity := BVB_PROTOCOL_MAX_PAYLOAD;
     fr_rep := pds_rep;
     fr_norm r :=
       {| pds_vulkan_result := r.(pds_vulkan_result);
          pds_count := r.(pds_count);
          pds_ids := keep r.(pds_count) 0 r.(pds_ids) |};
     fr_encode := bvb_protocol_encode_vulkan_physical_devices;
     fr_decode := bvb_protocol_decode_vulkan_physical_devices;
     fr_code := prefix_code BVB_VULKAN_PHYSICAL_DEVICES_PREFIX_SIZE |}.

Lemma physical_devices_sound : frame_is_sound physical_devices_frame.
Proof.
  intros out v l out' n Hb Hrep H. destruct v as [res count ids].
  begin_frame_sound Hb Hrep H. u32_bound count.
  frame_loop H. injection H as <- <-. rewrite for_all_spec in Ht0.
  prefix_ran u64_element 8 (fun _ : Z => true) (elt 0 ids) Hrun; [prefix_rep|].
  split_and!; [lia|cbn -[Z.add Z.mul]; lia|exact Hlen|exact Hout|].
  intros q old Hq Ha. destruct (Hread q Ha) as [Hh Hel]. read_prefix Hh.
  fills (fun i => bvb_wire_get_u64 (q +! (8 + i * 8)) 0)
    (fun i => wire_id_is_type (bvb_wire_get_u64 (q +! (8 + i * 8)) 0) 2)
    0 ids; [done|].
  intros i Hi. destruct (Hel i Hi) as (_ & -> & _). auto.
Qed.

Lemma physical_devices_complete : frame_is_complete physical_devices_frame.
Proof.
  intros q n old v out l Hn Hb H. begin_frame_complete Hb H.
  frame_loop H. injection H as <-. u32_bound (bvb_wire_get_u32 q 4).
  filled (fun i => bvb_wire_get_u64 (q +! (8 + i * 8)) 0)
    (fun i => wire_id_is_type (bvb_wire_get_u64 (q +! (8 + i * 8)) 0) 2)
    is_u64 8 Hrun.
  split_and!; [cbn; open_rep_goal; word_ranges; done|cbn; by rewrite Hkeep|].
  encode_frame.
  rewrite (proj2 (for_all_spec _ _))
    by (intros i Hi; rewrite Helt by done; auto).
  prefix_runs u64_element 8 (fun _ : Z => true) (elt 0 a) q.
  - intros i Hi. split_and!; auto.
  - agree_words.
  - encoded.
Qed.

#[export] Instance physical_devices_lawful : LawfulFrame physical_devices_frame.
Proof. solve_lawful_frame physical_devices_sound. Qed.
#[export] Instance physical_devices_canonical :
  CanonicalFrame physical_devices_frame.
Proof. exact physical_devices_complete. Qed.

(** ** Semaphore waits *)

Definition encode_wait_record (record : bytes)
    (semaphore : bvb_vulkan_semaphore_wait_record) : bytes :=
  let record := bvb_wire_put_u64 record 0 semaphore.(swr_semaphore_id) in
  bvb_wire_put_u64 record 8 semaphore.(swr_value).

Definition decode_wait_record (record : bytes) :
    bvb_vulkan_semaphore_wait_record :=
  {| swr_semaphore_id := bvb_wire_get_u64 record 0;
     swr_value := bvb_wire_get_u64 record 8 |}.

Definition wait_record_element : element bvb_vulkan_semaphore_wait_record :=
  {| el_size := BVB_VULKAN_SEMAPHORE_WAIT_RECORD_SIZE; el_zero := zero_swr;
     el_rep := swr_rep; el_pad _ := true;
     el_encode := encode_wait_record; el_decode := decode_wait_record |}.
#[export] Hint Unfold encode_wait_record decode_wait_record : elements.
#[export] Instance wait_record_element_lawful :
  LawfulElement wait_record_element.
Proof. solve_element. Qed.

Definition bvb_protocol_encode_vulkan_semaphore_wait_request
    (output : ptr bytes) (request : ptr bvb_vulkan_semaphore_wait_request)
    (output_length : ptr Z) : result (bytes * Z) :=
  deref output := output or (- EINVAL) ;;
  deref request := request or (- EINVAL) ;;
  deref _ := output_length or (- EINVAL) ;;
  fail_if negb (wire_id_is_type request.(sw_rq_device_id) 3) ||
          (request.(sw_rq_semaphore_count) =? 0) ||
          (BVB_VULKAN_MAX_SEMAPHORES_PER_WAIT <?
             request.(sw_rq_semaphore_count)) ||
          negb (Z.ldiff request.(sw_rq_flags) 1 =? 0) with (- EINVAL) ;;
  let length := BVB_VULKAN_SEMAPHORE_WAIT_PREFIX_SIZE +
    request.(sw_rq_semaphore_count) * BVB_VULKAN_SEMAPHORE_WAIT_RECORD_SIZE in
  let output := memset0 output 0 length in
  let output := bvb_wire_put_u64 output 0 request.(sw_rq_device_id) in
  let output := bvb_wire_put_u64 output 8 request.(sw_rq_timeout) in
  let output := bvb_wire_put_u32 output 16 request.(sw_rq_flags) in
  let output := bvb_wire_put_u32 output 20 request.(sw_rq_semaphore_count) in
  try output := for_loop request.(sw_rq_semaphore_count) (fun index output =>
    let semaphore := elt zero_swr request.(sw_rq_semaphores) index in
    fail_if negb (wire_id_is_type semaphore.(swr_semaphore_id) 17)
      with (- EINVAL) ;;
    Ok (write_window output
          (BVB_VULKAN_SEMAPHORE_WAIT_PREFIX_SIZE +
           index * BVB_VULKAN_SEMAPHORE_WAIT_RECORD_SIZE)
          BVB_VULKAN_SEMAPHORE_WAIT_RECORD_SIZE
          (fun record => encode_wait_record record semaphore))) output ;;
  Ok (output, length).

Definition bvb_protocol_decode_vulkan_semaphore_wait_request
    (input : ptr bytes) (input_length : Z)
    (request : ptr bvb_vulkan_semaphore_wait_request) :
    result bvb_vulkan_semaphore_wait_request :=
  deref input := input or (- EINVAL) ;;
  deref _ := request or (- EINVAL) ;;
  fail_if input_length <? BVB_VULKAN_SEMAPHORE_WAIT_PREFIX_SIZE
    with (- EINVAL) ;;
  let count := bvb_wire_get_u32 input 20 in
  let expected := u32 (BVB_VULKAN_SEMAPHORE_WAIT_PREFIX_SIZE +
    count * BVB_VULKAN_SEMAPHORE_WAIT_RECORD_SIZE) in
  fail_if (count =? 0) || (BVB_VULKAN_MAX_SEMAPHORES_PER_WAIT <? count) ||
          negb (input_length =? expected) with (- EPROTO) ;;
  let device_id := bvb_wire_get_u64 input 0 in
  let timeout := bvb_wire_get_u64 input 8 in
  let flags := bvb_wire_get_u32 input 16 in
  fail_if negb (wire_id_is_type device_id 3) ||
          negb (Z.ldiff flags 1 =? 0) with (- EPROTO) ;;
  try semaphores := for_loop count (fun index semaphores =>
    let semaphore := decode_wait_record
      (input +! (BVB_VULKAN_SEMAPHORE_WAIT_PREFIX_SIZE +
                 index * BVB_VULKAN_SEMAPHORE_WAIT_RECORD_SIZE)) in
    fail_if negb (wire_id_is_type semaphore.(swr_semaphore_id) 17)
      with (- EPROTO) ;;
    Ok (<[Z.to_nat index := semaphore]> semaphores)) (replicate 16 zero_swr) ;;
  Ok {| sw_rq_device_id := device_id;
        sw_rq_timeout := timeout;
        sw_rq_flags := flags;
        sw_rq_semaphore_count := count;
        sw_rq_semaphores := semaphores |}.

Definition semaphore_wait_request_frame :
    framed bvb_vulkan_semaphore_wait_request :=
  {| fr_capacity := BVB_VULKAN_SEMAPHORE_WAIT_MAX_SIZE;
     fr_rep := sw_rq_rep;
     fr_norm r :=
       {| sw_rq_device_id := r.(sw_rq_device_id);
          sw_rq_timeout := r.(sw_rq_timeout);
          sw_rq_flags := r.(sw_rq_flags);
          sw_rq_semaphore_count := r.(sw_rq_semaphore_count);
          sw_rq_semaphores :=
            keep r.(sw_rq_semaphore_count) zero_swr r.(sw_rq_semaphores) |};
     fr_encode := bvb_protocol_encode_vulkan_semaphore_wait_request;
     fr_decode := bvb_protocol_decode_vulkan_semaphore_wait_request;
     fr_code := prefix_code BVB_VULKAN_SEMAPHORE_WAIT_PREFIX_SIZE |}.

(** A record's identifier names a semaphore. *)
Definition wait_record_ok (r : bvb_vulkan_semaphore_wait_record) : bool :=
  wire_id_is_type r.(swr_semaphore_id) 17.

Lemma semaphore_wait_request_sound :
  frame_is_sound semaphore_wait_request_frame.
Proof.
  intros out v l out' n Hb Hrep H. destruct v as [dev timeout flags count recs].
  begin_frame_sound Hb Hrep H. u32_bound count.
  frame_loop H. injection H as <- <-.
  prefix_ran wait_record_element 24
    (fun i => wait_record_ok (elt zero_swr recs i)) (elt zero_swr recs) Hrun;
    [prefix_rep|].
  split_and!; [lia|cbn -[Z.add Z.mul]; lia|exact Hlen|exact Hout|].
  intros q old Hq Ha. destruct (Hread q Ha) as [Hh Hel]. read_prefix Hh.
  fills (fun i => decode_wait_record (q +! (24 + i * 16)))
    (fun i => wait_record_ok (decode_wait_record (q +! (24 + i * 16))))
    zero_swr recs; [done|].
  intros i Hi. by destruct (Hel i Hi) as (Hok & -> & _).
Qed.

Lemma semaphore_wait_request_complete :
  frame_is_complete semaphore_wait_request_frame.
Proof.
  intros q n old v out l Hn Hb H. begin_frame_complete Hb H.
  frame_loop H. injection H as <-. u32_bound (bvb_wire_get_u32 q 20).
  filled (fun i => decode_wait_record (q +! (24 + i * 16)))
    (fun i => wait_record_ok (decode_wait_record (q +! (24 + i * 16))))
    swr_rep 16 Hrun.
  split_and!; [cbn; open_rep_goal; word_ranges; done|cbn; by rewrite Hkeep|].
  encode_frame.
  prefix_runs wait_record_element 24
    (fun i => wait_record_ok (elt zero_swr a i)) (elt zero_swr a) q.
  - intros i Hi. rewrite Helt by done. split_and!; auto.
  - agree_words.
  - encoded.
Qed.

#[export] Instance semaphore_wait_request_lawful :
  LawfulFrame semaphore_wait_request_frame.
Proof. solve_lawful_frame semaphore_wait_request_sound. Qed.
#[export] Instance semaphore_wait_request_canonical :
  CanonicalFrame semaphore_wait_request_frame.
Proof. exact semaphore_wait_request_complete. Qed.

(** ** Present requests *)

Definition bvb_protocol_encode_vulkan_swapchain_present_request
    (output : ptr bytes) (request : ptr bvb_vulkan_swapchain_present_request)
    (output_length : ptr Z) : result (bytes * Z) :=
  deref output := output or (- EINVAL) ;;
  deref request := request or (- EINVAL) ;;
  deref _ := output_length or (- EINVAL) ;;
  fail_if negb (wire_id_is_type request.(sp_rq_queue_id) BVB_OBJECT_QUEUE) ||
          negb (wire_id_is_type request.(sp_rq_swapchain_id)
                  BVB_OBJECT_SWAPCHAIN) ||
          (BVB_WSI_FRAME_RING_MAX_SLOTS <=? request.(sp_rq_image_index)) ||
          (BVB_VULKAN_MAX_PRESENT_WAIT_SEMAPHORES <?
             request.(sp_rq_wait_semaphore_count)) ||
          negb (request.(sp_rq_flags) =? 0) with (- EINVAL) ;;
  fail_if negb (for_all request.(sp_rq_wait_semaphore_count) (fun index =>
            wire_id_is_type (elt 0 request.(sp_rq_wait_semaphore_ids) index)
              BVB_OBJECT_SEMAPHORE)) with (- EINVAL) ;;
  let length := BVB_VULKAN_SWAPCHAIN_PRESENT_PREFIX_SIZE +
                request.(sp_rq_wait_semaphore_count) * 8 in
  let output := memset0 output 0 length in
  let output := bvb_wire_put_u64 output 0 request.(sp_rq_queue_id) in
  let output := bvb_wire_put_u64 output 8 request.(sp_rq_swapchain_id) in
  let output := bvb_wire_put_u32 output 16 request.(sp_rq_image_index) in
  let output :=
    bvb_wire_put_u32 output 20 request.(sp_rq_wait_semaphore_count) in
  let output := bvb_wire_put_u32 output 24 request.(sp_rq_flags) in
  try output := for_loop request.(sp_rq_wait_semaphore_count)
    (fun index output =>
      Ok (write_window output
            (BVB_VULKAN_SWAPCHAIN_PRESENT_PREFIX_SIZE + index * 8) 8
            (fun output => bvb_wire_put_u64 output 0
               (elt 0 request.(sp_rq_wait_semaphore_ids) index)))) output ;;
  Ok (output, length).

Definition bvb_protocol_decode_vulkan_swapchain_present_request
    (input : ptr bytes) (input_length : Z)
    (request : ptr bvb_vulkan_swapchain_present_request) :
    result bvb_vulkan_swapchain_present_request :=
  deref input := input or (- EINVAL) ;;
  deref _ := request or (- EINVAL) ;;
  fail_if (input_length <? BVB_VULKAN_SWAPCHAIN_PRESENT_PREFIX_SIZE) ||
          negb (bvb_wire_get_u32 input 28 =? 0) with (- EINVAL) ;;
  let count := bvb_wire_get_u32 input 20 in
  fail_if (BVB_VULKAN_MAX_PRESENT_WAIT_SEMAPHORES <? count) ||
          negb (input_length =?
                  BVB_VULKAN_SWAPCHAIN_PRESENT_PREFIX_SIZE + count * 8)
    with (- EPROTO) ;;
  try ids := for_loop count (fun index ids =>
    Ok (<[Z.to_nat index := bvb_wire_get_u64
            (input +! (BVB_VULKAN_SWAPCHAIN_PRESENT_PREFIX_SIZE + index * 8))
            0]> ids)) (replicate 16 0) ;;
  let decoded := {| sp_rq_queue_id := bvb_wire_get_u64 input 0;
                    sp_rq_swapchain_id := bvb_wire_get_u64 input 8;
                    sp_rq_image_index := bvb_wire_get_u32 input 16;
                    sp_rq_wait_semaphore_count := count;
                    sp_rq_flags := bvb_wire_get_u32 input 24;
                    sp_rq_wait_semaphore_ids := ids |} in
  call validation :=
    bvb_protocol_encode_vulkan_swapchain_present_request
      (Some (blank BVB_VULKAN_SWAPCHAIN_PRESENT_MAX_SIZE)) (Some decoded)
      (Some 0) or (- EPROTO) ;;
  fail_if negb (snd validation =? input_length) with (- EPROTO) ;;
  Ok decoded.

Definition swapchain_present_request_frame :
    framed bvb_vulkan_swapchain_present_request :=
  {| fr_capacity := BVB_VULKAN_SWAPCHAIN_PRESENT_MAX_SIZE;
     fr_rep := sp_rq_rep;
     fr_norm r :=
       {| sp_rq_queue_id := r.(sp_rq_queue_id);
          sp_rq_swapchain_id := r.(sp_rq_swapchain_id);
          sp_rq_image_index := r.(sp_rq_image_index);
          sp_rq_wait_semaphore_count := r.(sp_rq_wait_semaphore_count);
          sp_rq_flags := r.(sp_rq_flags);
          sp_rq_wait_semaphore_ids :=
            keep r.(sp_rq_wait_semaphore_count) 0
              r.(sp_rq_wait_semaphore_ids) |};
     fr_encode := bvb_protocol_encode_vulkan_swapchain_present_request;
     fr_decode := bvb_protocol_decode_vulkan_swapchain_present_request;
     fr_code q n :=
       if (n <? BVB_VULKAN_SWAPCHAIN_PRESENT_PREFIX_SIZE) ||
          negb (bvb_wire_get_u32 q 28 =? 0) then - EINVAL else - EPROTO |}.

Lemma swapchain_present_request_sound :
  frame_is_sound swapchain_present_request_frame.
Proof.
  intros out v l out' n Hb Hrep H.
  destruct v as [queue chain image count flags ids].
  begin_frame_sound Hb Hrep H. u32_bound count.
  frame_loop H. injection H as <- <-. rewrite for_all_spec in Ht0.
  prefix_ran u64_element 32 (fun _ : Z => true) (elt 0 ids) Hrun; [prefix_rep|].
  split_and!; [lia|cbn -[Z.add Z.mul]; lia|exact Hlen|exact Hout|].
  intros q old Hq Ha. destruct (Hread q Ha) as [Hh Hel]. read_prefix Hh.
  pose proof (array_rep_length _ _ ids ltac:(eassumption)).
  fills (fun i => bvb_wire_get_u64 (q +! (32 + i * 8)) 0)
    (fun _ : Z => true) 0 ids; [|intros i Hi; by destruct (Hel i Hi) as (_ & -> & _)].
  cbn -[Z.add Z.mul]. use_tests.
  rewrite (proj2 (for_all_spec _ _))
    by (intros i Hi; rewrite elt_keep by lia; auto). cbn -[Z.add Z.mul].
  loop_total. cbn -[Z.add Z.mul].
  by frame_lengths.
Qed.

Lemma swapchain_present_request_complete :
  frame_is_complete swapchain_present_request_frame.
Proof.
  intros q n old v out l Hn Hb H. begin_frame_complete Hb H.
  frame_loop H. u32_bound (bvb_wire_get_u32 q 20).
  filled (fun i => bvb_wire_get_u64 (q +! (32 + i * 8)) 0)
    (fun _ : Z => true) is_u64 16 Hrun.
  ok_path H. injection H as <-. rename Ht0 into Hv. ok_path Hv. split_tests.
  split_and!; [cbn; open_rep_goal; word_ranges; done|cbn; by rewrite Hkeep|].
  encode_frame.
  prefix_runs u64_element 32 (fun _ : Z => true) (elt 0 a) q.
  - intros i Hi. split_and!; auto.
  - agree_words.
  - encoded.
Qed.

#[export] Instance swapchain_present_request_lawful :
  LawfulFrame swapchain_present_request_frame.
Proof. solve_lawful_frame swapchain_present_request_sound. Qed.
#[export] Instance swapchain_present_request_canonical :
  CanonicalFrame swapchain_present_request_frame.
Proof. exact swapchain_present_request_complete. Qed.
