(* ===== verification/MessageData.v ===== *)
(** * MessageData: messages that carry raw bytes

    Models the messages of src/protocol.c whose payload is a prefix and a run
    of bytes: the results of a query pool, a write to mapped memory and the
    answer to a read of it. *)

From S2P Require Import Prelude Wire Abi Codec ProtocolBase ProtocolSetup Window Element Frame.

(** ** Query results *)

Record bvb_vulkan_query_pool_results_response := mk_bvb_vulkan_query_pool_results_response {
  qpr_rs_vulkan_result : Z;
  qpr_rs_data_size : Z;
  qpr_rs_data : bytes
}.
Definition qpr_rs_rep (r : bvb_vulkan_query_pool_results_response) : bool :=
  is_i32 r.(qpr_rs_vulkan_result) &&
  is_u32 r.(qpr_rs_data_size) &&
  (blen r.(qpr_rs_data) =? BVB_VULKAN_QUERY_POOL_RESULTS_MAX_BYTES).

Definition bvb_protocol_encode_vulkan_query_pool_results_response
    (output : ptr bytes)
    (response : ptr bvb_vulkan_query_pool_results_response)
    (output_length : ptr Z) : result (bytes * Z) :=
  deref output := output or (- EINVAL) ;;
  deref response := response or (- EINVAL) ;;
  deref _ := output_length or (- EINVAL) ;;
  fail_if (response.(qpr_rs_data_size) =? 0) ||
          (BVB_VULKAN_QUERY_POOL_RESULTS_MAX_BYTES <?
             response.(qpr_rs_data_size)) with (- EINVAL) ;;
  let length := BVB_VULKAN_QUERY_POOL_RESULTS_RESPONSE_PREFIX_SIZE +
                response.(qpr_rs_data_size) in
  let output := memset0 output 0 length in
  let output := bvb_wire_put_i32 output 0 response.(qpr_rs_vulkan_result) in
  let output := bvb_wire_put_u32 output 4 response.(qpr_rs_data_size) in
  let output := wr_bytes output
    BVB_VULKAN_QUERY_POOL_RESULTS_RESPONSE_PREFIX_SIZE
    (rd_bytes response.(qpr_rs_data) 0 response.(qpr_rs_data_size)) in
  Ok (output, length).

(** The structure is cleared before the bytes are copied into its array. *)
Definition bvb_protocol_decode_vulkan_query_pool_results_response
    (input : ptr bytes) (input_length : Z)
    (response : ptr bvb_vulkan_query_pool_results_response) :
    result bvb_vulkan_query_pool_results_response :=
  deref input := input or (- EINVAL) ;;
  deref _ := response or (- EINVAL) ;;
  fail_if input_length <? BVB_VULKAN_QUERY_POOL_RESULTS_RESPONSE_PREFIX_SIZE
    with (- EINVAL) ;;
  let data_size := bvb_wire_get_u32 input 4 in
  fail_if (data_size =? 0) ||
          (BVB_VULKAN_QUERY_POOL_RESULTS_MAX_BYTES <? data_size) ||
          negb (input_length =?
                  u32 (BVB_VULKAN_QUERY_POOL_RESULTS_RESPONSE_PREFIX_SIZE +
                       data_size)) with (- EPROTO) ;;
  Ok {| qpr_rs_vulkan_result := bvb_wire_get_i32 input 0;
        qpr_rs_data_size := data_size;
        qpr_rs_data :=
          wr_bytes (blank BVB_VULKAN_QUERY_POOL_RESULTS_MAX_BYTES) 0
            (rd_bytes input BVB_VULKAN_QUERY_POOL_RESULTS_RESPONSE_PREFIX_SIZE
               data_size) |}.

Definition query_pool_results_response_frame :
    framed bvb_vulkan_query_pool_results_response :=
  {| fr_capacity := BVB_PROTOCOL_MAX_PAYLOAD;
     fr_rep := qpr_rs_rep;
     fr_norm r :=
       {| qpr_rs_vulkan_result := r.(qpr_rs_vulkan_result);
          qpr_rs_data_size := r.(qpr_rs_data_size);
          qpr_rs_data :=
            wr_bytes (blank BVB_VULKAN_QUERY_POOL_RESULTS_MAX_BYTES) 0
              (rd_bytes r.(qpr_rs_data) 0 r.(qpr_rs_data_size)) |};
     fr_encode := bvb_protocol_encode_vulkan_query_pool_results_response;
     fr_decode := bvb_protocol_decode_vulkan_query_pool_results_response;
     fr_code :=
       prefix_code BVB_VULKAN_QUERY_POOL_RESULTS_RESPONSE_PREFIX_SIZE |}.

(** ** Memory writes

    [data] is passed apart from the request; the decoder returns a pointer
    into its input.  The frame's value is the request with the bytes a reader
    takes from that pointer. *)

Definition bvb_protocol_encode_vulkan_memory_write_request
    (output : ptr bytes) (request : ptr bvb_vulkan_memory_io_request)
    (data : ptr bytes) (output_length : ptr Z) : result (bytes * Z) :=
  deref output := output or (- EINVAL) ;;
  deref data := data or (- EINVAL) ;;
  deref _ := output_length or (- EINVAL) ;;
  fail_if negb (is_ok (validate_memory_io_request request)) with (- EINVAL) ;;
  deref request := request or (- EINVAL) ;;
  let output := bvb_wire_put_u64 output 0 request.(mi_rq_memory_id) in
  let output := bvb_wire_put_u64 output 8 request.(mi_rq_offset) in
  let output := bvb_wire_put_u32 output 16 request.(mi_rq_length) in
  let output := bvb_wire_put_u32 output 20 0 in
  let output := wr_bytes output BVB_VULKAN_MEMORY_IO_PREFIX_SIZE
                  (rd_bytes data 0 request.(mi_rq_length)) in
  Ok (output, BVB_VULKAN_MEMORY_IO_PREFIX_SIZE + request.(mi_rq_length)).

Definition bvb_protocol_decode_vulkan_memory_write_request
    (input : ptr bytes) (input_length : Z)
    (request : ptr bvb_vulkan_memory_io_request) (data : ptr bytes) :
    result (bvb_vulkan_memory_io_request * bytes) :=
  deref input := input or (- EINVAL) ;;
  deref _ := request or (- EINVAL) ;;
  deref _ := data or (- EINVAL) ;;
  fail_if input_length <? BVB_VULKAN_MEMORY_IO_PREFIX_SIZE with (- EINVAL) ;;
  let decoded := {| mi_rq_memory_id := bvb_wire_get_u64 input 0;
                    mi_rq_offset := bvb_wire_get_u64 input 8;
                    mi_rq_length := bvb_wire_get_u32 input 16 |} in
  fail_if negb (is_ok (validate_memory_io_request (Some decoded))) ||
          negb (bvb_wire_get_u32 input 20 =? 0) ||
          negb (input_length =?
                  u32 (BVB_VULKAN_MEMORY_IO_PREFIX_SIZE +
                       decoded.(mi_rq_length))) with (- EPROTO) ;;
  Ok (decoded, input +! BVB_VULKAN_MEMORY_IO_PREFIX_SIZE).

Definition memory_write_request_frame :
    framed (bvb_vulkan_memory_io_request * bytes) :=
  {| fr_capacity := BVB_PROTOCOL_MAX_PAYLOAD;
     fr_rep '(r, data) := mi_rq_rep r && (blen data =? r.(mi_rq_length));
     fr_norm v := v;
     fr_encode output v output_length :=
       bvb_protocol_encode_vulkan_memory_write_request output (fst <$> v)
         (snd <$> v) output_length;
     fr_decode input n old :=
       try found := bvb_protocol_decode_vulkan_memory_write_request input n
                      (fst <$> old) (snd <$> old) ;;
       Ok (fst found, rd_bytes (snd found) 0 (fst found).(mi_rq_length));
     fr_code := prefix_code BVB_VULKAN_MEMORY_IO_PREFIX_SIZE |}.


(** ** Answers to memory reads *)

Record bvb_vulkan_memory_io_response := mk_bvb_vulkan_memory_io_response {
  mi_rs_vulkan_result : Z;
  mi_rs_length : Z
}.
Definition mi_rs_rep (r : bvb_vulkan_memory_io_response) : bool :=
  is_i32 r.(mi_rs_vulkan_result) &&
  is_u32 r.(mi_rs_length).

Definition bvb_protocol_encode_vulkan_memory_io_response
    (output : ptr bytes) (response : ptr bvb_vulkan_memory_io_response)
    (data : ptr bytes) (output_length : ptr Z) : result (bytes * Z) :=
  deref output := output or (- EINVAL) ;;
  deref response := response or (- EINVAL) ;;
  deref _ := output_length or (- EINVAL) ;;
  fail_if (BVB_VULKAN_MEMORY_IO_MAX_BYTES <? response.(mi_rs_length)) ||
          (negb (response.(mi_rs_length) =? 0) &&
           match data with Some _ => false | None => true end) ||
          (negb (response.(mi_rs_vulkan_result) =? 0) &&
           negb (response.(mi_rs_length) =? 0)) with (- EINVAL) ;;
  let output := bvb_wire_put_i32 output 0 response.(mi_rs_vulkan_result) in
  let output := bvb_wire_put_u32 output 4 response.(mi_rs_length) in
  let output :=
    if negb (response.(mi_rs_length) =? 0) then
      wr_bytes output BVB_VULKAN_MEMORY_IO_RESPONSE_PREFIX_SIZE
        (rd_bytes (default [] data) 0 response.(mi_rs_length))
    else output in
  Ok (output,
      BVB_VULKAN_MEMORY_IO_RESPONSE_PREFIX_SIZE + response.(mi_rs_length)).

Definition bvb_protocol_decode_vulkan_memory_io_response
    (input : ptr bytes) (input_length : Z)
    (response : ptr bvb_vulkan_memory_io_response) (data : ptr bytes) :
    result (bvb_vulkan_memory_io_response * bytes) :=
  deref input := input or (- EINVAL) ;;
  deref _ := response or (- EINVAL) ;;
  deref _ := data or (- EINVAL) ;;
  fail_if input_length <? BVB_VULKAN_MEMORY_IO_RESPONSE_PREFIX_SIZE
    with (- EINVAL) ;;
  let decoded := {| mi_rs_vulkan_result := bvb_wire_get_i32 input 0;
                    mi_rs_length := bvb_wire_get_u32 input 4 |} in
  fail_if (BVB_VULKAN_MEMORY_IO_MAX_BYTES <? decoded.(mi_rs_length)) ||
          (negb (decoded.(mi_rs_vulkan_result) =? 0) &&
           negb (decoded.(mi_rs_length) =? 0)) ||
          negb (input_length =?
                  u32 (BVB_VULKAN_MEMORY_IO_RESPONSE_PREFIX_SIZE +
                       decoded.(mi_rs_length))) with (- EPROTO) ;;
  Ok (decoded, input +! BVB_VULKAN_MEMORY_IO_RESPONSE_PREFIX_SIZE).

Definition memory_io_response_frame :
    framed (bvb_vulkan_memory_io_response * bytes) :=
  {| fr_capacity := BVB_PROTOCOL_MAX_PAYLOAD;
     fr_rep '(r, data) := mi_rs_rep r && (blen data =? r.(mi_rs_length));
     fr_norm v := v;
     fr_encode output v output_length :=
       bvb_protocol_encode_vulkan_memory_io_response output (fst <$> v)
         (snd <$> v) output_length;
     fr_decode input n old :=
       try found := bvb_protocol_decode_vulkan_memory_io_response input n
                      (fst <$> old) (snd <$> old) ;;
       Ok (fst found, rd_bytes (snd found) 0 (fst found).(mi_rs_length));
     fr_code := prefix_code BVB_VULKAN_MEMORY_IO_RESPONSE_PREFIX_SIZE |}.

(** ** Lawfulness *)

Lemma query_pool_results_response_sound :
  frame_is_sound query_pool_results_response_frame.
Proof.
  intros out v l out' n Hb Hrep H. destruct v as [res size data].
  begin_frame_sound Hb Hrep H. u32_bound size. injection H as <- <-.
  raw_ran out 8 data size.
  split_and!; [lia|cbn; lia|exact Hlen|exact Hout|].
  intros q old Hq Ha. destruct (Hread q Hq Ha) as [Hh Hd]. read_prefix Hh.
  frame_lengths. cbn. by rewrite Hd.
Qed.

Lemma query_pool_results_response_complete :
  frame_is_complete query_pool_results_response_frame.
Proof.
  intros q n old v out l Hn Hb H. begin_frame_complete Hb H. injection H as <-.
  u32_bound (bvb_wire_get_u32 q 4). encode_frame.
  pose proof (blen_rd_bytes q 8 (bvb_wire_get_u32 q 4) ltac:(lia) ltac:(lia)
    ltac:(lia)) as Hd.
  assert (Hr : rd_bytes (wr_bytes (blank 4088) 0
    (rd_bytes q 8 (bvb_wire_get_u32 q 4))) 0 (bvb_wire_get_u32 q 4) =
    rd_bytes q 8 (bvb_wire_get_u32 q 4))
    by (apply rd_bytes_wr_bytes; rewrite ?blen_blank by lia; lia).
  split_and!; [|by rewrite Hr|].
  - open_rep_goal. rewrite blen_wr_bytes, blen_blank by lia. by word_ranges.
  - rewrite Hr. raw_runs 8 q.
Qed.

#[export] Instance query_pool_results_response_lawful :
  LawfulFrame query_pool_results_response_frame.
Proof. solve_lawful_frame query_pool_results_response_sound. Qed.
#[export] Instance query_pool_results_response_canonical :
  CanonicalFrame query_pool_results_response_frame.
Proof. exact query_pool_results_response_complete. Qed.

Lemma memory_write_request_sound : frame_is_sound memory_write_request_frame.
Proof.
  intros out v l out' n Hb Hrep H. destruct v as [[id off size] data].
  apply andb_true_iff in Hrep as [Hrep Hdata%Z.eqb_eq]. cbn in Hdata.
  begin_frame_sound Hb Hrep H. u32_bound size. injection H as <- <-.
  unfold validate_memory_io_request in Ht. ok_tests.
  raw_ran out 24 data size.
  split_and!; [lia|cbn; lia|exact Hlen|exact Hout|].
  intros q old Hq Ha. destruct (Hread q Hq Ha) as [Hh Hd].
  cbn -[Z.add Z.mul]. unfold validate_memory_io_request. read_prefix Hh.
  frame_lengths. cbn. rewrite rd_bytes_ptr_add, Z.add_0_r, Hd by lia.
  do 2 f_equal. apply rd_bytes_all. lia.
Qed.

Lemma memory_write_request_complete :
  frame_is_complete memory_write_request_frame.
Proof.
  intros q n old v out l Hn Hb H. cbn -[Z.add Z.mul] in Hb, H.
  unfold validate_memory_io_request in H. ok_path H. split_tests.
  cbn -[Z.add Z.mul] in H. injection H as <-. ok_tests.
  u32_bound (bvb_wire_get_u32 q 16). encode_frame.
  rewrite rd_bytes_ptr_add, Z.add_0_r by lia.
  pose proof (blen_rd_bytes q 24 (bvb_wire_get_u32 q 16) ltac:(lia) ltac:(lia)
    ltac:(lia)) as Hd.
  unfold validate_memory_io_request. cbn -[Z.add Z.mul].
  split_and!; [|done|].
  - rewrite Hd, Z.eqb_refl. unfold mi_rq_rep. cbn. by word_ranges.
  - use_tests. cbn. rewrite rd_bytes_all by done. raw_runs 24 q.
Qed.

Lemma memory_io_response_sound : frame_is_sound memory_io_response_frame.
Proof.
  intros out v l out' n Hb Hrep H. destruct v as [[res size] data].
  apply andb_true_iff in Hrep as [Hrep Hdata%Z.eqb_eq]. cbn in Hdata.
  begin_frame_sound Hb Hrep H. u32_bound size. injection H as <- <-.
  rewrite copy_unless_empty by lia. raw_ran out 8 data size.
  split_and!; [lia|cbn; lia|exact Hlen|exact Hout|].
  intros q old Hq Ha. destruct (Hread q Hq Ha) as [Hh Hd]. read_prefix Hh.
  frame_lengths. cbn. rewrite rd_bytes_ptr_add, Z.add_0_r, Hd by lia.
  do 2 f_equal. apply rd_bytes_all. lia.
Qed.

Lemma memory_io_response_complete :
  frame_is_complete memory_io_response_frame.
Proof.
  intros q n old v out l Hn Hb H. cbn -[Z.add Z.mul] in Hb, H. ok_path H.
  split_tests. cbn -[Z.add Z.mul] in H. injection H as <-.
  u32_bound (bvb_wire_get_u32 q 4). encode_frame.
  rewrite rd_bytes_ptr_add, Z.add_0_r, andb_false_r by lia.
  pose proof (blen_rd_bytes q 8 (bvb_wire_get_u32 q 4) ltac:(lia) ltac:(lia)
    ltac:(lia)) as Hd.
  split_and!; [|done|].
  - rewrite Hd, Z.eqb_refl. unfold mi_rs_rep. cbn. by word_ranges.
  - cbn. rewrite (rd_bytes_all _ _ Hd).
    rewrite copy_unless_empty by lia. raw_runs 8 q.
Qed.

#[export] Instance memory_write_request_lawful :
  LawfulFrame memory_write_request_frame.
Proof. solve_lawful_frame memory_write_request_sound. Qed.
#[export] Instance memory_write_request_canonical :
  CanonicalFrame memory_write_request_frame.
Proof. exact memory_write_request_complete. Qed.

#[export] Instance memory_io_response_lawful :
  LawfulFrame memory_io_response_frame.
Proof. solve_lawful_frame memory_io_response_sound. Qed.
#[export] Instance memory_io_response_canonical :
  CanonicalFrame memory_io_response_frame.
Proof. exact memory_io_response_complete. Qed.
