(* ===== verification/DescriptorTypes.v ===== *)
(** * DescriptorTypes: the structures of the descriptor and layout messages

    The structures of src/include/bvb/vulkan_descriptor_wire.h and the
    pipeline layout of src/include/bvb/vulkan_pipeline_wire.h, with what each
    field can represent. *)

From S2P Require Import Prelude Wire Abi Codec ProtocolBase Window Element.

Abbreviation BVB_VULKAN_MAX_DESCRIPTOR_LAYOUT_BINDINGS := 32 (only parsing).
Abbreviation BVB_VULKAN_MAX_DESCRIPTOR_POOL_SIZES := 16 (only parsing).
Abbreviation BVB_VULKAN_MAX_DESCRIPTOR_SETS_PER_ALLOCATE := 16 (only parsing).
Abbreviation BVB_VULKAN_MAX_DESCRIPTOR_WRITES := 32 (only parsing).
Abbreviation BVB_VULKAN_MAX_DESCRIPTOR_SAMPLERS := 128 (only parsing).
Abbreviation BVB_VULKAN_MAX_DESCRIPTOR_UPDATE_TEMPLATE_ENTRIES := 32
  (only parsing).
Abbreviation BVB_VULKAN_MAX_DESCRIPTOR_UPDATE_TEMPLATE_DATA_SIZE := 1048576
  (only parsing).
Abbreviation BVB_VULKAN_MAX_DESCRIPTOR_TEMPLATE_VALUES := 64 (only parsing).
Abbreviation BVB_VULKAN_MAX_BOUND_DESCRIPTOR_SETS := 8 (only parsing).
Abbreviation BVB_VULKAN_MAX_DYNAMIC_OFFSETS := 32 (only parsing).
Abbreviation BVB_VULKAN_MAX_PIPELINE_SET_LAYOUTS := 8 (only parsing).
Abbreviation BVB_VULKAN_MAX_PIPELINE_PUSH_CONSTANT_RANGES := 4 (only parsing).

Record bvb_vulkan_descriptor_layout_binding := mk_bvb_vulkan_descriptor_layout_binding {
  dlb_binding : Z;
  dlb_descriptor_type : Z;
  dlb_descriptor_count : Z;
  dlb_stage_flags : Z;
  dlb_binding_flags : Z
}.
Definition dlb_rep (r : bvb_vulkan_descriptor_layout_binding) : bool :=
  is_u32 r.(dlb_binding) &&
  is_u32 r.(dlb_descriptor_type) &&
  is_u32 r.(dlb_descriptor_count) &&
  is_u32 r.(dlb_stage_flags) &&
  is_u32 r.(dlb_binding_flags).
Definition zero_dlb := mk_bvb_vulkan_descriptor_layout_binding 0 0 0 0 0.

Record bvb_vulkan_descriptor_set_layout_create_request := mk_bvb_vulkan_descriptor_set_layout_create_request {
  dslc_rq_device_id : Z;
  dslc_rq_flags : Z;
  dslc_rq_binding_count : Z;
  dslc_rq_has_binding_flags : Z;
  dslc_rq_bindings : list bvb_vulkan_descriptor_layout_binding
}.
Definition dslc_rq_rep (r : bvb_vulkan_descriptor_set_layout_create_request) : bool :=
  is_u64 r.(dslc_rq_device_id) &&
  is_u32 r.(dslc_rq_flags) &&
  is_u32 r.(dslc_rq_binding_count) &&
  is_u32 r.(dslc_rq_has_binding_flags) &&
  array_rep BVB_VULKAN_MAX_DESCRIPTOR_LAYOUT_BINDINGS dlb_rep
    r.(dslc_rq_bindings).

Record bvb_vulkan_descriptor_pool_size := mk_bvb_vulkan_descriptor_pool_size {
  dps_descriptor_type : Z;
  dps_descriptor_count : Z
}.
Definition dps_rep (r : bvb_vulkan_descriptor_pool_size) : bool :=
  is_u32 r.(dps_descriptor_type) &&
  is_u32 r.(dps_descriptor_count).
Definition zero_dps := mk_bvb_vulkan_descriptor_pool_size 0 0.

Record bvb_vulkan_descriptor_pool_create_request := mk_bvb_vulkan_descriptor_pool_create_request {
  dpc_rq_device_id : Z;
  dpc_rq_flags : Z;
  dpc_rq_max_sets : Z;
  dpc_rq_pool_size_count : Z;
  dpc_rq_pool_sizes : list bvb_vulkan_descriptor_pool_size
}.
Definition dpc_rq_rep (r : bvb_vulkan_descriptor_pool_create_request) : bool :=
  is_u64 r.(dpc_rq_device_id) &&
  is_u32 r.(dpc_rq_flags) &&
  is_u32 r.(dpc_rq_max_sets) &&
  is_u32 r.(dpc_rq_pool_size_count) &&
  array_rep BVB_VULKAN_MAX_DESCRIPTOR_POOL_SIZES dps_rep
    r.(dpc_rq_pool_sizes).

Record bvb_vulkan_descriptor_pool_reset_request := mk_bvb_vulkan_descriptor_pool_reset_request {
  dpr_rq_descriptor_pool_id : Z;
  dpr_rq_flags : Z
}.
Definition dpr_rq_rep (r : bvb_vulkan_descriptor_pool_reset_request) : bool :=
  is_u64 r.(dpr_rq_descriptor_pool_id) &&
  is_u32 r.(dpr_rq_flags).
Definition zero_dpr_rq := mk_bvb_vulkan_descriptor_pool_reset_request 0 0.

Record bvb_vulkan_descriptor_set_allocate_request := mk_bvb_vulkan_descriptor_set_allocate_request {
  dsa_rq_descriptor_pool_id : Z;
  dsa_rq_descriptor_set_count : Z;
  dsa_rq_set_layout_ids : list Z
}.
Definition dsa_rq_rep (r : bvb_vulkan_descriptor_set_allocate_request) : bool :=
  is_u64 r.(dsa_rq_descriptor_pool_id) &&
  is_u32 r.(dsa_rq_descriptor_set_count) &&
  array_rep BVB_VULKAN_MAX_DESCRIPTOR_SETS_PER_ALLOCATE is_u64
    r.(dsa_rq_set_layout_ids).

Record bvb_vulkan_descriptor_set_allocate_response := mk_bvb_vulkan_descriptor_set_allocate_response {
  dsa_rs_vulkan_result : Z;
  dsa_rs_descriptor_set_count : Z;
  dsa_rs_descriptor_set_ids : list Z
}.
Definition dsa_rs_rep (r : bvb_vulkan_descriptor_set_allocate_response) : bool :=
  is_i32 r.(dsa_rs_vulkan_result) &&
  is_u32 r.(dsa_rs_descriptor_set_count) &&
  array_rep BVB_VULKAN_MAX_DESCRIPTOR_SETS_PER_ALLOCATE is_u64
    r.(dsa_rs_descriptor_set_ids).

Record bvb_vulkan_descriptor_transaction_allocate_request := mk_bvb_vulkan_descriptor_transaction_allocate_request {
  dta_rq_journal_generation : Z;
  dta_rq_journal_sequence : Z;
  dta_rq_journal_length : Z;
  dta_rq_journal_record_count : Z;
  dta_rq_allocation : bvb_vulkan_descriptor_set_allocate_request
}.
Definition dta_rq_rep (r : bvb_vulkan_descriptor_transaction_allocate_request) : bool :=
  is_u64 r.(dta_rq_journal_generation) &&
  is_u64 r.(dta_rq_journal_sequence) &&
  is_u32 r.(dta_rq_journal_length) &&
  is_u32 r.(dta_rq_journal_record_count) &&
  dsa_rq_rep r.(dta_rq_allocation).

Record bvb_vulkan_sampler_create_request := mk_bvb_vulkan_sampler_create_request {
  smpc_rq_device_id : Z;
  smpc_rq_flags : Z;
  smpc_rq_mag_filter : Z;
  smpc_rq_min_filter : Z;
  smpc_rq_mipmap_mode : Z;
  smpc_rq_address_mode_u : Z;
  smpc_rq_address_mode_v : Z;
  smpc_rq_address_mode_w : Z;
  smpc_rq_mip_lod_bias_bits : Z;
  smpc_rq_anisotropy_enable : Z;
  smpc_rq_max_anisotropy_bits : Z;
  smpc_rq_compare_enable : Z;
  smpc_rq_compare_op : Z;
  smpc_rq_min_lod_bits : Z;
  smpc_rq_max_lod_bits : Z;
  smpc_rq_border_color : Z;
  smpc_rq_unnormalized_coordinates : Z
}.
Definition smpc_rq_rep (r : bvb_vulkan_sampler_create_request) : bool :=
  is_u64 r.(smpc_rq_device_id) &&
  is_u32 r.(smpc_rq_flags) &&
  is_u32 r.(smpc_rq_mag_filter) &&
  is_u32 r.(smpc_rq_min_filter) &&
  is_u32 r.(smpc_rq_mipmap_mode) &&
  is_u32 r.(smpc_rq_address_mode_u) &&
  is_u32 r.(smpc_rq_address_mode_v) &&
  is_u32 r.(smpc_rq_address_mode_w) &&
  is_u32 r.(smpc_rq_mip_lod_bias_bits) &&
  is_u32 r.(smpc_rq_anisotropy_enable) &&
  is_u32 r.(smpc_rq_max_anisotropy_bits) &&
  is_u32 r.(smpc_rq_compare_enable) &&
  is_u32 r.(smpc_rq_compare_op) &&
  is_u32 r.(smpc_rq_min_lod_bits) &&
  is_u32 r.(smpc_rq_max_lod_bits) &&
  is_u32 r.(smpc_rq_border_color) &&
  is_u32 r.(smpc_rq_unnormalized_coordinates).
Definition zero_smpc_rq := mk_bvb_vulkan_sampler_create_request 0 0 0 0 0 0 0 0 0 0 0 0 0 0 0 0 0.

Record bvb_vulkan_descriptor_write := mk_bvb_vulkan_descriptor_write {
  dw_descriptor_set_id : Z;
  dw_dst_binding : Z;
  dw_dst_array_element : Z;
  dw_descriptor_count : Z;
  dw_descriptor_type : Z;
  dw_first_sampler : Z
}.
Definition dw_rep (r : bvb_vulkan_descriptor_write) : bool :=
  is_u64 r.(dw_descriptor_set_id) &&
  is_u32 r.(dw_dst_binding) &&
  is_u32 r.(dw_dst_array_element) &&
  is_u32 r.(dw_descriptor_count) &&
  is_u32 r.(dw_descriptor_type) &&
  is_u32 r.(dw_first_sampler).
Definition zero_dw := mk_bvb_vulkan_descriptor_write 0 0 0 0 0 0.

Record bvb_vulkan_descriptor_update_request := mk_bvb_vulkan_descriptor_update_request {
  du_rq_device_id : Z;
  du_rq_write_count : Z;
  du_rq_sampler_count : Z;
  du_rq_writes : list bvb_vulkan_descriptor_write;
  du_rq_sampler_ids : list Z
}.
Definition du_rq_rep (r : bvb_vulkan_descriptor_update_request) : bool :=
  is_u64 r.(du_rq_device_id) &&
  is_u32 r.(du_rq_write_count) &&
  is_u32 r.(du_rq_sampler_count) &&
  array_rep BVB_VULKAN_MAX_DESCRIPTOR_WRITES dw_rep
    r.(du_rq_writes) &&
  array_rep BVB_VULKAN_MAX_DESCRIPTOR_SAMPLERS is_u64
    r.(du_rq_sampler_ids).

Record bvb_vulkan_descriptor_update_template_entry := mk_bvb_vulkan_descriptor_update_template_entry {
  dute_dst_binding : Z;
  dute_dst_array_element : Z;
  dute_descriptor_count : Z;
  dute_descriptor_type : Z;
  dute_offset : Z;
  dute_stride : Z
}.
Definition dute_rep (r : bvb_vulkan_descriptor_update_template_entry) : bool :=
  is_u32 r.(dute_dst_binding) &&
  is_u32 r.(dute_dst_array_element) &&
  is_u32 r.(dute_descriptor_count) &&
  is_u32 r.(dute_descriptor_type) &&
  is_u64 r.(dute_offset) &&
  is_u64 r.(dute_stride).
Definition zero_dute := mk_bvb_vulkan_descriptor_update_template_entry 0 0 0 0 0 0.

Record bvb_vulkan_descriptor_update_template_create_request := mk_bvb_vulkan_descriptor_update_template_create_request {
  dutc_rq_device_id : Z;
  dutc_rq_flags : Z;
  dutc_rq_entry_count : Z;
  dutc_rq_template_type : Z;
  dutc_rq_set : Z;
  dutc_rq_descriptor_set_layout_id : Z;
  dutc_rq_pipeline_layout_id : Z;
  dutc_rq_pipeline_bind_point : Z;
  dutc_rq_entries : list bvb_vulkan_descriptor_update_template_entry
}.
Definition dutc_rq_rep (r : bvb_vulkan_descriptor_update_template_create_request) : bool :=
  is_u64 r.(dutc_rq_device_id) &&
  is_u32 r.(dutc_rq_flags) &&
  is_u32 r.(dutc_rq_entry_count) &&
  is_u32 r.(dutc_rq_template_type) &&
  is_u32 r.(dutc_rq_set) &&
  is_u64 r.(dutc_rq_descriptor_set_layout_id) &&
  is_u64 r.(dutc_rq_pipeline_layout_id) &&
  is_u32 r.(dutc_rq_pipeline_bind_point) &&
  array_rep BVB_VULKAN_MAX_DESCRIPTOR_UPDATE_TEMPLATE_ENTRIES dute_rep
    r.(dutc_rq_entries).

Record bvb_vulkan_descriptor_template_value := mk_bvb_vulkan_descriptor_template_value {
  dtv_descriptor_type : Z;
  dtv_image_layout : Z;
  dtv_object_id : Z;
  dtv_auxiliary_object_id : Z;
  dtv_offset : Z;
  dtv_range : Z
}.
Definition dtv_rep (r : bvb_vulkan_descriptor_template_value) : bool :=
  is_u32 r.(dtv_descriptor_type) &&
  is_u32 r.(dtv_image_layout) &&
  is_u64 r.(dtv_object_id) &&
  is_u64 r.(dtv_auxiliary_object_id) &&
  is_u64 r.(dtv_offset) &&
  is_u64 r.(dtv_range).
Definition zero_dtv := mk_bvb_vulkan_descriptor_template_value 0 0 0 0 0 0.

Record bvb_vulkan_descriptor_template_update_request := mk_bvb_vulkan_descriptor_template_update_request {
  dtu_rq_device_id : Z;
  dtu_rq_descriptor_set_id : Z;
  dtu_rq_descriptor_update_template_id : Z;
  dtu_rq_value_count : Z;
  dtu_rq_values : list bvb_vulkan_descriptor_template_value
}.
Definition dtu_rq_rep (r : bvb_vulkan_descriptor_template_update_request) : bool :=
  is_u64 r.(dtu_rq_device_id) &&
  is_u64 r.(dtu_rq_descriptor_set_id) &&
  is_u64 r.(dtu_rq_descriptor_update_template_id) &&
  is_u32 r.(dtu_rq_value_count) &&
  array_rep BVB_VULKAN_MAX_DESCRIPTOR_TEMPLATE_VALUES dtv_rep
    r.(dtu_rq_values).

Record bvb_vulkan_bind_descriptor_sets_request := mk_bvb_vulkan_bind_descriptor_sets_request {
  bds_rq_command_buffer_id : Z;
  bds_rq_pipeline_layout_id : Z;
  bds_rq_pipeline_bind_point : Z;
  bds_rq_first_set : Z;
  bds_rq_descriptor_set_count : Z;
  bds_rq_dynamic_offset_count : Z;
  bds_rq_descriptor_set_ids : list Z;
  bds_rq_dynamic_offsets : list Z
}.
Definition bds_rq_rep (r : bvb_vulkan_bind_descriptor_sets_request) : bool :=
  is_u64 r.(bds_rq_command_buffer_id) &&
  is_u64 r.(bds_rq_pipeline_layout_id) &&
  is_u32 r.(bds_rq_pipeline_bind_point) &&
  is_u32 r.(bds_rq_first_set) &&
  is_u32 r.(bds_rq_descriptor_set_count) &&
  is_u32 r.(bds_rq_dynamic_offset_count) &&
  array_rep BVB_VULKAN_MAX_BOUND_DESCRIPTOR_SETS is_u64
    r.(bds_rq_descriptor_set_ids) &&
  array_rep BVB_VULKAN_MAX_DYNAMIC_OFFSETS is_u32
    r.(bds_rq_dynamic_offsets).

Record bvb_vulkan_pipeline_push_constant_range := mk_bvb_vulkan_pipeline_push_constant_range {
  ppcr_stage_flags : Z;
  ppcr_offset : Z;
  ppcr_size : Z
}.
Definition ppcr_rep (r : bvb_vulkan_pipeline_push_constant_range) : bool :=
  is_u32 r.(ppcr_stage_flags) &&
  is_u32 r.(ppcr_offset) &&
  is_u32 r.(ppcr_size).
Definition zero_ppcr := mk_bvb_vulkan_pipeline_push_constant_range 0 0 0.

Record bvb_vulkan_pipeline_layout_create_request := mk_bvb_vulkan_pipeline_layout_create_request {
  plc_rq_device_id : Z;
  plc_rq_flags : Z;
  plc_rq_set_layout_count : Z;
  plc_rq_push_constant_range_count : Z;
  plc_rq_set_layout_ids : list Z;
  plc_rq_push_constant_ranges : list bvb_vulkan_pipeline_push_constant_range
}.
Definition plc_rq_rep (r : bvb_vulkan_pipeline_layout_create_request) : bool :=
  is_u64 r.(plc_rq_device_id) &&
  is_u32 r.(plc_rq_flags) &&
  is_u32 r.(plc_rq_set_layout_count) &&
  is_u32 r.(plc_rq_push_constant_range_count) &&
  array_rep BVB_VULKAN_MAX_PIPELINE_SET_LAYOUTS is_u64
    r.(plc_rq_set_layout_ids) &&
  array_rep BVB_VULKAN_MAX_PIPELINE_PUSH_CONSTANT_RANGES ppcr_rep
    r.(plc_rq_push_constant_ranges).

