(* ===== verification/Segments.v ===== *)
(** * Segments: several arrays one after the other

    Some messages carry two or three counted arrays after their prefix of
    words.  Each array is a segment of the payload; the lemmas lift the
    contract of one array ([array_sound], [array_complete] of Element) to the
    sequence of loops that write them. *)

From stdpp Require Import list.
From S2P Require Import Prelude Wire Codec Window Element Frame.

#[local] Open Scope list_scope.

(** An array of elements [sg_arr 0 .. sg_arr (sg_count - 1)] at [sg_base],
    the loop body that writes it and the test each element must pass. *)
Record segment := mk_segment {
  sg_type : Type;
  sg_element : element sg_type;
  sg_base : Z;
  sg_count : Z;
  sg_ok : Z -> bool;
  sg_arr : Z -> sg_type;
  sg_body : Z -> bytes -> result bytes
}.
Arguments mk_segment {sg_type}.

Definition segment_at (s : segment) (q : bytes) (i : Z) : bytes :=
  q +! (s.(sg_base) + i * s.(sg_element).(el_size)).
Definition segment_end (s : segment) : Z :=
  s.(sg_base) + s.(sg_count) * s.(sg_element).(el_size).

(** The loops, in order. *)
Fixpoint write_segments (segs : list segment) (out : bytes) : result bytes :=
  match segs with
  | [] => Ok out
  | s :: segs =>
      try out := for_loop s.(sg_count) s.(sg_body) out ;;
      write_segments segs out
  end.

(** What a reader of [q] finds. *)
Definition segment_holds (q : bytes) (s : segment) : Prop :=
  forall i, 0 <= i < s.(sg_count) ->
    s.(sg_ok) i = true /\
    s.(sg_element).(el_decode) (segment_at s q i) = s.(sg_arr) i /\
    s.(sg_element).(el_pad) (segment_at s q i) = true.

(** A loop whose turns test and then do their work. *)
Lemma for_loop_tested {S} count (body : Z -> S -> result S) (ok : Z -> bool)
    (g : Z -> S -> S) e s :
  (forall i s, 0 <= i < count ->
     body i s = if ok i then Ok (g i s) else Err e) ->
  if for_all count ok then exists s', for_loop count body s = Ok s'
  else for_loop count body s = Err e.
Proof.
  intros Hbody. unfold for_all, for_loop.
  assert (Hgen : forall n k s, 0 <= k -> k + Z.of_nat n <= Z.max 0 count ->
    if forallb ok (seqZ k (Z.of_nat n)) then exists s', loop_from n k body s = Ok s'
    else loop_from n k body s = Err e).
  { induction n as [|n IH]; intros k t Hk Hn; [by exists t|].
    rewrite seqZ_cons by lia. cbn [forallb loop_from]. rewrite Hbody by lia.
    destruct (ok k); [cbn [andb]|done].
    replace (Z.pred (Z.of_nat (Datatypes.S n))) with (Z.of_nat n) by lia.
    apply (IH (k + 1)); lia. }
  destruct (Z.leb_spec 0 count).
  - specialize (Hgen (Z.to_nat count) 0 s ltac:(lia) ltac:(lia)).
    by rewrite Z2Nat.id in Hgen by done.
  - unfold seqZ. replace (Z.to_nat count) with O by lia. by exists s.
Qed.

Section segments.
Context (e : Z).

Class LawfulSegment (s : segment) : Prop := {
  segment_element :: LawfulElement s.(sg_element);
  segment_count : 0 <= s.(sg_count);
  segment_body : encodes s.(sg_element) s.(sg_base) s.(sg_count) s.(sg_ok) e
                   s.(sg_arr) s.(sg_body)
}.

(** The segments follow each other from [first] to [last]. *)
Fixpoint chained (first last : Z) (segs : list segment) : Prop :=
  match segs with
  | [] => first = last
  | s :: segs => s.(sg_base) = first /\ chained (segment_end s) last segs
  end.

Lemma chained_le segs : forall first last,
  chained first last segs -> Forall LawfulSegment segs -> first <= last.
Proof.
  induction segs as [|s segs IH]; intros first last; [by intros ->|].
  intros [<- Hc] [Hs Hsegs]%Forall_cons_1. specialize (IH _ _ Hc Hsegs).
  pose proof (el_size_pos (E := s.(sg_element))). pose proof (segment_count (s := s)).
  unfold segment_end in IH. nia.
Qed.

Definition cleared_between (first last : Z) (out : bytes) : Prop :=
  agree out (blank (blen out)) first (last - first).

Definition same_outside (first last : Z) (out out' : bytes) : Prop :=
  forall j m, 0 <= j -> 0 <= m -> j + m <= first \/ last <= j ->
    agree out' out j m.

Lemma write_segments_sound segs : forall first last out out',
  0 <= first -> last <= blen out -> chained first last segs ->
  Forall LawfulSegment segs ->
  Forall (fun s => forall i, 0 <= i < s.(sg_count) -> s.(sg_ok) i = true ->
            s.(sg_element).(el_rep) (s.(sg_arr) i) = true) segs ->
  cleared_between first last out ->
  write_segments segs out = Ok out' ->
  blen out' = blen out /\ same_outside first last out out' /\
  forall q, agree q out' first (last - first) -> Forall (segment_holds q) segs.
Proof.
  induction segs as [|s segs IH]; intros first last out out' Hf Hl Hc Hlaw Hrep Hz H.
  - injection H as <-. split_and!; [done|by intros j m _ _ _ i Hi|by constructor].
  - destruct Hc as [<- Hc]. apply Forall_cons_1 in Hlaw as [Hs Hlaw].
    apply Forall_cons_1 in Hrep as [Hr Hrep]. cbn [write_segments] in H.
    destruct (for_loop _ _ _) as [mid|] eqn:Hrun; [|done].
    pose proof (chained_le segs _ _ Hc Hlaw) as Hle.
    pose proof (el_size_pos (E := s.(sg_element))) as Hsz.
    pose proof (segment_count (s := s)) as Hcount.
    unfold segment_end in *. set (m := s.(sg_base) + _ * _) in *.
    assert (Hcl : cleared s.(sg_element) s.(sg_base) s.(sg_count) (blen out) out).
    { split; [done|]. eapply agree_sub; [exact Hz|lia|lia]. }
    pose proof (fun q => array_sound s.(sg_element) s.(sg_base) s.(sg_count)
      (blen out) s.(sg_ok) e Hf Hcount ltac:(lia) s.(sg_arr) s.(sg_body) out
      mid q segment_body Hcl Hr Hrun) as Harr.
    destruct (Harr mid) as (Hlm & Hom & _); [apply agree_refl|].
    destruct (IH m last mid out') as (Hlo & Hoo & Hq); try done; [lia|lia| |].
    { unfold cleared_between. rewrite Hlm.
      eapply agree_trans; [apply Hom; lia|]. eapply agree_sub; [exact Hz|lia|lia]. }
    split_and!; [by rewrite Hlo| |].
    + intros j k Hj Hk Hout. eapply agree_trans; [apply Hoo; lia|apply Hom; lia].
    + intros q Ha. constructor.
      * destruct (Harr q) as (_ & _ & Hel); [|exact Hel].
        eapply agree_trans; [eapply agree_sub; [exact Ha|lia|lia]|].
        apply Hoo; lia.
      * apply Hq. eapply agree_sub; [exact Ha|lia|lia].
Qed.

Lemma write_segments_complete segs q : forall first last out,
  0 <= first -> last <= blen out -> chained first last segs ->
  Forall LawfulSegment segs -> Forall (segment_holds q) segs ->
  cleared_between first last out ->
  exists out', write_segments segs out = Ok out' /\ blen out' = blen out /\
    same_outside first last out out' /\ agree out' q first (last - first).
Proof.
  induction segs as [|s segs IH]; intros first last out Hf Hl Hc Hlaw Hq Hz.
  - cbn in Hc. subst last. exists out.
    split_and!; [done|done|by intros j m _ _ _ i Hi|intros i Hi; lia].
  - destruct Hc as [<- Hc]. apply Forall_cons_1 in Hlaw as [Hs Hlaw].
    apply Forall_cons_1 in Hq as [Hqs Hq].
    pose proof (chained_le segs _ _ Hc Hlaw) as Hle.
    pose proof (el_size_pos (E := s.(sg_element))) as Hsz.
    pose proof (segment_count (s := s)) as Hcount.
    unfold segment_end in *. set (m := s.(sg_base) + _ * _) in *.
    assert (Hcl : cleared s.(sg_element) s.(sg_base) s.(sg_count) (blen out) out).
    { split; [done|]. eapply agree_sub; [exact Hz|lia|lia]. }
    destruct (array_complete s.(sg_element) s.(sg_base) s.(sg_count) (blen out)
      s.(sg_ok) e Hf Hcount ltac:(lia) s.(sg_arr) s.(sg_body) out q
      segment_body Hcl) as (mid & Hrun & Hlm & Hom & Ham).
    { intros i Hi. destruct (Hqs i Hi) as (Hok & <- & Hp). done. }
    destruct (IH m last mid) as (out' & Hw & Hlo & Hoo & Hao); try done; [lia|lia| |].
    { unfold cleared_between. rewrite Hlm.
      eapply agree_trans; [apply Hom; lia|]. eapply agree_sub; [exact Hz|lia|lia]. }
    exists out'. cbn [write_segments]. rewrite Hrun, Hw. split_and!; [done|by rewrite Hlo| |].
    + intros j k Hj Hk Hout. eapply agree_trans; [apply Hoo; lia|apply Hom; lia].
    + replace (last - s.(sg_base)) with ((m - s.(sg_base)) + (last - m)) by lia.
      apply agree_join; [eapply agree_trans; [apply Hoo; lia|]|].
      * replace (m - sg_base s) with (sg_count s * el_size (sg_element s)) by (unfold m; lia). exact Ham.
      * replace (s.(sg_base) + (m - s.(sg_base))) with m by lia. exact Hao.
Qed.

Lemma write_segments_tested segs : forall out,
  Forall LawfulSegment segs ->
  if forallb (fun s => for_all s.(sg_count) s.(sg_ok)) segs
  then exists out', write_segments segs out = Ok out'
  else write_segments segs out = Err e.
Proof.
  induction segs as [|s segs IH]; intros out H; [by exists out|].
  apply Forall_cons_1 in H as [Hs H]. cbn [forallb write_segments].
  pose proof (for_loop_tested s.(sg_count) s.(sg_body) s.(sg_ok)
    (fun i out => write_window out (s.(sg_base) + i * s.(sg_element).(el_size))
       s.(sg_element).(el_size)
       (fun w => s.(sg_element).(el_encode) w (s.(sg_arr) i))) e out
    segment_body) as Ht.
  destruct (for_all _ _); [destruct Ht as [mid ->]; apply IH, H|by rewrite Ht].
Qed.
End segments.

(** ** Messages laid out as a prefix and segments *)

(** [pn_header] puts the words of the prefix, [pn_reads] is what a reader
    finds there (with the reserved words), [pn_valid] what encoder and decoder
    test outside the arrays, and [pn_norm] clears what is not sent. *)
Record plan (T : Type) := mk_plan {
  pn_capacity : Z;
  pn_prefix : Z;
  pn_rep : T -> bool;
  pn_norm : T -> T;
  pn_valid : T -> bool;
  pn_header : T -> bytes -> bytes;
  pn_reads : bytes -> T -> Prop;
  pn_end : T -> Z;
  pn_segments : T -> list segment
}.
Arguments mk_plan {T}.
Arguments pn_capacity {T}.
Arguments pn_prefix {T}.
Arguments pn_rep {T}.
Arguments pn_norm {T}.
Arguments pn_valid {T}.
Arguments pn_header {T}.
Arguments pn_reads {T}.
Arguments pn_end {T}.
Arguments pn_segments {T}.

Definition elements_rep (s : segment) : Prop :=
  forall i, 0 <= i < s.(sg_count) -> s.(sg_ok) i = true ->
    s.(sg_element).(el_rep) (s.(sg_arr) i) = true.

(** The message before its loops. *)
Definition planned {T} (pn : plan T) (v : T) (out : bytes) : bytes :=
  pn.(pn_header) v (memset0 out 0 (pn.(pn_end) v)).

(** What a decoder accepts. *)
Definition arrives {T} (pn : plan T) (q : bytes) (v : T) : Prop :=
  pn.(pn_valid) v = true /\ pn.(pn_reads) q v /\
  Forall (segment_holds q) (pn.(pn_segments) v).

Class LawfulPlan {T} (pn : plan T) : Prop := {
  plan_prefix_pos : 0 <= pn.(pn_prefix);
  plan_segments v : pn.(pn_rep) v = true -> pn.(pn_valid) v = true ->
    Forall (LawfulSegment (- EINVAL)) (pn.(pn_segments) v) /\
    Forall elements_rep (pn.(pn_segments) v) /\
    chained pn.(pn_prefix) (pn.(pn_end) v) (pn.(pn_segments) v) /\
    pn.(pn_end) v <= pn.(pn_capacity);
  plan_length v out : blen (pn.(pn_header) v out) = blen out;
  plan_outside v out i n : pn.(pn_prefix) <= i ->
    agree (pn.(pn_header) v out) out i n;
  plan_reads v out q : pn.(pn_rep) v = true ->
    pn.(pn_prefix) <= pn.(pn_end) v <= blen out ->
    agree q (planned pn v out) 0 pn.(pn_prefix) -> pn.(pn_reads) q v;
  plan_writes v out q : pn.(pn_reads) q v ->
    pn.(pn_prefix) <= pn.(pn_end) v <= blen out ->
    agree (planned pn v out) q 0 pn.(pn_prefix);
  plan_norm v q : pn.(pn_rep) v = true -> arrives pn q v ->
    pn.(pn_rep) (pn.(pn_norm) v) = true /\
    pn.(pn_norm) (pn.(pn_norm) v) = pn.(pn_norm) v /\
    pn.(pn_end) (pn.(pn_norm) v) = pn.(pn_end) v /\
    arrives pn q (pn.(pn_norm) v)
}.

(** A frame whose encoder and decoder are the plan's. *)
Class FollowsPlan {T} (pn : plan T) (f : framed T) : Prop := {
  frame_capacity : f.(fr_capacity) = pn.(pn_capacity);
  frame_rep : f.(fr_rep) = pn.(pn_rep);
  frame_norm : f.(fr_norm) = pn.(pn_norm);
  frame_encodes out v l :
    f.(fr_encode) (Some out) (Some v) (Some l) =
    (fail_if negb (pn.(pn_valid) v) with (- EINVAL) ;;
     try out := write_segments (pn.(pn_segments) v) (planned pn v out) ;;
     Ok (out, pn.(pn_end) v));
  frame_decodes q n old v : n <= blen q ->
    f.(fr_decode) (Some q) n (Some old) = Ok v <->
    n = pn.(pn_end) v /\ pn.(pn_rep) v = true /\ pn.(pn_norm) v = v /\
    arrives pn q v
}.

Section plans.
Context {T} (pn : plan T) (f : framed T).
Context `{!LawfulPlan pn} `{!FollowsPlan pn f}.

Lemma plan_cleared v out :
  pn.(pn_prefix) <= pn.(pn_end) v <= blen out ->
  blen (planned pn v out) = blen out /\
  cleared_between pn.(pn_prefix) (pn.(pn_end) v) (planned pn v out) /\
  agree (planned pn v out) out (pn.(pn_end) v) (blen out - pn.(pn_end) v).
Proof.
  intros Hend. pose proof plan_prefix_pos as Hp.
  assert (Hl : blen (planned pn v out) = blen out)
    by (unfold planned; by rewrite plan_length, blen_memset0).
  split_and!; [done| |].
  - unfold cleared_between. rewrite Hl. eapply agree_trans; [apply plan_outside; lia|].
    apply cleared_memset0; lia.
  - eapply agree_trans; [apply plan_outside; lia|].
    apply agree_memset0; unfold disjoint; lia.
Qed.

Theorem plan_sound : frame_is_sound f.
Proof.
  intros out v l out' n Hb Hrep H. rewrite frame_capacity, frame_rep in *.
  rewrite frame_encodes in H. destruct (pn.(pn_valid) v) eqn:Hv; [|done].
  cbn [negb] in H. destruct (write_segments _ _) as [o|] eqn:Hrun; [|done].
  injection H as <- <-.
  destruct (plan_segments v Hrep Hv) as (Hs & Hr & Hc & He).
  pose proof (chained_le _ _ _ _ Hc Hs) as Hle. pose proof plan_prefix_pos as Hp.
  destruct (plan_cleared v out ltac:(lia)) as (Hl & Hz & Ho).
  destruct (write_segments_sound (- EINVAL) (pn.(pn_segments) v) pn.(pn_prefix)
    (pn.(pn_end) v) (planned pn v out) o Hp ltac:(lia) Hc Hs Hr Hz Hrun)
    as (Hlo & Hout & Hq).
  split_and!; [lia|done|lia| |].
  - eapply agree_trans; [apply Hout; lia|done].
  - intros q old Hlq Ha. apply frame_decodes; [done|]. rewrite frame_norm.
    destruct (plan_norm v q Hrep) as (R & N & E & A).
    { split_and!; [done| |].
      - apply (plan_reads v out q); [done|lia|].
        eapply agree_trans; [eapply agree_sub; [exact Ha|lia|lia]|apply Hout; lia].
      - apply Hq. eapply agree_sub; [exact Ha|lia|lia]. }
    split_and!; [by rewrite E|done|done|done].
Qed.

(** What arrived is written back. *)
Lemma plan_writes_back v q out :
  pn.(pn_rep) v = true -> arrives pn q v -> pn.(pn_capacity) <= blen out ->
  exists out', write_segments (pn.(pn_segments) v) (planned pn v out) = Ok out' /\
    blen out' = blen out /\ agree out' q 0 (pn.(pn_end) v) /\
    0 <= pn.(pn_end) v <= blen out.
Proof.
  intros Hrep (Hv & Hread & Hq) Hb.
  destruct (plan_segments v Hrep Hv) as (Hs & Hr & Hc & He).
  pose proof (chained_le _ _ _ _ Hc Hs) as Hle. pose proof plan_prefix_pos as Hp.
  destruct (plan_cleared v out ltac:(lia)) as (Hl & Hz & Ho).
  destruct (write_segments_complete (- EINVAL) (pn.(pn_segments) v) q
    pn.(pn_prefix) (pn.(pn_end) v) (planned pn v out) Hp ltac:(lia) Hc Hs Hq Hz)
    as (out' & Hrun & Hlo & Hout & Ha).
  exists out'. split_and!; [done|by rewrite Hlo| |lia|lia].
  replace (pn.(pn_end) v) with (pn.(pn_prefix) + (pn.(pn_end) v - pn.(pn_prefix))) by lia.
  apply agree_join; [|done].
  eapply agree_trans; [apply Hout; lia|]. apply plan_writes; [done|lia].
Qed.

Theorem plan_complete : frame_is_complete f.
Proof.
  intros q n old v out l Hlq Hb H. rewrite frame_capacity in Hb.
  rewrite frame_decodes in H by done. destruct H as (-> & Hrep & Hnorm & Hq).
  rewrite frame_rep, frame_norm. split_and!; [done|done|].
  destruct (plan_writes_back v q out Hrep Hq Hb) as (out' & Hrun & _ & Ha & _).
  exists out'. destruct Hq as (Hv & _). by rewrite frame_encodes, Hv, Hrun.
Qed.

(** The test that decides whether the encoder accepts a value. *)
Definition encodable (v : T) : bool :=
  pn.(pn_valid) v &&
  forallb (fun s => for_all s.(sg_count) s.(sg_ok)) (pn.(pn_segments) v).
End plans.
