(* ===== verification/MessagePlan.v ===== *)
(** * MessagePlan: messages whose arrays are lists

    The encoders of src/vulkan_descriptor_wire.c, of the pipeline layout of
    src/vulkan_pipeline_wire.c and of submissions write each of their arrays
    in one loop and test each element before it is written; their decoders
    read the arrays and run the encoder on what they read.  [array_segment]
    is such a loop; the lemmas say what the encoder and the decoder of such a
    message compute, once for all of them. *)

From stdpp Require Import list.
From S2P Require Import Prelude Wire Abi Codec Window Element Frame Segments.

#[local] Open Scope list_scope.

(** ** One array *)

(** The test may look at the whole array, as when no two elements may have
    the same key. *)
Definition array_segment {A} (E : element A) (base count : Z)
    (ok : list A -> Z -> bool) (arr : list A) : segment :=
  {| sg_element := E; sg_base := base; sg_count := count;
     sg_ok := ok arr;
     sg_arr := elt E.(el_zero) arr;
     sg_body index output :=
       fail_if negb (ok arr index) with (- EINVAL) ;;
       Ok (write_window output (base + index * E.(el_size)) E.(el_size)
             (fun w => E.(el_encode) w (elt E.(el_zero) arr index))) |}.

(** A decoder's array of [max] elements after it read [count] of them. *)
Definition read_array {A} (E : element A) (q : bytes) (base count : Z)
    (max : nat) : list A :=
  fill_array count (fun i => E.(el_decode) (q +! (base + i * E.(el_size))))
    (replicate max E.(el_zero)).

(** Unused bytes of the elements. *)
Definition padded {A} (E : element A) (q : bytes) (base count : Z) : bool :=
  for_all count (fun i => E.(el_pad) (q +! (base + i * E.(el_size)))).

(** A test that only looks at elements up to its own. *)
Definition local_test {A} (zero : A) (ok : list A -> Z -> bool) : Prop :=
  forall arr arr' i, 0 <= i ->
    (forall j, 0 <= j <= i -> elt zero arr j = elt zero arr' j) ->
    ok arr i = ok arr' i.

Lemma for_loop_ext {S} count (body body' : Z -> S -> result S) s :
  (forall i s, 0 <= i < count -> body i s = body' i s) ->
  for_loop count body s = for_loop count body' s.
Proof.
  intros H. unfold for_loop.
  assert (Hgen : forall n k s, 0 <= k -> k + Z.of_nat n <= Z.max 0 count ->
    loop_from n k body s = loop_from n k body' s).
  { induction n as [|n IH]; intros k t Hk Hn; [done|]. cbn [loop_from].
    rewrite H by lia. destruct (body' k t); [apply IH; lia|done]. }
  apply Hgen; lia.
Qed.

Lemma keep_rep {A} count max (zero : A) (rep : A -> bool) arr :
  array_rep max rep arr = true -> 0 <= count <= max -> rep zero = true ->
  array_rep max rep (keep count zero arr) = true.
Proof.
  intros Hr Hc Hz. pose proof (array_rep_length _ _ _ Hr) as Hl.
  unfold array_rep in *. apply andb_true_iff in Hr as [_ Hf].
  rewrite length_keep by lia. rewrite Hl, Z.eqb_refl. cbn [andb].
  unfold keep. rewrite forallb_app. apply andb_true_iff. split.
  - rewrite forallb_forall in *. intros x Hx. apply Hf.
    apply list_elem_of_In in Hx as [j Hj]%list_elem_of_lookup.
    apply list_elem_of_In, list_elem_of_lookup. exists j.
    by apply lookup_take_Some in Hj as [Hj _].
  - apply forallb_forall. intros x Hx.
    by apply list_elem_of_In, elem_of_replicate in Hx as [-> _].
Qed.

Lemma keep_keep {A} count max (zero : A) (rep : A -> bool) arr :
  array_rep max rep arr = true -> 0 <= count <= max ->
  keep count zero (keep count zero arr) = keep count zero arr.
Proof.
  intros Hr Hc. pose proof (array_rep_length _ _ _ Hr) as Hl.
  apply list_eq. intros j.
  rewrite lookup_keep by (rewrite length_keep by lia; lia).
  rewrite lookup_keep, length_keep by lia.
  by destruct (decide (Z.of_nat j < count)).
Qed.

Section array.
Context {A} (E : element A) `{!LawfulElement E}.

Lemma array_segment_lawful base count ok arr :
  0 <= count -> LawfulSegment (- EINVAL) (array_segment E base count ok arr).
Proof.
  intros Hc. constructor; [done|done|]. intros i out Hi. cbn -[Z.add Z.mul].
  by destruct (ok arr i).
Qed.

Lemma array_segment_rep base count ok arr max :
  array_rep max E.(el_rep) arr = true -> count <= max ->
  elements_rep (array_segment E base count ok arr).
Proof.
  intros Hr Hc i Hi _. cbn -[Z.add Z.mul] in *.
  eapply array_rep_elt; [done|lia].
Qed.

Lemma read_array_rep q base count max :
  0 <= count <= Z.of_nat max ->
  array_rep (Z.of_nat max) E.(el_rep) (read_array E q base count max) = true.
Proof.
  intros Hc. apply array_rep_fill; [done|apply el_zero_rep|].
  intros. apply el_decode_rep.
Qed.

Lemma read_array_keep q base count max :
  0 <= count <= Z.of_nat max ->
  keep count E.(el_zero) (read_array E q base count max) =
  read_array E q base count max.
Proof. intros Hc. by apply keep_fill_array. Qed.

(** What was read is what the segment holds, if it passes the test. *)
Lemma read_array_holds q base count ok max :
  0 <= count <= Z.of_nat max ->
  segment_holds q (array_segment E base count ok (read_array E q base count max)) <->
  for_all count (ok (read_array E q base count max)) = true /\
  padded E q base count = true.
Proof.
  intros Hc. unfold padded. rewrite !for_all_spec. split.
  - intros H. split; intros i Hi; by destruct (H i Hi) as (? & _ & ?).
  - intros [Ht Hp] i Hi. cbn -[Z.add Z.mul] in *.
    split_and!; [by apply Ht| |by apply Hp]. unfold read_array. by rewrite elt_fill_array by lia.
Qed.

Lemma segment_padded q base count ok arr :
  segment_holds q (array_segment E base count ok arr) ->
  padded E q base count = true.
Proof. intros H. apply for_all_spec. intros i Hi. by destruct (H i Hi) as (_ & _ & ?). Qed.

Lemma array_segment_read q base count ok arr max :
  0 <= count <= Z.of_nat max -> Z.of_nat (length arr) = Z.of_nat max ->
  keep count E.(el_zero) arr = arr ->
  segment_holds q (array_segment E base count ok arr) ->
  arr = read_array E q base count max.
Proof.
  intros Hc Hl Hk Hq. unfold read_array. rewrite <- Hk. symmetry.
  apply fill_array_keep; [lia|lia|]. intros i Hi.
  destruct (Hq i Hi) as (_ & Hd & _). exact Hd.
Qed.

(** Clearing what is not sent changes nothing for the receiver. *)
Lemma keep_holds q base count ok arr max :
  Z.of_nat (length arr) = max -> count <= max ->
  local_test E.(el_zero) ok ->
  segment_holds q (array_segment E base count ok arr) ->
  segment_holds q
    (array_segment E base count ok (keep count E.(el_zero) arr)).
Proof.
  intros Hl Hc Hlocal Hq i Hi.
  destruct (Hq i Hi) as (Hok & Hd & Hp). cbn -[Z.add Z.mul] in *.
  rewrite elt_keep by lia. split_and!; [|done|done].
  rewrite <- Hok. apply Hlocal; [lia|]. intros j Hj. apply elt_keep; lia.
Qed.
End array.

(** ** The loops of a decoder *)

Lemma read_array_loop {A} (E : element A) q base count max body e :
  (forall i arr, 0 <= i < count -> body i arr =
     (fail_if negb (E.(el_pad) (q +! (base + i * E.(el_size)))) with e ;;
      Ok (<[Z.to_nat i := E.(el_decode) (q +! (base + i * E.(el_size)))]> arr))) ->
  for_loop count body (replicate max E.(el_zero)) =
  if padded E q base count then Ok (read_array E q base count max) else Err e.
Proof.
  intros Hbody. unfold padded, read_array.
  apply (for_loop_fill count (fun i => E.(el_decode) (q +! (base + i * E.(el_size))))
    (fun i => E.(el_pad) (q +! (base + i * E.(el_size))))).
  intros i arr Hi. rewrite Hbody by done. by destruct (el_pad _ _).
Qed.

(** The loop tests each element it reads. *)
Lemma read_array_tested {A} (E : element A) q base count max (ok : A -> bool)
    body e :
  0 <= count <= Z.of_nat max ->
  (forall i arr, 0 <= i < count -> body i arr =
     (fail_if negb (ok (E.(el_decode) (q +! (base + i * E.(el_size)))) &&
                    E.(el_pad) (q +! (base + i * E.(el_size)))) with e ;;
      Ok (<[Z.to_nat i := E.(el_decode) (q +! (base + i * E.(el_size)))]> arr))) ->
  for_loop count body (replicate max E.(el_zero)) =
  let arr := read_array E q base count max in
  if for_all count (fun i => ok (elt E.(el_zero) arr i)) && padded E q base count
  then Ok arr else Err e.
Proof.
  intros Hc Hbody. cbv zeta. unfold padded.
  rewrite (for_loop_fill count (fun i => E.(el_decode) (q +! (base + i * E.(el_size))))
    (fun i => ok (E.(el_decode) (q +! (base + i * E.(el_size)))) &&
              E.(el_pad) (q +! (base + i * E.(el_size)))) e).
  - fold (read_array E q base count max).
    replace (for_all count _ && for_all count _) with (for_all count (fun i =>
      ok (E.(el_decode) (q +! (base + i * E.(el_size)))) &&
      E.(el_pad) (q +! (base + i * E.(el_size))))); [done|].
    apply eq_true_iff_eq. rewrite andb_true_iff, !for_all_spec.
    setoid_rewrite andb_true_iff. unfold read_array.
    split; [intros H; split|intros [H1 H2]]; intros i Hi.
    + rewrite elt_fill_array by lia. by apply H.
    + by apply H.
    + specialize (H1 i Hi). rewrite elt_fill_array in H1 by lia. auto.
  - intros i arr Hi. rewrite Hbody by done. by destruct (_ && _).
Qed.

Lemma padded_total {A} (E : element A) q base count :
  (forall w, E.(el_pad) w = true) -> padded E q base count = true.
Proof. intros H. apply for_all_spec. auto. Qed.

(** [H] says that the arrays agree up to [i]. *)
Ltac solve_local :=
  let arr := fresh in let arr' := fresh in let i := fresh in
  let Hi := fresh in let H := fresh in
  intros arr arr' i Hi H; cbn in H |- *; rewrite ?(H i) by lia;
  repeat first
    [ reflexivity
    | apply for_all_ext; intros; rewrite !H by lia; reflexivity
    | f_equal ].

(** ** Proof steps for plans

    [solve_plan] proves that a plan is lawful when its segments are arrays;
    [local] proves that their tests are local. *)

Ltac plan_open := cbn -[Z.add Z.mul chained] in *.
Ltac plan_bounds :=
  repeat match goal with
  | H : is_u32 ?c = true |- _ =>
      lazymatch goal with
      | _ : 0 <= c < 2 ^ 32 |- _ => fail
      | _ => pose proof (proj1 (is_u32_spec c) H)
      end
  end.

Ltac plan_segments_step :=
  let v := fresh "v" in let Hrep := fresh in let Hv := fresh in
  intros v Hrep Hv; destruct v; plan_open; open_rep Hrep; split_tests;
  plan_bounds; rewrite ?list.Forall_cons, ?list.Forall_nil;
  split_and!;
  [ .. | lia ];
  lazymatch goal with
  | |- LawfulSegment _ _ => apply array_segment_lawful; [apply _|lia]
  | |- elements_rep _ =>
      eapply array_segment_rep; [eassumption|first [assumption|lia]]
  | |- True => exact I
  | |- chained _ _ _ =>
      cbn -[Z.add Z.mul]; unfold segment_end; cbn -[Z.add Z.mul];
      split_and!; lia
  end.

Ltac plan_reads_step :=
  let v := fresh "v" in let q := fresh "q" in let Hrep := fresh in
  let He := fresh in let Ha := fresh in
  intros v ? q Hrep He Ha; destruct v; unfold planned in Ha; plan_open;
  open_rep Hrep; split_tests; extent_read Ha; wire_read; split_and!; done.

Ltac plan_writes_step :=
  let v := fresh "v" in let q := fresh "q" in let Hr := fresh in
  let He := fresh in
  intros v ? q Hr He; destruct v; unfold planned; plan_open;
  repeat match goal with H : _ /\ _ |- _ => destruct H end; subst; agree_words.

Ltac plan_norm_step local :=
  let v := fresh "v" in let q := fresh "q" in let Hrep := fresh in
  let Hv := fresh in let Hr := fresh in let Hs := fresh in
  intros v q Hrep (Hv & Hr & Hs); destruct v; plan_open; open_rep Hrep;
  split_tests; plan_bounds; rewrite ?list.Forall_cons in Hs;
  repeat match goal with H : _ /\ _ |- _ => destruct H end;
  split_and!;
  [ open_rep_goal; use_tests;
    repeat match goal with
    | H : array_rep ?m ?rep ?arr = true
      |- context [array_rep ?m ?rep (keep ?c ?zero ?arr)] =>
        rewrite (keep_rep c m zero rep arr H) by (lia || reflexivity)
    end; reflexivity
  | repeat match goal with
    | H : array_rep ?m ?rep ?arr = true
      |- context [keep ?c ?zero (keep ?c ?zero ?arr)] =>
        rewrite (keep_keep c m zero rep arr H) by lia
    end; reflexivity
  | reflexivity
  | unfold arrives; plan_open; rewrite ?list.Forall_cons;
    split_and!; try assumption; [use_tests; reflexivity|..];
    eapply keep_holds;
    first [ eapply array_rep_length; eassumption | lia | assumption
          | apply _ | local ] ].

Ltac solve_plan local :=
  constructor;
  [ cbn; lia
  | plan_segments_step
  | intros; cbn; autorewrite with blen; reflexivity
  | intros; plan_open; wire_frame
  | plan_reads_step
  | plan_writes_step
  | plan_norm_step local ].

(** ** Decoders that run the encoder *)

(** What a decoder does with the bytes the encoder gave: nothing, or compare
    them with the input. *)
Definition any_difference (_ : bytes) (_ : Z) (_ : bytes) (_ : Z) : bool :=
  false.
Definition byte_difference (p : bytes) (m : Z) (q : bytes) (n : Z) : bool :=
  negb (m =? n) || memcmp_ne p q n.

(** [gate] is what the decoder tests before it has a request, [parse] the
    request it builds, and [differ] its last comparison. *)
Section decodes.
Context {T} (pn : plan T) (f : framed T).
Context (gate : bytes -> Z -> bool) (parse : bytes -> T).
Context (differ : bytes -> Z -> bytes -> Z -> bool).
Context `{!LawfulPlan pn}.
Hypothesis Hcapacity : f.(fr_capacity) = pn.(pn_capacity).
Hypothesis Hrep : f.(fr_rep) = pn.(pn_rep).
Hypothesis Hnorm : f.(fr_norm) = pn.(pn_norm).
Hypothesis Hencode : forall out v l,
  f.(fr_encode) (Some out) (Some v) (Some l) =
  (fail_if negb (pn.(pn_valid) v) with (- EINVAL) ;;
   try out := write_segments (pn.(pn_segments) v) (planned pn v out) ;;
   Ok (out, pn.(pn_end) v)).
Hypothesis Hparse : forall q n, gate q n = true ->
  pn.(pn_rep) (parse q) = true /\ pn.(pn_norm) (parse q) = parse q /\
  n = pn.(pn_end) (parse q) /\
  (encodable pn (parse q) = true -> arrives pn q (parse q)).
Hypothesis Hgate : forall q v, pn.(pn_rep) v = true -> pn.(pn_norm) v = v ->
  arrives pn q v -> v = parse q /\ gate q (pn.(pn_end) v) = true.

Lemma arrives_encodable q v : arrives pn q v -> encodable pn v = true.
Proof.
  intros (Hv & _ & Hs). unfold encodable. rewrite Hv. cbn [andb].
  apply forallb_forall. intros s Hin. apply for_all_spec. intros i Hi.
  rewrite List.Forall_forall in Hs. by destruct (Hs s Hin i Hi).
Qed.

(** A decoder that makes the encoder's tests itself. *)
Lemma follows_parsing :
  (forall q n old v, f.(fr_decode) (Some q) n (Some old) = Ok v <->
     gate q n = true /\ v = parse q /\ encodable pn v = true) ->
  FollowsPlan pn f.
Proof.
  intros Hdecode. constructor; [done|done|done|done|].
  intros q n old v Hn. rewrite Hdecode. split.
  - intros (Hg & -> & He). destruct (Hparse q n Hg) as (R & N & E & A). auto.
  - intros (-> & R & N & A). destruct (Hgate q v R N A) as [E G].
    split_and!; [done|done|by eapply arrives_encodable].
Qed.

Hypothesis Hdecode : forall q n old v,
  f.(fr_decode) (Some q) n (Some old) = Ok v <->
  gate q n = true /\ v = parse q /\
  exists p m, f.(fr_encode) (Some (blank pn.(pn_capacity))) (Some v) (Some 0) =
    Ok (p, m) /\ differ p m q n = false.
Hypothesis Hdiffer : forall p q n,
  memcmp_ne p q n = false -> differ p n q n = false.
Hypothesis Hsize : 0 <= pn.(pn_capacity).

Lemma follows_encoding : FollowsPlan pn f.
Proof.
  constructor; [done|done|done|done|]. intros q n old v Hn. rewrite Hdecode. split.
  - intros (Hg & -> & p & m & He & _). destruct (Hparse q n Hg) as (R & N & E & A).
    split_and!; [done|done|done|]. apply A.
    rewrite Hencode in He. unfold encodable.
    destruct (pn.(pn_valid) (parse q)) eqn:Hv; [cbn [negb andb] in *|done].
    destruct (plan_segments (parse q) R Hv) as (Hs & _).
    pose proof (write_segments_tested (- EINVAL) _
      (planned pn (parse q) (blank pn.(pn_capacity))) Hs) as Ht.
    destruct (forallb _ _); [done|]. by rewrite Ht in He.
  - intros (-> & R & N & A). destruct (Hgate q v R N A) as [E G].
    split_and!; [done|done|].
    destruct (plan_writes_back pn v q (blank pn.(pn_capacity)) R A)
      as (p & Hrun & Hl & Ha & He); [by rewrite blen_blank|].
    exists p, (pn.(pn_end) v). destruct A as (Hv & _).
    rewrite Hencode, Hv, Hrun. split; [done|].
    apply Hdiffer, memcmp_ne_false; [lia|lia|lia|done].
Qed.
End decodes.

(** Tautologies over the tests that occur. *)
Ltac bool_cases :=
  repeat match goal with
  | |- context [for_all ?c ?f] => destruct (for_all c f)
  | |- context [?a =? ?b] => destruct (a =? b)
  | |- context [?a <? ?b] => destruct (a <? b)
  | |- context [?a <=? ?b] => destruct (a <=? b)
  end; try reflexivity.

(** The encoder's tests and loops are the plan's. *)
Ltac plan_guard :=
  rewrite ?negb_andb, ?Z.leb_antisym, ?negb_involutive, ?negb_orb.
Ltac plan_loops turn :=
  repeat
    (lazymatch goal with
     | |- ?L = ?R =>
         lazymatch L with
         | context [for_loop ?c ?b ?s] =>
             lazymatch R with
             | context [for_loop c b s] => fail
             | context [for_loop c ?b' s] =>
                 rewrite (for_loop_ext c b b' s);
                 [ destruct (for_loop c b' s) as [?|]; [|reflexivity]
                 | let i := fresh "i" in let o := fresh in
                   intros i o ?; cbn -[Z.add Z.mul]; turn ]
             end
         end
     end);
  try first [reflexivity | destruct (for_loop _ _ _); reflexivity].
Ltac solve_encodes turn :=
  let out := fresh in let v := fresh "v" in let l := fresh in
  intros out v l; destruct v; cbn -[Z.add Z.mul array_segment write_segments];
  plan_guard;
  match goal with
  | |- (if ?c then _ else _) = (if ?d then _ else _) =>
      replace d with c by first [reflexivity | bool_cases]; destruct c; [reflexivity|]
  end;
  unfold planned; cbn -[Z.add Z.mul]; plan_loops turn.

(** The decoder's tests, loops and comparison are the gate and the parser. *)
Ltac gate_cases :=
  repeat match goal with
  | |- context [padded ?E ?q ?b ?c] => destruct (padded E q b c)
  | |- context [?a =? ?b] => destruct (a =? b)
  | |- context [?a <? ?b] => destruct (a <? b)
  end; cbn [negb andb orb];
  try (split; [discriminate|intros (? & _); discriminate]).
Ltac solve_decodes gate parse enc loops :=
  let q := fresh "q" in let n := fresh "n" in let v := fresh "v" in
  intros q n ? v; unfold gate; cbn -[Z.add Z.mul enc];
  rewrite ?Z.leb_antisym; loops q; gate_cases; fold (parse q);
  let D := fresh "D" in set (D := parse q);
  let p := fresh "p" in let m := fresh "m" in let He := fresh in
  destruct (enc _ (Some D) _) as [[p m]|] eqn:He;
    [|split; [discriminate|intros (_ & -> & ? & ? & ? & _); congruence]];
  cbn [fst snd]; unfold any_difference, byte_difference;
  lazymatch goal with
  | |- (if ?c then _ else _) = _ <-> _ =>
      let Hc := fresh in destruct c eqn:Hc;
      [ split; [discriminate|];
        let E := fresh in let C := fresh in
        intros (_ & -> & ? & ? & E & C); rewrite He in E;
        injection E as <- <-; congruence
      | ]
  | _ => idtac
  end;
  split; [intros [= <-]; split_and!; [done|done|by exists p, m]
         |by intros (_ & -> & _)].

(** [padding]: the segments' padding was tested, or there is none. *)
Ltac solve_parse gate :=
  let q := fresh "q" in let n := fresh "n" in let Hg := fresh in
  intros q n Hg; unfold gate in Hg; split_tests;
  repeat match goal with
  | H : (bvb_wire_get_u32 ?q ?i <=? _) = true |- _ =>
      pose proof (proj1 (is_u32_spec _) (get_u32_range q i));
      apply Z.leb_le in H
  end;
  split_and!;
  [ cbn -[read_array]; open_rep_goal;
    cbn -[read_array]; rewrite ?get_u32_range, ?get_u64_range, ?get_i32_range;
    repeat match goal with
    | |- context [array_rep ?m ?rep (read_array ?E ?q ?b ?c ?max)] =>
        replace (array_rep m rep (read_array E q b c max)) with true
          by (symmetry; apply (read_array_rep E q b c max); lia)
    end; reflexivity
  | cbn -[read_array];
    repeat match goal with
    | |- context [keep ?c ?zero (read_array ?E ?q ?b ?c ?max)] =>
        replace (keep c zero (read_array E q b c max))
          with (read_array E q b c max)
          by (symmetry; apply (read_array_keep E q b c max); lia)
    end; reflexivity
  | cbn -[Z.add Z.mul]; lia
  | unfold encodable, arrives;
    cbn -[Z.add Z.mul read_array array_segment];
    intros ?; split_tests; rewrite ?list.Forall_cons;
    split_and!; try first [done | lia | use_tests; done];
    match goal with
    | |- segment_holds ?q
           (array_segment ?E ?b ?c ?ok (read_array ?E ?q ?b ?c ?max)) =>
        refine (proj2 (read_array_holds E q b c ok max _) (conj _ _));
        [lia|assumption|first [assumption|apply padded_total; done]]
    end ].

Ltac solve_gate gate :=
  let q := fresh "q" in let v := fresh "v" in
  let R := fresh in let N := fresh in let V := fresh in let Rd := fresh in
  let Hs := fresh in
  intros q v R N (V & Rd & Hs); destruct v; plan_open; open_rep R;
  split_tests; plan_bounds; rewrite ?list.Forall_cons in Hs;
  repeat match goal with H : _ /\ _ |- _ => destruct H end; subst;
  injection N; intros;
  repeat match goal with
  | H : segment_holds q (array_segment ?E ?b ?c ?ok ?arr),
    Hr : array_rep ?m _ ?arr = true |- _ =>
      pose proof (segment_padded E q b c ok arr H);
      let Ea := fresh in
      pose proof (array_segment_read E q b c ok arr (Z.to_nat m) ltac:(lia)
        ltac:(rewrite (array_rep_length _ _ _ Hr); reflexivity)
        ltac:(assumption) H) as Ea;
      change (Z.to_nat m) with ltac:(let k := eval vm_compute in (Z.to_nat m) in exact k) in Ea;
      clear H; subst arr
  end;
  split; [reflexivity|];
  unfold gate; rewrite !andb_true_iff; split_and!; first [assumption | lia].

Ltac solve_follows gate parse differ enc loops turn :=
  apply (follows_encoding _ _ gate parse differ);
  [ reflexivity | reflexivity | reflexivity
  | solve_encodes turn
  | solve_parse gate
  | solve_gate gate
  | solve_decodes gate parse enc loops
  | unfold any_difference, byte_difference; intros; use_tests;
    rewrite ?Z.eqb_refl; reflexivity
  | cbn; lia ].

(** A decoder's loop over elements [E]; [base] and [count] are its own. *)
Ltac read_loop E q base count max :=
  rewrite (read_array_loop E q base count max _ (- EPROTO))
    by (intros; cbn -[Z.add Z.mul]; reflexivity);
  try rewrite (padded_total E q base count) by reflexivity.

Ltac solve_planned_frame pn f :=
  solve_lawful_frame (plan_sound pn f).
