(* ===== verification/MessageSubmit.v ===== *)
(** * MessageSubmit: submissions with semaphores, fences and streams

    Models the queue_submit_2 messages of src/protocol.c: three counted
    arrays after a prefix of words.  The plain and the stream message share
    the structure; only the stream message carries where the service finds
    the recorded commands of a command buffer in the shared region. *)

From stdpp Require Import list.
From S2P Require Import Prelude Wire Abi Codec ProtocolBase Window Element Frame Segments MessagePlan.

#[local] Open Scope list_scope.

(** ** Structures *)

Record bvb_vulkan_submit_2_semaphore_record :=
    mk_bvb_vulkan_submit_2_semaphore_record {
  s2s_semaphore_id : Z;
  s2s_value : Z;
  s2s_stage_mask : Z;
  s2s_device_index : Z
}.
Definition s2s_rep (r : bvb_vulkan_submit_2_semaphore_record) : bool :=
  is_u64 r.(s2s_semaphore_id) && is_u64 r.(s2s_value) &&
  is_u64 r.(s2s_stage_mask) && is_u32 r.(s2s_device_index).
Definition zero_s2s := mk_bvb_vulkan_submit_2_semaphore_record 0 0 0 0.

Record bvb_vulkan_submit_2_command_record :=
    mk_bvb_vulkan_submit_2_command_record {
  s2c_command_buffer_id : Z;
  s2c_stream_generation : Z;
  s2c_stream_sequence : Z;
  s2c_stream_offset : Z;
  s2c_stream_length : Z;
  s2c_device_mask : Z;
  s2c_stream_flags : Z
}.
Definition s2c_rep (r : bvb_vulkan_submit_2_command_record) : bool :=
  is_u64 r.(s2c_command_buffer_id) && is_u64 r.(s2c_stream_generation) &&
  is_u64 r.(s2c_stream_sequence) && is_u32 r.(s2c_stream_offset) &&
  is_u32 r.(s2c_stream_length) && is_u32 r.(s2c_device_mask) &&
  is_u32 r.(s2c_stream_flags).
Definition zero_s2c := mk_bvb_vulkan_submit_2_command_record 0 0 0 0 0 0 0.

Record bvb_vulkan_queue_submit_2_request :=
    mk_bvb_vulkan_queue_submit_2_request {
  s2_rq_queue_id : Z;
  s2_rq_fence_id : Z;
  s2_rq_flags : Z;
  s2_rq_wait_count : Z;
  s2_rq_command_count : Z;
  s2_rq_signal_count : Z;
  s2_rq_waits : list bvb_vulkan_submit_2_semaphore_record;
  s2_rq_commands : list bvb_vulkan_submit_2_command_record;
  s2_rq_signals : list bvb_vulkan_submit_2_semaphore_record
}.
Definition s2_rq_rep (r : bvb_vulkan_queue_submit_2_request) : bool :=
  is_u64 r.(s2_rq_queue_id) && is_u64 r.(s2_rq_fence_id) &&
  is_u32 r.(s2_rq_flags) && is_u32 r.(s2_rq_wait_count) &&
  is_u32 r.(s2_rq_command_count) && is_u32 r.(s2_rq_signal_count) &&
  array_rep BVB_VULKAN_MAX_SEMAPHORES_PER_WAIT s2s_rep r.(s2_rq_waits) &&
  array_rep BVB_VULKAN_MAX_COMMAND_BUFFERS_PER_SUBMIT s2c_rep
    r.(s2_rq_commands) &&
  array_rep BVB_VULKAN_MAX_SEMAPHORES_PER_WAIT s2s_rep r.(s2_rq_signals).

(** ** Records *)

Definition encode_submit_semaphore (record : bytes)
    (r : bvb_vulkan_submit_2_semaphore_record) : bytes :=
  let record := bvb_wire_put_u64 record 0 r.(s2s_semaphore_id) in
  let record := bvb_wire_put_u64 record 8 r.(s2s_value) in
  let record := bvb_wire_put_u64 record 16 r.(s2s_stage_mask) in
  bvb_wire_put_u32 record 24 r.(s2s_device_index).

Definition decode_submit_semaphore (record : bytes) :
    bvb_vulkan_submit_2_semaphore_record :=
  {| s2s_semaphore_id := bvb_wire_get_u64 record 0;
     s2s_value := bvb_wire_get_u64 record 8;
     s2s_stage_mask := bvb_wire_get_u64 record 16;
     s2s_device_index := bvb_wire_get_u32 record 24 |}.

Definition submit_semaphore_element :
    element bvb_vulkan_submit_2_semaphore_record :=
  {| el_size := BVB_VULKAN_SUBMIT_2_SEMAPHORE_RECORD_SIZE;
     el_zero := zero_s2s; el_rep := s2s_rep;
     el_pad q := bvb_wire_get_u32 q 28 =? 0;
     el_encode := encode_submit_semaphore;
     el_decode := decode_submit_semaphore |}.
#[export] Hint Unfold encode_submit_semaphore decode_submit_semaphore :
  elements.
#[export] Instance submit_semaphore_element_lawful :
  LawfulElement submit_semaphore_element.
Proof. solve_element. Qed.

(** What a record says about its stream when it has none. *)
Definition no_stream_fields (r : bvb_vulkan_submit_2_command_record) : bool :=
  (r.(s2c_stream_generation) =? 0) && (r.(s2c_stream_sequence) =? 0) &&
  (r.(s2c_stream_offset) =? 0) && (r.(s2c_stream_length) =? 0).

Definition is_shared (r : bvb_vulkan_submit_2_command_record) : bool :=
  r.(s2c_stream_flags) =? BVB_VULKAN_SUBMIT_2_COMMAND_SHARED_STREAM.

(** The test both directions make of a command record. *)
Definition submit_command_ok (r : bvb_vulkan_submit_2_command_record) : bool :=
  wire_id_is_type r.(s2c_command_buffer_id) 11 &&
  (Z.ldiff r.(s2c_stream_flags) BVB_VULKAN_SUBMIT_2_COMMAND_SHARED_STREAM
     =? 0) &&
  (is_shared r || no_stream_fields r) &&
  (negb (is_shared r) ||
   (negb (r.(s2c_stream_generation) =? 0) &&
    negb (r.(s2c_stream_sequence) =? 0) &&
    (r.(s2c_stream_offset) mod BVB_COMMAND_STREAM_SLOT_BYTES =? 0) &&
    (r.(s2c_stream_offset) <? BVB_COMMAND_STREAM_REGION_BYTES) &&
    (BVB_COMMAND_BATCH_HEADER_SIZE <=? r.(s2c_stream_length)) &&
    (r.(s2c_stream_length) <=? BVB_COMMAND_STREAM_SLOT_BYTES))).

Definition encode_stream_command (record : bytes)
    (r : bvb_vulkan_submit_2_command_record) : bytes :=
  let record := bvb_wire_put_u64 record 0 r.(s2c_command_buffer_id) in
  let record := bvb_wire_put_u64 record 8 r.(s2c_stream_generation) in
  let record := bvb_wire_put_u64 record 16 r.(s2c_stream_sequence) in
  let record := bvb_wire_put_u32 record 24 r.(s2c_stream_offset) in
  let record := bvb_wire_put_u32 record 28 r.(s2c_stream_length) in
  let record := bvb_wire_put_u32 record 32 r.(s2c_device_mask) in
  bvb_wire_put_u32 record 36 r.(s2c_stream_flags).

Definition decode_stream_command (record : bytes) :
    bvb_vulkan_submit_2_command_record :=
  {| s2c_command_buffer_id := bvb_wire_get_u64 record 0;
     s2c_stream_generation := bvb_wire_get_u64 record 8;
     s2c_stream_sequence := bvb_wire_get_u64 record 16;
     s2c_stream_offset := bvb_wire_get_u32 record 24;
     s2c_stream_length := bvb_wire_get_u32 record 28;
     s2c_device_mask := bvb_wire_get_u32 record 32;
     s2c_stream_flags := bvb_wire_get_u32 record 36 |}.

Definition stream_command_element :
    element bvb_vulkan_submit_2_command_record :=
  {| el_size := BVB_VULKAN_SUBMIT_2_STREAM_COMMAND_RECORD_SIZE;
     el_zero := zero_s2c; el_rep := s2c_rep; el_pad _ := true;
     el_encode := encode_stream_command;
     el_decode := decode_stream_command |}.
#[export] Hint Unfold encode_stream_command decode_stream_command : elements.
#[export] Instance stream_command_element_lawful :
  LawfulElement stream_command_element.
Proof. solve_element. Qed.

Definition encode_plain_command (record : bytes)
    (r : bvb_vulkan_submit_2_command_record) : bytes :=
  let record := bvb_wire_put_u64 record 0 r.(s2c_command_buffer_id) in
  bvb_wire_put_u32 record 8 r.(s2c_device_mask).

Definition decode_plain_command (record : bytes) :
    bvb_vulkan_submit_2_command_record :=
  {| s2c_command_buffer_id := bvb_wire_get_u64 record 0;
     s2c_stream_generation := 0;
     s2c_stream_sequence := 0;
     s2c_stream_offset := 0;
     s2c_stream_length := 0;
     s2c_device_mask := bvb_wire_get_u32 record 8;
     s2c_stream_flags := 0 |}.

(** A plain record has nothing but its identifier and its mask. *)
Definition plain_rep (r : bvb_vulkan_submit_2_command_record) : bool :=
  s2c_rep r && no_stream_fields r && (r.(s2c_stream_flags) =? 0).

Definition plain_command_element :
    element bvb_vulkan_submit_2_command_record :=
  {| el_size := BVB_VULKAN_SUBMIT_2_COMMAND_RECORD_SIZE;
     el_zero := zero_s2c; el_rep := plain_rep;
     el_pad q := bvb_wire_get_u32 q 12 =? 0;
     el_encode := encode_plain_command;
     el_decode := decode_plain_command |}.
#[export] Hint Unfold encode_plain_command decode_plain_command : elements.
#[export] Instance plain_command_element_lawful :
  LawfulElement plain_command_element.
Proof.
  constructor; cbn.
  - lia.
  - reflexivity.
  - intros; autounfold with elements; cbv zeta; by autorewrite with blen.
  - intros w [id gen seq off len mask flags] q Hw Hz Hv Ha.
    unfold plain_rep, no_stream_fields, s2c_rep in Hv. cbn in *. split_tests.
    repeat match goal with H : (?x =? 0) = true |- _ => apply Z.eqb_eq in H; subst x end.
    open_element. split; [|try reflexivity]; extent_read Ha; wire_read; [done|settle_pad w].
  - intros q. unfold plain_rep, s2c_rep, no_stream_fields. cbn.
    by rewrite get_u64_range, get_u32_range.
  - intros w q Hw Hz Hq; open_element; split_tests; pose_pad w; agree_words.
Qed.

Definition encode_semaphores (offset count : Z)
    (records : list bvb_vulkan_submit_2_semaphore_record) (output : bytes) :
    result bytes :=
  for_loop count (fun index output =>
    let record := elt zero_s2s records index in
    fail_if negb (wire_id_is_type record.(s2s_semaphore_id) 17)
      with (- EINVAL) ;;
    Ok (write_window output
          (offset + index * BVB_VULKAN_SUBMIT_2_SEMAPHORE_RECORD_SIZE)
          BVB_VULKAN_SUBMIT_2_SEMAPHORE_RECORD_SIZE
          (fun w => encode_submit_semaphore w record))) output.

Definition decode_semaphores (input : bytes) (offset count : Z) :
    result (list bvb_vulkan_submit_2_semaphore_record) :=
  for_loop count (fun index records =>
    let w := input +!
      (offset + index * BVB_VULKAN_SUBMIT_2_SEMAPHORE_RECORD_SIZE) in
    let record := decode_submit_semaphore w in
    fail_if negb (wire_id_is_type record.(s2s_semaphore_id) 17 &&
                  (bvb_wire_get_u32 w 28 =? 0)) with (- EPROTO) ;;
    Ok (<[Z.to_nat index := record]> records)) (replicate 16 zero_s2s).

(** ** Requests

    [stream_wire] selects the message; the offsets of the arrays are where the
    C code's cursor is when their loops begin. *)

Section submit.
Context (stream_wire : bool).

Definition command_record_size : Z :=
  if stream_wire then BVB_VULKAN_SUBMIT_2_STREAM_COMMAND_RECORD_SIZE
  else BVB_VULKAN_SUBMIT_2_COMMAND_RECORD_SIZE.

Definition submit_2_length (waits commands signals : Z) : Z :=
  BVB_VULKAN_SUBMIT_2_PREFIX_SIZE +
  (waits + signals) * BVB_VULKAN_SUBMIT_2_SEMAPHORE_RECORD_SIZE +
  commands * command_record_size.

Definition encode_commands (offset count : Z)
    (records : list bvb_vulkan_submit_2_command_record) (output : bytes) :
    result bytes :=
  for_loop count (fun index output =>
    let record := elt zero_s2c records index in
    fail_if negb (submit_command_ok record &&
                  (stream_wire ||
                   ((record.(s2c_stream_flags) =? 0) &&
                    no_stream_fields record))) with (- EINVAL) ;;
    Ok (write_window output (offset + index * command_record_size)
          command_record_size
          (fun w => if stream_wire then encode_stream_command w record
                    else encode_plain_command w record))) output.

Definition decode_commands (input : bytes) (offset count : Z) :
    result (list bvb_vulkan_submit_2_command_record) :=
  for_loop count (fun index records =>
    let w := input +! (offset + index * command_record_size) in
    let record := if stream_wire then decode_stream_command w
                  else decode_plain_command w in
    fail_if negb (submit_command_ok record &&
                  (stream_wire || (bvb_wire_get_u32 w 12 =? 0)))
      with (- EPROTO) ;;
    Ok (<[Z.to_nat index := record]> records)) (replicate 16 zero_s2c).

Definition encode_vulkan_queue_submit_2_request
    (output : ptr bytes) (request : ptr bvb_vulkan_queue_submit_2_request)
    (output_length : ptr Z) : result (bytes * Z) :=
  deref output := output or (- EINVAL) ;;
  deref request := request or (- EINVAL) ;;
  deref _ := output_length or (- EINVAL) ;;
  fail_if negb (wire_id_is_type request.(s2_rq_queue_id) 4) ||
          (negb (request.(s2_rq_fence_id) =? 0) &&
           negb (wire_id_is_type request.(s2_rq_fence_id) 18)) ||
          (BVB_VULKAN_MAX_SEMAPHORES_PER_WAIT <?
             request.(s2_rq_wait_count)) ||
          (BVB_VULKAN_MAX_COMMAND_BUFFERS_PER_SUBMIT <?
             request.(s2_rq_command_count)) ||
          (BVB_VULKAN_MAX_SEMAPHORES_PER_WAIT <?
             request.(s2_rq_signal_count)) with (- EINVAL) ;;
  let waits := request.(s2_rq_wait_count) in
  let commands := request.(s2_rq_command_count) in
  let signals := request.(s2_rq_signal_count) in
  let length := submit_2_length waits commands signals in
  let output := memset0 output 0 length in
  let output := bvb_wire_put_u64 output 0 request.(s2_rq_queue_id) in
  let output := bvb_wire_put_u64 output 8 request.(s2_rq_fence_id) in
  let output := bvb_wire_put_u32 output 16 request.(s2_rq_flags) in
  let output := bvb_wire_put_u32 output 20 waits in
  let output := bvb_wire_put_u32 output 24 commands in
  let output := bvb_wire_put_u32 output 28 signals in
  try output := encode_semaphores BVB_VULKAN_SUBMIT_2_PREFIX_SIZE waits
    request.(s2_rq_waits) output ;;
  try output := encode_commands (submit_2_length waits 0 0) commands
    request.(s2_rq_commands) output ;;
  fail_if stream_wire &&
          for_all commands (fun index =>
            negb (is_shared (elt zero_s2c request.(s2_rq_commands) index)))
    with (- EINVAL) ;;
  try output := encode_semaphores (submit_2_length waits commands 0) signals
    request.(s2_rq_signals) output ;;
  Ok (output, length).

Definition decode_vulkan_queue_submit_2_request
    (input : ptr bytes) (input_length : Z)
    (request : ptr bvb_vulkan_queue_submit_2_request) :
    result bvb_vulkan_queue_submit_2_request :=
  deref input := input or (- EINVAL) ;;
  deref _ := request or (- EINVAL) ;;
  fail_if input_length <? BVB_VULKAN_SUBMIT_2_PREFIX_SIZE
    with (- EINVAL) ;;
  let waits := bvb_wire_get_u32 input 20 in
  let commands := bvb_wire_get_u32 input 24 in
  let signals := bvb_wire_get_u32 input 28 in
  fail_if (BVB_VULKAN_MAX_SEMAPHORES_PER_WAIT <? waits) ||
          (BVB_VULKAN_MAX_COMMAND_BUFFERS_PER_SUBMIT <? commands) ||
          (BVB_VULKAN_MAX_SEMAPHORES_PER_WAIT <? signals) with (- EPROTO) ;;
  fail_if negb (input_length =? submit_2_length waits commands signals)
    with (- EPROTO) ;;
  let queue_id := bvb_wire_get_u64 input 0 in
  let fence_id := bvb_wire_get_u64 input 8 in
  fail_if negb (wire_id_is_type queue_id 4) ||
          (negb (fence_id =? 0) && negb (wire_id_is_type fence_id 18))
    with (- EPROTO) ;;
  try wait_records := decode_semaphores input
    BVB_VULKAN_SUBMIT_2_PREFIX_SIZE waits ;;
  try command_records := decode_commands input (submit_2_length waits 0 0)
    commands ;;
  fail_if stream_wire &&
          for_all commands (fun index =>
            negb (is_shared (elt zero_s2c command_records index)))
    with (- EPROTO) ;;
  try signal_records := decode_semaphores input
    (submit_2_length waits commands 0) signals ;;
  Ok {| s2_rq_queue_id := queue_id;
        s2_rq_fence_id := fence_id;
        s2_rq_flags := bvb_wire_get_u32 input 16;
        s2_rq_wait_count := waits;
        s2_rq_command_count := commands;
        s2_rq_signal_count := signals;
        s2_rq_waits := wait_records;
        s2_rq_commands := command_records;
        s2_rq_signals := signal_records |}.

Definition queue_submit_2_frame : framed bvb_vulkan_queue_submit_2_request :=
  {| fr_capacity := if stream_wire then BVB_VULKAN_SUBMIT_2_STREAM_MAX_SIZE
                    else BVB_VULKAN_SUBMIT_2_MAX_SIZE;
     fr_rep := s2_rq_rep;
     fr_norm r :=
       {| s2_rq_queue_id := r.(s2_rq_queue_id);
          s2_rq_fence_id := r.(s2_rq_fence_id);
          s2_rq_flags := r.(s2_rq_flags);
          s2_rq_wait_count := r.(s2_rq_wait_count);
          s2_rq_command_count := r.(s2_rq_command_count);
          s2_rq_signal_count := r.(s2_rq_signal_count);
          s2_rq_waits := keep r.(s2_rq_wait_count) zero_s2s r.(s2_rq_waits);
          s2_rq_commands :=
            keep r.(s2_rq_command_count) zero_s2c r.(s2_rq_commands);
          s2_rq_signals :=
            keep r.(s2_rq_signal_count) zero_s2s r.(s2_rq_signals) |};
     fr_encode := encode_vulkan_queue_submit_2_request;
     fr_decode := decode_vulkan_queue_submit_2_request;
     fr_code := prefix_code BVB_VULKAN_SUBMIT_2_PREFIX_SIZE |}.


(** ** The plan

    A plain command record is one without stream fields. *)

Definition command_ok (r : bvb_vulkan_submit_2_command_record) : bool :=
  submit_command_ok r &&
  (stream_wire || ((r.(s2c_stream_flags) =? 0) && no_stream_fields r)).

Definition command_element : element bvb_vulkan_submit_2_command_record :=
  if stream_wire then stream_command_element else plain_command_element.
#[export] Instance command_element_lawful : LawfulElement command_element.
Proof. unfold command_element. destruct stream_wire; apply _. Qed.

Definition semaphores_ok (records : list bvb_vulkan_submit_2_semaphore_record)
    (i : Z) : bool :=
  wire_id_is_type (elt zero_s2s records i).(s2s_semaphore_id) 17.
Definition commands_ok (records : list bvb_vulkan_submit_2_command_record)
    (i : Z) : bool := command_ok (elt zero_s2c records i).

Definition no_shared_stream (r : bvb_vulkan_queue_submit_2_request) : bool :=
  stream_wire &&
  for_all r.(s2_rq_command_count) (fun index =>
    negb (is_shared (elt zero_s2c r.(s2_rq_commands) index))).

Definition submit_plan : plan bvb_vulkan_queue_submit_2_request :=
  {| pn_capacity := queue_submit_2_frame.(fr_capacity);
     pn_prefix := BVB_VULKAN_SUBMIT_2_PREFIX_SIZE;
     pn_rep := queue_submit_2_frame.(fr_rep);
     pn_norm := queue_submit_2_frame.(fr_norm);
     pn_valid r :=
       wire_id_is_type r.(s2_rq_queue_id) 4 &&
       ((r.(s2_rq_fence_id) =? 0) ||
        wire_id_is_type r.(s2_rq_fence_id) 18) &&
       (r.(s2_rq_wait_count) <=? BVB_VULKAN_MAX_SEMAPHORES_PER_WAIT) &&
       (r.(s2_rq_command_count) <=?
          BVB_VULKAN_MAX_COMMAND_BUFFERS_PER_SUBMIT) &&
       (r.(s2_rq_signal_count) <=? BVB_VULKAN_MAX_SEMAPHORES_PER_WAIT) &&
       negb (no_shared_stream r);
     pn_header r output :=
       let output := bvb_wire_put_u64 output 0 r.(s2_rq_queue_id) in
       let output := bvb_wire_put_u64 output 8 r.(s2_rq_fence_id) in
       let output := bvb_wire_put_u32 output 16 r.(s2_rq_flags) in
       let output := bvb_wire_put_u32 output 20 r.(s2_rq_wait_count) in
       let output := bvb_wire_put_u32 output 24 r.(s2_rq_command_count) in
       bvb_wire_put_u32 output 28 r.(s2_rq_signal_count);
     pn_reads q r :=
       bvb_wire_get_u64 q 0 = r.(s2_rq_queue_id) /\
       bvb_wire_get_u64 q 8 = r.(s2_rq_fence_id) /\
       bvb_wire_get_u32 q 16 = r.(s2_rq_flags) /\
       bvb_wire_get_u32 q 20 = r.(s2_rq_wait_count) /\
       bvb_wire_get_u32 q 24 = r.(s2_rq_command_count) /\
       bvb_wire_get_u32 q 28 = r.(s2_rq_signal_count);
     pn_end r := submit_2_length r.(s2_rq_wait_count) r.(s2_rq_command_count)
       r.(s2_rq_signal_count);
     pn_segments r :=
       [array_segment submit_semaphore_element BVB_VULKAN_SUBMIT_2_PREFIX_SIZE
          r.(s2_rq_wait_count) semaphores_ok r.(s2_rq_waits);
        array_segment command_element
          (submit_2_length r.(s2_rq_wait_count) 0 0) r.(s2_rq_command_count)
          commands_ok r.(s2_rq_commands);
        array_segment submit_semaphore_element
          (submit_2_length r.(s2_rq_wait_count) r.(s2_rq_command_count) 0)
          r.(s2_rq_signal_count) semaphores_ok r.(s2_rq_signals)] |}.

(** What the decoder tests before the identifiers, and what it builds. *)
Definition submit_gate (q : bytes) (n : Z) : bool :=
  let waits := bvb_wire_get_u32 q 20 in
  let commands := bvb_wire_get_u32 q 24 in
  let signals := bvb_wire_get_u32 q 28 in
  (32 <=? n) && (waits <=? 16) && (commands <=? 16) && (signals <=? 16) &&
  (n =? submit_2_length waits commands signals) &&
  padded submit_semaphore_element q 32 waits &&
  padded command_element q (submit_2_length waits 0 0) commands &&
  padded submit_semaphore_element q (submit_2_length waits commands 0) signals.

Definition submit_parse (q : bytes) : bvb_vulkan_queue_submit_2_request :=
  let waits := bvb_wire_get_u32 q 20 in
  let commands := bvb_wire_get_u32 q 24 in
  let signals := bvb_wire_get_u32 q 28 in
  {| s2_rq_queue_id := bvb_wire_get_u64 q 0;
     s2_rq_fence_id := bvb_wire_get_u64 q 8;
     s2_rq_flags := bvb_wire_get_u32 q 16;
     s2_rq_wait_count := waits;
     s2_rq_command_count := commands;
     s2_rq_signal_count := signals;
     s2_rq_waits := read_array submit_semaphore_element q 32 waits 16;
     s2_rq_commands :=
       read_array command_element q (submit_2_length waits 0 0) commands 16;
     s2_rq_signals := read_array submit_semaphore_element q
       (submit_2_length waits commands 0) signals 16 |}.
End submit.

#[global] Arguments submit_command_ok : simpl never.
#[global] Arguments no_stream_fields : simpl never.

(** A command record the test accepts is one of its element. *)
Lemma command_rep b r :
  s2c_rep r = true -> command_ok b r = true ->
  (command_element b).(el_rep) r = true.
Proof.
  unfold command_ok, command_element. destruct b; [done|].
  cbn. unfold plain_rep. intros -> [_ [-> ->]%andb_true_iff]%andb_true_iff.
  done.
Qed.

Lemma submit_segments b v :
  (submit_plan b).(pn_rep) v = true -> (submit_plan b).(pn_valid) v = true ->
  Forall (LawfulSegment (- EINVAL)) ((submit_plan b).(pn_segments) v) /\
  Forall elements_rep ((submit_plan b).(pn_segments) v) /\
  chained BVB_VULKAN_SUBMIT_2_PREFIX_SIZE ((submit_plan b).(pn_end) v)
    ((submit_plan b).(pn_segments) v) /\
  (submit_plan b).(pn_end) v <= (submit_plan b).(pn_capacity).
Proof.
  intros Hrep Hv. cbn -[Z.add Z.mul chained] in *. open_rep Hrep. split_tests.
  plan_bounds. rewrite !list.Forall_cons, !list.Forall_nil.
  split_and!; try exact I; try (apply array_segment_lawful; [apply _|lia]).
  - eapply array_segment_rep; [eassumption|lia].
  - intros i Hi Hok. apply command_rep; [|by destruct b].
    destruct b; (eapply array_rep_elt; [eassumption|]; cbn in Hi; lia).
  - eapply array_segment_rep; [eassumption|lia].
  - unfold submit_2_length, command_record_size, command_element.
    destruct b; cbn -[Z.add Z.mul]; unfold segment_end; cbn -[Z.add Z.mul];
      split_and!; lia.
  - unfold submit_2_length, command_record_size. destruct b; lia.
Qed.

(** What is not sent is not looked at. *)
Lemma no_shared_kept b queue fence flags waits commands signals ws cs ss ws' ss' :
  array_rep BVB_VULKAN_MAX_COMMAND_BUFFERS_PER_SUBMIT s2c_rep cs = true ->
  0 <= commands <= BVB_VULKAN_MAX_COMMAND_BUFFERS_PER_SUBMIT ->
  no_shared_stream b (mk_bvb_vulkan_queue_submit_2_request queue fence flags
    waits commands signals ws' (keep commands zero_s2c cs) ss') =
  no_shared_stream b (mk_bvb_vulkan_queue_submit_2_request queue fence flags
    waits commands signals ws cs ss).
Proof.
  intros Hr Hc. pose proof (array_rep_length _ _ _ Hr) as Hl.
  unfold no_shared_stream. f_equal. apply for_all_ext. intros i Hi. cbn in *.
  by rewrite elt_keep by lia.
Qed.

Lemma submit_norm b v q :
  (submit_plan b).(pn_rep) v = true -> arrives (submit_plan b) q v ->
  let w := (submit_plan b).(pn_norm) v in
  (submit_plan b).(pn_rep) w = true /\ (submit_plan b).(pn_norm) w = w /\
  (submit_plan b).(pn_end) w = (submit_plan b).(pn_end) v /\
  arrives (submit_plan b) q w.
Proof.
  intros Hrep (Hv & Hr & Hs). destruct v. cbn -[Z.add Z.mul chained] in *.
  open_rep Hrep. split_tests. plan_bounds. rewrite !list.Forall_cons in Hs.
  repeat match goal with H : _ /\ _ |- _ => destruct H end.
  split_and!.
  - open_rep_goal. use_tests. cbn. erewrite !keep_rep; done || lia || eauto.
  - by erewrite !keep_keep by (eassumption || lia).
  - done.
  - unfold arrives. cbn -[Z.add Z.mul]. rewrite !list.Forall_cons, !list.Forall_nil.
    rewrite (no_shared_kept b) with (ws := s2_rq_waits0) (ss := s2_rq_signals0)
      by (assumption || lia).
    split_and!; try assumption; try exact I; [by use_tests|..].
    all: first
      [ eapply (keep_holds submit_semaphore_element);
        [eapply array_rep_length; eassumption|lia
        |unfold semaphores_ok; solve_local|assumption]
      | destruct b;
        [eapply (keep_holds (command_element true))
        |eapply (keep_holds (command_element false))];
        [eapply array_rep_length; eassumption|lia
        |unfold commands_ok; solve_local|assumption
        |eapply array_rep_length; eassumption|lia
        |unfold commands_ok; solve_local|assumption] ].
Qed.

#[export] Instance submit_plan_lawful b : LawfulPlan (submit_plan b).
Proof.
  constructor.
  - cbn. lia.
  - apply submit_segments.
  - intros. cbn. by autorewrite with blen.
  - intros. plan_open. wire_frame.
  - plan_reads_step.
  - plan_writes_step.
  - apply submit_norm.
Qed.

Lemma encode_semaphores_error offset count records out e :
  encode_semaphores offset count records out = Err e -> e = - EINVAL.
Proof.
  apply for_loop_error. intros i o e' H. cbv zeta in H. by err_path H.
Qed.
Lemma encode_commands_error b offset count records out e :
  encode_commands b offset count records out = Err e -> e = - EINVAL.
Proof.
  apply for_loop_error. intros i o e' H. cbv zeta in H. by err_path H.
Qed.

Lemma submit_encodes b out v l :
  (queue_submit_2_frame b).(fr_encode) (Some out) (Some v) (Some l) =
  (fail_if negb ((submit_plan b).(pn_valid) v) with (- EINVAL) ;;
   try out := write_segments ((submit_plan b).(pn_segments) v)
     (planned (submit_plan b) v out) ;;
   Ok (out, (submit_plan b).(pn_end) v)).
Proof.
  cbn -[Z.add Z.mul encode_semaphores encode_commands write_segments
    no_shared_stream array_segment].
  rewrite !negb_andb, !negb_orb, !Z.leb_antisym, !negb_involutive.
  change (b && for_all _ _) with (no_shared_stream b v).
  destruct (_ || _ || _ || _ || _); [done|]. cbn [orb].
  destruct (no_shared_stream b v).
  - destruct (encode_semaphores _ _ _ _) eqn:E1; [|by apply encode_semaphores_error in E1 as ->].
    destruct (encode_commands _ _ _ _ _) eqn:E2; [done|by apply encode_commands_error in E2 as ->].
  - unfold planned, encode_semaphores, encode_commands, command_record_size.
    destruct b; cbn -[Z.add Z.mul submit_2_length]; plan_loops ltac:(done).
Qed.

Lemma submit_parses b q n : submit_gate b q n = true ->
  let v := submit_parse b q in
  (submit_plan b).(pn_rep) v = true /\ (submit_plan b).(pn_norm) v = v /\
  n = (submit_plan b).(pn_end) v /\
  (encodable (submit_plan b) v = true -> arrives (submit_plan b) q v).
Proof.
  unfold submit_gate. intros Hg. split_tests.
  u32_bound (bvb_wire_get_u32 q 20). u32_bound (bvb_wire_get_u32 q 24).
  u32_bound (bvb_wire_get_u32 q 28).
  split_and!.
  - cbn -[read_array]. unfold s2_rq_rep. cbn -[read_array].
    rewrite !get_u64_range, !get_u32_range. cbn [andb].
    rewrite !andb_true_iff. split_and!.
    + apply (read_array_rep submit_semaphore_element q _ _ 16); lia.
    + destruct b; apply (array_rep_fill _ _ zero_s2c s2c_rep 16);
        [lia|done| |lia|done|]; intros i Hi; unfold s2c_rep;
        cbn -[Z.add Z.mul]; by rewrite ?get_u64_range, ?get_u32_range.
    + apply (read_array_rep submit_semaphore_element q _ _ 16); lia.
  - cbn -[read_array Z.add Z.mul].
    rewrite !(read_array_keep submit_semaphore_element) by lia.
    destruct b; [rewrite (read_array_keep (command_element true)) by lia
                |rewrite (read_array_keep (command_element false)) by lia]; done.
  - cbn -[Z.add Z.mul]. lia.
  - unfold encodable, arrives.
    cbn -[Z.add Z.mul read_array array_segment no_shared_stream]. intros He. split_tests.
    rewrite !list.Forall_cons, !list.Forall_nil.
    split_and!; try done; [by use_tests|..].
    all: match goal with
    | |- segment_holds ?q
           (array_segment ?E ?b ?c ?ok (read_array ?E ?q ?b ?c ?max)) =>
        refine (proj2 (read_array_holds E q b c ok max _) (conj _ _));
        [lia|assumption|assumption]
    end.
Qed.

Lemma submit_gates b q v :
  (submit_plan b).(pn_rep) v = true -> (submit_plan b).(pn_norm) v = v ->
  arrives (submit_plan b) q v ->
  v = submit_parse b q /\ submit_gate b q ((submit_plan b).(pn_end) v) = true.
Proof.
  intros R N (V & Rd & Hs). destruct v. cbn -[Z.add Z.mul no_shared_stream] in *.
  open_rep R. split_tests. plan_bounds. rewrite !list.Forall_cons in Hs.
  destruct Hs as (S1 & S2 & S3 & _).
  repeat match goal with H : _ /\ _ |- _ => destruct H end. subst.
  injection N as N1 N2 N3.
  pose proof (segment_padded _ _ _ _ _ _ S1) as P1.
  pose proof (segment_padded _ _ _ _ _ _ S2) as P2.
  pose proof (segment_padded _ _ _ _ _ _ S3) as P3.
  apply (array_segment_read submit_semaphore_element _ _ _ _ _ 16) in S1;
    [|lia|by eapply array_rep_length|done].
  apply (array_segment_read submit_semaphore_element _ _ _ _ _ 16) in S3;
    [|lia|by eapply array_rep_length|done].
  assert (S2' : s2_rq_commands0 = read_array (command_element b) q
    (submit_2_length b (bvb_wire_get_u32 q 20) 0 0) (bvb_wire_get_u32 q 24) 16).
  { destruct b; [apply (array_segment_read (command_element true) _ _ _ _ _ 16) in S2
                |apply (array_segment_read (command_element false) _ _ _ _ _ 16) in S2];
      (exact S2 || lia || done || by eapply array_rep_length). }
  split; [unfold submit_parse; by rewrite <- S1, <- S2', <- S3|].
  unfold submit_gate. cbv zeta. rewrite P1, P2, P3, Z.eqb_refl.
  rewrite !andb_true_iff. split_and!; try done.
  unfold submit_2_length, command_record_size. destruct b; lia.
Qed.

Lemma decode_semaphores_read q offset count :
  0 <= count <= BVB_VULKAN_MAX_SEMAPHORES_PER_WAIT ->
  decode_semaphores q offset count =
  let records := read_array submit_semaphore_element q offset count 16 in
  if for_all count (semaphores_ok records) &&
     padded submit_semaphore_element q offset count
  then Ok records else Err (- EPROTO).
Proof.
  intros Hc. apply (read_array_tested submit_semaphore_element q offset count 16
    (fun r => wire_id_is_type r.(s2s_semaphore_id) 17)); [lia|done].
Qed.

Lemma decode_commands_read b q offset count :
  0 <= count <= BVB_VULKAN_MAX_COMMAND_BUFFERS_PER_SUBMIT ->
  decode_commands b q offset count =
  let records := read_array (command_element b) q offset count 16 in
  if for_all count (commands_ok b records) &&
     padded (command_element b) q offset count
  then Ok records else Err (- EPROTO).
Proof.
  intros Hc. destruct b.
  - apply (read_array_tested (command_element true) q offset count 16
      (command_ok true)); [lia|]. intros i arr Hi. cbn -[Z.add Z.mul].
    unfold command_ok. cbn [orb]. by rewrite !andb_true_r.
  - apply (read_array_tested (command_element false) q offset count 16
      (command_ok false)); [lia|]. intros i arr Hi. cbn -[Z.add Z.mul].
    unfold command_ok, no_stream_fields. cbn [orb]. cbn -[Z.add Z.mul].
    by rewrite !andb_true_r.
Qed.

Lemma submit_decodes b q n old v :
  (queue_submit_2_frame b).(fr_decode) (Some q) n (Some old) = Ok v <->
  submit_gate b q n = true /\ v = submit_parse b q /\
  encodable (submit_plan b) v = true.
Proof.
  u32_bound (bvb_wire_get_u32 q 20). u32_bound (bvb_wire_get_u32 q 24).
  u32_bound (bvb_wire_get_u32 q 28).
  unfold submit_gate. cbn -[Z.add Z.mul decode_semaphores decode_commands encodable].
  rewrite !Z.leb_antisym.
  destruct (n <? 32); [split; [done|by intros (? & _)]|]. cbn [negb andb].
  destruct (16 <? bvb_wire_get_u32 q 20) eqn:H1; [split; [done|by intros (? & _)]|].
  destruct (16 <? bvb_wire_get_u32 q 24) eqn:H2; [split; [done|by intros (? & _)]|].
  destruct (16 <? bvb_wire_get_u32 q 28) eqn:H3; [split; [done|by intros (? & _)]|].
  cbn [negb andb orb].
  destruct (n =? _); [cbn [negb andb]|split; [done|by intros (? & _)]].
  rewrite decode_semaphores_read, decode_commands_read, decode_semaphores_read by lia.
  cbv zeta. split.
  - intros H. ok_path H. split_tests.
    injection H as <-. split_and!; [by use_tests|done|].
    unfold encodable. cbn -[Z.add Z.mul read_array]. unfold no_shared_stream. cbn -[Z.add Z.mul read_array].
    use_tests. rewrite !Z.leb_antisym, H1, H2, H3.
    match goal with
    | H : negb ?a && negb ?b = false |- _ =>
        revert H; destruct a, b; cbn; congruence
    end.
  - intros (HP & -> & He). unfold encodable in He.
    cbn -[Z.add Z.mul read_array] in He. unfold no_shared_stream in He.
    cbn -[Z.add Z.mul read_array] in He. split_tests. use_tests.
    match goal with
    | H : b && _ = false |- context [b && ?x] =>
        replace (b && x) with false by (symmetry; exact H)
    end.
    match goal with
    | H : ?a || ?b = true |- _ => revert H; by destruct a, b
    end.
Qed.

#[export] Instance submit_follows b :
  FollowsPlan (submit_plan b) (queue_submit_2_frame b).
Proof.
  apply (follows_parsing _ _ (submit_gate b) (submit_parse b)); try done.
  - apply submit_encodes.
  - apply submit_parses.
  - apply submit_gates.
  - apply submit_decodes.
Qed.

#[export] Instance queue_submit_2_lawful b : LawfulFrame (queue_submit_2_frame b).
Proof.
  constructor; [intros out v l [->|[->| ->]]; [done|by destruct out|by destruct out, v]
               |intros inp ? ? [->| ->]; [done|by destruct inp]| |
               |exact (plan_sound (submit_plan b) _)].
  - intros out v l e H. left. cbn [fr_encode queue_submit_2_frame
      encode_vulkan_queue_submit_2_request] in H.
    unfold encode_semaphores, encode_commands in H. frame_errors H;
      first [discriminate H | by injection H as <- | injection H as <-; loop_code (- EINVAL)].
  - intros q n old e H. cbn [fr_decode fr_code queue_submit_2_frame
      decode_vulkan_queue_submit_2_request] in *.
    unfold decode_semaphores, decode_commands in H. unfold prefix_code.
    frame_errors H;
      first [discriminate H | by injection H as <- | injection H as <-; loop_code (- EPROTO)].
Qed.
#[export] Instance queue_submit_2_canonical b :
  CanonicalFrame (queue_submit_2_frame b).
Proof. exact (plan_complete (submit_plan b) _). Qed.

Definition bvb_protocol_encode_vulkan_queue_submit_2_request :=
  encode_vulkan_queue_submit_2_request false.
Definition bvb_protocol_encode_vulkan_queue_submit_2_stream_request :=
  encode_vulkan_queue_submit_2_request true.
Definition bvb_protocol_decode_vulkan_queue_submit_2_request :=
  decode_vulkan_queue_submit_2_request false.
Definition bvb_protocol_decode_vulkan_queue_submit_2_stream_request :=
  decode_vulkan_queue_submit_2_request true.
