(* ===== verification/MessageDescriptor.v ===== *)
(** * MessageDescriptor: descriptor sets, pools and layouts

    Models src/vulkan_descriptor_wire.c: each request with its encoder, its
    decoder, and the plan both follow.  The decoders build the request from
    the words that arrived and run the encoder on it: what the encoder would
    refuse is refused. *)

From stdpp Require Import list.
From S2P Require Import Prelude Wire Abi Codec ProtocolBase Window Element Frame Segments MessagePlan DescriptorTypes.

#[local] Open Scope list_scope.

Definition wire_id_is (value type : Z) : bool :=
  (u8 (Z.shiftr value 56) =? u8 type) &&
  negb (Z.land value 72057594037927935 =? 0).
#[global] Arguments wire_id_is : simpl never.

(** ** Descriptor set layouts *)

Definition encode_layout_binding (record : bytes)
    (binding : bvb_vulkan_descriptor_layout_binding) : bytes :=
  let record := bvb_wire_put_u32 record 0 binding.(dlb_binding) in
  let record := bvb_wire_put_u32 record 4 binding.(dlb_descriptor_type) in
  let record := bvb_wire_put_u32 record 8 binding.(dlb_descriptor_count) in
  let record := bvb_wire_put_u32 record 12 binding.(dlb_stage_flags) in
  bvb_wire_put_u32 record 16 binding.(dlb_binding_flags).

Definition decode_layout_binding (record : bytes) :
    bvb_vulkan_descriptor_layout_binding :=
  {| dlb_binding := bvb_wire_get_u32 record 0;
     dlb_descriptor_type := bvb_wire_get_u32 record 4;
     dlb_descriptor_count := bvb_wire_get_u32 record 8;
     dlb_stage_flags := bvb_wire_get_u32 record 12;
     dlb_binding_flags := bvb_wire_get_u32 record 16 |}.

Definition layout_binding_element :
    element bvb_vulkan_descriptor_layout_binding :=
  {| el_size := 20; el_zero := zero_dlb; el_rep := dlb_rep;
     el_pad _ := true;
     el_encode := encode_layout_binding; el_decode := decode_layout_binding |}.
#[export] Hint Unfold encode_layout_binding decode_layout_binding : elements.
#[export] Instance layout_binding_element_lawful :
  LawfulElement layout_binding_element.
Proof. solve_element. Qed.

Definition bvb_protocol_encode_vulkan_descriptor_set_layout_create_request
    (output : ptr bytes)
    (request : ptr bvb_vulkan_descriptor_set_layout_create_request)
    (output_length : ptr Z) : result (bytes * Z) :=
  deref output := output or (- EINVAL) ;;
  deref request := request or (- EINVAL) ;;
  deref _ := output_length or (- EINVAL) ;;
  fail_if negb (wire_id_is request.(dslc_rq_device_id) BVB_OBJECT_DEVICE) ||
          (BVB_VULKAN_MAX_DESCRIPTOR_LAYOUT_BINDINGS <?
             request.(dslc_rq_binding_count)) ||
          (1 <? request.(dslc_rq_has_binding_flags)) with (- EINVAL) ;;
  let length := 24 + request.(dslc_rq_binding_count) * 20 in
  let output := memset0 output 0 length in
  let output := bvb_wire_put_u64 output 0 request.(dslc_rq_device_id) in
  let output := bvb_wire_put_u32 output 8 request.(dslc_rq_flags) in
  let output := bvb_wire_put_u32 output 12 request.(dslc_rq_binding_count) in
  let output :=
    bvb_wire_put_u32 output 16 request.(dslc_rq_has_binding_flags) in
  try output := for_loop request.(dslc_rq_binding_count) (fun index output =>
    let binding := elt zero_dlb request.(dslc_rq_bindings) index in
    fail_if (binding.(dlb_descriptor_count) =? 0) ||
            (binding.(dlb_stage_flags) =? 0) ||
            ((request.(dslc_rq_has_binding_flags) =? 0) &&
             negb (binding.(dlb_binding_flags) =? 0)) with (- EINVAL) ;;
    fail_if negb (for_all index (fun prior =>
              negb ((elt zero_dlb request.(dslc_rq_bindings) prior)
                      .(dlb_binding) =? binding.(dlb_binding))))
      with (- EINVAL) ;;
    Ok (write_window output (24 + index * 20) 20
          (fun w => encode_layout_binding w binding))) output ;;
  Ok (output, length).

Definition bvb_protocol_decode_vulkan_descriptor_set_layout_create_request
    (input : ptr bytes) (input_length : Z)
    (request : ptr bvb_vulkan_descriptor_set_layout_create_request) :
    result bvb_vulkan_descriptor_set_layout_create_request :=
  deref input := input or (- EINVAL) ;;
  deref _ := request or (- EINVAL) ;;
  fail_if (input_length <? 24) || negb (bvb_wire_get_u32 input 20 =? 0)
    with (- EINVAL) ;;
  let binding_count := bvb_wire_get_u32 input 12 in
  fail_if (BVB_VULKAN_MAX_DESCRIPTOR_LAYOUT_BINDINGS <? binding_count) ||
          negb (input_length =? 24 + binding_count * 20) with (- EPROTO) ;;
  try bindings := for_loop binding_count (fun index bindings =>
    Ok (<[Z.to_nat index :=
            decode_layout_binding (input +! (24 + index * 20))]> bindings))
    (replicate 32 zero_dlb) ;;
  let decoded :=
    {| dslc_rq_device_id := bvb_wire_get_u64 input 0;
       dslc_rq_flags := bvb_wire_get_u32 input 8;
       dslc_rq_binding_count := binding_count;
       dslc_rq_has_binding_flags := bvb_wire_get_u32 input 16;
       dslc_rq_bindings := bindings |} in
  call _ := bvb_protocol_encode_vulkan_descriptor_set_layout_create_request
    (Some (blank BVB_PROTOCOL_MAX_PAYLOAD)) (Some decoded) (Some 0)
    or (- EPROTO) ;;
  Ok decoded.

Definition binding_ok (has_flags : Z)
    (bindings : list bvb_vulkan_descriptor_layout_binding) (i : Z) : bool :=
  let b := elt zero_dlb bindings i in
  negb (b.(dlb_descriptor_count) =? 0) && negb (b.(dlb_stage_flags) =? 0) &&
  (negb (has_flags =? 0) || (b.(dlb_binding_flags) =? 0)) &&
  for_all i (fun prior =>
    negb ((elt zero_dlb bindings prior).(dlb_binding) =? b.(dlb_binding))).

Definition set_layout_frame :
    framed bvb_vulkan_descriptor_set_layout_create_request :=
  {| fr_capacity := BVB_PROTOCOL_MAX_PAYLOAD;
     fr_rep := dslc_rq_rep;
     fr_norm r :=
       {| dslc_rq_device_id := r.(dslc_rq_device_id);
          dslc_rq_flags := r.(dslc_rq_flags);
          dslc_rq_binding_count := r.(dslc_rq_binding_count);
          dslc_rq_has_binding_flags := r.(dslc_rq_has_binding_flags);
          dslc_rq_bindings := keep r.(dslc_rq_binding_count) zero_dlb r.(dslc_rq_bindings) |};
     fr_encode :=
       bvb_protocol_encode_vulkan_descriptor_set_layout_create_request;
     fr_decode :=
       bvb_protocol_decode_vulkan_descriptor_set_layout_create_request;
     fr_code := reserved_code 24 20 |}.

Definition set_layout_plan :
    plan bvb_vulkan_descriptor_set_layout_create_request :=
  {| pn_capacity := BVB_PROTOCOL_MAX_PAYLOAD;
     pn_prefix := 24;
     pn_rep := set_layout_frame.(fr_rep);
     pn_norm := set_layout_frame.(fr_norm);
     pn_valid r :=
       wire_id_is r.(dslc_rq_device_id) BVB_OBJECT_DEVICE &&
       (r.(dslc_rq_binding_count) <=? 32) &&
       (r.(dslc_rq_has_binding_flags) <=? 1);
     pn_header r output :=
       let output := bvb_wire_put_u64 output 0 r.(dslc_rq_device_id) in
       let output := bvb_wire_put_u32 output 8 r.(dslc_rq_flags) in
       let output := bvb_wire_put_u32 output 12 r.(dslc_rq_binding_count) in
       bvb_wire_put_u32 output 16 r.(dslc_rq_has_binding_flags);
     pn_reads q r :=
       bvb_wire_get_u64 q 0 = r.(dslc_rq_device_id) /\
       bvb_wire_get_u32 q 8 = r.(dslc_rq_flags) /\
       bvb_wire_get_u32 q 12 = r.(dslc_rq_binding_count) /\
       bvb_wire_get_u32 q 16 = r.(dslc_rq_has_binding_flags) /\
       bvb_wire_get_u32 q 20 = 0;
     pn_end r := 24 + r.(dslc_rq_binding_count) * 20;
     pn_segments r :=
       [array_segment layout_binding_element 24 r.(dslc_rq_binding_count)
          (binding_ok r.(dslc_rq_has_binding_flags)) r.(dslc_rq_bindings)] |}.

#[export] Instance set_layout_plan_lawful : LawfulPlan set_layout_plan.
Proof. solve_plan ltac:(unfold binding_ok; solve_local). Qed.

Definition set_layout_gate (q : bytes) (n : Z) : bool :=
  (24 <=? n) &&
  (bvb_wire_get_u32 q 20 =? 0) &&
  (bvb_wire_get_u32 q 12 <=? 32) &&
  (n =? 24 + bvb_wire_get_u32 q 12 * 20).
Definition set_layout_parse (q : bytes) :
    bvb_vulkan_descriptor_set_layout_create_request :=
  {| dslc_rq_device_id := bvb_wire_get_u64 q 0;
     dslc_rq_flags := bvb_wire_get_u32 q 8;
     dslc_rq_binding_count := bvb_wire_get_u32 q 12;
     dslc_rq_has_binding_flags := bvb_wire_get_u32 q 16;
     dslc_rq_bindings := 
         read_array layout_binding_element q 24 (bvb_wire_get_u32 q 12) 32 |}.

#[export] Instance set_layout_follows :
  FollowsPlan set_layout_plan set_layout_frame.
Proof.
  solve_follows set_layout_gate set_layout_parse any_difference
    bvb_protocol_encode_vulkan_descriptor_set_layout_create_request
    ltac:(fun q => read_loop layout_binding_element q 24
                     (bvb_wire_get_u32 q 12) 32%nat)
    ltac:(unfold binding_ok; bool_cases).
Qed.
#[export] Instance set_layout_lawful : LawfulFrame set_layout_frame.
Proof. solve_planned_frame set_layout_plan set_layout_frame. Qed.
#[export] Instance set_layout_canonical : CanonicalFrame set_layout_frame.
Proof. exact (plan_complete set_layout_plan set_layout_frame). Qed.

(** ** Descriptor pools *)

Definition encode_pool_size (record : bytes)
    (size : bvb_vulkan_descriptor_pool_size) : bytes :=
  let record := bvb_wire_put_u32 record 0 size.(dps_descriptor_type) in
  bvb_wire_put_u32 record 4 size.(dps_descriptor_count).

Definition decode_pool_size (record : bytes) :
    bvb_vulkan_descriptor_pool_size :=
  {| dps_descriptor_type := bvb_wire_get_u32 record 0;
     dps_descriptor_count := bvb_wire_get_u32 record 4 |}.

Definition pool_size_element :
    element bvb_vulkan_descriptor_pool_size :=
  {| el_size := 8; el_zero := zero_dps; el_rep := dps_rep;
     el_pad _ := true;
     el_encode := encode_pool_size; el_decode := decode_pool_size |}.
#[export] Hint Unfold encode_pool_size decode_pool_size : elements.
#[export] Instance pool_size_element_lawful :
  LawfulElement pool_size_element.
Proof. solve_element. Qed.

Definition bvb_protocol_encode_vulkan_descriptor_pool_create_request
    (output : ptr bytes)
    (request : ptr bvb_vulkan_descriptor_pool_create_request)
    (output_length : ptr Z) : result (bytes * Z) :=
  deref output := output or (- EINVAL) ;;
  deref request := request or (- EINVAL) ;;
  deref _ := output_length or (- EINVAL) ;;
  fail_if negb (wire_id_is request.(dpc_rq_device_id) BVB_OBJECT_DEVICE) ||
          (request.(dpc_rq_max_sets) =? 0) ||
          (request.(dpc_rq_pool_size_count) =? 0) ||
          (BVB_VULKAN_MAX_DESCRIPTOR_POOL_SIZES <?
             request.(dpc_rq_pool_size_count)) with (- EINVAL) ;;
  let length := 24 + request.(dpc_rq_pool_size_count) * 8 in
  let output := memset0 output 0 length in
  let output := bvb_wire_put_u64 output 0 request.(dpc_rq_device_id) in
  let output := bvb_wire_put_u32 output 8 request.(dpc_rq_flags) in
  let output := bvb_wire_put_u32 output 12 request.(dpc_rq_max_sets) in
  let output := bvb_wire_put_u32 output 16 request.(dpc_rq_pool_size_count) in
  try output := for_loop request.(dpc_rq_pool_size_count)
    (fun index output =>
      let size := elt zero_dps request.(dpc_rq_pool_sizes) index in
      fail_if size.(dps_descriptor_count) =? 0 with (- EINVAL) ;;
      fail_if negb (for_all index (fun prior =>
                negb ((elt zero_dps request.(dpc_rq_pool_sizes) prior)
                        .(dps_descriptor_type) =?
                      size.(dps_descriptor_type)))) with (- EINVAL) ;;
      Ok (write_window output (24 + index * 8) 8
            (fun w => encode_pool_size w size))) output ;;
  Ok (output, length).

Definition bvb_protocol_decode_vulkan_descriptor_pool_create_request
    (input : ptr bytes) (input_length : Z)
    (request : ptr bvb_vulkan_descriptor_pool_create_request) :
    result bvb_vulkan_descriptor_pool_create_request :=
  deref input := input or (- EINVAL) ;;
  deref _ := request or (- EINVAL) ;;
  fail_if (input_length <? 24) || negb (bvb_wire_get_u32 input 20 =? 0)
    with (- EINVAL) ;;
  let pool_size_count := bvb_wire_get_u32 input 16 in
  fail_if (BVB_VULKAN_MAX_DESCRIPTOR_POOL_SIZES <? pool_size_count) ||
          negb (input_length =? 24 + pool_size_count * 8) with (- EPROTO) ;;
  try pool_sizes := for_loop pool_size_count (fun index pool_sizes =>
    Ok (<[Z.to_nat index :=
            decode_pool_size (input +! (24 + index * 8))]> pool_sizes))
    (replicate 16 zero_dps) ;;
  let decoded :=
    {| dpc_rq_device_id := bvb_wire_get_u64 input 0;
       dpc_rq_flags := bvb_wire_get_u32 input 8;
       dpc_rq_max_sets := bvb_wire_get_u32 input 12;
       dpc_rq_pool_size_count := pool_size_count;
       dpc_rq_pool_sizes := pool_sizes |} in
  call _ := bvb_protocol_encode_vulkan_descriptor_pool_create_request
    (Some (blank BVB_PROTOCOL_MAX_PAYLOAD)) (Some decoded) (Some 0)
    or (- EPROTO) ;;
  Ok decoded.

Definition pool_size_ok (sizes : list bvb_vulkan_descriptor_pool_size)
    (i : Z) : bool :=
  let s := elt zero_dps sizes i in
  negb (s.(dps_descriptor_count) =? 0) &&
  for_all i (fun prior =>
    negb ((elt zero_dps sizes prior).(dps_descriptor_type) =?
          s.(dps_descriptor_type))).

Definition descriptor_pool_frame :
    framed bvb_vulkan_descriptor_pool_create_request :=
  {| fr_capacity := BVB_PROTOCOL_MAX_PAYLOAD;
     fr_rep := dpc_rq_rep;
     fr_norm r :=
       {| dpc_rq_device_id := r.(dpc_rq_device_id);
          dpc_rq_flags := r.(dpc_rq_flags);
          dpc_rq_max_sets := r.(dpc_rq_max_sets);
          dpc_rq_pool_size_count := r.(dpc_rq_pool_size_count);
          dpc_rq_pool_sizes := keep r.(dpc_rq_pool_size_count) zero_dps r.(dpc_rq_pool_sizes) |};
     fr_encode :=
       bvb_protocol_encode_vulkan_descriptor_pool_create_request;
     fr_decode :=
       bvb_protocol_decode_vulkan_descriptor_pool_create_request;
     fr_code := reserved_code 24 20 |}.

Definition descriptor_pool_plan :
    plan bvb_vulkan_descriptor_pool_create_request :=
  {| pn_capacity := BVB_PROTOCOL_MAX_PAYLOAD;
     pn_prefix := 24;
     pn_rep := descriptor_pool_frame.(fr_rep);
     pn_norm := descriptor_pool_frame.(fr_norm);
     pn_valid r :=
       wire_id_is r.(dpc_rq_device_id) BVB_OBJECT_DEVICE &&
       negb (r.(dpc_rq_max_sets) =? 0) &&
       negb (r.(dpc_rq_pool_size_count) =? 0) &&
       (r.(dpc_rq_pool_size_count) <=? 16);
     pn_header r output :=
       let output := bvb_wire_put_u64 output 0 r.(dpc_rq_device_id) in
       let output := bvb_wire_put_u32 output 8 r.(dpc_rq_flags) in
       let output := bvb_wire_put_u32 output 12 r.(dpc_rq_max_sets) in
       bvb_wire_put_u32 output 16 r.(dpc_rq_pool_size_count);
     pn_reads q r :=
       bvb_wire_get_u64 q 0 = r.(dpc_rq_device_id) /\
       bvb_wire_get_u32 q 8 = r.(dpc_rq_flags) /\
       bvb_wire_get_u32 q 12 = r.(dpc_rq_max_sets) /\
       bvb_wire_get_u32 q 16 = r.(dpc_rq_pool_size_count) /\
       bvb_wire_get_u32 q 20 = 0;
     pn_end r := 24 + r.(dpc_rq_pool_size_count) * 8;
     pn_segments r :=
       [array_segment pool_size_element 24 r.(dpc_rq_pool_size_count)
          pool_size_ok r.(dpc_rq_pool_sizes)] |}.

#[export] Instance descriptor_pool_plan_lawful : LawfulPlan descriptor_pool_plan.
Proof. solve_plan ltac:(unfold pool_size_ok; solve_local). Qed.

Definition descriptor_pool_gate (q : bytes) (n : Z) : bool :=
  (24 <=? n) &&
  (bvb_wire_get_u32 q 20 =? 0) &&
  (bvb_wire_get_u32 q 16 <=? 16) &&
  (n =? 24 + bvb_wire_get_u32 q 16 * 8).
Definition descriptor_pool_parse (q : bytes) :
    bvb_vulkan_descriptor_pool_create_request :=
  {| dpc_rq_device_id := bvb_wire_get_u64 q 0;
     dpc_rq_flags := bvb_wire_get_u32 q 8;
     dpc_rq_max_sets := bvb_wire_get_u32 q 12;
     dpc_rq_pool_size_count := bvb_wire_get_u32 q 16;
     dpc_rq_pool_sizes := 
         read_array pool_size_element q 24 (bvb_wire_get_u32 q 16) 16 |}.

#[export] Instance descriptor_pool_follows :
  FollowsPlan descriptor_pool_plan descriptor_pool_frame.
Proof.
  solve_follows descriptor_pool_gate descriptor_pool_parse any_difference
    bvb_protocol_encode_vulkan_descriptor_pool_create_request
    ltac:(fun q => read_loop pool_size_element q 24
                     (bvb_wire_get_u32 q 16) 16%nat)
    ltac:(unfold pool_size_ok; bool_cases).
Qed.
#[export] Instance descriptor_pool_lawful : LawfulFrame descriptor_pool_frame.
Proof. solve_planned_frame descriptor_pool_plan descriptor_pool_frame. Qed.
#[export] Instance descriptor_pool_canonical : CanonicalFrame descriptor_pool_frame.
Proof. exact (plan_complete descriptor_pool_plan descriptor_pool_frame). Qed.

Definition bvb_protocol_encode_vulkan_descriptor_pool_reset_request
    (output : ptr bytes)
    (request : ptr bvb_vulkan_descriptor_pool_reset_request) : result bytes :=
  deref output := output or (- EINVAL) ;;
  deref request := request or (- EINVAL) ;;
  fail_if negb (wire_id_is request.(dpr_rq_descriptor_pool_id)
                  BVB_OBJECT_DESCRIPTOR_POOL) ||
          negb (request.(dpr_rq_flags) =? 0) with (- EINVAL) ;;
  let output := memset0 output 0 16 in
  let output := bvb_wire_put_u64 output 0 request.(dpr_rq_descriptor_pool_id)
    in
  let output := bvb_wire_put_u32 output 8 request.(dpr_rq_flags) in
  Ok output.

Definition bvb_protocol_decode_vulkan_descriptor_pool_reset_request
    (input : ptr bytes)
    (request : ptr bvb_vulkan_descriptor_pool_reset_request) :
    result bvb_vulkan_descriptor_pool_reset_request :=
  deref input := input or (- EINVAL) ;;
  deref _ := request or (- EINVAL) ;;
  fail_if negb (bvb_wire_get_u32 input 12 =? 0) with (- EINVAL) ;;
  let decoded :=
    {| dpr_rq_descriptor_pool_id := bvb_wire_get_u64 input 0;
       dpr_rq_flags := bvb_wire_get_u32 input 8 |} in
  call _ := bvb_protocol_encode_vulkan_descriptor_pool_reset_request
    (Some (blank 16)) (Some decoded) or (- EPROTO) ;;
  Ok decoded.

Definition descriptor_pool_reset_codec :
    codec bvb_vulkan_descriptor_pool_reset_request :=
  {| codec_size := 16; codec_rep := dpr_rq_rep;
     encode := bvb_protocol_encode_vulkan_descriptor_pool_reset_request;
     decode := bvb_protocol_decode_vulkan_descriptor_pool_reset_request |}.
#[export] Instance descriptor_pool_reset_lawful :
  Lawful descriptor_pool_reset_codec.
Proof. solve_lawful. Qed.
#[export] Instance descriptor_pool_reset_canonical :
  Canonical descriptor_pool_reset_codec.
Proof. solve_canonical. Qed.

(** ** Descriptor sets *)

Definition bvb_protocol_encode_vulkan_descriptor_set_allocate_request
    (output : ptr bytes)
    (request : ptr bvb_vulkan_descriptor_set_allocate_request)
    (output_length : ptr Z) : result (bytes * Z) :=
  deref output := output or (- EINVAL) ;;
  deref request := request or (- EINVAL) ;;
  deref _ := output_length or (- EINVAL) ;;
  fail_if negb (wire_id_is request.(dsa_rq_descriptor_pool_id)
                  BVB_OBJECT_DESCRIPTOR_POOL) ||
          (request.(dsa_rq_descriptor_set_count) =? 0) ||
          (BVB_VULKAN_MAX_DESCRIPTOR_SETS_PER_ALLOCATE <?
             request.(dsa_rq_descriptor_set_count)) with (- EINVAL) ;;
  let length := 16 + request.(dsa_rq_descriptor_set_count) * 8 in
  let output := memset0 output 0 length in
  let output := bvb_wire_put_u64 output 0 request.(dsa_rq_descriptor_pool_id)
    in
  let output :=
    bvb_wire_put_u32 output 8 request.(dsa_rq_descriptor_set_count) in
  try output := for_loop request.(dsa_rq_descriptor_set_count)
    (fun index output =>
      let id := elt 0 request.(dsa_rq_set_layout_ids) index in
      fail_if negb (wire_id_is id BVB_OBJECT_DESCRIPTOR_SET_LAYOUT)
        with (- EINVAL) ;;
      Ok (write_window output (16 + index * 8) 8
            (fun w => bvb_wire_put_u64 w 0 id))) output ;;
  Ok (output, length).

Definition bvb_protocol_decode_vulkan_descriptor_set_allocate_request
    (input : ptr bytes) (input_length : Z)
    (request : ptr bvb_vulkan_descriptor_set_allocate_request) :
    result bvb_vulkan_descriptor_set_allocate_request :=
  deref input := input or (- EINVAL) ;;
  deref _ := request or (- EINVAL) ;;
  fail_if (input_length <? 16) || negb (bvb_wire_get_u32 input 12 =? 0)
    with (- EINVAL) ;;
  let descriptor_set_count := bvb_wire_get_u32 input 8 in
  fail_if (descriptor_set_count =? 0) ||
          (BVB_VULKAN_MAX_DESCRIPTOR_SETS_PER_ALLOCATE <?
             descriptor_set_count) ||
          negb (input_length =? 16 + descriptor_set_count * 8)
    with (- EPROTO) ;;
  try ids := for_loop descriptor_set_count (fun index ids =>
    Ok (<[Z.to_nat index :=
            bvb_wire_get_u64 (input +! (16 + index * 8)) 0]> ids))
    (replicate 16 0) ;;
  let decoded :=
    {| dsa_rq_descriptor_pool_id := bvb_wire_get_u64 input 0;
       dsa_rq_descriptor_set_count := descriptor_set_count;
       dsa_rq_set_layout_ids := ids |} in
  call _ := bvb_protocol_encode_vulkan_descriptor_set_allocate_request
    (Some (blank BVB_PROTOCOL_MAX_PAYLOAD)) (Some decoded) (Some 0)
    or (- EPROTO) ;;
  Ok decoded.

(** Every identifier of an array has the type. *)
Definition ids_are (type : Z) (ids : list Z) (i : Z) : bool :=
  wire_id_is (elt 0 ids i) type.

Definition set_allocate_frame :
    framed bvb_vulkan_descriptor_set_allocate_request :=
  {| fr_capacity := BVB_PROTOCOL_MAX_PAYLOAD;
     fr_rep := dsa_rq_rep;
     fr_norm r :=
       {| dsa_rq_descriptor_pool_id := r.(dsa_rq_descriptor_pool_id);
          dsa_rq_descriptor_set_count := r.(dsa_rq_descriptor_set_count);
          dsa_rq_set_layout_ids := keep r.(dsa_rq_descriptor_set_count) 0 r.(dsa_rq_set_layout_ids) |};
     fr_encode :=
       bvb_protocol_encode_vulkan_descriptor_set_allocate_request;
     fr_decode :=
       bvb_protocol_decode_vulkan_descriptor_set_allocate_request;
     fr_code := reserved_code 16 12 |}.

Definition set_allocate_plan :
    plan bvb_vulkan_descriptor_set_allocate_request :=
  {| pn_capacity := BVB_PROTOCOL_MAX_PAYLOAD;
     pn_prefix := 16;
     pn_rep := set_allocate_frame.(fr_rep);
     pn_norm := set_allocate_frame.(fr_norm);
     pn_valid r :=
       wire_id_is r.(dsa_rq_descriptor_pool_id) BVB_OBJECT_DESCRIPTOR_POOL &&
       negb (r.(dsa_rq_descriptor_set_count) =? 0) &&
       (r.(dsa_rq_descriptor_set_count) <=? 16);
     pn_header r output :=
       let output := bvb_wire_put_u64 output 0 r.(dsa_rq_descriptor_pool_id) in
       bvb_wire_put_u32 output 8 r.(dsa_rq_descriptor_set_count);
     pn_reads q r :=
       bvb_wire_get_u64 q 0 = r.(dsa_rq_descriptor_pool_id) /\
       bvb_wire_get_u32 q 8 = r.(dsa_rq_descriptor_set_count) /\
       bvb_wire_get_u32 q 12 = 0;
     pn_end r := 16 + r.(dsa_rq_descriptor_set_count) * 8;
     pn_segments r :=
       [array_segment u64_element 16 r.(dsa_rq_descriptor_set_count)
          (ids_are BVB_OBJECT_DESCRIPTOR_SET_LAYOUT) r.(dsa_rq_set_layout_ids)] |}.

#[export] Instance set_allocate_plan_lawful : LawfulPlan set_allocate_plan.
Proof. solve_plan ltac:(unfold ids_are; solve_local). Qed.

Definition set_allocate_gate (q : bytes) (n : Z) : bool :=
  (16 <=? n) &&
  (bvb_wire_get_u32 q 12 =? 0) &&
  (bvb_wire_get_u32 q 8 <=? 16) &&
  negb (bvb_wire_get_u32 q 8 =? 0) &&
  (n =? 16 + bvb_wire_get_u32 q 8 * 8).
Definition set_allocate_parse (q : bytes) :
    bvb_vulkan_descriptor_set_allocate_request :=
  {| dsa_rq_descriptor_pool_id := bvb_wire_get_u64 q 0;
     dsa_rq_descriptor_set_count := bvb_wire_get_u32 q 8;
     dsa_rq_set_layout_ids := 
         read_array u64_element q 16 (bvb_wire_get_u32 q 8) 16 |}.

#[export] Instance set_allocate_follows :
  FollowsPlan set_allocate_plan set_allocate_frame.
Proof.
  solve_follows set_allocate_gate set_allocate_parse any_difference
    bvb_protocol_encode_vulkan_descriptor_set_allocate_request
    ltac:(fun q => read_loop u64_element q 16
                     (bvb_wire_get_u32 q 8) 16%nat)
    ltac:(unfold ids_are; bool_cases).
Qed.
#[export] Instance set_allocate_lawful : LawfulFrame set_allocate_frame.
Proof. solve_planned_frame set_allocate_plan set_allocate_frame. Qed.
#[export] Instance set_allocate_canonical : CanonicalFrame set_allocate_frame.
Proof. exact (plan_complete set_allocate_plan set_allocate_frame). Qed.

Definition bvb_protocol_encode_vulkan_descriptor_set_allocate_response
    (output : ptr bytes)
    (response : ptr bvb_vulkan_descriptor_set_allocate_response)
    (output_length : ptr Z) : result (bytes * Z) :=
  deref output := output or (- EINVAL) ;;
  deref response := response or (- EINVAL) ;;
  deref _ := output_length or (- EINVAL) ;;
  fail_if (BVB_VULKAN_MAX_DESCRIPTOR_SETS_PER_ALLOCATE <?
             response.(dsa_rs_descriptor_set_count)) ||
          ((response.(dsa_rs_vulkan_result) =? 0) &&
           (response.(dsa_rs_descriptor_set_count) =? 0)) ||
          (negb (response.(dsa_rs_vulkan_result) =? 0) &&
           negb (response.(dsa_rs_descriptor_set_count) =? 0))
    with (- EINVAL) ;;
  let length := 8 + response.(dsa_rs_descriptor_set_count) * 8 in
  let output := memset0 output 0 length in
  let output := bvb_wire_put_i32 output 0 response.(dsa_rs_vulkan_result) in
  let output :=
    bvb_wire_put_u32 output 4 response.(dsa_rs_descriptor_set_count) in
  try output := for_loop response.(dsa_rs_descriptor_set_count)
    (fun index output =>
      let id := elt 0 response.(dsa_rs_descriptor_set_ids) index in
      fail_if negb (wire_id_is id BVB_OBJECT_DESCRIPTOR_SET)
        with (- EINVAL) ;;
      Ok (write_window output (8 + index * 8) 8
            (fun w => bvb_wire_put_u64 w 0 id))) output ;;
  Ok (output, length).

Definition bvb_protocol_decode_vulkan_descriptor_set_allocate_response
    (input : ptr bytes) (input_length : Z)
    (response : ptr bvb_vulkan_descriptor_set_allocate_response) :
    result bvb_vulkan_descriptor_set_allocate_response :=
  deref input := input or (- EINVAL) ;;
  deref _ := response or (- EINVAL) ;;
  fail_if input_length <? 8 with (- EINVAL) ;;
  let descriptor_set_count := bvb_wire_get_u32 input 4 in
  fail_if (BVB_VULKAN_MAX_DESCRIPTOR_SETS_PER_ALLOCATE <?
             descriptor_set_count) ||
          negb (input_length =? 8 + descriptor_set_count * 8)
    with (- EPROTO) ;;
  try ids := for_loop descriptor_set_count (fun index ids =>
    Ok (<[Z.to_nat index :=
            bvb_wire_get_u64 (input +! (8 + index * 8)) 0]> ids))
    (replicate 16 0) ;;
  let decoded :=
    {| dsa_rs_vulkan_result := bvb_wire_get_i32 input 0;
       dsa_rs_descriptor_set_count := descriptor_set_count;
       dsa_rs_descriptor_set_ids := ids |} in
  call _ := bvb_protocol_encode_vulkan_descriptor_set_allocate_response
    (Some (blank BVB_PROTOCOL_MAX_PAYLOAD)) (Some decoded) (Some 0)
    or (- EPROTO) ;;
  Ok decoded.

Definition set_allocate_response_frame :
    framed bvb_vulkan_descriptor_set_allocate_response :=
  {| fr_capacity := BVB_PROTOCOL_MAX_PAYLOAD;
     fr_rep := dsa_rs_rep;
     fr_norm r :=
       {| dsa_rs_vulkan_result := r.(dsa_rs_vulkan_result);
          dsa_rs_descriptor_set_count := r.(dsa_rs_descriptor_set_count);
          dsa_rs_descriptor_set_ids := keep r.(dsa_rs_descriptor_set_count) 0 r.(dsa_rs_descriptor_set_ids) |};
     fr_encode :=
       bvb_protocol_encode_vulkan_descriptor_set_allocate_response;
     fr_decode :=
       bvb_protocol_decode_vulkan_descriptor_set_allocate_response;
     fr_code := prefix_code 8 |}.

Definition set_allocate_response_plan :
    plan bvb_vulkan_descriptor_set_allocate_response :=
  {| pn_capacity := BVB_PROTOCOL_MAX_PAYLOAD;
     pn_prefix := 8;
     pn_rep := set_allocate_response_frame.(fr_rep);
     pn_norm := set_allocate_response_frame.(fr_norm);
     pn_valid r :=
       (r.(dsa_rs_descriptor_set_count) <=? 16) &&
       negb ((r.(dsa_rs_vulkan_result) =? 0) &&
             (r.(dsa_rs_descriptor_set_count) =? 0)) &&
       negb (negb (r.(dsa_rs_vulkan_result) =? 0) &&
             negb (r.(dsa_rs_descriptor_set_count) =? 0));
     pn_header r output :=
       let output := bvb_wire_put_i32 output 0 r.(dsa_rs_vulkan_result) in
       bvb_wire_put_u32 output 4 r.(dsa_rs_descriptor_set_count);
     pn_reads q r :=
       bvb_wire_get_i32 q 0 = r.(dsa_rs_vulkan_result) /\
       bvb_wire_get_u32 q 4 = r.(dsa_rs_descriptor_set_count);
     pn_end r := 8 + r.(dsa_rs_descriptor_set_count) * 8;
     pn_segments r :=
       [array_segment u64_element 8 r.(dsa_rs_descriptor_set_count)
          (ids_are BVB_OBJECT_DESCRIPTOR_SET) r.(dsa_rs_descriptor_set_ids)] |}.

#[export] Instance set_allocate_response_plan_lawful : LawfulPlan set_allocate_response_plan.
Proof. solve_plan ltac:(unfold ids_are; solve_local). Qed.

Definition set_allocate_response_gate (q : bytes) (n : Z) : bool :=
  (8 <=? n) &&
  (bvb_wire_get_u32 q 4 <=? 16) &&
  (n =? 8 + bvb_wire_get_u32 q 4 * 8).
Definition set_allocate_response_parse (q : bytes) :
    bvb_vulkan_descriptor_set_allocate_response :=
  {| dsa_rs_vulkan_result := bvb_wire_get_i32 q 0;
     dsa_rs_descriptor_set_count := bvb_wire_get_u32 q 4;
     dsa_rs_descriptor_set_ids := 
         read_array u64_element q 8 (bvb_wire_get_u32 q 4) 16 |}.

#[export] Instance set_allocate_response_follows :
  FollowsPlan set_allocate_response_plan set_allocate_response_frame.
Proof.
  solve_follows set_allocate_response_gate set_allocate_response_parse any_difference
    bvb_protocol_encode_vulkan_descriptor_set_allocate_response
    ltac:(fun q => read_loop u64_element q 8
                     (bvb_wire_get_u32 q 4) 16%nat)
    ltac:(unfold ids_are; bool_cases).
Qed.
#[export] Instance set_allocate_response_lawful : LawfulFrame set_allocate_response_frame.
Proof. solve_planned_frame set_allocate_response_plan set_allocate_response_frame. Qed.
#[export] Instance set_allocate_response_canonical : CanonicalFrame set_allocate_response_frame.
Proof. exact (plan_complete set_allocate_response_plan set_allocate_response_frame). Qed.

(** *** Allocations that first apply a journal

    The allocation follows 32 bytes that say which part of the descriptor
    journal the service must have applied. *)

Definition journal_fields_ok (generation sequence length records : Z) : bool :=
  negb (generation =? 0) && negb (sequence =? 0) &&
  (length <=? BVB_DESCRIPTOR_JOURNAL_REGION_BYTES) &&
  (records <=? BVB_DESCRIPTOR_JOURNAL_MAX_RECORDS) &&
  Bool.eqb (length =? 0) (records =? 0).

Definition bvb_protocol_encode_vulkan_descriptor_transaction_allocate_request
    (output : ptr bytes)
    (request : ptr bvb_vulkan_descriptor_transaction_allocate_request)
    (output_length : ptr Z) : result (bytes * Z) :=
  deref output := output or (- EINVAL) ;;
  deref request := request or (- EINVAL) ;;
  deref _ := output_length or (- EINVAL) ;;
  fail_if negb (journal_fields_ok request.(dta_rq_journal_generation)
                  request.(dta_rq_journal_sequence)
                  request.(dta_rq_journal_length)
                  request.(dta_rq_journal_record_count)) with (- EINVAL) ;;
  try allocation :=
    bvb_protocol_encode_vulkan_descriptor_set_allocate_request
      (Some (blank BVB_PROTOCOL_MAX_PAYLOAD))
      (Some request.(dta_rq_allocation)) (Some 0) ;;
  let '(allocation_wire, allocation_length) := allocation in
  fail_if 176 - 32 <? allocation_length with (- E2BIG) ;;
  let output :=
    bvb_wire_put_u64 output 0 request.(dta_rq_journal_generation) in
  let output := bvb_wire_put_u64 output 8 request.(dta_rq_journal_sequence) in
  let output := bvb_wire_put_u32 output 16 request.(dta_rq_journal_length) in
  let output :=
    bvb_wire_put_u32 output 20 request.(dta_rq_journal_record_count) in
  let output := bvb_wire_put_u32 output 24 allocation_length in
  let output := bvb_wire_put_u32 output 28 0 in
  let output :=
    wr_bytes output 32 (rd_bytes allocation_wire 0 allocation_length) in
  Ok (output, 32 + allocation_length).

Definition bvb_protocol_decode_vulkan_descriptor_transaction_allocate_request
    (input : ptr bytes) (input_length : Z)
    (request : ptr bvb_vulkan_descriptor_transaction_allocate_request) :
    result bvb_vulkan_descriptor_transaction_allocate_request :=
  deref input := input or (- EINVAL) ;;
  deref _ := request or (- EINVAL) ;;
  fail_if input_length <? 32 + 16 with (- EINVAL) ;;
  let allocation_length := bvb_wire_get_u32 input 24 in
  fail_if negb (journal_fields_ok (bvb_wire_get_u64 input 0)
                  (bvb_wire_get_u64 input 8) (bvb_wire_get_u32 input 16)
                  (bvb_wire_get_u32 input 20)) ||
          negb (bvb_wire_get_u32 input 28 =? 0) ||
          (176 - 32 <? allocation_length) ||
          negb (input_length =? 32 + allocation_length) with (- EPROTO) ;;
  try allocation :=
    bvb_protocol_decode_vulkan_descriptor_set_allocate_request
      (Some (input +! 32)) allocation_length
      (Some (mk_bvb_vulkan_descriptor_set_allocate_request 0 0
               (replicate 16 0))) ;;
  let decoded :=
    {| dta_rq_journal_generation := bvb_wire_get_u64 input 0;
       dta_rq_journal_sequence := bvb_wire_get_u64 input 8;
       dta_rq_journal_length := bvb_wire_get_u32 input 16;
       dta_rq_journal_record_count := bvb_wire_get_u32 input 20;
       dta_rq_allocation := allocation |} in
  call canonical :=
    bvb_protocol_encode_vulkan_descriptor_transaction_allocate_request
      (Some (blank 176)) (Some decoded) (Some 0) or (- EPROTO) ;;
  fail_if negb (snd canonical =? input_length) ||
          memcmp_ne (fst canonical) input input_length with (- EPROTO) ;;
  Ok decoded.

Definition set_transaction_frame :
    framed bvb_vulkan_descriptor_transaction_allocate_request :=
  {| fr_capacity := 176;
     fr_rep := dta_rq_rep;
     fr_norm r :=
       {| dta_rq_journal_generation := r.(dta_rq_journal_generation);
          dta_rq_journal_sequence := r.(dta_rq_journal_sequence);
          dta_rq_journal_length := r.(dta_rq_journal_length);
          dta_rq_journal_record_count := r.(dta_rq_journal_record_count);
          dta_rq_allocation :=
            set_allocate_frame.(fr_norm) r.(dta_rq_allocation) |};
     fr_encode :=
       bvb_protocol_encode_vulkan_descriptor_transaction_allocate_request;
     fr_decode :=
       bvb_protocol_decode_vulkan_descriptor_transaction_allocate_request;
     fr_code q n :=
       if (n <? 48) ||
          (journal_fields_ok (bvb_wire_get_u64 q 0) (bvb_wire_get_u64 q 8)
             (bvb_wire_get_u32 q 16) (bvb_wire_get_u32 q 20) &&
           (bvb_wire_get_u32 q 28 =? 0) &&
           (bvb_wire_get_u32 q 24 <=? 144) &&
           (n =? 32 + bvb_wire_get_u32 q 24) &&
           negb (bvb_wire_get_u32 (q +! 32) 12 =? 0))
       then - EINVAL else - EPROTO |}.

(** An allocation that was encoded: its length, its bytes, and that they
    encode again. *)
Lemma allocation_travels v p n q :
  dsa_rq_rep v = true ->
  bvb_protocol_encode_vulkan_descriptor_set_allocate_request
    (Some (blank BVB_PROTOCOL_MAX_PAYLOAD)) (Some v) (Some 0) = Ok (p, n) ->
  16 <= n <= 144 /\ blen p = BVB_PROTOCOL_MAX_PAYLOAD /\
  (n <= blen q -> agree q p 0 n ->
   (forall old, bvb_protocol_decode_vulkan_descriptor_set_allocate_request
      (Some q) n (Some old) = Ok (set_allocate_frame.(fr_norm) v)) /\
   dsa_rq_rep (set_allocate_frame.(fr_norm) v) = true /\
   exists p',
     bvb_protocol_encode_vulkan_descriptor_set_allocate_request
       (Some (blank BVB_PROTOCOL_MAX_PAYLOAD))
       (Some (set_allocate_frame.(fr_norm) v)) (Some 0) = Ok (p', n) /\
     agree p' p 0 n).
Proof.
  intros Hrep H.
  assert (Hb : set_allocate_frame.(fr_capacity) <= blen (blank BVB_PROTOCOL_MAX_PAYLOAD))
    by (rewrite blen_blank; cbn; lia).
  assert (Hn : 16 <= n <= 144).
  { pose proof (frame_encodes (pn := set_allocate_plan) (f := set_allocate_frame)
      (blank BVB_PROTOCOL_MAX_PAYLOAD) v 0) as E.
    cbn [fr_encode set_allocate_frame] in E. rewrite H in E.
    destruct (pn_valid set_allocate_plan v) eqn:Hv; [|done]. cbn [negb] in E.
    destruct (write_segments _ _) in E; [|done]. injection E as _ ->.
    pose proof Hrep as Hrep'. unfold dsa_rq_rep in Hrep'.
    cbn -[Z.add Z.mul] in Hv |- *. split_tests.
    u32_bound (dsa_rq_descriptor_set_count v). lia. }
  destruct (frame_sound (f := set_allocate_frame) _ v 0 p n Hb Hrep H)
    as (_ & Hl & _ & Hr).
  rewrite blen_blank in Hl by lia. split_and!; [lia|lia|done|].
  intros Hq Ha. split; [intros old; exact (Hr q old Hq Ha)|].
  destruct (frame_complete (f := set_allocate_frame) q n v _ _ 0 Hq Hb
    (Hr q v Hq Ha))
    as (R & _ & p' & He & Ha'). split; [exact R|]. exists p'.
  split; [exact He|]. by eapply agree_trans.
Qed.

#[local] Arguments bvb_protocol_encode_vulkan_descriptor_set_allocate_request :
  simpl never.
#[local] Arguments bvb_protocol_decode_vulkan_descriptor_set_allocate_request :
  simpl never.
#[local] Arguments journal_fields_ok : simpl never.

Lemma set_transaction_sound : frame_is_sound set_transaction_frame.
Proof.
  intros out v l out' n Hb Hrep H. destruct v as [gen seq len recs alloc].
  cbn -[Z.add Z.mul Z.sub] in Hb, Hrep, H. unfold dta_rq_rep in Hrep. cbn in Hrep. split_tests.
  destruct (journal_fields_ok gen seq len recs) eqn:Hj; [cbn [negb] in H|done].
  destruct (bvb_protocol_encode_vulkan_descriptor_set_allocate_request _ _ _)
    as [[aw al]|] eqn:Ha; [|done].
  destruct (allocation_travels alloc aw al aw) as (Hal & Haw & _); [done|done|].
  destruct (176 - 32 <? al) eqn:Hs; [done|]. injection H as <- <-.
  raw_ran out 32 aw al. split_and!; [lia|cbn; lia|done|done|].
  intros q old Hq Hqa. destruct (Hread q Hq Hqa) as [Hh Hd].
  assert (Hw : agree (q +! 32) aw 0 al).
  { intros k Hk. rewrite rd8_ptr_add by lia.
    by rewrite <- (rd_bytes_lookup q 32 al k), Hd, rd_bytes_lookup by lia. }
  destruct (allocation_travels alloc aw al (q +! 32)) as (_ & _ & Ht); [done|done|].
  destruct (Ht ltac:(rewrite blen_ptr_add by lia; lia) Hw) as (Hdec & Hrn & aw' & Henc & Haw').
  destruct (allocation_travels (set_allocate_frame.(fr_norm) alloc) aw' al aw') as (_ & Hl' & _);
    [exact Hrn|exact Henc|].
  cbn [fr_norm fr_decode set_transaction_frame dta_rq_allocation].
  remember (set_allocate_frame.(fr_norm) alloc) as w eqn:Hnorm. clear Hnorm.
  assert (Hu : is_u32 al = true) by (apply is_u32_spec; lia).
  cbn -[Z.add Z.mul Z.sub]. extent_read Hh. wire_read. frame_lengths.
  rewrite Hj, ?Hs, Hdec. cbn [orb negb]. cbn -[Z.add Z.mul Z.sub].
  rewrite ?Hj, Henc, ?Hs. cbn [negb fst snd]. rewrite Z.eqb_refl. cbn [negb orb].
  match goal with
  | |- context [memcmp_ne ?p q _] =>
      assert (Hp : blen p = 176)
        by (autorewrite with blen; rewrite ?blen_blank by lia; lia);
      rewrite (proj2 (memcmp_ne_false p q (32 + al) ltac:(lia) ltac:(lia) Hq));
        [done|clear Hp]
  end.
  pose proof (blen_rd_bytes aw' 0 al ltac:(lia) ltac:(lia) ltac:(lia)) as Hra.
  apply agree_join.
  - eapply agree_trans; [apply agree_wr_bytes; unfold disjoint; lia|].
    apply agree_sym. eapply agree_trans; [exact Hh|].
    agree_words.
  - intros k Hk. rewrite rd8_wr_bytes_in, rd_bytes_lookup
      by (autorewrite with blen; rewrite ?Hra, ?blen_blank by lia; lia).
    rewrite Haw' by lia. rewrite <- (Hw (0 + (k - 32))) by lia.
    rewrite rd8_ptr_add by lia. f_equal. lia.
Qed.

Lemma set_transaction_complete : frame_is_complete set_transaction_frame.
Proof.
  intros q n old v out l Hn Hb H. cbn -[Z.add Z.mul Z.sub] in Hb, H.
  frame_guards H.
  destruct (bvb_protocol_decode_vulkan_descriptor_set_allocate_request _ _ _)
    as [w|] eqn:Hdec; [|done].
  destruct (journal_fields_ok _ _ _ _) eqn:Hj; [cbn [negb] in *|done].
  split_tests.
  assert (Hal : n = 32 + bvb_wire_get_u32 q 24) by lia.
  u32_bound (bvb_wire_get_u32 q 24).
  destruct (frame_complete (f := set_allocate_frame) (q +! 32)
    (bvb_wire_get_u32 q 24) _ w (blank BVB_PROTOCOL_MAX_PAYLOAD) 0
    ltac:(rewrite blen_ptr_add by lia; lia)
    ltac:(cbn; rewrite blen_blank; lia) Hdec) as (Hrep & Hnorm & p & Henc & Ha).
  change (set_allocate_frame.(fr_encode))
    with bvb_protocol_encode_vulkan_descriptor_set_allocate_request in Henc.
  rewrite Henc in H. ok_path H. injection H as <-.
  destruct (allocation_travels w p (bvb_wire_get_u32 q 24) p Hrep Henc)
    as (_ & Hp & _).
  pose proof (blen_rd_bytes p 0 (bvb_wire_get_u32 q 24) ltac:(lia) ltac:(lia)
    ltac:(lia)) as Hrp.
  split_and!.
  - cbn -[dsa_rq_rep]. unfold dta_rq_rep. cbn -[dsa_rq_rep].
    rewrite !get_u64_range, !get_u32_range. exact Hrep.
  - cbn [fr_norm set_transaction_frame dta_rq_journal_generation
      dta_rq_journal_sequence dta_rq_journal_length
      dta_rq_journal_record_count dta_rq_allocation].
    change (fr_norm set_allocate_frame w = w) in Hnorm. by rewrite Hnorm.
  - cbn -[Z.add Z.mul Z.sub]. rewrite Hj, Henc. cbn [negb]. use_tests.
    eexists. split; [by rewrite Hal|]. rewrite Hal. apply agree_join.
    + eapply agree_trans; [apply agree_wr_bytes; unfold disjoint; lia|].
      agree_words.
    + intros k Hk. rewrite rd8_wr_bytes_in, rd_bytes_lookup
        by (autorewrite with blen; rewrite ?Hrp; lia).
      rewrite Ha by lia. rewrite rd8_ptr_add by lia. f_equal. lia.
Qed.

#[export] Instance set_transaction_lawful : LawfulFrame set_transaction_frame.
Proof.
  constructor; [intros out v l [->|[->| ->]]; [done|by destruct out|by destruct out, v]
               |intros inp ? ? [->| ->]; [done|by destruct inp]| | |
                exact set_transaction_sound].
  - intros out v l e H. cbn -[Z.add Z.mul Z.sub] in H.
    destruct (journal_fields_ok _ _ _ _); [cbn [negb] in H|left; by injection H].
    destruct (bvb_protocol_encode_vulkan_descriptor_set_allocate_request _ _ _)
      as [[p n]|e'] eqn:He.
    + destruct (176 - 32 <? n) eqn:Hs; [|done]. exfalso.
      unfold bvb_protocol_encode_vulkan_descriptor_set_allocate_request in He.
      ok_path He. injection He as _ <-. split_tests. lia.
    + injection H as <-.
      exact (frame_encode_error (f := set_allocate_frame) _ _ _ _ He).
  - intros q n old e H. cbn -[Z.add Z.mul Z.sub] in *.
    rewrite Z.leb_antisym. change (176 - 32) with 144 in *.
    change (32 + 16) with 48 in H.
    destruct (n <? 48) eqn:Hn; [by injection H as <-|]. cbn [orb].
    destruct (journal_fields_ok _ _ _ _); [cbn [negb andb orb] in *|by injection H].
    destruct (bvb_wire_get_u32 q 28 =? 0); [cbn [negb andb orb] in *|by injection H].
    destruct (144 <? bvb_wire_get_u32 q 24); [by injection H|cbn [negb andb orb] in *].
    destruct (n =? 32 + bvb_wire_get_u32 q 24) eqn:Hl; [cbn [negb andb orb] in *|by injection H].
    destruct (bvb_protocol_decode_vulkan_descriptor_set_allocate_request _ _ _)
      as [w|e'] eqn:Hdec.
    + assert (Hz : (bvb_wire_get_u32 (q +! 32) 12 =? 0) = true).
      { unfold bvb_protocol_decode_vulkan_descriptor_set_allocate_request in Hdec.
        ok_path Hdec. by split_tests. }
      rewrite Hz. cbn [negb].
      frame_errors H; first [by injection H|discriminate H].
    + injection H as <-. apply (frame_decode_error (f := set_allocate_frame)) in Hdec.
      rewrite Hdec. cbn. unfold reserved_code.
      by rewrite (proj2 (Z.ltb_ge (bvb_wire_get_u32 q 24) 16)) by lia.
Qed.
#[export] Instance set_transaction_canonical :
  CanonicalFrame set_transaction_frame.
Proof. exact set_transaction_complete. Qed.
