(* ===== verification/MessageBinding.v ===== *)
(** * MessageBinding: samplers, descriptor updates and bindings

    The second half of src/vulkan_descriptor_wire.c, which describes what
    descriptors point to, and the pipeline layout of
    src/vulkan_pipeline_wire.c.  Some messages carry two arrays, the second
    right after the first; some decoders also compare the bytes the encoder
    gives with the input. *)

From stdpp Require Import list.
From S2P Require Import Prelude Wire Abi Codec ProtocolBase Window Element Frame Segments MessagePlan DescriptorTypes MessageDescriptor.

#[local] Open Scope list_scope.

(** ** Samplers *)

Definition bvb_protocol_encode_vulkan_sampler_create_request
    (output : ptr bytes) (request : ptr bvb_vulkan_sampler_create_request) :
    result bytes :=
  deref output := output or (- EINVAL) ;;
  deref request := request or (- EINVAL) ;;
  fail_if negb (wire_id_is request.(smpc_rq_device_id) BVB_OBJECT_DEVICE) ||
          (1 <? request.(smpc_rq_anisotropy_enable)) ||
          (1 <? request.(smpc_rq_compare_enable)) ||
          (1 <? request.(smpc_rq_unnormalized_coordinates))
    with (- EINVAL) ;;
  let output := memset0 output 0 72 in
  let output := bvb_wire_put_u64 output 0 request.(smpc_rq_device_id) in
  let output := bvb_wire_put_u32 output 8 request.(smpc_rq_flags) in
  let output := bvb_wire_put_u32 output 12 request.(smpc_rq_mag_filter) in
  let output := bvb_wire_put_u32 output 16 request.(smpc_rq_min_filter) in
  let output := bvb_wire_put_u32 output 20 request.(smpc_rq_mipmap_mode) in
  let output := bvb_wire_put_u32 output 24 request.(smpc_rq_address_mode_u) in
  let output := bvb_wire_put_u32 output 28 request.(smpc_rq_address_mode_v) in
  let output := bvb_wire_put_u32 output 32 request.(smpc_rq_address_mode_w) in
  let output :=
    bvb_wire_put_u32 output 36 request.(smpc_rq_mip_lod_bias_bits) in
  let output :=
    bvb_wire_put_u32 output 40 request.(smpc_rq_anisotropy_enable) in
  let output :=
    bvb_wire_put_u32 output 44 request.(smpc_rq_max_anisotropy_bits) in
  let output := bvb_wire_put_u32 output 48 request.(smpc_rq_compare_enable) in
  let output := bvb_wire_put_u32 output 52 request.(smpc_rq_compare_op) in
  let output := bvb_wire_put_u32 output 56 request.(smpc_rq_min_lod_bits) in
  let output := bvb_wire_put_u32 output 60 request.(smpc_rq_max_lod_bits) in
  let output := bvb_wire_put_u32 output 64 request.(smpc_rq_border_color) in
  let output :=
    bvb_wire_put_u32 output 68 request.(smpc_rq_unnormalized_coordinates) in
  Ok output.

Definition bvb_protocol_decode_vulkan_sampler_create_request
    (input : ptr bytes) (request : ptr bvb_vulkan_sampler_create_request) :
    result bvb_vulkan_sampler_create_request :=
  deref input := input or (- EINVAL) ;;
  deref _ := request or (- EINVAL) ;;
  let decoded :=
    {| smpc_rq_device_id := bvb_wire_get_u64 input 0;
       smpc_rq_flags := bvb_wire_get_u32 input 8;
       smpc_rq_mag_filter := bvb_wire_get_u32 input 12;
       smpc_rq_min_filter := bvb_wire_get_u32 input 16;
       smpc_rq_mipmap_mode := bvb_wire_get_u32 input 20;
       smpc_rq_address_mode_u := bvb_wire_get_u32 input 24;
       smpc_rq_address_mode_v := bvb_wire_get_u32 input 28;
       smpc_rq_address_mode_w := bvb_wire_get_u32 input 32;
       smpc_rq_mip_lod_bias_bits := bvb_wire_get_u32 input 36;
       smpc_rq_anisotropy_enable := bvb_wire_get_u32 input 40;
       smpc_rq_max_anisotropy_bits := bvb_wire_get_u32 input 44;
       smpc_rq_compare_enable := bvb_wire_get_u32 input 48;
       smpc_rq_compare_op := bvb_wire_get_u32 input 52;
       smpc_rq_min_lod_bits := bvb_wire_get_u32 input 56;
       smpc_rq_max_lod_bits := bvb_wire_get_u32 input 60;
       smpc_rq_border_color := bvb_wire_get_u32 input 64;
       smpc_rq_unnormalized_coordinates := bvb_wire_get_u32 input 68 |} in
  call _ := bvb_protocol_encode_vulkan_sampler_create_request
    (Some (blank 72)) (Some decoded) or (- EPROTO) ;;
  Ok decoded.

Definition sampler_create_codec : codec bvb_vulkan_sampler_create_request :=
  {| codec_size := 72; codec_rep := smpc_rq_rep;
     encode := bvb_protocol_encode_vulkan_sampler_create_request;
     decode := bvb_protocol_decode_vulkan_sampler_create_request |}.
#[export] Instance sampler_create_lawful : Lawful sampler_create_codec.
Proof. solve_lawful. Qed.
#[export] Instance sampler_create_canonical : Canonical sampler_create_codec.
Proof. solve_canonical. Qed.

(** ** Updates *)

Definition encode_descriptor_write (record : bytes)
    (write : bvb_vulkan_descriptor_write) : bytes :=
  let record := bvb_wire_put_u64 record 0 write.(dw_descriptor_set_id) in
  let record := bvb_wire_put_u32 record 8 write.(dw_dst_binding) in
  let record := bvb_wire_put_u32 record 12 write.(dw_dst_array_element) in
  let record := bvb_wire_put_u32 record 16 write.(dw_descriptor_count) in
  let record := bvb_wire_put_u32 record 20 write.(dw_descriptor_type) in
  bvb_wire_put_u32 record 24 write.(dw_first_sampler).

Definition decode_descriptor_write (record : bytes) :
    bvb_vulkan_descriptor_write :=
  {| dw_descriptor_set_id := bvb_wire_get_u64 record 0;
     dw_dst_binding := bvb_wire_get_u32 record 8;
     dw_dst_array_element := bvb_wire_get_u32 record 12;
     dw_descriptor_count := bvb_wire_get_u32 record 16;
     dw_descriptor_type := bvb_wire_get_u32 record 20;
     dw_first_sampler := bvb_wire_get_u32 record 24 |}.

Definition descriptor_write_element :
    element bvb_vulkan_descriptor_write :=
  {| el_size := 32; el_zero := zero_dw; el_rep := dw_rep;
     el_pad q := bvb_wire_get_u32 q 28 =? 0;
     el_encode := encode_descriptor_write; el_decode := decode_descriptor_write |}.
#[export] Hint Unfold encode_descriptor_write decode_descriptor_write : elements.
#[export] Instance descriptor_write_element_lawful :
  LawfulElement descriptor_write_element.
Proof. solve_element. Qed.

Definition bvb_protocol_encode_vulkan_descriptor_update_request
    (output : ptr bytes) (request : ptr bvb_vulkan_descriptor_update_request)
    (output_length : ptr Z) : result (bytes * Z) :=
  deref output := output or (- EINVAL) ;;
  deref request := request or (- EINVAL) ;;
  deref _ := output_length or (- EINVAL) ;;
  fail_if negb (wire_id_is request.(du_rq_device_id) BVB_OBJECT_DEVICE) ||
          (request.(du_rq_write_count) =? 0) ||
          (BVB_VULKAN_MAX_DESCRIPTOR_WRITES <? request.(du_rq_write_count)) ||
          (request.(du_rq_sampler_count) =? 0) ||
          (BVB_VULKAN_MAX_DESCRIPTOR_SAMPLERS <?
             request.(du_rq_sampler_count)) with (- EINVAL) ;;
  let length := 16 + request.(du_rq_write_count) * 32 +
                request.(du_rq_sampler_count) * 8 in
  let output := memset0 output 0 length in
  let output := bvb_wire_put_u64 output 0 request.(du_rq_device_id) in
  let output := bvb_wire_put_u32 output 8 request.(du_rq_write_count) in
  let output := bvb_wire_put_u32 output 12 request.(du_rq_sampler_count) in
  try output := for_loop request.(du_rq_write_count) (fun index output =>
    let write := elt zero_dw request.(du_rq_writes) index in
    fail_if negb (wire_id_is write.(dw_descriptor_set_id)
                    BVB_OBJECT_DESCRIPTOR_SET) ||
            (write.(dw_descriptor_count) =? 0) ||
            (request.(du_rq_sampler_count) <=? write.(dw_first_sampler)) ||
            (request.(du_rq_sampler_count) - write.(dw_first_sampler) <?
               write.(dw_descriptor_count)) with (- EINVAL) ;;
    Ok (write_window output (16 + index * 32) 32
          (fun w => encode_descriptor_write w write))) output ;;
  try output := for_loop request.(du_rq_sampler_count) (fun index output =>
    let id := elt 0 request.(du_rq_sampler_ids) index in
    fail_if negb (wire_id_is id BVB_OBJECT_SAMPLER) with (- EINVAL) ;;
    Ok (write_window output
          (16 + request.(du_rq_write_count) * 32 + index * 8) 8
          (fun w => bvb_wire_put_u64 w 0 id))) output ;;
  Ok (output, length).

Definition bvb_protocol_decode_vulkan_descriptor_update_request
    (input : ptr bytes) (input_length : Z)
    (request : ptr bvb_vulkan_descriptor_update_request) :
    result bvb_vulkan_descriptor_update_request :=
  deref input := input or (- EINVAL) ;;
  deref _ := request or (- EINVAL) ;;
  fail_if input_length <? 16 with (- EINVAL) ;;
  let write_count := bvb_wire_get_u32 input 8 in
  let sampler_count := bvb_wire_get_u32 input 12 in
  fail_if (BVB_VULKAN_MAX_DESCRIPTOR_WRITES <? write_count) ||
          (BVB_VULKAN_MAX_DESCRIPTOR_SAMPLERS <? sampler_count) ||
          negb (input_length =? 16 + write_count * 32 + sampler_count * 8)
    with (- EPROTO) ;;
  try writes := for_loop write_count (fun index writes =>
    let write := input +! (16 + index * 32) in
    fail_if negb (bvb_wire_get_u32 write 28 =? 0) with (- EPROTO) ;;
    Ok (<[Z.to_nat index := decode_descriptor_write write]> writes))
    (replicate 32 zero_dw) ;;
  try sampler_ids := for_loop sampler_count (fun index sampler_ids =>
    Ok (<[Z.to_nat index :=
            bvb_wire_get_u64
              (input +! (16 + write_count * 32 + index * 8)) 0]>
          sampler_ids)) (replicate 128 0) ;;
  let decoded :=
    {| du_rq_device_id := bvb_wire_get_u64 input 0;
       du_rq_write_count := write_count;
       du_rq_sampler_count := sampler_count;
       du_rq_writes := writes;
       du_rq_sampler_ids := sampler_ids |} in
  call _ := bvb_protocol_encode_vulkan_descriptor_update_request
    (Some (blank BVB_PROTOCOL_MAX_PAYLOAD)) (Some decoded) (Some 0)
    or (- EPROTO) ;;
  Ok decoded.

Definition write_ok (sampler_count : Z)
    (writes : list bvb_vulkan_descriptor_write) (i : Z) : bool :=
  let w := elt zero_dw writes i in
  wire_id_is w.(dw_descriptor_set_id) BVB_OBJECT_DESCRIPTOR_SET &&
  negb (w.(dw_descriptor_count) =? 0) &&
  (w.(dw_first_sampler) <? sampler_count) &&
  (w.(dw_descriptor_count) <=? sampler_count - w.(dw_first_sampler)).

Definition descriptor_update_frame :
    framed bvb_vulkan_descriptor_update_request :=
  {| fr_capacity := BVB_PROTOCOL_MAX_PAYLOAD;
     fr_rep := du_rq_rep;
     fr_norm r :=
       {| du_rq_device_id := r.(du_rq_device_id);
          du_rq_write_count := r.(du_rq_write_count);
          du_rq_sampler_count := r.(du_rq_sampler_count);
          du_rq_writes := keep r.(du_rq_write_count) zero_dw r.(du_rq_writes);
          du_rq_sampler_ids := keep r.(du_rq_sampler_count) 0 r.(du_rq_sampler_ids) |};
     fr_encode :=
       bvb_protocol_encode_vulkan_descriptor_update_request;
     fr_decode :=
       bvb_protocol_decode_vulkan_descriptor_update_request;
     fr_code := prefix_code 16 |}.

Definition descriptor_update_plan :
    plan bvb_vulkan_descriptor_update_request :=
  {| pn_capacity := BVB_PROTOCOL_MAX_PAYLOAD;
     pn_prefix := 16;
     pn_rep := descriptor_update_frame.(fr_rep);
     pn_norm := descriptor_update_frame.(fr_norm);
     pn_valid r :=
       wire_id_is r.(du_rq_device_id) BVB_OBJECT_DEVICE &&
       negb (r.(du_rq_write_count) =? 0) && (r.(du_rq_write_count) <=? 32) &&
       negb (r.(du_rq_sampler_count) =? 0) &&
       (r.(du_rq_sampler_count) <=? 128);
     pn_header r output :=
       let output := bvb_wire_put_u64 output 0 r.(du_rq_device_id) in
       let output := bvb_wire_put_u32 output 8 r.(du_rq_write_count) in
       bvb_wire_put_u32 output 12 r.(du_rq_sampler_count);
     pn_reads q r :=
       bvb_wire_get_u64 q 0 = r.(du_rq_device_id) /\
       bvb_wire_get_u32 q 8 = r.(du_rq_write_count) /\
       bvb_wire_get_u32 q 12 = r.(du_rq_sampler_count);
     pn_end r := 16 + r.(du_rq_write_count) * 32 + r.(du_rq_sampler_count) * 8;
     pn_segments r :=
       [array_segment descriptor_write_element 16 r.(du_rq_write_count)
          (write_ok r.(du_rq_sampler_count)) r.(du_rq_writes);
        array_segment u64_element (16 + r.(du_rq_write_count) * 32) r.(du_rq_sampler_count)
          (ids_are BVB_OBJECT_SAMPLER) r.(du_rq_sampler_ids)] |}.

#[export] Instance descriptor_update_plan_lawful : LawfulPlan descriptor_update_plan.
Proof. solve_plan ltac:(unfold write_ok, ids_are; solve_local). Qed.

Definition descriptor_update_gate (q : bytes) (n : Z) : bool :=
  (16 <=? n) &&
  (bvb_wire_get_u32 q 8 <=? 32) &&
  (bvb_wire_get_u32 q 12 <=? 128) &&
  (n =? 16 + bvb_wire_get_u32 q 8 * 32 + bvb_wire_get_u32 q 12 * 8) &&
  padded descriptor_write_element q 16 (bvb_wire_get_u32 q 8).
Definition descriptor_update_parse (q : bytes) :
    bvb_vulkan_descriptor_update_request :=
  {| du_rq_device_id := bvb_wire_get_u64 q 0;
     du_rq_write_count := bvb_wire_get_u32 q 8;
     du_rq_sampler_count := bvb_wire_get_u32 q 12;
     du_rq_writes := 
         read_array descriptor_write_element q 16 (bvb_wire_get_u32 q 8) 32;
     du_rq_sampler_ids := 
         read_array u64_element q (16 + bvb_wire_get_u32 q 8 * 32) (bvb_wire_get_u32 q 12) 128 |}.

#[export] Instance descriptor_update_follows :
  FollowsPlan descriptor_update_plan descriptor_update_frame.
Proof.
  solve_follows descriptor_update_gate descriptor_update_parse any_difference
    bvb_protocol_encode_vulkan_descriptor_update_request
    ltac:(fun q => read_loop descriptor_write_element q 16
                     (bvb_wire_get_u32 q 8) 32%nat; read_loop u64_element q (16 + bvb_wire_get_u32 q 8 * 32)
                     (bvb_wire_get_u32 q 12) 128%nat)
    ltac:(unfold write_ok, ids_are; plan_guard; bool_cases).
Qed.
#[export] Instance descriptor_update_lawful : LawfulFrame descriptor_update_frame.
Proof. solve_planned_frame descriptor_update_plan descriptor_update_frame. Qed.
#[export] Instance descriptor_update_canonical : CanonicalFrame descriptor_update_frame.
Proof. exact (plan_complete descriptor_update_plan descriptor_update_frame). Qed.

(** ** Update templates *)

Definition descriptor_template_entry_is_bounded
    (entry : bvb_vulkan_descriptor_update_template_entry) : bool :=
  if (entry.(dute_descriptor_count) =? 0) ||
     (10 <? entry.(dute_descriptor_type)) ||
     (entry.(dute_stride) =? 0) ||
     (BVB_VULKAN_MAX_DESCRIPTOR_UPDATE_TEMPLATE_DATA_SIZE <=?
        entry.(dute_offset)) ||
     (BVB_VULKAN_MAX_DESCRIPTOR_UPDATE_TEMPLATE_DATA_SIZE <?
        entry.(dute_stride))
  then false
  else
    let remaining := entry.(dute_descriptor_count) - 1 in
    remaining <=? (BVB_VULKAN_MAX_DESCRIPTOR_UPDATE_TEMPLATE_DATA_SIZE - 1 -
                   entry.(dute_offset)) / entry.(dute_stride).

Definition encode_template_entry (record : bytes)
    (entry : bvb_vulkan_descriptor_update_template_entry) : bytes :=
  let record := bvb_wire_put_u32 record 0 entry.(dute_dst_binding) in
  let record := bvb_wire_put_u32 record 4 entry.(dute_dst_array_element) in
  let record := bvb_wire_put_u32 record 8 entry.(dute_descriptor_count) in
  let record := bvb_wire_put_u32 record 12 entry.(dute_descriptor_type) in
  let record := bvb_wire_put_u64 record 16 entry.(dute_offset) in
  bvb_wire_put_u64 record 24 entry.(dute_stride).

Definition decode_template_entry (record : bytes) :
    bvb_vulkan_descriptor_update_template_entry :=
  {| dute_dst_binding := bvb_wire_get_u32 record 0;
     dute_dst_array_element := bvb_wire_get_u32 record 4;
     dute_descriptor_count := bvb_wire_get_u32 record 8;
     dute_descriptor_type := bvb_wire_get_u32 record 12;
     dute_offset := bvb_wire_get_u64 record 16;
     dute_stride := bvb_wire_get_u64 record 24 |}.

Definition template_entry_element :
    element bvb_vulkan_descriptor_update_template_entry :=
  {| el_size := 32; el_zero := zero_dute; el_rep := dute_rep;
     el_pad _ := true;
     el_encode := encode_template_entry; el_decode := decode_template_entry |}.
#[export] Hint Unfold encode_template_entry decode_template_entry : elements.
#[export] Instance template_entry_element_lawful :
  LawfulElement template_entry_element.
Proof. solve_element. Qed.

Definition bvb_protocol_encode_vulkan_descriptor_update_template_create_request
    (output : ptr bytes)
    (request : ptr bvb_vulkan_descriptor_update_template_create_request)
    (output_length : ptr Z) : result (bytes * Z) :=
  deref output := output or (- EINVAL) ;;
  deref request := request or (- EINVAL) ;;
  deref _ := output_length or (- EINVAL) ;;
  fail_if negb (wire_id_is request.(dutc_rq_device_id) BVB_OBJECT_DEVICE) ||
          negb (wire_id_is request.(dutc_rq_descriptor_set_layout_id)
                  BVB_OBJECT_DESCRIPTOR_SET_LAYOUT) ||
          negb (request.(dutc_rq_flags) =? 0) ||
          (request.(dutc_rq_entry_count) =? 0) ||
          (BVB_VULKAN_MAX_DESCRIPTOR_UPDATE_TEMPLATE_ENTRIES <?
             request.(dutc_rq_entry_count)) ||
          negb (request.(dutc_rq_template_type) =? 0) ||
          negb (request.(dutc_rq_set) =? 0) ||
          negb (request.(dutc_rq_pipeline_layout_id) =? 0) ||
          negb (request.(dutc_rq_pipeline_bind_point) =? 0)
    with (- EINVAL) ;;
  let length := 48 + request.(dutc_rq_entry_count) * 32 in
  let output := memset0 output 0 length in
  let output := bvb_wire_put_u64 output 0 request.(dutc_rq_device_id) in
  let output := bvb_wire_put_u32 output 8 request.(dutc_rq_flags) in
  let output := bvb_wire_put_u32 output 12 request.(dutc_rq_entry_count) in
  let output := bvb_wire_put_u32 output 16 request.(dutc_rq_template_type) in
  let output := bvb_wire_put_u32 output 20 request.(dutc_rq_set) in
  let output :=
    bvb_wire_put_u64 output 24 request.(dutc_rq_descriptor_set_layout_id) in
  let output :=
    bvb_wire_put_u64 output 32 request.(dutc_rq_pipeline_layout_id) in
  let output :=
    bvb_wire_put_u32 output 40 request.(dutc_rq_pipeline_bind_point) in
  try output := for_loop request.(dutc_rq_entry_count) (fun index output =>
    let entry := elt zero_dute request.(dutc_rq_entries) index in
    fail_if negb (descriptor_template_entry_is_bounded entry)
      with (- EINVAL) ;;
    Ok (write_window output (48 + index * 32) 32
          (fun w => encode_template_entry w entry))) output ;;
  Ok (output, length).

Definition bvb_protocol_decode_vulkan_descriptor_update_template_create_request
    (input : ptr bytes) (input_length : Z)
    (request : ptr bvb_vulkan_descriptor_update_template_create_request) :
    result bvb_vulkan_descriptor_update_template_create_request :=
  deref input := input or (- EINVAL) ;;
  deref _ := request or (- EINVAL) ;;
  fail_if (input_length <? 48) || negb (bvb_wire_get_u32 input 44 =? 0)
    with (- EINVAL) ;;
  let entry_count := bvb_wire_get_u32 input 12 in
  fail_if (entry_count =? 0) ||
          (BVB_VULKAN_MAX_DESCRIPTOR_UPDATE_TEMPLATE_ENTRIES <?
             entry_count) ||
          negb (input_length =? 48 + entry_count * 32) with (- EPROTO) ;;
  try entries := for_loop entry_count (fun index entries =>
    Ok (<[Z.to_nat index :=
            decode_template_entry (input +! (48 + index * 32))]> entries))
    (replicate 32 zero_dute) ;;
  let decoded :=
    {| dutc_rq_device_id := bvb_wire_get_u64 input 0;
       dutc_rq_flags := bvb_wire_get_u32 input 8;
       dutc_rq_entry_count := entry_count;
       dutc_rq_template_type := bvb_wire_get_u32 input 16;
       dutc_rq_set := bvb_wire_get_u32 input 20;
       dutc_rq_descriptor_set_layout_id := bvb_wire_get_u64 input 24;
       dutc_rq_pipeline_layout_id := bvb_wire_get_u64 input 32;
       dutc_rq_pipeline_bind_point := bvb_wire_get_u32 input 40;
       dutc_rq_entries := entries |} in
  call validation :=
    bvb_protocol_encode_vulkan_descriptor_update_template_create_request
      (Some (blank BVB_PROTOCOL_MAX_PAYLOAD)) (Some decoded) (Some 0)
      or (- EPROTO) ;;
  fail_if negb (snd validation =? input_length) ||
          memcmp_ne (fst validation) input input_length with (- EPROTO) ;;
  Ok decoded.

Definition entry_ok (entries : list bvb_vulkan_descriptor_update_template_entry)
    (i : Z) : bool :=
  descriptor_template_entry_is_bounded (elt zero_dute entries i).

Definition template_create_frame :
    framed bvb_vulkan_descriptor_update_template_create_request :=
  {| fr_capacity := BVB_PROTOCOL_MAX_PAYLOAD;
     fr_rep := dutc_rq_rep;
     fr_norm r :=
       {| dutc_rq_device_id := r.(dutc_rq_device_id);
          dutc_rq_flags := r.(dutc_rq_flags);
          dutc_rq_entry_count := r.(dutc_rq_entry_count);
          dutc_rq_template_type := r.(dutc_rq_template_type);
          dutc_rq_set := r.(dutc_rq_set);
          dutc_rq_descriptor_set_layout_id := r.(dutc_rq_descriptor_set_layout_id);
          dutc_rq_pipeline_layout_id := r.(dutc_rq_pipeline_layout_id);
          dutc_rq_pipeline_bind_point := r.(dutc_rq_pipeline_bind_point);
          dutc_rq_entries := keep r.(dutc_rq_entry_count) zero_dute r.(dutc_rq_entries) |};
     fr_encode :=
       bvb_protocol_encode_vulkan_descriptor_update_template_create_request;
     fr_decode :=
       bvb_protocol_decode_vulkan_descriptor_update_template_create_request;
     fr_code := reserved_code 48 44 |}.

Definition template_create_plan :
    plan bvb_vulkan_descriptor_update_template_create_request :=
  {| pn_capacity := BVB_PROTOCOL_MAX_PAYLOAD;
     pn_prefix := 48;
     pn_rep := template_create_frame.(fr_rep);
     pn_norm := template_create_frame.(fr_norm);
     pn_valid r :=
       wire_id_is r.(dutc_rq_device_id) BVB_OBJECT_DEVICE &&
       wire_id_is r.(dutc_rq_descriptor_set_layout_id)
         BVB_OBJECT_DESCRIPTOR_SET_LAYOUT &&
       (r.(dutc_rq_flags) =? 0) && negb (r.(dutc_rq_entry_count) =? 0) &&
       (r.(dutc_rq_entry_count) <=? 32) &&
       (r.(dutc_rq_template_type) =? 0) && (r.(dutc_rq_set) =? 0) &&
       (r.(dutc_rq_pipeline_layout_id) =? 0) &&
       (r.(dutc_rq_pipeline_bind_point) =? 0);
     pn_header r output :=
       let output := bvb_wire_put_u64 output 0 r.(dutc_rq_device_id) in
       let output := bvb_wire_put_u32 output 8 r.(dutc_rq_flags) in
       let output := bvb_wire_put_u32 output 12 r.(dutc_rq_entry_count) in
       let output := bvb_wire_put_u32 output 16 r.(dutc_rq_template_type) in
       let output := bvb_wire_put_u32 output 20 r.(dutc_rq_set) in
       let output := bvb_wire_put_u64 output 24 r.(dutc_rq_descriptor_set_layout_id) in
       let output := bvb_wire_put_u64 output 32 r.(dutc_rq_pipeline_layout_id) in
       bvb_wire_put_u32 output 40 r.(dutc_rq_pipeline_bind_point);
     pn_reads q r :=
       bvb_wire_get_u64 q 0 = r.(dutc_rq_device_id) /\
       bvb_wire_get_u32 q 8 = r.(dutc_rq_flags) /\
       bvb_wire_get_u32 q 12 = r.(dutc_rq_entry_count) /\
       bvb_wire_get_u32 q 16 = r.(dutc_rq_template_type) /\
       bvb_wire_get_u32 q 20 = r.(dutc_rq_set) /\
       bvb_wire_get_u64 q 24 = r.(dutc_rq_descriptor_set_layout_id) /\
       bvb_wire_get_u64 q 32 = r.(dutc_rq_pipeline_layout_id) /\
       bvb_wire_get_u32 q 40 = r.(dutc_rq_pipeline_bind_point) /\
       bvb_wire_get_u32 q 44 = 0;
     pn_end r := 48 + r.(dutc_rq_entry_count) * 32;
     pn_segments r :=
       [array_segment template_entry_element 48 r.(dutc_rq_entry_count)
          entry_ok r.(dutc_rq_entries)] |}.

#[export] Instance template_create_plan_lawful : LawfulPlan template_create_plan.
Proof. solve_plan ltac:(unfold entry_ok; solve_local). Qed.

Definition template_create_gate (q : bytes) (n : Z) : bool :=
  (48 <=? n) &&
  (bvb_wire_get_u32 q 44 =? 0) &&
  (bvb_wire_get_u32 q 12 <=? 32) &&
  negb (bvb_wire_get_u32 q 12 =? 0) &&
  (n =? 48 + bvb_wire_get_u32 q 12 * 32).
Definition template_create_parse (q : bytes) :
    bvb_vulkan_descriptor_update_template_create_request :=
  {| dutc_rq_device_id := bvb_wire_get_u64 q 0;
     dutc_rq_flags := bvb_wire_get_u32 q 8;
     dutc_rq_entry_count := bvb_wire_get_u32 q 12;
     dutc_rq_template_type := bvb_wire_get_u32 q 16;
     dutc_rq_set := bvb_wire_get_u32 q 20;
     dutc_rq_descriptor_set_layout_id := bvb_wire_get_u64 q 24;
     dutc_rq_pipeline_layout_id := bvb_wire_get_u64 q 32;
     dutc_rq_pipeline_bind_point := bvb_wire_get_u32 q 40;
     dutc_rq_entries := 
         read_array template_entry_element q 48 (bvb_wire_get_u32 q 12) 32 |}.

#[export] Instance template_create_follows :
  FollowsPlan template_create_plan template_create_frame.
Proof.
  solve_follows template_create_gate template_create_parse byte_difference
    bvb_protocol_encode_vulkan_descriptor_update_template_create_request
    ltac:(fun q => read_loop template_entry_element q 48
                     (bvb_wire_get_u32 q 12) 32%nat)
    ltac:(unfold entry_ok; bool_cases).
Qed.
#[export] Instance template_create_lawful : LawfulFrame template_create_frame.
Proof. solve_planned_frame template_create_plan template_create_frame. Qed.
#[export] Instance template_create_canonical : CanonicalFrame template_create_frame.
Proof. exact (plan_complete template_create_plan template_create_frame). Qed.

(** The values an update writes through a template: which object and which
    other words a descriptor of each type has. *)
Definition descriptor_template_value_is_canonical
    (value : bvb_vulkan_descriptor_template_value) : bool :=
  let null_or (id type : Z) := (id =? 0) || wire_id_is id type in
  match value.(dtv_descriptor_type) with
  | 0 => null_or value.(dtv_object_id) BVB_OBJECT_SAMPLER &&
         (value.(dtv_auxiliary_object_id) =? 0) &&
         (value.(dtv_image_layout) =? 0) && (value.(dtv_offset) =? 0) &&
         (value.(dtv_range) =? 0)
  | 1 => null_or value.(dtv_object_id) BVB_OBJECT_IMAGE_VIEW &&
         null_or value.(dtv_auxiliary_object_id) BVB_OBJECT_SAMPLER &&
         (value.(dtv_offset) =? 0) && (value.(dtv_range) =? 0)
  | 2 | 3 | 10 => null_or value.(dtv_object_id) BVB_OBJECT_IMAGE_VIEW &&
         (value.(dtv_auxiliary_object_id) =? 0) &&
         (value.(dtv_offset) =? 0) && (value.(dtv_range) =? 0)
  | 4 | 5 => (value.(dtv_object_id) =? 0) &&
         (value.(dtv_auxiliary_object_id) =? 0) &&
         (value.(dtv_image_layout) =? 0) && (value.(dtv_offset) =? 0) &&
         (value.(dtv_range) =? 0)
  | 6 | 7 | 8 | 9 => null_or value.(dtv_object_id) BVB_OBJECT_BUFFER &&
         (value.(dtv_auxiliary_object_id) =? 0) &&
         (value.(dtv_image_layout) =? 0)
  | _ => false
  end.
#[global] Arguments descriptor_template_value_is_canonical : simpl never.
#[global] Arguments descriptor_template_entry_is_bounded : simpl never.

Definition encode_template_value (record : bytes)
    (value : bvb_vulkan_descriptor_template_value) : bytes :=
  let record := bvb_wire_put_u32 record 0 value.(dtv_descriptor_type) in
  let record := bvb_wire_put_u32 record 4 value.(dtv_image_layout) in
  let record := bvb_wire_put_u64 record 8 value.(dtv_object_id) in
  let record := bvb_wire_put_u64 record 16 value.(dtv_auxiliary_object_id) in
  let record := bvb_wire_put_u64 record 24 value.(dtv_offset) in
  bvb_wire_put_u64 record 32 value.(dtv_range).

Definition decode_template_value (record : bytes) :
    bvb_vulkan_descriptor_template_value :=
  {| dtv_descriptor_type := bvb_wire_get_u32 record 0;
     dtv_image_layout := bvb_wire_get_u32 record 4;
     dtv_object_id := bvb_wire_get_u64 record 8;
     dtv_auxiliary_object_id := bvb_wire_get_u64 record 16;
     dtv_offset := bvb_wire_get_u64 record 24;
     dtv_range := bvb_wire_get_u64 record 32 |}.

Definition template_value_element :
    element bvb_vulkan_descriptor_template_value :=
  {| el_size := 40; el_zero := zero_dtv; el_rep := dtv_rep;
     el_pad _ := true;
     el_encode := encode_template_value; el_decode := decode_template_value |}.
#[export] Hint Unfold encode_template_value decode_template_value : elements.
#[export] Instance template_value_element_lawful :
  LawfulElement template_value_element.
Proof. solve_element. Qed.

Definition bvb_protocol_encode_vulkan_descriptor_template_update_request
    (output : ptr bytes)
    (request : ptr bvb_vulkan_descriptor_template_update_request)
    (output_length : ptr Z) : result (bytes * Z) :=
  deref output := output or (- EINVAL) ;;
  deref request := request or (- EINVAL) ;;
  deref _ := output_length or (- EINVAL) ;;
  fail_if negb (wire_id_is request.(dtu_rq_device_id) BVB_OBJECT_DEVICE) ||
          negb (wire_id_is request.(dtu_rq_descriptor_set_id)
                  BVB_OBJECT_DESCRIPTOR_SET) ||
          negb (wire_id_is request.(dtu_rq_descriptor_update_template_id)
                  BVB_OBJECT_DESCRIPTOR_UPDATE_TEMPLATE) ||
          (request.(dtu_rq_value_count) =? 0) ||
          (BVB_VULKAN_MAX_DESCRIPTOR_TEMPLATE_VALUES <?
             request.(dtu_rq_value_count)) with (- EINVAL) ;;
  let length := 32 + request.(dtu_rq_value_count) * 40 in
  let output := memset0 output 0 length in
  let output := bvb_wire_put_u64 output 0 request.(dtu_rq_device_id) in
  let output := bvb_wire_put_u64 output 8 request.(dtu_rq_descriptor_set_id)
    in
  let output :=
    bvb_wire_put_u64 output 16 request.(dtu_rq_descriptor_update_template_id)
    in
  let output := bvb_wire_put_u32 output 24 request.(dtu_rq_value_count) in
  try output := for_loop request.(dtu_rq_value_count) (fun index output =>
    let value := elt zero_dtv request.(dtu_rq_values) index in
    fail_if negb (descriptor_template_value_is_canonical value)
      with (- EINVAL) ;;
    Ok (write_window output (32 + index * 40) 40
          (fun w => encode_template_value w value))) output ;;
  Ok (output, length).

Definition bvb_protocol_decode_vulkan_descriptor_template_update_request
    (input : ptr bytes) (input_length : Z)
    (request : ptr bvb_vulkan_descriptor_template_update_request) :
    result bvb_vulkan_descriptor_template_update_request :=
  deref input := input or (- EINVAL) ;;
  deref _ := request or (- EINVAL) ;;
  fail_if (input_length <? 32) || negb (bvb_wire_get_u32 input 28 =? 0)
    with (- EINVAL) ;;
  let value_count := bvb_wire_get_u32 input 24 in
  fail_if (value_count =? 0) ||
          (BVB_VULKAN_MAX_DESCRIPTOR_TEMPLATE_VALUES <? value_count) ||
          negb (input_length =? 32 + value_count * 40) with (- EPROTO) ;;
  try values := for_loop value_count (fun index values =>
    Ok (<[Z.to_nat index :=
            decode_template_value (input +! (32 + index * 40))]> values))
    (replicate 64 zero_dtv) ;;
  let decoded :=
    {| dtu_rq_device_id := bvb_wire_get_u64 input 0;
       dtu_rq_descriptor_set_id := bvb_wire_get_u64 input 8;
       dtu_rq_descriptor_update_template_id := bvb_wire_get_u64 input 16;
       dtu_rq_value_count := value_count;
       dtu_rq_values := values |} in
  call validation :=
    bvb_protocol_encode_vulkan_descriptor_template_update_request
      (Some (blank BVB_PROTOCOL_MAX_PAYLOAD)) (Some decoded) (Some 0)
      or (- EPROTO) ;;
  fail_if negb (snd validation =? input_length) ||
          memcmp_ne (fst validation) input input_length with (- EPROTO) ;;
  Ok decoded.

Definition value_ok (values : list bvb_vulkan_descriptor_template_value)
    (i : Z) : bool :=
  descriptor_template_value_is_canonical (elt zero_dtv values i).

Definition template_update_frame :
    framed bvb_vulkan_descriptor_template_update_request :=
  {| fr_capacity := BVB_PROTOCOL_MAX_PAYLOAD;
     fr_rep := dtu_rq_rep;
     fr_norm r :=
       {| dtu_rq_device_id := r.(dtu_rq_device_id);
          dtu_rq_descriptor_set_id := r.(dtu_rq_descriptor_set_id);
          dtu_rq_descriptor_update_template_id := r.(dtu_rq_descriptor_update_template_id);
          dtu_rq_value_count := r.(dtu_rq_value_count);
          dtu_rq_values := keep r.(dtu_rq_value_count) zero_dtv r.(dtu_rq_values) |};
     fr_encode :=
       bvb_protocol_encode_vulkan_descriptor_template_update_request;
     fr_decode :=
       bvb_protocol_decode_vulkan_descriptor_template_update_request;
     fr_code := reserved_code 32 28 |}.

Definition template_update_plan :
    plan bvb_vulkan_descriptor_template_update_request :=
  {| pn_capacity := BVB_PROTOCOL_MAX_PAYLOAD;
     pn_prefix := 32;
     pn_rep := template_update_frame.(fr_rep);
     pn_norm := template_update_frame.(fr_norm);
     pn_valid r :=
       wire_id_is r.(dtu_rq_device_id) BVB_OBJECT_DEVICE &&
       wire_id_is r.(dtu_rq_descriptor_set_id) BVB_OBJECT_DESCRIPTOR_SET &&
       wire_id_is r.(dtu_rq_descriptor_update_template_id)
         BVB_OBJECT_DESCRIPTOR_UPDATE_TEMPLATE &&
       negb (r.(dtu_rq_value_count) =? 0) &&
       (r.(dtu_rq_value_count) <=? 64);
     pn_header r output :=
       let output := bvb_wire_put_u64 output 0 r.(dtu_rq_device_id) in
       let output := bvb_wire_put_u64 output 8 r.(dtu_rq_descriptor_set_id) in
       let output := bvb_wire_put_u64 output 16 r.(dtu_rq_descriptor_update_template_id) in
       bvb_wire_put_u32 output 24 r.(dtu_rq_value_count);
     pn_reads q r :=
       bvb_wire_get_u64 q 0 = r.(dtu_rq_device_id) /\
       bvb_wire_get_u64 q 8 = r.(dtu_rq_descriptor_set_id) /\
       bvb_wire_get_u64 q 16 = r.(dtu_rq_descriptor_update_template_id) /\
       bvb_wire_get_u32 q 24 = r.(dtu_rq_value_count) /\
       bvb_wire_get_u32 q 28 = 0;
     pn_end r := 32 + r.(dtu_rq_value_count) * 40;
     pn_segments r :=
       [array_segment template_value_element 32 r.(dtu_rq_value_count)
          value_ok r.(dtu_rq_values)] |}.

#[export] Instance template_update_plan_lawful : LawfulPlan template_update_plan.
Proof. solve_plan ltac:(unfold value_ok; solve_local). Qed.

Definition template_update_gate (q : bytes) (n : Z) : bool :=
  (32 <=? n) &&
  (bvb_wire_get_u32 q 28 =? 0) &&
  (bvb_wire_get_u32 q 24 <=? 64) &&
  negb (bvb_wire_get_u32 q 24 =? 0) &&
  (n =? 32 + bvb_wire_get_u32 q 24 * 40).
Definition template_update_parse (q : bytes) :
    bvb_vulkan_descriptor_template_update_request :=
  {| dtu_rq_device_id := bvb_wire_get_u64 q 0;
     dtu_rq_descriptor_set_id := bvb_wire_get_u64 q 8;
     dtu_rq_descriptor_update_template_id := bvb_wire_get_u64 q 16;
     dtu_rq_value_count := bvb_wire_get_u32 q 24;
     dtu_rq_values := 
         read_array template_value_element q 32 (bvb_wire_get_u32 q 24) 64 |}.

#[export] Instance template_update_follows :
  FollowsPlan template_update_plan template_update_frame.
Proof.
  solve_follows template_update_gate template_update_parse byte_difference
    bvb_protocol_encode_vulkan_descriptor_template_update_request
    ltac:(fun q => read_loop template_value_element q 32
                     (bvb_wire_get_u32 q 24) 64%nat)
    ltac:(unfold value_ok; bool_cases).
Qed.
#[export] Instance template_update_lawful : LawfulFrame template_update_frame.
Proof. solve_planned_frame template_update_plan template_update_frame. Qed.
#[export] Instance template_update_canonical : CanonicalFrame template_update_frame.
Proof. exact (plan_complete template_update_plan template_update_frame). Qed.

(** ** Bindings of descriptor sets *)

Definition bvb_protocol_encode_vulkan_bind_descriptor_sets_request
    (output : ptr bytes)
    (request : ptr bvb_vulkan_bind_descriptor_sets_request)
    (output_length : ptr Z) : result (bytes * Z) :=
  deref output := output or (- EINVAL) ;;
  deref request := request or (- EINVAL) ;;
  deref _ := output_length or (- EINVAL) ;;
  fail_if negb (wire_id_is request.(bds_rq_command_buffer_id)
                  BVB_OBJECT_COMMAND_BUFFER) ||
          negb (wire_id_is request.(bds_rq_pipeline_layout_id)
                  BVB_OBJECT_PIPELINE_LAYOUT) ||
          (1 <? request.(bds_rq_pipeline_bind_point)) ||
          (request.(bds_rq_descriptor_set_count) =? 0) ||
          (BVB_VULKAN_MAX_BOUND_DESCRIPTOR_SETS <?
             request.(bds_rq_descriptor_set_count)) ||
          (BVB_VULKAN_MAX_DYNAMIC_OFFSETS <?
             request.(bds_rq_dynamic_offset_count)) with (- EINVAL) ;;
  let length := 32 + request.(bds_rq_descriptor_set_count) * 8 +
                request.(bds_rq_dynamic_offset_count) * 4 in
  let output := memset0 output 0 length in
  let output := bvb_wire_put_u64 output 0 request.(bds_rq_command_buffer_id)
    in
  let output := bvb_wire_put_u64 output 8 request.(bds_rq_pipeline_layout_id)
    in
  let output :=
    bvb_wire_put_u32 output 16 request.(bds_rq_pipeline_bind_point) in
  let output := bvb_wire_put_u32 output 20 request.(bds_rq_first_set) in
  let output :=
    bvb_wire_put_u32 output 24 request.(bds_rq_descriptor_set_count) in
  let output :=
    bvb_wire_put_u32 output 28 request.(bds_rq_dynamic_offset_count) in
  try output := for_loop request.(bds_rq_descriptor_set_count)
    (fun index output =>
      let id := elt 0 request.(bds_rq_descriptor_set_ids) index in
      fail_if negb (wire_id_is id BVB_OBJECT_DESCRIPTOR_SET)
        with (- EINVAL) ;;
      Ok (write_window output (32 + index * 8) 8
            (fun w => bvb_wire_put_u64 w 0 id))) output ;;
  try output := for_loop request.(bds_rq_dynamic_offset_count)
    (fun index output =>
      Ok (write_window output
            (32 + request.(bds_rq_descriptor_set_count) * 8 + index * 4) 4
            (fun w => bvb_wire_put_u32 w 0
               (elt 0 request.(bds_rq_dynamic_offsets) index)))) output ;;
  Ok (output, length).

Definition bvb_protocol_decode_vulkan_bind_descriptor_sets_request
    (input : ptr bytes) (input_length : Z)
    (request : ptr bvb_vulkan_bind_descriptor_sets_request) :
    result bvb_vulkan_bind_descriptor_sets_request :=
  deref input := input or (- EINVAL) ;;
  deref _ := request or (- EINVAL) ;;
  fail_if input_length <? 32 with (- EINVAL) ;;
  let descriptor_set_count := bvb_wire_get_u32 input 24 in
  let dynamic_offset_count := bvb_wire_get_u32 input 28 in
  fail_if (descriptor_set_count =? 0) ||
          (BVB_VULKAN_MAX_BOUND_DESCRIPTOR_SETS <? descriptor_set_count) ||
          (BVB_VULKAN_MAX_DYNAMIC_OFFSETS <? dynamic_offset_count) ||
          negb (input_length =? 32 + descriptor_set_count * 8 +
                                dynamic_offset_count * 4)
    with (- EPROTO) ;;
  try ids := for_loop descriptor_set_count (fun index ids =>
    Ok (<[Z.to_nat index :=
            bvb_wire_get_u64 (input +! (32 + index * 8)) 0]> ids))
    (replicate 8 0) ;;
  try offsets := for_loop dynamic_offset_count (fun index offsets =>
    Ok (<[Z.to_nat index :=
            bvb_wire_get_u32
              (input +! (32 + descriptor_set_count * 8 + index * 4)) 0]>
          offsets)) (replicate 32 0) ;;
  let decoded :=
    {| bds_rq_command_buffer_id := bvb_wire_get_u64 input 0;
       bds_rq_pipeline_layout_id := bvb_wire_get_u64 input 8;
       bds_rq_pipeline_bind_point := bvb_wire_get_u32 input 16;
       bds_rq_first_set := bvb_wire_get_u32 input 20;
       bds_rq_descriptor_set_count := descriptor_set_count;
       bds_rq_dynamic_offset_count := dynamic_offset_count;
       bds_rq_descriptor_set_ids := ids;
       bds_rq_dynamic_offsets := offsets |} in
  call validation := bvb_protocol_encode_vulkan_bind_descriptor_sets_request
    (Some (blank BVB_PROTOCOL_MAX_PAYLOAD)) (Some decoded) (Some 0)
    or (- EPROTO) ;;
  fail_if negb (snd validation =? input_length) ||
          memcmp_ne (fst validation) input input_length with (- EPROTO) ;;
  Ok decoded.

(** No test. *)
Definition any_element (_ : list Z) (_ : Z) : bool := true.

Definition bind_sets_frame :
    framed bvb_vulkan_bind_descriptor_sets_request :=
  {| fr_capacity := BVB_PROTOCOL_MAX_PAYLOAD;
     fr_rep := bds_rq_rep;
     fr_norm r :=
       {| bds_rq_command_buffer_id := r.(bds_rq_command_buffer_id);
          bds_rq_pipeline_layout_id := r.(bds_rq_pipeline_layout_id);
          bds_rq_pipeline_bind_point := r.(bds_rq_pipeline_bind_point);
          bds_rq_first_set := r.(bds_rq_first_set);
          bds_rq_descriptor_set_count := r.(bds_rq_descriptor_set_count);
          bds_rq_dynamic_offset_count := r.(bds_rq_dynamic_offset_count);
          bds_rq_descriptor_set_ids := keep r.(bds_rq_descriptor_set_count) 0 r.(bds_rq_descriptor_set_ids);
          bds_rq_dynamic_offsets := keep r.(bds_rq_dynamic_offset_count) 0 r.(bds_rq_dynamic_offsets) |};
     fr_encode :=
       bvb_protocol_encode_vulkan_bind_descriptor_sets_request;
     fr_decode :=
       bvb_protocol_decode_vulkan_bind_descriptor_sets_request;
     fr_code := prefix_code 32 |}.

Definition bind_sets_plan :
    plan bvb_vulkan_bind_descriptor_sets_request :=
  {| pn_capacity := BVB_PROTOCOL_MAX_PAYLOAD;
     pn_prefix := 32;
     pn_rep := bind_sets_frame.(fr_rep);
     pn_norm := bind_sets_frame.(fr_norm);
     pn_valid r :=
       wire_id_is r.(bds_rq_command_buffer_id) BVB_OBJECT_COMMAND_BUFFER &&
       wire_id_is r.(bds_rq_pipeline_layout_id) BVB_OBJECT_PIPELINE_LAYOUT &&
       (r.(bds_rq_pipeline_bind_point) <=? 1) &&
       negb (r.(bds_rq_descriptor_set_count) =? 0) &&
       (r.(bds_rq_descriptor_set_count) <=? 8) &&
       (r.(bds_rq_dynamic_offset_count) <=? 32);
     pn_header r output :=
       let output := bvb_wire_put_u64 output 0 r.(bds_rq_command_buffer_id) in
       let output := bvb_wire_put_u64 output 8 r.(bds_rq_pipeline_layout_id) in
       let output := bvb_wire_put_u32 output 16 r.(bds_rq_pipeline_bind_point) in
       let output := bvb_wire_put_u32 output 20 r.(bds_rq_first_set) in
       let output := bvb_wire_put_u32 output 24 r.(bds_rq_descriptor_set_count) in
       bvb_wire_put_u32 output 28 r.(bds_rq_dynamic_offset_count);
     pn_reads q r :=
       bvb_wire_get_u64 q 0 = r.(bds_rq_command_buffer_id) /\
       bvb_wire_get_u64 q 8 = r.(bds_rq_pipeline_layout_id) /\
       bvb_wire_get_u32 q 16 = r.(bds_rq_pipeline_bind_point) /\
       bvb_wire_get_u32 q 20 = r.(bds_rq_first_set) /\
       bvb_wire_get_u32 q 24 = r.(bds_rq_descriptor_set_count) /\
       bvb_wire_get_u32 q 28 = r.(bds_rq_dynamic_offset_count);
     pn_end r := 32 + r.(bds_rq_descriptor_set_count) * 8 + r.(bds_rq_dynamic_offset_count) * 4;
     pn_segments r :=
       [array_segment u64_element 32 r.(bds_rq_descriptor_set_count)
          (ids_are BVB_OBJECT_DESCRIPTOR_SET) r.(bds_rq_descriptor_set_ids);
        array_segment u32_element (32 + r.(bds_rq_descriptor_set_count) * 8) r.(bds_rq_dynamic_offset_count)
          any_element r.(bds_rq_dynamic_offsets)] |}.

#[export] Instance bind_sets_plan_lawful : LawfulPlan bind_sets_plan.
Proof. solve_plan ltac:(unfold ids_are, any_element; solve_local). Qed.

Definition bind_sets_gate (q : bytes) (n : Z) : bool :=
  (32 <=? n) &&
  (bvb_wire_get_u32 q 24 <=? 8) &&
  (bvb_wire_get_u32 q 28 <=? 32) &&
  negb (bvb_wire_get_u32 q 24 =? 0) &&
  (n =? 32 + bvb_wire_get_u32 q 24 * 8 + bvb_wire_get_u32 q 28 * 4).
Definition bind_sets_parse (q : bytes) :
    bvb_vulkan_bind_descriptor_sets_request :=
  {| bds_rq_command_buffer_id := bvb_wire_get_u64 q 0;
     bds_rq_pipeline_layout_id := bvb_wire_get_u64 q 8;
     bds_rq_pipeline_bind_point := bvb_wire_get_u32 q 16;
     bds_rq_first_set := bvb_wire_get_u32 q 20;
     bds_rq_descriptor_set_count := bvb_wire_get_u32 q 24;
     bds_rq_dynamic_offset_count := bvb_wire_get_u32 q 28;
     bds_rq_descriptor_set_ids := 
         read_array u64_element q 32 (bvb_wire_get_u32 q 24) 8;
     bds_rq_dynamic_offsets := 
         read_array u32_element q (32 + bvb_wire_get_u32 q 24 * 8) (bvb_wire_get_u32 q 28) 32 |}.

#[export] Instance bind_sets_follows :
  FollowsPlan bind_sets_plan bind_sets_frame.
Proof.
  solve_follows bind_sets_gate bind_sets_parse byte_difference
    bvb_protocol_encode_vulkan_bind_descriptor_sets_request
    ltac:(fun q => read_loop u64_element q 32
                     (bvb_wire_get_u32 q 24) 8%nat; read_loop u32_element q (32 + bvb_wire_get_u32 q 24 * 8)
                     (bvb_wire_get_u32 q 28) 32%nat)
    ltac:(unfold ids_are, any_element; bool_cases).
Qed.
#[export] Instance bind_sets_lawful : LawfulFrame bind_sets_frame.
Proof. solve_planned_frame bind_sets_plan bind_sets_frame. Qed.
#[export] Instance bind_sets_canonical : CanonicalFrame bind_sets_frame.
Proof. exact (plan_complete bind_sets_plan bind_sets_frame). Qed.

(** ** Pipeline layouts *)

Definition encode_push_constant_range (record : bytes)
    (range : bvb_vulkan_pipeline_push_constant_range) : bytes :=
  let record := bvb_wire_put_u32 record 0 range.(ppcr_stage_flags) in
  let record := bvb_wire_put_u32 record 4 range.(ppcr_offset) in
  bvb_wire_put_u32 record 8 range.(ppcr_size).

Definition decode_push_constant_range (record : bytes) :
    bvb_vulkan_pipeline_push_constant_range :=
  {| ppcr_stage_flags := bvb_wire_get_u32 record 0;
     ppcr_offset := bvb_wire_get_u32 record 4;
     ppcr_size := bvb_wire_get_u32 record 8 |}.

Definition push_constant_range_element :
    element bvb_vulkan_pipeline_push_constant_range :=
  {| el_size := 12; el_zero := zero_ppcr; el_rep := ppcr_rep;
     el_pad _ := true;
     el_encode := encode_push_constant_range; el_decode := decode_push_constant_range |}.
#[export] Hint Unfold encode_push_constant_range decode_push_constant_range : elements.
#[export] Instance push_constant_range_element_lawful :
  LawfulElement push_constant_range_element.
Proof. solve_element. Qed.

Definition bvb_protocol_encode_vulkan_pipeline_layout_create_request
    (output : ptr bytes)
    (request : ptr bvb_vulkan_pipeline_layout_create_request)
    (output_length : ptr Z) : result (bytes * Z) :=
  deref output := output or (- EINVAL) ;;
  deref request := request or (- EINVAL) ;;
  deref _ := output_length or (- EINVAL) ;;
  fail_if negb (wire_id_is request.(plc_rq_device_id) BVB_OBJECT_DEVICE) ||
          (BVB_VULKAN_MAX_PIPELINE_SET_LAYOUTS <?
             request.(plc_rq_set_layout_count)) ||
          (BVB_VULKAN_MAX_PIPELINE_PUSH_CONSTANT_RANGES <?
             request.(plc_rq_push_constant_range_count)) with (- EINVAL) ;;
  let length := 24 + request.(plc_rq_set_layout_count) * 8 +
                request.(plc_rq_push_constant_range_count) * 12 in
  let output := memset0 output 0 length in
  let output := bvb_wire_put_u64 output 0 request.(plc_rq_device_id) in
  let output := bvb_wire_put_u32 output 8 request.(plc_rq_flags) in
  let output := bvb_wire_put_u32 output 12 request.(plc_rq_set_layout_count)
    in
  let output :=
    bvb_wire_put_u32 output 16 request.(plc_rq_push_constant_range_count) in
  try output := for_loop request.(plc_rq_set_layout_count)
    (fun index output =>
      let id := elt 0 request.(plc_rq_set_layout_ids) index in
      fail_if negb (id =? 0) &&
              negb (wire_id_is id BVB_OBJECT_DESCRIPTOR_SET_LAYOUT)
        with (- EINVAL) ;;
      Ok (write_window output (24 + index * 8) 8
            (fun w => bvb_wire_put_u64 w 0 id))) output ;;
  try output := for_loop request.(plc_rq_push_constant_range_count)
    (fun index output =>
      let range := elt zero_ppcr request.(plc_rq_push_constant_ranges) index
        in
      fail_if (range.(ppcr_stage_flags) =? 0) || (range.(ppcr_size) =? 0) ||
              negb (Z.land range.(ppcr_offset) 3 =? 0) ||
              negb (Z.land range.(ppcr_size) 3 =? 0) ||
              (2 ^ 32 - 1 - range.(ppcr_size) <? range.(ppcr_offset))
        with (- EINVAL) ;;
      Ok (write_window output
            (24 + request.(plc_rq_set_layout_count) * 8 + index * 12) 12
            (fun w => encode_push_constant_range w range))) output ;;
  Ok (output, length).

Definition bvb_protocol_decode_vulkan_pipeline_layout_create_request
    (input : ptr bytes) (input_length : Z)
    (request : ptr bvb_vulkan_pipeline_layout_create_request) :
    result bvb_vulkan_pipeline_layout_create_request :=
  deref input := input or (- EINVAL) ;;
  deref _ := request or (- EINVAL) ;;
  fail_if input_length <? 24 with (- EINVAL) ;;
  fail_if negb (bvb_wire_get_u32 input 20 =? 0) with (- EPROTO) ;;
  let set_layout_count := bvb_wire_get_u32 input 12 in
  let push_constant_range_count := bvb_wire_get_u32 input 16 in
  fail_if (BVB_VULKAN_MAX_PIPELINE_SET_LAYOUTS <? set_layout_count) ||
          (BVB_VULKAN_MAX_PIPELINE_PUSH_CONSTANT_RANGES <?
             push_constant_range_count) ||
          negb (input_length =? 24 + set_layout_count * 8 +
                                push_constant_range_count * 12)
    with (- EPROTO) ;;
  try ids := for_loop set_layout_count (fun index ids =>
    Ok (<[Z.to_nat index :=
            bvb_wire_get_u64 (input +! (24 + index * 8)) 0]> ids))
    (replicate 8 0) ;;
  try ranges := for_loop push_constant_range_count (fun index ranges =>
    Ok (<[Z.to_nat index :=
            decode_push_constant_range
              (input +! (24 + set_layout_count * 8 + index * 12))]> ranges))
    (replicate 4 zero_ppcr) ;;
  let decoded :=
    {| plc_rq_device_id := bvb_wire_get_u64 input 0;
       plc_rq_flags := bvb_wire_get_u32 input 8;
       plc_rq_set_layout_count := set_layout_count;
       plc_rq_push_constant_range_count := push_constant_range_count;
       plc_rq_set_layout_ids := ids;
       plc_rq_push_constant_ranges := ranges |} in
  call validation := bvb_protocol_encode_vulkan_pipeline_layout_create_request
    (Some (blank BVB_PROTOCOL_MAX_PAYLOAD)) (Some decoded) (Some 0)
    or (- EPROTO) ;;
  fail_if negb (snd validation =? input_length) ||
          memcmp_ne (fst validation) input input_length with (- EPROTO) ;;
  Ok decoded.

Definition set_layout_id_ok (ids : list Z) (i : Z) : bool :=
  (elt 0 ids i =? 0) || ids_are BVB_OBJECT_DESCRIPTOR_SET_LAYOUT ids i.
Definition range_ok (ranges : list bvb_vulkan_pipeline_push_constant_range)
    (i : Z) : bool :=
  let r := elt zero_ppcr ranges i in
  negb (r.(ppcr_stage_flags) =? 0) && negb (r.(ppcr_size) =? 0) &&
  (Z.land r.(ppcr_offset) 3 =? 0) && (Z.land r.(ppcr_size) 3 =? 0) &&
  (r.(ppcr_offset) <=? 2 ^ 32 - 1 - r.(ppcr_size)).

Definition pipeline_layout_frame :
    framed bvb_vulkan_pipeline_layout_create_request :=
  {| fr_capacity := BVB_PROTOCOL_MAX_PAYLOAD;
     fr_rep := plc_rq_rep;
     fr_norm r :=
       {| plc_rq_device_id := r.(plc_rq_device_id);
          plc_rq_flags := r.(plc_rq_flags);
          plc_rq_set_layout_count := r.(plc_rq_set_layout_count);
          plc_rq_push_constant_range_count := r.(plc_rq_push_constant_range_count);
          plc_rq_set_layout_ids := keep r.(plc_rq_set_layout_count) 0 r.(plc_rq_set_layout_ids);
          plc_rq_push_constant_ranges := keep r.(plc_rq_push_constant_range_count) zero_ppcr r.(plc_rq_push_constant_ranges) |};
     fr_encode :=
       bvb_protocol_encode_vulkan_pipeline_layout_create_request;
     fr_decode :=
       bvb_protocol_decode_vulkan_pipeline_layout_create_request;
     fr_code := prefix_code 24 |}.

Definition pipeline_layout_plan :
    plan bvb_vulkan_pipeline_layout_create_request :=
  {| pn_capacity := BVB_PROTOCOL_MAX_PAYLOAD;
     pn_prefix := 24;
     pn_rep := pipeline_layout_frame.(fr_rep);
     pn_norm := pipeline_layout_frame.(fr_norm);
     pn_valid r :=
       wire_id_is r.(plc_rq_device_id) BVB_OBJECT_DEVICE &&
       (r.(plc_rq_set_layout_count) <=? 8) &&
       (r.(plc_rq_push_constant_range_count) <=? 4);
     pn_header r output :=
       let output := bvb_wire_put_u64 output 0 r.(plc_rq_device_id) in
       let output := bvb_wire_put_u32 output 8 r.(plc_rq_flags) in
       let output := bvb_wire_put_u32 output 12 r.(plc_rq_set_layout_count) in
       bvb_wire_put_u32 output 16 r.(plc_rq_push_constant_range_count);
     pn_reads q r :=
       bvb_wire_get_u64 q 0 = r.(plc_rq_device_id) /\
       bvb_wire_get_u32 q 8 = r.(plc_rq_flags) /\
       bvb_wire_get_u32 q 12 = r.(plc_rq_set_layout_count) /\
       bvb_wire_get_u32 q 16 = r.(plc_rq_push_constant_range_count) /\
       bvb_wire_get_u32 q 20 = 0;
     pn_end r := 24 + r.(plc_rq_set_layout_count) * 8 + r.(plc_rq_push_constant_range_count) * 12;
     pn_segments r :=
       [array_segment u64_element 24 r.(plc_rq_set_layout_count)
          set_layout_id_ok r.(plc_rq_set_layout_ids);
        array_segment push_constant_range_element (24 + r.(plc_rq_set_layout_count) * 8) r.(plc_rq_push_constant_range_count)
          range_ok r.(plc_rq_push_constant_ranges)] |}.

#[export] Instance pipeline_layout_plan_lawful : LawfulPlan pipeline_layout_plan.
Proof. solve_plan ltac:(unfold set_layout_id_ok, ids_are, range_ok; solve_local). Qed.

Definition pipeline_layout_gate (q : bytes) (n : Z) : bool :=
  (24 <=? n) &&
  (bvb_wire_get_u32 q 20 =? 0) &&
  (bvb_wire_get_u32 q 12 <=? 8) &&
  (bvb_wire_get_u32 q 16 <=? 4) &&
  (n =? 24 + bvb_wire_get_u32 q 12 * 8 + bvb_wire_get_u32 q 16 * 12).
Definition pipeline_layout_parse (q : bytes) :
    bvb_vulkan_pipeline_layout_create_request :=
  {| plc_rq_device_id := bvb_wire_get_u64 q 0;
     plc_rq_flags := bvb_wire_get_u32 q 8;
     plc_rq_set_layout_count := bvb_wire_get_u32 q 12;
     plc_rq_push_constant_range_count := bvb_wire_get_u32 q 16;
     plc_rq_set_layout_ids := 
         read_array u64_element q 24 (bvb_wire_get_u32 q 12) 8;
     plc_rq_push_constant_ranges := 
         read_array push_constant_range_element q (24 + bvb_wire_get_u32 q 12 * 8) (bvb_wire_get_u32 q 16) 4 |}.

#[export] Instance pipeline_layout_follows :
  FollowsPlan pipeline_layout_plan pipeline_layout_frame.
Proof.
  solve_follows pipeline_layout_gate pipeline_layout_parse byte_difference
    bvb_protocol_encode_vulkan_pipeline_layout_create_request
    ltac:(fun q => read_loop u64_element q 24
                     (bvb_wire_get_u32 q 12) 8%nat; read_loop push_constant_range_element q (24 + bvb_wire_get_u32 q 12 * 8)
                     (bvb_wire_get_u32 q 16) 4%nat)
    ltac:(unfold set_layout_id_ok, ids_are, range_ok; plan_guard; bool_cases).
Qed.
#[export] Instance pipeline_layout_lawful : LawfulFrame pipeline_layout_frame.
Proof. solve_planned_frame pipeline_layout_plan pipeline_layout_frame. Qed.
#[export] Instance pipeline_layout_canonical : CanonicalFrame pipeline_layout_frame.
Proof. exact (plan_complete pipeline_layout_plan pipeline_layout_frame). Qed.
