(* ===== verification/MessageRegistry.v ===== *)
(** * MessageRegistry: every message of varying length

    Collects the frames of the control protocol, each with a sample value,
    and states what the protocol promises for all of them at once: round
    trips, canonical bytes and the codes of what is refused. *)

From S2P Require Import Prelude Wire Abi Codec ProtocolBase ProtocolSetup Window Element Frame MessageLists MessageData DescriptorTypes Segments MessagePlan MessageSubmit MessageDescriptor MessageBinding.

Record letter := mk_letter {
  let_type : Type;
  let_frame : framed let_type;
  let_sample : let_type
}.
Definition letter_of {T} (f : framed T) (sample : T) : letter :=
  mk_letter T f sample.

(** Messages whose decoder accepts nothing but what the encoder writes. *)
Definition canonical_letters : list letter := [
  letter_of physical_devices_frame
    (mk_bvb_vulkan_physical_devices 0 1
       (2 * 2 ^ 56 + 1 :: replicate 7 0));
  letter_of semaphore_wait_request_frame
    (mk_bvb_vulkan_semaphore_wait_request (3 * 2 ^ 56 + 1) 1 0 1
       (mk_bvb_vulkan_semaphore_wait_record (17 * 2 ^ 56 + 1) 7 ::
        replicate 15 zero_swr));
  letter_of swapchain_present_request_frame
    (mk_bvb_vulkan_swapchain_present_request (4 * 2 ^ 56 + 1)
       (BVB_OBJECT_SWAPCHAIN * 2 ^ 56 + 1) 1 1 0
       (BVB_OBJECT_SEMAPHORE * 2 ^ 56 + 1 :: replicate 15 0));
  letter_of query_pool_results_response_frame
    (mk_bvb_vulkan_query_pool_results_response 0 2
       (x01 :: x02 ::
        blank (BVB_VULKAN_QUERY_POOL_RESULTS_MAX_BYTES - 2)));
  letter_of memory_write_request_frame
    (mk_bvb_vulkan_memory_io_request (9 * 2 ^ 56 + 1) 4 3,
     [x01; x02; x03]);
  letter_of memory_io_response_frame
    (mk_bvb_vulkan_memory_io_response 0 3, [x01; x02; x03]);
  letter_of (queue_submit_2_frame false)
    (mk_bvb_vulkan_queue_submit_2_request (4 * 2 ^ 56 + 1) (18 * 2 ^ 56 + 1)
       0 1 2 1
       (mk_bvb_vulkan_submit_2_semaphore_record (17 * 2 ^ 56 + 1) 3 1 0 ::
        replicate 15 zero_s2s)
       (mk_bvb_vulkan_submit_2_command_record (11 * 2 ^ 56 + 1) 0 0 0 0 1 0 ::
        mk_bvb_vulkan_submit_2_command_record (11 * 2 ^ 56 + 2) 0 0 0 0 0 0 ::
        replicate 14 zero_s2c)
       (mk_bvb_vulkan_submit_2_semaphore_record (17 * 2 ^ 56 + 2) 4 1 0 ::
        replicate 15 zero_s2s));
  letter_of (queue_submit_2_frame true)
    (mk_bvb_vulkan_queue_submit_2_request (4 * 2 ^ 56 + 1) 0 0 0 2 0
       (replicate 16 zero_s2s)
       (mk_bvb_vulkan_submit_2_command_record (11 * 2 ^ 56 + 1) 5 9 0
          BVB_COMMAND_BATCH_HEADER_SIZE 0
          BVB_VULKAN_SUBMIT_2_COMMAND_SHARED_STREAM ::
        mk_bvb_vulkan_submit_2_command_record (11 * 2 ^ 56 + 2) 0 0 0 0 0 0 ::
        replicate 14 zero_s2c)
       (replicate 16 zero_s2s));
  letter_of set_layout_frame
    (mk_bvb_vulkan_descriptor_set_layout_create_request
       (BVB_OBJECT_DEVICE * 2 ^ 56 + 1) 0 2 1
       (mk_bvb_vulkan_descriptor_layout_binding 0 6 1 1 2 ::
        mk_bvb_vulkan_descriptor_layout_binding 3 1 4 16 0 ::
        replicate 30 zero_dlb));
  letter_of descriptor_pool_frame
    (mk_bvb_vulkan_descriptor_pool_create_request
       (BVB_OBJECT_DEVICE * 2 ^ 56 + 1) 1 4 2
       (mk_bvb_vulkan_descriptor_pool_size 6 8 ::
        mk_bvb_vulkan_descriptor_pool_size 1 8 :: replicate 14 zero_dps));
  letter_of set_allocate_frame
    (mk_bvb_vulkan_descriptor_set_allocate_request
       (BVB_OBJECT_DESCRIPTOR_POOL * 2 ^ 56 + 1) 1
       (BVB_OBJECT_DESCRIPTOR_SET_LAYOUT * 2 ^ 56 + 1 :: replicate 15 0));
  letter_of set_allocate_response_frame
    (mk_bvb_vulkan_descriptor_set_allocate_response 0 1
       (BVB_OBJECT_DESCRIPTOR_SET * 2 ^ 56 + 1 :: replicate 15 0));
  letter_of set_transaction_frame
    (mk_bvb_vulkan_descriptor_transaction_allocate_request 1 1 16 2
       (mk_bvb_vulkan_descriptor_set_allocate_request
          (BVB_OBJECT_DESCRIPTOR_POOL * 2 ^ 56 + 1) 1
          (BVB_OBJECT_DESCRIPTOR_SET_LAYOUT * 2 ^ 56 + 1 :: replicate 15 0)));
  letter_of descriptor_update_frame
    (mk_bvb_vulkan_descriptor_update_request
       (BVB_OBJECT_DEVICE * 2 ^ 56 + 1) 1 2
       (mk_bvb_vulkan_descriptor_write (BVB_OBJECT_DESCRIPTOR_SET * 2 ^ 56 + 1)
          0 0 2 0 0 :: replicate 31 zero_dw)
       (BVB_OBJECT_SAMPLER * 2 ^ 56 + 1 :: BVB_OBJECT_SAMPLER * 2 ^ 56 + 2 ::
        replicate 126 0));
  letter_of template_create_frame
    (mk_bvb_vulkan_descriptor_update_template_create_request
       (BVB_OBJECT_DEVICE * 2 ^ 56 + 1) 0 1 0 0
       (BVB_OBJECT_DESCRIPTOR_SET_LAYOUT * 2 ^ 56 + 1) 0 0
       (mk_bvb_vulkan_descriptor_update_template_entry 0 0 4 6 8 24 ::
        replicate 31 zero_dute));
  letter_of template_update_frame
    (mk_bvb_vulkan_descriptor_template_update_request
       (BVB_OBJECT_DEVICE * 2 ^ 56 + 1) (BVB_OBJECT_DESCRIPTOR_SET * 2 ^ 56 + 1)
       (BVB_OBJECT_DESCRIPTOR_UPDATE_TEMPLATE * 2 ^ 56 + 1) 1
       (mk_bvb_vulkan_descriptor_template_value 6 0
          (BVB_OBJECT_BUFFER * 2 ^ 56 + 1) 0 16 256 :: replicate 63 zero_dtv));
  letter_of bind_sets_frame
    (mk_bvb_vulkan_bind_descriptor_sets_request
       (BVB_OBJECT_COMMAND_BUFFER * 2 ^ 56 + 1)
       (BVB_OBJECT_PIPELINE_LAYOUT * 2 ^ 56 + 1) 0 0 1 2
       (BVB_OBJECT_DESCRIPTOR_SET * 2 ^ 56 + 1 :: replicate 7 0)
       (256 :: 512 :: replicate 30 0));
  letter_of pipeline_layout_frame
    (mk_bvb_vulkan_pipeline_layout_create_request
       (BVB_OBJECT_DEVICE * 2 ^ 56 + 1) 0 2 1
       (BVB_OBJECT_DESCRIPTOR_SET_LAYOUT * 2 ^ 56 + 1 :: replicate 7 0)
       (mk_bvb_vulkan_pipeline_push_constant_range 1 0 16 ::
        replicate 3 zero_ppcr))
].

Definition letters : list letter := canonical_letters.

Class LawfulLetter (m : letter) : Prop :=
  letter_lawful :: LawfulFrame m.(let_frame).

Lemma letters_lawful : Forall LawfulLetter letters.
Proof. repeat (constructor; [red; cbn; apply _|]). constructor. Qed.

Lemma in_letters_lawful m : m ∈ letters -> LawfulLetter m.
Proof. apply list.Forall_forall, letters_lawful. Qed.

Lemma in_letters_canonical m :
  m ∈ canonical_letters -> CanonicalFrame m.(let_frame).
Proof.
  revert m. apply (proj1 (list.Forall_forall (fun m => CanonicalFrame m.(let_frame)) _)).
  repeat (constructor; [cbn; apply _|]). constructor.
Qed.

(** C3: a message of varying length that its encoder accepts fits the
    buffer, uses its first [n] bytes only, and whoever receives these [n]
    bytes, whatever follows them, decodes the value that was sent (array
    elements past their count and bytes past their length, which are not
    sent, come back as zero). *)
Theorem framed_round_trip m out v l out' n :
  m ∈ letters ->
  m.(let_frame).(fr_capacity) <= blen out ->
  m.(let_frame).(fr_rep) v = true ->
  m.(let_frame).(fr_encode) (Some out) (Some v) (Some l) = Ok (out', n) ->
  0 <= n <= m.(let_frame).(fr_capacity) /\ blen out' = blen out /\
  agree out' out n (blen out - n) /\
  forall q old, n <= blen q -> agree q out' 0 n ->
    m.(let_frame).(fr_decode) (Some q) n (Some old) =
    Ok (m.(let_frame).(fr_norm) v).
Proof. intros Hm. apply in_letters_lawful in Hm. apply frame_sound. Qed.

(** C4: bytes a decoder of these messages accepts are, up to the length that
    arrived, the bytes the encoder writes for the decoded value: no two
    inputs mean the same message. *)
Theorem framed_bytes_are_canonical m q n old v out l :
  m ∈ canonical_letters ->
  n <= blen q -> m.(let_frame).(fr_capacity) <= blen out ->
  m.(let_frame).(fr_decode) (Some q) n (Some old) = Ok v ->
  m.(let_frame).(fr_rep) v = true /\ m.(let_frame).(fr_norm) v = v /\
  exists out',
    m.(let_frame).(fr_encode) (Some out) (Some v) (Some l) = Ok (out', n) /\
    agree out' q 0 n.
Proof. intros Hm. apply in_letters_canonical in Hm. apply frame_complete. Qed.

(** Null pointers are the caller's mistake, and so is whatever an encoder
    refuses unless it does not fit the payload; a decoder refuses with the
    code its message documents. *)
Theorem framed_failures_have_the_documented_code m :
  m ∈ letters ->
  (forall out v l, out = None \/ v = None \/ l = None ->
     m.(let_frame).(fr_encode) out v l = Err (- EINVAL)) /\
  (forall inp n old, inp = None \/ old = None ->
     m.(let_frame).(fr_decode) inp n old = Err (- EINVAL)) /\
  (forall out v l e,
     m.(let_frame).(fr_encode) (Some out) (Some v) (Some l) = Err e ->
     e = - EINVAL \/ e = - EMSGSIZE) /\
  (forall q n old e,
     m.(let_frame).(fr_decode) (Some q) n (Some old) = Err e ->
     e = m.(let_frame).(fr_code) q n).
Proof.
  intros Hm. apply in_letters_lawful in Hm. split_and!.
  - apply frame_encode_null.
  - apply frame_decode_null.
  - apply frame_encode_error.
  - apply frame_decode_error.
Qed.

(** ** Nothing here is vacuous *)

(** The sample is representable, encoded, and read back. *)
Definition sample_travels (m : letter) : Prop :=
  m.(let_frame).(fr_rep) m.(let_sample) = true /\
  match m.(let_frame).(fr_encode)
          (Some (blank m.(let_frame).(fr_capacity)))
          (Some m.(let_sample)) (Some 0) with
  | Ok (out', n) =>
      m.(let_frame).(fr_decode) (Some out') n (Some m.(let_sample)) =
      Ok m.(let_sample)
  | Err _ => False
  end.

Lemma samples_travel : Forall sample_travels letters.
Proof. repeat (constructor; [split; vm_compute; reflexivity|]). constructor. Qed.

(** A write of three bytes into memory. *)
Definition write_letter : letter :=
  letter_of memory_write_request_frame
    (mk_bvb_vulkan_memory_io_request (9 * 2 ^ 56 + 1) 4 3, [x01; x02; x03]).

Definition write_bytes : bytes :=
  [x01; x00; x00; x00; x00; x00; x00; x09;
   x04; x00; x00; x00; x00; x00; x00; x00;
   x03; x00; x00; x00; x00; x00; x00; x00; x01; x02; x03]%byte.

Lemma framed_round_trip_witness :
  memory_write_request_frame.(fr_decode) (Some (write_bytes ++ [xff]%byte)) 27
    (Some (mk_bvb_vulkan_memory_io_request 0 0 0, [])) =
  Ok (mk_bvb_vulkan_memory_io_request (9 * 2 ^ 56 + 1) 4 3,
      [x01; x02; x03]).
Proof.
  refine (proj2 (proj2 (proj2 (framed_round_trip write_letter (blank 4096)
            (mk_bvb_vulkan_memory_io_request (9 * 2 ^ 56 + 1) 4 3,
             [x01; x02; x03]) 0
            (write_bytes ++ blank (4096 - 27)) 27 _ _ _ _))) _ _ _ _).
  - apply (list_elem_of_lookup_2 _ 4%nat). reflexivity.
  - vm_compute. discriminate.
  - vm_compute. reflexivity.
  - vm_compute. reflexivity.
  - vm_compute. discriminate.
  - apply rd_bytes_rd8; [done|]. vm_compute. reflexivity.
Defined.

Lemma framed_bytes_are_canonical_witness :
  exists out',
    memory_write_request_frame.(fr_encode) (Some (blank 4096))
      (Some (mk_bvb_vulkan_memory_io_request (9 * 2 ^ 56 + 1) 4 3,
             [x01; x02; x03])) (Some 0) = Ok (out', 27) /\
    agree out' write_bytes 0 27.
Proof.
  refine (proj2 (proj2 (framed_bytes_are_canonical write_letter write_bytes 27
            (mk_bvb_vulkan_memory_io_request 0 0 0, [])
            (mk_bvb_vulkan_memory_io_request (9 * 2 ^ 56 + 1) 4 3,
             [x01; x02; x03]) (blank 4096) 0 _ _ _ _))).
  - apply (list_elem_of_lookup_2 _ 4%nat). reflexivity.
  - vm_compute. discriminate.
  - vm_compute. discriminate.
  - vm_compute. reflexivity.
Defined.
