(* ===== verification/CommandTypes.v ===== *)
(** * CommandTypes: the records of a command batch

    The constants and structures of include/bvb/command_batch.h: opcodes,
    bounds and one structure per recorded command.  A C array is a list of
    its declared length and a [float] is its 32-bit word; [X_rep] says that
    every field fits its C type and every array has its declared length,
    [zero_X] is the structure cleared by [memset]. *)

From S2P Require Import Prelude Wire Codec Window.

(** ** Constants *)

Abbreviation BVB_COMMAND_BATCH_MAGIC := 1128420930 (only parsing).
Abbreviation BVB_COMMAND_BATCH_VERSION := 1 (only parsing).
Abbreviation BVB_COMMAND_BATCH_HEADER_SIZE := 32 (only parsing).
Abbreviation BVB_COMMAND_RECORD_HEADER_SIZE := 8 (only parsing).
Abbreviation BVB_COMMAND_BATCH_MAX_BYTES := 16777216 (only parsing).
Abbreviation BVB_COMMAND_BATCH_MAX_COMMANDS := 1048576 (only parsing).
Abbreviation BVB_COMMAND_BEGIN_RENDERING := 1 (only parsing).
Abbreviation BVB_COMMAND_BIND_GRAPHICS_PIPELINE := 2 (only parsing).
Abbreviation BVB_COMMAND_SET_VIEWPORT := 3 (only parsing).
Abbreviation BVB_COMMAND_SET_SCISSOR := 4 (only parsing).
Abbreviation BVB_COMMAND_DRAW := 5 (only parsing).
Abbreviation BVB_COMMAND_END_RENDERING := 6 (only parsing).
Abbreviation BVB_COMMAND_FILL_BUFFER := 7 (only parsing).
Abbreviation BVB_COMMAND_BUFFER_HOST_READ_BARRIER := 8 (only parsing).
Abbreviation BVB_COMMAND_PUSH_ROTATION := 9 (only parsing).
Abbreviation BVB_COMMAND_VULKAN_IMAGE_BARRIER_2 := 10 (only parsing).
Abbreviation BVB_COMMAND_VULKAN_CLEAR_COLOR_IMAGE_GENERAL := 11 (only parsing).
Abbreviation BVB_COMMAND_VULKAN_BIND_DESCRIPTOR_SETS := 12 (only parsing).
Abbreviation BVB_COMMAND_VULKAN_PUSH_CONSTANTS := 13 (only parsing).
Abbreviation BVB_COMMAND_VULKAN_COPY_BUFFER_2 := 14 (only parsing).
Abbreviation BVB_COMMAND_VULKAN_COPY_BUFFER_TO_IMAGE_2 := 15 (only parsing).
Abbreviation BVB_COMMAND_VULKAN_COPY_IMAGE_TO_BUFFER_2 := 16 (only parsing).
Abbreviation BVB_COMMAND_VULKAN_COPY_IMAGE_2 := 17 (only parsing).
Abbreviation BVB_COMMAND_VULKAN_BLIT_IMAGE_2 := 18 (only parsing).
Abbreviation BVB_COMMAND_VULKAN_RESOLVE_IMAGE_2 := 19 (only parsing).
Abbreviation BVB_COMMAND_VULKAN_BEGIN := 20 (only parsing).
Abbreviation BVB_COMMAND_VULKAN_CLEAR_COLOR_IMAGE := 21 (only parsing).
Abbreviation BVB_COMMAND_VULKAN_INIT_IMAGE_BARRIER := 22 (only parsing).
Abbreviation BVB_COMMAND_VULKAN_END := 23 (only parsing).
Abbreviation BVB_COMMAND_VULKAN_BIND_VERTEX_BUFFERS := 24 (only parsing).
Abbreviation BVB_COMMAND_VULKAN_BIND_VERTEX_BUFFERS_2 := 25 (only parsing).
Abbreviation BVB_COMMAND_VULKAN_BIND_INDEX_BUFFER := 26 (only parsing).
Abbreviation BVB_COMMAND_VULKAN_BIND_INDEX_BUFFER_2 := 27 (only parsing).
Abbreviation BVB_COMMAND_VULKAN_DRAW_INDEXED := 28 (only parsing).
Abbreviation BVB_COMMAND_VULKAN_DRAW_INDIRECT := 29 (only parsing).
Abbreviation BVB_COMMAND_VULKAN_DRAW_INDEXED_INDIRECT := 30 (only parsing).
Abbreviation BVB_COMMAND_VULKAN_DRAW_INDIRECT_COUNT := 31 (only parsing).
Abbreviation BVB_COMMAND_VULKAN_DRAW_INDEXED_INDIRECT_COUNT := 32 (only parsing).
Abbreviation BVB_COMMAND_VULKAN_DYNAMIC_STATE := 33 (only parsing).
Abbreviation BVB_COMMAND_VULKAN_CLEAR_DEPTH_STENCIL_IMAGE := 34 (only parsing).
Abbreviation BVB_COMMAND_VULKAN_CLEAR_ATTACHMENTS := 35 (only parsing).
Abbreviation BVB_COMMAND_VULKAN_UPDATE_BUFFER := 36 (only parsing).
Abbreviation BVB_COMMAND_VULKAN_QUERY := 37 (only parsing).
Abbreviation BVB_COMMAND_VULKAN_MAX_INIT_IMAGE_BARRIERS := 4 (only parsing).
Abbreviation BVB_COMMAND_VULKAN_MAX_MEMORY_BARRIERS := 64 (only parsing).
Abbreviation BVB_COMMAND_VULKAN_MAX_BUFFER_BARRIERS := 256 (only parsing).
Abbreviation BVB_COMMAND_VULKAN_MAX_IMAGE_BARRIERS := 2048 (only parsing).
Abbreviation BVB_COMMAND_VULKAN_MAX_CLEAR_RANGES := 4 (only parsing).
Abbreviation BVB_COMMAND_VULKAN_MAX_BOUND_DESCRIPTOR_SETS := 8 (only parsing).
Abbreviation BVB_COMMAND_VULKAN_MAX_DYNAMIC_OFFSETS := 32 (only parsing).
Abbreviation BVB_COMMAND_VULKAN_MAX_PUSH_CONSTANT_BYTES := 256 (only parsing).
Abbreviation BVB_COMMAND_VULKAN_MAX_TRANSFER_REGIONS := 16 (only parsing).
Abbreviation BVB_COMMAND_VULKAN_MAX_COLOR_ATTACHMENTS := 8 (only parsing).
Abbreviation BVB_COMMAND_VULKAN_MAX_VERTEX_BINDINGS := 16 (only parsing).
Abbreviation BVB_COMMAND_VULKAN_MAX_DYNAMIC_STATE_VALUES := 8 (only parsing).
Abbreviation BVB_COMMAND_VULKAN_MAX_CLEAR_ATTACHMENTS := 8 (only parsing).
Abbreviation BVB_COMMAND_VULKAN_MAX_CLEAR_RECTS := 8 (only parsing).
Abbreviation BVB_COMMAND_VULKAN_MAX_UPDATE_BUFFER_BYTES := 65536 (only parsing).
Abbreviation BVB_VULKAN_QUERY_COMMAND_RESET := 1 (only parsing).
Abbreviation BVB_VULKAN_QUERY_COMMAND_BEGIN := 2 (only parsing).
Abbreviation BVB_VULKAN_QUERY_COMMAND_END := 3 (only parsing).
Abbreviation BVB_VULKAN_QUERY_COMMAND_WRITE_TIMESTAMP := 4 (only parsing).
Abbreviation BVB_VULKAN_QUERY_COMMAND_WRITE_TIMESTAMP_2 := 5 (only parsing).
Abbreviation BVB_VULKAN_QUERY_COMMAND_BEGIN_INDEXED := 6 (only parsing).
Abbreviation BVB_VULKAN_QUERY_COMMAND_END_INDEXED := 7 (only parsing).
Abbreviation BVB_VULKAN_DYNAMIC_STATE_CULL_MODE := 1 (only parsing).
Abbreviation BVB_VULKAN_DYNAMIC_STATE_FRONT_FACE := 2 (only parsing).
Abbreviation BVB_VULKAN_DYNAMIC_STATE_PRIMITIVE_TOPOLOGY := 3 (only parsing).
Abbreviation BVB_VULKAN_DYNAMIC_STATE_DEPTH_TEST_ENABLE := 4 (only parsing).
Abbreviation BVB_VULKAN_DYNAMIC_STATE_DEPTH_WRITE_ENABLE := 5 (only parsing).
Abbreviation BVB_VULKAN_DYNAMIC_STATE_DEPTH_COMPARE_OP := 6 (only parsing).
Abbreviation BVB_VULKAN_DYNAMIC_STATE_DEPTH_BOUNDS_TEST_ENABLE := 7 (only parsing).
Abbreviation BVB_VULKAN_DYNAMIC_STATE_STENCIL_TEST_ENABLE := 8 (only parsing).
Abbreviation BVB_VULKAN_DYNAMIC_STATE_STENCIL_OP := 9 (only parsing).
Abbreviation BVB_VULKAN_DYNAMIC_STATE_RASTERIZER_DISCARD_ENABLE := 10 (only parsing).
Abbreviation BVB_VULKAN_DYNAMIC_STATE_DEPTH_BIAS_ENABLE := 11 (only parsing).
Abbreviation BVB_VULKAN_DYNAMIC_STATE_PRIMITIVE_RESTART_ENABLE := 12 (only parsing).
Abbreviation BVB_VULKAN_DYNAMIC_STATE_DEPTH_BIAS := 13 (only parsing).
Abbreviation BVB_VULKAN_DYNAMIC_STATE_DEPTH_BOUNDS := 14 (only parsing).
Abbreviation BVB_VULKAN_DYNAMIC_STATE_STENCIL_COMPARE_MASK := 15 (only parsing).
Abbreviation BVB_VULKAN_DYNAMIC_STATE_STENCIL_WRITE_MASK := 16 (only parsing).
Abbreviation BVB_VULKAN_DYNAMIC_STATE_STENCIL_REFERENCE := 17 (only parsing).
Abbreviation BVB_VULKAN_DYNAMIC_STATE_LINE_WIDTH := 18 (only parsing).
Abbreviation BVB_VULKAN_DYNAMIC_STATE_BLEND_CONSTANTS := 19 (only parsing).

(** ** Structures *)

Record bvb_vulkan_rendering_attachment := mk_ra {
  ra_image_view_id : Z;
  ra_resolve_image_view_id : Z;
  ra_image_layout : Z;
  ra_resolve_mode : Z;
  ra_resolve_image_layout : Z;
  ra_load_op : Z;
  ra_store_op : Z;
  ra_feedback_loop_enable : Z;
  ra_clear_words : list Z
}.
Definition ra_rep (r : bvb_vulkan_rendering_attachment) : bool :=
  is_u64 r.(ra_image_view_id) &&
  is_u64 r.(ra_resolve_image_view_id) &&
  is_u32 r.(ra_image_layout) &&
  is_u32 r.(ra_resolve_mode) &&
  is_u32 r.(ra_resolve_image_layout) &&
  is_u32 r.(ra_load_op) &&
  is_u32 r.(ra_store_op) &&
  is_u32 r.(ra_feedback_loop_enable) &&
  array_rep 4 is_u32 r.(ra_clear_words).
Definition zero_ra : bvb_vulkan_rendering_attachment :=
  mk_ra 0 0 0 0 0 0 0 0 (replicate 4 0).

Record bvb_begin_rendering_command := mk_br {
  br_flags : Z;
  br_render_offset_x : Z;
  br_render_offset_y : Z;
  br_width : Z;
  br_height : Z;
  br_layer_count : Z;
  br_view_mask : Z;
  br_color_attachment_count : Z;
  br_has_depth_attachment : Z;
  br_has_stencil_attachment : Z;
  br_color_attachments : list bvb_vulkan_rendering_attachment;
  br_depth_attachment : bvb_vulkan_rendering_attachment;
  br_stencil_attachment : bvb_vulkan_rendering_attachment
}.
Definition br_rep (r : bvb_begin_rendering_command) : bool :=
  is_u32 r.(br_flags) &&
  is_i32 r.(br_render_offset_x) &&
  is_i32 r.(br_render_offset_y) &&
  is_u32 r.(br_width) &&
  is_u32 r.(br_height) &&
  is_u32 r.(br_layer_count) &&
  is_u32 r.(br_view_mask) &&
  is_u32 r.(br_color_attachment_count) &&
  is_u32 r.(br_has_depth_attachment) &&
  is_u32 r.(br_has_stencil_attachment) &&
  array_rep 8 ra_rep r.(br_color_attachments) &&
  ra_rep r.(br_depth_attachment) &&
  ra_rep r.(br_stencil_attachment).
Definition zero_br : bvb_begin_rendering_command :=
  mk_br 0 0 0 0 0 0 0 0 0 0 (replicate 8 zero_ra) zero_ra zero_ra.

Record bvb_bind_graphics_pipeline_command := mk_bgp {
  bgp_pipeline_id : Z
}.
Definition bgp_rep (r : bvb_bind_graphics_pipeline_command) : bool :=
  is_u64 r.(bgp_pipeline_id).
Definition zero_bgp : bvb_bind_graphics_pipeline_command :=
  mk_bgp 0.

Record bvb_push_rotation_command := mk_pr {
  pr_pipeline_layout_id : Z;
  pr_angle_radians : Z;
  pr_aspect_ratio : Z
}.
Definition pr_rep (r : bvb_push_rotation_command) : bool :=
  is_u64 r.(pr_pipeline_layout_id) &&
  is_u32 r.(pr_angle_radians) &&
  is_u32 r.(pr_aspect_ratio).
Definition zero_pr : bvb_push_rotation_command :=
  mk_pr 0 0 0.

Record bvb_set_viewport_command := mk_sv {
  sv_x : Z;
  sv_y : Z;
  sv_width : Z;
  sv_height : Z;
  sv_minimum_depth : Z;
  sv_maximum_depth : Z
}.
Definition sv_rep (r : bvb_set_viewport_command) : bool :=
  is_u32 r.(sv_x) &&
  is_u32 r.(sv_y) &&
  is_u32 r.(sv_width) &&
  is_u32 r.(sv_height) &&
  is_u32 r.(sv_minimum_depth) &&
  is_u32 r.(sv_maximum_depth).
Definition zero_sv : bvb_set_viewport_command :=
  mk_sv 0 0 0 0 0 0.

Record bvb_set_scissor_command := mk_sc {
  sc_x : Z;
  sc_y : Z;
  sc_width : Z;
  sc_height : Z
}.
Definition sc_rep (r : bvb_set_scissor_command) : bool :=
  is_i32 r.(sc_x) &&
  is_i32 r.(sc_y) &&
  is_u32 r.(sc_width) &&
  is_u32 r.(sc_height).
Definition zero_sc : bvb_set_scissor_command :=
  mk_sc 0 0 0 0.

Record bvb_draw_command := mk_dr {
  dr_vertex_count : Z;
  dr_instance_count : Z;
  dr_first_vertex : Z;
  dr_first_instance : Z
}.
Definition dr_rep (r : bvb_draw_command) : bool :=
  is_u32 r.(dr_vertex_count) &&
  is_u32 r.(dr_instance_count) &&
  is_u32 r.(dr_first_vertex) &&
  is_u32 r.(dr_first_instance).
Definition zero_dr : bvb_draw_command :=
  mk_dr 0 0 0 0.

Record bvb_fill_buffer_command := mk_fb {
  fb_buffer_id : Z;
  fb_offset : Z;
  fb_size : Z;
  fb_data : Z
}.
Definition fb_rep (r : bvb_fill_buffer_command) : bool :=
  is_u64 r.(fb_buffer_id) &&
  is_u64 r.(fb_offset) &&
  is_u64 r.(fb_size) &&
  is_u32 r.(fb_data).
Definition zero_fb : bvb_fill_buffer_command :=
  mk_fb 0 0 0 0.

Record bvb_buffer_host_read_barrier_command := mk_hrb {
  hrb_buffer_id : Z;
  hrb_offset : Z;
  hrb_size : Z
}.
Definition hrb_rep (r : bvb_buffer_host_read_barrier_command) : bool :=
  is_u64 r.(hrb_buffer_id) &&
  is_u64 r.(hrb_offset) &&
  is_u64 r.(hrb_size).
Definition zero_hrb : bvb_buffer_host_read_barrier_command :=
  mk_hrb 0 0 0.

Record bvb_vulkan_begin_command := mk_vb {
  vb_flags : Z
}.
Definition vb_rep (r : bvb_vulkan_begin_command) : bool :=
  is_u32 r.(vb_flags).
Definition zero_vb : bvb_vulkan_begin_command :=
  mk_vb 0.

Record bvb_vulkan_clear_color_image_command := mk_cci {
  cci_image_id : Z
}.
Definition cci_rep (r : bvb_vulkan_clear_color_image_command) : bool :=
  is_u64 r.(cci_image_id).
Definition zero_cci : bvb_vulkan_clear_color_image_command :=
  mk_cci 0.

Record bvb_vulkan_init_image_barrier_command := mk_iib {
  iib_image_count : Z;
  iib_image_ids : list Z
}.
Definition iib_rep (r : bvb_vulkan_init_image_barrier_command) : bool :=
  is_u32 r.(iib_image_count) &&
  array_rep 4 is_u64 r.(iib_image_ids).
Definition zero_iib : bvb_vulkan_init_image_barrier_command :=
  mk_iib 0 (replicate 4 0).

Record bvb_vulkan_image_subresource_range := mk_isr {
  isr_aspect_mask : Z;
  isr_base_mip_level : Z;
  isr_level_count : Z;
  isr_base_array_layer : Z;
  isr_layer_count : Z
}.
Definition isr_rep (r : bvb_vulkan_image_subresource_range) : bool :=
  is_u32 r.(isr_aspect_mask) &&
  is_u32 r.(isr_base_mip_level) &&
  is_u32 r.(isr_level_count) &&
  is_u32 r.(isr_base_array_layer) &&
  is_u32 r.(isr_layer_count).
Definition zero_isr : bvb_vulkan_image_subresource_range :=
  mk_isr 0 0 0 0 0.

Record bvb_vulkan_image_barrier_2 := mk_imb {
  imb_source_stage_mask : Z;
  imb_source_access_mask : Z;
  imb_destination_stage_mask : Z;
  imb_destination_access_mask : Z;
  imb_old_layout : Z;
  imb_new_layout : Z;
  imb_source_queue_family_index : Z;
  imb_destination_queue_family_index : Z;
  imb_image_id : Z;
  imb_range : bvb_vulkan_image_subresource_range
}.
Definition imb_rep (r : bvb_vulkan_image_barrier_2) : bool :=
  is_u64 r.(imb_source_stage_mask) &&
  is_u64 r.(imb_source_access_mask) &&
  is_u64 r.(imb_destination_stage_mask) &&
  is_u64 r.(imb_destination_access_mask) &&
  is_u32 r.(imb_old_layout) &&
  is_u32 r.(imb_new_layout) &&
  is_u32 r.(imb_source_queue_family_index) &&
  is_u32 r.(imb_destination_queue_family_index) &&
  is_u64 r.(imb_image_id) &&
  isr_rep r.(imb_range).
Definition zero_imb : bvb_vulkan_image_barrier_2 :=
  mk_imb 0 0 0 0 0 0 0 0 0 zero_isr.

Record bvb_vulkan_memory_barrier_2 := mk_mmb {
  mmb_source_stage_mask : Z;
  mmb_source_access_mask : Z;
  mmb_destination_stage_mask : Z;
  mmb_destination_access_mask : Z
}.
Definition mmb_rep (r : bvb_vulkan_memory_barrier_2) : bool :=
  is_u64 r.(mmb_source_stage_mask) &&
  is_u64 r.(mmb_source_access_mask) &&
  is_u64 r.(mmb_destination_stage_mask) &&
  is_u64 r.(mmb_destination_access_mask).
Definition zero_mmb : bvb_vulkan_memory_barrier_2 :=
  mk_mmb 0 0 0 0.

Record bvb_vulkan_buffer_barrier_2 := mk_bfb {
  bfb_source_stage_mask : Z;
  bfb_source_access_mask : Z;
  bfb_destination_stage_mask : Z;
  bfb_destination_access_mask : Z;
  bfb_source_queue_family_index : Z;
  bfb_destination_queue_family_index : Z;
  bfb_buffer_id : Z;
  bfb_offset : Z;
  bfb_size : Z
}.
Definition bfb_rep (r : bvb_vulkan_buffer_barrier_2) : bool :=
  is_u64 r.(bfb_source_stage_mask) &&
  is_u64 r.(bfb_source_access_mask) &&
  is_u64 r.(bfb_destination_stage_mask) &&
  is_u64 r.(bfb_destination_access_mask) &&
  is_u32 r.(bfb_source_queue_family_index) &&
  is_u32 r.(bfb_destination_queue_family_index) &&
  is_u64 r.(bfb_buffer_id) &&
  is_u64 r.(bfb_offset) &&
  is_u64 r.(bfb_size).
Definition zero_bfb : bvb_vulkan_buffer_barrier_2 :=
  mk_bfb 0 0 0 0 0 0 0 0 0.

Record bvb_vulkan_image_barrier_2_command := mk_ib2 {
  ib2_dependency_flags : Z;
  ib2_memory_count : Z;
  ib2_buffer_count : Z;
  ib2_image_count : Z;
  ib2_memory : list bvb_vulkan_memory_barrier_2;
  ib2_buffers : list bvb_vulkan_buffer_barrier_2;
  ib2_images : list bvb_vulkan_image_barrier_2
}.
Definition ib2_rep (r : bvb_vulkan_image_barrier_2_command) : bool :=
  is_u32 r.(ib2_dependency_flags) &&
  is_u32 r.(ib2_memory_count) &&
  is_u32 r.(ib2_buffer_count) &&
  is_u32 r.(ib2_image_count) &&
  array_rep 64 mmb_rep r.(ib2_memory) &&
  array_rep 256 bfb_rep r.(ib2_buffers) &&
  array_rep 2048 imb_rep r.(ib2_images).
Definition zero_ib2 : bvb_vulkan_image_barrier_2_command :=
  mk_ib2 0 0 0 0 (replicate 64 zero_mmb) (replicate 256 zero_bfb) (replicate
    2048 zero_imb).

Record bvb_vulkan_clear_color_image_general_command := mk_ccg {
  ccg_image_id : Z;
  ccg_image_layout : Z;
  ccg_range_count : Z;
  ccg_color_words : list Z;
  ccg_ranges : list bvb_vulkan_image_subresource_range
}.
Definition ccg_rep (r : bvb_vulkan_clear_color_image_general_command) : bool
    :=
  is_u64 r.(ccg_image_id) &&
  is_u32 r.(ccg_image_layout) &&
  is_u32 r.(ccg_range_count) &&
  array_rep 4 is_u32 r.(ccg_color_words) &&
  array_rep 4 isr_rep r.(ccg_ranges).
Definition zero_ccg : bvb_vulkan_clear_color_image_general_command :=
  mk_ccg 0 0 0 (replicate 4 0) (replicate 4 zero_isr).

Record bvb_vulkan_bind_descriptor_sets_command := mk_bds {
  bds_pipeline_layout_id : Z;
  bds_pipeline_bind_point : Z;
  bds_first_set : Z;
  bds_descriptor_set_count : Z;
  bds_dynamic_offset_count : Z;
  bds_descriptor_set_ids : list Z;
  bds_dynamic_offsets : list Z
}.
Definition bds_rep (r : bvb_vulkan_bind_descriptor_sets_command) : bool :=
  is_u64 r.(bds_pipeline_layout_id) &&
  is_u32 r.(bds_pipeline_bind_point) &&
  is_u32 r.(bds_first_set) &&
  is_u32 r.(bds_descriptor_set_count) &&
  is_u32 r.(bds_dynamic_offset_count) &&
  array_rep 8 is_u64 r.(bds_descriptor_set_ids) &&
  array_rep 32 is_u32 r.(bds_dynamic_offsets).
Definition zero_bds : bvb_vulkan_bind_descriptor_sets_command :=
  mk_bds 0 0 0 0 0 (replicate 8 0) (replicate 32 0).

Record bvb_vulkan_push_constants_command := mk_pc {
  pc_pipeline_layout_id : Z;
  pc_stage_flags : Z;
  pc_offset : Z;
  pc_size : Z;
  pc_data : bytes
}.
Definition pc_rep (r : bvb_vulkan_push_constants_command) : bool :=
  is_u64 r.(pc_pipeline_layout_id) &&
  is_u32 r.(pc_stage_flags) &&
  is_u32 r.(pc_offset) &&
  is_u32 r.(pc_size) &&
  (blen r.(pc_data) =? 256).
Definition zero_pc : bvb_vulkan_push_constants_command :=
  mk_pc 0 0 0 0 (blank 256).

Record bvb_vulkan_image_subresource_layers := mk_isl {
  isl_aspect_mask : Z;
  isl_mip_level : Z;
  isl_base_array_layer : Z;
  isl_layer_count : Z
}.
Definition isl_rep (r : bvb_vulkan_image_subresource_layers) : bool :=
  is_u32 r.(isl_aspect_mask) &&
  is_u32 r.(isl_mip_level) &&
  is_u32 r.(isl_base_array_layer) &&
  is_u32 r.(isl_layer_count).
Definition zero_isl : bvb_vulkan_image_subresource_layers :=
  mk_isl 0 0 0 0.

Record bvb_vulkan_offset_3d := mk_o3 {
  o3_x : Z;
  o3_y : Z;
  o3_z : Z
}.
Definition o3_rep (r : bvb_vulkan_offset_3d) : bool :=
  is_i32 r.(o3_x) &&
  is_i32 r.(o3_y) &&
  is_i32 r.(o3_z).
Definition zero_o3 : bvb_vulkan_offset_3d :=
  mk_o3 0 0 0.

Record bvb_vulkan_extent_3d := mk_e3 {
  e3_width : Z;
  e3_height : Z;
  e3_depth : Z
}.
Definition e3_rep (r : bvb_vulkan_extent_3d) : bool :=
  is_u32 r.(e3_width) &&
  is_u32 r.(e3_height) &&
  is_u32 r.(e3_depth).
Definition zero_e3 : bvb_vulkan_extent_3d :=
  mk_e3 0 0 0.

Record bvb_vulkan_transfer_region := mk_tr {
  tr_source_buffer_offset : Z;
  tr_destination_buffer_offset : Z;
  tr_size : Z;
  tr_buffer_row_length : Z;
  tr_buffer_image_height : Z;
  tr_source_layers : bvb_vulkan_image_subresource_layers;
  tr_destination_layers : bvb_vulkan_image_subresource_layers;
  tr_source_offsets : list bvb_vulkan_offset_3d;
  tr_destination_offsets : list bvb_vulkan_offset_3d;
  tr_extent : bvb_vulkan_extent_3d
}.
Definition tr_rep (r : bvb_vulkan_transfer_region) : bool :=
  is_u64 r.(tr_source_buffer_offset) &&
  is_u64 r.(tr_destination_buffer_offset) &&
  is_u64 r.(tr_size) &&
  is_u32 r.(tr_buffer_row_length) &&
  is_u32 r.(tr_buffer_image_height) &&
  isl_rep r.(tr_source_layers) &&
  isl_rep r.(tr_destination_layers) &&
  array_rep 2 o3_rep r.(tr_source_offsets) &&
  array_rep 2 o3_rep r.(tr_destination_offsets) &&
  e3_rep r.(tr_extent).
Definition zero_tr : bvb_vulkan_transfer_region :=
  mk_tr 0 0 0 0 0 zero_isl zero_isl (replicate 2 zero_o3) (replicate 2
    zero_o3) zero_e3.

Record bvb_vulkan_transfer_command := mk_tf {
  tf_source_id : Z;
  tf_destination_id : Z;
  tf_source_layout : Z;
  tf_destination_layout : Z;
  tf_filter : Z;
  tf_region_count : Z;
  tf_regions : list bvb_vulkan_transfer_region
}.
Definition tf_rep (r : bvb_vulkan_transfer_command) : bool :=
  is_u64 r.(tf_source_id) &&
  is_u64 r.(tf_destination_id) &&
  is_u32 r.(tf_source_layout) &&
  is_u32 r.(tf_destination_layout) &&
  is_u32 r.(tf_filter) &&
  is_u32 r.(tf_region_count) &&
  array_rep 16 tr_rep r.(tf_regions).
Definition zero_tf : bvb_vulkan_transfer_command :=
  mk_tf 0 0 0 0 0 0 (replicate 16 zero_tr).

Record bvb_vulkan_bind_vertex_buffers_command := mk_bvt {
  bvt_first_binding : Z;
  bvt_binding_count : Z;
  bvt_has_sizes : Z;
  bvt_has_strides : Z;
  bvt_buffer_ids : list Z;
  bvt_offsets : list Z;
  bvt_sizes : list Z;
  bvt_strides : list Z
}.
Definition bvt_rep (r : bvb_vulkan_bind_vertex_buffers_command) : bool :=
  is_u32 r.(bvt_first_binding) &&
  is_u32 r.(bvt_binding_count) &&
  is_u32 r.(bvt_has_sizes) &&
  is_u32 r.(bvt_has_strides) &&
  array_rep 16 is_u64 r.(bvt_buffer_ids) &&
  array_rep 16 is_u64 r.(bvt_offsets) &&
  array_rep 16 is_u64 r.(bvt_sizes) &&
  array_rep 16 is_u64 r.(bvt_strides).
Definition zero_bvt : bvb_vulkan_bind_vertex_buffers_command :=
  mk_bvt 0 0 0 0 (replicate 16 0) (replicate 16 0) (replicate 16 0)
    (replicate 16 0).

Record bvb_vulkan_bind_index_buffer_command := mk_bix {
  bix_buffer_id : Z;
  bix_offset : Z;
  bix_size : Z;
  bix_index_type : Z
}.
Definition bix_rep (r : bvb_vulkan_bind_index_buffer_command) : bool :=
  is_u64 r.(bix_buffer_id) &&
  is_u64 r.(bix_offset) &&
  is_u64 r.(bix_size) &&
  is_u32 r.(bix_index_type).
Definition zero_bix : bvb_vulkan_bind_index_buffer_command :=
  mk_bix 0 0 0 0.

Record bvb_vulkan_draw_indexed_command := mk_dix {
  dix_index_count : Z;
  dix_instance_count : Z;
  dix_first_index : Z;
  dix_vertex_offset : Z;
  dix_first_instance : Z
}.
Definition dix_rep (r : bvb_vulkan_draw_indexed_command) : bool :=
  is_u32 r.(dix_index_count) &&
  is_u32 r.(dix_instance_count) &&
  is_u32 r.(dix_first_index) &&
  is_i32 r.(dix_vertex_offset) &&
  is_u32 r.(dix_first_instance).
Definition zero_dix : bvb_vulkan_draw_indexed_command :=
  mk_dix 0 0 0 0 0.

Record bvb_vulkan_draw_indirect_command := mk_did {
  did_buffer_id : Z;
  did_offset : Z;
  did_draw_count : Z;
  did_stride : Z
}.
Definition did_rep (r : bvb_vulkan_draw_indirect_command) : bool :=
  is_u64 r.(did_buffer_id) &&
  is_u64 r.(did_offset) &&
  is_u32 r.(did_draw_count) &&
  is_u32 r.(did_stride).
Definition zero_did : bvb_vulkan_draw_indirect_command :=
  mk_did 0 0 0 0.

Record bvb_vulkan_draw_indirect_count_command := mk_dic {
  dic_buffer_id : Z;
  dic_offset : Z;
  dic_count_buffer_id : Z;
  dic_count_buffer_offset : Z;
  dic_maximum_draw_count : Z;
  dic_stride : Z
}.
Definition dic_rep (r : bvb_vulkan_draw_indirect_count_command) : bool :=
  is_u64 r.(dic_buffer_id) &&
  is_u64 r.(dic_offset) &&
  is_u64 r.(dic_count_buffer_id) &&
  is_u64 r.(dic_count_buffer_offset) &&
  is_u32 r.(dic_maximum_draw_count) &&
  is_u32 r.(dic_stride).
Definition zero_dic : bvb_vulkan_draw_indirect_count_command :=
  mk_dic 0 0 0 0 0 0.

Record bvb_vulkan_dynamic_state_command := mk_dys {
  dys_kind : Z;
  dys_value_count : Z;
  dys_values : list Z
}.
Definition dys_rep (r : bvb_vulkan_dynamic_state_command) : bool :=
  is_u32 r.(dys_kind) &&
  is_u32 r.(dys_value_count) &&
  array_rep 8 is_u32 r.(dys_values).
Definition zero_dys : bvb_vulkan_dynamic_state_command :=
  mk_dys 0 0 (replicate 8 0).

Record bvb_vulkan_clear_depth_stencil_image_command := mk_cds {
  cds_image_id : Z;
  cds_image_layout : Z;
  cds_range_count : Z;
  cds_depth_word : Z;
  cds_stencil : Z;
  cds_ranges : list bvb_vulkan_image_subresource_range
}.
Definition cds_rep (r : bvb_vulkan_clear_depth_stencil_image_command) : bool
    :=
  is_u64 r.(cds_image_id) &&
  is_u32 r.(cds_image_layout) &&
  is_u32 r.(cds_range_count) &&
  is_u32 r.(cds_depth_word) &&
  is_u32 r.(cds_stencil) &&
  array_rep 4 isr_rep r.(cds_ranges).
Definition zero_cds : bvb_vulkan_clear_depth_stencil_image_command :=
  mk_cds 0 0 0 0 0 (replicate 4 zero_isr).

Record bvb_vulkan_clear_attachment := mk_ca {
  ca_aspect_mask : Z;
  ca_color_attachment : Z;
  ca_clear_words : list Z
}.
Definition ca_rep (r : bvb_vulkan_clear_attachment) : bool :=
  is_u32 r.(ca_aspect_mask) &&
  is_u32 r.(ca_color_attachment) &&
  array_rep 4 is_u32 r.(ca_clear_words).
Definition zero_ca : bvb_vulkan_clear_attachment :=
  mk_ca 0 0 (replicate 4 0).

Record bvb_vulkan_clear_rect := mk_cr {
  cr_offset_x : Z;
  cr_offset_y : Z;
  cr_width : Z;
  cr_height : Z;
  cr_base_array_layer : Z;
  cr_layer_count : Z
}.
Definition cr_rep (r : bvb_vulkan_clear_rect) : bool :=
  is_i32 r.(cr_offset_x) &&
  is_i32 r.(cr_offset_y) &&
  is_u32 r.(cr_width) &&
  is_u32 r.(cr_height) &&
  is_u32 r.(cr_base_array_layer) &&
  is_u32 r.(cr_layer_count).
Definition zero_cr : bvb_vulkan_clear_rect :=
  mk_cr 0 0 0 0 0 0.

Record bvb_vulkan_clear_attachments_command := mk_cas {
  cas_attachment_count : Z;
  cas_rect_count : Z;
  cas_attachments : list bvb_vulkan_clear_attachment;
  cas_rects : list bvb_vulkan_clear_rect
}.
Definition cas_rep (r : bvb_vulkan_clear_attachments_command) : bool :=
  is_u32 r.(cas_attachment_count) &&
  is_u32 r.(cas_rect_count) &&
  array_rep 8 ca_rep r.(cas_attachments) &&
  array_rep 8 cr_rep r.(cas_rects).
Definition zero_cas : bvb_vulkan_clear_attachments_command :=
  mk_cas 0 0 (replicate 8 zero_ca) (replicate 8 zero_cr).

Record bvb_vulkan_update_buffer_command := mk_ub {
  ub_buffer_id : Z;
  ub_offset : Z;
  ub_data_size : Z;
  ub_data : bytes
}.
Definition ub_rep (r : bvb_vulkan_update_buffer_command) : bool :=
  is_u64 r.(ub_buffer_id) &&
  is_u64 r.(ub_offset) &&
  is_u32 r.(ub_data_size) &&
  (blen r.(ub_data) =? 65536).
Definition zero_ub : bvb_vulkan_update_buffer_command :=
  mk_ub 0 0 0 (blank 65536).

Record bvb_vulkan_query_command := mk_qy {
  qy_query_pool_id : Z;
  qy_stage_mask : Z;
  qy_first_query : Z;
  qy_query_count : Z;
  qy_flags : Z;
  qy_index : Z;
  qy_kind : Z
}.
Definition qy_rep (r : bvb_vulkan_query_command) : bool :=
  is_u64 r.(qy_query_pool_id) &&
  is_u64 r.(qy_stage_mask) &&
  is_u32 r.(qy_first_query) &&
  is_u32 r.(qy_query_count) &&
  is_u32 r.(qy_flags) &&
  is_u32 r.(qy_index) &&
  is_u32 r.(qy_kind).
Definition zero_qy : bvb_vulkan_query_command :=
  mk_qy 0 0 0 0 0 0 0.
