(* ===== verification/CommandBase.v ===== *)
(** * CommandBase: elements and sizes of command payloads

    The helpers src/command_batch.c builds its payloads from: comparisons of
    32-bit floats, the nested structures encoded into fixed windows, the size
    each opcode's payload must have, and the class a command's encoder,
    validator and decoder satisfy together. *)

From S2P Require Import Prelude Wire Codec Window CommandTypes.
From S2P Require Export Handle.

(** The bound [BVB_COMMAND_BATCH_MAX_BYTES] and object types of
    include/bvb/handle.h. *)
Abbreviation BVB_OBJECT_IMAGE := 7 (only parsing).
Abbreviation BVB_OBJECT_IMAGE_VIEW := 8 (only parsing).
Abbreviation BVB_OBJECT_COMMAND_BUFFER := 11 (only parsing).
Abbreviation BVB_OBJECT_PIPELINE_LAYOUT := 15 (only parsing).
Abbreviation BVB_OBJECT_PIPELINE := 16 (only parsing).
Abbreviation BVB_OBJECT_BUFFER := 19 (only parsing).
Abbreviation BVB_OBJECT_DESCRIPTOR_SET := 22 (only parsing).
Abbreviation BVB_OBJECT_QUERY_POOL := 25 (only parsing).

(** [bvb_handle_expect(id, type) == 0] *)
Definition expects (wire_id expected_type : Z) : bool :=
  is_ok (bvb_handle_expect wire_id expected_type).

(** ** Floats

    A [float] is its binary32 word.  [put_float] and [get_float] copy the
    word; the comparisons are those of IEEE 754: false on a NaN, and the
    order of sign and magnitude otherwise, with both zeroes equal. *)
Definition put_float (output : bytes) (i value : Z) : bytes :=
  bvb_wire_put_u32 output i value.
Definition get_float (input : bytes) (i : Z) : Z := bvb_wire_get_u32 input i.

Definition float_is_nan (w : Z) : bool := 0x7f800000 <? Z.land w 0x7fffffff.
Definition float_key (w : Z) : Z :=
  if w <? 2 ^ 31 then w else - Z.land w 0x7fffffff.
Definition float_lt (a b : Z) : bool :=
  negb (float_is_nan a) && negb (float_is_nan b) && (float_key a <? float_key b).
Definition float_le (a b : Z) : bool :=
  negb (float_is_nan a) && negb (float_is_nan b) && (float_key a <=? float_key b).
Definition float_eq (a b : Z) : bool :=
  negb (float_is_nan a) && negb (float_is_nan b) && (float_key a =? float_key b).

(** The words of [0.0F], [1.0F] and [6.283186F]. *)
Definition f_0 : Z := 0.
Definition f_1 : Z := 0x3f800000.
Definition f_two_pi : Z := 0x40c90fdc.

Definition float_word_is_finite (word : Z) : bool :=
  negb (Z.land word 0x7f800000 =? 0x7f800000).
Definition float_bits_are_finite (input : bytes) (i : Z) : bool :=
  negb (Z.land (bvb_wire_get_u32 input i) 0x7f800000 =? 0x7f800000).

(** [x & ~mask] of 32-bit operands. *)
Definition outside (x mask : Z) : Z := Z.ldiff x mask.

(** ** Nested structures *)

Definition image_range_is_valid (range : bvb_vulkan_image_subresource_range) :
    bool :=
  negb (range.(isr_aspect_mask) =? 0) && negb (range.(isr_level_count) =? 0) &&
  negb (range.(isr_layer_count) =? 0).

Definition rendering_attachment_is_valid
    (attachment : bvb_vulkan_rendering_attachment) (required : bool) : bool :=
  if 1 <? attachment.(ra_feedback_loop_enable) then false else
  if attachment.(ra_image_view_id) =? 0 then
    negb required && (attachment.(ra_resolve_image_view_id) =? 0) &&
    (attachment.(ra_resolve_mode) =? 0)
  else if negb (expects attachment.(ra_image_view_id) BVB_OBJECT_IMAGE_VIEW) ||
          (attachment.(ra_image_layout) =? 0) then false
  else if attachment.(ra_resolve_mode) =? 0 then
    attachment.(ra_resolve_image_view_id) =? 0
  else
    expects attachment.(ra_resolve_image_view_id) BVB_OBJECT_IMAGE_VIEW &&
    negb (attachment.(ra_resolve_image_layout) =? 0).

Definition encode_rendering_attachment (output : bytes)
    (attachment : bvb_vulkan_rendering_attachment) : bytes :=
  let output := bvb_wire_put_u64 output 0 attachment.(ra_image_view_id) in
  let output :=
    bvb_wire_put_u64 output 8 attachment.(ra_resolve_image_view_id) in
  let output := bvb_wire_put_u32 output 16 attachment.(ra_image_layout) in
  let output := bvb_wire_put_u32 output 20 attachment.(ra_resolve_mode) in
  let output :=
    bvb_wire_put_u32 output 24 attachment.(ra_resolve_image_layout) in
  let output := bvb_wire_put_u32 output 28 attachment.(ra_load_op) in
  let output := bvb_wire_put_u32 output 32 attachment.(ra_store_op) in
  let output :=
    bvb_wire_put_u32 output 36 attachment.(ra_feedback_loop_enable) in
  put_words output 40 attachment.(ra_clear_words).

Definition decode_rendering_attachment (input : bytes) :
    bvb_vulkan_rendering_attachment :=
  {| ra_image_view_id := bvb_wire_get_u64 input 0;
     ra_resolve_image_view_id := bvb_wire_get_u64 input 8;
     ra_image_layout := bvb_wire_get_u32 input 16;
     ra_resolve_mode := bvb_wire_get_u32 input 20;
     ra_resolve_image_layout := bvb_wire_get_u32 input 24;
     ra_load_op := bvb_wire_get_u32 input 28;
     ra_store_op := bvb_wire_get_u32 input 32;
     ra_feedback_loop_enable := bvb_wire_get_u32 input 36;
     ra_clear_words := get_words input 40 4 |}.

(** The helpers below take the pointer [output + i]. *)
Definition encode_image_range (output : bytes) (i : Z)
    (range : bvb_vulkan_image_subresource_range) : bytes :=
  let output := bvb_wire_put_u32 output i range.(isr_aspect_mask) in
  let output := bvb_wire_put_u32 output (i + 4) range.(isr_base_mip_level) in
  let output := bvb_wire_put_u32 output (i + 8) range.(isr_level_count) in
  let output := bvb_wire_put_u32 output (i + 12) range.(isr_base_array_layer) in
  let output := bvb_wire_put_u32 output (i + 16) range.(isr_layer_count) in
  bvb_wire_put_u32 output (i + 20) 0.

Definition validate_image_range_wire (input : bytes) (i : Z) : result unit :=
  if (bvb_wire_get_u32 input i =? 0) || (bvb_wire_get_u32 input (i + 8) =? 0) ||
     (bvb_wire_get_u32 input (i + 16) =? 0) ||
     negb (bvb_wire_get_u32 input (i + 20) =? 0)
  then Err (- EPROTO) else Ok tt.

Definition image_range_wire_is_zero (input : bytes) : bool :=
  for_all 6 (fun word => bvb_wire_get_u32 input (word * 4) =? 0).

Definition decode_image_range (input : bytes) (i : Z) :
    bvb_vulkan_image_subresource_range :=
  {| isr_aspect_mask := bvb_wire_get_u32 input i;
     isr_base_mip_level := bvb_wire_get_u32 input (i + 4);
     isr_level_count := bvb_wire_get_u32 input (i + 8);
     isr_base_array_layer := bvb_wire_get_u32 input (i + 12);
     isr_layer_count := bvb_wire_get_u32 input (i + 16) |}.

Definition transfer_opcode_is_valid (opcode : Z) : bool :=
  (BVB_COMMAND_VULKAN_COPY_BUFFER_2 <=? opcode) &&
  (opcode <=? BVB_COMMAND_VULKAN_RESOLVE_IMAGE_2).

Definition transfer_layers_are_valid
    (layers : bvb_vulkan_image_subresource_layers) : bool :=
  negb (layers.(isl_aspect_mask) =? 0) && negb (layers.(isl_layer_count) =? 0).

Definition encode_transfer_layers (output : bytes) (i : Z)
    (layers : bvb_vulkan_image_subresource_layers) : bytes :=
  let output := bvb_wire_put_u32 output i layers.(isl_aspect_mask) in
  let output := bvb_wire_put_u32 output (i + 4) layers.(isl_mip_level) in
  let output := bvb_wire_put_u32 output (i + 8) layers.(isl_base_array_layer) in
  bvb_wire_put_u32 output (i + 12) layers.(isl_layer_count).

Definition decode_transfer_layers (input : bytes) (i : Z) :
    bvb_vulkan_image_subresource_layers :=
  {| isl_aspect_mask := bvb_wire_get_u32 input i;
     isl_mip_level := bvb_wire_get_u32 input (i + 4);
     isl_base_array_layer := bvb_wire_get_u32 input (i + 8);
     isl_layer_count := bvb_wire_get_u32 input (i + 12) |}.

(** ** Payload sizes *)

Definition BVB_RENDERING_ATTACHMENT_SIZE : Z := 56.
Definition BVB_BEGIN_RENDERING_HEADER_SIZE : Z := 40.
Definition BVB_BEGIN_RENDERING_SIZE : Z := 600.
Definition BVB_BIND_GRAPHICS_PIPELINE_SIZE : Z := 16.
Definition BVB_PUSH_ROTATION_SIZE : Z := 16.
Definition BVB_SET_VIEWPORT_SIZE : Z := 24.
Definition BVB_SET_SCISSOR_SIZE : Z := 16.
Definition BVB_DRAW_SIZE : Z := 16.
Definition BVB_FILL_BUFFER_SIZE : Z := 32.
Definition BVB_BUFFER_HOST_READ_BARRIER_SIZE : Z := 24.
Definition BVB_VULKAN_BEGIN_SIZE : Z := 8.
Definition BVB_VULKAN_CLEAR_COLOR_IMAGE_SIZE : Z := 16.
Definition BVB_VULKAN_INIT_IMAGE_BARRIER_SIZE : Z := 40.
Definition BVB_VULKAN_IMAGE_RANGE_SIZE : Z := 24.
Definition BVB_VULKAN_MEMORY_BARRIER_2_RECORD_SIZE : Z := 32.
Definition BVB_VULKAN_BUFFER_BARRIER_2_RECORD_SIZE : Z := 64.
Definition BVB_VULKAN_IMAGE_BARRIER_2_RECORD_SIZE : Z := 80.
Definition BVB_VULKAN_IMAGE_BARRIER_2_HEADER_SIZE : Z := 16.
Definition BVB_VULKAN_IMAGE_BARRIER_2_MAX_SIZE : Z :=
  16 + 64 * 32 + 256 * 64 + 2048 * 80.
Definition BVB_VULKAN_CLEAR_COLOR_IMAGE_GENERAL_SIZE : Z := 32 + 4 * 24.
Definition BVB_VULKAN_BIND_DESCRIPTOR_SETS_SIZE : Z := 24 + 8 * 8 + 32 * 4.
Definition BVB_VULKAN_PUSH_CONSTANTS_SIZE : Z := 24 + 256.
Definition BVB_VULKAN_TRANSFER_HEADER_SIZE : Z := 32.
Definition BVB_VULKAN_TRANSFER_REGION_SIZE : Z := 128.
Definition BVB_VULKAN_TRANSFER_MAX_SIZE : Z := 32 + 16 * 128.
Definition BVB_VULKAN_BIND_VERTEX_BUFFERS_SIZE : Z := 16 + 4 * 16 * 8.
Definition BVB_VULKAN_BIND_INDEX_BUFFER_SIZE : Z := 32.
Definition BVB_VULKAN_DRAW_INDEXED_SIZE : Z := 24.
Definition BVB_VULKAN_DRAW_INDIRECT_SIZE : Z := 32.
Definition BVB_VULKAN_DRAW_INDIRECT_COUNT_SIZE : Z := 48.
Definition BVB_VULKAN_DYNAMIC_STATE_SIZE : Z := 8 + 8 * 4.
Definition BVB_VULKAN_CLEAR_DEPTH_STENCIL_IMAGE_SIZE : Z := 24 + 4 * 24.
Definition BVB_VULKAN_CLEAR_ATTACHMENT_SIZE : Z := 24.
Definition BVB_VULKAN_CLEAR_RECT_SIZE : Z := 24.
Definition BVB_VULKAN_CLEAR_ATTACHMENTS_SIZE : Z := 8 + 8 * 24 + 8 * 24.
Definition BVB_VULKAN_UPDATE_BUFFER_HEADER_SIZE : Z := 24.
Definition BVB_VULKAN_UPDATE_BUFFER_MAX_SIZE : Z := 24 + 64 * 1024.
Definition BVB_VULKAN_QUERY_SIZE : Z := 40.

(** [uint32_t] products and sums. *)
Definition transfer_payload_size (region_count : Z) : Z :=
  u32 (BVB_VULKAN_TRANSFER_HEADER_SIZE +
       region_count * BVB_VULKAN_TRANSFER_REGION_SIZE).

Definition barrier_payload_size (memory_count buffer_count image_count : Z) :
    Z :=
  u32 (BVB_VULKAN_IMAGE_BARRIER_2_HEADER_SIZE +
       memory_count * BVB_VULKAN_MEMORY_BARRIER_2_RECORD_SIZE +
       buffer_count * BVB_VULKAN_BUFFER_BARRIER_2_RECORD_SIZE +
       image_count * BVB_VULKAN_IMAGE_BARRIER_2_RECORD_SIZE).

Definition expected_payload_size (opcode : Z) : result Z :=
  match opcode with
  | 1 => Ok BVB_BEGIN_RENDERING_SIZE
  | 2 => Ok BVB_BIND_GRAPHICS_PIPELINE_SIZE
  | 3 => Ok BVB_SET_VIEWPORT_SIZE
  | 4 => Ok BVB_SET_SCISSOR_SIZE
  | 5 => Ok BVB_DRAW_SIZE
  | 6 => Ok 0
  | 7 => Ok BVB_FILL_BUFFER_SIZE
  | 8 => Ok BVB_BUFFER_HOST_READ_BARRIER_SIZE
  | 9 => Ok BVB_PUSH_ROTATION_SIZE
  | 10 => Ok BVB_VULKAN_IMAGE_BARRIER_2_MAX_SIZE
  | 11 => Ok BVB_VULKAN_CLEAR_COLOR_IMAGE_GENERAL_SIZE
  | 12 => Ok BVB_VULKAN_BIND_DESCRIPTOR_SETS_SIZE
  | 13 => Ok BVB_VULKAN_PUSH_CONSTANTS_SIZE
  | 14 | 15 | 16 | 17 | 18 | 19 => Ok BVB_VULKAN_TRANSFER_MAX_SIZE
  | 24 | 25 => Ok BVB_VULKAN_BIND_VERTEX_BUFFERS_SIZE
  | 26 | 27 => Ok BVB_VULKAN_BIND_INDEX_BUFFER_SIZE
  | 28 => Ok BVB_VULKAN_DRAW_INDEXED_SIZE
  | 29 | 30 => Ok BVB_VULKAN_DRAW_INDIRECT_SIZE
  | 31 | 32 => Ok BVB_VULKAN_DRAW_INDIRECT_COUNT_SIZE
  | 33 => Ok BVB_VULKAN_DYNAMIC_STATE_SIZE
  | 34 => Ok BVB_VULKAN_CLEAR_DEPTH_STENCIL_IMAGE_SIZE
  | 35 => Ok BVB_VULKAN_CLEAR_ATTACHMENTS_SIZE
  | 36 => Ok BVB_VULKAN_UPDATE_BUFFER_MAX_SIZE
  | 37 => Ok BVB_VULKAN_QUERY_SIZE
  | 20 => Ok BVB_VULKAN_BEGIN_SIZE
  | 21 => Ok BVB_VULKAN_CLEAR_COLOR_IMAGE_SIZE
  | 22 => Ok BVB_VULKAN_INIT_IMAGE_BARRIER_SIZE
  | 23 => Ok 0
  | _ => Err (- EPROTO)
  end.

Definition payload_length_is_valid (opcode : Z) (payload : ptr bytes)
    (payload_length : Z) : bool :=
  match expected_payload_size opcode with
  | Err _ => false
  | Ok expected =>
    if opcode =? BVB_COMMAND_VULKAN_IMAGE_BARRIER_2 then
      deref_bool payload := payload or false ;;
      if payload_length <? BVB_VULKAN_IMAGE_BARRIER_2_HEADER_SIZE then false else
      let memory_count := bvb_wire_get_u32 payload 4 in
      let buffer_count := bvb_wire_get_u32 payload 8 in
      let image_count := bvb_wire_get_u32 payload 12 in
      (memory_count <=? BVB_COMMAND_VULKAN_MAX_MEMORY_BARRIERS) &&
      (buffer_count <=? BVB_COMMAND_VULKAN_MAX_BUFFER_BARRIERS) &&
      (image_count <=? BVB_COMMAND_VULKAN_MAX_IMAGE_BARRIERS) &&
      (payload_length =?
         barrier_payload_size memory_count buffer_count image_count)
    else if opcode =? BVB_COMMAND_VULKAN_UPDATE_BUFFER then
      deref_bool payload := payload or false ;;
      if payload_length <? BVB_VULKAN_UPDATE_BUFFER_HEADER_SIZE then false else
      let data_size := bvb_wire_get_u32 payload 16 in
      negb (data_size =? 0) &&
      (data_size <=? BVB_COMMAND_VULKAN_MAX_UPDATE_BUFFER_BYTES) &&
      (Z.land data_size 3 =? 0) &&
      (payload_length =? BVB_VULKAN_UPDATE_BUFFER_HEADER_SIZE + data_size)
    else if negb (transfer_opcode_is_valid opcode) then
      payload_length =? expected
    else
      deref_bool payload := payload or false ;;
      if payload_length <? BVB_VULKAN_TRANSFER_HEADER_SIZE then false else
      let count := bvb_wire_get_u32 payload 28 in
      negb (count =? 0) &&
      (count <=? BVB_COMMAND_VULKAN_MAX_TRANSFER_REGIONS) &&
      (payload_length =? transfer_payload_size count)
  end.

(** ** Records *)

(** [payload] is [NULL] only for a record built by hand. *)
Record bvb_command_record := mk_record {
  rec_opcode : Z;
  rec_payload : ptr bytes;
  rec_payload_length : Z
}.

(** What a non-null pointer points to; the code reads a payload only where
    its length is not zero. *)
Definition pointee (p : ptr bytes) : bytes := default [] p.

(** A decoder's test of the record it is given, and its payload. *)
Definition record_of (record : ptr bvb_command_record)
    (test : bvb_command_record -> bool) : result bytes :=
  deref record := record or (- EINVAL) ;;
  fail_if negb (test record) with (- EINVAL) ;;
  Ok (pointee record.(rec_payload)).

(** The test most decoders make. *)
Definition is_record (opcode size : Z) (record : bvb_command_record) : bool :=
  (record.(rec_opcode) =? opcode) && (record.(rec_payload_length) =? size).

(** ** The contract of a command

    [rc_payload] is the local array the [append] function fills before it
    calls [append_record] with [rc_length] bytes of it; [rc_valid] is the
    case of [validate_payload].  [rc_pre] is what the array elements and
    fields must be for the C types to hold them; [rc_norm] clears the array
    elements past their counts, which are not sent. *)
Record recorder (T : Type) := mk_recorder {
  rc_opcodes : Z -> bool;
  rc_pre : Z -> T -> bool;
  rc_payload : Z -> ptr T -> result bytes;
  rc_length : T -> Z;
  rc_valid : Z -> bytes -> result unit;
  rc_decode : ptr bvb_command_record -> ptr T -> result T;
  rc_norm : T -> T
}.
Arguments mk_recorder {T}.
Arguments rc_opcodes {T}.
Arguments rc_pre {T}.
Arguments rc_payload {T}.
Arguments rc_length {T}.
Arguments rc_valid {T}.
Arguments rc_decode {T}.
Arguments rc_norm {T}.

(** What the encoder builds is accepted, and decoded to the command. *)
Definition payload_is_sound {T} (r : recorder T) : Prop :=
  forall op v p q,
    r.(rc_opcodes) op = true -> r.(rc_pre) op v = true ->
    r.(rc_payload) op (Some v) = Ok p ->
    r.(rc_length) v <= blen q -> agree q p 0 (r.(rc_length) v) ->
    0 <= r.(rc_length) v <= blen p /\
    payload_length_is_valid op (Some q) (r.(rc_length) v) = true /\
    r.(rc_valid) op q = Ok tt /\
    (forall old, r.(rc_decode) (Some (mk_record op (Some q) (r.(rc_length) v)))
       (Some old) = Ok (r.(rc_norm) v)).

(** What is accepted decodes to a command whose encoding it is. *)
Definition payload_is_complete {T} (r : recorder T) : Prop :=
  forall op q n,
    r.(rc_opcodes) op = true ->
    payload_length_is_valid op (Some q) n = true -> n <= blen q ->
    r.(rc_valid) op q = Ok tt ->
    exists v p,
      (forall old, r.(rc_decode) (Some (mk_record op (Some q) n)) (Some old) =
                   Ok v) /\
      (r.(rc_pre) op v = true /\ r.(rc_norm) v = v) /\
      r.(rc_length) v = n /\ r.(rc_payload) op (Some v) = Ok p /\
      agree p q 0 n.

Class Recorded {T} (r : recorder T) : Prop := {
  payload_opcode op : r.(rc_opcodes) op = true -> is_u16 op = true;
  payload_null op : r.(rc_payload) op None = Err (- EINVAL);
  payload_error op c e : r.(rc_payload) op c = Err e -> e = - EINVAL;
  valid_error op q e : r.(rc_valid) op q = Err e -> e = - EPROTO;
  payload_sound : payload_is_sound r;
  payload_complete : payload_is_complete r
}.

Create HintDb sizes.
#[export] Hint Unfold BVB_RENDERING_ATTACHMENT_SIZE
  BVB_BEGIN_RENDERING_HEADER_SIZE BVB_BEGIN_RENDERING_SIZE
  BVB_BIND_GRAPHICS_PIPELINE_SIZE BVB_PUSH_ROTATION_SIZE BVB_SET_VIEWPORT_SIZE
  BVB_SET_SCISSOR_SIZE BVB_DRAW_SIZE BVB_FILL_BUFFER_SIZE
  BVB_BUFFER_HOST_READ_BARRIER_SIZE BVB_VULKAN_BEGIN_SIZE
  BVB_VULKAN_CLEAR_COLOR_IMAGE_SIZE BVB_VULKAN_INIT_IMAGE_BARRIER_SIZE
  BVB_VULKAN_IMAGE_RANGE_SIZE BVB_VULKAN_MEMORY_BARRIER_2_RECORD_SIZE
  BVB_VULKAN_BUFFER_BARRIER_2_RECORD_SIZE
  BVB_VULKAN_IMAGE_BARRIER_2_RECORD_SIZE
  BVB_VULKAN_IMAGE_BARRIER_2_HEADER_SIZE BVB_VULKAN_IMAGE_BARRIER_2_MAX_SIZE
  BVB_VULKAN_CLEAR_COLOR_IMAGE_GENERAL_SIZE
  BVB_VULKAN_BIND_DESCRIPTOR_SETS_SIZE BVB_VULKAN_PUSH_CONSTANTS_SIZE
  BVB_VULKAN_TRANSFER_HEADER_SIZE BVB_VULKAN_TRANSFER_REGION_SIZE
  BVB_VULKAN_TRANSFER_MAX_SIZE BVB_VULKAN_BIND_VERTEX_BUFFERS_SIZE
  BVB_VULKAN_BIND_INDEX_BUFFER_SIZE BVB_VULKAN_DRAW_INDEXED_SIZE
  BVB_VULKAN_DRAW_INDIRECT_SIZE BVB_VULKAN_DRAW_INDIRECT_COUNT_SIZE
  BVB_VULKAN_DYNAMIC_STATE_SIZE BVB_VULKAN_CLEAR_DEPTH_STENCIL_IMAGE_SIZE
  BVB_VULKAN_CLEAR_ATTACHMENT_SIZE BVB_VULKAN_CLEAR_RECT_SIZE
  BVB_VULKAN_CLEAR_ATTACHMENTS_SIZE BVB_VULKAN_UPDATE_BUFFER_HEADER_SIZE
  BVB_VULKAN_UPDATE_BUFFER_MAX_SIZE BVB_VULKAN_QUERY_SIZE : sizes.

Create Rewrite HintDb tests.

Lemma get_u64_zero b i :
  bvb_wire_get_u64 b i = 0 ->
  bvb_wire_get_u32 b i = 0 /\ bvb_wire_get_u32 b (i + 4) = 0.
Proof.
  rewrite get_u64_sum. intros H.
  pose proof (proj1 (is_u32_spec _) (get_u32_range b i)).
  pose proof (proj1 (is_u32_spec _) (get_u32_range b (i + 4))). lia.
Qed.

(** ** Proof automation for [Recorded] instances *)

Ltac one_opcode Hop :=
  match type of Hop with ?f ?r _ = true => unfold r in Hop; cbn [rc_opcodes] in Hop; cbv beta in Hop end;
  repeat (apply orb_true_iff in Hop as [Hop|Hop]);
  apply Z.eqb_eq in Hop; subst.
(** Unroll the loops over a handful of words. *)
Ltac unroll :=
  unfold for_loop, for_all in *;
  repeat match goal with
  | H : context [loop_from (Z.to_nat ?n)] |- _ =>
      let k := eval vm_compute in (Z.to_nat n) in
      change (Z.to_nat n) with k in H; cbn [loop_from] in H
  | |- context [loop_from (Z.to_nat ?n)] =>
      let k := eval vm_compute in (Z.to_nat n) in
      change (Z.to_nat n) with k; cbn [loop_from]
  | H : context [forallb _ (seqZ 0 ?n)] |- _ =>
      let l := eval vm_compute in (seqZ 0 n) in
      change (seqZ 0 n) with l in H; cbn [forallb] in H
  | |- context [forallb _ (seqZ 0 ?n)] =>
      let l := eval vm_compute in (seqZ 0 n) in
      change (seqZ 0 n) with l; cbn [forallb]
  end; zconst.
Ltac open_payload H :=
  repeat (cbv beta iota zeta in H;
    match type of H with
    | context [if ?c then Err _ else _] =>
        let E := fresh "Ht" in destruct c eqn:E; [discriminate H|]
    end);
  first [injection H as <- | clear H].
Ltac head_of t := lazymatch t with ?f _ => head_of f | _ => t end.
Ltac red_head H :=
  lazymatch type of H with ?t = _ => let h := head_of t in unfold h in H end.
Ltac red_goal :=
  lazymatch goal with |- ?t = _ => let h := head_of t in unfold h end.
#[export] Hint Unfold put_float get_float float_bits_are_finite : sizes.
Ltac read_tests :=
  repeat match goal with
  | H : context [bvb_wire_get_u32 (?w ?b ?i ?v) ?j] |- _ => lazymatch type of H with agree _ _ _ _ => fail | _ => revert H end
  end; wire_read; intros.
Ltac solve_sound :=
  let op := fresh "op" in let v := fresh "v" in let p := fresh "p" in let q := fresh "q" in
  let Hop := fresh "Hop" in let Hpre := fresh "Hpre" in let Hp := fresh "Hp" in let Hb := fresh "Hb" in let Ha := fresh "Ha" in
  intros op v p q Hop Hpre Hp Hb Ha; destruct v; one_opcode Hop; cbn in *; autounfold with sizes in *; unroll; cbn in *;
  open_rep Hpre; open_payload Hp; autorewrite with tests in *; split_tests; autounfold with sizes in *; read_tests;
  (split_and!;
  [ lia | blen_side | reflexivity
  | try red_goal; autounfold with sizes; cbv zeta; unroll; cbn; extent_read Ha; wire_read; use_tests; reflexivity
  | intros old; try red_goal; cbn; autounfold with sizes; cbv zeta;
    extent_read Ha; wire_read; rewrite ?i32_u32 by assumption; use_tests;
    reflexivity ]).
Ltac zero_halves :=
  repeat match goal with
  | H : (bvb_wire_get_u64 ?b ?i =? 0) = true |- _ =>
      lazymatch goal with _ : bvb_wire_get_u32 b i = 0 |- _ => fail | _ => idtac end;
      let H1 := fresh in let H2 := fresh in
      pose proof (get_u64_zero b i (proj1 (Z.eqb_eq _ _) H)) as [H1 H2];
      let j := eval vm_compute in (i + 4) in change (i + 4) with j in H2
  end.
Ltac solve_complete :=
  let op := fresh "op" in let q := fresh "q" in let n := fresh "n" in
  let Hop := fresh "Hop" in let Hn := fresh "Hn" in let Hb := fresh "Hb" in let Hv := fresh "Hv" in
  intros op q n Hop Hn Hb Hv; one_opcode Hop; cbn in Hn; apply Z.eqb_eq in Hn; subst n;
  cbn in Hv; red_head Hv; cbv zeta in Hv; unroll; cbn in Hv; open_payload Hv; split_tests;
  eexists _, _; (split_and!;
  [ intros ?; cbn; try reflexivity; autounfold with sizes; cbv zeta; use_tests;
    reflexivity
  | cbn; open_rep_goal;
    rewrite ?get_u32_range, ?get_u64_range, ?get_i32_range, ?i32_range; reflexivity
  | reflexivity | reflexivity
  | cbn; autounfold with sizes in *; cbv zeta; unroll; cbn; split_tests; autorewrite with tests;
    repeat progress (wire_read; use_tests; cbv beta iota); reflexivity
  | autounfold with sizes in *; zero_halves; fold_i32; agree_words ]).
Ltac loop_error :=
  match goal with
  | H : for_loop _ _ _ = Err _ |- _ =>
      apply for_loop_error with (e := - EINVAL) in H;
      [exact H | clear; intros ? ? ? H; cbv beta zeta in H; err_path H]
  end.
Ltac payload_err H :=
  repeat lazymatch type of H with
  | (if ?c then _ else _) = Err _ => destruct c
  | (match ?m with Ok _ => _ | Err _ => _ end) = Err _ =>
      let E := fresh "E" in destruct m eqn:E
  end;
  first [ discriminate H
        | injection H as <-; first [reflexivity | loop_error]
        | loop_error ].
Ltac solve_opcode :=
  let Hop := fresh in intros ? Hop; one_opcode Hop; reflexivity.
Ltac solve_payload_null :=
  intros ?; cbn; try reflexivity; red_goal; cbv zeta;
  repeat match goal with |- context [if ?c then _ else _] => destruct c end;
  reflexivity.
Ltac solve_payload_error :=
  let c := fresh in let H := fresh in
  intros ? c ? H; destruct c; cbn in H; try red_head H; cbv zeta in H;
  payload_err H.
Ltac solve_valid_error :=
  let H := fresh in intros ? ? ? H; cbn in H; red_head H; cbv zeta in H;
  payload_err H.

(** A recorder whose two main conditions are proved apart. *)
Ltac solve_recorded_with sound complete :=
  constructor;
  [ solve_opcode | solve_payload_null | solve_payload_error
  | solve_valid_error | exact sound | exact complete ].

Ltac solve_recorded :=
  constructor;
  [ solve_opcode | solve_payload_null | solve_payload_error
  | solve_valid_error | solve_sound | solve_complete ].
