(* ===== verification/CommandElements.v ===== *)
(** * CommandElements: the structures nested in counted payloads

    The records src/command_batch.c writes one after the other in the loops
    of its larger payloads, each as an [element] with the proof that its
    encoder and decoder are inverse. *)

From S2P Require Import Prelude Wire Codec Window Element CommandTypes CommandBase.

(** ** Barriers *)

Definition encode_memory_barrier (record : bytes)
    (barrier : bvb_vulkan_memory_barrier_2) : bytes :=
  let record := bvb_wire_put_u64 record 0 barrier.(mmb_source_stage_mask) in
  let record := bvb_wire_put_u64 record 8 barrier.(mmb_source_access_mask) in
  let record :=
    bvb_wire_put_u64 record 16 barrier.(mmb_destination_stage_mask) in
  bvb_wire_put_u64 record 24 barrier.(mmb_destination_access_mask).

Definition decode_memory_barrier (input : bytes) :
    bvb_vulkan_memory_barrier_2 :=
  {| mmb_source_stage_mask := bvb_wire_get_u64 input 0;
     mmb_source_access_mask := bvb_wire_get_u64 input 8;
     mmb_destination_stage_mask := bvb_wire_get_u64 input 16;
     mmb_destination_access_mask := bvb_wire_get_u64 input 24 |}.

Definition encode_buffer_barrier (record : bytes)
    (barrier : bvb_vulkan_buffer_barrier_2) : bytes :=
  let record := bvb_wire_put_u64 record 0 barrier.(bfb_source_stage_mask) in
  let record := bvb_wire_put_u64 record 8 barrier.(bfb_source_access_mask) in
  let record :=
    bvb_wire_put_u64 record 16 barrier.(bfb_destination_stage_mask) in
  let record :=
    bvb_wire_put_u64 record 24 barrier.(bfb_destination_access_mask) in
  let record :=
    bvb_wire_put_u32 record 32 barrier.(bfb_source_queue_family_index) in
  let record :=
    bvb_wire_put_u32 record 36 barrier.(bfb_destination_queue_family_index) in
  let record := bvb_wire_put_u64 record 40 barrier.(bfb_buffer_id) in
  let record := bvb_wire_put_u64 record 48 barrier.(bfb_offset) in
  bvb_wire_put_u64 record 56 barrier.(bfb_size).

Definition decode_buffer_barrier (input : bytes) :
    bvb_vulkan_buffer_barrier_2 :=
  {| bfb_source_stage_mask := bvb_wire_get_u64 input 0;
     bfb_source_access_mask := bvb_wire_get_u64 input 8;
     bfb_destination_stage_mask := bvb_wire_get_u64 input 16;
     bfb_destination_access_mask := bvb_wire_get_u64 input 24;
     bfb_source_queue_family_index := bvb_wire_get_u32 input 32;
     bfb_destination_queue_family_index := bvb_wire_get_u32 input 36;
     bfb_buffer_id := bvb_wire_get_u64 input 40;
     bfb_offset := bvb_wire_get_u64 input 48;
     bfb_size := bvb_wire_get_u64 input 56 |}.

Definition encode_image_barrier (record : bytes)
    (barrier : bvb_vulkan_image_barrier_2) : bytes :=
  let record := bvb_wire_put_u64 record 0 barrier.(imb_source_stage_mask) in
  let record := bvb_wire_put_u64 record 8 barrier.(imb_source_access_mask) in
  let record :=
    bvb_wire_put_u64 record 16 barrier.(imb_destination_stage_mask) in
  let record :=
    bvb_wire_put_u64 record 24 barrier.(imb_destination_access_mask) in
  let record := bvb_wire_put_u32 record 32 barrier.(imb_old_layout) in
  let record := bvb_wire_put_u32 record 36 barrier.(imb_new_layout) in
  let record :=
    bvb_wire_put_u32 record 40 barrier.(imb_source_queue_family_index) in
  let record :=
    bvb_wire_put_u32 record 44 barrier.(imb_destination_queue_family_index) in
  let record := bvb_wire_put_u64 record 48 barrier.(imb_image_id) in
  encode_image_range record 56 barrier.(imb_range).

Definition decode_image_barrier (input : bytes) : bvb_vulkan_image_barrier_2 :=
  {| imb_source_stage_mask := bvb_wire_get_u64 input 0;
     imb_source_access_mask := bvb_wire_get_u64 input 8;
     imb_destination_stage_mask := bvb_wire_get_u64 input 16;
     imb_destination_access_mask := bvb_wire_get_u64 input 24;
     imb_old_layout := bvb_wire_get_u32 input 32;
     imb_new_layout := bvb_wire_get_u32 input 36;
     imb_source_queue_family_index := bvb_wire_get_u32 input 40;
     imb_destination_queue_family_index := bvb_wire_get_u32 input 44;
     imb_image_id := bvb_wire_get_u64 input 48;
     imb_range := decode_image_range input 56 |}.

(** ** Transfer regions *)

(** The three words of one offset, at [wire + i]. *)
Definition encode_offset_3d (wire : bytes) (i : Z)
    (offset : bvb_vulkan_offset_3d) : bytes :=
  let wire := bvb_wire_put_u32 wire i (u32 offset.(o3_x)) in
  let wire := bvb_wire_put_u32 wire (i + 4) (u32 offset.(o3_y)) in
  bvb_wire_put_u32 wire (i + 8) (u32 offset.(o3_z)).

Definition decode_offset_3d (wire : bytes) (i : Z) : bvb_vulkan_offset_3d :=
  {| o3_x := i32 (bvb_wire_get_u32 wire i);
     o3_y := i32 (bvb_wire_get_u32 wire (i + 4));
     o3_z := i32 (bvb_wire_get_u32 wire (i + 8)) |}.

Definition encode_transfer_region (wire : bytes)
    (region : bvb_vulkan_transfer_region) : bytes :=
  let wire := bvb_wire_put_u64 wire 0 region.(tr_source_buffer_offset) in
  let wire := bvb_wire_put_u64 wire 8 region.(tr_destination_buffer_offset) in
  let wire := bvb_wire_put_u64 wire 16 region.(tr_size) in
  let wire := bvb_wire_put_u32 wire 24 region.(tr_buffer_row_length) in
  let wire := bvb_wire_put_u32 wire 28 region.(tr_buffer_image_height) in
  let wire := encode_transfer_layers wire 32 region.(tr_source_layers) in
  let wire := encode_transfer_layers wire 48 region.(tr_destination_layers) in
  let source := region.(tr_source_offsets) in
  let destination := region.(tr_destination_offsets) in
  let wire := encode_offset_3d wire 64 (elt zero_o3 source 0) in
  let wire := encode_offset_3d wire 88 (elt zero_o3 destination 0) in
  let wire := encode_offset_3d wire 76 (elt zero_o3 source 1) in
  let wire := encode_offset_3d wire 100 (elt zero_o3 destination 1) in
  let wire := bvb_wire_put_u32 wire 112 region.(tr_extent).(e3_width) in
  let wire := bvb_wire_put_u32 wire 116 region.(tr_extent).(e3_height) in
  bvb_wire_put_u32 wire 120 region.(tr_extent).(e3_depth).

Definition decode_transfer_region (wire : bytes) : bvb_vulkan_transfer_region :=
  {| tr_source_buffer_offset := bvb_wire_get_u64 wire 0;
     tr_destination_buffer_offset := bvb_wire_get_u64 wire 8;
     tr_size := bvb_wire_get_u64 wire 16;
     tr_buffer_row_length := bvb_wire_get_u32 wire 24;
     tr_buffer_image_height := bvb_wire_get_u32 wire 28;
     tr_source_layers := decode_transfer_layers wire 32;
     tr_destination_layers := decode_transfer_layers wire 48;
     tr_source_offsets := [decode_offset_3d wire 64; decode_offset_3d wire 76];
     tr_destination_offsets :=
       [decode_offset_3d wire 88; decode_offset_3d wire 100];
     tr_extent := {| e3_width := bvb_wire_get_u32 wire 112;
                     e3_height := bvb_wire_get_u32 wire 116;
                     e3_depth := bvb_wire_get_u32 wire 120 |} |}.

(** ** Clears *)

Definition encode_clear_attachment (output : bytes)
    (attachment : bvb_vulkan_clear_attachment) : bytes :=
  let output := bvb_wire_put_u32 output 0 attachment.(ca_aspect_mask) in
  let output := bvb_wire_put_u32 output 4 attachment.(ca_color_attachment) in
  put_words output 8 attachment.(ca_clear_words).

Definition decode_clear_attachment (input : bytes) :
    bvb_vulkan_clear_attachment :=
  {| ca_aspect_mask := bvb_wire_get_u32 input 0;
     ca_color_attachment := bvb_wire_get_u32 input 4;
     ca_clear_words := get_words input 8 4 |}.

Definition encode_clear_rect (output : bytes) (rect : bvb_vulkan_clear_rect) :
    bytes :=
  let output := bvb_wire_put_u32 output 0 (u32 rect.(cr_offset_x)) in
  let output := bvb_wire_put_u32 output 4 (u32 rect.(cr_offset_y)) in
  let output := bvb_wire_put_u32 output 8 rect.(cr_width) in
  let output := bvb_wire_put_u32 output 12 rect.(cr_height) in
  let output := bvb_wire_put_u32 output 16 rect.(cr_base_array_layer) in
  bvb_wire_put_u32 output 20 rect.(cr_layer_count).

Definition decode_clear_rect (input : bytes) : bvb_vulkan_clear_rect :=
  {| cr_offset_x := i32 (bvb_wire_get_u32 input 0);
     cr_offset_y := i32 (bvb_wire_get_u32 input 4);
     cr_width := bvb_wire_get_u32 input 8;
     cr_height := bvb_wire_get_u32 input 12;
     cr_base_array_layer := bvb_wire_get_u32 input 16;
     cr_layer_count := bvb_wire_get_u32 input 20 |}.

(** ** Elements *)

#[export] Hint Unfold BVB_RENDERING_ATTACHMENT_SIZE BVB_VULKAN_IMAGE_RANGE_SIZE
  BVB_VULKAN_MEMORY_BARRIER_2_RECORD_SIZE
  BVB_VULKAN_BUFFER_BARRIER_2_RECORD_SIZE
  BVB_VULKAN_IMAGE_BARRIER_2_RECORD_SIZE BVB_VULKAN_TRANSFER_REGION_SIZE
  BVB_VULKAN_CLEAR_ATTACHMENT_SIZE BVB_VULKAN_CLEAR_RECT_SIZE
  encode_rendering_attachment decode_rendering_attachment
  encode_image_range decode_image_range encode_memory_barrier
  decode_memory_barrier encode_buffer_barrier decode_buffer_barrier
  encode_image_barrier decode_image_barrier encode_transfer_layers
  decode_transfer_layers encode_offset_3d decode_offset_3d
  encode_transfer_region decode_transfer_region encode_clear_attachment
  decode_clear_attachment encode_clear_rect decode_clear_rect
  isr_rep isl_rep o3_rep e3_rep elt : elements.

Definition attachment_element : element bvb_vulkan_rendering_attachment :=
  {| el_size := BVB_RENDERING_ATTACHMENT_SIZE;
     el_zero := zero_ra; el_rep := ra_rep;
     el_pad _ := true;
     el_encode := encode_rendering_attachment;
     el_decode := decode_rendering_attachment |}.
#[export] Instance attachment_element_lawful : LawfulElement attachment_element.
Proof. solve_element. Qed.

Definition range_element : element bvb_vulkan_image_subresource_range :=
  {| el_size := BVB_VULKAN_IMAGE_RANGE_SIZE;
     el_zero := zero_isr; el_rep := isr_rep;
     el_pad q := bvb_wire_get_u32 q 20 =? 0;
     el_encode := fun w v => encode_image_range w 0 v;
     el_decode := fun q => decode_image_range q 0 |}.
#[export] Instance range_element_lawful : LawfulElement range_element.
Proof. solve_element. Qed.

Definition memory_barrier_element : element bvb_vulkan_memory_barrier_2 :=
  {| el_size := BVB_VULKAN_MEMORY_BARRIER_2_RECORD_SIZE;
     el_zero := zero_mmb; el_rep := mmb_rep;
     el_pad _ := true;
     el_encode := encode_memory_barrier;
     el_decode := decode_memory_barrier |}.
#[export] Instance memory_barrier_element_lawful : LawfulElement memory_barrier_element.
Proof. solve_element. Qed.

Definition buffer_barrier_element : element bvb_vulkan_buffer_barrier_2 :=
  {| el_size := BVB_VULKAN_BUFFER_BARRIER_2_RECORD_SIZE;
     el_zero := zero_bfb; el_rep := bfb_rep;
     el_pad _ := true;
     el_encode := encode_buffer_barrier;
     el_decode := decode_buffer_barrier |}.
#[export] Instance buffer_barrier_element_lawful : LawfulElement buffer_barrier_element.
Proof. solve_element. Qed.

Definition image_barrier_element : element bvb_vulkan_image_barrier_2 :=
  {| el_size := BVB_VULKAN_IMAGE_BARRIER_2_RECORD_SIZE;
     el_zero := zero_imb; el_rep := imb_rep;
     el_pad q := bvb_wire_get_u32 q 76 =? 0;
     el_encode := encode_image_barrier;
     el_decode := decode_image_barrier |}.
#[export] Instance image_barrier_element_lawful : LawfulElement image_barrier_element.
Proof. solve_element with open_nested isr_rep. Qed.

Definition region_element : element bvb_vulkan_transfer_region :=
  {| el_size := BVB_VULKAN_TRANSFER_REGION_SIZE;
     el_zero := zero_tr; el_rep := tr_rep;
     el_pad q := bvb_wire_get_u32 q 124 =? 0;
     el_encode := encode_transfer_region;
     el_decode := decode_transfer_region |}.
#[export] Instance region_element_lawful : LawfulElement region_element.
Proof. solve_element with (open_nested isl_rep; open_nested o3_rep; open_nested e3_rep). Qed.

Definition clear_attachment_element : element bvb_vulkan_clear_attachment :=
  {| el_size := BVB_VULKAN_CLEAR_ATTACHMENT_SIZE;
     el_zero := zero_ca; el_rep := ca_rep;
     el_pad _ := true;
     el_encode := encode_clear_attachment;
     el_decode := decode_clear_attachment |}.
#[export] Instance clear_attachment_element_lawful : LawfulElement clear_attachment_element.
Proof. solve_element. Qed.

Definition clear_rect_element : element bvb_vulkan_clear_rect :=
  {| el_size := BVB_VULKAN_CLEAR_RECT_SIZE;
     el_zero := zero_cr; el_rep := cr_rep;
     el_pad _ := true;
     el_encode := encode_clear_rect;
     el_decode := decode_clear_rect |}.
#[export] Instance clear_rect_element_lawful : LawfulElement clear_rect_element.
Proof. solve_element. Qed.

(** ** Tests on the wire and on the decoded structure *)

Lemma range_wire_valid p i :
  is_ok (validate_image_range_wire p i) =
  image_range_is_valid (decode_image_range p i) &&
  (bvb_wire_get_u32 p (i + 20) =? 0).
Proof.
  unfold validate_image_range_wire, image_range_is_valid. cbn.
  destruct (bvb_wire_get_u32 p i =? 0), (bvb_wire_get_u32 p (i + 8) =? 0),
    (bvb_wire_get_u32 p (i + 16) =? 0), (bvb_wire_get_u32 p (i + 20) =? 0);
    reflexivity.
Qed.

Lemma range_wire_zero p :
  image_range_wire_is_zero p = true <-> agree p (blank 24) 0 24.
Proof.
  unfold image_range_wire_is_zero, for_all.
  change (seqZ 0 6) with [0; 1; 2; 3; 4; 5]. cbn [forallb]. zconst. split.
  - intros H. split_tests. agree_words.
  - intros H.
    assert (Hr : forall j, 0 <= j -> j + 4 <= 24 -> bvb_wire_get_u32 p j = 0).
    { intros j ??. rewrite (get_u32_agree p (blank 24)), get_u32_blank; [done|].
      eapply agree_sub; [exact H|lia|lia]. }
    by rewrite !Hr by lia.
Qed.
