(* ===== verification/CommandArrays.v ===== *)
(** * CommandArrays: proof steps for payloads with counted arrays

    Tactics that apply the array lemmas of Element to the loops of one
    command: [array_ran] to a loop that ran, in the proof that what is encoded
    is accepted and read back, and [array_runs] to a loop that must run, in
    the proof that what is accepted is encoded again. *)

From S2P Require Import Prelude Wire Codec Window Element CommandTypes CommandBase CommandElements.

(** Take the successful branch of the leading tests. *)
Ltac guards H :=
  repeat match type of H with
  | (if ?c then Err _ else _) = Ok _ =>
      let E := fresh "Ht" in destruct c eqn:E; [discriminate H|]
  end.

(** A short array, as its elements. *)
Ltac open_array ws :=
  match goal with
  | H : array_rep ?n ?rep ws = true |- _ =>
      let L := fresh in
      pose proof (array_rep_length _ _ _ H) as L;
      unfold array_rep in H; apply andb_true_iff in H as [_ H];
      repeat (let w := fresh "w" in
              destruct ws as [|w ws]; cbn [length] in L; try lia);
      clear L; cbn [forallb] in H; split_tests
  end.

(** The range of a count, for [lia]. *)
Ltac count_bound c :=
  let H := fresh "Hcount" in
  pose proof (proj1 (is_u32_spec c)
                ltac:(first [assumption | apply get_u32_range])) as H.

Ltac plain_sizes := autounfold with sizes in *; zconst.

Ltac solve_encodes b :=
  let i := fresh in let out := fresh in let Hi := fresh in
  intros i out Hi; unfold b; cbn;
  first
    [ reflexivity
    | match goal with
      | |- (if ?c then _ else _) = (if ?d then _ else _) =>
          change d with (negb c); destruct c; reflexivity
      end
    | match goal with
      | |- (if ?c then _ else if ?c' then _ else _) = (if ?d then _ else _) =>
          change d with (negb c && negb c'); destruct c, c'; reflexivity
      end ].

(** What a loop's first buffer is, from the frame of an earlier loop. *)
Ltac header_side :=
  plain_sizes;
  first
    [ assumption
    | blen_side
    | repeat first
        [ wire_skip
        | match goal with
          | F : forall j m, _ -> _ -> _ -> agree ?o _ j m |- agree ?o _ _ _ =>
              eapply agree_trans; [apply F; lia|]
          end ] ].

(** The loop that ran in [H] over the array [arr] of elements [E]: names its
    length, its frame and what it wrote. *)
Ltac array_ran E base max len n ok arr H :=
  match type of H with
  | for_loop ?count ?body ?hdr = Ok ?p =>
      let b := fresh "b" in let L := fresh "Hlen" in let C := fresh "Hclear" in
      let P := fresh "Hlen" in let F := fresh "Hframe" in
      let R := fresh "Hread" in
      set (b := body) in H;
      assert (L : blen hdr = len) by header_side;
      assert (C : agree hdr (blank len) base (max * E.(el_size)))
        by (cbn; header_side);
      pose proof (fixed_array_sound E base count max len n ok (- EINVAL)
        ltac:(lia) ltac:(lia) ltac:(lia) ltac:(cbn; plain_sizes; lia)
        b hdr L C arr p ltac:(solve_encodes b) ltac:(assumption) H)
        as (P & F & R); clear C;
      cbn in F, R; autounfold with sizes in F, R; zconst
  end.

Ltac begin_sound Hpre Hp Hb Ha :=
  cbn in Hpre, Hp, Hb, Ha |- *; plain_sizes; rewrite ?memset0_blank in Hp by lia;
  open_rep Hpre; split_tests; guards Hp; split_tests.

(** The payload read at [q] agrees with what was written there. *)
Ltac read_region Ha :=
  eapply agree_sub; [exact Ha|lia|lia].
Ltac region_side Ha :=
  repeat match goal with
  | F : forall j m, _ -> _ -> _ -> agree ?o _ j m |- agree ?q _ ?j ?m =>
      idtac
  end;
  first [read_region Ha
        | eapply agree_trans; [read_region Ha|]; header_side].

Ltac open_decode := cbn; try red_goal; cbn; plain_sizes; cbn.

Ltac solve_rep :=
  cbn; open_rep_goal;
  repeat lazymatch goal with
  | |- (_ && _)%bool = true => apply andb_true_intro; split
  end;
  first [ apply get_u32_range | apply get_u64_range | apply i32_range
        | assumption
        | unfold array_rep; cbn; rewrite ?get_u32_range; reflexivity ].

(** The command an accepted payload decodes to, before the loops that encode
    it again are run. *)
Lemma complete_intro {T} (D R : T -> Prop) (Q : T -> bytes -> Prop) :
  (exists v, D v /\ R v /\ exists p, Q v p) -> exists v p, D v /\ R v /\ Q v p.
Proof. naive_solver. Qed.

(** The loop in the goal, over the elements decoded from [q], runs. *)
Ltac array_runs E base max len n ok q :=
  match goal with
  | |- context [for_loop ?count ?body ?hdr] =>
      let b := fresh "b" in let L := fresh "Hlen" in let C := fresh "Hclear" in
      let o := fresh "out" in let H := fresh "Hrun" in
      let P := fresh "Hlen" in let F := fresh "Hframe" in
      let A := fresh "Hagree" in
      set (b := body);
      assert (L : blen hdr = len) by header_side;
      assert (C : agree hdr (blank len) base (max * E.(el_size)))
        by (cbn; header_side);
      destruct (fixed_array_complete E base count max len n ok (- EINVAL)
        ltac:(lia) ltac:(lia) ltac:(lia) ltac:(cbn; plain_sizes; lia)
        b hdr L C q ltac:(solve_encodes b)) as (o & H & P & F & A & _);
      [ | | clear C; rewrite H; clear H; cbn in F, A; plain_sizes ]
  end.

(** A decoded array fits and is its own normal form. *)
Lemma decoded_array {T} (E : element T) `{!LawfulElement E} count (f : Z -> bytes) n :
  0 <= count <= Z.of_nat n ->
  let arr := fill_array count (fun i => E.(el_decode) (f i))
               (replicate n E.(el_zero)) in
  array_rep (Z.of_nat n) E.(el_rep) arr = true /\
  keep count E.(el_zero) arr = arr.
Proof.
  intros Hc arr. split; [|by apply keep_fill_array].
  apply array_rep_fill; [done|apply el_zero_rep|intros; apply el_decode_rep].
Qed.

Ltac begin_complete Hn Hv :=
  cbn in Hn; apply Z.eqb_eq in Hn; subst;
  cbn in Hv; red_head Hv; cbv zeta in Hv; plain_sizes; guards Hv; clear Hv;
  split_tests.

Ltac encode_again :=
  cbn; plain_sizes; rewrite ?memset0_blank by lia; use_tests.

(** [Hq]: the header read at [q] is the buffer before the loops. *)
Ltac header_at Hq q size Ha :=
  match goal with
  | F : forall j m, _ -> _ -> _ -> agree _ ?h j m |- _ =>
      assert_fails (is_var h); assert (Hq : agree q h 0 size) by region_side Ha
  end.
