(* ===== verification/CommandFixed.v ===== *)
(** * CommandFixed: commands whose payload is a fixed set of words

    The drawing, binding and query commands of src/command_batch.c whose
    payload has no counted array.  Each has the array its [append] function
    fills ([X_payload]), its case of [validate_payload] ([valid_X]), its
    decoder, and the proof that they satisfy the contract [Recorded]. *)

From S2P Require Import Prelude Wire Codec Window CommandTypes CommandBase.

(** ** Encoders *)

Definition bind_graphics_pipeline_payload
    (command : ptr bvb_bind_graphics_pipeline_command) : result bytes :=
  deref command := command or (- EINVAL) ;;
  fail_if negb (expects command.(bgp_pipeline_id) BVB_OBJECT_PIPELINE)
    with (- EINVAL) ;;
  let payload := blank BVB_BIND_GRAPHICS_PIPELINE_SIZE in
  let payload := bvb_wire_put_u64 payload 0 command.(bgp_pipeline_id) in
  let payload := bvb_wire_put_u32 payload 8 0 in
  let payload := bvb_wire_put_u32 payload 12 0 in
  Ok payload.

Definition push_rotation_payload (command : ptr bvb_push_rotation_command) :
    result bytes :=
  deref command := command or (- EINVAL) ;;
  fail_if negb (expects command.(pr_pipeline_layout_id)
                  BVB_OBJECT_PIPELINE_LAYOUT) ||
          float_lt command.(pr_angle_radians) f_0 ||
          float_le f_two_pi command.(pr_angle_radians) ||
          float_le command.(pr_aspect_ratio) f_0 with (- EINVAL) ;;
  let payload := blank BVB_PUSH_ROTATION_SIZE in
  let payload := bvb_wire_put_u64 payload 0 command.(pr_pipeline_layout_id) in
  let payload := put_float payload 8 command.(pr_angle_radians) in
  let payload := put_float payload 12 command.(pr_aspect_ratio) in
  fail_if negb (float_bits_are_finite payload 8) ||
          negb (float_bits_are_finite payload 12) with (- EINVAL) ;;
  Ok payload.

Definition set_viewport_payload (command : ptr bvb_set_viewport_command) :
    result bytes :=
  deref command := command or (- EINVAL) ;;
  let values := [command.(sv_x); command.(sv_y); command.(sv_width);
                 command.(sv_height); command.(sv_minimum_depth);
                 command.(sv_maximum_depth)] in
  try payload := for_loop 6 (fun index payload =>
      let payload := put_float payload (index * 4) (elt 0 values index) in
      fail_if negb (float_bits_are_finite payload (index * 4))
        with (- EINVAL) ;;
      Ok payload) (blank BVB_SET_VIEWPORT_SIZE) ;;
  fail_if float_eq command.(sv_width) f_0 || float_eq command.(sv_height) f_0 ||
          float_lt command.(sv_minimum_depth) f_0 ||
          float_lt f_1 command.(sv_minimum_depth) ||
          float_lt command.(sv_maximum_depth) f_0 ||
          float_lt f_1 command.(sv_maximum_depth) ||
          float_lt command.(sv_maximum_depth) command.(sv_minimum_depth)
    with (- EINVAL) ;;
  Ok payload.

Definition set_scissor_payload (command : ptr bvb_set_scissor_command) :
    result bytes :=
  deref command := command or (- EINVAL) ;;
  fail_if (command.(sc_width) =? 0) || (command.(sc_height) =? 0)
    with (- EINVAL) ;;
  let payload := blank BVB_SET_SCISSOR_SIZE in
  let payload := bvb_wire_put_i32 payload 0 command.(sc_x) in
  let payload := bvb_wire_put_i32 payload 4 command.(sc_y) in
  let payload := bvb_wire_put_u32 payload 8 command.(sc_width) in
  let payload := bvb_wire_put_u32 payload 12 command.(sc_height) in
  Ok payload.

Definition draw_payload (command : ptr bvb_draw_command) : result bytes :=
  deref command := command or (- EINVAL) ;;
  fail_if (command.(dr_vertex_count) =? 0) ||
          (command.(dr_instance_count) =? 0) with (- EINVAL) ;;
  let payload := blank BVB_DRAW_SIZE in
  let payload := bvb_wire_put_u32 payload 0 command.(dr_vertex_count) in
  let payload := bvb_wire_put_u32 payload 4 command.(dr_instance_count) in
  let payload := bvb_wire_put_u32 payload 8 command.(dr_first_vertex) in
  let payload := bvb_wire_put_u32 payload 12 command.(dr_first_instance) in
  Ok payload.

Definition fill_buffer_payload (command : ptr bvb_fill_buffer_command) :
    result bytes :=
  deref command := command or (- EINVAL) ;;
  fail_if (command.(fb_size) =? 0) ||
          negb (Z.land command.(fb_offset) 3 =? 0) ||
          negb (Z.land command.(fb_size) 3 =? 0) ||
          negb (expects command.(fb_buffer_id) BVB_OBJECT_BUFFER)
    with (- EINVAL) ;;
  let payload := blank BVB_FILL_BUFFER_SIZE in
  let payload := bvb_wire_put_u64 payload 0 command.(fb_buffer_id) in
  let payload := bvb_wire_put_u64 payload 8 command.(fb_offset) in
  let payload := bvb_wire_put_u64 payload 16 command.(fb_size) in
  let payload := bvb_wire_put_u32 payload 24 command.(fb_data) in
  let payload := bvb_wire_put_u32 payload 28 0 in
  Ok payload.

Definition buffer_host_read_barrier_payload
    (command : ptr bvb_buffer_host_read_barrier_command) : result bytes :=
  deref command := command or (- EINVAL) ;;
  fail_if (command.(hrb_size) =? 0) ||
          negb (expects command.(hrb_buffer_id) BVB_OBJECT_BUFFER)
    with (- EINVAL) ;;
  let payload := blank BVB_BUFFER_HOST_READ_BARRIER_SIZE in
  let payload := bvb_wire_put_u64 payload 0 command.(hrb_buffer_id) in
  let payload := bvb_wire_put_u64 payload 8 command.(hrb_offset) in
  let payload := bvb_wire_put_u64 payload 16 command.(hrb_size) in
  Ok payload.

Definition vulkan_begin_payload (command : ptr bvb_vulkan_begin_command) :
    result bytes :=
  deref command := command or (- EINVAL) ;;
  fail_if negb (outside command.(vb_flags) 1 =? 0) with (- EINVAL) ;;
  let payload := blank BVB_VULKAN_BEGIN_SIZE in
  let payload := bvb_wire_put_u32 payload 0 command.(vb_flags) in
  let payload := bvb_wire_put_u32 payload 4 0 in
  Ok payload.

Definition vulkan_clear_color_image_payload
    (command : ptr bvb_vulkan_clear_color_image_command) : result bytes :=
  deref command := command or (- EINVAL) ;;
  fail_if negb (expects command.(cci_image_id) BVB_OBJECT_IMAGE)
    with (- EINVAL) ;;
  let payload := blank BVB_VULKAN_CLEAR_COLOR_IMAGE_SIZE in
  let payload := bvb_wire_put_u64 payload 0 command.(cci_image_id) in
  let payload := bvb_wire_put_u64 payload 8 0 in
  Ok payload.

Definition bind_index_buffer_opcode (opcode : Z) : bool :=
  (opcode =? BVB_COMMAND_VULKAN_BIND_INDEX_BUFFER) ||
  (opcode =? BVB_COMMAND_VULKAN_BIND_INDEX_BUFFER_2).

Definition bind_index_buffer_payload (opcode : Z)
    (command : ptr bvb_vulkan_bind_index_buffer_command) : result bytes :=
  fail_if negb (bind_index_buffer_opcode opcode) with (- EINVAL) ;;
  deref command := command or (- EINVAL) ;;
  fail_if (negb (command.(bix_buffer_id) =? 0) &&
           negb (expects command.(bix_buffer_id) BVB_OBJECT_BUFFER)) ||
          ((opcode =? BVB_COMMAND_VULKAN_BIND_INDEX_BUFFER) &&
           negb (command.(bix_size) =? UINT64_MAX)) ||
          (negb (command.(bix_buffer_id) =? 0) && (command.(bix_size) =? 0))
    with (- EINVAL) ;;
  let payload := memset0 (blank BVB_VULKAN_BIND_INDEX_BUFFER_SIZE) 0
                   BVB_VULKAN_BIND_INDEX_BUFFER_SIZE in
  let payload := bvb_wire_put_u64 payload 0 command.(bix_buffer_id) in
  let payload := bvb_wire_put_u64 payload 8 command.(bix_offset) in
  let payload := bvb_wire_put_u64 payload 16 command.(bix_size) in
  let payload := bvb_wire_put_u32 payload 24 command.(bix_index_type) in
  Ok payload.

Definition draw_indexed_payload
    (command : ptr bvb_vulkan_draw_indexed_command) : result bytes :=
  deref command := command or (- EINVAL) ;;
  let payload := memset0 (blank BVB_VULKAN_DRAW_INDEXED_SIZE) 0
                   BVB_VULKAN_DRAW_INDEXED_SIZE in
  let payload := bvb_wire_put_u32 payload 0 command.(dix_index_count) in
  let payload := bvb_wire_put_u32 payload 4 command.(dix_instance_count) in
  let payload := bvb_wire_put_u32 payload 8 command.(dix_first_index) in
  let payload := bvb_wire_put_u32 payload 12 (u32 command.(dix_vertex_offset)) in
  let payload := bvb_wire_put_u32 payload 16 command.(dix_first_instance) in
  Ok payload.

Definition draw_indirect_opcode (opcode : Z) : bool :=
  (opcode =? BVB_COMMAND_VULKAN_DRAW_INDIRECT) ||
  (opcode =? BVB_COMMAND_VULKAN_DRAW_INDEXED_INDIRECT).

Definition draw_indirect_payload (opcode : Z)
    (command : ptr bvb_vulkan_draw_indirect_command) : result bytes :=
  let indexed := opcode =? BVB_COMMAND_VULKAN_DRAW_INDEXED_INDIRECT in
  fail_if negb indexed && negb (opcode =? BVB_COMMAND_VULKAN_DRAW_INDIRECT)
    with (- EINVAL) ;;
  deref command := command or (- EINVAL) ;;
  fail_if negb (expects command.(did_buffer_id) BVB_OBJECT_BUFFER) ||
          negb (Z.land command.(did_stride) 3 =? 0) ||
          ((1 <? command.(did_draw_count)) &&
           (command.(did_stride) <? (if indexed then 20 else 16)))
    with (- EINVAL) ;;
  let payload := memset0 (blank BVB_VULKAN_DRAW_INDIRECT_SIZE) 0
                   BVB_VULKAN_DRAW_INDIRECT_SIZE in
  let payload := bvb_wire_put_u64 payload 0 command.(did_buffer_id) in
  let payload := bvb_wire_put_u64 payload 8 command.(did_offset) in
  let payload := bvb_wire_put_u32 payload 16 command.(did_draw_count) in
  let payload := bvb_wire_put_u32 payload 20 command.(did_stride) in
  Ok payload.

Definition draw_indirect_count_opcode (opcode : Z) : bool :=
  (opcode =? BVB_COMMAND_VULKAN_DRAW_INDIRECT_COUNT) ||
  (opcode =? BVB_COMMAND_VULKAN_DRAW_INDEXED_INDIRECT_COUNT).

Definition draw_indirect_count_payload (opcode : Z)
    (command : ptr bvb_vulkan_draw_indirect_count_command) : result bytes :=
  let indexed := opcode =? BVB_COMMAND_VULKAN_DRAW_INDEXED_INDIRECT_COUNT in
  fail_if negb indexed &&
          negb (opcode =? BVB_COMMAND_VULKAN_DRAW_INDIRECT_COUNT)
    with (- EINVAL) ;;
  deref command := command or (- EINVAL) ;;
  fail_if negb (expects command.(dic_buffer_id) BVB_OBJECT_BUFFER) ||
          negb (expects command.(dic_count_buffer_id) BVB_OBJECT_BUFFER) ||
          negb (Z.land command.(dic_stride) 3 =? 0) ||
          ((1 <? command.(dic_maximum_draw_count)) &&
           (command.(dic_stride) <? (if indexed then 20 else 16)))
    with (- EINVAL) ;;
  let payload := memset0 (blank BVB_VULKAN_DRAW_INDIRECT_COUNT_SIZE) 0
                   BVB_VULKAN_DRAW_INDIRECT_COUNT_SIZE in
  let payload := bvb_wire_put_u64 payload 0 command.(dic_buffer_id) in
  let payload := bvb_wire_put_u64 payload 8 command.(dic_offset) in
  let payload := bvb_wire_put_u64 payload 16 command.(dic_count_buffer_id) in
  let payload := bvb_wire_put_u64 payload 24 command.(dic_count_buffer_offset) in
  let payload := bvb_wire_put_u32 payload 32 command.(dic_maximum_draw_count) in
  let payload := bvb_wire_put_u32 payload 36 command.(dic_stride) in
  Ok payload.

(** The tests of each case of the [switch], where it returns [-EINVAL]. *)
Definition query_rejected (kind stage count flags index : Z) : bool :=
  match kind with
  | 1 => negb (stage =? 0) || negb (flags =? 0) || negb (index =? 0)
  | 2 => negb (stage =? 0) || negb (count =? 1) ||
         negb (outside flags 1 =? 0) || negb (index =? 0)
  | 3 => negb (stage =? 0) || negb (count =? 1) || negb (flags =? 0) ||
         negb (index =? 0)
  | 4 | 5 => (stage =? 0) || negb (count =? 1) || negb (flags =? 0) ||
             negb (index =? 0)
  | 6 => negb (stage =? 0) || negb (count =? 1) ||
         negb (outside flags 1 =? 0)
  | 7 => negb (stage =? 0) || negb (count =? 1) || negb (flags =? 0)
  | _ => true
  end.

Definition query_payload (command : ptr bvb_vulkan_query_command) :
    result bytes :=
  deref command := command or (- EINVAL) ;;
  fail_if negb (expects command.(qy_query_pool_id) BVB_OBJECT_QUERY_POOL) ||
          (command.(qy_query_count) =? 0) with (- EINVAL) ;;
  fail_if query_rejected command.(qy_kind) command.(qy_stage_mask)
            command.(qy_query_count) command.(qy_flags) command.(qy_index)
    with (- EINVAL) ;;
  let payload := memset0 (blank BVB_VULKAN_QUERY_SIZE) 0
                   BVB_VULKAN_QUERY_SIZE in
  let payload := bvb_wire_put_u64 payload 0 command.(qy_query_pool_id) in
  let payload := bvb_wire_put_u64 payload 8 command.(qy_stage_mask) in
  let payload := bvb_wire_put_u32 payload 16 command.(qy_first_query) in
  let payload := bvb_wire_put_u32 payload 20 command.(qy_query_count) in
  let payload := bvb_wire_put_u32 payload 24 command.(qy_flags) in
  let payload := bvb_wire_put_u32 payload 28 command.(qy_index) in
  let payload := bvb_wire_put_u32 payload 32 command.(qy_kind) in
  Ok payload.

(** ** Validators *)

Definition valid_bind_graphics_pipeline (payload : bytes) : result unit :=
  fail_if negb (expects (bvb_wire_get_u64 payload 0) BVB_OBJECT_PIPELINE) ||
          negb (bvb_wire_get_u32 payload 8 =? 0) ||
          negb (bvb_wire_get_u32 payload 12 =? 0) with (- EPROTO) ;;
  Ok tt.

Definition valid_set_viewport (payload : bytes) : result unit :=
  fail_if negb (for_all 6 (fun index =>
                  float_bits_are_finite payload (index * 4)))
    with (- EPROTO) ;;
  fail_if float_eq (get_float payload 8) f_0 ||
          float_eq (get_float payload 12) f_0 ||
          float_lt (get_float payload 16) f_0 ||
          float_lt f_1 (get_float payload 16) ||
          float_lt (get_float payload 20) f_0 ||
          float_lt f_1 (get_float payload 20) ||
          float_lt (get_float payload 20) (get_float payload 16)
    with (- EPROTO) ;;
  Ok tt.

Definition valid_set_scissor (payload : bytes) : result unit :=
  fail_if (bvb_wire_get_u32 payload 8 =? 0) ||
          (bvb_wire_get_u32 payload 12 =? 0) with (- EPROTO) ;;
  Ok tt.

Definition valid_draw (payload : bytes) : result unit :=
  fail_if (bvb_wire_get_u32 payload 0 =? 0) ||
          (bvb_wire_get_u32 payload 4 =? 0) with (- EPROTO) ;;
  Ok tt.

Definition valid_fill_buffer (payload : bytes) : result unit :=
  fail_if negb (expects (bvb_wire_get_u64 payload 0) BVB_OBJECT_BUFFER) ||
          (bvb_wire_get_u64 payload 16 =? 0) ||
          negb (Z.land (bvb_wire_get_u64 payload 8) 3 =? 0) ||
          negb (Z.land (bvb_wire_get_u64 payload 16) 3 =? 0) ||
          negb (bvb_wire_get_u32 payload 28 =? 0) with (- EPROTO) ;;
  Ok tt.

Definition valid_buffer_host_read_barrier (payload : bytes) : result unit :=
  fail_if negb (expects (bvb_wire_get_u64 payload 0) BVB_OBJECT_BUFFER) ||
          (bvb_wire_get_u64 payload 16 =? 0) with (- EPROTO) ;;
  Ok tt.

Definition valid_push_rotation (payload : bytes) : result unit :=
  fail_if negb (expects (bvb_wire_get_u64 payload 0)
                  BVB_OBJECT_PIPELINE_LAYOUT) ||
          negb (float_bits_are_finite payload 8) ||
          negb (float_bits_are_finite payload 12) ||
          float_lt (get_float payload 8) f_0 ||
          float_le f_two_pi (get_float payload 8) ||
          float_le (get_float payload 12) f_0 with (- EPROTO) ;;
  Ok tt.

Definition valid_bind_index_buffer (opcode : Z) (payload : bytes) :
    result unit :=
  let id := bvb_wire_get_u64 payload 0 in
  let size := bvb_wire_get_u64 payload 16 in
  fail_if (negb (id =? 0) && negb (expects id BVB_OBJECT_BUFFER)) ||
          (negb (id =? 0) && (size =? 0)) ||
          ((opcode =? BVB_COMMAND_VULKAN_BIND_INDEX_BUFFER) &&
           negb (size =? UINT64_MAX)) ||
          negb (bvb_wire_get_u32 payload 28 =? 0) with (- EPROTO) ;;
  Ok tt.

Definition valid_draw_indexed (payload : bytes) : result unit :=
  fail_if negb (bvb_wire_get_u32 payload 20 =? 0) with (- EPROTO) ;;
  Ok tt.

Definition valid_draw_indirect (opcode : Z) (payload : bytes) : result unit :=
  let count := bvb_wire_get_u32 payload 16 in
  let stride := bvb_wire_get_u32 payload 20 in
  let minimum :=
    if opcode =? BVB_COMMAND_VULKAN_DRAW_INDEXED_INDIRECT then 20 else 16 in
  fail_if negb (expects (bvb_wire_get_u64 payload 0) BVB_OBJECT_BUFFER) ||
          negb (Z.land stride 3 =? 0) ||
          ((1 <? count) && (stride <? minimum)) ||
          negb (bvb_wire_get_u64 payload 24 =? 0) with (- EPROTO) ;;
  Ok tt.

Definition valid_draw_indirect_count (opcode : Z) (payload : bytes) :
    result unit :=
  let count := bvb_wire_get_u32 payload 32 in
  let stride := bvb_wire_get_u32 payload 36 in
  let minimum :=
    if opcode =? BVB_COMMAND_VULKAN_DRAW_INDEXED_INDIRECT_COUNT
    then 20 else 16 in
  fail_if negb (expects (bvb_wire_get_u64 payload 0) BVB_OBJECT_BUFFER) ||
          negb (expects (bvb_wire_get_u64 payload 16) BVB_OBJECT_BUFFER) ||
          negb (Z.land stride 3 =? 0) ||
          ((1 <? count) && (stride <? minimum)) ||
          negb (bvb_wire_get_u64 payload 40 =? 0) with (- EPROTO) ;;
  Ok tt.

(** The same [switch] in the validator, where it returns [0]. *)
Definition query_accepted (kind stage count flags index : Z) : bool :=
  match kind with
  | 1 => (stage =? 0) && (flags =? 0) && (index =? 0)
  | 2 => (stage =? 0) && (count =? 1) && (outside flags 1 =? 0) &&
         (index =? 0)
  | 3 => (stage =? 0) && (count =? 1) && (flags =? 0) && (index =? 0)
  | 4 | 5 => negb (stage =? 0) && (count =? 1) && (flags =? 0) &&
             (index =? 0)
  | 6 => (stage =? 0) && (count =? 1) && (outside flags 1 =? 0)
  | 7 => (stage =? 0) && (count =? 1) && (flags =? 0)
  | _ => false
  end.

Definition valid_query (payload : bytes) : result unit :=
  let stage := bvb_wire_get_u64 payload 8 in
  let count := bvb_wire_get_u32 payload 20 in
  let flags := bvb_wire_get_u32 payload 24 in
  let index := bvb_wire_get_u32 payload 28 in
  let kind := bvb_wire_get_u32 payload 32 in
  fail_if negb (expects (bvb_wire_get_u64 payload 0) BVB_OBJECT_QUERY_POOL) ||
          (count =? 0) || negb (bvb_wire_get_u32 payload 36 =? 0)
    with (- EPROTO) ;;
  fail_if negb (query_accepted kind stage count flags index)
    with (- EPROTO) ;;
  Ok tt.

Definition valid_vulkan_begin (payload : bytes) : result unit :=
  fail_if negb (outside (bvb_wire_get_u32 payload 0) 1 =? 0) ||
          negb (bvb_wire_get_u32 payload 4 =? 0) with (- EPROTO) ;;
  Ok tt.

Definition valid_vulkan_clear_color_image (payload : bytes) : result unit :=
  fail_if negb (expects (bvb_wire_get_u64 payload 0) BVB_OBJECT_IMAGE) ||
          negb (bvb_wire_get_u64 payload 8 =? 0) with (- EPROTO) ;;
  Ok tt.

(** ** Decoders *)

Definition bvb_command_decode_bind_graphics_pipeline
    (record : ptr bvb_command_record)
    (command : ptr bvb_bind_graphics_pipeline_command) :
    result bvb_bind_graphics_pipeline_command :=
  try payload := record_of record
    (is_record BVB_COMMAND_BIND_GRAPHICS_PIPELINE
               BVB_BIND_GRAPHICS_PIPELINE_SIZE) ;;
  deref _ := command or (- EINVAL) ;;
  Ok {| bgp_pipeline_id := bvb_wire_get_u64 payload 0 |}.

Definition bvb_command_decode_push_rotation (record : ptr bvb_command_record)
    (command : ptr bvb_push_rotation_command) :
    result bvb_push_rotation_command :=
  try payload := record_of record
    (is_record BVB_COMMAND_PUSH_ROTATION BVB_PUSH_ROTATION_SIZE) ;;
  deref _ := command or (- EINVAL) ;;
  Ok {| pr_pipeline_layout_id := bvb_wire_get_u64 payload 0;
        pr_angle_radians := get_float payload 8;
        pr_aspect_ratio := get_float payload 12 |}.

Definition bvb_command_decode_set_viewport (record : ptr bvb_command_record)
    (command : ptr bvb_set_viewport_command) :
    result bvb_set_viewport_command :=
  try payload := record_of record
    (is_record BVB_COMMAND_SET_VIEWPORT BVB_SET_VIEWPORT_SIZE) ;;
  deref _ := command or (- EINVAL) ;;
  Ok {| sv_x := get_float payload 0;
        sv_y := get_float payload 4;
        sv_width := get_float payload 8;
        sv_height := get_float payload 12;
        sv_minimum_depth := get_float payload 16;
        sv_maximum_depth := get_float payload 20 |}.

Definition bvb_command_decode_set_scissor (record : ptr bvb_command_record)
    (command : ptr bvb_set_scissor_command) : result bvb_set_scissor_command :=
  try payload := record_of record
    (is_record BVB_COMMAND_SET_SCISSOR BVB_SET_SCISSOR_SIZE) ;;
  deref _ := command or (- EINVAL) ;;
  Ok {| sc_x := bvb_wire_get_i32 payload 0;
        sc_y := bvb_wire_get_i32 payload 4;
        sc_width := bvb_wire_get_u32 payload 8;
        sc_height := bvb_wire_get_u32 payload 12 |}.

Definition bvb_command_decode_draw (record : ptr bvb_command_record)
    (command : ptr bvb_draw_command) : result bvb_draw_command :=
  try payload := record_of record (is_record BVB_COMMAND_DRAW BVB_DRAW_SIZE) ;;
  deref _ := command or (- EINVAL) ;;
  Ok {| dr_vertex_count := bvb_wire_get_u32 payload 0;
        dr_instance_count := bvb_wire_get_u32 payload 4;
        dr_first_vertex := bvb_wire_get_u32 payload 8;
        dr_first_instance := bvb_wire_get_u32 payload 12 |}.

Definition bvb_command_decode_fill_buffer (record : ptr bvb_command_record)
    (command : ptr bvb_fill_buffer_command) : result bvb_fill_buffer_command :=
  try payload := record_of record
    (is_record BVB_COMMAND_FILL_BUFFER BVB_FILL_BUFFER_SIZE) ;;
  deref _ := command or (- EINVAL) ;;
  Ok {| fb_buffer_id := bvb_wire_get_u64 payload 0;
        fb_offset := bvb_wire_get_u64 payload 8;
        fb_size := bvb_wire_get_u64 payload 16;
        fb_data := bvb_wire_get_u32 payload 24 |}.

Definition bvb_command_decode_buffer_host_read_barrier
    (record : ptr bvb_command_record)
    (command : ptr bvb_buffer_host_read_barrier_command) :
    result bvb_buffer_host_read_barrier_command :=
  try payload := record_of record
    (is_record BVB_COMMAND_BUFFER_HOST_READ_BARRIER
               BVB_BUFFER_HOST_READ_BARRIER_SIZE) ;;
  deref _ := command or (- EINVAL) ;;
  Ok {| hrb_buffer_id := bvb_wire_get_u64 payload 0;
        hrb_offset := bvb_wire_get_u64 payload 8;
        hrb_size := bvb_wire_get_u64 payload 16 |}.

Definition bvb_command_decode_vulkan_begin (record : ptr bvb_command_record)
    (command : ptr bvb_vulkan_begin_command) :
    result bvb_vulkan_begin_command :=
  try payload := record_of record
    (is_record BVB_COMMAND_VULKAN_BEGIN BVB_VULKAN_BEGIN_SIZE) ;;
  deref _ := command or (- EINVAL) ;;
  Ok {| vb_flags := bvb_wire_get_u32 payload 0 |}.

Definition bvb_command_decode_vulkan_clear_color_image
    (record : ptr bvb_command_record)
    (command : ptr bvb_vulkan_clear_color_image_command) :
    result bvb_vulkan_clear_color_image_command :=
  try payload := record_of record
    (is_record BVB_COMMAND_VULKAN_CLEAR_COLOR_IMAGE
               BVB_VULKAN_CLEAR_COLOR_IMAGE_SIZE) ;;
  deref _ := command or (- EINVAL) ;;
  Ok {| cci_image_id := bvb_wire_get_u64 payload 0 |}.

Definition bvb_command_decode_vulkan_bind_index_buffer
    (record : ptr bvb_command_record)
    (command : ptr bvb_vulkan_bind_index_buffer_command) :
    result bvb_vulkan_bind_index_buffer_command :=
  try payload := record_of record (fun record =>
    bind_index_buffer_opcode record.(rec_opcode) &&
    (record.(rec_payload_length) =? BVB_VULKAN_BIND_INDEX_BUFFER_SIZE)) ;;
  deref _ := command or (- EINVAL) ;;
  Ok {| bix_buffer_id := bvb_wire_get_u64 payload 0;
        bix_offset := bvb_wire_get_u64 payload 8;
        bix_size := bvb_wire_get_u64 payload 16;
        bix_index_type := bvb_wire_get_u32 payload 24 |}.

Definition bvb_command_decode_vulkan_draw_indexed
    (record : ptr bvb_command_record)
    (command : ptr bvb_vulkan_draw_indexed_command) :
    result bvb_vulkan_draw_indexed_command :=
  try payload := record_of record
    (is_record BVB_COMMAND_VULKAN_DRAW_INDEXED BVB_VULKAN_DRAW_INDEXED_SIZE) ;;
  deref _ := command or (- EINVAL) ;;
  Ok {| dix_index_count := bvb_wire_get_u32 payload 0;
        dix_instance_count := bvb_wire_get_u32 payload 4;
        dix_first_index := bvb_wire_get_u32 payload 8;
        dix_vertex_offset := i32 (bvb_wire_get_u32 payload 12);
        dix_first_instance := bvb_wire_get_u32 payload 16 |}.

Definition bvb_command_decode_vulkan_draw_indirect
    (record : ptr bvb_command_record)
    (command : ptr bvb_vulkan_draw_indirect_command) :
    result bvb_vulkan_draw_indirect_command :=
  try payload := record_of record (fun record =>
    draw_indirect_opcode record.(rec_opcode) &&
    (record.(rec_payload_length) =? BVB_VULKAN_DRAW_INDIRECT_SIZE)) ;;
  deref _ := command or (- EINVAL) ;;
  Ok {| did_buffer_id := bvb_wire_get_u64 payload 0;
        did_offset := bvb_wire_get_u64 payload 8;
        did_draw_count := bvb_wire_get_u32 payload 16;
        did_stride := bvb_wire_get_u32 payload 20 |}.

Definition bvb_command_decode_vulkan_draw_indirect_count
    (record : ptr bvb_command_record)
    (command : ptr bvb_vulkan_draw_indirect_count_command) :
    result bvb_vulkan_draw_indirect_count_command :=
  try payload := record_of record (fun record =>
    draw_indirect_count_opcode record.(rec_opcode) &&
    (record.(rec_payload_length) =? BVB_VULKAN_DRAW_INDIRECT_COUNT_SIZE)) ;;
  deref _ := command or (- EINVAL) ;;
  Ok {| dic_buffer_id := bvb_wire_get_u64 payload 0;
        dic_offset := bvb_wire_get_u64 payload 8;
        dic_count_buffer_id := bvb_wire_get_u64 payload 16;
        dic_count_buffer_offset := bvb_wire_get_u64 payload 24;
        dic_maximum_draw_count := bvb_wire_get_u32 payload 32;
        dic_stride := bvb_wire_get_u32 payload 36 |}.

(** The only decoder that validates the payload itself. *)
Definition bvb_command_decode_vulkan_query (record : ptr bvb_command_record)
    (command : ptr bvb_vulkan_query_command) :
    result bvb_vulkan_query_command :=
  try payload := record_of record
    (is_record BVB_COMMAND_VULKAN_QUERY BVB_VULKAN_QUERY_SIZE) ;;
  deref _ := command or (- EINVAL) ;;
  try _ := valid_query payload ;;
  Ok {| qy_query_pool_id := bvb_wire_get_u64 payload 0;
        qy_stage_mask := bvb_wire_get_u64 payload 8;
        qy_first_query := bvb_wire_get_u32 payload 16;
        qy_query_count := bvb_wire_get_u32 payload 20;
        qy_flags := bvb_wire_get_u32 payload 24;
        qy_index := bvb_wire_get_u32 payload 28;
        qy_kind := bvb_wire_get_u32 payload 32 |}.

(** ** The contracts *)

#[local] Hint Unfold elt : sizes.

#[global] Arguments query_accepted : simpl never.
Lemma query_rejected_accepted kind stage count flags index :
  query_rejected kind stage count flags index =
  negb (query_accepted kind stage count flags index).
Proof.
  unfold query_rejected, query_accepted.
  repeat case_match; rewrite ?negb_andb, ?negb_involutive; reflexivity.
Qed.
#[export] Hint Rewrite query_rejected_accepted : tests.
#[export] Hint Unfold valid_query : sizes.

Definition draw_recorder : recorder bvb_draw_command :=
  {| rc_opcodes op := op =? BVB_COMMAND_DRAW;
     rc_pre _ := dr_rep;
     rc_payload _ := draw_payload;
     rc_length _ := BVB_DRAW_SIZE;
     rc_valid _ := valid_draw;
     rc_decode := bvb_command_decode_draw;
     rc_norm c := c |}.
#[export] Instance draw_recorded : Recorded draw_recorder.
Proof. solve_recorded. Qed.

Definition bind_graphics_pipeline_recorder : recorder bvb_bind_graphics_pipeline_command :=
  {| rc_opcodes op := op =? BVB_COMMAND_BIND_GRAPHICS_PIPELINE;
     rc_pre _ := bgp_rep;
     rc_payload _ := bind_graphics_pipeline_payload;
     rc_length _ := BVB_BIND_GRAPHICS_PIPELINE_SIZE;
     rc_valid _ := valid_bind_graphics_pipeline;
     rc_decode := bvb_command_decode_bind_graphics_pipeline;
     rc_norm c := c |}.
#[export] Instance bind_graphics_pipeline_recorded : Recorded bind_graphics_pipeline_recorder.
Proof. solve_recorded. Qed.

Definition push_rotation_recorder : recorder bvb_push_rotation_command :=
  {| rc_opcodes op := op =? BVB_COMMAND_PUSH_ROTATION;
     rc_pre _ := pr_rep;
     rc_payload _ := push_rotation_payload;
     rc_length _ := BVB_PUSH_ROTATION_SIZE;
     rc_valid _ := valid_push_rotation;
     rc_decode := bvb_command_decode_push_rotation;
     rc_norm c := c |}.
#[export] Instance push_rotation_recorded : Recorded push_rotation_recorder.
Proof. solve_recorded. Qed.

Definition set_viewport_recorder : recorder bvb_set_viewport_command :=
  {| rc_opcodes op := op =? BVB_COMMAND_SET_VIEWPORT;
     rc_pre _ := sv_rep;
     rc_payload _ := set_viewport_payload;
     rc_length _ := BVB_SET_VIEWPORT_SIZE;
     rc_valid _ := valid_set_viewport;
     rc_decode := bvb_command_decode_set_viewport;
     rc_norm c := c |}.
#[export] Instance set_viewport_recorded : Recorded set_viewport_recorder.
Proof. solve_recorded. Qed.

Definition set_scissor_recorder : recorder bvb_set_scissor_command :=
  {| rc_opcodes op := op =? BVB_COMMAND_SET_SCISSOR;
     rc_pre _ := sc_rep;
     rc_payload _ := set_scissor_payload;
     rc_length _ := BVB_SET_SCISSOR_SIZE;
     rc_valid _ := valid_set_scissor;
     rc_decode := bvb_command_decode_set_scissor;
     rc_norm c := c |}.
#[export] Instance set_scissor_recorded : Recorded set_scissor_recorder.
Proof. solve_recorded. Qed.

Definition fill_buffer_recorder : recorder bvb_fill_buffer_command :=
  {| rc_opcodes op := op =? BVB_COMMAND_FILL_BUFFER;
     rc_pre _ := fb_rep;
     rc_payload _ := fill_buffer_payload;
     rc_length _ := BVB_FILL_BUFFER_SIZE;
     rc_valid _ := valid_fill_buffer;
     rc_decode := bvb_command_decode_fill_buffer;
     rc_norm c := c |}.
#[export] Instance fill_buffer_recorded : Recorded fill_buffer_recorder.
Proof. solve_recorded. Qed.

Definition buffer_host_read_barrier_recorder : recorder bvb_buffer_host_read_barrier_command :=
  {| rc_opcodes op := op =? BVB_COMMAND_BUFFER_HOST_READ_BARRIER;
     rc_pre _ := hrb_rep;
     rc_payload _ := buffer_host_read_barrier_payload;
     rc_length _ := BVB_BUFFER_HOST_READ_BARRIER_SIZE;
     rc_valid _ := valid_buffer_host_read_barrier;
     rc_decode := bvb_command_decode_buffer_host_read_barrier;
     rc_norm c := c |}.
#[export] Instance buffer_host_read_barrier_recorded : Recorded buffer_host_read_barrier_recorder.
Proof. solve_recorded. Qed.

Definition vulkan_begin_recorder : recorder bvb_vulkan_begin_command :=
  {| rc_opcodes op := op =? BVB_COMMAND_VULKAN_BEGIN;
     rc_pre _ := vb_rep;
     rc_payload _ := vulkan_begin_payload;
     rc_length _ := BVB_VULKAN_BEGIN_SIZE;
     rc_valid _ := valid_vulkan_begin;
     rc_decode := bvb_command_decode_vulkan_begin;
     rc_norm c := c |}.
#[export] Instance vulkan_begin_recorded : Recorded vulkan_begin_recorder.
Proof. solve_recorded. Qed.

Definition vulkan_clear_color_image_recorder : recorder bvb_vulkan_clear_color_image_command :=
  {| rc_opcodes op := op =? BVB_COMMAND_VULKAN_CLEAR_COLOR_IMAGE;
     rc_pre _ := cci_rep;
     rc_payload _ := vulkan_clear_color_image_payload;
     rc_length _ := BVB_VULKAN_CLEAR_COLOR_IMAGE_SIZE;
     rc_valid _ := valid_vulkan_clear_color_image;
     rc_decode := bvb_command_decode_vulkan_clear_color_image;
     rc_norm c := c |}.
#[export] Instance vulkan_clear_color_image_recorded : Recorded vulkan_clear_color_image_recorder.
Proof. solve_recorded. Qed.

Definition bind_index_buffer_recorder : recorder bvb_vulkan_bind_index_buffer_command :=
  {| rc_opcodes := bind_index_buffer_opcode;
     rc_pre _ := bix_rep;
     rc_payload := bind_index_buffer_payload;
     rc_length _ := BVB_VULKAN_BIND_INDEX_BUFFER_SIZE;
     rc_valid := valid_bind_index_buffer;
     rc_decode := bvb_command_decode_vulkan_bind_index_buffer;
     rc_norm c := c |}.
#[export] Instance bind_index_buffer_recorded : Recorded bind_index_buffer_recorder.
Proof. solve_recorded. Qed.

Definition draw_indexed_recorder : recorder bvb_vulkan_draw_indexed_command :=
  {| rc_opcodes op := op =? BVB_COMMAND_VULKAN_DRAW_INDEXED;
     rc_pre _ := dix_rep;
     rc_payload _ := draw_indexed_payload;
     rc_length _ := BVB_VULKAN_DRAW_INDEXED_SIZE;
     rc_valid _ := valid_draw_indexed;
     rc_decode := bvb_command_decode_vulkan_draw_indexed;
     rc_norm c := c |}.
#[export] Instance draw_indexed_recorded : Recorded draw_indexed_recorder.
Proof. solve_recorded. Qed.

Definition draw_indirect_recorder : recorder bvb_vulkan_draw_indirect_command :=
  {| rc_opcodes := draw_indirect_opcode;
     rc_pre _ := did_rep;
     rc_payload := draw_indirect_payload;
     rc_length _ := BVB_VULKAN_DRAW_INDIRECT_SIZE;
     rc_valid := valid_draw_indirect;
     rc_decode := bvb_command_decode_vulkan_draw_indirect;
     rc_norm c := c |}.
#[export] Instance draw_indirect_recorded : Recorded draw_indirect_recorder.
Proof. solve_recorded. Qed.

Definition draw_indirect_count_recorder : recorder bvb_vulkan_draw_indirect_count_command :=
  {| rc_opcodes := draw_indirect_count_opcode;
     rc_pre _ := dic_rep;
     rc_payload := draw_indirect_count_payload;
     rc_length _ := BVB_VULKAN_DRAW_INDIRECT_COUNT_SIZE;
     rc_valid := valid_draw_indirect_count;
     rc_decode := bvb_command_decode_vulkan_draw_indirect_count;
     rc_norm c := c |}.
#[export] Instance draw_indirect_count_recorded : Recorded draw_indirect_count_recorder.
Proof. solve_recorded. Qed.

Definition query_recorder : recorder bvb_vulkan_query_command :=
  {| rc_opcodes op := op =? BVB_COMMAND_VULKAN_QUERY;
     rc_pre _ := qy_rep;
     rc_payload _ := query_payload;
     rc_length _ := BVB_VULKAN_QUERY_SIZE;
     rc_valid _ := valid_query;
     rc_decode := bvb_command_decode_vulkan_query;
     rc_norm c := c |}.
#[export] Instance query_recorded : Recorded query_recorder.
Proof. solve_recorded. Qed.

