(* ===== verification/CommandTransfer.v ===== *)
(** * CommandTransfer: barriers, copies, clears and buffer updates

    The commands of src/command_batch.c that synchronise, copy and clear
    images and buffers: image and buffer barriers, the six transfer commands,
    the three clears and the inline buffer update.  Their payloads hold one
    or more counted arrays of the elements of CommandElements, or raw bytes;
    barriers, transfers and updates have a payload as long as their counts
    make it. *)

From S2P Require Import Prelude Wire Codec Window Element CommandTypes CommandBase CommandElements CommandArrays.

(** ** Encoders *)

Definition init_image_barrier_payload
    (command : ptr bvb_vulkan_init_image_barrier_command) : result bytes :=
  deref command := command or (- EINVAL) ;;
  fail_if (command.(iib_image_count) =? 0) ||
          (BVB_COMMAND_VULKAN_MAX_INIT_IMAGE_BARRIERS <?
             command.(iib_image_count)) with (- EINVAL) ;;
  let payload := memset0 (blank BVB_VULKAN_INIT_IMAGE_BARRIER_SIZE) 0
                   BVB_VULKAN_INIT_IMAGE_BARRIER_SIZE in
  let payload := bvb_wire_put_u32 payload 0 command.(iib_image_count) in
  for_loop command.(iib_image_count) (fun index payload =>
    let id := elt 0 command.(iib_image_ids) index in
    fail_if negb (expects id BVB_OBJECT_IMAGE) with (- EINVAL) ;;
    fail_if negb (for_all index (fun earlier =>
              negb (elt 0 command.(iib_image_ids) earlier =? id)))
      with (- EINVAL) ;;
    Ok (write_window payload (8 + index * 8) 8
          (fun output => bvb_wire_put_u64 output 0 id))) payload.

Definition clear_color_image_general_payload
    (command : ptr bvb_vulkan_clear_color_image_general_command) :
    result bytes :=
  deref command := command or (- EINVAL) ;;
  fail_if (command.(ccg_image_layout) =? 0) || (command.(ccg_range_count) =? 0) ||
          (BVB_COMMAND_VULKAN_MAX_CLEAR_RANGES <? command.(ccg_range_count)) ||
          negb (expects command.(ccg_image_id) BVB_OBJECT_IMAGE)
    with (- EINVAL) ;;
  let payload := memset0 (blank BVB_VULKAN_CLEAR_COLOR_IMAGE_GENERAL_SIZE) 0
                   BVB_VULKAN_CLEAR_COLOR_IMAGE_GENERAL_SIZE in
  let payload := bvb_wire_put_u64 payload 0 command.(ccg_image_id) in
  let payload := bvb_wire_put_u32 payload 8 command.(ccg_image_layout) in
  let payload := bvb_wire_put_u32 payload 12 command.(ccg_range_count) in
  let payload := put_words payload 16 command.(ccg_color_words) in
  for_loop command.(ccg_range_count) (fun index payload =>
    let range := elt zero_isr command.(ccg_ranges) index in
    fail_if negb (image_range_is_valid range) with (- EINVAL) ;;
    Ok (write_window payload (32 + index * BVB_VULKAN_IMAGE_RANGE_SIZE)
          BVB_VULKAN_IMAGE_RANGE_SIZE
          (fun output => encode_image_range output 0 range))) payload.

(** The source is a buffer; the destination is a buffer. *)
Definition source_buffer (opcode : Z) : bool :=
  (opcode =? BVB_COMMAND_VULKAN_COPY_BUFFER_2) ||
  (opcode =? BVB_COMMAND_VULKAN_COPY_BUFFER_TO_IMAGE_2).
Definition destination_buffer (opcode : Z) : bool :=
  (opcode =? BVB_COMMAND_VULKAN_COPY_BUFFER_2) ||
  (opcode =? BVB_COMMAND_VULKAN_COPY_IMAGE_TO_BUFFER_2).
Definition buffer_or_image (buffer : bool) : Z :=
  if buffer then BVB_OBJECT_BUFFER else BVB_OBJECT_IMAGE.

Definition region_is_valid (opcode : Z) (region : bvb_vulkan_transfer_region) :
    bool :=
  let buffer_copy := opcode =? BVB_COMMAND_VULKAN_COPY_BUFFER_2 in
  negb ((buffer_copy && (region.(tr_size) =? 0)) ||
        (negb buffer_copy &&
         ((region.(tr_extent).(e3_width) =? 0) ||
          (region.(tr_extent).(e3_height) =? 0) ||
          (region.(tr_extent).(e3_depth) =? 0))) ||
        (negb (source_buffer opcode) &&
         negb (transfer_layers_are_valid region.(tr_source_layers))) ||
        (negb (destination_buffer opcode) &&
         negb (transfer_layers_are_valid region.(tr_destination_layers)))).

Definition transfer_payload (opcode : Z)
    (command : ptr bvb_vulkan_transfer_command) : result bytes :=
  fail_if negb (transfer_opcode_is_valid opcode) with (- EINVAL) ;;
  deref command := command or (- EINVAL) ;;
  fail_if (command.(tf_region_count) =? 0) ||
          (BVB_COMMAND_VULKAN_MAX_TRANSFER_REGIONS <?
             command.(tf_region_count)) with (- EINVAL) ;;
  fail_if negb (expects command.(tf_source_id)
                  (buffer_or_image (source_buffer opcode))) ||
          negb (expects command.(tf_destination_id)
                  (buffer_or_image (destination_buffer opcode))) ||
          (negb (source_buffer opcode) && (command.(tf_source_layout) =? 0)) ||
          (negb (destination_buffer opcode) &&
           (command.(tf_destination_layout) =? 0)) ||
          ((opcode =? BVB_COMMAND_VULKAN_BLIT_IMAGE_2) &&
           (1 <? command.(tf_filter))) with (- EINVAL) ;;
  let payload := memset0 (blank BVB_VULKAN_TRANSFER_MAX_SIZE) 0
                   BVB_VULKAN_TRANSFER_MAX_SIZE in
  let payload := bvb_wire_put_u64 payload 0 command.(tf_source_id) in
  let payload := bvb_wire_put_u64 payload 8 command.(tf_destination_id) in
  let payload := bvb_wire_put_u32 payload 16 command.(tf_source_layout) in
  let payload := bvb_wire_put_u32 payload 20 command.(tf_destination_layout) in
  let payload := bvb_wire_put_u32 payload 24 command.(tf_filter) in
  let payload := bvb_wire_put_u32 payload 28 command.(tf_region_count) in
  for_loop command.(tf_region_count) (fun index payload =>
    let region := elt zero_tr command.(tf_regions) index in
    fail_if negb (region_is_valid opcode region) with (- EINVAL) ;;
    Ok (write_window payload
          (BVB_VULKAN_TRANSFER_HEADER_SIZE +
           index * BVB_VULKAN_TRANSFER_REGION_SIZE)
          BVB_VULKAN_TRANSFER_REGION_SIZE
          (fun wire => encode_transfer_region wire region))) payload.

Definition clear_depth_stencil_image_payload
    (command : ptr bvb_vulkan_clear_depth_stencil_image_command) :
    result bytes :=
  deref command := command or (- EINVAL) ;;
  fail_if negb (expects command.(cds_image_id) BVB_OBJECT_IMAGE) ||
          (negb (command.(cds_image_layout) =? 1) &&
           negb (command.(cds_image_layout) =? 7)) ||
          (command.(cds_range_count) =? 0) ||
          (BVB_COMMAND_VULKAN_MAX_CLEAR_RANGES <? command.(cds_range_count)) ||
          negb (float_word_is_finite command.(cds_depth_word))
    with (- EINVAL) ;;
  let payload := memset0 (blank BVB_VULKAN_CLEAR_DEPTH_STENCIL_IMAGE_SIZE) 0
                   BVB_VULKAN_CLEAR_DEPTH_STENCIL_IMAGE_SIZE in
  let payload := bvb_wire_put_u64 payload 0 command.(cds_image_id) in
  let payload := bvb_wire_put_u32 payload 8 command.(cds_image_layout) in
  let payload := bvb_wire_put_u32 payload 12 command.(cds_range_count) in
  let payload := bvb_wire_put_u32 payload 16 command.(cds_depth_word) in
  let payload := bvb_wire_put_u32 payload 20 command.(cds_stencil) in
  for_loop command.(cds_range_count) (fun index payload =>
    let range := elt zero_isr command.(cds_ranges) index in
    fail_if negb (image_range_is_valid range) ||
            negb (outside range.(isr_aspect_mask) 6 =? 0) with (- EINVAL) ;;
    Ok (write_window payload (24 + index * BVB_VULKAN_IMAGE_RANGE_SIZE)
          BVB_VULKAN_IMAGE_RANGE_SIZE
          (fun output => encode_image_range output 0 range))) payload.

Definition clear_attachments_payload
    (command : ptr bvb_vulkan_clear_attachments_command) : result bytes :=
  deref command := command or (- EINVAL) ;;
  fail_if (command.(cas_attachment_count) =? 0) ||
          (BVB_COMMAND_VULKAN_MAX_CLEAR_ATTACHMENTS <?
             command.(cas_attachment_count)) ||
          (command.(cas_rect_count) =? 0) ||
          (BVB_COMMAND_VULKAN_MAX_CLEAR_RECTS <? command.(cas_rect_count))
    with (- EINVAL) ;;
  let payload := memset0 (blank BVB_VULKAN_CLEAR_ATTACHMENTS_SIZE) 0
                   BVB_VULKAN_CLEAR_ATTACHMENTS_SIZE in
  let payload := bvb_wire_put_u32 payload 0 command.(cas_attachment_count) in
  let payload := bvb_wire_put_u32 payload 4 command.(cas_rect_count) in
  try payload := for_loop command.(cas_attachment_count)
    (fun index payload =>
      let attachment := elt zero_ca command.(cas_attachments) index in
      fail_if (attachment.(ca_aspect_mask) =? 0) ||
              negb (outside attachment.(ca_aspect_mask) 7 =? 0)
        with (- EINVAL) ;;
      Ok (write_window payload (8 + index * BVB_VULKAN_CLEAR_ATTACHMENT_SIZE)
            BVB_VULKAN_CLEAR_ATTACHMENT_SIZE
            (fun output => encode_clear_attachment output attachment)))
    payload ;;
  let rect_base := 8 + BVB_COMMAND_VULKAN_MAX_CLEAR_ATTACHMENTS *
                         BVB_VULKAN_CLEAR_ATTACHMENT_SIZE in
  for_loop command.(cas_rect_count) (fun index payload =>
    let rect := elt zero_cr command.(cas_rects) index in
    fail_if (rect.(cr_width) =? 0) || (rect.(cr_height) =? 0) ||
            (rect.(cr_layer_count) =? 0) with (- EINVAL) ;;
    Ok (write_window payload (rect_base + index * BVB_VULKAN_CLEAR_RECT_SIZE)
          BVB_VULKAN_CLEAR_RECT_SIZE
          (fun output => encode_clear_rect output rect))) payload.

Definition update_buffer_payload
    (command : ptr bvb_vulkan_update_buffer_command) : result bytes :=
  deref command := command or (- EINVAL) ;;
  fail_if negb (expects command.(ub_buffer_id) BVB_OBJECT_BUFFER) ||
          (command.(ub_data_size) =? 0) ||
          (BVB_COMMAND_VULKAN_MAX_UPDATE_BUFFER_BYTES <?
             command.(ub_data_size)) ||
          negb (Z.land command.(ub_offset) 3 =? 0) ||
          negb (Z.land command.(ub_data_size) 3 =? 0) with (- EINVAL) ;;
  let payload := blank BVB_VULKAN_UPDATE_BUFFER_MAX_SIZE in
  let payload := bvb_wire_put_u64 payload 0 command.(ub_buffer_id) in
  let payload := bvb_wire_put_u64 payload 8 command.(ub_offset) in
  let payload := bvb_wire_put_u32 payload 16 command.(ub_data_size) in
  let payload := bvb_wire_put_u32 payload 20 0 in
  Ok (wr_bytes payload BVB_VULKAN_UPDATE_BUFFER_HEADER_SIZE
        (rd_bytes command.(ub_data) 0 command.(ub_data_size))).

(** ** Validators *)

Definition valid_init_image_barrier (payload : bytes) : result unit :=
  let count := bvb_wire_get_u32 payload 0 in
  fail_if (count =? 0) ||
          (BVB_COMMAND_VULKAN_MAX_INIT_IMAGE_BARRIERS <? count) ||
          negb (bvb_wire_get_u32 payload 4 =? 0) with (- EPROTO) ;;
  fail_if negb (for_all BVB_COMMAND_VULKAN_MAX_INIT_IMAGE_BARRIERS
    (fun index =>
      let image_id := bvb_wire_get_u64 (payload +! (8 + index * 8)) 0 in
      if count <=? index then image_id =? 0
      else expects image_id BVB_OBJECT_IMAGE &&
           for_all index (fun earlier =>
             negb (image_id =?
                     bvb_wire_get_u64 (payload +! (8 + earlier * 8)) 0))))
    with (- EPROTO) ;;
  Ok tt.

Definition valid_clear_color_image_general (payload : bytes) : result unit :=
  let count := bvb_wire_get_u32 payload 12 in
  fail_if negb (expects (bvb_wire_get_u64 payload 0) BVB_OBJECT_IMAGE) ||
          (bvb_wire_get_u32 payload 8 =? 0) || (count =? 0) ||
          (BVB_COMMAND_VULKAN_MAX_CLEAR_RANGES <? count) with (- EPROTO) ;;
  fail_if negb (for_all BVB_COMMAND_VULKAN_MAX_CLEAR_RANGES (fun index =>
      let range := payload +! (32 + index * BVB_VULKAN_IMAGE_RANGE_SIZE) in
      if index <? count then is_ok (validate_image_range_wire range 0)
      else image_range_wire_is_zero range)) with (- EPROTO) ;;
  Ok tt.

(** What is read of the region at [wire]. *)
Definition region_wire_is_valid (opcode : Z) (wire : bytes) : bool :=
  negb (((opcode =? BVB_COMMAND_VULKAN_COPY_BUFFER_2) &&
         (bvb_wire_get_u64 wire 16 =? 0)) ||
        (negb (opcode =? BVB_COMMAND_VULKAN_COPY_BUFFER_2) &&
         ((bvb_wire_get_u32 wire 112 =? 0) || (bvb_wire_get_u32 wire 116 =? 0) ||
          (bvb_wire_get_u32 wire 120 =? 0))) ||
        (negb (source_buffer opcode) &&
         ((bvb_wire_get_u32 wire 32 =? 0) || (bvb_wire_get_u32 wire 44 =? 0))) ||
        (negb (destination_buffer opcode) &&
         ((bvb_wire_get_u32 wire 48 =? 0) || (bvb_wire_get_u32 wire 60 =? 0))) ||
        negb (bvb_wire_get_u32 wire 124 =? 0)).

Definition valid_transfer (opcode : Z) (payload : bytes) : result unit :=
  let count := bvb_wire_get_u32 payload 28 in
  fail_if negb (expects (bvb_wire_get_u64 payload 0)
                  (buffer_or_image (source_buffer opcode))) ||
          negb (expects (bvb_wire_get_u64 payload 8)
                  (buffer_or_image (destination_buffer opcode))) ||
          (negb (source_buffer opcode) && (bvb_wire_get_u32 payload 16 =? 0)) ||
          (negb (destination_buffer opcode) &&
           (bvb_wire_get_u32 payload 20 =? 0)) ||
          ((opcode =? BVB_COMMAND_VULKAN_BLIT_IMAGE_2) &&
           (1 <? bvb_wire_get_u32 payload 24)) ||
          (negb (opcode =? BVB_COMMAND_VULKAN_BLIT_IMAGE_2) &&
           negb (bvb_wire_get_u32 payload 24 =? 0)) ||
          (count =? 0) || (BVB_COMMAND_VULKAN_MAX_TRANSFER_REGIONS <? count)
    with (- EPROTO) ;;
  fail_if negb (for_all count (fun index =>
      region_wire_is_valid opcode
        (payload +! (BVB_VULKAN_TRANSFER_HEADER_SIZE +
                     index * BVB_VULKAN_TRANSFER_REGION_SIZE))))
    with (- EPROTO) ;;
  Ok tt.

Definition valid_clear_depth_stencil_image (payload : bytes) : result unit :=
  let layout := bvb_wire_get_u32 payload 8 in
  let count := bvb_wire_get_u32 payload 12 in
  fail_if negb (expects (bvb_wire_get_u64 payload 0) BVB_OBJECT_IMAGE) ||
          (negb (layout =? 1) && negb (layout =? 7)) || (count =? 0) ||
          (BVB_COMMAND_VULKAN_MAX_CLEAR_RANGES <? count) ||
          negb (float_word_is_finite (bvb_wire_get_u32 payload 16))
    with (- EPROTO) ;;
  fail_if negb (for_all BVB_COMMAND_VULKAN_MAX_CLEAR_RANGES (fun index =>
      let range := payload +! (24 + index * BVB_VULKAN_IMAGE_RANGE_SIZE) in
      if index <? count then
        negb (negb (is_ok (validate_image_range_wire range 0)) ||
              negb (outside (bvb_wire_get_u32 range 0) 6 =? 0))
      else image_range_wire_is_zero range)) with (- EPROTO) ;;
  Ok tt.

Definition valid_clear_attachments (payload : bytes) : result unit :=
  let attachment_count := bvb_wire_get_u32 payload 0 in
  let rect_count := bvb_wire_get_u32 payload 4 in
  fail_if (attachment_count =? 0) ||
          (BVB_COMMAND_VULKAN_MAX_CLEAR_ATTACHMENTS <? attachment_count) ||
          (rect_count =? 0) ||
          (BVB_COMMAND_VULKAN_MAX_CLEAR_RECTS <? rect_count) with (- EPROTO) ;;
  fail_if negb (for_all BVB_COMMAND_VULKAN_MAX_CLEAR_ATTACHMENTS (fun index =>
      let attachment :=
        payload +! (8 + index * BVB_VULKAN_CLEAR_ATTACHMENT_SIZE) in
      if index <? attachment_count then
        negb ((bvb_wire_get_u32 attachment 0 =? 0) ||
              negb (outside (bvb_wire_get_u32 attachment 0) 7 =? 0))
      else bytes_are_zero attachment BVB_VULKAN_CLEAR_ATTACHMENT_SIZE))
    with (- EPROTO) ;;
  let rect_base := 8 + BVB_COMMAND_VULKAN_MAX_CLEAR_ATTACHMENTS *
                         BVB_VULKAN_CLEAR_ATTACHMENT_SIZE in
  fail_if negb (for_all BVB_COMMAND_VULKAN_MAX_CLEAR_RECTS (fun index =>
      let rect := payload +! (rect_base + index * BVB_VULKAN_CLEAR_RECT_SIZE) in
      if index <? rect_count then
        negb ((bvb_wire_get_u32 rect 8 =? 0) || (bvb_wire_get_u32 rect 12 =? 0) ||
              (bvb_wire_get_u32 rect 20 =? 0))
      else bytes_are_zero rect BVB_VULKAN_CLEAR_RECT_SIZE)) with (- EPROTO) ;;
  Ok tt.

Definition valid_update_buffer (payload : bytes) : result unit :=
  fail_if negb (expects (bvb_wire_get_u64 payload 0) BVB_OBJECT_BUFFER) ||
          negb (Z.land (bvb_wire_get_u64 payload 8) 3 =? 0) ||
          (bvb_wire_get_u32 payload 16 =? 0) ||
          (BVB_COMMAND_VULKAN_MAX_UPDATE_BUFFER_BYTES <?
             bvb_wire_get_u32 payload 16) ||
          negb (Z.land (bvb_wire_get_u32 payload 16) 3 =? 0) ||
          negb (bvb_wire_get_u32 payload 20 =? 0) with (- EPROTO) ;;
  Ok tt.

(** ** Decoders *)

(** The test of a decoder whose payload has no fixed length. *)
Definition has_valid_length (test : Z -> bool) (record : bvb_command_record) :
    bool :=
  test record.(rec_opcode) &&
  payload_length_is_valid record.(rec_opcode) record.(rec_payload)
    record.(rec_payload_length).

Definition bvb_command_decode_vulkan_init_image_barrier
    (record : ptr bvb_command_record)
    (command : ptr bvb_vulkan_init_image_barrier_command) :
    result bvb_vulkan_init_image_barrier_command :=
  try payload := record_of record
    (is_record BVB_COMMAND_VULKAN_INIT_IMAGE_BARRIER
               BVB_VULKAN_INIT_IMAGE_BARRIER_SIZE) ;;
  deref _ := command or (- EINVAL) ;;
  let image_count := bvb_wire_get_u32 payload 0 in
  Ok {| iib_image_count := image_count;
        iib_image_ids :=
          fill_array image_count (fun index =>
            bvb_wire_get_u64 (payload +! (8 + index * 8)) 0)
            zero_iib.(iib_image_ids) |}.

Definition bvb_command_decode_vulkan_clear_color_image_general
    (record : ptr bvb_command_record)
    (command : ptr bvb_vulkan_clear_color_image_general_command) :
    result bvb_vulkan_clear_color_image_general_command :=
  try payload := record_of record
    (is_record BVB_COMMAND_VULKAN_CLEAR_COLOR_IMAGE_GENERAL
               BVB_VULKAN_CLEAR_COLOR_IMAGE_GENERAL_SIZE) ;;
  deref _ := command or (- EINVAL) ;;
  let range_count := bvb_wire_get_u32 payload 12 in
  Ok {| ccg_image_id := bvb_wire_get_u64 payload 0;
        ccg_image_layout := bvb_wire_get_u32 payload 8;
        ccg_range_count := range_count;
        ccg_color_words := get_words payload 16 4;
        ccg_ranges :=
          fill_array range_count (fun index =>
            decode_image_range
              (payload +! (32 + index * BVB_VULKAN_IMAGE_RANGE_SIZE)) 0)
            zero_ccg.(ccg_ranges) |}.

Definition bvb_command_decode_vulkan_transfer (record : ptr bvb_command_record)
    (command : ptr bvb_vulkan_transfer_command) :
    result bvb_vulkan_transfer_command :=
  try payload := record_of record
    (has_valid_length transfer_opcode_is_valid) ;;
  deref _ := command or (- EINVAL) ;;
  let region_count := bvb_wire_get_u32 payload 28 in
  Ok {| tf_source_id := bvb_wire_get_u64 payload 0;
        tf_destination_id := bvb_wire_get_u64 payload 8;
        tf_source_layout := bvb_wire_get_u32 payload 16;
        tf_destination_layout := bvb_wire_get_u32 payload 20;
        tf_filter := bvb_wire_get_u32 payload 24;
        tf_region_count := region_count;
        tf_regions :=
          fill_array region_count (fun index =>
            decode_transfer_region
              (payload +! (BVB_VULKAN_TRANSFER_HEADER_SIZE +
                           index * BVB_VULKAN_TRANSFER_REGION_SIZE)))
            zero_tf.(tf_regions) |}.

Definition bvb_command_decode_vulkan_clear_depth_stencil_image
    (record : ptr bvb_command_record)
    (command : ptr bvb_vulkan_clear_depth_stencil_image_command) :
    result bvb_vulkan_clear_depth_stencil_image_command :=
  try payload := record_of record
    (is_record BVB_COMMAND_VULKAN_CLEAR_DEPTH_STENCIL_IMAGE
               BVB_VULKAN_CLEAR_DEPTH_STENCIL_IMAGE_SIZE) ;;
  deref _ := command or (- EINVAL) ;;
  let range_count := bvb_wire_get_u32 payload 12 in
  fail_if BVB_COMMAND_VULKAN_MAX_CLEAR_RANGES <? range_count
    with (- EPROTO) ;;
  Ok {| cds_image_id := bvb_wire_get_u64 payload 0;
        cds_image_layout := bvb_wire_get_u32 payload 8;
        cds_range_count := range_count;
        cds_depth_word := bvb_wire_get_u32 payload 16;
        cds_stencil := bvb_wire_get_u32 payload 20;
        cds_ranges :=
          fill_array range_count (fun index =>
            decode_image_range
              (payload +! (24 + index * BVB_VULKAN_IMAGE_RANGE_SIZE)) 0)
            zero_cds.(cds_ranges) |}.

Definition bvb_command_decode_vulkan_clear_attachments
    (record : ptr bvb_command_record)
    (command : ptr bvb_vulkan_clear_attachments_command) :
    result bvb_vulkan_clear_attachments_command :=
  try payload := record_of record
    (is_record BVB_COMMAND_VULKAN_CLEAR_ATTACHMENTS
               BVB_VULKAN_CLEAR_ATTACHMENTS_SIZE) ;;
  deref _ := command or (- EINVAL) ;;
  let attachment_count := bvb_wire_get_u32 payload 0 in
  let rect_count := bvb_wire_get_u32 payload 4 in
  fail_if (BVB_COMMAND_VULKAN_MAX_CLEAR_ATTACHMENTS <? attachment_count) ||
          (BVB_COMMAND_VULKAN_MAX_CLEAR_RECTS <? rect_count) with (- EPROTO) ;;
  let rect_base := 8 + BVB_COMMAND_VULKAN_MAX_CLEAR_ATTACHMENTS *
                         BVB_VULKAN_CLEAR_ATTACHMENT_SIZE in
  Ok {| cas_attachment_count := attachment_count;
        cas_rect_count := rect_count;
        cas_attachments :=
          fill_array attachment_count (fun index =>
            decode_clear_attachment
              (payload +! (8 + index * BVB_VULKAN_CLEAR_ATTACHMENT_SIZE)))
            zero_cas.(cas_attachments);
        cas_rects :=
          fill_array rect_count (fun index =>
            decode_clear_rect
              (payload +! (rect_base + index * BVB_VULKAN_CLEAR_RECT_SIZE)))
            zero_cas.(cas_rects) |}.

Definition bvb_command_decode_vulkan_update_buffer
    (record : ptr bvb_command_record)
    (command : ptr bvb_vulkan_update_buffer_command) :
    result bvb_vulkan_update_buffer_command :=
  try payload := record_of record
    (has_valid_length (Z.eqb BVB_COMMAND_VULKAN_UPDATE_BUFFER)) ;;
  deref _ := command or (- EINVAL) ;;
  let data_size := bvb_wire_get_u32 payload 16 in
  Ok {| ub_buffer_id := bvb_wire_get_u64 payload 0;
        ub_offset := bvb_wire_get_u64 payload 8;
        ub_data_size := data_size;
        ub_data :=
          wr_bytes (blank BVB_COMMAND_VULKAN_MAX_UPDATE_BUFFER_BYTES) 0
            (rd_bytes payload BVB_VULKAN_UPDATE_BUFFER_HEADER_SIZE data_size)
     |}.

(** ** Contracts *)

Definition clear_color_image_general_recorder :
    recorder bvb_vulkan_clear_color_image_general_command :=
  {| rc_opcodes op := op =? BVB_COMMAND_VULKAN_CLEAR_COLOR_IMAGE_GENERAL;
     rc_pre _ := ccg_rep;
     rc_payload _ := clear_color_image_general_payload;
     rc_length _ := BVB_VULKAN_CLEAR_COLOR_IMAGE_GENERAL_SIZE;
     rc_valid _ := valid_clear_color_image_general;
     rc_decode := bvb_command_decode_vulkan_clear_color_image_general;
     rc_norm c :=
       {| ccg_image_id := c.(ccg_image_id);
          ccg_image_layout := c.(ccg_image_layout);
          ccg_range_count := c.(ccg_range_count);
          ccg_color_words := c.(ccg_color_words);
          ccg_ranges := keep c.(ccg_range_count) zero_isr c.(ccg_ranges) |} |}.

Lemma clear_color_image_general_sound :
  payload_is_sound clear_color_image_general_recorder.
Proof.
  intros op v p q Hop Hpre Hp Hb Ha. destruct v. one_opcode Hop.
  begin_sound Hpre Hp Hb Ha. count_bound ccg_range_count.
  open_array ccg_color_words. cbn in Hp. zconst.
  array_ran range_element 32 4 128 4%nat
    (fun i => negb (negb (image_range_is_valid (elt zero_isr ccg_ranges i))))
    ccg_ranges Hp.
  destruct (Hread q) as (He & Hz & Hk); [region_side Ha|].
  header_at Hq q 32 Ha.
  split_and!; [lia|lia|reflexivity| |intros old; open_decode];
    [unfold rc_valid, clear_color_image_general_recorder,
       valid_clear_color_image_general; plain_sizes|];
    extent_read Hq; wire_read; [use_tests|by rewrite <- Hk].
  rewrite (proj2 (for_all_split ccg_range_count 4 _ _ ltac:(lia))); [done|]. split; intros i Hi.
  - rewrite range_wire_valid. zconst. destruct (He i Hi) as (Hv & -> & ->).
    split_tests. by use_tests.
  - by apply range_wire_zero, Hz.
Qed.

Lemma clear_color_image_general_complete :
  payload_is_complete clear_color_image_general_recorder.
Proof.
  intros op q n Hop Hn Hb Hv. one_opcode Hop. begin_complete Hn Hv.
  count_bound (bvb_wire_get_u32 q 12).
  apply for_all_split in Ht0 as [Hv Hz]; [|lia].
  apply complete_intro. eexists. split; [intros; open_decode; reflexivity|].
  destruct (decoded_array range_element (bvb_wire_get_u32 q 12)
    (fun i => q +! (32 + i * 24)) 4) as [Hrep Hkeep]; [lia|].
  split; [split; [solve_rep|cbn; f_equal; exact Hkeep]|].
  encode_again.
  array_runs range_element 32 4 128 4%nat (fun i => negb (negb
    (image_range_is_valid (elt zero_isr (fill_array (bvb_wire_get_u32 q 12)
       (fun i => decode_image_range (q +! (32 + i * 24)) 0)
       (replicate 4 zero_isr)) i)))) q.
  { intros i Hi. specialize (Hv i Hi). rewrite range_wire_valid in Hv. zconst.
    split_tests. rewrite elt_fill_array by lia. by use_tests. }
  { intros i Hi. by apply range_wire_zero, Hz. }
  exists out. split_and!; [done|done|].
  apply (agree_join _ _ 0 32 96); [|exact Hagree].
  eapply agree_trans; [apply Hframe; lia|]. agree_words.
Qed.

#[export] Instance clear_color_image_general_recorded :
  Recorded clear_color_image_general_recorder.
Proof.
  solve_recorded_with clear_color_image_general_sound
    clear_color_image_general_complete.
Qed.

Definition clear_depth_stencil_image_recorder :
    recorder bvb_vulkan_clear_depth_stencil_image_command :=
  {| rc_opcodes op := op =? BVB_COMMAND_VULKAN_CLEAR_DEPTH_STENCIL_IMAGE;
     rc_pre _ := cds_rep;
     rc_payload _ := clear_depth_stencil_image_payload;
     rc_length _ := BVB_VULKAN_CLEAR_DEPTH_STENCIL_IMAGE_SIZE;
     rc_valid _ := valid_clear_depth_stencil_image;
     rc_decode := bvb_command_decode_vulkan_clear_depth_stencil_image;
     rc_norm c :=
       {| cds_image_id := c.(cds_image_id);
          cds_image_layout := c.(cds_image_layout);
          cds_range_count := c.(cds_range_count);
          cds_depth_word := c.(cds_depth_word);
          cds_stencil := c.(cds_stencil);
          cds_ranges := keep c.(cds_range_count) zero_isr c.(cds_ranges) |} |}.

Lemma clear_depth_stencil_image_sound :
  payload_is_sound clear_depth_stencil_image_recorder.
Proof.
  intros op v p q Hop Hpre Hp Hb Ha. destruct v. one_opcode Hop.
  begin_sound Hpre Hp Hb Ha. count_bound cds_range_count.
  array_ran range_element 24 4 120 4%nat
    (fun i => negb (negb (image_range_is_valid (elt zero_isr cds_ranges i)) ||
       negb (outside (elt zero_isr cds_ranges i).(isr_aspect_mask) 6 =? 0)))
    cds_ranges Hp.
  destruct (Hread q) as (He & Hz & Hk); [region_side Ha|].
  header_at Hq q 24 Ha.
  split_and!; [lia|lia|reflexivity| |intros old; open_decode];
    [unfold rc_valid, clear_depth_stencil_image_recorder,
       valid_clear_depth_stencil_image; plain_sizes|];
    extent_read Hq; wire_read; [use_tests|use_tests; by rewrite <- Hk].
  rewrite (proj2 (for_all_split cds_range_count 4 _ _ ltac:(lia))); [done|].
  split; intros i Hi.
  - rewrite range_wire_valid. zconst. destruct (He i Hi) as (Hv & Hd & ->).
    rewrite <- Hd in Hv. cbn in Hv. split_tests. by use_tests.
  - by apply range_wire_zero, Hz.
Qed.

Lemma clear_depth_stencil_image_complete :
  payload_is_complete clear_depth_stencil_image_recorder.
Proof.
  intros op q n Hop Hn Hb Hv. one_opcode Hop. begin_complete Hn Hv.
  count_bound (bvb_wire_get_u32 q 12).
  apply for_all_split in Ht0 as [Hv Hz]; [|lia].
  apply complete_intro. eexists.
  split; [intros; open_decode; use_tests; reflexivity|].
  destruct (decoded_array range_element (bvb_wire_get_u32 q 12)
    (fun i => q +! (24 + i * 24)) 4) as [Hrep Hkeep]; [lia|].
  split; [split; [solve_rep|cbn; f_equal; exact Hkeep]|].
  encode_again.
  set (arr := fill_array (bvb_wire_get_u32 q 12)
       (fun i => decode_image_range (q +! (24 + i * 24)) 0)
       (replicate 4 zero_isr)).
  array_runs range_element 24 4 120 4%nat (fun i =>
    negb (negb (image_range_is_valid (elt zero_isr arr i)) ||
       negb (outside (elt zero_isr arr i).(isr_aspect_mask) 6 =? 0))) q.
  { intros i Hi. specialize (Hv i Hi). rewrite range_wire_valid in Hv. zconst.
    split_tests. unfold arr. rewrite elt_fill_array by lia. cbn. by use_tests. }
  { intros i Hi. by apply range_wire_zero, Hz. }
  exists out. split_and!; [done|done|].
  apply (agree_join _ _ 0 24 96); [|exact Hagree].
  eapply agree_trans; [apply Hframe; lia|]. agree_words.
Qed.

#[export] Instance clear_depth_stencil_image_recorded :
  Recorded clear_depth_stencil_image_recorder.
Proof.
  solve_recorded_with clear_depth_stencil_image_sound
    clear_depth_stencil_image_complete.
Qed.

Definition clear_attachments_recorder :
    recorder bvb_vulkan_clear_attachments_command :=
  {| rc_opcodes op := op =? BVB_COMMAND_VULKAN_CLEAR_ATTACHMENTS;
     rc_pre _ := cas_rep;
     rc_payload _ := clear_attachments_payload;
     rc_length _ := BVB_VULKAN_CLEAR_ATTACHMENTS_SIZE;
     rc_valid _ := valid_clear_attachments;
     rc_decode := bvb_command_decode_vulkan_clear_attachments;
     rc_norm c :=
       {| cas_attachment_count := c.(cas_attachment_count);
          cas_rect_count := c.(cas_rect_count);
          cas_attachments :=
            keep c.(cas_attachment_count) zero_ca c.(cas_attachments);
          cas_rects := keep c.(cas_rect_count) zero_cr c.(cas_rects) |} |}.

Lemma clear_attachments_sound : payload_is_sound clear_attachments_recorder.
Proof.
  intros op v p q Hop Hpre Hp Hb Ha. destruct v. one_opcode Hop.
  begin_sound Hpre Hp Hb Ha. count_bound cas_attachment_count.
  count_bound cas_rect_count.
  destruct (for_loop cas_attachment_count _ _) as [p1|] eqn:Hp1;
    [|discriminate].
  array_ran clear_attachment_element 8 8 392 8%nat
    (fun i => negb (((elt zero_ca cas_attachments i).(ca_aspect_mask) =? 0) ||
       negb (outside (elt zero_ca cas_attachments i).(ca_aspect_mask) 7 =? 0)))
    cas_attachments Hp1.
  array_ran clear_rect_element 200 8 392 8%nat
    (fun i => negb (((elt zero_cr cas_rects i).(cr_width) =? 0) ||
       ((elt zero_cr cas_rects i).(cr_height) =? 0) ||
       ((elt zero_cr cas_rects i).(cr_layer_count) =? 0)))
    cas_rects Hp.
  destruct (Hread q) as (He & Hz & Hk); [region_side Ha|].
  destruct (Hread0 q) as (He' & Hz' & Hk'); [region_side Ha|].
  header_at Hq q 8 Ha.
  split_and!; [lia|lia|reflexivity| |intros old; open_decode];
    [unfold rc_valid, clear_attachments_recorder, valid_clear_attachments;
     plain_sizes|];
    extent_read Hq; wire_read; use_tests; [|by rewrite <- Hk, <- Hk'].
  rewrite (proj2 (for_all_split cas_attachment_count 8 _ _ ltac:(lia))).
  { cbn [negb]. rewrite (proj2 (for_all_split cas_rect_count 8 _ _ ltac:(lia)));
      [done|]. split; intros i Hi; [|by apply bytes_are_zero_cleared, Hz'].
    destruct (He' i Hi) as (Hv & Hd & _). by rewrite <- Hd in Hv. }
  split; intros i Hi; [|by apply bytes_are_zero_cleared, Hz].
  destruct (He i Hi) as (Hv & Hd & _). by rewrite <- Hd in Hv.
Qed.

Lemma clear_attachments_complete :
  payload_is_complete clear_attachments_recorder.
Proof.
  intros op q n Hop Hn Hb Hv. one_opcode Hop. begin_complete Hn Hv.
  count_bound (bvb_wire_get_u32 q 0). count_bound (bvb_wire_get_u32 q 4).
  apply for_all_split in Ht0 as [Hv Hz]; [|lia].
  apply for_all_split in Ht1 as [Hv' Hz']; [|lia].
  apply complete_intro. eexists.
  split; [intros; open_decode; use_tests; reflexivity|].
  destruct (decoded_array clear_attachment_element (bvb_wire_get_u32 q 0)
    (fun i => q +! (8 + i * 24)) 8) as [Hrep Hkeep]; [lia|].
  destruct (decoded_array clear_rect_element (bvb_wire_get_u32 q 4)
    (fun i => q +! (200 + i * 24)) 8) as [Hrep' Hkeep']; [lia|].
  split; [split; [solve_rep|cbn; f_equal; assumption]|].
  encode_again.
  set (arr := fill_array (bvb_wire_get_u32 q 0)
       (fun i => decode_clear_attachment (q +! (8 + i * 24)))
       (replicate 8 zero_ca)).
  set (arr' := fill_array (bvb_wire_get_u32 q 4)
       (fun i => decode_clear_rect (q +! (200 + i * 24)))
       (replicate 8 zero_cr)).
  array_runs clear_attachment_element 8 8 392 8%nat
    (fun i => negb (((elt zero_ca arr i).(ca_aspect_mask) =? 0) ||
       negb (outside (elt zero_ca arr i).(ca_aspect_mask) 7 =? 0))) q.
  { intros i Hi. specialize (Hv i Hi). unfold arr.
    rewrite elt_fill_array by lia. by split. }
  { intros i Hi. by apply bytes_are_zero_cleared, Hz. }
  array_runs clear_rect_element 200 8 392 8%nat
    (fun i => negb (((elt zero_cr arr' i).(cr_width) =? 0) ||
       ((elt zero_cr arr' i).(cr_height) =? 0) ||
       ((elt zero_cr arr' i).(cr_layer_count) =? 0))) q.
  { intros i Hi. specialize (Hv' i Hi). unfold arr'.
    rewrite elt_fill_array by lia. by split. }
  { intros i Hi. by apply bytes_are_zero_cleared, Hz'. }
  exists out0. split_and!; [done|done|].
  apply (agree_join _ _ 0 200 192); [|done].
  eapply agree_trans; [apply Hframe0; lia|].
  apply (agree_join _ _ 0 8 192); [|done].
  eapply agree_trans; [apply Hframe; lia|]. agree_words.
Qed.

#[export] Instance clear_attachments_recorded :
  Recorded clear_attachments_recorder.
Proof.
  solve_recorded_with clear_attachments_sound clear_attachments_complete.
Qed.

Definition init_image_barrier_recorder :
    recorder bvb_vulkan_init_image_barrier_command :=
  {| rc_opcodes op := op =? BVB_COMMAND_VULKAN_INIT_IMAGE_BARRIER;
     rc_pre _ := iib_rep;
     rc_payload _ := init_image_barrier_payload;
     rc_length _ := BVB_VULKAN_INIT_IMAGE_BARRIER_SIZE;
     rc_valid _ := valid_init_image_barrier;
     rc_decode := bvb_command_decode_vulkan_init_image_barrier;
     rc_norm c :=
       {| iib_image_count := c.(iib_image_count);
          iib_image_ids := keep c.(iib_image_count) 0 c.(iib_image_ids) |} |}.

(** An identifier the loop accepts: an image, and no earlier one. *)
Definition fresh_image (ids : Z -> Z) (i : Z) : bool :=
  negb (negb (expects (ids i) BVB_OBJECT_IMAGE)) &&
  negb (negb (for_all i (fun earlier => negb (ids earlier =? ids i)))).

Lemma fresh_image_ext count ids ids' i :
  0 <= i < count -> (forall j, 0 <= j < count -> ids j = ids' j) ->
  fresh_image ids i =
  expects (ids' i) BVB_OBJECT_IMAGE &&
  for_all i (fun earlier => negb (ids' i =? ids' earlier)).
Proof.
  intros Hi H. unfold fresh_image. rewrite !negb_involutive, H by done.
  f_equal. apply for_all_ext. intros j Hj. rewrite H by lia. by rewrite Z.eqb_sym.
Qed.

Lemma init_image_barrier_sound :
  payload_is_sound init_image_barrier_recorder.
Proof.
  intros op v p q Hop Hpre Hp Hb Ha. destruct v. one_opcode Hop.
  begin_sound Hpre Hp Hb Ha. count_bound iib_image_count.
  array_ran u64_element 8 4 40 4%nat (fresh_image (elt 0 iib_image_ids))
    iib_image_ids Hp.
  destruct (Hread q) as (He & Hz & Hk); [region_side Ha|].
  header_at Hq q 8 Ha.
  split_and!; [lia|lia|reflexivity| |intros old; open_decode];
    [unfold rc_valid, init_image_barrier_recorder, valid_init_image_barrier;
     plain_sizes|];
    extent_read Hq; wire_read; rewrite ?get_u32_blank; use_tests;
    [|by rewrite <- Hk].
  rewrite for_all_unused.
  rewrite (proj2 (for_all_split iib_image_count 4 _ _ ltac:(lia))); [done|].
  split; intros i Hi.
  - destruct (He i Hi) as (Hv & Hd & _).
    rewrite (fresh_image_ext iib_image_count _
               (fun j => bvb_wire_get_u64 (q +! (8 + j * 8)) 0)) in Hv by
      first [exact Hi | intros j Hj; symmetry; apply (He j Hj)]. done.
  - rewrite (get_u64_agree _ (blank 8)) by (apply Hz; lia).
    by rewrite get_u64_blank.
Qed.

Lemma init_image_barrier_complete :
  payload_is_complete init_image_barrier_recorder.
Proof.
  intros op q n Hop Hn Hb Hv. one_opcode Hop. begin_complete Hn Hv.
  count_bound (bvb_wire_get_u32 q 0). rewrite for_all_unused in Ht0.
  apply for_all_split in Ht0 as [Hv Hz]; [|lia].
  apply complete_intro. eexists. split; [intros; open_decode; reflexivity|].
  destruct (decoded_array u64_element (bvb_wire_get_u32 q 0)
    (fun i => q +! (8 + i * 8)) 4) as [Hrep Hkeep]; [lia|].
  split; [split; [solve_rep|cbn; f_equal; assumption]|].
  encode_again.
  set (arr := fill_array (bvb_wire_get_u32 q 0)
       (fun i => bvb_wire_get_u64 (q +! (8 + i * 8)) 0) (replicate 4 0)).
  array_runs u64_element 8 4 40 4%nat (fresh_image (elt 0 arr)) q.
  { intros i Hi. split; [|done].
    rewrite (fresh_image_ext (bvb_wire_get_u32 q 0) _
               (fun j => bvb_wire_get_u64 (q +! (8 + j * 8)) 0)); [|done|].
    - by apply Hv.
    - intros j Hj. unfold arr. by rewrite elt_fill_array by lia. }
  { intros i Hi. specialize (Hz i Hi). apply Z.eqb_eq in Hz.
    apply get_u64_rd8. by rewrite get_u64_blank. }
  exists out. split_and!; [done|done|].
  apply (agree_join _ _ 0 8 32); [|done].
  eapply agree_trans; [apply Hframe; lia|]. agree_words.
Qed.

#[export] Instance init_image_barrier_recorded :
  Recorded init_image_barrier_recorder.
Proof.
  solve_recorded_with init_image_barrier_sound init_image_barrier_complete.
Qed.

(** A transfer of any kind but a blit is sent without a filter; see
    [transfer_filter_is_not_checked]. *)
Definition transfer_recorder : recorder bvb_vulkan_transfer_command :=
  {| rc_opcodes := transfer_opcode_is_valid;
     rc_pre op c :=
       tf_rep c && ((op =? BVB_COMMAND_VULKAN_BLIT_IMAGE_2) ||
                    (c.(tf_filter) =? 0));
     rc_payload := transfer_payload;
     rc_length c := transfer_payload_size c.(tf_region_count);
     rc_valid := valid_transfer;
     rc_decode := bvb_command_decode_vulkan_transfer;
     rc_norm c :=
       {| tf_source_id := c.(tf_source_id);
          tf_destination_id := c.(tf_destination_id);
          tf_source_layout := c.(tf_source_layout);
          tf_destination_layout := c.(tf_destination_layout);
          tf_filter := c.(tf_filter);
          tf_region_count := c.(tf_region_count);
          tf_regions := keep c.(tf_region_count) zero_tr c.(tf_regions) |} |}.

Lemma transfer_length op q n :
  transfer_opcode_is_valid op = true ->
  payload_length_is_valid op (Some q) n = true <->
  32 <= n /\ 0 < bvb_wire_get_u32 q 28 <= 16 /\
  n = transfer_payload_size (bvb_wire_get_u32 q 28).
Proof.
  intros Hop. count_bound (bvb_wire_get_u32 q 28).
  assert (Hop' : op = 14 \/ op = 15 \/ op = 16 \/ op = 17 \/ op = 18 \/ op = 19)
    by (unfold transfer_opcode_is_valid in Hop; lia).
  assert (E : payload_length_is_valid op (Some q) n =
    if n <? 32 then false else
    negb (bvb_wire_get_u32 q 28 =? 0) && (bvb_wire_get_u32 q 28 <=? 16) &&
    (n =? transfer_payload_size (bvb_wire_get_u32 q 28)))
    by (destruct Hop' as [-> | [-> | [-> | [-> | [-> | ->]]]]]; reflexivity).
  rewrite E. destruct (Z.ltb_spec n 32); lia.
Qed.

Lemma transfer_payload_size_eq count :
  0 <= count <= 16 -> transfer_payload_size count = 32 + count * 128.
Proof. intros. unfold transfer_payload_size, u32. plain_sizes. apply Z.mod_small. lia. Qed.

Lemma layers_valid l :
  negb (transfer_layers_are_valid l) =
  (l.(isl_aspect_mask) =? 0) || (l.(isl_layer_count) =? 0).
Proof.
  unfold transfer_layers_are_valid. by rewrite negb_andb, !negb_involutive.
Qed.

Lemma region_wire_valid op p :
  region_wire_is_valid op p =
  region_is_valid op (decode_transfer_region p) &&
  (bvb_wire_get_u32 p 124 =? 0).
Proof.
  unfold region_wire_is_valid, region_is_valid. rewrite !layers_valid. cbn. zconst.
  by rewrite (negb_orb _ (negb (bvb_wire_get_u32 p 124 =? 0))), negb_involutive.
Qed.

Lemma transfer_sound : payload_is_sound transfer_recorder.
Proof.
  intros op v p q Hop Hpre Hp Hb Ha. destruct v. cbn in Hop.
  cbn in Hpre, Hp, Hb, Ha |- *. unfold transfer_payload in Hp.
  rewrite Hop in Hp. cbn in Hp. plain_sizes. rewrite memset0_blank in Hp by lia.
  unfold tf_rep in Hpre. cbn in Hpre. split_tests. guards Hp. split_tests.
  count_bound tf_region_count. rewrite transfer_payload_size_eq in * by lia.
  array_ran region_element 32 tf_region_count 2080 16%nat
    (fun i => negb (negb (region_is_valid op (elt zero_tr tf_regions i))))
    tf_regions Hp.
  destruct (Hread q) as (He & _ & Hk); [region_side Ha|].
  header_at Hq q 32 Ha.
  assert (Hlen1 : payload_length_is_valid op (Some q)
                    (32 + tf_region_count * 128) = true).
  { apply transfer_length; [done|]. extent_read Hq. wire_read.
    rewrite transfer_payload_size_eq; lia. }
  split_and!; [lia|lia|done| |intros old; open_decode;
    unfold has_valid_length; cbn; rewrite Hlen1, Hop; cbn];
    [unfold valid_transfer; plain_sizes|];
    extent_read Hq; wire_read; use_tests; [|by rewrite <- Hk].
  assert (Hf : negb (op =? 18) && negb (tf_filter =? 0) = false) by lia.
  rewrite Hf. cbn. rewrite (proj2 (for_all_spec _ _)); [done|]. intros i Hi.
  rewrite region_wire_valid. destruct (He i Hi) as (Hv & -> & ->).
  split_tests. by use_tests.
Qed.

(** The filter is sent as it is. *)
Lemma transfer_filter_word op c p :
  transfer_opcode_is_valid op = true -> tf_rep c = true ->
  transfer_payload op (Some c) = Ok p -> bvb_wire_get_u32 p 24 = c.(tf_filter).
Proof.
  intros Hop Hpre Hp. destruct c. unfold transfer_payload in Hp.
  rewrite Hop in Hp. cbn in Hp. plain_sizes. rewrite memset0_blank in Hp by lia.
  unfold tf_rep in Hpre. cbn in Hpre. split_tests. guards Hp. split_tests.
  count_bound tf_region_count.
  array_ran region_element 32 tf_region_count 2080 16%nat
    (fun i => negb (negb (region_is_valid op (elt zero_tr tf_regions i))))
    tf_regions Hp.
  erewrite get_u32_agree; [|apply Hframe; lia]. cbn. by wire_read.
Qed.

Lemma transfer_complete : payload_is_complete transfer_recorder.
Proof.
  intros op q n Hop Hn Hb Hv. cbn in Hop. pose proof Hn as Hn'.
  apply transfer_length in Hn as (Hn & Hc & ->); [|done].
  rewrite transfer_payload_size_eq in * by lia. cbn in Hv.
  unfold valid_transfer in Hv. cbv zeta in Hv. plain_sizes. guards Hv. clear Hv.
  split_tests. rewrite for_all_spec in Ht0.
  assert (Hv : forall i, 0 <= i < bvb_wire_get_u32 q 28 ->
    region_is_valid op (decode_transfer_region (q +! (32 + i * 128))) = true /\
    (bvb_wire_get_u32 (q +! (32 + i * 128)) 124 =? 0) = true).
  { intros i Hi. specialize (Ht0 i Hi). rewrite region_wire_valid in Ht0.
    by split_tests. }
  apply complete_intro. eexists.
  split; [intros; open_decode; unfold has_valid_length; cbn;
          rewrite Hop, Hn'; reflexivity|].
  destruct (decoded_array region_element (bvb_wire_get_u32 q 28)
    (fun i => q +! (32 + i * 128)) 16) as [Hrep Hkeep]; [lia|].
  split; [split; [|cbn; f_equal; exact Hkeep]|].
  { cbn. apply andb_true_intro. split; [solve_rep|]. cbn. lia. }
  encode_again. rewrite transfer_payload_size_eq by lia.
  unfold transfer_payload. rewrite Hop. encode_again.
  set (arr := fill_array (bvb_wire_get_u32 q 28)
       (fun i => decode_transfer_region (q +! (32 + i * 128)))
       (replicate 16 zero_tr)).
  array_runs region_element 32 (bvb_wire_get_u32 q 28) 2080 16%nat
    (fun i => negb (negb (region_is_valid op (elt zero_tr arr i)))) q.
  { intros i Hi. unfold arr. rewrite elt_fill_array by lia.
    destruct (Hv i Hi) as [-> Hz]. by split. }
  { intros i Hi. lia. }
  exists out. split_and!; [done|done|].
  apply (agree_step _ _ 0 32); [|cbn; eapply agree_sub; [exact Hagree|lia|lia]].
  eapply agree_trans; [apply Hframe; lia|]. agree_words.
Qed.

#[export] Instance transfer_recorded : Recorded transfer_recorder.
Proof.
  constructor; [|solve_payload_null|solve_payload_error|solve_valid_error
    |exact transfer_sound|exact transfer_complete].
  cbn. unfold transfer_opcode_is_valid, is_u16. intros. lia.
Qed.

#[local] Arguments payload_length_is_valid : simpl never.

(** The bytes a size covers, over zeroes. *)
Definition keep_bytes (capacity size : Z) (data : bytes) : bytes :=
  wr_bytes (blank capacity) 0 (rd_bytes data 0 size).

Lemma rd_bytes_keep capacity size data :
  0 <= size <= capacity -> size <= blen data ->
  rd_bytes (keep_bytes capacity size data) 0 size = rd_bytes data 0 size.
Proof.
  intros. unfold keep_bytes.
  pose proof (blen_rd_bytes data 0 size ltac:(lia) ltac:(lia) ltac:(lia)) as Hl.
  apply rd_bytes_wr_bytes; rewrite ?blen_blank; lia.
Qed.

(** What a payload with [size] bytes after its header says of them. *)
Lemma inline_bytes h q data size n :
  0 < size <= blen data -> 24 + size <= n -> n <= blen q -> n <= blen h ->
  agree q (wr_bytes h 24 (rd_bytes data 0 size)) 0 n ->
  agree q h 0 24 /\ rd_bytes q 24 size = rd_bytes data 0 size.
Proof.
  intros Hs Hn Hq Hh Ha.
  assert (Hl : blen (rd_bytes data 0 size) = size) by (apply blen_rd_bytes; lia).
  split.
  - eapply agree_trans; [read_region Ha|]. apply agree_wr_bytes.
    unfold disjoint. lia.
  - rewrite (rd_bytes_agree q (wr_bytes h 24 (rd_bytes data 0 size)));
      [apply rd_bytes_wr_bytes; lia|lia|lia|lia|autorewrite with blen; lia|].
    read_region Ha.
Qed.

Definition update_buffer_recorder : recorder bvb_vulkan_update_buffer_command :=
  {| rc_opcodes op := op =? BVB_COMMAND_VULKAN_UPDATE_BUFFER;
     rc_pre _ := ub_rep;
     rc_payload _ := update_buffer_payload;
     rc_length c := BVB_VULKAN_UPDATE_BUFFER_HEADER_SIZE + c.(ub_data_size);
     rc_valid _ := valid_update_buffer;
     rc_decode := bvb_command_decode_vulkan_update_buffer;
     rc_norm c :=
       {| ub_buffer_id := c.(ub_buffer_id);
          ub_offset := c.(ub_offset);
          ub_data_size := c.(ub_data_size);
          ub_data := keep_bytes BVB_COMMAND_VULKAN_MAX_UPDATE_BUFFER_BYTES
                       c.(ub_data_size) c.(ub_data) |} |}.

Lemma update_length q n :
  payload_length_is_valid BVB_COMMAND_VULKAN_UPDATE_BUFFER (Some q) n = true <->
  24 <= n /\ 0 < bvb_wire_get_u32 q 16 <= 65536 /\
  (Z.land (bvb_wire_get_u32 q 16) 3 =? 0) = true /\
  n = 24 + bvb_wire_get_u32 q 16.
Proof.
  count_bound (bvb_wire_get_u32 q 16). unfold payload_length_is_valid. cbn.
  plain_sizes. destruct (Z.ltb_spec n 24); lia.
Qed.

Lemma update_buffer_sound : payload_is_sound update_buffer_recorder.
Proof.
  intros op v p q Hop Hpre Hp Hb Ha. destruct v. one_opcode Hop.
  begin_sound Hpre Hp Hb Ha. injection Hp as <-. count_bound ub_data_size.
  match type of Ha with agree _ (wr_bytes ?hdr _ _) _ _ => set (h := hdr) in * end.
  assert (Hh : blen h = 65560) by (unfold h; header_side).
  destruct (inline_bytes h q ub_data ub_data_size (24 + ub_data_size))
    as [Hq Hd]; [lia..|exact Ha|].
  unfold h in Hq.
  assert (Hlen1 : payload_length_is_valid 36 (Some q) (24 + ub_data_size) = true).
  { apply update_length. extent_read Hq. wire_read.
    refine (conj _ (conj (conj _ _) (conj _ _))); lia || assumption. }
  split_and!; [lia|autorewrite with blen; lia|done| |intros old; open_decode;
    unfold has_valid_length; cbn; rewrite Hlen1; cbn];
    [unfold rc_valid, update_buffer_recorder, valid_update_buffer; plain_sizes|];
    extent_read Hq; wire_read; use_tests; [done|by rewrite Hd].
Qed.

Lemma update_buffer_complete : payload_is_complete update_buffer_recorder.
Proof.
  intros op q n Hop Hn Hb Hv. one_opcode Hop. pose proof Hn as Hn'.
  apply update_length in Hn as (Hn & Hc & Hland & ->).
  cbn in Hv. unfold valid_update_buffer in Hv. plain_sizes. guards Hv. clear Hv.
  split_tests.
  apply complete_intro. eexists.
  split; [intros; open_decode; unfold has_valid_length; cbn;
          rewrite Hn'; reflexivity|].
  assert (Hl : blen (rd_bytes q 24 (bvb_wire_get_u32 q 16)) =
               bvb_wire_get_u32 q 16) by (apply blen_rd_bytes; lia).
  assert (Hd : rd_bytes (wr_bytes (blank 65536) 0
                 (rd_bytes q 24 (bvb_wire_get_u32 q 16))) 0
                 (bvb_wire_get_u32 q 16) =
               rd_bytes q 24 (bvb_wire_get_u32 q 16)).
  { apply rd_bytes_wr_bytes; rewrite ?blen_blank; lia. }
  split; [split|].
  - cbn. open_rep_goal. rewrite ?get_u32_range, ?get_u64_range. cbn.
    autorewrite with blen. by rewrite blen_blank by lia.
  - cbn. f_equal. unfold keep_bytes. by rewrite Hd.
  - encode_again. eexists. split_and!; [done|done|]. rewrite Hd.
    apply (agree_step _ _ 0 24).
    + eapply agree_trans; [apply agree_wr_bytes; unfold disjoint; lia|].
      agree_words.
    + intros k Hk. rewrite rd8_wr_bytes_in; [|lia| |lia].
      * rewrite rd_bytes_lookup by lia. f_equal. lia.
      * header_side.
Qed.

#[export] Instance update_buffer_recorded : Recorded update_buffer_recorder.
Proof.
  solve_recorded_with update_buffer_sound update_buffer_complete.
Qed.
