(* ===== verification/CommandBarrier.v ===== *)
(** * CommandBarrier: the pipeline barrier of memory, buffers and images

    [bvb_command_batch_append_vulkan_image_barrier_2] of src/command_batch.c,
    its case of [validate_payload] and its decoder.  The payload holds three
    counted arrays one after the other and is as long as the counts make
    it. *)

From S2P Require Import Prelude Wire Codec Window Element CommandTypes CommandBase CommandElements CommandArrays CommandTransfer.

(** ** Encoder, validator and decoder *)

Definition image_barrier_2_payload
    (command : ptr bvb_vulkan_image_barrier_2_command) : result bytes :=
  deref command := command or (- EINVAL) ;;
  fail_if negb (outside command.(ib2_dependency_flags) 0x6f =? 0) ||
          (BVB_COMMAND_VULKAN_MAX_MEMORY_BARRIERS <?
             command.(ib2_memory_count)) ||
          (BVB_COMMAND_VULKAN_MAX_BUFFER_BARRIERS <?
             command.(ib2_buffer_count)) ||
          (BVB_COMMAND_VULKAN_MAX_IMAGE_BARRIERS <? command.(ib2_image_count))
    with (- EINVAL) ;;
  let payload := memset0 (blank BVB_VULKAN_IMAGE_BARRIER_2_MAX_SIZE) 0
                   BVB_VULKAN_IMAGE_BARRIER_2_MAX_SIZE in
  let payload := bvb_wire_put_u32 payload 0 command.(ib2_dependency_flags) in
  let payload := bvb_wire_put_u32 payload 4 command.(ib2_memory_count) in
  let payload := bvb_wire_put_u32 payload 8 command.(ib2_buffer_count) in
  let payload := bvb_wire_put_u32 payload 12 command.(ib2_image_count) in
  let base := BVB_VULKAN_IMAGE_BARRIER_2_HEADER_SIZE in
  try payload := for_loop command.(ib2_memory_count) (fun index payload =>
    let barrier := elt zero_mmb command.(ib2_memory) index in
    Ok (write_window payload
          (base + index * BVB_VULKAN_MEMORY_BARRIER_2_RECORD_SIZE)
          BVB_VULKAN_MEMORY_BARRIER_2_RECORD_SIZE
          (fun record => encode_memory_barrier record barrier))) payload ;;
  let base := base + command.(ib2_memory_count) *
                       BVB_VULKAN_MEMORY_BARRIER_2_RECORD_SIZE in
  try payload := for_loop command.(ib2_buffer_count) (fun index payload =>
    let barrier := elt zero_bfb command.(ib2_buffers) index in
    fail_if negb (expects barrier.(bfb_buffer_id) BVB_OBJECT_BUFFER) ||
            (barrier.(bfb_size) =? 0) with (- EINVAL) ;;
    Ok (write_window payload
          (base + index * BVB_VULKAN_BUFFER_BARRIER_2_RECORD_SIZE)
          BVB_VULKAN_BUFFER_BARRIER_2_RECORD_SIZE
          (fun record => encode_buffer_barrier record barrier))) payload ;;
  let base := base + command.(ib2_buffer_count) *
                       BVB_VULKAN_BUFFER_BARRIER_2_RECORD_SIZE in
  for_loop command.(ib2_image_count) (fun index payload =>
    let barrier := elt zero_imb command.(ib2_images) index in
    fail_if negb (expects barrier.(imb_image_id) BVB_OBJECT_IMAGE) ||
            negb (image_range_is_valid barrier.(imb_range)) with (- EINVAL) ;;
    Ok (write_window payload
          (base + index * BVB_VULKAN_IMAGE_BARRIER_2_RECORD_SIZE)
          BVB_VULKAN_IMAGE_BARRIER_2_RECORD_SIZE
          (fun record => encode_image_barrier record barrier))) payload.

Definition valid_image_barrier_2 (payload : bytes) : result unit :=
  let memory_count := bvb_wire_get_u32 payload 4 in
  let buffer_count := bvb_wire_get_u32 payload 8 in
  let image_count := bvb_wire_get_u32 payload 12 in
  fail_if negb (outside (bvb_wire_get_u32 payload 0) 0x6f =? 0) ||
          (BVB_COMMAND_VULKAN_MAX_MEMORY_BARRIERS <? memory_count) ||
          (BVB_COMMAND_VULKAN_MAX_BUFFER_BARRIERS <? buffer_count) ||
          (BVB_COMMAND_VULKAN_MAX_IMAGE_BARRIERS <? image_count)
    with (- EPROTO) ;;
  let base := BVB_VULKAN_IMAGE_BARRIER_2_HEADER_SIZE in
  let base := base + memory_count * BVB_VULKAN_MEMORY_BARRIER_2_RECORD_SIZE in
  fail_if negb (for_all buffer_count (fun index =>
      let barrier :=
        payload +! (base + index * BVB_VULKAN_BUFFER_BARRIER_2_RECORD_SIZE) in
      negb (negb (expects (bvb_wire_get_u64 barrier 40) BVB_OBJECT_BUFFER) ||
            (bvb_wire_get_u64 barrier 56 =? 0)))) with (- EPROTO) ;;
  let base := base + buffer_count * BVB_VULKAN_BUFFER_BARRIER_2_RECORD_SIZE in
  fail_if negb (for_all image_count (fun index =>
      let barrier :=
        payload +! (base + index * BVB_VULKAN_IMAGE_BARRIER_2_RECORD_SIZE) in
      negb (negb (expects (bvb_wire_get_u64 barrier 48) BVB_OBJECT_IMAGE) ||
            negb (is_ok (validate_image_range_wire barrier 56)))))
    with (- EPROTO) ;;
  Ok tt.

Definition bvb_command_decode_vulkan_image_barrier_2
    (record : ptr bvb_command_record)
    (command : ptr bvb_vulkan_image_barrier_2_command) :
    result bvb_vulkan_image_barrier_2_command :=
  try payload := record_of record
    (has_valid_length (Z.eqb BVB_COMMAND_VULKAN_IMAGE_BARRIER_2)) ;;
  deref _ := command or (- EINVAL) ;;
  let memory_count := bvb_wire_get_u32 payload 4 in
  let buffer_count := bvb_wire_get_u32 payload 8 in
  let image_count := bvb_wire_get_u32 payload 12 in
  let base := BVB_VULKAN_IMAGE_BARRIER_2_HEADER_SIZE in
  let memory := fill_array memory_count (fun index =>
    decode_memory_barrier (payload +!
      (base + index * BVB_VULKAN_MEMORY_BARRIER_2_RECORD_SIZE)))
    zero_ib2.(ib2_memory) in
  let base := base + memory_count * BVB_VULKAN_MEMORY_BARRIER_2_RECORD_SIZE in
  let buffers := fill_array buffer_count (fun index =>
    decode_buffer_barrier (payload +!
      (base + index * BVB_VULKAN_BUFFER_BARRIER_2_RECORD_SIZE)))
    zero_ib2.(ib2_buffers) in
  let base := base + buffer_count * BVB_VULKAN_BUFFER_BARRIER_2_RECORD_SIZE in
  let images := fill_array image_count (fun index =>
    decode_image_barrier (payload +!
      (base + index * BVB_VULKAN_IMAGE_BARRIER_2_RECORD_SIZE)))
    zero_ib2.(ib2_images) in
  Ok {| ib2_dependency_flags := bvb_wire_get_u32 payload 0;
        ib2_memory_count := memory_count;
        ib2_buffer_count := buffer_count;
        ib2_image_count := image_count;
        ib2_memory := memory; ib2_buffers := buffers; ib2_images := images |}.

(** ** Contract *)

#[local] Arguments payload_length_is_valid : simpl never.

Definition image_barrier_2_recorder :
    recorder bvb_vulkan_image_barrier_2_command :=
  {| rc_opcodes op := op =? BVB_COMMAND_VULKAN_IMAGE_BARRIER_2;
     rc_pre _ := ib2_rep;
     rc_payload _ := image_barrier_2_payload;
     rc_length c :=
       barrier_payload_size c.(ib2_memory_count) c.(ib2_buffer_count)
         c.(ib2_image_count);
     rc_valid _ := valid_image_barrier_2;
     rc_decode := bvb_command_decode_vulkan_image_barrier_2;
     rc_norm c :=
       {| ib2_dependency_flags := c.(ib2_dependency_flags);
          ib2_memory_count := c.(ib2_memory_count);
          ib2_buffer_count := c.(ib2_buffer_count);
          ib2_image_count := c.(ib2_image_count);
          ib2_memory := keep c.(ib2_memory_count) zero_mmb c.(ib2_memory);
          ib2_buffers := keep c.(ib2_buffer_count) zero_bfb c.(ib2_buffers);
          ib2_images := keep c.(ib2_image_count) zero_imb c.(ib2_images) |} |}.

#[local] Arguments zero_ib2 : simpl never.
#[local] Arguments Z.of_nat : simpl never.

Lemma barrier_payload_size_eq m b i :
  0 <= m <= 64 -> 0 <= b <= 256 -> 0 <= i <= 2048 ->
  barrier_payload_size m b i = 16 + m * 32 + b * 64 + i * 80.
Proof.
  intros. unfold barrier_payload_size, u32. plain_sizes. apply Z.mod_small. lia.
Qed.

Lemma barrier_length q n :
  payload_length_is_valid BVB_COMMAND_VULKAN_IMAGE_BARRIER_2 (Some q) n = true <->
  16 <= n /\
  (bvb_wire_get_u32 q 4 <= 64 /\ bvb_wire_get_u32 q 8 <= 256 /\
   bvb_wire_get_u32 q 12 <= 2048) /\
  n = barrier_payload_size (bvb_wire_get_u32 q 4) (bvb_wire_get_u32 q 8)
        (bvb_wire_get_u32 q 12).
Proof.
  unfold payload_length_is_valid. cbn -[Z.leb Z.ltb Z.eqb]. plain_sizes.
  change (10 =? 10) with true. cbn -[Z.leb Z.ltb Z.eqb].
  destruct (Z.ltb_spec n 16); lia.
Qed.

(** The validator's tests of one barrier, on the decoded structure. *)
Definition buffer_barrier_ok (b : bvb_vulkan_buffer_barrier_2) : bool :=
  negb (negb (expects b.(bfb_buffer_id) BVB_OBJECT_BUFFER) ||
        (b.(bfb_size) =? 0)).
Definition image_barrier_ok (b : bvb_vulkan_image_barrier_2) : bool :=
  negb (negb (expects b.(imb_image_id) BVB_OBJECT_IMAGE) ||
        negb (image_range_is_valid b.(imb_range))).

Lemma image_barrier_wire p :
  negb (negb (expects (bvb_wire_get_u64 p 48) BVB_OBJECT_IMAGE) ||
        negb (is_ok (validate_image_range_wire p 56))) =
  image_barrier_ok (decode_image_barrier p) && (bvb_wire_get_u32 p 76 =? 0).
Proof.
  rewrite range_wire_valid. unfold image_barrier_ok. cbn. zconst.
  by rewrite !negb_orb, !negb_involutive, andb_assoc.
Qed.

Lemma image_barrier_2_sound : payload_is_sound image_barrier_2_recorder.
Proof.
  intros op v p q Hop Hpre Hp Hb Ha. destruct v. one_opcode Hop.
  begin_sound Hpre Hp Hb Ha. count_bound ib2_memory_count.
  count_bound ib2_buffer_count. count_bound ib2_image_count.
  rewrite barrier_payload_size_eq in * by lia.
  destruct (for_loop ib2_memory_count _ _) as [p1|] eqn:Hp1; [|discriminate].
  destruct (for_loop ib2_buffer_count _ _) as [p2|] eqn:Hp2; [|discriminate].
  array_ran memory_barrier_element 16 ib2_memory_count 182288 (Z.to_nat 64)
    (fun _ : Z => true) ib2_memory Hp1.
  array_ran buffer_barrier_element (16 + ib2_memory_count * 32)
    ib2_buffer_count 182288 (Z.to_nat 256)
    (fun i => buffer_barrier_ok (elt zero_bfb ib2_buffers i)) ib2_buffers Hp2.
  array_ran image_barrier_element
    (16 + ib2_memory_count * 32 + ib2_buffer_count * 64)
    ib2_image_count 182288 (Z.to_nat 2048)
    (fun i => image_barrier_ok (elt zero_imb ib2_images i)) ib2_images Hp.
  destruct (Hread q) as (_ & _ & Hk); [region_side Ha|].
  destruct (Hread0 q) as (He1 & _ & Hk1); [region_side Ha|].
  destruct (Hread1 q) as (He2 & _ & Hk2); [region_side Ha|].
  header_at Hq q 16 Ha.
  assert (Hlen5 : payload_length_is_valid 10 (Some q)
    (16 + ib2_memory_count * 32 + ib2_buffer_count * 64 +
     ib2_image_count * 80) = true).
  { apply barrier_length. extent_read Hq. wire_read.
    rewrite barrier_payload_size_eq; lia. }
  split_and!; [lia|lia|done| |intros old; open_decode;
    unfold has_valid_length; cbn; rewrite Hlen5; cbn];
    [unfold rc_valid, image_barrier_2_recorder, valid_image_barrier_2;
     plain_sizes|];
    extent_read Hq; wire_read; use_tests; [|by rewrite <- Hk, <- Hk1, <- Hk2].
  rewrite (proj2 (for_all_spec ib2_buffer_count _)).
  { cbn [negb]. rewrite (proj2 (for_all_spec ib2_image_count _)); [done|].
    intros i Hi. rewrite image_barrier_wire.
    destruct (He2 i Hi) as (Hv & -> & ->). by rewrite Hv. }
  intros i Hi. destruct (He1 i Hi) as (Hv & Hd & _). by rewrite <- Hd in Hv.
Qed.

Lemma image_barrier_2_complete : payload_is_complete image_barrier_2_recorder.
Proof.
  intros op q n Hop Hn Hb Hv. one_opcode Hop. pose proof Hn as Hn'.
  apply barrier_length in Hn as (Hn & Hc & ->).
  count_bound (bvb_wire_get_u32 q 4). count_bound (bvb_wire_get_u32 q 8).
  count_bound (bvb_wire_get_u32 q 12).
  rewrite barrier_payload_size_eq in * by lia.
  cbn in Hv. unfold valid_image_barrier_2 in Hv. cbv zeta in Hv. plain_sizes.
  guards Hv. clear Hv. split_tests.
  set (m := bvb_wire_get_u32 q 4) in *. set (c := bvb_wire_get_u32 q 8) in *.
  set (k := bvb_wire_get_u32 q 12) in *.
  rewrite for_all_spec in Ht0, Ht1.
  apply complete_intro. eexists.
  split; [intros; open_decode; unfold has_valid_length; cbn;
          rewrite Hn'; reflexivity|]. fold m c k.
  destruct (decoded_array memory_barrier_element m
    (fun i => q +! (16 + i * 32)) (Z.to_nat 64)) as [Hrep Hkeep]; [lia|].
  destruct (decoded_array buffer_barrier_element c
    (fun i => q +! (16 + m * 32 + i * 64)) (Z.to_nat 256)) as [Hrep1 Hkeep1];
    [lia|].
  destruct (decoded_array image_barrier_element k
    (fun i => q +! (16 + m * 32 + c * 64 + i * 80)) (Z.to_nat 2048))
    as [Hrep2 Hkeep2]; [lia|].
  split; [split; [solve_rep|cbn; f_equal; assumption]|].
  clear Hrep Hkeep Hrep1 Hkeep1 Hrep2 Hkeep2.
  encode_again. rewrite barrier_payload_size_eq by lia.
  change (ib2_memory zero_ib2) with (replicate 64 zero_mmb).
  change (ib2_buffers zero_ib2) with (replicate (Z.to_nat 256) zero_bfb).
  change (ib2_images zero_ib2) with (replicate (Z.to_nat 2048) zero_imb).
  set (buffers := fill_array c _ _). set (images := fill_array k _ _).
  array_runs memory_barrier_element 16 m 182288 64%nat
    (fun _ : Z => true) q; [split; reflexivity|lia|].
  array_runs buffer_barrier_element (16 + m * 32) c 182288 (Z.to_nat 256)
    (fun i => buffer_barrier_ok (elt zero_bfb buffers i)) q.
  { intros i Hi. unfold buffers. rewrite elt_fill_array by lia.
    by split; [apply Ht0|]. }
  { intros i Hi. lia. }
  array_runs image_barrier_element (16 + m * 32 + c * 64) k 182288
    (Z.to_nat 2048) (fun i => image_barrier_ok (elt zero_imb images i)) q.
  { intros i Hi. unfold images. rewrite elt_fill_array by lia.
    specialize (Ht1 i Hi). rewrite image_barrier_wire in Ht1.
    apply andb_true_iff in Ht1. exact Ht1. }
  { intros i Hi. lia. }
  exists out1. split_and!; [done|done|].
  apply (agree_step _ _ 0 16).
  { eapply agree_trans; [apply Hframe1; lia|].
    eapply agree_trans; [apply Hframe0; lia|].
    eapply agree_trans; [apply Hframe; lia|]. unfold m, c, k. agree_words. }
  apply (agree_step _ _ _ (m * 32)).
  { eapply agree_trans; [apply Hframe1; lia|].
    eapply agree_trans; [apply Hframe0; lia|done]. }
  apply (agree_step _ _ _ (c * 64)).
  { eapply agree_trans; [apply Hframe1; lia|done]. }
  eapply agree_sub; [exact Hagree1|lia|lia].
Qed.

#[export] Instance image_barrier_2_recorded : Recorded image_barrier_2_recorder.
Proof.
  solve_recorded_with image_barrier_2_sound image_barrier_2_complete.
Qed.
