(* ===== verification/CommandState.v ===== *)
(** * CommandState: rendering, descriptor sets, push constants and dynamic state

    The commands of src/command_batch.c that set up the state of a draw and
    whose payloads hold arrays: [begin_rendering] with up to eight colour
    attachments and the optional depth and stencil ones,
    [bind_descriptor_sets] with two arrays, [push_constants] with raw bytes,
    [bind_vertex_buffers] whose loop fills four columns, and [dynamic_state],
    whose encoder runs the validator on what it wrote. *)

From S2P Require Import Prelude Wire Codec Window Element CommandTypes CommandBase CommandElements CommandArrays CommandTransfer.

(** ** Encoders *)

(** [payload + BVB_BEGIN_RENDERING_HEADER_SIZE +
    index * BVB_RENDERING_ATTACHMENT_SIZE] *)
Definition attachment_offset (index : Z) : Z :=
  BVB_BEGIN_RENDERING_HEADER_SIZE + index * BVB_RENDERING_ATTACHMENT_SIZE.

Definition begin_rendering_payload
    (command : ptr bvb_begin_rendering_command) : result bytes :=
  deref command := command or (- EINVAL) ;;
  fail_if (command.(br_width) =? 0) || (command.(br_height) =? 0) ||
          (command.(br_layer_count) =? 0) ||
          (BVB_COMMAND_VULKAN_MAX_COLOR_ATTACHMENTS <?
             command.(br_color_attachment_count)) ||
          (1 <? command.(br_has_depth_attachment)) ||
          (1 <? command.(br_has_stencil_attachment)) ||
          ((command.(br_color_attachment_count) =? 0) &&
           (command.(br_has_depth_attachment) =? 0) &&
           (command.(br_has_stencil_attachment) =? 0)) with (- EINVAL) ;;
  let payload := memset0 (blank BVB_BEGIN_RENDERING_SIZE) 0
                   BVB_BEGIN_RENDERING_SIZE in
  let payload := bvb_wire_put_u32 payload 0 command.(br_flags) in
  let payload :=
    bvb_wire_put_u32 payload 4 (u32 command.(br_render_offset_x)) in
  let payload :=
    bvb_wire_put_u32 payload 8 (u32 command.(br_render_offset_y)) in
  let payload := bvb_wire_put_u32 payload 12 command.(br_width) in
  let payload := bvb_wire_put_u32 payload 16 command.(br_height) in
  let payload := bvb_wire_put_u32 payload 20 command.(br_layer_count) in
  let payload := bvb_wire_put_u32 payload 24 command.(br_view_mask) in
  let payload :=
    bvb_wire_put_u32 payload 28 command.(br_color_attachment_count) in
  let payload :=
    bvb_wire_put_u32 payload 32 command.(br_has_depth_attachment) in
  let payload :=
    bvb_wire_put_u32 payload 36 command.(br_has_stencil_attachment) in
  try payload := for_loop command.(br_color_attachment_count)
    (fun index payload =>
      let attachment := elt zero_ra command.(br_color_attachments) index in
      fail_if negb (rendering_attachment_is_valid attachment false)
        with (- EINVAL) ;;
      Ok (write_window payload (attachment_offset index)
            BVB_RENDERING_ATTACHMENT_SIZE
            (fun output => encode_rendering_attachment output attachment)))
    payload ;;
  fail_if negb (command.(br_has_depth_attachment) =? 0) &&
          negb (rendering_attachment_is_valid command.(br_depth_attachment) true)
    with (- EINVAL) ;;
  fail_if negb (command.(br_has_stencil_attachment) =? 0) &&
          negb (rendering_attachment_is_valid command.(br_stencil_attachment)
                  true) with (- EINVAL) ;;
  let payload :=
    if negb (command.(br_has_depth_attachment) =? 0) then
      write_window payload
        (attachment_offset BVB_COMMAND_VULKAN_MAX_COLOR_ATTACHMENTS)
        BVB_RENDERING_ATTACHMENT_SIZE
        (fun output =>
           encode_rendering_attachment output command.(br_depth_attachment))
    else payload in
  let payload :=
    if negb (command.(br_has_stencil_attachment) =? 0) then
      write_window payload
        (attachment_offset (BVB_COMMAND_VULKAN_MAX_COLOR_ATTACHMENTS + 1))
        BVB_RENDERING_ATTACHMENT_SIZE
        (fun output =>
           encode_rendering_attachment output command.(br_stencil_attachment))
    else payload in
  Ok payload.

(** [cursor] is [24 + 8 * index] in the first loop, and starts again after
    the eight identifiers in the second. *)
Definition bind_descriptor_sets_payload
    (command : ptr bvb_vulkan_bind_descriptor_sets_command) : result bytes :=
  deref command := command or (- EINVAL) ;;
  fail_if negb (expects command.(bds_pipeline_layout_id)
                  BVB_OBJECT_PIPELINE_LAYOUT) ||
          (1 <? command.(bds_pipeline_bind_point)) ||
          (command.(bds_descriptor_set_count) =? 0) ||
          (BVB_COMMAND_VULKAN_MAX_BOUND_DESCRIPTOR_SETS <?
             command.(bds_descriptor_set_count)) ||
          (BVB_COMMAND_VULKAN_MAX_DYNAMIC_OFFSETS <?
             command.(bds_dynamic_offset_count)) with (- EINVAL) ;;
  let payload := memset0 (blank BVB_VULKAN_BIND_DESCRIPTOR_SETS_SIZE) 0
                   BVB_VULKAN_BIND_DESCRIPTOR_SETS_SIZE in
  let payload := bvb_wire_put_u64 payload 0 command.(bds_pipeline_layout_id) in
  let payload := bvb_wire_put_u32 payload 8 command.(bds_pipeline_bind_point) in
  let payload := bvb_wire_put_u32 payload 12 command.(bds_first_set) in
  let payload :=
    bvb_wire_put_u32 payload 16 command.(bds_descriptor_set_count) in
  let payload :=
    bvb_wire_put_u32 payload 20 command.(bds_dynamic_offset_count) in
  try payload := for_loop command.(bds_descriptor_set_count)
    (fun index payload =>
      let id := elt 0 command.(bds_descriptor_set_ids) index in
      fail_if negb (expects id BVB_OBJECT_DESCRIPTOR_SET) with (- EINVAL) ;;
      Ok (write_window payload (24 + index * 8) 8
            (fun output => bvb_wire_put_u64 output 0 id))) payload ;;
  let cursor := 24 + BVB_COMMAND_VULKAN_MAX_BOUND_DESCRIPTOR_SETS * 8 in
  for_loop command.(bds_dynamic_offset_count) (fun index payload =>
    Ok (write_window payload (cursor + index * 4) 4
          (fun output => bvb_wire_put_u32 output 0
                           (elt 0 command.(bds_dynamic_offsets) index))))
    payload.

Definition push_constants_payload
    (command : ptr bvb_vulkan_push_constants_command) : result bytes :=
  deref command := command or (- EINVAL) ;;
  fail_if (command.(pc_stage_flags) =? 0) || (command.(pc_size) =? 0) ||
          (BVB_COMMAND_VULKAN_MAX_PUSH_CONSTANT_BYTES <? command.(pc_size)) ||
          negb (Z.land command.(pc_offset) 3 =? 0) ||
          negb (Z.land command.(pc_size) 3 =? 0) ||
          (BVB_COMMAND_VULKAN_MAX_PUSH_CONSTANT_BYTES - command.(pc_size) <?
             command.(pc_offset)) ||
          negb (expects command.(pc_pipeline_layout_id)
                  BVB_OBJECT_PIPELINE_LAYOUT) with (- EINVAL) ;;
  let payload := memset0 (blank BVB_VULKAN_PUSH_CONSTANTS_SIZE) 0
                   BVB_VULKAN_PUSH_CONSTANTS_SIZE in
  let payload := bvb_wire_put_u64 payload 0 command.(pc_pipeline_layout_id) in
  let payload := bvb_wire_put_u32 payload 8 command.(pc_stage_flags) in
  let payload := bvb_wire_put_u32 payload 12 command.(pc_offset) in
  let payload := bvb_wire_put_u32 payload 16 command.(pc_size) in
  Ok (wr_bytes payload 24 (rd_bytes command.(pc_data) 0 command.(pc_size))).

(** ** Validators *)

(** The three parts of a rendering payload after its header. *)
Definition optional_attachment_is_valid (present : Z) (input : bytes) : bool :=
  if negb (present =? 0) then
    rendering_attachment_is_valid (decode_rendering_attachment input) true
  else bytes_are_zero input BVB_RENDERING_ATTACHMENT_SIZE.

Definition valid_begin_rendering (payload : bytes) : result unit :=
  let color_count := bvb_wire_get_u32 payload 28 in
  let has_depth := bvb_wire_get_u32 payload 32 in
  let has_stencil := bvb_wire_get_u32 payload 36 in
  fail_if (bvb_wire_get_u32 payload 12 =? 0) ||
          (bvb_wire_get_u32 payload 16 =? 0) ||
          (bvb_wire_get_u32 payload 20 =? 0) ||
          (BVB_COMMAND_VULKAN_MAX_COLOR_ATTACHMENTS <? color_count) ||
          (1 <? has_depth) || (1 <? has_stencil) ||
          ((color_count =? 0) && (has_depth =? 0) && (has_stencil =? 0))
    with (- EPROTO) ;;
  fail_if negb (for_all BVB_COMMAND_VULKAN_MAX_COLOR_ATTACHMENTS (fun index =>
      let wire := payload +! attachment_offset index in
      if color_count <=? index then
        bytes_are_zero wire BVB_RENDERING_ATTACHMENT_SIZE
      else rendering_attachment_is_valid (decode_rendering_attachment wire)
             false)) with (- EPROTO) ;;
  let depth :=
    payload +! attachment_offset BVB_COMMAND_VULKAN_MAX_COLOR_ATTACHMENTS in
  let stencil := depth +! BVB_RENDERING_ATTACHMENT_SIZE in
  fail_if negb (optional_attachment_is_valid has_depth depth)
    with (- EPROTO) ;;
  fail_if negb (optional_attachment_is_valid has_stencil stencil)
    with (- EPROTO) ;;
  Ok tt.

Definition valid_bind_descriptor_sets (payload : bytes) : result unit :=
  let set_count := bvb_wire_get_u32 payload 16 in
  let dynamic_count := bvb_wire_get_u32 payload 20 in
  fail_if negb (expects (bvb_wire_get_u64 payload 0)
                  BVB_OBJECT_PIPELINE_LAYOUT) ||
          (1 <? bvb_wire_get_u32 payload 8) || (set_count =? 0) ||
          (BVB_COMMAND_VULKAN_MAX_BOUND_DESCRIPTOR_SETS <? set_count) ||
          (BVB_COMMAND_VULKAN_MAX_DYNAMIC_OFFSETS <? dynamic_count)
    with (- EPROTO) ;;
  fail_if negb (for_all BVB_COMMAND_VULKAN_MAX_BOUND_DESCRIPTOR_SETS
    (fun index =>
      let set_id := bvb_wire_get_u64 (payload +! (24 + index * 8)) 0 in
      if index <? set_count then expects set_id BVB_OBJECT_DESCRIPTOR_SET
      else set_id =? 0)) with (- EPROTO) ;;
  let offsets :=
    payload +! (24 + BVB_COMMAND_VULKAN_MAX_BOUND_DESCRIPTOR_SETS * 8) in
  fail_if negb (for_all_from dynamic_count
    BVB_COMMAND_VULKAN_MAX_DYNAMIC_OFFSETS (fun index =>
      bvb_wire_get_u32 (offsets +! (index * 4)) 0 =? 0)) with (- EPROTO) ;;
  Ok tt.

Definition valid_push_constants (payload : bytes) : result unit :=
  let size := bvb_wire_get_u32 payload 16 in
  fail_if negb (expects (bvb_wire_get_u64 payload 0)
                  BVB_OBJECT_PIPELINE_LAYOUT) ||
          (bvb_wire_get_u32 payload 8 =? 0) || (size =? 0) ||
          (BVB_COMMAND_VULKAN_MAX_PUSH_CONSTANT_BYTES <? size) ||
          negb (Z.land (bvb_wire_get_u32 payload 12) 3 =? 0) ||
          negb (Z.land size 3 =? 0) ||
          (BVB_COMMAND_VULKAN_MAX_PUSH_CONSTANT_BYTES - size <?
             bvb_wire_get_u32 payload 12) ||
          negb (bvb_wire_get_u32 payload 20 =? 0) with (- EPROTO) ;;
  fail_if negb (for_all_from size BVB_COMMAND_VULKAN_MAX_PUSH_CONSTANT_BYTES
    (fun index => rd8 payload (24 + index) =? 0)) with (- EPROTO) ;;
  Ok tt.

(** ** Decoders *)

Definition bvb_command_decode_begin_rendering
    (record : ptr bvb_command_record)
    (command : ptr bvb_begin_rendering_command) :
    result bvb_begin_rendering_command :=
  try payload := record_of record
    (is_record BVB_COMMAND_BEGIN_RENDERING BVB_BEGIN_RENDERING_SIZE) ;;
  deref _ := command or (- EINVAL) ;;
  let color_attachment_count := bvb_wire_get_u32 payload 28 in
  let has_depth_attachment := bvb_wire_get_u32 payload 32 in
  let has_stencil_attachment := bvb_wire_get_u32 payload 36 in
  Ok {| br_flags := bvb_wire_get_u32 payload 0;
        br_render_offset_x := i32 (bvb_wire_get_u32 payload 4);
        br_render_offset_y := i32 (bvb_wire_get_u32 payload 8);
        br_width := bvb_wire_get_u32 payload 12;
        br_height := bvb_wire_get_u32 payload 16;
        br_layer_count := bvb_wire_get_u32 payload 20;
        br_view_mask := bvb_wire_get_u32 payload 24;
        br_color_attachment_count := color_attachment_count;
        br_has_depth_attachment := has_depth_attachment;
        br_has_stencil_attachment := has_stencil_attachment;
        br_color_attachments :=
          fill_array color_attachment_count (fun index =>
            decode_rendering_attachment (payload +! attachment_offset index))
            zero_br.(br_color_attachments);
        br_depth_attachment :=
          if negb (has_depth_attachment =? 0) then
            decode_rendering_attachment
              (payload +!
                 attachment_offset BVB_COMMAND_VULKAN_MAX_COLOR_ATTACHMENTS)
          else zero_br.(br_depth_attachment);
        br_stencil_attachment :=
          if negb (has_stencil_attachment =? 0) then
            decode_rendering_attachment
              (payload +!
                 attachment_offset
                   (BVB_COMMAND_VULKAN_MAX_COLOR_ATTACHMENTS + 1))
          else zero_br.(br_stencil_attachment) |}.

Definition bvb_command_decode_vulkan_bind_descriptor_sets
    (record : ptr bvb_command_record)
    (command : ptr bvb_vulkan_bind_descriptor_sets_command) :
    result bvb_vulkan_bind_descriptor_sets_command :=
  try payload := record_of record
    (is_record BVB_COMMAND_VULKAN_BIND_DESCRIPTOR_SETS
               BVB_VULKAN_BIND_DESCRIPTOR_SETS_SIZE) ;;
  deref _ := command or (- EINVAL) ;;
  let descriptor_set_count := bvb_wire_get_u32 payload 16 in
  let dynamic_offset_count := bvb_wire_get_u32 payload 20 in
  let offsets := 24 + BVB_COMMAND_VULKAN_MAX_BOUND_DESCRIPTOR_SETS * 8 in
  Ok {| bds_pipeline_layout_id := bvb_wire_get_u64 payload 0;
        bds_pipeline_bind_point := bvb_wire_get_u32 payload 8;
        bds_first_set := bvb_wire_get_u32 payload 12;
        bds_descriptor_set_count := descriptor_set_count;
        bds_dynamic_offset_count := dynamic_offset_count;
        bds_descriptor_set_ids :=
          fill_array descriptor_set_count (fun index =>
            bvb_wire_get_u64 (payload +! (24 + index * 8)) 0)
            zero_bds.(bds_descriptor_set_ids);
        bds_dynamic_offsets :=
          fill_array dynamic_offset_count (fun index =>
            bvb_wire_get_u32 (payload +! (offsets + index * 4)) 0)
            zero_bds.(bds_dynamic_offsets) |}.

Definition bvb_command_decode_vulkan_push_constants
    (record : ptr bvb_command_record)
    (command : ptr bvb_vulkan_push_constants_command) :
    result bvb_vulkan_push_constants_command :=
  try payload := record_of record
    (is_record BVB_COMMAND_VULKAN_PUSH_CONSTANTS
               BVB_VULKAN_PUSH_CONSTANTS_SIZE) ;;
  deref _ := command or (- EINVAL) ;;
  let size := bvb_wire_get_u32 payload 16 in
  Ok {| pc_pipeline_layout_id := bvb_wire_get_u64 payload 0;
        pc_stage_flags := bvb_wire_get_u32 payload 8;
        pc_offset := bvb_wire_get_u32 payload 12;
        pc_size := size;
        pc_data :=
          wr_bytes (blank BVB_COMMAND_VULKAN_MAX_PUSH_CONSTANT_BYTES) 0
            (rd_bytes payload 24 size) |}.

(** ** Contracts *)

#[export] Hint Unfold attachment_offset : sizes.

Definition bind_descriptor_sets_recorder :
    recorder bvb_vulkan_bind_descriptor_sets_command :=
  {| rc_opcodes op := op =? BVB_COMMAND_VULKAN_BIND_DESCRIPTOR_SETS;
     rc_pre _ := bds_rep;
     rc_payload _ := bind_descriptor_sets_payload;
     rc_length _ := BVB_VULKAN_BIND_DESCRIPTOR_SETS_SIZE;
     rc_valid _ := valid_bind_descriptor_sets;
     rc_decode := bvb_command_decode_vulkan_bind_descriptor_sets;
     rc_norm c :=
       {| bds_pipeline_layout_id := c.(bds_pipeline_layout_id);
          bds_pipeline_bind_point := c.(bds_pipeline_bind_point);
          bds_first_set := c.(bds_first_set);
          bds_descriptor_set_count := c.(bds_descriptor_set_count);
          bds_dynamic_offset_count := c.(bds_dynamic_offset_count);
          bds_descriptor_set_ids :=
            keep c.(bds_descriptor_set_count) 0 c.(bds_descriptor_set_ids);
          bds_dynamic_offsets :=
            keep c.(bds_dynamic_offset_count) 0 c.(bds_dynamic_offsets) |} |}.

Lemma bind_descriptor_sets_sound :
  payload_is_sound bind_descriptor_sets_recorder.
Proof.
  intros op v p q Hop Hpre Hp Hb Ha. destruct v. one_opcode Hop.
  begin_sound Hpre Hp Hb Ha. count_bound bds_descriptor_set_count.
  count_bound bds_dynamic_offset_count.
  destruct (for_loop bds_descriptor_set_count _ _) as [p1|] eqn:Hp1;
    [|discriminate].
  array_ran u64_element 24 8 216 8%nat
    (fun i => negb (negb (expects (elt 0 bds_descriptor_set_ids i)
                            BVB_OBJECT_DESCRIPTOR_SET)))
    bds_descriptor_set_ids Hp1.
  array_ran u32_element 88 32 216 32%nat (fun _ : Z => true)
    bds_dynamic_offsets Hp.
  destruct (Hread q) as (He & Hz & Hk); [region_side Ha|].
  destruct (Hread0 q) as (_ & Hz1 & Hk1); [region_side Ha|].
  header_at Hq q 24 Ha.
  split_and!; [lia|lia|reflexivity| |intros old; open_decode];
    [unfold rc_valid, bind_descriptor_sets_recorder, valid_bind_descriptor_sets;
     plain_sizes|];
    extent_read Hq; wire_read; use_tests; [|by rewrite <- Hk, <- Hk1].
  rewrite (proj2 (for_all_split bds_descriptor_set_count 8 _ _ ltac:(lia))).
  - rewrite (proj2 (for_all_from_spec bds_dynamic_offset_count 32 _)); [done|].
    intros i Hi. rewrite ptr_add_add by lia.
    rewrite (get_u32_agree _ (blank 4)) by (apply Hz1; lia).
    by rewrite get_u32_blank.
  - split; intros i Hi.
    + destruct (He i Hi) as (Hv & -> & _). by rewrite negb_involutive in Hv.
    + rewrite (get_u64_agree _ (blank 8)) by (apply Hz; lia).
      by rewrite get_u64_blank.
Qed.

Lemma bind_descriptor_sets_complete :
  payload_is_complete bind_descriptor_sets_recorder.
Proof.
  intros op q n Hop Hn Hb Hv. one_opcode Hop. begin_complete Hn Hv.
  count_bound (bvb_wire_get_u32 q 16). count_bound (bvb_wire_get_u32 q 20).
  apply for_all_split in Ht0 as [Hv Hz]; [|lia]. rewrite for_all_from_spec in Ht1.
  apply complete_intro. eexists. split; [intros; open_decode; reflexivity|].
  destruct (decoded_array u64_element (bvb_wire_get_u32 q 16)
    (fun i => q +! (24 + i * 8)) 8) as [Hrep Hkeep]; [lia|].
  destruct (decoded_array u32_element (bvb_wire_get_u32 q 20)
    (fun i => q +! (88 + i * 4)) 32) as [Hrep1 Hkeep1]; [lia|].
  split; [split; [solve_rep|cbn; f_equal; assumption]|].
  encode_again.
  set (ids := fill_array _ _ (replicate 8 0)).
  array_runs u64_element 24 8 216 8%nat (fun i => negb (negb
    (expects (elt 0 ids i) BVB_OBJECT_DESCRIPTOR_SET))) q.
  { intros i Hi. unfold ids. rewrite elt_fill_array, negb_involutive by lia.
    by split; [apply Hv|]. }
  { intros i Hi. specialize (Hz i Hi). apply Z.eqb_eq in Hz.
    apply get_u64_rd8. by rewrite get_u64_blank. }
  array_runs u32_element 88 32 216 32%nat (fun _ : Z => true) q.
  { done. }
  { intros i Hi. specialize (Ht1 i Hi). rewrite ptr_add_add in Ht1 by lia.
    apply Z.eqb_eq in Ht1. apply get_u32_rd8. by rewrite get_u32_blank. }
  exists out0. split_and!; [done|done|].
  apply (agree_join _ _ 0 88 128); [|done].
  eapply agree_trans; [apply Hframe0; lia|].
  apply (agree_join _ _ 0 24 64); [|done].
  eapply agree_trans; [apply Hframe; lia|]. agree_words.
Qed.

#[export] Instance bind_descriptor_sets_recorded :
  Recorded bind_descriptor_sets_recorder.
Proof.
  solve_recorded_with bind_descriptor_sets_sound bind_descriptor_sets_complete.
Qed.

Definition push_constants_recorder :
    recorder bvb_vulkan_push_constants_command :=
  {| rc_opcodes op := op =? BVB_COMMAND_VULKAN_PUSH_CONSTANTS;
     rc_pre _ := pc_rep;
     rc_payload _ := push_constants_payload;
     rc_length _ := BVB_VULKAN_PUSH_CONSTANTS_SIZE;
     rc_valid _ := valid_push_constants;
     rc_decode := bvb_command_decode_vulkan_push_constants;
     rc_norm c :=
       {| pc_pipeline_layout_id := c.(pc_pipeline_layout_id);
          pc_stage_flags := c.(pc_stage_flags);
          pc_offset := c.(pc_offset);
          pc_size := c.(pc_size);
          pc_data := keep_bytes BVB_COMMAND_VULKAN_MAX_PUSH_CONSTANT_BYTES
                       c.(pc_size) c.(pc_data) |} |}.

Lemma push_constants_sound : payload_is_sound push_constants_recorder.
Proof.
  intros op v p q Hop Hpre Hp Hb Ha. destruct v. one_opcode Hop.
  begin_sound Hpre Hp Hb Ha. injection Hp as <-. count_bound pc_size.
  match type of Ha with agree _ (wr_bytes ?hdr _ _) _ _ => set (h := hdr) in * end.
  assert (Hh : blen h = 280) by (unfold h; header_side).
  assert (Hc : agree h (blank 280) 24 256) by (unfold h; header_side).
  destruct (inline_bytes h q pc_data pc_size 280) as [Hq Hd]; [lia..|exact Ha|].
  assert (Hz : for_all_from pc_size 256
                 (fun index => rd8 q (24 + index) =? 0) = true).
  { apply for_all_from_spec. intros i Hi.
    rewrite Ha, rd8_wr_bytes_out, Hc by (rewrite ?blen_rd_bytes; lia).
    unfold blank. by rewrite rd8_replicate0. }
  unfold h in Hq.
  split_and!; [lia|autorewrite with blen; lia|done| |intros old; open_decode];
    [unfold rc_valid, push_constants_recorder, valid_push_constants;
     plain_sizes|];
    extent_read Hq; wire_read; use_tests; [done|by rewrite Hd].
Qed.

Lemma push_constants_complete : payload_is_complete push_constants_recorder.
Proof.
  intros op q n Hop Hn Hb Hv. one_opcode Hop. begin_complete Hn Hv.
  count_bound (bvb_wire_get_u32 q 16). rewrite for_all_from_spec in Ht0.
  apply complete_intro. eexists. split; [intros; open_decode; reflexivity|].
  set (size := bvb_wire_get_u32 q 16) in *.
  assert (Hl : blen (rd_bytes q 24 size) = size) by (apply blen_rd_bytes; lia).
  assert (Hd : rd_bytes (wr_bytes (blank 256) 0 (rd_bytes q 24 size)) 0 size =
               rd_bytes q 24 size).
  { apply rd_bytes_wr_bytes; rewrite ?blen_blank; lia. }
  split; [split|].
  - cbn. unfold size. open_rep_goal. rewrite ?get_u32_range, ?get_u64_range. cbn.
    autorewrite with blen. by rewrite blen_blank by lia.
  - cbn. f_equal. unfold keep_bytes. by rewrite Hd.
  - encode_again. eexists. split_and!; [done|done|]. rewrite Hd.
    match goal with |- agree (wr_bytes ?hdr _ _) _ _ _ => set (h := hdr) end.
    assert (Hh : blen h = 280) by (unfold h; header_side).
    assert (Hc : agree h (blank 280) 24 256) by (unfold h; header_side).
    apply (agree_join _ _ 0 24 256).
    + eapply agree_trans; [apply agree_wr_bytes; unfold disjoint; lia|].
      unfold h, size. agree_words.
    + intros k Hk. destruct (decide (k < 24 + size)).
      * rewrite rd8_wr_bytes_in by lia. rewrite rd_bytes_lookup by lia.
        f_equal. lia.
      * rewrite rd8_wr_bytes_out, Hc by lia. unfold blank. rewrite rd8_replicate0.
        specialize (Ht0 (k - 24) ltac:(lia)). rewrite Zplus_minus in Ht0. lia.
Qed.

#[export] Instance push_constants_recorded : Recorded push_constants_recorder.
Proof.
  solve_recorded_with push_constants_sound push_constants_complete.
Qed.

Definition begin_rendering_recorder : recorder bvb_begin_rendering_command :=
  {| rc_opcodes op := op =? BVB_COMMAND_BEGIN_RENDERING;
     rc_pre _ := br_rep;
     rc_payload _ := begin_rendering_payload;
     rc_length _ := BVB_BEGIN_RENDERING_SIZE;
     rc_valid _ := valid_begin_rendering;
     rc_decode := bvb_command_decode_begin_rendering;
     rc_norm c :=
       {| br_flags := c.(br_flags);
          br_render_offset_x := c.(br_render_offset_x);
          br_render_offset_y := c.(br_render_offset_y);
          br_width := c.(br_width);
          br_height := c.(br_height);
          br_layer_count := c.(br_layer_count);
          br_view_mask := c.(br_view_mask);
          br_color_attachment_count := c.(br_color_attachment_count);
          br_has_depth_attachment := c.(br_has_depth_attachment);
          br_has_stencil_attachment := c.(br_has_stencil_attachment);
          br_color_attachments :=
            keep c.(br_color_attachment_count) zero_ra c.(br_color_attachments);
          br_depth_attachment :=
            read_optional attachment_element c.(br_has_depth_attachment)
              c.(br_depth_attachment);
          br_stencil_attachment :=
            read_optional attachment_element c.(br_has_stencil_attachment)
              c.(br_stencil_attachment) |} |}.

Lemma optional_attachment_valid present p :
  optional_attachment_is_valid present p = true <->
  (present <> 0 ->
     rendering_attachment_is_valid (decode_rendering_attachment p) true = true) /\
  (present = 0 -> agree p (blank 56) 0 56).
Proof.
  unfold optional_attachment_is_valid.
  destruct (Z.eqb_spec present 0) as [E|E]; cbn [negb]; plain_sizes;
    rewrite ?bytes_are_zero_cleared; naive_solver.
Qed.

Lemma optional_guard present valid :
  negb (present =? 0) && negb valid = false -> present <> 0 -> valid = true.
Proof. destruct (Z.eqb_spec present 0), valid; done. Qed.

Lemma begin_rendering_sound : payload_is_sound begin_rendering_recorder.
Proof.
  intros op v p q Hop Hpre Hp Hb Ha. destruct v. one_opcode Hop.
  begin_sound Hpre Hp Hb Ha. count_bound br_color_attachment_count.
  count_bound br_has_depth_attachment. count_bound br_has_stencil_attachment.
  destruct (for_loop br_color_attachment_count _ _) as [p1|] eqn:Hp1;
    [|discriminate].
  guards Hp. split_tests.
  array_ran attachment_element 40 8 600 8%nat
    (fun i => negb (negb (rendering_attachment_is_valid
                            (elt zero_ra br_color_attachments i) false)))
    br_color_attachments Hp1.
  set (p2 := write_optional attachment_element br_has_depth_attachment 488
               br_depth_attachment p1).
  set (p3 := write_optional attachment_element br_has_stencil_attachment 544
               br_stencil_attachment p2).
  change (Ok p3 = Ok p) in Hp. injection Hp as <-.
  destruct (optional_sound attachment_element br_has_depth_attachment 488 600
    ltac:(lia) ltac:(lia) ltac:(cbn; plain_sizes; lia) p1 Hlen0
    ltac:(cbn; header_side) br_depth_attachment H1) as (Hlen2 & Hframe2 & Hread2).
  fold p2 in Hlen2, Hframe2, Hread2. cbn in Hframe2, Hread2. plain_sizes.
  destruct (optional_sound attachment_element br_has_stencil_attachment 544 600
    ltac:(lia) ltac:(lia) ltac:(cbn; plain_sizes; lia) p2 Hlen2
    ltac:(cbn; header_side) br_stencil_attachment H0)
    as (Hlen3 & Hframe3 & Hread3).
  fold p3 in Hlen3, Hframe3, Hread3. cbn in Hframe3, Hread3. plain_sizes.
  destruct (Hread q) as (He & Hz & Hk); [region_side Ha|].
  destruct (Hread2 q) as (Hd & Hd0 & Hdk); [region_side Ha|].
  destruct (Hread3 q) as (Hs & Hs0 & Hsk); [region_side Ha|].
  header_at Hq q 40 Ha.
  split_and!; [lia|lia|reflexivity| |intros old; open_decode];
    [unfold rc_valid, begin_rendering_recorder, valid_begin_rendering;
     plain_sizes|];
    extent_read Hq; wire_read; use_tests; rewrite ?i32_u32 by assumption.
  - rewrite ptr_add_add by lia. zconst.
    rewrite (proj2 (optional_attachment_valid br_has_depth_attachment _)),
      (proj2 (optional_attachment_valid br_has_stencil_attachment _)).
    + rewrite for_all_unused.
      rewrite (proj2 (for_all_split br_color_attachment_count 8 _ _ ltac:(lia)));
        [done|].
      split; intros i Hi; [|by apply bytes_are_zero_cleared, Hz].
      destruct (He i Hi) as (Hv & -> & _). by rewrite negb_involutive in Hv.
    + split; [|done]. intros Hp. rewrite Hs by done. exact (optional_guard _ _ Ht0 Hp).
    + split; [|done]. intros Hp. rewrite Hd by done. exact (optional_guard _ _ Ht Hp).
  - rewrite <- Hk, <- Hdk, <- Hsk. reflexivity.
Qed.

Lemma optional_decoded present p :
  (present <> 0 ->
     rendering_attachment_is_valid (decode_rendering_attachment p) true = true) ->
  negb (present =? 0) &&
  negb (rendering_attachment_is_valid
          (read_optional attachment_element present
             (decode_rendering_attachment p)) true) = false.
Proof.
  intros H. unfold read_optional. destruct (Z.eqb_spec present 0); [done|].
  cbn [negb andb]. by rewrite H.
Qed.

Lemma begin_rendering_complete :
  payload_is_complete begin_rendering_recorder.
Proof.
  intros op q n Hop Hn Hb Hv. one_opcode Hop. begin_complete Hn Hv.
  count_bound (bvb_wire_get_u32 q 28). count_bound (bvb_wire_get_u32 q 32).
  count_bound (bvb_wire_get_u32 q 36). rewrite for_all_unused in Ht0.
  apply for_all_split in Ht0 as [Hv Hz]; [|lia].
  rewrite ptr_add_add in Ht2 by lia. zconst.
  apply optional_attachment_valid in Ht1 as [Hd Hd0], Ht2 as [Hs Hs0].
  apply complete_intro. eexists. split; [intros; open_decode; reflexivity|].
  destruct (decoded_array attachment_element (bvb_wire_get_u32 q 28)
    (fun i => q +! (40 + i * 56)) 8) as [Hrep Hkeep]; [lia|].
  set (colors := fill_array _ _ _) in *.
  set (has_depth := bvb_wire_get_u32 q 32) in *.
  set (has_stencil := bvb_wire_get_u32 q 36) in *.
  set (depth := read_optional attachment_element has_depth
                  (decode_rendering_attachment (q +! 488))).
  set (stencil := read_optional attachment_element has_stencil
                    (decode_rendering_attachment (q +! 544))).
  change (if negb (has_depth =? 0) then _ else zero_ra) with depth.
  change (if negb (has_stencil =? 0) then _ else zero_ra) with stencil.
  pose proof (read_optional_rep attachment_element has_depth (q +! 488)
              : ra_rep depth = true).
  pose proof (read_optional_rep attachment_element has_stencil (q +! 544)
              : ra_rep stencil = true).
  pose proof (optional_decoded has_depth (q +! 488) Hd) as Hvd.
  pose proof (optional_decoded has_stencil (q +! 544) Hs) as Hvs.
  fold depth in Hvd. fold stencil in Hvs.
  split; [split; [solve_rep|cbn; f_equal;
                  [assumption|apply read_optional_idem..]]|].
  encode_again.
  array_runs attachment_element 40 8 600 8%nat (fun i => negb (negb
    (rendering_attachment_is_valid (elt zero_ra colors i) false))) q.
  { intros i Hi. unfold colors.
    rewrite elt_fill_array, negb_involutive by lia. by split; [apply Hv|]. }
  { intros i Hi. by apply bytes_are_zero_cleared, Hz. }
  destruct (optional_complete attachment_element has_depth 488 600
    ltac:(lia) ltac:(unfold has_depth; lia) ltac:(cbn; plain_sizes; lia) out Hlen0
    ltac:(cbn; header_side) q ltac:(done) Hd0) as (Hl2 & Hf2 & Ha2).
  fold depth in Hl2, Hf2, Ha2. cbn in Hf2, Ha2. plain_sizes.
  destruct (optional_complete attachment_element has_stencil 544 600
    ltac:(lia) ltac:(unfold has_stencil; lia) ltac:(cbn; plain_sizes; lia) _ Hl2
    ltac:(cbn; header_side) q ltac:(done) Hs0) as (_ & Hf3 & Ha3).
  fold stencil in Hf3, Ha3. cbn in Hf3, Ha3. plain_sizes.
  eexists. split_and!; [done|reflexivity|].
  apply (agree_join _ _ 0 544 56); [|exact Ha3].
  eapply agree_trans; [apply Hf3; lia|].
  apply (agree_join _ _ 0 488 56); [|exact Ha2].
  eapply agree_trans; [apply Hf2; lia|].
  apply (agree_join _ _ 0 40 448); [|exact Hagree].
  eapply agree_trans; [apply Hframe; lia|].
  unfold has_depth, has_stencil. fold_i32. agree_words.
Qed.

#[export] Instance begin_rendering_recorded : Recorded begin_rendering_recorder.
Proof.
  solve_recorded_with begin_rendering_sound begin_rendering_complete.
Qed.
