(* ===== verification/CommandBindings.v ===== *)
(** * CommandBindings: vertex buffers and dynamic state

    [bind_vertex_buffers] of src/command_batch.c fills four columns of its
    payload in one loop, two of them only when their flag is set;
    [dynamic_state] carries up to eight words whose number and range depend
    on the kind of state, and its encoder runs the validator on the payload
    it has written. *)

From S2P Require Import Prelude Wire Codec Window Element CommandTypes CommandBase CommandElements CommandArrays CommandTransfer.

(** ** Vertex buffers *)

Definition is_vertex_opcode (opcode : Z) : bool :=
  (opcode =? BVB_COMMAND_VULKAN_BIND_VERTEX_BUFFERS) ||
  (opcode =? BVB_COMMAND_VULKAN_BIND_VERTEX_BUFFERS_2).

(** The columns' offsets in the payload. *)
Definition vertex_ids : Z := 16.
Definition vertex_offsets : Z :=
  vertex_ids + BVB_COMMAND_VULKAN_MAX_VERTEX_BINDINGS * 8.
Definition vertex_sizes : Z :=
  vertex_offsets + BVB_COMMAND_VULKAN_MAX_VERTEX_BINDINGS * 8.
Definition vertex_strides : Z :=
  vertex_sizes + BVB_COMMAND_VULKAN_MAX_VERTEX_BINDINGS * 8.

Definition bind_vertex_buffers_payload (opcode : Z)
    (command : ptr bvb_vulkan_bind_vertex_buffers_command) : result bytes :=
  fail_if negb (is_vertex_opcode opcode) with (- EINVAL) ;;
  deref command := command or (- EINVAL) ;;
  fail_if (command.(bvt_binding_count) =? 0) ||
          (BVB_COMMAND_VULKAN_MAX_VERTEX_BINDINGS <?
             command.(bvt_binding_count)) ||
          (1 <? command.(bvt_has_sizes)) || (1 <? command.(bvt_has_strides)) ||
          ((opcode =? BVB_COMMAND_VULKAN_BIND_VERTEX_BUFFERS) &&
           (negb (command.(bvt_has_sizes) =? 0) ||
            negb (command.(bvt_has_strides) =? 0))) with (- EINVAL) ;;
  let payload := memset0 (blank BVB_VULKAN_BIND_VERTEX_BUFFERS_SIZE) 0
                   BVB_VULKAN_BIND_VERTEX_BUFFERS_SIZE in
  let payload := bvb_wire_put_u32 payload 0 command.(bvt_first_binding) in
  let payload := bvb_wire_put_u32 payload 4 command.(bvt_binding_count) in
  let payload := bvb_wire_put_u32 payload 8 command.(bvt_has_sizes) in
  let payload := bvb_wire_put_u32 payload 12 command.(bvt_has_strides) in
  for_loop command.(bvt_binding_count) (fun index payload =>
    let id := elt 0 command.(bvt_buffer_ids) index in
    fail_if negb (id =? 0) && negb (expects id BVB_OBJECT_BUFFER)
      with (- EINVAL) ;;
    let payload := bvb_wire_put_u64 payload (vertex_ids + index * 8) id in
    let payload := bvb_wire_put_u64 payload (vertex_offsets + index * 8)
                     (elt 0 command.(bvt_offsets) index) in
    let payload :=
      if negb (command.(bvt_has_sizes) =? 0) then
        bvb_wire_put_u64 payload (vertex_sizes + index * 8)
          (elt 0 command.(bvt_sizes) index)
      else payload in
    let payload :=
      if negb (command.(bvt_has_strides) =? 0) then
        bvb_wire_put_u64 payload (vertex_strides + index * 8)
          (elt 0 command.(bvt_strides) index)
      else payload in
    Ok payload) payload.

Definition valid_bind_vertex_buffers (opcode : Z) (payload : bytes) :
    result unit :=
  let count := bvb_wire_get_u32 payload 4 in
  let has_sizes := bvb_wire_get_u32 payload 8 in
  let has_strides := bvb_wire_get_u32 payload 12 in
  fail_if (count =? 0) || (BVB_COMMAND_VULKAN_MAX_VERTEX_BINDINGS <? count) ||
          (1 <? has_sizes) || (1 <? has_strides) ||
          ((opcode =? BVB_COMMAND_VULKAN_BIND_VERTEX_BUFFERS) &&
           (negb (has_sizes =? 0) || negb (has_strides =? 0)))
    with (- EPROTO) ;;
  fail_if negb (for_all BVB_COMMAND_VULKAN_MAX_VERTEX_BINDINGS (fun index =>
      let id := bvb_wire_get_u64 payload (vertex_ids + index * 8) in
      let offset := bvb_wire_get_u64 payload (vertex_offsets + index * 8) in
      let size := bvb_wire_get_u64 payload (vertex_sizes + index * 8) in
      let stride := bvb_wire_get_u64 payload (vertex_strides + index * 8) in
      if count <=? index then
        negb (negb (id =? 0) || negb (offset =? 0) || negb (size =? 0) ||
              negb (stride =? 0))
      else
        negb ((negb (id =? 0) && negb (expects id BVB_OBJECT_BUFFER)) ||
              ((has_sizes =? 0) && negb (size =? 0)) ||
              ((has_strides =? 0) && negb (stride =? 0))))) with (- EPROTO) ;;
  Ok tt.

Definition bvb_command_decode_vulkan_bind_vertex_buffers
    (record : ptr bvb_command_record)
    (command : ptr bvb_vulkan_bind_vertex_buffers_command) :
    result bvb_vulkan_bind_vertex_buffers_command :=
  try payload := record_of record (fun record =>
    is_vertex_opcode record.(rec_opcode) &&
    (record.(rec_payload_length) =? BVB_VULKAN_BIND_VERTEX_BUFFERS_SIZE)) ;;
  deref _ := command or (- EINVAL) ;;
  let binding_count := bvb_wire_get_u32 payload 4 in
  let column first := fun index =>
    bvb_wire_get_u64 payload (first + index * 8) in
  Ok {| bvt_first_binding := bvb_wire_get_u32 payload 0;
        bvt_binding_count := binding_count;
        bvt_has_sizes := bvb_wire_get_u32 payload 8;
        bvt_has_strides := bvb_wire_get_u32 payload 12;
        bvt_buffer_ids :=
          fill_array binding_count (column vertex_ids)
            zero_bvt.(bvt_buffer_ids);
        bvt_offsets :=
          fill_array binding_count (column vertex_offsets)
            zero_bvt.(bvt_offsets);
        bvt_sizes :=
          fill_array binding_count (column vertex_sizes) zero_bvt.(bvt_sizes);
        bvt_strides :=
          fill_array binding_count (column vertex_strides)
            zero_bvt.(bvt_strides) |}.

(** ** Dynamic state *)

(** [expected], of the kinds the switch lists. *)
Definition dynamic_state_value_count (kind : Z) : option Z :=
  match kind with
  | 1 | 2 | 3 | 4 | 5 | 6 | 7 | 8 | 10 | 11 | 12 | 18 => Some 1
  | 14 | 15 | 16 | 17 => Some 2
  | 13 => Some 3
  | 19 => Some 4
  | 9 => Some 5
  | _ => None
  end.

(** The kinds tested together by the code. *)
Definition is_enable_state (kind : Z) : bool :=
  (kind =? BVB_VULKAN_DYNAMIC_STATE_DEPTH_TEST_ENABLE) ||
  (kind =? BVB_VULKAN_DYNAMIC_STATE_DEPTH_WRITE_ENABLE) ||
  (kind =? BVB_VULKAN_DYNAMIC_STATE_DEPTH_BOUNDS_TEST_ENABLE) ||
  (kind =? BVB_VULKAN_DYNAMIC_STATE_STENCIL_TEST_ENABLE) ||
  (kind =? BVB_VULKAN_DYNAMIC_STATE_RASTERIZER_DISCARD_ENABLE) ||
  (kind =? BVB_VULKAN_DYNAMIC_STATE_DEPTH_BIAS_ENABLE) ||
  (kind =? BVB_VULKAN_DYNAMIC_STATE_PRIMITIVE_RESTART_ENABLE).
Definition is_stencil_face_state (kind : Z) : bool :=
  (kind =? BVB_VULKAN_DYNAMIC_STATE_STENCIL_COMPARE_MASK) ||
  (kind =? BVB_VULKAN_DYNAMIC_STATE_STENCIL_WRITE_MASK) ||
  (kind =? BVB_VULKAN_DYNAMIC_STATE_STENCIL_REFERENCE).
Definition is_float_state (kind : Z) : bool :=
  (kind =? BVB_VULKAN_DYNAMIC_STATE_DEPTH_BIAS) ||
  (kind =? BVB_VULKAN_DYNAMIC_STATE_DEPTH_BOUNDS) ||
  (kind =? BVB_VULKAN_DYNAMIC_STATE_LINE_WIDTH) ||
  (kind =? BVB_VULKAN_DYNAMIC_STATE_BLEND_CONSTANTS).

Definition valid_dynamic_state (payload : bytes) : result unit :=
  let kind := bvb_wire_get_u32 payload 0 in
  let count := bvb_wire_get_u32 payload 4 in
  match dynamic_state_value_count kind with
  | None => Err (- EPROTO)
  | Some expected =>
    fail_if negb (count =? expected) with (- EPROTO) ;;
    let values index := bvb_wire_get_u32 payload (8 + index * 4) in
    fail_if negb (for_all BVB_COMMAND_VULKAN_MAX_DYNAMIC_STATE_VALUES
      (fun index => negb ((count <=? index) && negb (values index =? 0))))
      with (- EPROTO) ;;
    fail_if ((kind =? BVB_VULKAN_DYNAMIC_STATE_CULL_MODE) &&
             negb (outside (values 0) 3 =? 0)) ||
            ((kind =? BVB_VULKAN_DYNAMIC_STATE_FRONT_FACE) &&
             (1 <? values 0)) ||
            ((kind =? BVB_VULKAN_DYNAMIC_STATE_PRIMITIVE_TOPOLOGY) &&
             (14 <? values 0)) ||
            ((kind =? BVB_VULKAN_DYNAMIC_STATE_DEPTH_COMPARE_OP) &&
             (7 <? values 0)) with (- EPROTO) ;;
    fail_if is_enable_state kind && (1 <? values 0) with (- EPROTO) ;;
    fail_if (kind =? BVB_VULKAN_DYNAMIC_STATE_STENCIL_OP) &&
            (negb (outside (values 0) 3 =? 0) || (values 0 =? 0) ||
             (7 <? values 1) || (7 <? values 2) || (7 <? values 3) ||
             (7 <? values 4)) with (- EPROTO) ;;
    fail_if is_stencil_face_state kind &&
            (negb (outside (values 0) 3 =? 0) || (values 0 =? 0))
      with (- EPROTO) ;;
    fail_if is_float_state kind &&
            negb (for_all count (fun index =>
                    float_word_is_finite (values index))) with (- EPROTO) ;;
    fail_if (kind =? BVB_VULKAN_DYNAMIC_STATE_DEPTH_BOUNDS) &&
            (float_lt (get_float payload 8) f_0 ||
             float_lt f_1 (get_float payload 8) ||
             float_lt (get_float payload 12) f_0 ||
             float_lt f_1 (get_float payload 12) ||
             float_lt (get_float payload 12) (get_float payload 8))
      with (- EPROTO) ;;
    fail_if (kind =? BVB_VULKAN_DYNAMIC_STATE_LINE_WIDTH) &&
            float_le (get_float payload 8) f_0 with (- EPROTO) ;;
    Ok tt
  end.

Definition dynamic_state_payload
    (command : ptr bvb_vulkan_dynamic_state_command) : result bytes :=
  deref command := command or (- EINVAL) ;;
  fail_if BVB_COMMAND_VULKAN_MAX_DYNAMIC_STATE_VALUES <?
            command.(dys_value_count) with (- EINVAL) ;;
  let payload := blank BVB_VULKAN_DYNAMIC_STATE_SIZE in
  let payload := bvb_wire_put_u32 payload 0 command.(dys_kind) in
  let payload := bvb_wire_put_u32 payload 4 command.(dys_value_count) in
  try payload := for_loop command.(dys_value_count) (fun index payload =>
    Ok (write_window payload (8 + index * 4) 4
          (fun output => bvb_wire_put_u32 output 0
                           (elt 0 command.(dys_values) index)))) payload ;;
  fail_if negb (is_ok (valid_dynamic_state payload)) with (- EINVAL) ;;
  Ok payload.

Definition bvb_command_decode_vulkan_dynamic_state
    (record : ptr bvb_command_record)
    (command : ptr bvb_vulkan_dynamic_state_command) :
    result bvb_vulkan_dynamic_state_command :=
  try payload := record_of record
    (is_record BVB_COMMAND_VULKAN_DYNAMIC_STATE BVB_VULKAN_DYNAMIC_STATE_SIZE) ;;
  deref _ := command or (- EINVAL) ;;
  let value_count := bvb_wire_get_u32 payload 4 in
  fail_if BVB_COMMAND_VULKAN_MAX_DYNAMIC_STATE_VALUES <? value_count
    with (- EPROTO) ;;
  Ok {| dys_kind := bvb_wire_get_u32 payload 0;
        dys_value_count := value_count;
        dys_values :=
          fill_array value_count (fun index =>
            bvb_wire_get_u32 (payload +! (8 + index * 4)) 0)
            zero_dys.(dys_values) |}.

(** ** Contract of dynamic state *)

Lemma dynamic_state_value_count_le kind n :
  dynamic_state_value_count kind = Some n -> 0 < n <= 5.
Proof.
  unfold dynamic_state_value_count.
  repeat case_match; intros; simplify_eq; lia.
Qed.

(** Only the payload's forty bytes count. *)
Lemma valid_dynamic_state_agree p q :
  agree p q 0 40 -> valid_dynamic_state p = valid_dynamic_state q.
Proof.
  intros Ha.
  assert (Hw : forall j, 0 <= j -> j + 4 <= 40 ->
            bvb_wire_get_u32 p j = bvb_wire_get_u32 q j).
  { intros j ??. apply get_u32_agree. eapply agree_sub; [exact Ha|lia|lia]. }
  unfold valid_dynamic_state, get_float. cbv beta zeta. rewrite !Hw by lia.
  destruct (dynamic_state_value_count _) as [n|] eqn:E; [|done].
  apply dynamic_state_value_count_le in E.
  destruct (Z.eqb_spec (bvb_wire_get_u32 q 4) n) as [->|]; [|done].
  erewrite (for_all_ext 8); [|intros i Hi; rewrite Hw by lia; reflexivity].
  erewrite (for_all_ext n); [|intros i Hi; rewrite Hw by lia; reflexivity].
  reflexivity.
Qed.

(** What an accepted payload says of its words. *)
Lemma valid_dynamic_state_values q :
  valid_dynamic_state q = Ok tt ->
  0 < bvb_wire_get_u32 q 4 <= 5 /\
  (forall i, bvb_wire_get_u32 q 4 <= i < 8 ->
     bvb_wire_get_u32 q (8 + i * 4) = 0).
Proof.
  unfold valid_dynamic_state. cbv zeta.
  destruct (dynamic_state_value_count _) as [n|] eqn:E; [|done].
  apply dynamic_state_value_count_le in E. intros H. guards H.
  split_tests. rewrite for_all_spec in Ht0. split; [lia|].
  intros i Hi. specialize (Ht0 i ltac:(lia)).
  destruct (Z.leb_spec (bvb_wire_get_u32 q 4) i); [|lia].
  apply Z.eqb_eq. by destruct (bvb_wire_get_u32 q (8 + i * 4) =? 0).
Qed.

Definition dynamic_state_recorder : recorder bvb_vulkan_dynamic_state_command :=
  {| rc_opcodes op := op =? BVB_COMMAND_VULKAN_DYNAMIC_STATE;
     rc_pre _ := dys_rep;
     rc_payload _ := dynamic_state_payload;
     rc_length _ := BVB_VULKAN_DYNAMIC_STATE_SIZE;
     rc_valid _ := valid_dynamic_state;
     rc_decode := bvb_command_decode_vulkan_dynamic_state;
     rc_norm c :=
       {| dys_kind := c.(dys_kind);
          dys_value_count := c.(dys_value_count);
          dys_values := keep c.(dys_value_count) 0 c.(dys_values) |} |}.

Lemma is_ok_tt (r : result unit) : is_ok r = true -> r = Ok tt.
Proof. by destruct r as [[]|]. Qed.

Lemma dynamic_state_sound : payload_is_sound dynamic_state_recorder.
Proof.
  intros op v p q Hop Hpre Hp Hb Ha. destruct v. one_opcode Hop.
  begin_sound Hpre Hp Hb Ha. count_bound dys_value_count.
  destruct (for_loop dys_value_count _ _) as [p1|] eqn:Hp1; [|discriminate].
  guards Hp. injection Hp as <-. apply negb_false_iff, is_ok_tt in Ht0.
  array_ran u32_element 8 8 40 8%nat (fun _ : Z => true) dys_values Hp1.
  destruct (Hread q) as (_ & _ & Hk); [region_side Ha|].
  header_at Hq q 8 Ha.
  split_and!; [lia|lia|reflexivity| |intros old; open_decode].
  - cbn. by rewrite (valid_dynamic_state_agree q p1).
  - extent_read Hq; wire_read. use_tests. by rewrite <- Hk.
Qed.

Lemma dynamic_state_complete : payload_is_complete dynamic_state_recorder.
Proof.
  intros op q n Hop Hn Hb Hv. one_opcode Hop. cbn in Hn, Hv.
  apply Z.eqb_eq in Hn. subst n. plain_sizes.
  destruct (valid_dynamic_state_values q Hv) as [Hc Hz].
  assert (Hc8 : (8 <? bvb_wire_get_u32 q 4) = false) by lia.
  apply complete_intro. eexists.
  split; [intros; open_decode; use_tests; reflexivity|].
  destruct (decoded_array u32_element (bvb_wire_get_u32 q 4)
    (fun i => q +! (8 + i * 4)) 8) as [Hrep Hkeep]; [lia|].
  split; [split; [solve_rep|cbn; f_equal; exact Hkeep]|].
  encode_again.
  array_runs u32_element 8 8 40 8%nat (fun _ : Z => true) q.
  { done. }
  { intros i Hi. cbn. apply get_u32_rd8.
    rewrite get_u32_blank, get_u32_ptr_add, Z.add_0_r by lia. apply Hz, Hi. }
  assert (Ho : agree out q 0 40).
  { apply (agree_join _ _ 0 8 32); [|exact Hagree].
    eapply agree_trans; [apply Hframe; lia|]. agree_words. }
  exists out. rewrite (valid_dynamic_state_agree out q) by done. rewrite Hv. done.
Qed.

Lemma valid_dynamic_state_error q e :
  valid_dynamic_state q = Err e -> e = - EPROTO.
Proof.
  unfold valid_dynamic_state. cbv zeta.
  destruct (dynamic_state_value_count _); [|by intros [= <-]].
  intros H. payload_err H.
Qed.

#[export] Instance dynamic_state_recorded : Recorded dynamic_state_recorder.
Proof.
  constructor; [solve_opcode|solve_payload_null|solve_payload_error
    |intros op; exact valid_dynamic_state_error
    |exact dynamic_state_sound|exact dynamic_state_complete].
Qed.

(** ** Contract of vertex buffers

    The payload after its header is four columns of sixteen words; the turn
    of index [n] writes word [n] of each column that is present. *)

Definition slot (c j : Z) : Z := 16 + c * 128 + j * 8.

Section columns.
Context (present : Z -> Z) (raw : Z -> Z -> Z) (header : bytes).

Definition column_value (c j : Z) : Z :=
  if negb (present c =? 0) then raw c j else 0.

Definition put_column (c n : Z) (out : bytes) : bytes :=
  if negb (present c =? 0) then bvb_wire_put_u64 out (slot c n) (raw c n)
  else out.

(** The turns before [n] are done, and of turn [n] the columns before
    [k]. *)
Definition columns (k n : Z) (out : bytes) : Prop :=
  blen out = 528 /\ agree out header 0 16 /\
  (forall c j, 0 <= c < 4 -> 0 <= j < 16 ->
     bvb_wire_get_u64 out (slot c j) =
       if (j <? n) || ((j =? n) && (c <? k)) then column_value c j else 0).

Hypothesis Hraw : forall c j, 0 <= c < 4 -> 0 <= j < 16 ->
  is_u64 (raw c j) = true.

Lemma column_step k n out :
  0 <= k < 4 -> 0 <= n < 16 -> columns k n out ->
  columns (k + 1) n (put_column k n out).
Proof.
  intros Hk Hn (Hl & Hh & Hs). unfold put_column, columns.
  destruct (negb (present k =? 0)) eqn:Ep; split_and!; try done.
  - by rewrite blen_put_u64.
  - eapply agree_trans; [|exact Hh].
    apply agree_put_u64; unfold disjoint, slot; lia.
  - intros c j Hc Hj. destruct (decide (c = k /\ j = n)) as [[-> ->]|Hne].
    + rewrite get_u64_put_u64 by (try apply Hraw; unfold slot; lia).
      unfold column_value. rewrite Ep.
      replace ((n <? n) || _) with true by lia. done.
    + rewrite (get_u64_agree _ out), Hs
        by (done || apply agree_put_u64; unfold disjoint, slot; lia).
      by replace ((j =? n) && (c <? k + 1)) with ((j =? n) && (c <? k)) by lia.
  - intros c j Hc Hj. rewrite Hs by done.
    destruct (decide (c = k /\ j = n)) as [[-> ->]|Hne].
    + replace ((n <? n) || _) with false by lia.
      unfold column_value. rewrite Ep. by destruct (_ || _).
    + by replace ((j =? n) && (c <? k + 1)) with ((j =? n) && (c <? k)) by lia.
Qed.

Lemma columns_turn n out :
  0 <= n < 16 -> columns 0 n out ->
  columns 0 (n + 1)
    (put_column 3 n (put_column 2 n (put_column 1 n (put_column 0 n out)))).
Proof.
  intros Hn H.
  apply (column_step 0 n) in H; [|lia..]. apply (column_step 1 n) in H; [|lia..].
  apply (column_step 2 n) in H; [|lia..]. apply (column_step 3 n) in H; [|lia..].
  destruct H as (Hl & Hh & Hs). split_and!; [done|done|].
  intros c j Hc Hj. rewrite Hs by done.
  by replace ((j <? n) || ((j =? n) && (c <? 3 + 1)))
    with ((j <? n + 1) || ((j =? n + 1) && (c <? 0))) by lia.
Qed.

Context (count : Z) (ok : Z -> bool) (body : Z -> bytes -> result bytes).
Hypothesis Hcount : 0 <= count <= 16.
Hypothesis Hbody : forall i out, 0 <= i < count ->
  body i out =
    if ok i then
      Ok (put_column 3 i (put_column 2 i (put_column 1 i (put_column 0 i out))))
    else Err (- EINVAL).

Lemma columns_inv out out' :
  columns 0 0 out -> for_loop count body out = Ok out' ->
  (forall i, 0 <= i < count -> ok i = true) /\ columns 0 count out'.
Proof.
  intros H0 H.
  apply (for_loop_inv (fun n o =>
    (forall i, 0 <= i < n -> ok i = true) /\ columns 0 n o) body count out);
    [lia| |split; [lia|done]|done].
  intros i t t' Hi [Hok Hc] E. rewrite Hbody in E by done.
  destruct (ok i) eqn:Eo; [injection E as <-|discriminate]. split.
  - intros j Hj. destruct (decide (j = i)) as [->|]; [done|apply Hok; lia].
  - apply columns_turn; [lia|done].
Qed.

Lemma columns_ok out :
  columns 0 0 out -> (forall i, 0 <= i < count -> ok i = true) ->
  exists out', for_loop count body out = Ok out' /\ columns 0 count out'.
Proof.
  intros H0 Hok. apply for_loop_ok; [lia| |done].
  intros i t Hi Ht. rewrite Hbody, Hok by done.
  eexists. split; [done|]. apply columns_turn; [lia|done].
Qed.

Lemma columns_read q out c j :
  columns 0 count out -> agree q out 0 528 -> 0 <= c < 4 -> 0 <= j < 16 ->
  bvb_wire_get_u64 q (slot c j) = if j <? count then column_value c j else 0.
Proof.
  intros (_ & _ & Hs) Ha Hc Hj.
  rewrite (get_u64_agree q out), Hs;
    [|done|done|eapply agree_sub; [exact Ha|unfold slot; lia..]].
  replace ((j =? count) && (c <? 0)) with false by lia. by rewrite orb_false_r.
Qed.
End columns.

Lemma columns_start present raw hdr :
  blen hdr = 528 -> agree hdr (blank 528) 16 512 ->
  columns present raw hdr 0 0 hdr.
Proof.
  intros Hl Ha. split_and!; [done|apply agree_refl|]. intros c j Hc Hj.
  replace ((j <? 0) || _) with false by lia.
  rewrite (get_u64_agree _ (blank 528)), get_u64_blank; [done|].
  eapply agree_sub; [exact Ha|unfold slot; lia..].
Qed.

Lemma agree_columns a b :
  (forall c j, 0 <= c < 4 -> 0 <= j < 16 ->
     bvb_wire_get_u64 a (slot c j) = bvb_wire_get_u64 b (slot c j)) ->
  agree a b 16 512.
Proof.
  intros H k Hk. set (c := (k - 16) / 128). set (j := ((k - 16) mod 128) / 8).
  specialize (H c j). apply get_u64_rd8 in H.
  - apply H. unfold slot, c, j. Z.div_mod_to_equations. lia.
  - unfold c. Z.div_mod_to_equations. lia.
  - unfold j. Z.div_mod_to_equations. lia.
Qed.

Definition vertex_present (command : bvb_vulkan_bind_vertex_buffers_command)
    (c : Z) : Z :=
  if c <? 2 then 1
  else if c =? 2 then command.(bvt_has_sizes) else command.(bvt_has_strides).

Definition vertex_raw (command : bvb_vulkan_bind_vertex_buffers_command)
    (c j : Z) : Z :=
  elt 0 (if c =? 0 then command.(bvt_buffer_ids)
         else if c =? 1 then command.(bvt_offsets)
         else if c =? 2 then command.(bvt_sizes) else command.(bvt_strides)) j.

(** An array that is sent only when its flag is set. *)
Definition optional_column (present : Z) (column : list Z) : list Z :=
  if negb (present =? 0) then column else replicate 16 0.

Definition bind_vertex_buffers_recorder :
    recorder bvb_vulkan_bind_vertex_buffers_command :=
  {| rc_opcodes := is_vertex_opcode;
     rc_pre _ := bvt_rep;
     rc_payload := bind_vertex_buffers_payload;
     rc_length _ := BVB_VULKAN_BIND_VERTEX_BUFFERS_SIZE;
     rc_valid := valid_bind_vertex_buffers;
     rc_decode := bvb_command_decode_vulkan_bind_vertex_buffers;
     rc_norm c :=
       {| bvt_first_binding := c.(bvt_first_binding);
          bvt_binding_count := c.(bvt_binding_count);
          bvt_has_sizes := c.(bvt_has_sizes);
          bvt_has_strides := c.(bvt_has_strides);
          bvt_buffer_ids := keep c.(bvt_binding_count) 0 c.(bvt_buffer_ids);
          bvt_offsets := keep c.(bvt_binding_count) 0 c.(bvt_offsets);
          bvt_sizes :=
            keep c.(bvt_binding_count) 0
              (optional_column c.(bvt_has_sizes) c.(bvt_sizes));
          bvt_strides :=
            keep c.(bvt_binding_count) 0
              (optional_column c.(bvt_has_strides) c.(bvt_strides)) |} |}.

(** The loop of the encoder, by columns. *)
Definition vertex_id_ok (ids : list Z) (i : Z) : bool :=
  negb (negb (elt 0 ids i =? 0) && negb (expects (elt 0 ids i) BVB_OBJECT_BUFFER)).

Lemma elt_replicate i n : elt 0 (replicate n 0) i = 0.
Proof.
  rewrite elt_lookup. destruct (replicate n 0 !! Z.to_nat i) eqn:E; [|done].
  apply lookup_replicate in E. by destruct E.
Qed.

Lemma vertex_length op q n :
  is_vertex_opcode op = true ->
  payload_length_is_valid op (Some q) n = true <-> n = 528.
Proof.
  intros H. unfold is_vertex_opcode in H.
  assert (op = 24 \/ op = 25) as [-> | ->] by lia; cbn; plain_sizes; lia.
Qed.

Lemma vertex_raw_rep cmd c j :
  bvt_rep cmd = true -> 0 <= c < 4 -> 0 <= j < 16 ->
  is_u64 (vertex_raw cmd c j) = true.
Proof.
  unfold bvt_rep, vertex_raw. intros H Hc Hj. split_tests.
  repeat case_match; eapply array_rep_elt; eauto; lia.
Qed.

(** The turn of the encoder's loop, with the words of a command. *)
Lemma vertex_body cmd ids i payload :
  ids = cmd.(bvt_buffer_ids) ->
  (let id := elt 0 ids i in
   fail_if negb (id =? 0) && negb (expects id BVB_OBJECT_BUFFER)
     with (- EINVAL) ;;
   let payload := bvb_wire_put_u64 payload (vertex_ids + i * 8) id in
   let payload := bvb_wire_put_u64 payload (vertex_offsets + i * 8)
                    (elt 0 cmd.(bvt_offsets) i) in
   let payload :=
     if negb (cmd.(bvt_has_sizes) =? 0) then
       bvb_wire_put_u64 payload (vertex_sizes + i * 8) (elt 0 cmd.(bvt_sizes) i)
     else payload in
   let payload :=
     if negb (cmd.(bvt_has_strides) =? 0) then
       bvb_wire_put_u64 payload (vertex_strides + i * 8)
         (elt 0 cmd.(bvt_strides) i)
     else payload in
   Ok payload) =
  (if vertex_id_ok cmd.(bvt_buffer_ids) i then
     let put c out := put_column (vertex_present cmd) (vertex_raw cmd) c i out in
     Ok (put 3 (put 2 (put 1 (put 0 payload))))
   else Err (- EINVAL)).
Proof.
  intros ->. unfold vertex_id_ok. by destruct (_ && _).
Qed.

Lemma vertex_words cmd hdr count p q i :
  columns (vertex_present cmd) (vertex_raw cmd) hdr 0 count p ->
  agree q p 0 528 -> 0 <= i < 16 ->
  let word c := if i <? count
                then column_value (vertex_present cmd) (vertex_raw cmd) c i
                else 0 in
  bvb_wire_get_u64 q (vertex_ids + i * 8) = word 0 /\
  bvb_wire_get_u64 q (vertex_offsets + i * 8) = word 1 /\
  bvb_wire_get_u64 q (vertex_sizes + i * 8) = word 2 /\
  bvb_wire_get_u64 q (vertex_strides + i * 8) = word 3.
Proof.
  intros H Ha Hi word. unfold word.
  pose proof (fun c Hc => columns_read _ _ _ _ q p c i H Ha Hc Hi) as Hr.
  split_and!; [apply (Hr 0)|apply (Hr 1)|apply (Hr 2)|apply (Hr 3)]; lia.
Qed.

(** A column of the decoded command. *)
Lemma vertex_column count f arr :
  0 <= count <= 16 -> length arr = 16%nat ->
  (forall i, 0 <= i < 16 -> f i = if i <? count then elt 0 arr i else 0) ->
  fill_array count f (replicate 16 0) = keep count 0 arr.
Proof.
  intros Hc Hl Hf. apply fill_array_keep; [lia|done|].
  intros i Hi. rewrite Hf by lia. by replace (i <? count) with true by lia.
Qed.

Lemma elt_optional_column present arr i :
  elt 0 (optional_column present arr) i =
  if negb (present =? 0) then elt 0 arr i else 0.
Proof.
  unfold optional_column. destruct (negb _); [done|]. apply elt_replicate.
Qed.

Lemma length_optional_column present arr :
  length arr = 16%nat -> length (optional_column present arr) = 16%nat.
Proof.
  unfold optional_column. destruct (negb _); [done|]. by rewrite length_replicate.
Qed.

Lemma bind_vertex_buffers_sound :
  payload_is_sound bind_vertex_buffers_recorder.
Proof.
  intros op v p q Hop Hpre Hp Hb Ha. cbn in Hop.
  cbn in Hpre, Hp, Hb, Ha |- *. unfold bind_vertex_buffers_payload in Hp.
  rewrite Hop in Hp. cbn in Hp.
  pose proof (fun c j => vertex_raw_rep v c j Hpre) as Hraw.
  unfold bvt_rep in Hpre. split_tests. guards Hp. split_tests.
  count_bound v.(bvt_binding_count). rewrite memset0_blank in Hp by (vm_compute; done).
  match type of Hp with for_loop _ ?b ?h = _ =>
    set (hdr := h) in *;
    destruct (columns_inv (vertex_present v) (vertex_raw v) hdr Hraw
      v.(bvt_binding_count) (vertex_id_ok v.(bvt_buffer_ids)) b ltac:(lia)
      (fun i out _ => vertex_body v _ i out eq_refl) hdr p) as [Hok Hcols]
  end.
  { apply columns_start; unfold hdr; plain_sizes; header_side. }
  { exact Hp. }
  plain_sizes. assert (Hlp : blen p = 528) by apply Hcols.
  pose proof (fun i => vertex_words _ _ _ p q i Hcols Ha) as Hq. cbv zeta in Hq.
  assert (Hh : agree q hdr 0 16).
  { eapply agree_trans; [read_region Ha|apply Hcols]. }
  unfold hdr in Hh. plain_sizes.
  split_and!; [lia|lia|by apply vertex_length|
    |intros old; open_decode; rewrite Hop; cbn]; [unfold valid_bind_vertex_buffers; plain_sizes|];
    extent_read Hh; wire_read; use_tests.
  - rewrite for_all_unused.
    rewrite (proj2 (for_all_split v.(bvt_binding_count) 16 _ _ ltac:(lia)));
      [done|].
    split; intros i Hi; destruct (Hq i ltac:(lia)) as (E0 & E1 & E2 & E3);
      rewrite E0, ?E1, E2, E3.
    + replace (i <? bvt_binding_count v) with true by lia.
      specialize (Hok i Hi). unfold vertex_id_ok, column_value, vertex_raw in *. cbn.
      apply negb_true_iff in Hok. rewrite Hok.
      by destruct (bvt_has_sizes v =? 0), (bvt_has_strides v =? 0).
    + by replace (i <? bvt_binding_count v) with false by lia.
  - pose proof (fun ws H => Nat2Z.inj _ 16 (array_rep_length 16 is_u64 ws H)) as Hl.
    f_equal. f_equal; (apply vertex_column; [lia|auto using length_optional_column|]);
      intros i Hi; rewrite ?elt_optional_column; by apply Hq.
Qed.

Definition decoded_vertex_buffers (q : bytes) :
    bvb_vulkan_bind_vertex_buffers_command :=
  let count := bvb_wire_get_u32 q 4 in
  let column first :=
    fill_array count (fun i => bvb_wire_get_u64 q (first + i * 8))
      (replicate 16 0) in
  mk_bvt (bvb_wire_get_u32 q 0) count (bvb_wire_get_u32 q 8)
    (bvb_wire_get_u32 q 12) (column vertex_ids) (column vertex_offsets)
    (column vertex_sizes) (column vertex_strides).

Lemma decoded_vertex_rep q :
  0 <= bvb_wire_get_u32 q 4 <= 16 -> bvt_rep (decoded_vertex_buffers q) = true.
Proof.
  intros Hc. unfold bvt_rep. cbn. rewrite !get_u32_range. cbn.
  rewrite !(array_rep_fill _ _ 0 is_u64 16); auto using get_u64_range; lia.
Qed.

(** An accepted payload holds the words its command has. *)
Lemma valid_vertex_words op q :
  valid_bind_vertex_buffers op q = Ok tt ->
  let v := decoded_vertex_buffers q in
  0 < bvb_wire_get_u32 q 4 <= 16 /\
  (forall i, 0 <= i < bvb_wire_get_u32 q 4 ->
     vertex_id_ok v.(bvt_buffer_ids) i = true) /\
  (forall c i, 0 <= c < 4 -> 0 <= i < 16 ->
     bvb_wire_get_u64 q (slot c i) =
       if i <? bvb_wire_get_u32 q 4
       then column_value (vertex_present v) (vertex_raw v) c i else 0).
Proof.
  intros Hv v. count_bound (bvb_wire_get_u32 q 4).
  unfold valid_bind_vertex_buffers in Hv. cbv zeta in Hv.
  guards Hv. clear Hv. split_tests. rewrite for_all_unused in Ht0.
  apply for_all_split in Ht0 as [Hu Hz]; [|lia]. split; [lia|].
  assert (Hr : forall c i, 0 <= c < 4 -> 0 <= i < bvb_wire_get_u32 q 4 ->
            vertex_raw v c i = bvb_wire_get_u64 q (slot c i)).
  { intros c i Hc Hi. unfold vertex_raw.
    assert (c = 0 \/ c = 1 \/ c = 2 \/ c = 3) as [-> | [-> | [-> | ->]]] by lia;
      cbn; by rewrite elt_fill_array by lia. }
  split.
  - intros i Hi. unfold vertex_id_ok. specialize (Hu i Hi).
    rewrite (Hr 0 i ltac:(lia) Hi : elt 0 v.(bvt_buffer_ids) i = _).
    change (slot 0 i) with (vertex_ids + i * 8).
    by destruct (negb _ && negb _).
  - intros c i Hc Hi. destruct (Z.ltb_spec i (bvb_wire_get_u32 q 4)) as [Hlt|Hge].
    + specialize (Hu i ltac:(lia)). unfold column_value.
      destruct (negb (vertex_present v c =? 0)) eqn:Ep; [by rewrite Hr by lia|].
      apply negb_true_iff in Hu. split_tests.
      assert (c = 0 \/ c = 1 \/ c = 2 \/ c = 3) as [-> | [-> | [-> | ->]]] by lia;
        cbn in Ep; try discriminate;
        [change (slot 2 i) with (vertex_sizes + i * 8)
        |change (slot 3 i) with (vertex_strides + i * 8)];
        apply negb_false_iff in Ep; use_tests; lia.
    + specialize (Hz i ltac:(lia)). apply negb_true_iff in Hz. split_tests.
      assert (c = 0 \/ c = 1 \/ c = 2 \/ c = 3) as [-> | [-> | [-> | ->]]] by lia;
        [change (slot 0 i) with (vertex_ids + i * 8)
        |change (slot 1 i) with (vertex_offsets + i * 8)
        |change (slot 2 i) with (vertex_sizes + i * 8)
        |change (slot 3 i) with (vertex_strides + i * 8)]; lia.
Qed.

Lemma bind_vertex_buffers_complete :
  payload_is_complete bind_vertex_buffers_recorder.
Proof.
  intros op q n Hop Hn Hb Hv. cbn in Hop, Hv.
  apply vertex_length in Hn; [subst n|done].
  destruct (valid_vertex_words op q Hv) as (Hc & Hok & Hw). cbv zeta in Hw.
  unfold valid_bind_vertex_buffers in Hv. cbv zeta in Hv.
  guards Hv. clear Hv Ht0. split_tests.
  set (v := decoded_vertex_buffers q) in *.
  pose proof (decoded_vertex_rep q ltac:(lia)) as Hrep.
  apply complete_intro. exists v.
  split; [intros; open_decode; rewrite Hop; reflexivity|].
  split; [split; [exact Hrep|]|].
  { cbn. pose proof (fun first => length_fill_from (Z.to_nat (bvb_wire_get_u32 q 4))
      (fun i => bvb_wire_get_u64 q (first + i * 8)) 0 (replicate 16 0)) as Hl.
    unfold v, decoded_vertex_buffers. cbn. f_equal;
      [apply keep_fill_array; lia|apply keep_fill_array; lia|symmetry..];
      (apply vertex_column;
       [lia|apply length_optional_column; apply Hl|];
       intros i Hi; rewrite elt_optional_column).
    - exact (Hw 2 i ltac:(lia) Hi).
    - exact (Hw 3 i ltac:(lia) Hi). }
  cbn. unfold bind_vertex_buffers_payload. rewrite Hop. encode_again.
  match goal with |- context [for_loop ?n ?b ?h] =>
    set (hdr := h);
    destruct (columns_ok (vertex_present v) (vertex_raw v) hdr
      (fun c j => vertex_raw_rep v c j Hrep) n (vertex_id_ok v.(bvt_buffer_ids))
      b ltac:(lia) (fun i out _ => vertex_body v _ i out eq_refl) hdr)
      as (out & Hrun & Hcols)
  end; [apply columns_start; unfold hdr; plain_sizes; header_side|exact Hok|].
  exists out. split_and!; [done|exact Hrun|].
  apply (agree_join _ _ 0 16 512).
  - eapply agree_trans; [apply Hcols|]. unfold hdr. agree_words.
  - apply agree_columns. intros c j Hcj Hj. rewrite Hw by done.
    exact (columns_read _ _ _ _ out out c j Hcols (agree_refl _ _ _) Hcj Hj).
Qed.

#[export] Instance bind_vertex_buffers_recorded :
  Recorded bind_vertex_buffers_recorder.
Proof.
  constructor;
  [ | intros op; cbn; unfold bind_vertex_buffers_payload;
      by destruct (negb (is_vertex_opcode op))
  | solve_payload_error | solve_valid_error
  | exact bind_vertex_buffers_sound | exact bind_vertex_buffers_complete ].
  cbn. unfold is_vertex_opcode, is_u16. intros. lia.
Qed.
