(* ===== verification/CommandDispatch.v ===== *)
(** * CommandDispatch: the commands as one type

    The switch of [validate_payload] in src/command_batch.c over the opcodes,
    and the type of all commands, with what the functions of the previous
    files do of each.  The three lemmas at the end are the interface the
    batch builder and validator are proved against: an encoded command is
    accepted and decoded, an accepted payload is the encoding of a command,
    and a refusal is always [-EPROTO]. *)

From S2P Require Import Prelude Wire Codec Window Element CommandTypes CommandBase CommandElements CommandArrays CommandFixed CommandTransfer CommandBarrier CommandState CommandBindings.

(** ** The validator's switch *)

Definition validate_payload (opcode : Z) (payload : ptr bytes) : result unit :=
  let payload := pointee payload in
  match opcode with
  | 1 => valid_begin_rendering payload
  | 2 => valid_bind_graphics_pipeline payload
  | 3 => valid_set_viewport payload
  | 4 => valid_set_scissor payload
  | 5 => valid_draw payload
  | 7 => valid_fill_buffer payload
  | 8 => valid_buffer_host_read_barrier payload
  | 9 => valid_push_rotation payload
  | 10 => valid_image_barrier_2 payload
  | 11 => valid_clear_color_image_general payload
  | 12 => valid_bind_descriptor_sets payload
  | 13 => valid_push_constants payload
  | 14 | 15 | 16 | 17 | 18 | 19 => valid_transfer opcode payload
  | 20 => valid_vulkan_begin payload
  | 21 => valid_vulkan_clear_color_image payload
  | 22 => valid_init_image_barrier payload
  | 24 | 25 => valid_bind_vertex_buffers opcode payload
  | 26 | 27 => valid_bind_index_buffer opcode payload
  | 28 => valid_draw_indexed payload
  | 29 | 30 => valid_draw_indirect opcode payload
  | 31 | 32 => valid_draw_indirect_count opcode payload
  | 33 => valid_dynamic_state payload
  | 34 => valid_clear_depth_stencil_image payload
  | 35 => valid_clear_attachments payload
  | 36 => valid_update_buffer payload
  | 37 => valid_query payload
  | 6 | 23 => Ok tt
  | _ => Err (- EPROTO)
  end.

(** ** Commands

    The commands sent under several opcodes carry theirs. *)
Inductive bvb_command :=
| command_begin_rendering (command : bvb_begin_rendering_command)
| command_bind_graphics_pipeline (command : bvb_bind_graphics_pipeline_command)
| command_push_rotation (command : bvb_push_rotation_command)
| command_set_viewport (command : bvb_set_viewport_command)
| command_set_scissor (command : bvb_set_scissor_command)
| command_draw (command : bvb_draw_command)
| command_fill_buffer (command : bvb_fill_buffer_command)
| command_buffer_host_read_barrier (command : bvb_buffer_host_read_barrier_command)
| command_vulkan_begin (command : bvb_vulkan_begin_command)
| command_vulkan_clear_color_image (command : bvb_vulkan_clear_color_image_command)
| command_init_image_barrier (command : bvb_vulkan_init_image_barrier_command)
| command_image_barrier_2 (command : bvb_vulkan_image_barrier_2_command)
| command_clear_color_image_general (command : bvb_vulkan_clear_color_image_general_command)
| command_bind_descriptor_sets (command : bvb_vulkan_bind_descriptor_sets_command)
| command_push_constants (command : bvb_vulkan_push_constants_command)
| command_transfer (opcode : Z) (command : bvb_vulkan_transfer_command)
| command_bind_vertex_buffers (opcode : Z) (command : bvb_vulkan_bind_vertex_buffers_command)
| command_bind_index_buffer (opcode : Z) (command : bvb_vulkan_bind_index_buffer_command)
| command_draw_indexed (command : bvb_vulkan_draw_indexed_command)
| command_draw_indirect (opcode : Z) (command : bvb_vulkan_draw_indirect_command)
| command_draw_indirect_count (opcode : Z) (command : bvb_vulkan_draw_indirect_count_command)
| command_dynamic_state (command : bvb_vulkan_dynamic_state_command)
| command_clear_depth_stencil_image (command : bvb_vulkan_clear_depth_stencil_image_command)
| command_clear_attachments (command : bvb_vulkan_clear_attachments_command)
| command_update_buffer (command : bvb_vulkan_update_buffer_command)
| command_query (command : bvb_vulkan_query_command)
| command_end_rendering
| command_vulkan_end.

Definition command_opcode (c : bvb_command) : Z :=
  match c with
  | command_begin_rendering _ => BVB_COMMAND_BEGIN_RENDERING
  | command_bind_graphics_pipeline _ => BVB_COMMAND_BIND_GRAPHICS_PIPELINE
  | command_push_rotation _ => BVB_COMMAND_PUSH_ROTATION
  | command_set_viewport _ => BVB_COMMAND_SET_VIEWPORT
  | command_set_scissor _ => BVB_COMMAND_SET_SCISSOR
  | command_draw _ => BVB_COMMAND_DRAW
  | command_fill_buffer _ => BVB_COMMAND_FILL_BUFFER
  | command_buffer_host_read_barrier _ => BVB_COMMAND_BUFFER_HOST_READ_BARRIER
  | command_vulkan_begin _ => BVB_COMMAND_VULKAN_BEGIN
  | command_vulkan_clear_color_image _ => BVB_COMMAND_VULKAN_CLEAR_COLOR_IMAGE
  | command_init_image_barrier _ => BVB_COMMAND_VULKAN_INIT_IMAGE_BARRIER
  | command_image_barrier_2 _ => BVB_COMMAND_VULKAN_IMAGE_BARRIER_2
  | command_clear_color_image_general _ => BVB_COMMAND_VULKAN_CLEAR_COLOR_IMAGE_GENERAL
  | command_bind_descriptor_sets _ => BVB_COMMAND_VULKAN_BIND_DESCRIPTOR_SETS
  | command_push_constants _ => BVB_COMMAND_VULKAN_PUSH_CONSTANTS
  | command_transfer opcode _ => opcode
  | command_bind_vertex_buffers opcode _ => opcode
  | command_bind_index_buffer opcode _ => opcode
  | command_draw_indexed _ => BVB_COMMAND_VULKAN_DRAW_INDEXED
  | command_draw_indirect opcode _ => opcode
  | command_draw_indirect_count opcode _ => opcode
  | command_dynamic_state _ => BVB_COMMAND_VULKAN_DYNAMIC_STATE
  | command_clear_depth_stencil_image _ => BVB_COMMAND_VULKAN_CLEAR_DEPTH_STENCIL_IMAGE
  | command_clear_attachments _ => BVB_COMMAND_VULKAN_CLEAR_ATTACHMENTS
  | command_update_buffer _ => BVB_COMMAND_VULKAN_UPDATE_BUFFER
  | command_query _ => BVB_COMMAND_VULKAN_QUERY
  | command_end_rendering => BVB_COMMAND_END_RENDERING
  | command_vulkan_end => BVB_COMMAND_VULKAN_END
  end.

(** The local array of the [append] function, and how much of it is sent. *)
Definition command_payload (c : bvb_command) : result bytes :=
  match c with
  | command_begin_rendering command => begin_rendering_payload (Some command)
  | command_bind_graphics_pipeline command => bind_graphics_pipeline_payload (Some command)
  | command_push_rotation command => push_rotation_payload (Some command)
  | command_set_viewport command => set_viewport_payload (Some command)
  | command_set_scissor command => set_scissor_payload (Some command)
  | command_draw command => draw_payload (Some command)
  | command_fill_buffer command => fill_buffer_payload (Some command)
  | command_buffer_host_read_barrier command => buffer_host_read_barrier_payload (Some command)
  | command_vulkan_begin command => vulkan_begin_payload (Some command)
  | command_vulkan_clear_color_image command => vulkan_clear_color_image_payload (Some command)
  | command_init_image_barrier command => init_image_barrier_payload (Some command)
  | command_image_barrier_2 command => image_barrier_2_payload (Some command)
  | command_clear_color_image_general command => clear_color_image_general_payload (Some command)
  | command_bind_descriptor_sets command => bind_descriptor_sets_payload (Some command)
  | command_push_constants command => push_constants_payload (Some command)
  | command_transfer opcode command => transfer_payload opcode (Some command)
  | command_bind_vertex_buffers opcode command => bind_vertex_buffers_payload opcode (Some command)
  | command_bind_index_buffer opcode command => bind_index_buffer_payload opcode (Some command)
  | command_draw_indexed command => draw_indexed_payload (Some command)
  | command_draw_indirect opcode command => draw_indirect_payload opcode (Some command)
  | command_draw_indirect_count opcode command => draw_indirect_count_payload opcode (Some command)
  | command_dynamic_state command => dynamic_state_payload (Some command)
  | command_clear_depth_stencil_image command => clear_depth_stencil_image_payload (Some command)
  | command_clear_attachments command => clear_attachments_payload (Some command)
  | command_update_buffer command => update_buffer_payload (Some command)
  | command_query command => query_payload (Some command)
  | command_end_rendering | command_vulkan_end => Ok []
  end.

Definition command_length (c : bvb_command) : Z :=
  match c with
  | command_begin_rendering command => begin_rendering_recorder.(rc_length) command
  | command_bind_graphics_pipeline command => bind_graphics_pipeline_recorder.(rc_length) command
  | command_push_rotation command => push_rotation_recorder.(rc_length) command
  | command_set_viewport command => set_viewport_recorder.(rc_length) command
  | command_set_scissor command => set_scissor_recorder.(rc_length) command
  | command_draw command => draw_recorder.(rc_length) command
  | command_fill_buffer command => fill_buffer_recorder.(rc_length) command
  | command_buffer_host_read_barrier command => buffer_host_read_barrier_recorder.(rc_length) command
  | command_vulkan_begin command => vulkan_begin_recorder.(rc_length) command
  | command_vulkan_clear_color_image command => vulkan_clear_color_image_recorder.(rc_length) command
  | command_init_image_barrier command => init_image_barrier_recorder.(rc_length) command
  | command_image_barrier_2 command => image_barrier_2_recorder.(rc_length) command
  | command_clear_color_image_general command => clear_color_image_general_recorder.(rc_length) command
  | command_bind_descriptor_sets command => bind_descriptor_sets_recorder.(rc_length) command
  | command_push_constants command => push_constants_recorder.(rc_length) command
  | command_transfer opcode command => transfer_recorder.(rc_length) command
  | command_bind_vertex_buffers opcode command => bind_vertex_buffers_recorder.(rc_length) command
  | command_bind_index_buffer opcode command => bind_index_buffer_recorder.(rc_length) command
  | command_draw_indexed command => draw_indexed_recorder.(rc_length) command
  | command_draw_indirect opcode command => draw_indirect_recorder.(rc_length) command
  | command_draw_indirect_count opcode command => draw_indirect_count_recorder.(rc_length) command
  | command_dynamic_state command => dynamic_state_recorder.(rc_length) command
  | command_clear_depth_stencil_image command => clear_depth_stencil_image_recorder.(rc_length) command
  | command_clear_attachments command => clear_attachments_recorder.(rc_length) command
  | command_update_buffer command => update_buffer_recorder.(rc_length) command
  | command_query command => query_recorder.(rc_length) command
  | command_end_rendering | command_vulkan_end => 0
  end.

(** The command fits its C type and, where it carries it, its opcode. *)
Definition command_pre (c : bvb_command) : bool :=
  match c with
  | command_begin_rendering command => begin_rendering_recorder.(rc_pre) BVB_COMMAND_BEGIN_RENDERING command
  | command_bind_graphics_pipeline command => bind_graphics_pipeline_recorder.(rc_pre) BVB_COMMAND_BIND_GRAPHICS_PIPELINE command
  | command_push_rotation command => push_rotation_recorder.(rc_pre) BVB_COMMAND_PUSH_ROTATION command
  | command_set_viewport command => set_viewport_recorder.(rc_pre) BVB_COMMAND_SET_VIEWPORT command
  | command_set_scissor command => set_scissor_recorder.(rc_pre) BVB_COMMAND_SET_SCISSOR command
  | command_draw command => draw_recorder.(rc_pre) BVB_COMMAND_DRAW command
  | command_fill_buffer command => fill_buffer_recorder.(rc_pre) BVB_COMMAND_FILL_BUFFER command
  | command_buffer_host_read_barrier command => buffer_host_read_barrier_recorder.(rc_pre) BVB_COMMAND_BUFFER_HOST_READ_BARRIER command
  | command_vulkan_begin command => vulkan_begin_recorder.(rc_pre) BVB_COMMAND_VULKAN_BEGIN command
  | command_vulkan_clear_color_image command => vulkan_clear_color_image_recorder.(rc_pre) BVB_COMMAND_VULKAN_CLEAR_COLOR_IMAGE command
  | command_init_image_barrier command => init_image_barrier_recorder.(rc_pre) BVB_COMMAND_VULKAN_INIT_IMAGE_BARRIER command
  | command_image_barrier_2 command => image_barrier_2_recorder.(rc_pre) BVB_COMMAND_VULKAN_IMAGE_BARRIER_2 command
  | command_clear_color_image_general command => clear_color_image_general_recorder.(rc_pre) BVB_COMMAND_VULKAN_CLEAR_COLOR_IMAGE_GENERAL command
  | command_bind_descriptor_sets command => bind_descriptor_sets_recorder.(rc_pre) BVB_COMMAND_VULKAN_BIND_DESCRIPTOR_SETS command
  | command_push_constants command => push_constants_recorder.(rc_pre) BVB_COMMAND_VULKAN_PUSH_CONSTANTS command
  | command_transfer opcode command => 
      transfer_recorder.(rc_opcodes) opcode &&
      transfer_recorder.(rc_pre) opcode command
  | command_bind_vertex_buffers opcode command => 
      bind_vertex_buffers_recorder.(rc_opcodes) opcode &&
      bind_vertex_buffers_recorder.(rc_pre) opcode command
  | command_bind_index_buffer opcode command => 
      bind_index_buffer_recorder.(rc_opcodes) opcode &&
      bind_index_buffer_recorder.(rc_pre) opcode command
  | command_draw_indexed command => draw_indexed_recorder.(rc_pre) BVB_COMMAND_VULKAN_DRAW_INDEXED command
  | command_draw_indirect opcode command => 
      draw_indirect_recorder.(rc_opcodes) opcode &&
      draw_indirect_recorder.(rc_pre) opcode command
  | command_draw_indirect_count opcode command => 
      draw_indirect_count_recorder.(rc_opcodes) opcode &&
      draw_indirect_count_recorder.(rc_pre) opcode command
  | command_dynamic_state command => dynamic_state_recorder.(rc_pre) BVB_COMMAND_VULKAN_DYNAMIC_STATE command
  | command_clear_depth_stencil_image command => clear_depth_stencil_image_recorder.(rc_pre) BVB_COMMAND_VULKAN_CLEAR_DEPTH_STENCIL_IMAGE command
  | command_clear_attachments command => clear_attachments_recorder.(rc_pre) BVB_COMMAND_VULKAN_CLEAR_ATTACHMENTS command
  | command_update_buffer command => update_buffer_recorder.(rc_pre) BVB_COMMAND_VULKAN_UPDATE_BUFFER command
  | command_query command => query_recorder.(rc_pre) BVB_COMMAND_VULKAN_QUERY command
  | command_end_rendering | command_vulkan_end => true
  end.

(** What is sent of a command: its arrays up to their counts. *)
Definition command_norm (c : bvb_command) : bvb_command :=
  match c with
  | command_begin_rendering command =>
      command_begin_rendering (begin_rendering_recorder.(rc_norm) command)
  | command_bind_graphics_pipeline command =>
      command_bind_graphics_pipeline (bind_graphics_pipeline_recorder.(rc_norm) command)
  | command_push_rotation command =>
      command_push_rotation (push_rotation_recorder.(rc_norm) command)
  | command_set_viewport command =>
      command_set_viewport (set_viewport_recorder.(rc_norm) command)
  | command_set_scissor command =>
      command_set_scissor (set_scissor_recorder.(rc_norm) command)
  | command_draw command =>
      command_draw (draw_recorder.(rc_norm) command)
  | command_fill_buffer command =>
      command_fill_buffer (fill_buffer_recorder.(rc_norm) command)
  | command_buffer_host_read_barrier command =>
      command_buffer_host_read_barrier (buffer_host_read_barrier_recorder.(rc_norm) command)
  | command_vulkan_begin command =>
      command_vulkan_begin (vulkan_begin_recorder.(rc_norm) command)
  | command_vulkan_clear_color_image command =>
      command_vulkan_clear_color_image (vulkan_clear_color_image_recorder.(rc_norm) command)
  | command_init_image_barrier command =>
      command_init_image_barrier (init_image_barrier_recorder.(rc_norm) command)
  | command_image_barrier_2 command =>
      command_image_barrier_2 (image_barrier_2_recorder.(rc_norm) command)
  | command_clear_color_image_general command =>
      command_clear_color_image_general (clear_color_image_general_recorder.(rc_norm) command)
  | command_bind_descriptor_sets command =>
      command_bind_descriptor_sets (bind_descriptor_sets_recorder.(rc_norm) command)
  | command_push_constants command =>
      command_push_constants (push_constants_recorder.(rc_norm) command)
  | command_transfer opcode command =>
      command_transfer opcode (transfer_recorder.(rc_norm) command)
  | command_bind_vertex_buffers opcode command =>
      command_bind_vertex_buffers opcode (bind_vertex_buffers_recorder.(rc_norm) command)
  | command_bind_index_buffer opcode command =>
      command_bind_index_buffer opcode (bind_index_buffer_recorder.(rc_norm) command)
  | command_draw_indexed command =>
      command_draw_indexed (draw_indexed_recorder.(rc_norm) command)
  | command_draw_indirect opcode command =>
      command_draw_indirect opcode (draw_indirect_recorder.(rc_norm) command)
  | command_draw_indirect_count opcode command =>
      command_draw_indirect_count opcode (draw_indirect_count_recorder.(rc_norm) command)
  | command_dynamic_state command =>
      command_dynamic_state (dynamic_state_recorder.(rc_norm) command)
  | command_clear_depth_stencil_image command =>
      command_clear_depth_stencil_image (clear_depth_stencil_image_recorder.(rc_norm) command)
  | command_clear_attachments command =>
      command_clear_attachments (clear_attachments_recorder.(rc_norm) command)
  | command_update_buffer command =>
      command_update_buffer (update_buffer_recorder.(rc_norm) command)
  | command_query command =>
      command_query (query_recorder.(rc_norm) command)
  | command_end_rendering => command_end_rendering
  | command_vulkan_end => command_vulkan_end
  end.

(** The decoder of each opcode, given a record of it. *)
Definition decode_command (record : bvb_command_record) : result bvb_command :=
  let opcode := record.(rec_opcode) in
  match opcode with
  | 1 =>
      command_begin_rendering <$> bvb_command_decode_begin_rendering (Some record) (Some zero_br)
  | 2 =>
      command_bind_graphics_pipeline <$> bvb_command_decode_bind_graphics_pipeline (Some record) (Some zero_bgp)
  | 3 =>
      command_set_viewport <$> bvb_command_decode_set_viewport (Some record) (Some zero_sv)
  | 4 =>
      command_set_scissor <$> bvb_command_decode_set_scissor (Some record) (Some zero_sc)
  | 5 =>
      command_draw <$> bvb_command_decode_draw (Some record) (Some zero_dr)
  | 7 =>
      command_fill_buffer <$> bvb_command_decode_fill_buffer (Some record) (Some zero_fb)
  | 8 =>
      command_buffer_host_read_barrier <$> bvb_command_decode_buffer_host_read_barrier (Some record) (Some zero_hrb)
  | 9 =>
      command_push_rotation <$> bvb_command_decode_push_rotation (Some record) (Some zero_pr)
  | 10 =>
      command_image_barrier_2 <$> bvb_command_decode_vulkan_image_barrier_2 (Some record) (Some zero_ib2)
  | 11 =>
      command_clear_color_image_general <$> bvb_command_decode_vulkan_clear_color_image_general (Some record) (Some zero_ccg)
  | 12 =>
      command_bind_descriptor_sets <$> bvb_command_decode_vulkan_bind_descriptor_sets (Some record) (Some zero_bds)
  | 13 =>
      command_push_constants <$> bvb_command_decode_vulkan_push_constants (Some record) (Some zero_pc)
  | 14 | 15 | 16 | 17 | 18 | 19 =>
      command_transfer opcode <$> bvb_command_decode_vulkan_transfer (Some record) (Some zero_tf)
  | 20 =>
      command_vulkan_begin <$> bvb_command_decode_vulkan_begin (Some record) (Some zero_vb)
  | 21 =>
      command_vulkan_clear_color_image <$> bvb_command_decode_vulkan_clear_color_image (Some record) (Some zero_cci)
  | 22 =>
      command_init_image_barrier <$> bvb_command_decode_vulkan_init_image_barrier (Some record) (Some zero_iib)
  | 24 | 25 =>
      command_bind_vertex_buffers opcode <$> bvb_command_decode_vulkan_bind_vertex_buffers (Some record) (Some zero_bvt)
  | 26 | 27 =>
      command_bind_index_buffer opcode <$> bvb_command_decode_vulkan_bind_index_buffer (Some record) (Some zero_bix)
  | 28 =>
      command_draw_indexed <$> bvb_command_decode_vulkan_draw_indexed (Some record) (Some zero_dix)
  | 29 | 30 =>
      command_draw_indirect opcode <$> bvb_command_decode_vulkan_draw_indirect (Some record) (Some zero_did)
  | 31 | 32 =>
      command_draw_indirect_count opcode <$> bvb_command_decode_vulkan_draw_indirect_count (Some record) (Some zero_dic)
  | 33 =>
      command_dynamic_state <$> bvb_command_decode_vulkan_dynamic_state (Some record) (Some zero_dys)
  | 34 =>
      command_clear_depth_stencil_image <$> bvb_command_decode_vulkan_clear_depth_stencil_image (Some record) (Some zero_cds)
  | 35 =>
      command_clear_attachments <$> bvb_command_decode_vulkan_clear_attachments (Some record) (Some zero_cas)
  | 36 =>
      command_update_buffer <$> bvb_command_decode_vulkan_update_buffer (Some record) (Some zero_ub)
  | 37 =>
      command_query <$> bvb_command_decode_vulkan_query (Some record) (Some zero_qy)
  | 6 => Ok command_end_rendering
  | 23 => Ok command_vulkan_end
  | _ => Err (- EPROTO)
  end.

(** ** The two commands without a payload *)

Definition end_opcode (opcode : Z) : bool :=
  (opcode =? BVB_COMMAND_END_RENDERING) || (opcode =? BVB_COMMAND_VULKAN_END).

Definition end_recorder : recorder unit :=
  {| rc_opcodes := end_opcode;
     rc_pre _ _ := true;
     rc_payload _ c := match c with Some _ => Ok [] | None => Err (- EINVAL) end;
     rc_length _ := 0;
     rc_valid _ _ := Ok tt;
     rc_decode _ _ := Ok tt;
     rc_norm c := c |}.

#[export] Instance end_recorded : Recorded end_recorder.
Proof.
  assert (Hend : forall op, end_opcode op = true -> op = 6 \/ op = 23)
    by (unfold end_opcode; intros; lia).
  constructor; cbn; try done.
  - intros op [-> | ->]%Hend; done.
  - intros op [[]|] e H; simplify_eq; done.
  - intros op [] p q [-> | ->]%Hend _ Hp _ _; injection Hp as <-; cbn;
      (split_and!; [done|apply blen_nonneg|done..]).
  - intros op q n Hop Hn _ _. exists tt, [].
    apply Hend in Hop as [-> | ->]; cbn in *; split_and!; try done; try lia;
      intros k Hk; lia.
Qed.

(** ** The interface *)

(** [c] is the command [v] of the recorder [r]. *)
Definition recorded_as {T} (r : recorder T) (v : T) (mk : T -> bvb_command)
    (c : bvb_command) : Prop :=
  let op := command_opcode c in
  r.(rc_opcodes) op = true /\ r.(rc_pre) op v = true /\
  command_payload c = r.(rc_payload) op (Some v) /\
  command_length c = r.(rc_length) v /\
  (forall q, validate_payload op (Some q) = r.(rc_valid) op q) /\
  (forall q n, exists old, decode_command (mk_record op q n) =
     mk <$> r.(rc_decode) (Some (mk_record op q n)) (Some old)) /\
  command_norm c = mk (r.(rc_norm) v).

Definition has_recorder (c : bvb_command) : Prop :=
  exists T (r : recorder T) v mk, Recorded r /\ recorded_as r v mk c.

Lemma recorded_intro {T} (r : recorder T) `{!Recorded r} v mk c :
  recorded_as r v mk c -> has_recorder c.
Proof. intros. by exists T, r, v, mk. Qed.

(** [pick r v mk] gives the recorder of a command whose opcode is known. *)
Ltac pick r v mk :=
  apply (recorded_intro r v mk); unfold recorded_as;
  split_and!;
  [ reflexivity | solve [assumption | reflexivity] | reflexivity | reflexivity | reflexivity
  | intros; exists v; reflexivity
  | reflexivity ].

Lemma transfer_opcodes op :
  transfer_opcode_is_valid op = true ->
  op = 14 \/ op = 15 \/ op = 16 \/ op = 17 \/ op = 18 \/ op = 19.
Proof. unfold transfer_opcode_is_valid. intros. lia. Qed.

Lemma two_opcodes a b op : (op =? a) || (op =? b) = true -> op = a \/ op = b.
Proof. lia. Qed.

Lemma command_has_recorder c : command_pre c = true -> has_recorder c.
Proof.
  destruct c; cbn [command_pre]; intros H;
    lazymatch type of H with
    | (_ && _)%bool = true => apply andb_true_iff in H as [Hop H]
    | _ => idtac
    end.
  - pick begin_rendering_recorder command command_begin_rendering.
  - pick bind_graphics_pipeline_recorder command command_bind_graphics_pipeline.
  - pick push_rotation_recorder command command_push_rotation.
  - pick set_viewport_recorder command command_set_viewport.
  - pick set_scissor_recorder command command_set_scissor.
  - pick draw_recorder command command_draw.
  - pick fill_buffer_recorder command command_fill_buffer.
  - pick buffer_host_read_barrier_recorder command command_buffer_host_read_barrier.
  - pick vulkan_begin_recorder command command_vulkan_begin.
  - pick vulkan_clear_color_image_recorder command command_vulkan_clear_color_image.
  - pick init_image_barrier_recorder command command_init_image_barrier.
  - pick image_barrier_2_recorder command command_image_barrier_2.
  - pick clear_color_image_general_recorder command command_clear_color_image_general.
  - pick bind_descriptor_sets_recorder command command_bind_descriptor_sets.
  - pick push_constants_recorder command command_push_constants.
  - apply transfer_opcodes in Hop as [-> | [-> | [-> | [-> | [-> | ->]]]]];
    [pick transfer_recorder command (command_transfer 14)
    |pick transfer_recorder command (command_transfer 15)
    |pick transfer_recorder command (command_transfer 16)
    |pick transfer_recorder command (command_transfer 17)
    |pick transfer_recorder command (command_transfer 18)
    |pick transfer_recorder command (command_transfer 19)].
  - apply (two_opcodes 24 25) in Hop as [-> | ->];
    [pick bind_vertex_buffers_recorder command (command_bind_vertex_buffers 24)
    |pick bind_vertex_buffers_recorder command (command_bind_vertex_buffers 25)].
  - apply (two_opcodes 26 27) in Hop as [-> | ->];
    [pick bind_index_buffer_recorder command (command_bind_index_buffer 26)
    |pick bind_index_buffer_recorder command (command_bind_index_buffer 27)].
  - pick draw_indexed_recorder command command_draw_indexed.
  - apply (two_opcodes 29 30) in Hop as [-> | ->];
    [pick draw_indirect_recorder command (command_draw_indirect 29)
    |pick draw_indirect_recorder command (command_draw_indirect 30)].
  - apply (two_opcodes 31 32) in Hop as [-> | ->];
    [pick draw_indirect_count_recorder command (command_draw_indirect_count 31)
    |pick draw_indirect_count_recorder command (command_draw_indirect_count 32)].
  - pick dynamic_state_recorder command command_dynamic_state.
  - pick clear_depth_stencil_image_recorder command command_clear_depth_stencil_image.
  - pick clear_attachments_recorder command command_clear_attachments.
  - pick update_buffer_recorder command command_update_buffer.
  - pick query_recorder command command_query.
  - pick end_recorder tt (fun _ : unit => command_end_rendering).
  - pick end_recorder tt (fun _ : unit => command_vulkan_end).
Qed.

(** A record that holds the encoding of [c] is accepted and decoded. *)
Lemma command_sound c p q :
  command_pre c = true -> command_payload c = Ok p ->
  command_length c <= blen q -> agree q p 0 (command_length c) ->
  0 <= command_length c <= blen p /\ is_u16 (command_opcode c) = true /\
  payload_length_is_valid (command_opcode c) (Some q) (command_length c) = true /\
  validate_payload (command_opcode c) (Some q) = Ok tt /\
  decode_command (mk_record (command_opcode c) (Some q) (command_length c)) =
    Ok (command_norm c).
Proof.
  intros Hc Hp Hb Ha.
  destruct (command_has_recorder c Hc)
    as (T & r & v & mk & Hr & Hop & Hpre & Epay & Elen & Eval & Edec & Enorm).
  rewrite Epay in Hp. rewrite Elen in *.
  destruct (payload_sound (command_opcode c) v p q) as (Hl & Hlv & Hv & Hd); try done.
  split_and!; [lia|lia|by eapply payload_opcode|done|by rewrite Eval|].
  destruct (Edec (Some q) (r.(rc_length) v)) as [old ->]. by rewrite Hd, Enorm.
Qed.

(** What is accepted under [op], and how the rest is refused. *)
Definition accepts (op : Z) : Prop :=
  (forall q e, validate_payload op (Some q) = Err e -> e = - EPROTO) /\
  forall q n,
    payload_length_is_valid op (Some q) n = true -> n <= blen q ->
    validate_payload op (Some q) = Ok tt ->
    exists c p, command_opcode c = op /\ command_length c = n /\
      command_pre c = true /\ command_norm c = c /\
      command_payload c = Ok p /\ agree p q 0 n.

Lemma accepts_intro {T} (r : recorder T) `{!Recorded r} (mk : T -> bvb_command) op :
  (forall q, validate_payload op (Some q) = r.(rc_valid) op q) ->
  r.(rc_opcodes) op = true ->
  (forall v, r.(rc_pre) op v = true ->
     command_opcode (mk v) = op /\ command_pre (mk v) = true /\
     command_length (mk v) = r.(rc_length) v /\
     command_payload (mk v) = r.(rc_payload) op (Some v) /\
     command_norm (mk v) = mk (r.(rc_norm) v)) ->
  accepts op.
Proof.
  intros Hv Hop Hmk. split; [intros q e H; rewrite Hv in H; by eapply valid_error|].
  intros q n Hn Hb Hq. rewrite Hv in Hq.
  destruct (payload_complete op q n Hop Hn Hb Hq)
    as (v & p & _ & [Hpre Hnorm] & Hlen & Hpay & Ha).
  destruct (Hmk v Hpre) as (Eo & Ep & El & Epay & En).
  exists (mk v), p. rewrite Eo, Ep, El, Epay, En, Hnorm. done.
Qed.

Ltac accept_as r mk :=
  apply (accepts_intro r mk);
  [ reflexivity | reflexivity
  | intros v Hv; split_and!; first [reflexivity | exact Hv] ].

Lemma opcode_accepts op n :
  expected_payload_size op = Ok n -> accepts op.
Proof.
  intros H. assert (Hop : 1 <= op <= 37).
  { destruct (decide (1 <= op <= 37)); [done|]. exfalso.
    unfold expected_payload_size in H. repeat case_match; lia || discriminate. }
  clear H.
  destruct (decide (op = 1)) as [->|];
    [accept_as begin_rendering_recorder command_begin_rendering|].
  destruct (decide (op = 2)) as [->|];
    [accept_as bind_graphics_pipeline_recorder command_bind_graphics_pipeline|].
  destruct (decide (op = 3)) as [->|];
    [accept_as set_viewport_recorder command_set_viewport|].
  destruct (decide (op = 4)) as [->|];
    [accept_as set_scissor_recorder command_set_scissor|].
  destruct (decide (op = 5)) as [->|];
    [accept_as draw_recorder command_draw|].
  destruct (decide (op = 6)) as [->|];
    [accept_as end_recorder (fun _ : unit => command_end_rendering)|].
  destruct (decide (op = 7)) as [->|];
    [accept_as fill_buffer_recorder command_fill_buffer|].
  destruct (decide (op = 8)) as [->|];
    [accept_as buffer_host_read_barrier_recorder command_buffer_host_read_barrier|].
  destruct (decide (op = 9)) as [->|];
    [accept_as push_rotation_recorder command_push_rotation|].
  destruct (decide (op = 10)) as [->|];
    [accept_as image_barrier_2_recorder command_image_barrier_2|].
  destruct (decide (op = 11)) as [->|];
    [accept_as clear_color_image_general_recorder command_clear_color_image_general|].
  destruct (decide (op = 12)) as [->|];
    [accept_as bind_descriptor_sets_recorder command_bind_descriptor_sets|].
  destruct (decide (op = 13)) as [->|];
    [accept_as push_constants_recorder command_push_constants|].
  destruct (decide (op = 14)) as [->|];
    [accept_as transfer_recorder (command_transfer 14)|].
  destruct (decide (op = 15)) as [->|];
    [accept_as transfer_recorder (command_transfer 15)|].
  destruct (decide (op = 16)) as [->|];
    [accept_as transfer_recorder (command_transfer 16)|].
  destruct (decide (op = 17)) as [->|];
    [accept_as transfer_recorder (command_transfer 17)|].
  destruct (decide (op = 18)) as [->|];
    [accept_as transfer_recorder (command_transfer 18)|].
  destruct (decide (op = 19)) as [->|];
    [accept_as transfer_recorder (command_transfer 19)|].
  destruct (decide (op = 20)) as [->|];
    [accept_as vulkan_begin_recorder command_vulkan_begin|].
  destruct (decide (op = 21)) as [->|];
    [accept_as vulkan_clear_color_image_recorder command_vulkan_clear_color_image|].
  destruct (decide (op = 22)) as [->|];
    [accept_as init_image_barrier_recorder command_init_image_barrier|].
  destruct (decide (op = 23)) as [->|];
    [accept_as end_recorder (fun _ : unit => command_vulkan_end)|].
  destruct (decide (op = 24)) as [->|];
    [accept_as bind_vertex_buffers_recorder (command_bind_vertex_buffers 24)|].
  destruct (decide (op = 25)) as [->|];
    [accept_as bind_vertex_buffers_recorder (command_bind_vertex_buffers 25)|].
  destruct (decide (op = 26)) as [->|];
    [accept_as bind_index_buffer_recorder (command_bind_index_buffer 26)|].
  destruct (decide (op = 27)) as [->|];
    [accept_as bind_index_buffer_recorder (command_bind_index_buffer 27)|].
  destruct (decide (op = 28)) as [->|];
    [accept_as draw_indexed_recorder command_draw_indexed|].
  destruct (decide (op = 29)) as [->|];
    [accept_as draw_indirect_recorder (command_draw_indirect 29)|].
  destruct (decide (op = 30)) as [->|];
    [accept_as draw_indirect_recorder (command_draw_indirect 30)|].
  destruct (decide (op = 31)) as [->|];
    [accept_as draw_indirect_count_recorder (command_draw_indirect_count 31)|].
  destruct (decide (op = 32)) as [->|];
    [accept_as draw_indirect_count_recorder (command_draw_indirect_count 32)|].
  destruct (decide (op = 33)) as [->|];
    [accept_as dynamic_state_recorder command_dynamic_state|].
  destruct (decide (op = 34)) as [->|];
    [accept_as clear_depth_stencil_image_recorder command_clear_depth_stencil_image|].
  destruct (decide (op = 35)) as [->|];
    [accept_as clear_attachments_recorder command_clear_attachments|].
  destruct (decide (op = 36)) as [->|];
    [accept_as update_buffer_recorder command_update_buffer|].
  destruct (decide (op = 37)) as [->|];
    [accept_as query_recorder command_query|].
  lia.
Qed.

Lemma length_valid_expected op payload n :
  payload_length_is_valid op payload n = true ->
  exists size, expected_payload_size op = Ok size.
Proof.
  unfold payload_length_is_valid. destruct (expected_payload_size op) as [s|]; [|done].
  by exists s.
Qed.

(** An accepted payload is the encoding of a command. *)
Lemma command_complete op q n :
  payload_length_is_valid op (Some q) n = true -> n <= blen q ->
  validate_payload op (Some q) = Ok tt ->
  exists c p, command_opcode c = op /\ command_length c = n /\
    command_pre c = true /\ command_norm c = c /\
    command_payload c = Ok p /\ agree p q 0 n.
Proof.
  intros Hn. destruct (length_valid_expected _ _ _ Hn) as [s Hs].
  by apply (opcode_accepts op s Hs).
Qed.

Lemma validate_payload_error op payload n e :
  payload_length_is_valid op payload n = true ->
  validate_payload op payload = Err e -> e = - EPROTO.
Proof.
  intros Hn. destruct (length_valid_expected _ _ _ Hn) as [s Hs].
  apply (proj1 (opcode_accepts op s Hs) (pointee payload)).
Qed.

(** No payload comes near the size of a batch. *)
Lemma payload_length_bound op q n :
  payload_length_is_valid op (Some q) n = true -> 0 <= n <= 182288.
Proof.
  unfold payload_length_is_valid.
  destruct (expected_payload_size op) as [s|] eqn:E; [|done].
  assert (Hs : 0 <= s <= 182288).
  { unfold expected_payload_size in E. repeat case_match; simplify_eq;
      autounfold with sizes; lia. }
  pose proof (proj1 (is_u32_spec _) (get_u32_range q 4)).
  pose proof (proj1 (is_u32_spec _) (get_u32_range q 8)).
  pose proof (proj1 (is_u32_spec _) (get_u32_range q 12)).
  pose proof (proj1 (is_u32_spec _) (get_u32_range q 16)).
  pose proof (proj1 (is_u32_spec _) (get_u32_range q 28)).
  unfold barrier_payload_size, transfer_payload_size, u32. plain_sizes.
  repeat case_match; intros; split_tests; Z.div_mod_to_equations; lia.
Qed.

(** ** The result does not depend on bytes past the payload's length *)

Lemma payload_length_local op q q' n :
  agree q' q 0 n ->
  payload_length_is_valid op (Some q') n = payload_length_is_valid op (Some q) n.
Proof.
  intros Ha.
  assert (Hw : forall j, 0 <= j -> j + 4 <= n ->
            bvb_wire_get_u32 q' j = bvb_wire_get_u32 q j).
  { intros j ??. apply get_u32_agree. eapply agree_sub; [exact Ha|lia|lia]. }
  unfold payload_length_is_valid. destruct (expected_payload_size op); [|done].
  plain_sizes.
  destruct (op =? 10); [destruct (Z.ltb_spec n 16); [done|by rewrite !Hw by lia]|].
  destruct (op =? 36); [destruct (Z.ltb_spec n 24); [done|by rewrite !Hw by lia]|].
  destruct (negb _); [done|].
  destruct (Z.ltb_spec n 32); [done|by rewrite !Hw by lia].
Qed.

Lemma validate_payload_ok_local op q q' n :
  payload_length_is_valid op (Some q) n = true -> n <= blen q -> n <= blen q' ->
  agree q' q 0 n -> validate_payload op (Some q) = Ok tt ->
  validate_payload op (Some q') = Ok tt.
Proof.
  intros Hn Hb Hb' Ha Hv.
  destruct (command_complete op q n Hn Hb Hv)
    as (c & p & <- & <- & Hc & _ & Hp & Hpq).
  apply (command_sound c p q' Hc Hp Hb').
  eapply agree_trans; [exact Ha|]. by apply agree_sym.
Qed.

Lemma validate_payload_local op q q' n :
  payload_length_is_valid op (Some q) n = true -> n <= blen q -> n <= blen q' ->
  agree q' q 0 n ->
  validate_payload op (Some q') = validate_payload op (Some q).
Proof.
  intros Hn Hb Hb' Ha.
  assert (Hn' : payload_length_is_valid op (Some q') n = true)
    by (by rewrite (payload_length_local _ q)).
  destruct (validate_payload op (Some q)) as [[]|e] eqn:E.
  - by apply (validate_payload_ok_local op q q' n).
  - pose proof (validate_payload_error op _ n e Hn E) as ->.
    destruct (validate_payload op (Some q')) as [[]|e'] eqn:E'.
    + rewrite (validate_payload_ok_local op q' q n) in E; try done.
      by apply agree_sym.
    + by rewrite (validate_payload_error op _ n e' Hn' E').
Qed.

