(* ===== verification/CommandBatch.v ===== *)
(** * CommandBatch: building, validating and reading a batch

    [bvb_command_batch_begin], the [append] functions, [finish], [validate],
    the iterator and the snapshot of src/command_batch.c.  A batch is a header
    of thirty-two bytes and records of eight bytes and a payload each;
    [commands_at] says which commands a buffer holds from an offset on, the
    builder keeps it, the validator is exactly its decision procedure, and
    the iterator with the decoders reads it back. *)

From S2P Require Import Prelude Wire Codec Window CommandTypes CommandBase CommandFixed CommandTransfer CommandBarrier CommandState CommandBindings CommandDispatch.

(** ** The builder

    [bd_bytes] is the caller's array the builder points to; its length is the
    capacity the caller declares. *)
Record bvb_command_batch_builder := mk_builder {
  bd_bytes : ptr bytes;
  bd_capacity : Z;
  bd_length : Z;
  bd_command_buffer_id : Z;
  bd_sequence : Z;
  bd_command_count : Z;
  bd_finished : bool
}.

(** [uint32_t] arithmetic: the enumeration constant is an [int]. *)
Definition record_length (payload_length : Z) : Z :=
  u32 (BVB_COMMAND_RECORD_HEADER_SIZE + payload_length).

Definition append_record (builder : ptr bvb_command_batch_builder)
    (opcode : Z) (payload : ptr bytes) (payload_length : Z) :
    result bvb_command_batch_builder :=
  deref builder := builder or (- EINVAL) ;;
  deref bytes := builder.(bd_bytes) or (- EINVAL) ;;
  fail_if builder.(bd_finished) ||
          (builder.(bd_length) <? BVB_COMMAND_BATCH_HEADER_SIZE) ||
          (builder.(bd_capacity) <? builder.(bd_length)) ||
          (BVB_COMMAND_BATCH_MAX_COMMANDS <=? builder.(bd_command_count))
    with (- EINVAL) ;;
  let record_length := record_length payload_length in
  fail_if (BVB_COMMAND_BATCH_MAX_BYTES <? record_length) ||
          (builder.(bd_capacity) <? record_length) ||
          (builder.(bd_capacity) - record_length <? builder.(bd_length)) ||
          (BVB_COMMAND_BATCH_MAX_BYTES - record_length <? builder.(bd_length))
    with (- ENOSPC) ;;
  let record := builder.(bd_length) in
  let bytes := bvb_wire_put_u16 bytes record opcode in
  let bytes := bvb_wire_put_u16 bytes (record + 2) 0 in
  let bytes := bvb_wire_put_u32 bytes (record + 4) payload_length in
  let bytes :=
    if negb (payload_length =? 0) then
      wr_bytes bytes (record + BVB_COMMAND_RECORD_HEADER_SIZE)
        (rd_bytes (pointee payload) 0 payload_length)
    else bytes in
  Ok {| bd_bytes := Some bytes;
        bd_capacity := builder.(bd_capacity);
        bd_length := builder.(bd_length) + record_length;
        bd_command_buffer_id := builder.(bd_command_buffer_id);
        bd_sequence := builder.(bd_sequence);
        bd_command_count := builder.(bd_command_count) + 1;
        bd_finished := builder.(bd_finished) |}.

Definition bvb_command_batch_begin (builder : ptr bvb_command_batch_builder)
    (bytes : ptr bytes) (capacity command_buffer_id sequence : Z) :
    result bvb_command_batch_builder :=
  deref _ := builder or (- EINVAL) ;;
  deref bytes := bytes or (- EINVAL) ;;
  fail_if (capacity <? BVB_COMMAND_BATCH_HEADER_SIZE) ||
          (BVB_COMMAND_BATCH_MAX_BYTES <? capacity) || (sequence =? 0) ||
          negb (expects command_buffer_id BVB_OBJECT_COMMAND_BUFFER)
    with (- EINVAL) ;;
  Ok {| bd_bytes := Some (memset0 bytes 0 BVB_COMMAND_BATCH_HEADER_SIZE);
        bd_capacity := capacity;
        bd_length := BVB_COMMAND_BATCH_HEADER_SIZE;
        bd_command_buffer_id := command_buffer_id;
        bd_sequence := sequence;
        bd_command_count := 0;
        bd_finished := false |}.

(** ** The append functions

    Each returns before it calls [append_record] when its command is
    rejected. *)
Definition bvb_command_batch_append_begin_rendering
    (builder : ptr bvb_command_batch_builder)
    (command : ptr bvb_begin_rendering_command) :
    result bvb_command_batch_builder :=
  try payload := begin_rendering_payload command ;;
  append_record builder BVB_COMMAND_BEGIN_RENDERING (Some payload)
    BVB_BEGIN_RENDERING_SIZE.

Definition bvb_command_batch_append_bind_graphics_pipeline
    (builder : ptr bvb_command_batch_builder)
    (command : ptr bvb_bind_graphics_pipeline_command) :
    result bvb_command_batch_builder :=
  try payload := bind_graphics_pipeline_payload command ;;
  append_record builder BVB_COMMAND_BIND_GRAPHICS_PIPELINE (Some payload)
    BVB_BIND_GRAPHICS_PIPELINE_SIZE.

Definition bvb_command_batch_append_push_rotation
    (builder : ptr bvb_command_batch_builder)
    (command : ptr bvb_push_rotation_command) :
    result bvb_command_batch_builder :=
  try payload := push_rotation_payload command ;;
  append_record builder BVB_COMMAND_PUSH_ROTATION (Some payload)
    BVB_PUSH_ROTATION_SIZE.

Definition bvb_command_batch_append_set_viewport
    (builder : ptr bvb_command_batch_builder)
    (command : ptr bvb_set_viewport_command) :
    result bvb_command_batch_builder :=
  try payload := set_viewport_payload command ;;
  append_record builder BVB_COMMAND_SET_VIEWPORT (Some payload)
    BVB_SET_VIEWPORT_SIZE.

Definition bvb_command_batch_append_set_scissor
    (builder : ptr bvb_command_batch_builder)
    (command : ptr bvb_set_scissor_command) :
    result bvb_command_batch_builder :=
  try payload := set_scissor_payload command ;;
  append_record builder BVB_COMMAND_SET_SCISSOR (Some payload)
    BVB_SET_SCISSOR_SIZE.

Definition bvb_command_batch_append_draw
    (builder : ptr bvb_command_batch_builder)
    (command : ptr bvb_draw_command) :
    result bvb_command_batch_builder :=
  try payload := draw_payload command ;;
  append_record builder BVB_COMMAND_DRAW (Some payload)
    BVB_DRAW_SIZE.

Definition bvb_command_batch_append_fill_buffer
    (builder : ptr bvb_command_batch_builder)
    (command : ptr bvb_fill_buffer_command) :
    result bvb_command_batch_builder :=
  try payload := fill_buffer_payload command ;;
  append_record builder BVB_COMMAND_FILL_BUFFER (Some payload)
    BVB_FILL_BUFFER_SIZE.

Definition bvb_command_batch_append_buffer_host_read_barrier
    (builder : ptr bvb_command_batch_builder)
    (command : ptr bvb_buffer_host_read_barrier_command) :
    result bvb_command_batch_builder :=
  try payload := buffer_host_read_barrier_payload command ;;
  append_record builder BVB_COMMAND_BUFFER_HOST_READ_BARRIER (Some payload)
    BVB_BUFFER_HOST_READ_BARRIER_SIZE.

Definition bvb_command_batch_append_vulkan_begin
    (builder : ptr bvb_command_batch_builder)
    (command : ptr bvb_vulkan_begin_command) :
    result bvb_command_batch_builder :=
  try payload := vulkan_begin_payload command ;;
  append_record builder BVB_COMMAND_VULKAN_BEGIN (Some payload)
    BVB_VULKAN_BEGIN_SIZE.

Definition bvb_command_batch_append_vulkan_clear_color_image
    (builder : ptr bvb_command_batch_builder)
    (command : ptr bvb_vulkan_clear_color_image_command) :
    result bvb_command_batch_builder :=
  try payload := vulkan_clear_color_image_payload command ;;
  append_record builder BVB_COMMAND_VULKAN_CLEAR_COLOR_IMAGE (Some payload)
    BVB_VULKAN_CLEAR_COLOR_IMAGE_SIZE.

Definition bvb_command_batch_append_vulkan_init_image_barrier
    (builder : ptr bvb_command_batch_builder)
    (command : ptr bvb_vulkan_init_image_barrier_command) :
    result bvb_command_batch_builder :=
  try payload := init_image_barrier_payload command ;;
  append_record builder BVB_COMMAND_VULKAN_INIT_IMAGE_BARRIER (Some payload)
    BVB_VULKAN_INIT_IMAGE_BARRIER_SIZE.

Definition bvb_command_batch_append_vulkan_image_barrier_2
    (builder : ptr bvb_command_batch_builder)
    (command : ptr bvb_vulkan_image_barrier_2_command) :
    result bvb_command_batch_builder :=
  try payload := image_barrier_2_payload command ;;
  deref command := command or (- EINVAL) ;;
  append_record builder BVB_COMMAND_VULKAN_IMAGE_BARRIER_2 (Some payload)
    (barrier_payload_size (ib2_memory_count command)
       (ib2_buffer_count command) (ib2_image_count command)).

Definition bvb_command_batch_append_vulkan_clear_color_image_general
    (builder : ptr bvb_command_batch_builder)
    (command : ptr bvb_vulkan_clear_color_image_general_command) :
    result bvb_command_batch_builder :=
  try payload := clear_color_image_general_payload command ;;
  append_record builder BVB_COMMAND_VULKAN_CLEAR_COLOR_IMAGE_GENERAL (Some payload)
    BVB_VULKAN_CLEAR_COLOR_IMAGE_GENERAL_SIZE.

Definition bvb_command_batch_append_vulkan_bind_descriptor_sets
    (builder : ptr bvb_command_batch_builder)
    (command : ptr bvb_vulkan_bind_descriptor_sets_command) :
    result bvb_command_batch_builder :=
  try payload := bind_descriptor_sets_payload command ;;
  append_record builder BVB_COMMAND_VULKAN_BIND_DESCRIPTOR_SETS (Some payload)
    BVB_VULKAN_BIND_DESCRIPTOR_SETS_SIZE.

Definition bvb_command_batch_append_vulkan_push_constants
    (builder : ptr bvb_command_batch_builder)
    (command : ptr bvb_vulkan_push_constants_command) :
    result bvb_command_batch_builder :=
  try payload := push_constants_payload command ;;
  append_record builder BVB_COMMAND_VULKAN_PUSH_CONSTANTS (Some payload)
    BVB_VULKAN_PUSH_CONSTANTS_SIZE.

Definition bvb_command_batch_append_vulkan_transfer
    (builder : ptr bvb_command_batch_builder) (opcode : Z)
    (command : ptr bvb_vulkan_transfer_command) :
    result bvb_command_batch_builder :=
  try payload := transfer_payload opcode command ;;
  deref command := command or (- EINVAL) ;;
  append_record builder opcode (Some payload)
    (transfer_payload_size command.(tf_region_count)).

Definition bvb_command_batch_append_vulkan_bind_vertex_buffers
    (builder : ptr bvb_command_batch_builder) (opcode : Z)
    (command : ptr bvb_vulkan_bind_vertex_buffers_command) :
    result bvb_command_batch_builder :=
  try payload := bind_vertex_buffers_payload opcode command ;;
  append_record builder opcode (Some payload)
    BVB_VULKAN_BIND_VERTEX_BUFFERS_SIZE.

Definition bvb_command_batch_append_vulkan_bind_index_buffer
    (builder : ptr bvb_command_batch_builder) (opcode : Z)
    (command : ptr bvb_vulkan_bind_index_buffer_command) :
    result bvb_command_batch_builder :=
  try payload := bind_index_buffer_payload opcode command ;;
  append_record builder opcode (Some payload)
    BVB_VULKAN_BIND_INDEX_BUFFER_SIZE.

Definition bvb_command_batch_append_vulkan_draw_indexed
    (builder : ptr bvb_command_batch_builder)
    (command : ptr bvb_vulkan_draw_indexed_command) :
    result bvb_command_batch_builder :=
  try payload := draw_indexed_payload command ;;
  append_record builder BVB_COMMAND_VULKAN_DRAW_INDEXED (Some payload)
    BVB_VULKAN_DRAW_INDEXED_SIZE.

Definition bvb_command_batch_append_vulkan_draw_indirect
    (builder : ptr bvb_command_batch_builder) (opcode : Z)
    (command : ptr bvb_vulkan_draw_indirect_command) :
    result bvb_command_batch_builder :=
  try payload := draw_indirect_payload opcode command ;;
  append_record builder opcode (Some payload)
    BVB_VULKAN_DRAW_INDIRECT_SIZE.

Definition bvb_command_batch_append_vulkan_draw_indirect_count
    (builder : ptr bvb_command_batch_builder) (opcode : Z)
    (command : ptr bvb_vulkan_draw_indirect_count_command) :
    result bvb_command_batch_builder :=
  try payload := draw_indirect_count_payload opcode command ;;
  append_record builder opcode (Some payload)
    BVB_VULKAN_DRAW_INDIRECT_COUNT_SIZE.

Definition bvb_command_batch_append_vulkan_dynamic_state
    (builder : ptr bvb_command_batch_builder)
    (command : ptr bvb_vulkan_dynamic_state_command) :
    result bvb_command_batch_builder :=
  try payload := dynamic_state_payload command ;;
  append_record builder BVB_COMMAND_VULKAN_DYNAMIC_STATE (Some payload)
    BVB_VULKAN_DYNAMIC_STATE_SIZE.

Definition bvb_command_batch_append_vulkan_clear_depth_stencil_image
    (builder : ptr bvb_command_batch_builder)
    (command : ptr bvb_vulkan_clear_depth_stencil_image_command) :
    result bvb_command_batch_builder :=
  try payload := clear_depth_stencil_image_payload command ;;
  append_record builder BVB_COMMAND_VULKAN_CLEAR_DEPTH_STENCIL_IMAGE (Some payload)
    BVB_VULKAN_CLEAR_DEPTH_STENCIL_IMAGE_SIZE.

Definition bvb_command_batch_append_vulkan_clear_attachments
    (builder : ptr bvb_command_batch_builder)
    (command : ptr bvb_vulkan_clear_attachments_command) :
    result bvb_command_batch_builder :=
  try payload := clear_attachments_payload command ;;
  append_record builder BVB_COMMAND_VULKAN_CLEAR_ATTACHMENTS (Some payload)
    BVB_VULKAN_CLEAR_ATTACHMENTS_SIZE.

Definition bvb_command_batch_append_vulkan_update_buffer
    (builder : ptr bvb_command_batch_builder)
    (command : ptr bvb_vulkan_update_buffer_command) :
    result bvb_command_batch_builder :=
  try payload := update_buffer_payload command ;;
  deref command := command or (- EINVAL) ;;
  append_record builder BVB_COMMAND_VULKAN_UPDATE_BUFFER (Some payload)
    (BVB_VULKAN_UPDATE_BUFFER_HEADER_SIZE + command.(ub_data_size)).

Definition bvb_command_batch_append_vulkan_query
    (builder : ptr bvb_command_batch_builder)
    (command : ptr bvb_vulkan_query_command) :
    result bvb_command_batch_builder :=
  try payload := query_payload command ;;
  append_record builder BVB_COMMAND_VULKAN_QUERY (Some payload)
    BVB_VULKAN_QUERY_SIZE.

Definition bvb_command_batch_append_end_rendering
    (builder : ptr bvb_command_batch_builder) :
    result bvb_command_batch_builder :=
  append_record builder BVB_COMMAND_END_RENDERING None 0.

Definition bvb_command_batch_append_vulkan_end
    (builder : ptr bvb_command_batch_builder) :
    result bvb_command_batch_builder :=
  append_record builder BVB_COMMAND_VULKAN_END None 0.

(** A caller passes a payload that is not null unless its length is zero. *)
Definition bvb_command_batch_append_record
    (builder : ptr bvb_command_batch_builder)
    (record : ptr bvb_command_record) : result bvb_command_batch_builder :=
  deref builder := builder or (- EINVAL) ;;
  deref record := record or (- EINVAL) ;;
  fail_if negb (payload_length_is_valid record.(rec_opcode)
                  record.(rec_payload) record.(rec_payload_length)) ||
          negb (is_ok (validate_payload record.(rec_opcode)
                         record.(rec_payload))) with (- EINVAL) ;;
  append_record (Some builder) record.(rec_opcode) record.(rec_payload)
    record.(rec_payload_length).

Definition bvb_command_batch_finish (builder : ptr bvb_command_batch_builder)
    (output_length : ptr unit) : result (bvb_command_batch_builder * Z) :=
  deref builder := builder or (- EINVAL) ;;
  deref bytes := builder.(bd_bytes) or (- EINVAL) ;;
  deref _ := output_length or (- EINVAL) ;;
  fail_if builder.(bd_finished) || (builder.(bd_command_count) =? 0) ||
          (UINT32_MAX <? builder.(bd_length)) with (- EINVAL) ;;
  let header := bytes in
  let header := bvb_wire_put_u32 header 0 BVB_COMMAND_BATCH_MAGIC in
  let header := bvb_wire_put_u16 header 4 BVB_COMMAND_BATCH_VERSION in
  let header := bvb_wire_put_u16 header 6 0 in
  let header := bvb_wire_put_u32 header 8 builder.(bd_length) in
  let header := bvb_wire_put_u32 header 12 builder.(bd_command_count) in
  let header := bvb_wire_put_u64 header 16 builder.(bd_command_buffer_id) in
  let header := bvb_wire_put_u64 header 24 builder.(bd_sequence) in
  Ok ({| bd_bytes := Some header;
         bd_capacity := builder.(bd_capacity);
         bd_length := builder.(bd_length);
         bd_command_buffer_id := builder.(bd_command_buffer_id);
         bd_sequence := builder.(bd_sequence);
         bd_command_count := builder.(bd_command_count);
         bd_finished := true |}, builder.(bd_length)).

(** ** The validator *)

Record bvb_command_batch_info := mk_info {
  bi_command_buffer_id : Z;
  bi_sequence : Z;
  bi_command_count : Z;
  bi_byte_length : Z
}.

(** One turn of the validator's loop: the offset after the record. *)
Definition validate_record (bytes : bytes) (length offset : Z) : result Z :=
  fail_if (length <? offset) ||
          (length - offset <? BVB_COMMAND_RECORD_HEADER_SIZE) with (- EPROTO) ;;
  let opcode := bvb_wire_get_u16 bytes offset in
  let flags := bvb_wire_get_u16 bytes (offset + 2) in
  let payload_length := bvb_wire_get_u32 bytes (offset + 4) in
  fail_if negb (flags =? 0) || negb (is_ok (expected_payload_size opcode)) ||
          (length - offset - BVB_COMMAND_RECORD_HEADER_SIZE <? payload_length)
    with (- EPROTO) ;;
  let payload := bytes +! (offset + BVB_COMMAND_RECORD_HEADER_SIZE) in
  fail_if negb (payload_length_is_valid opcode (Some payload) payload_length) ||
          negb (is_ok (validate_payload opcode (Some payload)))
    with (- EPROTO) ;;
  Ok (offset + record_length payload_length).

Definition bvb_command_batch_validate (bytes : ptr bytes) (length : Z)
    (info : ptr bvb_command_batch_info) : result bvb_command_batch_info :=
  deref bytes := bytes or (- EINVAL) ;;
  deref _ := info or (- EINVAL) ;;
  fail_if (length <? BVB_COMMAND_BATCH_HEADER_SIZE) ||
          (BVB_COMMAND_BATCH_MAX_BYTES <? length) with (- EINVAL) ;;
  let byte_length := bvb_wire_get_u32 bytes 8 in
  let command_count := bvb_wire_get_u32 bytes 12 in
  let command_buffer_id := bvb_wire_get_u64 bytes 16 in
  let sequence := bvb_wire_get_u64 bytes 24 in
  fail_if negb (bvb_wire_get_u32 bytes 0 =? BVB_COMMAND_BATCH_MAGIC) ||
          negb (bvb_wire_get_u16 bytes 4 =? BVB_COMMAND_BATCH_VERSION) ||
          negb (bvb_wire_get_u16 bytes 6 =? 0) ||
          negb (byte_length =? length) || (command_count =? 0) ||
          (BVB_COMMAND_BATCH_MAX_COMMANDS <? command_count) ||
          negb (expects command_buffer_id BVB_OBJECT_COMMAND_BUFFER) ||
          (sequence =? 0) with (- EPROTO) ;;
  try offset := for_loop command_count
    (fun _ offset => validate_record bytes length offset)
    BVB_COMMAND_BATCH_HEADER_SIZE ;;
  fail_if negb (offset =? length) with (- EPROTO) ;;
  Ok (mk_info command_buffer_id sequence command_count byte_length).

(** ** The iterator *)

Record bvb_command_batch_iterator := mk_iterator {
  it_bytes : ptr bytes;
  it_length : Z;
  it_offset : Z;
  it_remaining : Z
}.

Definition bvb_command_batch_iterator_init
    (iterator : ptr bvb_command_batch_iterator) (bytes : ptr bytes)
    (length : Z) : result bvb_command_batch_iterator :=
  deref _ := iterator or (- EINVAL) ;;
  try info := bvb_command_batch_validate bytes length (Some (mk_info 0 0 0 0)) ;;
  Ok {| it_bytes := bytes;
        it_length := length;
        it_offset := BVB_COMMAND_BATCH_HEADER_SIZE;
        it_remaining := info.(bi_command_count) |}.

(** [Ok None] is the return value 1, at the end of the batch. *)
Definition bvb_command_batch_next (iterator : ptr bvb_command_batch_iterator)
    (record : ptr bvb_command_record) :
    result (option (bvb_command_record * bvb_command_batch_iterator)) :=
  deref iterator := iterator or (- EINVAL) ;;
  deref _ := record or (- EINVAL) ;;
  deref bytes := iterator.(it_bytes) or (- EINVAL) ;;
  fail_if iterator.(it_length) <? iterator.(it_offset) with (- EINVAL) ;;
  if iterator.(it_remaining) =? 0 then Ok None else
  let header := iterator.(it_offset) in
  let payload_length := bvb_wire_get_u32 bytes (header + 4) in
  Ok (Some
    ({| rec_opcode := bvb_wire_get_u16 bytes header;
        rec_payload := Some (bytes +! (header + BVB_COMMAND_RECORD_HEADER_SIZE));
        rec_payload_length := payload_length |},
     {| it_bytes := iterator.(it_bytes);
        it_length := iterator.(it_length);
        it_offset := iterator.(it_offset) + record_length payload_length;
        it_remaining := iterator.(it_remaining) - 1 |})).

(** [allocated] tells whether [malloc] succeeds. *)
Definition bvb_command_batch_snapshot (source : ptr bytes) (length : Z)
    (snapshot : ptr unit) (allocated : bool) : result bytes :=
  deref source := source or (- EINVAL) ;;
  fail_if (length =? 0) || (BVB_COMMAND_BATCH_MAX_BYTES <? length)
    with (- EINVAL) ;;
  deref _ := snapshot or (- EINVAL) ;;
  fail_if negb allocated with (- ENOMEM) ;;
  Ok (rd_bytes source 0 length).
