(* ===== verification/CommandLayout.v ===== *)
(** * CommandLayout: the commands a buffer holds

    [commands_at] gives the meaning of the bytes of a batch.  The append
    functions of CommandBatch extend it, the validator decides it, and the
    iterator followed by the decoders reads it; the theorems combine these
    into the round trip from commands to a batch and back, in both
    directions. *)

From S2P Require Import Prelude Wire Codec Window CommandTypes CommandBase CommandArrays CommandFixed CommandTransfer CommandBarrier CommandState CommandBindings CommandDispatch CommandBatch.

(** The append function of each command. *)
Definition append_command (builder : ptr bvb_command_batch_builder)
    (c : bvb_command) : result bvb_command_batch_builder :=
  match c with
  | command_begin_rendering c => bvb_command_batch_append_begin_rendering builder (Some c)
  | command_bind_graphics_pipeline c => bvb_command_batch_append_bind_graphics_pipeline builder (Some c)
  | command_push_rotation c => bvb_command_batch_append_push_rotation builder (Some c)
  | command_set_viewport c => bvb_command_batch_append_set_viewport builder (Some c)
  | command_set_scissor c => bvb_command_batch_append_set_scissor builder (Some c)
  | command_draw c => bvb_command_batch_append_draw builder (Some c)
  | command_fill_buffer c => bvb_command_batch_append_fill_buffer builder (Some c)
  | command_buffer_host_read_barrier c => bvb_command_batch_append_buffer_host_read_barrier builder (Some c)
  | command_vulkan_begin c => bvb_command_batch_append_vulkan_begin builder (Some c)
  | command_vulkan_clear_color_image c => bvb_command_batch_append_vulkan_clear_color_image builder (Some c)
  | command_init_image_barrier c => bvb_command_batch_append_vulkan_init_image_barrier builder (Some c)
  | command_image_barrier_2 c => bvb_command_batch_append_vulkan_image_barrier_2 builder (Some c)
  | command_clear_color_image_general c => bvb_command_batch_append_vulkan_clear_color_image_general builder (Some c)
  | command_bind_descriptor_sets c => bvb_command_batch_append_vulkan_bind_descriptor_sets builder (Some c)
  | command_push_constants c => bvb_command_batch_append_vulkan_push_constants builder (Some c)
  | command_transfer op c => bvb_command_batch_append_vulkan_transfer builder op (Some c)
  | command_bind_vertex_buffers op c => bvb_command_batch_append_vulkan_bind_vertex_buffers builder op (Some c)
  | command_bind_index_buffer op c => bvb_command_batch_append_vulkan_bind_index_buffer builder op (Some c)
  | command_draw_indexed c => bvb_command_batch_append_vulkan_draw_indexed builder (Some c)
  | command_draw_indirect op c => bvb_command_batch_append_vulkan_draw_indirect builder op (Some c)
  | command_draw_indirect_count op c => bvb_command_batch_append_vulkan_draw_indirect_count builder op (Some c)
  | command_dynamic_state c => bvb_command_batch_append_vulkan_dynamic_state builder (Some c)
  | command_clear_depth_stencil_image c => bvb_command_batch_append_vulkan_clear_depth_stencil_image builder (Some c)
  | command_clear_attachments c => bvb_command_batch_append_vulkan_clear_attachments builder (Some c)
  | command_update_buffer c => bvb_command_batch_append_vulkan_update_buffer builder (Some c)
  | command_query c => bvb_command_batch_append_vulkan_query builder (Some c)
  | command_end_rendering => bvb_command_batch_append_end_rendering builder
  | command_vulkan_end => bvb_command_batch_append_vulkan_end builder
  end.

Fixpoint append_commands (builder : bvb_command_batch_builder)
    (cs : list bvb_command) : result bvb_command_batch_builder :=
  match cs with
  | [] => Ok builder
  | c :: cs =>
    try builder := append_command (Some builder) c ;; append_commands builder cs
  end.

(** [while (next(&iterator, &record) == 0) decode(&record, ...)], with [fuel]
    turns at most. *)
Fixpoint read_commands (fuel : nat) (iterator : bvb_command_batch_iterator) :
    result (list bvb_command) :=
  match fuel with
  | O => Err (- EINVAL)
  | Datatypes.S fuel =>
    try next := bvb_command_batch_next (Some iterator)
                  (Some (mk_record 0 None 0)) ;;
    match next with
    | None => Ok []
    | Some (record, iterator) =>
      try c := decode_command record ;;
      try cs := read_commands fuel iterator ;;
      Ok (c :: cs)
    end
  end.

(** ** What a buffer holds *)

Fixpoint commands_at (bs : bytes) (off : Z) (cs : list bvb_command)
    (stop : Z) : Prop :=
  match cs with
  | [] => off = stop
  | c :: cs =>
    exists p,
      command_pre c = true /\ command_payload c = Ok p /\
      bvb_wire_get_u16 bs off = command_opcode c /\
      bvb_wire_get_u16 bs (off + 2) = 0 /\
      bvb_wire_get_u32 bs (off + 4) = command_length c /\
      agree (bs +! (off + 8)) p 0 (command_length c) /\
      commands_at bs (off + 8 + command_length c) cs stop
  end.

Lemma agree_padded p n i m : agree (p ++ blank n) p i m.
Proof.
  intros k _. unfold rd8. rewrite !nth_lookup.
  destruct (decide (Z.to_nat k < length p)%nat).
  - by rewrite lookup_app_l.
  - rewrite lookup_app_r, (lookup_ge_None_2 p) by lia. cbn.
    destruct (blank n !! _) eqn:E; [|done].
    apply lookup_replicate in E as [-> _]. done.
Qed.

Lemma command_length_bound c p :
  command_pre c = true -> command_payload c = Ok p ->
  0 <= command_length c <= blen p /\ command_length c <= 182288 /\
  is_u16 (command_opcode c) = true.
Proof.
  intros Hc Hp.
  destruct (command_sound c p (p ++ blank (command_length c)) Hc Hp)
    as (Hl & Hop & Hv & _).
  - unfold blen, blank. rewrite length_app, length_replicate. lia.
  - apply agree_padded.
  - apply payload_length_bound in Hv. split_and!; [lia..|done].
Qed.

Lemma commands_at_le bs cs : forall off stop,
  commands_at bs off cs stop -> off <= stop.
Proof.
  induction cs as [|c cs IH]; intros off stop; cbn; [lia|].
  intros (p & Hc & Hp & _ & _ & _ & _ & H). apply IH in H.
  destruct (command_length_bound c p Hc Hp). lia.
Qed.

(** The bytes from [off] to [stop] are all that matters. *)
Lemma commands_at_agree bs bs' cs : forall off stop,
  0 <= off -> agree bs' bs off (stop - off) ->
  commands_at bs off cs stop -> commands_at bs' off cs stop.
Proof.
  induction cs as [|c cs IH]; intros off stop Hoff Ha; cbn; [done|].
  intros (p & Hc & Hp & H1 & H2 & H3 & H4 & H).
  pose proof (commands_at_le _ _ _ _ H) as Hle.
  destruct (command_length_bound c p Hc Hp) as (Hl & _).
  exists p. split_and!; [done|done| | | | |].
  - rewrite <- H1. apply get_u16_agree. eapply agree_sub; [exact Ha|lia|lia].
  - rewrite <- H2. apply get_u16_agree. eapply agree_sub; [exact Ha|lia|lia].
  - rewrite <- H3. apply get_u32_agree. eapply agree_sub; [exact Ha|lia|lia].
  - eapply agree_trans; [|exact H4]. apply agree_ptr_add; [lia|lia|].
    eapply agree_sub; [exact Ha|lia|lia].
  - apply IH; [lia| |done]. eapply agree_sub; [exact Ha|lia|lia].
Qed.

Lemma commands_at_app bs cs ds mid stop : forall off,
  commands_at bs off cs mid -> commands_at bs mid ds stop ->
  commands_at bs off (cs ++ ds) stop.
Proof.
  induction cs as [|c cs IH]; intros off; cbn; [by intros ->|].
  intros (p & Hc & Hp & H1 & H2 & H3 & H4 & H) Hd. exists p.
  split_and!; eauto.
Qed.

(** The commands determine the bytes. *)
Lemma commands_at_unique bs bs' cs : forall off stop,
  0 <= off -> commands_at bs off cs stop -> commands_at bs' off cs stop ->
  agree bs' bs off (stop - off).
Proof.
  induction cs as [|c cs IH]; intros off stop Hoff; cbn.
  - intros <- _. rewrite Z.sub_diag. apply agree_nil.
  - intros (p & Hc & Hp & H1 & H2 & H3 & H4 & H)
      (p' & _ & Hp' & H1' & H2' & H3' & H4' & H').
    rewrite Hp in Hp'. injection Hp' as <-.
    destruct (command_length_bound c p Hc Hp) as (Hl & _).
    pose proof (commands_at_le _ _ _ _ H) as Hle.
    apply (agree_step _ _ _ 2); [apply get_u16_rd8; congruence|].
    apply (agree_step _ _ _ 2); [apply get_u16_rd8; congruence|].
    apply (agree_step _ _ _ 4); [apply get_u32_rd8|].
    { by replace (off + 2 + 2) with (off + 4) by lia; congruence. }
    apply (agree_step _ _ _ (command_length c)).
    + intros k Hk. specialize (H4 (k - off - 8) ltac:(lia)).
      specialize (H4' (k - off - 8) ltac:(lia)).
      rewrite rd8_ptr_add in H4, H4' by lia.
      replace (off + 8 + (k - off - 8)) with k in * by lia. congruence.
    + replace (off + 2 + 2 + 4 + command_length c)
        with (off + 8 + command_length c) by lia.
      replace (stop - off - 2 - 2 - 4 - command_length c)
        with (stop - (off + 8 + command_length c)) by lia.
      apply IH; [lia|done|done].
Qed.

(** ** The builder *)

Lemma append_command_eq builder c :
  append_command builder c =
  (try payload := command_payload c ;;
   append_record builder (command_opcode c) (Some payload) (command_length c)).
Proof.
  destruct c; cbn [append_command command_payload command_opcode command_length];
    try reflexivity; unfold append_record; by repeat case_match.
Qed.

(** [b] is a builder in progress that holds [cs]. *)
Record builds (cs : list bvb_command) (b : bvb_command_batch_builder)
    (bs : bytes) : Prop := {
  builds_bytes : b.(bd_bytes) = Some bs;
  builds_capacity : blen bs = b.(bd_capacity);
  builds_length : 32 <= b.(bd_length) <= b.(bd_capacity);
  builds_maximum : b.(bd_capacity) <= BVB_COMMAND_BATCH_MAX_BYTES;
  builds_count : b.(bd_command_count) = Z.of_nat (length cs);
  builds_limit : b.(bd_command_count) <= BVB_COMMAND_BATCH_MAX_COMMANDS;
  builds_open : b.(bd_finished) = false;
  builds_id : is_u64 b.(bd_command_buffer_id) = true /\
              expects b.(bd_command_buffer_id) BVB_OBJECT_COMMAND_BUFFER = true;
  builds_sequence : is_u64 b.(bd_sequence) = true /\ b.(bd_sequence) <> 0;
  builds_commands : commands_at bs 32 cs b.(bd_length)
}.

(** Where [append_record] writes. *)
Lemma record_written bs off op p n :
  0 <= off -> 0 <= n <= blen p -> n < 2 ^ 31 -> off + 8 + n <= blen bs ->
  is_u16 op = true ->
  let bs1 := bvb_wire_put_u16 bs off op in
  let bs2 := bvb_wire_put_u16 bs1 (off + 2) 0 in
  let bs3 := bvb_wire_put_u32 bs2 (off + 4) n in
  let bs' := if negb (n =? 0)
             then wr_bytes bs3 (off + 8) (rd_bytes p 0 n) else bs3 in
  blen bs' = blen bs /\ agree bs' bs 0 off /\
  bvb_wire_get_u16 bs' off = op /\ bvb_wire_get_u16 bs' (off + 2) = 0 /\
  bvb_wire_get_u32 bs' (off + 4) = n /\ agree (bs' +! (off + 8)) p 0 n.
Proof.
  intros Hoff Hn Hn31 Hb Hop bs1 bs2 bs3 bs'.
  assert (Hl1 : blen bs1 = blen bs) by apply blen_put_u16.
  assert (Hl2 : blen bs2 = blen bs) by (rewrite <- Hl1; apply blen_put_u16).
  assert (Hl3 : blen bs3 = blen bs) by (rewrite <- Hl2; apply blen_put_u32).
  assert (Hr : blen (rd_bytes p 0 n) = n) by (apply blen_rd_bytes; lia).
  assert (Ha : agree bs' bs3 0 (off + 8)).
  { unfold bs'. destruct (negb (n =? 0)); [|apply agree_refl].
    apply agree_wr_bytes. unfold disjoint. lia. }
  assert (Ha3 : agree bs3 bs2 0 (off + 4)).
  { apply agree_put_u32; unfold disjoint; lia. }
  assert (Ha2 : agree bs2 bs1 0 (off + 2)).
  { apply agree_put_u16; unfold disjoint; lia. }
  split_and!.
  - unfold bs'. destruct (negb _); [by rewrite blen_wr_bytes|done].
  - eapply agree_trans; [eapply agree_sub; [exact Ha|lia|lia]|].
    eapply agree_trans; [eapply agree_sub; [exact Ha3|lia|lia]|].
    eapply agree_trans; [eapply agree_sub; [exact Ha2|lia|lia]|].
    apply agree_put_u16; unfold disjoint; lia.
  - rewrite (get_u16_agree bs' bs3), (get_u16_agree bs3 bs2),
      (get_u16_agree bs2 bs1) by (eapply agree_sub; [eassumption|lia|lia]).
    apply get_u16_put_u16; [lia|lia|done].
  - rewrite (get_u16_agree bs' bs3), (get_u16_agree bs3 bs2)
      by (eapply agree_sub; [eassumption|lia|lia]).
    apply get_u16_put_u16; [lia|lia|done].
  - rewrite (get_u32_agree bs' bs3) by (eapply agree_sub; [exact Ha|lia|lia]).
    apply get_u32_put_u32; [lia|lia|]. apply is_u32_spec. lia.
  - intros k Hk. rewrite rd8_ptr_add by lia. unfold bs'.
    replace (negb (n =? 0)) with true by lia.
    rewrite rd8_wr_bytes_in by lia.
    replace (off + 8 + k - (off + 8)) with k by lia.
    by rewrite rd_bytes_lookup by lia.
Qed.

Lemma record_length_small n : 0 <= n < 2 ^ 31 -> record_length n = 8 + n.
Proof. intros. unfold record_length, u32. apply Z.mod_small. lia. Qed.

(** [append_record] has room, or says that it has none. *)
Lemma append_step cs b bs c p :
  builds cs b bs -> command_pre c = true -> command_payload c = Ok p ->
  if BVB_COMMAND_BATCH_MAX_COMMANDS <=? b.(bd_command_count) then
    append_command (Some b) c = Err (- EINVAL)
  else if b.(bd_capacity) <? b.(bd_length) + 8 + command_length c then
    append_command (Some b) c = Err (- ENOSPC)
  else exists b' bs',
    append_command (Some b) c = Ok b' /\ builds (cs ++ [c]) b' bs' /\
    b'.(bd_length) = b.(bd_length) + 8 + command_length c /\
    b'.(bd_capacity) = b.(bd_capacity) /\
    b'.(bd_command_buffer_id) = b.(bd_command_buffer_id) /\
    b'.(bd_sequence) = b.(bd_sequence).
Proof.
  intros [Hb Hcap Hlen Hmax Hcnt Hlim Hopen Hid Hseq Hcs] Hc Hp.
  destruct (command_length_bound c p Hc Hp) as (Hl & Hl2 & Hop).
  rewrite append_command_eq, Hp. cbn [append_record]. unfold append_record.
  rewrite Hb, Hopen. cbv zeta. rewrite record_length_small by lia.
  cbn [orb].
  replace (bd_length b <? 32) with false by lia.
  replace (bd_capacity b <? bd_length b) with false by lia. cbn [orb].
  destruct (Z.leb_spec BVB_COMMAND_BATCH_MAX_COMMANDS b.(bd_command_count));
    [done|].
  destruct (Z.ltb_spec b.(bd_capacity) (b.(bd_length) + 8 + command_length c))
    as [Hfull|Hroom].
  { by replace (_ || _) with true by lia. }
  replace (_ || _) with false by lia.
  destruct (record_written bs b.(bd_length) (command_opcode c) p
              (command_length c)) as (H1 & H2 & H3 & H4 & H5 & H6);
    [lia..|done|].
  do 2 eexists. split; [reflexivity|]. cbn. split_and!; try lia.
  constructor; cbn; try done; try lia.
  - rewrite length_app. cbn. lia.
  - apply (commands_at_app _ _ _ b.(bd_length)).
    + eapply commands_at_agree; [lia| |exact Hcs].
      eapply agree_sub; [exact H2|lia|lia].
    + exists p. split_and!; try done. cbn. lia.
Qed.

Lemma begin_builds b bs capacity id sequence b' :
  blen bs = capacity -> is_u64 id = true -> is_u64 sequence = true ->
  bvb_command_batch_begin (Some b) (Some bs) capacity id sequence = Ok b' ->
  exists bs', builds [] b' bs' /\ b'.(bd_length) = 32 /\
    b'.(bd_capacity) = capacity /\
    b'.(bd_command_buffer_id) = id /\ b'.(bd_sequence) = sequence.
Proof.
  intros Hl Hid Hseq H. unfold bvb_command_batch_begin in H. cbn in H.
  guards H. split_tests. injection H as <-. eexists.
  split_and!; try done. constructor; cbn; try done; try lia.
  - by rewrite blen_memset0.
  - split; [done|lia].
Qed.

(** ** Batches *)

Definition batch_header (bs : bytes) (info : bvb_command_batch_info) : Prop :=
  bvb_wire_get_u32 bs 0 = BVB_COMMAND_BATCH_MAGIC /\
  bvb_wire_get_u16 bs 4 = BVB_COMMAND_BATCH_VERSION /\
  bvb_wire_get_u16 bs 6 = 0 /\
  bvb_wire_get_u32 bs 8 = info.(bi_byte_length) /\
  bvb_wire_get_u32 bs 12 = info.(bi_command_count) /\
  bvb_wire_get_u64 bs 16 = info.(bi_command_buffer_id) /\
  bvb_wire_get_u64 bs 24 = info.(bi_sequence).

(** The first [len] bytes of [bs] are a batch of [cs]. *)
Record batch_at (bs : bytes) (len : Z) (cs : list bvb_command)
    (info : bvb_command_batch_info) : Prop := {
  batch_length : 32 <= len <= BVB_COMMAND_BATCH_MAX_BYTES;
  batch_fits : len <= blen bs;
  batch_header_at : batch_header bs info;
  batch_byte_length : info.(bi_byte_length) = len;
  batch_count : info.(bi_command_count) = Z.of_nat (length cs);
  batch_counted : 0 < info.(bi_command_count) <= BVB_COMMAND_BATCH_MAX_COMMANDS;
  batch_id : expects info.(bi_command_buffer_id) BVB_OBJECT_COMMAND_BUFFER = true;
  batch_sequence : info.(bi_sequence) <> 0;
  batch_commands : commands_at bs 32 cs len
}.

Lemma batch_header_agree bs bs' info :
  agree bs' bs 0 32 -> batch_header bs info -> batch_header bs' info.
Proof.
  intros Ha (H0 & H4 & H6 & H8 & H12 & H16 & H24). unfold batch_header.
  rewrite (get_u32_agree bs' bs), (get_u16_agree bs' bs), (get_u16_agree bs' bs),
    (get_u32_agree bs' bs), (get_u32_agree bs' bs), (get_u64_agree bs' bs),
    (get_u64_agree bs' bs) by (eapply agree_sub; [exact Ha|lia|lia]).
  done.
Qed.

Lemma batch_header_unique bs bs' info :
  batch_header bs info -> batch_header bs' info -> agree bs' bs 0 32.
Proof.
  intros (H0 & H4 & H6 & H8 & H12 & H16 & H24)
    (K0 & K4 & K6 & K8 & K12 & K16 & K24).
  apply (agree_step _ _ _ 4); [apply get_u32_rd8; congruence|].
  apply (agree_step _ _ _ 2); [apply get_u16_rd8; zconst; congruence|].
  apply (agree_step _ _ _ 2); [apply get_u16_rd8; zconst; congruence|].
  apply (agree_step _ _ _ 4); [apply get_u32_rd8; zconst; congruence|].
  apply (agree_step _ _ _ 4); [apply get_u32_rd8; zconst; congruence|].
  apply (agree_step _ _ _ 8); [apply get_u64_rd8; zconst; congruence|].
  apply (agree_step _ _ _ 8); [apply get_u64_rd8; zconst; congruence|].
  apply agree_nil.
Qed.

Lemma batch_at_agree bs bs' len cs info :
  agree bs' bs 0 len -> len <= blen bs' ->
  batch_at bs len cs info -> batch_at bs' len cs info.
Proof.
  intros Ha Hb []. constructor; try done.
  - eapply batch_header_agree; [|done]. eapply agree_sub; [exact Ha|lia|lia].
  - eapply commands_at_agree; [lia| |done]. eapply agree_sub; [exact Ha|lia|lia].
Qed.

(** A batch is its commands and its header, byte for byte. *)
Lemma batch_at_unique bs bs' len cs info :
  batch_at bs len cs info -> batch_at bs' len cs info -> agree bs' bs 0 len.
Proof.
  intros [] []. apply (agree_step _ _ _ 32).
  - by apply (batch_header_unique bs bs' info).
  - by apply (commands_at_unique bs bs' cs).
Qed.

Lemma finish_batch cs b bs :
  builds cs b bs -> cs <> [] ->
  exists b' bs',
    bvb_command_batch_finish (Some b) (Some tt) = Ok (b', b.(bd_length)) /\
    b'.(bd_bytes) = Some bs' /\ blen bs' = blen bs /\
    batch_at bs' b.(bd_length) cs
      (mk_info b.(bd_command_buffer_id) b.(bd_sequence) (Z.of_nat (length cs))
         b.(bd_length)).
Proof.
  intros [Hb Hcap Hlen Hmax Hcnt Hlim Hopen [Hid Hex] [Hseq Hne] Hcs] Hcs0.
  assert (0 < b.(bd_command_count))
    by (destruct cs; [done|cbn [length] in Hcnt; lia]).
  unfold bvb_command_batch_finish. rewrite Hb, Hopen. cbn [orb]. cbv zeta.
  replace (_ || _) with false by (unfold UINT32_MAX; lia).
  set (h0 := bvb_wire_put_u32 bs _ _). set (h1 := bvb_wire_put_u16 h0 _ _).
  set (h2 := bvb_wire_put_u16 h1 _ _). set (h3 := bvb_wire_put_u32 h2 _ _).
  set (h4 := bvb_wire_put_u32 h3 _ _). set (h5 := bvb_wire_put_u64 h4 _ _).
  set (h6 := bvb_wire_put_u64 h5 _ _).
  assert (H6 : blen h6 = blen bs).
  { unfold h6, h5, h4, h3, h2, h1, h0. by autorewrite with blen. }
  exists {| bd_bytes := Some h6; bd_capacity := b.(bd_capacity);
            bd_length := b.(bd_length);
            bd_command_buffer_id := b.(bd_command_buffer_id);
            bd_sequence := b.(bd_sequence);
            bd_command_count := b.(bd_command_count); bd_finished := true |}, h6.
  split_and!; [done|done|done|]. constructor; cbn; try done; try lia.
  - assert (is_u32 (bd_length b) = true) by (apply is_u32_spec; lia).
    assert (is_u32 (bd_command_count b) = true) by (apply is_u32_spec; lia).
    rewrite <- Hcnt.
    unfold batch_header, h6, h5, h4, h3, h2, h1, h0; cbn. wire_read.
    done.
  - eapply commands_at_agree; [lia| |exact Hcs].
    unfold h6, h5, h4, h3, h2, h1, h0.
    repeat first [apply agree_refl
      | eapply agree_trans;
        [first [apply agree_put_u64|apply agree_put_u32|apply agree_put_u16];
         unfold disjoint; lia|]].
Qed.

(** ** The validator *)

Lemma validate_record_ok bs len off c cs stop :
  0 <= off -> stop <= len <= blen bs -> commands_at bs off (c :: cs) stop ->
  validate_record bs len off = Ok (off + 8 + command_length c).
Proof.
  intros Hoff Hlen (p & Hc & Hp & H1 & H2 & H3 & H4 & H).
  destruct (command_length_bound c p Hc Hp) as (Hl & Hl2 & _).
  pose proof (commands_at_le _ _ _ _ H) as Hle.
  destruct (command_sound c p (bs +! (off + 8)) Hc Hp) as (_ & _ & Hv & Hval & _);
    [rewrite blen_ptr_add by lia; lia|done|].
  destruct (length_valid_expected _ _ _ Hv) as [s Hs].
  unfold validate_record. rewrite H1, H2, H3, Hs. cbv zeta. cbn [is_ok].
  replace (len <? off) with false by lia.
  replace (len - off <? 8) with false by lia.
  replace (len - off - 8 <? command_length c) with false by lia.
  rewrite Hv, Hval. cbn. rewrite record_length_small by lia. f_equal. lia.
Qed.

Lemma validate_loop_ok bs len stop cs : forall off i,
  0 <= off -> stop <= len <= blen bs -> commands_at bs off cs stop ->
  loop_from (length cs) i (fun _ offset => validate_record bs len offset) off =
  Ok stop.
Proof.
  induction cs as [|c cs IH]; intros off i Hoff Hlen H; [by cbn in *; subst|].
  cbn [length loop_from]. rewrite (validate_record_ok _ _ _ _ _ _ Hoff Hlen H).
  destruct H as (p & Hc & Hp & _ & _ & _ & _ & H).
  destruct (command_length_bound c p Hc Hp) as (Hl & _).
  apply IH; [lia|done|done].
Qed.

Lemma validate_record_inv bs len off next :
  0 <= off -> len <= blen bs -> len < 2 ^ 31 ->
  validate_record bs len off = Ok next ->
  exists c p, command_pre c = true /\ command_norm c = c /\
    command_payload c = Ok p /\
    bvb_wire_get_u16 bs off = command_opcode c /\
    bvb_wire_get_u16 bs (off + 2) = 0 /\
    bvb_wire_get_u32 bs (off + 4) = command_length c /\
    agree (bs +! (off + 8)) p 0 (command_length c) /\
    next = off + 8 + command_length c /\ next <= len.
Proof.
  intros Hoff Hlen H31 H. unfold validate_record in H. cbv zeta in H.
  count_bound (bvb_wire_get_u32 bs (off + 4)).
  guards H. split_tests. injection H as <-.
  match goal with
  | H : is_ok (validate_payload _ _) = true |- _ => apply is_ok_tt in H as Hval
  end.
  match goal with
  | H : payload_length_is_valid _ _ _ = true |- _ => rename H into Hv
  end.
  destruct (command_complete _ _ _ Hv ltac:(rewrite blen_ptr_add by lia; lia) Hval)
    as (c & p & Ho & Hl & Hc & Hn & Hp & Ha).
  exists c, p. rewrite Ho, Hl.
  rewrite record_length_small by lia.
  split_and!; try done; try lia. by apply agree_sym.
Qed.


Lemma validate_loop_inv bs len stop n : forall off i,
  0 <= off -> len <= blen bs -> len < 2 ^ 31 ->
  loop_from n i (fun _ offset => validate_record bs len offset) off = Ok stop ->
  exists cs, length cs = n /\ commands_at bs off cs stop /\
    map command_norm cs = cs.
Proof.
  induction n as [|n IH]; intros off i Hoff Hlen H31; cbn [loop_from].
  - intros [= <-]. by exists [].
  - destruct (validate_record bs len off) as [next|] eqn:E; [|done]. intros H.
    destruct (validate_record_inv bs len off next Hoff Hlen H31 E)
      as (c & p & Hc & Hn & Hp & H1 & H2 & H3 & H4 & -> & Hle).
    destruct (command_length_bound c p Hc Hp) as (Hl & _).
    destruct (IH (off + 8 + command_length c) (i + 1)) as (cs & Hcs & Ha & Hm);
      [lia|done|done|done|].
    exists (c :: cs). split_and!; [cbn; by rewrite Hcs| |cbn; by rewrite Hn, Hm].
    exists p. by split_and!.
Qed.

Lemma validate_complete bs len cs info old :
  batch_at bs len cs info ->
  bvb_command_batch_validate (Some bs) len (Some old) = Ok info.
Proof.
  intros [Hlen Hfit (H0 & H4 & H6 & H8 & H12 & H16 & H24) Hbl Hc Hcc Hid Hseq Hcs].
  unfold bvb_command_batch_validate. cbv zeta.
  rewrite H0, H4, H6, H8, H12, H16, H24, Hid, Hbl.
  replace (_ || _) with false by lia. replace (_ || _) with false by lia.
  unfold for_loop. rewrite Hc, Nat2Z.id.
  rewrite (validate_loop_ok bs len len cs 32 0 ltac:(lia) ltac:(lia) Hcs).
  rewrite Z.eqb_refl. cbn [negb]. rewrite <- Hc, <- Hbl. by destruct info.
Qed.

Lemma validate_inv bs len old info :
  len <= blen bs ->
  bvb_command_batch_validate (Some bs) len (Some old) = Ok info ->
  exists cs, batch_at bs len cs info /\ map command_norm cs = cs.
Proof.
  intros Hfit H. unfold bvb_command_batch_validate in H. cbv zeta in H.
  guards H. destruct (for_loop _ _ _) as [stop|] eqn:E; [|done].
  guards H. injection H as <-. split_tests.
  count_bound (bvb_wire_get_u32 bs 12).
  apply validate_loop_inv in E as (cs & Hn & Hcs & Hm); [|lia..].
  assert (stop = len) as -> by lia.
  exists cs. split; [|done]. constructor; cbn; try done; try lia.
  unfold batch_header. cbn. split_and!; lia.
Qed.

(** The codes the validator may return, by its arguments. *)
Lemma validate_error bs len old e :
  bvb_command_batch_validate (Some bs) len (Some old) = Err e ->
  e = if (len <? 32) || (BVB_COMMAND_BATCH_MAX_BYTES <? len)
      then - EINVAL else - EPROTO.
Proof.
  unfold bvb_command_batch_validate. cbv zeta.
  destruct (_ || _); [by intros [= <-]|].
  destruct (_ || _); [by intros [= <-]|].
  destruct (for_loop _ _ _) as [stop|e'] eqn:E.
  - destruct (negb _); [by intros [= <-]|done].
  - intros [= <-]. eapply for_loop_error; [|exact E].
    intros i off e. unfold validate_record. cbv zeta.
    do 3 (destruct (_ || _); [by intros [= <-]|]). done.
Qed.

(** ** The iterator *)

Lemma read_commands_at bs len cs : forall off stop fuel,
  0 <= off -> stop <= len <= blen bs -> len < 2 ^ 31 ->
  (length cs < fuel)%nat -> commands_at bs off cs stop ->
  read_commands fuel
    (mk_iterator (Some bs) len off (Z.of_nat (length cs))) =
  Ok (map command_norm cs).
Proof.
  induction cs as [|c cs IH]; intros off stop fuel Hoff Hlen H31 Hf H;
    (destruct fuel as [|fuel]; [cbn in Hf; lia|]).
  - cbn in H. subst. cbn. by replace (len <? stop) with false by lia.
  - destruct H as (p & Hc & Hp & H1 & H2 & H3 & H4 & H).
    destruct (command_length_bound c p Hc Hp) as (Hl & Hl2 & _).
    pose proof (commands_at_le _ _ _ _ H) as Hle.
    destruct (command_sound c p (bs +! (off + 8)) Hc Hp)
      as (_ & _ & _ & _ & Hd); [rewrite blen_ptr_add by lia; lia|done|].
    cbn [read_commands]. unfold bvb_command_batch_next. cbn [it_length it_offset
      it_remaining it_bytes]. cbv zeta.
    replace (len <? off) with false by lia.
    replace (Z.of_nat (length (c :: cs)) =? 0) with false by done.
    rewrite H1, H3, Hd, record_length_small by lia.
    replace (Z.of_nat (length (c :: cs)) - 1) with (Z.of_nat (length cs))
      by (cbn [length]; lia).
    replace (off + (8 + command_length c)) with (off + 8 + command_length c) by lia.
    rewrite (IH (off + 8 + command_length c) stop fuel); [done|lia|lia|lia| |done].
    cbn [length] in Hf. lia.
Qed.

Definition iterate_batch (fuel : nat) (bs : bytes) (len : Z) :
    result (list bvb_command) :=
  try iterator := bvb_command_batch_iterator_init
                    (Some (mk_iterator None 0 0 0)) (Some bs) len ;;
  read_commands fuel iterator.

Lemma iterate_batch_at bs len cs info fuel :
  batch_at bs len cs info -> (length cs < fuel)%nat ->
  iterate_batch fuel bs len = Ok (map command_norm cs).
Proof.
  intros H Hf. unfold iterate_batch, bvb_command_batch_iterator_init.
  rewrite (validate_complete bs len cs info) by done.
  destruct H. rewrite batch_count0.
  eapply read_commands_at; [..|done|exact batch_commands0]; lia.
Qed.
