(* ===== verification/CommandTheorems.v ===== *)
(** * CommandTheorems: the properties of command batches

    What src/command_batch.c promises of a batch as a whole, proved from the
    layout lemmas: the outcome of every append, the two round trips, the
    bytes the validator depends on, and the one command the encoder takes and
    the validator refuses. *)

From S2P Require Import Prelude Wire Codec Window CommandTypes CommandBase CommandArrays CommandFixed CommandTransfer CommandBarrier CommandState CommandBindings CommandDispatch CommandBatch CommandLayout.

(** ** Sequences of appends *)

Fixpoint batch_size (cs : list bvb_command) : Z :=
  match cs with
  | [] => 0
  | c :: cs => 8 + command_length c + batch_size cs
  end.

Lemma commands_at_size bs cs : forall off stop,
  commands_at bs off cs stop -> stop = off + batch_size cs.
Proof.
  induction cs as [|c cs IH]; intros off stop; cbn; [lia|].
  intros (p & _ & _ & _ & _ & _ & _ & H). apply IH in H. lia.
Qed.

(** A command its append function would send. *)
Definition encodable (c : bvb_command) : Prop :=
  command_pre c = true /\ exists p, command_payload c = Ok p.

Lemma commands_at_encodable bs cs : forall off stop,
  commands_at bs off cs stop -> Forall encodable cs.
Proof.
  induction cs as [|c cs IH]; intros off stop; cbn; [constructor|].
  intros (p & Hc & Hp & _ & _ & _ & _ & H). constructor; [by split; [|exists p]|].
  eapply IH, H.
Qed.

Lemma batch_size_nonneg cs : Forall encodable cs -> 0 <= batch_size cs.
Proof.
  induction 1 as [|c cs [Hc [p Hp]] _ IH]; cbn; [lia|].
  destruct (command_length_bound c p Hc Hp). lia.
Qed.

(** Appends that have room, one after the other. *)
Lemma append_commands_ok cs : forall ds b bs,
  builds ds b bs -> Forall encodable cs ->
  b.(bd_command_count) + Z.of_nat (length cs) <= BVB_COMMAND_BATCH_MAX_COMMANDS ->
  b.(bd_length) + batch_size cs <= b.(bd_capacity) ->
  exists b' bs', append_commands b cs = Ok b' /\ builds (ds ++ cs) b' bs' /\
    b'.(bd_length) = b.(bd_length) + batch_size cs /\
    b'.(bd_command_buffer_id) = b.(bd_command_buffer_id) /\
    b'.(bd_sequence) = b.(bd_sequence).
Proof.
  induction cs as [|c cs IH]; intros ds b bs Hb Hcs Hcount Hroom.
  - exists b, bs. rewrite app_nil_r. split_and!; try done. cbn. lia.
  - apply Forall_cons_1 in Hcs as [[Hc [p Hp]] Hcs].
    pose proof (batch_size_nonneg cs Hcs).
    pose proof (append_step ds b bs c p Hb Hc Hp) as Hstep.
    cbn [length batch_size] in *.
    destruct (Z.leb_spec BVB_COMMAND_BATCH_MAX_COMMANDS b.(bd_command_count));
      [lia|].
    destruct (Z.ltb_spec b.(bd_capacity) (b.(bd_length) + 8 + command_length c));
      [lia|].
    destruct Hstep as (b' & bs' & E & Hb' & El & Ec & Ei & Es).
    destruct (IH (ds ++ [c]) b' bs' Hb' Hcs) as (b2 & bs2 & E2 & Hb2 & El2 & Ei2 & Es2).
    + rewrite (builds_count _ _ _ Hb'), length_app. cbn.
      rewrite (builds_count _ _ _ Hb) in Hcount. lia.
    + lia.
    + exists b2, bs2. cbn [append_commands]. rewrite E, E2, <- app_assoc in *.
      split_and!; [done|done|lia|congruence|congruence].
Qed.

(** Appends that all succeeded. *)
Lemma append_commands_inv cs : forall ds b bs b',
  builds ds b bs -> Forall (fun c => command_pre c = true) cs ->
  append_commands b cs = Ok b' ->
  exists bs', builds (ds ++ cs) b' bs' /\
    b'.(bd_capacity) = b.(bd_capacity) /\
    b'.(bd_command_buffer_id) = b.(bd_command_buffer_id) /\
    b'.(bd_sequence) = b.(bd_sequence).
Proof.
  induction cs as [|c cs IH]; intros ds b bs b' Hb Hcs H.
  - injection H as <-. exists bs. by rewrite app_nil_r.
  - apply Forall_cons_1 in Hcs as [Hc Hcs]. cbn [append_commands] in H.
    destruct (command_payload c) as [p|e] eqn:Hp;
      [|by rewrite append_command_eq, Hp in H].
    pose proof (append_step ds b bs c p Hb Hc Hp) as Hstep.
    destruct (_ <=? _); [by rewrite Hstep in H|].
    destruct (_ <? _); [by rewrite Hstep in H|].
    destruct Hstep as (b1 & bs1 & E & Hb1 & _ & Ec & Ei & Es). rewrite E in H.
    destruct (IH (ds ++ [c]) b1 bs1 b' Hb1 Hcs H) as (bs' & Hb' & Ec' & Ei' & Es').
    exists bs'. rewrite <- app_assoc in Hb'.
    split_and!; [done|congruence..].
Qed.

Lemma command_payload_error c e :
  command_pre c = true -> command_payload c = Err e -> e = - EINVAL.
Proof.
  intros Hc He.
  destruct (command_has_recorder c Hc)
    as (T & r & v & mk & Hr & _ & _ & Epay & _).
  rewrite Epay in He. by eapply payload_error.
Qed.

(** What the validator says depends on the batch's bytes only. *)
Lemma validate_agrees bs bs' len old :
  len <= blen bs -> len <= blen bs' -> agree bs' bs 0 len ->
  bvb_command_batch_validate (Some bs') len (Some old) =
  bvb_command_batch_validate (Some bs) len (Some old).
Proof.
  intros Hb Hb' Ha.
  assert (Hok : forall b1 b2 info, len <= blen b1 -> len <= blen b2 ->
    agree b2 b1 0 len ->
    bvb_command_batch_validate (Some b1) len (Some old) = Ok info ->
    bvb_command_batch_validate (Some b2) len (Some old) = Ok info).
  { intros b1 b2 info H1 H2 H12 H.
    destruct (validate_inv b1 len old info H1 H) as (cs & Hat & _).
    apply (validate_complete b2 len cs). by apply (batch_at_agree b1). }
  destruct (bvb_command_batch_validate (Some bs) len (Some old)) as [info|e] eqn:E.
  - by apply (Hok bs bs').
  - destruct (bvb_command_batch_validate (Some bs') len (Some old)) as [info|e'] eqn:E'.
    + rewrite (Hok bs' bs info) in E; [done|done|done|by apply agree_sym|done].
    + by rewrite (validate_error _ _ _ _ E), (validate_error _ _ _ _ E').
Qed.

(** ** Properties *)

(** C31: Appending a command to a batch in progress has exactly one of four
    outcomes: a command its function rejects and a batch that already holds
    the greatest number of commands are refused with [EINVAL], a batch
    without room for the record with [ENOSPC], both leaving the batch as it
    was; otherwise the record is added after the others, which keep their
    bytes. *)
Theorem append_command_outcome cs b bs c :
  builds cs b bs -> command_pre c = true ->
  match command_payload c with
  | Err _ => append_command (Some b) c = Err (- EINVAL)
  | Ok _ =>
    if BVB_COMMAND_BATCH_MAX_COMMANDS <=? b.(bd_command_count) then
      append_command (Some b) c = Err (- EINVAL)
    else if b.(bd_capacity) <? b.(bd_length) + 8 + command_length c then
      append_command (Some b) c = Err (- ENOSPC)
    else exists b' bs',
      append_command (Some b) c = Ok b' /\ builds (cs ++ [c]) b' bs' /\
      b'.(bd_length) = b.(bd_length) + 8 + command_length c /\
      b'.(bd_capacity) = b.(bd_capacity) /\
      b'.(bd_command_buffer_id) = b.(bd_command_buffer_id) /\
      b'.(bd_sequence) = b.(bd_sequence)
  end.
Proof.
  intros Hb Hc. destruct (command_payload c) as [p|e] eqn:Hp.
  - by apply (append_step cs b bs c p).
  - rewrite append_command_eq, Hp. by rewrite (command_payload_error c e Hc Hp).
Qed.

(** C5: A batch built from any sequence of commands, whatever their kinds, is
    accepted by the validator with the identifier, sequence number, count and
    length it was built with, and iterating over it with the decoders gives
    the same commands in the same order, then the end; only array elements
    past their counts are not sent. *)
Theorem batch_round_trip cs b0 bs capacity id sequence b1 b2 :
  blen bs = capacity -> is_u64 id = true -> is_u64 sequence = true ->
  Forall (fun c => command_pre c = true) cs -> cs <> [] ->
  bvb_command_batch_begin (Some b0) (Some bs) capacity id sequence = Ok b1 ->
  append_commands b1 cs = Ok b2 ->
  exists b3 len out,
    bvb_command_batch_finish (Some b2) (Some tt) = Ok (b3, len) /\
    b3.(bd_bytes) = Some out /\ len <= capacity /\
    (forall old, bvb_command_batch_validate (Some out) len (Some old) =
       Ok (mk_info id sequence (Z.of_nat (length cs)) len)) /\
    (forall fuel, (length cs < fuel)%nat ->
       iterate_batch fuel out len = Ok (map command_norm cs)).
Proof.
  intros Hl Hid Hseq Hcs Hne Hbegin Happ.
  destruct (begin_builds b0 bs capacity id sequence b1 Hl Hid Hseq Hbegin)
    as (bs1 & Hb1 & _ & Hcap & Ei & Es).
  destruct (append_commands_inv cs [] b1 bs1 b2 Hb1 Hcs Happ)
    as (bs2 & Hb2 & Ec2 & Ei2 & Es2).
  destruct (finish_batch cs b2 bs2 Hb2 Hne) as (b3 & out & Hf & Hout & Hlo & Hat).
  rewrite Ei2, Es2, Ei, Es in Hat.
  exists b3, b2.(bd_length), out. split_and!; [done|done| | |].
  - pose proof (builds_length _ _ _ Hb2). lia.
  - intros old. by apply (validate_complete _ _ cs).
  - intros fuel. by eapply iterate_batch_at.
Qed.

(** C6: Whatever bytes a peer sends, a batch the validator accepts is the
    encoding of a list of well-formed commands: iterating over it decodes
    every record and stops at the count of the header, each decoded command
    fits its structure's arrays, and building a batch of the decoded commands
    again, in any buffer long enough, writes the same bytes.  No two accepted
    batches are read as the same commands. *)
Theorem validated_batch_is_canonical bs len old info :
  len <= blen bs ->
  bvb_command_batch_validate (Some bs) len (Some old) = Ok info ->
  exists cs,
    Z.of_nat (length cs) = info.(bi_command_count) /\
    Forall (fun c => command_pre c = true) cs /\
    (forall fuel, (length cs < fuel)%nat -> iterate_batch fuel bs len = Ok cs) /\
    (forall b0 buffer capacity, blen buffer = capacity ->
       len <= capacity <= BVB_COMMAND_BATCH_MAX_BYTES ->
       exists b1 b2 b3 out,
         bvb_command_batch_begin (Some b0) (Some buffer) capacity
           info.(bi_command_buffer_id) info.(bi_sequence) = Ok b1 /\
         append_commands b1 cs = Ok b2 /\
         bvb_command_batch_finish (Some b2) (Some tt) = Ok (b3, len) /\
         b3.(bd_bytes) = Some out /\
         rd_bytes out 0 len = rd_bytes bs 0 len).
Proof.
  intros Hfit H. destruct (validate_inv bs len old info Hfit H) as (cs & Hat & Hm).
  pose proof Hat as [Hlen _ Hh Hbl Hc Hcc Hid Hseq Hcs].
  pose proof (commands_at_encodable _ _ _ _ Hcs) as Henc.
  pose proof (commands_at_size _ _ _ _ Hcs) as Hsize.
  exists cs. split_and!; [done| | |].
  - revert Henc. apply Forall_impl. by intros c [].
  - intros fuel Hf. rewrite (iterate_batch_at bs len cs info) by done. by rewrite Hm.
  - intros b0 buffer capacity Hb Hcap.
    assert (Hid64 : is_u64 (bi_command_buffer_id info) = true).
    { destruct Hh as (_ & _ & _ & _ & _ & <- & _). apply get_u64_range. }
    assert (Hseq64 : is_u64 (bi_sequence info) = true).
    { destruct Hh as (_ & _ & _ & _ & _ & _ & <-). apply get_u64_range. }
    set (id := bi_command_buffer_id info) in *. set (seq := bi_sequence info) in *.
    destruct (bvb_command_batch_begin (Some b0) (Some buffer) capacity id seq)
      as [b1|] eqn:Hbegin.
    2: { unfold bvb_command_batch_begin in Hbegin. rewrite Hid in Hbegin.
         replace (_ || _) with false in Hbegin by lia. discriminate. }
    destruct (begin_builds b0 buffer capacity id seq b1 Hb Hid64 Hseq64 Hbegin)
      as (bs1 & Hb1 & El1 & Ec1 & Ei1 & Es1).
    destruct (append_commands_ok cs [] b1 bs1 Hb1 Henc)
      as (b2 & bs2 & Happ & Hb2 & El2 & Ei2 & Es2).
    { rewrite (builds_count _ _ _ Hb1). cbn. lia. }
    { lia. }
    destruct (finish_batch cs b2 bs2 Hb2) as (b3 & out & Hf & Hout & _ & Hat2).
    { intros ->. cbn in Hc. lia. }
    replace (bd_length b2) with len in * by lia.
    rewrite Ei2, Es2, Ei1, Es1, <- Hc in Hat2.
    replace (mk_info _ _ _ _) with info in Hat2 by (destruct info; cbn in *; congruence).
    exists b1, b2, b3, out. split_and!; [done|done|done|done|].
    pose proof (batch_fits _ _ _ _ Hat2).
    apply rd_bytes_agree; [lia..|].
    by apply (batch_at_unique bs out len cs info).
Qed.

(** A snapshot is what was validated: the copy a submission is read from
    holds exactly the bytes of the shared buffer when it was taken, so the
    validator says of the copy what it would have said of the buffer then,
    and an accepted copy decodes to the same commands whatever the peer
    writes to the shared buffer afterwards. *)
Theorem snapshot_is_validated_once source len copy old :
  len <= blen source -> 0 < len ->
  bvb_command_batch_snapshot (Some source) len (Some tt) true = Ok copy ->
  blen copy = len /\
  bvb_command_batch_validate (Some copy) len (Some old) =
    bvb_command_batch_validate (Some source) len (Some old) /\
  (forall info, bvb_command_batch_validate (Some copy) len (Some old) = Ok info ->
     exists cs, Z.of_nat (length cs) = info.(bi_command_count) /\
       forall fuel, (length cs < fuel)%nat ->
         iterate_batch fuel copy len = Ok cs /\
         iterate_batch fuel source len = Ok cs).
Proof.
  intros Hb Hl H. unfold bvb_command_batch_snapshot in H. guards H.
  injection H as <-.
  assert (Hc : blen (rd_bytes source 0 len) = len) by (apply blen_rd_bytes; lia).
  assert (Ha : agree (rd_bytes source 0 len) source 0 len)
    by (intros k Hk; by rewrite rd_bytes_lookup by lia).
  split_and!; [done| |].
  - apply validate_agrees; [lia|lia|done].
  - intros info Hv. destruct (validate_inv (rd_bytes source 0 len) len old info ltac:(lia) Hv)
      as (cs & Hat & Hm).
    exists cs. split; [by destruct Hat|]. intros fuel Hf.
    assert (Hat' : batch_at source len cs info)
      by (apply (batch_at_agree (rd_bytes source 0 len)); [by apply agree_sym|lia|done]).
    by rewrite (iterate_batch_at _ len cs info), (iterate_batch_at _ len cs info), Hm
      by done.
Qed.

(** ** Well-formed commands *)

(** The counts of a command are within the arrays of its structure. *)
Definition counts_fit (c : bvb_command) : bool :=
  match c with
  | command_begin_rendering c => c.(br_color_attachment_count) <=? 8
  | command_init_image_barrier c => c.(iib_image_count) <=? 4
  | command_image_barrier_2 c =>
      (c.(ib2_memory_count) <=? 64) && (c.(ib2_buffer_count) <=? 256) &&
      (c.(ib2_image_count) <=? 2048)
  | command_clear_color_image_general c => c.(ccg_range_count) <=? 4
  | command_bind_descriptor_sets c =>
      (c.(bds_descriptor_set_count) <=? 8) &&
      (c.(bds_dynamic_offset_count) <=? 32)
  | command_push_constants c => c.(pc_size) <=? blen c.(pc_data)
  | command_transfer _ c => c.(tf_region_count) <=? 16
  | command_bind_vertex_buffers _ c => c.(bvt_binding_count) <=? 16
  | command_dynamic_state c => c.(dys_value_count) <=? 8
  | command_clear_depth_stencil_image c => c.(cds_range_count) <=? 4
  | command_clear_attachments c =>
      (c.(cas_attachment_count) <=? 8) && (c.(cas_rect_count) <=? 8)
  | command_update_buffer c => c.(ub_data_size) <=? blen c.(ub_data)
  | _ => true
  end.

Lemma encodable_counts c : encodable c -> counts_fit c = true.
Proof.
  intros [Hc [p Hp]]. destruct c; try done; cbn in Hc, Hp |- *;
    try (apply andb_true_iff in Hc as [_ Hc]).
  all: try red_head Hp; cbv zeta in Hp; repeat (cbn [negb] in Hp; guards Hp).
  all: split_tests. all: try lia.
Qed.

(** C7: Every command read from an accepted batch is a well-formed value of
    its C structure: each field within the range of its type, each array of
    its declared length and each count within its array.  The decoders, whose
    loops and copies trust those counts, therefore never write outside the
    structure they fill. *)
Theorem validated_commands_are_well_formed bs len old info fuel cs :
  len <= blen bs ->
  bvb_command_batch_validate (Some bs) len (Some old) = Ok info ->
  info.(bi_command_count) < Z.of_nat fuel ->
  iterate_batch fuel bs len = Ok cs ->
  Forall (fun c => command_pre c = true /\ counts_fit c = true) cs.
Proof.
  intros Hb Hv Hf H. destruct (validate_inv bs len old info Hb Hv) as (ds & Hat & Hm).
  pose proof (batch_count _ _ _ _ Hat).
  rewrite (iterate_batch_at bs len ds info), Hm in H by (done || lia).
  injection H as <-. pose proof (commands_at_encodable _ _ _ _ (batch_commands _ _ _ _ Hat)) as He.
  revert He. apply Forall_impl. intros c Hc. split; [by destruct Hc|].
  by apply encodable_counts.
Qed.

(** A transfer of any kind but a blit whose filter is not zero is encoded
    by its append function, which tests the filter of blits only, and its
    record is then refused by the validator: the batch that holds it cannot
    be replayed, and neither can the commands around it. *)
Theorem transfer_filter_is_not_checked op c p q :
  transfer_opcode_is_valid op = true -> op <> BVB_COMMAND_VULKAN_BLIT_IMAGE_2 ->
  tf_rep c = true -> c.(tf_filter) <> 0 ->
  transfer_payload op (Some c) = Ok p -> agree q p 0 32 ->
  validate_payload op (Some q) = Err (- EPROTO).
Proof.
  intros Hop Hblit Hrep Hfilter Hp Ha.
  pose proof (transfer_filter_word op c p Hop Hrep Hp) as Hw.
  rewrite <- (get_u32_agree q p) in Hw by (eapply agree_sub; [exact Ha|lia|lia]).
  assert (validate_payload op (Some q) = valid_transfer op q) as ->
    by (by apply transfer_opcodes in Hop as [-> | [-> | [-> | [-> | [-> | ->]]]]]).
  unfold valid_transfer. cbv zeta.
  destruct (_ || _) eqn:E; [done|]. split_tests. lia.
Qed.

(** ** Witnesses *)

Definition sample_id : Z := bvb_handle_id BVB_OBJECT_COMMAND_BUFFER 5.
Definition sample_image : Z := bvb_handle_id BVB_OBJECT_IMAGE 6.
Definition sample_draw : bvb_draw_command := mk_dr 3 1 0 0.
Definition sample_commands : list bvb_command :=
  [command_vulkan_begin (mk_vb 1); command_draw sample_draw; command_vulkan_end].
Definition sample_builder : bvb_command_batch_builder :=
  mk_builder None 0 0 0 0 0 false.
Definition sample_begun : result bvb_command_batch_builder :=
  bvb_command_batch_begin (Some sample_builder) (Some (blank 96)) 96 sample_id 4.

(** The batch of the sample, eighty bytes. *)
Definition sample_batch : bytes :=
  match (try b := sample_begun ;; try b := append_commands b sample_commands ;;
         bvb_command_batch_finish (Some b) (Some tt)) with
  | Ok (b, _) => pointee b.(bd_bytes)
  | Err _ => []
  end.
Definition sample_info : bvb_command_batch_info := mk_info sample_id 4 3 80.

Lemma batch_round_trip_witness :
  bvb_command_batch_validate (Some sample_batch) 80 (Some sample_info) =
    Ok sample_info /\
  iterate_batch 4 sample_batch 80 = Ok sample_commands.
Proof.
  destruct (append_commands (match sample_begun with Ok b => b
              | Err _ => sample_builder end) sample_commands) as [b2|] eqn:E;
    [|vm_compute in E; discriminate].
  destruct (batch_round_trip sample_commands sample_builder (blank 96) 96 sample_id
    4 (match sample_begun with Ok b => b | Err _ => sample_builder end) b2)
    as (b3 & len & out & Hf & Ho & _ & Hv & Hi).
  - reflexivity.
  - reflexivity.
  - reflexivity.
  - repeat constructor.
  - discriminate.
  - vm_compute. reflexivity.
  - exact E.
  - vm_compute in E. injection E as <-. vm_compute in Hf. injection Hf as <- <-.
    cbn in Ho. injection Ho as <-. split.
    + specialize (Hv sample_info). vm_compute in Hv |- *. exact Hv.
    + specialize (Hi 4%nat ltac:(cbn; lia)). vm_compute in Hi |- *. exact Hi.
Defined.

Lemma sample_accepted :
  80 <= blen sample_batch /\
  bvb_command_batch_validate (Some sample_batch) 80 (Some sample_info) =
    Ok sample_info.
Proof. split; [vm_compute; discriminate|vm_compute; reflexivity]. Qed.

Lemma validated_batch_is_canonical_witness :
  exists cs, length cs = 3%nat /\ iterate_batch 4 sample_batch 80 = Ok cs.
Proof.
  destruct (validated_batch_is_canonical sample_batch 80 sample_info sample_info
    (proj1 sample_accepted) (proj2 sample_accepted)) as (cs & Hc & _ & Hi & _).
  cbn in Hc. exists cs. split; [lia|apply Hi; lia].
Defined.

Lemma snapshot_is_validated_once_witness :
  exists copy, bvb_command_batch_snapshot (Some sample_batch) 80 (Some tt) true =
    Ok copy /\ blen copy = 80.
Proof.
  eexists. split; [reflexivity|].
  apply (snapshot_is_validated_once sample_batch 80 _ sample_info
           (proj1 sample_accepted)); [lia|reflexivity].
Defined.

Lemma validated_commands_are_well_formed_witness :
  Forall (fun c => command_pre c = true /\ counts_fit c = true) sample_commands.
Proof.
  apply (validated_commands_are_well_formed sample_batch 80 sample_info
           sample_info 4 sample_commands).
  - apply sample_accepted.
  - apply sample_accepted.
  - reflexivity.
  - vm_compute. reflexivity.
Defined.

(** The builder after [begin], and the two outcomes of an append. *)
Lemma append_command_outcome_witness :
  exists b' bs', append_command
    (match sample_begun with Ok b => Some b | Err _ => None end)
    (command_draw sample_draw) = Ok b' /\
  builds [command_draw sample_draw] b' bs' /\ b'.(bd_length) = 56.
Proof.
  destruct sample_begun as [b|] eqn:E; [|vm_compute in E; discriminate].
  destruct (begin_builds sample_builder (blank 96) 96 sample_id 4 b eq_refl
              eq_refl eq_refl E)
    as (bs & Hb & Hl & Hc & _).
  pose proof (append_command_outcome [] b bs (command_draw sample_draw) Hb eq_refl)
    as H.
  rewrite (builds_count _ _ _ Hb), Hl, Hc in H. cbn in H.
  destruct H as (b' & bs' & Ha & Hb' & Hl' & _). exists b', bs'.
  split_and!; [done|done|rewrite Hl'; reflexivity].
Defined.

(** A copy between images with a filter: the batch is built, and refused. *)
Definition sample_region : bvb_vulkan_transfer_region :=
  mk_tr 0 0 0 0 0 (mk_isl 1 0 0 1) (mk_isl 1 0 0 1) (replicate 2 zero_o3)
    (replicate 2 zero_o3) (mk_e3 4 4 1).
Definition sample_copy : bvb_vulkan_transfer_command :=
  mk_tf sample_image sample_image 1 1 1 1
    (sample_region :: replicate 15 zero_tr).
Definition sample_refused : result (bvb_command_batch_builder * Z) :=
  try b := bvb_command_batch_begin (Some sample_builder) (Some (blank 256)) 256
             sample_id 4 ;;
  try b := append_command (Some b)
             (command_transfer BVB_COMMAND_VULKAN_COPY_IMAGE_2 sample_copy) ;;
  bvb_command_batch_finish (Some b) (Some tt).

Lemma transfer_filter_is_not_checked_witness :
  (exists p, transfer_payload BVB_COMMAND_VULKAN_COPY_IMAGE_2 (Some sample_copy) =
     Ok p /\
     validate_payload BVB_COMMAND_VULKAN_COPY_IMAGE_2 (Some p) = Err (- EPROTO)) /\
  exists b len, sample_refused = Ok (b, len) /\
    bvb_command_batch_validate b.(bd_bytes) len (Some sample_info) =
      Err (- EPROTO).
Proof.
  split.
  - destruct (transfer_payload BVB_COMMAND_VULKAN_COPY_IMAGE_2 (Some sample_copy))
      as [p|] eqn:E; [|vm_compute in E; discriminate].
    exists p. split; [done|].
    apply (transfer_filter_is_not_checked _ sample_copy p p).
    + reflexivity.
    + discriminate.
    + vm_compute. reflexivity.
    + discriminate.
    + exact E.
    + apply agree_refl.
  - destruct sample_refused as [[b len]|] eqn:E; [|vm_compute in E; discriminate].
    exists b, len. split; [done|]. vm_compute in E. injection E as <- <-.
    vm_compute. reflexivity.
Defined.
