(* ===== verification/StreamGeneration.v ===== *)
(** * StreamGeneration: the replay table of command streams

    [bvb_command_stream_generation_check], [_commit] and
    [bvb_command_stream_generations_apply] of src/command_batch.c.  The
    bridge service keeps the last sequence number of each command buffer in a
    fixed table; a submission's updates are applied to a copy of the table,
    which replaces it only when every update was accepted; a full table is
    swept once per submission of the buffers that no longer exist.  The
    specification is a finite map from identifiers to sequence numbers. *)

From stdpp Require Import gmap.
From S2P Require Import Prelude Wire Codec Window Handle CommandBase.

Record bvb_command_stream_generation := mk_generation {
  sg_command_buffer_id : Z;
  sg_last_sequence : Z
}.

Record bvb_command_stream_generation_update := mk_update {
  su_command_buffer_id : Z;
  su_sequence : Z
}.

Definition zero_generation : bvb_command_stream_generation := mk_generation 0 0.

Definition SIZE_MAX : Z := UINT64_MAX.

(** ** The code *)

(** The loop from [index] on; [empty] is the first free entry, or
    [SIZE_MAX]. *)
Fixpoint generation_scan (generations : list bvb_command_stream_generation)
    (index empty command_buffer_id sequence : Z) : result Z :=
  match generations with
  | [] => if empty =? SIZE_MAX then Err (- ENOSPC) else Ok empty
  | g :: generations =>
    if g.(sg_command_buffer_id) =? command_buffer_id then
      if sequence <=? g.(sg_last_sequence) then Err (- ESTALE) else Ok index
    else
      let empty :=
        if (empty =? SIZE_MAX) && (g.(sg_command_buffer_id) =? 0) then index
        else empty in
      generation_scan generations (index + 1) empty command_buffer_id sequence
  end.

Definition bvb_command_stream_generation_check
    (generations : ptr (list bvb_command_stream_generation))
    (generation_count command_buffer_id sequence : Z)
    (generation_index : ptr Z) : result Z :=
  deref generations := generations or (- EINVAL) ;;
  deref _ := generation_index or (- EINVAL) ;;
  fail_if (generation_count =? 0) || (sequence =? 0) ||
          negb (expects command_buffer_id BVB_OBJECT_COMMAND_BUFFER)
    with (- EINVAL) ;;
  generation_scan (take (Z.to_nat generation_count) generations) 0 SIZE_MAX
    command_buffer_id sequence.

Definition bvb_command_stream_generation_commit
    (generations : ptr (list bvb_command_stream_generation))
    (generation_count generation_index command_buffer_id sequence : Z) :
    result (list bvb_command_stream_generation) :=
  deref generations := generations or (- EINVAL) ;;
  let generation := elt zero_generation generations generation_index in
  fail_if (generation_count <=? generation_index) || (sequence =? 0) ||
          negb (expects command_buffer_id BVB_OBJECT_COMMAND_BUFFER) ||
          (negb (generation.(sg_command_buffer_id) =? 0) &&
           negb (generation.(sg_command_buffer_id) =? command_buffer_id)) ||
          (sequence <=? generation.(sg_last_sequence)) with (- EINVAL) ;;
  Ok (<[Z.to_nat generation_index := mk_generation command_buffer_id sequence]>
        generations).

(** The sweep: entries of buffers that are not live are cleared. *)
Definition reclaim (is_live : Z -> bool) (g : bvb_command_stream_generation) :
    bvb_command_stream_generation :=
  if negb (g.(sg_command_buffer_id) =? 0) && negb (is_live g.(sg_command_buffer_id))
  then zero_generation else g.

Definition reclaimed_entries (is_live : Z -> bool)
    (generations : list bvb_command_stream_generation) : Z :=
  Z.of_nat (length (filter (fun g =>
    negb (g.(sg_command_buffer_id) =? 0) &&
    negb (is_live g.(sg_command_buffer_id)) = true) generations)).

(** The locals of the loop over the updates. *)
Record apply_state := mk_apply {
  ap_shadow : list bvb_command_stream_generation;
  ap_reclaimed : Z;
  ap_attempted : bool
}.

(** One turn of the loop. *)
Definition apply_update (generation_count : Z) (is_live : ptr (Z -> bool))
    (update : bvb_command_stream_generation_update) (s : apply_state) :
    result apply_state :=
  let check shadow := bvb_command_stream_generation_check (Some shadow)
    generation_count update.(su_command_buffer_id) update.(su_sequence)
    (Some SIZE_MAX) in
  let commit s index :=
    try shadow := bvb_command_stream_generation_commit (Some s.(ap_shadow))
      generation_count index update.(su_command_buffer_id)
      update.(su_sequence) ;;
    Ok (mk_apply shadow s.(ap_reclaimed) s.(ap_attempted)) in
  match check s.(ap_shadow) with
  | Ok index => commit s index
  | Err e =>
    match is_live with
    | Some is_live =>
      if (e =? - ENOSPC) && negb s.(ap_attempted) then
        let s := mk_apply (map (reclaim is_live) s.(ap_shadow))
                   (s.(ap_reclaimed) + reclaimed_entries is_live s.(ap_shadow))
                   true in
        try index := check s.(ap_shadow) ;;
        commit s index
      else Err e
    | None => Err e
    end
  end.

Fixpoint apply_updates (generation_count : Z) (is_live : ptr (Z -> bool))
    (updates : list bvb_command_stream_generation_update) (s : apply_state) :
    result apply_state :=
  match updates with
  | [] => Ok s
  | update :: updates =>
    try s := apply_update generation_count is_live update s ;;
    apply_updates generation_count is_live updates s
  end.

(** The size of the structure, two [uint64_t]. *)
Definition generation_size : Z := 16.

(** The array as the call leaves it, and the result with
    [*reclaimed_count]; [allocated] tells whether [malloc] succeeds. *)
Definition bvb_command_stream_generations_apply
    (generations : ptr (list bvb_command_stream_generation))
    (generation_count : Z)
    (updates : ptr (list bvb_command_stream_generation_update))
    (update_count : Z) (is_live : ptr (Z -> bool)) (allocated : bool) :
    ptr (list bvb_command_stream_generation) * (result unit * Z) :=
  match generations with
  | None => (generations, (Err (- EINVAL), 0))
  | Some array =>
    if (generation_count =? 0) ||
       (negb (update_count =? 0) &&
        match updates with None => true | Some _ => false end) ||
       (SIZE_MAX / generation_size <? generation_count)
    then (generations, (Err (- EINVAL), 0))
    else if update_count =? 0 then (generations, (Ok tt, 0))
    else if negb allocated then (generations, (Err (- ENOMEM), 0))
    else
      match apply_updates generation_count is_live
              (take (Z.to_nat update_count) (default [] updates))
              (mk_apply (take (Z.to_nat generation_count) array) 0 false) with
      | Ok s =>
        (Some (s.(ap_shadow) ++ drop (Z.to_nat generation_count) array),
         (Ok tt, s.(ap_reclaimed)))
      | Err e => (generations, (Err e, 0))
      end
  end.

(** ** The specification *)

Definition entry_of (g : bvb_command_stream_generation) : option (Z * Z) :=
  if g.(sg_command_buffer_id) =? 0 then None
  else Some (g.(sg_command_buffer_id), g.(sg_last_sequence)).

Definition sequences (generations : list bvb_command_stream_generation) :
    gmap Z Z :=
  list_to_map (omap entry_of generations).

Definition spec_claim (capacity : nat) (m : gmap Z Z) (id sequence : Z) :
    result (gmap Z Z) :=
  if (sequence =? 0) || negb (expects id BVB_OBJECT_COMMAND_BUFFER)
  then Err (- EINVAL)
  else match m !! id with
  | Some last =>
    if sequence <=? last then Err (- ESTALE) else Ok (<[id := sequence]> m)
  | None =>
    if decide (size m < capacity)%nat then Ok (<[id := sequence]> m)
    else Err (- ENOSPC)
  end.

(** [swept] tells whether the table has been swept already. *)
Definition spec_update (capacity : nat) (is_live : ptr (Z -> bool))
    (update : bvb_command_stream_generation_update) (s : gmap Z Z * bool) :
    result (gmap Z Z * bool) :=
  let '(m, swept) := s in
  let claim m := spec_claim capacity m update.(su_command_buffer_id)
                   update.(su_sequence) in
  match claim m, is_live with
  | Err e, Some is_live =>
    if (e =? - ENOSPC) && negb swept then
      try m := claim (filter (fun p => is_live p.1 = true) m) ;; Ok (m, true)
    else Err e
  | Err e, None => Err e
  | Ok m, _ => Ok (m, swept)
  end.

Fixpoint spec_updates (capacity : nat) (is_live : ptr (Z -> bool))
    (updates : list bvb_command_stream_generation_update)
    (s : gmap Z Z * bool) : result (gmap Z Z * bool) :=
  match updates with
  | [] => Ok s
  | update :: updates =>
    try s := spec_update capacity is_live update s ;;
    spec_updates capacity is_live updates s
  end.

(** ** The table as a map *)

Definition unique_ids (generations : list bvb_command_stream_generation) :
    Prop :=
  forall i j g h,
    generations !! i = Some g -> generations !! j = Some h ->
    g.(sg_command_buffer_id) <> 0 ->
    g.(sg_command_buffer_id) = h.(sg_command_buffer_id) -> i = j.

Record table_wf (generations : list bvb_command_stream_generation) : Prop := {
  table_unique : unique_ids generations;
  table_empty : Forall (fun g => g.(sg_command_buffer_id) = 0 ->
                                 g.(sg_last_sequence) = 0) generations
}.

Lemma entry_of_Some g id last :
  entry_of g = Some (id, last) <-> id <> 0 /\ g = mk_generation id last.
Proof.
  unfold entry_of. destruct g as [i l]. cbn. destruct (Z.eqb_spec i 0); naive_solver.
Qed.

Lemma unique_ids_cons g l : unique_ids (g :: l) -> unique_ids l.
Proof. intros H i j a b Hi Hj Hn E. by injection (H (S i) (S j) a b Hi Hj Hn E). Qed.

Lemma entries_NoDup l : unique_ids l -> NoDup (omap entry_of l).*1.
Proof.
  induction l as [|g l IH]; intros Hu; simpl; [constructor|].
  pose proof (unique_ids_cons _ _ Hu) as Hl.
  destruct (entry_of g) as [[id last]|] eqn:E; simpl; [|by apply IH].
  constructor; [|by apply IH].
  rewrite list_elem_of_fmap. intros ([id' y] & -> & Hin).
  apply list_elem_of_omap in Hin as (h & Hh & Hhl).
  apply list_elem_of_lookup_1 in Hh as [j Hj].
  apply entry_of_Some in E as [Hn ->]. apply entry_of_Some in Hhl as [_ ->].
  by pose proof (Hu O (S j) _ _ eq_refl Hj Hn eq_refl).
Qed.

Lemma sequences_lookup l id last :
  unique_ids l ->
  sequences l !! id = Some last <->
  id <> 0 /\ exists i, l !! i = Some (mk_generation id last).
Proof.
  intros Hu. unfold sequences.
  rewrite <- elem_of_list_to_map by by apply entries_NoDup.
  rewrite list_elem_of_omap. setoid_rewrite entry_of_Some. split.
  - intros (g & Hg & Hn & ->). apply list_elem_of_lookup_1 in Hg. done.
  - intros (Hn & i & Hi). eauto using list_elem_of_lookup_2.
Qed.

Lemma sequences_None l id :
  unique_ids l -> id <> 0 ->
  sequences l !! id = None <->
  Forall (fun g => g.(sg_command_buffer_id) <> id) l.
Proof.
  intros Hu Hid. rewrite eq_None_not_Some, Forall_lookup. split.
  - intros H i [a b] Hi <-. apply H. exists b. apply sequences_lookup; [done|].
    split; [done|]. by exists i.
  - intros H [last Hl]. apply sequences_lookup in Hl as (_ & i & Hi); [|done].
    by apply (H i _ Hi).
Qed.

Lemma sequences_size l :
  unique_ids l ->
  (size (sequences l) <= length l)%nat /\
  ((size (sequences l) < length l)%nat <->
   Exists (fun g => g.(sg_command_buffer_id) = 0) l).
Proof.
  intros Hu. unfold sequences.
  rewrite map_size_list_to_map by by apply entries_NoDup. clear Hu.
  induction l as [|g l [IH1 IH2]]; simpl; [split; [lia|]|].
  { rewrite Exists_nil. lia. }
  rewrite Exists_cons. change (list_omap _ _ entry_of l) with (omap entry_of l).
  destruct (entry_of g) as [y|] eqn:Ey; unfold entry_of in Ey;
    destruct (Z.eqb_spec (sg_command_buffer_id g) 0) as [E|E]; try discriminate;
    cbn [length]; split.
  - lia.
  - rewrite <- Nat.succ_lt_mono, IH2. naive_solver.
  - lia.
  - split; [by left|lia].
Qed.

(** Writing the entry of [id], or a free entry when [id] has none. *)
Definition writable (l : list bvb_command_stream_generation) (id : Z) (i : nat) :
    Prop :=
  exists g, l !! i = Some g /\
    (g.(sg_command_buffer_id) = id \/
     g.(sg_command_buffer_id) = 0 /\ sequences l !! id = None).

Lemma writable_only l id i j g :
  unique_ids l -> id <> 0 -> writable l id i -> l !! j = Some g ->
  g.(sg_command_buffer_id) = id -> j = i.
Proof.
  intros Hu Hid (h & Hi & [<-|[_ Hnone]]) Hj E.
  - symmetry. by apply (Hu i j h g).
  - apply sequences_None in Hnone; [|done|done]. rewrite Forall_lookup in Hnone.
    by destruct (Hnone j g Hj).
Qed.

Lemma table_write l id last i :
  table_wf l -> id <> 0 -> writable l id i ->
  table_wf (<[i := mk_generation id last]> l) /\
  sequences (<[i := mk_generation id last]> l) = <[id := last]> (sequences l).
Proof.
  intros [Hu He] Hid Hw. pose proof Hw as (g0 & Hi0 & Hg0).
  assert (Hu' : unique_ids (<[i := mk_generation id last]> l)).
  { intros a b g h Ha Hb Hn E.
    apply list_lookup_insert_Some in Ha as [(<- & <- & _)|[Hai Ha]],
      Hb as [(<- & <- & _)|[Hbi Hb]]; cbn in *.
    - done.
    - symmetry. by apply (writable_only l id i b h).
    - by apply (writable_only l id i a g).
    - by apply (Hu a b g h). }
  split; [constructor; [done|by apply Forall_insert]|].
  apply map_eq. intros k. apply option_eq. intros x.
  rewrite sequences_lookup, lookup_insert_Some, sequences_lookup by done.
  split.
  - intros (Hk & j & Hj).
    apply list_lookup_insert_Some in Hj as [(<- & [= <- <-] & _)|[Hji Hj]];
      [by left|]. right. split; [|by eauto].
    intros ->. apply Hji. symmetry.
    by apply (writable_only l k i j _ Hu Hid Hw Hj).
  - intros [[<- <-]|[Hne (Hk & j & Hj)]].
    + split; [done|]. exists i. apply list_lookup_insert_eq.
      by eapply lookup_lt_Some.
    + split; [done|]. exists j. rewrite list_lookup_insert_ne; [done|].
      intros <-. rewrite Hi0 in Hj. injection Hj as ->. cbn in Hg0.
      destruct Hg0 as [->|[-> _]]; done.
Qed.

Lemma table_sweep l is_live :
  table_wf l ->
  table_wf (map (reclaim is_live) l) /\
  sequences (map (reclaim is_live) l) =
    filter (fun p => is_live p.1 = true) (sequences l).
Proof.
  intros [Hu He].
  assert (Hr : forall i g, map (reclaim is_live) l !! i = Some g ->
    g.(sg_command_buffer_id) <> 0 ->
    l !! i = Some g /\ is_live g.(sg_command_buffer_id) = true).
  { intros i g Hg Hn. change (map (reclaim is_live) l) with (reclaim is_live <$> l) in Hg.
    rewrite list_lookup_fmap in Hg. destruct (l !! i) as [h|]; [|done].
    cbn in Hg. injection Hg as <-. unfold reclaim in *.
    destruct (is_live (sg_command_buffer_id h)) eqn:El;
      [rewrite andb_false_r in *; done|].
    destruct (Z.eqb_spec (sg_command_buffer_id h) 0); cbn in *; done. }
  assert (Hu' : unique_ids (map (reclaim is_live) l)).
  { intros i j g h Hi Hj Hn E. apply Hr in Hi as [Hi _]; [|done].
    apply Hr in Hj as [Hj _]; [|congruence]. by apply (Hu i j g h). }
  split; [constructor; [done|]|].
  - apply Forall_map. revert He. apply Forall_impl. intros g Hg. cbn.
    unfold reclaim. by case_match.
  - apply map_eq. intros k. apply option_eq. intros x.
    rewrite map_lookup_filter_Some, !sequences_lookup by done. cbn. split.
    + intros (Hk & i & Hi). apply Hr in Hi as [Hi Hl]; [|done]. eauto.
    + intros ((Hk & i & Hi) & Hl). split; [done|]. exists i.
      change (map (reclaim is_live) l) with (reclaim is_live <$> l).
      rewrite list_lookup_fmap, Hi. cbn. unfold reclaim. cbn.
      by rewrite Hl, andb_false_r.
Qed.

(** ** The scan *)

Lemma scan_found l id sequence : forall index empty i last,
  unique_ids l -> id <> 0 -> l !! i = Some (mk_generation id last) ->
  generation_scan l index empty id sequence =
    if sequence <=? last then Err (- ESTALE) else Ok (index + Z.of_nat i).
Proof.
  induction l as [|g l IH]; intros index empty i last Hu Hid Hi; [done|].
  cbn [generation_scan]. destruct i as [|i].
  - injection Hi as ->. cbn. by rewrite Z.eqb_refl, Z.add_0_r.
  - destruct (Z.eqb_spec (sg_command_buffer_id g) id) as [E|E].
    { by pose proof (Hu O (S i) _ _ eq_refl Hi ltac:(by rewrite E) E). }
    rewrite (IH _ _ i last); [|by eapply unique_ids_cons|done|done].
    case_match; [done|]. f_equal. lia.
Qed.

Lemma scan_absent l id sequence : forall index empty,
  Forall (fun g => g.(sg_command_buffer_id) <> id) l ->
  0 <= index -> index + Z.of_nat (length l) < SIZE_MAX -> 0 <= empty <= SIZE_MAX ->
  match generation_scan l index empty id sequence with
  | Ok i =>
    i = empty /\ empty <> SIZE_MAX \/
    empty = SIZE_MAX /\ exists k g, l !! k = Some g /\ i = index + Z.of_nat k /\
      g.(sg_command_buffer_id) = 0
  | Err e =>
    e = - ENOSPC /\ empty = SIZE_MAX /\
    Forall (fun g => g.(sg_command_buffer_id) <> 0) l
  end.
Proof.
  induction l as [|g l IH]; intros index empty Hf Hi Hl He; cbn [generation_scan].
  - destruct (Z.eqb_spec empty SIZE_MAX); [done|by left].
  - apply Forall_cons_1 in Hf as [Hg Hf]. cbn [length] in Hl.
    replace (sg_command_buffer_id g =? id) with false by lia.
    set (empty' := if _ && _ then index else empty).
    assert (He' : 0 <= empty' <= SIZE_MAX) by (unfold empty'; case_match; lia).
    specialize (IH (index + 1) empty' Hf ltac:(lia) ltac:(lia) He').
    destruct (generation_scan _ _ _ _ _) as [i|e].
    + unfold empty' in IH.
      destruct (Z.eqb_spec empty SIZE_MAX) as [Ee|Hne]; cbn [andb] in IH.
      * right. split; [done|].
        destruct (Z.eqb_spec (sg_command_buffer_id g) 0) as [E|E].
        -- destruct IH as [[-> _]|[Hx _]]; [|lia].
           exists O, g. split_and!; [done|lia|done].
        -- destruct IH as [[_ Hx]|[_ (k & h & Hk & -> & Eh)]]; [done|].
           exists (S k), h. split_and!; [done|lia|done].
      * destruct IH as [IH|[Hx _]]; [by left|done].
    + destruct IH as (-> & Hx & Hall). unfold empty' in Hx.
      destruct (Z.eqb_spec empty SIZE_MAX) as [Ee|Hne]; cbn [andb] in Hx; [|done].
      destruct (Z.eqb_spec (sg_command_buffer_id g) 0) as [E|E]; [lia|].
      split_and!; [done|done|by constructor].
Qed.

(** ** One update *)

Lemma command_buffer_nonzero id :
  expects id BVB_OBJECT_COMMAND_BUFFER = true -> id <> 0.
Proof. by intros H ->. Qed.

Lemma commit_ok l id sequence i :
  table_wf l -> writable l id i -> 0 < sequence ->
  expects id BVB_OBJECT_COMMAND_BUFFER = true ->
  (forall last, sequences l !! id = Some last -> last < sequence) ->
  exists l',
    bvb_command_stream_generation_commit (Some l) (Z.of_nat (length l))
      (Z.of_nat i) id sequence = Ok l' /\
    table_wf l' /\ length l' = length l /\
    sequences l' = <[id := sequence]> (sequences l).
Proof.
  intros Hwf Hw Hs Hid Hlast. pose proof (command_buffer_nonzero _ Hid) as Hn.
  destruct (table_write l id sequence i Hwf Hn Hw) as [Hwf' Hseq].
  exists (<[i := mk_generation id sequence]> l).
  split; [|by rewrite length_insert].
  destruct Hw as ([a b] & Hi & Hg). pose proof (lookup_lt_Some _ _ _ Hi).
  unfold bvb_command_stream_generation_commit. cbv zeta.
  rewrite (elt_lookup zero_generation), Nat2Z.id, Hi. cbn in *. rewrite Hid.
  assert (b < sequence).
  { destruct Hg as [->|[-> _]].
    - apply Hlast, sequences_lookup; [by destruct Hwf|]. eauto.
    - destruct Hwf as [_ He]. rewrite Forall_lookup in He.
      by specialize (He i _ Hi eq_refl); cbn in He; subst. }
  replace (Z.of_nat (length l) <=? Z.of_nat i) with false by lia.
  replace (sequence =? 0) with false by lia.
  replace (sequence <=? b) with false by lia.
  destruct Hg as [->|[-> _]]; by rewrite ?Z.eqb_refl, ?andb_false_r.
Qed.

Lemma check_commit l id sequence :
  table_wf l -> is_u64 sequence = true ->
  0 < Z.of_nat (length l) < SIZE_MAX ->
  match bvb_command_stream_generation_check (Some l) (Z.of_nat (length l)) id
          sequence (Some SIZE_MAX) with
  | Err e => spec_claim (length l) (sequences l) id sequence = Err e
  | Ok index =>
    exists l',
      bvb_command_stream_generation_commit (Some l) (Z.of_nat (length l)) index
        id sequence = Ok l' /\
      table_wf l' /\ length l' = length l /\
      spec_claim (length l) (sequences l) id sequence = Ok (sequences l')
  end.
Proof.
  intros Hwf Hs Hl. apply is_u64_spec in Hs. pose proof Hwf as [Hu He].
  unfold bvb_command_stream_generation_check, spec_claim. cbv zeta.
  replace (Z.of_nat (length l) =? 0) with false by lia. cbn [orb].
  destruct (_ || _) eqn:Ev; [done|]. split_tests.
  pose proof (command_buffer_nonzero _ H0) as Hn.
  rewrite Nat2Z.id, firstn_all.
  destruct (sequences l !! id) as [last|] eqn:Em.
  - pose proof Em as Em'. apply sequences_lookup in Em' as (_ & i & Hi); [|done].
    rewrite (scan_found l id sequence 0 SIZE_MAX i last) by done.
    destruct (Z.leb_spec sequence last); [done|]. rewrite Z.add_0_l.
    destruct (commit_ok l id sequence i) as (l' & -> & Hwf' & Hl' & Hs');
      [done|by exists (mk_generation id last); eauto|lia|done| |].
    { intros ? E. rewrite Em in E. by simplify_eq. }
    exists l'. by rewrite Hs'.
  - pose proof (proj1 (sequences_None l id Hu Hn) Em) as Hf.
    pose proof (scan_absent l id sequence 0 SIZE_MAX Hf ltac:(lia) ltac:(lia)
                  ltac:(unfold SIZE_MAX, UINT64_MAX; lia)) as Hscan.
    destruct (sequences_size l Hu) as [_ Hsize].
    destruct (generation_scan _ _ _ _ _) as [index|e].
    + destruct Hscan as [[_ ?]|(_ & k & g & Hk & -> & Hg)]; [done|].
      rewrite Z.add_0_l.
      destruct (commit_ok l id sequence k) as (l' & -> & Hwf' & Hl' & Hs');
        [done|by exists g; eauto|lia|done|by rewrite Em|].
      exists l'. rewrite decide_True; [by rewrite Hs'|].
      apply Hsize, Exists_exists. exists g.
      split; [by eapply list_elem_of_In, list_elem_of_lookup_2|done].
    + destruct Hscan as (-> & _ & Hall). rewrite decide_False; [done|].
      rewrite Hsize. by apply Forall_not_Exists.
Qed.

(** The loop's state and the specification's. *)
Definition represents (n : nat) (s : apply_state) (t : gmap Z Z * bool) : Prop :=
  table_wf s.(ap_shadow) /\ length s.(ap_shadow) = n /\
  t = (sequences s.(ap_shadow), s.(ap_attempted)).

Lemma update_refines n is_live u s t :
  represents n s t -> is_u64 u.(su_sequence) = true -> 0 < Z.of_nat n < SIZE_MAX ->
  match apply_update (Z.of_nat n) is_live u s with
  | Err e => spec_update n is_live u t = Err e
  | Ok s' => exists t', spec_update n is_live u t = Ok t' /\ represents n s' t'
  end.
Proof.
  intros (Hwf & Hn & ->) Hs Hl. unfold apply_update, spec_update. cbv zeta.
  pose proof (check_commit s.(ap_shadow) u.(su_command_buffer_id)
                u.(su_sequence) Hwf Hs ltac:(by rewrite Hn)) as Hc.
  rewrite Hn in Hc.
  destruct (bvb_command_stream_generation_check _ _ _ _ _) as [index|e].
  { destruct Hc as (l' & -> & Hwf' & Hl' & ->). eexists.
    split; [by destruct is_live|]. by split_and!. }
  rewrite Hc. destruct is_live as [live|]; [|done].
  destruct (_ && _); [|done].
  destruct (table_sweep s.(ap_shadow) live Hwf) as [Hwf' Hm]. cbn [ap_shadow].
  assert (Hn' : length (map (reclaim live) s.(ap_shadow)) = n)
    by by rewrite length_map.
  pose proof (check_commit _ u.(su_command_buffer_id) u.(su_sequence) Hwf' Hs
                ltac:(by rewrite Hn')) as Hc'.
  rewrite Hn', Hm in Hc'.
  destruct (bvb_command_stream_generation_check _ _ _ _ _) as [index|e'];
    [|by rewrite Hc'].
  destruct Hc' as (l' & -> & Hwf2 & Hl2 & ->). eexists. split; [done|].
  by split_and!.
Qed.

Lemma updates_refine n is_live us : forall s t,
  represents n s t -> Forall (fun u => is_u64 u.(su_sequence) = true) us ->
  0 < Z.of_nat n < SIZE_MAX ->
  match apply_updates (Z.of_nat n) is_live us s with
  | Err e => spec_updates n is_live us t = Err e
  | Ok s' => exists t', spec_updates n is_live us t = Ok t' /\ represents n s' t'
  end.
Proof.
  induction us as [|u us IH]; intros s t Hr Hf Hl; cbn [apply_updates spec_updates].
  - by exists t.
  - apply Forall_cons_1 in Hf as [Hu Hf].
    pose proof (update_refines n is_live u s t Hr Hu Hl) as Hstep.
    destruct (apply_update _ _ _ _) as [s'|e]; [|by rewrite Hstep].
    destruct Hstep as (t' & -> & Hr'). by apply IH.
Qed.

(** ** What the specification promises *)

Definition stays (is_live : ptr (Z -> bool)) (id : Z) : Prop :=
  match is_live with Some is_live => is_live id = true | None => True end.

(** The map knows a sequence number of [id] that is not before [sequence]. *)
Definition recorded_at (m : gmap Z Z) (id sequence : Z) : Prop :=
  exists last, m !! id = Some last /\ sequence <= last.

Lemma claim_ok n m id sequence m' :
  spec_claim n m id sequence = Ok m' ->
  m' = <[id := sequence]> m /\
  (forall last, m !! id = Some last -> last < sequence).
Proof.
  unfold spec_claim. destruct (_ || _); [done|]. destruct (m !! id) as [last|].
  - destruct (Z.leb_spec sequence last); [done|]. intros [= <-].
    split; [done|]. intros ? [= <-]. done.
  - case_decide; [|done]. by intros [= <-].
Qed.

Lemma claim_recorded n m id sequence m' k s :
  spec_claim n m id sequence = Ok m' -> recorded_at m k s -> recorded_at m' k s.
Proof.
  intros H (last & Hk & Hs). apply claim_ok in H as [-> Hlast].
  destruct (decide (k = id)) as [->|Hne].
  - exists sequence. rewrite lookup_insert_eq. split; [done|].
    specialize (Hlast last Hk). lia.
  - exists last. by rewrite lookup_insert_ne.
Qed.

Lemma spec_update_ok n is_live u m sw m' sw' :
  spec_update n is_live u (m, sw) = Ok (m', sw') ->
  exists m1,
    (m1 = m \/ exists live, is_live = Some live /\
       m1 = filter (fun p => live p.1 = true) m) /\
    spec_claim n m1 u.(su_command_buffer_id) u.(su_sequence) = Ok m'.
Proof.
  unfold spec_update. cbv zeta.
  destruct (spec_claim n m _ _) as [m1|e] eqn:E.
  - intros [= <- <-]. exists m. split; [by left|done].
  - destruct is_live as [live|]; [|done]. destruct (_ && _); [|done].
    destruct (spec_claim _ (filter _ _) _ _) as [m1|] eqn:E1; [|done].
    intros [= <- <-]. eexists. split; [right; by exists live|done].
Qed.

Lemma spec_update_recorded n is_live u m sw m' sw' :
  spec_update n is_live u (m, sw) = Ok (m', sw') ->
  recorded_at m' u.(su_command_buffer_id) u.(su_sequence) /\
  (forall k s, stays is_live k -> recorded_at m k s -> recorded_at m' k s).
Proof.
  intros H. apply spec_update_ok in H as (m1 & Hm1 & Hc). split.
  - apply claim_ok in Hc as [-> _]. eexists. by rewrite lookup_insert_eq.
  - intros k s Hk Hr. eapply claim_recorded; [exact Hc|].
    destruct Hm1 as [->|(live & -> & ->)]; [done|].
    destruct Hr as (last & Hl & Hs). exists last.
    by rewrite map_lookup_filter_Some.
Qed.

Lemma spec_updates_recorded n is_live us : forall m sw m' sw',
  spec_updates n is_live us (m, sw) = Ok (m', sw') ->
  (forall u, In u us -> stays is_live u.(su_command_buffer_id) ->
     recorded_at m' u.(su_command_buffer_id) u.(su_sequence)) /\
  (forall k s, stays is_live k -> recorded_at m k s -> recorded_at m' k s).
Proof.
  induction us as [|u us IH]; intros m sw m' sw'; cbn [spec_updates].
  - intros [= <- <-]. done.
  - destruct (spec_update _ _ _ _) as [[m1 sw1]|] eqn:E; [|done]. intros H.
    apply spec_update_recorded in E as [E1 E2].
    apply IH in H as [H1 H2]. split; [|by eauto].
    intros v [<-|Hv] Hs; [by apply H2|by apply H1].
Qed.

(** The updates of an accepted submission are well formed. *)
Lemma spec_updates_accepts n is_live us : forall m sw m' sw',
  spec_updates n is_live us (m, sw) = Ok (m', sw') ->
  forall u, In u us ->
    u.(su_sequence) <> 0 /\
    expects u.(su_command_buffer_id) BVB_OBJECT_COMMAND_BUFFER = true.
Proof.
  induction us as [|u us IH]; intros m sw m' sw'; cbn [spec_updates]; [done|].
  destruct (spec_update _ _ _ _) as [[m1 sw1]|] eqn:E; [|done].
  intros H v [<-|Hv]; [|by eapply IH].
  apply spec_update_ok in E as (m2 & _ & Hc). unfold spec_claim in Hc.
  destruct (_ || _) eqn:Ev; [done|]. split_tests. split; [lia|done].
Qed.

(** ** The table *)

Lemma generations_apply_spec array us is_live :
  table_wf array -> array <> [] -> us <> [] ->
  Z.of_nat (length array) <= SIZE_MAX / generation_size ->
  Forall (fun u => is_u64 u.(su_sequence) = true) us ->
  match bvb_command_stream_generations_apply (Some array)
          (Z.of_nat (length array)) (Some us) (Z.of_nat (length us)) is_live true,
        spec_updates (length array) is_live us (sequences array, false) with
  | (array', (r, n)), Ok (m, _) =>
    r = Ok tt /\ exists l, array' = Some l /\ table_wf l /\
      length l = length array /\ sequences l = m
  | (array', (r, n)), Err e => r = Err e /\ n = 0 /\ array' = Some array
  end.
Proof.
  intros Hwf Hne Hus Hmax Hf.
  assert (Hl : 0 < Z.of_nat (length array) < SIZE_MAX).
  { destruct array; [done|]. cbn [length] in *.
    unfold SIZE_MAX, UINT64_MAX, generation_size in *.
    vm_compute (_ / _) in Hmax. lia. }
  assert (Hu : 0 < Z.of_nat (length us)) by (destruct us; [done|cbn; lia]).
  unfold bvb_command_stream_generations_apply.
  replace (Z.of_nat (length array) =? 0) with false by lia.
  replace (Z.of_nat (length us) =? 0) with false by lia.
  replace (SIZE_MAX / generation_size <? _) with false by lia. cbn [orb andb negb].
  rewrite !Nat2Z.id. cbn [default]. rewrite !firstn_all, drop_all.
  pose proof (updates_refine (length array) is_live us (mk_apply array 0 false)
    (sequences array, false) (conj Hwf (conj eq_refl eq_refl)) Hf Hl) as H.
  destruct (apply_updates _ _ _ _) as [s|e].
  - destruct H as ([m sw] & -> & Hwf' & Hl' & [= -> ->]).
    split; [done|]. rewrite app_nil_r. by eexists.
  - by rewrite H.
Qed.


(** ** Properties *)

(** C19: Applying a submission's updates to the table does what its
    specification does to a map from command buffers to sequence numbers: the
    updates are taken in order, each is refused when its number is not above
    the recorded one or when the table is full even after the one sweep of
    buffers that no longer exist, and either all of them are recorded or the
    table is left as it was.  The table's invariant is kept. *)
Theorem generations_apply_refines array us is_live :
  table_wf array -> array <> [] -> us <> [] ->
  Z.of_nat (length array) <= SIZE_MAX / generation_size ->
  Forall (fun u => is_u64 u.(su_sequence) = true) us ->
  let '(array', (r, _)) := bvb_command_stream_generations_apply (Some array)
    (Z.of_nat (length array)) (Some us) (Z.of_nat (length us)) is_live true in
  match spec_updates (length array) is_live us (sequences array, false) with
  | Ok (m, _) =>
    r = Ok tt /\ exists l, array' = Some l /\ table_wf l /\
      length l = length array /\ sequences l = m
  | Err e => r = Err e /\ array' = Some array
  end.
Proof.
  intros Hwf Hne Hus Hmax Hf.
  pose proof (generations_apply_spec array us is_live Hwf Hne Hus Hmax Hf) as H.
  destruct (bvb_command_stream_generations_apply _ _ _ _ _ _) as [array' [r n]].
  destruct (spec_updates _ _ _ _) as [[m sw]|e]; naive_solver.
Qed.

(** C20: A recorded update is never accepted again: once a submission of a
    live command buffer has been applied, presenting it (or an earlier one)
    to the table it left behind is refused as stale, whatever else that
    submission held and whether or not the table was swept. *)
Theorem replay_is_refused array us is_live l r is_live' u sequence :
  table_wf array -> array <> [] ->
  Z.of_nat (length array) <= SIZE_MAX / generation_size ->
  Forall (fun u => is_u64 u.(su_sequence) = true) us ->
  bvb_command_stream_generations_apply (Some array) (Z.of_nat (length array))
    (Some us) (Z.of_nat (length us)) is_live true = (Some l, (Ok tt, r)) ->
  In u us -> stays is_live u.(su_command_buffer_id) ->
  0 < sequence <= u.(su_sequence) ->
  bvb_command_stream_generations_apply (Some l) (Z.of_nat (length l))
    (Some [mk_update u.(su_command_buffer_id) sequence]) 1 is_live' true =
  (Some l, (Err (- ESTALE), 0)).
Proof.
  intros Hwf Hne Hmax Hf Happ Hin Hlive Hs.
  assert (Hus : us <> []) by (intros ->; destruct Hin).
  assert (Hu64 : is_u64 u.(su_sequence) = true)
    by (rewrite Forall_forall in Hf; by apply Hf).
  apply is_u64_spec in Hu64.
  pose proof (generations_apply_spec array us is_live Hwf Hne Hus Hmax Hf) as H.
  rewrite Happ in H.
  destruct (spec_updates _ _ _ _) as [[m sw]|e] eqn:E;
    [destruct H as (_ & l' & [= <-] & Hwf' & Hl' & <-)|by destruct H].
  assert (Hne' : l <> []) by (destruct l, array; done).
  pose proof (generations_apply_spec l
    [mk_update u.(su_command_buffer_id) sequence] is_live' Hwf' Hne'
    ltac:(done) ltac:(by rewrite Hl')
    ltac:(constructor; [apply is_u64_spec; cbn; lia|constructor])) as H.
  change (Z.of_nat (length [_])) with 1 in H.
  destruct (bvb_command_stream_generations_apply (Some l) _ _ _ _ _)
    as [l2 [r2 n2]]. cbv iota beta in H.
  destruct (spec_updates_accepts _ _ _ _ _ _ _ E u Hin) as [Hseq Hid].
  apply spec_updates_recorded in E as [Hrec _].
  destruct (Hrec u Hin Hlive) as (last & Hlast & Hle).
  cbn [spec_updates spec_update su_command_buffer_id su_sequence] in H.
  unfold spec_claim in H. rewrite Hid, Hlast in H. cbv zeta in H.
  replace (sequence =? 0) with false in H by lia.
  replace (sequence <=? last) with true in H by lia. cbn in H.
  destruct is_live'; cbn in H; by destruct H as (-> & -> & ->).
Qed.

(** ** Witnesses *)

(** A table of two entries, one of them free. *)
Definition buffer_1 : Z := bvb_handle_id BVB_OBJECT_COMMAND_BUFFER 1.
Definition buffer_2 : Z := bvb_handle_id BVB_OBJECT_COMMAND_BUFFER 2.
Definition table_2 : list bvb_command_stream_generation :=
  [mk_generation buffer_1 7; zero_generation].

Lemma table_2_wf : table_wf table_2.
Proof.
  constructor; [|by repeat constructor].
  intros [|[|i]] [|[|j]] g h Hi Hj Hn E; cbn in *; simplify_eq; done.
Qed.

Lemma generations_apply_refines_witness :
  let '(array', (r, _)) := bvb_command_stream_generations_apply (Some table_2) 2
    (Some [mk_update buffer_1 9; mk_update buffer_2 3]) 2 None true in
  r = Ok tt /\ exists l, array' = Some l /\ table_wf l /\ length l = 2%nat /\
    sequences l = <[buffer_2 := 3]> (<[buffer_1 := 9]> (sequences table_2)).
Proof.
  refine (generations_apply_refines table_2
    [mk_update buffer_1 9; mk_update buffer_2 3] None table_2_wf _ _ _ _).
  - done.
  - done.
  - vm_compute. discriminate.
  - repeat constructor.
Defined.

Lemma replay_is_refused_witness :
  bvb_command_stream_generations_apply
    (Some [mk_generation buffer_1 9; mk_generation buffer_2 3]) 2
    (Some [mk_update buffer_1 9]) 1 None true =
  (Some [mk_generation buffer_1 9; mk_generation buffer_2 3],
   (Err (- ESTALE), 0)).
Proof.
  apply (replay_is_refused table_2
    [mk_update buffer_1 9; mk_update buffer_2 3] None
    [mk_generation buffer_1 9; mk_generation buffer_2 3] 0 None
    (mk_update buffer_1 9) 9 table_2_wf).
  - done.
  - vm_compute. discriminate.
  - repeat constructor.
  - vm_compute. reflexivity.
  - by left.
  - exact I.
  - vm_compute. split; [reflexivity|discriminate].
Defined.
