(* ===== verification/MessageImage.v ===== *)
(** * MessageImage: the request that creates an image

    src/protocol.c checks an image request as a whole before it is written
    and after it is read: [image_create_request_valid].  The request carries
    two counted arrays in fixed space; the slots past a count are zero, and no
    queue family is named twice. *)

From S2P Require Import Prelude Wire Abi Codec ProtocolBase ProtocolResource Window.

Abbreviation BVB_VULKAN_IMAGE_CREATE_PNEXT_FORMAT_LIST := 1 (only parsing).
Abbreviation BVB_VULKAN_IMAGE_CREATE_PNEXT_STENCIL_USAGE := 2 (only parsing).
Abbreviation BVB_VULKAN_IMAGE_CREATE_PNEXT_MASK := 3 (only parsing).

Record bvb_vulkan_image_create_request := mk_bvb_vulkan_image_create_request {
  imc_rq_device_id : Z;
  imc_rq_flags : Z;
  imc_rq_image_type : Z;
  imc_rq_format : Z;
  imc_rq_extent_width : Z;
  imc_rq_extent_height : Z;
  imc_rq_extent_depth : Z;
  imc_rq_mip_levels : Z;
  imc_rq_array_layers : Z;
  imc_rq_samples : Z;
  imc_rq_tiling : Z;
  imc_rq_usage : Z;
  imc_rq_sharing_mode : Z;
  imc_rq_queue_family_index_count : Z;
  imc_rq_initial_layout : Z;
  imc_rq_pnext_flags : Z;
  imc_rq_view_format_count : Z;
  imc_rq_stencil_usage : Z;
  imc_rq_queue_family_indices : list Z;
  imc_rq_view_formats : list Z
}.
Definition imc_rq_rep (r : bvb_vulkan_image_create_request) : bool :=
  is_u64 r.(imc_rq_device_id) &&
  is_u32 r.(imc_rq_flags) &&
  is_u32 r.(imc_rq_image_type) &&
  is_u32 r.(imc_rq_format) &&
  is_u32 r.(imc_rq_extent_width) &&
  is_u32 r.(imc_rq_extent_height) &&
  is_u32 r.(imc_rq_extent_depth) &&
  is_u32 r.(imc_rq_mip_levels) &&
  is_u32 r.(imc_rq_array_layers) &&
  is_u32 r.(imc_rq_samples) &&
  is_u32 r.(imc_rq_tiling) &&
  is_u32 r.(imc_rq_usage) &&
  is_u32 r.(imc_rq_sharing_mode) &&
  is_u32 r.(imc_rq_queue_family_index_count) &&
  is_u32 r.(imc_rq_initial_layout) &&
  is_u32 r.(imc_rq_pnext_flags) &&
  is_u32 r.(imc_rq_view_format_count) &&
  is_u32 r.(imc_rq_stencil_usage) &&
  array_rep BVB_VULKAN_IMAGE_MAX_QUEUE_FAMILIES is_u32
    r.(imc_rq_queue_family_indices) &&
  array_rep BVB_VULKAN_IMAGE_MAX_VIEW_FORMATS is_u32 r.(imc_rq_view_formats).

(** The constants of <vulkan/vulkan_core.h> only this request needs. *)
Class VulkanImage := {
  VK_IMAGE_CREATE_MUTABLE_FORMAT_BIT : Z;
  VK_IMAGE_CREATE_CUBE_COMPATIBLE_BIT : Z;
  VK_IMAGE_CREATE_2D_ARRAY_COMPATIBLE_BIT : Z;
  VK_IMAGE_CREATE_BLOCK_TEXEL_VIEW_COMPATIBLE_BIT : Z;
  VK_IMAGE_CREATE_EXTENDED_USAGE_BIT : Z;
  VK_IMAGE_CREATE_ALIAS_BIT : Z;
  VK_IMAGE_TYPE_1D : Z;
  VK_IMAGE_TYPE_2D : Z;
  VK_IMAGE_TYPE_3D : Z;
  VK_IMAGE_TILING_LINEAR : Z;
  VK_IMAGE_LAYOUT_UNDEFINED : Z;
  VK_IMAGE_LAYOUT_PREINITIALIZED : Z;
  VK_SAMPLE_COUNT_1_BIT : Z;
  VK_SAMPLE_COUNT_2_BIT : Z;
  VK_SAMPLE_COUNT_4_BIT : Z;
  VK_SAMPLE_COUNT_8_BIT : Z;
  VK_SAMPLE_COUNT_16_BIT : Z;
  VK_SAMPLE_COUNT_32_BIT : Z;
  VK_SAMPLE_COUNT_64_BIT : Z
}.

Section image.
Context {VH : VulkanHeader} {VI : VulkanImage}.

Definition image_create_request_valid
    (request : ptr bvb_vulkan_image_create_request) : bool :=
  let supported_flags :=
    Z.lor VK_IMAGE_CREATE_MUTABLE_FORMAT_BIT
      (Z.lor VK_IMAGE_CREATE_CUBE_COMPATIBLE_BIT
      (Z.lor VK_IMAGE_CREATE_2D_ARRAY_COMPATIBLE_BIT
      (Z.lor VK_IMAGE_CREATE_BLOCK_TEXEL_VIEW_COMPATIBLE_BIT
      (Z.lor VK_IMAGE_CREATE_EXTENDED_USAGE_BIT VK_IMAGE_CREATE_ALIAS_BIT))))
      in
  let supported_samples :=
    Z.lor VK_SAMPLE_COUNT_1_BIT (Z.lor VK_SAMPLE_COUNT_2_BIT
      (Z.lor VK_SAMPLE_COUNT_4_BIT (Z.lor VK_SAMPLE_COUNT_8_BIT
      (Z.lor VK_SAMPLE_COUNT_16_BIT (Z.lor VK_SAMPLE_COUNT_32_BIT
        VK_SAMPLE_COUNT_64_BIT))))) in
  deref_bool request := request or false ;;
  let flags := request.(imc_rq_flags) in
  let image_type := request.(imc_rq_image_type) in
  let families := request.(imc_rq_queue_family_index_count) in
  let formats := request.(imc_rq_view_format_count) in
  let pnext_flags := request.(imc_rq_pnext_flags) in
  if negb (wire_id_is_type request.(imc_rq_device_id) BVB_OBJECT_DEVICE) ||
      negb (Z.ldiff flags supported_flags =? 0) ||
      (VK_IMAGE_TYPE_3D <? image_type) ||
      (request.(imc_rq_format) =? VK_FORMAT_UNDEFINED) ||
      (request.(imc_rq_extent_width) =? 0) ||
      (32768 <? request.(imc_rq_extent_width)) ||
      (request.(imc_rq_extent_height) =? 0) ||
      (32768 <? request.(imc_rq_extent_height)) ||
      (request.(imc_rq_extent_depth) =? 0) ||
      (32768 <? request.(imc_rq_extent_depth)) ||
      (request.(imc_rq_mip_levels) =? 0) ||
      (32 <? request.(imc_rq_mip_levels)) ||
      (request.(imc_rq_array_layers) =? 0) ||
      (2048 <? request.(imc_rq_array_layers)) ||
      (request.(imc_rq_samples) =? 0) ||
      negb (Z.land request.(imc_rq_samples)
              (u32 (request.(imc_rq_samples) - 1)) =? 0) ||
      negb (Z.ldiff request.(imc_rq_samples) supported_samples =? 0) ||
      (VK_IMAGE_TILING_LINEAR <? request.(imc_rq_tiling)) ||
      negb (image_usage_valid request.(imc_rq_usage)) ||
      (VK_SHARING_MODE_CONCURRENT <? request.(imc_rq_sharing_mode)) ||
      (BVB_VULKAN_IMAGE_MAX_QUEUE_FAMILIES <? families) ||
      ((request.(imc_rq_sharing_mode) =? VK_SHARING_MODE_EXCLUSIVE) &&
       negb (families =? 0)) ||
      ((request.(imc_rq_sharing_mode) =? VK_SHARING_MODE_CONCURRENT) &&
       (families <? 2)) ||
      (negb (request.(imc_rq_initial_layout) =? VK_IMAGE_LAYOUT_UNDEFINED) &&
       negb (request.(imc_rq_initial_layout) =?
               VK_IMAGE_LAYOUT_PREINITIALIZED)) ||
      negb (Z.ldiff pnext_flags BVB_VULKAN_IMAGE_CREATE_PNEXT_MASK =? 0) ||
      (BVB_VULKAN_IMAGE_MAX_VIEW_FORMATS <? formats) ||
      ((Z.land pnext_flags BVB_VULKAN_IMAGE_CREATE_PNEXT_FORMAT_LIST =? 0) &&
       negb (formats =? 0)) ||
      ((Z.land pnext_flags BVB_VULKAN_IMAGE_CREATE_PNEXT_STENCIL_USAGE =? 0) &&
       negb (request.(imc_rq_stencil_usage) =? 0)) ||
      (negb (Z.land pnext_flags BVB_VULKAN_IMAGE_CREATE_PNEXT_STENCIL_USAGE
             =? 0) &&
       negb (image_usage_valid request.(imc_rq_stencil_usage))) ||
      ((image_type =? VK_IMAGE_TYPE_1D) &&
       (negb (request.(imc_rq_extent_height) =? 1) ||
        negb (request.(imc_rq_extent_depth) =? 1))) ||
      ((image_type =? VK_IMAGE_TYPE_2D) &&
       negb (request.(imc_rq_extent_depth) =? 1)) ||
      ((image_type =? VK_IMAGE_TYPE_3D) &&
       negb (request.(imc_rq_array_layers) =? 1)) ||
      (negb (Z.land flags VK_IMAGE_CREATE_CUBE_COMPATIBLE_BIT =? 0) &&
       (negb (image_type =? VK_IMAGE_TYPE_2D) ||
        negb (request.(imc_rq_extent_width) =?
                request.(imc_rq_extent_height)) ||
        (request.(imc_rq_array_layers) <? 6))) ||
      (negb (Z.land flags VK_IMAGE_CREATE_2D_ARRAY_COMPATIBLE_BIT =? 0) &&
       negb (image_type =? VK_IMAGE_TYPE_3D))
  then false
  else
    for_all BVB_VULKAN_IMAGE_MAX_QUEUE_FAMILIES (fun index =>
      let family := elt 0 request.(imc_rq_queue_family_indices) in
      negb ((families <=? index) && negb (family index =? 0)) &&
      for_all (if index <? families then index else 0) (fun other =>
        negb (family index =? family other))) &&
    for_all BVB_VULKAN_IMAGE_MAX_VIEW_FORMATS (fun index =>
      let format := elt 0 request.(imc_rq_view_formats) index in
      negb (((index <? formats) && (format =? VK_FORMAT_UNDEFINED)) ||
            ((formats <=? index) && negb (format =? 0)))).

Definition bvb_protocol_encode_vulkan_image_create_request
    (output : ptr bytes) (request : ptr bvb_vulkan_image_create_request) :
    result bytes :=
  deref output := output or (- EINVAL) ;;
  fail_if negb (image_create_request_valid request) with (- EINVAL) ;;
  deref request := request or (- EINVAL) ;;
  let output := memset0 output 0 BVB_VULKAN_IMAGE_CREATE_REQUEST_SIZE in
  let output := bvb_wire_put_u64 output 0 request.(imc_rq_device_id) in
  let output := bvb_wire_put_u32 output 8 request.(imc_rq_flags) in
  let output := bvb_wire_put_u32 output 12 request.(imc_rq_image_type) in
  let output := bvb_wire_put_u32 output 16 request.(imc_rq_format) in
  let output := bvb_wire_put_u32 output 20 request.(imc_rq_extent_width) in
  let output := bvb_wire_put_u32 output 24 request.(imc_rq_extent_height) in
  let output := bvb_wire_put_u32 output 28 request.(imc_rq_extent_depth) in
  let output := bvb_wire_put_u32 output 32 request.(imc_rq_mip_levels) in
  let output := bvb_wire_put_u32 output 36 request.(imc_rq_array_layers) in
  let output := bvb_wire_put_u32 output 40 request.(imc_rq_samples) in
  let output := bvb_wire_put_u32 output 44 request.(imc_rq_tiling) in
  let output := bvb_wire_put_u32 output 48 request.(imc_rq_usage) in
  let output := bvb_wire_put_u32 output 52 request.(imc_rq_sharing_mode) in
  let output := bvb_wire_put_u32 output 56 request.(imc_rq_queue_family_index_count) in
  let output := bvb_wire_put_u32 output 60 request.(imc_rq_initial_layout) in
  let output := bvb_wire_put_u32 output 64 request.(imc_rq_pnext_flags) in
  let output := bvb_wire_put_u32 output 68 request.(imc_rq_view_format_count) in
  let output := bvb_wire_put_u32 output 72 request.(imc_rq_stencil_usage) in
  try output := for_loop BVB_VULKAN_IMAGE_MAX_QUEUE_FAMILIES
    (fun index output =>
       Ok (bvb_wire_put_u32 output (80 + index * 4)
             (elt 0 request.(imc_rq_queue_family_indices) index))) output ;;
  for_loop BVB_VULKAN_IMAGE_MAX_VIEW_FORMATS (fun index output =>
    Ok (bvb_wire_put_u32 output (112 + index * 4)
          (elt 0 request.(imc_rq_view_formats) index))) output.

Definition bvb_protocol_decode_vulkan_image_create_request
    (input : ptr bytes) (request : ptr bvb_vulkan_image_create_request) :
    result bvb_vulkan_image_create_request :=
  deref input := input or (- EINVAL) ;;
  deref _ := request or (- EINVAL) ;;
  fail_if negb (bvb_wire_get_u32 input 76 =? 0) with (- EPROTO) ;;
  let decoded :=
    {| imc_rq_device_id := bvb_wire_get_u64 input 0;
        imc_rq_flags := bvb_wire_get_u32 input 8;
        imc_rq_image_type := bvb_wire_get_u32 input 12;
        imc_rq_format := bvb_wire_get_u32 input 16;
        imc_rq_extent_width := bvb_wire_get_u32 input 20;
        imc_rq_extent_height := bvb_wire_get_u32 input 24;
        imc_rq_extent_depth := bvb_wire_get_u32 input 28;
        imc_rq_mip_levels := bvb_wire_get_u32 input 32;
        imc_rq_array_layers := bvb_wire_get_u32 input 36;
        imc_rq_samples := bvb_wire_get_u32 input 40;
        imc_rq_tiling := bvb_wire_get_u32 input 44;
        imc_rq_usage := bvb_wire_get_u32 input 48;
        imc_rq_sharing_mode := bvb_wire_get_u32 input 52;
        imc_rq_queue_family_index_count := bvb_wire_get_u32 input 56;
        imc_rq_initial_layout := bvb_wire_get_u32 input 60;
        imc_rq_pnext_flags := bvb_wire_get_u32 input 64;
        imc_rq_view_format_count := bvb_wire_get_u32 input 68;
        imc_rq_stencil_usage := bvb_wire_get_u32 input 72;
        imc_rq_queue_family_indices :=
          fill_array BVB_VULKAN_IMAGE_MAX_QUEUE_FAMILIES
            (fun index => bvb_wire_get_u32 input (80 + index * 4))
            (replicate 8 0);
        imc_rq_view_formats :=
          fill_array BVB_VULKAN_IMAGE_MAX_VIEW_FORMATS
            (fun index => bvb_wire_get_u32 input (112 + index * 4))
            (replicate 16 0) |} in
  fail_if negb (image_create_request_valid (Some decoded)) with (- EPROTO) ;;
  Ok decoded.
End image.
