(* ===== verification/Backend.v ===== *)
(** * Backend: the object store of the service and the driver below it

    src/vulkan_global.c owns everything a client creates: a handle table maps
    the wire identifiers to the handles of the native driver, arrays of
    metadata remember what the driver cannot be asked.  This file holds the
    state ([bvb_vulkan_global_context]), the calls into the driver as a log,
    the monad the operations are written in, and what the Vulkan
    specification requires of the handles in that log: no call uses one that
    is not alive, nothing is destroyed twice, and no device or instance before
    what was created from it. *)

From Stdlib Require Export Strings.String.
From stdpp Require Import strings gmap.
From S2P Require Import Prelude Wire Abi Codec ProtocolDevice MessageLists DescriptorTypes.
From S2P Require Export Handle.

(** ** errno values of <errno.h> *)

Definition ENOSYS : Z := 38.
Definition ENOTSUP : Z := 95.

(** ** Metadata *)

Abbreviation BVB_GLOBAL_OBJECT_CAPACITY := 4096 (only parsing).
Abbreviation BVB_EXPOSED_INSTANCE_EXTENSION_CAPACITY := 3 (only parsing).
Abbreviation BVB_VULKAN_MEMORY_MIRROR_CAPACITY := 64 (only parsing).

Record bvb_vulkan_device_queue_create_info := mk_device_queue_create_info {
  qci_flags : Z;
  qci_queue_family_index : Z;
  qci_queue_count : Z;
  qci_first_priority : Z
}.

Record bvb_device_metadata := mk_device_metadata {
  dm_device_id : Z;
  dm_non_coherent_atom_size : Z;
  dm_queue_create_info_count : Z;
  dm_queue_create_infos : list bvb_vulkan_device_queue_create_info
}.

Record bvb_memory_metadata := mk_memory_metadata {
  mm_memory_id : Z;
  mm_allocation_size : Z;
  mm_property_flags : Z;
  mm_opaque_fd_exportable : bool
}.

(** What a pointer into mapped memory points to: the bytes of the allocation,
    or, once the memory has been unmapped, nothing the process may touch. *)
Inductive mapped_memory := Mapped (contents : bytes) | Unmapped.

(** [device] and [memory] are native handles; [mirror], [native] and
    [baseline] are what the three pointers point to.  [native] is not NULL
    while the mirror is in use, but a [vkUnmapMemory] elsewhere can have taken
    its mapping away. *)
Record bvb_memory_mirror_metadata := mk_memory_mirror_metadata {
  mr_device_id : Z;
  mr_memory_id : Z;
  mr_generation : Z;
  mr_offset : Z;
  mr_length : Z;
  mr_allocation_size : Z;
  mr_non_coherent_atom_size : Z;
  mr_property_flags : Z;
  mr_device : Z;
  mr_memory : Z;
  mr_mirror : ptr bytes;
  mr_native : ptr mapped_memory;
  mr_baseline : ptr bytes;
  mr_direct : bool
}.

Record bvb_buffer_metadata := mk_buffer_metadata {
  bm_buffer_id : Z;
  bm_device_id : Z;
  bm_bound_memory_id : Z;
  bm_usage : Z;
  bm_memory_bound : bool
}.

Record bvb_semaphore_metadata := mk_semaphore_metadata {
  sm_semaphore_id : Z;
  sm_type : Z
}.

Record bvb_query_pool_metadata := mk_query_pool_metadata {
  qm_query_pool_id : Z;
  qm_device_id : Z;
  qm_query_type : Z;
  qm_query_count : Z
}.

Record bvb_image_metadata := mk_image_metadata {
  im_image_id : Z;
  im_device_id : Z;
  im_bound_memory_id : Z;
  im_flags : Z;
  im_image_type : Z;
  im_format : Z;
  im_mip_levels : Z;
  im_array_layers : Z
}.

Record bvb_descriptor_template_metadata := mk_descriptor_template_metadata {
  tm_template_id : Z;
  tm_device_id : Z;
  tm_entry_count : Z;
  tm_entries : list bvb_vulkan_descriptor_update_template_entry
}.

Definition zero_device_metadata := mk_device_metadata 0 0 0 [].
Definition zero_memory_metadata := mk_memory_metadata 0 0 0 false.
Definition zero_mirror_metadata :=
  mk_memory_mirror_metadata 0 0 0 0 0 0 0 0 0 0 None None None false.
Definition zero_buffer_metadata := mk_buffer_metadata 0 0 0 0 false.
Definition zero_semaphore_metadata := mk_semaphore_metadata 0 0.
Definition zero_query_pool_metadata := mk_query_pool_metadata 0 0 0 0.
Definition zero_image_metadata := mk_image_metadata 0 0 0 0 0 0 0 0.
Definition zero_template_metadata := mk_descriptor_template_metadata 0 0 0 [].

(** ** The context

    The two function pointers are whether they have been resolved; the
    [next_*_serial] counters are one counter per object type. *)
Record bvb_vulkan_global_context := mk_context {
  ctx_get_device_proc_addr : bool;
  ctx_destroy_instance : bool;
  ctx_exposed_instance_extensions : list bytes;
  ctx_objects : bvb_handle_table;
  ctx_next_serial : Z -> Z;
  ctx_device_metadata : list bvb_device_metadata;
  ctx_memory_metadata : list bvb_memory_metadata;
  ctx_memory_mirrors : list bvb_memory_mirror_metadata;
  ctx_memory_mirror_bytes : Z;
  ctx_buffer_metadata : list bvb_buffer_metadata;
  ctx_semaphore_metadata : list bvb_semaphore_metadata;
  ctx_query_pool_metadata : list bvb_query_pool_metadata;
  ctx_image_metadata : list bvb_image_metadata;
  ctx_template_metadata : list bvb_descriptor_template_metadata
}.

(** ** Calls into the driver

    A call carries the native handles it is made with and the numbers of the
    structures it points to; [NullCall] is a call through a null function
    pointer.  A reply is the [VkResult] and the handles or numbers written
    back. *)

Inductive vk_call :=
| NullCall
| CreateInstance (api_version : Z) (extensions : list bytes)
| DestroyInstance (instance : Z)
| InstanceProc (instance : Z) (name : string)
| CountPhysicalDevices (instance : Z)
| EnumeratePhysicalDevices (instance : Z)
| PhysicalDeviceQuery (physical_device : Z) (name : string)
| CreateDevice (physical_device : Z) (queues : list (Z * Z * list Z))
    (features : list Z) (extensions : list bytes)
| DestroyDevice (device : Z)
| DeviceProc (device : Z) (name : string)
| GetDeviceQueue (device family index : Z)
| Create (type device : Z) (uses : list (Z * Z)) (info : list Z)
| Destroy (type device object : Z)
| AllocateCommandBuffers (device pool level count : Z)
| FreeCommandBuffers (device pool buffer : Z)
| AllocateDescriptorSets (device pool : Z) (layouts : list Z)
| ResetDescriptorPool (device pool flags : Z)
| DeviceCall (name : string) (device : Z) (uses : list (Z * Z)) (args : list Z)
| QueueCall (name : string) (queue : Z) (uses : list (Z * Z)) (args : list Z)
| CommandBufferCall (name : string) (buffer : Z) (uses : list (Z * Z))
    (args : list Z).

Record vk_reply := mk_reply { rp_result : Z; rp_values : list Z }.

(** The handle a successful creation wrote through its output pointer. *)
Definition rp_handle (r : vk_reply) : Z := hd 0 r.(rp_values).

Definition event : Type := vk_call * vk_reply.

(** ** The monad

    An operation changes the context and appends to the log even when it
    returns an error. *)

Record world := mk_world {
  w_context : bvb_vulkan_global_context;
  w_log : list event
}.

Definition M (A : Type) : Type := world -> result A * world.

Definition ret {A} (x : A) : M A := fun w => (Ok x, w).
Definition stop {A} (e : Z) : M A := fun w => (Err e, w).
Definition bind {A B} (m : M A) (k : A -> M B) : M B := fun w =>
  let '(r, w) := m w in
  match r with Ok x => k x w | Err e => (Err e, w) end.

Notation "'do' x ':=' m ;; k" := (bind m (fun x => k))
  (at level 100, x pattern, m at level 99, k at level 200,
   format "'[v' 'do'  x  ':='  m ;; '/' k ']'") : c_scope.

(** [stop_if c with e] is [if (c) return e;]; [reply_if c with r] is
    [if (c) { *response = r; return 0; }]. *)
Notation "'stop_if' c 'with' e ;; k" := (if c then stop e else k)
  (at level 100, c at level 99, e at level 99, k at level 200,
   format "'[v' 'stop_if'  c  'with'  e ;; '/' k ']'") : c_scope.
Notation "'reply_if' c 'with' r ;; k" := (if c then ret r else k)
  (at level 100, c at level 99, r at level 99, k at level 200,
   format "'[v' 'reply_if'  c  'with'  r ;; '/' k ']'") : c_scope.

(** The error code of [m] becomes a value: a result the caller inspects. *)
Definition catch {A} (m : M A) : M (result A) := fun w =>
  let '(r, w) := m w in (Ok r, w).

Definition get_context : M bvb_vulkan_global_context := fun w =>
  (Ok w.(w_context), w).
Definition put_context (f : bvb_vulkan_global_context ->
    bvb_vulkan_global_context) : M unit := fun w =>
  (Ok tt, mk_world (f w.(w_context)) w.(w_log)).
Definition of_result {A} (r : result A) : M A := fun w => (r, w).

(** [for (index = 0; index < count; ++index) body] *)
Fixpoint loop_m (n : nat) (index : Z) (body : Z -> M unit) : M unit :=
  match n with
  | O => ret tt
  | S n => do _ := body index ;; loop_m n (index + 1) body
  end.
Definition for_m (count : Z) (body : Z -> M unit) : M unit :=
  loop_m (Z.to_nat count) 0 body.

(** ** The Vulkan contract

    [ds_owned] holds what the application created and has to destroy: type,
    owning device (physical device for a device) and handle.  [ds_known]
    holds handles that live as long as their owner: physical devices,
    queues, command buffers and descriptor sets. *)

Definition obj : Type := Z * Z * Z.

Record driver_state := mk_driver_state {
  ds_owned : list obj;
  ds_known : list obj
}.

Definition alive (s : driver_state) (type bits : Z) : Prop :=
  exists owner, (type, owner, bits) ∈ s.(ds_owned) \/
                (type, owner, bits) ∈ s.(ds_known).

(** The types of what a device creates and must not outlive. *)
Definition device_children : list Z :=
  [BVB_OBJECT_IMAGE; BVB_OBJECT_IMAGE_VIEW; BVB_OBJECT_DEVICE_MEMORY;
   BVB_OBJECT_COMMAND_POOL; BVB_OBJECT_PIPELINE_LAYOUT; BVB_OBJECT_PIPELINE;
   BVB_OBJECT_SEMAPHORE; BVB_OBJECT_FENCE; BVB_OBJECT_BUFFER;
   BVB_OBJECT_DESCRIPTOR_SET_LAYOUT; BVB_OBJECT_DESCRIPTOR_POOL;
   BVB_OBJECT_SAMPLER; BVB_OBJECT_DESCRIPTOR_UPDATE_TEMPLATE;
   BVB_OBJECT_QUERY_POOL].

Definition used (s : driver_state) (uses : list (Z * Z)) : Prop :=
  Forall (fun '(type, bits) => alive s type bits) uses.

(** When a call is valid as far as handles go: every handle it is given is
    alive and of the right kind, and what it destroys, frees or resets is
    owned by the device or pool it names.  The rest of what Vulkan asks of a
    call is not part of it, such as whether memory is already mapped or a
    command buffer is recording: the service does not track the former for
    direct accesses nor the latter at all, and a client can break both. *)
Definition allowed (s : driver_state) (c : vk_call) : Prop :=
  match c with
  | NullCall => False
  | CreateInstance _ _ => True
  | DestroyInstance i =>
      alive s BVB_OBJECT_INSTANCE i /\
      forall p d, (BVB_OBJECT_DEVICE, p, d) ∈ s.(ds_owned) ->
        exists i', i' <> i /\ alive s BVB_OBJECT_INSTANCE i' /\
          (BVB_OBJECT_PHYSICAL_DEVICE, i', p) ∈ s.(ds_known)
  | InstanceProc i _ | CountPhysicalDevices i | EnumeratePhysicalDevices i =>
      alive s BVB_OBJECT_INSTANCE i
  | PhysicalDeviceQuery p _ | CreateDevice p _ _ _ =>
      alive s BVB_OBJECT_PHYSICAL_DEVICE p
  | DestroyDevice d =>
      alive s BVB_OBJECT_DEVICE d /\
      forall type b, type ∈ device_children ->
        (type, d, b) ∉ s.(ds_owned)
  | DeviceProc d _ | GetDeviceQueue d _ _ => alive s BVB_OBJECT_DEVICE d
  | Create type d uses _ =>
      alive s BVB_OBJECT_DEVICE d /\ used s uses /\ type ∈ device_children
  | Destroy type d b =>
      alive s BVB_OBJECT_DEVICE d /\ (type, d, b) ∈ s.(ds_owned) /\
      type ∈ device_children
  | AllocateCommandBuffers d p _ _ =>
      alive s BVB_OBJECT_DEVICE d /\
      (BVB_OBJECT_COMMAND_POOL, d, p) ∈ s.(ds_owned)
  | FreeCommandBuffers d p b =>
      alive s BVB_OBJECT_DEVICE d /\
      (BVB_OBJECT_COMMAND_POOL, d, p) ∈ s.(ds_owned) /\
      (BVB_OBJECT_COMMAND_BUFFER, p, b) ∈ s.(ds_known)
  | AllocateDescriptorSets d p layouts =>
      alive s BVB_OBJECT_DEVICE d /\
      (BVB_OBJECT_DESCRIPTOR_POOL, d, p) ∈ s.(ds_owned) /\
      Forall (fun l => (BVB_OBJECT_DESCRIPTOR_SET_LAYOUT, d, l)
                       ∈ s.(ds_owned)) layouts
  | ResetDescriptorPool d p _ =>
      alive s BVB_OBJECT_DEVICE d /\
      (BVB_OBJECT_DESCRIPTOR_POOL, d, p) ∈ s.(ds_owned)
  | DeviceCall _ d uses _ => alive s BVB_OBJECT_DEVICE d /\ used s uses
  | QueueCall _ q uses _ => alive s BVB_OBJECT_QUEUE q /\ used s uses
  | CommandBufferCall _ b uses _ =>
      alive s BVB_OBJECT_COMMAND_BUFFER b /\ used s uses
  end.

Fixpoint remove_obj (o : obj) (l : list obj) : list obj :=
  match l with
  | [] => []
  | x :: l => if decide (x = o) then l else x :: remove_obj o l
  end.

(** What [owner] of the given type takes with it. *)
Definition forget (type owner : Z) (l : list obj) : list obj :=
  filter (fun o => ~ (o.1.1 = type /\ o.1.2 = owner)) l.

Section contract.
Context (success : Z).

Definition known_after (s : driver_state) (type owner : Z) (r : vk_reply) :
    driver_state :=
  mk_driver_state s.(ds_owned)
    (((fun b => (type, owner, b)) <$> r.(rp_values)) ++ s.(ds_known)).

(** What a call does. *)
Definition after (s : driver_state) (e : event) : driver_state :=
  let '(c, r) := e in
  let ok := r.(rp_result) =? success in
  match c with
  | CreateInstance _ _ =>
      if ok then mk_driver_state
                   ((BVB_OBJECT_INSTANCE, 0, rp_handle r) :: s.(ds_owned))
                   s.(ds_known)
      else s
  | DestroyInstance i =>
      mk_driver_state (remove_obj (BVB_OBJECT_INSTANCE, 0, i) s.(ds_owned))
        (forget BVB_OBJECT_PHYSICAL_DEVICE i s.(ds_known))
  | EnumeratePhysicalDevices i =>
      known_after s BVB_OBJECT_PHYSICAL_DEVICE i r
  | CreateDevice p _ _ _ =>
      if ok then mk_driver_state
                   ((BVB_OBJECT_DEVICE, p, rp_handle r) :: s.(ds_owned))
                   s.(ds_known)
      else s
  | DestroyDevice d =>
      mk_driver_state
        (filter (fun o => ~ (o.1.1 = BVB_OBJECT_DEVICE /\ o.2 = d))
           s.(ds_owned))
        (forget BVB_OBJECT_QUEUE d s.(ds_known))
  | GetDeviceQueue d _ _ => known_after s BVB_OBJECT_QUEUE d r
  | Create type d _ _ =>
      if ok then mk_driver_state ((type, d, rp_handle r) :: s.(ds_owned))
                   s.(ds_known)
      else s
  | Destroy type d b =>
      mk_driver_state (remove_obj (type, d, b) s.(ds_owned))
        (if type =? BVB_OBJECT_COMMAND_POOL then
           forget BVB_OBJECT_COMMAND_BUFFER b s.(ds_known)
         else if type =? BVB_OBJECT_DESCRIPTOR_POOL then
           forget BVB_OBJECT_DESCRIPTOR_SET b s.(ds_known)
         else s.(ds_known))
  | AllocateCommandBuffers _ p _ _ =>
      if ok then known_after s BVB_OBJECT_COMMAND_BUFFER p r else s
  | FreeCommandBuffers _ p b =>
      mk_driver_state s.(ds_owned)
        (filter (fun o => o <> (BVB_OBJECT_COMMAND_BUFFER, p, b))
           s.(ds_known))
  | AllocateDescriptorSets _ p _ =>
      if ok then known_after s BVB_OBJECT_DESCRIPTOR_SET p r else s
  | ResetDescriptorPool _ p _ =>
      if ok then mk_driver_state s.(ds_owned)
                   (forget BVB_OBJECT_DESCRIPTOR_SET p s.(ds_known))
      else s
  | _ => s
  end.

Definition driver_after (log : list event) : driver_state :=
  fold_left after log (mk_driver_state [] []).

(** Every call of the log was valid, in this sense, when it was made. *)
Inductive disciplined : list event -> Prop :=
| disciplined_nil : disciplined []
| disciplined_snoc log e :
    disciplined log -> allowed (driver_after log) e.1 ->
    disciplined (log ++ [e]).

Lemma driver_after_snoc log e :
  driver_after (log ++ [e]) = after (driver_after log) e.
Proof. unfold driver_after. by rewrite fold_left_app. Qed.
End contract.

(** ** Constants of <vulkan/vulkan_core.h> the store compares against *)

Class VulkanCore := {
  VK_SUCCESS : Z;
  VK_INCOMPLETE : Z;
  VK_ERROR_INITIALIZATION_FAILED : Z;
  VK_ERROR_LAYER_NOT_PRESENT : Z;
  VK_ERROR_EXTENSION_NOT_PRESENT : Z;
  VK_ERROR_FEATURE_NOT_PRESENT : Z;
  VK_ERROR_TOO_MANY_OBJECTS : Z;
  VK_ERROR_MEMORY_MAP_FAILED : Z;
  VK_COMMAND_POOL_CREATE_TRANSIENT_BIT : Z;
  VK_COMMAND_POOL_CREATE_RESET_COMMAND_BUFFER_BIT : Z;
  VK_COMMAND_POOL_RESET_RELEASE_RESOURCES_BIT : Z;
  VK_COMMAND_BUFFER_LEVEL_PRIMARY : Z;
  VK_COMMAND_BUFFER_USAGE_ONE_TIME_SUBMIT_BIT : Z;
  VK_FENCE_CREATE_SIGNALED_BIT : Z;
  VK_SEMAPHORE_TYPE_BINARY : Z;
  VK_SEMAPHORE_TYPE_TIMELINE : Z;
  VK_SEMAPHORE_WAIT_ANY_BIT : Z;
  VK_TRUE : Z;
  VK_FALSE : Z;
  VK_DESCRIPTOR_TYPE_SAMPLER : Z;
  VK_DESCRIPTOR_TYPE_COMBINED_IMAGE_SAMPLER : Z;
  VK_DESCRIPTOR_TYPE_SAMPLED_IMAGE : Z;
  VK_DESCRIPTOR_TYPE_STORAGE_IMAGE : Z;
  VK_DESCRIPTOR_TYPE_UNIFORM_TEXEL_BUFFER : Z;
  VK_DESCRIPTOR_TYPE_STORAGE_TEXEL_BUFFER : Z;
  VK_DESCRIPTOR_TYPE_UNIFORM_BUFFER : Z;
  VK_DESCRIPTOR_TYPE_STORAGE_BUFFER : Z;
  VK_DESCRIPTOR_TYPE_UNIFORM_BUFFER_DYNAMIC : Z;
  VK_DESCRIPTOR_TYPE_STORAGE_BUFFER_DYNAMIC : Z;
  VK_DESCRIPTOR_TYPE_INPUT_ATTACHMENT : Z;
  VK_DESCRIPTOR_SET_LAYOUT_CREATE_UPDATE_AFTER_BIND_POOL_BIT : Z;
  VK_DESCRIPTOR_BINDING_UPDATE_AFTER_BIND_BIT : Z;
  VK_DESCRIPTOR_BINDING_UPDATE_UNUSED_WHILE_PENDING_BIT : Z;
  VK_DESCRIPTOR_BINDING_PARTIALLY_BOUND_BIT : Z;
  VK_DESCRIPTOR_POOL_CREATE_UPDATE_AFTER_BIND_BIT : Z;
  VK_DESCRIPTOR_UPDATE_TEMPLATE_TYPE_DESCRIPTOR_SET : Z;
  VK_FILTER_LINEAR : Z;
  VK_SAMPLER_MIPMAP_MODE_LINEAR : Z;
  VK_SAMPLER_ADDRESS_MODE_MIRROR_CLAMP_TO_EDGE : Z;
  VK_COMPARE_OP_ALWAYS : Z;
  VK_BORDER_COLOR_INT_OPAQUE_WHITE : Z;
  VK_PIPELINE_LAYOUT_CREATE_INDEPENDENT_SETS_BIT_EXT : Z;
  VK_SHADER_STAGE_VERTEX_BIT : Z;
  VK_SHADER_STAGE_TESSELLATION_CONTROL_BIT : Z;
  VK_SHADER_STAGE_TESSELLATION_EVALUATION_BIT : Z;
  VK_SHADER_STAGE_GEOMETRY_BIT : Z;
  VK_SHADER_STAGE_FRAGMENT_BIT : Z;
  VK_SHADER_STAGE_COMPUTE_BIT : Z;
  VK_MEMORY_PROPERTY_HOST_VISIBLE_BIT : Z;
  VK_MEMORY_PROPERTY_HOST_COHERENT_BIT : Z;
  VK_BUFFER_USAGE_TRANSFER_SRC_BIT : Z;
  VK_BUFFER_USAGE_TRANSFER_DST_BIT : Z;
  VK_BUFFER_USAGE_UNIFORM_TEXEL_BUFFER_BIT : Z;
  VK_BUFFER_USAGE_STORAGE_TEXEL_BUFFER_BIT : Z;
  VK_BUFFER_USAGE_UNIFORM_BUFFER_BIT : Z;
  VK_BUFFER_USAGE_STORAGE_BUFFER_BIT : Z;
  VK_BUFFER_USAGE_INDEX_BUFFER_BIT : Z;
  VK_BUFFER_USAGE_VERTEX_BUFFER_BIT : Z;
  VK_BUFFER_USAGE_INDIRECT_BUFFER_BIT : Z;
  VK_BUFFER_USAGE_TRANSFORM_FEEDBACK_BUFFER_BIT_EXT : Z;
  VK_BUFFER_USAGE_TRANSFORM_FEEDBACK_COUNTER_BUFFER_BIT_EXT : Z;
  VK_BUFFER_USAGE_SHADER_DEVICE_ADDRESS_BIT : Z;
  VK_IMAGE_VIEW_TYPE_1D : Z;
  VK_IMAGE_VIEW_TYPE_2D : Z;
  VK_IMAGE_VIEW_TYPE_3D : Z;
  VK_IMAGE_VIEW_TYPE_CUBE : Z;
  VK_IMAGE_VIEW_TYPE_1D_ARRAY : Z;
  VK_IMAGE_VIEW_TYPE_2D_ARRAY : Z;
  VK_REMAINING_MIP_LEVELS : Z;
  VK_REMAINING_ARRAY_LAYERS : Z;
  VK_MAX_MEMORY_HEAPS : Z;
  VK_MAX_PHYSICAL_DEVICE_NAME_SIZE : Z
}.

(** ** Access to the context *)

Definition with_objects (t : bvb_handle_table) (c : bvb_vulkan_global_context) :
    bvb_vulkan_global_context :=
  mk_context c.(ctx_get_device_proc_addr) c.(ctx_destroy_instance)
    c.(ctx_exposed_instance_extensions) t c.(ctx_next_serial)
    c.(ctx_device_metadata) c.(ctx_memory_metadata) c.(ctx_memory_mirrors)
    c.(ctx_memory_mirror_bytes) c.(ctx_buffer_metadata)
    c.(ctx_semaphore_metadata) c.(ctx_query_pool_metadata)
    c.(ctx_image_metadata) c.(ctx_template_metadata).

Definition with_next_serial (type : Z) (c : bvb_vulkan_global_context) :
    bvb_vulkan_global_context :=
  mk_context c.(ctx_get_device_proc_addr) c.(ctx_destroy_instance)
    c.(ctx_exposed_instance_extensions) c.(ctx_objects)
    (fun t => if t =? type then u64 (c.(ctx_next_serial) t + 1)
              else c.(ctx_next_serial) t)
    c.(ctx_device_metadata) c.(ctx_memory_metadata) c.(ctx_memory_mirrors)
    c.(ctx_memory_mirror_bytes) c.(ctx_buffer_metadata)
    c.(ctx_semaphore_metadata) c.(ctx_query_pool_metadata)
    c.(ctx_image_metadata) c.(ctx_template_metadata).

Definition with_entry_points (device_proc destroy : bool)
    (c : bvb_vulkan_global_context) : bvb_vulkan_global_context :=
  mk_context device_proc destroy
    c.(ctx_exposed_instance_extensions) c.(ctx_objects) c.(ctx_next_serial)
    c.(ctx_device_metadata) c.(ctx_memory_metadata) c.(ctx_memory_mirrors)
    c.(ctx_memory_mirror_bytes) c.(ctx_buffer_metadata)
    c.(ctx_semaphore_metadata) c.(ctx_query_pool_metadata)
    c.(ctx_image_metadata) c.(ctx_template_metadata).

(** The arrays of metadata, all at once: an operation replaces one of them. *)
Definition with_metadata
    (devices : list bvb_device_metadata) (memories : list bvb_memory_metadata)
    (mirrors : list bvb_memory_mirror_metadata) (mirror_bytes : Z)
    (buffers : list bvb_buffer_metadata)
    (semaphores : list bvb_semaphore_metadata)
    (query_pools : list bvb_query_pool_metadata)
    (images : list bvb_image_metadata)
    (templates : list bvb_descriptor_template_metadata)
    (c : bvb_vulkan_global_context) :
    bvb_vulkan_global_context :=
  mk_context c.(ctx_get_device_proc_addr) c.(ctx_destroy_instance)
    c.(ctx_exposed_instance_extensions) c.(ctx_objects) c.(ctx_next_serial)
    devices memories mirrors mirror_bytes buffers semaphores query_pools images
    templates.

Definition set_device_metadata (index : nat) (x : bvb_device_metadata)
    (c : bvb_vulkan_global_context) : bvb_vulkan_global_context :=
  with_metadata (<[index := x]> c.(ctx_device_metadata))
    c.(ctx_memory_metadata) c.(ctx_memory_mirrors) c.(ctx_memory_mirror_bytes)
    c.(ctx_buffer_metadata) c.(ctx_semaphore_metadata)
    c.(ctx_query_pool_metadata) c.(ctx_image_metadata)
    c.(ctx_template_metadata) c.
Definition set_memory_metadata (index : nat) (x : bvb_memory_metadata)
    (c : bvb_vulkan_global_context) : bvb_vulkan_global_context :=
  with_metadata c.(ctx_device_metadata)
    (<[index := x]> c.(ctx_memory_metadata)) c.(ctx_memory_mirrors)
    c.(ctx_memory_mirror_bytes) c.(ctx_buffer_metadata)
    c.(ctx_semaphore_metadata) c.(ctx_query_pool_metadata)
    c.(ctx_image_metadata)
    c.(ctx_template_metadata) c.
Definition set_memory_mirror (index : nat) (x : bvb_memory_mirror_metadata)
    (total : Z) (c : bvb_vulkan_global_context) : bvb_vulkan_global_context :=
  with_metadata c.(ctx_device_metadata) c.(ctx_memory_metadata)
    (<[index := x]> c.(ctx_memory_mirrors)) total
    c.(ctx_buffer_metadata) c.(ctx_semaphore_metadata)
    c.(ctx_query_pool_metadata) c.(ctx_image_metadata)
    c.(ctx_template_metadata) c.
Definition set_buffer_metadata (index : nat) (x : bvb_buffer_metadata)
    (c : bvb_vulkan_global_context) : bvb_vulkan_global_context :=
  with_metadata c.(ctx_device_metadata) c.(ctx_memory_metadata)
    c.(ctx_memory_mirrors) c.(ctx_memory_mirror_bytes)
    (<[index := x]> c.(ctx_buffer_metadata)) c.(ctx_semaphore_metadata)
    c.(ctx_query_pool_metadata) c.(ctx_image_metadata)
    c.(ctx_template_metadata) c.
Definition set_semaphore_metadata (index : nat) (x : bvb_semaphore_metadata)
    (c : bvb_vulkan_global_context) : bvb_vulkan_global_context :=
  with_metadata c.(ctx_device_metadata) c.(ctx_memory_metadata)
    c.(ctx_memory_mirrors) c.(ctx_memory_mirror_bytes)
    c.(ctx_buffer_metadata) (<[index := x]> c.(ctx_semaphore_metadata))
    c.(ctx_query_pool_metadata) c.(ctx_image_metadata)
    c.(ctx_template_metadata) c.
Definition set_query_pool_metadata (index : nat) (x : bvb_query_pool_metadata)
    (c : bvb_vulkan_global_context) : bvb_vulkan_global_context :=
  with_metadata c.(ctx_device_metadata) c.(ctx_memory_metadata)
    c.(ctx_memory_mirrors) c.(ctx_memory_mirror_bytes)
    c.(ctx_buffer_metadata) c.(ctx_semaphore_metadata)
    (<[index := x]> c.(ctx_query_pool_metadata)) c.(ctx_image_metadata)
    c.(ctx_template_metadata) c.
Definition set_image_metadata (index : nat) (x : bvb_image_metadata)
    (c : bvb_vulkan_global_context) : bvb_vulkan_global_context :=
  with_metadata c.(ctx_device_metadata) c.(ctx_memory_metadata)
    c.(ctx_memory_mirrors) c.(ctx_memory_mirror_bytes)
    c.(ctx_buffer_metadata) c.(ctx_semaphore_metadata)
    c.(ctx_query_pool_metadata) (<[index := x]> c.(ctx_image_metadata))
    c.(ctx_template_metadata) c.

Definition set_template_metadata (index : nat)
    (x : bvb_descriptor_template_metadata)
    (c : bvb_vulkan_global_context) : bvb_vulkan_global_context :=
  with_metadata c.(ctx_device_metadata) c.(ctx_memory_metadata)
    c.(ctx_memory_mirrors) c.(ctx_memory_mirror_bytes)
    c.(ctx_buffer_metadata) c.(ctx_semaphore_metadata)
    c.(ctx_query_pool_metadata) c.(ctx_image_metadata)
    (<[index := x]> c.(ctx_template_metadata)) c.

(** *** Searches

    [*_metadata_slot]: the first element with the identifier, else the first
    empty one.  [slot_index] tells which; [skip_zero] is the extra test
    [id != 0] some of the searches make before they accept a match. *)
Fixpoint slot_scan {A} (key : A -> Z) (id : Z) (skip_zero : bool) (index : nat)
    (empty : option nat) (l : list A) : option nat :=
  match l with
  | [] => empty
  | x :: l =>
      if (key x =? id) && negb (skip_zero && (id =? 0)) then Some index
      else
        slot_scan key id skip_zero (S index)
          (match empty with
           | Some _ => empty
           | None => if key x =? 0 then Some index else None
           end) l
  end.
Definition slot_index {A} (key : A -> Z) (id : Z) (skip_zero : bool)
    (l : list A) : option nat :=
  slot_scan key id skip_zero 0 None l.

Definition slot_of {A} (key : A -> Z) (id : Z) (skip_zero : bool) (l : list A) :
    option (nat * A) :=
  index ← slot_index key id skip_zero l; x ← l !! index; Some (index, x).

Definition device_metadata_slot (c : bvb_vulkan_global_context) (id : Z) :=
  slot_of dm_device_id id false c.(ctx_device_metadata).
Definition memory_metadata_slot (c : bvb_vulkan_global_context) (id : Z) :=
  slot_of mm_memory_id id false c.(ctx_memory_metadata).
Definition memory_mirror_slot (c : bvb_vulkan_global_context) (id : Z) :=
  slot_of mr_memory_id id true c.(ctx_memory_mirrors).
Definition buffer_metadata_slot (c : bvb_vulkan_global_context) (id : Z) :=
  slot_of bm_buffer_id id true c.(ctx_buffer_metadata).
Definition semaphore_metadata_slot (c : bvb_vulkan_global_context) (id : Z) :=
  slot_of sm_semaphore_id id true c.(ctx_semaphore_metadata).
Definition query_pool_metadata_slot (c : bvb_vulkan_global_context) (id : Z) :=
  slot_of qm_query_pool_id id false c.(ctx_query_pool_metadata).
Definition image_metadata_slot (c : bvb_vulkan_global_context) (id : Z) :=
  slot_of im_image_id id true c.(ctx_image_metadata).
Definition descriptor_template_slot (c : bvb_vulkan_global_context) (id : Z) :=
  slot_of tm_template_id id false c.(ctx_template_metadata).

Definition query_pool_metadata_find (c : bvb_vulkan_global_context) (id : Z) :
    option bvb_query_pool_metadata :=
  snd <$> list_find (fun x => x.(qm_query_pool_id) = id)
            c.(ctx_query_pool_metadata).
Definition buffer_metadata_find (c : bvb_vulkan_global_context) (id : Z) :
    option bvb_buffer_metadata :=
  snd <$> list_find (fun x => x.(bm_buffer_id) = id /\ id <> 0)
            c.(ctx_buffer_metadata).

(** ** The primitives of the operations *)

Section primitives.
Context (driver : list event -> vk_call -> vk_reply).

(** A call through a function pointer that is null unless [f]. *)
Definition invoke (f : bool) (c : vk_call) : M vk_reply := fun w =>
  let c := if f then c else NullCall in
  let r := driver w.(w_log) c in
  (Ok r, mk_world w.(w_context) (w.(w_log) ++ [(c, r)])).

(** [context->get_device_proc_addr(device, name)]: whether it is not null. *)
Definition device_proc (device : Z) (name : string) : M bool :=
  do context := get_context ;;
  do r := invoke context.(ctx_get_device_proc_addr) (DeviceProc device name) ;;
  ret (negb (r.(rp_result) =? 0)).
Definition instance_proc (instance : Z) (name : string) : M bool :=
  do r := invoke true (InstanceProc instance name) ;;
  ret (negb (r.(rp_result) =? 0)).
End primitives.

Definition table_lookup (wire_id type : Z) : M (Z * Z) :=
  do context := get_context ;;
  of_result (bvb_handle_table_lookup (Some context.(ctx_objects)) wire_id type
               true).

Definition table_insert (wire_id parent_id native_bits : Z) : M unit :=
  do context := get_context ;;
  do t := of_result (bvb_handle_table_insert (Some context.(ctx_objects))
                       wire_id parent_id native_bits) ;;
  put_context (with_objects t).

Definition table_remove (wire_id type : Z) : M Z :=
  do context := get_context ;;
  do found := of_result (bvb_handle_table_remove (Some context.(ctx_objects))
                           wire_id type) ;;
  do _ := put_context (with_objects (fst found)) ;;
  ret (snd found).

(** [bvb_handle_id(type, context->next_..._serial++)] *)
Definition next_id (type : Z) : M Z :=
  do context := get_context ;;
  do _ := put_context (with_next_serial type) ;;
  ret (bvb_handle_id type (context.(ctx_next_serial) type)).

(** [&context->object_entries[index]] *)
Definition object_entry (index : Z) : M bvb_handle_entry :=
  do context := get_context ;;
  ret (entry_at (default [] context.(ctx_objects).(ht_entries)) index).

(** A scan over all entries that acts on those of a type under a parent. *)
Definition for_children (type parent_id : Z) (act : Z -> M unit) : M unit :=
  for_m BVB_GLOBAL_OBJECT_CAPACITY (fun index =>
    do entry := object_entry index ;;
    if (bvb_handle_type entry.(he_wire_id) =? type) &&
       (entry.(he_parent_id) =? parent_id)
    then act entry.(he_wire_id) else ret tt).

(** *** Resolving identifiers *)

Definition resolve_physical_device (physical_device_id : Z) : M (Z * Z) :=
  do (parent_id, physical_bits) :=
    table_lookup physical_device_id BVB_OBJECT_PHYSICAL_DEVICE ;;
  do (_, instance_bits) := table_lookup parent_id BVB_OBJECT_INSTANCE ;;
  ret (instance_bits, physical_bits).

(** The identifier of the device, its handle, and the object's handle. *)
Definition resolve_device_child (object_id type : Z) : M (Z * Z * Z) :=
  do (device_id, native_bits) := table_lookup object_id type ;;
  do (_, device_bits) := table_lookup device_id BVB_OBJECT_DEVICE ;;
  ret (device_id, device_bits, native_bits).

Definition resolve_queue (queue_id : Z) : M (Z * Z) :=
  do (device_id, queue_bits) := table_lookup queue_id BVB_OBJECT_QUEUE ;;
  do (_, device_bits) := table_lookup device_id BVB_OBJECT_DEVICE ;;
  ret (device_bits, queue_bits).

Definition resolve_command_pool (command_pool_id : Z) : M (Z * Z * Z) :=
  do (device_id, pool_bits) :=
    table_lookup command_pool_id BVB_OBJECT_COMMAND_POOL ;;
  do (_, device_bits) := table_lookup device_id BVB_OBJECT_DEVICE ;;
  ret (device_id, device_bits, pool_bits).

Definition resolve_command_buffer (command_buffer_id : Z) :
    M (Z * Z * Z * Z) :=
  do (command_pool_id, command_buffer_bits) :=
    table_lookup command_buffer_id BVB_OBJECT_COMMAND_BUFFER ;;
  do (device_id, device, pool) := resolve_command_pool command_pool_id ;;
  ret (device_id, device, pool, command_buffer_bits).
