(* ===== verification/BackendInvariant.v ===== *)
(** * BackendInvariant: ownership in the object store

    Every object's parent is in the store, what the driver says the service
    owns is what the store holds, and the calls made so far respected the
    Vulkan contract.  [Inv] says so while an operation runs: [pending] are the
    native objects created and not yet stored, or removed and not yet
    destroyed.  The lemmas say how each step of an operation moves [Inv]. *)

From stdpp Require Import strings gmap.
From S2P Require Import Prelude Wire Abi Codec Backend.

(** ** The forest of objects *)

Abbreviation objects := (gmap Z (Z * Z)).

Definition parent_types : list (Z * Z) :=
  [(BVB_OBJECT_PHYSICAL_DEVICE, BVB_OBJECT_INSTANCE);
   (BVB_OBJECT_DEVICE, BVB_OBJECT_PHYSICAL_DEVICE);
   (BVB_OBJECT_QUEUE, BVB_OBJECT_DEVICE);
   (BVB_OBJECT_IMAGE, BVB_OBJECT_DEVICE);
   (BVB_OBJECT_IMAGE_VIEW, BVB_OBJECT_IMAGE);
   (BVB_OBJECT_DEVICE_MEMORY, BVB_OBJECT_DEVICE);
   (BVB_OBJECT_COMMAND_POOL, BVB_OBJECT_DEVICE);
   (BVB_OBJECT_COMMAND_BUFFER, BVB_OBJECT_COMMAND_POOL);
   (BVB_OBJECT_PIPELINE_LAYOUT, BVB_OBJECT_DEVICE);
   (BVB_OBJECT_PIPELINE, BVB_OBJECT_DEVICE);
   (BVB_OBJECT_SEMAPHORE, BVB_OBJECT_DEVICE);
   (BVB_OBJECT_FENCE, BVB_OBJECT_DEVICE);
   (BVB_OBJECT_BUFFER, BVB_OBJECT_DEVICE);
   (BVB_OBJECT_DESCRIPTOR_SET_LAYOUT, BVB_OBJECT_DEVICE);
   (BVB_OBJECT_DESCRIPTOR_POOL, BVB_OBJECT_DEVICE);
   (BVB_OBJECT_DESCRIPTOR_SET, BVB_OBJECT_DESCRIPTOR_POOL);
   (BVB_OBJECT_SAMPLER, BVB_OBJECT_DEVICE);
   (BVB_OBJECT_DESCRIPTOR_UPDATE_TEMPLATE, BVB_OBJECT_DEVICE);
   (BVB_OBJECT_QUERY_POOL, BVB_OBJECT_DEVICE)].

(** The object with this identifier is in the store and has this type. *)
Definition present (m : objects) (id type : Z) : Prop :=
  is_Some (m !! id) /\ bvb_handle_type id = type.

Definition placed (m : objects) (id parent : Z) : Prop :=
  bvb_handle_type id = BVB_OBJECT_INSTANCE \/
  exists t, (bvb_handle_type id, t) ∈ parent_types /\ present m parent t.

Definition forest (m : objects) : Prop :=
  forall id p b, m !! id = Some (p, b) -> placed m id p.

(** No object has this parent. *)
Definition childless (m : objects) (id : Z) : Prop :=
  forall id' p b, m !! id' = Some (p, b) ->
    bvb_handle_type id' <> BVB_OBJECT_INSTANCE -> p <> id.

Definition bits_of (m : objects) (id : Z) : Z := (default (0, 0) (m !! id)).2.
Definition parent_of (m : objects) (id : Z) : Z := (default (0, 0) (m !! id)).1.

(** The native handle under which the driver knows the owner. *)
Definition owner (m : objects) (type parent : Z) : Z :=
  if type =? BVB_OBJECT_INSTANCE then 0
  else if type =? BVB_OBJECT_IMAGE_VIEW then bits_of m (parent_of m parent)
  else bits_of m parent.

Definition owned_types : list Z :=
  BVB_OBJECT_INSTANCE :: BVB_OBJECT_DEVICE :: device_children.

(** Handles the driver keeps distinct while they are alive. *)
Definition distinct_types : list Z :=
  [BVB_OBJECT_INSTANCE; BVB_OBJECT_DEVICE; BVB_OBJECT_COMMAND_POOL;
   BVB_OBJECT_COMMAND_BUFFER; BVB_OBJECT_DESCRIPTOR_POOL].

Definition native (m : objects) (entry : Z * (Z * Z)) : option obj :=
  let '(id, (p, b)) := entry in
  let type := bvb_handle_type id in
  if decide (type ∈ owned_types) then Some (type, owner m type p, b) else None.

Definition owned_objs (m : objects) : list obj := omap (native m) (map_to_list m).

Definition distinct (m : objects) : Prop :=
  forall id id' p p' b, m !! id = Some (p, b) -> m !! id' = Some (p', b) ->
    bvb_handle_type id = bvb_handle_type id' ->
    bvb_handle_type id ∈ distinct_types -> id = id'.

(** ** Lemmas on the forest *)

Lemma parent_types_fun t p q :
  (t, p) ∈ parent_types -> (t, q) ∈ parent_types -> p = q.
Proof.
  assert (H : NoDup parent_types.*1) by (apply (bool_decide_unpack _); vm_compute; done).
  intros H1 H2.
  apply (elem_of_list_to_map_1 (M := gmap Z) parent_types t p) in H1; [|done].
  apply (elem_of_list_to_map_1 (M := gmap Z) parent_types t q) in H2; [|done].
  congruence.
Qed.

Lemma placed_insert m id x id' p :
  m !! id = None -> placed m id' p -> placed (<[id := x]> m) id' p.
Proof.
  intros Hn [Hi|(t & Ht & [Hp Ety])]; [by left|right].
  exists t. split; [done|split; [|done]].
  rewrite lookup_insert_ne; [done|]. intros ->. rewrite Hn in Hp.
  by destruct Hp.
Qed.

Lemma forest_insert m id p b :
  m !! id = None -> forest m -> placed m id p ->
  forest (<[id := (p, b)]> m).
Proof.
  intros Hn Hf Hp id' p' b' H. apply lookup_insert_Some in H.
  destruct H as [[-> [= <- <-]]|[Hne H]].
  - by apply placed_insert.
  - apply placed_insert; [done|]. by eapply Hf.
Qed.

Lemma forest_delete m id :
  forest m -> childless m id -> forest (delete id m).
Proof.
  intros Hf Hc id' p b [Hne H]%lookup_delete_Some.
  destruct (Hf _ _ _ H) as [Hi|(t & Ht & [Hp Ety])]; [by left|].
  destruct (decide (bvb_handle_type id' = BVB_OBJECT_INSTANCE)); [by left|].
  right. exists t. split; [done|split; [|done]].
  rewrite lookup_delete_ne; [done|]. intros ->. by eapply Hc.
Qed.

(** The handle of an entry's owner does not change when a new object comes. *)
Lemma owner_insert m id x id' p :
  m !! id = None -> forest m -> placed m id' p ->
  owner (<[id := x]> m) (bvb_handle_type id') p = owner m (bvb_handle_type id') p.
Proof.
  intros Hn Hf [Hi|(t & Ht & [[[q c] Hp] Ety])]; unfold owner.
  - by rewrite Hi.
  - assert (Hpi : id <> p) by congruence.
    assert (Hbits : forall y, is_Some (m !! y) ->
              bits_of (<[id := x]> m) y = bits_of m y).
    { intros y [z Hy]. unfold bits_of. rewrite lookup_insert_ne; congruence. }
    destruct (bvb_handle_type id' =? BVB_OBJECT_INSTANCE); [done|].
    destruct (Z.eqb_spec (bvb_handle_type id') BVB_OBJECT_IMAGE_VIEW) as [Ev|].
    + unfold parent_of. rewrite lookup_insert_ne, Hp by done. apply Hbits.
      rewrite Ev in Ht.
      assert (t = BVB_OBJECT_IMAGE) as ->.
      { eapply parent_types_fun; [exact Ht|].
        by apply (bool_decide_unpack _). }
      destruct (Hf _ _ _ Hp) as [Hi|(t & _ & [Hq _])]; [by rewrite Ety in Hi|done].
    + by apply Hbits.
Qed.

Definition opt_cons {A} (o : option A) (l : list A) : list A :=
  match o with Some x => x :: l | None => l end.

Lemma omap_forall_ext {A B} (f g : A -> option B) (l : list A) :
  (forall x, x ∈ l -> f x = g x) -> omap f l = omap g l.
Proof.
  induction l as [|x l IH]; intros H; cbn; [done|].
  rewrite (H x), IH by (intros; try apply H; by constructor). done.
Qed.

Lemma owned_insert m id p b :
  m !! id = None -> forest m -> placed m id p ->
  owned_objs (<[id := (p, b)]> m) ≡ₚ
  opt_cons (native m (id, (p, b))) (owned_objs m).
Proof.
  intros Hn Hf Hp. unfold owned_objs at 1.
  rewrite (map_to_list_insert m id (p, b) Hn). cbn.
  assert (Hsame : forall id' p' b', placed m id' p' ->
    native (<[id := (p, b)]> m) (id', (p', b')) = native m (id', (p', b'))).
  { intros id' p' b' Hpl. unfold native. by rewrite owner_insert. }
  pose proof (Hsame id p b Hp) as E. unfold native in E.
  rewrite (omap_forall_ext _ (native m) (map_to_list m)).
  - rewrite E. by destruct decide.
  - intros [id' [p' b']] Hin%elem_of_map_to_list. apply Hsame. by eapply Hf.
Qed.

Lemma native_delete m id p b :
  m !! id = Some (p, b) -> forest m -> childless m id ->
  owned_objs m ≡ₚ
  opt_cons (native (delete id m) (id, (p, b))) (owned_objs (delete id m)).
Proof.
  intros H Hf Hc. rewrite <- (insert_delete_id m id (p, b) H) at 1.
  apply owned_insert; [apply lookup_delete_eq|by apply forest_delete|].
  destruct (Hf _ _ _ H) as [Hi|(t & Ht & [Hp Ety])]; [by left|].
  destruct (decide (bvb_handle_type id = BVB_OBJECT_INSTANCE)); [by left|].
  right. exists t. split; [done|split; [|done]].
  rewrite lookup_delete_ne; [done|]. intros ->. by apply (Hc p p b).
Qed.

Lemma elem_of_owned m o :
  o ∈ owned_objs m <->
  exists id p b, m !! id = Some (p, b) /\ bvb_handle_type id ∈ owned_types /\
    o = (bvb_handle_type id, owner m (bvb_handle_type id) p, b).
Proof.
  unfold owned_objs. rewrite list_elem_of_omap. split.
  - intros ([id [p b]] & Hin%elem_of_map_to_list & E). unfold native in E.
    destruct decide; [|done]. injection E as <-. eauto 10.
  - intros (id & p & b & H & Ht & ->). exists (id, (p, b)).
    rewrite elem_of_map_to_list. split; [done|]. unfold native.
    by rewrite decide_True.
Qed.

Lemma device_child_parent type :
  type ∈ device_children -> type <> BVB_OBJECT_IMAGE_VIEW ->
  (type, BVB_OBJECT_DEVICE) ∈ parent_types.
Proof.
  intros Hc Hv.
  assert (Hall : Forall (fun ty => ty = BVB_OBJECT_IMAGE_VIEW \/
            (ty, BVB_OBJECT_DEVICE) ∈ parent_types) device_children)
    by by apply (bool_decide_unpack _).
  rewrite Forall_forall in Hall. apply list_elem_of_In in Hc.
  by destruct (Hall _ Hc).
Qed.

Lemma stored_parent m id p b t :
  forest m -> m !! id = Some (p, b) ->
  (bvb_handle_type id, t) ∈ parent_types ->
  bvb_handle_type id <> BVB_OBJECT_INSTANCE ->
  exists q c, m !! p = Some (q, c) /\ bvb_handle_type p = t.
Proof.
  intros Hf Hm Ht Hi.
  destruct (Hf _ _ _ Hm) as [?|(t' & Ht' & [[[q c] Hp] Hqt])]; [done|].
  exists q, c. split; [done|]. rewrite Hqt. by eapply parent_types_fun.
Qed.

(** What the driver owns under a device is stored under that device. *)
Lemma owned_child_device m type d b :
  forest m -> type ∈ device_children -> (type, d, b) ∈ owned_objs m ->
  exists did q, m !! did = Some (q, d) /\
    bvb_handle_type did = BVB_OBJECT_DEVICE.
Proof.
  intros Hf Hc (id & p & b' & Hm & _ & [= -> -> <-])%elem_of_owned.
  assert (Hi : bvb_handle_type id <> BVB_OBJECT_INSTANCE).
  { intros E. rewrite E in Hc. revert Hc. by apply (bool_decide_unpack _). }
  unfold owner. rewrite (proj2 (Z.eqb_neq _ _) Hi).
  destruct (Z.eqb_spec (bvb_handle_type id) BVB_OBJECT_IMAGE_VIEW) as [Ev|Hv].
  - destruct (stored_parent m id p b BVB_OBJECT_IMAGE) as (q & c & Hp & Hpt);
      [done|done|rewrite Ev; by apply (bool_decide_unpack _)|done|].
    destruct (stored_parent m p q c BVB_OBJECT_DEVICE) as (g & d & Hq & Hqt);
      [done|done|rewrite Hpt; by apply (bool_decide_unpack _)|by rewrite Hpt|].
    exists q, g. unfold parent_of, bits_of. by rewrite Hp; cbn; rewrite Hq.
  - destruct (stored_parent m id p b BVB_OBJECT_DEVICE) as (q & d & Hp & Hpt);
      [done|done|by apply device_child_parent|done|].
    exists p, q. unfold bits_of. by rewrite Hp.
Qed.

Lemma owner_delete m id id' p :
  forest m -> childless m id -> id' <> id -> placed m id' p ->
  is_Some (m !! id') -> p = parent_of m id' ->
  owner (delete id m) (bvb_handle_type id') p = owner m (bvb_handle_type id') p.
Proof.
  intros Hf Hc Hne Hpl [[p' b] H] ->. unfold parent_of in *. rewrite H in *.
  cbn in *. destruct (m !! id) as [x|] eqn:E.
  - rewrite <- (insert_delete_id m id x E) at 2.
    symmetry. apply owner_insert; [apply lookup_delete_eq|by apply forest_delete|].
    eapply (forest_delete m id Hf Hc). rewrite lookup_delete_ne; done.
  - by rewrite delete_id.
Qed.

(** An entry nothing stored depends on. *)
Lemma childless_leaf m id :
  forest m -> bvb_handle_type id ∉ parent_types.*2 -> childless m id.
Proof.
  intros Hf Hl id' p b H Hi ->.
  destruct (Hf _ _ _ H) as [?|(t & Ht & [_ Ety])]; [done|].
  apply Hl. rewrite Ety. apply list_elem_of_fmap. by exists (bvb_handle_type id', t).
Qed.

(** ** Slots of the table *)

(** A slot that is not occupied has no identifier left in it. *)
Definition clean (t : bvb_handle_table) : Prop :=
  forall i e, table_entries t !! i = Some e ->
    he_state e = BVB_HANDLE_OCCUPIED \/ he_wire_id e = 0.

(** Slots are only cleared from [t] to [t']. *)
Definition shrinks (t t' : bvb_handle_table) : Prop :=
  forall i e, table_entries t' !! i = Some e ->
    table_entries t !! i = Some e \/ he_wire_id e = 0.

#[export] Instance shrinks_preorder : PreOrder shrinks.
Proof.
  split; [by left|]. intros t1 t2 t3 H1 H2 i e He.
  destruct (H2 i e He) as [H|H]; [by apply H1|by right].
Qed.

Lemma table_map_lookup t id x :
  wf t ->
  (table_map t !! id = Some x <->
   exists i e, table_entries t !! i = Some e /\
     he_state e = BVB_HANDLE_OCCUPIED /\ he_wire_id e = id /\
     x = (he_parent_id e, he_native_bits e)).
Proof. intros H. apply entries_map_lookup, H. Qed.

(** A slot whose identifier has a type holds the entry the map has. *)
Lemma slot_entry t i e :
  wf t -> clean t -> table_entries t !! i = Some e -> he_wire_id e <> 0 ->
  table_map t !! he_wire_id e = Some (he_parent_id e, he_native_bits e).
Proof.
  intros Hwf Hc He Hne. destruct (Hc i e He) as [Hs|]; [|done].
  apply table_map_lookup; eauto 10.
Qed.

Lemma shrinks_lookup t t' id x :
  wf t -> clean t -> wf t' -> shrinks t t' -> id <> 0 ->
  table_map t' !! id = Some x -> table_map t !! id = Some x.
Proof.
  intros Hwf Hc Hwf' Hs Hne H. apply table_map_lookup in H as (i & e & He & _ & <- & ->); [|done].
  destruct (Hs i e He) as [H|]; [|done]. by eapply slot_entry.
Qed.

Lemma insert_slots t w p n t' :
  wf t -> clean t -> bvb_handle_table_insert (Some t) w p n = Ok t' -> clean t'.
Proof.
  intros Hwf Hc H. unfold bvb_handle_table_insert in H.
  destruct (wf_entries _ Hwf) as [es He].
  destruct negb; [done|]. rewrite He in H.
  destruct negb; [done|]. destruct Z.eqb; [done|]. cbv zeta in H.
  destruct insert_probe as [i|]; [|done]. injection H as <-.
  unfold clean, table_entries. cbn. intros j e Hj.
  apply list_lookup_insert_Some in Hj as [(_ & <- & _)|[_ Hj]]; [by left|].
  apply (Hc j). unfold table_entries. by rewrite He.
Qed.

Lemma remove_slots t w ty t' b :
  wf t -> clean t -> bvb_handle_table_remove (Some t) w ty = Ok (t', b) ->
  clean t' /\ shrinks t t'.
Proof.
  intros Hwf Hc H. unfold bvb_handle_table_remove in H.
  destruct (wf_entries _ Hwf) as [es He].
  destruct orb; [done|]. rewrite He in H.
  destruct find_entry as [i|]; [|done]. cbv zeta in H. injection H as <- _.
  unfold clean, shrinks, table_entries in *. rewrite He in *. cbn in *.
  split; intros j e Hj;
    (apply list_lookup_insert_Some in Hj as [(_ & <- & _)|[_ Hj]]; [by right|]).
  - by apply (Hc j).
  - by left.
Qed.

(** ** The invariant *)

(** No identifier. *)
Definition none : Z -> Prop := fun _ => False.

(** The type of handle a call returns when it succeeds. *)
Definition creates (c : vk_call) : option Z :=
  match c with
  | CreateInstance _ _ => Some BVB_OBJECT_INSTANCE
  | CreateDevice _ _ _ _ => Some BVB_OBJECT_DEVICE
  | Create type _ _ _ => Some type
  | AllocateCommandBuffers _ _ _ _ => Some BVB_OBJECT_COMMAND_BUFFER
  | _ => None
  end.

Abbreviation entry_points c :=
  (c.(ctx_get_device_proc_addr) = true /\ c.(ctx_destroy_instance) = true).

(** Whether no mapping has been lost so far: the service maps and unmaps
    memory for a direct access only while no mirror maps it. *)
Class Apart := apart : bool.

Section invariant.
Context `{VulkanCore}.

Abbreviation state w := (driver_after VK_SUCCESS w.(w_log)).

(** The memory a mirror maps has been unmapped behind its back. *)
Definition lost (r : bvb_memory_mirror_metadata) : bool :=
  match r.(mr_native) with Some Unmapped => true | _ => false end.

(** The buffers of a mirror that is not direct hold its range. *)
Definition buffered (r : bvb_memory_mirror_metadata) : Prop :=
  exists shared native baseline,
    r.(mr_mirror) = Some shared /\ r.(mr_native) = Some (Mapped native) /\
    r.(mr_baseline) = Some baseline /\
    0 <= r.(mr_offset) /\ 0 <= r.(mr_length) /\
    blen shared = r.(mr_length) /\ blen baseline = r.(mr_length) /\
    r.(mr_offset) + r.(mr_length) <= blen native.

(** A mirror in use belongs to a stored allocation of a stored device and has
    their handles.  If [kept], its mapping has not been lost; and a copy whose
    mapping has not been lost has its three buffers. *)
Definition mirrored (kept : bool) (m : objects)
    (r : bvb_memory_mirror_metadata) : Prop :=
  r.(mr_memory_id) <> 0 ->
  m !! r.(mr_memory_id) = Some (r.(mr_device_id), r.(mr_memory)) /\
  bvb_handle_type r.(mr_memory_id) = BVB_OBJECT_DEVICE_MEMORY /\
  bvb_handle_type r.(mr_device_id) = BVB_OBJECT_DEVICE /\
  (exists p, m !! r.(mr_device_id) = Some (p, r.(mr_device))) /\
  (kept = true -> lost r = false) /\
  (r.(mr_direct) = false -> lost r = false -> buffered r).

(** No mirror is on the allocation. *)
Definition unmirrored (w : world) (id : Z) : Prop :=
  Forall (fun r => r.(mr_memory_id) = id -> id = 0)
    w.(w_context).(ctx_memory_mirrors).

Context {AP : Apart}.

(** [stale] are the identifiers whose queue, command buffer, descriptor set
    or physical device the driver has already released. *)
Record At (pending : list obj) (stale : Z -> Prop) (t : bvb_handle_table)
    (w : world) : Prop := mk_At {
  at_objects : w.(w_context).(ctx_objects) = t;
  at_wf : wf t;
  at_clean : clean t;
  at_capacity : ht_capacity t = BVB_GLOBAL_OBJECT_CAPACITY;
  at_ids : forall id x, table_map t !! id = Some x ->
    is_ok (bvb_handle_expect id (bvb_handle_type id)) = true;
  at_forest : forest (table_map t);
  at_log : disciplined VK_SUCCESS w.(w_log);
  at_owned : ds_owned (state w) ≡ₚ pending ++ owned_objs (table_map t);
  at_known : forall id p b, table_map t !! id = Some (p, b) ->
    bvb_handle_type id ∉ owned_types -> ~ stale id ->
    (bvb_handle_type id, owner (table_map t) (bvb_handle_type id) p, b)
      ∈ ds_known (state w);
  at_distinct : distinct (table_map t);
  at_pending : forall type o b, (type, o, b) ∈ pending ->
    type ∈ distinct_types -> forall id p, table_map t !! id = Some (p, b) ->
    bvb_handle_type id <> type;
  at_entry_points : table_map t <> ∅ -> entry_points w.(w_context);
  at_serials : forall type, 0 <= w.(w_context).(ctx_next_serial) type;
  at_mirrors : Forall (mirrored apart (table_map t))
                 w.(w_context).(ctx_memory_mirrors)
}.

(** Two worlds that differ in metadata and counters only. *)
Definition same_store (w w' : world) : Prop :=
  w'.(w_log) = w.(w_log) /\
  w'.(w_context).(ctx_objects) = w.(w_context).(ctx_objects) /\
  w'.(w_context).(ctx_get_device_proc_addr) =
    w.(w_context).(ctx_get_device_proc_addr) /\
  w'.(w_context).(ctx_destroy_instance) =
    w.(w_context).(ctx_destroy_instance) /\
  w'.(w_context).(ctx_memory_mirrors) = w.(w_context).(ctx_memory_mirrors) /\
  forall type, 0 <= w'.(w_context).(ctx_next_serial) type.

Lemma At_same_store X S t w w' : same_store w w' -> At X S t w -> At X S t w'.
Proof.
  intros (Hl & Ho & Hg & Hd & Hm & Hn) [].
  constructor; rewrite ?Hl, ?Ho, ?Hg, ?Hd, ?Hm; done.
Qed.

Lemma At_stale X (S S' : Z -> Prop) t w :
  At X S t w -> (forall id, is_Some (table_map t !! id) -> S id -> S' id) ->
  At X S' t w.
Proof.
  intros [] HS. constructor; try done.
  intros id p b Hm Ht Hn. apply at_known0; [done|done|].
  intros Hs. apply Hn, HS; eauto.
Qed.

Lemma at_alive X S t w id p b :
  At X S t w -> table_map t !! id = Some (p, b) ->
  bvb_handle_type id ∈ owned_types \/ ~ S id ->
  alive (state w) (bvb_handle_type id) b.
Proof.
  intros I Hm Hs. exists (owner (table_map t) (bvb_handle_type id) p).
  destruct (decide (bvb_handle_type id ∈ owned_types)) as [Ht|Ht].
  - left. rewrite (at_owned _ _ _ _ I), elem_of_app, elem_of_owned. right.
    by exists id, p, b.
  - right. apply (at_known _ _ _ _ I); [done|done|]. by destruct Hs.
Qed.

Lemma at_stored_owned X S t w id p b type o :
  At X S t w -> table_map t !! id = Some (p, b) -> bvb_handle_type id = type ->
  type ∈ owned_types -> o = owner (table_map t) type p ->
  (type, o, b) ∈ ds_owned (state w).
Proof.
  intros I Hm <- Ht ->. rewrite (at_owned _ _ _ _ I), elem_of_app, elem_of_owned.
  right. by exists id, p, b.
Qed.

(** *** Calls into the driver *)

(** The world after a call. *)
Definition observe (w : world) (e : event) : world :=
  mk_world w.(w_context) (w.(w_log) ++ [e]).

(** A valid call after which the driver owns [Y] instead of [X]. *)
Lemma At_observe X Y S S' t w e :
  At X S t w -> allowed (state w) e.1 ->
  ds_owned (after VK_SUCCESS (state w) e) ≡ₚ Y ++ owned_objs (table_map t) ->
  (forall id p b, table_map t !! id = Some (p, b) ->
    bvb_handle_type id ∉ owned_types -> ~ S' id ->
    (bvb_handle_type id, owner (table_map t) (bvb_handle_type id) p, b)
      ∈ ds_known (after VK_SUCCESS (state w) e)) ->
  (forall type o b, (type, o, b) ∈ Y -> (type, o, b) ∉ X ->
    type ∈ distinct_types ->
    forall id p, table_map t !! id = Some (p, b) ->
    bvb_handle_type id <> type) ->
  At Y S' t (observe w e).
Proof.
  intros I Ha Ho Hk Hp. destruct I.
  constructor; unfold observe in *; cbn [w_context w_log] in *;
    rewrite ?driver_after_snoc; try done.
  - by constructor.
  - intros type o b Hin. destruct (decide ((type, o, b) ∈ X)) as [Hx|Hx].
    + by apply (at_pending0 type o).
    + by apply (Hp type o).
Qed.

(** A call that changes nothing the contract speaks of. *)
Lemma At_neutral X S t w c r :
  At X S t w -> allowed (state w) c ->
  after VK_SUCCESS (state w) (c, r) = state w -> At X S t (observe w (c, r)).
Proof.
  intros I Ha Hs. apply (At_observe X X S); [done|done| | |].
  - rewrite Hs. apply (at_owned _ _ _ _ I).
  - rewrite Hs. apply (at_known _ _ _ _ I).
  - done.
Qed.

(** A call after which the driver knows more. *)
Lemma At_learned X S t w c r type o :
  At X S t w -> allowed (state w) c ->
  after VK_SUCCESS (state w) (c, r) = known_after (state w) type o r ->
  At X S t (observe w (c, r)).
Proof.
  intros I Ha Hs. apply (At_observe X X S); [done|done| | |].
  - rewrite Hs. apply (at_owned _ _ _ _ I).
  - rewrite Hs. intros id p b Hm Ht Hn. cbn. apply elem_of_app. right.
    by apply (at_known _ _ _ _ I).
  - done.
Qed.

(** A successful creation leaves its object pending. *)
Lemma At_created S t w c r type o :
  At [] S t w -> allowed (state w) c ->
  after VK_SUCCESS (state w) (c, r) =
    mk_driver_state ((type, o, rp_handle r) :: ds_owned (state w))
      (ds_known (state w)) ->
  (type ∈ distinct_types -> ~ alive (state w) type (rp_handle r)) ->
  type ∈ owned_types ->
  At [(type, o, rp_handle r)] S t (observe w (c, r)).
Proof.
  intros I Ha Hs Hf Ht. apply (At_observe [] _ S); [done|done| | |].
  - rewrite Hs. cbn. by rewrite (at_owned _ _ _ _ I).
  - rewrite Hs. apply (at_known _ _ _ _ I).
  - intros t0 o' b Hin _ Hd id p Hm <-.
    apply list_elem_of_singleton in Hin as [= <- <- ->].
    apply (Hf Hd). by eapply at_alive; [done|done|left].
Qed.

Lemma filter_keeps_all {A} (P : A -> Prop) `{!forall x, Decision (P x)}
    (l : list A) : (forall x, x ∈ l -> P x) -> filter P l = l.
Proof.
  induction l as [|x l IH]; intros Hl; [done|].
  rewrite filter_cons_True by (apply Hl; by constructor).
  f_equal. apply IH. intros y Hy. apply Hl. by constructor.
Qed.

Lemma remove_obj_perm o l l' : l ≡ₚ o :: l' -> remove_obj o l ≡ₚ l'.
Proof.
  revert l'. induction l as [|x l IH]; intros l' Hp.
  { by apply Permutation_nil_cons in Hp. }
  cbn. destruct (decide (x = o)) as [->|Hne]; [by apply Permutation_cons_inv in Hp|].
  assert (Hin : x ∈ l').
  { assert (H0 : x ∈ o :: l') by (rewrite <- Hp; constructor).
    by apply elem_of_cons in H0 as [->|]. }
  apply elem_of_Permutation in Hin as [k Hk].
  rewrite Hk. apply perm_skip, IH. rewrite Hk in Hp.
  rewrite (Permutation_swap x o k) in Hp. by apply Permutation_cons_inv in Hp.
Qed.

Lemma elem_of_forget type o l x :
  x ∈ forget type o l <-> x ∈ l /\ ~ (x.1.1 = type /\ x.1.2 = o).
Proof. unfold forget. rewrite list_elem_of_filter. tauto. Qed.

(** Nothing stored hangs on the handle of a pending object. *)
Lemma dependents_kept X S t w pty o b dty id p b' :
  At X S t w -> (pty, o, b) ∈ X -> pty ∈ distinct_types ->
  (dty, pty) ∈ parent_types -> dty <> BVB_OBJECT_INSTANCE ->
  dty <> BVB_OBJECT_IMAGE_VIEW ->
  table_map t !! id = Some (p, b') -> bvb_handle_type id = dty ->
  owner (table_map t) dty p <> b.
Proof.
  intros I Hx Hd Hpt Hi Hv Hm Hty. unfold owner.
  rewrite (proj2 (Z.eqb_neq _ _) Hi), (proj2 (Z.eqb_neq _ _) Hv).
  destruct (at_forest _ _ _ _ I _ _ _ Hm) as [?|(q & Hq & [[[g c] Hp] Hqt])];
    [congruence|].
  rewrite Hty in Hq. assert (q = pty) as -> by by eapply parent_types_fun.
  unfold bits_of. rewrite Hp. cbn. intros ->.
  by apply (at_pending _ _ _ _ I _ _ _ Hx Hd _ _ Hp).
Qed.

Lemma not_owned_stored X S t w type o b :
  At X S t w -> (type, o, b) ∈ X -> type ∈ distinct_types ->
  forall o', (type, o', b) ∉ owned_objs (table_map t).
Proof.
  intros I Hx Hd o' (id & p & b' & Hm & _ & [= Ht _ <-])%elem_of_owned.
  by apply (at_pending _ _ _ _ I _ _ _ Hx Hd _ _ Hm).
Qed.

(** The device of a stored child is stored under another handle. *)
Lemma no_children_of_pending X S t w o d :
  At X S t w -> (BVB_OBJECT_DEVICE, o, d) ∈ X ->
  forall type b, type ∈ device_children ->
    (type, d, b) ∉ owned_objs (table_map t).
Proof.
  intros I Hx type b Hc Hin.
  destruct (owned_child_device _ _ _ _ (at_forest _ _ _ _ I) Hc Hin)
    as (did & q & Hm & Hty).
  by apply (at_pending _ _ _ _ I _ _ _ Hx
    ltac:(by apply (bool_decide_unpack _)) _ _ Hm).
Qed.

Lemma At_destroy S t w ty d b r id p :
  At [(ty, d, b)] S t w -> table_map t !! id = Some (p, d) ->
  bvb_handle_type id = BVB_OBJECT_DEVICE -> ty ∈ device_children ->
  At [] S t (observe w (Destroy ty d b, r)).
Proof.
  intros I Hid Hdev Hc.
  assert (Hin : (ty, d, b) ∈ ds_owned (state w)).
  { rewrite (at_owned _ _ _ _ I). by constructor. }
  apply (At_observe [(ty, d, b)] _ S); [done| | | |].
  - cbn. split_and!; [|done|done]. rewrite <- Hdev.
    eapply at_alive; [done|done|left]. rewrite Hdev.
    by apply (bool_decide_unpack _).
  - cbn. apply remove_obj_perm. apply (at_owned _ _ _ _ I).
  - intros id' p' b' Hm Ht Hs. pose proof (at_known _ _ _ _ I _ _ _ Hm Ht Hs) as Hk.
    cbn. destruct (Z.eqb_spec ty BVB_OBJECT_COMMAND_POOL) as [->|_];
      [|destruct (Z.eqb_spec ty BVB_OBJECT_DESCRIPTOR_POOL) as [->|_]; [|done]];
      (apply elem_of_forget; split; [done|cbn]; intros [Hty Ho]; revert Ho;
       rewrite Hty;
       eapply (dependents_kept [_] S t w); [done|by constructor|..|done|done];
       (by apply (bool_decide_unpack _)) || done).
  - intros ??? Hx. by apply elem_of_nil in Hx.
Qed.

Lemma At_destroy_device S t w p d r :
  At [(BVB_OBJECT_DEVICE, p, d)] S t w ->
  At [] S t (observe w (DestroyDevice d, r)).
Proof.
  intros I. assert (Hd : BVB_OBJECT_DEVICE ∈ distinct_types) by by apply (bool_decide_unpack _).
  assert (Hx : (BVB_OBJECT_DEVICE, p, d) ∈ [(BVB_OBJECT_DEVICE, p, d)]) by by constructor.
  pose proof (at_owned _ _ _ _ I) as Hp. cbn [app] in Hp.
  apply (At_observe [(BVB_OBJECT_DEVICE, p, d)] _ S); [done| | | |].
  - cbn. split.
    + exists p. left. rewrite Hp. by constructor.
    + intros type b Hc. rewrite Hp. intros [[= -> _ _]|Hin]%elem_of_cons.
      * revert Hc. by apply (bool_decide_unpack _).
      * by apply (no_children_of_pending _ _ _ _ _ _ I Hx type b).
  - cbn. rewrite Hp, filter_cons_False by (cbn; tauto).
    rewrite filter_keeps_all; [done|]. intros [[ty o] b] Hin [Ht Hb].
    cbn in *. subst.
    by apply (not_owned_stored _ _ _ _ _ _ _ I Hx Hd o).
  - intros id p' b' Hm Ht Hs. cbn. apply elem_of_forget.
    split; [by apply (at_known _ _ _ _ I)|]. cbn. intros [Hty Ho]. revert Ho.
    rewrite Hty.
    eapply (dependents_kept [_] S t w); [done|by constructor|..|done|done];
      (by apply (bool_decide_unpack _)) || done.
  - intros ??? Hin. by apply elem_of_nil in Hin.
Qed.

Lemma At_destroy_instance t w i r :
  At [(BVB_OBJECT_INSTANCE, 0, i)] none t w ->
  At [] none t (observe w (DestroyInstance i, r)).
Proof.
  intros I. assert (Hd : BVB_OBJECT_INSTANCE ∈ distinct_types) by by apply (bool_decide_unpack _).
  assert (Hx : (BVB_OBJECT_INSTANCE, 0, i) ∈ [(BVB_OBJECT_INSTANCE, 0, i)]) by by constructor.
  pose proof (at_owned _ _ _ _ I) as Hp. cbn [app] in Hp.
  assert (Hother : forall id p b, table_map t !! id = Some (p, b) ->
    bvb_handle_type id = BVB_OBJECT_PHYSICAL_DEVICE ->
    exists i', i' <> i /\ alive (state w) BVB_OBJECT_INSTANCE i' /\
      owner (table_map t) BVB_OBJECT_PHYSICAL_DEVICE p = i').
  { intros id p b Hm Hty.
    destruct (at_forest _ _ _ _ I _ _ _ Hm) as [Hi|(q & Hq & [[[g c] Hpp] Hqt])];
      [by rewrite Hi in Hty|].
    rewrite Hty in Hq. assert (q = BVB_OBJECT_INSTANCE) as ->.
    { eapply parent_types_fun; [exact Hq|]. by apply (bool_decide_unpack _). }
    exists c. split_and!.
    - intros ->. by apply (at_pending _ _ _ _ I _ _ _ Hx Hd _ _ Hpp).
    - rewrite <- Hqt. eapply at_alive; [done|done|left]. rewrite Hqt.
      by apply (bool_decide_unpack _).
    - unfold owner, bits_of. by rewrite Hpp. }
  apply (At_observe [(BVB_OBJECT_INSTANCE, 0, i)] _ none); [done| | | |].
  - cbn. split; [exists 0; left; rewrite Hp; by constructor|].
    intros p d. rewrite Hp. intros [[=]|(id & pid & b & Hm & _ & [= Ht Ho <-])%elem_of_owned]%elem_of_cons.
    destruct (at_forest _ _ _ _ I _ _ _ Hm) as [Hi|(q & Hq & [[[g c] Hpp] Hqt])];
      [by rewrite Hi in Ht|].
    rewrite <- Ht in Hq. assert (q = BVB_OBJECT_PHYSICAL_DEVICE) as ->.
    { eapply parent_types_fun; [exact Hq|]. by apply (bool_decide_unpack _). }
    destruct (Hother _ _ _ Hpp Hqt) as (i' & Hne & Ha & How).
    exists i'. split_and!; [done|done|].
    assert (Hc : p = c).
    { rewrite Ho, <- Ht. unfold owner, bits_of. by rewrite Hpp. }
    subst c. rewrite <- How, <- Hqt. apply (at_known _ _ _ _ I _ _ _ Hpp); [|by intros []].
    rewrite Hqt. by apply (bool_decide_unpack _).
  - cbn. by apply remove_obj_perm.
  - intros id p b Hm Ht Hs. cbn. apply elem_of_forget.
    split; [by apply (at_known _ _ _ _ I)|]. cbn. intros [Hty Ho].
    destruct (Hother _ _ _ Hm Hty) as (i' & Hne & _ & How).
    rewrite Hty in Ho. congruence.
  - intros ??? Hin. by apply elem_of_nil in Hin.
Qed.

(** *** Writing the table *)

Lemma insert_args_expect id p b :
  insert_args_valid id p b = true ->
  is_ok (bvb_handle_expect id (bvb_handle_type id)) = true.
Proof.
  unfold insert_args_valid, bvb_handle_expect, bvb_handle_type.
  destruct (object_type_is_valid (Z.shiftr id BVB_HANDLE_TYPE_SHIFT)) eqn:E;
    [|done].
  rewrite E, Z.eqb_refl. destruct (bvb_handle_serial id =? 0); [|done].
  by rewrite orb_true_r.
Qed.

Definition with_table (t : bvb_handle_table) (w : world) : world :=
  mk_world (with_objects t w.(w_context)) w.(w_log).

(** A pending object is stored. *)
Lemma At_insert X S t t' w id p b :
  At X S t w -> bvb_handle_table_insert (Some t) id p b = Ok t' ->
  placed (table_map t) id p ->
  X ≡ₚ opt_cons (native (table_map t) (id, (p, b))) [] ->
  (bvb_handle_type id ∉ owned_types ->
   (bvb_handle_type id, owner (table_map t) (bvb_handle_type id) p, b)
     ∈ ds_known (state w)) ->
  (bvb_handle_type id ∈ distinct_types -> forall id' p',
     table_map t !! id' = Some (p', b) ->
     bvb_handle_type id' <> bvb_handle_type id) ->
  entry_points w.(w_context) ->
  At [] S t' (with_table t' w) /\
  table_map t' = <[id := (p, b)]> (table_map t) /\ table_map t !! id = None.
Proof.
  intros I Hins Hpl HX Hk Hd He. destruct I.
  pose proof (insert_step t id p b at_wf0) as Hstep. rewrite Hins in Hstep.
  destruct Hstep as (Hwf' & Hcap' & Hspec).
  unfold spec_insert in Hspec.
  destruct (insert_args_valid id p b) eqn:Hargs; [cbn [negb] in Hspec|done].
  destruct Z.eqb; [done|]. destruct (table_map t !! id) as [|] eqn:Hid; [done|].
  injection Hspec as Hm. symmetry in Hm. split; [|done].
  assert (Hown : forall id' p' b', table_map t !! id' = Some (p', b') ->
    owner (table_map t') (bvb_handle_type id') p' =
    owner (table_map t) (bvb_handle_type id') p').
  { intros id' p' b' Hm'. rewrite Hm. apply owner_insert; [done|done|].
    by eapply at_forest0. }
  constructor; cbn [w_context w_log with_objects with_table ctx_objects];
    try done.
  - by apply (insert_slots t id p b).
  - congruence.
  - rewrite Hm. intros id' x [[<- _]|[_ H']]%lookup_insert_Some.
    + by eapply insert_args_expect.
    + by eapply at_ids0.
  - rewrite Hm. by apply forest_insert.
  - rewrite at_owned0, HX, Hm, owned_insert by done. by destruct native.
  - intros id' p' b' H' Ht Hs. rewrite Hm in H'.
    apply lookup_insert_Some in H' as [[<- [= <- <-]]|[Hne H']].
    + rewrite Hm, owner_insert by done. by apply Hk.
    + rewrite (Hown _ _ _ H'). by apply at_known0.
  - rewrite Hm. intros i1 i2 p1 p2 b' H1 H2 Hty Hdt.
    apply lookup_insert_Some in H1 as [[<- [= _ E1]]|[Hn1 H1]];
      apply lookup_insert_Some in H2 as [[<- [= _ E2]]|[Hn2 H2]];
      subst; [done| | |].
    + exfalso. by apply (Hd Hdt _ _ H2).
    + exfalso. apply (Hd ltac:(by rewrite <- Hty) _ _ H1). done.
    + by eapply at_distinct0.
  - intros ??? Hin. by apply elem_of_nil in Hin.
  - rewrite Hm. eapply Forall_impl; [|exact at_mirrors0].
    intros r Hr Hne. destruct (Hr Hne) as (H1 & H2 & H3 & [q H4] & H5 & H6).
    split_and!; [|done|done|exists q|done|done]; rewrite lookup_insert_ne;
      congruence.
Qed.

(** A stored object nothing depends on is taken out. *)
Lemma At_remove S t t' w id p b b' :
  At [] S t w ->
  bvb_handle_table_remove (Some t) id (bvb_handle_type id) = Ok (t', b') ->
  table_map t !! id = Some (p, b) -> childless (table_map t) id ->
  (bvb_handle_type id = BVB_OBJECT_DEVICE_MEMORY -> unmirrored w id) ->
  At (opt_cons (native (table_map t) (id, (p, b))) []) S t' (with_table t' w) /\
  table_map t' = delete id (table_map t) /\ shrinks t t' /\ b' = b.
Proof.
  intros I Hrem Hid Hc Hu. destruct I.
  pose proof (remove_step t id (bvb_handle_type id) at_wf0) as Hstep.
  rewrite Hrem in Hstep. destruct Hstep as (Hwf' & Hcap' & Hspec).
  unfold spec_remove in Hspec. destruct negb; [done|]. rewrite Hid in Hspec.
  injection Hspec as Hm Hb. symmetry in Hm.
  destruct (remove_slots _ _ _ _ _ at_wf0 at_clean0 Hrem) as [Hcl Hsh].
  split; [|done].
  assert (Hnat : native (delete id (table_map t)) (id, (p, b)) =
                 native (table_map t) (id, (p, b))).
  { pose proof (owner_insert (delete id (table_map t)) id (p, b) id p
      (lookup_delete_eq _ _) (forest_delete _ _ at_forest0 Hc)) as Ho.
    rewrite (insert_delete_id _ _ _ Hid) in Ho. unfold native. rewrite Ho; [done|].
    destruct (at_forest0 _ _ _ Hid) as [Hi|(q & Hq & [Hp Ety])]; [by left|].
    destruct (decide (bvb_handle_type id = BVB_OBJECT_INSTANCE)); [by left|].
    right. exists q. split; [done|split; [|done]].
    rewrite lookup_delete_ne; [done|]. intros ->. by apply (Hc p p b). }
  constructor; cbn [w_context w_log with_objects with_table ctx_objects];
    try done.
  - congruence.
  - rewrite Hm. intros id' x [_ H']%lookup_delete_Some. by eapply at_ids0.
  - rewrite Hm. by apply forest_delete.
  - rewrite at_owned0, (native_delete _ _ _ _ Hid), Hnat, Hm by done.
    by destruct (native (table_map t) (id, (p, b))).
  - intros id' q c H' Ht Hs. rewrite Hm in H' |- *.
    apply lookup_delete_Some in H' as [Hne H'].
    rewrite owner_delete; [by apply at_known0|done|done|done| |by rewrite H'|].
    + by eapply at_forest0.
    + unfold parent_of. by rewrite H'.
  - rewrite Hm. intros i1 i2 p1 p2 c [_ H1]%lookup_delete_Some
      [_ H2]%lookup_delete_Some. by eapply at_distinct0.
  - rewrite Hm. intros ty o c Hin Hd id' q [Hne H']%lookup_delete_Some Hty.
    revert Hin. unfold native. destruct decide; cbn; [|by intros []%elem_of_nil].
    intros [= -> _ <-]%list_elem_of_singleton. apply Hne.
    by apply (at_distinct0 id id' p q c).
  - intros Hne. apply at_entry_points0. intros E. apply Hne.
    by rewrite Hm, E, delete_empty.
  - rewrite Hm. apply Forall_forall. intros r Hin Hne.
    destruct (proj1 (Forall_forall _ _) at_mirrors0 r Hin Hne)
      as (H1 & H2 & H3 & [q H4] & H5 & H6).
    split_and!; [|done|done|exists q|done|done]; rewrite lookup_delete_ne;
      [done| |done|].
    + intros ->. apply Hne. by apply (proj1 (Forall_forall _ _) (Hu H2) r Hin).
    + intros ->. apply (Hc _ _ _ H1); [by rewrite H2|done].
Qed.

(** *** Releasing what a pool handed out *)

Lemma owned_alive S t w id p b d type o :
  At [] S t w -> table_map t !! id = Some (p, b) -> bvb_handle_type id = type ->
  type ∈ device_children -> type <> BVB_OBJECT_IMAGE_VIEW ->
  table_map t !! p = Some (o, d) -> (type, d, b) ∈ ds_owned (state w).
Proof.
  intros I Hm Hty Hc Hv Hp. eapply at_stored_owned; [done|done|done| |].
  - unfold owned_types. rewrite !elem_of_cons. by right; right.
  - unfold owner, bits_of. rewrite Hp, (proj2 (Z.eqb_neq _ _) Hv).
    destruct (Z.eqb_spec type BVB_OBJECT_INSTANCE) as [->|]; [|done].
    revert Hc. by apply (bool_decide_unpack _).
Qed.

(** A command buffer is freed: what is stored under its handle is stale. *)
Lemma At_free (S S' : Z -> Prop) t w p pb did d q b r :
  At [] S t w -> table_map t !! did = Some (q, d) ->
  bvb_handle_type did = BVB_OBJECT_DEVICE ->
  table_map t !! p = Some (did, pb) ->
  bvb_handle_type p = BVB_OBJECT_COMMAND_POOL ->
  (BVB_OBJECT_COMMAND_BUFFER, pb, b) ∈ ds_known (state w) ->
  (forall id, S id -> S' id) ->
  (forall id p', table_map t !! id = Some (p', b) ->
     bvb_handle_type id = BVB_OBJECT_COMMAND_BUFFER -> S' id) ->
  At [] S' t (observe w (FreeCommandBuffers d pb b, r)).
Proof.
  intros I Hd Hdt Hp Hpt Hk HS Hs. apply (At_observe [] _ S); [done| | | |].
  - cbn. split_and!; [|by eapply owned_alive; try done; apply (bool_decide_unpack _)|done].
    rewrite <- Hdt. eapply at_alive; [done|done|left]. rewrite Hdt.
    by apply (bool_decide_unpack _).
  - apply (at_owned _ _ _ _ I).
  - intros id p' b' Hm Ht Hn. cbn. apply list_elem_of_filter.
    split; [|apply (at_known _ _ _ _ I); auto].
    intros [= Hty _ ->]. by eapply Hn, Hs.
  - intros ??? Hin. by apply elem_of_nil in Hin.
Qed.

(** A descriptor pool is reset: the sets stored under it are stale. *)
Lemma At_reset_pool t w p pb did d q r flags :
  At [] none t w -> table_map t !! did = Some (q, d) ->
  bvb_handle_type did = BVB_OBJECT_DEVICE ->
  table_map t !! p = Some (did, pb) ->
  bvb_handle_type p = BVB_OBJECT_DESCRIPTOR_POOL ->
  rp_result r = VK_SUCCESS ->
  At [] (fun id => bvb_handle_type id = BVB_OBJECT_DESCRIPTOR_SET /\
                   parent_of (table_map t) id = p) t
    (observe w (ResetDescriptorPool d pb flags, r)).
Proof.
  intros I Hd Hdt Hp Hpt Hr. apply (At_observe [] _ none); [done| | | |].
  - cbn. split; [|by eapply owned_alive; try done; apply (bool_decide_unpack _)].
    rewrite <- Hdt. eapply at_alive; [done|done|left]. rewrite Hdt.
    by apply (bool_decide_unpack _).
  - cbn. destruct Z.eqb; apply (at_owned _ _ _ _ I).
  - intros id p' b' Hm Ht Hn.
    pose proof (at_known _ _ _ _ I _ _ _ Hm Ht ltac:(by intros [])) as Hk.
    cbn. destruct Z.eqb; [|done]. apply elem_of_forget. split; [done|cbn].
    intros [Hty Ho]. apply Hn. split; [done|]. unfold parent_of. rewrite Hm. cbn.
    destruct (at_forest _ _ _ _ I _ _ _ Hm) as [Hi|(t0 & Hq & [[[g c] Hpp] Hqt])];
      [by rewrite Hi in Hty|].
    rewrite Hty in Hq. assert (t0 = BVB_OBJECT_DESCRIPTOR_POOL) as ->.
    { eapply parent_types_fun; [exact Hq|]. by apply (bool_decide_unpack _). }
    rewrite Hty in Ho. unfold owner, bits_of in Ho. rewrite Hpp in Ho. cbn in Ho.
    subst c. apply (at_distinct _ _ _ _ I p' p g did pb); try done.
    + by rewrite Hpt.
    + rewrite Hqt. by apply (bool_decide_unpack _).
  - intros ??? Hin. by apply elem_of_nil in Hin.
Qed.

End invariant.
