(* ===== verification/BackendRules.v ===== *)
(** * BackendRules: how each step of an operation moves the invariant

    [wp m Q w] says that [m], run from [w], ends with a result and a world
    that satisfy [Q].  One rule per primitive of Backend: a lookup, an
    insertion, a removal, a call into the driver; and one for the scans of the
    whole table.  The operations' files only apply them. *)

From stdpp Require Import strings gmap.
From S2P Require Import Prelude Wire Abi Codec Backend BackendInvariant.

(** ** Weakest preconditions *)

Definition wp {A} (m : M A) (Q : result A -> world -> Prop) (w : world) : Prop :=
  Q (m w).1 (m w).2.

(** What the rest of an operation has to do after its first step. *)
Definition then_wp {A B} (k : A -> M B) (Q : result B -> world -> Prop)
    (r : result A) (w : world) : Prop :=
  match r with Ok x => wp (k x) Q w | Err e => Q (Err e) w end.

Lemma wp_do {A B} (m : M A) (k : A -> M B) Q w :
  wp m (then_wp k Q) w -> wp (bind m k) Q w.
Proof. unfold wp, bind. destruct (m w) as [[x|e] w']; done. Qed.

Lemma wp_weaken {A} (m : M A) (Q Q' : result A -> world -> Prop) w :
  wp m Q w -> (forall r w', Q r w' -> Q' r w') -> wp m Q' w.
Proof. unfold wp. auto. Qed.

Lemma wp_reply {A} (x : A) Q w : Q (Ok x) w -> wp (ret x) Q w.
Proof. done. Qed.

Lemma wp_stop {A} e (Q : result A -> world -> Prop) w :
  Q (Err e) w -> wp (stop e) Q w.
Proof. done. Qed.

Lemma wp_of_result {A} (r : result A) Q w : Q r w -> wp (of_result r) Q w.
Proof. done. Qed.

Lemma wp_get_context Q w : Q (Ok w.(w_context)) w -> wp get_context Q w.
Proof. done. Qed.

Lemma wp_catch {A} (m : M A) Q w :
  wp m (fun r w' => Q (Ok r) w') w -> wp (catch m) Q w.
Proof. unfold wp, catch. destruct (m w) as [r w']; done. Qed.

Section rules.
Context `{VulkanCore}.
Context (driver : list event -> vk_call -> vk_reply).

Abbreviation state w := (driver_after VK_SUCCESS w.(w_log)).

(** What the Vulkan specification says of the driver: a handle it returns is
    not the one of an object of that kind that still exists, and the commands
    that destroy an instance or a device can be resolved. *)
Class ConformingDriver := {
  fresh_handle log c type :
    disciplined VK_SUCCESS log -> allowed (driver_after VK_SUCCESS log) c ->
    creates c = Some type -> type ∈ distinct_types ->
    rp_result (driver log c) = VK_SUCCESS ->
    ~ alive (driver_after VK_SUCCESS log) type (rp_handle (driver log c));
  single_handle log device pool level :
    rp_result (driver log (AllocateCommandBuffers device pool level 1)) =
      VK_SUCCESS ->
    exists b, rp_values (driver log
      (AllocateCommandBuffers device pool level 1)) = [b];
  resolves_destroy_instance log i :
    rp_result (driver log (InstanceProc i "vkDestroyInstance")) <> 0;
  resolves_destroy_device log d :
    rp_result (driver log (DeviceProc d "vkDestroyDevice")) <> 0
}.
Context {CD : ConformingDriver} {AP : Apart}.

(** ** The context *)

Lemma wp_put X S t w f Q :
  At X S t w ->
  ctx_objects (f w.(w_context)) = ctx_objects w.(w_context) ->
  ctx_get_device_proc_addr (f w.(w_context)) =
    ctx_get_device_proc_addr w.(w_context) ->
  ctx_destroy_instance (f w.(w_context)) = ctx_destroy_instance w.(w_context) ->
  ctx_next_serial (f w.(w_context)) = ctx_next_serial w.(w_context) ->
  ctx_memory_mirrors (f w.(w_context)) = ctx_memory_mirrors w.(w_context) ->
  (forall w', At X S t w' -> w_log w' = w_log w ->
     ctx_memory_mirrors w'.(w_context) = ctx_memory_mirrors w.(w_context) ->
     Q (Ok tt) w') ->
  wp (put_context f) Q w.
Proof.
  intros I H1 H2 H3 H4 H5 HQ. unfold wp, put_context. cbn. apply HQ; [|done|done].
  apply (At_same_store X S t w); [|done]. split_and!; try done.
  cbn. rewrite H4. apply (at_serials _ _ _ _ I).
Qed.

(** An entry point is resolved. *)
Lemma wp_put_entry_points X S t w a b Q :
  At X S t w -> (entry_points w.(w_context) -> a = true /\ b = true) ->
  (forall w', At X S t w' -> w_log w' = w_log w ->
     w_context w' = with_entry_points a b w.(w_context) -> Q (Ok tt) w') ->
  wp (put_context (with_entry_points a b)) Q w.
Proof.
  intros [] Hab HQ. unfold wp, put_context. cbn. apply HQ; [|done|done].
  constructor; try done. cbn. auto.
Qed.

(** Mirrors are written: each is free, or belongs to what is stored. *)
Lemma wp_put_mirrors X S t w f Q :
  At X S t w ->
  ctx_objects (f w.(w_context)) = ctx_objects w.(w_context) ->
  ctx_get_device_proc_addr (f w.(w_context)) =
    ctx_get_device_proc_addr w.(w_context) ->
  ctx_destroy_instance (f w.(w_context)) = ctx_destroy_instance w.(w_context) ->
  ctx_next_serial (f w.(w_context)) = ctx_next_serial w.(w_context) ->
  Forall (mirrored apart (table_map t)) (ctx_memory_mirrors (f w.(w_context))) ->
  (forall w', At X S t w' -> w_log w' = w_log w ->
     w_context w' = f w.(w_context) -> Q (Ok tt) w') ->
  wp (put_context f) Q w.
Proof.
  intros [] H1 H2 H3 H4 Hx HQ. unfold wp, put_context. cbn. apply HQ; [|done|done].
  constructor; cbn; rewrite ?H1, ?H2, ?H3, ?H4; try done.
Qed.

Lemma bvb_handle_id_type type s :
  0 <= s -> bvb_handle_id type s = 0 \/
            bvb_handle_type (bvb_handle_id type s) = type.
Proof.
  intros Hs. unfold bvb_handle_id.
  destruct (object_type_is_valid type) eqn:Et; [cbn [negb orb]|by left].
  destruct (Z.eqb_spec s 0) as [|Hne]; [by left|].
  destruct (Z.ltb_spec BVB_HANDLE_SERIAL_MASK s) as [|Hl]; [by left|right].
  cbn [orb]. rewrite bvb_handle_type_bits by (done || lia). unfold bvb_handle_type.
  unfold BVB_HANDLE_SERIAL_MASK in Hl.
  rewrite Z.shiftr_div_pow2 by done. unfold BVB_HANDLE_TYPE_SHIFT.
  rewrite Z.div_add, Z.div_small, Z.add_0_l by lia. by rewrite Et.
Qed.

Lemma wp_next_id X S t w type Q :
  At X S t w ->
  (forall id w', At X S t w' -> w_log w' = w_log w ->
     (id = 0 \/ bvb_handle_type id = type) ->
     (entry_points w.(w_context) -> entry_points w'.(w_context)) ->
     Q (Ok id) w') ->
  wp (next_id type) Q w.
Proof.
  intros I HQ. unfold wp, next_id, bind, get_context, put_context, ret. cbn.
  apply HQ; [|done| |done].
  - apply (At_same_store X S t w); [|done]. split_and!; try done.
    intros ty. cbn [w_context ctx_next_serial with_next_serial].
    destruct (ty =? type); [|apply (at_serials _ _ _ _ I)].
    by apply Z.mod_pos_bound.
  - apply bvb_handle_id_type, (at_serials _ _ _ _ I).
Qed.

(** ** The table *)

Lemma handle_expect_type id ty :
  is_ok (bvb_handle_expect id ty) = true -> bvb_handle_type id = ty.
Proof.
  unfold bvb_handle_expect.
  destruct (object_type_is_valid ty), (Z.eqb_spec (bvb_handle_type id) ty); done.
Qed.

Lemma wp_lookup X S t w id ty Q :
  At X S t w ->
  (forall p b, table_map t !! id = Some (p, b) -> bvb_handle_type id = ty ->
     is_ok (bvb_handle_expect id ty) = true -> Q (Ok (p, b)) w) ->
  (forall e, Q (Err e) w) ->
  wp (table_lookup id ty) Q w.
Proof.
  intros I Hok Herr. unfold table_lookup, wp, bind, get_context, of_result.
  cbn. rewrite (at_objects _ _ _ _ I), lookup_step by apply (at_wf _ _ _ _ I).
  unfold spec_lookup. destruct (is_ok (bvb_handle_expect id ty)) eqn:E; cbn; [|done].
  destruct (table_map t !! id) as [[p b]|] eqn:Em; [|done].
  apply Hok; [done|by apply handle_expect_type|done].
Qed.

(** A lookup fails when the object is not there, and only then. *)
Lemma wp_lookup_exact X S t w id ty Q :
  At X S t w ->
  (forall p b, table_map t !! id = Some (p, b) -> bvb_handle_type id = ty ->
     Q (Ok (p, b)) w) ->
  (forall e, (forall x, table_map t !! id = Some x -> bvb_handle_type id <> ty) ->
     Q (Err e) w) ->
  wp (table_lookup id ty) Q w.
Proof.
  intros I Hok Herr. unfold table_lookup, wp, bind, get_context, of_result.
  cbn. rewrite (at_objects _ _ _ _ I), lookup_step by apply (at_wf _ _ _ _ I).
  unfold spec_lookup. destruct (is_ok (bvb_handle_expect id ty)) eqn:E; cbn.
  - destruct (table_map t !! id) as [[p b]|] eqn:Em; [|by apply Herr].
    apply Hok; [done|by apply handle_expect_type].
  - apply Herr. intros x Hx <-. by rewrite (at_ids _ _ _ _ I _ _ Hx) in E.
Qed.

Lemma insert_needs_id t p b t' :
  bvb_handle_table_insert (Some t) 0 p b <> Ok t'.
Proof.
  unfold bvb_handle_table_insert. destruct negb; [done|].
  destruct (ht_entries t); [|done].
  by assert (insert_args_valid 0 p b = false) as -> by done.
Qed.

Lemma insert_needs_bits t id p t' :
  bvb_handle_table_insert (Some t) id p 0 <> Ok t'.
Proof.
  unfold bvb_handle_table_insert. destruct negb; [done|].
  destruct (ht_entries t); [|done].
  assert (insert_args_valid id p 0 = false) as ->; [|done].
  unfold insert_args_valid. by rewrite orb_true_r.
Qed.

Lemma At_context X S t w :
  At X S t w -> is_Some (table_map t !! 0) \/ (exists id x, table_map t !! id = Some x) ->
  entry_points w.(w_context).
Proof.
  intros I Hm. apply (at_entry_points _ _ _ _ I). intros E. rewrite E in Hm.
  destruct Hm as [[x Hx]|(id & x & Hx)]; by rewrite lookup_empty in Hx.
Qed.

(** A new object takes its identifier under its parent. *)
Lemma wp_insert ty o b S t w id p pt g Q :
  At [(ty, o, b)] S t w -> (id = 0 \/ bvb_handle_type id = ty) ->
  ty ∈ owned_types -> (ty, pt) ∈ parent_types ->
  is_Some (table_map t !! p) -> bvb_handle_type p = pt ->
  owner (table_map t) ty p = o -> g = b ->
  (forall t' w', At [] S t' w' -> bvb_handle_type id = ty ->
     table_map t' = <[id := (p, b)]> (table_map t) ->
     table_map t !! id = None -> Q (Ok tt) w') ->
  (forall e, Q (Err e) w) ->
  wp (table_insert id p g) Q w.
Proof.
  intros I Hid Ht Hpt [x Hp] Hptt <- -> Hok Herr.
  unfold table_insert, wp, bind, get_context, of_result, put_context. cbn.
  rewrite (at_objects _ _ _ _ I).
  destruct (bvb_handle_table_insert (Some t) id p b) as [t'|e] eqn:Hins; cbn; [|apply Herr].
  assert (Hty : bvb_handle_type id = ty).
  { destruct Hid as [->|]; [|done]. by apply insert_needs_id in Hins. }
  destruct (At_insert _ _ _ t' w id p b I Hins) as (I' & Hm & Hn).
  - right. exists pt. rewrite Hty. split; [done|split; [by eauto|done]].
  - unfold native. rewrite Hty, decide_True by done. done.
  - by rewrite Hty.
  - rewrite Hty. intros Hd id' p' Hm.
    by apply (at_pending _ _ _ _ I _ _ b ltac:(by constructor) Hd id' p').
  - eapply At_context; [done|]. eauto.
  - by apply (Hok t').
Qed.

(** A handle the driver gave out is stored under its owner. *)
Lemma wp_insert_known ty S t w id p pt b Q :
  At [] S t w -> (id = 0 \/ bvb_handle_type id = ty) ->
  ty ∉ owned_types -> (ty, pt) ∈ parent_types ->
  is_Some (table_map t !! p) -> bvb_handle_type p = pt ->
  (b <> 0 -> (ty, owner (table_map t) ty p, b) ∈ ds_known (state w)) ->
  (ty ∈ distinct_types -> forall id' p', table_map t !! id' = Some (p', b) ->
     bvb_handle_type id' <> ty) ->
  (forall t' w', At [] S t' w' -> bvb_handle_type id = ty ->
     table_map t' = <[id := (p, b)]> (table_map t) ->
     table_map t !! id = None -> w_log w' = w_log w -> Q (Ok tt) w') ->
  (forall e, Q (Err e) w) ->
  wp (table_insert id p b) Q w.
Proof.
  intros I Hid Ht Hpt [x Hp] Hptt Hk Hd Hok Herr.
  unfold table_insert, wp, bind, get_context, of_result, put_context. cbn.
  rewrite (at_objects _ _ _ _ I).
  destruct (bvb_handle_table_insert (Some t) id p b) as [t'|e] eqn:Hins; cbn; [|apply Herr].
  assert (Hty : bvb_handle_type id = ty).
  { destruct Hid as [->|]; [|done]. by apply insert_needs_id in Hins. }
  destruct (At_insert _ _ _ t' w id p b I Hins) as (I' & Hm & Hn).
  - right. exists pt. rewrite Hty. split; [done|split; [by eauto|done]].
  - unfold native. by rewrite Hty, decide_False.
  - rewrite Hty. intros _. apply Hk. intros ->.
    by apply insert_needs_bits in Hins.
  - rewrite Hty. apply Hd.
  - eapply At_context; [done|]. eauto.
  - by apply (Hok t').
Qed.

(** An object nothing depends on leaves the table and becomes pending. *)
Lemma wp_remove St t w id ty Q :
  At [] St t w ->
  (forall p b, table_map t !! id = Some (p, b) -> bvb_handle_type id = ty ->
     childless (table_map t) id) ->
  (ty = BVB_OBJECT_DEVICE_MEMORY -> unmirrored w id) ->
  (forall p b t' w', table_map t !! id = Some (p, b) ->
     bvb_handle_type id = ty ->
     At (opt_cons (native (table_map t) (id, (p, b))) []) St t' w' ->
     table_map t' = delete id (table_map t) -> shrinks t t' ->
     Q (Ok b) w') ->
  (forall e, (forall x, table_map t !! id = Some x -> bvb_handle_type id <> ty) ->
     Q (Err e) w) ->
  wp (table_remove id ty) Q w.
Proof.
  intros I Hc Hu Hok Herr.
  unfold table_remove, wp, bind, get_context, of_result, put_context, ret. cbn.
  rewrite (at_objects _ _ _ _ I).
  pose proof (remove_step t id ty (at_wf _ _ _ _ I)) as Hs.
  destruct (bvb_handle_table_remove (Some t) id ty) as [[t' b']|e] eqn:Hrem; cbn.
  - destruct Hs as (_ & _ & Hs). unfold spec_remove in Hs.
    destruct (is_ok (bvb_handle_expect id ty)) eqn:Hexp; [|done].
    pose proof (handle_expect_type _ _ Hexp) as <-.
    destruct (table_map t !! id) as [[p b]|] eqn:Hm; [|done].
    destruct (At_remove St t t' w id p b b' I Hrem Hm) as (I' & Hm' & Hsh & ->).
    { by eapply Hc. }
    { done. }
    by apply (Hok p b t').
  - apply Herr. intros x Hx <-. unfold spec_remove in Hs.
    by rewrite (at_ids _ _ _ _ I _ _ Hx), Hx in Hs.
Qed.

Lemma wp_remove_owned St t w id ty Q :
  At [] St t w ->
  (forall p b, table_map t !! id = Some (p, b) -> bvb_handle_type id = ty ->
     childless (table_map t) id) ->
  (ty = BVB_OBJECT_DEVICE_MEMORY -> unmirrored w id) ->
  ty ∈ owned_types ->
  (forall p b t' w', table_map t !! id = Some (p, b) ->
     bvb_handle_type id = ty ->
     At [(ty, owner (table_map t) ty p, b)] St t' w' ->
     table_map t' = delete id (table_map t) -> shrinks t t' ->
     Q (Ok b) w') ->
  (forall e, (forall x, table_map t !! id = Some x -> bvb_handle_type id <> ty) ->
     Q (Err e) w) ->
  wp (table_remove id ty) Q w.
Proof.
  intros I Hc Hu Ht HQ Herr. eapply wp_remove; [done|done|done| |done].
  intros p b t' w' Hm Hty I'. apply (HQ p b t'); [done|done|]. revert I'. unfold native.
  by rewrite Hty, decide_True.
Qed.

Lemma wp_remove_known St t w id ty Q :
  At [] St t w ->
  (forall p b, table_map t !! id = Some (p, b) -> bvb_handle_type id = ty ->
     childless (table_map t) id) ->
  ty ∉ owned_types ->
  (forall p b t' w', table_map t !! id = Some (p, b) ->
     bvb_handle_type id = ty -> At [] St t' w' ->
     table_map t' = delete id (table_map t) -> shrinks t t' ->
     Q (Ok b) w') ->
  (forall e, (forall x, table_map t !! id = Some x -> bvb_handle_type id <> ty) ->
     Q (Err e) w) ->
  wp (table_remove id ty) Q w.
Proof.
  intros I Hc Ht HQ Herr. eapply wp_remove; [done|done| | |done].
  { intros ->. by destruct Ht; apply (bool_decide_unpack _). }
  intros p b t' w' Hm Hty I'. apply (HQ p b t'); [done|done|]. revert I'.
  unfold native. by rewrite Hty, decide_False.
Qed.

(** ** The driver *)

Lemma wp_invoke_base f c Q w :
  f = true ->
  Q (Ok (driver w.(w_log) c)) (observe w (c, driver w.(w_log) c)) ->
  wp (invoke driver f c) Q w.
Proof. by intros ->. Qed.

Lemma wp_invoke X S t w f c Q :
  At X S t w -> f = true -> allowed (state w) c ->
  (forall r, after VK_SUCCESS (state w) (c, r) = state w) ->
  (forall r w', At X S t w' -> w_context w' = w_context w -> Q (Ok r) w') ->
  wp (invoke driver f c) Q w.
Proof.
  intros I Hf Ha Hs HQ. apply wp_invoke_base; [done|]. apply HQ; [|done].
  by apply At_neutral.
Qed.

Lemma at_alive_type X S t w id p b ty :
  At X S t w -> table_map t !! id = Some (p, b) -> bvb_handle_type id = ty ->
  ty ∈ owned_types \/ ~ S id -> alive (state w) ty b.
Proof. intros I Hm <- Hs. by eapply at_alive. Qed.

Lemma device_alive X S t w id p d :
  At X S t w -> table_map t !! id = Some (p, d) ->
  bvb_handle_type id = BVB_OBJECT_DEVICE ->
  alive (state w) BVB_OBJECT_DEVICE d.
Proof.
  intros I Hm Ht. eapply at_alive_type; [done..|left].
  by apply (bool_decide_unpack _).
Qed.

Lemma wp_device_proc X S t w id p d name Q :
  At X S t w -> table_map t !! id = Some (p, d) ->
  bvb_handle_type id = BVB_OBJECT_DEVICE ->
  (forall b w', At X S t w' -> w_context w' = w_context w -> Q (Ok b) w') ->
  wp (device_proc driver d name) Q w.
Proof.
  intros I Hm Ht HQ. unfold device_proc. apply wp_do, wp_get_context. cbn.
  apply wp_do. eapply wp_invoke; [exact I|..].
  - eapply At_context; [done|]. eauto.
  - cbn. by eapply device_alive.
  - done.
  - intros r w' I' Hw. cbn. by apply HQ.
Qed.

Lemma wp_instance_proc X S t w id p i name Q :
  At X S t w -> table_map t !! id = Some (p, i) ->
  bvb_handle_type id = BVB_OBJECT_INSTANCE ->
  (forall b w', At X S t w' -> w_context w' = w_context w -> Q (Ok b) w') ->
  wp (instance_proc driver i name) Q w.
Proof.
  intros I Hm Ht HQ. unfold instance_proc. apply wp_do.
  eapply wp_invoke; [exact I|done|..].
  - cbn. eapply at_alive_type; [done..|left]. by apply (bool_decide_unpack _).
  - done.
  - intros r w' I' Hw. cbn. by apply HQ.
Qed.

(** A device creates a child: on success it is pending. *)
Lemma wp_create S t w f type d uses info id p Q :
  At [] S t w -> f = true -> table_map t !! id = Some (p, d) ->
  bvb_handle_type id = BVB_OBJECT_DEVICE -> type ∈ device_children ->
  used (state w) uses ->
  (forall r w', At [] S t w' -> (rp_result r =? VK_SUCCESS) = false ->
     Q (Ok r) w') ->
  (forall r w', At [(type, d, rp_handle r)] S t w' ->
     (rp_result r =? VK_SUCCESS) = true -> Q (Ok r) w') ->
  wp (invoke driver f (Create type d uses info)) Q w.
Proof.
  intros I Hf Hm Ht Hc Hu Hfail Hok. apply wp_invoke_base; [done|].
  set (c := Create type d uses info). set (r := driver _ c).
  assert (Ha : allowed (state w) c).
  { cbn. split_and!; [by eapply device_alive|done|done]. }
  destruct (Z.eqb_spec (rp_result r) VK_SUCCESS) as [E|E].
  - apply Hok; [|by apply Z.eqb_eq]. apply At_created; [done|done| | |].
    + cbn. by rewrite (proj2 (Z.eqb_eq _ _) E).
    + intros Hd. subst r. eapply fresh_handle; [apply (at_log _ _ _ _ I)|done..].
    + unfold owned_types. rewrite !elem_of_cons. by right; right.
  - apply Hfail; [|by apply Z.eqb_neq]. apply At_neutral; [done|done|].
    cbn. by rewrite (proj2 (Z.eqb_neq _ _) E).
Qed.

Lemma wp_destroy S t w f ty d b g id p Q :
  At [(ty, d, b)] S t w -> f = true -> table_map t !! id = Some (p, d) ->
  bvb_handle_type id = BVB_OBJECT_DEVICE -> ty ∈ device_children -> g = b ->
  (forall r w', At [] S t w' -> Q (Ok r) w') ->
  wp (invoke driver f (Destroy ty d g)) Q w.
Proof.
  intros I Hf Hm Ht Hc -> HQ. apply wp_invoke_base; [done|]. apply HQ.
  by eapply At_destroy.
Qed.

(** ** Scans of the whole table *)

Lemma object_entry_wp X S t w i Q :
  At X S t w -> 0 <= i < BVB_GLOBAL_OBJECT_CAPACITY ->
  (forall e, table_entries t !! Z.to_nat i = Some e -> Q (Ok e) w) ->
  wp (object_entry i) Q w.
Proof.
  intros I Hi HQ. unfold object_entry, wp, bind, get_context, ret. cbn.
  rewrite (at_objects _ _ _ _ I). apply HQ.
  pose proof (wf_length _ (at_wf _ _ _ _ I)) as Hl.
  rewrite (at_capacity _ _ _ _ I) in Hl. apply entry_at_lookup.
  change (default [] (ht_entries t)) with (table_entries t). lia.
Qed.

(** A scan that deals with each slot in turn, where dealing with one slot
    only clears slots: at the end every slot is dealt with. *)
Lemma wp_scan (R : relation bvb_handle_table)
    (dealt : bvb_handle_table -> bvb_handle_entry -> Prop)
    (body : bvb_handle_entry -> M unit) St t w Q :
  PreOrder R -> (forall t1 t2, R t1 t2 -> shrinks t1 t2) ->
  At [] St t w ->
  (forall t1 t2 e, wf t1 -> clean t1 -> wf t2 -> R t1 t2 ->
     dealt t1 e -> dealt t2 e) ->
  (forall t1 w1 i e, At [] St t1 w1 -> R t t1 ->
     table_entries t1 !! i = Some e ->
     wp (body e) (fun r w2 =>
       match r with
       | Ok _ => exists t2, At [] St t2 w2 /\ R t1 t2 /\
           (table_entries t2 !! i = Some e -> he_wire_id e <> 0 -> dealt t2 e)
       | Err x => Q (Err x) w2
       end) w1) ->
  (forall t' w', At [] St t' w' -> R t t' ->
     (forall i e, table_entries t' !! i = Some e -> he_wire_id e <> 0 ->
        dealt t' e) -> Q (Ok tt) w') ->
  wp (for_m BVB_GLOBAL_OBJECT_CAPACITY (fun index =>
        do e := object_entry index ;; body e)) Q w.
Proof.
  intros HR Hsub I Hmono Hbody HQ. unfold for_m.
  set (n := Z.to_nat BVB_GLOBAL_OBJECT_CAPACITY).
  assert (Hgen : forall k, (k <= n)%nat -> forall t1 w1, At [] St t1 w1 ->
    R t t1 ->
    (forall i e, (i < n - k)%nat -> table_entries t1 !! i = Some e ->
       he_wire_id e <> 0 -> dealt t1 e) ->
    wp (loop_m k (Z.of_nat (n - k)) (fun index =>
        do e := object_entry index ;; body e)) Q w1).
  { induction k as [|k IH]; intros Hk t1 w1 I1 Hsh Hdone.
    - apply wp_reply, (HQ t1); [done|done|]. intros i e He. apply (Hdone i); [|done].
      apply lookup_lt_Some in He. pose proof (wf_length _ (at_wf _ _ _ _ I1)) as Hl.
      rewrite (at_capacity _ _ _ _ I1) in Hl. lia.
    - cbn [loop_m]. apply wp_do, wp_do.
      eapply object_entry_wp; [done|lia|]. intros e He. cbn [then_wp].
      rewrite Nat2Z.id in He. eapply wp_weaken; [by eapply Hbody|].
      intros [[]|x] w2; [|done]. intros (t2 & I2 & Hsh2 & Hd). cbn [then_wp].
      replace (Z.of_nat (n - S k) + 1) with (Z.of_nat (n - k)) by lia.
      apply (IH ltac:(lia) t2); [done|by etrans|].
      intros i e' Hi He' Hne.
      destruct (Hsub _ _ Hsh2 _ _ He') as [H1|]; [|done].
      destruct (decide (i = n - S k)%nat) as [->|Hin].
      + rewrite He in H1. injection H1 as <-. by apply Hd.
      + apply (Hmono t1); [apply I1|apply I1|apply I2|done|].
        apply (Hdone i); [lia|done|done]. }
  replace 0 with (Z.of_nat (n - n)) by lia.
  apply (Hgen n ltac:(lia) t w); [done|done|intros; lia].
Qed.

(** No object of this type has this parent. *)
Definition no_child (m : objects) (type parent : Z) : Prop :=
  forall id p b, m !! id = Some (p, b) -> bvb_handle_type id = type ->
    p <> parent.

Lemma typed_nonzero id type :
  bvb_handle_type id = type -> type <> BVB_OBJECT_INVALID -> id <> 0.
Proof. by intros <- Hne ->. Qed.

Lemma no_child_shrinks X X' St St' t t' w w' type parent :
  At X St t w -> At X' St' t' w' -> shrinks t t' -> type <> BVB_OBJECT_INVALID ->
  no_child (table_map t) type parent -> no_child (table_map t') type parent.
Proof.
  intros I I' Hsh Hty Hn id p b Hm Ht. apply (Hn id p b); [|done].
  eapply shrinks_lookup; try done; [apply I|apply I|apply I'|].
  by eapply typed_nonzero.
Qed.

(** The slots an action on children of [parent] is done with. *)
Definition not_child (type parent : Z) (e : bvb_handle_entry) : Prop :=
  ~ (bvb_handle_type e.(he_wire_id) = type /\ e.(he_parent_id) = parent).

Lemma no_child_slots X St t w type parent :
  At X St t w -> type <> BVB_OBJECT_INVALID ->
  (forall i e, table_entries t !! i = Some e -> he_wire_id e <> 0 ->
     not_child type parent e) ->
  no_child (table_map t) type parent.
Proof.
  intros I Hty Hs id p b Hm Ht ->.
  apply (table_map_lookup _ _ _ (at_wf _ _ _ _ I)) in Hm
    as (i & e & He & _ & <- & [= Hp _]).
  apply (Hs i e He); [by eapply typed_nonzero|]. by split.
Qed.

Lemma childless_no_child m id ty (deps : list Z) :
  forest m -> bvb_handle_type id = ty ->
  Forall (fun x => x.2 = ty -> x.1 ∈ deps) parent_types ->
  (forall dep, dep ∈ deps -> no_child m dep id) -> childless m id.
Proof.
  intros Hf Hty Hdeps Hn id' p b Hm Hi ->.
  destruct (Hf _ _ _ Hm) as [?|(t & Ht & [_ Ety])]; [done|].
  rewrite Forall_forall in Hdeps. apply list_elem_of_In in Ht.
  apply (Hn (bvb_handle_type id') ltac:(apply (Hdeps _ Ht); cbn; congruence) _ _ _ Hm);
    done.
Qed.

(** An operation that destroys the object it is given, or fails. *)
Definition destroys (op : Z -> M unit) : Prop :=
  forall t w id, At [] none t w ->
    wp (op id) (fun r w' => exists t', At [] none t' w' /\ shrinks t t' /\
      match r with Ok _ => table_map t' !! id = None | Err _ => True end) w.

Lemma slot_gone X St t w i e :
  At X St t w -> table_map t !! he_wire_id e = None ->
  table_entries t !! i = Some e -> he_wire_id e <> 0 -> False.
Proof.
  intros I Hn He Hne.
  by rewrite (slot_entry t i e (at_wf _ _ _ _ I) (at_clean _ _ _ _ I) He Hne) in Hn.
Qed.

Lemma wp_destroy_children type parent op t w Q :
  destroys op -> type <> BVB_OBJECT_INVALID -> At [] none t w ->
  (forall t' w', At [] none t' w' -> shrinks t t' ->
     no_child (table_map t') type parent -> Q (Ok tt) w') ->
  (forall x t' w', At [] none t' w' -> shrinks t t' -> Q (Err x) w') ->
  wp (for_children type parent op) Q w.
Proof.
  intros Hop Hty I Hok Herr. unfold for_children.
  eapply (wp_scan shrinks (fun _ => not_child type parent));
    [apply _|done|done|done| |].
  - intros t1 w1 i e I1 Hsh He.
    destruct (Z.eqb_spec (bvb_handle_type (he_wire_id e)) type) as [Et|Et];
      cbn [andb]; [destruct (Z.eqb_spec (he_parent_id e) parent) as [Ep|Ep]|].
    + eapply wp_weaken; [by apply Hop|]. intros [[]|x] w2 (t2 & I2 & Hsh2 & Hd).
      * exists t2. split_and!; [done|done|]. intros He2 Hne. exfalso.
        by eapply slot_gone.
      * apply (Herr x t2); [done|by etrans].
    + apply wp_reply. exists t1. split_and!; [done|done|]. by intros _ _ [].
    + apply wp_reply. exists t1. split_and!; [done|done|]. by intros _ _ [].
  - intros t' w' I' Hsh Hs. apply (Hok t'); [done|done|].
    by eapply no_child_slots.
Qed.

(** Only children of [parent] of a type leave from [t] to [t']. *)
Definition sheds (type parent : Z) (t t' : bvb_handle_table) : Prop :=
  shrinks t t' /\
  forall id p b, table_map t !! id = Some (p, b) ->
    ~ (bvb_handle_type id = type /\ p = parent) ->
    table_map t' !! id = Some (p, b).

#[export] Instance sheds_preorder type parent : PreOrder (sheds type parent).
Proof.
  split; [by split|]. intros t1 t2 t3 [H1 K1] [H2 K2].
  split; [by etrans|eauto].
Qed.

(** A scan that refuses to go on when it finds a child. *)
Lemma wp_no_children type parent e St t w Q :
  At [] St t w -> type <> BVB_OBJECT_INVALID ->
  (forall w', At [] St t w' -> no_child (table_map t) type parent ->
     Q (Ok tt) w') ->
  (forall w', At [] St t w' -> Q (Err e) w') ->
  wp (for_children type parent (fun _ => stop e)) Q w.
Proof.
  intros I Hty Hok Herr. unfold for_children.
  eapply (wp_scan eq (fun _ => not_child type parent));
    [apply _|by intros ?? ->|done|done| |].
  - intros t1 w1 i x I1 <- He.
    destruct (Z.eqb_spec (bvb_handle_type (he_wire_id x)) type) as [Et|Et];
      cbn [andb]; [destruct (Z.eqb_spec (he_parent_id x) parent) as [Ep|Ep]|].
    + by apply wp_stop, Herr.
    + apply wp_reply. exists t. split_and!; [done|done|]. by intros _ _ [].
    + apply wp_reply. exists t. split_and!; [done|done|]. by intros _ _ [].
  - intros t' w' I' <- Hs. apply Hok; [done|]. by eapply no_child_slots.
Qed.

(** Objects the driver releases with their owner leave the table alone. *)
Lemma wp_remove_children type parent St t w Q :
  At [] St t w -> type ∉ owned_types -> type <> BVB_OBJECT_INVALID ->
  (forall t1 id b, sheds type parent t t1 -> forest (table_map t1) ->
     wf t1 -> table_map t1 !! id = Some (parent, b) ->
     bvb_handle_type id = type -> childless (table_map t1) id) ->
  (forall t' w', At [] St t' w' -> sheds type parent t t' ->
     no_child (table_map t') type parent -> Q (Ok tt) w') ->
  wp (for_children type parent (fun id =>
        do _ := table_remove id type ;; ret tt)) Q w.
Proof.
  intros I Ht Hty Hc Hok. unfold for_children.
  eapply (wp_scan (sheds type parent) (fun _ => not_child type parent));
    [apply _|by intros ?? []|done|done| |].
  - intros t1 w1 i e I1 Hsh He.
    destruct (Z.eqb_spec (bvb_handle_type (he_wire_id e)) type) as [Et|Et];
      cbn [andb]; [destruct (Z.eqb_spec (he_parent_id e) parent) as [Ep|Ep]|].
    + assert (Hne : he_wire_id e <> 0) by by eapply typed_nonzero.
      pose proof (slot_entry t1 i e (at_wf _ _ _ _ I1) (at_clean _ _ _ _ I1) He Hne) as Hm.
      apply wp_do. eapply wp_remove_known; [exact I1| |done| |].
      * intros p b Hm' _. rewrite Ep in Hm. rewrite Hm in Hm'. injection Hm' as <- <-.
        eapply Hc; [done|apply I1|apply I1|done|done].
      * intros p b t2 w2 Hm' _ I2 Hd Hsh2. apply wp_reply. exists t2.
        split_and!; [done| |].
        -- split; [done|]. intros id p' b' Hid Hn. rewrite Hd.
           rewrite lookup_delete_ne; [done|]. intros <-.
           rewrite Hm in Hid. injection Hid as <- <-. by apply Hn.
        -- intros He2 _. exfalso. eapply (slot_gone _ _ _ _ i e I2); try done.
           rewrite Hd. apply lookup_delete_eq.
      * intros x Hno. exfalso. by apply (Hno _ Hm).
    + apply wp_reply. exists t1. split_and!; [done|done|]. by intros _ _ [].
    + apply wp_reply. exists t1. split_and!; [done|done|]. by intros _ _ [].
  - intros t' w' I' Hsh Hs. apply (Hok t'); [done|done|].
    by eapply no_child_slots.
Qed.

(** ** Resolving identifiers *)

Lemma wp_resolve_device_child X St t w id ty Q :
  At X St t w ->
  (forall did d b p, table_map t !! id = Some (did, b) ->
     bvb_handle_type id = ty -> table_map t !! did = Some (p, d) ->
     bvb_handle_type did = BVB_OBJECT_DEVICE -> Q (Ok (did, d, b)) w) ->
  (forall e, Q (Err e) w) ->
  wp (resolve_device_child id ty) Q w.
Proof.
  intros I Hok Herr. unfold resolve_device_child. apply wp_do.
  eapply wp_lookup; [done| |done]. intros did b Hm Ht _. cbn. apply wp_do.
  eapply wp_lookup; [done| |done]. intros p d Hm' Ht' _. cbn.
  apply wp_reply. by eapply Hok.
Qed.

Lemma wp_resolve_queue X St t w id Q :
  At X St t w ->
  (forall did d b p, table_map t !! id = Some (did, b) ->
     bvb_handle_type id = BVB_OBJECT_QUEUE -> table_map t !! did = Some (p, d) ->
     bvb_handle_type did = BVB_OBJECT_DEVICE -> Q (Ok (d, b)) w) ->
  (forall e, Q (Err e) w) ->
  wp (resolve_queue id) Q w.
Proof.
  intros I Hok Herr. unfold resolve_queue. apply wp_do.
  eapply wp_lookup; [done| |done]. intros did b Hm Ht _. cbn. apply wp_do.
  eapply wp_lookup; [done| |done]. intros p d Hm' Ht' _. cbn.
  apply wp_reply. by eapply Hok.
Qed.

Lemma wp_resolve_command_pool X St t w id Q :
  At X St t w ->
  (forall did d b p, table_map t !! id = Some (did, b) ->
     bvb_handle_type id = BVB_OBJECT_COMMAND_POOL ->
     table_map t !! did = Some (p, d) ->
     bvb_handle_type did = BVB_OBJECT_DEVICE -> Q (Ok (did, d, b)) w) ->
  (forall e, Q (Err e) w) ->
  wp (resolve_command_pool id) Q w.
Proof.
  intros I Hok Herr. unfold resolve_command_pool. apply wp_do.
  eapply wp_lookup; [done| |done]. intros did b Hm Ht _. cbn. apply wp_do.
  eapply wp_lookup; [done| |done]. intros p d Hm' Ht' _. cbn.
  apply wp_reply. by eapply Hok.
Qed.

Lemma wp_resolve_physical_device X St t w id Q :
  At X St t w ->
  (forall iid i b p, table_map t !! id = Some (iid, b) ->
     bvb_handle_type id = BVB_OBJECT_PHYSICAL_DEVICE ->
     table_map t !! iid = Some (p, i) ->
     bvb_handle_type iid = BVB_OBJECT_INSTANCE -> Q (Ok (i, b)) w) ->
  (forall e, Q (Err e) w) ->
  wp (resolve_physical_device id) Q w.
Proof.
  intros I Hok Herr. unfold resolve_physical_device. apply wp_do.
  eapply wp_lookup; [done| |done]. intros did b Hm Ht _. cbn. apply wp_do.
  eapply wp_lookup; [done| |done]. intros p d Hm' Ht' _. cbn.
  apply wp_reply. by eapply Hok.
Qed.

(** A device is still there after one of its children is stored. *)
Lemma inserted_entry (t' : bvb_handle_table) (m : objects) id id' x y :
  table_map t' = <[id := x]> m -> m !! id = None -> m !! id' = Some y ->
  table_map t' !! id' = Some y /\ table_map t' !! id = Some x.
Proof.
  intros -> Hn Hm. split; [|apply lookup_insert_eq].
  rewrite lookup_insert_ne; [done|]. intros ->. by rewrite Hn in Hm.
Qed.

(** Some object of the type has this handle. *)
Definition stored (t : bvb_handle_table) (ty b : Z) : Prop :=
  exists id p, table_map t !! id = Some (p, b) /\ bvb_handle_type id = ty.

(** A handle the store has under a type the driver owns objects of. *)
Definition named (t : bvb_handle_table) (use : Z * Z) : Prop :=
  use.1 ∈ owned_types /\ stored t use.1 use.2.

Lemma named_used X St t w uses :
  At X St t w -> Forall (named t) uses -> used (state w) uses.
Proof.
  intros I Hl. unfold used. eapply Forall_impl; [|exact Hl].
  intros [ty b] [Ht (id & p & Hm & Hty)]. cbn in *.
  eapply at_alive_type; [done|done|done|by left].
Qed.

Lemma stored_named t ty (l : list Z) :
  ty ∈ owned_types -> Forall (stored t ty) l ->
  Forall (named t) ((fun b => (ty, b)) <$> l).
Proof.
  intros Ht Hl. apply Forall_fmap. eapply Forall_impl; [|exact Hl].
  by intros b Hb.
Qed.

Lemma stored_used X St t w ty (l : list Z) :
  At X St t w -> ty ∈ owned_types -> Forall (stored t ty) l ->
  used (state w) ((fun b => (ty, b)) <$> l).
Proof. intros I Ht Hl. eapply named_used; [done|by apply stored_named]. Qed.

(** ** What an operation promises *)

(** From an outside view, an operation starts and ends with nothing pending. *)
Definition settled (w : world) : Prop := exists t, At [] none t w.

Definition keeps {A} (m : M A) : Prop :=
  forall w, settled w -> wp m (fun _ w' => settled w') w.

(** The same, from the worlds that satisfy a condition. *)
Definition keeps_when {A} (P : world -> Prop) (m : M A) : Prop :=
  forall w, P w -> settled w -> wp m (fun _ w' => settled w') w.

Lemma keeps_always {A} (P : world -> Prop) (m : M A) :
  keeps m -> keeps_when P m.
Proof. unfold keeps, keeps_when. auto. Qed.

Lemma keeps_when_any {A} (P : world -> Prop) (m : M A) :
  (forall w, P w) -> keeps_when P m -> keeps m.
Proof. unfold keeps, keeps_when. auto. Qed.

Lemma destroys_keeps op id : destroys op -> keeps (op id).
Proof.
  intros Hop w [t I]. eapply wp_weaken; [by apply Hop|].
  intros r w' (t' & I' & _). by exists t'.
Qed.

Lemma owner_device m ty p o d :
  m !! p = Some (o, d) -> ty ∈ device_children -> ty <> BVB_OBJECT_IMAGE_VIEW ->
  owner m ty p = d.
Proof.
  intros Hm Hc Hv. unfold owner, bits_of. rewrite Hm, (proj2 (Z.eqb_neq _ _) Hv).
  destruct (Z.eqb_spec ty BVB_OBJECT_INSTANCE) as [->|]; [|done].
  revert Hc. by apply (bool_decide_unpack _).
Qed.

(** A child of a device becomes pending; its device stays. *)
Lemma wp_remove_child St t w id ty did b d p Q :
  At [] St t w -> table_map t !! id = Some (did, b) ->
  bvb_handle_type id = ty -> table_map t !! did = Some (p, d) ->
  bvb_handle_type did = BVB_OBJECT_DEVICE -> ty ∈ device_children ->
  ty <> BVB_OBJECT_IMAGE_VIEW ->
  (ty = BVB_OBJECT_DEVICE_MEMORY -> unmirrored w id) ->
  childless (table_map t) id ->
  (forall t' w', At [(ty, d, b)] St t' w' -> shrinks t t' ->
     table_map t' !! did = Some (p, d) ->
     table_map t' = delete id (table_map t) -> Q (Ok b) w') ->
  wp (table_remove id ty) Q w.
Proof.
  intros I Hm Hty Hd Hdt Hc Hv Hu Hch HQ.
  eapply wp_remove_owned; [done|done|done| | |].
  - unfold owned_types. rewrite !elem_of_cons. by right; right.
  - intros p' b' t' w' Hm' _ I' Ht Hsh. rewrite Hm in Hm'. injection Hm' as <- <-.
    rewrite (owner_device _ _ _ _ _ Hd Hc Hv) in I'. apply (HQ t'); try done.
    rewrite Ht, lookup_delete_ne; [done|]. intros ->.
    rewrite Hty in Hdt. rewrite Hdt in Hc. revert Hc. by apply (bool_decide_unpack _).
  - intros e Hno. exfalso. by apply (Hno _ Hm).
Qed.
Lemma deleted_entry (t' : bvb_handle_table) (m : objects) id id' x ty :
  table_map t' = delete id m -> m !! id' = Some x ->
  bvb_handle_type id = ty -> bvb_handle_type id' <> ty ->
  table_map t' !! id' = Some x.
Proof. intros -> Hm Ht Ht'. rewrite lookup_delete_ne; congruence. Qed.
End rules.

(** ** Tactics *)

Ltac decide_list := by apply (bool_decide_unpack _).

(** The tests an operation has passed, as facts. *)
Ltac passed :=
  repeat match goal with
  | H : _ || _ = false |- _ => apply orb_false_iff in H as [? ?]
  | H : _ && _ = true |- _ => apply andb_true_iff in H as [? ?]
  | H : negb _ = false |- _ => apply negb_false_iff in H
  | H : negb _ = true |- _ => apply negb_true_iff in H
  | H : (_ =? _) = true |- _ => apply Z.eqb_eq in H
  | H : (_ <? _) = false |- _ => apply Z.ltb_ge in H
  | H : (_ <=? _) = true |- _ => apply Z.leb_le in H
  end.

(** The null tests a call's entry point has passed. *)
Ltac entry_point :=
  repeat match goal with
  | H : _ || _ = false |- _ => apply orb_false_iff in H as [? ?]
  | H : _ && _ = true |- _ => apply andb_true_iff in H as [? ?]
  | H : negb _ = false |- _ => apply negb_false_iff in H
  end; first [reflexivity | assumption].

Ltac solve_alive :=
  eapply at_alive_type; [eassumption|eassumption|eassumption
    |first [by left; decide_list | by right; intros []]].

Ltac solve_used :=
  unfold used; repeat (constructor; [cbn; solve_alive|]); by constructor.

(** The calls [wp_invoke] is for: on a device, a queue or a command buffer. *)
Ltac solve_allowed :=
  cbn; repeat split;
  first [solve_used | by eapply device_alive | solve_alive].

Ltac solve_leaf I :=
  apply childless_leaf; [apply I|];
  match goal with H : bvb_handle_type ?id = ?ty |- bvb_handle_type ?id ∉ _ =>
    rewrite H end; decide_list.

Ltac solve_gone :=
  match goal with H : table_map ?t = delete ?id _ |- table_map ?t !! ?id = None =>
    rewrite H; apply lookup_delete_eq end.

Ltac intro_created I :=
  let w' := fresh "w" in let I' := fresh "I" in let E := fresh "E" in
  intros ? w' I' E; clear I; cbn [then_wp]; rewrite ?E; cbn [negb].

(** What is known of the table an object was just stored in. *)
Ltac note_inserted :=
  repeat match goal with
  | Ht : table_map ?t' = <[_ := _]> ?m, Hn : ?m !! _ = None,
    H : ?m !! _ = Some _ |- _ =>
      destruct (inserted_entry _ _ _ _ _ _ Ht Hn H); clear H
  end.

(** One step of an operation. *)
Ltac wp_step :=
  lazymatch goal with
  | |- then_wp _ _ _ _ => cbn [then_wp]
  | |- wp (bind _ _) _ _ => apply wp_do
  | |- wp (ret _) _ _ => apply wp_reply
  | |- wp (stop _) _ _ => apply wp_stop
  | |- wp (catch _) _ _ => apply wp_catch
  | |- wp get_context _ _ => apply wp_get_context
  | |- wp (let '(_, _) := ?x in _) _ _ => destruct x
  | |- wp (if ?c then _ else _) _ _ => 
      let E := fresh "E" in destruct c eqn:E; try discriminate E
  | |- wp (match ?x with _ => _ end) _ _ =>
      let E := fresh "E" in destruct x eqn:E
  | I : At _ _ _ ?w |- wp (table_lookup _ _) _ ?w =>
      eapply wp_lookup; [exact I|intros ? ? ? ? _|intros ?]
  | I : At _ _ _ ?w |- wp (resolve_device_child _ _) _ ?w =>
      eapply wp_resolve_device_child; [exact I|intros ? ? ? ? ? ? ? ?|intros ?]
  | I : At _ _ _ ?w |- wp (resolve_queue _) _ ?w =>
      eapply wp_resolve_queue; [exact I|intros ? ? ? ? ? ? ? ?|intros ?]
  | I : At _ _ _ ?w |- wp (resolve_command_pool _) _ ?w =>
      eapply wp_resolve_command_pool; [exact I|intros ? ? ? ? ? ? ? ?|intros ?]
  | I : At _ _ _ ?w |- wp (resolve_physical_device _) _ ?w =>
      eapply wp_resolve_physical_device;
        [exact I|intros ? ? ? ? ? ? ? ?|intros ?]
  | I : At _ _ _ ?w |- wp (device_proc _ _ _) _ ?w =>
      eapply wp_device_proc; [exact I|eassumption|eassumption|];
      let b := fresh "proc" in let w' := fresh "w" in let I' := fresh "I" in
      let C := fresh "C" in intros b w' I' C; clear I
  | I : At _ _ _ ?w |- wp (instance_proc _ _ _) _ ?w =>
      eapply wp_instance_proc; [exact I|eassumption|eassumption|];
      let b := fresh "proc" in let w' := fresh "w" in let I' := fresh "I" in
      let C := fresh "C" in intros b w' I' C; clear I
  | I : At _ _ _ ?w |- wp (next_id _) _ ?w =>
      eapply wp_next_id; [exact I|];
      let w' := fresh "w" in let I' := fresh "I" in
      intros ? w' I' _ ? _; clear I
  | I : At _ _ _ ?w |- wp (put_context _) _ ?w =>
      eapply wp_put; [exact I|reflexivity|reflexivity|reflexivity|reflexivity
        |reflexivity|];
      let w' := fresh "w" in let I' := fresh "I" in
      intros w' I' _ _; clear I
  | I : At _ _ _ ?w |- wp (invoke ?d _ (Create _ _ _ _)) _ ?w =>
      eapply (wp_create d); [exact I|entry_point|eassumption|eassumption
        |decide_list|try solve_used|intro_created I|intro_created I]
  | I : At _ _ _ ?w |- wp (invoke _ _ (Destroy _ _ _)) _ ?w =>
      eapply wp_destroy; [exact I|entry_point
        |first [eassumption|eapply deleted_entry; [eassumption|eassumption
           |eassumption|congruence]]
        |eassumption|decide_list|congruence|];
      let w' := fresh "w" in let I' := fresh "I" in
      intros ? w' I'; clear I
  | I : At _ _ _ ?w |- wp (invoke _ _ _) _ ?w =>
      eapply wp_invoke; [exact I|entry_point|try solve_allowed
        |intros; reflexivity
        |let w' := fresh "w" in let I' := fresh "I" in
         let C := fresh "C" in intros ? w' I' C; clear I]
  | I : At _ _ _ ?w |- wp (table_insert _ _ _) _ ?w =>
      eapply wp_insert; [exact I|eassumption|decide_list
        |instantiate (1 := BVB_OBJECT_DEVICE); decide_list|eauto|eassumption
        |by eapply owner_device; [eassumption|decide_list|]
        |reflexivity| |];
      [let w' := fresh "w" in let I' := fresh "I" in
       intros ? w' I' ? ? ?; clear I
      |intros ?]
  | I : At _ _ _ ?w |- wp (table_remove _ _) _ ?w =>
      eapply wp_remove_child; [exact I|eassumption|eassumption|eassumption
        |eassumption|decide_list|done|first [discriminate|idtac]
        |try solve_leaf I
        |let w' := fresh "w" in let I' := fresh "I" in
         intros ? w' I' ? ? ?; clear I]
  | |- settled ?w => eexists; eassumption
  | I : At _ _ _ ?w |- exists _, At [] none _ ?w /\ _ =>
      eexists; split; [exact I|split; [by etrans|]];
      first [exact Logic.I|solve_gone]
  end; cbn [then_wp is_ok negb].

Ltac wp_run := repeat wp_step.

(** An operation keeps the invariant by running it. *)
Tactic Notation "run_keeps" reference(f) :=
  intros w [t I]; unfold f; wp_run.

Tactic Notation "run_keeps_when" reference(f) :=
  intros w HP [t I]; unfold f; wp_run.

(** An operation destroys its object: it runs, and only clears slots. *)
Tactic Notation "run_destroys" reference(f) :=
  intros t w id I; pose proof (reflexivity (R := shrinks) t); unfold f; wp_run.
