(* ===== verification/BackendDriver.v ===== *)
(** * BackendDriver: a driver the store can run against

    The theorems on the object store hold of every driver that keeps the
    Vulkan specification's promises ([ConformingDriver]).  This file gives
    one: every handle it returns is new, every entry point can be resolved,
    there is one device with one queue, its memory is visible to the host and
    coherent, and mapped memory begins with the bytes 1 to 8.  It shows that the promises can be
    kept, and the examples run against it. *)

From stdpp Require Import strings gmap.
From S2P Require Import Prelude Wire Abi Codec MessageImage Backend BackendInvariant BackendRules.

(** ** The constants of Vulkan 1.4 *)

Definition vulkan_1_4_core : VulkanCore := {|
  VK_SUCCESS := 0;
  VK_INCOMPLETE := 5;
  VK_ERROR_INITIALIZATION_FAILED := -3;
  VK_ERROR_LAYER_NOT_PRESENT := -6;
  VK_ERROR_EXTENSION_NOT_PRESENT := -7;
  VK_ERROR_FEATURE_NOT_PRESENT := -8;
  VK_ERROR_TOO_MANY_OBJECTS := -10;
  VK_ERROR_MEMORY_MAP_FAILED := -5;
  VK_COMMAND_POOL_CREATE_TRANSIENT_BIT := 1;
  VK_COMMAND_POOL_CREATE_RESET_COMMAND_BUFFER_BIT := 2;
  VK_COMMAND_POOL_RESET_RELEASE_RESOURCES_BIT := 1;
  VK_COMMAND_BUFFER_LEVEL_PRIMARY := 0;
  VK_COMMAND_BUFFER_USAGE_ONE_TIME_SUBMIT_BIT := 1;
  VK_FENCE_CREATE_SIGNALED_BIT := 1;
  VK_SEMAPHORE_TYPE_BINARY := 0;
  VK_SEMAPHORE_TYPE_TIMELINE := 1;
  VK_SEMAPHORE_WAIT_ANY_BIT := 1;
  VK_TRUE := 1;
  VK_FALSE := 0;
  VK_DESCRIPTOR_TYPE_SAMPLER := 0;
  VK_DESCRIPTOR_TYPE_COMBINED_IMAGE_SAMPLER := 1;
  VK_DESCRIPTOR_TYPE_SAMPLED_IMAGE := 2;
  VK_DESCRIPTOR_TYPE_STORAGE_IMAGE := 3;
  VK_DESCRIPTOR_TYPE_UNIFORM_TEXEL_BUFFER := 4;
  VK_DESCRIPTOR_TYPE_STORAGE_TEXEL_BUFFER := 5;
  VK_DESCRIPTOR_TYPE_UNIFORM_BUFFER := 6;
  VK_DESCRIPTOR_TYPE_STORAGE_BUFFER := 7;
  VK_DESCRIPTOR_TYPE_UNIFORM_BUFFER_DYNAMIC := 8;
  VK_DESCRIPTOR_TYPE_STORAGE_BUFFER_DYNAMIC := 9;
  VK_DESCRIPTOR_TYPE_INPUT_ATTACHMENT := 10;
  VK_DESCRIPTOR_SET_LAYOUT_CREATE_UPDATE_AFTER_BIND_POOL_BIT := 2;
  VK_DESCRIPTOR_BINDING_UPDATE_AFTER_BIND_BIT := 1;
  VK_DESCRIPTOR_BINDING_UPDATE_UNUSED_WHILE_PENDING_BIT := 2;
  VK_DESCRIPTOR_BINDING_PARTIALLY_BOUND_BIT := 4;
  VK_DESCRIPTOR_POOL_CREATE_UPDATE_AFTER_BIND_BIT := 2;
  VK_DESCRIPTOR_UPDATE_TEMPLATE_TYPE_DESCRIPTOR_SET := 0;
  VK_FILTER_LINEAR := 1;
  VK_SAMPLER_MIPMAP_MODE_LINEAR := 1;
  VK_SAMPLER_ADDRESS_MODE_MIRROR_CLAMP_TO_EDGE := 4;
  VK_COMPARE_OP_ALWAYS := 7;
  VK_BORDER_COLOR_INT_OPAQUE_WHITE := 5;
  VK_PIPELINE_LAYOUT_CREATE_INDEPENDENT_SETS_BIT_EXT := 2;
  VK_SHADER_STAGE_VERTEX_BIT := 1;
  VK_SHADER_STAGE_TESSELLATION_CONTROL_BIT := 2;
  VK_SHADER_STAGE_TESSELLATION_EVALUATION_BIT := 4;
  VK_SHADER_STAGE_GEOMETRY_BIT := 8;
  VK_SHADER_STAGE_FRAGMENT_BIT := 16;
  VK_SHADER_STAGE_COMPUTE_BIT := 32;
  VK_MEMORY_PROPERTY_HOST_VISIBLE_BIT := 2;
  VK_MEMORY_PROPERTY_HOST_COHERENT_BIT := 4;
  VK_BUFFER_USAGE_TRANSFER_SRC_BIT := 1;
  VK_BUFFER_USAGE_TRANSFER_DST_BIT := 2;
  VK_BUFFER_USAGE_UNIFORM_TEXEL_BUFFER_BIT := 4;
  VK_BUFFER_USAGE_STORAGE_TEXEL_BUFFER_BIT := 8;
  VK_BUFFER_USAGE_UNIFORM_BUFFER_BIT := 16;
  VK_BUFFER_USAGE_STORAGE_BUFFER_BIT := 32;
  VK_BUFFER_USAGE_INDEX_BUFFER_BIT := 64;
  VK_BUFFER_USAGE_VERTEX_BUFFER_BIT := 128;
  VK_BUFFER_USAGE_INDIRECT_BUFFER_BIT := 256;
  VK_BUFFER_USAGE_TRANSFORM_FEEDBACK_BUFFER_BIT_EXT := 2048;
  VK_BUFFER_USAGE_TRANSFORM_FEEDBACK_COUNTER_BUFFER_BIT_EXT := 4096;
  VK_BUFFER_USAGE_SHADER_DEVICE_ADDRESS_BIT := 131072;
  VK_IMAGE_VIEW_TYPE_1D := 0;
  VK_IMAGE_VIEW_TYPE_2D := 1;
  VK_IMAGE_VIEW_TYPE_3D := 2;
  VK_IMAGE_VIEW_TYPE_CUBE := 3;
  VK_IMAGE_VIEW_TYPE_1D_ARRAY := 4;
  VK_IMAGE_VIEW_TYPE_2D_ARRAY := 5;
  VK_REMAINING_MIP_LEVELS := 4294967295;
  VK_REMAINING_ARRAY_LAYERS := 4294967295;
  VK_MAX_MEMORY_HEAPS := 16;
  VK_MAX_PHYSICAL_DEVICE_NAME_SIZE := 256
|}.

Definition vulkan_1_4_image : VulkanImage := {|
  VK_IMAGE_CREATE_MUTABLE_FORMAT_BIT := 8;
  VK_IMAGE_CREATE_CUBE_COMPATIBLE_BIT := 16;
  VK_IMAGE_CREATE_2D_ARRAY_COMPATIBLE_BIT := 32;
  VK_IMAGE_CREATE_BLOCK_TEXEL_VIEW_COMPATIBLE_BIT := 128;
  VK_IMAGE_CREATE_EXTENDED_USAGE_BIT := 256;
  VK_IMAGE_CREATE_ALIAS_BIT := 1024;
  VK_IMAGE_TYPE_1D := 0;
  VK_IMAGE_TYPE_2D := 1;
  VK_IMAGE_TYPE_3D := 2;
  VK_IMAGE_TILING_LINEAR := 1;
  VK_IMAGE_LAYOUT_UNDEFINED := 0;
  VK_IMAGE_LAYOUT_PREINITIALIZED := 8;
  VK_SAMPLE_COUNT_1_BIT := 1;
  VK_SAMPLE_COUNT_2_BIT := 2;
  VK_SAMPLE_COUNT_4_BIT := 4;
  VK_SAMPLE_COUNT_8_BIT := 8;
  VK_SAMPLE_COUNT_16_BIT := 16;
  VK_SAMPLE_COUNT_32_BIT := 32;
  VK_SAMPLE_COUNT_64_BIT := 64
|}.

(** ** The driver *)

Definition largest (values : list Z) : Z := fold_right Z.max 0 values.

(** One more than every number returned so far. *)
Definition next_handle (log : list event) : Z :=
  1 + largest (List.concat ((fun e => e.2.(rp_values)) <$> log)).

Definition model_driver (log : list event) (c : vk_call) : vk_reply :=
  match c with
  | InstanceProc _ _ | DeviceProc _ _ => mk_reply 1 []
  | CountPhysicalDevices _ => mk_reply 0 [1]
  | CreateInstance _ _ | CreateDevice _ _ _ _ | Create _ _ _ _
  | EnumeratePhysicalDevices _ | GetDeviceQueue _ _ _
  | AllocateCommandBuffers _ _ _ _ => mk_reply 0 [next_handle log]
  | PhysicalDeviceQuery _ name =>
      if decide (name = "vkGetPhysicalDeviceQueueFamilyProperties"%string)
      then mk_reply 0 [1; 1]
      else if decide (name = "vkGetPhysicalDeviceMemoryProperties"%string)
      then mk_reply 0 [1; 1; 6]
      else mk_reply 0 (replicate 256 0 ++ [64])%list
  | DeviceCall name _ _ _ =>
      if decide (name = "vkMapMemory"%string) then mk_reply 0 (seqZ 1 8)
      else mk_reply 0 []
  | _ => mk_reply 0 []
  end.

(** ** It conforms *)

Lemma largest_app l l' : largest (l ++ l') = Z.max (largest l) (largest l').
Proof.
  unfold largest. induction l as [|x l IH]; cbn; [|rewrite IH; lia].
  induction l'; cbn; lia.
Qed.

Lemma largest_elem l x : x ∈ l -> x <= largest l.
Proof.
  unfold largest. induction l as [|y l IH]; [by intros []%elem_of_nil|]. cbn.
  intros [->|H]%elem_of_cons; [lia|]. specialize (IH H). lia.
Qed.

Lemma largest_nonneg l : 0 <= largest l.
Proof. unfold largest. induction l; cbn; lia. Qed.

(** The handles of a state are below the bound. *)
Definition below (bound : Z) (s : driver_state) : Prop :=
  Forall (fun o => o.2 <= bound) s.(ds_owned) /\
  Forall (fun o => o.2 <= bound) s.(ds_known).

Lemma below_weaken b b' s : b <= b' -> below b s -> below b' s.
Proof.
  intros Hb [H1 H2]. split; (eapply Forall_impl; [|done]); cbn; lia.
Qed.

Lemma remove_obj_sublist o l : sublist (remove_obj o l) l.
Proof.
  induction l as [|x l IH]; cbn; [done|].
  destruct decide; [by apply sublist_cons|by apply sublist_skip].
Qed.

Lemma Forall_shorter {A} (P : A -> Prop) l l' : sublist l l' -> Forall P l' -> Forall P l.
Proof.
  intros Hs Hf. apply Forall_forall. intros x Hx.
  apply (proj1 (Forall_forall _ _) Hf), list_elem_of_In.
  eapply sublist_subseteq; [done|]. by apply list_elem_of_In.
Qed.

Lemma below_known b s ty o r :
  below b s -> largest r.(rp_values) <= b -> below b (known_after s ty o r).
Proof.
  intros [H1 H2] Hr. split; cbn; [done|]. apply Forall_app. split; [|done].
  apply Forall_fmap, Forall_forall. intros x Hx%list_elem_of_In.
  apply largest_elem in Hx. cbn. lia.
Qed.

Lemma below_after b s c r :
  below b s -> 0 <= b -> largest r.(rp_values) <= b -> below b (after 0 s (c, r)).
Proof.
  intros Hs Hb Hr.
  assert (Hh : rp_handle r <= b).
  { unfold rp_handle. destruct (rp_values r) as [|x l]; [done|].
    unfold largest in Hr. cbn in *. lia. }
  assert (Hcons : forall ty o, below b
    (mk_driver_state ((ty, o, rp_handle r) :: s.(ds_owned)) s.(ds_known))).
  { intros ty o. split; [constructor; [done|apply Hs]|apply Hs]. }
  assert (Hsub : forall l l', sublist l s.(ds_owned) ->
    sublist l' s.(ds_known) -> below b (mk_driver_state l l')).
  { intros l l' H1 H2. split; cbn; (eapply Forall_shorter; [done|apply Hs]). }
  unfold after. destruct c; try exact Hs; try (by apply below_known);
    repeat (destruct (_ =? _); try exact Hs; try by apply below_known);
    try apply Hcons;
    (apply Hsub; unfold forget; try apply sublist_filter;
     try apply remove_obj_sublist; done).
Qed.

Lemma driver_after_below log :
  below (largest (List.concat ((fun e => e.2.(rp_values)) <$> log)))
    (driver_after 0 log).
Proof.
  induction log as [|[c r] log IH] using rev_ind; [by split; constructor|].
  rewrite driver_after_snoc, fmap_app, concat_app, largest_app.
  cbn [fmap list_fmap List.concat snd]. rewrite app_nil_r. apply below_after.
  - eapply below_weaken; [|exact IH]. lia.
  - pose proof (largest_nonneg (rp_values r)). lia.
  - lia.
Qed.

#[export] Instance model_driver_conforms :
  @ConformingDriver vulkan_1_4_core model_driver.
Proof.
  split.
  - intros log c type _ _ Hc _ _ (o & Ho).
    assert (Hh : rp_handle (model_driver log c) = next_handle log)
      by by destruct c.
    rewrite Hh in Ho. destruct (driver_after_below log) as [H1 H2].
    assert (Hin : next_handle log <=
      largest (List.concat ((fun e => e.2.(rp_values)) <$> log))).
    { destruct Ho as [Ho|Ho]; apply list_elem_of_In in Ho;
        [apply (proj1 (Forall_forall _ _) H1 _ Ho)
        |apply (proj1 (Forall_forall _ _) H2 _ Ho)]. }
    unfold next_handle in Hin. lia.
  - intros log d p level _. by exists (next_handle log).
  - done.
  - done.
Qed.
