(* ===== verification/BackendSync.v ===== *)
(** * BackendSync: fences, semaphores and query pools of the service

    The operations of src/vulkan_global.c on fences, semaphores and query
    pools.  Each creation resolves both entry points before it creates,
    stores the new handle, and destroys it again when the store refuses it;
    each destruction takes the object out of the store first.  Every
    operation keeps the store's invariant. *)

From stdpp Require Import strings gmap.
From S2P Require Import Prelude Wire Abi Codec ProtocolDevice ProtocolResource ProtocolSync MessageLists MessageData Backend BackendInvariant BackendRules.

Abbreviation object_response := mk_bvb_vulkan_object_create_response.

Section operations.
Context `{VulkanCore}.
Context (driver : list event -> vk_call -> vk_reply).

(** ** Fences *)

Definition bvb_vulkan_global_context_create_fence
    (request : bvb_vulkan_fence_create_request) :
    M bvb_vulkan_object_create_response :=
  reply_if negb (Z.ldiff request.(fc_rq_flags) VK_FENCE_CREATE_SIGNALED_BIT
                 =? 0)
    with object_response VK_ERROR_FEATURE_NOT_PRESENT 0 ;;
  do (_, device) := table_lookup request.(fc_rq_device_id) BVB_OBJECT_DEVICE ;;
  do create_fence := device_proc driver device "vkCreateFence" ;;
  do destroy_fence := device_proc driver device "vkDestroyFence" ;;
  stop_if negb create_fence || negb destroy_fence with (- ENOSYS) ;;
  do created := invoke driver create_fence
    (Create BVB_OBJECT_FENCE device [] [request.(fc_rq_flags)]) ;;
  reply_if negb (created.(rp_result) =? VK_SUCCESS)
    with object_response created.(rp_result) 0 ;;
  do wire_id := next_id BVB_OBJECT_FENCE ;;
  do result := catch (table_insert wire_id request.(fc_rq_device_id)
                        (rp_handle created)) ;;
  if negb (is_ok result) then
    do _ := invoke driver destroy_fence
      (Destroy BVB_OBJECT_FENCE device (rp_handle created)) ;;
    ret (object_response VK_ERROR_TOO_MANY_OBJECTS 0)
  else ret (object_response created.(rp_result) wire_id).

Definition bvb_vulkan_global_context_destroy_fence (fence_id : Z) : M unit :=
  do (_, device, fence) := resolve_device_child fence_id BVB_OBJECT_FENCE ;;
  do destroy_fence := device_proc driver device "vkDestroyFence" ;;
  stop_if negb destroy_fence with (- ENOSYS) ;;
  do _ := table_remove fence_id BVB_OBJECT_FENCE ;;
  do _ := invoke driver destroy_fence
    (Destroy BVB_OBJECT_FENCE device fence) ;;
  ret tt.

Definition bvb_vulkan_global_context_get_fence_status (fence_id : Z) : M Z :=
  do (_, device, fence) := resolve_device_child fence_id BVB_OBJECT_FENCE ;;
  do get_status := device_proc driver device "vkGetFenceStatus" ;;
  stop_if negb get_status with (- ENOSYS) ;;
  do status := invoke driver get_status
    (DeviceCall "vkGetFenceStatus" device [(BVB_OBJECT_FENCE, fence)] []) ;;
  ret status.(rp_result).

Definition bvb_vulkan_global_context_wait_fence
    (request : bvb_vulkan_fence_wait_request) : M Z :=
  stop_if 1 <? request.(fw_rq_wait_all) with (- EINVAL) ;;
  do (_, device, fence) :=
    resolve_device_child request.(fw_rq_fence_id) BVB_OBJECT_FENCE ;;
  do wait := device_proc driver device "vkWaitForFences" ;;
  stop_if negb wait with (- ENOSYS) ;;
  do status := invoke driver wait
    (DeviceCall "vkWaitForFences" device [(BVB_OBJECT_FENCE, fence)]
       [if negb (request.(fw_rq_wait_all) =? 0) then VK_TRUE else VK_FALSE;
        request.(fw_rq_timeout)]) ;;
  ret status.(rp_result).

Definition bvb_vulkan_global_context_reset_fence (fence_id : Z) : M Z :=
  do (_, device, fence) := resolve_device_child fence_id BVB_OBJECT_FENCE ;;
  do reset := device_proc driver device "vkResetFences" ;;
  stop_if negb reset with (- ENOSYS) ;;
  do status := invoke driver reset
    (DeviceCall "vkResetFences" device [(BVB_OBJECT_FENCE, fence)] []) ;;
  ret status.(rp_result).

(** ** Semaphores *)

Definition bvb_vulkan_global_context_create_semaphore
    (request : bvb_vulkan_semaphore_create_request) :
    M bvb_vulkan_object_create_response :=
  reply_if negb (request.(sc_rq_flags) =? 0) ||
           (negb (request.(sc_rq_semaphore_type) =? VK_SEMAPHORE_TYPE_BINARY) &&
            negb (request.(sc_rq_semaphore_type) =?
                    VK_SEMAPHORE_TYPE_TIMELINE)) ||
           ((request.(sc_rq_semaphore_type) =? VK_SEMAPHORE_TYPE_BINARY) &&
            negb (request.(sc_rq_initial_value) =? 0))
    with object_response VK_ERROR_FEATURE_NOT_PRESENT 0 ;;
  do context := get_context ;;
  match semaphore_metadata_slot context 0 with
  | None => ret (object_response VK_ERROR_TOO_MANY_OBJECTS 0)
  | Some (index, _) =>
  do (_, device) := table_lookup request.(sc_rq_device_id) BVB_OBJECT_DEVICE ;;
  do create := device_proc driver device "vkCreateSemaphore" ;;
  do destroy := device_proc driver device "vkDestroySemaphore" ;;
  stop_if negb create || negb destroy with (- ENOSYS) ;;
  do created := invoke driver create
    (Create BVB_OBJECT_SEMAPHORE device []
       (request.(sc_rq_flags) ::
        if request.(sc_rq_semaphore_type) =? VK_SEMAPHORE_TYPE_TIMELINE
        then [request.(sc_rq_semaphore_type); request.(sc_rq_initial_value)]
        else [])) ;;
  reply_if negb (created.(rp_result) =? VK_SUCCESS)
    with object_response created.(rp_result) 0 ;;
  do wire_id := next_id BVB_OBJECT_SEMAPHORE ;;
  do result := catch (table_insert wire_id request.(sc_rq_device_id)
                        (rp_handle created)) ;;
  if negb (is_ok result) then
    do _ := invoke driver destroy
      (Destroy BVB_OBJECT_SEMAPHORE device (rp_handle created)) ;;
    ret (object_response VK_ERROR_TOO_MANY_OBJECTS 0)
  else
    do _ := put_context (set_semaphore_metadata index
      (mk_semaphore_metadata wire_id request.(sc_rq_semaphore_type))) ;;
    ret (object_response created.(rp_result) wire_id)
  end.

(** The slot found for [id], cleared if it is the one of [id]. *)
Definition clear_semaphore_metadata (id : Z) : M unit :=
  do context := get_context ;;
  match semaphore_metadata_slot context id with
  | Some (index, metadata) =>
      if metadata.(sm_semaphore_id) =? id
      then put_context (set_semaphore_metadata index zero_semaphore_metadata)
      else ret tt
  | None => ret tt
  end.

Definition bvb_vulkan_global_context_destroy_semaphore (semaphore_id : Z) :
    M unit :=
  do (_, device, semaphore) :=
    resolve_device_child semaphore_id BVB_OBJECT_SEMAPHORE ;;
  do destroy := device_proc driver device "vkDestroySemaphore" ;;
  stop_if negb destroy with (- ENOSYS) ;;
  do _ := table_remove semaphore_id BVB_OBJECT_SEMAPHORE ;;
  do _ := invoke driver destroy
    (Destroy BVB_OBJECT_SEMAPHORE device semaphore) ;;
  clear_semaphore_metadata semaphore_id.

Definition bvb_vulkan_global_context_get_semaphore_counter (semaphore_id : Z) :
    M bvb_vulkan_semaphore_counter_response :=
  do (_, device, semaphore) :=
    resolve_device_child semaphore_id BVB_OBJECT_SEMAPHORE ;;
  do get_counter := device_proc driver device "vkGetSemaphoreCounterValue" ;;
  stop_if negb get_counter with (- ENOSYS) ;;
  do counter := invoke driver get_counter
    (DeviceCall "vkGetSemaphoreCounterValue" device
       [(BVB_OBJECT_SEMAPHORE, semaphore)] []) ;;
  ret (mk_bvb_vulkan_semaphore_counter_response counter.(rp_result)
         (hd 0 counter.(rp_values))).

(** The loop of the wait: each semaphore has to be one of the device's, and
    any failure is reported as [-EPROTO]. *)
Fixpoint wait_handles (device_id : Z)
    (semaphores : list bvb_vulkan_semaphore_wait_record) : M (list Z) :=
  match semaphores with
  | [] => ret []
  | s :: semaphores =>
      do found := catch (table_lookup s.(swr_semaphore_id)
                           BVB_OBJECT_SEMAPHORE) ;;
      match found with
      | Ok (parent_id, bits) =>
          stop_if negb (parent_id =? device_id) with (- EPROTO) ;;
          do rest := wait_handles device_id semaphores ;;
          ret (bits :: rest)
      | Err _ => stop (- EPROTO)
      end
  end.

Definition bvb_vulkan_global_context_wait_semaphores
    (request : bvb_vulkan_semaphore_wait_request) : M Z :=
  stop_if (request.(sw_rq_semaphore_count) =? 0) ||
          (BVB_VULKAN_MAX_SEMAPHORES_PER_WAIT <?
             request.(sw_rq_semaphore_count)) ||
          negb (Z.ldiff request.(sw_rq_flags) VK_SEMAPHORE_WAIT_ANY_BIT =? 0)
    with (- EINVAL) ;;
  do (_, device) := table_lookup request.(sw_rq_device_id) BVB_OBJECT_DEVICE ;;
  let waited := firstn (Z.to_nat request.(sw_rq_semaphore_count))
                  request.(sw_rq_semaphores) in
  do semaphores := wait_handles request.(sw_rq_device_id) waited ;;
  do wait := device_proc driver device "vkWaitSemaphores" ;;
  stop_if negb wait with (- ENOSYS) ;;
  do status := invoke driver wait
    (DeviceCall "vkWaitSemaphores" device
       ((fun bits => (BVB_OBJECT_SEMAPHORE, bits)) <$> semaphores)
       (request.(sw_rq_flags) :: request.(sw_rq_timeout) ::
        (swr_value <$> waited))) ;;
  ret status.(rp_result).

Definition bvb_vulkan_global_context_signal_semaphore
    (request : bvb_vulkan_semaphore_signal_request) : M Z :=
  do found := catch (table_lookup request.(ss_rq_semaphore_id)
                       BVB_OBJECT_SEMAPHORE) ;;
  match found with
  | Err _ => stop (- EPROTO)
  | Ok (parent_id, semaphore) =>
  stop_if negb (parent_id =? request.(ss_rq_device_id)) with (- EPROTO) ;;
  do (_, device) := table_lookup request.(ss_rq_device_id) BVB_OBJECT_DEVICE ;;
  do signal := device_proc driver device "vkSignalSemaphore" ;;
  stop_if negb signal with (- ENOSYS) ;;
  do status := invoke driver signal
    (DeviceCall "vkSignalSemaphore" device [(BVB_OBJECT_SEMAPHORE, semaphore)]
       [request.(ss_rq_value)]) ;;
  ret status.(rp_result)
  end.

(** ** Query pools *)

Definition bvb_vulkan_global_context_create_query_pool
    (request : bvb_vulkan_query_pool_create_request) :
    M bvb_vulkan_object_create_response :=
  do (_, device) :=
    table_lookup request.(qpc_rq_device_id) BVB_OBJECT_DEVICE ;;
  do create_query_pool := device_proc driver device "vkCreateQueryPool" ;;
  do destroy_query_pool := device_proc driver device "vkDestroyQueryPool" ;;
  stop_if negb create_query_pool || negb destroy_query_pool with (- ENOSYS) ;;
  do created := invoke driver create_query_pool
    (Create BVB_OBJECT_QUERY_POOL device []
       [request.(qpc_rq_flags); request.(qpc_rq_query_type);
        request.(qpc_rq_query_count); request.(qpc_rq_pipeline_statistics)]) ;;
  reply_if negb (created.(rp_result) =? VK_SUCCESS)
    with object_response created.(rp_result) 0 ;;
  do wire_id := next_id BVB_OBJECT_QUERY_POOL ;;
  do result := catch (table_insert wire_id request.(qpc_rq_device_id)
                        (rp_handle created)) ;;
  do context := get_context ;;
  match (if is_ok result then query_pool_metadata_slot context wire_id
         else None) with
  | None =>
      do _ := (if is_ok result
               then catch (table_remove wire_id BVB_OBJECT_QUERY_POOL)
               else ret (Ok 0)) ;;
      do _ := invoke driver destroy_query_pool
        (Destroy BVB_OBJECT_QUERY_POOL device (rp_handle created)) ;;
      ret (object_response VK_ERROR_TOO_MANY_OBJECTS 0)
  | Some (index, _) =>
      do _ := put_context (set_query_pool_metadata index
        (mk_query_pool_metadata wire_id request.(qpc_rq_device_id)
           request.(qpc_rq_query_type) request.(qpc_rq_query_count))) ;;
      ret (object_response created.(rp_result) wire_id)
  end.

Definition clear_query_pool_metadata (id : Z) : M unit :=
  do context := get_context ;;
  match query_pool_metadata_slot context id with
  | Some (index, metadata) =>
      if metadata.(qm_query_pool_id) =? id
      then put_context (set_query_pool_metadata index zero_query_pool_metadata)
      else ret tt
  | None => ret tt
  end.

Definition bvb_vulkan_global_context_destroy_query_pool (query_pool_id : Z) :
    M unit :=
  do (_, device, pool) :=
    resolve_device_child query_pool_id BVB_OBJECT_QUERY_POOL ;;
  do destroy_query_pool := device_proc driver device "vkDestroyQueryPool" ;;
  stop_if negb destroy_query_pool with (- ENOSYS) ;;
  do _ := table_remove query_pool_id BVB_OBJECT_QUERY_POOL ;;
  do _ := invoke driver destroy_query_pool
    (Destroy BVB_OBJECT_QUERY_POOL device pool) ;;
  clear_query_pool_metadata query_pool_id.

(** [request->first_query > count || query_count > count - first_query] *)
Definition query_range_exceeds (first_query query_count count : Z) : bool :=
  (count <? first_query) || (u32 (count - first_query) <? query_count).

Definition bvb_vulkan_global_context_get_query_pool_results
    (request : bvb_vulkan_query_pool_results_request) :
    M bvb_vulkan_query_pool_results_response :=
  do context := get_context ;;
  match query_pool_metadata_find context request.(qpr_rq_query_pool_id) with
  | None => stop (- EPROTO)
  | Some metadata =>
  stop_if query_range_exceeds request.(qpr_rq_first_query)
            request.(qpr_rq_query_count) metadata.(qm_query_count)
    with (- EPROTO) ;;
  do (device_id, device, pool) :=
    resolve_device_child request.(qpr_rq_query_pool_id)
      BVB_OBJECT_QUERY_POOL ;;
  stop_if negb (device_id =? metadata.(qm_device_id)) with (- EPROTO) ;;
  do get_results := device_proc driver device "vkGetQueryPoolResults" ;;
  stop_if negb get_results with (- ENOSYS) ;;
  do results := invoke driver get_results
    (DeviceCall "vkGetQueryPoolResults" device [(BVB_OBJECT_QUERY_POOL, pool)]
       [request.(qpr_rq_first_query); request.(qpr_rq_query_count);
        request.(qpr_rq_data_size); request.(qpr_rq_stride);
        request.(qpr_rq_flags)]) ;;
  ret (mk_bvb_vulkan_query_pool_results_response results.(rp_result)
         (u32 request.(qpr_rq_data_size))
         (wr_bytes (blank BVB_VULKAN_QUERY_POOL_RESULTS_MAX_BYTES) 0
            (byte_of_Z <$> results.(rp_values))))
  end.

Definition bvb_vulkan_global_context_reset_query_pool
    (request : bvb_vulkan_query_pool_reset_request) : M unit :=
  do context := get_context ;;
  match query_pool_metadata_find context request.(qpreset_rq_query_pool_id) with
  | None => stop (- EPROTO)
  | Some metadata =>
  stop_if query_range_exceeds request.(qpreset_rq_first_query)
            request.(qpreset_rq_query_count) metadata.(qm_query_count)
    with (- EPROTO) ;;
  do (device_id, device, pool) :=
    resolve_device_child request.(qpreset_rq_query_pool_id)
      BVB_OBJECT_QUERY_POOL ;;
  stop_if negb (device_id =? metadata.(qm_device_id)) with (- EPROTO) ;;
  do reset_query_pool := device_proc driver device "vkResetQueryPool" ;;
  stop_if negb reset_query_pool with (- ENOSYS) ;;
  do _ := invoke driver reset_query_pool
    (DeviceCall "vkResetQueryPool" device [(BVB_OBJECT_QUERY_POOL, pool)]
       [request.(qpreset_rq_first_query);
        request.(qpreset_rq_query_count)]) ;;
  ret tt
  end.
End operations.

(** ** The invariant *)

Section invariant.
Context `{VulkanCore}.
Context (driver : list event -> vk_call -> vk_reply).
Context {CD : ConformingDriver driver} {AP : Apart}.

Lemma create_fence_keeps request :
  keeps (bvb_vulkan_global_context_create_fence driver request).
Proof. run_keeps bvb_vulkan_global_context_create_fence. Qed.

Lemma destroy_fence_destroys :
  destroys (bvb_vulkan_global_context_destroy_fence driver).
Proof.
  run_destroys bvb_vulkan_global_context_destroy_fence.
Qed.

Lemma get_fence_status_keeps id :
  keeps (bvb_vulkan_global_context_get_fence_status driver id).
Proof. run_keeps bvb_vulkan_global_context_get_fence_status. Qed.

Lemma wait_fence_keeps request :
  keeps (bvb_vulkan_global_context_wait_fence driver request).
Proof. run_keeps bvb_vulkan_global_context_wait_fence. Qed.

Lemma reset_fence_keeps id :
  keeps (bvb_vulkan_global_context_reset_fence driver id).
Proof. run_keeps bvb_vulkan_global_context_reset_fence. Qed.

Lemma create_semaphore_keeps request :
  keeps (bvb_vulkan_global_context_create_semaphore driver request).
Proof. run_keeps bvb_vulkan_global_context_create_semaphore. Qed.

Lemma destroy_semaphore_destroys :
  destroys (bvb_vulkan_global_context_destroy_semaphore driver).
Proof.
  run_destroys bvb_vulkan_global_context_destroy_semaphore.
  unfold clear_semaphore_metadata. wp_run.
Qed.

Lemma get_semaphore_counter_keeps id :
  keeps (bvb_vulkan_global_context_get_semaphore_counter driver id).
Proof. run_keeps bvb_vulkan_global_context_get_semaphore_counter. Qed.

Lemma wp_wait_handles X St t w device_id l Q :
  At X St t w ->
  (forall bits, Forall (stored t BVB_OBJECT_SEMAPHORE) bits -> Q (Ok bits) w) ->
  (forall e, Q (Err e) w) ->
  wp (wait_handles device_id l) Q w.
Proof.
  intros I. revert Q. induction l as [|s l IH]; intros Q Hok Herr; cbn [wait_handles].
  { apply wp_reply, Hok. by constructor. }
  wp_run; try done. apply IH; [|done]. intros bits Hb. cbn [then_wp].
  apply wp_reply, Hok. constructor; [|done]. by eexists _, _.
Qed.

Lemma wait_semaphores_keeps request :
  keeps (bvb_vulkan_global_context_wait_semaphores driver request).
Proof.
  run_keeps bvb_vulkan_global_context_wait_semaphores.
  eapply wp_wait_handles; [done| |intros e; wp_run].
  intros bits Hb. wp_run. split; [by eapply device_alive|].
  eapply stored_used; [done|decide_list|done].
Qed.

Lemma signal_semaphore_keeps request :
  keeps (bvb_vulkan_global_context_signal_semaphore driver request).
Proof. run_keeps bvb_vulkan_global_context_signal_semaphore. Qed.

Lemma create_query_pool_keeps request :
  keeps (bvb_vulkan_global_context_create_query_pool driver request).
Proof.
  run_keeps bvb_vulkan_global_context_create_query_pool.
  note_inserted. wp_run.
Qed.

Lemma destroy_query_pool_destroys :
  destroys (bvb_vulkan_global_context_destroy_query_pool driver).
Proof.
  run_destroys bvb_vulkan_global_context_destroy_query_pool.
  unfold clear_query_pool_metadata. wp_run.
Qed.

Lemma get_query_pool_results_keeps request :
  keeps (bvb_vulkan_global_context_get_query_pool_results driver request).
Proof. run_keeps bvb_vulkan_global_context_get_query_pool_results. Qed.

Lemma reset_query_pool_keeps request :
  keeps (bvb_vulkan_global_context_reset_query_pool driver request).
Proof. run_keeps bvb_vulkan_global_context_reset_query_pool. Qed.
End invariant.
