(* ===== verification/BackendDescriptor.v ===== *)
(** * BackendDescriptor: descriptor layouts, pools, sets, samplers, templates

    The operations of src/vulkan_global.c on descriptor set layouts, update
    templates, descriptor pools and sets, samplers and pipeline layouts.  A
    pool owns its sets: resetting or destroying it takes them out of the
    store.  Every operation keeps the store's invariant. *)

From stdpp Require Import strings gmap.
From S2P Require Import Prelude Wire Abi Codec ProtocolResource DescriptorTypes Backend BackendInvariant BackendRules BackendSync.

Section operations.
Context `{VulkanCore}.
Context (driver : list event -> vk_call -> vk_reply).

Definition core_descriptor_types : list Z :=
  [VK_DESCRIPTOR_TYPE_SAMPLER; VK_DESCRIPTOR_TYPE_COMBINED_IMAGE_SAMPLER;
   VK_DESCRIPTOR_TYPE_SAMPLED_IMAGE; VK_DESCRIPTOR_TYPE_STORAGE_IMAGE;
   VK_DESCRIPTOR_TYPE_UNIFORM_TEXEL_BUFFER;
   VK_DESCRIPTOR_TYPE_STORAGE_TEXEL_BUFFER; VK_DESCRIPTOR_TYPE_UNIFORM_BUFFER;
   VK_DESCRIPTOR_TYPE_STORAGE_BUFFER;
   VK_DESCRIPTOR_TYPE_UNIFORM_BUFFER_DYNAMIC;
   VK_DESCRIPTOR_TYPE_STORAGE_BUFFER_DYNAMIC;
   VK_DESCRIPTOR_TYPE_INPUT_ATTACHMENT].
Definition core_descriptor_type_supported (descriptor_type : Z) : bool :=
  bool_decide (descriptor_type ∈ core_descriptor_types).

(** ** Descriptor set layouts *)

Definition layout_binding_supported (has_binding_flags : Z)
    (wire : bvb_vulkan_descriptor_layout_binding) : bool :=
  negb (negb (core_descriptor_type_supported wire.(dlb_descriptor_type)) ||
        (wire.(dlb_descriptor_count) =? 0) ||
        (2 ^ 20 <? wire.(dlb_descriptor_count)) ||
        (wire.(dlb_stage_flags) =? 0) ||
        negb (Z.ldiff wire.(dlb_binding_flags)
                (Z.lor VK_DESCRIPTOR_BINDING_UPDATE_AFTER_BIND_BIT
                   (Z.lor VK_DESCRIPTOR_BINDING_UPDATE_UNUSED_WHILE_PENDING_BIT
                      VK_DESCRIPTOR_BINDING_PARTIALLY_BOUND_BIT)) =? 0) ||
        ((has_binding_flags =? 0) && negb (wire.(dlb_binding_flags) =? 0))).

Definition bvb_vulkan_global_context_create_descriptor_set_layout
    (request : bvb_vulkan_descriptor_set_layout_create_request) :
    M bvb_vulkan_object_create_response :=
  reply_if negb (Z.ldiff request.(dslc_rq_flags)
                   VK_DESCRIPTOR_SET_LAYOUT_CREATE_UPDATE_AFTER_BIND_POOL_BIT
                 =? 0) ||
           (BVB_VULKAN_MAX_DESCRIPTOR_LAYOUT_BINDINGS <?
              request.(dslc_rq_binding_count)) ||
           (1 <? request.(dslc_rq_has_binding_flags))
    with object_response VK_ERROR_FEATURE_NOT_PRESENT 0 ;;
  let bindings := firstn (Z.to_nat request.(dslc_rq_binding_count))
                    request.(dslc_rq_bindings) in
  reply_if negb (forallb (layout_binding_supported
                            request.(dslc_rq_has_binding_flags)) bindings)
    with object_response VK_ERROR_FEATURE_NOT_PRESENT 0 ;;
  do (_, device) :=
    table_lookup request.(dslc_rq_device_id) BVB_OBJECT_DEVICE ;;
  do create_layout := device_proc driver device "vkCreateDescriptorSetLayout" ;;
  do destroy_layout :=
    device_proc driver device "vkDestroyDescriptorSetLayout" ;;
  stop_if negb create_layout || negb destroy_layout with (- ENOSYS) ;;
  do created := invoke driver create_layout
    (Create BVB_OBJECT_DESCRIPTOR_SET_LAYOUT device []
       (request.(dslc_rq_flags) ::
        mjoin ((fun b => [b.(dlb_binding); b.(dlb_descriptor_type);
                 b.(dlb_descriptor_count); b.(dlb_stage_flags)] ++
                 (if request.(dslc_rq_has_binding_flags) =? 0 then []
                  else [b.(dlb_binding_flags)])) <$> bindings))) ;;
  reply_if negb (created.(rp_result) =? VK_SUCCESS)
    with object_response created.(rp_result) 0 ;;
  do wire_id := next_id BVB_OBJECT_DESCRIPTOR_SET_LAYOUT ;;
  do result := catch (table_insert wire_id request.(dslc_rq_device_id)
                        (rp_handle created)) ;;
  if negb (is_ok result) then
    do _ := invoke driver destroy_layout
      (Destroy BVB_OBJECT_DESCRIPTOR_SET_LAYOUT device (rp_handle created)) ;;
    ret (object_response VK_ERROR_TOO_MANY_OBJECTS 0)
  else ret (object_response created.(rp_result) wire_id).

Definition bvb_vulkan_global_context_destroy_descriptor_set_layout
    (layout_id : Z) : M unit :=
  do (_, device, layout) :=
    resolve_device_child layout_id BVB_OBJECT_DESCRIPTOR_SET_LAYOUT ;;
  do destroy_layout :=
    device_proc driver device "vkDestroyDescriptorSetLayout" ;;
  stop_if negb destroy_layout with (- ENOSYS) ;;
  do _ := table_remove layout_id BVB_OBJECT_DESCRIPTOR_SET_LAYOUT ;;
  do _ := invoke driver destroy_layout
    (Destroy BVB_OBJECT_DESCRIPTOR_SET_LAYOUT device layout) ;;
  ret tt.

(** ** Update templates *)

(** [sizeof] of [VkDescriptorImageInfo], [VkBufferView] and
    [VkDescriptorBufferInfo] on LP64. *)
Definition descriptor_template_data_size (descriptor_type : Z) : Z :=
  if bool_decide (descriptor_type ∈
       [VK_DESCRIPTOR_TYPE_SAMPLER; VK_DESCRIPTOR_TYPE_COMBINED_IMAGE_SAMPLER;
        VK_DESCRIPTOR_TYPE_SAMPLED_IMAGE; VK_DESCRIPTOR_TYPE_STORAGE_IMAGE;
        VK_DESCRIPTOR_TYPE_INPUT_ATTACHMENT]) then 24
  else if bool_decide (descriptor_type ∈
       [VK_DESCRIPTOR_TYPE_UNIFORM_TEXEL_BUFFER;
        VK_DESCRIPTOR_TYPE_STORAGE_TEXEL_BUFFER]) then 8
  else if bool_decide (descriptor_type ∈
       [VK_DESCRIPTOR_TYPE_UNIFORM_BUFFER; VK_DESCRIPTOR_TYPE_STORAGE_BUFFER;
        VK_DESCRIPTOR_TYPE_UNIFORM_BUFFER_DYNAMIC;
        VK_DESCRIPTOR_TYPE_STORAGE_BUFFER_DYNAMIC]) then 24
  else 0.

Definition template_entry_supported
    (wire : bvb_vulkan_descriptor_update_template_entry) : bool :=
  let value_size := descriptor_template_data_size wire.(dute_descriptor_type) in
  let limit := BVB_VULKAN_MAX_DESCRIPTOR_UPDATE_TEMPLATE_DATA_SIZE in
  negb (negb (core_descriptor_type_supported wire.(dute_descriptor_type)) ||
        (value_size =? 0) || (wire.(dute_descriptor_count) =? 0) ||
        (2 ^ 20 <? wire.(dute_descriptor_count)) ||
        (wire.(dute_stride) =? 0) || (limit <=? wire.(dute_offset)) ||
        (limit - value_size <? wire.(dute_offset)) ||
        (limit <? wire.(dute_stride)) ||
        ((limit - value_size - wire.(dute_offset)) / wire.(dute_stride) <?
           wire.(dute_descriptor_count) - 1)).

Definition bvb_vulkan_global_context_create_descriptor_update_template
    (request : bvb_vulkan_descriptor_update_template_create_request) :
    M bvb_vulkan_object_create_response :=
  reply_if negb (request.(dutc_rq_flags) =? 0) ||
           (request.(dutc_rq_entry_count) =? 0) ||
           (BVB_VULKAN_MAX_DESCRIPTOR_UPDATE_TEMPLATE_ENTRIES <?
              request.(dutc_rq_entry_count)) ||
           negb (request.(dutc_rq_template_type) =?
                   VK_DESCRIPTOR_UPDATE_TEMPLATE_TYPE_DESCRIPTOR_SET) ||
           negb (request.(dutc_rq_set) =? 0) ||
           negb (request.(dutc_rq_pipeline_layout_id) =? 0) ||
           negb (request.(dutc_rq_pipeline_bind_point) =? 0)
    with object_response VK_ERROR_FEATURE_NOT_PRESENT 0 ;;
  do (_, device) :=
    table_lookup request.(dutc_rq_device_id) BVB_OBJECT_DEVICE ;;
  do (layout_device_id, layout) :=
    table_lookup request.(dutc_rq_descriptor_set_layout_id)
      BVB_OBJECT_DESCRIPTOR_SET_LAYOUT ;;
  stop_if negb (layout_device_id =? request.(dutc_rq_device_id))
    with (- EPROTO) ;;
  let entries := firstn (Z.to_nat request.(dutc_rq_entry_count))
                   request.(dutc_rq_entries) in
  reply_if negb (forallb template_entry_supported entries)
    with object_response VK_ERROR_FEATURE_NOT_PRESENT 0 ;;
  do create_template :=
    device_proc driver device "vkCreateDescriptorUpdateTemplate" ;;
  do destroy_template :=
    device_proc driver device "vkDestroyDescriptorUpdateTemplate" ;;
  stop_if negb create_template || negb destroy_template with (- ENOSYS) ;;
  do created := invoke driver create_template
    (Create BVB_OBJECT_DESCRIPTOR_UPDATE_TEMPLATE device
       [(BVB_OBJECT_DESCRIPTOR_SET_LAYOUT, layout)]
       (mjoin ((fun e => [e.(dute_dst_binding); e.(dute_dst_array_element);
          e.(dute_descriptor_count); e.(dute_descriptor_type);
          e.(dute_offset); e.(dute_stride)]) <$> entries))) ;;
  reply_if negb (created.(rp_result) =? VK_SUCCESS)
    with object_response created.(rp_result) 0 ;;
  do wire_id := next_id BVB_OBJECT_DESCRIPTOR_UPDATE_TEMPLATE ;;
  do result := catch (table_insert wire_id request.(dutc_rq_device_id)
                        (rp_handle created)) ;;
  if negb (is_ok result) then
    do _ := invoke driver destroy_template
      (Destroy BVB_OBJECT_DESCRIPTOR_UPDATE_TEMPLATE device
         (rp_handle created)) ;;
    ret (object_response VK_ERROR_TOO_MANY_OBJECTS 0)
  else
    do context := get_context ;;
    match descriptor_template_slot context 0 with
    | None =>
        do _ := catch (table_remove wire_id
                         BVB_OBJECT_DESCRIPTOR_UPDATE_TEMPLATE) ;;
        do _ := invoke driver destroy_template
          (Destroy BVB_OBJECT_DESCRIPTOR_UPDATE_TEMPLATE device
             (rp_handle created)) ;;
        ret (object_response VK_ERROR_TOO_MANY_OBJECTS 0)
    | Some (index, _) =>
        do _ := put_context (set_template_metadata index
          (mk_descriptor_template_metadata wire_id request.(dutc_rq_device_id)
             request.(dutc_rq_entry_count) entries)) ;;
        ret (object_response created.(rp_result) wire_id)
    end.

Definition clear_template_metadata (id : Z) : M unit :=
  do context := get_context ;;
  match descriptor_template_slot context id with
  | Some (index, metadata) =>
      if metadata.(tm_template_id) =? id
      then put_context (set_template_metadata index zero_template_metadata)
      else ret tt
  | None => ret tt
  end.

Definition bvb_vulkan_global_context_destroy_descriptor_update_template
    (template_id : Z) : M unit :=
  do (_, device, template) :=
    resolve_device_child template_id BVB_OBJECT_DESCRIPTOR_UPDATE_TEMPLATE ;;
  do destroy_template :=
    device_proc driver device "vkDestroyDescriptorUpdateTemplate" ;;
  stop_if negb destroy_template with (- ENOSYS) ;;
  do _ := table_remove template_id BVB_OBJECT_DESCRIPTOR_UPDATE_TEMPLATE ;;
  do _ := clear_template_metadata template_id ;;
  do _ := invoke driver destroy_template
    (Destroy BVB_OBJECT_DESCRIPTOR_UPDATE_TEMPLATE device template) ;;
  ret tt.

(** ** Descriptor pools *)

Definition pool_size_supported (size : bvb_vulkan_descriptor_pool_size) : bool :=
  negb (negb (core_descriptor_type_supported size.(dps_descriptor_type)) ||
        (size.(dps_descriptor_count) =? 0) ||
        (2 ^ 20 <? size.(dps_descriptor_count))).

Definition bvb_vulkan_global_context_create_descriptor_pool
    (request : bvb_vulkan_descriptor_pool_create_request) :
    M bvb_vulkan_object_create_response :=
  reply_if negb (Z.ldiff request.(dpc_rq_flags)
                   VK_DESCRIPTOR_POOL_CREATE_UPDATE_AFTER_BIND_BIT =? 0) ||
           (request.(dpc_rq_max_sets) =? 0) ||
           (2 ^ 20 <? request.(dpc_rq_max_sets)) ||
           (request.(dpc_rq_pool_size_count) =? 0) ||
           (BVB_VULKAN_MAX_DESCRIPTOR_POOL_SIZES <?
              request.(dpc_rq_pool_size_count))
    with object_response VK_ERROR_FEATURE_NOT_PRESENT 0 ;;
  let sizes := firstn (Z.to_nat request.(dpc_rq_pool_size_count))
                 request.(dpc_rq_pool_sizes) in
  reply_if negb (forallb pool_size_supported sizes)
    with object_response VK_ERROR_FEATURE_NOT_PRESENT 0 ;;
  do (_, device) := table_lookup request.(dpc_rq_device_id) BVB_OBJECT_DEVICE ;;
  do create_pool := device_proc driver device "vkCreateDescriptorPool" ;;
  do destroy_pool := device_proc driver device "vkDestroyDescriptorPool" ;;
  stop_if negb create_pool || negb destroy_pool with (- ENOSYS) ;;
  do created := invoke driver create_pool
    (Create BVB_OBJECT_DESCRIPTOR_POOL device []
       (request.(dpc_rq_flags) :: request.(dpc_rq_max_sets) ::
        mjoin ((fun s => [s.(dps_descriptor_type); s.(dps_descriptor_count)])
                 <$> sizes))) ;;
  reply_if negb (created.(rp_result) =? VK_SUCCESS)
    with object_response created.(rp_result) 0 ;;
  do wire_id := next_id BVB_OBJECT_DESCRIPTOR_POOL ;;
  do result := catch (table_insert wire_id request.(dpc_rq_device_id)
                        (rp_handle created)) ;;
  if negb (is_ok result) then
    do _ := invoke driver destroy_pool
      (Destroy BVB_OBJECT_DESCRIPTOR_POOL device (rp_handle created)) ;;
    ret (object_response VK_ERROR_TOO_MANY_OBJECTS 0)
  else ret (object_response created.(rp_result) wire_id).

(** The loop that takes the sets of a pool out of the store. *)
Definition remove_children (type parent_id : Z) : M unit :=
  for_children type parent_id (fun id =>
    do _ := table_remove id type ;; ret tt).

Definition bvb_vulkan_global_context_destroy_descriptor_pool (pool_id : Z) :
    M unit :=
  do (_, device, pool) :=
    resolve_device_child pool_id BVB_OBJECT_DESCRIPTOR_POOL ;;
  do destroy_pool := device_proc driver device "vkDestroyDescriptorPool" ;;
  stop_if negb destroy_pool with (- ENOSYS) ;;
  do _ := remove_children BVB_OBJECT_DESCRIPTOR_SET pool_id ;;
  do _ := table_remove pool_id BVB_OBJECT_DESCRIPTOR_POOL ;;
  do _ := invoke driver destroy_pool
    (Destroy BVB_OBJECT_DESCRIPTOR_POOL device pool) ;;
  ret tt.

Definition bvb_vulkan_global_context_reset_descriptor_pool
    (request : bvb_vulkan_descriptor_pool_reset_request) : M Z :=
  stop_if negb (request.(dpr_rq_flags) =? 0) with (- EINVAL) ;;
  do (_, device, pool) :=
    resolve_device_child request.(dpr_rq_descriptor_pool_id)
      BVB_OBJECT_DESCRIPTOR_POOL ;;
  do reset_pool := device_proc driver device "vkResetDescriptorPool" ;;
  stop_if negb reset_pool with (- ENOSYS) ;;
  do status := invoke driver reset_pool
    (ResetDescriptorPool device pool request.(dpr_rq_flags)) ;;
  reply_if negb (status.(rp_result) =? VK_SUCCESS) with status.(rp_result) ;;
  do _ := remove_children BVB_OBJECT_DESCRIPTOR_SET
            request.(dpr_rq_descriptor_pool_id) ;;
  ret status.(rp_result).

(** The loop that resolves the layouts of the sets. *)
Fixpoint set_layouts (device_id : Z) (layout_ids : list Z) : M (list Z) :=
  match layout_ids with
  | [] => ret []
  | layout_id :: layout_ids =>
      do (layout_device_id, layout) :=
        table_lookup layout_id BVB_OBJECT_DESCRIPTOR_SET_LAYOUT ;;
      stop_if negb (layout_device_id =? device_id) with (- EPROTO) ;;
      do rest := set_layouts device_id layout_ids ;;
      ret (layout :: rest)
  end.

(** The loop that stores the sets: whether the store took all of them, and
    the identifiers given so far.  Those stay in the store until the pool is
    reset, even when a later one is refused. *)
Fixpoint store_sets (pool_id : Z) (sets : list Z) : M (bool * list Z) :=
  match sets with
  | [] => ret (true, [])
  | set_bits :: sets =>
      do wire_id := next_id BVB_OBJECT_DESCRIPTOR_SET ;;
      do result := catch (table_insert wire_id pool_id set_bits) ;;
      if negb (is_ok result) then ret (false, [])
      else
        do (all, rest) := store_sets pool_id sets ;;
        ret (all, wire_id :: rest)
  end.

(** [VkDescriptorSet sets[16] = {0}], filled by the driver. *)
Definition allocated_sets (count : Z) (values : list Z) : list Z :=
  firstn (Z.to_nat count)
    (values ++ replicate (Z.to_nat count) 0)%list.

Definition set_allocate_response (vulkan_result count : Z) (ids : list Z) :=
  mk_bvb_vulkan_descriptor_set_allocate_response vulkan_result count
    (ids ++ replicate (16 - List.length ids) 0)%list.

Definition bvb_vulkan_global_context_allocate_descriptor_sets
    (request : bvb_vulkan_descriptor_set_allocate_request) :
    M bvb_vulkan_descriptor_set_allocate_response :=
  do context := get_context ;;
  reply_if (request.(dsa_rq_descriptor_set_count) =? 0) ||
           (BVB_VULKAN_MAX_DESCRIPTOR_SETS_PER_ALLOCATE <?
              request.(dsa_rq_descriptor_set_count)) ||
           (context.(ctx_objects).(ht_capacity) -
              context.(ctx_objects).(ht_count) <?
              request.(dsa_rq_descriptor_set_count))
    with set_allocate_response VK_ERROR_TOO_MANY_OBJECTS 0 [] ;;
  do (device_id, device, pool) :=
    resolve_device_child request.(dsa_rq_descriptor_pool_id)
      BVB_OBJECT_DESCRIPTOR_POOL ;;
  do layouts := set_layouts device_id
    (firstn (Z.to_nat request.(dsa_rq_descriptor_set_count))
       request.(dsa_rq_set_layout_ids)) ;;
  do allocate_sets := device_proc driver device "vkAllocateDescriptorSets" ;;
  stop_if negb allocate_sets with (- ENOSYS) ;;
  do allocated := invoke driver allocate_sets
    (AllocateDescriptorSets device pool layouts) ;;
  reply_if negb (allocated.(rp_result) =? VK_SUCCESS)
    with set_allocate_response allocated.(rp_result) 0 [] ;;
  do (all, ids) := store_sets request.(dsa_rq_descriptor_pool_id)
    (allocated_sets request.(dsa_rq_descriptor_set_count)
       allocated.(rp_values)) ;;
  if negb all then ret (set_allocate_response VK_ERROR_TOO_MANY_OBJECTS 0 ids)
  else ret (set_allocate_response allocated.(rp_result)
              request.(dsa_rq_descriptor_set_count) ids).
End operations.

(** ** The invariant *)

Section invariant.
Context `{VulkanCore}.
Context (driver : list event -> vk_call -> vk_reply).
Context {CD : ConformingDriver driver} {AP : Apart}.

Lemma create_descriptor_set_layout_keeps request :
  keeps (bvb_vulkan_global_context_create_descriptor_set_layout driver request).
Proof. run_keeps bvb_vulkan_global_context_create_descriptor_set_layout. Qed.

Lemma destroy_descriptor_set_layout_destroys :
  destroys (bvb_vulkan_global_context_destroy_descriptor_set_layout driver).
Proof.
  run_destroys bvb_vulkan_global_context_destroy_descriptor_set_layout.
Qed.

Lemma create_descriptor_update_template_keeps request :
  keeps (bvb_vulkan_global_context_create_descriptor_update_template driver
           request).
Proof.
  run_keeps bvb_vulkan_global_context_create_descriptor_update_template.
  note_inserted. wp_run.
Qed.

Lemma destroy_descriptor_update_template_destroys :
  destroys (bvb_vulkan_global_context_destroy_descriptor_update_template driver).
Proof.
  run_destroys bvb_vulkan_global_context_destroy_descriptor_update_template.
  unfold clear_template_metadata. wp_run.
Qed.

Lemma create_descriptor_pool_keeps request :
  keeps (bvb_vulkan_global_context_create_descriptor_pool driver request).
Proof. run_keeps bvb_vulkan_global_context_create_descriptor_pool. Qed.

(** The sets of a pool are leaves that the driver keeps with the pool. *)
Lemma wp_remove_sets St t w pool_id Q :
  At [] St t w ->
  (forall t' w', At [] St t' w' ->
     sheds BVB_OBJECT_DESCRIPTOR_SET pool_id t t' ->
     no_child (table_map t') BVB_OBJECT_DESCRIPTOR_SET pool_id ->
     Q (Ok tt) w') ->
  wp (remove_children BVB_OBJECT_DESCRIPTOR_SET pool_id) Q w.
Proof.
  intros I HQ. eapply wp_remove_children; [done|decide_list|done| |done].
  intros t1 id b _ Hf _ _ Ht. apply childless_leaf; [done|]. rewrite Ht. decide_list.
Qed.

Lemma destroy_descriptor_pool_destroys :
  destroys (bvb_vulkan_global_context_destroy_descriptor_pool driver).
Proof.
  run_destroys bvb_vulkan_global_context_destroy_descriptor_pool.
  eapply wp_remove_sets; [done|]. intros t1 w1 I1 [Hsh Hkeep] Hn.
  pose proof (Hkeep _ _ _ H1 ltac:(by rewrite H2; intros [])).
  pose proof (Hkeep _ _ _ H3 ltac:(by rewrite H4; intros [])).
  wp_run.
  eapply (childless_no_child _ _ _ [BVB_OBJECT_DESCRIPTOR_SET]);
    [apply I1|done|decide_list|].
  by intros dep ->%list_elem_of_singleton.
Qed.

(** The sets of a pool, stale between its reset and their removal. *)
Definition sets_of (t : bvb_handle_table) (pool_id id : Z) : Prop :=
  bvb_handle_type id = BVB_OBJECT_DESCRIPTOR_SET /\
  parent_of (table_map t) id = pool_id.

Lemma wp_reset_pool f t w pool_id b did d p flags Q :
  At [] none t w -> f = true -> table_map t !! pool_id = Some (did, b) ->
  bvb_handle_type pool_id = BVB_OBJECT_DESCRIPTOR_POOL ->
  table_map t !! did = Some (p, d) ->
  bvb_handle_type did = BVB_OBJECT_DEVICE ->
  (forall r w', At [] none t w' -> (rp_result r =? VK_SUCCESS) = false ->
     Q (Ok r) w') ->
  (forall r w', At [] (sets_of t pool_id) t w' ->
     (rp_result r =? VK_SUCCESS) = true -> Q (Ok r) w') ->
  wp (invoke driver f (ResetDescriptorPool d b flags)) Q w.
Proof.
  intros I Hf Hm Ht Hd Hdt Hfail Hok. apply wp_invoke_base; [done|].
  set (r := driver _ _). destruct (Z.eqb_spec (rp_result r) VK_SUCCESS) as [E|E].
  - apply Hok; [|by apply Z.eqb_eq]. by eapply At_reset_pool.
  - apply Hfail; [|by apply Z.eqb_neq]. apply At_neutral; [done| |].
    + cbn. split; [by eapply device_alive|].
      by eapply owned_alive; try done; decide_list.
    + cbn. by rewrite (proj2 (Z.eqb_neq _ _) E).
Qed.

Lemma sets_removed t t' w pool_id :
  At [] (sets_of t pool_id) t' w -> wf t -> clean t -> shrinks t t' ->
  no_child (table_map t') BVB_OBJECT_DESCRIPTOR_SET pool_id ->
  At [] none t' w.
Proof.
  intros I Hwf Hc Hsh Hn. eapply At_stale; [exact I|].
  intros id [[p b] Hm] [Ht Hp]. exfalso. apply (Hn id p b Hm Ht).
  rewrite <- Hp. unfold parent_of.
  rewrite (shrinks_lookup t t' id (p, b) Hwf Hc (at_wf _ _ _ _ I) Hsh); [done| |done].
  by eapply typed_nonzero.
Qed.

Lemma reset_descriptor_pool_keeps request :
  keeps (bvb_vulkan_global_context_reset_descriptor_pool driver request).
Proof.
  run_keeps bvb_vulkan_global_context_reset_descriptor_pool.
  eapply wp_reset_pool; [done|entry_point|done..| |];
    intros r w' I' Er; cbn [then_wp]; rewrite Er; cbn [negb]; [wp_run|].
  wp_step. eapply wp_remove_sets; [done|]. intros t1 w1 I1 [Hsh _] Hn.
  cbn [then_wp]. wp_step. exists t1.
  eapply sets_removed; [done|apply I0|apply I0|done|done].
Qed.

Lemma wp_set_layouts X St t w device_id l Q :
  At X St t w ->
  (forall bits,
     Forall (fun b => exists id, table_map t !! id = Some (device_id, b) /\
       bvb_handle_type id = BVB_OBJECT_DESCRIPTOR_SET_LAYOUT) bits ->
     Q (Ok bits) w) ->
  (forall e, Q (Err e) w) ->
  wp (set_layouts device_id l) Q w.
Proof.
  intros I. revert Q. induction l as [|s l IH]; intros Q Hok Herr; cbn [set_layouts].
  { apply wp_reply, Hok. by constructor. }
  wp_run; try done. apply IH; [|done]. intros bits Hb. cbn [then_wp].
  apply wp_reply, Hok. constructor; [|done].
  apply negb_false_iff, Z.eqb_eq in E. subst. by exists s.
Qed.

Lemma wp_store_sets pool_id pool sets t w Q :
  At [] none t w ->
  bvb_handle_type pool_id = BVB_OBJECT_DESCRIPTOR_POOL ->
  is_Some (table_map t !! pool_id) -> bits_of (table_map t) pool_id = pool ->
  Forall (fun b => b <> 0 -> (BVB_OBJECT_DESCRIPTOR_SET, pool, b) ∈
    ds_known (driver_after VK_SUCCESS w.(w_log))) sets ->
  (forall x w', settled w' -> Q (Ok x) w') ->
  wp (store_sets pool_id sets) Q w.
Proof.
  intros I Hty. revert t w I Q.
  induction sets as [|b sets IH]; intros t w I Q Hp Hb Hk HQ; cbn [store_sets].
  { apply wp_reply, HQ. by exists t. }
  apply Forall_cons_1 in Hk as [Hk Hks].
  apply wp_do. eapply wp_next_id; [exact I|]. intros id w1 I1 Hl Hid _. cbn [then_wp].
  apply wp_do, wp_catch.
  eapply (wp_insert_known BVB_OBJECT_DESCRIPTOR_SET); [exact I1|done|decide_list| |done|done| | | |].
  - decide_list.
  - rewrite Hl. unfold owner. cbn. by rewrite Hb.
  - intros Hd. exfalso. revert Hd. decide_list.
  - intros t2 w2 I2 Hid2 Ht2 Hn Hl2. cbn [then_wp is_ok negb]. apply wp_do.
    apply (IH t2 w2 I2).
    + rewrite Ht2. destruct Hp as [x Hp]. exists x.
      rewrite lookup_insert_ne; [done|]. congruence.
    + rewrite Ht2. unfold bits_of. rewrite lookup_insert_ne; [done|].
      intros <-. destruct Hp as [x Hp]. congruence.
    + by rewrite Hl2, Hl.
    + intros [all rest] w3 I3. cbn [then_wp]. by apply wp_reply, HQ.
  - intros e. cbn [then_wp is_ok negb]. apply wp_reply, HQ. by exists t.
Qed.

Lemma allocated_sets_values count values :
  Forall (fun b => b <> 0 -> b ∈ values) (allocated_sets count values).
Proof.
  unfold allocated_sets. apply Forall_take, Forall_app. split.
  - apply Forall_forall. by intros b Hb%list_elem_of_In.
  - by apply Forall_replicate.
Qed.

Lemma allocate_descriptor_sets_keeps request :
  keeps (bvb_vulkan_global_context_allocate_descriptor_sets driver request).
Proof.
  run_keeps bvb_vulkan_global_context_allocate_descriptor_sets.
  eapply wp_set_layouts; [done| |intros e; wp_run].
  intros layouts Hl. wp_run.
  apply wp_invoke_base; [entry_point|]. set (c := AllocateDescriptorSets _ _ _).
  set (r := driver _ c).
  assert (Ha : allowed (driver_after VK_SUCCESS (w_log w0)) c).
  { cbn. split_and!; [by eapply device_alive| |].
    - by eapply owned_alive; try done; decide_list.
    - eapply Forall_impl; [|exact Hl]. intros x (id & Hm & Hty).
      by eapply owned_alive; try done; decide_list. }
  cbn [then_wp]. destruct (rp_result r =? VK_SUCCESS) eqn:Er; cbn [negb].
  - assert (I1 : At [] none t (observe w0 (c, r))).
    { apply (At_learned [] none t w0 c r BVB_OBJECT_DESCRIPTOR_SET b); [done|done|].
      cbn. by rewrite Er. }
    apply wp_do. eapply (wp_store_sets _ b); [exact I1|done|by eauto| | |].
    + unfold bits_of. by rewrite H0.
    + eapply Forall_impl; [|apply allocated_sets_values].
      intros x Hx Hne. unfold observe. cbn [w_log].
      rewrite driver_after_snoc. cbn. rewrite Er. cbn.
      apply elem_of_app. left. apply list_elem_of_fmap. eauto.
    + intros [all ids] w1 I2. cbn [then_wp]. by destruct all; apply wp_reply.
  - apply wp_reply. exists t. apply At_neutral; [done|done|]. cbn. by rewrite Er.
Qed.
End invariant.
