(* ===== verification/BackendPipeline.v ===== *)
(** * BackendPipeline: samplers, descriptor updates and pipeline layouts

    The operations of src/vulkan_global.c on samplers, on the contents of
    descriptor sets, and on pipeline layouts, and the destruction of
    pipelines.  A request names objects by identifier; an operation checks
    that each of them belongs to the device of the request before the driver
    sees its handle.  Every operation keeps the store's invariant. *)

From stdpp Require Import strings gmap.
From S2P Require Import Prelude Wire Abi Codec ProtocolResource DescriptorTypes Backend BackendInvariant BackendRules BackendSync BackendDescriptor.

Section operations.
Context `{VulkanCore}.
Context (driver : list event -> vk_call -> vk_reply).

(** ** Samplers *)

Definition bvb_vulkan_global_context_create_sampler
    (request : bvb_vulkan_sampler_create_request) :
    M bvb_vulkan_object_create_response :=
  let clamp := VK_SAMPLER_ADDRESS_MODE_MIRROR_CLAMP_TO_EDGE in
  reply_if negb (request.(smpc_rq_flags) =? 0) ||
           (VK_FILTER_LINEAR <? request.(smpc_rq_mag_filter)) ||
           (VK_FILTER_LINEAR <? request.(smpc_rq_min_filter)) ||
           (VK_SAMPLER_MIPMAP_MODE_LINEAR <? request.(smpc_rq_mipmap_mode)) ||
           (clamp <? request.(smpc_rq_address_mode_u)) ||
           (clamp <? request.(smpc_rq_address_mode_v)) ||
           (clamp <? request.(smpc_rq_address_mode_w)) ||
           (1 <? request.(smpc_rq_anisotropy_enable)) ||
           (1 <? request.(smpc_rq_compare_enable)) ||
           (VK_COMPARE_OP_ALWAYS <? request.(smpc_rq_compare_op)) ||
           (VK_BORDER_COLOR_INT_OPAQUE_WHITE <?
              request.(smpc_rq_border_color)) ||
           (1 <? request.(smpc_rq_unnormalized_coordinates))
    with object_response VK_ERROR_FEATURE_NOT_PRESENT 0 ;;
  do (_, device) :=
    table_lookup request.(smpc_rq_device_id) BVB_OBJECT_DEVICE ;;
  do create_sampler := device_proc driver device "vkCreateSampler" ;;
  do destroy_sampler := device_proc driver device "vkDestroySampler" ;;
  stop_if negb create_sampler || negb destroy_sampler with (- ENOSYS) ;;
  do created := invoke driver create_sampler
    (Create BVB_OBJECT_SAMPLER device []
       [request.(smpc_rq_flags); request.(smpc_rq_mag_filter);
        request.(smpc_rq_min_filter); request.(smpc_rq_mipmap_mode);
        request.(smpc_rq_address_mode_u); request.(smpc_rq_address_mode_v);
        request.(smpc_rq_address_mode_w); request.(smpc_rq_mip_lod_bias_bits);
        request.(smpc_rq_anisotropy_enable);
        request.(smpc_rq_max_anisotropy_bits);
        request.(smpc_rq_compare_enable); request.(smpc_rq_compare_op);
        request.(smpc_rq_min_lod_bits); request.(smpc_rq_max_lod_bits);
        request.(smpc_rq_border_color);
        request.(smpc_rq_unnormalized_coordinates)]) ;;
  reply_if negb (created.(rp_result) =? VK_SUCCESS)
    with object_response created.(rp_result) 0 ;;
  do wire_id := next_id BVB_OBJECT_SAMPLER ;;
  do result := catch (table_insert wire_id request.(smpc_rq_device_id)
                        (rp_handle created)) ;;
  if negb (is_ok result) then
    do _ := invoke driver destroy_sampler
      (Destroy BVB_OBJECT_SAMPLER device (rp_handle created)) ;;
    ret (object_response VK_ERROR_TOO_MANY_OBJECTS 0)
  else ret (object_response created.(rp_result) wire_id).

Definition bvb_vulkan_global_context_destroy_sampler (sampler_id : Z) :
    M unit :=
  do (_, device, sampler) :=
    resolve_device_child sampler_id BVB_OBJECT_SAMPLER ;;
  do destroy_sampler := device_proc driver device "vkDestroySampler" ;;
  stop_if negb destroy_sampler with (- ENOSYS) ;;
  do _ := table_remove sampler_id BVB_OBJECT_SAMPLER ;;
  do _ := invoke driver destroy_sampler
    (Destroy BVB_OBJECT_SAMPLER device sampler) ;;
  ret tt.

(** ** Sampler writes *)

(** The loop that resolves the samplers of a descriptor update. *)
Fixpoint update_samplers (device_id : Z) (sampler_ids : list Z) :
    M (list Z) :=
  match sampler_ids with
  | [] => ret []
  | sampler_id :: sampler_ids =>
      do (sampler_device_id, sampler) :=
        table_lookup sampler_id BVB_OBJECT_SAMPLER ;;
      stop_if negb (sampler_device_id =? device_id) with (- EPROTO) ;;
      do rest := update_samplers device_id sampler_ids ;;
      ret (sampler :: rest)
  end.

(** The loop over the writes: the set of each, and the numbers of its
    [VkWriteDescriptorSet]. *)
Fixpoint update_writes (device_id sampler_count : Z)
    (writes : list bvb_vulkan_descriptor_write) : M (list Z * list Z) :=
  match writes with
  | [] => ret ([], [])
  | wire :: writes =>
      stop_if negb (wire.(dw_descriptor_type) =? VK_DESCRIPTOR_TYPE_SAMPLER) ||
              (wire.(dw_descriptor_count) =? 0) ||
              (sampler_count <=? wire.(dw_first_sampler)) ||
              (sampler_count - wire.(dw_first_sampler) <?
                 wire.(dw_descriptor_count)) with (- EPROTO) ;;
      do (pool_id, set_bits) :=
        table_lookup wire.(dw_descriptor_set_id) BVB_OBJECT_DESCRIPTOR_SET ;;
      do (set_device_id, _) :=
        table_lookup pool_id BVB_OBJECT_DESCRIPTOR_POOL ;;
      stop_if negb (set_device_id =? device_id) with (- EPROTO) ;;
      do (sets, numbers) := update_writes device_id sampler_count writes ;;
      ret (set_bits :: sets,
           wire.(dw_dst_binding) :: wire.(dw_dst_array_element) ::
           wire.(dw_descriptor_count) :: wire.(dw_descriptor_type) ::
           wire.(dw_first_sampler) :: numbers)
  end.

Definition bvb_vulkan_global_context_update_descriptors
    (request : bvb_vulkan_descriptor_update_request) : M unit :=
  stop_if (request.(du_rq_write_count) =? 0) ||
          (BVB_VULKAN_MAX_DESCRIPTOR_WRITES <? request.(du_rq_write_count)) ||
          (request.(du_rq_sampler_count) =? 0) ||
          (BVB_VULKAN_MAX_DESCRIPTOR_SAMPLERS <?
             request.(du_rq_sampler_count)) with (- EINVAL) ;;
  do (_, device) := table_lookup request.(du_rq_device_id) BVB_OBJECT_DEVICE ;;
  do samplers := update_samplers request.(du_rq_device_id)
    (firstn (Z.to_nat request.(du_rq_sampler_count))
       request.(du_rq_sampler_ids)) ;;
  do (sets, numbers) := update_writes request.(du_rq_device_id)
    request.(du_rq_sampler_count)
    (firstn (Z.to_nat request.(du_rq_write_count)) request.(du_rq_writes)) ;;
  do update := device_proc driver device "vkUpdateDescriptorSets" ;;
  stop_if negb update with (- ENOSYS) ;;
  do _ := invoke driver update
    (DeviceCall "vkUpdateDescriptorSets" device
       (((fun b => (BVB_OBJECT_SAMPLER, b)) <$> samplers) ++
        ((fun b => (BVB_OBJECT_DESCRIPTOR_SET, b)) <$> sets)) numbers) ;;
  ret tt.

(** ** Updates with a template *)

Definition descriptor_template_resolve_image_view
    (image_view_id expected_device_id : Z) : M Z :=
  reply_if image_view_id =? 0 with 0 ;;
  do (image_id, view_bits) :=
    table_lookup image_view_id BVB_OBJECT_IMAGE_VIEW ;;
  do (image_device_id, _) := table_lookup image_id BVB_OBJECT_IMAGE ;;
  stop_if negb (image_device_id =? expected_device_id) with (- EPROTO) ;;
  ret view_bits.

(** The handle of an optional object of the device: [VK_NULL_HANDLE] for the
    identifier 0. *)
Definition optional_child (object_id type expected_device_id : Z) : M Z :=
  reply_if object_id =? 0 with 0 ;;
  do (device_id, bits) := table_lookup object_id type ;;
  stop_if negb (device_id =? expected_device_id) with (- EPROTO) ;;
  ret bits.

(** The handles a use of the driver names: null handles name nothing. *)
Definition handles_used (uses : list (Z * Z)) : list (Z * Z) :=
  filter (fun '(_, bits) => bits <> 0) uses.

(** One value of the template: the handles and the numbers written to the
    data at its place. *)
Definition template_value (device_id : Z)
    (entry : bvb_vulkan_descriptor_update_template_entry)
    (value : bvb_vulkan_descriptor_template_value) :
    M (list (Z * Z) * list Z) :=
  let type := entry.(dute_descriptor_type) in
  stop_if negb (value.(dtv_descriptor_type) =? type) with (- EPROTO) ;;
  if bool_decide (type ∈
       [VK_DESCRIPTOR_TYPE_SAMPLER; VK_DESCRIPTOR_TYPE_COMBINED_IMAGE_SAMPLER;
        VK_DESCRIPTOR_TYPE_SAMPLED_IMAGE; VK_DESCRIPTOR_TYPE_STORAGE_IMAGE;
        VK_DESCRIPTOR_TYPE_INPUT_ATTACHMENT]) then
    let is_sampler := type =? VK_DESCRIPTOR_TYPE_SAMPLER in
    do sampler := catch (optional_child
      (if is_sampler then value.(dtv_object_id)
       else value.(dtv_auxiliary_object_id)) BVB_OBJECT_SAMPLER device_id) ;;
    stop_if is_sampler && negb (value.(dtv_auxiliary_object_id) =? 0)
      with (- EPROTO) ;;
    do sampler := of_result sampler ;;
    do view := (if is_sampler then ret 0
                else descriptor_template_resolve_image_view
                       value.(dtv_object_id) device_id) ;;
    ret (handles_used [(BVB_OBJECT_SAMPLER, sampler);
                       (BVB_OBJECT_IMAGE_VIEW, view)],
         [sampler; view; value.(dtv_image_layout)])
  else if bool_decide (type ∈
       [VK_DESCRIPTOR_TYPE_UNIFORM_TEXEL_BUFFER;
        VK_DESCRIPTOR_TYPE_STORAGE_TEXEL_BUFFER]) then
    stop_if negb (value.(dtv_object_id) =? 0) with (- ENOTSUP) ;;
    ret ([], [0])
  else if bool_decide (type ∈
       [VK_DESCRIPTOR_TYPE_UNIFORM_BUFFER; VK_DESCRIPTOR_TYPE_STORAGE_BUFFER;
        VK_DESCRIPTOR_TYPE_UNIFORM_BUFFER_DYNAMIC;
        VK_DESCRIPTOR_TYPE_STORAGE_BUFFER_DYNAMIC]) then
    do buffer := optional_child value.(dtv_object_id) BVB_OBJECT_BUFFER
                   device_id ;;
    ret (handles_used [(BVB_OBJECT_BUFFER, buffer)],
         [buffer; value.(dtv_offset); value.(dtv_range)])
  else stop (- ENOTSUP).

(** The values of one entry; each is preceded by its place in the data. *)
Fixpoint template_entry_values (device_id : Z)
    (entry : bvb_vulkan_descriptor_update_template_entry) (descriptor : Z)
    (values : list bvb_vulkan_descriptor_template_value) :
    M (list (Z * Z) * list Z) :=
  match values with
  | [] => ret ([], [])
  | value :: values =>
      do (uses, numbers) := template_value device_id entry value ;;
      do (uses', numbers') :=
        template_entry_values device_id entry (descriptor + 1) values ;;
      ret (uses ++ uses',
           (u64 (entry.(dute_offset) + descriptor * entry.(dute_stride)) ::
            numbers ++ numbers'))%list
  end.

Fixpoint template_values (device_id : Z)
    (entries : list bvb_vulkan_descriptor_update_template_entry)
    (values : list bvb_vulkan_descriptor_template_value) :
    M (list (Z * Z) * list Z) :=
  match entries with
  | [] => ret ([], [])
  | entry :: entries =>
      let count := Z.to_nat entry.(dute_descriptor_count) in
      do (uses, numbers) :=
        template_entry_values device_id entry 0 (firstn count values) ;;
      do (uses', numbers') :=
        template_values device_id entries (skipn count values) ;;
      ret (uses ++ uses', numbers ++ numbers')%list
  end.

(** The loop that counts the values and sizes the data. *)
Fixpoint template_extent (expected_values data_size : Z)
    (entries : list bvb_vulkan_descriptor_update_template_entry) :
    result (Z * Z) :=
  match entries with
  | [] => Ok (expected_values, data_size)
  | entry :: entries =>
      fail_if BVB_VULKAN_MAX_DESCRIPTOR_TEMPLATE_VALUES - expected_values <?
              entry.(dute_descriptor_count) with (- E2BIG) ;;
      let value_size :=
        descriptor_template_data_size entry.(dute_descriptor_type) in
      let end_ := u64 (entry.(dute_offset) +
        u64 (u32 (entry.(dute_descriptor_count) - 1) * entry.(dute_stride)) +
        value_size) in
      fail_if (value_size =? 0) ||
              (BVB_VULKAN_MAX_DESCRIPTOR_UPDATE_TEMPLATE_DATA_SIZE <? end_)
        with (- EPROTO) ;;
      template_extent (expected_values + entry.(dute_descriptor_count))
        (if data_size <? end_ then end_ else data_size) entries
  end.

Definition bvb_vulkan_global_context_update_descriptor_set_with_template
    (request : bvb_vulkan_descriptor_template_update_request) : M unit :=
  do (_, device) := table_lookup request.(dtu_rq_device_id) BVB_OBJECT_DEVICE ;;
  do (pool_id, set_bits) :=
    table_lookup request.(dtu_rq_descriptor_set_id) BVB_OBJECT_DESCRIPTOR_SET ;;
  do (pool_device_id, _) := table_lookup pool_id BVB_OBJECT_DESCRIPTOR_POOL ;;
  do (template_device_id, template_bits) :=
    table_lookup request.(dtu_rq_descriptor_update_template_id)
      BVB_OBJECT_DESCRIPTOR_UPDATE_TEMPLATE ;;
  do context := get_context ;;
  match descriptor_template_slot context
          request.(dtu_rq_descriptor_update_template_id) with
  | None => stop (- EPROTO)
  | Some (_, metadata) =>
  stop_if negb (pool_device_id =? request.(dtu_rq_device_id)) ||
          negb (template_device_id =? request.(dtu_rq_device_id)) ||
          negb (metadata.(tm_template_id) =?
                  request.(dtu_rq_descriptor_update_template_id)) ||
          negb (metadata.(tm_device_id) =? request.(dtu_rq_device_id))
    with (- EPROTO) ;;
  let entries := firstn (Z.to_nat metadata.(tm_entry_count))
                   metadata.(tm_entries) in
  do (expected_values, _) := of_result (template_extent 0 0 entries) ;;
  stop_if negb (request.(dtu_rq_value_count) =? expected_values)
    with (- EPROTO) ;;
  do (uses, numbers) :=
    template_values request.(dtu_rq_device_id) entries request.(dtu_rq_values) ;;
  do update := device_proc driver device "vkUpdateDescriptorSetWithTemplate" ;;
  stop_if negb update with (- ENOSYS) ;;
  do _ := invoke driver update
    (DeviceCall "vkUpdateDescriptorSetWithTemplate" device
       ((BVB_OBJECT_DESCRIPTOR_SET, set_bits) ::
        (BVB_OBJECT_DESCRIPTOR_UPDATE_TEMPLATE, template_bits) :: uses)
       numbers) ;;
  ret tt
  end.

(** ** Pipeline layouts *)

(** The loop over the set layouts: [None] is the reply that an identifier of
    0 needs the independent-sets flag. *)
Fixpoint pipeline_set_layouts (device_id flags : Z) (layout_ids : list Z) :
    M (option (list Z)) :=
  match layout_ids with
  | [] => ret (Some [])
  | layout_id :: layout_ids =>
      if layout_id =? 0 then
        reply_if Z.land flags VK_PIPELINE_LAYOUT_CREATE_INDEPENDENT_SETS_BIT_EXT
                 =? 0 with None ;;
        do rest := pipeline_set_layouts device_id flags layout_ids ;;
        ret (cons 0 <$> rest)
      else
        do (layout_device_id, layout) :=
          table_lookup layout_id BVB_OBJECT_DESCRIPTOR_SET_LAYOUT ;;
        stop_if negb (layout_device_id =? device_id) with (- EPROTO) ;;
        do rest := pipeline_set_layouts device_id flags layout_ids ;;
        ret (cons layout <$> rest)
  end.

Definition allowed_stages : Z :=
  Z.lor VK_SHADER_STAGE_VERTEX_BIT
    (Z.lor VK_SHADER_STAGE_TESSELLATION_CONTROL_BIT
      (Z.lor VK_SHADER_STAGE_TESSELLATION_EVALUATION_BIT
        (Z.lor VK_SHADER_STAGE_GEOMETRY_BIT
          (Z.lor VK_SHADER_STAGE_FRAGMENT_BIT VK_SHADER_STAGE_COMPUTE_BIT)))).

(** The loop over the push constant ranges; no two may share a stage. *)
Fixpoint push_constants_supported (used_stages : Z)
    (ranges : list bvb_vulkan_pipeline_push_constant_range) : bool :=
  match ranges with
  | [] => true
  | wire :: ranges =>
      negb ((wire.(ppcr_stage_flags) =? 0) ||
            negb (Z.ldiff wire.(ppcr_stage_flags) allowed_stages =? 0) ||
            negb (Z.land wire.(ppcr_stage_flags) used_stages =? 0) ||
            (wire.(ppcr_size) =? 0) ||
            negb (Z.land wire.(ppcr_offset) 3 =? 0) ||
            negb (Z.land wire.(ppcr_size) 3 =? 0) ||
            (256 <? wire.(ppcr_offset)) ||
            (256 - wire.(ppcr_offset) <? wire.(ppcr_size))) &&
      push_constants_supported (Z.lor used_stages wire.(ppcr_stage_flags))
        ranges
  end.

Definition bvb_vulkan_global_context_create_pipeline_layout
    (request : bvb_vulkan_pipeline_layout_create_request) :
    M bvb_vulkan_object_create_response :=
  reply_if negb (Z.ldiff request.(plc_rq_flags)
                   VK_PIPELINE_LAYOUT_CREATE_INDEPENDENT_SETS_BIT_EXT =? 0) ||
           (BVB_VULKAN_MAX_PIPELINE_SET_LAYOUTS <?
              request.(plc_rq_set_layout_count)) ||
           (BVB_VULKAN_MAX_PIPELINE_PUSH_CONSTANT_RANGES <?
              request.(plc_rq_push_constant_range_count))
    with object_response VK_ERROR_FEATURE_NOT_PRESENT 0 ;;
  do (_, device) := table_lookup request.(plc_rq_device_id) BVB_OBJECT_DEVICE ;;
  do layouts := pipeline_set_layouts request.(plc_rq_device_id)
    request.(plc_rq_flags)
    (firstn (Z.to_nat request.(plc_rq_set_layout_count))
       request.(plc_rq_set_layout_ids)) ;;
  match layouts with
  | None => ret (object_response VK_ERROR_FEATURE_NOT_PRESENT 0)
  | Some layouts =>
  let ranges := firstn (Z.to_nat request.(plc_rq_push_constant_range_count))
                  request.(plc_rq_push_constant_ranges) in
  reply_if negb (push_constants_supported 0 ranges)
    with object_response VK_ERROR_FEATURE_NOT_PRESENT 0 ;;
  do create_pipeline_layout :=
    device_proc driver device "vkCreatePipelineLayout" ;;
  do destroy_pipeline_layout :=
    device_proc driver device "vkDestroyPipelineLayout" ;;
  stop_if negb create_pipeline_layout || negb destroy_pipeline_layout
    with (- ENOSYS) ;;
  do created := invoke driver create_pipeline_layout
    (Create BVB_OBJECT_PIPELINE_LAYOUT device
       (handles_used ((fun b => (BVB_OBJECT_DESCRIPTOR_SET_LAYOUT, b))
                        <$> layouts))
       (request.(plc_rq_flags) ::
        mjoin ((fun r => [r.(ppcr_stage_flags); r.(ppcr_offset);
                          r.(ppcr_size)]) <$> ranges))) ;;
  reply_if negb (created.(rp_result) =? VK_SUCCESS)
    with object_response created.(rp_result) 0 ;;
  do wire_id := next_id BVB_OBJECT_PIPELINE_LAYOUT ;;
  do result := catch (table_insert wire_id request.(plc_rq_device_id)
                        (rp_handle created)) ;;
  if negb (is_ok result) then
    do _ := invoke driver destroy_pipeline_layout
      (Destroy BVB_OBJECT_PIPELINE_LAYOUT device (rp_handle created)) ;;
    ret (object_response VK_ERROR_TOO_MANY_OBJECTS 0)
  else ret (object_response created.(rp_result) wire_id)
  end.

Definition bvb_vulkan_global_context_destroy_pipeline_layout
    (pipeline_layout_id : Z) : M unit :=
  do (_, device, pipeline_layout) :=
    resolve_device_child pipeline_layout_id BVB_OBJECT_PIPELINE_LAYOUT ;;
  do destroy_pipeline_layout :=
    device_proc driver device "vkDestroyPipelineLayout" ;;
  stop_if negb destroy_pipeline_layout with (- ENOSYS) ;;
  do _ := table_remove pipeline_layout_id BVB_OBJECT_PIPELINE_LAYOUT ;;
  do _ := invoke driver destroy_pipeline_layout
    (Destroy BVB_OBJECT_PIPELINE_LAYOUT device pipeline_layout) ;;
  ret tt.

Definition bvb_vulkan_global_context_destroy_pipeline (pipeline_id : Z) :
    M unit :=
  do (_, device, pipeline) :=
    resolve_device_child pipeline_id BVB_OBJECT_PIPELINE ;;
  do destroy_pipeline := device_proc driver device "vkDestroyPipeline" ;;
  stop_if negb destroy_pipeline with (- ENOSYS) ;;
  do _ := table_remove pipeline_id BVB_OBJECT_PIPELINE ;;
  do _ := invoke driver destroy_pipeline
    (Destroy BVB_OBJECT_PIPELINE device pipeline) ;;
  ret tt.
End operations.

(** ** The invariant *)

Section invariant.
Context `{VulkanCore}.
Context (driver : list event -> vk_call -> vk_reply).
Context {CD : ConformingDriver driver} {AP : Apart}.

Lemma create_sampler_keeps request :
  keeps (bvb_vulkan_global_context_create_sampler driver request).
Proof. run_keeps bvb_vulkan_global_context_create_sampler. Qed.

Lemma destroy_sampler_destroys :
  destroys (bvb_vulkan_global_context_destroy_sampler driver).
Proof. run_destroys bvb_vulkan_global_context_destroy_sampler. Qed.

Lemma wp_update_samplers X St t w device_id l Q :
  At X St t w ->
  (forall bits, Forall (stored t BVB_OBJECT_SAMPLER) bits -> Q (Ok bits) w) ->
  (forall e, Q (Err e) w) ->
  wp (update_samplers device_id l) Q w.
Proof.
  intros I. revert Q. induction l as [|s l IH]; intros Q Hok Herr; cbn [update_samplers].
  { apply wp_reply, Hok. by constructor. }
  wp_run; try done. apply IH; [|done]. intros bits Hb. cbn [then_wp].
  apply wp_reply, Hok. constructor; [|done]. by eexists _, _.
Qed.

Lemma wp_update_writes X St t w device_id count l Q :
  At X St t w ->
  (forall bits numbers, Forall (stored t BVB_OBJECT_DESCRIPTOR_SET) bits ->
     Q (Ok (bits, numbers)) w) ->
  (forall e, Q (Err e) w) ->
  wp (update_writes device_id count l) Q w.
Proof.
  intros I. revert Q. induction l as [|s l IH]; intros Q Hok Herr; cbn [update_writes].
  { apply wp_reply, Hok. by constructor. }
  wp_run; try done. apply IH; [|done]. intros bits numbers Hb. cbn [then_wp].
  apply wp_reply, Hok. constructor; [|done]. by eexists _, _.
Qed.

Lemma stored_sets_used X t w (l : list Z) :
  At X none t w -> Forall (stored t BVB_OBJECT_DESCRIPTOR_SET) l ->
  used (driver_after VK_SUCCESS w.(w_log))
    ((fun b => (BVB_OBJECT_DESCRIPTOR_SET, b)) <$> l).
Proof.
  intros I Hl. apply Forall_fmap. eapply Forall_impl; [|exact Hl].
  intros b (id & p & Hm & Hty). eapply at_alive_type; [done|done|done|].
  by right; intros [].
Qed.

Lemma update_descriptors_keeps request :
  keeps (bvb_vulkan_global_context_update_descriptors driver request).
Proof.
  run_keeps bvb_vulkan_global_context_update_descriptors.
  eapply wp_update_samplers; [done| |intros e; wp_run].
  intros samplers Hs. wp_run.
  eapply wp_update_writes; [done| |intros e; wp_run].
  intros sets numbers Hw. wp_run. split; [by eapply device_alive|].
  apply Forall_app. split.
  - eapply stored_used; [done|decide_list|done].
  - by eapply stored_sets_used.
Qed.

Lemma wp_resolve_view X St t w id device_id Q :
  At X St t w ->
  (forall b, b = 0 \/ stored t BVB_OBJECT_IMAGE_VIEW b -> Q (Ok b) w) ->
  (forall e, Q (Err e) w) ->
  wp (descriptor_template_resolve_image_view id device_id) Q w.
Proof.
  intros I Hok Herr. unfold descriptor_template_resolve_image_view.
  wp_run; try done; apply Hok; [by left|right]. by eexists _, _.
Qed.

Lemma wp_optional_child X St t w id type device_id Q :
  At X St t w ->
  (forall b, b = 0 \/ stored t type b -> Q (Ok b) w) ->
  (forall e, Q (Err e) w) ->
  wp (optional_child id type device_id) Q w.
Proof.
  intros I Hok Herr. unfold optional_child.
  wp_run; try done; apply Hok; [by left|right]. by eexists _, _.
Qed.

Lemma handles_named t (l : list (Z * Z)) :
  Forall (fun use => use.2 = 0 \/ named t use) l ->
  Forall (named t) (handles_used l).
Proof.
  intros Hl. apply Forall_forall. intros [ty b] Hin%list_elem_of_In.
  apply list_elem_of_filter in Hin as [Hne Hin].
  rewrite Forall_forall in Hl. apply list_elem_of_In in Hin.
  by destruct (Hl _ Hin).
Qed.

Lemma wp_template_value X St t w device_id entry value Q :
  At X St t w ->
  (forall uses numbers, Forall (named t) uses -> Q (Ok (uses, numbers)) w) ->
  (forall e, Q (Err e) w) ->
  wp (template_value device_id entry value) Q w.
Proof.
  intros I Hok Herr.
  assert (Hone : forall ty b, ty ∈ owned_types -> b = 0 \/ stored t ty b ->
    (fun use : Z * Z => use.2 = 0 \/ named t use) (ty, b)).
  { intros ty b Hty [|]; [by left|by right]. }
  unfold template_value. wp_run; try done.
  - eapply wp_optional_child; [done| |].
    + intros s Hs. cbn [then_wp]. wp_run; try done.
      apply wp_of_result. cbn [then_wp]. wp_run.
      * apply Hok, handles_named.
        constructor; [apply Hone; [decide_list|done]|].
        constructor; [by left|constructor].
      * eapply wp_resolve_view; [done| |done]. intros v Hv. cbn [then_wp]. wp_run.
        apply Hok, handles_named.
        constructor; [apply Hone; [decide_list|done]|].
        constructor; [apply Hone; [decide_list|done]|constructor].
    + intros e. wp_run; try apply Herr; apply wp_of_result, Herr.
  - apply Hok. constructor.
  - eapply wp_optional_child; [done| |done]. intros b Hb. cbn [then_wp]. wp_run.
    apply Hok, handles_named.
    constructor; [apply Hone; [decide_list|done]|constructor].
Qed.

Lemma wp_template_entry_values X St t w device_id entry values Q :
  At X St t w -> forall descriptor,
  (forall uses numbers, Forall (named t) uses -> Q (Ok (uses, numbers)) w) ->
  (forall e, Q (Err e) w) ->
  wp (template_entry_values device_id entry descriptor values) Q w.
Proof.
  intros I. revert Q. induction values as [|v values IH]; intros Q d Hok Herr;
    cbn [template_entry_values].
  { apply wp_reply, Hok. constructor. }
  apply wp_do. eapply wp_template_value; [done| |done].
  intros uses numbers Hu. wp_run. apply IH; [|done].
  intros uses' numbers' Hu'. wp_run. apply Hok. by apply Forall_app.
Qed.

Lemma wp_template_values X St t w device_id entries Q :
  At X St t w -> forall values,
  (forall uses numbers, Forall (named t) uses -> Q (Ok (uses, numbers)) w) ->
  (forall e, Q (Err e) w) ->
  wp (template_values device_id entries values) Q w.
Proof.
  intros I. revert Q. induction entries as [|x entries IH]; intros Q values Hok Herr;
    cbn [template_values].
  { apply wp_reply, Hok. constructor. }
  apply wp_do. eapply wp_template_entry_values; [done| |done].
  intros uses numbers Hu. wp_run. apply IH; [|done].
  intros uses' numbers' Hu'. wp_run. apply Hok. by apply Forall_app.
Qed.

Lemma update_descriptor_set_with_template_keeps request :
  keeps (bvb_vulkan_global_context_update_descriptor_set_with_template driver
    request).
Proof.
  run_keeps bvb_vulkan_global_context_update_descriptor_set_with_template.
  all: apply wp_of_result.
  all: match goal with |- then_wp _ _ ?r _ => destruct r as [[? ?]|] end; wp_run.
  eapply wp_template_values; [done| |intros e; wp_run].
  intros uses numbers Hu. wp_run.
  split; [by eapply device_alive|].
  constructor; [solve_alive|]. constructor; [solve_alive|].
  by eapply named_used.
Qed.

Lemma wp_pipeline_set_layouts X St t w device_id flags l Q :
  At X St t w ->
  (forall layouts, Forall (fun b => b = 0 \/
     stored t BVB_OBJECT_DESCRIPTOR_SET_LAYOUT b) (default [] layouts) ->
     Q (Ok layouts) w) ->
  (forall e, Q (Err e) w) ->
  wp (pipeline_set_layouts device_id flags l) Q w.
Proof.
  intros I. revert Q. induction l as [|id l IH]; intros Q Hok Herr;
    cbn [pipeline_set_layouts].
  { apply wp_reply, Hok. constructor. }
  wp_run; try done; try (apply Hok; constructor).
  all: apply IH; [|done]; intros [layouts|] Hl; wp_run; apply Hok;
    cbn; try by constructor.
  - constructor; [by left|done].
  - constructor; [right; by eexists _, _|done].
Qed.

Lemma create_pipeline_layout_keeps request :
  keeps (bvb_vulkan_global_context_create_pipeline_layout driver request).
Proof.
  run_keeps bvb_vulkan_global_context_create_pipeline_layout.
  eapply wp_pipeline_set_layouts; [done| |intros e; wp_run].
  intros [layouts|] Hl; wp_run.
  eapply named_used; [done|]. apply handles_named, Forall_fmap.
  eapply Forall_impl; [|exact Hl]. intros b' [->|Hb]; [by left|right].
  split; [decide_list|done].
Qed.

Lemma destroy_pipeline_layout_destroys :
  destroys (bvb_vulkan_global_context_destroy_pipeline_layout driver).
Proof. run_destroys bvb_vulkan_global_context_destroy_pipeline_layout. Qed.

Lemma destroy_pipeline_destroys :
  destroys (bvb_vulkan_global_context_destroy_pipeline driver).
Proof. run_destroys bvb_vulkan_global_context_destroy_pipeline. Qed.
End invariant.
