(* ===== verification/MemoryMirror.v ===== *)
(** * MemoryMirror: host copies of device memory

    src/vulkan_global.c gives a client a shared copy of a mapped allocation.
    A mirror has three buffers: the shared region the client writes, the
    mapping of the driver, and a baseline, the bytes last seen equal in both.
    [upload_host_diverged_range] moves what the client changed: it compares
    64 KiB, then 4 KiB, then single bytes against the baseline, and copies
    the runs that differ.  It is proved equal to the byte-wise merge of the
    three buffers.

    The client writes its region at any time; a [mr_mirror] is the region as
    the service reads it during one operation. *)

From stdpp Require Import strings gmap.
From S2P Require Import Prelude Wire.

(** ** Uploading what the client changed *)

Definition BVB_MEMORY_MIRROR_COMPARE_BLOCK_BYTES : Z := 4096.
Definition BVB_MEMORY_MIRROR_COMPARE_SUPERBLOCK_BYTES : Z := 65536.

(** [mirror->native] and [mirror->baseline] *)
Definition copies : Type := bytes * bytes.

Section upload.
Context (mirror : bytes) (offset : Z).

Definition differs (baseline : bytes) (cursor : Z) : bool :=
  negb (rd8 mirror cursor =? rd8 baseline cursor).

(** [while (cursor < end && (mirror[cursor] != baseline[cursor]) == dirty)
    ++cursor;] *)
Fixpoint skip (n : nat) (dirty : bool) (baseline : bytes) (cursor end_ : Z) :
    Z :=
  match n with
  | O => cursor
  | S n =>
      if (cursor <? end_) && Bool.eqb (differs baseline cursor) dirty
      then skip n dirty baseline (cursor + 1) end_ else cursor
  end.

Definition run_end (dirty : bool) (baseline : bytes) (cursor end_ : Z) : Z :=
  skip (Z.to_nat (end_ - cursor)) dirty baseline cursor end_.

(** The two copies of a run. *)
Definition copy_run (s : copies) (first length : Z) : copies :=
  let run := rd_bytes mirror first length in
  (wr_bytes s.1 (offset + first) run, wr_bytes s.2 first run).

(** The loop over the bytes of a block that differs; [None] is running out of
    fuel. *)
Fixpoint upload_bytes (fuel : nat) (s : copies) (cursor block_end : Z) :
    option copies :=
  if cursor <? block_end then
    match fuel with
    | O => None
    | S fuel =>
        let dirty_first := run_end false s.2 cursor block_end in
        let cursor := run_end true s.2 dirty_first block_end in
        let s := if cursor =? dirty_first then s
                 else copy_run s dirty_first (cursor - dirty_first) in
        upload_bytes fuel s cursor block_end
    end
  else Some s.

(** [memcmp(mirror->mirror + cursor, mirror->baseline + cursor, length) == 0] *)
Definition same_block (s : copies) (cursor length : Z) : bool :=
  bool_decide (rd_bytes mirror cursor length = rd_bytes s.2 cursor length).

(** A block of [size] bytes, cut at [end_]; [size_t] wraps around. *)
Definition block_limit (size cursor end_ : Z) : Z :=
  let limit := u64 (cursor + size) in
  if (limit <? cursor) || (end_ <? limit) then end_ else limit.

Fixpoint upload_blocks (fuel : nat) (s : copies) (cursor superblock_end : Z) :
    option copies :=
  if cursor <? superblock_end then
    match fuel with
    | O => None
    | S fuel =>
        let block_end :=
          block_limit BVB_MEMORY_MIRROR_COMPARE_BLOCK_BYTES cursor
            superblock_end in
        if same_block s cursor (block_end - cursor)
        then upload_blocks fuel s block_end superblock_end
        else
          s ← upload_bytes (Z.to_nat (block_end - cursor)) s cursor block_end;
          upload_blocks fuel s block_end superblock_end
    end
  else Some s.

Fixpoint upload_superblocks (fuel : nat) (s : copies) (cursor end_ : Z) :
    option copies :=
  if cursor <? end_ then
    match fuel with
    | O => None
    | S fuel =>
        let superblock_end :=
          block_limit BVB_MEMORY_MIRROR_COMPARE_SUPERBLOCK_BYTES cursor end_ in
        if same_block s cursor (superblock_end - cursor)
        then upload_superblocks fuel s superblock_end end_
        else
          s ← upload_blocks (Z.to_nat (superblock_end - cursor)) s cursor
                superblock_end;
          upload_superblocks fuel s superblock_end end_
    end
  else Some s.

Definition upload_host_diverged_range (s : copies) (first length : Z) :
    option copies :=
  upload_superblocks (Z.to_nat length) s first (first + length).

(** ** The byte-wise merge *)

(** [t] is [s] with the bytes from [first] to [last] merged: the mapping has
    what the client changed and keeps the rest, the baseline is the region. *)
Record merged (first last : Z) (s t : copies) : Prop := mk_merged {
  merged_native_length : blen t.1 = blen s.1;
  merged_baseline_length : blen t.2 = blen s.2;
  merged_native : forall i, first <= i < last ->
    rd8 t.1 (offset + i) =
    (if differs s.2 i then rd8 mirror i else rd8 s.1 (offset + i));
  merged_baseline : forall i, first <= i < last -> rd8 t.2 i = rd8 mirror i;
  merged_native_rest : forall i, 0 <= i ->
    ~ (offset + first <= i < offset + last) -> rd8 t.1 i = rd8 s.1 i;
  merged_baseline_rest : forall i, 0 <= i -> ~ (first <= i < last) ->
    rd8 t.2 i = rd8 s.2 i
}.

Definition fits (last : Z) (s : copies) : Prop :=
  0 <= offset /\ last <= blen mirror /\ last <= blen s.2 /\
  offset + last <= blen s.1.

Lemma merged_empty first s : merged first first s s.
Proof. by constructor; try (intros; lia). Qed.

Lemma merged_trans a b c s t u :
  0 <= offset -> 0 <= a <= b -> b <= c -> merged a b s t -> merged b c t u ->
  merged a c s u.
Proof.
  intros Ho Hab Hbc [] []. constructor; [congruence|congruence|..].
  - intros i Hi. destruct (decide (i < b)).
    + rewrite merged_native_rest1 by lia. apply merged_native0. lia.
    + rewrite merged_native1 by lia. unfold differs.
      rewrite merged_baseline_rest0, merged_native_rest0 by lia. done.
  - intros i Hi. destruct (decide (i < b)).
    + rewrite merged_baseline_rest1 by lia. apply merged_baseline0. lia.
    + apply merged_baseline1. lia.
  - intros i H0 Hi. rewrite merged_native_rest1, merged_native_rest0 by lia.
    done.
  - intros i H0 Hi. rewrite merged_baseline_rest1, merged_baseline_rest0 by lia.
    done.
Qed.

Lemma merged_fits last first s t :
  fits last s -> merged first last s t -> fits last t.
Proof. intros (?&?&?&?) []. repeat split; lia. Qed.

(** Bytes that do not differ need no copy. *)
Lemma merged_same first last s :
  0 <= first -> (forall i, first <= i < last -> differs s.2 i = false) ->
  merged first last s s.
Proof.
  intros H0 Hd. constructor; try done.
  - intros i Hi. by rewrite Hd.
  - intros i Hi. specialize (Hd i Hi). unfold differs in Hd. lia.
Qed.

Lemma merged_copy first last s :
  0 <= first <= last -> fits last s ->
  (forall i, first <= i < last -> differs s.2 i = true) ->
  merged first last s (copy_run s first (last - first)).
Proof.
  intros H0 (Ho & Hm & Hb & Hn) Hd.
  assert (Hl : blen (rd_bytes mirror first (last - first)) = last - first)
    by (apply blen_rd_bytes; lia).
  unfold copy_run. constructor; cbn [fst snd]; rewrite ?blen_wr_bytes; try done.
  - intros i Hi. rewrite Hd by done.
    rewrite rd8_wr_bytes_in by (rewrite ?Hl; lia).
    replace (offset + i - (offset + first)) with (i - first) by lia.
    rewrite rd_bytes_lookup by lia. f_equal. lia.
  - intros i Hi. rewrite rd8_wr_bytes_in by (rewrite ?Hl; lia).
    rewrite rd_bytes_lookup by lia. f_equal. lia.
  - intros i Hi Hout. apply rd8_wr_bytes_out; rewrite ?Hl; lia.
  - intros i Hi Hout. apply rd8_wr_bytes_out; rewrite ?Hl; lia.
Qed.

(** ** Each loop merges *)

Lemma skip_spec n dirty baseline cursor end_ :
  cursor <= end_ -> end_ - cursor <= Z.of_nat n ->
  let r := skip n dirty baseline cursor end_ in
  cursor <= r <= end_ /\
  (forall i, cursor <= i < r -> differs baseline i = dirty) /\
  (r < end_ -> differs baseline r <> dirty).
Proof.
  revert cursor. induction n as [|n IH]; intros cursor Hc Hn; cbn [skip].
  { split; [lia|split; intros; lia]. }
  destruct (Z.ltb_spec cursor end_) as [Hlt|]; cbn [andb]; cycle 1.
  { split; [lia|split; intros; lia]. }
  destruct (Bool.eqb_spec (differs baseline cursor) dirty) as [E|E]; cycle 1.
  { split; [lia|split; [intros; lia|done]]. }
  destruct (IH (cursor + 1)) as (Hr & Hin & Hout); [lia|lia|].
  split; [lia|split; [|done]]. intros i Hi.
  destruct (decide (i = cursor)) as [->|]; [done|apply Hin; lia].
Qed.

Lemma upload_bytes_merges fuel s cursor block_end :
  0 <= cursor <= block_end -> block_end - cursor <= Z.of_nat fuel ->
  fits block_end s ->
  exists t, upload_bytes fuel s cursor block_end = Some t /\
            merged cursor block_end s t.
Proof.
  revert s cursor. induction fuel as [|fuel IH]; intros s cursor Hc Hf Hs;
    cbn [upload_bytes].
  { rewrite (proj2 (Z.ltb_ge _ _)) by lia.
    replace cursor with block_end by lia. by eauto using merged_empty. }
  destruct (Z.ltb_spec cursor block_end) as [Hlt|]; cycle 1.
  { replace cursor with block_end by lia. by eauto using merged_empty. }
  destruct (skip_spec (Z.to_nat (block_end - cursor)) false s.2 cursor block_end)
    as (Hd & Hsame & Hstop); [lia|lia|].
  fold (run_end false s.2 cursor block_end) in Hd, Hsame, Hstop.
  set (d := run_end false s.2 cursor block_end) in *.
  destruct (skip_spec (Z.to_nat (block_end - d)) true s.2 d block_end)
    as (He & Hdiff & _); [lia|lia|].
  fold (run_end true s.2 d block_end) in He, Hdiff.
  assert (Hprogress : cursor < run_end true s.2 d block_end).
  { destruct (decide (cursor < d)); [lia|]. assert (d = cursor) as E by lia.
    unfold run_end. rewrite E.
    destruct (Z.to_nat (block_end - cursor)) as [|k] eqn:En; [lia|].
    cbn [skip]. rewrite (proj2 (Z.ltb_lt _ _)) by lia.
    rewrite E in Hstop. destruct (differs s.2 cursor); [|by specialize (Hstop Hlt)].
    cbn [andb Bool.eqb].
    destruct (skip_spec k true s.2 (cursor + 1) block_end); lia. }
  set (e := run_end true s.2 d block_end) in *.
  assert (Hone : exists t, merged cursor e s t /\
    (if e =? d then s else copy_run s d (e - d)) = t).
  { eexists. split; [|reflexivity]. destruct (Z.eqb_spec e d) as [E|E].
    - apply merged_same; [lia|]. intros i Hi. apply Hsame. lia.
    - destruct Hs as (H0 & H1 & H2 & H3).
      apply (merged_trans cursor d e s s); [done|lia|lia| |].
      + apply merged_same; [lia|]. intros i Hi. apply Hsame. lia.
      + apply merged_copy; [lia|repeat split; lia|done]. }
  destruct Hone as (t & Ht & ->).
  destruct (IH t e) as (u & Hu & Hm); [lia|lia| |].
  { destruct Hs as (?&?&?&?), Ht. repeat split; lia. }
  exists u. split; [done|]. destruct Hs.
  by apply (merged_trans cursor e block_end s t); [|lia|lia|..].
Qed.

Lemma block_limit_spec size cursor end_ :
  0 < size < 2 ^ 64 -> 0 <= cursor < end_ ->
  cursor < block_limit size cursor end_ <= end_.
Proof.
  intros Hs Hc. unfold block_limit.
  destruct (Z.ltb_spec (u64 (cursor + size)) cursor); cbn [orb]; [lia|].
  destruct (Z.ltb_spec end_ (u64 (cursor + size))); [lia|]. split; [|lia].
  unfold u64 in *. pose proof (Z.div_mod (cursor + size) (2 ^ 64) ltac:(lia)).
  pose proof (Z.mod_pos_bound (cursor + size) (2 ^ 64) ltac:(lia)). nia.
Qed.

Lemma same_block_merged s cursor last :
  0 <= cursor <= last -> fits last s ->
  same_block s cursor (last - cursor) = true -> merged cursor last s s.
Proof.
  intros Hc (Ho & Hm & Hb & Hn) E. apply bool_decide_eq_true in E.
  apply rd_bytes_rd8 in E; [|lia].
  apply merged_same; [lia|]. intros i Hi. unfold differs.
  rewrite (E i) by lia. by rewrite Z.eqb_refl.
Qed.

(** One round of an outer loop: a block is the same, or [inner] merges it. *)
Lemma merged_round cursor limit last s (same : bool)
    (inner : option copies) (rest : copies -> option copies) :
  0 <= cursor <= limit -> limit <= last -> fits last s ->
  (same = true -> merged cursor limit s s) ->
  (exists t, inner = Some t /\ merged cursor limit s t) ->
  (forall t, fits last t -> exists u, rest t = Some u /\ merged limit last t u) ->
  exists u, (if same then rest s else t ← inner; rest t) = Some u /\
            merged cursor last s u.
Proof.
  intros Hc Hl Hs Hsame (t & -> & Ht) Hrest.
  assert (Hr : forall x, merged cursor limit s x ->
    exists u, rest x = Some u /\ merged cursor last s u).
  { intros x Hx. destruct (Hrest x) as (u & Hu & Hm).
    { destruct Hs as (?&?&?&?), Hx. repeat split; lia. }
    exists u. split; [done|]. destruct Hs.
    by apply (merged_trans cursor limit last s x); [|lia|lia|..]. }
  destruct same; [by apply Hr, Hsame|]. by apply Hr.
Qed.

Lemma upload_blocks_merges fuel s cursor last :
  0 <= cursor <= last -> last - cursor <= Z.of_nat fuel -> fits last s ->
  exists t, upload_blocks fuel s cursor last = Some t /\
            merged cursor last s t.
Proof.
  revert s cursor. induction fuel as [|fuel IH]; intros s cursor Hc Hf Hs;
    cbn [upload_blocks]; destruct (Z.ltb_spec cursor last) as [Hlt|]; try lia;
    try (replace cursor with last by lia; by eauto using merged_empty).
  pose proof (block_limit_spec BVB_MEMORY_MIRROR_COMPARE_BLOCK_BYTES cursor last
                ltac:(done) ltac:(lia)).
  set (limit := block_limit _ cursor last) in *.
  apply merged_round with (limit := limit)
    (rest := fun t => upload_blocks fuel t limit last); [lia|lia|done| | |].
  - apply same_block_merged; [lia|]. destruct Hs as (?&?&?&?). repeat split; lia.
  - apply upload_bytes_merges; [lia|lia|]. destruct Hs as (?&?&?&?).
    repeat split; lia.
  - intros t Ht. apply IH; [lia|lia|done].
Qed.

Lemma upload_superblocks_merges fuel s cursor last :
  0 <= cursor <= last -> last - cursor <= Z.of_nat fuel -> fits last s ->
  exists t, upload_superblocks fuel s cursor last = Some t /\
            merged cursor last s t.
Proof.
  revert s cursor. induction fuel as [|fuel IH]; intros s cursor Hc Hf Hs;
    cbn [upload_superblocks]; destruct (Z.ltb_spec cursor last) as [Hlt|]; try lia;
    try (replace cursor with last by lia; by eauto using merged_empty).
  pose proof (block_limit_spec BVB_MEMORY_MIRROR_COMPARE_SUPERBLOCK_BYTES cursor
                last ltac:(done) ltac:(lia)).
  set (limit := block_limit _ cursor last) in *.
  apply merged_round with (limit := limit)
    (rest := fun t => upload_superblocks fuel t limit last); [lia|lia|done| | |].
  - apply same_block_merged; [lia|]. destruct Hs as (?&?&?&?). repeat split; lia.
  - apply upload_blocks_merges; [lia|lia|]. destruct Hs as (?&?&?&?).
    repeat split; lia.
  - intros t Ht. apply IH; [lia|lia|done].
Qed.

Lemma upload_merges s first length :
  0 <= first -> 0 <= length -> fits (first + length) s ->
  exists t, upload_host_diverged_range s first length = Some t /\
            merged first (first + length) s t.
Proof.
  intros. apply upload_superblocks_merges; [lia|lia|done].
Qed.
End upload.

(** ** The theorem *)

(** C18: uploading a range comes to an end, and does what one comparison per
    byte would: in the range the driver's mapping has the client's byte where
    the client changed it since the last synchronisation and keeps its own
    byte elsewhere, the baseline becomes the client's region, and no byte
    outside the range is written.  The 64 KiB and 4 KiB comparisons only save
    work. *)
Theorem upload_is_the_byte_wise_merge (mirror : bytes) (offset first length : Z)
    (native baseline : bytes) (Hfirst : 0 <= first) (Hlength : 0 <= length)
    (Hfits : fits mirror offset (first + length) (native, baseline)) :
  exists native' baseline',
    upload_host_diverged_range mirror offset (native, baseline) first length =
      Some (native', baseline') /\
    blen native' = blen native /\ blen baseline' = blen baseline /\
    (forall i, first <= i < first + length ->
       rd8 native' (offset + i) =
         (if rd8 mirror i =? rd8 baseline i then rd8 native (offset + i)
          else rd8 mirror i) /\
       rd8 baseline' i = rd8 mirror i) /\
    (forall i, 0 <= i -> ~ (offset + first <= i < offset + first + length) ->
       rd8 native' i = rd8 native i) /\
    (forall i, 0 <= i -> ~ (first <= i < first + length) ->
       rd8 baseline' i = rd8 baseline i).
Proof.
  destruct (upload_merges mirror offset _ first length Hfirst Hlength Hfits)
    as ([native' baseline'] & Hrun & Hm).
  destruct Hm as [H1 H2 H3 H4 H5 H6]. cbn in *.
  exists native', baseline'. split_and!; try done.
  - intros i Hi. rewrite H3, H4 by done. split; [|done]. unfold differs. cbn.
    by destruct (rd8 mirror i =? rd8 baseline i).
  - intros i H0 Hi. apply H5; [done|lia].
Qed.

(** The client changed the middle byte, the device the first one. *)
Lemma upload_is_the_byte_wise_merge_witness :
  let mirror := [x01; x02; x03]%byte in
  let native := [x00; x07; x01; x03]%byte in
  let baseline := [x01; x01; x03]%byte in
  exists native' baseline',
    upload_host_diverged_range mirror 1 (native, baseline) 0 3 =
      Some (native', baseline') /\
    native' = [x00; x07; x02; x03]%byte /\ baseline' = mirror /\
    rd8 native' 2 = rd8 mirror 1.
Proof.
  intros mirror native baseline.
  destruct (upload_is_the_byte_wise_merge mirror 1 0 3 native baseline
    ltac:(lia) ltac:(lia) ltac:(repeat split; discriminate))
    as (native' & baseline' & Hrun & _ & _ & Hin & _).
  exists native', baseline'. split_and!; [done| | |].
  - vm_compute in Hrun. by injection Hrun as <- _.
  - vm_compute in Hrun. by injection Hrun as _ <-.
  - apply (Hin 1). lia.
Defined.
