(* ===== verification/BackendMirror.v ===== *)
(** * BackendMirror: mapped memory of the service

    The operations of src/vulkan_global.c that map device memory: mirrors set
    up over a sealed file descriptor, direct mappings exported to the client,
    flush, invalidation and unmapping, the synchronisation before a submit,
    and the bounded reads, writes and checks of host-visible memory.  A
    mirror in use belongs to a stored allocation and its buffers hold its
    range while its mapping lasts; every operation keeps this.  A direct
    access maps and unmaps the memory itself, and so ends the mapping of a
    mirror of the same memory; without one, no mapping is lost. *)

From stdpp Require Import strings gmap.
From S2P Require Import Prelude Wire Abi Codec ProtocolSync ProtocolSetup Backend BackendInvariant BackendRules MemoryMirror.

(** ** Mapped memory *)

(** The bytes of a region of [length] bytes whose first bytes are known. *)
Definition region (length : Z) (contents : bytes) : bytes :=
  take (Z.to_nat length) (contents ++ blank length)%list.

Lemma blen_region length contents :
  0 <= length -> blen (region length contents) = length.
Proof.
  intros H. unfold region, blen, blank.
  rewrite length_take, length_app, length_replicate. lia.
Qed.

(** The pointer [vkMapMemory] returned: the bytes of the allocation. *)
Definition mapping (allocation_size : Z) (r : vk_reply) : ptr bytes :=
  match r.(rp_values) with
  | [] => None
  | values => Some (region allocation_size (byte_of_Z <$> values))
  end.

(** What the service reads of a file descriptor it was sent: [fstat], the
    seals, the result of [mmap], and whether [malloc] succeeds. *)
Record received_fd := mk_received_fd {
  fd_number : Z;
  fd_stat : option (bool * Z);
  fd_seals : Z;
  fd_mmap : result bytes;
  fd_malloc : bool
}.

Definition F_SEAL_SEAL : Z := 1.
Definition F_SEAL_SHRINK : Z := 2.
Definition F_SEAL_GROW : Z := 4.
Definition F_SEAL_WRITE : Z := 8.
Definition BVB_VULKAN_MEMORY_MIRROR_TOTAL_BYTES : Z :=
  BVB_VULKAN_MAX_MEMORY_ALLOCATION_SIZE.

Definition with_buffers (shared native baseline : bytes)
    (r : bvb_memory_mirror_metadata) : bvb_memory_mirror_metadata :=
  mk_memory_mirror_metadata r.(mr_device_id) r.(mr_memory_id)
    r.(mr_generation) r.(mr_offset) r.(mr_length) r.(mr_allocation_size)
    r.(mr_non_coherent_atom_size) r.(mr_property_flags) r.(mr_device)
    r.(mr_memory) (Some shared) (Some (Mapped native)) (Some baseline)
    r.(mr_direct).

Definition with_native (p : ptr mapped_memory)
    (r : bvb_memory_mirror_metadata) : bvb_memory_mirror_metadata :=
  mk_memory_mirror_metadata r.(mr_device_id) r.(mr_memory_id)
    r.(mr_generation) r.(mr_offset) r.(mr_length) r.(mr_allocation_size)
    r.(mr_non_coherent_atom_size) r.(mr_property_flags) r.(mr_device)
    r.(mr_memory) r.(mr_mirror) p r.(mr_baseline) r.(mr_direct).

Definition buffer_of (p : ptr bytes) : bytes := default [] p.

(** The bytes a mirror maps, while it still maps them. *)
Definition native_bytes (r : bvb_memory_mirror_metadata) : option bytes :=
  match r.(mr_native) with Some (Mapped contents) => Some contents | _ => None end.

(** [upload_host_diverged_range(mirror, 0, mirror->length)].  Through a lost
    mapping this has no defined behaviour; the mirror is left as it is. *)
Definition upload_mirror (r : bvb_memory_mirror_metadata) :
    bvb_memory_mirror_metadata :=
  let shared := buffer_of r.(mr_mirror) in
  match native_bytes r with
  | None => r
  | Some native =>
      match upload_host_diverged_range shared r.(mr_offset)
              (native, buffer_of r.(mr_baseline)) 0 r.(mr_length) with
      | Some (native, baseline) => with_buffers shared native baseline r
      | None => r
      end
  end.

Definition set_memory_mirrors (mirrors : list bvb_memory_mirror_metadata)
    (c : bvb_vulkan_global_context) : bvb_vulkan_global_context :=
  with_metadata c.(ctx_device_metadata) c.(ctx_memory_metadata) mirrors
    c.(ctx_memory_mirror_bytes) c.(ctx_buffer_metadata)
    c.(ctx_semaphore_metadata) c.(ctx_query_pool_metadata)
    c.(ctx_image_metadata) c.(ctx_template_metadata) c.

(** What [vkUnmapMemory] does to a mirror that maps the same memory: nothing
    tells the mirror, but its pointer no longer leads anywhere. *)
Definition lose_mirror (memory_id : Z) (r : bvb_memory_mirror_metadata) :
    bvb_memory_mirror_metadata :=
  match r.(mr_native) with
  | Some _ => if r.(mr_memory_id) =? memory_id
              then with_native (Some Unmapped) r else r
  | None => r
  end.
Definition lose_mapping (memory_id : Z) (c : bvb_vulkan_global_context) :
    bvb_vulkan_global_context :=
  set_memory_mirrors (lose_mirror memory_id <$> c.(ctx_memory_mirrors)) c.

Section operations.
Context {VH : VulkanHeader} {VC : VulkanCore}.
Context (driver : list event -> vk_call -> vk_reply).

Definition memory_is_buffer_only (c : bvb_vulkan_global_context)
    (memory_id : Z) : bool :=
  existsb (fun b => b.(bm_bound_memory_id) =? memory_id)
    c.(ctx_buffer_metadata) &&
  negb (existsb (fun i => i.(im_bound_memory_id) =? memory_id)
          c.(ctx_image_metadata)).

Definition release_memory_mirror (index : nat)
    (mirror : bvb_memory_mirror_metadata) : M unit :=
  reply_if mirror.(mr_memory_id) =? 0 with tt ;;
  do context := get_context ;;
  do unmap := (if context.(ctx_get_device_proc_addr)
               then device_proc driver mirror.(mr_device) "vkUnmapMemory"
               else ret false) ;;
  do _ := (if unmap && bool_decide (is_Some mirror.(mr_native))
           then do _ := invoke driver unmap
                  (DeviceCall "vkUnmapMemory" mirror.(mr_device)
                     [(BVB_OBJECT_DEVICE_MEMORY, mirror.(mr_memory))] []) ;;
                ret tt
           else ret tt) ;;
  let total := if mirror.(mr_length) <=? context.(ctx_memory_mirror_bytes)
               then context.(ctx_memory_mirror_bytes) - mirror.(mr_length)
               else 0 in
  put_context (set_memory_mirror index zero_mirror_metadata total).

Definition resolve_memory_mirror (c : bvb_vulkan_global_context)
    (device_id memory_id generation : Z) :
    option (nat * bvb_memory_mirror_metadata) :=
  match memory_mirror_slot c memory_id with
  | Some (index, mirror) =>
      if (mirror.(mr_memory_id) =? memory_id) &&
         (mirror.(mr_device_id) =? device_id) &&
         (mirror.(mr_generation) =? generation)
      then Some (index, mirror) else None
  | None => None
  end.

(** The range of whole atoms around a range, cut at the allocation. *)
Definition aligned_range (mirror : bvb_memory_mirror_metadata)
    (offset size : Z) : Z * Z :=
  let atom := mirror.(mr_non_coherent_atom_size) in
  let allocation_size := mirror.(mr_allocation_size) in
  let aligned_offset := offset - offset mod atom in
  let aligned_end := offset + size in
  let remainder := aligned_end mod atom in
  let aligned_end :=
    if negb (remainder =? 0) && negb (aligned_end =? allocation_size) then
      let padding := atom - remainder in
      if allocation_size - aligned_end <? padding then allocation_size
      else aligned_end + padding
    else aligned_end in
  (aligned_offset, aligned_end - aligned_offset).

Definition maintain_native_memory_range (mirror : bvb_memory_mirror_metadata)
    (offset size : Z) (invalidate : bool) : M Z :=
  reply_if (mirror.(mr_non_coherent_atom_size) =? 0) || (size =? 0) ||
           (mirror.(mr_allocation_size) <? offset) ||
           (mirror.(mr_allocation_size) - offset <? size)
    with VK_ERROR_MEMORY_MAP_FAILED ;;
  let '(first, length) := aligned_range mirror offset size in
  let name := if invalidate then "vkInvalidateMappedMemoryRanges"
              else "vkFlushMappedMemoryRanges" in
  do maintain := device_proc driver mirror.(mr_device) name ;;
  reply_if negb maintain with VK_ERROR_FEATURE_NOT_PRESENT ;;
  do r := invoke driver maintain
    (DeviceCall name mirror.(mr_device)
       [(BVB_OBJECT_DEVICE_MEMORY, mirror.(mr_memory))] [first; length]) ;;
  ret r.(rp_result).

(** The checks setup_memory_mirror and setup_direct_memory share: the device,
    its handle and the allocation's handle, and the metadata of both. *)
Definition resolve_mirrored_memory
    (request : bvb_vulkan_memory_mirror_setup_request) :
    M (Z * Z * bvb_memory_metadata * bvb_device_metadata) :=
  do (memory_device_id, device, memory) :=
    resolve_device_child request.(mms_rq_memory_id) BVB_OBJECT_DEVICE_MEMORY ;;
  do (_, device_bits) :=
    table_lookup request.(mms_rq_device_id) BVB_OBJECT_DEVICE ;;
  do context := get_context ;;
  match memory_metadata_slot context request.(mms_rq_memory_id),
        device_metadata_slot context request.(mms_rq_device_id) with
  | Some (_, native_metadata), Some (_, native_device_metadata) =>
      stop_if negb (memory_device_id =? request.(mms_rq_device_id)) ||
              negb (device_bits =? device) ||
              negb (native_metadata.(mm_memory_id) =?
                      request.(mms_rq_memory_id)) ||
              negb (native_device_metadata.(dm_device_id) =?
                      request.(mms_rq_device_id)) ||
              (native_device_metadata.(dm_non_coherent_atom_size) =? 0)
        with (- EPROTO) ;;
      ret (device, memory, native_metadata, native_device_metadata)
  | _, _ => stop (- EPROTO)
  end.

(** The free slot for a mirror of a range. *)
Definition free_mirror_slot
    (request : bvb_vulkan_memory_mirror_setup_request) :
    M (nat * bvb_memory_mirror_metadata) :=
  do context := get_context ;;
  match memory_mirror_slot context request.(mms_rq_memory_id) with
  | None => stop (- ENOSPC)
  | Some (index, slot) =>
      stop_if negb (slot.(mr_memory_id) =? 0) with (- EBUSY) ;;
      stop_if BVB_VULKAN_MEMORY_MIRROR_TOTAL_BYTES - request.(mms_rq_length) <?
              context.(ctx_memory_mirror_bytes) with (- ENOSPC) ;;
      ret (index, slot)
  end.

Definition mirror_candidate
    (request : bvb_vulkan_memory_mirror_setup_request) (device memory : Z)
    (native_metadata : bvb_memory_metadata)
    (native_device_metadata : bvb_device_metadata)
    (shared : ptr bytes) (native : ptr mapped_memory) (baseline : ptr bytes)
    (direct : bool) : bvb_memory_mirror_metadata :=
  mk_memory_mirror_metadata request.(mms_rq_device_id)
    request.(mms_rq_memory_id) request.(mms_rq_generation)
    request.(mms_rq_offset) request.(mms_rq_length)
    native_metadata.(mm_allocation_size)
    native_device_metadata.(dm_non_coherent_atom_size)
    native_metadata.(mm_property_flags) device memory shared native baseline
    direct.

Definition range_exceeds (request : bvb_vulkan_memory_mirror_setup_request)
    (allocation_size : Z) : bool :=
  (allocation_size <? request.(mms_rq_offset)) ||
  (allocation_size - request.(mms_rq_offset) <? request.(mms_rq_length)).

Definition bvb_vulkan_global_context_setup_memory_mirror
    (request : bvb_vulkan_memory_mirror_setup_request)
    (mirror_fd : received_fd) : M Z :=
  stop_if mirror_fd.(fd_number) <? 0 with (- EINVAL) ;;
  stop_if negb (is_ok (bvb_protocol_encode_vulkan_memory_mirror_setup_request
                         (Some (blank BVB_VULKAN_MEMORY_MIRROR_SETUP_SIZE))
                         (Some request))) with (- EINVAL) ;;
  let required_seals := Z.lor F_SEAL_GROW (Z.lor F_SEAL_SHRINK F_SEAL_SEAL) in
  stop_if match mirror_fd.(fd_stat) with
          | Some (regular, size) =>
              negb regular || (size <? 0) ||
              negb (size =? request.(mms_rq_length))
          | None => true
          end ||
          (mirror_fd.(fd_seals) <? 0) ||
          negb (Z.land mirror_fd.(fd_seals) required_seals =? required_seals) ||
          negb (Z.land mirror_fd.(fd_seals) F_SEAL_WRITE =? 0)
    with (- EINVAL) ;;
  do (device, memory, native_metadata, native_device_metadata) :=
    resolve_mirrored_memory request ;;
  do context := get_context ;;
  reply_if negb (memory_is_buffer_only context request.(mms_rq_memory_id))
    with VK_ERROR_FEATURE_NOT_PRESENT ;;
  stop_if (Z.land native_metadata.(mm_property_flags)
             VK_MEMORY_PROPERTY_HOST_VISIBLE_BIT =? 0) ||
          range_exceeds request native_metadata.(mm_allocation_size)
    with (- ERANGE) ;;
  do (index, _) := free_mirror_slot request ;;
  do shared := of_result mirror_fd.(fd_mmap) ;;
  stop_if negb mirror_fd.(fd_malloc) with (- ENOMEM) ;;
  do map := device_proc driver device "vkMapMemory" ;;
  do unmap := device_proc driver device "vkUnmapMemory" ;;
  stop_if negb map || negb unmap with (- ENOSYS) ;;
  do mapped := invoke driver map
    (DeviceCall "vkMapMemory" device [(BVB_OBJECT_DEVICE_MEMORY, memory)] []) ;;
  reply_if negb (mapped.(rp_result) =? VK_SUCCESS)
    with mapped.(rp_result) ;;
  match mapping native_metadata.(mm_allocation_size) mapped with
  | None => ret mapped.(rp_result)
  | Some native =>
      let shared := region request.(mms_rq_length) shared in
      let shared :=
        if Z.land native_metadata.(mm_property_flags)
             VK_MEMORY_PROPERTY_HOST_COHERENT_BIT =? 0
        then shared
        else rd_bytes native request.(mms_rq_offset)
               request.(mms_rq_length) in
      do _ := put_context (set_memory_mirror index
        (mirror_candidate request device memory native_metadata
           native_device_metadata (Some shared) (Some (Mapped native))
           (Some shared) false)
        (context.(ctx_memory_mirror_bytes) + request.(mms_rq_length))) ;;
      ret mapped.(rp_result)
  end.

(** [exported] is the file descriptor [vkGetMemoryFdKHR] returned, and
    [cloexec] the [errno] of [fcntl(fd, F_SETFD, FD_CLOEXEC)] when it fails. *)
Definition bvb_vulkan_global_context_setup_direct_memory
    (request : bvb_vulkan_memory_mirror_setup_request)
    (cloexec : result unit) : M (Z * Z) :=
  stop_if negb (is_ok (bvb_protocol_encode_vulkan_memory_mirror_setup_request
                         (Some (blank BVB_VULKAN_MEMORY_MIRROR_SETUP_SIZE))
                         (Some request))) with (- EINVAL) ;;
  do (device, memory, native_metadata, native_device_metadata) :=
    resolve_mirrored_memory request ;;
  do context := get_context ;;
  reply_if negb (memory_is_buffer_only context request.(mms_rq_memory_id))
    with (VK_ERROR_FEATURE_NOT_PRESENT, -1) ;;
  let required_properties :=
    Z.lor VK_MEMORY_PROPERTY_HOST_VISIBLE_BIT
      VK_MEMORY_PROPERTY_HOST_COHERENT_BIT in
  reply_if negb native_metadata.(mm_opaque_fd_exportable) ||
           negb (Z.land native_metadata.(mm_property_flags)
                   required_properties =? required_properties)
    with (VK_ERROR_FEATURE_NOT_PRESENT, -1) ;;
  stop_if range_exceeds request native_metadata.(mm_allocation_size)
    with (- ERANGE) ;;
  do (index, _) := free_mirror_slot request ;;
  do map := device_proc driver device "vkMapMemory" ;;
  do unmap := device_proc driver device "vkUnmapMemory" ;;
  do get_memory_fd := device_proc driver device "vkGetMemoryFdKHR" ;;
  reply_if negb map || negb unmap || negb get_memory_fd
    with (VK_ERROR_FEATURE_NOT_PRESENT, -1) ;;
  let uses := [(BVB_OBJECT_DEVICE_MEMORY, memory)] in
  do mapped := invoke driver map (DeviceCall "vkMapMemory" device uses []) ;;
  reply_if negb (mapped.(rp_result) =? VK_SUCCESS)
    with (mapped.(rp_result), -1) ;;
  match mapping native_metadata.(mm_allocation_size) mapped with
  | None => ret (mapped.(rp_result), -1)
  | Some native =>
      do exported := invoke driver get_memory_fd
        (DeviceCall "vkGetMemoryFdKHR" device uses []) ;;
      let fd := hd (-1) exported.(rp_values) in
      if negb (exported.(rp_result) =? VK_SUCCESS) || (fd <? 0) then
        do _ := invoke driver unmap
          (DeviceCall "vkUnmapMemory" device uses []) ;;
        ret (if exported.(rp_result) =? VK_SUCCESS
             then VK_ERROR_MEMORY_MAP_FAILED else exported.(rp_result), -1)
      else
        do _ := (if is_ok cloexec then ret tt
                 else do _ := invoke driver unmap
                        (DeviceCall "vkUnmapMemory" device uses []) ;;
                      ret tt) ;;
        do _ := of_result cloexec ;;
        do _ := put_context (set_memory_mirror index
          (mirror_candidate request device memory native_metadata
             native_device_metadata None (Some (Mapped native)) None true)
          (context.(ctx_memory_mirror_bytes) + request.(mms_rq_length))) ;;
        ret (exported.(rp_result), fd)
  end.

(** The copies of a flush or an invalidation: its three buffers.  Through a
    lost mapping they have no defined behaviour; nothing is copied. *)
Definition range_copy (mirror : bvb_memory_mirror_metadata)
    (offset size : Z) (invalidate : bool) : bvb_memory_mirror_metadata :=
  match native_bytes mirror with
  | None => mirror
  | Some native =>
      let shared := buffer_of mirror.(mr_mirror) in
      let baseline := buffer_of mirror.(mr_baseline) in
      let mirror_offset := offset - mirror.(mr_offset) in
      if invalidate then
        let range := rd_bytes native offset size in
        with_buffers (wr_bytes shared mirror_offset range) native
          (wr_bytes baseline mirror_offset range) mirror
      else
        let range := rd_bytes shared mirror_offset size in
        with_buffers shared (wr_bytes native offset range)
          (wr_bytes baseline mirror_offset range) mirror
  end.

Definition memory_mirror_range_operation
    (request : bvb_vulkan_memory_mirror_range_request) (invalidate : bool) :
    M Z :=
  stop_if negb (is_ok (bvb_protocol_encode_vulkan_memory_mirror_range_request
                         (Some (blank BVB_VULKAN_MEMORY_MIRROR_RANGE_SIZE))
                         (Some request))) with (- EINVAL) ;;
  do context := get_context ;;
  match resolve_memory_mirror context request.(mmr_rq_device_id)
          request.(mmr_rq_memory_id) request.(mmr_rq_generation) with
  | None => stop (- ESTALE)
  | Some (index, mirror) =>
      stop_if mirror.(mr_direct) with (- EPROTO) ;;
      let end_ := u64 (mirror.(mr_offset) + mirror.(mr_length)) in
      stop_if (request.(mmr_rq_offset) <? mirror.(mr_offset)) ||
              (end_ <? request.(mmr_rq_offset)) ||
              (end_ - request.(mmr_rq_offset) <? request.(mmr_rq_size))
        with (- ERANGE) ;;
      let coherent :=
        negb (Z.land mirror.(mr_property_flags)
                VK_MEMORY_PROPERTY_HOST_COHERENT_BIT =? 0) in
      do fetched := (if invalidate && negb coherent
                     then maintain_native_memory_range mirror
                            request.(mmr_rq_offset) request.(mmr_rq_size) true
                     else ret VK_SUCCESS) ;;
      reply_if negb (fetched =? VK_SUCCESS) with fetched ;;
      let moved := range_copy mirror request.(mmr_rq_offset)
                     request.(mmr_rq_size) invalidate in
      do _ := put_context
        (set_memory_mirror index moved context.(ctx_memory_mirror_bytes)) ;;
      if negb invalidate && negb coherent
      then maintain_native_memory_range moved request.(mmr_rq_offset)
             request.(mmr_rq_size) false
      else ret fetched
  end.

Definition bvb_vulkan_global_context_flush_memory_mirror
    (request : bvb_vulkan_memory_mirror_range_request) : M Z :=
  memory_mirror_range_operation request false.
Definition bvb_vulkan_global_context_invalidate_memory_mirror
    (request : bvb_vulkan_memory_mirror_range_request) : M Z :=
  memory_mirror_range_operation request true.

Definition uploads (mirror : bvb_memory_mirror_metadata) : bool :=
  negb mirror.(mr_direct) &&
  negb (Z.land mirror.(mr_property_flags)
          VK_MEMORY_PROPERTY_HOST_COHERENT_BIT =? 0).

Definition bvb_vulkan_global_context_unmap_memory_mirror
    (request : bvb_vulkan_memory_mirror_unmap_request) : M unit :=
  stop_if negb (is_ok (bvb_protocol_encode_vulkan_memory_mirror_unmap_request
                         (Some (blank BVB_VULKAN_MEMORY_MIRROR_UNMAP_SIZE))
                         (Some request))) with (- EINVAL) ;;
  do context := get_context ;;
  match resolve_memory_mirror context request.(mmu_rq_device_id)
          request.(mmu_rq_memory_id) request.(mmu_rq_generation) with
  | None => stop (- ESTALE)
  | Some (index, mirror) =>
      let mirror := if uploads mirror then upload_mirror mirror else mirror in
      do _ := put_context
        (set_memory_mirror index mirror context.(ctx_memory_mirror_bytes)) ;;
      release_memory_mirror index mirror
  end.

Definition sync_mirror (device_id : Z) (mirror : bvb_memory_mirror_metadata) :
    bvb_memory_mirror_metadata :=
  if negb (mirror.(mr_memory_id) =? 0) &&
     (mirror.(mr_device_id) =? device_id) && uploads mirror
  then upload_mirror mirror else mirror.

Definition sync_coherent_memory_mirrors (device_id : Z) : M unit :=
  do context := get_context ;;
  put_context (set_memory_mirrors
    (sync_mirror device_id <$> context.(ctx_memory_mirrors))).

(** ** Direct access to host-visible memory *)

(** The words of a range that are not the expected one; [uint32_t] counts
    them. *)
Definition mismatched_words (contents : bytes) (offset size expected : Z) : Z :=
  u32 (Z.of_nat (List.length (filter (fun index =>
    bvb_wire_get_u32 contents (offset + index * 4) <> expected)
    (seqZ 0 (size / 4))))).

Definition verify_response := mk_bvb_vulkan_memory_verify_fill_response.

(** Flush or invalidate all of a mapping that is not coherent. *)
Definition maintain_mapping (device memory property_flags : Z)
    (name : string) : M Z :=
  reply_if negb (Z.land property_flags VK_MEMORY_PROPERTY_HOST_COHERENT_BIT
                 =? 0) with VK_SUCCESS ;;
  do maintain := device_proc driver device name ;;
  reply_if negb maintain with VK_ERROR_FEATURE_NOT_PRESENT ;;
  do r := invoke driver maintain
    (DeviceCall name device [(BVB_OBJECT_DEVICE_MEMORY, memory)] []) ;;
  ret r.(rp_result).

(** A mirror of the memory is in use. *)
Definition mirror_on (c : bvb_vulkan_global_context) (memory_id : Z) : bool :=
  existsb (fun r => r.(mr_memory_id) =? memory_id) c.(ctx_memory_mirrors).

(** [vkUnmapMemory] after a direct access. *)
Definition unmap_memory (unmap : bool) (device memory memory_id : Z) :
    M unit :=
  do _ := invoke driver unmap
    (DeviceCall "vkUnmapMemory" device
       [(BVB_OBJECT_DEVICE_MEMORY, memory)] []) ;;
  put_context (lose_mapping memory_id).

Definition in_host_visible_range (metadata : bvb_memory_metadata)
    (memory_id offset size : Z) : bool :=
  (metadata.(mm_memory_id) =? memory_id) &&
  (offset <=? metadata.(mm_allocation_size)) &&
  (size <=? metadata.(mm_allocation_size) - offset) &&
  negb (Z.land metadata.(mm_property_flags)
          VK_MEMORY_PROPERTY_HOST_VISIBLE_BIT =? 0).

(** The first direct mapping of an allocation. *)
Definition direct_mapping (c : bvb_vulkan_global_context) (memory_id : Z) :
    option bvb_memory_mirror_metadata :=
  snd <$> list_find (fun m => m.(mr_memory_id) = memory_id /\
                              m.(mr_direct) = true /\ is_Some m.(mr_native))
            c.(ctx_memory_mirrors).

Definition bvb_vulkan_global_context_verify_memory_fill
    (request : bvb_vulkan_memory_verify_fill_request) :
    M bvb_vulkan_memory_verify_fill_response :=
  stop_if (request.(mvf_rq_size) =? 0) ||
          negb (Z.land request.(mvf_rq_size) 3 =? 0) with (- EINVAL) ;;
  do context := get_context ;;
  match memory_metadata_slot context request.(mvf_rq_memory_id) with
  | None => stop (- ERANGE)
  | Some (_, metadata) =>
  stop_if negb (in_host_visible_range metadata request.(mvf_rq_memory_id)
                  request.(mvf_rq_offset) request.(mvf_rq_size))
    with (- ERANGE) ;;
  do (_, device, memory) := resolve_device_child request.(mvf_rq_memory_id)
                              BVB_OBJECT_DEVICE_MEMORY ;;
  match direct_mapping context request.(mvf_rq_memory_id) with
  | Some found =>
      stop_if (request.(mvf_rq_offset) <? found.(mr_offset)) ||
              (u64 (found.(mr_length) -
                      (request.(mvf_rq_offset) - found.(mr_offset))) <?
                 request.(mvf_rq_size)) with (- ERANGE) ;;
      ret (verify_response VK_SUCCESS
             (mismatched_words (buffer_of (native_bytes found))
                request.(mvf_rq_offset) request.(mvf_rq_size)
                request.(mvf_rq_expected_word)))
  | None =>
      do map := device_proc driver device "vkMapMemory" ;;
      do unmap := device_proc driver device "vkUnmapMemory" ;;
      stop_if negb map || negb unmap with (- ENOSYS) ;;
      let uses := [(BVB_OBJECT_DEVICE_MEMORY, memory)] in
      do mapped := invoke driver map
        (DeviceCall "vkMapMemory" device uses []) ;;
      reply_if negb (mapped.(rp_result) =? VK_SUCCESS)
        with verify_response mapped.(rp_result) 0 ;;
      match mapping metadata.(mm_allocation_size) mapped with
      | None => ret (verify_response mapped.(rp_result) 0)
      | Some contents =>
          do result := maintain_mapping device memory
            metadata.(mm_property_flags) "vkInvalidateMappedMemoryRanges" ;;
          do _ := unmap_memory unmap device memory request.(mvf_rq_memory_id) ;;
          ret (verify_response result
                 (if result =? VK_SUCCESS
                  then mismatched_words contents request.(mvf_rq_offset)
                         request.(mvf_rq_size) request.(mvf_rq_expected_word)
                  else 0))
      end
  end
  end.

Definition resolve_host_visible_memory
    (request : bvb_vulkan_memory_io_request) :
    M (bvb_memory_metadata * Z * Z) :=
  stop_if (request.(mi_rq_length) =? 0) ||
          (BVB_VULKAN_MEMORY_IO_MAX_BYTES <? request.(mi_rq_length))
    with (- EINVAL) ;;
  do context := get_context ;;
  match memory_metadata_slot context request.(mi_rq_memory_id) with
  | None => stop (- ERANGE)
  | Some (_, found) =>
      stop_if negb (in_host_visible_range found request.(mi_rq_memory_id)
                      request.(mi_rq_offset) request.(mi_rq_length))
        with (- ERANGE) ;;
      do (_, device, memory) := resolve_device_child request.(mi_rq_memory_id)
                                  BVB_OBJECT_DEVICE_MEMORY ;;
      ret (found, device, memory)
  end.

(** The bytes stored through the mapping are the numbers of a [memcpy]
    entry of the log. *)
Definition bvb_vulkan_global_context_write_memory
    (request : bvb_vulkan_memory_io_request) (data : bytes) : M Z :=
  do (metadata, device, memory) := resolve_host_visible_memory request ;;
  do map := device_proc driver device "vkMapMemory" ;;
  do unmap := device_proc driver device "vkUnmapMemory" ;;
  stop_if negb map || negb unmap with (- ENOSYS) ;;
  let uses := [(BVB_OBJECT_DEVICE_MEMORY, memory)] in
  do mapped := invoke driver map (DeviceCall "vkMapMemory" device uses []) ;;
  reply_if negb (mapped.(rp_result) =? VK_SUCCESS) with mapped.(rp_result) ;;
  match mapping metadata.(mm_allocation_size) mapped with
  | None => ret mapped.(rp_result)
  | Some _ =>
      do _ := invoke driver true (DeviceCall "memcpy" device uses
        (request.(mi_rq_offset) ::
         (Z_of_byte <$> take (Z.to_nat request.(mi_rq_length)) data))) ;;
      do result := maintain_mapping device memory
        metadata.(mm_property_flags) "vkFlushMappedMemoryRanges" ;;
      do _ := unmap_memory unmap device memory request.(mi_rq_memory_id) ;;
      ret result
  end.

Definition bvb_vulkan_global_context_read_memory
    (request : bvb_vulkan_memory_io_request) (capacity : Z) :
    M (Z * bytes) :=
  stop_if capacity <? request.(mi_rq_length) with (- EINVAL) ;;
  do (metadata, device, memory) := resolve_host_visible_memory request ;;
  do map := device_proc driver device "vkMapMemory" ;;
  do unmap := device_proc driver device "vkUnmapMemory" ;;
  stop_if negb map || negb unmap with (- ENOSYS) ;;
  let uses := [(BVB_OBJECT_DEVICE_MEMORY, memory)] in
  do mapped := invoke driver map (DeviceCall "vkMapMemory" device uses []) ;;
  reply_if negb (mapped.(rp_result) =? VK_SUCCESS)
    with (mapped.(rp_result), []) ;;
  match mapping metadata.(mm_allocation_size) mapped with
  | None => ret (mapped.(rp_result), [])
  | Some contents =>
      do result := maintain_mapping device memory
        metadata.(mm_property_flags) "vkInvalidateMappedMemoryRanges" ;;
      do _ := unmap_memory unmap device memory request.(mi_rq_memory_id) ;;
      ret (result,
           if result =? VK_SUCCESS
           then rd_bytes contents request.(mi_rq_offset)
                  request.(mi_rq_length)
           else [])
  end.
End operations.

(** ** The invariant *)

Section invariant.
Context {VH : VulkanHeader} {VC : VulkanCore}.
Context (driver : list event -> vk_call -> vk_reply).
Context {CD : ConformingDriver driver} {AP : Apart}.

Abbreviation mirrors w := w.(w_context).(ctx_memory_mirrors).

Lemma slot_of_elem {A} (key : A -> Z) id skip_zero l i x :
  slot_of key id skip_zero l = Some (i, x) -> l !! i = Some x.
Proof.
  unfold slot_of. intros (j & _ & (y & Hy & [= <- <-])%bind_Some)%bind_Some. done.
Qed.

Lemma stored_mirrored X S t w i r :
  At X S t w -> mirrors w !! i = Some r -> mirrored apart (table_map t) r.
Proof.
  intros I Hi. eapply Forall_lookup_1; [apply (at_mirrors _ _ _ _ I)|done].
Qed.

Lemma mirrored_zero kept (m : objects) : mirrored kept m zero_mirror_metadata.
Proof. by intros []. Qed.

Lemma wp_set_mirror X S t w index x total Q :
  At X S t w -> mirrored apart (table_map t) x ->
  (forall w', At X S t w' -> w_log w' = w_log w ->
     w_context w' = set_memory_mirror index x total w.(w_context) ->
     Q (Ok tt) w') ->
  wp (put_context (set_memory_mirror index x total)) Q w.
Proof.
  intros I Hx HQ. eapply wp_put_mirrors; [exact I|done|done|done|done| |done].
  cbn. apply Forall_insert; [apply (at_mirrors _ _ _ _ I)|done].
Qed.

Lemma native_bytes_lost r n : native_bytes r = Some n -> lost r = false.
Proof. unfold native_bytes, lost. by destruct mr_native as [[]|]. Qed.

(** Buffers of the same sizes keep a mirror what it is. *)
Lemma mirrored_buffers kept (m : objects) r n shared native baseline :
  mirrored kept m r -> native_bytes r = Some n ->
  (r.(mr_direct) = false -> buffered r ->
    blen shared = blen (buffer_of r.(mr_mirror)) /\ blen native = blen n /\
    blen baseline = blen (buffer_of r.(mr_baseline))) ->
  mirrored kept m (with_buffers shared native baseline r).
Proof.
  intros Hr En Hb Hne. destruct (Hr Hne) as (H1 & H2 & H3 & H4 & _ & H5).
  split_and!; try done. intros Hd _.
  specialize (H5 Hd (native_bytes_lost _ _ En)). specialize (Hb Hd H5).
  destruct H5 as (s & n' & b & E1 & E2 & E3 & ? & ? & ? & ? & ?).
  unfold native_bytes in En. rewrite E2 in En. injection En as ->.
  rewrite E1, E3 in Hb. cbn in Hb. exists shared, native, baseline.
  cbn. split_and!; try done; lia.
Qed.

Lemma buffered_fits r shared native baseline :
  buffered r -> shared = buffer_of r.(mr_mirror) ->
  native_bytes r = Some native -> baseline = buffer_of r.(mr_baseline) ->
  fits shared r.(mr_offset) (0 + r.(mr_length)) (native, baseline).
Proof.
  intros (s & n & b & E1 & E2 & E3 & ? & ? & ? & ? & ?) -> En ->.
  unfold native_bytes in En. rewrite E2 in En. injection En as ->.
  rewrite E1, E3. repeat split; cbn; lia.
Qed.

(** An upload runs to its end, and is the merge of the three buffers. *)
Lemma upload_mirror_spec r n :
  buffered r -> native_bytes r = Some n ->
  exists native baseline,
    upload_mirror r =
      with_buffers (buffer_of r.(mr_mirror)) native baseline r /\
    merged (buffer_of r.(mr_mirror)) r.(mr_offset) 0 r.(mr_length)
      (n, buffer_of r.(mr_baseline)) (native, baseline).
Proof.
  intros Hb En. pose proof (buffered_fits r _ _ _ Hb eq_refl En eq_refl) as Hf.
  assert (0 <= r.(mr_length)) by by destruct Hb as (?&?&?&?&?&?&?&?&?).
  destruct (upload_merges _ _ _ 0 _ ltac:(done) H Hf) as ([n' b] & Hu & Hm).
  exists n', b. unfold upload_mirror. by rewrite En, Hu.
Qed.

Lemma upload_mirrored kept (m : objects) r :
  r.(mr_direct) = false -> mirrored kept m r ->
  mirrored kept m (upload_mirror r).
Proof.
  intros Hd Hr. destruct (native_bytes r) as [n|] eqn:En.
  2:{ unfold upload_mirror. by rewrite En. }
  intros Hne. assert (Hne' : mr_memory_id r <> 0).
  { revert Hne. unfold upload_mirror. rewrite En.
    by destruct upload_host_diverged_range as [[]|]. }
  destruct (Hr Hne') as (_ & _ & _ & _ & _ & Hb).
  specialize (Hb Hd (native_bytes_lost _ _ En)).
  destruct (upload_mirror_spec r n Hb En) as (n' & b & E & Hm). revert Hne.
  rewrite E. eapply mirrored_buffers; [done|exact En|].
  intros _ _. split; [done|]. by destruct Hm.
Qed.

Lemma lose_mirrored (m : objects) memory_id r :
  memory_id <> 0 ->
  (apart = true -> r.(mr_memory_id) = memory_id -> memory_id = 0) ->
  mirrored apart m r -> mirrored apart m (lose_mirror memory_id r).
Proof.
  intros Hid Hun Hr. unfold lose_mirror.
  destruct (mr_native r) as [p|] eqn:E; [|done].
  destruct (Z.eqb_spec (mr_memory_id r) memory_id) as [Hm|]; [|done].
  intros Hne. destruct (Hr Hne) as (H1 & H2 & H3 & H4 & _ & _).
  split_and!; try done. intros Ha. by destruct Hid, (Hun Ha Hm).
Qed.

Lemma uploads_indirect r : uploads r = true -> r.(mr_direct) = false.
Proof. unfold uploads. by destruct (mr_direct r). Qed.

Lemma wp_release_mirror X S t w index mirror Q :
  At X S t w -> mirrored apart (table_map t) mirror ->
  (forall w', At X S t w' -> Q (Ok tt) w') ->
  wp (release_memory_mirror driver index mirror) Q w.
Proof.
  intros I Hr HQ. unfold release_memory_mirror.
  destruct (Z.eqb_spec (mr_memory_id mirror) 0) as [|Hne]; [by apply wp_reply, HQ|].
  destruct (Hr Hne) as (H1 & H2 & H3 & [p H4] & _).
  wp_run; (eapply wp_set_mirror; [eassumption|apply mirrored_zero|]);
    intros; by apply HQ.
Qed.

Lemma wp_resolve_mirrored X St t w request Q :
  At X St t w ->
  (forall device memory p native_metadata native_device_metadata,
     table_map t !! request.(mms_rq_memory_id) =
       Some (request.(mms_rq_device_id), memory) ->
     bvb_handle_type request.(mms_rq_memory_id) = BVB_OBJECT_DEVICE_MEMORY ->
     table_map t !! request.(mms_rq_device_id) = Some (p, device) ->
     bvb_handle_type request.(mms_rq_device_id) = BVB_OBJECT_DEVICE ->
     Q (Ok (device, memory, native_metadata, native_device_metadata)) w) ->
  (forall e, Q (Err e) w) ->
  wp (resolve_mirrored_memory request) Q w.
Proof.
  intros I Hok Herr. unfold resolve_mirrored_memory. wp_run; try done.
  passed. subst. by eapply Hok.
Qed.

Lemma wp_free_slot X St t w request Q :
  At X St t w ->
  (forall index slot, Q (Ok (index, slot)) w) -> (forall e, Q (Err e) w) ->
  wp (free_mirror_slot request) Q w.
Proof. intros I Hok Herr. unfold free_mirror_slot. wp_run; done. Qed.

(** A fresh mirror of a range of a stored allocation. *)
Lemma candidate_mirrored kept (m : objects) request device memory p nm dm shared
    native baseline direct :
  m !! request.(mms_rq_memory_id) =
    Some (request.(mms_rq_device_id), memory) ->
  bvb_handle_type request.(mms_rq_memory_id) = BVB_OBJECT_DEVICE_MEMORY ->
  m !! request.(mms_rq_device_id) = Some (p, device) ->
  bvb_handle_type request.(mms_rq_device_id) = BVB_OBJECT_DEVICE ->
  (direct = false -> exists s n b, shared = Some s /\
     native = Some (Mapped n) /\ baseline = Some b /\ 0 <= request.(mms_rq_offset) /\
     0 <= request.(mms_rq_length) /\ blen s = request.(mms_rq_length) /\
     blen b = request.(mms_rq_length) /\
     request.(mms_rq_offset) + request.(mms_rq_length) <= blen n) ->
  native <> Some Unmapped ->
  mirrored kept m (mirror_candidate request device memory nm dm shared native
                     baseline direct).
Proof.
  intros H1 H2 H3 H4 H5 Hn Hne. split_and!; [done..|by exists p| |by intros ? _; apply H5].
  intros _. unfold lost. cbn. by destruct native as [[]|].
Qed.

Lemma is_u64_ge z : is_u64 z = true -> 0 <= z.
Proof. unfold is_u64. intros. lia. Qed.

Lemma setup_rep request :
  mms_rq_rep request = true ->
  0 <= request.(mms_rq_offset) /\ 0 <= request.(mms_rq_length).
Proof.
  unfold mms_rq_rep. intros. passed. split; by apply is_u64_ge.
Qed.

Lemma mapping_length size r native :
  0 <= size -> mapping size r = Some native -> blen native = size.
Proof.
  unfold mapping. destruct (rp_values r); [done|]. intros H [= <-].
  by apply blen_region.
Qed.

Lemma setup_memory_mirror_keeps request mirror_fd :
  mms_rq_rep request = true ->
  keeps (bvb_vulkan_global_context_setup_memory_mirror driver request
           mirror_fd).
Proof.
  intros Hrep. apply setup_rep in Hrep as [Ho Hl].
  run_keeps bvb_vulkan_global_context_setup_memory_mirror.
  eapply wp_resolve_mirrored; [exact I| |intros e; wp_run].
  intros device memory p nm dm Hm Hmt Hd Hdt. wp_run.
  eapply wp_free_slot; [exact I| |intros e; wp_run]. intros index slot. wp_run.
  all: apply wp_of_result; match goal with |- then_wp _ _ ?r _ =>
         destruct r as [shared|e] end; wp_run.
  eapply wp_set_mirror; [eassumption| |intros w' I' _ _; wp_run].
  unfold range_exceeds in *. passed.
  match goal with H : mapping _ _ = Some _ |- _ =>
    apply mapping_length in H; [|lia] end.
  match goal with |- context [mirror_candidate _ _ _ _ _ (Some ?x)] =>
    assert (blen x = request.(mms_rq_length)) end.
  { destruct (Z.land _ VK_MEMORY_PROPERTY_HOST_COHERENT_BIT =? 0); [by apply blen_region|apply blen_rd_bytes; lia]. }
  eapply candidate_mirrored; [done..| |done]. intros _.
  eexists _, _, _. split_and!; try done. lia.
Qed.

Lemma setup_direct_memory_keeps request cloexec :
  keeps (bvb_vulkan_global_context_setup_direct_memory driver request cloexec).
Proof.
  run_keeps bvb_vulkan_global_context_setup_direct_memory.
  eapply wp_resolve_mirrored; [exact I| |intros e; wp_run].
  intros device memory p nm dm Hm Hmt Hd Hdt. wp_run.
  eapply wp_free_slot; [exact I| |intros e; wp_run]. intros index slot. wp_run.
  all: apply wp_of_result; destruct cloexec as [[]|e]; wp_run; try done.
  eapply wp_set_mirror; [eassumption| |intros w' I' _ _; wp_run].
  by eapply candidate_mirrored.
Qed.

Lemma resolve_mirror_lookup c device_id memory_id generation i r :
  resolve_memory_mirror c device_id memory_id generation = Some (i, r) ->
  c.(ctx_memory_mirrors) !! i = Some r /\ r.(mr_memory_id) = memory_id.
Proof.
  unfold resolve_memory_mirror, memory_mirror_slot.
  destruct (slot_of _ _ _ _) as [[j x]|] eqn:E; [|done].
  destruct (_ && _) eqn:Ec; [|done]. intros [= -> ->].
  apply slot_of_elem in E. passed. done.
Qed.

(** Maintaining a stored mirror's range changes nothing that is stored. *)
Lemma wp_maintain X St t w mirror offset size invalidate Q :
  At X St t w -> mirrored apart (table_map t) mirror ->
  mirror.(mr_memory_id) <> 0 ->
  (forall r w', At X St t w' -> w_context w' = w_context w -> Q (Ok r) w') ->
  wp (maintain_native_memory_range driver mirror offset size invalidate) Q w.
Proof.
  intros I Hr Hne HQ. destruct (Hr Hne) as (H1 & H2 & H3 & [p H4] & _).
  unfold maintain_native_memory_range. wp_run; apply HQ; congruence.
Qed.

Lemma range_copy_mirrored kept (m : objects) r offset size invalidate :
  mirrored kept m r -> mirrored kept m (range_copy r offset size invalidate).
Proof.
  intros Hr. unfold range_copy. destruct (native_bytes r) as [n|] eqn:En; [|done].
  destruct invalidate; (eapply mirrored_buffers; [done|exact En|]);
    intros _ _; by rewrite !blen_wr_bytes.
Qed.

Lemma range_copy_id r offset size invalidate :
  (range_copy r offset size invalidate).(mr_memory_id) = r.(mr_memory_id).
Proof. unfold range_copy. by destruct native_bytes, invalidate. Qed.

(** A valid request names an allocation: its identifier is not 0. *)
Lemma identity_nonzero device_id memory_id generation :
  is_ok (validate_memory_mirror_identity device_id memory_id generation) =
    true -> memory_id <> 0.
Proof.
  unfold validate_memory_mirror_identity. intros H ->.
  by rewrite andb_false_r in H.
Qed.

Lemma range_request_nonzero o request :
  is_ok (bvb_protocol_encode_vulkan_memory_mirror_range_request (Some o)
           (Some request)) = true -> request.(mmr_rq_memory_id) <> 0.
Proof.
  unfold bvb_protocol_encode_vulkan_memory_mirror_range_request.
  destruct (_ || _) eqn:E; [done|]. intros _. passed.
  by eapply identity_nonzero.
Qed.

Lemma unmap_request_nonzero o request :
  is_ok (bvb_protocol_encode_vulkan_memory_mirror_unmap_request (Some o)
           (Some request)) = true -> request.(mmu_rq_memory_id) <> 0.
Proof.
  unfold bvb_protocol_encode_vulkan_memory_mirror_unmap_request.
  destruct negb eqn:E; [done|]. intros _. passed.
  by eapply identity_nonzero.
Qed.

Lemma range_operation_keeps request invalidate :
  keeps (memory_mirror_range_operation driver request invalidate).
Proof.
  run_keeps memory_mirror_range_operation.
  all: match goal with H : resolve_memory_mirror _ _ _ _ = Some (_, ?r) |- _ =>
         apply resolve_mirror_lookup in H as [Hi Hid];
         pose proof (stored_mirrored _ _ _ _ _ _ I Hi) as Hr;
         assert (Hne : mr_memory_id r <> 0)
           by (passed; rewrite Hid; by eapply range_request_nonzero)
       end.
  - eapply wp_maintain; [exact I|done|done|]. clear I. intros f w' I _. wp_run.
    eapply wp_set_mirror; [eassumption|by apply range_copy_mirrored|].
    intros w1 I1 _ _. wp_run. eapply wp_maintain;
      [eassumption|by apply range_copy_mirrored|by rewrite range_copy_id|].
    intros ???? . by eexists.
  - eapply wp_set_mirror; [eassumption|by apply range_copy_mirrored|].
    intros w1 I1 _ _. wp_run. eapply wp_maintain;
      [eassumption|by apply range_copy_mirrored|by rewrite range_copy_id|].
    intros ???? . by eexists.
Qed.

Lemma unmap_memory_mirror_keeps request :
  keeps (bvb_vulkan_global_context_unmap_memory_mirror driver request).
Proof.
  run_keeps bvb_vulkan_global_context_unmap_memory_mirror.
  match goal with H : resolve_memory_mirror _ _ _ _ = Some (_, ?r) |- _ =>
    apply resolve_mirror_lookup in H as [Hi Hid];
    pose proof (stored_mirrored _ _ _ _ _ _ I Hi) as Hr;
    assert (Hu : mirrored apart (table_map t)
      (if uploads r then upload_mirror r else r))
  end.
  { destruct uploads eqn:Eu; [|done].
    apply upload_mirrored; [by apply uploads_indirect|done]. }
  eapply wp_set_mirror; [exact I|done|]. intros w1 I1 _ _. wp_run.
  eapply wp_release_mirror; [exact I1|done|]. intros w2 I2. by eexists.
Qed.

Lemma wp_sync X St t w device_id Q :
  At X St t w ->
  (forall w', At X St t w' -> Q (Ok tt) w') ->
  wp (sync_coherent_memory_mirrors device_id) Q w.
Proof.
  intros I HQ. unfold sync_coherent_memory_mirrors. wp_run.
  eapply wp_put_mirrors; [exact I|done|done|done|done| |intros; by apply HQ].
  cbn. apply Forall_fmap. eapply Forall_impl; [|apply (at_mirrors _ _ _ _ I)].
  intros r Hr. cbn. unfold sync_mirror. destruct (_ && _) eqn:E; [|done].
  passed. apply upload_mirrored; [by apply uploads_indirect|done].
Qed.

Lemma wp_maintain_mapping X St t w device memory flags name Q did p mid :
  At X St t w -> table_map t !! did = Some (p, device) ->
  bvb_handle_type did = BVB_OBJECT_DEVICE ->
  table_map t !! mid = Some (did, memory) ->
  bvb_handle_type mid = BVB_OBJECT_DEVICE_MEMORY ->
  (forall r w', At X St t w' -> w_context w' = w_context w ->
     Q (Ok r) w') ->
  wp (maintain_mapping driver device memory flags name) Q w.
Proof.
  intros I Hd Hdt Hm Hmt HQ. unfold maintain_mapping.
  wp_run; (apply HQ; [done|congruence]).
Qed.

(** No mirror is on the memory, where that matters. *)
Definition lone (w : world) (memory_id : Z) : Prop :=
  apart = true -> mirror_on w.(w_context) memory_id = false.

Lemma lone_unmirrored w memory_id :
  lone w memory_id -> apart = true -> unmirrored w memory_id.
Proof.
  intros Hl Ha. specialize (Hl Ha). apply Forall_forall. intros r Hin Hid.
  exfalso. apply not_true_iff_false in Hl. apply Hl, existsb_exists.
  exists r. split; [done|]. by apply Z.eqb_eq.
Qed.

Lemma lone_context w w' memory_id :
  w_context w' = w_context w -> lone w memory_id -> lone w' memory_id.
Proof. unfold lone. by intros ->. Qed.

(** The end of a direct access. *)
Lemma wp_unmap X St t w unmap device memory mid Q did p :
  At X St t w -> unmap = true -> table_map t !! did = Some (p, device) ->
  bvb_handle_type did = BVB_OBJECT_DEVICE ->
  table_map t !! mid = Some (did, memory) ->
  bvb_handle_type mid = BVB_OBJECT_DEVICE_MEMORY ->
  lone w mid ->
  (forall w', At X St t w' -> Q (Ok tt) w') ->
  wp (unmap_memory driver unmap device memory mid) Q w.
Proof.
  intros I -> Hd Hdt Hm Hmt Hun HQ. unfold unmap_memory. wp_step. wp_step.
  eapply wp_put_mirrors; [eassumption|done|done|done|done| |intros; by apply HQ].
  cbn. apply Forall_fmap, Forall_forall. intros x Hin. apply lose_mirrored.
  - intros ->. discriminate Hmt.
  - intros Ha. apply (proj1 (Forall_forall _ _) (lone_unmirrored _ _ Hun Ha)).
    by rewrite <- C.
  - by apply (proj1 (Forall_forall _ _) (at_mirrors _ _ _ _ I0)).
Qed.

Ltac maintain :=
  eapply wp_maintain_mapping; [eassumption..|];
  let w' := fresh "w" in let I' := fresh "I" in let C := fresh "C" in
  intros ? w' I' C; wp_run.
Ltac unmap :=
  eapply wp_unmap;
    [eassumption|entry_point|eassumption..
    |eapply lone_context; [|eassumption]; congruence|];
  let w' := fresh "w" in let I' := fresh "I" in intros w' I'; wp_run.

Lemma verify_memory_fill_keeps request :
  keeps_when (fun w => direct_mapping w.(w_context) request.(mvf_rq_memory_id)
                         = None -> lone w request.(mvf_rq_memory_id))
    (bvb_vulkan_global_context_verify_memory_fill driver request).
Proof.
  run_keeps_when bvb_vulkan_global_context_verify_memory_fill.
  specialize (HP eq_refl). maintain. unmap.
Qed.

Lemma wp_host_visible X St t w request Q :
  At X St t w ->
  (forall metadata device memory did p,
     table_map t !! did = Some (p, device) ->
     bvb_handle_type did = BVB_OBJECT_DEVICE ->
     table_map t !! request.(mi_rq_memory_id) = Some (did, memory) ->
     bvb_handle_type request.(mi_rq_memory_id) = BVB_OBJECT_DEVICE_MEMORY ->
     Q (Ok (metadata, device, memory)) w) ->
  (forall e, Q (Err e) w) ->
  wp (resolve_host_visible_memory request) Q w.
Proof.
  intros I Hok Herr. unfold resolve_host_visible_memory.
  wp_run; try done. by eapply Hok.
Qed.

Lemma write_memory_keeps request data :
  keeps_when (fun w => lone w request.(mi_rq_memory_id))
    (bvb_vulkan_global_context_write_memory driver request data).
Proof.
  run_keeps_when bvb_vulkan_global_context_write_memory.
  eapply wp_host_visible; [exact I| |intros e; wp_run].
  intros metadata device memory did p Hd Hdt Hm Hmt. wp_run.
  maintain. unmap.
Qed.

Lemma read_memory_keeps request capacity :
  keeps_when (fun w => lone w request.(mi_rq_memory_id))
    (bvb_vulkan_global_context_read_memory driver request capacity).
Proof.
  run_keeps_when bvb_vulkan_global_context_read_memory.
  eapply wp_host_visible; [exact I| |intros e; wp_run].
  intros metadata device memory did p Hd Hdt Hm Hmt. wp_run.
  maintain. unmap.
Qed.
End invariant.
