(* ===== verification/BackendPhysical.v ===== *)
(** * BackendPhysical: what the service asks of a physical device

    The queries of src/vulkan_global.c that later operations depend on: the
    properties, the queue families and the memory types of a physical device.
    A count the driver reports is checked against the space for it. *)

From stdpp Require Import strings gmap.
From S2P Require Import Prelude Wire Abi Codec ProtocolDevice MessageLists Backend BackendInvariant BackendRules.

(** The parts of [VkPhysicalDeviceProperties] and
    [VkPhysicalDeviceMemoryProperties] the service looks at. *)
Record physical_properties := mk_physical_properties {
  pp_device_name : list Z;
  pp_non_coherent_atom_size : Z
}.
Record memory_properties := mk_memory_properties {
  mp_type_count : Z;
  mp_heap_count : Z;
  mp_property_flags : list Z
}.

Abbreviation BVB_VULKAN_MAX_QUEUE_FAMILIES := 64 (only parsing).

Section operations.
Context {VH : VulkanHeader} {VC : VulkanCore}.
Context (driver : list event -> vk_call -> vk_reply).

Definition bvb_vulkan_global_context_get_physical_device_properties
    (physical_device_id : Z) : M physical_properties :=
  do (instance, physical_device) :=
    resolve_physical_device physical_device_id ;;
  do get_properties :=
    instance_proc driver instance "vkGetPhysicalDeviceProperties" ;;
  stop_if negb get_properties with (- ENOSYS) ;;
  do r := invoke driver get_properties
    (PhysicalDeviceQuery physical_device "vkGetPhysicalDeviceProperties") ;;
  let size := Z.to_nat VK_MAX_PHYSICAL_DEVICE_NAME_SIZE in
  let name := take size r.(rp_values) in
  stop_if negb (existsb (fun c => c =? 0) name) with (- EPROTO) ;;
  ret (mk_physical_properties name (nth size r.(rp_values) 0)).

(** The queue counts of the families, in order. *)
Definition bvb_vulkan_global_context_get_queue_family_properties
    (physical_device_id : Z) : M (list Z) :=
  do (instance, physical_device) :=
    resolve_physical_device physical_device_id ;;
  let name := "vkGetPhysicalDeviceQueueFamilyProperties" in
  do get_properties := instance_proc driver instance name ;;
  stop_if negb get_properties with (- ENOSYS) ;;
  do counted := invoke driver get_properties
    (PhysicalDeviceQuery physical_device name) ;;
  let available := hd 0 counted.(rp_values) in
  stop_if BVB_VULKAN_MAX_QUEUE_FAMILIES <? available with (- EOVERFLOW) ;;
  reply_if available =? 0 with [] ;;
  do r := invoke driver get_properties
    (PhysicalDeviceQuery physical_device name) ;;
  let returned := hd 0 r.(rp_values) in
  stop_if available <? returned with (- EPROTO) ;;
  ret (take (Z.to_nat returned) (tl r.(rp_values))).

Definition bvb_vulkan_global_context_get_memory_properties
    (physical_device_id : Z) : M memory_properties :=
  do (instance, physical_device) :=
    resolve_physical_device physical_device_id ;;
  do get_properties :=
    instance_proc driver instance "vkGetPhysicalDeviceMemoryProperties" ;;
  stop_if negb get_properties with (- ENOSYS) ;;
  do r := invoke driver get_properties
    (PhysicalDeviceQuery physical_device
       "vkGetPhysicalDeviceMemoryProperties") ;;
  let properties :=
    mk_memory_properties (nth 0 r.(rp_values) 0) (nth 1 r.(rp_values) 0)
      (drop 2 r.(rp_values)) in
  stop_if (VK_MAX_MEMORY_TYPES <? properties.(mp_type_count)) ||
          (VK_MAX_MEMORY_HEAPS <? properties.(mp_heap_count))
    with (- EPROTO) ;;
  ret properties.
End operations.

(** ** The invariant

    A query leaves the store alone. *)
Section invariant.
Context {VH : VulkanHeader} {VC : VulkanCore}.
Context (driver : list event -> vk_call -> vk_reply).
Context {CD : ConformingDriver driver} {AP : Apart}.

Lemma wp_physical_properties t w id Q :
  At [] none t w ->
  (forall r w', At [] none t w' -> w_context w' = w_context w -> Q r w') ->
  wp (bvb_vulkan_global_context_get_physical_device_properties driver id) Q w.
Proof.
  intros I HQ.
  unfold bvb_vulkan_global_context_get_physical_device_properties.
  wp_run; apply HQ; congruence.
Qed.

Lemma wp_queue_families t w id Q :
  At [] none t w ->
  (forall r w', At [] none t w' -> w_context w' = w_context w -> Q r w') ->
  wp (bvb_vulkan_global_context_get_queue_family_properties driver id) Q w.
Proof.
  intros I HQ.
  unfold bvb_vulkan_global_context_get_queue_family_properties.
  wp_run; apply HQ; congruence.
Qed.

Lemma wp_memory_properties t w id Q :
  At [] none t w ->
  (forall r w', At [] none t w' -> w_context w' = w_context w -> Q r w') ->
  wp (bvb_vulkan_global_context_get_memory_properties driver id) Q w.
Proof.
  intros I HQ. unfold bvb_vulkan_global_context_get_memory_properties.
  wp_run; apply HQ; congruence.
Qed.
End invariant.
