(* ===== verification/BackendMemory.v ===== *)
(** * BackendMemory: buffers and device memory of the service

    The operations of src/vulkan_global.c that create, query, bind and
    destroy buffers and allocate and free device memory.  An allocation that
    has a mirror is not freed. *)

From stdpp Require Import strings gmap.
From S2P Require Import Prelude Wire Abi Codec ProtocolDevice ProtocolResource MessageLists Backend BackendInvariant BackendRules BackendSync BackendPhysical MemoryMirror BackendMirror.

Abbreviation BVB_VULKAN_BUFFER_CREATE_EXPORT_OPAQUE_FD := 2147483648
  (only parsing).
Abbreviation BVB_VULKAN_MEMORY_ALLOCATE_PNEXT_EXPORT_OPAQUE_FD := 4
  (only parsing).

Record bvb_vulkan_device_buffer_requirements_request :=
    mk_bvb_vulkan_device_buffer_requirements_request {
  dbr_rq_device_id : Z;
  dbr_rq_size : Z;
  dbr_rq_flags : Z;
  dbr_rq_usage : Z;
  dbr_rq_sharing_mode : Z;
  dbr_rq_queue_family_index_count : Z;
  dbr_rq_queue_family_indices : list Z
}.
Record bvb_vulkan_device_buffer_requirements_response :=
    mk_bvb_vulkan_device_buffer_requirements_response {
  dbr_rs_memory : bvb_vulkan_buffer_requirements;
  dbr_rs_prefers_dedicated_allocation : Z;
  dbr_rs_requires_dedicated_allocation : Z
}.

Section operations.
Context {VH : VulkanHeader} {VC : VulkanCore}.
Context (driver : list event -> vk_call -> vk_reply).

(** ** Buffers *)

Definition address_usage : Z :=
  Z.lor VK_BUFFER_USAGE_SHADER_DEVICE_ADDRESS_BIT
    (Z.lor VK_BUFFER_USAGE_TRANSFER_DST_BIT VK_BUFFER_USAGE_TRANSFER_SRC_BIT).
Definition supported_usage : Z :=
  Z.lor VK_BUFFER_USAGE_INDIRECT_BUFFER_BIT
    (Z.lor VK_BUFFER_USAGE_INDEX_BUFFER_BIT
    (Z.lor VK_BUFFER_USAGE_VERTEX_BUFFER_BIT
    (Z.lor VK_BUFFER_USAGE_STORAGE_BUFFER_BIT
    (Z.lor VK_BUFFER_USAGE_UNIFORM_BUFFER_BIT
    (Z.lor VK_BUFFER_USAGE_UNIFORM_TEXEL_BUFFER_BIT
    (Z.lor VK_BUFFER_USAGE_STORAGE_TEXEL_BUFFER_BIT
    (Z.lor VK_BUFFER_USAGE_SHADER_DEVICE_ADDRESS_BIT
    (Z.lor VK_BUFFER_USAGE_TRANSFER_DST_BIT
    (Z.lor VK_BUFFER_USAGE_TRANSFER_SRC_BIT
    (Z.lor VK_BUFFER_USAGE_TRANSFORM_FEEDBACK_BUFFER_BIT_EXT
      VK_BUFFER_USAGE_TRANSFORM_FEEDBACK_COUNTER_BUFFER_BIT_EXT)))))))))).

Definition bvb_vulkan_global_context_create_buffer
    (request : bvb_vulkan_buffer_create_request) :
    M bvb_vulkan_object_create_response :=
  let export_opaque_fd :=
    negb (Z.land request.(bc_rq_flags)
            BVB_VULKAN_BUFFER_CREATE_EXPORT_OPAQUE_FD =? 0) in
  let application_flags :=
    Z.ldiff request.(bc_rq_flags) BVB_VULKAN_BUFFER_CREATE_EXPORT_OPAQUE_FD in
  let usage := request.(bc_rq_usage) in
  reply_if (request.(bc_rq_size) =? 0) ||
           (BVB_VULKAN_MAX_MEMORY_ALLOCATION_SIZE <? request.(bc_rq_size)) ||
           negb (application_flags =? 0) ||
           (negb (usage =? VK_BUFFER_USAGE_TRANSFER_DST_BIT) &&
            negb (usage =? VK_BUFFER_USAGE_TRANSFER_SRC_BIT) &&
            (negb (Z.land usage address_usage =? address_usage) ||
             negb (Z.ldiff usage supported_usage =? 0)))
    with object_response VK_ERROR_FEATURE_NOT_PRESENT 0 ;;
  do (_, device) := table_lookup request.(bc_rq_device_id) BVB_OBJECT_DEVICE ;;
  do create_buffer := device_proc driver device "vkCreateBuffer" ;;
  do destroy_buffer := device_proc driver device "vkDestroyBuffer" ;;
  stop_if negb create_buffer || negb destroy_buffer with (- ENOSYS) ;;
  do created := invoke driver create_buffer
    (Create BVB_OBJECT_BUFFER device []
       [Z.b2z export_opaque_fd; request.(bc_rq_size); usage]) ;;
  reply_if negb (created.(rp_result) =? VK_SUCCESS)
    with object_response created.(rp_result) 0 ;;
  do context := get_context ;;
  match buffer_metadata_slot context 0 with
  | None =>
      do _ := invoke driver destroy_buffer
        (Destroy BVB_OBJECT_BUFFER device (rp_handle created)) ;;
      ret (object_response VK_ERROR_TOO_MANY_OBJECTS 0)
  | Some (index, _) =>
      do wire_id := next_id BVB_OBJECT_BUFFER ;;
      do result := catch (table_insert wire_id request.(bc_rq_device_id)
                            (rp_handle created)) ;;
      if negb (is_ok result) then
        do _ := invoke driver destroy_buffer
          (Destroy BVB_OBJECT_BUFFER device (rp_handle created)) ;;
        ret (object_response VK_ERROR_TOO_MANY_OBJECTS 0)
      else
        do _ := put_context (set_buffer_metadata index
          (mk_buffer_metadata wire_id request.(bc_rq_device_id) 0 usage
             false)) ;;
        ret (object_response created.(rp_result) wire_id)
  end.

Definition bvb_vulkan_global_context_destroy_buffer (buffer_id : Z) :
    M unit :=
  do (_, device, buffer) := resolve_device_child buffer_id BVB_OBJECT_BUFFER ;;
  do destroy_buffer := device_proc driver device "vkDestroyBuffer" ;;
  stop_if negb destroy_buffer with (- ENOSYS) ;;
  do _ := table_remove buffer_id BVB_OBJECT_BUFFER ;;
  do context := get_context ;;
  do _ := match buffer_metadata_slot context buffer_id with
          | Some (index, metadata) =>
              if metadata.(bm_buffer_id) =? buffer_id
              then put_context (set_buffer_metadata index zero_buffer_metadata)
              else ret tt
          | None => ret tt
          end ;;
  do _ := invoke driver destroy_buffer
    (Destroy BVB_OBJECT_BUFFER device buffer) ;;
  ret tt.

(** [VkMemoryRequirements], as the numbers of a reply. *)
Definition requirements_of (r : vk_reply) : bvb_vulkan_buffer_requirements :=
  mk_bvb_vulkan_buffer_requirements (nth 0 r.(rp_values) 0)
    (nth 1 r.(rp_values) 0) (nth 2 r.(rp_values) 0).

Definition requirements_null (r : bvb_vulkan_buffer_requirements) : bool :=
  (r.(br_size) =? 0) || (r.(br_alignment) =? 0) ||
  (r.(br_memory_type_bits) =? 0).

Definition bvb_vulkan_global_context_get_buffer_requirements
    (buffer_id : Z) : M bvb_vulkan_buffer_requirements :=
  do (_, device, buffer) := resolve_device_child buffer_id BVB_OBJECT_BUFFER ;;
  let name := "vkGetBufferMemoryRequirements" in
  do get_requirements := device_proc driver device name ;;
  stop_if negb get_requirements with (- ENOSYS) ;;
  do r := invoke driver get_requirements
    (DeviceCall name device [(BVB_OBJECT_BUFFER, buffer)] []) ;;
  stop_if requirements_null (requirements_of r) with (- EPROTO) ;;
  ret (requirements_of r).

Definition is_bool32 (value : Z) : bool :=
  (value =? VK_FALSE) || (value =? VK_TRUE).

Definition bvb_vulkan_global_context_get_device_buffer_requirements
    (request : bvb_vulkan_device_buffer_requirements_request) :
    M bvb_vulkan_device_buffer_requirements_response :=
  do (_, device) := table_lookup request.(dbr_rq_device_id) BVB_OBJECT_DEVICE ;;
  let name := "vkGetDeviceBufferMemoryRequirements" in
  do get_requirements := device_proc driver device name ;;
  stop_if negb get_requirements with (- ENOSYS) ;;
  do r := invoke driver get_requirements
    (DeviceCall name device []
       (request.(dbr_rq_flags) :: request.(dbr_rq_size) ::
        request.(dbr_rq_usage) :: request.(dbr_rq_sharing_mode) ::
        take (Z.to_nat request.(dbr_rq_queue_family_index_count))
          request.(dbr_rq_queue_family_indices))) ;;
  let prefers := nth 3 r.(rp_values) VK_FALSE in
  let requires := nth 4 r.(rp_values) VK_FALSE in
  stop_if requirements_null (requirements_of r) || negb (is_bool32 prefers) ||
          negb (is_bool32 requires) with (- EPROTO) ;;
  ret (mk_bvb_vulkan_device_buffer_requirements_response (requirements_of r)
         (Z.b2z (prefers =? VK_TRUE)) (Z.b2z (requires =? VK_TRUE))).

Definition bvb_vulkan_global_context_get_buffer_requirements_2
    (request : bvb_vulkan_buffer_requirements_2_request) :
    M bvb_vulkan_buffer_requirements_2_response :=
  stop_if negb (is_ok
      (bvb_protocol_encode_vulkan_buffer_requirements_2_request
         (Some (blank BVB_VULKAN_BUFFER_REQUIREMENTS_2_REQUEST_SIZE))
         (Some request))) with (- EINVAL) ;;
  do (_, device, buffer) :=
    resolve_device_child request.(br2_rq_buffer_id) BVB_OBJECT_BUFFER ;;
  let name := "vkGetBufferMemoryRequirements2" in
  do get_requirements := device_proc driver device name ;;
  stop_if negb get_requirements with (- ENOSYS) ;;
  let dedicated :=
    negb (Z.land request.(br2_rq_pnext_flags)
            BVB_VULKAN_BUFFER_REQUIREMENTS_2_PNEXT_DEDICATED =? 0) in
  do r := invoke driver get_requirements
    (DeviceCall name device [(BVB_OBJECT_BUFFER, buffer)]
       [Z.b2z dedicated]) ;;
  let prefers := if dedicated then nth 3 r.(rp_values) 0 else 0 in
  let requires := if dedicated then nth 4 r.(rp_values) 0 else 0 in
  stop_if requirements_null (requirements_of r) || (VK_TRUE <? prefers) ||
          (VK_TRUE <? requires) with (- EPROTO) ;;
  ret (mk_bvb_vulkan_buffer_requirements_2_response
         (requirements_of r).(br_size) (requirements_of r).(br_alignment)
         (requirements_of r).(br_memory_type_bits)
         request.(br2_rq_pnext_flags) prefers requires).

Definition bvb_vulkan_global_context_get_buffer_device_address
    (request : bvb_vulkan_buffer_device_address_request) :
    M bvb_vulkan_buffer_device_address_response :=
  stop_if negb (is_ok
      (bvb_protocol_encode_vulkan_buffer_device_address_request
         (Some (blank BVB_VULKAN_BUFFER_DEVICE_ADDRESS_REQUEST_SIZE))
         (Some request))) with (- EINVAL) ;;
  do (device_id, device, buffer) :=
    resolve_device_child request.(bda_rq_buffer_id) BVB_OBJECT_BUFFER ;;
  do context := get_context ;;
  stop_if match buffer_metadata_find context request.(bda_rq_buffer_id) with
          | None => true
          | Some metadata =>
              negb (metadata.(bm_device_id) =? device_id) ||
              negb metadata.(bm_memory_bound) ||
              (Z.land metadata.(bm_usage)
                 VK_BUFFER_USAGE_SHADER_DEVICE_ADDRESS_BIT =? 0)
          end with (- EINVAL) ;;
  do get_address := device_proc driver device "vkGetBufferDeviceAddress" ;;
  stop_if negb get_address with (- ENOSYS) ;;
  do r := invoke driver get_address
    (DeviceCall "vkGetBufferDeviceAddress" device
       [(BVB_OBJECT_BUFFER, buffer)] []) ;;
  stop_if hd 0 r.(rp_values) =? 0 with (- EPROTO) ;;
  ret (mk_bvb_vulkan_buffer_device_address_response (hd 0 r.(rp_values))).

(** ** Device memory *)

Definition bvb_vulkan_global_context_allocate_memory_extended
    (request : bvb_vulkan_memory_allocate_extended_request) :
    M bvb_vulkan_object_create_response :=
  reply_if negb (is_ok
      (bvb_protocol_encode_vulkan_memory_allocate_extended_request
         (Some (blank BVB_VULKAN_MEMORY_ALLOCATE_EXTENDED_REQUEST_SIZE))
         (Some request)))
    with object_response VK_ERROR_FEATURE_NOT_PRESENT 0 ;;
  do (physical_id, device) :=
    table_lookup request.(mae_rq_device_id) BVB_OBJECT_DEVICE ;;
  do properties :=
    bvb_vulkan_global_context_get_memory_properties driver physical_id ;;
  reply_if properties.(mp_type_count) <=? request.(mae_rq_memory_type_index)
    with object_response VK_ERROR_FEATURE_NOT_PRESENT 0 ;;
  let has (bit : Z) := negb (Z.land request.(mae_rq_pnext_flags) bit =? 0) in
  let is_dedicated := has BVB_VULKAN_MEMORY_ALLOCATE_PNEXT_DEDICATED_IMAGE in
  do image :=
    (if is_dedicated then
       do (image_device_id, image_device, image) :=
         resolve_device_child request.(mae_rq_dedicated_image_id)
           BVB_OBJECT_IMAGE ;;
       stop_if negb (image_device_id =? request.(mae_rq_device_id)) ||
               negb (image_device =? device) with (- EPROTO) ;;
       ret [(BVB_OBJECT_IMAGE, image)]
     else ret []) ;;
  let property_flags :=
    nth (Z.to_nat request.(mae_rq_memory_type_index))
      properties.(mp_property_flags) 0 in
  let host := Z.lor VK_MEMORY_PROPERTY_HOST_VISIBLE_BIT
                VK_MEMORY_PROPERTY_HOST_COHERENT_BIT in
  let export_opaque_fd :=
    has BVB_VULKAN_MEMORY_ALLOCATE_PNEXT_EXPORT_OPAQUE_FD &&
    negb is_dedicated && (Z.land property_flags host =? host) in
  do allocate := device_proc driver device "vkAllocateMemory" ;;
  do free_memory := device_proc driver device "vkFreeMemory" ;;
  stop_if negb allocate || negb free_memory with (- ENOSYS) ;;
  do created := invoke driver allocate
    (Create BVB_OBJECT_DEVICE_MEMORY device image
       (request.(mae_rq_allocation_size) ::
        request.(mae_rq_memory_type_index) :: Z.b2z export_opaque_fd ::
        if has BVB_VULKAN_MEMORY_ALLOCATE_PNEXT_FLAGS
        then [request.(mae_rq_allocation_flags); request.(mae_rq_device_mask)]
        else [])) ;;
  reply_if negb (created.(rp_result) =? VK_SUCCESS)
    with object_response created.(rp_result) 0 ;;
  do context := get_context ;;
  match memory_metadata_slot context 0 with
  | None =>
      do _ := invoke driver free_memory
        (Destroy BVB_OBJECT_DEVICE_MEMORY device (rp_handle created)) ;;
      ret (object_response VK_ERROR_TOO_MANY_OBJECTS 0)
  | Some (index, _) =>
      do wire_id := next_id BVB_OBJECT_DEVICE_MEMORY ;;
      do result := catch (table_insert wire_id request.(mae_rq_device_id)
                            (rp_handle created)) ;;
      if negb (is_ok result) then
        do _ := invoke driver free_memory
          (Destroy BVB_OBJECT_DEVICE_MEMORY device (rp_handle created)) ;;
        ret (object_response VK_ERROR_TOO_MANY_OBJECTS 0)
      else
        do _ := put_context (set_memory_metadata index
          (mk_memory_metadata wire_id request.(mae_rq_allocation_size)
             property_flags export_opaque_fd)) ;;
        ret (object_response created.(rp_result) wire_id)
  end.

Definition bvb_vulkan_global_context_allocate_memory
    (request : bvb_vulkan_memory_allocate_request) :
    M bvb_vulkan_object_create_response :=
  bvb_vulkan_global_context_allocate_memory_extended
    (mk_bvb_vulkan_memory_allocate_extended_request request.(ma_rq_device_id)
       request.(ma_rq_allocation_size) 0 request.(ma_rq_memory_type_index)
       0 0 0).

Definition bvb_vulkan_global_context_free_memory (memory_id : Z) : M unit :=
  do (_, device, memory) :=
    resolve_device_child memory_id BVB_OBJECT_DEVICE_MEMORY ;;
  do context := get_context ;;
  stop_if match memory_mirror_slot context memory_id with
          | Some (_, mirror) => mirror.(mr_memory_id) =? memory_id
          | None => false
          end with (- EBUSY) ;;
  do free_memory := device_proc driver device "vkFreeMemory" ;;
  stop_if negb free_memory with (- ENOSYS) ;;
  do _ := table_remove memory_id BVB_OBJECT_DEVICE_MEMORY ;;
  do context := get_context ;;
  do _ := match memory_metadata_slot context memory_id with
          | Some (index, metadata) =>
              if metadata.(mm_memory_id) =? memory_id
              then put_context (set_memory_metadata index zero_memory_metadata)
              else ret tt
          | None => ret tt
          end ;;
  do _ := invoke driver free_memory
    (Destroy BVB_OBJECT_DEVICE_MEMORY device memory) ;;
  ret tt.

Definition bvb_vulkan_global_context_bind_buffer_memory
    (request : bvb_vulkan_buffer_bind_request) : M Z :=
  do (buffer_device_id, buffer_device, buffer) :=
    resolve_device_child request.(bb_rq_buffer_id) BVB_OBJECT_BUFFER ;;
  do (memory_device_id, memory_device, memory) :=
    resolve_device_child request.(bb_rq_memory_id) BVB_OBJECT_DEVICE_MEMORY ;;
  stop_if negb (buffer_device_id =? memory_device_id) ||
          negb (buffer_device =? memory_device) with (- EPROTO) ;;
  do context := get_context ;;
  match buffer_metadata_slot context request.(bb_rq_buffer_id) with
  | None => stop (- EPROTO)
  | Some (index, metadata) =>
      stop_if negb (metadata.(bm_device_id) =? buffer_device_id)
        with (- EPROTO) ;;
      do bind := device_proc driver buffer_device "vkBindBufferMemory" ;;
      stop_if negb bind with (- ENOSYS) ;;
      do bound := invoke driver bind
        (DeviceCall "vkBindBufferMemory" buffer_device
           [(BVB_OBJECT_BUFFER, buffer); (BVB_OBJECT_DEVICE_MEMORY, memory)]
           [request.(bb_rq_offset)]) ;;
      do _ := (if bound.(rp_result) =? VK_SUCCESS
               then put_context (set_buffer_metadata index
                 (mk_buffer_metadata metadata.(bm_buffer_id)
                    metadata.(bm_device_id) request.(bb_rq_memory_id)
                    metadata.(bm_usage) true))
               else ret tt) ;;
      ret bound.(rp_result)
  end.
End operations.

(** ** The invariant *)

Section invariant.
Context {VH : VulkanHeader} {VC : VulkanCore}.
Context (driver : list event -> vk_call -> vk_reply).
Context {CD : ConformingDriver driver} {AP : Apart}.

Lemma create_buffer_keeps request :
  keeps (bvb_vulkan_global_context_create_buffer driver request).
Proof. run_keeps bvb_vulkan_global_context_create_buffer. Qed.

Lemma destroy_buffer_destroys :
  destroys (bvb_vulkan_global_context_destroy_buffer driver).
Proof. run_destroys bvb_vulkan_global_context_destroy_buffer. Qed.

Lemma get_buffer_requirements_keeps buffer_id :
  keeps (bvb_vulkan_global_context_get_buffer_requirements driver buffer_id).
Proof. run_keeps bvb_vulkan_global_context_get_buffer_requirements. Qed.

Lemma get_device_buffer_requirements_keeps request :
  keeps (bvb_vulkan_global_context_get_device_buffer_requirements driver
           request).
Proof. run_keeps bvb_vulkan_global_context_get_device_buffer_requirements. Qed.

Lemma get_buffer_requirements_2_keeps request :
  keeps (bvb_vulkan_global_context_get_buffer_requirements_2 driver request).
Proof. run_keeps bvb_vulkan_global_context_get_buffer_requirements_2. Qed.

Lemma get_buffer_device_address_keeps request :
  keeps (bvb_vulkan_global_context_get_buffer_device_address driver request).
Proof. run_keeps bvb_vulkan_global_context_get_buffer_device_address. Qed.

Lemma allocate_memory_extended_keeps request :
  keeps (bvb_vulkan_global_context_allocate_memory_extended driver request).
Proof.
  run_keeps bvb_vulkan_global_context_allocate_memory_extended.
  eapply wp_memory_properties; [exact I|]. clear I.
  intros [properties|e] w1 I C; wp_run.
Qed.

Lemma allocate_memory_keeps request :
  keeps (bvb_vulkan_global_context_allocate_memory driver request).
Proof. apply allocate_memory_extended_keeps. Qed.

Lemma bind_buffer_memory_keeps request :
  keeps (bvb_vulkan_global_context_bind_buffer_memory driver request).
Proof. run_keeps bvb_vulkan_global_context_bind_buffer_memory. Qed.

(** The slot search finds a mirror of the allocation if there is one. *)
Lemma slot_scan_hit {A} (key : A -> Z) id l : forall index empty,
  (exists x, x ∈ l /\ key x = id) -> id <> 0 ->
  exists j x, slot_scan key id true index empty l = Some (index + j)%nat /\
              l !! j = Some x /\ key x = id.
Proof.
  induction l as [|y l IH]; intros index empty (x & Hx & Hk) Hid;
    [by apply elem_of_nil in Hx|]. cbn [slot_scan].
  destruct (Z.eqb_spec (key y) id) as [E|E].
  - rewrite (proj2 (Z.eqb_neq _ _) Hid). exists 0%nat, y.
    by rewrite Nat.add_0_r.
  - cbn [andb]. apply elem_of_cons in Hx as [->|Hx]; [done|].
    destruct (IH (S index)
      (match empty with Some _ => empty
       | None => if key y =? 0 then Some index else None end)
      ltac:(by exists x) Hid) as (j & z & -> & Hl & Hz).
    exists (S j), z. split; [f_equal; lia|done].
Qed.

Lemma no_slot_unmirrored w id :
  match memory_mirror_slot w.(w_context) id with
  | Some (_, mirror) => mirror.(mr_memory_id) =? id
  | None => false
  end = false -> unmirrored w id.
Proof.
  intros Hs. apply Forall_forall. intros r Hr Hid.
  destruct (decide (id = 0)) as [|Hne]; [done|exfalso].
  destruct (slot_scan_hit mr_memory_id id w.(w_context).(ctx_memory_mirrors)
    0 None) as (j & x & Hj & Hx & Hk); [by exists r; rewrite list_elem_of_In|done|].
  revert Hs. unfold memory_mirror_slot, slot_of, slot_index. rewrite Hj. cbn.
  rewrite Hx. cbn. by rewrite Hk, Z.eqb_refl.
Qed.

Lemma free_memory_destroys :
  destroys (bvb_vulkan_global_context_free_memory driver).
Proof.
  run_destroys bvb_vulkan_global_context_free_memory.
  all: try (intros _; unfold unmirrored; rewrite C; by apply no_slot_unmirrored).
  all: wp_run.
Qed.
End invariant.
