(* ===== verification/BackendImage.v ===== *)
(** * BackendImage: images and image views of the service

    The operations of src/vulkan_global.c on images and their views.  A view
    is a child of its image: an image is not destroyed while it has one, and
    the device of a view is the device of its image. *)

From stdpp Require Import strings gmap.
From S2P Require Import Prelude Wire Abi Codec ProtocolDevice ProtocolResource MessageLists MessageImage Backend BackendInvariant BackendRules BackendSync BackendMemory.

Section operations.
Context {VH : VulkanHeader} {VI : VulkanImage} {VC : VulkanCore}.
Context (driver : list event -> vk_call -> vk_reply).

(** ** Images *)

Definition bvb_vulkan_global_context_create_image
    (request : bvb_vulkan_image_create_request) :
    M bvb_vulkan_object_create_response :=
  reply_if negb (is_ok (bvb_protocol_encode_vulkan_image_create_request
      (Some (blank BVB_VULKAN_IMAGE_CREATE_REQUEST_SIZE)) (Some request)))
    with object_response VK_ERROR_FEATURE_NOT_PRESENT 0 ;;
  do (_, device) :=
    table_lookup request.(imc_rq_device_id) BVB_OBJECT_DEVICE ;;
  do create_image := device_proc driver device "vkCreateImage" ;;
  do destroy_image := device_proc driver device "vkDestroyImage" ;;
  stop_if negb create_image || negb destroy_image with (- ENOSYS) ;;
  let has (bit : Z) := negb (Z.land request.(imc_rq_pnext_flags) bit =? 0) in
  let stencil_usage :=
    if has BVB_VULKAN_IMAGE_CREATE_PNEXT_STENCIL_USAGE
    then [request.(imc_rq_stencil_usage)] else [] in
  let format_list :=
    if has BVB_VULKAN_IMAGE_CREATE_PNEXT_FORMAT_LIST
    then take (Z.to_nat request.(imc_rq_view_format_count))
           request.(imc_rq_view_formats) else [] in
  do created := invoke driver create_image
    (Create BVB_OBJECT_IMAGE device []
       ([request.(imc_rq_flags); request.(imc_rq_image_type);
         request.(imc_rq_format); request.(imc_rq_extent_width);
         request.(imc_rq_extent_height); request.(imc_rq_extent_depth);
         request.(imc_rq_mip_levels); request.(imc_rq_array_layers);
         request.(imc_rq_samples); request.(imc_rq_tiling);
         request.(imc_rq_usage); request.(imc_rq_sharing_mode);
         request.(imc_rq_initial_layout)] ++
        take (Z.to_nat request.(imc_rq_queue_family_index_count))
          request.(imc_rq_queue_family_indices) ++
        stencil_usage ++ format_list)%list) ;;
  reply_if negb (created.(rp_result) =? VK_SUCCESS)
    with object_response created.(rp_result) 0 ;;
  do context := get_context ;;
  match image_metadata_slot context 0 with
  | None =>
      do _ := invoke driver destroy_image
        (Destroy BVB_OBJECT_IMAGE device (rp_handle created)) ;;
      ret (object_response VK_ERROR_TOO_MANY_OBJECTS 0)
  | Some (index, _) =>
      do wire_id := next_id BVB_OBJECT_IMAGE ;;
      do result := catch (table_insert wire_id request.(imc_rq_device_id)
                            (rp_handle created)) ;;
      if negb (is_ok result) then
        do _ := invoke driver destroy_image
          (Destroy BVB_OBJECT_IMAGE device (rp_handle created)) ;;
        ret (object_response VK_ERROR_TOO_MANY_OBJECTS 0)
      else
        do _ := put_context (set_image_metadata index
          (mk_image_metadata wire_id request.(imc_rq_device_id) 0
             request.(imc_rq_flags) request.(imc_rq_image_type)
             request.(imc_rq_format) request.(imc_rq_mip_levels)
             request.(imc_rq_array_layers))) ;;
        ret (object_response created.(rp_result) wire_id)
  end.

Definition bvb_vulkan_global_context_destroy_image (image_id : Z) : M unit :=
  do (_, device, image) := resolve_device_child image_id BVB_OBJECT_IMAGE ;;
  do _ := for_children BVB_OBJECT_IMAGE_VIEW image_id
            (fun _ => stop (- EBUSY)) ;;
  do destroy_image := device_proc driver device "vkDestroyImage" ;;
  stop_if negb destroy_image with (- ENOSYS) ;;
  do _ := table_remove image_id BVB_OBJECT_IMAGE ;;
  do context := get_context ;;
  do _ := match image_metadata_slot context image_id with
          | Some (index, metadata) =>
              if metadata.(im_image_id) =? image_id
              then put_context (set_image_metadata index zero_image_metadata)
              else ret tt
          | None => ret tt
          end ;;
  do _ := invoke driver destroy_image
    (Destroy BVB_OBJECT_IMAGE device image) ;;
  ret tt.

Definition bvb_vulkan_global_context_get_image_requirements
    (image_id : Z) : M bvb_vulkan_image_requirements :=
  do (_, device, image) := resolve_device_child image_id BVB_OBJECT_IMAGE ;;
  let name := "vkGetImageMemoryRequirements" in
  do get_requirements := device_proc driver device name ;;
  stop_if negb get_requirements with (- ENOSYS) ;;
  do r := invoke driver get_requirements
    (DeviceCall name device [(BVB_OBJECT_IMAGE, image)] []) ;;
  let native := requirements_of r in
  stop_if requirements_null native with (- EPROTO) ;;
  ret (mk_bvb_vulkan_image_requirements native.(br_size)
         native.(br_alignment) native.(br_memory_type_bits)).

Definition bvb_vulkan_global_context_get_image_requirements_2
    (request : bvb_vulkan_image_requirements_2_request) :
    M bvb_vulkan_image_requirements_2_response :=
  stop_if negb (is_ok
      (bvb_protocol_encode_vulkan_image_requirements_2_request
         (Some (blank BVB_VULKAN_IMAGE_REQUIREMENTS_2_REQUEST_SIZE))
         (Some request))) with (- EINVAL) ;;
  do (_, device, image) :=
    resolve_device_child request.(ir2_rq_image_id) BVB_OBJECT_IMAGE ;;
  let name := "vkGetImageMemoryRequirements2" in
  do get_requirements := device_proc driver device name ;;
  stop_if negb get_requirements with (- ENOSYS) ;;
  let dedicated :=
    negb (Z.land request.(ir2_rq_pnext_flags)
            BVB_VULKAN_IMAGE_REQUIREMENTS_2_PNEXT_DEDICATED =? 0) in
  do r := invoke driver get_requirements
    (DeviceCall name device [(BVB_OBJECT_IMAGE, image)] [Z.b2z dedicated]) ;;
  let prefers := if dedicated then nth 3 r.(rp_values) 0 else 0 in
  let requires := if dedicated then nth 4 r.(rp_values) 0 else 0 in
  let native := requirements_of r in
  stop_if requirements_null native || (VK_TRUE <? prefers) ||
          (VK_TRUE <? requires) with (- EPROTO) ;;
  ret (mk_bvb_vulkan_image_requirements_2_response native.(br_size)
         native.(br_alignment) native.(br_memory_type_bits)
         request.(ir2_rq_pnext_flags) prefers requires).

Definition bvb_vulkan_global_context_bind_image_memory
    (request : bvb_vulkan_image_bind_request) : M Z :=
  do (image_device_id, image_device, image) :=
    resolve_device_child request.(ib_rq_image_id) BVB_OBJECT_IMAGE ;;
  do (memory_device_id, memory_device, memory) :=
    resolve_device_child request.(ib_rq_memory_id) BVB_OBJECT_DEVICE_MEMORY ;;
  stop_if negb (image_device_id =? memory_device_id) ||
          negb (image_device =? memory_device) with (- EPROTO) ;;
  do context := get_context ;;
  match image_metadata_slot context request.(ib_rq_image_id) with
  | None => stop (- EPROTO)
  | Some (index, metadata) =>
      stop_if negb (metadata.(im_device_id) =? image_device_id)
        with (- EPROTO) ;;
      reply_if match memory_mirror_slot context request.(ib_rq_memory_id) with
               | Some (_, mirror) =>
                   mirror.(mr_memory_id) =? request.(ib_rq_memory_id)
               | None => false
               end with VK_ERROR_MEMORY_MAP_FAILED ;;
      do bind := device_proc driver image_device "vkBindImageMemory" ;;
      stop_if negb bind with (- ENOSYS) ;;
      do bound := invoke driver bind
        (DeviceCall "vkBindImageMemory" image_device
           [(BVB_OBJECT_IMAGE, image); (BVB_OBJECT_DEVICE_MEMORY, memory)]
           [request.(ib_rq_offset)]) ;;
      do _ := (if bound.(rp_result) =? VK_SUCCESS
               then put_context (set_image_metadata index
                 (mk_image_metadata metadata.(im_image_id)
                    metadata.(im_device_id) request.(ib_rq_memory_id)
                    metadata.(im_flags) metadata.(im_image_type)
                    metadata.(im_format) metadata.(im_mip_levels)
                    metadata.(im_array_layers)))
               else ret tt) ;;
      ret bound.(rp_result)
  end.

(** ** Image views *)

Definition image_view_range_supported (image : bvb_image_metadata)
    (request : bvb_vulkan_image_view_create_request) : bool :=
  let has (bit : Z) := negb (Z.land image.(im_flags) bit =? 0) in
  let view_is (view_type : Z) := request.(ivc_rq_view_type) =? view_type in
  if (image.(im_mip_levels) <=? request.(ivc_rq_base_mip_level)) ||
     (negb (request.(ivc_rq_level_count) =? VK_REMAINING_MIP_LEVELS) &&
      (image.(im_mip_levels) - request.(ivc_rq_base_mip_level) <?
         request.(ivc_rq_level_count))) ||
     (image.(im_array_layers) <=? request.(ivc_rq_base_array_layer)) ||
     (negb (request.(ivc_rq_layer_count) =? VK_REMAINING_ARRAY_LAYERS) &&
      (image.(im_array_layers) - request.(ivc_rq_base_array_layer) <?
         request.(ivc_rq_layer_count))) ||
     (negb (request.(ivc_rq_format) =? image.(im_format)) &&
      negb (has VK_IMAGE_CREATE_MUTABLE_FORMAT_BIT))
  then false
  else if image.(im_image_type) =? VK_IMAGE_TYPE_1D then
    view_is VK_IMAGE_VIEW_TYPE_1D || view_is VK_IMAGE_VIEW_TYPE_1D_ARRAY
  else if image.(im_image_type) =? VK_IMAGE_TYPE_2D then
    if view_is VK_IMAGE_VIEW_TYPE_2D || view_is VK_IMAGE_VIEW_TYPE_2D_ARRAY then true
    else if view_is VK_IMAGE_VIEW_TYPE_CUBE || view_is VK_IMAGE_VIEW_TYPE_CUBE_ARRAY
    then has VK_IMAGE_CREATE_CUBE_COMPATIBLE_BIT
    else false
  else
    view_is VK_IMAGE_VIEW_TYPE_3D ||
    (has VK_IMAGE_CREATE_2D_ARRAY_COMPATIBLE_BIT &&
     (view_is VK_IMAGE_VIEW_TYPE_2D || view_is VK_IMAGE_VIEW_TYPE_2D_ARRAY)).

Definition bvb_vulkan_global_context_create_image_view
    (request : bvb_vulkan_image_view_create_request) :
    M bvb_vulkan_object_create_response :=
  reply_if negb (is_ok (bvb_protocol_encode_vulkan_image_view_create_request
      (Some (blank BVB_VULKAN_IMAGE_VIEW_CREATE_REQUEST_SIZE))
      (Some request)))
    with object_response VK_ERROR_FEATURE_NOT_PRESENT 0 ;;
  do (image_device_id, device, image) :=
    resolve_device_child request.(ivc_rq_image_id) BVB_OBJECT_IMAGE ;;
  stop_if negb (image_device_id =? request.(ivc_rq_device_id))
    with (- EPROTO) ;;
  do context := get_context ;;
  reply_if match image_metadata_slot context request.(ivc_rq_image_id) with
           | Some (_, metadata) =>
               negb (metadata.(im_image_id) =? request.(ivc_rq_image_id)) ||
               negb (image_view_range_supported metadata request)
           | None => true
           end
    with object_response VK_ERROR_FEATURE_NOT_PRESENT 0 ;;
  do create_image_view := device_proc driver device "vkCreateImageView" ;;
  do destroy_image_view := device_proc driver device "vkDestroyImageView" ;;
  stop_if negb create_image_view || negb destroy_image_view
    with (- ENOSYS) ;;
  let usage :=
    if Z.land request.(ivc_rq_pnext_flags)
         BVB_VULKAN_IMAGE_VIEW_CREATE_PNEXT_USAGE =? 0
    then [] else [request.(ivc_rq_usage)] in
  do created := invoke driver create_image_view
    (Create BVB_OBJECT_IMAGE_VIEW device [(BVB_OBJECT_IMAGE, image)]
       ([request.(ivc_rq_flags); request.(ivc_rq_view_type);
         request.(ivc_rq_format); request.(ivc_rq_component_r);
         request.(ivc_rq_component_g); request.(ivc_rq_component_b);
         request.(ivc_rq_component_a); request.(ivc_rq_aspect_mask);
         request.(ivc_rq_base_mip_level); request.(ivc_rq_level_count);
         request.(ivc_rq_base_array_layer); request.(ivc_rq_layer_count)] ++
        usage)%list) ;;
  reply_if negb (created.(rp_result) =? VK_SUCCESS)
    with object_response created.(rp_result) 0 ;;
  do wire_id := next_id BVB_OBJECT_IMAGE_VIEW ;;
  do result := catch (table_insert wire_id request.(ivc_rq_image_id)
                        (rp_handle created)) ;;
  if negb (is_ok result) then
    do _ := invoke driver destroy_image_view
      (Destroy BVB_OBJECT_IMAGE_VIEW device (rp_handle created)) ;;
    ret (object_response VK_ERROR_TOO_MANY_OBJECTS 0)
  else ret (object_response created.(rp_result) wire_id).

Definition bvb_vulkan_global_context_destroy_image_view
    (image_view_id : Z) : M unit :=
  do (image_id, image_view) :=
    table_lookup image_view_id BVB_OBJECT_IMAGE_VIEW ;;
  do (device_id, _) := table_lookup image_id BVB_OBJECT_IMAGE ;;
  do (_, device) := table_lookup device_id BVB_OBJECT_DEVICE ;;
  do destroy_image_view := device_proc driver device "vkDestroyImageView" ;;
  stop_if negb destroy_image_view with (- ENOSYS) ;;
  do _ := table_remove image_view_id BVB_OBJECT_IMAGE_VIEW ;;
  do _ := invoke driver destroy_image_view
    (Destroy BVB_OBJECT_IMAGE_VIEW device image_view) ;;
  ret tt.
End operations.

(** ** The invariant *)

Section invariant.
Context {VH : VulkanHeader} {VI : VulkanImage} {VC : VulkanCore}.
Context (driver : list event -> vk_call -> vk_reply).
Context {CD : ConformingDriver driver} {AP : Apart}.

Lemma create_image_keeps request :
  keeps (bvb_vulkan_global_context_create_image driver request).
Proof. run_keeps bvb_vulkan_global_context_create_image. Qed.

Lemma get_image_requirements_keeps image_id :
  keeps (bvb_vulkan_global_context_get_image_requirements driver image_id).
Proof. run_keeps bvb_vulkan_global_context_get_image_requirements. Qed.

Lemma get_image_requirements_2_keeps request :
  keeps (bvb_vulkan_global_context_get_image_requirements_2 driver request).
Proof. run_keeps bvb_vulkan_global_context_get_image_requirements_2. Qed.

Lemma bind_image_memory_keeps request :
  keeps (bvb_vulkan_global_context_bind_image_memory driver request).
Proof. run_keeps bvb_vulkan_global_context_bind_image_memory. Qed.

Lemma destroy_image_destroys :
  destroys (bvb_vulkan_global_context_destroy_image driver).
Proof.
  run_destroys bvb_vulkan_global_context_destroy_image.
  eapply wp_no_children; [exact I|done| |intros; wp_run].
  intros w1 I1 Hn. wp_run.
  eapply (childless_no_child _ _ _ [BVB_OBJECT_IMAGE_VIEW]);
    [by eapply at_forest|done|decide_list|].
  by intros dep ->%list_elem_of_singleton.
Qed.

(** The owner of a view is the device of its image. *)
Lemma owner_view (m : objects) p did pd q d :
  m !! p = Some (did, pd) -> m !! did = Some (q, d) ->
  owner m BVB_OBJECT_IMAGE_VIEW p = d.
Proof. intros Hp Hd. unfold owner, parent_of, bits_of. rewrite Hp. cbn. by rewrite Hd. Qed.

Lemma create_image_view_keeps request :
  keeps (bvb_vulkan_global_context_create_image_view driver request).
Proof.
  run_keeps bvb_vulkan_global_context_create_image_view.
  eapply wp_insert; [eassumption|eassumption|decide_list
    |instantiate (1 := BVB_OBJECT_IMAGE); decide_list|eauto|eassumption
    |by eapply owner_view|reflexivity| |intros e]; [|wp_run].
  intros t' w' I' Hid Ht Hn. wp_run.
Qed.

Lemma destroy_image_view_destroys :
  destroys (bvb_vulkan_global_context_destroy_image_view driver).
Proof.
  run_destroys bvb_vulkan_global_context_destroy_image_view.
  eapply wp_remove_owned; [eassumption| |done|decide_list| |].
  - intros p' b' Hm Ht. eapply childless_leaf; [by eapply at_forest|]. rewrite Ht. decide_list.
  - intros p' b' t' w' Hm Ht I' Hd Hsh.
    rewrite H0 in Hm. injection Hm as <- <-.
    erewrite owner_view in I' by eassumption. wp_run.
  - intros e Hno. exfalso. by eapply Hno.
Qed.
End invariant.
