(* ===== verification/BackendCommand.v ===== *)
(** * BackendCommand: command pools, command buffers and queues

    The operations of src/vulkan_global.c on command pools and command
    buffers, and the submissions to a queue.  A command buffer lives no
    longer than its pool: destroying a pool takes its buffers out of the
    store, and the driver frees them with it.  [free_command_buffer] frees
    before it takes out; in between the stored handle is stale. *)

From stdpp Require Import strings gmap.
From S2P Require Import Prelude Wire Abi Codec ProtocolDevice ProtocolCommand ProtocolSync MessageLists Backend BackendInvariant BackendRules BackendSync BackendDescriptor MemoryMirror BackendMirror.

Abbreviation pool_response := mk_bvb_vulkan_command_pool_create_response.
Abbreviation buffer_response := mk_bvb_vulkan_command_buffer_allocate_response.

Section operations.
Context {VH : VulkanHeader} {VC : VulkanCore}.
Context (driver : list event -> vk_call -> vk_reply).

(** ** Command pools *)

Definition device_metadata_queue_count (metadata : bvb_device_metadata)
    (queue_family_index : Z) : Z :=
  match list_find (fun info => info.(qci_queue_family_index) =
                               queue_family_index)
          (take (Z.to_nat metadata.(dm_queue_create_info_count))
             metadata.(dm_queue_create_infos)) with
  | Some (_, info) => info.(qci_queue_count)
  | None => 0
  end.

(** The metadata of a device that is stored. *)
Definition known_device (c : bvb_vulkan_global_context) (device_id : Z) :
    option bvb_device_metadata :=
  match device_metadata_slot c device_id with
  | Some (_, metadata) =>
      if metadata.(dm_device_id) =? device_id then Some metadata else None
  | None => None
  end.

Definition bvb_vulkan_global_context_create_command_pool
    (request : bvb_vulkan_command_pool_create_request) :
    M bvb_vulkan_command_pool_create_response :=
  let supported_flags :=
    Z.lor VK_COMMAND_POOL_CREATE_TRANSIENT_BIT
      VK_COMMAND_POOL_CREATE_RESET_COMMAND_BUFFER_BIT in
  reply_if negb (Z.ldiff request.(cpc_rq_flags) supported_flags =? 0)
    with pool_response VK_ERROR_FEATURE_NOT_PRESENT 0 ;;
  do (_, device) :=
    table_lookup request.(cpc_rq_device_id) BVB_OBJECT_DEVICE ;;
  do context := get_context ;;
  match known_device context request.(cpc_rq_device_id) with
  | None => stop (- ENOENT)
  | Some metadata =>
  reply_if device_metadata_queue_count metadata
             request.(cpc_rq_queue_family_index) =? 0
    with pool_response VK_ERROR_INITIALIZATION_FAILED 0 ;;
  do create_command_pool := device_proc driver device "vkCreateCommandPool" ;;
  do destroy_command_pool :=
    device_proc driver device "vkDestroyCommandPool" ;;
  stop_if negb create_command_pool || negb destroy_command_pool
    with (- ENOSYS) ;;
  do created := invoke driver create_command_pool
    (Create BVB_OBJECT_COMMAND_POOL device []
       [request.(cpc_rq_flags); request.(cpc_rq_queue_family_index)]) ;;
  reply_if negb (created.(rp_result) =? VK_SUCCESS)
    with pool_response created.(rp_result) 0 ;;
  do wire_id := next_id BVB_OBJECT_COMMAND_POOL ;;
  do result := catch (table_insert wire_id request.(cpc_rq_device_id)
                        (rp_handle created)) ;;
  if negb (is_ok result) then
    do _ := invoke driver destroy_command_pool
      (Destroy BVB_OBJECT_COMMAND_POOL device (rp_handle created)) ;;
    ret (pool_response VK_ERROR_TOO_MANY_OBJECTS 0)
  else ret (pool_response created.(rp_result) wire_id)
  end.

Definition bvb_vulkan_global_context_destroy_command_pool
    (command_pool_id : Z) : M unit :=
  do (_, device, command_pool) := resolve_command_pool command_pool_id ;;
  do destroy_command_pool :=
    device_proc driver device "vkDestroyCommandPool" ;;
  stop_if negb destroy_command_pool with (- ENOSYS) ;;
  do _ := remove_children BVB_OBJECT_COMMAND_BUFFER command_pool_id ;;
  do _ := table_remove command_pool_id BVB_OBJECT_COMMAND_POOL ;;
  do _ := invoke driver destroy_command_pool
    (Destroy BVB_OBJECT_COMMAND_POOL device command_pool) ;;
  ret tt.

Definition bvb_vulkan_global_context_reset_command_pool
    (request : bvb_vulkan_command_pool_reset_request) : M Z :=
  stop_if negb (Z.ldiff request.(cpr_rq_flags)
                  VK_COMMAND_POOL_RESET_RELEASE_RESOURCES_BIT =? 0)
    with (- EINVAL) ;;
  do (_, device, command_pool) :=
    resolve_command_pool request.(cpr_rq_command_pool_id) ;;
  do reset := device_proc driver device "vkResetCommandPool" ;;
  stop_if negb reset with (- ENOSYS) ;;
  do r := invoke driver reset
    (DeviceCall "vkResetCommandPool" device
       [(BVB_OBJECT_COMMAND_POOL, command_pool)] [request.(cpr_rq_flags)]) ;;
  ret r.(rp_result).

(** ** Command buffers *)

Definition bvb_vulkan_global_context_command_buffer_is_live
    (command_buffer_id : Z) : M bool :=
  do found := catch (resolve_command_buffer command_buffer_id) ;;
  ret (is_ok found).

Definition bvb_vulkan_global_context_allocate_command_buffer
    (request : bvb_vulkan_command_buffer_allocate_request) :
    M bvb_vulkan_command_buffer_allocate_response :=
  reply_if negb (request.(cba_rq_level) =? VK_COMMAND_BUFFER_LEVEL_PRIMARY) ||
           negb (request.(cba_rq_count) =? 1)
    with buffer_response VK_ERROR_FEATURE_NOT_PRESENT 0 ;;
  do (_, device, command_pool) :=
    resolve_command_pool request.(cba_rq_command_pool_id) ;;
  do allocate := device_proc driver device "vkAllocateCommandBuffers" ;;
  do free_command_buffers :=
    device_proc driver device "vkFreeCommandBuffers" ;;
  stop_if negb allocate || negb free_command_buffers with (- ENOSYS) ;;
  do allocated := invoke driver allocate
    (AllocateCommandBuffers device command_pool
       VK_COMMAND_BUFFER_LEVEL_PRIMARY 1) ;;
  reply_if negb (allocated.(rp_result) =? VK_SUCCESS)
    with buffer_response allocated.(rp_result) 0 ;;
  do wire_id := next_id BVB_OBJECT_COMMAND_BUFFER ;;
  do result := catch (table_insert wire_id request.(cba_rq_command_pool_id)
                        (rp_handle allocated)) ;;
  if negb (is_ok result) then
    do _ := invoke driver free_command_buffers
      (FreeCommandBuffers device command_pool (rp_handle allocated)) ;;
    ret (buffer_response VK_ERROR_TOO_MANY_OBJECTS 0)
  else ret (buffer_response allocated.(rp_result) wire_id).

Definition bvb_vulkan_global_context_free_command_buffer
    (request : bvb_vulkan_command_buffer_free_request) : M unit :=
  do (parent_pool_id, command_buffer) :=
    table_lookup request.(cbfree_rq_command_buffer_id)
      BVB_OBJECT_COMMAND_BUFFER ;;
  stop_if negb (parent_pool_id =? request.(cbfree_rq_command_pool_id))
    with (- EPROTO) ;;
  do (_, device, command_pool) :=
    resolve_command_pool request.(cbfree_rq_command_pool_id) ;;
  do free_command_buffers :=
    device_proc driver device "vkFreeCommandBuffers" ;;
  stop_if negb free_command_buffers with (- ENOSYS) ;;
  do _ := invoke driver free_command_buffers
    (FreeCommandBuffers device command_pool command_buffer) ;;
  do _ := table_remove request.(cbfree_rq_command_buffer_id)
            BVB_OBJECT_COMMAND_BUFFER ;;
  ret tt.

Definition bvb_vulkan_global_context_begin_command_buffer
    (request : bvb_vulkan_command_buffer_begin_request) : M Z :=
  stop_if negb (Z.ldiff request.(cbb_rq_flags)
                  VK_COMMAND_BUFFER_USAGE_ONE_TIME_SUBMIT_BIT =? 0)
    with (- EINVAL) ;;
  do (_, device, _, command_buffer) :=
    resolve_command_buffer request.(cbb_rq_command_buffer_id) ;;
  do begin := device_proc driver device "vkBeginCommandBuffer" ;;
  stop_if negb begin with (- ENOSYS) ;;
  do r := invoke driver begin
    (CommandBufferCall "vkBeginCommandBuffer" command_buffer []
       [request.(cbb_rq_flags)]) ;;
  ret r.(rp_result).

Definition bvb_vulkan_global_context_end_command_buffer
    (command_buffer_id : Z) : M Z :=
  do (_, device, _, command_buffer) :=
    resolve_command_buffer command_buffer_id ;;
  do end_ := device_proc driver device "vkEndCommandBuffer" ;;
  stop_if negb end_ with (- ENOSYS) ;;
  do r := invoke driver end_
    (CommandBufferCall "vkEndCommandBuffer" command_buffer [] []) ;;
  ret r.(rp_result).

(** ** Queues *)

Definition bvb_vulkan_global_context_queue_submit_empty (queue_id : Z) :
    M Z :=
  do (device, queue) := resolve_queue queue_id ;;
  do submit := device_proc driver device "vkQueueSubmit" ;;
  stop_if negb submit with (- ENOSYS) ;;
  do r := invoke driver submit (QueueCall "vkQueueSubmit" queue [] []) ;;
  ret r.(rp_result).

Definition bvb_vulkan_global_context_queue_wait_idle (queue_id : Z) : M Z :=
  do (device, queue) := resolve_queue queue_id ;;
  do wait_idle := device_proc driver device "vkQueueWaitIdle" ;;
  stop_if negb wait_idle with (- ENOSYS) ;;
  do r := invoke driver wait_idle (QueueCall "vkQueueWaitIdle" queue [] []) ;;
  ret r.(rp_result).

Definition bvb_vulkan_global_context_device_wait_idle (device_id : Z) :
    M Z :=
  do (_, device) := table_lookup device_id BVB_OBJECT_DEVICE ;;
  do wait_idle := device_proc driver device "vkDeviceWaitIdle" ;;
  stop_if negb wait_idle with (- ENOSYS) ;;
  do r := invoke driver wait_idle
    (DeviceCall "vkDeviceWaitIdle" device [] []) ;;
  ret r.(rp_result).

(** The checks a submission of one command buffer starts with: the queue and
    the buffer have the same device. *)
Definition resolve_submission (queue_id command_buffer_id : Z) :
    M (Z * Z * Z * Z) :=
  do (queue_device, queue) := resolve_queue queue_id ;;
  do (queue_device_id, _) := table_lookup queue_id BVB_OBJECT_QUEUE ;;
  do (command_device_id, command_device, _, command_buffer) :=
    resolve_command_buffer command_buffer_id ;;
  stop_if negb (command_device_id =? queue_device_id) ||
          negb (command_device =? queue_device) with (- EPROTO) ;;
  ret (queue_device_id, queue_device, queue, command_buffer).

Definition bvb_vulkan_global_context_queue_submit_command
    (request : bvb_vulkan_queue_submit_command_request) : M Z :=
  do (queue_device_id, queue_device, queue, command_buffer) :=
    resolve_submission request.(qsc_rq_queue_id)
      request.(qsc_rq_command_buffer_id) ;;
  do _ := sync_coherent_memory_mirrors queue_device_id ;;
  do submit := device_proc driver queue_device "vkQueueSubmit" ;;
  stop_if negb submit with (- ENOSYS) ;;
  do r := invoke driver submit
    (QueueCall "vkQueueSubmit" queue
       [(BVB_OBJECT_COMMAND_BUFFER, command_buffer)] []) ;;
  ret r.(rp_result).
End operations.

(** ** The invariant *)

Section invariant.
Context {VH : VulkanHeader} {VC : VulkanCore}.
Context (driver : list event -> vk_call -> vk_reply).
Context {CD : ConformingDriver driver} {AP : Apart}.

Lemma create_command_pool_keeps request :
  keeps (bvb_vulkan_global_context_create_command_pool driver request).
Proof. run_keeps bvb_vulkan_global_context_create_command_pool. Qed.

(** The buffers of a pool are leaves that the driver frees with the pool. *)
Lemma wp_remove_buffers St t w pool_id Q :
  At [] St t w ->
  (forall t' w', At [] St t' w' ->
     sheds BVB_OBJECT_COMMAND_BUFFER pool_id t t' ->
     no_child (table_map t') BVB_OBJECT_COMMAND_BUFFER pool_id ->
     Q (Ok tt) w') ->
  wp (remove_children BVB_OBJECT_COMMAND_BUFFER pool_id) Q w.
Proof.
  intros I HQ. eapply wp_remove_children; [done|decide_list|done| |done].
  intros t1 id b _ Hf _ _ Ht. apply childless_leaf; [done|]. rewrite Ht. decide_list.
Qed.

Lemma destroy_command_pool_destroys :
  destroys (bvb_vulkan_global_context_destroy_command_pool driver).
Proof.
  run_destroys bvb_vulkan_global_context_destroy_command_pool.
  eapply wp_remove_buffers; [done|]. intros t1 w1 I1 [Hsh Hkeep] Hn.
  pose proof (Hkeep _ _ _ H0 ltac:(by rewrite H1; intros [])).
  pose proof (Hkeep _ _ _ H2 ltac:(by rewrite H3; intros [])).
  wp_run.
  eapply (childless_no_child _ _ _ [BVB_OBJECT_COMMAND_BUFFER]);
    [by eapply at_forest|done|decide_list|].
  by intros dep ->%list_elem_of_singleton.
Qed.

Lemma reset_command_pool_keeps request :
  keeps (bvb_vulkan_global_context_reset_command_pool driver request).
Proof. run_keeps bvb_vulkan_global_context_reset_command_pool. Qed.

Lemma wp_resolve_command_buffer X St t w id Q :
  At X St t w ->
  (forall pid pb did d b p, table_map t !! id = Some (pid, b) ->
     bvb_handle_type id = BVB_OBJECT_COMMAND_BUFFER ->
     table_map t !! pid = Some (did, pb) ->
     bvb_handle_type pid = BVB_OBJECT_COMMAND_POOL ->
     table_map t !! did = Some (p, d) ->
     bvb_handle_type did = BVB_OBJECT_DEVICE -> Q (Ok (did, d, pb, b)) w) ->
  (forall e, Q (Err e) w) ->
  wp (resolve_command_buffer id) Q w.
Proof.
  intros I Hok Herr. unfold resolve_command_buffer. wp_run; try done.
  by eapply Hok.
Qed.

Lemma command_buffer_is_live_keeps id :
  keeps (bvb_vulkan_global_context_command_buffer_is_live id).
Proof.
  run_keeps bvb_vulkan_global_context_command_buffer_is_live.
  eapply wp_resolve_command_buffer; [exact I|intros; wp_run|intros; wp_run].
Qed.

(** A fresh buffer is known to the driver and stored under no identifier. *)
Lemma wp_allocate_buffer t w f did q d pid pb level Q :
  At [] none t w -> f = true -> table_map t !! did = Some (q, d) ->
  bvb_handle_type did = BVB_OBJECT_DEVICE ->
  table_map t !! pid = Some (did, pb) ->
  bvb_handle_type pid = BVB_OBJECT_COMMAND_POOL ->
  (forall r w', At [] none t w' -> (rp_result r =? VK_SUCCESS) = false ->
     Q (Ok r) w') ->
  (forall r w', At [] none t w' -> (rp_result r =? VK_SUCCESS) = true ->
     (BVB_OBJECT_COMMAND_BUFFER, pb, rp_handle r)
       ∈ ds_known (driver_after VK_SUCCESS (w_log w')) ->
     (forall id p, table_map t !! id = Some (p, rp_handle r) ->
        bvb_handle_type id <> BVB_OBJECT_COMMAND_BUFFER) ->
     Q (Ok r) w') ->
  wp (invoke driver f (AllocateCommandBuffers d pb level 1)) Q w.
Proof.
  intros I Hf Hd Hdt Hp Hpt Hfail Hok. apply wp_invoke_base; [done|].
  set (c := AllocateCommandBuffers _ _ _ _). set (r := driver _ c).
  assert (Ha : allowed (driver_after VK_SUCCESS (w_log w)) c).
  { cbn. split; [by eapply device_alive|].
    by eapply owned_alive; try done; decide_list. }
  destruct (rp_result r =? VK_SUCCESS) eqn:Er.
  - assert (I1 : At [] none t (observe w (c, r))).
    { apply (At_learned [] none t w c r BVB_OBJECT_COMMAND_BUFFER pb);
        [done|done|]. cbn. by rewrite Er. }
    apply Hok; [done|done| |].
    + unfold observe. cbn [w_log]. rewrite driver_after_snoc. cbn. rewrite Er.
      cbn. apply elem_of_app. left. apply list_elem_of_fmap.
      apply Z.eqb_eq in Er. destruct (single_handle driver (w_log w) d pb level Er) as [b Hb].
      fold c in Hb. fold r in Hb. exists b. unfold rp_handle. rewrite Hb.
      by repeat constructor.
    + intros id p Hm Hty. apply Z.eqb_eq in Er.
      eapply (fresh_handle driver _ c BVB_OBJECT_COMMAND_BUFFER (at_log _ _ _ _ I) Ha eq_refl);
        [decide_list|done|]. fold r. rewrite <- Hty.
      eapply at_alive; [done|done|]. by right; intros [].
  - apply Hfail; [|done]. apply At_neutral; [done|done|]. cbn. by rewrite Er.
Qed.

Lemma wp_free_buffer (S' : Z -> Prop) t w f did q d pid pb b Q :
  At [] none t w -> f = true -> table_map t !! did = Some (q, d) ->
  bvb_handle_type did = BVB_OBJECT_DEVICE ->
  table_map t !! pid = Some (did, pb) ->
  bvb_handle_type pid = BVB_OBJECT_COMMAND_POOL ->
  (BVB_OBJECT_COMMAND_BUFFER, pb, b)
    ∈ ds_known (driver_after VK_SUCCESS (w_log w)) ->
  (forall id p', table_map t !! id = Some (p', b) ->
     bvb_handle_type id = BVB_OBJECT_COMMAND_BUFFER -> S' id) ->
  (forall r w', At [] S' t w' -> Q (Ok r) w') ->
  wp (invoke driver f (FreeCommandBuffers d pb b)) Q w.
Proof.
  intros I Hf Hd Hdt Hp Hpt Hk Hs HQ. apply wp_invoke_base; [done|]. apply HQ.
  by eapply At_free.
Qed.

Lemma allocate_command_buffer_keeps request :
  keeps (bvb_vulkan_global_context_allocate_command_buffer driver request).
Proof.
  run_keeps bvb_vulkan_global_context_allocate_command_buffer.
  eapply (wp_allocate_buffer t); [exact I|entry_point|eassumption..| |];
    intros r w' I' Er; [cbn [then_wp]; rewrite Er; wp_run|].
  intros Hk Hfresh. cbn [then_wp]. rewrite Er. cbn [negb]. apply wp_do.
  eapply wp_next_id; [exact I'|]. intros id w2 I2 Hl Hid _. rewrite <- Hl in Hk.
  cbn [then_wp]. apply wp_do, wp_catch.
  eapply (wp_insert_known BVB_OBJECT_COMMAND_BUFFER);
    [exact I2|done|decide_list| |by eauto|done| |by intros _; exact Hfresh| |].
  - decide_list.
  - intros _. unfold owner, bits_of. by rewrite H.
  - intros; wp_run.
  - intros e. cbn [then_wp is_ok negb]. apply wp_do.
    eapply (wp_free_buffer none t); [exact I2|entry_point|eassumption..| |].
    + intros i p' Hm Hty. by destruct (Hfresh i p').
    + intros; wp_run.
Qed.

Lemma free_command_buffer_keeps request :
  keeps (bvb_vulkan_global_context_free_command_buffer driver request).
Proof.
  run_keeps bvb_vulkan_global_context_free_command_buffer.
  passed. subst.
  pose proof (at_known _ _ _ _ I0 _ _ _ H ltac:(rewrite H0; decide_list)
    ltac:(by intros [])) as Hk. rewrite H0 in Hk.
  unfold owner, bits_of in Hk. cbn in Hk. rewrite H1 in Hk. cbn in Hk.
  eapply (wp_free_buffer (fun id => id = request.(cbfree_rq_command_buffer_id)));
    [exact I0|entry_point|eassumption..| |].
  - intros i p' Hm Hty. eapply (at_distinct _ _ _ _ I0); try done.
    + congruence.
    + rewrite Hty. decide_list.
  - intros r w' I'. cbn [then_wp]. apply wp_do.
    eapply wp_remove_known; [exact I'| |decide_list| |].
    + intros p1 b1 Hm Hty. eapply childless_leaf; [by eapply at_forest|].
      rewrite Hty. decide_list.
    + intros p1 b1 t1 w1 Hm Hty I1 Hd Hsh. cbn [then_wp]. apply wp_reply.
      exists t1. eapply At_stale; [exact I1|]. intros id [y Hy] ->.
      rewrite Hd in Hy. by rewrite lookup_delete_eq in Hy.
    + intros e Hno. exfalso. by eapply Hno.
Qed.

Lemma begin_command_buffer_keeps request :
  keeps (bvb_vulkan_global_context_begin_command_buffer driver request).
Proof.
  run_keeps bvb_vulkan_global_context_begin_command_buffer.
  eapply wp_resolve_command_buffer; [exact I|intros|intros]; wp_run.
Qed.

Lemma end_command_buffer_keeps id :
  keeps (bvb_vulkan_global_context_end_command_buffer driver id).
Proof.
  run_keeps bvb_vulkan_global_context_end_command_buffer.
  eapply wp_resolve_command_buffer; [exact I|intros|intros]; wp_run.
Qed.

Lemma queue_submit_empty_keeps id :
  keeps (bvb_vulkan_global_context_queue_submit_empty driver id).
Proof. run_keeps bvb_vulkan_global_context_queue_submit_empty. Qed.

Lemma queue_wait_idle_keeps id :
  keeps (bvb_vulkan_global_context_queue_wait_idle driver id).
Proof. run_keeps bvb_vulkan_global_context_queue_wait_idle. Qed.

Lemma device_wait_idle_keeps id :
  keeps (bvb_vulkan_global_context_device_wait_idle driver id).
Proof. run_keeps bvb_vulkan_global_context_device_wait_idle. Qed.

Lemma wp_resolve_submission t w queue_id command_buffer_id Q :
  At [] none t w ->
  (forall did d p q pid pb b,
     table_map t !! queue_id = Some (did, q) ->
     bvb_handle_type queue_id = BVB_OBJECT_QUEUE ->
     table_map t !! command_buffer_id = Some (pid, b) ->
     bvb_handle_type command_buffer_id = BVB_OBJECT_COMMAND_BUFFER ->
     table_map t !! pid = Some (did, pb) ->
     bvb_handle_type pid = BVB_OBJECT_COMMAND_POOL ->
     table_map t !! did = Some (p, d) ->
     bvb_handle_type did = BVB_OBJECT_DEVICE -> Q (Ok (did, d, q, b)) w) ->
  (forall e, Q (Err e) w) ->
  wp (resolve_submission queue_id command_buffer_id) Q w.
Proof.
  intros I Hok Herr. unfold resolve_submission. wp_run; try done.
  eapply wp_resolve_command_buffer; [exact I| |intros; wp_run; done].
  intros. wp_run; [done|]. passed. simplify_eq. by eapply Hok.
Qed.

Lemma queue_submit_command_keeps request :
  keeps (bvb_vulkan_global_context_queue_submit_command driver request).
Proof.
  run_keeps bvb_vulkan_global_context_queue_submit_command.
  eapply wp_resolve_submission; [exact I| |intros; wp_run].
  intros. wp_run. eapply wp_sync; [exact I|]. clear I. intros w' I. wp_run.
Qed.
End invariant.
