(* ===== verification/StreamBase.v ===== *)
(** * StreamBase: recording a command into a native command buffer

    The pieces src/vulkan_global.c records commands with: the lookup of an
    entry point under its names, the lookup of an object that must belong to
    the device of the command buffer, and the operations that record one fill,
    barrier, clear or binding.  The same operations serve single requests and
    the replay of a command stream.  Each of them keeps the store's
    invariant. *)

From stdpp Require Import strings gmap.
From S2P Require Import Prelude Wire Abi Codec Window ProtocolSync CommandTypes DescriptorTypes MessageImage Backend BackendInvariant BackendRules BackendSync BackendDescriptor BackendPipeline BackendCommand.

#[local] Open Scope list_scope.

(** ** Constants of <vulkan/vulkan_core.h> *)

Class VulkanStream := {
  VK_PIPELINE_BIND_POINT_GRAPHICS : Z;
  VK_PIPELINE_BIND_POINT_COMPUTE : Z;
  VK_QUEUE_FAMILY_IGNORED : Z;
  VK_ACCESS_TRANSFER_WRITE_BIT : Z;
  VK_ACCESS_HOST_READ_BIT : Z;
  VK_PIPELINE_STAGE_TRANSFER_BIT : Z;
  VK_PIPELINE_STAGE_HOST_BIT : Z;
  VK_PIPELINE_STAGE_2_NONE : Z;
  VK_PIPELINE_STAGE_2_TRANSFER_BIT : Z;
  VK_ACCESS_2_NONE : Z;
  VK_ACCESS_2_TRANSFER_WRITE_BIT : Z;
  VK_IMAGE_ASPECT_MEMORY_PLANE_0_BIT_EXT : Z;
  VK_IMAGE_ASPECT_MEMORY_PLANE_1_BIT_EXT : Z;
  VK_IMAGE_ASPECT_MEMORY_PLANE_2_BIT_EXT : Z;
  VK_IMAGE_ASPECT_MEMORY_PLANE_3_BIT_EXT : Z;
  VK_IMAGE_LAYOUT_GENERAL : Z;
  VK_IMAGE_LAYOUT_COLOR_ATTACHMENT_OPTIMAL : Z;
  VK_IMAGE_LAYOUT_DEPTH_STENCIL_ATTACHMENT_OPTIMAL : Z;
  VK_IMAGE_LAYOUT_DEPTH_STENCIL_READ_ONLY_OPTIMAL : Z;
  VK_IMAGE_LAYOUT_SHADER_READ_ONLY_OPTIMAL : Z;
  VK_IMAGE_LAYOUT_TRANSFER_SRC_OPTIMAL : Z;
  VK_IMAGE_LAYOUT_TRANSFER_DST_OPTIMAL : Z;
  VK_IMAGE_LAYOUT_DEPTH_READ_ONLY_STENCIL_ATTACHMENT_OPTIMAL : Z;
  VK_IMAGE_LAYOUT_DEPTH_ATTACHMENT_STENCIL_READ_ONLY_OPTIMAL : Z;
  VK_IMAGE_LAYOUT_DEPTH_ATTACHMENT_OPTIMAL : Z;
  VK_IMAGE_LAYOUT_DEPTH_READ_ONLY_OPTIMAL : Z;
  VK_IMAGE_LAYOUT_STENCIL_ATTACHMENT_OPTIMAL : Z;
  VK_IMAGE_LAYOUT_STENCIL_READ_ONLY_OPTIMAL : Z;
  VK_IMAGE_LAYOUT_PRESENT_SRC_KHR : Z;
  VK_IMAGE_LAYOUT_SHARED_PRESENT_KHR : Z;
  VK_IMAGE_LAYOUT_READ_ONLY_OPTIMAL : Z;
  VK_IMAGE_LAYOUT_ATTACHMENT_OPTIMAL : Z;
  VK_IMAGE_LAYOUT_RENDERING_LOCAL_READ : Z;
  VK_IMAGE_LAYOUT_FRAGMENT_DENSITY_MAP_OPTIMAL_EXT : Z;
  VK_IMAGE_LAYOUT_FRAGMENT_SHADING_RATE_ATTACHMENT_OPTIMAL_KHR : Z;
  VK_IMAGE_LAYOUT_ATTACHMENT_FEEDBACK_LOOP_OPTIMAL_EXT : Z;
  VK_IMAGE_LAYOUT_ZERO_INITIALIZED_EXT : Z
}.

(** The values of Vulkan 1.4. *)
Definition vulkan_1_4_stream : VulkanStream := {|
  VK_PIPELINE_BIND_POINT_GRAPHICS := 0;
  VK_PIPELINE_BIND_POINT_COMPUTE := 1;
  VK_QUEUE_FAMILY_IGNORED := 4294967295;
  VK_ACCESS_TRANSFER_WRITE_BIT := 4096;
  VK_ACCESS_HOST_READ_BIT := 8192;
  VK_PIPELINE_STAGE_TRANSFER_BIT := 4096;
  VK_PIPELINE_STAGE_HOST_BIT := 16384;
  VK_PIPELINE_STAGE_2_NONE := 0;
  VK_PIPELINE_STAGE_2_TRANSFER_BIT := 4096;
  VK_ACCESS_2_NONE := 0;
  VK_ACCESS_2_TRANSFER_WRITE_BIT := 4096;
  VK_IMAGE_ASPECT_MEMORY_PLANE_0_BIT_EXT := 128;
  VK_IMAGE_ASPECT_MEMORY_PLANE_1_BIT_EXT := 256;
  VK_IMAGE_ASPECT_MEMORY_PLANE_2_BIT_EXT := 512;
  VK_IMAGE_ASPECT_MEMORY_PLANE_3_BIT_EXT := 1024;
  VK_IMAGE_LAYOUT_GENERAL := 1;
  VK_IMAGE_LAYOUT_COLOR_ATTACHMENT_OPTIMAL := 2;
  VK_IMAGE_LAYOUT_DEPTH_STENCIL_ATTACHMENT_OPTIMAL := 3;
  VK_IMAGE_LAYOUT_DEPTH_STENCIL_READ_ONLY_OPTIMAL := 4;
  VK_IMAGE_LAYOUT_SHADER_READ_ONLY_OPTIMAL := 5;
  VK_IMAGE_LAYOUT_TRANSFER_SRC_OPTIMAL := 6;
  VK_IMAGE_LAYOUT_TRANSFER_DST_OPTIMAL := 7;
  VK_IMAGE_LAYOUT_DEPTH_READ_ONLY_STENCIL_ATTACHMENT_OPTIMAL := 1000117000;
  VK_IMAGE_LAYOUT_DEPTH_ATTACHMENT_STENCIL_READ_ONLY_OPTIMAL := 1000117001;
  VK_IMAGE_LAYOUT_DEPTH_ATTACHMENT_OPTIMAL := 1000241000;
  VK_IMAGE_LAYOUT_DEPTH_READ_ONLY_OPTIMAL := 1000241001;
  VK_IMAGE_LAYOUT_STENCIL_ATTACHMENT_OPTIMAL := 1000241002;
  VK_IMAGE_LAYOUT_STENCIL_READ_ONLY_OPTIMAL := 1000241003;
  VK_IMAGE_LAYOUT_PRESENT_SRC_KHR := 1000001002;
  VK_IMAGE_LAYOUT_SHARED_PRESENT_KHR := 1000111000;
  VK_IMAGE_LAYOUT_READ_ONLY_OPTIMAL := 1000314000;
  VK_IMAGE_LAYOUT_ATTACHMENT_OPTIMAL := 1000314001;
  VK_IMAGE_LAYOUT_RENDERING_LOCAL_READ := 1000232000;
  VK_IMAGE_LAYOUT_FRAGMENT_DENSITY_MAP_OPTIMAL_EXT := 1000218000;
  VK_IMAGE_LAYOUT_FRAGMENT_SHADING_RATE_ATTACHMENT_OPTIMAL_KHR := 1000164003;
  VK_IMAGE_LAYOUT_ATTACHMENT_FEEDBACK_LOOP_OPTIMAL_EXT := 1000339000;
  VK_IMAGE_LAYOUT_ZERO_INITIALIZED_EXT := 1000620000
|}.

Record bvb_vulkan_command_buffer_image_barrier_request :=
    mk_bvb_vulkan_command_buffer_image_barrier_request {
  cbib_rq_command_buffer_id : Z;
  cbib_rq_image_count : Z;
  cbib_rq_image_ids : list Z
}.

(** ** Loops over the elements in use of an array *)

Definition in_use {A} (count : Z) (l : list A) : list A :=
  take (Z.to_nat count) l.

Fixpoint each {A} (body : A -> M unit) (l : list A) : M unit :=
  match l with
  | [] => ret tt
  | x :: l => do _ := body x ;; each body l
  end.

Fixpoint collect {A B} (body : A -> M B) (l : list A) : M (list B) :=
  match l with
  | [] => ret []
  | x :: l => do y := body x ;; do ys := collect body l ;; ret (y :: ys)
  end.

(** ** The numbers of native structures *)

Definition range_numbers (range : bvb_vulkan_image_subresource_range) :
    list Z :=
  [range.(isr_aspect_mask); range.(isr_base_mip_level);
   range.(isr_level_count); range.(isr_base_array_layer);
   range.(isr_layer_count)].

Definition memory_barrier_numbers (source : bvb_vulkan_memory_barrier_2) :
    list Z :=
  [source.(mmb_source_stage_mask); source.(mmb_source_access_mask);
   source.(mmb_destination_stage_mask); source.(mmb_destination_access_mask)].

Definition buffer_barrier_numbers (source : bvb_vulkan_buffer_barrier_2)
    (buffer : Z) : list Z :=
  [source.(bfb_source_stage_mask); source.(bfb_source_access_mask);
   source.(bfb_destination_stage_mask); source.(bfb_destination_access_mask);
   source.(bfb_source_queue_family_index);
   source.(bfb_destination_queue_family_index);
   buffer; source.(bfb_offset); source.(bfb_size)].

Definition image_barrier_numbers (source : bvb_vulkan_image_barrier_2)
    (image : Z) : list Z :=
  [source.(imb_source_stage_mask); source.(imb_source_access_mask);
   source.(imb_destination_stage_mask); source.(imb_destination_access_mask);
   source.(imb_old_layout); source.(imb_new_layout);
   source.(imb_source_queue_family_index);
   source.(imb_destination_queue_family_index); image] ++
  range_numbers source.(imb_range).

Definition clear_attachment_numbers (attachment : bvb_vulkan_clear_attachment) :
    list Z :=
  [attachment.(ca_aspect_mask); attachment.(ca_color_attachment)] ++
  attachment.(ca_clear_words).

Definition clear_rect_numbers (rect : bvb_vulkan_clear_rect) : list Z :=
  [rect.(cr_offset_x); rect.(cr_offset_y); rect.(cr_width); rect.(cr_height);
   rect.(cr_base_array_layer); rect.(cr_layer_count)].

Definition dependency_numbers (command : bvb_vulkan_image_barrier_2_command)
    (buffers images : list Z) : list Z :=
  command.(ib2_dependency_flags) :: command.(ib2_memory_count) ::
  List.concat (memory_barrier_numbers <$>
            in_use command.(ib2_memory_count) command.(ib2_memory)) ++
  command.(ib2_buffer_count) ::
  List.concat (zip_with buffer_barrier_numbers
            (in_use command.(ib2_buffer_count) command.(ib2_buffers)) buffers) ++
  command.(ib2_image_count) ::
  List.concat (zip_with image_barrier_numbers
            (in_use command.(ib2_image_count) command.(ib2_images)) images).

Section numbers.
Context {VH : VulkanHeader} {VI : VulkanImage} {VS : VulkanStream}.

(** The one colour level and layer the initialisation commands address. *)
Definition initial_color_range : list Z := [VK_IMAGE_ASPECT_COLOR_BIT; 0; 1; 0; 1].

Definition init_barrier_numbers (image : Z) : list Z :=
  [VK_PIPELINE_STAGE_2_NONE; VK_ACCESS_2_NONE; VK_PIPELINE_STAGE_2_TRANSFER_BIT;
   VK_ACCESS_2_TRANSFER_WRITE_BIT; VK_IMAGE_LAYOUT_UNDEFINED;
   VK_IMAGE_LAYOUT_TRANSFER_DST_OPTIMAL; VK_QUEUE_FAMILY_IGNORED;
   VK_QUEUE_FAMILY_IGNORED; image] ++ initial_color_range.

Definition fill_barrier_numbers (buffer offset size : Z) : list Z :=
  [VK_PIPELINE_STAGE_TRANSFER_BIT; VK_PIPELINE_STAGE_HOST_BIT; 0; 0; 1;
   VK_ACCESS_TRANSFER_WRITE_BIT; VK_ACCESS_HOST_READ_BIT;
   VK_QUEUE_FAMILY_IGNORED; VK_QUEUE_FAMILY_IGNORED; buffer; offset; size; 0].

Definition clear_color_numbers
    (command : bvb_vulkan_clear_color_image_general_command) : list Z :=
  command.(ccg_image_layout) :: command.(ccg_color_words) ++
  command.(ccg_range_count) ::
  List.concat (range_numbers <$>
            in_use command.(ccg_range_count) command.(ccg_ranges)).

Definition clear_depth_stencil_numbers
    (command : bvb_vulkan_clear_depth_stencil_image_command) : list Z :=
  command.(cds_image_layout) :: command.(cds_depth_word) ::
  command.(cds_stencil) :: command.(cds_range_count) ::
  List.concat (range_numbers <$>
            in_use command.(cds_range_count) command.(cds_ranges)).

Definition clear_attachments_numbers
    (command : bvb_vulkan_clear_attachments_command) : list Z :=
  command.(cas_attachment_count) ::
  List.concat (clear_attachment_numbers <$>
            in_use command.(cas_attachment_count) command.(cas_attachments)) ++
  command.(cas_rect_count) ::
  List.concat (clear_rect_numbers <$>
            in_use command.(cas_rect_count) command.(cas_rects)).

Definition bind_sets_numbers (bind_point first_set set_count offset_count : Z)
    (offsets : list Z) : list Z :=
  [bind_point; first_set; set_count; offset_count] ++
  in_use offset_count offsets.
End numbers.

Section operations.
Context {VH : VulkanHeader} {VI : VulkanImage} {VC : VulkanCore}
  {VS : VulkanStream}.
Context (driver : list event -> vk_call -> vk_reply).

(** ** Entry points *)

(** The first of the names the driver resolves: an extension's alias is tried
    when the core name is not there. *)
Fixpoint resolve_entry (device : Z) (names : list string) : M unit :=
  match names with
  | [] => stop (- ENOSYS)
  | name :: names =>
      do found := device_proc driver device name ;;
      if found then ret tt else resolve_entry device names
  end.

(** A command recorded into [buffer].  An alias is the same command. *)
Definition record_command (device buffer : Z) (name : string)
    (aliases : list string) (uses : list (Z * Z)) (args : list Z) : M unit :=
  do _ := resolve_entry device (name :: aliases) ;;
  do _ := invoke driver true
    (CommandBufferCall name buffer (handles_used uses) args) ;;
  ret tt.

(** ** Objects of the command buffer's device *)

Definition same_device_child (object_id type device_id device : Z) : M Z :=
  do (child_device_id, child_device, bits) :=
    resolve_device_child object_id type ;;
  stop_if negb (child_device_id =? device_id) ||
          negb (child_device =? device) with (- EPROTO) ;;
  ret bits.

(** Two objects are both looked up before either device is compared. *)
Definition same_device_pair (first_id first_type second_id second_type
    device_id device : Z) : M (Z * Z) :=
  do (first_device_id, first_device, first) :=
    resolve_device_child first_id first_type ;;
  do (second_device_id, second_device, second) :=
    resolve_device_child second_id second_type ;;
  stop_if negb (first_device_id =? device_id) ||
          negb (second_device_id =? device_id) ||
          negb (first_device =? device) || negb (second_device =? device)
    with (- EPROTO) ;;
  ret (first, second).

(** [VK_NULL_HANDLE] for the identifier 0. *)
Definition optional_buffer (buffer_id device_id device : Z) : M Z :=
  if buffer_id =? 0 then ret 0
  else same_device_child buffer_id BVB_OBJECT_BUFFER device_id device.

(** ** Commands with a request of their own *)

Definition bvb_vulkan_global_context_command_buffer_fill
    (request : bvb_vulkan_command_buffer_fill_request) : M unit :=
  stop_if (request.(cbfill_rq_size) =? 0) ||
          negb (Z.land request.(cbfill_rq_offset) 3 =? 0) ||
          negb (Z.land request.(cbfill_rq_size) 3 =? 0) with (- EINVAL) ;;
  do (device_id, device, _, command_buffer) :=
    resolve_command_buffer request.(cbfill_rq_command_buffer_id) ;;
  do buffer := same_device_child request.(cbfill_rq_buffer_id)
                 BVB_OBJECT_BUFFER device_id device ;;
  do fill := device_proc driver device "vkCmdFillBuffer" ;;
  do barrier := device_proc driver device "vkCmdPipelineBarrier" ;;
  stop_if negb fill || negb barrier with (- ENOSYS) ;;
  do _ := invoke driver fill
    (CommandBufferCall "vkCmdFillBuffer" command_buffer
       (handles_used [(BVB_OBJECT_BUFFER, buffer)])
       [request.(cbfill_rq_offset); request.(cbfill_rq_size);
        request.(cbfill_rq_data)]) ;;
  do _ := invoke driver barrier
    (CommandBufferCall "vkCmdPipelineBarrier" command_buffer
       (handles_used [(BVB_OBJECT_BUFFER, buffer)])
       (fill_barrier_numbers buffer request.(cbfill_rq_offset)
          request.(cbfill_rq_size))) ;;
  ret tt.

Definition bvb_vulkan_global_context_command_buffer_image_barrier
    (request : bvb_vulkan_command_buffer_image_barrier_request) : M unit :=
  stop_if (request.(cbib_rq_image_count) =? 0) ||
          (BVB_COMMAND_VULKAN_MAX_INIT_IMAGE_BARRIERS <?
             request.(cbib_rq_image_count)) with (- EINVAL) ;;
  do (device_id, device, _, command_buffer) :=
    resolve_command_buffer request.(cbib_rq_command_buffer_id) ;;
  do images := collect
    (fun image_id =>
       same_device_child image_id BVB_OBJECT_IMAGE device_id device)
    (in_use request.(cbib_rq_image_count) request.(cbib_rq_image_ids)) ;;
  record_command device command_buffer "vkCmdPipelineBarrier2" []
    ((fun image => (BVB_OBJECT_IMAGE, image)) <$> images)
    (request.(cbib_rq_image_count) :: List.concat (init_barrier_numbers <$> images)).

Definition bvb_vulkan_global_context_command_buffer_clear_color_image
    (request : bvb_vulkan_command_buffer_clear_color_image_request) : M unit :=
  do (device_id, device, _, command_buffer) :=
    resolve_command_buffer request.(cbcci_rq_command_buffer_id) ;;
  do image := same_device_child request.(cbcci_rq_image_id) BVB_OBJECT_IMAGE
                device_id device ;;
  record_command device command_buffer "vkCmdClearColorImage" []
    [(BVB_OBJECT_IMAGE, image)]
    (VK_IMAGE_LAYOUT_TRANSFER_DST_OPTIMAL :: [0; 0; 0; 0] ++
     1 :: initial_color_range).

(** The handle of a descriptor set whose pool belongs to the device. *)
Definition bound_descriptor_set (device_id set_id : Z) : M Z :=
  do (pool_id, set_bits) := table_lookup set_id BVB_OBJECT_DESCRIPTOR_SET ;;
  do (pool_device_id, _) := table_lookup pool_id BVB_OBJECT_DESCRIPTOR_POOL ;;
  stop_if negb (pool_device_id =? device_id) with (- EPROTO) ;;
  ret set_bits.

Definition bvb_vulkan_global_context_command_buffer_bind_descriptor_sets
    (request : bvb_vulkan_bind_descriptor_sets_request) : M unit :=
  stop_if (VK_PIPELINE_BIND_POINT_COMPUTE <?
             request.(bds_rq_pipeline_bind_point)) ||
          (request.(bds_rq_descriptor_set_count) =? 0) ||
          (BVB_COMMAND_VULKAN_MAX_BOUND_DESCRIPTOR_SETS <?
             request.(bds_rq_descriptor_set_count)) ||
          (BVB_COMMAND_VULKAN_MAX_DYNAMIC_OFFSETS <?
             request.(bds_rq_dynamic_offset_count)) with (- EINVAL) ;;
  do (device_id, device, _, command_buffer) :=
    resolve_command_buffer request.(bds_rq_command_buffer_id) ;;
  do (layout_device_id, layout) :=
    table_lookup request.(bds_rq_pipeline_layout_id)
      BVB_OBJECT_PIPELINE_LAYOUT ;;
  stop_if negb (layout_device_id =? device_id) with (- EPROTO) ;;
  do sets := collect (bound_descriptor_set device_id)
    (in_use request.(bds_rq_descriptor_set_count)
       request.(bds_rq_descriptor_set_ids)) ;;
  record_command device command_buffer "vkCmdBindDescriptorSets" []
    ((BVB_OBJECT_PIPELINE_LAYOUT, layout) ::
     ((fun set => (BVB_OBJECT_DESCRIPTOR_SET, set)) <$> sets))
    (bind_sets_numbers request.(bds_rq_pipeline_bind_point)
       request.(bds_rq_first_set) request.(bds_rq_descriptor_set_count)
       request.(bds_rq_dynamic_offset_count)
       request.(bds_rq_dynamic_offsets)).

(** ** Barriers and clears of a command stream *)

Definition replay_command_stream_image_barrier_2 (command_buffer_id : Z)
    (command : bvb_vulkan_image_barrier_2_command) : M unit :=
  do (device_id, device, _, command_buffer) :=
    resolve_command_buffer command_buffer_id ;;
  do buffers := collect
    (fun entry => same_device_child entry.(bfb_buffer_id) BVB_OBJECT_BUFFER
                    device_id device)
    (in_use command.(ib2_buffer_count) command.(ib2_buffers)) ;;
  do images := collect
    (fun entry => same_device_child entry.(imb_image_id) BVB_OBJECT_IMAGE
                    device_id device)
    (in_use command.(ib2_image_count) command.(ib2_images)) ;;
  record_command device command_buffer "vkCmdPipelineBarrier2" []
    (((fun buffer => (BVB_OBJECT_BUFFER, buffer)) <$> buffers) ++
     ((fun image => (BVB_OBJECT_IMAGE, image)) <$> images))
    (dependency_numbers command buffers images).

Definition replay_command_stream_clear_color_image_general
    (command_buffer_id : Z)
    (command : bvb_vulkan_clear_color_image_general_command) : M unit :=
  do (device_id, device, _, command_buffer) :=
    resolve_command_buffer command_buffer_id ;;
  do image := same_device_child command.(ccg_image_id) BVB_OBJECT_IMAGE
                device_id device ;;
  record_command device command_buffer "vkCmdClearColorImage" []
    [(BVB_OBJECT_IMAGE, image)] (clear_color_numbers command).

Definition replay_command_stream_clear_depth_stencil_image
    (command_buffer_id : Z)
    (command : bvb_vulkan_clear_depth_stencil_image_command) : M unit :=
  do (device_id, device, _, command_buffer) :=
    resolve_command_buffer command_buffer_id ;;
  do image := same_device_child command.(cds_image_id) BVB_OBJECT_IMAGE
                device_id device ;;
  record_command device command_buffer "vkCmdClearDepthStencilImage" []
    [(BVB_OBJECT_IMAGE, image)] (clear_depth_stencil_numbers command).

Definition replay_command_stream_clear_attachments (command_buffer_id : Z)
    (command : bvb_vulkan_clear_attachments_command) : M unit :=
  do (_, device, _, command_buffer) :=
    resolve_command_buffer command_buffer_id ;;
  record_command device command_buffer "vkCmdClearAttachments" [] []
    (clear_attachments_numbers command).
End operations.

(** ** The invariant *)

Section invariant.
Context {VH : VulkanHeader} {VI : VulkanImage} {VC : VulkanCore}
  {VS : VulkanStream}.
Context (driver : list event -> vk_call -> vk_reply).
Context {CD : ConformingDriver driver} {AP : Apart}.

(** A null handle, or one the store has under the type. *)
Definition reachable (t : bvb_handle_table) (use : Z * Z) : Prop :=
  use.2 = 0 \/ stored t use.1 use.2.

Lemma reachable_used X t w uses :
  At X none t w -> Forall (reachable t) uses ->
  used (driver_after VK_SUCCESS w.(w_log)) (handles_used uses).
Proof.
  intros I Hl. apply Forall_forall. intros [ty b] Hin%list_elem_of_In.
  apply list_elem_of_filter in Hin as [Hne Hin%list_elem_of_In].
  rewrite Forall_forall in Hl.
  destruct (Hl _ Hin) as [|(id & p & Hm & Hty)]; [done|].
  eapply at_alive_type; [done|done|done|]. by right; intros [].
Qed.

Lemma wp_resolve_entry X t w id p d names Q :
  At X none t w -> table_map t !! id = Some (p, d) ->
  bvb_handle_type id = BVB_OBJECT_DEVICE ->
  (forall r w', At X none t w' -> Q r w') ->
  wp (resolve_entry driver d names) Q w.
Proof.
  intros I Hm Hty HQ. revert w I.
  induction names as [|name names IH]; intros w I; cbn [resolve_entry].
  - wp_run. by apply HQ.
  - wp_run; [by apply HQ|by apply IH].
Qed.

Lemma wp_record_command X t w id p d cid pid buffer name aliases uses args Q :
  At X none t w -> table_map t !! id = Some (p, d) ->
  bvb_handle_type id = BVB_OBJECT_DEVICE ->
  table_map t !! cid = Some (pid, buffer) ->
  bvb_handle_type cid = BVB_OBJECT_COMMAND_BUFFER ->
  Forall (reachable t) uses ->
  (forall r w', At X none t w' -> Q r w') ->
  wp (record_command driver d buffer name aliases uses args) Q w.
Proof.
  intros I Hm Hty Hc Hct Hu HQ. unfold record_command. apply wp_do.
  eapply wp_resolve_entry; [done|done|done|]. clear w I. intros [[]|e] w I;
    cbn [then_wp]; [|by apply HQ].
  wp_run; [split; [solve_alive|by eapply reachable_used]|by apply HQ].
Qed.

Lemma wp_same_device_child X t w id type did d Q :
  At X none t w ->
  (forall b, reachable t (type, b) -> Q (Ok b) w) ->
  (forall e, Q (Err e) w) ->
  wp (same_device_child id type did d) Q w.
Proof.
  intros I Hok Herr. unfold same_device_child. wp_run; try done.
  apply Hok. right. by eexists _, _.
Qed.

Lemma wp_same_device_pair X t w id type id' type' did d Q :
  At X none t w ->
  (forall b b', reachable t (type, b) -> reachable t (type', b') ->
     Q (Ok (b, b')) w) ->
  (forall e, Q (Err e) w) ->
  wp (same_device_pair id type id' type' did d) Q w.
Proof.
  intros I Hok Herr. unfold same_device_pair. wp_run; try done.
  apply Hok; right; by eexists _, _.
Qed.

Lemma wp_optional_buffer X t w id did d Q :
  At X none t w ->
  (forall b, reachable t (BVB_OBJECT_BUFFER, b) -> Q (Ok b) w) ->
  (forall e, Q (Err e) w) ->
  wp (optional_buffer id did d) Q w.
Proof.
  intros I Hok Herr. unfold optional_buffer. wp_run; [apply Hok; by left|].
  by eapply wp_same_device_child.
Qed.

Lemma wp_bound_descriptor_set X t w did id Q :
  At X none t w ->
  (forall b, reachable t (BVB_OBJECT_DESCRIPTOR_SET, b) -> Q (Ok b) w) ->
  (forall e, Q (Err e) w) ->
  wp (bound_descriptor_set did id) Q w.
Proof.
  intros I Hok Herr. unfold bound_descriptor_set. wp_run; try done.
  apply Hok. right. by eexists _, _.
Qed.

(** A loop whose body only looks objects up. *)
Lemma wp_collect {A B} (P : B -> Prop) (body : A -> M B) l w
    (Q : result (list B) -> world -> Prop) :
  (forall x (Q' : result B -> world -> Prop), (forall y, P y -> Q' (Ok y) w) ->
     (forall e, Q' (Err e) w) -> wp (body x) Q' w) ->
  (forall ys, Forall P ys -> Q (Ok ys) w) -> (forall e, Q (Err e) w) ->
  wp (collect body l) Q w.
Proof.
  intros Hbody. revert Q. induction l as [|x l IH]; intros Q Hok Herr;
    cbn [collect]; [apply wp_reply, Hok; constructor|].
  apply wp_do, Hbody; [|done]. intros y Hy. cbn [then_wp]. apply wp_do, IH; [|done].
  intros ys Hys. cbn [then_wp]. apply wp_reply, Hok. by constructor.
Qed.

Lemma wp_collect_reachable {A} t type (body : A -> M Z) l w
    (Q : result (list Z) -> world -> Prop) :
  (forall x (Q' : result Z -> world -> Prop),
     (forall b, reachable t (type, b) -> Q' (Ok b) w) ->
     (forall e, Q' (Err e) w) -> wp (body x) Q' w) ->
  (forall bs, Forall (reachable t) ((fun b => (type, b)) <$> bs) ->
     Q (Ok bs) w) ->
  (forall e, Q (Err e) w) ->
  wp (collect body l) Q w.
Proof.
  intros Hbody Hok Herr.
  apply (wp_collect (fun b => reachable t (type, b))); [done| |done].
  intros bs Hbs. by apply Hok, Forall_fmap.
Qed.

End invariant.

(** One step of an operation on a command buffer. *)
Ltac record_step :=
  lazymatch goal with
  | |- wp (record_command _ _ _ _ _ _ _) _ _ =>
      eapply wp_record_command;
        [eassumption|eassumption|eassumption|eassumption|eassumption| |]
  | I : At _ _ _ ?w |- wp (resolve_command_buffer _) _ ?w =>
      eapply wp_resolve_command_buffer;
        [exact I|intros ? ? ? ? ? ? ? ? ? ? ? ?|intros ?]
  | I : At _ _ _ ?w |- wp (same_device_child _ _ _ _) _ ?w =>
      eapply wp_same_device_child; [exact I|intros ? ?|intros ?]
  | I : At _ _ _ ?w |- wp (same_device_pair _ _ _ _ _ _) _ ?w =>
      eapply wp_same_device_pair; [exact I|intros ? ? ? ?|intros ?]
  | I : At _ _ _ ?w |- wp (optional_buffer _ _ _) _ ?w =>
      eapply wp_optional_buffer; [exact I|intros ? ?|intros ?]
  | I : At _ _ _ ?w |- wp (bound_descriptor_set _ _) _ ?w =>
      eapply wp_bound_descriptor_set; [exact I|intros ? ?|intros ?]
  | I : At _ _ _ ?w |- wp (descriptor_template_resolve_image_view _ _) _ ?w =>
      eapply wp_resolve_view; [exact I|intros ? ?|intros ?]
  | |- _ => wp_step
  end; cbn [then_wp].
Ltac record_run := repeat record_step.

(** The handles of a command, one by one. *)
Ltac solve_reachable :=
  repeat (constructor; [by assumption|]); first [done | by constructor].

Section keeps.
Context {VH : VulkanHeader} {VI : VulkanImage} {VC : VulkanCore}
  {VS : VulkanStream}.
Context (driver : list event -> vk_call -> vk_reply).
Context {CD : ConformingDriver driver} {AP : Apart}.

Lemma command_buffer_fill_keeps request :
  keeps (bvb_vulkan_global_context_command_buffer_fill driver request).
Proof.
  intros w [t I]. unfold bvb_vulkan_global_context_command_buffer_fill.
  record_run; (split; [solve_alive|]); eapply reachable_used; first [done|solve_reachable].
Qed.

(** Every handle of a command has been looked up. *)
Ltac record_done :=
  first [ solve [intros ? w' I'; by eexists] | done | solve_reachable
        | by constructor; [right; eexists _, _|] | by apply Forall_app ].

(** The operation [f] keeps the invariant; [collects] for its loops. *)
Tactic Notation "record_keeps" reference(f) :=
  intros w [t I]; unfold f; record_run;
  repeat (eapply (wp_collect_reachable t);
    [intros ? ? Hok Herr; record_run; first [by apply Hok|by apply Herr]
    |intros ? ?; cbn [then_wp]; record_run|intros ?; cbn [then_wp]; record_run]);
  try record_done.

Lemma command_buffer_image_barrier_keeps request :
  keeps (bvb_vulkan_global_context_command_buffer_image_barrier driver request).
Proof. record_keeps bvb_vulkan_global_context_command_buffer_image_barrier. Qed.

Lemma command_buffer_clear_color_image_keeps request :
  keeps (bvb_vulkan_global_context_command_buffer_clear_color_image driver
    request).
Proof.
  record_keeps bvb_vulkan_global_context_command_buffer_clear_color_image.
Qed.

Lemma command_buffer_bind_descriptor_sets_keeps request :
  keeps (bvb_vulkan_global_context_command_buffer_bind_descriptor_sets driver
    request).
Proof.
  record_keeps bvb_vulkan_global_context_command_buffer_bind_descriptor_sets.
Qed.

Lemma image_barrier_2_keeps id command :
  keeps (replay_command_stream_image_barrier_2 driver id command).
Proof. record_keeps replay_command_stream_image_barrier_2. Qed.

Lemma clear_color_image_general_keeps id command :
  keeps (replay_command_stream_clear_color_image_general driver id command).
Proof. record_keeps replay_command_stream_clear_color_image_general. Qed.

Lemma clear_depth_stencil_image_keeps id command :
  keeps (replay_command_stream_clear_depth_stencil_image driver id command).
Proof. record_keeps replay_command_stream_clear_depth_stencil_image. Qed.

Lemma clear_attachments_keeps id command :
  keeps (replay_command_stream_clear_attachments driver id command).
Proof. record_keeps replay_command_stream_clear_attachments. Qed.
End keeps.
