(* ===== verification/BackendSubmit.v ===== *)
(** * BackendSubmit: submissions with semaphores and fences

    Models [bvb_vulkan_global_context_validate_queue_submit_2],
    [..._queue_submit_2] and [..._queue_submit_command_fence] of
    src/vulkan_global.c.  All objects of a submission are looked up, and
    compared with the device of the queue, before the mirrors are synchronised
    and the driver is called.  The times a profile reports are not part of
    the model. *)

From stdpp Require Import strings gmap.
From S2P Require Import Prelude Wire Abi Codec ProtocolCommand ProtocolSync CommandTypes DescriptorTypes MessageImage MessageSubmit Backend BackendInvariant BackendRules BackendSync BackendPipeline BackendMirror BackendCommand StreamBase.

#[local] Open Scope list_scope.

(** The numbers of a [VkSemaphoreSubmitInfo] and of a
    [VkCommandBufferSubmitInfo]. *)
Definition semaphore_numbers (s : bvb_vulkan_submit_2_semaphore_record) : list Z :=
  [s.(s2s_value); s.(s2s_stage_mask); s.(s2s_device_index)].

Definition submit_2_numbers (request : bvb_vulkan_queue_submit_2_request) :
    list Z :=
  request.(s2_rq_flags) :: request.(s2_rq_wait_count) ::
  List.concat (semaphore_numbers <$>
    in_use request.(s2_rq_wait_count) request.(s2_rq_waits)) ++
  request.(s2_rq_command_count) ::
  (s2c_device_mask <$>
    in_use request.(s2_rq_command_count) request.(s2_rq_commands)) ++
  request.(s2_rq_signal_count) ::
  List.concat (semaphore_numbers <$>
    in_use request.(s2_rq_signal_count) request.(s2_rq_signals)).

Section operations.
Context {VH : VulkanHeader} {VC : VulkanCore}.
Context (driver : list event -> vk_call -> vk_reply).

Definition submitted_semaphore (device_id : Z)
    (s : bvb_vulkan_submit_2_semaphore_record) : M Z :=
  do (parent_id, semaphore) :=
    table_lookup s.(s2s_semaphore_id) BVB_OBJECT_SEMAPHORE ;;
  stop_if negb (parent_id =? device_id) || negb (s.(s2s_device_index) =? 0)
    with (- EPROTO) ;;
  ret semaphore.

Definition submitted_command (device_id device : Z)
    (c : bvb_vulkan_submit_2_command_record) : M Z :=
  do (command_device_id, command_device, _, command_buffer) :=
    resolve_command_buffer c.(s2c_command_buffer_id) ;;
  stop_if negb (command_device_id =? device_id) ||
          negb (command_device =? device) ||
          negb (c.(s2c_device_mask) =? 0) with (- EPROTO) ;;
  ret command_buffer.

Definition submitted_fence (device_id device fence_id : Z) : M Z :=
  if fence_id =? 0 then ret 0
  else same_device_child fence_id BVB_OBJECT_FENCE device_id device.

(** The checks and lookups both functions below start with. *)
Definition resolve_submit_2 (request : bvb_vulkan_queue_submit_2_request) :
    M (Z * Z * Z * (list Z * list Z * list Z * Z)) :=
  stop_if negb (request.(s2_rq_flags) =? 0) ||
          (BVB_VULKAN_MAX_SEMAPHORES_PER_WAIT <?
             request.(s2_rq_wait_count)) ||
          (BVB_VULKAN_MAX_COMMAND_BUFFERS_PER_SUBMIT <?
             request.(s2_rq_command_count)) ||
          (BVB_VULKAN_MAX_SEMAPHORES_PER_WAIT <?
             request.(s2_rq_signal_count)) with (- EINVAL) ;;
  do (device, queue) := resolve_queue request.(s2_rq_queue_id) ;;
  do (device_id, _) :=
    table_lookup request.(s2_rq_queue_id) BVB_OBJECT_QUEUE ;;
  do waits := collect (submitted_semaphore device_id)
    (in_use request.(s2_rq_wait_count) request.(s2_rq_waits)) ;;
  do commands := collect (submitted_command device_id device)
    (in_use request.(s2_rq_command_count) request.(s2_rq_commands)) ;;
  do signals := collect (submitted_semaphore device_id)
    (in_use request.(s2_rq_signal_count) request.(s2_rq_signals)) ;;
  do fence := submitted_fence device_id device request.(s2_rq_fence_id) ;;
  ret (device_id, device, queue, (waits, commands, signals, fence)).

Definition bvb_vulkan_global_context_validate_queue_submit_2
    (request : bvb_vulkan_queue_submit_2_request) : M Z :=
  do (device_id, _, _, _) := resolve_submit_2 request ;;
  ret device_id.

Definition bvb_vulkan_global_context_queue_submit_2
    (request : bvb_vulkan_queue_submit_2_request) : M Z :=
  do (device_id, device, queue, (waits, commands, signals, fence)) :=
    resolve_submit_2 request ;;
  do _ := sync_coherent_memory_mirrors device_id ;;
  do _ := resolve_entry driver device
    ["vkQueueSubmit2"; "vkQueueSubmit2KHR"]%string ;;
  do r := invoke driver true
    (QueueCall "vkQueueSubmit2" queue
       (handles_used
          ((pair BVB_OBJECT_SEMAPHORE <$> waits) ++
           (pair BVB_OBJECT_COMMAND_BUFFER <$> commands) ++
           (pair BVB_OBJECT_SEMAPHORE <$> signals) ++
           [(BVB_OBJECT_FENCE, fence)]))
       (submit_2_numbers request)) ;;
  ret r.(rp_result).

Definition bvb_vulkan_global_context_queue_submit_command_fence
    (request : bvb_vulkan_queue_submit_command_fence_request) : M Z :=
  do (queue_device, queue) := resolve_queue request.(qscf_rq_queue_id) ;;
  do (queue_device_id, _) :=
    table_lookup request.(qscf_rq_queue_id) BVB_OBJECT_QUEUE ;;
  do (command_device_id, command_device, _, command_buffer) :=
    resolve_command_buffer request.(qscf_rq_command_buffer_id) ;;
  do (fence_device_id, fence_device, fence) :=
    resolve_device_child request.(qscf_rq_fence_id) BVB_OBJECT_FENCE ;;
  stop_if negb (command_device_id =? queue_device_id) ||
          negb (fence_device_id =? queue_device_id) ||
          negb (command_device =? queue_device) ||
          negb (fence_device =? queue_device) with (- EPROTO) ;;
  do _ := sync_coherent_memory_mirrors queue_device_id ;;
  do submit := device_proc driver queue_device "vkQueueSubmit" ;;
  stop_if negb submit with (- ENOSYS) ;;
  do r := invoke driver submit
    (QueueCall "vkQueueSubmit" queue
       [(BVB_OBJECT_COMMAND_BUFFER, command_buffer);
        (BVB_OBJECT_FENCE, fence)] []) ;;
  ret r.(rp_result).
End operations.

(** ** The invariant *)

Section invariant.
Context {VH : VulkanHeader} {VI : VulkanImage} {VC : VulkanCore}
  {VS : VulkanStream}.
Context (driver : list event -> vk_call -> vk_reply).
Context {CD : ConformingDriver driver} {AP : Apart}.

Lemma wp_submitted_semaphore X t w did s Q :
  At X none t w ->
  (forall b, reachable t (BVB_OBJECT_SEMAPHORE, b) -> Q (Ok b) w) ->
  (forall e, Q (Err e) w) ->
  wp (submitted_semaphore did s) Q w.
Proof.
  intros I Hok Herr. unfold submitted_semaphore. record_run; try done.
  apply Hok. right. by eexists _, _.
Qed.

Lemma wp_submitted_command X t w did d c Q :
  At X none t w ->
  (forall b, reachable t (BVB_OBJECT_COMMAND_BUFFER, b) -> Q (Ok b) w) ->
  (forall e, Q (Err e) w) ->
  wp (submitted_command did d c) Q w.
Proof.
  intros I Hok Herr. unfold submitted_command. record_run; try done.
  apply Hok. right. by eexists _, _.
Qed.

Lemma wp_submitted_fence X t w did d id Q :
  At X none t w ->
  (forall b, reachable t (BVB_OBJECT_FENCE, b) -> Q (Ok b) w) ->
  (forall e, Q (Err e) w) ->
  wp (submitted_fence did d id) Q w.
Proof.
  intros I Hok Herr. unfold submitted_fence.
  destruct (id =? 0); [apply wp_reply, Hok; by left|].
  by eapply wp_same_device_child.
Qed.

Lemma wp_submitted {A} X t w type (body : A -> M Z) l
    (Q : result (list Z) -> world -> Prop) :
  At X none t w ->
  (forall x (Q' : result Z -> world -> Prop), At X none t w ->
     (forall b, reachable t (type, b) -> Q' (Ok b) w) ->
     (forall e, Q' (Err e) w) -> wp (body x) Q' w) ->
  (forall bs, Forall (reachable t) (pair type <$> bs) -> Q (Ok bs) w) ->
  (forall e, Q (Err e) w) -> wp (collect body l) Q w.
Proof.
  intros I Hb Hok Herr. eapply (wp_collect_reachable t type); [|done|done].
  intros x Q' Hok' Herr'. by apply Hb.
Qed.

Lemma wp_resolve_submit_2 t w request Q :
  At [] none t w ->
  (forall did d q p waits commands signals fence,
     table_map t !! request.(s2_rq_queue_id) = Some (did, q) ->
     bvb_handle_type request.(s2_rq_queue_id) = BVB_OBJECT_QUEUE ->
     table_map t !! did = Some (p, d) ->
     bvb_handle_type did = BVB_OBJECT_DEVICE ->
     Forall (reachable t)
       ((pair BVB_OBJECT_SEMAPHORE <$> waits) ++
        (pair BVB_OBJECT_COMMAND_BUFFER <$> commands) ++
        (pair BVB_OBJECT_SEMAPHORE <$> signals) ++
        [(BVB_OBJECT_FENCE, fence)]) ->
     Q (Ok (did, d, q, (waits, commands, signals, fence))) w) ->
  (forall e, Q (Err e) w) ->
  wp (resolve_submit_2 request) Q w.
Proof.
  intros I Hok Herr. unfold resolve_submit_2. wp_run; try done.
  eapply (wp_submitted [] t); [exact I|intros; by eapply wp_submitted_semaphore| |done].
  intros waits Hwaits. cbn [then_wp]. apply wp_do.
  eapply (wp_submitted [] t); [exact I|intros; by eapply wp_submitted_command| |done].
  intros commands Hcommands. cbn [then_wp]. apply wp_do.
  eapply (wp_submitted [] t); [exact I|intros; by eapply wp_submitted_semaphore| |done].
  intros signals Hsignals. cbn [then_wp]. apply wp_do.
  eapply wp_submitted_fence; [exact I| |done].
  intros fence Hfence. cbn [then_wp]. apply wp_reply. simplify_eq.
  eapply Hok; try done. rewrite !Forall_app. split_and!; try done.
  by constructor.
Qed.

Lemma validate_queue_submit_2_keeps request :
  keeps (bvb_vulkan_global_context_validate_queue_submit_2 request).
Proof.
  intros w [t I]. unfold bvb_vulkan_global_context_validate_queue_submit_2.
  apply wp_do. eapply wp_resolve_submit_2; [exact I| |]; intros; wp_run;
    by exists t.
Qed.

Lemma queue_submit_2_keeps request :
  keeps (bvb_vulkan_global_context_queue_submit_2 driver request).
Proof.
  intros w [t I]. unfold bvb_vulkan_global_context_queue_submit_2.
  apply wp_do. eapply wp_resolve_submit_2; [exact I| |intros; by exists t].
  intros. cbn [then_wp]. apply wp_do. eapply wp_sync; [exact I|].
  clear w I. intros w I. cbn [then_wp]. apply wp_do.
  eapply wp_resolve_entry; [done|done|done|]. clear w I.
  intros [[]|e] w I; cbn [then_wp]; [|by exists t].
  wp_run. split; [solve_alive|by eapply reachable_used].
Qed.

Lemma queue_submit_command_fence_keeps request :
  keeps (bvb_vulkan_global_context_queue_submit_command_fence driver request).
Proof.
  intros w [t I].
  unfold bvb_vulkan_global_context_queue_submit_command_fence.
  wp_run. eapply wp_resolve_command_buffer; [exact I| |intros; by exists t].
  intros. cbn [then_wp]. wp_run. passed. simplify_eq.
  eapply wp_sync; [exact I|]. clear w I. intros w I. wp_run.
Qed.
End invariant.
