(* ===== verification/StreamRecord.v ===== *)
(** * StreamRecord: replaying one render, transfer or query record

    [replay_render_command_record] of src/vulkan_global.c, one definition per
    branch: the record is decoded, the objects it names are looked up and
    must belong to the device of the command buffer, and the native command
    is recorded.  Every branch keeps the store's invariant. *)

From stdpp Require Import strings gmap.
From S2P Require Import Prelude Wire Abi Codec Window CommandTypes CommandBase CommandDispatch MessageImage Backend BackendInvariant BackendRules BackendSync BackendDescriptor BackendPipeline BackendCommand StreamBase.

#[local] Open Scope list_scope.

(** ** The numbers of native structures *)

Definition byte_numbers (data : bytes) : list Z := Z_of_byte <$> data.

(** The [VkRenderingAttachmentInfo] and, when it is chained, the feedback
    loop structure. *)
Definition attachment_numbers (command : bvb_vulkan_rendering_attachment)
    (view resolve_view : Z) : list Z :=
  [view; command.(ra_image_layout); command.(ra_resolve_mode); resolve_view;
   command.(ra_resolve_image_layout); command.(ra_load_op);
   command.(ra_store_op)] ++ command.(ra_clear_words) ++
  [if negb (command.(ra_feedback_loop_enable) =? 0) then 1 else 0].

Definition rendering_numbers (command : bvb_begin_rendering_command)
    (colors : list (list Z)) (depth stencil : list Z) : list Z :=
  [command.(br_flags); command.(br_render_offset_x);
   command.(br_render_offset_y); command.(br_width); command.(br_height);
   command.(br_layer_count); command.(br_view_mask);
   command.(br_color_attachment_count)] ++
  List.concat colors ++ depth ++ stencil.

Definition layers_numbers (layers : bvb_vulkan_image_subresource_layers) :
    list Z :=
  [layers.(isl_aspect_mask); layers.(isl_mip_level);
   layers.(isl_base_array_layer); layers.(isl_layer_count)].
Definition offset_numbers (offset : bvb_vulkan_offset_3d) : list Z :=
  [offset.(o3_x); offset.(o3_y); offset.(o3_z)].
Definition extent_numbers (extent : bvb_vulkan_extent_3d) : list Z :=
  [extent.(e3_width); extent.(e3_height); extent.(e3_depth)].

Definition region_numbers (opcode : Z) (wire : bvb_vulkan_transfer_region) :
    list Z :=
  let source index :=
    offset_numbers (elt zero_o3 wire.(tr_source_offsets) index) in
  let destination index :=
    offset_numbers (elt zero_o3 wire.(tr_destination_offsets) index) in
  let source_layers := layers_numbers wire.(tr_source_layers) in
  let destination_layers := layers_numbers wire.(tr_destination_layers) in
  let extent := extent_numbers wire.(tr_extent) in
  match opcode with
  | 14 => [wire.(tr_source_buffer_offset); wire.(tr_destination_buffer_offset);
           wire.(tr_size)]
  | 15 => [wire.(tr_source_buffer_offset); wire.(tr_buffer_row_length);
           wire.(tr_buffer_image_height)] ++
          destination_layers ++ destination 0 ++ extent
  | 16 => [wire.(tr_destination_buffer_offset); wire.(tr_buffer_row_length);
           wire.(tr_buffer_image_height)] ++
          source_layers ++ source 0 ++ extent
  | 18 => source_layers ++ source 0 ++ source 1 ++
          destination_layers ++ destination 0 ++ destination 1
  | _ => source_layers ++ source 0 ++ destination_layers ++ destination 0 ++
         extent
  end.

(** The command of a transfer opcode, and the numbers beside its regions. *)
Definition transfer_name (opcode : Z) : string :=
  match opcode with
  | 14 => "vkCmdCopyBuffer2"
  | 15 => "vkCmdCopyBufferToImage2"
  | 16 => "vkCmdCopyImageToBuffer2"
  | 17 => "vkCmdCopyImage2"
  | 18 => "vkCmdBlitImage2"
  | _ => "vkCmdResolveImage2"
  end%string.

Definition transfer_numbers (opcode : Z) (command : bvb_vulkan_transfer_command) :
    list Z :=
  (match opcode with
   | 14 => []
   | 15 => [command.(tf_destination_layout)]
   | 16 => [command.(tf_source_layout)]
   | _ => [command.(tf_source_layout); command.(tf_destination_layout)]
   end) ++
  command.(tf_region_count) ::
  List.concat (region_numbers opcode <$>
    in_use command.(tf_region_count) command.(tf_regions)) ++
  (if opcode =? BVB_COMMAND_VULKAN_BLIT_IMAGE_2 then [command.(tf_filter)]
   else []).

Definition command_stream_transfer_opcode (opcode : Z) : bool :=
  (BVB_COMMAND_VULKAN_COPY_BUFFER_2 <=? opcode) &&
  (opcode <=? BVB_COMMAND_VULKAN_RESOLVE_IMAGE_2).

Definition command_stream_transfer_source_type (opcode : Z) : Z :=
  if (opcode =? BVB_COMMAND_VULKAN_COPY_BUFFER_2) ||
     (opcode =? BVB_COMMAND_VULKAN_COPY_BUFFER_TO_IMAGE_2)
  then BVB_OBJECT_BUFFER else BVB_OBJECT_IMAGE.

Definition command_stream_transfer_destination_type (opcode : Z) : Z :=
  if (opcode =? BVB_COMMAND_VULKAN_COPY_BUFFER_2) ||
     (opcode =? BVB_COMMAND_VULKAN_COPY_IMAGE_TO_BUFFER_2)
  then BVB_OBJECT_BUFFER else BVB_OBJECT_IMAGE.

(** An entry point, its aliases, and the numbers it is given. *)
Definition native_command : Type := string * list string * list Z.

(** The switch over the kind of a query command. *)
Definition query_call (command : bvb_vulkan_query_command) :
    option native_command :=
  let first := command.(qy_first_query) in
  match command.(qy_kind) with
  | 1 => Some ("vkCmdResetQueryPool", [], [first; command.(qy_query_count)])
  | 2 => Some ("vkCmdBeginQuery", [], [first; command.(qy_flags)])
  | 3 => Some ("vkCmdEndQuery", [], [first])
  | 4 => Some ("vkCmdWriteTimestamp", [], [u32 command.(qy_stage_mask); first])
  | 5 => Some ("vkCmdWriteTimestamp2", ["vkCmdWriteTimestamp2KHR"],
               [command.(qy_stage_mask); first])
  | 6 => Some ("vkCmdBeginQueryIndexedEXT", [],
               [first; command.(qy_flags); command.(qy_index)])
  | 7 => Some ("vkCmdEndQueryIndexedEXT", [], [first; command.(qy_index)])
  | _ => None
  end%string.

(** [values]: the first four words of the command as [float]s, the missing
    ones 0. *)
Definition float_values (command : bvb_vulkan_dynamic_state_command) : list Z :=
  let given := take 4 (in_use command.(dys_value_count) command.(dys_values)) in
  given ++ replicate (4 - Datatypes.length given) 0.

(** The switch over the kind of a dynamic state. *)
Definition dynamic_state_call (command : bvb_vulkan_dynamic_state_command) :
    option native_command :=
  let word := elt 0 command.(dys_values) in
  let value := elt 0 (float_values command) in
  match command.(dys_kind) with
  | 1 => Some ("vkCmdSetCullMode", ["vkCmdSetCullModeEXT"], [word 0])
  | 2 => Some ("vkCmdSetFrontFace", ["vkCmdSetFrontFaceEXT"], [word 0])
  | 3 => Some ("vkCmdSetPrimitiveTopology", ["vkCmdSetPrimitiveTopologyEXT"],
               [word 0])
  | 4 => Some ("vkCmdSetDepthTestEnable", ["vkCmdSetDepthTestEnableEXT"],
               [word 0])
  | 5 => Some ("vkCmdSetDepthWriteEnable", ["vkCmdSetDepthWriteEnableEXT"],
               [word 0])
  | 6 => Some ("vkCmdSetDepthCompareOp", ["vkCmdSetDepthCompareOpEXT"],
               [word 0])
  | 7 => Some ("vkCmdSetDepthBoundsTestEnable",
               ["vkCmdSetDepthBoundsTestEnableEXT"], [word 0])
  | 8 => Some ("vkCmdSetStencilTestEnable", ["vkCmdSetStencilTestEnableEXT"],
               [word 0])
  | 9 => Some ("vkCmdSetStencilOp", ["vkCmdSetStencilOpEXT"],
               [word 0; word 1; word 2; word 3; word 4])
  | 10 => Some ("vkCmdSetRasterizerDiscardEnable",
                ["vkCmdSetRasterizerDiscardEnableEXT"], [word 0])
  | 11 => Some ("vkCmdSetDepthBiasEnable", ["vkCmdSetDepthBiasEnableEXT"],
                [word 0])
  | 12 => Some ("vkCmdSetPrimitiveRestartEnable",
                ["vkCmdSetPrimitiveRestartEnableEXT"], [word 0])
  | 13 => Some ("vkCmdSetDepthBias", [], [value 0; value 1; value 2])
  | 14 => Some ("vkCmdSetDepthBounds", [], [value 0; value 1])
  | 15 => Some ("vkCmdSetStencilCompareMask", [], [word 0; word 1])
  | 16 => Some ("vkCmdSetStencilWriteMask", [], [word 0; word 1])
  | 17 => Some ("vkCmdSetStencilReference", [], [word 0; word 1])
  | 18 => Some ("vkCmdSetLineWidth", [], [value 0])
  | 19 => Some ("vkCmdSetBlendConstants", [], float_values command)
  | _ => None
  end%string.

(** The two commands an opcode of a pair stands for, as native commands. *)
Definition bind_vertex_buffers_call (opcode : Z)
    (command : bvb_vulkan_bind_vertex_buffers_command) (buffers : list Z) :
    native_command :=
  let count := command.(bvt_binding_count) in
  let bound := [command.(bvt_first_binding); count] ++ buffers ++
               in_use count command.(bvt_offsets) in
  if opcode =? BVB_COMMAND_VULKAN_BIND_VERTEX_BUFFERS then
    ("vkCmdBindVertexBuffers"%string, [], bound)
  else
    ("vkCmdBindVertexBuffers2"%string, ["vkCmdBindVertexBuffers2EXT"%string],
     bound ++
     (if negb (command.(bvt_has_sizes) =? 0)
      then 1 :: in_use count command.(bvt_sizes) else [0]) ++
     (if negb (command.(bvt_has_strides) =? 0)
      then 1 :: in_use count command.(bvt_strides) else [0])).

Definition bind_index_buffer_call (opcode : Z)
    (command : bvb_vulkan_bind_index_buffer_command) (buffer : Z) :
    native_command :=
  if opcode =? BVB_COMMAND_VULKAN_BIND_INDEX_BUFFER then
    ("vkCmdBindIndexBuffer"%string, [],
     [buffer; command.(bix_offset); command.(bix_index_type)])
  else
    ("vkCmdBindIndexBuffer2"%string, ["vkCmdBindIndexBuffer2KHR"%string],
     [buffer; command.(bix_offset); command.(bix_size);
      command.(bix_index_type)]).

Definition draw_indirect_call (opcode : Z)
    (command : bvb_vulkan_draw_indirect_command) : native_command :=
  (if opcode =? BVB_COMMAND_VULKAN_DRAW_INDIRECT then "vkCmdDrawIndirect"%string
   else "vkCmdDrawIndexedIndirect"%string, [],
   [command.(did_offset); command.(did_draw_count); command.(did_stride)]).

Definition draw_indirect_count_call (opcode : Z)
    (command : bvb_vulkan_draw_indirect_count_command) : native_command :=
  let numbers := [command.(dic_offset); command.(dic_count_buffer_offset);
                  command.(dic_maximum_draw_count); command.(dic_stride)] in
  if opcode =? BVB_COMMAND_VULKAN_DRAW_INDIRECT_COUNT then
    ("vkCmdDrawIndirectCount"%string, ["vkCmdDrawIndirectCountKHR"%string],
     numbers)
  else
    ("vkCmdDrawIndexedIndirectCount"%string,
     ["vkCmdDrawIndexedIndirectCountKHR"%string], numbers).

(** ** One record *)

Section operations.
Context {VH : VulkanHeader} {VI : VulkanImage} {VC : VulkanCore}
  {VS : VulkanStream}.
Context (driver : list event -> vk_call -> vk_reply).

Definition record_native (device buffer : Z) (entry : native_command)
    (uses : list (Z * Z)) : M unit :=
  let '(name, aliases, args) := entry in
  record_command driver device buffer name aliases uses args.

Definition replay_query (device_id device command_buffer : Z)
    (command : bvb_vulkan_query_command) : M unit :=
  do pool := same_device_child command.(qy_query_pool_id)
               BVB_OBJECT_QUERY_POOL device_id device ;;
  match query_call command with
  | None => stop (- EPROTO)
  | Some entry =>
      record_native device command_buffer entry [(BVB_OBJECT_QUERY_POOL, pool)]
  end.

Definition replay_bind_vertex_buffers (device_id device command_buffer : Z)
    (opcode : Z) (command : bvb_vulkan_bind_vertex_buffers_command) : M unit :=
  do buffers := collect
    (fun buffer_id => optional_buffer buffer_id device_id device)
    (in_use command.(bvt_binding_count) command.(bvt_buffer_ids)) ;;
  record_native device command_buffer
    (bind_vertex_buffers_call opcode command buffers)
    ((fun buffer => (BVB_OBJECT_BUFFER, buffer)) <$> buffers).

Definition replay_update_buffer (device_id device command_buffer : Z)
    (command : bvb_vulkan_update_buffer_command) : M unit :=
  do buffer := same_device_child command.(ub_buffer_id) BVB_OBJECT_BUFFER
                 device_id device ;;
  record_command driver device command_buffer "vkCmdUpdateBuffer" []
    [(BVB_OBJECT_BUFFER, buffer)]
    (command.(ub_offset) :: command.(ub_data_size) ::
     byte_numbers (in_use command.(ub_data_size) command.(ub_data))).

Definition replay_bind_index_buffer (device_id device command_buffer : Z)
    (opcode : Z) (command : bvb_vulkan_bind_index_buffer_command) : M unit :=
  do buffer := optional_buffer command.(bix_buffer_id) device_id device ;;
  record_native device command_buffer
    (bind_index_buffer_call opcode command buffer)
    [(BVB_OBJECT_BUFFER, buffer)].

Definition replay_draw_indexed (device command_buffer : Z)
    (command : bvb_vulkan_draw_indexed_command) : M unit :=
  record_command driver device command_buffer "vkCmdDrawIndexed" [] []
    [command.(dix_index_count); command.(dix_instance_count);
     command.(dix_first_index); command.(dix_vertex_offset);
     command.(dix_first_instance)].

Definition replay_draw_indirect (device_id device command_buffer : Z)
    (opcode : Z) (command : bvb_vulkan_draw_indirect_command) : M unit :=
  do buffer := same_device_child command.(did_buffer_id) BVB_OBJECT_BUFFER
                 device_id device ;;
  record_native device command_buffer (draw_indirect_call opcode command)
    [(BVB_OBJECT_BUFFER, buffer)].

Definition replay_draw_indirect_count (device_id device command_buffer : Z)
    (opcode : Z) (command : bvb_vulkan_draw_indirect_count_command) : M unit :=
  do (buffer, count_buffer) :=
    same_device_pair command.(dic_buffer_id) BVB_OBJECT_BUFFER
      command.(dic_count_buffer_id) BVB_OBJECT_BUFFER device_id device ;;
  record_native device command_buffer (draw_indirect_count_call opcode command)
    [(BVB_OBJECT_BUFFER, buffer); (BVB_OBJECT_BUFFER, count_buffer)].

Definition replay_dynamic_state (device command_buffer : Z)
    (command : bvb_vulkan_dynamic_state_command) : M unit :=
  match dynamic_state_call command with
  | None => stop (- EPROTO)
  | Some entry => record_native device command_buffer entry []
  end.

(** *** Rendering *)

Definition optional_view (image_view_id device_id : Z) : M Z :=
  if image_view_id =? 0 then ret 0
  else descriptor_template_resolve_image_view image_view_id device_id.

(** The handles and the numbers of an attachment. *)
Definition rendering_attachment_from_command (device_id : Z)
    (command : bvb_vulkan_rendering_attachment) : M (list (Z * Z) * list Z) :=
  do view := optional_view command.(ra_image_view_id) device_id ;;
  do resolve_view :=
    optional_view command.(ra_resolve_image_view_id) device_id ;;
  ret ([(BVB_OBJECT_IMAGE_VIEW, view); (BVB_OBJECT_IMAGE_VIEW, resolve_view)],
       attachment_numbers command view resolve_view).

(** A null pointer when the command has no such attachment. *)
Definition optional_attachment (device_id has : Z)
    (command : bvb_vulkan_rendering_attachment) : M (list (Z * Z) * list Z) :=
  if has =? 0 then ret ([], [0])
  else
    do (uses, numbers) := rendering_attachment_from_command device_id command ;;
    ret (uses, 1 :: numbers).

Definition replay_begin_rendering (device_id device command_buffer : Z)
    (command : bvb_begin_rendering_command) : M unit :=
  do colors := collect (rendering_attachment_from_command device_id)
    (in_use command.(br_color_attachment_count)
       command.(br_color_attachments)) ;;
  do (depth_uses, depth) :=
    optional_attachment device_id command.(br_has_depth_attachment)
      command.(br_depth_attachment) ;;
  do (stencil_uses, stencil) :=
    optional_attachment device_id command.(br_has_stencil_attachment)
      command.(br_stencil_attachment) ;;
  record_command driver device command_buffer
    "vkCmdBeginRendering" ["vkCmdBeginRenderingKHR"%string]
    (List.concat (fst <$> colors) ++ depth_uses ++ stencil_uses)
    (rendering_numbers command (snd <$> colors) depth stencil).

Definition replay_end_rendering (device command_buffer : Z) : M unit :=
  record_command driver device command_buffer
    "vkCmdEndRendering" ["vkCmdEndRenderingKHR"%string] [] [].

(** *** Pipelines and fixed state *)

Definition replay_bind_graphics_pipeline (device_id device command_buffer : Z)
    (command : bvb_bind_graphics_pipeline_command) : M unit :=
  do pipeline := same_device_child command.(bgp_pipeline_id)
                   BVB_OBJECT_PIPELINE device_id device ;;
  record_command driver device command_buffer "vkCmdBindPipeline" []
    [(BVB_OBJECT_PIPELINE, pipeline)] [VK_PIPELINE_BIND_POINT_GRAPHICS].

Definition replay_push_constants (device_id device command_buffer : Z)
    (command : bvb_vulkan_push_constants_command) : M unit :=
  do layout := same_device_child command.(pc_pipeline_layout_id)
                 BVB_OBJECT_PIPELINE_LAYOUT device_id device ;;
  record_command driver device command_buffer "vkCmdPushConstants" []
    [(BVB_OBJECT_PIPELINE_LAYOUT, layout)]
    (command.(pc_stage_flags) :: command.(pc_offset) :: command.(pc_size) ::
     byte_numbers (in_use command.(pc_size) command.(pc_data))).

Definition replay_set_viewport (device command_buffer : Z)
    (command : bvb_set_viewport_command) : M unit :=
  record_command driver device command_buffer "vkCmdSetViewportWithCount"
    ["vkCmdSetViewportWithCountEXT"%string] []
    [1; command.(sv_x); command.(sv_y); command.(sv_width);
     command.(sv_height); command.(sv_minimum_depth);
     command.(sv_maximum_depth)].

Definition replay_set_scissor (device command_buffer : Z)
    (command : bvb_set_scissor_command) : M unit :=
  record_command driver device command_buffer "vkCmdSetScissorWithCount"
    ["vkCmdSetScissorWithCountEXT"%string] []
    [1; command.(sc_x); command.(sc_y); command.(sc_width);
     command.(sc_height)].

Definition replay_draw (device command_buffer : Z)
    (command : bvb_draw_command) : M unit :=
  record_command driver device command_buffer "vkCmdDraw" [] []
    [command.(dr_vertex_count); command.(dr_instance_count);
     command.(dr_first_vertex); command.(dr_first_instance)].

(** *** Transfers *)

Definition replay_transfer (device_id device command_buffer : Z) (opcode : Z)
    (command : bvb_vulkan_transfer_command) : M unit :=
  do (source, destination) :=
    same_device_pair
      command.(tf_source_id) (command_stream_transfer_source_type opcode)
      command.(tf_destination_id)
      (command_stream_transfer_destination_type opcode) device_id device ;;
  record_command driver device command_buffer (transfer_name opcode) []
    [(command_stream_transfer_source_type opcode, source);
     (command_stream_transfer_destination_type opcode, destination)]
    (transfer_numbers opcode command).

(** *** The function *)

Definition replay_render_command_record (command_buffer_id : Z)
    (record : bvb_command_record) : M unit :=
  do (device_id, device, _, command_buffer) :=
    resolve_command_buffer command_buffer_id ;;
  do command := of_result (decode_command record) ;;
  match command with
  | command_query command =>
      replay_query device_id device command_buffer command
  | command_image_barrier_2 command =>
      replay_command_stream_image_barrier_2 driver command_buffer_id command
  | command_bind_vertex_buffers opcode command =>
      replay_bind_vertex_buffers device_id device command_buffer opcode command
  | command_clear_depth_stencil_image command =>
      replay_command_stream_clear_depth_stencil_image driver command_buffer_id
        command
  | command_clear_attachments command =>
      replay_command_stream_clear_attachments driver command_buffer_id command
  | command_update_buffer command =>
      replay_update_buffer device_id device command_buffer command
  | command_bind_index_buffer opcode command =>
      replay_bind_index_buffer device_id device command_buffer opcode command
  | command_draw_indexed command =>
      replay_draw_indexed device command_buffer command
  | command_draw_indirect opcode command =>
      replay_draw_indirect device_id device command_buffer opcode command
  | command_draw_indirect_count opcode command =>
      replay_draw_indirect_count device_id device command_buffer opcode command
  | command_dynamic_state command =>
      replay_dynamic_state device command_buffer command
  | command_begin_rendering command =>
      replay_begin_rendering device_id device command_buffer command
  | command_end_rendering => replay_end_rendering device command_buffer
  | command_bind_graphics_pipeline command =>
      replay_bind_graphics_pipeline device_id device command_buffer command
  | command_push_constants command =>
      replay_push_constants device_id device command_buffer command
  | command_set_viewport command =>
      replay_set_viewport device command_buffer command
  | command_set_scissor command =>
      replay_set_scissor device command_buffer command
  | command_draw command => replay_draw device command_buffer command
  | command_transfer opcode command =>
      replay_transfer device_id device command_buffer opcode command
  | _ => stop (- EPROTO)
  end.
End operations.

(** ** The invariant *)

Section invariant.
Context {VH : VulkanHeader} {VI : VulkanImage} {VC : VulkanCore}
  {VS : VulkanStream}.
Context (driver : list event -> vk_call -> vk_reply).
Context {CD : ConformingDriver driver} {AP : Apart}.

Lemma wp_record_native X t w id p d cid pid buffer entry uses Q :
  At X none t w -> table_map t !! id = Some (p, d) ->
  bvb_handle_type id = BVB_OBJECT_DEVICE ->
  table_map t !! cid = Some (pid, buffer) ->
  bvb_handle_type cid = BVB_OBJECT_COMMAND_BUFFER ->
  Forall (reachable t) uses ->
  (forall r w', At X none t w' -> Q r w') ->
  wp (record_native driver d buffer entry uses) Q w.
Proof. destruct entry as [[name aliases] args]. by apply wp_record_command. Qed.

Lemma wp_optional_view X t w id did Q :
  At X none t w ->
  (forall b, reachable t (BVB_OBJECT_IMAGE_VIEW, b) -> Q (Ok b) w) ->
  (forall e, Q (Err e) w) ->
  wp (optional_view id did) Q w.
Proof.
  intros I Hok Herr. unfold optional_view. record_run;
    [apply Hok; by left|by apply Hok|done].
Qed.

Lemma wp_attachment X t w did command Q :
  At X none t w ->
  (forall uses numbers, Forall (reachable t) uses -> Q (Ok (uses, numbers)) w) ->
  (forall e, Q (Err e) w) ->
  wp (rendering_attachment_from_command did command) Q w.
Proof.
  intros I Hok Herr. unfold rendering_attachment_from_command. apply wp_do.
  eapply wp_optional_view; [done|intros view Hv|done]. cbn [then_wp]. apply wp_do.
  eapply wp_optional_view; [done|intros resolve Hr|done]. cbn [then_wp].
  apply wp_reply, Hok. by do 2 (constructor; [done|]).
Qed.

Lemma wp_optional_attachment X t w did has command Q :
  At X none t w ->
  (forall uses numbers, Forall (reachable t) uses -> Q (Ok (uses, numbers)) w) ->
  (forall e, Q (Err e) w) ->
  wp (optional_attachment did has command) Q w.
Proof.
  intros I Hok Herr. unfold optional_attachment. wp_run; [by apply Hok|].
  eapply wp_attachment; [done|intros uses numbers Hu|done]. cbn [then_wp].
  apply wp_reply. by apply Hok.
Qed.

(** A branch records its command; whatever happens the store is the same. *)
Definition records (t : bvb_handle_table) (m : M unit) : Prop :=
  forall w, At [] none t w -> wp m (fun _ w' => settled w') w.

Lemma keeps_records t m : keeps m -> records t m.
Proof. intros Hm w I. apply Hm. by exists t. Qed.

Context (t : bvb_handle_table) (device_id p device : Z)
  (command_buffer_id pool_id command_buffer : Z).
Context (Hdevice : table_map t !! device_id = Some (p, device))
  (Hdevice_type : bvb_handle_type device_id = BVB_OBJECT_DEVICE)
  (Hbuffer : table_map t !! command_buffer_id = Some (pool_id, command_buffer))
  (Hbuffer_type :
     bvb_handle_type command_buffer_id = BVB_OBJECT_COMMAND_BUFFER).

Lemma record_command_records name aliases uses args :
  Forall (reachable t) uses ->
  records t (record_command driver device command_buffer name aliases uses args).
Proof.
  intros Hu w I. eapply wp_record_command; try done.
  intros _ w' I'. by exists t.
Qed.

Lemma record_native_records entry uses :
  Forall (reachable t) uses ->
  records t (record_native driver device command_buffer entry uses).
Proof.
  destruct entry as [[name aliases] args]. apply record_command_records.
Qed.

(** Run the lookups; the command at the end is one of the two above. *)
Tactic Notation "branch" reference(f) :=
  intros w I; unfold f; record_run;
  first [apply record_native_records; [|done]|idtac];
  first [solve [by intros ? w' I'; exists t]|solve_reachable|idtac].

Lemma replay_query_records command :
  records t (replay_query driver device_id device command_buffer command).
Proof. branch replay_query. Qed.

Lemma replay_bind_vertex_buffers_records opcode command :
  records t (replay_bind_vertex_buffers driver device_id device command_buffer
               opcode command).
Proof.
  branch replay_bind_vertex_buffers.
  eapply (wp_collect_reachable t BVB_OBJECT_BUFFER).
  - intros id Q Hok Herr. eapply wp_optional_buffer; done.
  - intros buffers Hb. cbn [then_wp]. by apply record_native_records.
  - intros e. by exists t.
Qed.

Lemma replay_update_buffer_records command :
  records t (replay_update_buffer driver device_id device command_buffer command).
Proof. branch replay_update_buffer. Qed.

Lemma replay_bind_index_buffer_records opcode command :
  records t (replay_bind_index_buffer driver device_id device command_buffer
               opcode command).
Proof. branch replay_bind_index_buffer. Qed.

Lemma replay_draw_indexed_records command :
  records t (replay_draw_indexed driver device command_buffer command).
Proof. by apply record_command_records. Qed.

Lemma replay_draw_indirect_records opcode command :
  records t (replay_draw_indirect driver device_id device command_buffer opcode
               command).
Proof. branch replay_draw_indirect. Qed.

Lemma replay_draw_indirect_count_records opcode command :
  records t (replay_draw_indirect_count driver device_id device command_buffer
               opcode command).
Proof. branch replay_draw_indirect_count. Qed.

Lemma replay_dynamic_state_records command :
  records t (replay_dynamic_state driver device command_buffer command).
Proof. branch replay_dynamic_state. Qed.

Lemma replay_begin_rendering_records command :
  records t (replay_begin_rendering driver device_id device command_buffer
               command).
Proof.
  intros w I. unfold replay_begin_rendering. apply wp_do.
  eapply (wp_collect (fun y => Forall (reachable t) y.1)).
  - intros x Q Hok Herr. eapply wp_attachment; [done| |done].
    intros uses numbers Hu. by apply Hok.
  - intros colors Hc. cbn [then_wp]. apply wp_do.
    eapply wp_optional_attachment; [done| |intros e; by exists t].
    intros depth_uses depth Hd. cbn [then_wp]. apply wp_do.
    eapply wp_optional_attachment; [done| |intros e; by exists t].
    intros stencil_uses stencil Hs. cbn [then_wp].
    apply record_command_records; [|done].
    rewrite !Forall_app. split_and!; [|done|done].
    apply Forall_concat, Forall_fmap. by eapply Forall_impl.
  - intros e. by exists t.
Qed.

Lemma replay_bind_graphics_pipeline_records command :
  records t (replay_bind_graphics_pipeline driver device_id device
               command_buffer command).
Proof. branch replay_bind_graphics_pipeline. Qed.

Lemma replay_push_constants_records command :
  records t (replay_push_constants driver device_id device command_buffer
               command).
Proof. branch replay_push_constants. Qed.

Lemma replay_transfer_records opcode command :
  records t (replay_transfer driver device_id device command_buffer opcode
               command).
Proof. branch replay_transfer. Qed.
End invariant.

Create HintDb records discriminated.
#[export] Hint Resolve replay_query_records replay_bind_vertex_buffers_records
  replay_update_buffer_records replay_bind_index_buffer_records
  replay_draw_indexed_records replay_draw_indirect_records
  replay_draw_indirect_count_records replay_dynamic_state_records
  replay_begin_rendering_records replay_bind_graphics_pipeline_records
  replay_push_constants_records replay_transfer_records : records.
#[export] Hint Constants Opaque : records.

Lemma replay_render_command_record_keeps {VH : VulkanHeader}
    {VI : VulkanImage} {VC : VulkanCore} {VS : VulkanStream} driver
    {CD : ConformingDriver driver} {AP : Apart} command_buffer_id record :
  keeps (replay_render_command_record driver command_buffer_id record).
Proof.
  intros w [t I]. unfold replay_render_command_record. record_run.
  apply wp_of_result. destruct (decode_command record) as [c|e]; cbn [then_wp];
    [|by exists t].
  destruct c; try (by exists t);
    match goal with |- wp ?m _ _ =>
      enough (Hr : records t m) by (by apply Hr) end;
    eauto 2 with records nocore.
  all: first
    [ apply keeps_records;
      first [apply image_barrier_2_keeps|apply clear_depth_stencil_image_keeps
            |apply clear_attachments_keeps]
    | eapply record_command_records; first [eassumption|constructor] ].
Qed.
