(* ===== verification/StreamReplay.v ===== *)
(** * StreamReplay: validating and replaying a command stream

    [validate_command_stream], [replay_command_stream] and
    [execute_immediate_record] of src/vulkan_global.c.  A stream is a command
    batch that begins a command buffer, records into it and ends it.  The
    validator reads the whole stream against the object store before the
    first native command is recorded. *)

From stdpp Require Import strings gmap.
From S2P Require Import Prelude Wire Abi Codec Window ProtocolCommand ProtocolSync CommandTypes CommandBase CommandDispatch CommandBatch DescriptorTypes MessageImage Backend BackendInvariant BackendRules BackendSync BackendDescriptor BackendPipeline BackendCommand StreamBase StreamRecord.

#[local] Open Scope list_scope.

(** ** Objects named by a stream *)

Section objects.
Context {VC : VulkanCore}.

Definition command_stream_child_matches_device
    (child_id type expected_device_id : Z) : M unit :=
  do (child_device_id, _, _) := resolve_device_child child_id type ;;
  stop_if negb (child_device_id =? expected_device_id) with (- EPROTO) ;;
  ret tt.

Definition command_stream_descriptor_set_matches_device
    (set_id expected_device_id : Z) : M unit :=
  do (pool_id, _) := table_lookup set_id BVB_OBJECT_DESCRIPTOR_SET ;;
  do (pool_device_id, _) := table_lookup pool_id BVB_OBJECT_DESCRIPTOR_POOL ;;
  stop_if negb (pool_device_id =? expected_device_id) with (- EPROTO) ;;
  ret tt.

Definition command_stream_image_view_matches_device
    (image_view_id expected_device_id : Z) : M unit :=
  do _ := descriptor_template_resolve_image_view image_view_id
            expected_device_id ;;
  ret tt.

Definition query_pool_range_matches_device
    (query_pool_id expected_device_id first_query query_count : Z) : M unit :=
  do context := get_context ;;
  match query_pool_metadata_find context query_pool_id with
  | None => stop (- EPROTO)
  | Some metadata =>
  stop_if negb (metadata.(qm_device_id) =? expected_device_id) ||
          (query_count =? 0) ||
          query_range_exceeds first_query query_count metadata.(qm_query_count)
    with (- EPROTO) ;;
  do found := catch (table_lookup query_pool_id BVB_OBJECT_QUERY_POOL) ;;
  match found with
  | Ok (parent_id, native_bits) =>
      stop_if negb (parent_id =? expected_device_id) || (native_bits =? 0)
        with (- EPROTO) ;;
      ret tt
  | Err _ => stop (- EPROTO)
  end
  end.
End objects.

(** ** Validating one record *)

Section validate.
Context {VH : VulkanHeader} {VI : VulkanImage} {VC : VulkanCore}
  {VS : VulkanStream}.

Definition barrier_aspects : Z :=
  fold_right Z.lor 0
    [VK_IMAGE_ASPECT_COLOR_BIT; VK_IMAGE_ASPECT_DEPTH_BIT;
     VK_IMAGE_ASPECT_STENCIL_BIT; VK_IMAGE_ASPECT_METADATA_BIT;
     VK_IMAGE_ASPECT_PLANE_0_BIT; VK_IMAGE_ASPECT_PLANE_1_BIT;
     VK_IMAGE_ASPECT_PLANE_2_BIT; VK_IMAGE_ASPECT_MEMORY_PLANE_0_BIT_EXT;
     VK_IMAGE_ASPECT_MEMORY_PLANE_1_BIT_EXT;
     VK_IMAGE_ASPECT_MEMORY_PLANE_2_BIT_EXT;
     VK_IMAGE_ASPECT_MEMORY_PLANE_3_BIT_EXT].

Definition command_stream_image_barrier_range_supported
    (range : bvb_vulkan_image_subresource_range) : bool :=
  negb (range.(isr_aspect_mask) =? 0) &&
  (Z.ldiff range.(isr_aspect_mask) barrier_aspects =? 0) &&
  negb (range.(isr_level_count) =? 0) && negb (range.(isr_layer_count) =? 0).

Definition command_stream_clear_color_range_supported
    (range : bvb_vulkan_image_subresource_range) : bool :=
  command_stream_image_barrier_range_supported range &&
  (range.(isr_aspect_mask) =? VK_IMAGE_ASPECT_COLOR_BIT).

Definition supported_image_layouts : list Z :=
  [VK_IMAGE_LAYOUT_UNDEFINED; VK_IMAGE_LAYOUT_GENERAL;
   VK_IMAGE_LAYOUT_COLOR_ATTACHMENT_OPTIMAL;
   VK_IMAGE_LAYOUT_DEPTH_STENCIL_ATTACHMENT_OPTIMAL;
   VK_IMAGE_LAYOUT_DEPTH_STENCIL_READ_ONLY_OPTIMAL;
   VK_IMAGE_LAYOUT_SHADER_READ_ONLY_OPTIMAL;
   VK_IMAGE_LAYOUT_TRANSFER_SRC_OPTIMAL; VK_IMAGE_LAYOUT_TRANSFER_DST_OPTIMAL;
   VK_IMAGE_LAYOUT_PREINITIALIZED;
   VK_IMAGE_LAYOUT_DEPTH_READ_ONLY_STENCIL_ATTACHMENT_OPTIMAL;
   VK_IMAGE_LAYOUT_DEPTH_ATTACHMENT_STENCIL_READ_ONLY_OPTIMAL;
   VK_IMAGE_LAYOUT_DEPTH_ATTACHMENT_OPTIMAL;
   VK_IMAGE_LAYOUT_DEPTH_READ_ONLY_OPTIMAL;
   VK_IMAGE_LAYOUT_STENCIL_ATTACHMENT_OPTIMAL;
   VK_IMAGE_LAYOUT_STENCIL_READ_ONLY_OPTIMAL; VK_IMAGE_LAYOUT_PRESENT_SRC_KHR;
   VK_IMAGE_LAYOUT_SHARED_PRESENT_KHR; VK_IMAGE_LAYOUT_READ_ONLY_OPTIMAL;
   VK_IMAGE_LAYOUT_ATTACHMENT_OPTIMAL; VK_IMAGE_LAYOUT_RENDERING_LOCAL_READ;
   VK_IMAGE_LAYOUT_FRAGMENT_DENSITY_MAP_OPTIMAL_EXT;
   VK_IMAGE_LAYOUT_FRAGMENT_SHADING_RATE_ATTACHMENT_OPTIMAL_KHR;
   VK_IMAGE_LAYOUT_ATTACHMENT_FEEDBACK_LOOP_OPTIMAL_EXT;
   VK_IMAGE_LAYOUT_ZERO_INITIALIZED_EXT].

Definition command_stream_image_layout_supported (layout : Z) : bool :=
  bool_decide (layout ∈ supported_image_layouts).

(** The tests of an image barrier that need no lookup. *)
Definition image_barrier_supported (entry : bvb_vulkan_image_barrier_2) :
    bool :=
  command_stream_image_layout_supported entry.(imb_old_layout) &&
  command_stream_image_layout_supported entry.(imb_new_layout) &&
  negb (entry.(imb_new_layout) =? VK_IMAGE_LAYOUT_UNDEFINED) &&
  negb (entry.(imb_new_layout) =? VK_IMAGE_LAYOUT_PREINITIALIZED) &&
  command_stream_image_barrier_range_supported entry.(imb_range).

Definition validate_pipeline_barrier_record (expected_device_id : Z)
    (barrier : bvb_vulkan_image_barrier_2_command) : M unit :=
  stop_if negb (Z.ldiff barrier.(ib2_dependency_flags) 0x6f =? 0)
    with (- EPROTO) ;;
  do _ := each (fun entry =>
    stop_if entry.(bfb_size) =? 0 with (- EPROTO) ;;
    command_stream_child_matches_device entry.(bfb_buffer_id)
      BVB_OBJECT_BUFFER expected_device_id)
    (in_use barrier.(ib2_buffer_count) barrier.(ib2_buffers)) ;;
  each (fun entry =>
    stop_if negb (image_barrier_supported entry) with (- EPROTO) ;;
    command_stream_child_matches_device entry.(imb_image_id)
      BVB_OBJECT_IMAGE expected_device_id)
    (in_use barrier.(ib2_image_count) barrier.(ib2_images)).

Definition validate_transfer_command_record (expected_device_id opcode : Z)
    (command : bvb_vulkan_transfer_command) : M unit :=
  do _ := command_stream_child_matches_device command.(tf_source_id)
    (command_stream_transfer_source_type opcode) expected_device_id ;;
  command_stream_child_matches_device command.(tf_destination_id)
    (command_stream_transfer_destination_type opcode) expected_device_id.

Definition optional_view_matches (image_view_id expected_device_id : Z) :
    M unit :=
  if image_view_id =? 0 then ret tt
  else command_stream_image_view_matches_device image_view_id
         expected_device_id.

Definition validate_color_attachment (expected_device_id : Z)
    (attachment : bvb_vulkan_rendering_attachment) : M unit :=
  do _ := optional_view_matches attachment.(ra_image_view_id)
            expected_device_id ;;
  optional_view_matches attachment.(ra_resolve_image_view_id)
    expected_device_id.

(** A depth or stencil attachment, unless its pointer is null. *)
Definition validate_attachment (expected_device_id has : Z)
    (attachment : bvb_vulkan_rendering_attachment) : M unit :=
  if has =? 0 then ret tt
  else
    do _ := command_stream_image_view_matches_device
              attachment.(ra_image_view_id) expected_device_id ;;
    optional_view_matches attachment.(ra_resolve_image_view_id)
      expected_device_id.

Definition validate_begin_rendering (expected_device_id : Z)
    (command : bvb_begin_rendering_command) : M unit :=
  do _ := each (validate_color_attachment expected_device_id)
    (in_use command.(br_color_attachment_count)
       command.(br_color_attachments)) ;;
  do _ := validate_attachment expected_device_id
    command.(br_has_depth_attachment) command.(br_depth_attachment) ;;
  validate_attachment expected_device_id
    command.(br_has_stencil_attachment) command.(br_stencil_attachment).

(** The result is the new [*rendering]. *)
Definition validate_render_command_record (record : bvb_command_record)
    (expected_device_id : Z) (rendering : bool) : M bool :=
  let child id type :=
    command_stream_child_matches_device id type expected_device_id in
  let unchanged (m : M unit) : M bool := do _ := m ;; ret rendering in
  do command := of_result (decode_command record) ;;
  match command with
  | command_begin_rendering command =>
      stop_if rendering with (- EPROTO) ;;
      do _ := validate_begin_rendering expected_device_id command ;;
      ret true
  | command_end_rendering =>
      stop_if negb (record.(rec_payload_length) =? 0) || negb rendering
        with (- EPROTO) ;;
      ret false
  | command_bind_graphics_pipeline command =>
      unchanged (child command.(bgp_pipeline_id) BVB_OBJECT_PIPELINE)
  | command_push_constants command =>
      unchanged (child command.(pc_pipeline_layout_id)
                   BVB_OBJECT_PIPELINE_LAYOUT)
  | command_image_barrier_2 barrier =>
      unchanged (validate_pipeline_barrier_record expected_device_id barrier)
  | command_bind_vertex_buffers _ command =>
      unchanged (each (fun id => if id =? 0 then ret tt
                                 else child id BVB_OBJECT_BUFFER)
        (in_use command.(bvt_binding_count) command.(bvt_buffer_ids)))
  | command_bind_index_buffer _ command =>
      unchanged (if command.(bix_buffer_id) =? 0 then ret tt
                 else child command.(bix_buffer_id) BVB_OBJECT_BUFFER)
  | command_draw_indexed _ | command_draw _ =>
      stop_if negb rendering with (- EPROTO) ;;
      ret rendering
  | command_draw_indirect _ command =>
      stop_if negb rendering with (- EPROTO) ;;
      unchanged (child command.(did_buffer_id) BVB_OBJECT_BUFFER)
  | command_draw_indirect_count _ command =>
      stop_if negb rendering with (- EPROTO) ;;
      do _ := child command.(dic_buffer_id) BVB_OBJECT_BUFFER ;;
      unchanged (child command.(dic_count_buffer_id) BVB_OBJECT_BUFFER)
  | command_dynamic_state _ | command_clear_attachments _
  | command_set_viewport _ | command_set_scissor _ => ret rendering
  | command_clear_depth_stencil_image command =>
      unchanged (child command.(cds_image_id) BVB_OBJECT_IMAGE)
  | command_update_buffer command =>
      unchanged (child command.(ub_buffer_id) BVB_OBJECT_BUFFER)
  | command_query command =>
      do _ := query_pool_range_matches_device command.(qy_query_pool_id)
        expected_device_id command.(qy_first_query)
        command.(qy_query_count) ;;
      stop_if (command.(qy_kind) =? BVB_VULKAN_QUERY_COMMAND_WRITE_TIMESTAMP) &&
              (4294967295 <? command.(qy_stage_mask)) with (- EPROTO) ;;
      ret rendering
  | command_transfer opcode command =>
      unchanged (validate_transfer_command_record expected_device_id opcode
                   command)
  | _ => stop (- EPROTO)
  end.

(** ** Validating a stream *)

(** A record between the first and the last. *)
Definition validate_stream_record (record : bvb_command_record)
    (expected_device_id : Z) (rendering : bool) : M bool :=
  let child id type :=
    command_stream_child_matches_device id type expected_device_id in
  let unchanged (m : M unit) : M bool := do _ := m ;; ret rendering in
  do command := of_result (decode_command record) ;;
  match command with
  | command_fill_buffer fill =>
      unchanged (child fill.(fb_buffer_id) BVB_OBJECT_BUFFER)
  | command_image_barrier_2 barrier =>
      unchanged (validate_pipeline_barrier_record expected_device_id barrier)
  | command_clear_color_image_general clear =>
      stop_if negb (clear.(ccg_image_layout) =?
                      VK_IMAGE_LAYOUT_TRANSFER_DST_OPTIMAL) &&
              negb (clear.(ccg_image_layout) =? VK_IMAGE_LAYOUT_GENERAL)
        with (- EPROTO) ;;
      stop_if negb (forallb command_stream_clear_color_range_supported
                      (in_use clear.(ccg_range_count) clear.(ccg_ranges)))
        with (- EPROTO) ;;
      unchanged (child clear.(ccg_image_id) BVB_OBJECT_IMAGE)
  | command_vulkan_clear_color_image clear =>
      unchanged (child clear.(cci_image_id) BVB_OBJECT_IMAGE)
  | command_init_image_barrier barrier =>
      unchanged (each (fun id => child id BVB_OBJECT_IMAGE)
        (in_use barrier.(iib_image_count) barrier.(iib_image_ids)))
  | command_bind_descriptor_sets bind =>
      do _ := child bind.(bds_pipeline_layout_id) BVB_OBJECT_PIPELINE_LAYOUT ;;
      unchanged (each (fun id => command_stream_descriptor_set_matches_device
                                   id expected_device_id)
        (in_use bind.(bds_descriptor_set_count) bind.(bds_descriptor_set_ids)))
  | command_push_rotation _ | command_buffer_host_read_barrier _
  | command_vulkan_begin _ | command_vulkan_end => stop (- EPROTO)
  | _ => validate_render_command_record record expected_device_id rendering
  end.

Definition validate_record_at (count expected_device_id index : Z)
    (record : bvb_command_record) (rendering : bool) : M bool :=
  if index =? 0 then
    do command := of_result (decode_command record) ;;
    match command with
    | command_vulkan_begin _ => ret rendering
    | _ => stop (- EPROTO)
    end
  else if index + 1 =? count then
    stop_if negb ((record.(rec_opcode) =? BVB_COMMAND_VULKAN_END) &&
                  (record.(rec_payload_length) =? 0)) with (- EPROTO) ;;
    ret rendering
  else validate_stream_record record expected_device_id rendering.
End validate.

(** [for (index = 0; result == 0 && index < n; ++index)] over the records of
    a batch; a 1 of the iterator is the result of the loop. *)
Fixpoint for_records {A} (n : nat) (index : Z)
    (iterator : bvb_command_batch_iterator)
    (body : Z -> bvb_command_record -> A -> M A) (state : A) :
    M (A * bvb_command_batch_iterator) :=
  match n with
  | O => ret (state, iterator)
  | Datatypes.S n =>
      do next := of_result (bvb_command_batch_next (Some iterator)
                              (Some (mk_record 0 None 0))) ;;
      match next with
      | None => stop 1
      | Some (record, iterator) =>
          do state := body index record state ;;
          for_records n (index + 1) iterator body state
      end
  end.

Section replay.
Context {VH : VulkanHeader} {VI : VulkanImage} {VC : VulkanCore}
  {VS : VulkanStream}.
Context (driver : list event -> vk_call -> vk_reply).

Definition blank_info : bvb_command_batch_info := mk_info 0 0 0 0.

Definition bvb_vulkan_global_context_validate_command_stream
    (batch : ptr bytes) (batch_length expected_device_id : Z) : M unit :=
  stop_if negb (bool_decide (is_Some batch)) ||
          negb (expects expected_device_id BVB_OBJECT_DEVICE)
    with (- EINVAL) ;;
  do info := of_result (bvb_command_batch_validate batch batch_length
                          (Some blank_info)) ;;
  do (command_device_id, _, _, _) :=
    resolve_command_buffer info.(bi_command_buffer_id) ;;
  stop_if negb (command_device_id =? expected_device_id) with (- EPROTO) ;;
  stop_if info.(bi_command_count) <? 2 with (- EPROTO) ;;
  do iterator := of_result (bvb_command_batch_iterator_init
    (Some (mk_iterator None 0 0 0)) batch batch_length) ;;
  do (rendering, iterator) :=
    for_records (Z.to_nat info.(bi_command_count)) 0 iterator
      (validate_record_at info.(bi_command_count) expected_device_id) false ;;
  stop_if rendering with (- EPROTO) ;;
  match bvb_command_batch_next (Some iterator) (Some (mk_record 0 None 0)) with
  | Ok None => ret tt
  | _ => stop (- EPROTO)
  end.

(** ** Replaying a stream *)

Definition replay_stream_record (command_buffer_id : Z)
    (record : bvb_command_record) : M unit :=
  do command := of_result (decode_command record) ;;
  match command with
  | command_vulkan_begin begin =>
      do vulkan_result := bvb_vulkan_global_context_begin_command_buffer driver
        (mk_bvb_vulkan_command_buffer_begin_request command_buffer_id
           begin.(vb_flags)) ;;
      stop_if negb (vulkan_result =? VK_SUCCESS) with (- EIO) ;;
      ret tt
  | command_fill_buffer fill =>
      bvb_vulkan_global_context_command_buffer_fill driver
        (mk_bvb_vulkan_command_buffer_fill_request command_buffer_id
           fill.(fb_buffer_id) fill.(fb_offset) fill.(fb_size) fill.(fb_data))
  | command_image_barrier_2 barrier =>
      replay_command_stream_image_barrier_2 driver command_buffer_id barrier
  | command_clear_color_image_general clear =>
      replay_command_stream_clear_color_image_general driver command_buffer_id
        clear
  | command_vulkan_clear_color_image clear =>
      bvb_vulkan_global_context_command_buffer_clear_color_image driver
        (mk_bvb_vulkan_command_buffer_clear_color_image_request
           command_buffer_id clear.(cci_image_id))
  | command_init_image_barrier barrier =>
      bvb_vulkan_global_context_command_buffer_image_barrier driver
        (mk_bvb_vulkan_command_buffer_image_barrier_request command_buffer_id
           barrier.(iib_image_count) barrier.(iib_image_ids))
  | command_bind_descriptor_sets bind =>
      bvb_vulkan_global_context_command_buffer_bind_descriptor_sets driver
        (mk_bvb_vulkan_bind_descriptor_sets_request command_buffer_id
           bind.(bds_pipeline_layout_id) bind.(bds_pipeline_bind_point)
           bind.(bds_first_set) bind.(bds_descriptor_set_count)
           bind.(bds_dynamic_offset_count) bind.(bds_descriptor_set_ids)
           bind.(bds_dynamic_offsets))
  | command_vulkan_end =>
      do vulkan_result := bvb_vulkan_global_context_end_command_buffer driver
        command_buffer_id ;;
      stop_if negb (vulkan_result =? VK_SUCCESS) with (- EIO) ;;
      ret tt
  | command_push_rotation _ | command_buffer_host_read_barrier _ =>
      stop (- EPROTO)
  | _ => replay_render_command_record driver command_buffer_id record
  end.

Definition bvb_vulkan_global_context_replay_command_stream
    (batch : ptr bytes) (batch_length expected_device_id : Z) : M unit :=
  do _ := bvb_vulkan_global_context_validate_command_stream batch batch_length
            expected_device_id ;;
  do info := of_result (bvb_command_batch_validate batch batch_length
                          (Some blank_info)) ;;
  do iterator := of_result (bvb_command_batch_iterator_init
    (Some (mk_iterator None 0 0 0)) batch batch_length) ;;
  do _ := for_records (Z.to_nat info.(bi_command_count)) 0 iterator
    (fun _ record _ => replay_stream_record info.(bi_command_buffer_id) record)
    tt ;;
  ret tt.

(** ** One command at once *)

Definition bvb_vulkan_global_context_execute_immediate_record
    (batch : ptr bytes) (batch_length : Z) : M unit :=
  stop_if negb (bool_decide (is_Some batch)) with (- EINVAL) ;;
  do info := of_result (bvb_command_batch_validate batch batch_length
                          (Some blank_info)) ;;
  stop_if negb (info.(bi_command_count) =? 1) with (- EPROTO) ;;
  do (device_id, _, _, _) :=
    resolve_command_buffer info.(bi_command_buffer_id) ;;
  do iterator := of_result (bvb_command_batch_iterator_init
    (Some (mk_iterator None 0 0 0)) batch batch_length) ;;
  do next := of_result (bvb_command_batch_next (Some iterator)
                          (Some (mk_record 0 None 0))) ;;
  match next with
  | None => stop 1
  | Some (record, _) =>
      let rendering := negb (record.(rec_opcode) =?
                               BVB_COMMAND_BEGIN_RENDERING) in
      do _ := validate_render_command_record record device_id rendering ;;
      replay_render_command_record driver info.(bi_command_buffer_id) record
  end.
End replay.

(** ** The invariant *)

Section invariant.
Context {VH : VulkanHeader} {VI : VulkanImage} {VC : VulkanCore}
  {VS : VulkanStream}.
Context (driver : list event -> vk_call -> vk_reply).
Context {CD : ConformingDriver driver} {AP : Apart}.

(** The validator looks and changes nothing. *)
Definition looks {A} (m : M A) : Prop := forall w, (m w).2 = w.

Lemma looks_ret {A} (x : A) : looks (ret x).
Proof. done. Qed.
Lemma looks_stop {A} e : looks (stop (A := A) e).
Proof. done. Qed.
Lemma looks_of_result {A} (r : result A) : looks (of_result r).
Proof. done. Qed.
Lemma looks_context : looks get_context.
Proof. done. Qed.
Lemma looks_bind {A B} (m : M A) (k : A -> M B) :
  looks m -> (forall x, looks (k x)) -> looks (bind m k).
Proof.
  intros Hm Hk w. unfold bind. specialize (Hm w).
  destruct (m w) as [[x|e] w']; cbn in *; subst; [apply Hk|done].
Qed.
Lemma looks_catch {A} (m : M A) : looks m -> looks (catch m).
Proof.
  intros Hm w. unfold catch. specialize (Hm w). by destruct (m w) as [r w'].
Qed.
Lemma looks_lookup id type : looks (table_lookup id type).
Proof. done. Qed.
End invariant.

Create HintDb looks discriminated.
#[export] Hint Resolve looks_ret looks_stop looks_of_result looks_context
  looks_catch looks_lookup : looks.
#[export] Hint Constants Opaque : looks.

(** Run through a definition, one construct at a time. *)
Ltac look :=
  repeat first
    [ progress eauto 1 with looks nocore
    | lazymatch goal with
      | |- looks (bind _ _) => apply looks_bind; [|intros ?]
      | |- looks (catch _) => apply looks_catch
      | |- looks (if ?c then _ else _) => destruct c
      | |- looks (let '(_, _) := ?x in _) => destruct x
      | |- looks (match ?x with _ => _ end) => destruct x
      end ].

Lemma looks_each {A} (body : A -> M unit) l :
  (forall x, looks (body x)) -> looks (each body l).
Proof. intros Hb. induction l as [|x l IH]; cbn [each]; look; done. Qed.

Lemma looks_for_records {A} n (body : Z -> bvb_command_record -> A -> M A) :
  (forall i r s, looks (body i r s)) ->
  forall index iterator state, looks (for_records n index iterator body state).
Proof.
  intros Hb. induction n as [|n IH]; intros; cbn [for_records]; look; done.
Qed.

Lemma looks_child id type device_id :
  looks (command_stream_child_matches_device id type device_id).
Proof.
  unfold command_stream_child_matches_device, resolve_device_child. look.
Qed.
Lemma looks_set id device_id :
  looks (command_stream_descriptor_set_matches_device id device_id).
Proof. unfold command_stream_descriptor_set_matches_device. look. Qed.
Lemma looks_view id device_id :
  looks (command_stream_image_view_matches_device id device_id).
Proof.
  unfold command_stream_image_view_matches_device,
    descriptor_template_resolve_image_view. look.
Qed.
Lemma looks_query_range id device_id first count :
  looks (query_pool_range_matches_device id device_id first count).
Proof. unfold query_pool_range_matches_device. look. Qed.
Lemma looks_command_buffer id : looks (resolve_command_buffer id).
Proof. unfold resolve_command_buffer, resolve_command_pool. look. Qed.
#[export] Hint Resolve looks_each looks_for_records looks_child looks_set
  looks_view looks_query_range looks_command_buffer : looks.

Section validator.
Context {VH : VulkanHeader} {VI : VulkanImage} {VC : VulkanCore}
  {VS : VulkanStream}.

Lemma looks_barrier device_id barrier :
  looks (validate_pipeline_barrier_record device_id barrier).
Proof.
  unfold validate_pipeline_barrier_record. look; apply looks_each; intros; look.
Qed.
Lemma looks_transfer device_id opcode command :
  looks (validate_transfer_command_record device_id opcode command).
Proof. unfold validate_transfer_command_record. look. Qed.
Lemma looks_begin_rendering device_id command :
  looks (validate_begin_rendering device_id command).
Proof.
  unfold validate_begin_rendering, validate_attachment. look;
    try apply looks_each; intros; unfold validate_color_attachment,
    optional_view_matches; look.
Qed.
#[local] Hint Resolve looks_barrier looks_transfer looks_begin_rendering : looks.

Lemma looks_render_record record device_id rendering :
  looks (validate_render_command_record record device_id rendering).
Proof.
  unfold validate_render_command_record. look; apply looks_each; intros; look.
Qed.
#[local] Hint Resolve looks_render_record : looks.

Lemma looks_stream_record record device_id rendering :
  looks (validate_stream_record record device_id rendering).
Proof.
  unfold validate_stream_record. look; apply looks_each; intros; look.
Qed.
#[local] Hint Resolve looks_stream_record : looks.

Lemma looks_record_at count device_id index record rendering :
  looks (validate_record_at count device_id index record rendering).
Proof. unfold validate_record_at. look. Qed.
#[local] Hint Resolve looks_record_at : looks.

Lemma validate_command_stream_looks batch batch_length device_id :
  looks (bvb_vulkan_global_context_validate_command_stream batch batch_length
           device_id).
Proof.
  unfold bvb_vulkan_global_context_validate_command_stream.
  look; apply looks_for_records; intros; look.
Qed.
End validator.
#[export] Hint Resolve looks_render_record validate_command_stream_looks : looks.

Section keeps.
Context {VH : VulkanHeader} {VI : VulkanImage} {VC : VulkanCore}
  {VS : VulkanStream}.
Context (driver : list event -> vk_call -> vk_reply).
Context {CD : ConformingDriver driver} {AP : Apart}.

Lemma looks_keeps {A} (m : M A) : looks m -> keeps m.
Proof. intros Hm w Hw. unfold wp. by rewrite Hm. Qed.

Lemma keeps_bind {A B} (m : M A) (k : A -> M B) :
  keeps m -> (forall x, keeps (k x)) -> keeps (bind m k).
Proof.
  intros Hm Hk w Hw. apply wp_do. eapply wp_weaken; [by apply Hm|].
  intros [x|e] w' Hw'; cbn [then_wp]; [by apply Hk|done].
Qed.

Lemma keeps_for_records {A} n (body : Z -> bvb_command_record -> A -> M A) :
  (forall i r s, keeps (body i r s)) ->
  forall index iterator state, keeps (for_records n index iterator body state).
Proof.
  intros Hb. induction n as [|n IH]; intros; cbn [for_records].
  - by apply looks_keeps.
  - apply keeps_bind; [by apply looks_keeps|]. intros [[]|];
      [apply keeps_bind; auto|by apply looks_keeps].
Qed.

Lemma replay_stream_record_keeps id record :
  keeps (replay_stream_record driver id record).
Proof.
  apply keeps_bind; [by apply looks_keeps|]. intros c.
  destruct c; try (by apply replay_render_command_record_keeps);
    try (by apply looks_keeps).
  - by apply command_buffer_fill_keeps.
  - apply keeps_bind; [by apply begin_command_buffer_keeps|intros r].
    apply looks_keeps. look.
  - by apply command_buffer_clear_color_image_keeps.
  - by apply command_buffer_image_barrier_keeps.
  - by apply image_barrier_2_keeps.
  - by apply clear_color_image_general_keeps.
  - by apply command_buffer_bind_descriptor_sets_keeps.
  - apply keeps_bind; [by apply end_command_buffer_keeps|intros r].
    apply looks_keeps. look.
Qed.

Lemma replay_command_stream_keeps batch batch_length device_id :
  keeps (bvb_vulkan_global_context_replay_command_stream driver batch
           batch_length device_id).
Proof.
  unfold bvb_vulkan_global_context_replay_command_stream.
  apply keeps_bind; [apply looks_keeps; look|intros _].
  apply keeps_bind; [by apply looks_keeps|intros info].
  apply keeps_bind; [by apply looks_keeps|intros iterator].
  apply keeps_bind; [|by intros; apply looks_keeps].
  apply keeps_for_records. intros. by apply replay_stream_record_keeps.
Qed.

Lemma execute_immediate_record_keeps batch batch_length :
  keeps (bvb_vulkan_global_context_execute_immediate_record driver batch
           batch_length).
Proof.
  unfold bvb_vulkan_global_context_execute_immediate_record.
  destruct (negb _); [by apply looks_keeps|].
  apply keeps_bind; [by apply looks_keeps|intros info].
  destruct (negb _); [by apply looks_keeps|].
  apply keeps_bind; [apply looks_keeps; look|intros [[[device_id ?] ?] ?]].
  do 2 (apply keeps_bind; [by apply looks_keeps|intros ?]).
  destruct x0 as [[record iterator]|]; [|by apply looks_keeps].
  apply keeps_bind; [apply looks_keeps; look|intros _].
  by apply replay_render_command_record_keeps.
Qed.
End keeps.
