(* ===== verification/StreamSpec.v ===== *)
(** * StreamSpec: what a command stream is and when it is accepted

    A reference description of command streams, independent of the loops of
    src/vulkan_global.c: which objects a command names, which commands are
    allowed where, and when the store has the objects.  The validator of
    StreamReplay decides exactly this. *)

From stdpp Require Import strings gmap.
From S2P Require Import Prelude Wire Abi Codec Window CommandTypes CommandBase CommandDispatch CommandBatch CommandLayout CommandTheorems MessageImage Handle ProtocolRegistry Backend BackendRules BackendDriver BackendSync BackendPipeline BackendCommand StreamBase StreamRecord StreamReplay.

#[local] Open Scope list_scope.

(** ** The objects of a command *)

(** An object of the device; one that may be absent (identifier 0); a
    descriptor set, whose pool is the device's; a range of queries. *)
Inductive reference :=
| Child (type id : Z)
| Nullable (type id : Z)
| View (id : Z)
| DescriptorSet (id : Z)
| Queries (id first count : Z).

Definition attachment_references (a : bvb_vulkan_rendering_attachment) :
    list reference :=
  [View a.(ra_image_view_id); View a.(ra_resolve_image_view_id)].

Definition optional_references (has : Z) (a : bvb_vulkan_rendering_attachment) :
    list reference :=
  if has =? 0 then [] else attachment_references a.

Definition references (c : bvb_command) : list reference :=
  match c with
  | command_begin_rendering c =>
      List.concat (attachment_references <$>
        in_use c.(br_color_attachment_count) c.(br_color_attachments)) ++
      optional_references c.(br_has_depth_attachment) c.(br_depth_attachment) ++
      optional_references c.(br_has_stencil_attachment)
        c.(br_stencil_attachment)
  | command_bind_graphics_pipeline c =>
      [Child BVB_OBJECT_PIPELINE c.(bgp_pipeline_id)]
  | command_fill_buffer c => [Child BVB_OBJECT_BUFFER c.(fb_buffer_id)]
  | command_image_barrier_2 c =>
      ((fun entry => Child BVB_OBJECT_BUFFER entry.(bfb_buffer_id)) <$>
         in_use c.(ib2_buffer_count) c.(ib2_buffers)) ++
      ((fun entry => Child BVB_OBJECT_IMAGE entry.(imb_image_id)) <$>
         in_use c.(ib2_image_count) c.(ib2_images))
  | command_clear_color_image_general c =>
      [Child BVB_OBJECT_IMAGE c.(ccg_image_id)]
  | command_vulkan_clear_color_image c =>
      [Child BVB_OBJECT_IMAGE c.(cci_image_id)]
  | command_init_image_barrier c =>
      Child BVB_OBJECT_IMAGE <$> in_use c.(iib_image_count) c.(iib_image_ids)
  | command_bind_descriptor_sets c =>
      Child BVB_OBJECT_PIPELINE_LAYOUT c.(bds_pipeline_layout_id) ::
      (DescriptorSet <$>
         in_use c.(bds_descriptor_set_count) c.(bds_descriptor_set_ids))
  | command_push_constants c =>
      [Child BVB_OBJECT_PIPELINE_LAYOUT c.(pc_pipeline_layout_id)]
  | command_transfer opcode c =>
      [Child (command_stream_transfer_source_type opcode) c.(tf_source_id);
       Child (command_stream_transfer_destination_type opcode)
         c.(tf_destination_id)]
  | command_bind_vertex_buffers _ c =>
      Nullable BVB_OBJECT_BUFFER <$>
        in_use c.(bvt_binding_count) c.(bvt_buffer_ids)
  | command_bind_index_buffer _ c =>
      [Nullable BVB_OBJECT_BUFFER c.(bix_buffer_id)]
  | command_draw_indirect _ c => [Child BVB_OBJECT_BUFFER c.(did_buffer_id)]
  | command_draw_indirect_count _ c =>
      [Child BVB_OBJECT_BUFFER c.(dic_buffer_id);
       Child BVB_OBJECT_BUFFER c.(dic_count_buffer_id)]
  | command_clear_depth_stencil_image c =>
      [Child BVB_OBJECT_IMAGE c.(cds_image_id)]
  | command_update_buffer c => [Child BVB_OBJECT_BUFFER c.(ub_buffer_id)]
  | command_query c =>
      [Queries c.(qy_query_pool_id) c.(qy_first_query) c.(qy_query_count)]
  | _ => []
  end.

(** ** When the store has an object *)

Section store.
Context (context : bvb_vulkan_global_context) (device_id : Z).

Definition looked_up (id type : Z) : result (Z * Z) :=
  bvb_handle_table_lookup (Some context.(ctx_objects)) id type true.

Definition of_device (id type : Z) : bool :=
  match looked_up id type with
  | Ok (parent, _) => parent =? device_id
  | Err _ => false
  end.

(** Of the device through a parent of another type. *)
Definition of_device_through (id type parent_type : Z) : bool :=
  match looked_up id type with
  | Ok (parent, _) => of_device parent parent_type
  | Err _ => false
  end.

Definition queries_exist (id first count : Z) : bool :=
  match query_pool_metadata_find context id with
  | Some metadata =>
      (metadata.(qm_device_id) =? device_id) && negb (count =? 0) &&
      negb (query_range_exceeds first count metadata.(qm_query_count))
  | None => false
  end &&
  match looked_up id BVB_OBJECT_QUERY_POOL with
  | Ok (parent, bits) => (parent =? device_id) && negb (bits =? 0)
  | Err _ => false
  end.

Definition resolves (r : reference) : bool :=
  match r with
  | Child type id => of_device id type
  | Nullable type id => (id =? 0) || of_device id type
  | View id =>
      (id =? 0) || of_device_through id BVB_OBJECT_IMAGE_VIEW BVB_OBJECT_IMAGE
  | DescriptorSet id =>
      of_device_through id BVB_OBJECT_DESCRIPTOR_SET BVB_OBJECT_DESCRIPTOR_POOL
  | Queries id first count => queries_exist id first count
  end.
End store.

(** ** Where a command may stand *)

(** Whether a render pass is open after the command: [None] where the command
    is not allowed. *)
Definition rendering_after (rendering : bool) (c : bvb_command) : option bool :=
  match c with
  | command_begin_rendering _ => if rendering then None else Some true
  | command_end_rendering => if rendering then Some false else None
  | command_draw _ | command_draw_indexed _ | command_draw_indirect _ _
  | command_draw_indirect_count _ _ => if rendering then Some true else None
  | command_vulkan_begin _ | command_vulkan_end | command_push_rotation _
  | command_buffer_host_read_barrier _ => None
  | _ => Some rendering
  end.

Section supported.
Context {VH : VulkanHeader} {VI : VulkanImage} {VS : VulkanStream}.

(** What the service asks of a command beyond its encoding. *)
Definition command_supported (c : bvb_command) : bool :=
  match c with
  | command_image_barrier_2 c =>
      (Z.ldiff c.(ib2_dependency_flags) 0x6f =? 0) &&
      forallb (fun entry => negb (entry.(bfb_size) =? 0))
        (in_use c.(ib2_buffer_count) c.(ib2_buffers)) &&
      forallb image_barrier_supported
        (in_use c.(ib2_image_count) c.(ib2_images))
  | command_clear_color_image_general c =>
      ((c.(ccg_image_layout) =? VK_IMAGE_LAYOUT_TRANSFER_DST_OPTIMAL) ||
       (c.(ccg_image_layout) =? VK_IMAGE_LAYOUT_GENERAL)) &&
      forallb command_stream_clear_color_range_supported
        (in_use c.(ccg_range_count) c.(ccg_ranges))
  | command_query c =>
      negb ((c.(qy_kind) =? BVB_VULKAN_QUERY_COMMAND_WRITE_TIMESTAMP) &&
            (4294967295 <? c.(qy_stage_mask)))
  | _ => true
  end.

Section stream.
Context (context : bvb_vulkan_global_context) (device_id : Z).

Definition command_valid (c : bvb_command) : bool :=
  command_supported c && forallb (resolves context device_id) (references c).

(** The commands between the first and the last. *)
Fixpoint body_accepted (rendering : bool) (cs : list bvb_command) : bool :=
  match cs with
  | [] => negb rendering
  | c :: cs =>
      command_valid c &&
      match rendering_after rendering c with
      | Some rendering => body_accepted rendering cs
      | None => false
      end
  end.

(** A stream begins the command buffer, records its body and ends it. *)
Definition stream_accepted (cs : list bvb_command) : Prop :=
  exists begin body, cs = command_vulkan_begin begin :: body ++ [command_vulkan_end] /\
    body_accepted false body = true.
End stream.
End supported.

(** ** The validator decides it *)

(** Run in [w], [m] changes nothing and returns [o], or fails. *)
Definition yields {A} (w : world) (m : M A) (o : option A) : Prop :=
  match o with
  | Some x => m w = (Ok x, w)
  | None => exists e, m w = (Err e, w)
  end.

Definition checks (w : world) (m : M unit) (b : bool) : Prop :=
  yields w m (if b then Some tt else None).

Lemma yields_ret {A} w (x : A) : yields w (ret x) (Some x).
Proof. done. Qed.

Lemma yields_bind {A B} w (m : M A) (k : A -> M B) o f :
  yields w m o -> (forall x, o = Some x -> yields w (k x) (f x)) ->
  yields w (bind m k) (o ≫= f).
Proof.
  destruct o as [x|]; cbn.
  - intros Hm Hk. specialize (Hk x eq_refl). unfold yields, bind in *.
    rewrite Hm. by destruct (f x).
  - intros [e Hm] _. exists e. unfold bind. by rewrite Hm.
Qed.

Lemma yields_of_result {A} w (r : result A) :
  yields w (of_result r) (match r with Ok x => Some x | Err _ => None end).
Proof. destruct r; cbn; eauto. Qed.

Lemma checks_bind w m k b b' :
  checks w m b -> (b = true -> checks w (k tt) b') ->
  checks w (bind m k) (b && b').
Proof.
  intros Hm Hk. destruct b.
  - unfold checks, yields, bind in *. rewrite Hm. specialize (Hk eq_refl).
    by destruct b'.
  - destruct Hm as [e He]. exists e. unfold bind. by rewrite He.
Qed.

Lemma checks_stop w (c : bool) e m b :
  checks w m b -> checks w (if c then stop e else m) (negb c && b).
Proof. intros Hm. destruct c; [by exists e|done]. Qed.

Lemma checks_require w (c : bool) e m b :
  checks w m b -> checks w (if negb c then stop e else m) (c && b).
Proof. intros Hm. destruct c; [done|by exists e]. Qed.

Lemma checks_each {A} w (body : A -> M unit) p l :
  (forall x, checks w (body x) (p x)) -> checks w (each body l) (forallb p l).
Proof.
  intros Hb. induction l as [|x l IH]; [done|]. cbn [each forallb].
  by apply checks_bind.
Qed.

Lemma forallb_fmap {A B} (f : A -> B) p l :
  forallb p (f <$> l) = forallb (fun x => p (f x)) l.
Proof. induction l as [|x l IH]; [done|]. cbn. by rewrite IH. Qed.

Lemma forallb_concat {A} p (l : list (list A)) :
  forallb p (List.concat l) = forallb (forallb p) l.
Proof. induction l as [|x l IH]; [done|]. cbn. by rewrite forallb_app, IH. Qed.

Lemma forallb_and {A} (p q : A -> bool) l :
  forallb (fun x => p x && q x) l = forallb p l && forallb q l.
Proof.
  induction l as [|x l IH]; [done|]. cbn. rewrite IH.
  destruct (p x), (q x), (forallb p l); done.
Qed.

Section validator.
Context {VH : VulkanHeader} {VI : VulkanImage} {VC : VulkanCore}
  {VS : VulkanStream}.
Context (w : world) (device_id : Z).
Context (Hdevice : is_ok (looked_up w.(w_context) device_id BVB_OBJECT_DEVICE) = true).

Abbreviation context := w.(w_context).

Lemma table_lookup_is id type :
  table_lookup id type w = (looked_up context id type, w).
Proof. done. Qed.

Lemma checks_child id type :
  checks w (command_stream_child_matches_device id type device_id)
    (of_device context device_id id type).
Proof.
  unfold of_device, command_stream_child_matches_device, resolve_device_child.
  unfold checks, yields, bind. rewrite table_lookup_is.
  destruct (looked_up context id type) as [[parent bits]|e]; [|by exists e].
  rewrite table_lookup_is. destruct (Z.eqb_spec parent device_id) as [->|Hne].
  - destruct (looked_up context device_id BVB_OBJECT_DEVICE) as [[? ?]|]; [|done].
    cbn. by rewrite Z.eqb_refl.
  - destruct (looked_up context parent BVB_OBJECT_DEVICE) as [[? ?]|e]; cbn.
    + apply Z.eqb_neq in Hne. rewrite Hne. by eexists.
    + by exists e.
Qed.

Lemma checks_set id :
  checks w (command_stream_descriptor_set_matches_device id device_id)
    (resolves context device_id (DescriptorSet id)).
Proof.
  cbn. unfold of_device_through, of_device,
    command_stream_descriptor_set_matches_device, checks, yields, bind.
  rewrite table_lookup_is.
  destruct (looked_up context id _) as [[parent bits]|e]; [|by exists e].
  rewrite table_lookup_is.
  destruct (looked_up context parent _) as [[parent' bits']|e]; [|by exists e].
  destruct (parent' =? device_id); cbn; [done|by eexists].
Qed.

Lemma checks_view id :
  checks w (command_stream_image_view_matches_device id device_id)
    (resolves context device_id (View id)).
Proof.
  cbn. unfold of_device_through, of_device,
    command_stream_image_view_matches_device,
    descriptor_template_resolve_image_view, checks, yields, bind.
  destruct (id =? 0); [done|]. rewrite table_lookup_is. cbn [orb].
  destruct (looked_up context id _) as [[parent bits]|e]; [|by exists e].
  rewrite table_lookup_is.
  destruct (looked_up context parent _) as [[parent' bits']|e]; [|by exists e].
  destruct (parent' =? device_id); cbn; [done|by eexists].
Qed.

Lemma checks_queries id first count :
  checks w (query_pool_range_matches_device id device_id first count)
    (resolves context device_id (Queries id first count)).
Proof.
  cbn. unfold queries_exist, query_pool_range_matches_device, checks, yields,
    bind, get_context, catch.
  destruct (query_pool_metadata_find context id) as [metadata|]; [|by eexists].
  destruct (qm_device_id metadata =? device_id); [|by eexists].
  destruct (count =? 0); [by eexists|].
  destruct (query_range_exceeds _ _ _); [by eexists|]. cbn [negb orb andb].
  rewrite table_lookup_is.
  destruct (looked_up context id _) as [[parent bits]|e]; cbn; [|by eexists].
  destruct (parent =? device_id); [|by eexists].
  destruct (bits =? 0); [by eexists|done].
Qed.

Lemma yields_checked {A} m b (x : A) :
  checks w m b -> yields w (do _ := m ;; ret x) (if b then Some x else None).
Proof.
  intros Hm. destruct b.
  - unfold checks, yields, bind in *. by rewrite Hm.
  - destruct Hm as [e He]. exists e. unfold bind. by rewrite He.
Qed.

Lemma yields_checked_2 {A} m m' b b' (x : A) :
  checks w m b -> checks w m' b' ->
  yields w (do _ := m ;; do _ := m' ;; ret x) (if b && b' then Some x else None).
Proof.
  intros Hm Hm'. destruct b.
  - pose proof (yields_checked m' b' x Hm') as Hx. cbn [andb].
    unfold checks, yields in *. unfold bind at 1. rewrite Hm.
    unfold bind at 2. by rewrite Hm.
  - destruct Hm as [e He]. exists e. unfold bind at 1. by rewrite He.
Qed.

Lemma checks_of_device type id :
  checks w (command_stream_child_matches_device id type device_id)
    (resolves context device_id (Child type id)).
Proof. apply checks_child. Qed.

Lemma checks_nullable type id :
  checks w (if id =? 0 then ret tt
            else command_stream_child_matches_device id type device_id)
    (resolves context device_id (Nullable type id)).
Proof. cbn. destruct (id =? 0); [done|apply checks_child]. Qed.

Lemma checks_optional_view id :
  checks w (optional_view_matches id device_id)
    (resolves context device_id (View id)).
Proof.
  unfold optional_view_matches. destruct (id =? 0) eqn:E; [|apply checks_view].
  cbn. by rewrite E.
Qed.

Lemma checks_references p l :
  (forall x, checks w (p x) (resolves context device_id x)) ->
  checks w (each p l) (forallb (resolves context device_id) l).
Proof. apply checks_each. Qed.

(** A loop over objects of one kind. *)
Lemma checks_each_reference {A} (body : A -> M unit) (ref : A -> reference) l :
  (forall x, checks w (body x) (resolves context device_id (ref x))) ->
  checks w (each body l) (forallb (resolves context device_id) (ref <$> l)).
Proof. intros Hb. rewrite forallb_fmap. by apply checks_each. Qed.

Lemma checks_barrier barrier :
  checks w (validate_pipeline_barrier_record device_id barrier)
    (command_valid context device_id (command_image_barrier_2 barrier)).
Proof.
  unfold command_valid. cbn [command_supported references].
  rewrite forallb_app, !forallb_fmap.
  match goal with |- checks _ _ ((?flags && ?sizes && ?images) && (?b && ?i)) =>
    replace ((flags && sizes && images) && (b && i))
      with (flags && ((sizes && b) && (images && i)))
      by (destruct flags, sizes, images, b, i; done)
  end.
  rewrite <- !forallb_and.
  apply checks_require, checks_bind; [|intros _]; apply checks_each; intros entry;
    [apply checks_stop|apply checks_require]; apply checks_child.
Qed.

Lemma checks_attachment has a :
  checks w (validate_attachment device_id has a)
    (forallb (resolves context device_id) (optional_references has a)).
Proof.
  unfold validate_attachment, optional_references. destruct (has =? 0); [done|].
  cbn [attachment_references forallb]. rewrite andb_true_r.
  apply checks_bind; [apply checks_view|intros _; apply checks_optional_view].
Qed.

Lemma checks_begin_rendering c :
  checks w (validate_begin_rendering device_id c)
    (forallb (resolves context device_id)
       (references (command_begin_rendering c))).
Proof.
  cbn [references]. rewrite !forallb_app, forallb_concat, forallb_fmap.
  apply checks_bind; [|intros _; apply checks_bind; [|intros _]].
  - apply checks_each. intros a. cbn [attachment_references forallb].
    rewrite andb_true_r.
    apply checks_bind; [|intros _]; apply checks_optional_view.
  - apply checks_attachment.
  - apply checks_attachment.
Qed.

(** A record of [c], as the iterator yields it. *)
Definition record_of_command (record : bvb_command_record) (c : bvb_command) :
    Prop :=
  decode_command record = Ok c /\
  record.(rec_opcode) = command_opcode c /\
  record.(rec_payload_length) = command_length c.

Definition judged (rendering : bool) (c : bvb_command) : option bool :=
  if command_valid context device_id c then rendering_after rendering c else None.

(** The commands [validate_render_command_record] knows. *)
Definition is_render_command (c : bvb_command) : bool :=
  match c with
  | command_fill_buffer _ | command_clear_color_image_general _
  | command_vulkan_clear_color_image _ | command_init_image_barrier _
  | command_bind_descriptor_sets _ | command_push_rotation _
  | command_buffer_host_read_barrier _ | command_vulkan_begin _
  | command_vulkan_end => false
  | _ => true
  end.

Lemma yields_require {A} (c : bool) e (m : M A) o :
  (c = true -> yields w m o) ->
  yields w (if negb c then stop e else m) (if c then o else None).
Proof. intros Hm. destruct c; [by apply Hm|by exists e]. Qed.

Lemma yields_none {A} e (m : M A) : m = stop e -> yields w m None.
Proof. intros ->. by exists e. Qed.

Lemma if_none {A} (b : bool) : (if b then None else None) = @None A.
Proof. by destruct b. Qed.

(** The lookups of a command, in its order. *)
Ltac checked :=
  apply yields_checked; cbn [command_supported references forallb andb];
  rewrite ?andb_true_r;
  first
    [ apply checks_child | apply checks_nullable | apply checks_barrier
    | apply checks_each_reference; intros;
      first [apply checks_child|apply checks_nullable|apply checks_set]
    | apply checks_bind; [apply checks_child|intros _; apply checks_child] ].

Lemma query_yields r (rendering : bool) :
  yields w (do _ := query_pool_range_matches_device r.(qy_query_pool_id)
              device_id r.(qy_first_query) r.(qy_query_count) ;;
            stop_if (r.(qy_kind) =? BVB_VULKAN_QUERY_COMMAND_WRITE_TIMESTAMP) &&
                    (4294967295 <? r.(qy_stage_mask)) with (- EPROTO) ;;
            ret rendering)
    (if command_valid context device_id (command_query r)
     then Some rendering else None).
Proof.
  unfold command_valid. cbn [command_supported references forallb].
  rewrite andb_true_r.
  pose proof (checks_queries r.(qy_query_pool_id)
    r.(qy_first_query) r.(qy_query_count)) as Hq.
  destruct (resolves _ _ _).
  - rewrite andb_true_r. unfold checks, yields, bind in *. rewrite Hq.
    destruct (_ && _); [by eexists|done].
  - rewrite andb_false_r. destruct Hq as [e He]. exists e. unfold bind. by rewrite He.
Qed.

Lemma validate_render_yields record c rendering :
  record_of_command record c -> is_render_command c = true ->
  yields w (validate_render_command_record record device_id rendering)
    (judged rendering c).
Proof.
  intros (Hd & _ & Hl) Hc. unfold validate_render_command_record, judged.
  rewrite Hd. change (bind (of_result (Ok c)) ?k) with (k c).
  destruct c; try discriminate Hc; cbn [rendering_after];
    try apply query_yields; unfold command_valid;
    try (destruct rendering; rewrite ?if_none; [|by eexists]); try done;
    try by checked.
  - destruct rendering; [destruct (_ && _); by eexists|].
    apply yields_checked, checks_begin_rendering.
  - cbn [command_supported references forallb andb]. rewrite andb_true_r.
    apply yields_checked_2; apply checks_child.
  - rewrite Hl. by destruct rendering; [|eexists].
Qed.

Lemma validate_stream_yields record c rendering :
  record_of_command record c ->
  yields w (validate_stream_record record device_id rendering)
    (judged rendering c).
Proof.
  intros Hr. unfold validate_stream_record.
  pose proof Hr as (Hd & _ & Hl).
  rewrite Hd. change (bind (of_result (Ok c)) ?k) with (k c).
  destruct c; try (by apply validate_render_yields);
    unfold judged, command_valid; cbn [rendering_after];
    rewrite ?if_none; try by eexists.
  all: try by checked.
  - cbn [command_supported references forallb].
    rewrite <- negb_orb, andb_true_r, <- andb_assoc.
    destruct (_ || _); cbn [negb andb]; [|by eexists].
    destruct (forallb _ _); cbn [negb andb]; [|by eexists].
    apply yields_checked, checks_child.
  - cbn [command_supported references forallb andb].
    apply yields_checked_2; [apply checks_child|].
    apply checks_each_reference. intros. apply checks_set.
Qed.

(** ** The body of a stream *)

(** Over the records of [cs], at positions after the first. *)
Fixpoint fold_records {A} (index : Z) (records : list bvb_command_record)
    (body : Z -> bvb_command_record -> A -> M A) (state : A) : M A :=
  match records with
  | [] => ret state
  | record :: records =>
      do state := body index record state ;;
      fold_records (index + 1) records body state
  end.

Lemma last_record record c :
  record_of_command record c ->
  (record.(rec_opcode) =? BVB_COMMAND_VULKAN_END) &&
  (record.(rec_payload_length) =? 0) = true <-> c = command_vulkan_end.
Proof.
  intros (Hd & Ho & Hl). split; [|by intros ->; rewrite Ho, Hl].
  intros [E _]%andb_true_iff. apply Z.eqb_eq in E.
  unfold decode_command in Hd. rewrite E in Hd. by injection Hd as <-.
Qed.

(** What the loop makes of the commands after the first. *)
Fixpoint tail_verdict (rendering : bool) (cs : list bvb_command) : option bool :=
  match cs with
  | [] => None
  | c :: rest =>
      match rest with
      | [] => match c with command_vulkan_end => Some rendering | _ => None end
      | _ => judged rendering c ≫= fun rendering => tail_verdict rendering rest
      end
  end.

Lemma tail_verdict_accepts cs : forall rendering,
  tail_verdict rendering cs = Some false <->
  exists body, cs = body ++ [command_vulkan_end] /\
    body_accepted context device_id rendering body = true.
Proof.
  induction cs as [|c cs IH]; intros rendering.
  - split; [done|]. by intros ([|] & ? & _).
  - destruct cs as [|c' cs].
    + split.
      * destruct c; try done. destruct rendering; [done|]. intros _. by exists [].
      * intros ([|c'' body] & Hc & Hb); [|by destruct body].
        injection Hc as ->. cbn in Hb |- *. by destruct rendering.
    + remember (c' :: cs) as rest eqn:Er. cbn [tail_verdict]. rewrite Er, <- Er.
      unfold judged. split.
      * destruct (command_valid _ _ c) eqn:Ev; [|done].
        destruct (rendering_after rendering c) as [r|] eqn:Ea; [|done]. cbn.
        intros (body & -> & Hb)%IH. exists (c :: body).
        split; [done|]. cbn. by rewrite Ev, Ea.
      * intros (body & Hc & Hb). destruct body as [|c0 body].
        { injection Hc as _ Hc. by rewrite Hc in Er. }
        injection Hc as <- Hc. cbn in Hb. apply andb_true_iff in Hb as [-> Hb].
        destruct (rendering_after rendering c) as [r|]; [|done]. cbn.
        apply IH. by exists body.
Qed.

Lemma yields_ext {A} (m m' : M A) o : m w = m' w -> yields w m' o -> yields w m o.
Proof. intros Hm. unfold yields. by rewrite Hm. Qed.

Lemma tail_yields count records cs : Forall2 record_of_command records cs ->
  cs <> [] -> forall index rendering, 0 < index ->
  index + Z.of_nat (Datatypes.length records) = count ->
  yields w (fold_records index records (validate_record_at count device_id)
              rendering) (tail_verdict rendering cs).
Proof.
  induction 1 as [|record c records cs Hr Hrs IH]; [done|].
  intros _ index rendering Hi Hcount. cbn [fold_records].
  unfold validate_record_at at 1.
  rewrite (proj2 (Z.eqb_neq index 0)) by lia.
  destruct Hrs as [|record' c' records cs Hr' Hrs].
  - cbn in Hcount. rewrite (proj2 (Z.eqb_eq (index + 1) count)) by lia.
    cbn [tail_verdict fold_records]. pose proof (last_record record c Hr) as Hl.
    destruct (_ && _).
    + by rewrite (proj1 Hl eq_refl).
    + destruct c; try by eexists. discriminate (proj2 Hl eq_refl).
  - rewrite !length_cons in Hcount.
    rewrite (proj2 (Z.eqb_neq (index + 1) count)) by lia.
    cbn [tail_verdict]. apply yields_bind.
    + by apply validate_stream_yields.
    + intros r _. apply IH; [done|lia|]. rewrite length_cons. lia.
Qed.
End validator.

(** ** Reading the records *)

Abbreviation blank_record := (mk_record 0 None 0).

(** The iterator reads the records of the commands a batch holds. *)
Lemma commands_records bs len cs : forall off stop,
  0 <= off -> stop <= len <= blen bs -> len < 2 ^ 31 ->
  commands_at bs off cs stop -> map command_norm cs = cs ->
  exists records last,
    Forall2 record_of_command records cs /\
    bvb_command_batch_next (Some last) (Some blank_record) = Ok None /\
    forall A (body : Z -> bvb_command_record -> A -> M A) index state w,
      for_records (Datatypes.length cs) index
        (mk_iterator (Some bs) len off (Z.of_nat (Datatypes.length cs)))
        body state w =
      (do state := fold_records index records body state ;; ret (state, last)) w.
Proof.
  induction cs as [|c cs IH]; intros off stop Hoff Hlen H31 H Hnorm.
  - cbn in H. subst. exists [], (mk_iterator (Some bs) len stop 0).
    split_and!; [constructor| |done]. unfold bvb_command_batch_next.
    cbn [it_bytes it_length it_offset it_remaining].
    by rewrite (proj2 (Z.ltb_ge len stop)) by lia.
  - destruct H as (p & Hc & Hp & H1 & H2 & H3 & H4 & H).
    cbn [map] in Hnorm. injection Hnorm as Hn Hnorm.
    destruct (command_length_bound c p Hc Hp) as (Hl & Hl2 & _).
    pose proof (commands_at_le _ _ _ _ H) as Hle.
    destruct (command_sound c p (bs +! (off + 8)) Hc Hp)
      as (_ & _ & _ & _ & Hd); [rewrite blen_ptr_add by lia; lia|done|].
    destruct (IH (off + 8 + command_length c) stop ltac:(lia) Hlen H31 H Hnorm)
      as (records & last & Hrs & Hlast & Hfold).
    exists (mk_record (command_opcode c) (Some (bs +! (off + 8)))
              (command_length c) :: records), last.
    split_and!; [by constructor; [rewrite Hn in Hd|]|done|].
    intros A body index state w. cbn [Datatypes.length for_records fold_records].
    unfold bvb_command_batch_next. cbn [it_length it_offset it_remaining it_bytes].
    cbv zeta. rewrite (proj2 (Z.ltb_ge len off)) by lia.
    rewrite (proj2 (Z.eqb_neq (Z.of_nat _) 0)) by lia.
    rewrite H1, H3, record_length_small by lia.
    replace (Z.of_nat (S (Datatypes.length cs)) - 1)
      with (Z.of_nat (Datatypes.length cs)) by lia.
    replace (off + (8 + command_length c)) with (off + 8 + command_length c) by lia.
    change (bind (of_result (Ok ?x)) ?k) with (k x). cbn beta iota.
    unfold bind. destruct (body index _ state w) as [[s|e] w']; [|done].
    rewrite Hfold. by unfold bind.
Qed.

Lemma batch_records bs len cs info :
  batch_at bs len cs info -> map command_norm cs = cs ->
  exists first records last,
    bvb_command_batch_iterator_init (Some (mk_iterator None 0 0 0)) (Some bs)
      len = Ok first /\
    Forall2 record_of_command records cs /\
    bvb_command_batch_next (Some last) (Some blank_record) = Ok None /\
    forall A (body : Z -> bvb_command_record -> A -> M A) state w,
      for_records (Z.to_nat info.(bi_command_count)) 0 first body state w =
      (do state := fold_records 0 records body state ;; ret (state, last)) w.
Proof.
  intros H Hn. pose proof H as [Hlen Hfit _ _ Hc _ _ _ Hcs].
  destruct (commands_records bs len cs 32 len) as (records & last & Hrs & Hl & Hf);
    [lia..|done|done|].
  eexists _, records, last. split_and!; [|done|done|].
  - unfold bvb_command_batch_iterator_init.
    by rewrite (validate_complete bs len cs info).
  - intros A body state w. rewrite Hc, Nat2Z.id. apply Hf.
Qed.

(** ** The theorem *)

(** The command buffer exists and its device is [device_id]. *)
Definition command_buffer_of (context : bvb_vulkan_global_context)
    (device_id command_buffer_id : Z) : bool :=
  of_device_through context device_id command_buffer_id
    BVB_OBJECT_COMMAND_BUFFER BVB_OBJECT_COMMAND_POOL &&
  is_ok (looked_up context device_id BVB_OBJECT_DEVICE).

Lemma resolve_command_buffer_cases w id :
  match (resolve_command_buffer id w).1 with
  | Ok (device_id, device, pool, buffer) =>
      command_buffer_of w.(w_context) device_id id = true /\
      exists pool_id parent,
        looked_up w.(w_context) id BVB_OBJECT_COMMAND_BUFFER =
          Ok (pool_id, buffer) /\
        looked_up w.(w_context) device_id BVB_OBJECT_DEVICE =
          Ok (parent, device)
  | Err _ => forall device_id,
      command_buffer_of w.(w_context) device_id id = false
  end /\ (resolve_command_buffer id w).2 = w.
Proof.
  unfold resolve_command_buffer, resolve_command_pool, command_buffer_of,
    of_device_through, of_device, bind.
  rewrite table_lookup_is. destruct (looked_up _ id _) as [[pool buffer]|e]; [|done].
  rewrite table_lookup_is. destruct (looked_up _ pool _) as [[did pb]|e]; [|done].
  rewrite table_lookup_is. destruct (looked_up _ did _) as [[p d]|e] eqn:E; cbn.
  - rewrite Z.eqb_refl, E. split; [|done]. split; [done|]. by eexists _, _.
  - split; [|done]. intros did'. destruct (Z.eqb_spec did did') as [->|]; [|done].
    by rewrite E.
Qed.

Section theorem.
Context {VH : VulkanHeader} {VI : VulkanImage} {VC : VulkanCore}
  {VS : VulkanStream}.

Definition stream_verdict (w : world) (device_id : Z) (cs : list bvb_command) :
    option bool :=
  match cs with
  | command_vulkan_begin _ :: cs => tail_verdict w device_id false cs
  | _ => None
  end.

Lemma stream_verdict_accepts w device_id cs :
  stream_verdict w device_id cs = Some false <->
  stream_accepted w.(w_context) device_id cs.
Proof.
  unfold stream_accepted. split.
  - destruct cs as [|[] cs]; try done. intros (body & -> & Hb)%tail_verdict_accepts.
    by eexists _, body.
  - intros (b & body & -> & Hb). apply tail_verdict_accepts. by exists body.
Qed.

(** The loop over all records of a batch. *)
Lemma stream_yields w device_id records cs :
  is_ok (looked_up w.(w_context) device_id BVB_OBJECT_DEVICE) = true ->
  Forall2 record_of_command records cs -> (2 <= Datatypes.length cs)%nat ->
  yields w (fold_records 0 records (validate_record_at
    (Z.of_nat (Datatypes.length cs)) device_id) false)
    (stream_verdict w device_id cs).
Proof.
  intros Hd Hrs Hn. pose proof (Forall2_length Hrs) as Hlen.
  destruct Hrs as [|r c records cs Hr Hrs]; [cbn in Hn; lia|].
  rewrite !length_cons in Hlen. rewrite length_cons in Hn |- *.
  cbn [fold_records]. unfold validate_record_at at 1. cbn [Z.eqb].
  destruct Hr as [Hr _]. rewrite Hr.
  change (bind (of_result (Ok c)) ?k) with (k c).
  destruct c; try by eexists.
  change (bind (ret false) ?k) with (k false).
  apply tail_yields; [done|done| |lia|lia]. intros ->. cbn in Hn. lia.
Qed.

Lemma command_buffer_of_unique c device_id device_id' id :
  command_buffer_of c device_id id = true ->
  command_buffer_of c device_id' id = true -> device_id = device_id'.
Proof.
  unfold command_buffer_of, of_device_through, of_device. intros H H'.
  destruct (looked_up c id _) as [[pool ?]|]; [|done].
  destruct (looked_up c pool _) as [[did ?]|]; [|done].
  apply andb_true_iff in H as [->%Z.eqb_eq _].
  by apply andb_true_iff in H' as [->%Z.eqb_eq _].
Qed.

Lemma accepted_length c device_id cs :
  stream_accepted c device_id cs -> (2 <= Datatypes.length cs)%nat.
Proof. intros (b & body & -> & _). rewrite length_cons, length_app. cbn. lia. Qed.

Lemma validate_batch w bs len cs info device_id :
  batch_at bs len cs info -> map command_norm cs = cs ->
  expects device_id BVB_OBJECT_DEVICE = true ->
  (bvb_vulkan_global_context_validate_command_stream (Some bs) len device_id
     w).1 = Ok tt <->
  command_buffer_of w.(w_context) device_id info.(bi_command_buffer_id) = true /\
  stream_accepted w.(w_context) device_id cs.
Proof.
  intros Hb Hn He. pose proof (batch_count _ _ _ _ Hb) as Hc.
  destruct (batch_records bs len cs info Hb Hn)
    as (first & records & last & Hfirst & Hrs & Hlast & Hloop).
  unfold bvb_vulkan_global_context_validate_command_stream.
  rewrite He, (validate_complete bs len cs info), Hfirst by done. cbn [negb].
  rewrite bool_decide_eq_true_2 by done. cbn [negb orb].
  change (bind (of_result (Ok ?x)) ?k) with (k x). cbn beta.
  pose proof (resolve_command_buffer_cases w info.(bi_command_buffer_id)) as [H Hw].
  unfold bind at 1.
  destruct (resolve_command_buffer _ w) as [[[[[did d] pb] b]|e] w']; cbn in Hw, H;
    subst w'; [|split; [done|]; by intros [Hof _]; rewrite H in Hof].
  destruct H as [Hof _]. destruct (Z.eqb_spec did device_id) as [->|Hne]; cbn [negb].
  2: { split; [done|]. intros [H _]. by destruct Hne; eapply command_buffer_of_unique. }
  rewrite Hof. destruct (Z.ltb_spec (bi_command_count info) 2).
  { split; [done|]. intros [_ H2%accepted_length]. lia. }
  change (bind (of_result (Ok ?x)) ?k) with (k x). cbn beta.
  unfold bind at 1. rewrite Hloop, Hc.
  assert (Hdev : is_ok (looked_up (w_context w) device_id BVB_OBJECT_DEVICE) = true)
    by (by apply andb_true_iff in Hof as [_ ?]).
  pose proof (stream_yields w device_id records cs Hdev Hrs ltac:(lia)) as Hy.
  rewrite <- stream_verdict_accepts. unfold bind.
  destruct (stream_verdict w device_id cs) as [r|]; cbn in Hy.
  - rewrite Hy. unfold ret. cbv beta iota. destruct r; cbv beta iota;
      [split; [done|by intros [_ [=]]]|].
    by rewrite Hlast.
  - destruct Hy as [e ->]. cbn. split; [done|by intros [_ [=]]].
Qed.

(** C16: The validator of command streams accepts exactly the streams of the
    specification: a well-formed batch for a command buffer of the device,
    that begins it, then records only commands allowed where they stand,
    whose objects all exist and belong to that device, and ends it.  It
    changes neither the store nor the driver's log. *)
Theorem validator_decides_streams w bs len device_id
    (Hlen : len <= blen bs) :
  let outcome := bvb_vulkan_global_context_validate_command_stream (Some bs)
                   len device_id w in
  outcome.2 = w /\
  (outcome.1 = Ok tt <->
   expects device_id BVB_OBJECT_DEVICE = true /\
   exists info cs,
     bvb_command_batch_validate (Some bs) len (Some blank_info) = Ok info /\
     (forall fuel, (Datatypes.length cs < fuel)%nat ->
        iterate_batch fuel bs len = Ok cs) /\
     command_buffer_of w.(w_context) device_id info.(bi_command_buffer_id) =
       true /\
     stream_accepted w.(w_context) device_id cs).
Proof.
  split; [apply validate_command_stream_looks|]. split.
  - intros Hok.
    destruct (expects device_id BVB_OBJECT_DEVICE) eqn:He.
    2: { unfold bvb_vulkan_global_context_validate_command_stream in Hok.
         by rewrite He, orb_true_r in Hok. }
    split; [done|].
    destruct (bvb_command_batch_validate (Some bs) len (Some blank_info))
      as [info|e] eqn:Hv.
    2: { unfold bvb_vulkan_global_context_validate_command_stream in Hok.
         rewrite He, Hv, bool_decide_eq_true_2 in Hok by done. discriminate Hok. }
    destruct (validate_inv bs len _ info Hlen Hv) as (cs & Hb & Hn).
    apply (validate_batch w bs len cs info device_id Hb Hn He) in Hok as [Hof Hacc].
    exists info, cs. split_and!; [done| |done|done]. intros fuel Hfuel.
    by rewrite (iterate_batch_at bs len cs info), Hn.
  - intros (He & info & cs & Hv & Hi & Hof & Hacc).
    destruct (validate_inv bs len _ info Hlen Hv) as (ds & Hb & Hn).
    apply (validate_batch w bs len ds info); [done|done|done|split; [done|]].
    assert (cs = ds) as <-; [|done].
    set (fuel := S (Datatypes.length cs + Datatypes.length ds)).
    specialize (Hi fuel ltac:(lia)).
    rewrite (iterate_batch_at bs len ds info), Hn in Hi by (done || lia).
    congruence.
Qed.
End theorem.

(** ** Witness *)

Section example.
#[local] Existing Instance vulkan_1_4.
#[local] Existing Instance vulkan_1_4_core.
#[local] Existing Instance vulkan_1_4_image.
#[local] Existing Instance vulkan_1_4_stream.

(** A store with one device, its command pool, command buffer and buffer. *)
Definition sample_device : Z := bvb_handle_id BVB_OBJECT_DEVICE 2.
Definition sample_pool : Z := bvb_handle_id BVB_OBJECT_COMMAND_POOL 3.
Definition sample_buffer : Z := bvb_handle_id BVB_OBJECT_BUFFER 4.
Definition sample_table : bvb_handle_table :=
  fold_left (fun t '(id, parent, bits) =>
      match bvb_handle_table_insert (Some t) id parent bits with
      | Ok t => t
      | Err _ => t
      end)
    [(sample_device, bvb_handle_id BVB_OBJECT_PHYSICAL_DEVICE 1, 100); (sample_pool, sample_device, 200);
     (sample_id, sample_pool, 300); (sample_buffer, sample_device, 400)]
    (mk_handle_table (Some (replicate 16 zero_entry)) 16 0).
Definition sample_world : world :=
  mk_world (mk_context true false [] sample_table (fun _ => 1)
              [] [] [] 0 [] [] [] [] []) [].

(** A stream that fills the buffer. *)
Definition sample_stream_commands : list bvb_command :=
  [command_vulkan_begin (mk_vb 1);
   command_fill_buffer (mk_fb sample_buffer 0 16 7); command_vulkan_end].
Definition sample_stream : bytes :=
  match (try b := bvb_command_batch_begin (Some sample_builder)
                    (Some (blank 96)) 96 sample_id 4 ;;
         try b := append_commands b sample_stream_commands ;;
         bvb_command_batch_finish (Some b) (Some tt)) with
  | Ok (b, len) => take (Z.to_nat len) (pointee b.(bd_bytes))
  | Err _ => []
  end.

Lemma validator_decides_streams_witness :
  exists info cs,
    bvb_command_batch_validate (Some sample_stream) (blen sample_stream)
      (Some blank_info) = Ok info /\
    (forall fuel, (Datatypes.length cs < fuel)%nat ->
       iterate_batch fuel sample_stream (blen sample_stream) = Ok cs) /\
    stream_accepted sample_world.(w_context) sample_device cs.
Proof.
  destruct (validator_decides_streams sample_world sample_stream
    (blen sample_stream) sample_device (Z.le_refl _)) as [_ [H _]].
  destruct H as (_ & info & cs & Hv & Hi & _ & Ha); [vm_compute; reflexivity|].
  exists info, cs. exact (conj Hv (conj Hi Ha)).
Defined.
End example.
