(* ===== verification/StreamTheorems.v ===== *)
(** * StreamTheorems: replaying an accepted stream

    What a stream means to the driver: the list of native commands its
    commands stand for, with the handles of the objects they name.  A stream
    the validator accepts is replayed as exactly that list, in order; nothing
    but a driver that lacks an entry point or refuses to begin or end the
    buffer can stop it, and then a prefix of the list has been recorded. *)

From stdpp Require Import strings gmap.
From S2P Require Import Prelude Wire Abi Codec Window Element ProtocolCommand ProtocolSync CommandTypes CommandBase CommandElements CommandArrays CommandFixed CommandTransfer CommandState CommandBindings CommandDispatch CommandBatch CommandLayout CommandTheorems DescriptorTypes MessageImage ProtocolRegistry Backend BackendRules BackendDriver BackendSync BackendPipeline BackendCommand StreamBase StreamRecord StreamReplay StreamSpec.

#[local] Open Scope list_scope.

(** ** The native commands of a command *)

(** The handle under which the driver knows an identifier. *)
Definition native_handle (context : bvb_vulkan_global_context) (id : Z) : Z :=
  match looked_up context id (bvb_handle_type id) with
  | Ok (_, bits) => bits
  | Err _ => 0
  end.

(** A call on the command buffer: its name, handles and numbers. *)
Definition native_call : Type := string * list (Z * Z) * list Z.

Section calls.
Context {VH : VulkanHeader} {VI : VulkanImage} {VS : VulkanStream}.
Context (handle : Z -> Z).

Definition reference_handle (r : reference) : Z * Z :=
  match r with
  | Child type id | Nullable type id => (type, handle id)
  | View id => (BVB_OBJECT_IMAGE_VIEW, handle id)
  | DescriptorSet id => (BVB_OBJECT_DESCRIPTOR_SET, handle id)
  | Queries id _ _ => (BVB_OBJECT_QUERY_POOL, handle id)
  end.

Definition attachment_calls (a : bvb_vulkan_rendering_attachment) : list Z :=
  attachment_numbers a (handle a.(ra_image_view_id))
    (handle a.(ra_resolve_image_view_id)).
Definition optional_calls (has : Z) (a : bvb_vulkan_rendering_attachment) :
    list Z :=
  if has =? 0 then [0] else 1 :: attachment_calls a.

Definition entry_of_call (call_ : native_command) : string * list Z :=
  let '(name, _, args) := call_ in (name, args).

Definition command_entries (c : bvb_command) : list (string * list Z) :=
  match c with
  | command_vulkan_begin c => [("vkBeginCommandBuffer"%string, [c.(vb_flags)])]
  | command_vulkan_end => [("vkEndCommandBuffer"%string, [])]
  | command_fill_buffer c =>
      [("vkCmdFillBuffer"%string, [c.(fb_offset); c.(fb_size); c.(fb_data)]);
       ("vkCmdPipelineBarrier"%string,
        fill_barrier_numbers (handle c.(fb_buffer_id)) c.(fb_offset)
          c.(fb_size))]
  | command_image_barrier_2 c =>
      [("vkCmdPipelineBarrier2"%string,
        dependency_numbers c
          ((fun entry => handle entry.(bfb_buffer_id)) <$>
             in_use c.(ib2_buffer_count) c.(ib2_buffers))
          ((fun entry => handle entry.(imb_image_id)) <$>
             in_use c.(ib2_image_count) c.(ib2_images)))]
  | command_clear_color_image_general c =>
      [("vkCmdClearColorImage"%string, clear_color_numbers c)]
  | command_vulkan_clear_color_image _ =>
      [("vkCmdClearColorImage"%string,
        VK_IMAGE_LAYOUT_TRANSFER_DST_OPTIMAL :: [0; 0; 0; 0] ++
        1 :: initial_color_range)]
  | command_init_image_barrier c =>
      [("vkCmdPipelineBarrier2"%string,
        c.(iib_image_count) ::
        List.concat ((fun id => init_barrier_numbers (handle id)) <$>
          in_use c.(iib_image_count) c.(iib_image_ids)))]
  | command_bind_descriptor_sets c =>
      [("vkCmdBindDescriptorSets"%string,
        bind_sets_numbers c.(bds_pipeline_bind_point) c.(bds_first_set)
          c.(bds_descriptor_set_count) c.(bds_dynamic_offset_count)
          c.(bds_dynamic_offsets))]
  | command_query c =>
      from_option (fun entry => [entry_of_call entry]) [] (query_call c)
  | command_bind_vertex_buffers opcode c =>
      [entry_of_call (bind_vertex_buffers_call opcode c
         (handle <$> in_use c.(bvt_binding_count) c.(bvt_buffer_ids)))]
  | command_bind_index_buffer opcode c =>
      [entry_of_call (bind_index_buffer_call opcode c
         (handle c.(bix_buffer_id)))]
  | command_draw_indirect opcode c =>
      [entry_of_call (draw_indirect_call opcode c)]
  | command_draw_indirect_count opcode c =>
      [entry_of_call (draw_indirect_count_call opcode c)]
  | command_dynamic_state c =>
      from_option (fun entry => [entry_of_call entry]) [] (dynamic_state_call c)
  | command_clear_depth_stencil_image c =>
      [("vkCmdClearDepthStencilImage"%string, clear_depth_stencil_numbers c)]
  | command_clear_attachments c =>
      [("vkCmdClearAttachments"%string, clear_attachments_numbers c)]
  | command_update_buffer c =>
      [("vkCmdUpdateBuffer"%string,
        c.(ub_offset) :: c.(ub_data_size) ::
        byte_numbers (in_use c.(ub_data_size) c.(ub_data)))]
  | command_draw_indexed c =>
      [("vkCmdDrawIndexed"%string,
        [c.(dix_index_count); c.(dix_instance_count); c.(dix_first_index);
         c.(dix_vertex_offset); c.(dix_first_instance)])]
  | command_draw c =>
      [("vkCmdDraw"%string,
        [c.(dr_vertex_count); c.(dr_instance_count); c.(dr_first_vertex);
         c.(dr_first_instance)])]
  | command_begin_rendering c =>
      [("vkCmdBeginRendering"%string,
        rendering_numbers c
          (attachment_calls <$>
             in_use c.(br_color_attachment_count) c.(br_color_attachments))
          (optional_calls c.(br_has_depth_attachment) c.(br_depth_attachment))
          (optional_calls c.(br_has_stencil_attachment)
             c.(br_stencil_attachment)))]
  | command_end_rendering => [("vkCmdEndRendering"%string, [])]
  | command_bind_graphics_pipeline _ =>
      [("vkCmdBindPipeline"%string, [VK_PIPELINE_BIND_POINT_GRAPHICS])]
  | command_push_constants c =>
      [("vkCmdPushConstants"%string,
        c.(pc_stage_flags) :: c.(pc_offset) :: c.(pc_size) ::
        byte_numbers (in_use c.(pc_size) c.(pc_data)))]
  | command_set_viewport c =>
      [("vkCmdSetViewportWithCount"%string,
        [1; c.(sv_x); c.(sv_y); c.(sv_width); c.(sv_height);
         c.(sv_minimum_depth); c.(sv_maximum_depth)])]
  | command_set_scissor c =>
      [("vkCmdSetScissorWithCount"%string,
        [1; c.(sc_x); c.(sc_y); c.(sc_width); c.(sc_height)])]
  | command_transfer opcode c =>
      [(transfer_name opcode, transfer_numbers opcode c)]
  | command_push_rotation _ | command_buffer_host_read_barrier _ => []
  end.

(** Each call uses the handles of all objects the command names. *)
Definition command_calls (c : bvb_command) : list native_call :=
  (fun '(name, args) =>
     (name, handles_used (reference_handle <$> references c), args)) <$>
  command_entries c.
End calls.

(** ** What a driver's log shows of a command buffer *)

Definition recorded (log : list event) : list (Z * native_call) :=
  omap (fun e : event =>
    match e.1 with
    | CommandBufferCall name buffer uses args =>
        Some (buffer, (name, uses, args))
    | _ => None
    end) log.

Lemma recorded_app l l' : recorded (l ++ l') = recorded l ++ recorded l'.
Proof. apply omap_app. Qed.

Section replay.
Context {VH : VulkanHeader} {VI : VulkanImage} {VC : VulkanCore}
  {VS : VulkanStream}.
Context (driver : list event -> vk_call -> vk_reply).

(** The driver does not have an entry point, or a call that returns a result
    failed. *)
Definition refused (e : event) : Prop :=
  match e.1 with
  | DeviceProc _ _ | NullCall => e.2.(rp_result) = 0
  | CommandBufferCall name _ _ _ =>
      (name = "vkBeginCommandBuffer"%string \/
       name = "vkEndCommandBuffer"%string) /\
      e.2.(rp_result) <> VK_SUCCESS
  | _ => False
  end.

(** The events of a replay that ended with [r]: all calls are recorded, or
    the driver refused and the first of them are. *)
Definition faithful (calls : list (Z * native_call)) (r : result unit)
    (events : list event) : Prop :=
  match r with
  | Ok _ => recorded events = calls
  | Err e => (e = - ENOSYS \/ e = - EIO) /\ Exists refused events /\
      recorded events `prefix_of` calls
  end.

(** Run in [w], [m] leaves the store alone and records the calls. *)
Definition replays_calls (calls : list (Z * native_call)) (m : M unit)
    (w : world) : Prop :=
  exists r events,
    m w = (r, mk_world w.(w_context) (w.(w_log) ++ events)) /\
    faithful calls r events.

(** All calls are into one buffer. *)
Definition replays (buffer : Z) (calls : list native_call) :
    M unit -> world -> Prop :=
  replays_calls (pair buffer <$> calls).

(** The same in every world with this store. *)
Definition replays_in (context : bvb_vulkan_global_context) (buffer : Z)
    (calls : list native_call) (m : M unit) : Prop :=
  forall w, w.(w_context) = context -> replays buffer calls m w.

Lemma replays_calls_nothing w : replays_calls [] (ret tt) w.
Proof. exists (Ok tt), []. unfold ret. rewrite app_nil_r. by destruct w. Qed.

Lemma replays_nothing context buffer : replays_in context buffer [] (ret tt).
Proof. intros w _. apply replays_calls_nothing. Qed.

Lemma replays_calls_bind calls calls' m k w :
  replays_calls calls m w ->
  (forall w', w'.(w_context) = w.(w_context) -> replays_calls calls' (k tt) w') ->
  replays_calls (calls ++ calls') (bind m k) w.
Proof.
  intros (r & events & Em & Hr) Hk. unfold replays_calls, bind. rewrite Em.
  destruct r as [[]|e].
  - destruct (Hk (mk_world (w_context w) (w_log w ++ events)) eq_refl)
      as (r & events' & Ek & Hr'). cbn in Ek. rewrite Ek, <- app_assoc.
    exists r, (events ++ events'). split; [done|]. unfold faithful in *.
    rewrite recorded_app, Hr. destruct r as [[]|e]; [by rewrite Hr'|].
    destruct Hr' as (He & Hx & Hp). split_and!; [done| |by apply prefix_app].
    apply Exists_app. by right.
  - exists (Err e), events. split; [done|]. destruct Hr as (He & Hx & Hp).
    split_and!; [done|done|by apply prefix_app_r].
Qed.

Lemma replays_bind context buffer calls calls' m k :
  replays_in context buffer calls m ->
  replays_in context buffer calls' (k tt) ->
  replays_in context buffer (calls ++ calls') (bind m k).
Proof.
  intros Hm Hk w Hw. unfold replays. rewrite fmap_app.
  apply replays_calls_bind; [by apply Hm|]. intros w' Hw'. apply Hk. congruence.
Qed.

(** A step that finds what it looks for. *)
Definition finds {A} (context : bvb_vulkan_global_context) (m : M A) (x : A) :
    Prop :=
  forall w, w.(w_context) = context -> m w = (Ok x, w).

Lemma replays_found {A} context buffer calls (m : M A) x k :
  finds context m x -> replays_in context buffer calls (k x) ->
  replays_in context buffer calls (bind m k).
Proof.
  intros Hm Hk w Hw. destruct (Hk w Hw) as (r & events & Ek & Hr).
  exists r, events. split; [|done]. unfold bind. by rewrite Hm.
Qed.

Lemma finds_bind {A B} context (m : M A) (k : A -> M B) x y :
  finds context m x -> finds context (k x) y -> finds context (bind m k) y.
Proof. intros Hm Hk w Hw. unfold bind. rewrite Hm by done. by apply Hk. Qed.

Lemma finds_ret {A} context (x : A) : finds context (ret x) x.
Proof. by intros w _. Qed.

Lemma finds_collect {A B} context (body : A -> M B) f l :
  (forall x, x ∈ l -> finds context (body x) (f x)) ->
  finds context (collect body l) (f <$> l).
Proof.
  induction l as [|x l IH]; intros Hb; [apply finds_ret|]. cbn [collect].
  eapply finds_bind; [apply Hb; by left|].
  eapply finds_bind; [apply IH; intros; apply Hb; by right|apply finds_ret].
Qed.

(** *** Entry points *)

(** A lookup of an entry point adds one event, which is a refusal exactly
    when nothing is found. *)
Lemma device_proc_case device name w :
  exists found e,
    device_proc driver device name w =
      (Ok found, mk_world w.(w_context) (w.(w_log) ++ [e])) /\
    recorded [e] = [] /\ (found = false -> refused e).
Proof.
  unfold device_proc, bind, get_context, invoke, ret. cbv beta iota zeta.
  eexists _, _. split; [reflexivity|].
  destruct (ctx_get_device_proc_addr (w_context w)); unfold refused; cbn;
    (split; [done|]); by intros ?%negb_false_iff%Z.eqb_eq.
Qed.

Lemma resolve_entry_case device names w :
  exists r events,
    resolve_entry driver device names w =
      (r, mk_world w.(w_context) (w.(w_log) ++ events)) /\
    recorded events = [] /\
    match r with
    | Ok _ => True
    | Err e => e = - ENOSYS /\ (names <> [] -> Exists refused events)
    end.
Proof.
  revert w. induction names as [|name names IH]; intros w.
  - exists (Err (- ENOSYS)), []. cbn. rewrite app_nil_r. by destruct w.
  - cbn [resolve_entry].
    destruct (device_proc_case device name w) as (found & e & Ep & Er & Hf).
    unfold bind at 1. rewrite Ep. destruct found.
    + exists (Ok tt), [e]. by rewrite Er.
    + destruct (IH (mk_world (w_context w) (w_log w ++ [e])))
        as (r & events & En & Er' & Hr). rewrite En. cbn [w_context w_log].
      exists r, (e :: events). rewrite <- app_assoc. split; [done|].
      change (e :: events) with ([e] ++ events). rewrite recorded_app, Er, Er'.
      split; [done|]. destruct r as [|e']; [done|]. destruct Hr as [-> _].
      split; [done|]. intros _. apply Exists_cons. by left; apply Hf.
Qed.

Lemma replays_record context device buffer name aliases uses args :
  replays_in context buffer [(name, handles_used uses, args)]
    (record_command driver device buffer name aliases uses args).
Proof.
  intros w _. unfold replays, replays_calls, record_command.
  destruct (resolve_entry_case device (name :: aliases) w)
    as (r & events & En & Er & Hr).
  unfold bind at 1. rewrite En. destruct r as [[]|e].
  - unfold bind, invoke, ret. cbn [w_context w_log]. eexists _, _.
    rewrite <- app_assoc. split; [reflexivity|].
    cbn [faithful]. by rewrite recorded_app, Er.
  - destruct Hr as [-> Hx]. exists (Err (- ENOSYS)), events. split; [done|].
    split_and!; [by left|by apply Hx|].
    rewrite Er. apply prefix_nil.
Qed.

Lemma replays_ext context buffer calls m m' :
  (forall w, m w = m' w) -> replays_in context buffer calls m' ->
  replays_in context buffer calls m.
Proof.
  intros Hm H w Hw. destruct (H w Hw) as (r & events & E & Hr).
  exists r, events. by rewrite Hm.
Qed.

Lemma bind_assoc {A B C} (m : M A) (k : A -> M B) (k' : B -> M C) w :
  bind (bind m k) k' w = bind m (fun x => bind (k x) k') w.
Proof. unfold bind. by destruct (m w) as [[x|e] w']. Qed.

(** A call whose result the stream checks. *)
Lemma replays_resulting context device buffer name args :
  name = "vkBeginCommandBuffer"%string \/ name = "vkEndCommandBuffer"%string ->
  replays_in context buffer [(name, [], args)]
    (do r := (do found := device_proc driver device name ;;
              stop_if negb found with (- ENOSYS) ;;
              do r := invoke driver found
                (CommandBufferCall name buffer [] args) ;;
              ret r.(rp_result)) ;;
     stop_if negb (r =? VK_SUCCESS) with (- EIO) ;;
     ret tt).
Proof.
  intros Hname w _. unfold replays, replays_calls.
  destruct (device_proc_case device name w) as (found & e & Ep & Er & Hf).
  unfold bind. rewrite Ep. destruct found; cbn [negb].
  - unfold invoke, ret. cbn [w_context w_log rp_result].
    destruct (Z.eqb_spec (rp_result (driver (w_log w ++ [e])
      (CommandBufferCall name buffer [] args))) VK_SUCCESS) as [Es|Es]; cbn [negb];
      eexists _, _; rewrite <- app_assoc; (split; [reflexivity|]).
    + cbn [faithful]. by rewrite recorded_app, Er.
    + split_and!; [by right| |].
      * apply Exists_app. right. by constructor.
      * by rewrite recorded_app, Er.
  - exists (Err (- ENOSYS)), [e]. split; [done|]. split_and!; [by left| |].
    + constructor. by apply Hf.
    + rewrite Er. apply prefix_nil.
Qed.

(** A pair of calls recorded once both entry points are found. *)
Lemma replays_pair context device buffer first first_uses first_args second
    second_uses second_args :
  replays_in context buffer
    [(first, first_uses, first_args); (second, second_uses, second_args)]
    (do found := device_proc driver device first ;;
     do found' := device_proc driver device second ;;
     stop_if negb found || negb found' with (- ENOSYS) ;;
     do _ := invoke driver found
       (CommandBufferCall first buffer first_uses first_args) ;;
     do _ := invoke driver found'
       (CommandBufferCall second buffer second_uses second_args) ;;
     ret tt).
Proof.
  intros w _. unfold replays, replays_calls.
  destruct (device_proc_case device first w) as (found & e & Ep & Er & Hf).
  unfold bind at 1. rewrite Ep.
  destruct (device_proc_case device second (mk_world (w_context w)
    (w_log w ++ [e]))) as (found' & e' & Ep' & Er' & Hf').
  unfold bind at 1. rewrite Ep'. cbn [w_context w_log].
  destruct (found && found') eqn:Eb.
  - apply andb_true_iff in Eb as [-> ->]. cbn [negb orb].
    unfold bind, invoke, ret. cbn [w_context w_log].
    eexists _, _. rewrite <- !app_assoc. split; [reflexivity|].
    cbn [faithful]. by rewrite !recorded_app, Er, Er'.
  - rewrite <- negb_andb, Eb. exists (Err (- ENOSYS)), [e; e'].
    rewrite <- app_assoc. split; [done|]. split_and!; [by left| |].
    + apply andb_false_iff in Eb as [Eb|Eb];
        [constructor|apply Exists_cons_tl; constructor]; auto.
    + change [e; e'] with ([e] ++ [e']). rewrite recorded_app, Er, Er'.
      apply prefix_nil.
Qed.

Lemma replays_native context device buffer entry uses :
  replays_in context buffer
    ((fun '(name, args) => (name, handles_used uses, args)) <$>
     [entry_of_call entry])
    (record_native driver device buffer entry uses).
Proof. destruct entry as [[name aliases] args]. apply replays_record. Qed.
End replay.

(** ** What an encoded command satisfies *)

(** The tests the recording operations make of a command once more, and the
    kinds the two switches know. *)
Definition command_guarded (c : bvb_command) : bool :=
  match c with
  | command_vulkan_begin c => outside c.(vb_flags) 1 =? 0
  | command_fill_buffer c =>
      negb ((c.(fb_size) =? 0) || negb (Z.land c.(fb_offset) 3 =? 0) ||
            negb (Z.land c.(fb_size) 3 =? 0))
  | command_init_image_barrier c =>
      negb ((c.(iib_image_count) =? 0) ||
            (BVB_COMMAND_VULKAN_MAX_INIT_IMAGE_BARRIERS <?
               c.(iib_image_count)))
  | command_bind_descriptor_sets c =>
      negb ((1 <? c.(bds_pipeline_bind_point)) ||
            (c.(bds_descriptor_set_count) =? 0) ||
            (BVB_COMMAND_VULKAN_MAX_BOUND_DESCRIPTOR_SETS <?
               c.(bds_descriptor_set_count)) ||
            (BVB_COMMAND_VULKAN_MAX_DYNAMIC_OFFSETS <?
               c.(bds_dynamic_offset_count)))
  | command_query c => bool_decide (is_Some (query_call c))
  | command_dynamic_state c => bool_decide (is_Some (dynamic_state_call c))
  | _ => true
  end.

Lemma query_kind_known c stage count flags index :
  query_rejected c.(qy_kind) stage count flags index = false ->
  is_Some (query_call c).
Proof.
  unfold query_rejected, query_call. intros H.
  repeat (case_match; try discriminate H); by eexists.
Qed.

Lemma dynamic_kind_known c n :
  dynamic_state_value_count c.(dys_kind) = Some n ->
  is_Some (dynamic_state_call c).
Proof.
  unfold dynamic_state_value_count, dynamic_state_call. intros H.
  repeat (case_match; try discriminate H); by eexists.
Qed.

Lemma dynamic_state_known c :
  encodable (command_dynamic_state c) -> is_Some (dynamic_state_call c).
Proof.
  intros [Hc [p Hp]]. pose proof (command_length_bound _ _ Hc Hp) as (Hl & _).
  destruct (command_sound _ _ p Hc Hp ltac:(lia) ltac:(by intros ? ?))
    as (_ & _ & _ & Hv & Hd).
  cbn in Hv, Hd.
  unfold bvb_command_decode_vulkan_dynamic_state in Hd. cbn in Hd.
  rewrite Z.eqb_refl in Hd. cbn in Hd.
  destruct (8 <? bvb_wire_get_u32 p 4); [done|]. injection Hd as Hk _ _.
  unfold valid_dynamic_state in Hv. rewrite Hk in Hv.
  destruct (dynamic_state_value_count (dys_kind c)) as [n|] eqn:En; [|done].
  by eapply dynamic_kind_known.
Qed.

Lemma encodable_guarded c : encodable c -> command_guarded c = true.
Proof.
  intros Henc. pose proof Henc as [Hc [p Hp]].
  destruct c; try done; cbn in Hc, Hp |- *.
  all: try (by apply bool_decide_eq_true_2, dynamic_state_known).
  all: try red_head Hp; cbv zeta in Hp; repeat (cbn [negb] in Hp; guards Hp).
  all: try (split_tests; lia).
  apply bool_decide_eq_true_2. by eapply query_kind_known.
Qed.

(** ** Each command *)

Section commands.
Context {VH : VulkanHeader} {VI : VulkanImage} {VC : VulkanCore}
  {VS : VulkanStream}.
Context (driver : list event -> vk_call -> vk_reply).
Context (context : bvb_vulkan_global_context).
Context (command_buffer_id pool_id device_id parent : Z).
Context (buffer pool device : Z).
Context (Hbuffer : looked_up context command_buffer_id
                     BVB_OBJECT_COMMAND_BUFFER = Ok (pool_id, buffer)).
Context (Hpool : looked_up context pool_id BVB_OBJECT_COMMAND_POOL =
                 Ok (device_id, pool)).
Context (Hdevice : looked_up context device_id BVB_OBJECT_DEVICE =
                   Ok (parent, device)).

Abbreviation handle := (native_handle context).

Lemma looked_up_handle id type p b :
  looked_up context id type = Ok (p, b) -> handle id = b.
Proof.
  intros H. unfold native_handle. pose proof H as H'.
  unfold looked_up, bvb_handle_table_lookup in H'.
  assert (Ht : is_ok (bvb_handle_expect id type) = true)
    by (destruct (is_ok (bvb_handle_expect id type)); [done|];
        by rewrite orb_true_r in H').
  apply handle_expect_type in Ht. by rewrite Ht, H.
Qed.

Lemma finds_command_buffer :
  finds context (resolve_command_buffer command_buffer_id)
    (device_id, device, pool, buffer).
Proof.
  intros w <-. unfold resolve_command_buffer, resolve_command_pool, bind.
  rewrite table_lookup_is, Hbuffer. rewrite table_lookup_is, Hpool.
  by rewrite table_lookup_is, Hdevice.
Qed.

Lemma finds_child type id :
  of_device context device_id id type = true ->
  finds context (same_device_child id type device_id device) (handle id).
Proof.
  unfold of_device. destruct (looked_up context id type) as [[p b]|] eqn:E; [|done].
  intros ->%Z.eqb_eq w Hw. unfold same_device_child, resolve_device_child, bind.
  rewrite table_lookup_is, Hw, E. rewrite table_lookup_is, Hw, Hdevice. cbn.
  rewrite !Z.eqb_refl. cbn. by rewrite (looked_up_handle _ _ _ _ E).
Qed.

Lemma finds_pair type id type' id' :
  of_device context device_id id type = true ->
  of_device context device_id id' type' = true ->
  finds context (same_device_pair id type id' type' device_id device)
    (handle id, handle id').
Proof.
  unfold of_device. destruct (looked_up context id type) as [[p b]|] eqn:E; [|done].
  destruct (looked_up context id' type') as [[p' b']|] eqn:E'; [|done].
  intros ->%Z.eqb_eq ->%Z.eqb_eq w Hw.
  unfold same_device_pair, resolve_device_child, bind.
  rewrite table_lookup_is, Hw, E. rewrite table_lookup_is, Hw, Hdevice.
  unfold ret at 1. cbv beta iota.
  rewrite table_lookup_is, Hw, E'. rewrite table_lookup_is, Hw, Hdevice. cbn.
  rewrite !Z.eqb_refl. cbn.
  by rewrite (looked_up_handle _ _ _ _ E), (looked_up_handle _ _ _ _ E').
Qed.

Lemma handle_0 : handle 0 = 0.
Proof.
  unfold native_handle, looked_up, bvb_handle_table_lookup.
  by rewrite orb_true_r.
Qed.

Lemma finds_nullable id :
  (id =? 0) || of_device context device_id id BVB_OBJECT_BUFFER = true ->
  finds context (optional_buffer id device_id device) (handle id).
Proof.
  unfold optional_buffer. destruct (Z.eqb_spec id 0) as [->|]; cbn [orb].
  - intros _. rewrite handle_0. apply finds_ret.
  - apply finds_child.
Qed.

Lemma finds_view id :
  resolves context device_id (View id) = true ->
  finds context (optional_view id device_id) (handle id).
Proof.
  unfold optional_view. cbn. destruct (Z.eqb_spec id 0) as [->|Hne]; cbn [orb].
  { intros _. rewrite handle_0. apply finds_ret. }
  unfold of_device_through, of_device.
  destruct (looked_up context id _) as [[p b]|] eqn:E; [|done].
  destruct (looked_up context p _) as [[p' b']|] eqn:E'; [|done].
  intros ->%Z.eqb_eq w Hw. unfold descriptor_template_resolve_image_view, bind.
  apply Z.eqb_neq in Hne. rewrite Hne, table_lookup_is, Hw, E.
  rewrite table_lookup_is, Hw, E', Z.eqb_refl. cbn.
  by rewrite (looked_up_handle _ _ _ _ E).
Qed.

Lemma finds_set id :
  resolves context device_id (DescriptorSet id) = true ->
  finds context (bound_descriptor_set device_id id) (handle id).
Proof.
  cbn. unfold of_device_through, of_device.
  destruct (looked_up context id _) as [[p b]|] eqn:E; [|done].
  destruct (looked_up context p _) as [[p' b']|] eqn:E'; [|done].
  intros ->%Z.eqb_eq w Hw. unfold bound_descriptor_set, bind.
  rewrite table_lookup_is, Hw, E.
  rewrite table_lookup_is, Hw, E', Z.eqb_refl. cbn.
  by rewrite (looked_up_handle _ _ _ _ E).
Qed.

Lemma finds_queries id first count :
  queries_exist context device_id id first count = true ->
  of_device context device_id id BVB_OBJECT_QUERY_POOL = true.
Proof.
  unfold queries_exist, of_device. intros [_ H]%andb_true_iff.
  destruct (looked_up context id _) as [[p b]|]; [|done].
  by apply andb_true_iff in H as [-> _].
Qed.

(** The list a loop over references finds. *)
Lemma finds_references {A} (body : A -> M Z) (ref : A -> reference) (id : A -> Z) l :
  (forall x, resolves context device_id (ref x) = true ->
     finds context (body x) (handle (id x))) ->
  forallb (resolves context device_id) (ref <$> l) = true ->
  finds context (collect body l) ((fun x => handle (id x)) <$> l).
Proof.
  rewrite forallb_fmap, forallb_forall. intros Hb Hl.
  apply (finds_collect context body (fun x => handle (id x))).
  intros x Hx%list_elem_of_In. by apply Hb, Hl.
Qed.

Lemma fmap_concat {A B} (f : A -> B) (l : list (list A)) :
  f <$> List.concat l = List.concat ((fun x : list A => f <$> x) <$> l).
Proof.
  induction l as [|x l IH]; [done|].
  cbn [List.concat]. rewrite fmap_app, IH. done.
Qed.

(** *** The branches *)

Abbreviation records m c :=
  (replays_in context buffer (command_calls handle c) m).
Abbreviation valid c := (command_valid context device_id c = true).

Lemma uses_of {A} (ref : A -> reference) type (id : A -> Z) (l : list A) :
  (forall x, reference_handle handle (ref x) = (type, handle (id x))) ->
  (fun bits => (type, bits)) <$> ((fun x => handle (id x)) <$> l) =
  reference_handle handle <$> (ref <$> l).
Proof.
  intros Hr. rewrite <- !list_fmap_compose. apply list_fmap_ext.
  intros i x _. symmetry. apply Hr.
Qed.

(** The references of a valid command resolve. *)
Ltac use_valid H :=
  unfold command_valid in H;
  cbn [command_supported references forallb andb resolves] in H;
  rewrite ?andb_true_r in H;
  repeat match type of H with
  | _ && _ = true =>
      let H' := fresh "Hv" in apply andb_true_iff in H as [H' H]
  end.

Lemma replay_query_replays c :
  valid (command_query c) -> command_guarded (command_query c) = true ->
  records (replay_query driver device_id device buffer c) (command_query c).
Proof.
  intros Hv [[[name aliases] args] Hk]%bool_decide_eq_true. use_valid Hv.
  unfold replay_query, command_calls. cbn [command_entries references].
  eapply replays_found; [eapply finds_child, finds_queries; eassumption|].
  rewrite Hk. apply replays_record.
Qed.

Lemma replay_dynamic_state_replays c :
  command_guarded (command_dynamic_state c) = true ->
  records (replay_dynamic_state driver device buffer c)
    (command_dynamic_state c).
Proof.
  intros [[[name aliases] args] Hk]%bool_decide_eq_true.
  unfold replay_dynamic_state, command_calls. cbn [command_entries references].
  rewrite Hk. apply replays_record.
Qed.

Lemma replay_bind_vertex_buffers_replays opcode c :
  valid (command_bind_vertex_buffers opcode c) ->
  records (replay_bind_vertex_buffers driver device_id device buffer opcode c)
    (command_bind_vertex_buffers opcode c).
Proof.
  intros Hv. use_valid Hv. unfold replay_bind_vertex_buffers, command_calls.
  cbn [command_entries references].
  eapply replays_found.
  - apply (finds_references _ (Nullable BVB_OBJECT_BUFFER) (fun id => id)); [|done].
    intros id Hid. by apply finds_nullable.
  - rewrite (uses_of (Nullable BVB_OBJECT_BUFFER) BVB_OBJECT_BUFFER (fun id => id))
      by done.
    apply replays_native.
Qed.

Lemma replay_update_buffer_replays c :
  valid (command_update_buffer c) ->
  records (replay_update_buffer driver device_id device buffer c)
    (command_update_buffer c).
Proof.
  intros Hv. use_valid Hv.
  eapply replays_found; [by apply finds_child|apply replays_record].
Qed.

Lemma replay_bind_index_buffer_replays opcode c :
  valid (command_bind_index_buffer opcode c) ->
  records (replay_bind_index_buffer driver device_id device buffer opcode c)
    (command_bind_index_buffer opcode c).
Proof.
  intros Hv. use_valid Hv. unfold command_calls. cbn [command_entries references].
  eapply replays_found; [by apply finds_nullable|apply replays_native].
Qed.

Lemma replay_draw_indirect_replays opcode c :
  valid (command_draw_indirect opcode c) ->
  records (replay_draw_indirect driver device_id device buffer opcode c)
    (command_draw_indirect opcode c).
Proof.
  intros Hv. use_valid Hv.
  eapply replays_found; [by apply finds_child|apply replays_native].
Qed.

Lemma replay_draw_indirect_count_replays opcode c :
  valid (command_draw_indirect_count opcode c) ->
  records (replay_draw_indirect_count driver device_id device buffer opcode c)
    (command_draw_indirect_count opcode c).
Proof.
  intros Hv. use_valid Hv. unfold command_calls. cbn [command_entries references].
  eapply replays_found; [by apply finds_pair|apply replays_native].
Qed.

Lemma replay_bind_graphics_pipeline_replays c :
  valid (command_bind_graphics_pipeline c) ->
  records (replay_bind_graphics_pipeline driver device_id device buffer c)
    (command_bind_graphics_pipeline c).
Proof.
  intros Hv. use_valid Hv.
  eapply replays_found; [by apply finds_child|apply replays_record].
Qed.

Lemma replay_push_constants_replays c :
  valid (command_push_constants c) ->
  records (replay_push_constants driver device_id device buffer c)
    (command_push_constants c).
Proof.
  intros Hv. use_valid Hv.
  eapply replays_found; [by apply finds_child|apply replays_record].
Qed.

Lemma replay_transfer_replays opcode c :
  valid (command_transfer opcode c) ->
  records (replay_transfer driver device_id device buffer opcode c)
    (command_transfer opcode c).
Proof.
  intros Hv. use_valid Hv.
  eapply replays_found; [by apply finds_pair|apply replays_record].
Qed.

Lemma finds_attachment a :
  forallb (resolves context device_id) (attachment_references a) = true ->
  finds context (rendering_attachment_from_command device_id a)
    (reference_handle handle <$> attachment_references a,
     attachment_calls handle a).
Proof.
  intros Hv. cbn [forallb attachment_references] in Hv.
  rewrite andb_true_r in Hv. apply andb_true_iff in Hv as [Hi Hr].
  eapply finds_bind; [by apply finds_view|].
  eapply finds_bind; [by apply finds_view|]. apply finds_ret.
Qed.

Lemma finds_optional_attachment has a :
  forallb (resolves context device_id) (optional_references has a) = true ->
  finds context (optional_attachment device_id has a)
    (reference_handle handle <$> optional_references has a,
     optional_calls handle has a).
Proof.
  unfold optional_attachment, optional_references, optional_calls.
  destruct (has =? 0); [intros _; apply finds_ret|]. intros Hv.
  eapply finds_bind; [by apply finds_attachment|]. apply finds_ret.
Qed.

Lemma replay_begin_rendering_replays c :
  valid (command_begin_rendering c) ->
  records (replay_begin_rendering driver device_id device buffer c)
    (command_begin_rendering c).
Proof.
  intros Hv. unfold command_valid in Hv. cbn [command_supported references andb] in Hv.
  rewrite !forallb_app, forallb_concat, forallb_fmap in Hv.
  apply andb_true_iff in Hv as [Hc [Hd Hs]%andb_true_iff].
  rewrite forallb_forall in Hc.
  unfold command_calls. cbn [command_entries references].
  eapply replays_found.
  { apply (finds_collect _ _ (fun a =>
      (reference_handle handle <$> attachment_references a,
       attachment_calls handle a))).
    intros a Ha%list_elem_of_In. by apply finds_attachment, Hc. }
  eapply replays_found; [by apply finds_optional_attachment|].
  eapply replays_found; [by apply finds_optional_attachment|].
  rewrite fmap_app, fmap_concat, fmap_app, <- !list_fmap_compose.
  apply replays_record.
Qed.

Lemma begin_command_buffer_replays c :
  VK_COMMAND_BUFFER_USAGE_ONE_TIME_SUBMIT_BIT = 1 ->
  command_guarded (command_vulkan_begin c) = true ->
  records
    (do vulkan_result := bvb_vulkan_global_context_begin_command_buffer driver
       (mk_bvb_vulkan_command_buffer_begin_request command_buffer_id
          c.(vb_flags)) ;;
     stop_if negb (vulkan_result =? VK_SUCCESS) with (- EIO) ;;
     ret tt) (command_vulkan_begin c).
Proof.
  intros H1 Hg. cbn in Hg.
  unfold bvb_vulkan_global_context_begin_command_buffer.
  cbn [cbb_rq_flags cbb_rq_command_buffer_id]. rewrite H1.
  unfold outside in Hg. rewrite Hg. cbn [negb].
  eapply replays_ext; [intros w; apply bind_assoc|].
  eapply replays_found; [apply finds_command_buffer|].
  apply replays_resulting. by left.
Qed.

Lemma end_command_buffer_replays :
  records
    (do vulkan_result := bvb_vulkan_global_context_end_command_buffer driver
       command_buffer_id ;;
     stop_if negb (vulkan_result =? VK_SUCCESS) with (- EIO) ;;
     ret tt) command_vulkan_end.
Proof.
  eapply replays_ext; [intros w; apply bind_assoc|].
  eapply replays_found; [apply finds_command_buffer|].
  apply replays_resulting. by right.
Qed.

Lemma command_buffer_fill_replays c :
  valid (command_fill_buffer c) ->
  command_guarded (command_fill_buffer c) = true ->
  records (bvb_vulkan_global_context_command_buffer_fill driver
    (mk_bvb_vulkan_command_buffer_fill_request command_buffer_id
       c.(fb_buffer_id) c.(fb_offset) c.(fb_size) c.(fb_data)))
    (command_fill_buffer c).
Proof.
  intros Hv Hg%negb_true_iff. use_valid Hv.
  unfold bvb_vulkan_global_context_command_buffer_fill.
  cbn [cbfill_rq_size cbfill_rq_offset cbfill_rq_command_buffer_id
       cbfill_rq_buffer_id cbfill_rq_data]. rewrite Hg.
  eapply replays_found; [apply finds_command_buffer|].
  eapply replays_found; [by apply finds_child|]. apply replays_pair.
Qed.

(** Objects of one type, each looked up. *)
Lemma finds_children {A} type (id : A -> Z) l :
  forallb (resolves context device_id) ((fun x => Child type (id x)) <$> l) = true ->
  finds context
    (collect (fun x => same_device_child (id x) type device_id device) l)
    ((fun x => handle (id x)) <$> l).
Proof. apply finds_references. intros x. apply finds_child. Qed.

Lemma command_buffer_image_barrier_replays c :
  valid (command_init_image_barrier c) ->
  command_guarded (command_init_image_barrier c) = true ->
  records (bvb_vulkan_global_context_command_buffer_image_barrier driver
    (mk_bvb_vulkan_command_buffer_image_barrier_request command_buffer_id
       c.(iib_image_count) c.(iib_image_ids))) (command_init_image_barrier c).
Proof.
  intros Hv Hg%negb_true_iff. use_valid Hv.
  unfold bvb_vulkan_global_context_command_buffer_image_barrier, command_calls.
  cbn [cbib_rq_image_count cbib_rq_image_ids cbib_rq_command_buffer_id
       command_entries references]. rewrite Hg.
  eapply replays_found; [apply finds_command_buffer|].
  eapply replays_found; [by apply (finds_children _ (fun id => id))|].
  rewrite (uses_of (Child BVB_OBJECT_IMAGE) BVB_OBJECT_IMAGE (fun id => id))
    by done.
  rewrite <- (list_fmap_compose (fun id => handle id) init_barrier_numbers).
  apply replays_record.
Qed.

Lemma image_barrier_2_replays c :
  valid (command_image_barrier_2 c) ->
  records (replay_command_stream_image_barrier_2 driver command_buffer_id c)
    (command_image_barrier_2 c).
Proof.
  intros [_ Hv]%andb_true_iff. cbn [references] in Hv. rewrite forallb_app in Hv.
  apply andb_true_iff in Hv as [Hb Hi]. unfold command_calls.
  cbn [command_entries references].
  eapply replays_found; [apply finds_command_buffer|].
  eapply replays_found; [by apply finds_children|].
  eapply replays_found; [by apply finds_children|].
  rewrite fmap_app.
  rewrite <- (uses_of (fun e => Child BVB_OBJECT_BUFFER (bfb_buffer_id e))
    BVB_OBJECT_BUFFER bfb_buffer_id) by done.
  rewrite <- (uses_of (fun e => Child BVB_OBJECT_IMAGE (imb_image_id e))
    BVB_OBJECT_IMAGE imb_image_id) by done.
  apply replays_record.
Qed.

Lemma command_buffer_clear_color_image_replays c :
  valid (command_vulkan_clear_color_image c) ->
  records (bvb_vulkan_global_context_command_buffer_clear_color_image driver
    (mk_bvb_vulkan_command_buffer_clear_color_image_request command_buffer_id
       c.(cci_image_id))) (command_vulkan_clear_color_image c).
Proof.
  intros Hv. use_valid Hv.
  eapply replays_found; [apply finds_command_buffer|].
  eapply replays_found; [by apply finds_child|apply replays_record].
Qed.

Lemma clear_color_image_general_replays c :
  valid (command_clear_color_image_general c) ->
  records (replay_command_stream_clear_color_image_general driver
    command_buffer_id c) (command_clear_color_image_general c).
Proof.
  intros Hv. use_valid Hv.
  eapply replays_found; [apply finds_command_buffer|].
  eapply replays_found; [by apply finds_child|apply replays_record].
Qed.

Lemma clear_depth_stencil_image_replays c :
  valid (command_clear_depth_stencil_image c) ->
  records (replay_command_stream_clear_depth_stencil_image driver
    command_buffer_id c) (command_clear_depth_stencil_image c).
Proof.
  intros Hv. use_valid Hv.
  eapply replays_found; [apply finds_command_buffer|].
  eapply replays_found; [by apply finds_child|apply replays_record].
Qed.

Lemma clear_attachments_replays c :
  records (replay_command_stream_clear_attachments driver command_buffer_id c)
    (command_clear_attachments c).
Proof.
  eapply replays_found; [apply finds_command_buffer|apply replays_record].
Qed.

Lemma command_buffer_bind_descriptor_sets_replays c :
  VK_PIPELINE_BIND_POINT_COMPUTE = 1 ->
  valid (command_bind_descriptor_sets c) ->
  command_guarded (command_bind_descriptor_sets c) = true ->
  records (bvb_vulkan_global_context_command_buffer_bind_descriptor_sets driver
    (mk_bvb_vulkan_bind_descriptor_sets_request command_buffer_id
       c.(bds_pipeline_layout_id) c.(bds_pipeline_bind_point)
       c.(bds_first_set) c.(bds_descriptor_set_count)
       c.(bds_dynamic_offset_count) c.(bds_descriptor_set_ids)
       c.(bds_dynamic_offsets))) (command_bind_descriptor_sets c).
Proof.
  intros H1 Hv Hg%negb_true_iff. use_valid Hv.
  unfold bvb_vulkan_global_context_command_buffer_bind_descriptor_sets,
    command_calls.
  cbn [bds_rq_command_buffer_id bds_rq_pipeline_layout_id
       bds_rq_pipeline_bind_point bds_rq_first_set bds_rq_descriptor_set_count
       bds_rq_dynamic_offset_count bds_rq_descriptor_set_ids
       bds_rq_dynamic_offsets command_entries references].
  rewrite H1, Hg.
  eapply replays_found; [apply finds_command_buffer|].
  unfold of_device in Hv0.
  destruct (looked_up context (bds_pipeline_layout_id c) _) as [[p b]|] eqn:E;
    [|done]. apply Z.eqb_eq in Hv0 as ->.
  eapply replays_found; [intros w Hw; by rewrite table_lookup_is, Hw, E|].
  cbn beta iota.
  rewrite Z.eqb_refl. cbn [negb].
  eapply replays_found.
  - apply (finds_references _ DescriptorSet (fun id => id)); [|done].
    intros id. apply finds_set.
  - rewrite (uses_of DescriptorSet BVB_OBJECT_DESCRIPTOR_SET (fun id => id))
      by done.
    rewrite <- (looked_up_handle _ _ _ _ E). apply replays_record.
Qed.

(** *** A record *)

Lemma replay_render_command_replays record c :
  decode_command record = Ok c -> is_render_command c = true ->
  valid c -> command_guarded c = true ->
  records (replay_render_command_record driver command_buffer_id record) c.
Proof.
  intros Hd Hc Hv Hg. unfold replay_render_command_record.
  eapply replays_found; [apply finds_command_buffer|]. rewrite Hd.
  apply (replays_found _ _ _ (of_result (Ok c)) c); [apply finds_ret|].
  destruct c; try discriminate Hc; try apply replays_record.
  - by apply replay_begin_rendering_replays.
  - by apply replay_bind_graphics_pipeline_replays.
  - by apply image_barrier_2_replays.
  - by apply replay_push_constants_replays.
  - by apply replay_transfer_replays.
  - by apply replay_bind_vertex_buffers_replays.
  - by apply replay_bind_index_buffer_replays.
  - by apply replay_draw_indirect_replays.
  - by apply replay_draw_indirect_count_replays.
  - by apply replay_dynamic_state_replays.
  - by apply clear_depth_stencil_image_replays.
  - by apply clear_attachments_replays.
  - by apply replay_update_buffer_replays.
  - by apply replay_query_replays.
Qed.

Context (H_one_time_submit : VK_COMMAND_BUFFER_USAGE_ONE_TIME_SUBMIT_BIT = 1).
Context (H_compute : VK_PIPELINE_BIND_POINT_COMPUTE = 1).

(** The commands that may stand in a stream. *)
Definition streamable (c : bvb_command) : bool :=
  match c with
  | command_push_rotation _ | command_buffer_host_read_barrier _ => false
  | _ => true
  end.

Lemma replay_stream_record_replays record c :
  record_of_command record c -> streamable c = true -> valid c -> encodable c ->
  records (replay_stream_record driver command_buffer_id record) c.
Proof.
  intros (Hd & _) Hc Hv Hg%encodable_guarded.
  destruct (is_render_command c) eqn:Er.
  - pose proof (replay_render_command_replays record c Hd Er Hv Hg) as H.
    unfold replay_stream_record. rewrite Hd.
    apply (replays_found _ _ _ (of_result (Ok c)) c); [apply finds_ret|].
    destruct c; try discriminate Er; try exact H.
    by apply image_barrier_2_replays.
  - unfold replay_stream_record. rewrite Hd.
    apply (replays_found _ _ _ (of_result (Ok c)) c); [apply finds_ret|].
    destruct c; try discriminate Er; try discriminate Hc.
    + by apply command_buffer_fill_replays.
    + by apply begin_command_buffer_replays.
    + by apply command_buffer_clear_color_image_replays.
    + by apply command_buffer_image_barrier_replays.
    + by apply clear_color_image_general_replays.
    + by apply command_buffer_bind_descriptor_sets_replays.
    + by apply end_command_buffer_replays.
Qed.

Lemma fold_records_replays rs cs :
  Forall2 record_of_command rs cs ->
  Forall (fun c => streamable c = true /\ valid c /\ encodable c) cs ->
  forall index,
  replays_in context buffer (List.concat (command_calls handle <$> cs))
    (fold_records index rs
       (fun _ record _ => replay_stream_record driver command_buffer_id record)
       tt).
Proof.
  induction 1 as [|record c rs cs Hr _ IH]; intros Hcs index.
  - apply replays_nothing.
  - apply Forall_cons_1 in Hcs as [(Hs & Hv & He) Hcs].
    cbn [fold_records fmap list_fmap List.concat].
    apply replays_bind; [by apply replay_stream_record_replays|by apply IH].
Qed.
End commands.

(** ** The theorem *)

Section theorem.
Context {VH : VulkanHeader} {VI : VulkanImage} {VC : VulkanCore}
  {VS : VulkanStream}.
Context (driver : list event -> vk_call -> vk_reply).

Lemma body_streamable context device_id cs : forall rendering,
  body_accepted context device_id rendering cs = true ->
  Forall (fun c => streamable c = true /\
                   command_valid context device_id c = true) cs.
Proof.
  induction cs as [|c cs IH]; intros rendering; [constructor|]. cbn.
  intros [Hv Ha]%andb_true_iff.
  destruct (rendering_after rendering c) as [r|] eqn:Er; [|done].
  constructor; [|by eapply IH]. split; [|done]. by destruct c.
Qed.

Lemma stream_streamable context device_id cs :
  stream_accepted context device_id cs ->
  Forall (fun c => streamable c = true /\
                   command_valid context device_id c = true) cs.
Proof.
  intros (b & body & -> & Hb%body_streamable). constructor; [done|].
  apply Forall_app. split; [done|]. by repeat constructor.
Qed.

(** What the lookup of the command buffer finds. *)
Lemma command_buffer_of_found context device_id id :
  command_buffer_of context device_id id = true ->
  exists pool_id buffer pool parent device,
    looked_up context id BVB_OBJECT_COMMAND_BUFFER = Ok (pool_id, buffer) /\
    looked_up context pool_id BVB_OBJECT_COMMAND_POOL = Ok (device_id, pool) /\
    looked_up context device_id BVB_OBJECT_DEVICE = Ok (parent, device).
Proof.
  unfold command_buffer_of, of_device_through, of_device.
  destruct (looked_up context id _) as [[pool_id buffer]|]; [|done].
  destruct (looked_up context pool_id _) as [[did pool]|] eqn:Ep; [|done].
  intros [->%Z.eqb_eq Hd]%andb_true_iff.
  destruct (looked_up context device_id _) as [[parent device]|] eqn:Ed; [|done].
  by exists pool_id, buffer, pool, parent, device.
Qed.

(** The replay after an accepting validation. *)
Lemma replay_batch w bs len cs info device_id pool_id buffer pool parent device :
  batch_at bs len cs info -> map command_norm cs = cs ->
  VK_COMMAND_BUFFER_USAGE_ONE_TIME_SUBMIT_BIT = 1 ->
  VK_PIPELINE_BIND_POINT_COMPUTE = 1 ->
  looked_up w.(w_context) info.(bi_command_buffer_id)
    BVB_OBJECT_COMMAND_BUFFER = Ok (pool_id, buffer) ->
  looked_up w.(w_context) pool_id BVB_OBJECT_COMMAND_POOL =
    Ok (device_id, pool) ->
  looked_up w.(w_context) device_id BVB_OBJECT_DEVICE = Ok (parent, device) ->
  bvb_vulkan_global_context_validate_command_stream (Some bs) len device_id w =
    (Ok tt, w) ->
  stream_accepted w.(w_context) device_id cs ->
  replays buffer
    (List.concat (command_calls (native_handle w.(w_context)) <$> cs))
    (bvb_vulkan_global_context_replay_command_stream driver (Some bs) len
       device_id) w.
Proof.
  intros Hb Hn H1 H2 Hl Hp Hd Hv Hacc%stream_streamable.
  destruct (batch_records bs len cs info Hb Hn)
    as (first & rs & last & Hfirst & Hrs & _ & Hloop).
  pose proof (commands_at_encodable _ _ _ _ (batch_commands _ _ _ _ Hb)) as He.
  unfold replays, replays_calls, bvb_vulkan_global_context_replay_command_stream.
  unfold bind at 1. rewrite Hv, (validate_complete bs len cs info), Hfirst by done.
  do 2 (change (bind (of_result (Ok ?x)) ?k) with (k x); cbn beta).
  unfold bind at 1. rewrite Hloop.
  destruct (fold_records_replays driver w.(w_context) info.(bi_command_buffer_id)
    pool_id device_id parent buffer pool device Hl Hp Hd H1 H2 rs cs Hrs)
    with (index := 0) (w := w) as (r & events & Ef & Hr); [|done|].
  { eapply List.Forall_impl; [|exact (Forall_and Hacc He)]. cbn. tauto. }
  unfold bind. rewrite Ef. exists r, events. destruct r as [[]|]; done.
Qed.

(** The validator's verdict depends on the store alone, so the replay's own
    validation succeeds where an earlier one did. *)
Lemma accepted_batch_replays w bs len cs info device_id :
  batch_at bs len cs info -> map command_norm cs = cs ->
  expects device_id BVB_OBJECT_DEVICE = true ->
  VK_COMMAND_BUFFER_USAGE_ONE_TIME_SUBMIT_BIT = 1 ->
  VK_PIPELINE_BIND_POINT_COMPUTE = 1 ->
  command_buffer_of w.(w_context) device_id info.(bi_command_buffer_id) = true ->
  stream_accepted w.(w_context) device_id cs ->
  exists pool_id buffer,
    looked_up w.(w_context) info.(bi_command_buffer_id)
      BVB_OBJECT_COMMAND_BUFFER = Ok (pool_id, buffer) /\
    replays buffer
      (List.concat (command_calls (native_handle w.(w_context)) <$> cs))
      (bvb_vulkan_global_context_replay_command_stream driver (Some bs) len
         device_id) w.
Proof.
  intros Hb Hn He H1 H2 Hof Hacc.
  pose proof (proj2 (validate_batch w bs len cs info device_id Hb Hn He)
                (conj Hof Hacc)) as Hok.
  pose proof (validate_command_stream_looks (Some bs) len device_id w) as Hw.
  apply command_buffer_of_found in Hof
    as (pool_id & buffer & pool & parent & device & Hl & Hp & Hd).
  exists pool_id, buffer. split; [done|]. eapply replay_batch; try done.
  destruct (bvb_vulkan_global_context_validate_command_stream _ _ _ w).
  by cbn in *; subst.
Qed.

(** C17: Replaying a stream the validator accepts records into its command
    buffer exactly the native commands its commands stand for, in their
    order and with the handles of the objects they name.  It can only fail
    when the driver lacks an entry point or refuses to begin or end the
    buffer, and then a prefix of these commands has been recorded; the object
    store is the same in every case. *)
Theorem accepted_stream_replays w bs len device_id
    (Hlen : len <= blen bs)
    (H_one_time_submit : VK_COMMAND_BUFFER_USAGE_ONE_TIME_SUBMIT_BIT = 1)
    (H_compute : VK_PIPELINE_BIND_POINT_COMPUTE = 1)
    (Hok : (bvb_vulkan_global_context_validate_command_stream (Some bs) len
              device_id w).1 = Ok tt) :
  exists info cs pool_id buffer,
    bvb_command_batch_validate (Some bs) len (Some blank_info) = Ok info /\
    (forall fuel, (Datatypes.length cs < fuel)%nat ->
       iterate_batch fuel bs len = Ok cs) /\
    looked_up w.(w_context) info.(bi_command_buffer_id)
      BVB_OBJECT_COMMAND_BUFFER = Ok (pool_id, buffer) /\
    replays buffer
      (List.concat (command_calls (native_handle w.(w_context)) <$> cs))
      (bvb_vulkan_global_context_replay_command_stream driver (Some bs) len
         device_id) w.
Proof.
  destruct (expects device_id BVB_OBJECT_DEVICE) eqn:He.
  2: { unfold bvb_vulkan_global_context_validate_command_stream in Hok.
       by rewrite He, orb_true_r in Hok. }
  destruct (bvb_command_batch_validate (Some bs) len (Some blank_info))
    as [info|e] eqn:Hi.
  2: { unfold bvb_vulkan_global_context_validate_command_stream in Hok.
       rewrite He, Hi, bool_decide_eq_true_2 in Hok by done. discriminate Hok. }
  destruct (validate_inv bs len _ info Hlen Hi) as (cs & Hb & Hn).
  apply (validate_batch w bs len cs info device_id Hb Hn He) in Hok as [Hof Hacc].
  destruct (accepted_batch_replays w bs len cs info device_id)
    as (pool_id & buffer & Hl & Hr); try done.
  exists info, cs, pool_id, buffer. split_and!; [done| |done|done].
  intros fuel Hfuel. by rewrite (iterate_batch_at bs len cs info), Hn.
Qed.
End theorem.

(** ** Witness *)

Section example.
#[local] Existing Instance vulkan_1_4.
#[local] Existing Instance vulkan_1_4_core.
#[local] Existing Instance vulkan_1_4_image.
#[local] Existing Instance vulkan_1_4_stream.

(** The sample stream against the driver that conforms: four commands. *)
Lemma accepted_stream_replays_witness :
  exists cs pool_id buffer,
    (forall fuel, (Datatypes.length cs < fuel)%nat ->
       iterate_batch fuel sample_stream (blen sample_stream) = Ok cs) /\
    looked_up sample_world.(w_context) sample_id BVB_OBJECT_COMMAND_BUFFER =
      Ok (pool_id, buffer) /\
    replays buffer
      (List.concat
         (command_calls (native_handle sample_world.(w_context)) <$> cs))
      (bvb_vulkan_global_context_replay_command_stream model_driver
         (Some sample_stream) (blen sample_stream) sample_device) sample_world.
Proof.
  destruct (accepted_stream_replays model_driver sample_world sample_stream
    (blen sample_stream) sample_device)
    as (info & cs & pool_id & buffer & Hv & Hi & Hl & Hr);
    [apply Z.le_refl|vm_compute; reflexivity..|].
  exists cs, pool_id, buffer. split; [exact Hi|]. split; [|exact Hr].
  assert (info = mk_info sample_id 4 3 (blen sample_stream)) as ->; [|exact Hl].
  vm_compute in Hv |- *. by injection Hv.
Defined.

Example sample_stream_recorded :
  recorded (bvb_vulkan_global_context_replay_command_stream model_driver
    (Some sample_stream) (blen sample_stream) sample_device
    sample_world).2.(w_log) =
  [(300, ("vkBeginCommandBuffer"%string, [], [1]));
   (300, ("vkCmdFillBuffer"%string, [(BVB_OBJECT_BUFFER, 400)], [0; 16; 7]));
   (300, ("vkCmdPipelineBarrier"%string, [(BVB_OBJECT_BUFFER, 400)],
          [4096; 16384; 0; 0; 1; 4096; 8192; 4294967295; 4294967295;
           400; 0; 16; 0]));
   (300, ("vkEndCommandBuffer"%string, [], []))].
Proof. vm_compute. reflexivity. Qed.
End example.
