(* ===== verification/StreamSubmit.v ===== *)
(** * StreamSubmit: the command streams of a submission

    Models [replay_submit_command_streams] of src/bridge_service.c.  The
    client records commands into a region it shares with the service and
    submits them by generation, sequence number, offset and length.  The
    service copies each stream out of the region, which the client can still
    write, and checks the copy; only when every stream of the submission is
    accepted and its sequence number is newer than the last one of its
    command buffer are the copies replayed. *)

From stdpp Require Import strings gmap.
From S2P Require Import Prelude Wire Abi Codec Window CommandTypes CommandBase CommandDispatch CommandBatch CommandLayout CommandTheorems StreamGeneration DescriptorTypes MessageImage MessageSubmit ProtocolRegistry Backend BackendRules BackendDriver BackendSync BackendPipeline BackendMirror BackendCommand StreamBase StreamRecord StreamReplay StreamSpec StreamTheorems BackendSubmit.

#[local] Open Scope list_scope.

(** ** The region *)

(** [rg_mapped] is [address != NULL]; the bytes themselves change under the
    service and are an argument of each access. *)
Record shared_batch_region := mk_region {
  rg_mapped : bool;
  rg_length : Z;
  rg_generation : Z;
  rg_last_sequence : Z;
  rg_command_generations : list bvb_command_stream_generation;
  rg_command_stream : bool;
  rg_descriptor_journal : bool
}.

Definition with_generations (l : list bvb_command_stream_generation)
    (r : shared_batch_region) : shared_batch_region :=
  mk_region r.(rg_mapped) r.(rg_length) r.(rg_generation)
    r.(rg_last_sequence) l r.(rg_command_stream) r.(rg_descriptor_journal).

(** What the service cannot know beforehand: the bytes the region holds while
    the stream of the command at an index is copied, and whether memory for
    the copies and for the table is available. *)
Record surroundings := mk_surroundings {
  su_region : Z -> bytes;
  su_snapshot : Z -> bool;
  su_table : bool
}.

(** ** The code *)

Section operations.
Context {VH : VulkanHeader} {VI : VulkanImage} {VC : VulkanCore}
  {VS : VulkanStream}.
Context (driver : list event -> vk_call -> vk_reply).
Context (outside : surroundings).

Definition submit_commands (request : bvb_vulkan_queue_submit_2_request) :
    list bvb_vulkan_submit_2_command_record :=
  in_use request.(s2_rq_command_count) request.(s2_rq_commands).

Definition has_stream (request : bvb_vulkan_queue_submit_2_request) : bool :=
  existsb (fun c =>
      c.(s2c_stream_flags) =? BVB_VULKAN_SUBMIT_2_COMMAND_SHARED_STREAM)
    (submit_commands request).

(** The copy of one stream, checked. *)
Definition snapshot_stream (region : shared_batch_region) (device_id : Z)
    (earlier : list bvb_vulkan_submit_2_command_record) (index : Z)
    (command : bvb_vulkan_submit_2_command_record) : M bytes :=
  stop_if negb (command.(s2c_stream_generation) =? region.(rg_generation))
    with (- ESTALE) ;;
  stop_if (region.(rg_length) <? command.(s2c_stream_offset)) ||
          (region.(rg_length) - command.(s2c_stream_offset) <?
             command.(s2c_stream_length)) with (- ERANGE) ;;
  stop_if existsb (fun e =>
      negb (e.(s2c_stream_flags) =? 0) &&
      (e.(s2c_command_buffer_id) =? command.(s2c_command_buffer_id))) earlier
    with (- EPROTO) ;;
  do snapshot := of_result (bvb_command_batch_snapshot
    (Some (outside.(su_region) index +! command.(s2c_stream_offset)))
    command.(s2c_stream_length) (Some tt) (outside.(su_snapshot) index)) ;;
  do info := of_result (bvb_command_batch_validate (Some snapshot)
    command.(s2c_stream_length) (Some blank_info)) ;;
  stop_if negb (info.(bi_command_buffer_id) =?
                  command.(s2c_command_buffer_id)) ||
          negb (info.(bi_sequence) =? command.(s2c_stream_sequence)) ||
          negb (info.(bi_byte_length) =? command.(s2c_stream_length))
    with (- ESTALE) ;;
  do _ := bvb_vulkan_global_context_validate_command_stream (Some snapshot)
    command.(s2c_stream_length) device_id ;;
  ret snapshot.

(** The first loop: each stream with its copy, in order. *)
Fixpoint snapshot_streams (region : shared_batch_region) (device_id : Z)
    (earlier : list bvb_vulkan_submit_2_command_record) (index : Z)
    (commands : list bvb_vulkan_submit_2_command_record) :
    M (list (bvb_vulkan_submit_2_command_record * bytes)) :=
  match commands with
  | [] => ret []
  | command :: commands =>
      let rest := snapshot_streams region device_id (earlier ++ [command])
                    (index + 1) commands in
      if command.(s2c_stream_flags) =? 0 then rest
      else
        do snapshot := snapshot_stream region device_id earlier index command ;;
        do snapshots := rest ;;
        ret ((command, snapshot) :: snapshots)
  end.

Definition generation_update
    (stream : bvb_vulkan_submit_2_command_record * bytes) :
    bvb_command_stream_generation_update :=
  mk_update stream.1.(s2c_command_buffer_id) stream.1.(s2c_stream_sequence).

Definition command_buffer_generation_is_live (w : world) (id : Z) : bool :=
  match (bvb_vulkan_global_context_command_buffer_is_live id w).1 with
  | Ok live => live
  | Err _ => false
  end.

(** The last loop. *)
Definition replay_snapshots (device_id : Z)
    (streams : list (bvb_vulkan_submit_2_command_record * bytes)) : M unit :=
  each (fun '(command, snapshot) =>
    bvb_vulkan_global_context_replay_command_stream driver (Some snapshot)
      command.(s2c_stream_length) device_id) streams.

(** The result, and the region the call leaves behind. *)
Definition replay_submit_command_streams (region : ptr shared_batch_region)
    (request : bvb_vulkan_queue_submit_2_request) :
    M (result unit * ptr shared_batch_region) :=
  if negb (has_stream request) then ret (Ok tt, region) else
  match region with
  | None => ret (Err (- EPROTO), region)
  | Some r =>
    if negb r.(rg_command_stream) || negb r.(rg_mapped) ||
       negb (r.(rg_length) =? BVB_COMMAND_STREAM_REGION_BYTES)
    then ret (Err (- EPROTO), region)
    else
      do prepared := catch (
        do device_id :=
          bvb_vulkan_global_context_validate_queue_submit_2 request ;;
        do streams := snapshot_streams r device_id [] 0
          (submit_commands request) ;;
        ret (device_id, streams)) ;;
      match prepared with
      | Err e => ret (Err e, region)
      | Ok (device_id, streams) => fun w =>
          let updates := generation_update <$> streams in
          let '(generations, (result, _)) :=
            bvb_command_stream_generations_apply
              (Some r.(rg_command_generations))
              (Z.of_nat (Datatypes.length r.(rg_command_generations)))
              (Some updates) (Z.of_nat (Datatypes.length updates))
              (Some (command_buffer_generation_is_live w))
              outside.(su_table) in
          let region := Some (with_generations
            (default r.(rg_command_generations) generations) r) in
          match result with
          | Err e => ret (Err e, region) w
          | Ok _ =>
              (do replayed := catch (replay_snapshots device_id streams) ;;
               ret (replayed, region)) w
          end
      end
  end.
End operations.

(** ** Copying and checking *)

Section snapshots.
Context {VH : VulkanHeader} {VI : VulkanImage} {VC : VulkanCore}
  {VS : VulkanStream}.
Context (outside : surroundings) (region : shared_batch_region).
Hypothesis Hregion : forall i, blen (outside.(su_region) i) = region.(rg_length).

(** What the service has established of a stream before it replays it: the
    commands [cs] for the native command buffer [buffer]. *)
Record stream_checked (context : bvb_vulkan_global_context) (device_id : Z)
    (command : bvb_vulkan_submit_2_command_record) (snapshot : bytes)
    (buffer : Z) (cs : list bvb_command) : Prop := {
  checked_generation :
    command.(s2c_stream_generation) = region.(rg_generation);
  checked_within :
    command.(s2c_stream_offset) + command.(s2c_stream_length) <=
      region.(rg_length);
  checked_copy : exists i, snapshot =
    rd_bytes (outside.(su_region) i +! command.(s2c_stream_offset)) 0
      command.(s2c_stream_length);
  checked_batch : exists info,
    batch_at snapshot command.(s2c_stream_length) cs info /\
    info.(bi_command_buffer_id) = command.(s2c_command_buffer_id) /\
    info.(bi_sequence) = command.(s2c_stream_sequence);
  checked_norm : map command_norm cs = cs;
  checked_device : expects device_id BVB_OBJECT_DEVICE = true;
  checked_owner :
    command_buffer_of context device_id command.(s2c_command_buffer_id) = true;
  checked_buffer : exists pool_id,
    looked_up context command.(s2c_command_buffer_id)
      BVB_OBJECT_COMMAND_BUFFER = Ok (pool_id, buffer);
  checked_commands : stream_accepted context device_id cs
}.

Lemma looks_snapshot_stream device_id earlier index command :
  looks (snapshot_stream outside region device_id earlier index command).
Proof. unfold snapshot_stream. look. Qed.

Lemma looks_snapshot_streams commands device_id : forall earlier index,
  looks (snapshot_streams outside region device_id earlier index commands).
Proof.
  induction commands as [|c commands IH]; intros; cbn [snapshot_streams];
    look; try apply looks_snapshot_stream; apply IH.
Qed.

Lemma looks_validate_submit_2 request :
  looks (bvb_vulkan_global_context_validate_queue_submit_2 request).
Proof.
  assert (Hcollect : forall A B (body : A -> M B) l, (forall x, looks (body x)) ->
    looks (collect body l)).
  { intros A B body l Hb. induction l; cbn [collect]; look; apply Hb. }
  unfold bvb_vulkan_global_context_validate_queue_submit_2, resolve_submit_2,
    resolve_queue, submitted_fence, same_device_child, resolve_device_child.
  look; apply Hcollect; intros; unfold submitted_semaphore, submitted_command;
    look.
Qed.

Lemma looks_bind_ok {A B} (m : M A) (k : A -> M B) w y :
  looks m -> (bind m k w).1 = Ok y ->
  exists x, m w = (Ok x, w) /\ (k x w).1 = Ok y.
Proof.
  intros Hm. specialize (Hm w). unfold bind.
  destruct (m w) as [[x|e] w']; cbn in *; subst; [by exists x|done].
Qed.

Lemma of_result_ok {A} (r : result A) x w : of_result r w = (Ok x, w) -> r = Ok x.
Proof. by intros [=]. Qed.

Lemma validated_device bs len device_id w :
  (bvb_vulkan_global_context_validate_command_stream (Some bs) len device_id
     w).1 = Ok tt -> expects device_id BVB_OBJECT_DEVICE = true.
Proof.
  unfold bvb_vulkan_global_context_validate_command_stream.
  destruct (expects device_id BVB_OBJECT_DEVICE); [done|].
  by rewrite orb_true_r.
Qed.

Lemma snapshot_stream_ok device_id earlier index c w s :
  s2c_rep c = true ->
  (snapshot_stream outside region device_id earlier index c w).1 = Ok s ->
  exists buffer cs, stream_checked w.(w_context) device_id c s buffer cs.
Proof.
  intros Hrep H. unfold s2c_rep in Hrep. split_tests.
  unfold snapshot_stream in H.
  destruct (s2c_stream_generation c =? rg_generation region) eqn:Eg; [|done].
  cbn [negb] in H. destruct (_ || _) eqn:Er; [done|].
  destruct (existsb _ _); [done|]. apply Z.eqb_eq in Eg. split_tests.
  apply looks_bind_ok in H as (copy & Hc%of_result_ok & H); [|done].
  apply looks_bind_ok in H as (info & Hi%of_result_ok & H); [|done].
  destruct (_ || _) eqn:Ei in H; [done|]. split_tests.
  apply looks_bind_ok in H as ([] & Hv & H); [|look]. injection H as <-.
  unfold bvb_command_batch_snapshot in Hc.
  destruct (_ || _); [done|]. destruct (negb _); [done|]. injection Hc as Hc.
  assert (0 <= s2c_stream_offset c /\ 0 <= s2c_stream_length c) as []
    by (rewrite !is_u32_spec in *; lia).
  assert (Hlen : blen copy = s2c_stream_length c).
  { rewrite <- Hc, blen_rd_bytes; [done|lia|lia|].
    rewrite blen_ptr_add; rewrite Hregion; lia. }
  destruct (validate_inv copy (s2c_stream_length c) _ info ltac:(lia) Hi) as (cs & Hb & Hn).
  pose proof (f_equal fst Hv) as Hv1. cbn in Hv1.
  pose proof (validated_device _ _ _ _ Hv1) as He.
  apply (validate_batch w copy _ cs info device_id Hb Hn He) in Hv1 as [Hof Hacc].
  assert (Hid : bi_command_buffer_id info = s2c_command_buffer_id c) by lia.
  rewrite Hid in Hof. pose proof Hof as Hfound.
  apply command_buffer_of_found in Hfound as (pool_id & buffer & _ & _ & _ & Hl & _).
  exists buffer, cs. constructor; try done.
  - lia.
  - by exists index.
  - exists info. split_and!; [done|done|lia].
  - by exists pool_id.
Qed.

(** The streams the first loop collects are those of the request. *)
Lemma snapshot_streams_ok commands device_id w : forall earlier index streams,
  Forall (fun c => s2c_rep c = true) commands ->
  (snapshot_streams outside region device_id earlier index commands w).1 =
    Ok streams ->
  fst <$> streams =
    filter (fun c => negb (c.(s2c_stream_flags) =? 0) = true) commands /\
  Forall (fun s => exists buffer cs,
    stream_checked w.(w_context) device_id s.1 s.2 buffer cs) streams.
Proof.
  induction commands as [|c commands IH]; intros earlier index streams Hrep H.
  - injection H as <-. by split.
  - apply Forall_cons_1 in Hrep as [Hc Hrep]. cbn [snapshot_streams] in H.
    rewrite filter_cons. destruct (s2c_stream_flags c =? 0) eqn:Ef; cbn [negb].
    { rewrite decide_False by done. by eapply IH. }
    rewrite decide_True by done.
    apply looks_bind_ok in H as (s & Hs & H); [|apply looks_snapshot_stream].
    apply looks_bind_ok in H as (rest & Hr & H); [|apply looks_snapshot_streams].
    injection H as <-. apply (f_equal fst) in Hr, Hs.
    destruct (IH _ _ _ Hrep Hr) as [Hf Hall]. split.
    + by rewrite fmap_cons, Hf.
    + constructor; [|done]. by eapply snapshot_stream_ok.
Qed.
End snapshots.

(** ** The theorem *)

(** The native commands of a stream: its command buffer's native handle and
    the commands recorded into it. *)
Definition stream_calls {VH : VulkanHeader} {VI : VulkanImage}
    {VS : VulkanStream} (context : bvb_vulkan_global_context)
    (meaning : Z * list bvb_command) : list (Z * native_call) :=
  pair meaning.1 <$>
    List.concat (command_calls (native_handle context) <$> meaning.2).

Section theorem.
Context {VH : VulkanHeader} {VI : VulkanImage} {VC : VulkanCore}
  {VS : VulkanStream}.
Context (driver : list event -> vk_call -> vk_reply).
Context (H_one_time_submit : VK_COMMAND_BUFFER_USAGE_ONE_TIME_SUBMIT_BIT = 1).
Context (H_compute : VK_PIPELINE_BIND_POINT_COMPUTE = 1).
Context (outside : surroundings) (region : shared_batch_region).
Hypothesis Hregion : forall i, blen (outside.(su_region) i) = region.(rg_length).

Abbreviation checked context device_id := (fun s m =>
  stream_checked outside region context device_id s.1 s.2 m.1 m.2).

Lemma meanings context device_id (streams : list (_ * bytes)) :
  Forall (fun s => exists buffer cs, stream_checked outside region context
            device_id s.1 s.2 buffer cs) streams ->
  exists ms, Forall2 (checked context device_id) streams ms.
Proof.
  induction 1 as [|s streams (buffer & cs & Hs) _ [ms IH]]; [by exists []|].
  exists ((buffer, cs) :: ms). by constructor.
Qed.

Lemma replay_snapshots_replays device_id streams ms w :
  Forall2 (checked w.(w_context) device_id) streams ms ->
  replays_calls (List.concat (stream_calls w.(w_context) <$> ms))
    (replay_snapshots driver device_id streams) w.
Proof.
  intros H. remember w.(w_context) as context eqn:Ew.
  revert w Ew. induction H as [|[c s] [buffer cs] streams ms Hs _ IH]; intros w Ew.
  - apply replays_calls_nothing.
  - cbn [fmap list_fmap List.concat]. unfold replay_snapshots. cbn [each].
    apply replays_calls_bind; [|intros w' Hw'; apply IH; congruence].
    destruct Hs as [_ _ _ (info & Hb & Hid & _) Hn He Hof [pool_id Hl] Hacc].
    cbn [fst snd] in *. subst context. rewrite <- Hid in Hof, Hl.
    destruct (accepted_batch_replays driver w s (s2c_stream_length c) cs info device_id)
      as (pool & buffer' & Hl' & Hr); try done.
    rewrite Hl in Hl'. by injection Hl' as _ <-.
Qed.

Lemma updates_in_range context device_id streams ms :
  Forall2 (checked context device_id) streams ms ->
  Forall (fun u => is_u64 u.(su_sequence) = true)
    (generation_update <$> streams).
Proof.
  induction 1 as [|[c s] [buffer cs] streams ms Hs _ IH]; constructor; [|done].
  destruct Hs as [_ _ _ (info & Hb & _ & Hseq) _ _ _ _ _].
  destruct (batch_header_at _ _ _ _ Hb) as (_ & _ & _ & _ & _ & _ & H).
  cbn in *. rewrite <- Hseq, <- H. apply get_u64_range.
Qed.

Lemma stream_in_filter request :
  has_stream request = true ->
  filter (fun c => negb (c.(s2c_stream_flags) =? 0) = true)
    (submit_commands request) <> [].
Proof.
  unfold has_stream. intros (c & Hin & Hc)%existsb_exists.
  apply Z.eqb_eq in Hc. intros Hnil.
  assert (Hc' : c ∈ filter (fun c => negb (c.(s2c_stream_flags) =? 0) = true)
    (submit_commands request)).
  { apply list_elem_of_filter. split; [by rewrite Hc|].
    by apply list_elem_of_In. }
  rewrite Hnil in Hc'. by apply not_elem_of_nil in Hc'.
Qed.

Lemma request_commands_rep request :
  s2_rq_rep request = true ->
  Forall (fun c => s2c_rep c = true) (submit_commands request).
Proof.
  intros Hrep. unfold s2_rq_rep in Hrep. split_tests.
  match goal with H : array_rep _ s2c_rep _ = true |- _ =>
    unfold array_rep in H; apply andb_true_iff in H as [_ H];
    rewrite forallb_forall in H; rename H into Hall end.
  apply Forall_take, List.Forall_forall. exact Hall.
Qed.

Lemma generations_limit : 4096 <= SIZE_MAX / generation_size.
Proof. by vm_compute. Qed.

Lemma generations_apply_without_memory array us is_live :
  array <> [] -> us <> [] ->
  Z.of_nat (Datatypes.length array) <= SIZE_MAX / generation_size ->
  bvb_command_stream_generations_apply (Some array)
    (Z.of_nat (Datatypes.length array)) (Some us)
    (Z.of_nat (Datatypes.length us)) is_live false =
    (Some array, (Err (- ENOMEM), 0)).
Proof.
  intros Ha Hus Hmax%Z.ltb_ge. unfold bvb_command_stream_generations_apply.
  rewrite Hmax. destruct array; [done|]. by destruct us.
Qed.

(** What becomes of the table of the region. *)
Lemma generations_apply_outcome array us is_live allocated :
  table_wf array -> us <> [] -> 0 < Z.of_nat (Datatypes.length array) <= 4096 ->
  Forall (fun u => is_u64 u.(su_sequence) = true) us ->
  exists r n l,
    bvb_command_stream_generations_apply (Some array)
      (Z.of_nat (Datatypes.length array)) (Some us)
      (Z.of_nat (Datatypes.length us)) is_live allocated = (Some l, (r, n)) /\
    match r with
    | Ok _ => table_wf l /\ exists swept,
        spec_updates (Datatypes.length array) is_live us
          (sequences array, false) = Ok (sequences l, swept)
    | Err _ => l = array
    end.
Proof.
  intros Hwf Hne Hlen Hseq.
  assert (Hmax : Z.of_nat (Datatypes.length array) <= SIZE_MAX / generation_size)
    by (pose proof generations_limit; lia).
  assert (Ha : array <> []) by (intros ->; cbn in Hlen; lia).
  destruct allocated.
  - pose proof (generations_apply_spec array us is_live Hwf Ha Hne Hmax Hseq) as H.
    destruct (bvb_command_stream_generations_apply _ _ _ _ _ _) as [array' [r n]].
    destruct (spec_updates _ _ _ _) as [[m sw]|e].
    + destruct H as (-> & l & -> & Hl & _ & <-). exists (Ok tt), n, l.
      split; [done|]. split; [done|by exists sw].
    + destruct H as (-> & -> & ->). by exists (Err e), 0, array.
  - exists (Err (- ENOMEM)), 0, array. split; [|done].
    by apply generations_apply_without_memory.
Qed.

(** C30: Replaying the streams of a submission is all or nothing up to the
    driver.  Either nothing happened: the store, the driver's log and the
    region are as before, and the call only succeeded if there was no stream.
    Or every stream of the submission, in order, was copied out of the region
    and its copy checked; the table of the region has taken exactly their
    sequence numbers, each above the one recorded for its command buffer; and
    the driver's log has grown by the commands of these copies, all of them
    unless the driver itself refused.  What the client writes to the region
    after the copy plays no part. *)
Theorem submitted_streams_are_atomic w request
    (Hrequest : s2_rq_rep request = true)
    (Htable : table_wf region.(rg_command_generations))
    (Hentries : 0 < Z.of_nat (Datatypes.length region.(rg_command_generations))
                  <= 4096) :
  exists result region' w',
    replay_submit_command_streams driver outside (Some region) request w =
      (Ok (result, Some region'), w') /\
    w'.(w_context) = w.(w_context) /\
    ((w' = w /\ region' = region /\
      (result = Ok tt -> has_stream request = false)) \/
     exists device_id streams ms generations swept events,
       fst <$> streams =
         filter (fun c => negb (c.(s2c_stream_flags) =? 0) = true)
           (submit_commands request) /\
       Forall2 (checked w.(w_context) device_id) streams ms /\
       region' = with_generations generations region /\ table_wf generations /\
       spec_updates (Datatypes.length region.(rg_command_generations))
         (Some (command_buffer_generation_is_live w))
         (generation_update <$> streams)
         (sequences region.(rg_command_generations), false) =
         Ok (sequences generations, swept) /\
       w'.(w_log) = w.(w_log) ++ events /\
       faithful (List.concat (stream_calls w.(w_context) <$> ms)) result events).
Proof.
  unfold replay_submit_command_streams.
  destruct (has_stream request) eqn:Hhas; cbn [negb].
  2: { exists (Ok tt), region, w. split_and!; [done|done|by left]. }
  destruct (_ || _); [exists (Err (- EPROTO)), region, w; split_and!;
    [done|done|by left]|].
  match goal with |- context [catch (bind ?m ?k)] => set (prepare := bind m k) end.
  assert (Hlooks : looks prepare).
  { unfold prepare. apply looks_bind; [apply looks_validate_submit_2|].
    intros. apply looks_bind; [apply looks_snapshot_streams|by intros]. }
  unfold bind at 1, catch. specialize (Hlooks w).
  destruct (prepare w) as [[[device_id streams]|e] w'] eqn:Hp; cbn in Hlooks;
    subst w'.
  2: { exists (Err e), region, w. split_and!; [done|done|by left]. }
  apply (f_equal fst) in Hp. unfold prepare in Hp.
  apply looks_bind_ok in Hp as (did & _ & Hp); [|apply looks_validate_submit_2].
  apply looks_bind_ok in Hp as (ss & Hs & Hp); [|apply looks_snapshot_streams].
  injection Hp as Hd Hss. subst device_id streams. rename ss into streams.
  apply (f_equal fst) in Hs.
  apply (snapshot_streams_ok outside region Hregion) in Hs as [Hf Hall];
    [|by apply request_commands_rep].
  pose proof (stream_in_filter _ Hhas) as Hne. rewrite <- Hf in Hne.
  apply meanings in Hall as [ms Hms]. cbn [fst snd].
  destruct (generations_apply_outcome region.(rg_command_generations)
    (generation_update <$> streams)
    (Some (command_buffer_generation_is_live w)) outside.(su_table))
    as (r & n & generations & Happly & Hr); [done|by destruct streams|done|
      by eapply updates_in_range|].
  cbv zeta. rewrite Happly. cbn [default].
  destruct r as [[]|e].
  2: { subst generations. exists (Err e), region, w.
       split_and!; [by destruct region|done|by left]. }
  destruct Hr as (Hwf & swept & Hspec).
  destruct (replay_snapshots_replays did streams ms w Hms)
    as (result & events & Hrun & Hfaithful).
  exists result, (with_generations generations region),
    (mk_world w.(w_context) (w.(w_log) ++ events)).
  split; [by unfold bind, catch; rewrite Hrun|]. split; [done|]. right.
  exists did, streams, ms, generations, swept, events. done.
Qed.
End theorem.

(** ** Witness *)

Section example.
#[local] Existing Instance vulkan_1_4.
#[local] Existing Instance vulkan_1_4_core.
#[local] Existing Instance vulkan_1_4_image.
#[local] Existing Instance vulkan_1_4_stream.

(** The sample store with a queue of the device. *)
Definition submit_queue : Z := bvb_handle_id BVB_OBJECT_QUEUE 5.
Definition submit_world : world :=
  match bvb_handle_table_insert (Some sample_table) submit_queue sample_device
          500 with
  | Ok t => mk_world (mk_context true false [] t (fun _ => 1)
                        [] [] [] 0 [] [] [] [] []) []
  | Err _ => sample_world
  end.

(** A submission of the sample stream, at the start of the region. *)
Definition submit_sample : bvb_vulkan_queue_submit_2_request :=
  mk_bvb_vulkan_queue_submit_2_request submit_queue 0 0 0 1 0
    (replicate 16 zero_s2s)
    (mk_bvb_vulkan_submit_2_command_record sample_id 9 4 0
       (blen sample_stream) 0 1 :: replicate 15 zero_s2c)
    (replicate 16 zero_s2s).

Definition submit_region : shared_batch_region :=
  mk_region true BVB_COMMAND_STREAM_REGION_BYTES 9 0
    (replicate 4 zero_generation) true false.

Definition submit_outside (rest : bytes) : surroundings :=
  mk_surroundings (fun _ => sample_stream ++ rest) (fun _ => true) true.

(** The stream is replayed and its sequence number recorded. *)
Example submitted_sample_recorded rest :
  match replay_submit_command_streams model_driver (submit_outside rest)
          (Some submit_region) submit_sample submit_world with
  | (outcome, w) =>
      outcome = Ok (Ok tt, Some (with_generations
        (mk_generation sample_id 4 :: replicate 3 zero_generation)
        submit_region)) /\
      Datatypes.length (recorded w.(w_log)) = 4%nat
  end.
Proof. vm_compute. split; reflexivity. Qed.

Lemma blen_padded s n : blen s <= n -> blen (s ++ blank (n - blen s)) = n.
Proof.
  intros H. unfold blen in *. rewrite length_app, Nat2Z.inj_add.
  unfold blank. rewrite length_replicate. lia.
Qed.

Lemma sample_generations_wf : table_wf (replicate 4 zero_generation).
Proof.
  constructor; [|by repeat constructor].
  intros i j g h [-> _]%lookup_replicate. done.
Qed.

Lemma submitted_streams_are_atomic_witness :
  exists result region' w',
    replay_submit_command_streams model_driver
      (submit_outside
         (blank (BVB_COMMAND_STREAM_REGION_BYTES - blen sample_stream)))
      (Some submit_region) submit_sample submit_world =
      (Ok (result, Some region'), w') /\
    w'.(w_context) = submit_world.(w_context).
Proof.
  destruct (@submitted_streams_are_atomic vulkan_1_4 vulkan_1_4_image
    vulkan_1_4_core vulkan_1_4_stream model_driver eq_refl eq_refl
    (submit_outside
       (blank (BVB_COMMAND_STREAM_REGION_BYTES - blen sample_stream)))
    submit_region) with (w := submit_world) (request := submit_sample)
    as (result & region' & w' & Hrun & Hw & _).
  - intros i. apply blen_padded. vm_compute. discriminate.
  - vm_compute. reflexivity.
  - apply sample_generations_wf.
  - vm_compute. split; [reflexivity|discriminate].
  - exists result, region', w'. exact (conj Hrun Hw).
Defined.
End example.
