(* ===== verification/BackendInstance.v ===== *)
(** * BackendInstance: instances and physical devices of the service

    Creating an instance, and enumerating its physical devices, in
    src/vulkan_global.c.  The entry points the other operations use are
    resolved with the first instance.  An instance no entry point can be
    found for is destroyed again, and so is one the store refuses. *)

From stdpp Require Import strings gmap.
From S2P Require Import Prelude Wire Abi Codec ProtocolInstance ProtocolDevice MessageLists Backend BackendInvariant BackendRules BackendPhysical.

Abbreviation instance_response := mk_bvb_vulkan_instance_create_response.

Section operations.
Context {VH : VulkanHeader} {VC : VulkanCore}.
Context (driver : list event -> vk_call -> vk_reply).

(** The loop over the requested names: each is one of the exposed. *)
Definition extensions_supported (c : bvb_vulkan_global_context)
    (enabled_extensions : list bytes) : bool :=
  forallb (fun name => existsb (fun exposed => bool_decide (name = exposed))
                         c.(ctx_exposed_instance_extensions))
    enabled_extensions.

(** The end of a creation: the instance is stored, or destroyed again. *)
Definition store_instance (destroy_instance : bool) (instance : Z) :
    M bvb_vulkan_instance_create_response :=
  do wire_id := next_id BVB_OBJECT_INSTANCE ;;
  do result := catch (table_insert wire_id 0 instance) ;;
  if negb (is_ok result) then
    do _ := invoke driver destroy_instance (DestroyInstance instance) ;;
    ret (instance_response VK_ERROR_TOO_MANY_OBJECTS 0)
  else ret (instance_response VK_SUCCESS wire_id).

Definition bvb_vulkan_global_context_create_instance
    (request : bvb_vulkan_instance_create_request)
    (enabled_extensions : ptr (list bytes)) :
    M bvb_vulkan_instance_create_response :=
  let count := request.(insc_rq_enabled_extension_count) in
  let names := take (Z.to_nat count) (default [] enabled_extensions) in
  reply_if negb (request.(insc_rq_flags) =? 0)
    with instance_response VK_ERROR_INITIALIZATION_FAILED 0 ;;
  reply_if negb (request.(insc_rq_enabled_layer_count) =? 0)
    with instance_response VK_ERROR_LAYER_NOT_PRESENT 0 ;;
  reply_if (BVB_EXPOSED_INSTANCE_EXTENSION_CAPACITY <? count) ||
           (negb (count =? 0) &&
            negb (bool_decide (is_Some enabled_extensions)))
    with instance_response VK_ERROR_EXTENSION_NOT_PRESENT 0 ;;
  do context := get_context ;;
  reply_if negb (extensions_supported context names)
    with instance_response VK_ERROR_EXTENSION_NOT_PRESENT 0 ;;
  reply_if context.(ctx_objects).(ht_count) =?
             context.(ctx_objects).(ht_capacity)
    with instance_response VK_ERROR_TOO_MANY_OBJECTS 0 ;;
  do created := invoke driver true
    (CreateInstance request.(insc_rq_api_version) names) ;;
  stop_if negb (created.(rp_result) =? VK_SUCCESS) with (- EIO) ;;
  let instance := rp_handle created in
  do destroy_instance :=
    (if context.(ctx_destroy_instance) then ret true
     else
       do found := instance_proc driver instance "vkDestroyInstance" ;;
       do _ := put_context
         (with_entry_points context.(ctx_get_device_proc_addr) found) ;;
       ret found) ;;
  reply_if negb destroy_instance
    with instance_response VK_ERROR_INITIALIZATION_FAILED 0 ;;
  do get_device_proc_addr :=
    (if context.(ctx_get_device_proc_addr) then ret true
     else
       do found := instance_proc driver instance "vkGetDeviceProcAddr" ;;
       do _ := put_context (with_entry_points found destroy_instance) ;;
       ret found) ;;
  if negb get_device_proc_addr then
    do _ := invoke driver destroy_instance (DestroyInstance instance) ;;
    ret (instance_response VK_ERROR_INITIALIZATION_FAILED 0)
  else store_instance destroy_instance instance.

(** The identifier under which a handle is stored already, or 0. *)
Definition existing_id (type parent_id native_bits : Z) : M Z :=
  do context := get_context ;;
  ret match list_find (fun e => bvb_handle_type e.(he_wire_id) = type /\
                                e.(he_parent_id) = parent_id /\
                                e.(he_native_bits) = native_bits)
              (default [] context.(ctx_objects).(ht_entries)) with
      | Some (_, e) => e.(he_wire_id)
      | None => 0
      end.

Definition existing_physical_device_id (instance_id native_bits : Z) : M Z :=
  existing_id BVB_OBJECT_PHYSICAL_DEVICE instance_id native_bits.

(** The loop over the native devices: an identifier for each. *)
Fixpoint physical_device_ids (instance_id : Z) (native_devices : list Z) :
    M (list Z) :=
  match native_devices with
  | [] => ret []
  | native_bits :: native_devices =>
      do found := existing_physical_device_id instance_id native_bits ;;
      do wire_id :=
        (if found =? 0 then
           do wire_id := next_id BVB_OBJECT_PHYSICAL_DEVICE ;;
           do _ := table_insert wire_id instance_id native_bits ;;
           ret wire_id
         else ret found) ;;
      do ids := physical_device_ids instance_id native_devices ;;
      ret (wire_id :: ids)
  end.

Definition devices_response (result : Z) (ids : list Z) :
    bvb_vulkan_physical_devices :=
  mk_bvb_vulkan_physical_devices result (Z.of_nat (List.length ids))
    (ids ++ replicate (8 - List.length ids) 0)%list.

Definition bvb_vulkan_global_context_enumerate_physical_devices
    (instance_id : Z) : M bvb_vulkan_physical_devices :=
  do (_, instance) := table_lookup instance_id BVB_OBJECT_INSTANCE ;;
  do enumerate_devices :=
    instance_proc driver instance "vkEnumeratePhysicalDevices" ;;
  stop_if negb enumerate_devices with (- ENOSYS) ;;
  do counted := invoke driver enumerate_devices
    (CountPhysicalDevices instance) ;;
  stop_if negb (counted.(rp_result) =? VK_SUCCESS) with (- EIO) ;;
  let count := hd 0 counted.(rp_values) in
  stop_if BVB_VULKAN_MAX_PHYSICAL_DEVICES <? count with (- EOVERFLOW) ;;
  if count =? 0 then ret (devices_response counted.(rp_result) [])
  else
    do r := invoke driver enumerate_devices
      (EnumeratePhysicalDevices instance) ;;
    reply_if negb (r.(rp_result) =? VK_SUCCESS) &&
             negb (r.(rp_result) =? VK_INCOMPLETE)
      with devices_response r.(rp_result) [] ;;
    stop_if count <? Z.of_nat (List.length r.(rp_values)) with (- EPROTO) ;;
    do ids := physical_device_ids instance_id r.(rp_values) ;;
    ret (devices_response r.(rp_result) ids).
End operations.

(** ** The invariant *)

Section invariant.
Context {VH : VulkanHeader} {VC : VulkanCore}.
Context (driver : list event -> vk_call -> vk_reply).
Context {CD : ConformingDriver driver} {AP : Apart}.

Abbreviation pending_instance i := [(BVB_OBJECT_INSTANCE, 0, i)].

Lemma pending_alive X S t w ty o b :
  At X S t w -> (ty, o, b) ∈ X -> alive (driver_after VK_SUCCESS (w_log w)) ty b.
Proof.
  intros I Hx. exists o. left. rewrite (at_owned _ _ _ _ I).
  apply elem_of_app. by left.
Qed.

Lemma wp_create_instance t w version names Q :
  At [] none t w ->
  (forall r w', At [] none t w' -> (rp_result r =? VK_SUCCESS) = false ->
     Q (Ok r) w') ->
  (forall r w', At (pending_instance (rp_handle r)) none t w' ->
     w_context w' = w_context w -> (rp_result r =? VK_SUCCESS) = true ->
     Q (Ok r) w') ->
  wp (invoke driver true (CreateInstance version names)) Q w.
Proof.
  intros I Hfail Hok. apply wp_invoke_base; [done|].
  set (c := CreateInstance _ _). set (r := driver _ c).
  destruct (rp_result r =? VK_SUCCESS) eqn:Er.
  - apply Hok; [|done|done]. apply At_created; [done|done| | |decide_list].
    + cbn. by rewrite Er.
    + intros Hd. apply Z.eqb_eq in Er. subst r.
      by eapply (fresh_handle driver); [apply (at_log _ _ _ _ I)|..].
  - apply Hfail; [|done]. apply At_neutral; [done|done|]. cbn. by rewrite Er.
Qed.

Lemma wp_pending_proc i t w name Q :
  At (pending_instance i) none t w ->
  (forall b w', At (pending_instance i) none t w' ->
     w_context w' = w_context w ->
     (name = "vkDestroyInstance"%string -> b = true) -> Q (Ok b) w') ->
  wp (instance_proc driver i name) Q w.
Proof.
  intros I HQ. unfold instance_proc. apply wp_do, wp_invoke_base; [done|].
  cbn [then_wp]. apply wp_reply, HQ; [|done|].
  - apply At_neutral; [done| |done]. cbn. eapply pending_alive; [done|].
    by constructor.
  - intros ->. by apply negb_true_iff, Z.eqb_neq, resolves_destroy_instance.
Qed.

Lemma wp_destroy_instance f i t w Q :
  At (pending_instance i) none t w -> f = true ->
  (forall r w', At [] none t w' -> Q (Ok r) w') ->
  wp (invoke driver f (DestroyInstance i)) Q w.
Proof.
  intros I Hf HQ. apply wp_invoke_base; [done|]. apply HQ.
  by apply At_destroy_instance.
Qed.

(** An instance has no parent. *)
Lemma wp_insert_instance i t w id Q :
  At (pending_instance i) none t w -> entry_points w.(w_context) ->
  (id = 0 \/ bvb_handle_type id = BVB_OBJECT_INSTANCE) ->
  (forall t' w', At [] none t' w' -> Q (Ok tt) w') ->
  (forall e, Q (Err e) w) ->
  wp (table_insert id 0 i) Q w.
Proof.
  intros I He Hid Hok Herr.
  unfold table_insert, wp, bind, get_context, of_result, put_context. cbn.
  rewrite (at_objects _ _ _ _ I).
  destruct (bvb_handle_table_insert (Some t) id 0 i) as [t'|e] eqn:Hins; cbn;
    [|apply Herr].
  assert (Hty : bvb_handle_type id = BVB_OBJECT_INSTANCE).
  { destruct Hid as [->|]; [|done]. by apply insert_needs_id in Hins. }
  destruct (At_insert _ _ _ t' w id 0 i I Hins) as (I' & _).
  - by left.
  - unfold native. rewrite Hty. done.
  - rewrite Hty. intros Hn. exfalso. apply Hn. decide_list.
  - rewrite Hty. intros Hd id' p' Hm.
    by apply (at_pending _ _ _ _ I _ _ i ltac:(by constructor) Hd id' p').
  - done.
  - by apply (Hok t').
Qed.

Lemma wp_store_instance i t w Q :
  At (pending_instance i) none t w -> entry_points w.(w_context) ->
  (forall r w', settled w' -> Q r w') ->
  wp (store_instance driver true i) Q w.
Proof.
  intros I He HQ. unfold store_instance. apply wp_do.
  eapply wp_next_id; [exact I|]. intros id w1 I1 _ Hid He1. cbn [then_wp].
  apply wp_do, wp_catch.
  eapply wp_insert_instance; [exact I1|by apply He1|done| |].
  - intros t2 w2 I2. cbn [then_wp is_ok negb]. apply wp_reply, HQ. by exists t2.
  - intros e. cbn [then_wp is_ok negb]. apply wp_do.
    eapply wp_destroy_instance; [exact I1|done|]. intros r w2 I2. cbn [then_wp].
    apply wp_reply, HQ. by exists t.
Qed.

Lemma create_instance_keeps request enabled_extensions :
  keeps (bvb_vulkan_global_context_create_instance driver request
           enabled_extensions).
Proof.
  run_keeps bvb_vulkan_global_context_create_instance.
  eapply wp_create_instance; [exact I|intros r w1 I1 Er|intros r w1 I1 C1 Er];
    clear I; cbn [then_wp]; rewrite Er; wp_run.
  - eapply wp_store_instance; [exact I1|by rewrite C1|done].
  - eapply wp_pending_proc; [exact I1|]. clear I1. intros found w2 I2 C2 _. wp_run.
    eapply wp_put_entry_points; [exact I2|intros [? ?]; split; congruence|].
    clear I2. intros w3 I3 _ C3. wp_run.
    + eapply wp_destroy_instance; [exact I3|done|]. intros; wp_run.
    + eapply wp_store_instance; [exact I3| |done]. rewrite C3. by destruct found.
  - eapply wp_pending_proc; [exact I1|]. clear I1. intros found w2 I2 C2 Hf. wp_run.
    rewrite (Hf eq_refl). clear found Hf.
    eapply wp_put_entry_points; [exact I2|intros [? ?]; split; congruence|].
    clear I2. intros w3 I3 _ C3. wp_run.
    + eapply wp_store_instance; [exact I3|by rewrite C3|done].
    + eapply wp_pending_proc; [exact I3|]. clear I3. intros found w4 I4 C4 _. wp_run.
      eapply wp_put_entry_points; [exact I4| |].
      { rewrite C4, C3. cbn. intros [? ?]. split; congruence. }
      clear I4. intros w5 I5 _ C5. wp_run.
      * eapply wp_destroy_instance; [exact I5|done|]. intros; wp_run.
      * eapply wp_store_instance; [exact I5| |done]. rewrite C5. by destruct found.
Qed.

(** Every handle the driver listed becomes a child of the instance. *)
Lemma wp_physical_device_ids i id l Q : forall t w,
  At [] none t w -> bvb_handle_type id = BVB_OBJECT_INSTANCE ->
  (exists p, table_map t !! id = Some (p, i)) ->
  Forall (fun b => (BVB_OBJECT_PHYSICAL_DEVICE, i, b)
            ∈ ds_known (driver_after VK_SUCCESS (w_log w))) l ->
  (forall r w', settled w' -> Q r w') ->
  wp (physical_device_ids id l) Q w.
Proof.
  revert Q. induction l as [|b l IH]; intros Q t w I Hid [p Hm] Hl HQ;
    cbn [physical_device_ids].
  { apply wp_reply, HQ. by exists t. }
  inversion Hl as [|? ? Hb Hl' E1]; subst. apply wp_do.
  unfold existing_physical_device_id, existing_id.
  apply wp_do, wp_get_context. cbn [then_wp]. apply wp_reply. cbn [then_wp].
  match goal with |- wp (bind (if ?c then _ else _) _) _ _ => destruct c end.
  - apply wp_do, wp_do. eapply wp_next_id; [exact I|].
    intros wire_id w1 I1 Hlog Hw _. cbn [then_wp]. apply wp_do.
    eapply (wp_insert_known BVB_OBJECT_PHYSICAL_DEVICE);
      [exact I1|done|decide_list| |by eauto|done| | | |].
    + decide_list.
    + intros _. rewrite Hlog. unfold owner, bits_of. by rewrite Hm.
    + intros Hd. exfalso. revert Hd. decide_list.
    + intros t2 w2 I2 Hty Ht Hn Hlog2. cbn [then_wp]. apply wp_reply.
      cbn [then_wp]. apply wp_do. apply (IH _ t2 w2 I2 Hid).
      * exists p. rewrite Ht, lookup_insert_ne; [done|]. congruence.
      * by rewrite Hlog2, Hlog.
      * intros [ids|e] w3 Hs; cbn [then_wp]; [by apply wp_reply, HQ|by apply HQ].
    + intros e. cbn [then_wp]. apply HQ. by exists t.
  - apply wp_do, wp_reply. cbn [then_wp]. apply wp_do.
    apply (IH _ t w I Hid); [by exists p|done|].
    intros [ids|e] w3 Hs; cbn [then_wp]; [by apply wp_reply, HQ|by apply HQ].
Qed.

Lemma enumerate_physical_devices_keeps instance_id :
  keeps (bvb_vulkan_global_context_enumerate_physical_devices driver
           instance_id).
Proof.
  run_keeps bvb_vulkan_global_context_enumerate_physical_devices.
  apply wp_invoke_base; [entry_point|]. set (c := EnumeratePhysicalDevices _).
  set (reply := driver _ c). cbn [then_wp].
  assert (I1 : At [] none t (observe w1 (c, reply))).
  { eapply (At_learned [] none t w1 c reply BVB_OBJECT_PHYSICAL_DEVICE);
      [done| |done]. cbn. solve_alive. }
  wp_run. eapply wp_physical_device_ids; [exact I1|done|by eauto| |].
  - apply Forall_forall. intros x Hx%list_elem_of_In. unfold observe. cbn [w_log].
    rewrite driver_after_snoc. cbn. apply elem_of_app. left.
    apply list_elem_of_fmap. eauto.
  - intros [ids|e] w2 Hs; cbn [then_wp]; [by apply wp_reply|done].
Qed.
End invariant.
