(* ===== verification/BackendDevice.v ===== *)
(** * BackendDevice: devices and queues of the service

    Creating a device, taking its queues, and destroying it, in
    src/vulkan_global.c.  Destroying a device first destroys every object
    under it, kind by kind, in an order in which nothing is destroyed before
    what depends on it; destroying an instance first destroys its devices.
    No swapchain is modelled: the loops over the swapchains find none. *)

From stdpp Require Import strings gmap.
From S2P Require Import Prelude Wire Abi Codec ProtocolInstance ProtocolDevice MessageLists MessageImage Backend BackendInvariant BackendRules BackendSync BackendDescriptor BackendPipeline BackendPhysical MemoryMirror BackendMirror BackendMemory BackendImage BackendCommand BackendInstance.

Abbreviation BVB_VULKAN_MAX_DEVICE_QUEUE_CREATE_INFOS := 8 (only parsing).
Abbreviation BVB_VULKAN_MAX_DEVICE_QUEUE_PRIORITIES := 16 (only parsing).
Abbreviation BVB_VULKAN_MAX_DEVICE_CREATE_EXTENSIONS := 64 (only parsing).
Abbreviation BVB_VULKAN_DEVICE_FEATURE_VULKAN_11 := 1 (only parsing).
Abbreviation BVB_VULKAN_DEVICE_FEATURE_VULKAN_12 := 2 (only parsing).
Abbreviation BVB_VULKAN_DEVICE_FEATURE_VULKAN_13 := 4 (only parsing).
Abbreviation BVB_VULKAN_DEVICE_FEATURE_DEPTH_CLIP_ENABLE := 8 (only parsing).
Abbreviation BVB_VULKAN_DEVICE_FEATURE_ROBUSTNESS_2 := 16 (only parsing).
Abbreviation BVB_VULKAN_DEVICE_FEATURE_MAINTENANCE_5 := 32 (only parsing).
Abbreviation BVB_VULKAN_DEVICE_FEATURE_MAINTENANCE_6 := 64 (only parsing).
Abbreviation BVB_VULKAN_DEVICE_FEATURE_BASE := 128 (only parsing).
Abbreviation BVB_VULKAN_DEVICE_FEATURE_STRUCT_MASK := 255 (only parsing).

Record bvb_vulkan_device_create_packed_request :=
    mk_bvb_vulkan_device_create_packed_request {
  dcp_rq_physical_device_id : Z;
  dcp_rq_flags : Z;
  dcp_rq_queue_create_info_count : Z;
  dcp_rq_queue_priority_count : Z;
  dcp_rq_enabled_layer_count : Z;
  dcp_rq_enabled_extension_count : Z;
  dcp_rq_enabled_feature_structs : Z;
  dcp_rq_enabled_features : bvb_vulkan_core_features;
  dcp_rq_enabled_base_features : list Z;
  dcp_rq_queue_create_infos : list bvb_vulkan_device_queue_create_info;
  dcp_rq_queue_priority_bits : list Z
}.

Abbreviation device_response := mk_bvb_vulkan_device_create_response.

(** [priority >= 0.0F && priority <= 1.0F] of the float with these bits: the
    bits of 0.0 to 1.0, and of -0.0. *)
Definition unit_priority (bits : Z) : bool :=
  (bits <=? 1065353216) || (bits =? 2147483648).

(** A structure of the feature chain: its bit, and its fields in order. *)
Definition feature_struct (enabled bit : Z) (fields : list Z) : list Z :=
  if Z.land enabled bit =? 0 then [] else bit :: fields.

Definition feature_chain (enabled : Z) (f : bvb_vulkan_core_features)
    (base : list Z) : list Z :=
  (feature_struct enabled BVB_VULKAN_DEVICE_FEATURE_VULKAN_11
     [f.(cf_shader_draw_parameters)] ++
   feature_struct enabled BVB_VULKAN_DEVICE_FEATURE_VULKAN_12
     [f.(cf_sampler_mirror_clamp_to_edge); f.(cf_descriptor_indexing);
      f.(cf_descriptor_binding_sampled_image_update_after_bind);
      f.(cf_descriptor_binding_update_unused_while_pending);
      f.(cf_descriptor_binding_partially_bound);
      f.(cf_runtime_descriptor_array); f.(cf_scalar_block_layout);
      f.(cf_uniform_buffer_standard_layout); f.(cf_host_query_reset);
      f.(cf_timeline_semaphore); f.(cf_buffer_device_address);
      f.(cf_vulkan_memory_model)] ++
   feature_struct enabled BVB_VULKAN_DEVICE_FEATURE_VULKAN_13
     [f.(cf_shader_demote_to_helper_invocation);
      f.(cf_subgroup_size_control); f.(cf_compute_full_subgroups);
      f.(cf_synchronization2); f.(cf_shader_zero_initialize_workgroup_memory);
      f.(cf_dynamic_rendering); f.(cf_maintenance4)] ++
   feature_struct enabled BVB_VULKAN_DEVICE_FEATURE_DEPTH_CLIP_ENABLE
     [f.(cf_depth_clip_enable)] ++
   feature_struct enabled BVB_VULKAN_DEVICE_FEATURE_ROBUSTNESS_2
     [f.(cf_robust_buffer_access2); f.(cf_null_descriptor)] ++
   feature_struct enabled BVB_VULKAN_DEVICE_FEATURE_MAINTENANCE_5
     [f.(cf_maintenance5)] ++
   feature_struct enabled BVB_VULKAN_DEVICE_FEATURE_MAINTENANCE_6
     [f.(cf_maintenance6)] ++
   feature_struct enabled BVB_VULKAN_DEVICE_FEATURE_BASE base)%list.

(** The loop over the queue infos; [prior] are the families before. *)
Fixpoint queue_infos_valid (priority_count : Z) (queue_counts prior : list Z)
    (infos : list bvb_vulkan_device_queue_create_info) : bool :=
  match infos with
  | [] => true
  | info :: infos =>
      let family := info.(qci_queue_family_index) in
      (info.(qci_flags) =? 0) && negb (info.(qci_queue_count) =? 0) &&
      (family <? Z.of_nat (List.length queue_counts)) &&
      (info.(qci_queue_count) <=? nth (Z.to_nat family) queue_counts 0) &&
      (info.(qci_first_priority) <? priority_count) &&
      (info.(qci_queue_count) <=? priority_count - info.(qci_first_priority)) &&
      negb (existsb (fun other => other =? family) prior) &&
      queue_infos_valid priority_count queue_counts (family :: prior) infos
  end.

(** [VkDeviceQueueCreateInfo]: the family, the count and the priorities. *)
Definition native_queue_info (priorities : list Z)
    (info : bvb_vulkan_device_queue_create_info) : Z * Z * list Z :=
  (info.(qci_queue_family_index), info.(qci_queue_count),
   take (Z.to_nat info.(qci_queue_count))
     (drop (Z.to_nat info.(qci_first_priority)) priorities)).

Section operations.
Context {VH : VulkanHeader} {VI : VulkanImage} {VC : VulkanCore}.
Context (driver : list event -> vk_call -> vk_reply).

(** ** Creation *)

(** The end of a creation: the device is stored, or destroyed again. *)
Definition store_device (request : bvb_vulkan_device_create_packed_request)
    (infos : list bvb_vulkan_device_queue_create_info) (atom_size : Z)
    (destroy_device : bool) (device : Z) :
    M bvb_vulkan_device_create_response :=
  let discard :=
    do _ := invoke driver destroy_device (DestroyDevice device) ;;
    ret (device_response VK_ERROR_TOO_MANY_OBJECTS 0) in
  do wire_id := next_id BVB_OBJECT_DEVICE ;;
  do context := get_context ;;
  match device_metadata_slot context 0 with
  | None => discard
  | Some (index, _) =>
      do result := catch
        (table_insert wire_id request.(dcp_rq_physical_device_id) device) ;;
      if negb (is_ok result) then discard
      else
        do _ := put_context (set_device_metadata index
          (mk_device_metadata wire_id atom_size
             request.(dcp_rq_queue_create_info_count) infos)) ;;
        ret (device_response VK_SUCCESS wire_id)
  end.

Definition bvb_vulkan_global_context_create_device_packed
    (request : bvb_vulkan_device_create_packed_request)
    (enabled_extensions : ptr (list bytes)) :
    M bvb_vulkan_device_create_response :=
  let info_count := request.(dcp_rq_queue_create_info_count) in
  let priority_count := request.(dcp_rq_queue_priority_count) in
  let extension_count := request.(dcp_rq_enabled_extension_count) in
  let invalid := device_response VK_ERROR_INITIALIZATION_FAILED 0 in
  reply_if negb (request.(dcp_rq_flags) =? 0) || (info_count =? 0) ||
           (BVB_VULKAN_MAX_DEVICE_QUEUE_CREATE_INFOS <? info_count) ||
           (priority_count =? 0) ||
           (BVB_VULKAN_MAX_DEVICE_QUEUE_PRIORITIES <? priority_count) ||
           negb (request.(dcp_rq_enabled_layer_count) =? 0) ||
           (negb (extension_count =? 0) &&
            negb (bool_decide (is_Some enabled_extensions))) ||
           (BVB_VULKAN_MAX_DEVICE_CREATE_EXTENSIONS <? extension_count) ||
           negb (Z.ldiff request.(dcp_rq_enabled_feature_structs)
                   BVB_VULKAN_DEVICE_FEATURE_STRUCT_MASK =? 0)
    with invalid ;;
  let priorities := take (Z.to_nat priority_count)
                      request.(dcp_rq_queue_priority_bits) in
  reply_if negb (forallb unit_priority priorities) with invalid ;;
  do context := get_context ;;
  reply_if context.(ctx_objects).(ht_count) =?
             context.(ctx_objects).(ht_capacity)
    with device_response VK_ERROR_TOO_MANY_OBJECTS 0 ;;
  do (instance, physical_device) :=
    resolve_physical_device request.(dcp_rq_physical_device_id) ;;
  do properties :=
    bvb_vulkan_global_context_get_physical_device_properties driver
      request.(dcp_rq_physical_device_id) ;;
  stop_if properties.(pp_non_coherent_atom_size) =? 0 with (- EPROTO) ;;
  do queue_counts :=
    bvb_vulkan_global_context_get_queue_family_properties driver
      request.(dcp_rq_physical_device_id) ;;
  let infos := take (Z.to_nat info_count) request.(dcp_rq_queue_create_infos) in
  reply_if negb (queue_infos_valid priority_count queue_counts [] infos)
    with invalid ;;
  do create_device := instance_proc driver instance "vkCreateDevice" ;;
  stop_if negb create_device with (- ENOSYS) ;;
  do created := invoke driver create_device
    (CreateDevice physical_device (native_queue_info priorities <$> infos)
       (feature_chain request.(dcp_rq_enabled_feature_structs)
          request.(dcp_rq_enabled_features)
          request.(dcp_rq_enabled_base_features))
       (take (Z.to_nat extension_count) (default [] enabled_extensions))) ;;
  reply_if negb (created.(rp_result) =? VK_SUCCESS)
    with device_response created.(rp_result) 0 ;;
  let device := rp_handle created in
  do destroy_device := device_proc driver device "vkDestroyDevice" ;;
  reply_if negb destroy_device with invalid ;;
  store_device request infos properties.(pp_non_coherent_atom_size)
    destroy_device device.

Definition zero_core_features : bvb_vulkan_core_features :=
  mk_bvb_vulkan_core_features 0 0 0 0 0 0 0 0 0 0 0 0 0 0 0 0 0 0 0 0 0 0 0 0 0.

Definition bvb_vulkan_global_context_create_device
    (request : bvb_vulkan_device_create_request)
    (enabled_extensions : ptr (list bytes)) :
    M bvb_vulkan_device_create_response :=
  bvb_vulkan_global_context_create_device_packed
    (mk_bvb_vulkan_device_create_packed_request
       request.(dc_rq_physical_device_id) request.(dc_rq_flags) 1 1
       request.(dc_rq_enabled_layer_count)
       request.(dc_rq_enabled_extension_count) 0 zero_core_features
       (replicate 55 0)
       [mk_device_queue_create_info 0 request.(dc_rq_queue_family_index)
          request.(dc_rq_queue_count) 0]
       [request.(dc_rq_queue_priority_bits)])
    enabled_extensions.

(** ** Queues *)

Definition existing_queue_id (device_id native_bits : Z) : M Z :=
  existing_id BVB_OBJECT_QUEUE device_id native_bits.

Definition bvb_vulkan_global_context_get_device_queue
    (request : bvb_vulkan_device_queue_request) : M Z :=
  do (_, device) := table_lookup request.(dq_rq_device_id) BVB_OBJECT_DEVICE ;;
  do context := get_context ;;
  match known_device context request.(dq_rq_device_id) with
  | None => stop (- ENOENT)
  | Some metadata =>
  let created_queue_count :=
    device_metadata_queue_count metadata request.(dq_rq_queue_family_index) in
  stop_if (created_queue_count =? 0) ||
          (created_queue_count <=? request.(dq_rq_queue_index))
    with (- ERANGE) ;;
  do get_queue := device_proc driver device "vkGetDeviceQueue" ;;
  stop_if negb get_queue with (- ENOSYS) ;;
  do r := invoke driver get_queue
    (GetDeviceQueue device request.(dq_rq_queue_family_index)
       request.(dq_rq_queue_index)) ;;
  let queue := rp_handle r in
  stop_if queue =? 0 with (- EIO) ;;
  do found := existing_queue_id request.(dq_rq_device_id) queue ;;
  if found =? 0 then
    do wire_id := next_id BVB_OBJECT_QUEUE ;;
    do _ := table_insert wire_id request.(dq_rq_device_id) queue ;;
    ret wire_id
  else ret found
  end.

(** ** Destruction *)

(** The scan for image views: their images are the device's. *)
Definition destroy_device_views (device_id : Z) : M unit :=
  for_m BVB_GLOBAL_OBJECT_CAPACITY (fun index =>
    do entry := object_entry index ;;
    if bvb_handle_type entry.(he_wire_id) =? BVB_OBJECT_IMAGE_VIEW then
      do found := catch (table_lookup entry.(he_parent_id) BVB_OBJECT_IMAGE) ;;
      if match found with
         | Ok (image_device_id, _) => image_device_id =? device_id
         | Err _ => false
         end
      then bvb_vulkan_global_context_destroy_image_view driver
             entry.(he_wire_id)
      else ret tt
    else ret tt).

(** The objects of each kind, in the order of the loops. *)
Definition destroy_device_objects (device_id : Z) : M unit :=
  do _ := for_children BVB_OBJECT_PIPELINE device_id
    (bvb_vulkan_global_context_destroy_pipeline driver) ;;
  do _ := for_children BVB_OBJECT_PIPELINE_LAYOUT device_id
    (bvb_vulkan_global_context_destroy_pipeline_layout driver) ;;
  do _ := for_children BVB_OBJECT_QUERY_POOL device_id
    (bvb_vulkan_global_context_destroy_query_pool driver) ;;
  do _ := for_children BVB_OBJECT_DESCRIPTOR_POOL device_id
    (bvb_vulkan_global_context_destroy_descriptor_pool driver) ;;
  do _ := for_children BVB_OBJECT_SAMPLER device_id
    (bvb_vulkan_global_context_destroy_sampler driver) ;;
  do _ := for_children BVB_OBJECT_DESCRIPTOR_UPDATE_TEMPLATE device_id
    (bvb_vulkan_global_context_destroy_descriptor_update_template driver) ;;
  do _ := for_children BVB_OBJECT_DESCRIPTOR_SET_LAYOUT device_id
    (bvb_vulkan_global_context_destroy_descriptor_set_layout driver) ;;
  do _ := for_children BVB_OBJECT_COMMAND_POOL device_id
    (bvb_vulkan_global_context_destroy_command_pool driver) ;;
  do _ := destroy_device_views device_id ;;
  do _ := for_children BVB_OBJECT_IMAGE device_id
    (bvb_vulkan_global_context_destroy_image driver) ;;
  do _ := for_children BVB_OBJECT_BUFFER device_id
    (bvb_vulkan_global_context_destroy_buffer driver) ;;
  do _ := for_children BVB_OBJECT_DEVICE_MEMORY device_id
    (bvb_vulkan_global_context_free_memory driver) ;;
  do _ := for_children BVB_OBJECT_FENCE device_id
    (bvb_vulkan_global_context_destroy_fence driver) ;;
  do _ := for_children BVB_OBJECT_SEMAPHORE device_id
    (bvb_vulkan_global_context_destroy_semaphore driver) ;;
  for_children BVB_OBJECT_QUEUE device_id (fun id =>
    do _ := table_remove id BVB_OBJECT_QUEUE ;; ret tt).

Definition device_is_mirrored (c : bvb_vulkan_global_context)
    (device_id : Z) : bool :=
  existsb (fun m => negb (m.(mr_memory_id) =? 0) &&
                    (m.(mr_device_id) =? device_id))
    c.(ctx_memory_mirrors).

Definition bvb_vulkan_global_context_destroy_device (device_id : Z) :
    M unit :=
  do context := get_context ;;
  stop_if negb context.(ctx_get_device_proc_addr) with (- EINVAL) ;;
  do (_, device) := table_lookup device_id BVB_OBJECT_DEVICE ;;
  do destroy_device := device_proc driver device "vkDestroyDevice" ;;
  stop_if negb destroy_device with (- ENOSYS) ;;
  do context := get_context ;;
  stop_if device_is_mirrored context device_id with (- EBUSY) ;;
  do _ := destroy_device_objects device_id ;;
  do _ := table_remove device_id BVB_OBJECT_DEVICE ;;
  do context := get_context ;;
  do _ := match device_metadata_slot context device_id with
          | Some (index, metadata) =>
              if metadata.(dm_device_id) =? device_id
              then put_context (set_device_metadata index zero_device_metadata)
              else ret tt
          | None => ret tt
          end ;;
  do _ := invoke driver destroy_device (DestroyDevice device) ;;
  ret tt.

(** The scan for devices: their physical devices are the instance's. *)
Definition destroy_instance_devices (instance_id : Z) : M unit :=
  for_m BVB_GLOBAL_OBJECT_CAPACITY (fun index =>
    do entry := object_entry index ;;
    if bvb_handle_type entry.(he_wire_id) =? BVB_OBJECT_DEVICE then
      do found := catch (table_lookup entry.(he_parent_id)
                           BVB_OBJECT_PHYSICAL_DEVICE) ;;
      if match found with
         | Ok (physical_parent, _) => physical_parent =? instance_id
         | Err _ => false
         end
      then bvb_vulkan_global_context_destroy_device entry.(he_wire_id)
      else ret tt
    else ret tt).

Definition bvb_vulkan_global_context_destroy_instance (instance_id : Z) :
    M unit :=
  do context := get_context ;;
  stop_if negb context.(ctx_destroy_instance) with (- EINVAL) ;;
  do (_, _) := table_lookup instance_id BVB_OBJECT_INSTANCE ;;
  do _ := destroy_instance_devices instance_id ;;
  do _ := remove_children BVB_OBJECT_PHYSICAL_DEVICE instance_id ;;
  do instance := table_remove instance_id BVB_OBJECT_INSTANCE ;;
  do _ := invoke driver context.(ctx_destroy_instance)
    (DestroyInstance instance) ;;
  ret tt.
End operations.

(** ** The invariant *)

Section invariant.
Context {VH : VulkanHeader} {VI : VulkanImage} {VC : VulkanCore}.
Context (driver : list event -> vk_call -> vk_reply).
Context {CD : ConformingDriver driver} {AP : Apart}.

Abbreviation state w := (driver_after VK_SUCCESS w.(w_log)).

(** *** Destruction *)

(** What the loops have destroyed so far. *)
Definition cleared (device_id : Z) (t : bvb_handle_table) (types : list Z) :
    Prop :=
  Forall (fun ty => ty <> BVB_OBJECT_INVALID /\
                    no_child (table_map t) ty device_id) types.

Lemma cleared_shrinks t t' w w' device_id types :
  At [] none t w -> At [] none t' w' -> shrinks t t' ->
  cleared device_id t types -> cleared device_id t' types.
Proof.
  intros I I' Hsh. apply Forall_impl. intros ty [Hty Hn]. split; [done|].
  by apply (no_child_shrinks [] [] none none t t' w w').
Qed.

(** The end of a loop, or its failure. *)
Definition clears (device_id : Z) (t0 : bvb_handle_table) (types : list Z)
    (r : result unit) (w : world) : Prop :=
  exists t, At [] none t w /\ shrinks t0 t /\
    match r with Ok _ => cleared device_id t types | Err _ => True end.

(** One loop, and the loops that follow. *)
Lemma clears_step ty op k device_id t0 types final w :
  destroys op -> ty <> BVB_OBJECT_INVALID ->
  clears device_id t0 types (Ok tt) w ->
  (forall w', clears device_id t0 (ty :: types) (Ok tt) w' ->
     wp k (clears device_id t0 final) w') ->
  wp (do _ := for_children ty device_id op ;; k) (clears device_id t0 final) w.
Proof.
  intros Hop Hty (t & I & Hsh & Hc) Hk. apply wp_do.
  eapply wp_destroy_children; [done|done|done| |].
  - intros t' w' I' Hsh' Hn. cbn [then_wp]. apply Hk. exists t'.
    split_and!; [done|by etrans|]. constructor; [by split|].
    by apply (cleared_shrinks t t' w w').
  - intros x t' w' I' Hsh'. exists t'. split_and!; [done|by etrans|done].
Qed.

Lemma wp_destroy_views device_id t w Q :
  At [] none t w ->
  (forall t' w', At [] none t' w' -> shrinks t t' -> Q (Ok tt) w') ->
  (forall x t' w', At [] none t' w' -> shrinks t t' -> Q (Err x) w') ->
  wp (destroy_device_views driver device_id) Q w.
Proof.
  intros I Hok Herr. unfold destroy_device_views.
  eapply (wp_scan shrinks (fun _ _ => True));
    [apply _|done|done|done| |by intros; eapply Hok].
  intros t1 w1 i e I1 Hsh He.
  destruct (bvb_handle_type (he_wire_id e) =? BVB_OBJECT_IMAGE_VIEW);
    [|apply wp_reply; by exists t1].
  apply wp_do, wp_catch.
  assert (Hgo : forall found : result (Z * Z), wp (if match found with
      | Ok (image_device_id, _) => image_device_id =? device_id
      | Err _ => false
      end then bvb_vulkan_global_context_destroy_image_view driver
                 (he_wire_id e) else ret tt)
    (fun r w2 => match r with
       | Ok _ => exists t2, At [] none t2 w2 /\ shrinks t1 t2 /\
           (table_entries t2 !! i = Some e -> he_wire_id e <> 0 -> True)
       | Err x => Q (Err x) w2
       end) w1).
  { intros found. destruct (match found with Ok _ => _ | Err _ => _ end);
      [|apply wp_reply; by exists t1].
    eapply wp_weaken; [by apply destroy_image_view_destroys|].
    intros [[]|x] w2 (t2 & I2 & Hsh2 & _); [by exists t2|].
    apply (Herr x t2); [done|by etrans]. }
  eapply wp_lookup; [exact I1| |].
  - intros p b _ _ _. exact (Hgo (Ok (p, b))).
  - intros x. exact (Hgo (Err x)).
Qed.

Lemma wp_remove_queues device_id St t w Q :
  At [] St t w ->
  (forall t' w', At [] St t' w' -> shrinks t t' ->
     no_child (table_map t') BVB_OBJECT_QUEUE device_id -> Q (Ok tt) w') ->
  wp (for_children BVB_OBJECT_QUEUE device_id (fun id =>
        do _ := table_remove id BVB_OBJECT_QUEUE ;; ret tt)) Q w.
Proof.
  intros I HQ. eapply wp_remove_children; [done|decide_list|done| |].
  - intros t1 id b _ Hf _ _ Ht. apply childless_leaf; [done|]. rewrite Ht.
    decide_list.
  - intros t' w' I' [Hsh _]. by apply (HQ t').
Qed.

(** The kinds the loops go through, the last one first. *)
Definition device_kinds : list Z :=
  [BVB_OBJECT_QUEUE; BVB_OBJECT_SEMAPHORE; BVB_OBJECT_FENCE;
   BVB_OBJECT_DEVICE_MEMORY; BVB_OBJECT_BUFFER; BVB_OBJECT_IMAGE;
   BVB_OBJECT_COMMAND_POOL; BVB_OBJECT_DESCRIPTOR_SET_LAYOUT;
   BVB_OBJECT_DESCRIPTOR_UPDATE_TEMPLATE; BVB_OBJECT_SAMPLER;
   BVB_OBJECT_DESCRIPTOR_POOL; BVB_OBJECT_QUERY_POOL;
   BVB_OBJECT_PIPELINE_LAYOUT; BVB_OBJECT_PIPELINE].

Ltac clear_step lem :=
  eapply clears_step; [apply lem|done|eassumption|]; intros ? ?.

Lemma destroy_device_objects_clears device_id t0 w :
  At [] none t0 w ->
  wp (destroy_device_objects driver device_id)
    (clears device_id t0 device_kinds) w.
Proof.
  intros I. assert (H0 : clears device_id t0 [] (Ok tt) w).
  { exists t0. split_and!; [done|done|by apply Forall_nil]. }
  unfold destroy_device_objects.
  clear_step (destroy_pipeline_destroys driver).
  clear_step (destroy_pipeline_layout_destroys driver).
  clear_step (destroy_query_pool_destroys driver).
  clear_step (destroy_descriptor_pool_destroys driver).
  clear_step (destroy_sampler_destroys driver).
  clear_step (destroy_descriptor_update_template_destroys driver).
  clear_step (destroy_descriptor_set_layout_destroys driver).
  clear_step (destroy_command_pool_destroys driver).
  apply wp_do. match goal with H : clears _ _ _ _ ?w |- wp _ _ ?w =>
    destruct H as (t & It & Hsh & Hc) end.
  eapply wp_destroy_views; [exact It| |].
  2: { intros x t9 w9 I9 Hsh9. exists t9. split_and!; [done|by etrans|done]. }
  intros t9 w9 I9 Hsh9. cbn [then_wp].
  assert (H9 : clears device_id t0 (BVB_OBJECT_COMMAND_POOL ::
    BVB_OBJECT_DESCRIPTOR_SET_LAYOUT :: BVB_OBJECT_DESCRIPTOR_UPDATE_TEMPLATE ::
    BVB_OBJECT_SAMPLER :: BVB_OBJECT_DESCRIPTOR_POOL ::
    BVB_OBJECT_QUERY_POOL :: BVB_OBJECT_PIPELINE_LAYOUT ::
    BVB_OBJECT_PIPELINE :: []) (Ok tt) w9).
  { exists t9. split_and!; [done|by etrans|]. by eapply (cleared_shrinks t t9). }
  clear dependent t.
  clear_step (destroy_image_destroys driver).
  clear_step (destroy_buffer_destroys driver).
  clear_step (free_memory_destroys driver).
  clear_step (destroy_fence_destroys driver).
  clear_step (destroy_semaphore_destroys driver).
  match goal with H : clears _ _ (_ :: _ :: _ :: _ :: _ :: _) _ ?w |- wp _ _ ?w =>
    destruct H as (t & It & Hsh & Hc) end.
  eapply wp_remove_queues; [exact It|]. intros t2 w2 I2 Hsh2 Hn. exists t2.
  split_and!; [done|by etrans|]. constructor; [by split|].
  by eapply (cleared_shrinks t t2).
Qed.

Lemma cleared_childless device_id t :
  forest (table_map t) -> bvb_handle_type device_id = BVB_OBJECT_DEVICE ->
  cleared device_id t device_kinds -> childless (table_map t) device_id.
Proof.
  intros Hf Hty Hc. eapply (childless_no_child _ _ _ device_kinds); [done|done| |].
  - decide_list.
  - intros dep Hin%list_elem_of_In.
    by apply (proj1 (Forall_forall _ _) Hc dep Hin).
Qed.

Lemma wp_destroy_device f p d t w Q :
  At [(BVB_OBJECT_DEVICE, p, d)] none t w -> f = true ->
  (forall r w', At [] none t w' -> Q (Ok r) w') ->
  wp (invoke driver f (DestroyDevice d)) Q w.
Proof.
  intros I Hf HQ. apply wp_invoke_base; [done|]. apply HQ.
  by eapply At_destroy_device.
Qed.

Lemma destroy_device_destroys :
  destroys (bvb_vulkan_global_context_destroy_device driver).
Proof.
  run_destroys bvb_vulkan_global_context_destroy_device.
  eapply wp_weaken; [by apply destroy_device_objects_clears|].
  intros [[]|e] w1 (t1 & I1 & Hsh & Hc); cbn [then_wp]; [|by exists t1].
  apply wp_do. eapply wp_remove_owned; [exact I1| |discriminate|decide_list| |].
  - intros q c _ Hty. apply cleared_childless; [apply I1|done|done].
  - intros q c t2 w2 Hm Hty I2 Ht2 Hsh2. cbn [then_wp].
    assert (Hmt : table_map t !! id = Some (q, c)).
    { eapply (shrinks_lookup t t1); [apply I0|apply I0|apply I1|done| |done].
      by eapply typed_nonzero. }
    assert (c = b) as -> by congruence.
    assert (Hgone : table_map t2 !! id = None) by solve_gone.
    assert (Hend : forall w3, At [(BVB_OBJECT_DEVICE,
        owner (table_map t1) BVB_OBJECT_DEVICE q, b)] none t2 w3 ->
      wp (do _ := invoke driver proc (DestroyDevice b) ;; ret tt)
        (fun r w' => exists t', At [] none t' w' /\ shrinks t t' /\
           match r with Ok _ => table_map t' !! id = None | Err _ => True end)
        w3).
    { intros w3 I3. apply wp_do.
      eapply wp_destroy_device; [exact I3|entry_point|]. intros r w4 I4.
      apply wp_reply. exists t2. split_and!; [done|by etrans|done]. }
    wp_run; by apply Hend.
  - intros e _. by exists t1.
Qed.

(** *** Creation *)

Abbreviation pending_device p d := [(BVB_OBJECT_DEVICE, p, d)].

Lemma wp_create_device f p t w id q queues features names Q :
  At [] none t w -> f = true -> table_map t !! id = Some (q, p) ->
  bvb_handle_type id = BVB_OBJECT_PHYSICAL_DEVICE ->
  (forall r w', At [] none t w' -> (rp_result r =? VK_SUCCESS) = false ->
     Q (Ok r) w') ->
  (forall r w', At (pending_device p (rp_handle r)) none t w' ->
     (rp_result r =? VK_SUCCESS) = true -> Q (Ok r) w') ->
  wp (invoke driver f (CreateDevice p queues features names)) Q w.
Proof.
  intros I Hf Hm Hty Hfail Hok. apply wp_invoke_base; [done|].
  set (c := CreateDevice _ _ _ _). set (r := driver _ c).
  assert (Ha : allowed (state w) c) by (cbn; solve_alive).
  destruct (rp_result r =? VK_SUCCESS) eqn:Er.
  - apply Hok; [|done]. apply At_created; [done|done| | |decide_list].
    + cbn. by rewrite Er.
    + intros Hd. apply Z.eqb_eq in Er. subst r.
      by eapply (fresh_handle driver); [apply (at_log _ _ _ _ I)|..].
  - apply Hfail; [|done]. apply At_neutral; [done|done|]. cbn. by rewrite Er.
Qed.

Lemma wp_pending_destroy_proc p d t w Q :
  At (pending_device p d) none t w -> entry_points w.(w_context) ->
  (forall w', At (pending_device p d) none t w' -> Q (Ok true) w') ->
  wp (device_proc driver d "vkDestroyDevice") Q w.
Proof.
  intros I [He _] HQ. unfold device_proc. apply wp_do, wp_get_context.
  cbn [then_wp]. apply wp_do, wp_invoke_base; [done|]. cbn [then_wp].
  apply wp_reply.
  rewrite (proj2 (Z.eqb_neq _ _) (resolves_destroy_device driver _ _)).
  apply HQ. apply At_neutral; [done| |done]. cbn.
  eapply pending_alive; [done|]. by constructor.
Qed.

Lemma wp_store_device request infos atom_size id q p d t w Q :
  At (pending_device p d) none t w -> dcp_rq_physical_device_id request = id ->
  table_map t !! id = Some (q, p) ->
  bvb_handle_type id = BVB_OBJECT_PHYSICAL_DEVICE ->
  (forall r w', settled w' -> Q r w') ->
  wp (store_device driver request infos atom_size true d) Q w.
Proof.
  intros I <- Hm Hty HQ. unfold store_device.
  assert (Hdiscard : forall w1, At (pending_device p d) none t w1 ->
    wp (do _ := invoke driver true (DestroyDevice d) ;;
        ret (device_response VK_ERROR_TOO_MANY_OBJECTS 0)) Q w1).
  { intros w1 I1. apply wp_do. eapply wp_destroy_device; [exact I1|done|].
    intros r w2 I2. apply wp_reply, HQ. by exists t. }
  apply wp_do. eapply wp_next_id; [exact I|]. intros id w1 I1 _ Hid _.
  cbn [then_wp]. apply wp_do, wp_get_context. cbn [then_wp].
  destruct (device_metadata_slot _ 0) as [[index metadata]|]; [|by apply Hdiscard].
  apply wp_do, wp_catch.
  eapply wp_insert; [exact I1|done|decide_list| |by eauto|exact Hty| |done| |].
  - decide_list.
  - unfold owner, bits_of. by rewrite Hm.
  - intros t2 w2 I2 _ _ _. cbn [then_wp is_ok negb]. wp_run. apply HQ. by exists t2.
  - intros e. cbn [then_wp is_ok negb]. by apply Hdiscard.
Qed.

Lemma create_device_packed_keeps request names :
  keeps (bvb_vulkan_global_context_create_device_packed driver request names).
Proof.
  run_keeps bvb_vulkan_global_context_create_device_packed.
  eapply wp_physical_properties; [exact I|]. clear I. intros [properties|e] w1 I1 _;
    cbn [then_wp]; [|by exists t].
  wp_run. eapply wp_queue_families; [exact I1|]. clear I1.
  intros [counts|e] w2 I2 _; cbn [then_wp]; [|by exists t].
  wp_run. eapply wp_create_device; [eassumption|entry_point|eassumption|done| |];
    intros created w3 I3 Er; cbn [then_wp]; rewrite Er; wp_run.
  eapply wp_pending_destroy_proc; [exact I3| |].
  { eapply At_context; [exact I3|]. eauto. }
  clear I3. intros w4 I4. cbn [then_wp negb].
  eapply wp_store_device; [exact I4|done|eassumption|done|done].
Qed.

Lemma create_device_keeps request names :
  keeps (bvb_vulkan_global_context_create_device driver request names).
Proof. apply create_device_packed_keeps. Qed.

(** *** Queues *)

Lemma get_device_queue_keeps request :
  keeps (bvb_vulkan_global_context_get_device_queue driver request).
Proof.
  run_keeps bvb_vulkan_global_context_get_device_queue.
  apply wp_invoke_base; [entry_point|]. set (c := GetDeviceQueue _ _ _).
  set (reply := driver _ c). cbn [then_wp].
  assert (I1 : At [] none t (observe w0 (c, reply))).
  { eapply (At_learned [] none t w0 c reply BVB_OBJECT_QUEUE); [done| |done].
    cbn. by eapply device_alive. }
  destruct (rp_handle reply =? 0) eqn:Eh; [wp_run|].
  wp_step. unfold existing_queue_id, existing_id. wp_step. wp_step. wp_step.
  cbn [then_wp].
  match goal with |- wp (if ?c then _ else _) _ _ => destruct c end; [|wp_run].
  apply wp_do. eapply wp_next_id; [exact I1|]. intros id w2 I2 Hlog Hid _.
  cbn [then_wp]. apply wp_do.
  eapply (wp_insert_known BVB_OBJECT_QUEUE);
    [exact I2|done|decide_list| |by eauto|done| | | |].
  - decide_list.
  - intros _. rewrite Hlog. unfold observe. cbn [w_log].
    rewrite driver_after_snoc. unfold owner, bits_of. rewrite H. cbn.
    apply elem_of_app. left. apply list_elem_of_fmap. exists (rp_handle reply).
    split; [done|]. unfold rp_handle in *.
    destruct (rp_values reply); [done|by constructor].
  - intros Hd. exfalso. revert Hd. decide_list.
  - intros t3 w3 I3 _ _ _ _. cbn [then_wp]. wp_run.
  - intros e. by exists t.
Qed.

(** *** Destroying an instance *)

(** Slots the scan for the instance's devices is done with. *)
Definition not_device_of (instance_id : Z) (t : bvb_handle_table)
    (e : bvb_handle_entry) : Prop :=
  bvb_handle_type e.(he_wire_id) = BVB_OBJECT_DEVICE ->
  bvb_handle_type e.(he_parent_id) = BVB_OBJECT_PHYSICAL_DEVICE ->
  forall b, table_map t !! e.(he_parent_id) <> Some (instance_id, b).

Lemma wp_destroy_devices instance_id t w Q :
  At [] none t w ->
  (forall t' w', At [] none t' w' -> shrinks t t' ->
     (forall i e, table_entries t' !! i = Some e -> he_wire_id e <> 0 ->
        not_device_of instance_id t' e) -> Q (Ok tt) w') ->
  (forall x t' w', At [] none t' w' -> shrinks t t' -> Q (Err x) w') ->
  wp (destroy_instance_devices driver instance_id) Q w.
Proof.
  intros I Hok Herr. unfold destroy_instance_devices.
  eapply (wp_scan shrinks (not_device_of instance_id));
    [apply _|done|done| | |].
  - intros t1 t2 e Hwf Hc Hwf' Hsh Hd Hty Hp b Hm. apply (Hd Hty Hp b).
    eapply shrinks_lookup; try done. by eapply typed_nonzero.
  - intros t1 w1 i e I1 Hsh He.
    destruct (Z.eqb_spec (bvb_handle_type (he_wire_id e)) BVB_OBJECT_DEVICE);
      [|apply wp_reply; exists t1; split_and!; [done|done|by intros _ _ ?]].
    apply wp_do, wp_catch. eapply wp_lookup_exact; [exact I1| |].
    + intros p b Hm Hty. cbn [then_wp].
      destruct (Z.eqb_spec p instance_id) as [->|Hne].
      * eapply wp_weaken; [by apply destroy_device_destroys|].
        intros [[]|x] w2 (t2 & I2 & Hsh2 & Hgone).
        -- exists t2. split_and!; [done|done|]. intros He2 Hne. exfalso.
           by eapply slot_gone.
        -- apply (Herr x t2); [done|by etrans].
      * apply wp_reply. exists t1. split_and!; [done|done|].
        intros _ _ _ _ b' Hm'. congruence.
    + intros x Hno. cbn [then_wp]. apply wp_reply. exists t1.
      split_and!; [done|done|]. intros _ _ _ Hp b Hm. by eapply Hno.
  - intros t' w' I' Hsh Hs. by apply (Hok t').
Qed.

Lemma physical_device_childless instance_id t t1 id b :
  wf t -> clean t -> wf t1 -> shrinks t t1 -> forest (table_map t1) ->
  (forall i e, table_entries t !! i = Some e -> he_wire_id e <> 0 ->
     not_device_of instance_id t e) ->
  table_map t1 !! id = Some (instance_id, b) ->
  bvb_handle_type id = BVB_OBJECT_PHYSICAL_DEVICE ->
  childless (table_map t1) id.
Proof.
  intros Hwf Hc Hwf1 Hsh Hf Hs Hm Hty.
  eapply (childless_no_child _ _ _ [BVB_OBJECT_DEVICE]); [done|done|decide_list|].
  intros dep ->%list_elem_of_singleton id' p b' Hm' Hty' ->.
  apply (shrinks_lookup t) in Hm'; [|done..|by eapply typed_nonzero].
  apply (shrinks_lookup t) in Hm; [|done..|by eapply typed_nonzero].
  apply (table_map_lookup _ _ _ Hwf) in Hm' as (i & e & He & _ & <- & [= -> _]).
  by apply (Hs i e He ltac:(by eapply typed_nonzero) Hty' Hty b).
Qed.

Lemma destroy_instance_destroys :
  destroys (bvb_vulkan_global_context_destroy_instance driver).
Proof.
  run_destroys bvb_vulkan_global_context_destroy_instance.
  eapply wp_destroy_devices; [exact I| |].
  2: { intros x t' w' I' Hsh. by exists t'. }
  intros t1 w1 I1 Hsh1 Hs. cbn [then_wp]. apply wp_do.
  eapply (wp_remove_children BVB_OBJECT_PHYSICAL_DEVICE id);
    [exact I1|decide_list|done| |].
  { intros t2 id' c [Hsh2 _] Hf Hwf Hm Hty.
    eapply (physical_device_childless id t1 t2); try done; apply I1. }
  intros t2 w2 I2 [Hsh2 _] Hn. cbn [then_wp]. apply wp_do.
  eapply wp_remove_owned; [exact I2| |discriminate|decide_list| |].
  - intros q c _ Hty.
    eapply (childless_no_child _ _ _ [BVB_OBJECT_PHYSICAL_DEVICE]);
      [apply I2|done|decide_list|].
    by intros dep ->%list_elem_of_singleton.
  - intros q c t3 w3 Hm Hty I3 Ht3 Hsh3. cbn [then_wp]. apply wp_do.
    eapply wp_destroy_instance; [exact I3|entry_point|]. intros r w4 I4.
    cbn [then_wp]. apply wp_reply. exists t3.
    split_and!; [done|by do 2 (etrans; [done|])|solve_gone].
  - intros x _. exists t2. split_and!; [done|by etrans|done].
Qed.
End invariant.
