(* ===== verification/BackendService.v ===== *)
(** * BackendService: the object store over a whole connection

    A connection's requests reach the operations of src/vulkan_global.c one
    after the other, while the client writes the memory it shares.  Whatever
    the requests are, the driver is only ever called the way the Vulkan
    specification allows of handles, what it says the service owns is what
    the store holds, and the buffers of every mirror hold its range while its
    mapping lasts. *)

From stdpp Require Import strings gmap.
From S2P Require Import Prelude Wire Abi Codec ProtocolInstance ProtocolDevice ProtocolCommand ProtocolResource ProtocolSync ProtocolSetup ProtocolRegistry CommandTypes MessageLists MessageData DescriptorTypes MessageImage MessageSubmit Backend BackendInvariant BackendRules BackendDriver BackendSync BackendDescriptor BackendPipeline MemoryMirror BackendMirror BackendPhysical BackendMemory BackendImage BackendCommand StreamBase StreamReplay BackendSubmit BackendInstance BackendDevice.

(** ** Requests *)

(** A request, and the type of its answer. *)
Inductive request : Type -> Type :=
| Call_create_instance (r : bvb_vulkan_instance_create_request)
    (names : ptr (list bytes)) : request bvb_vulkan_instance_create_response
| Call_destroy_instance (id : Z) : request unit
| Call_enumerate_physical_devices (id : Z) : request bvb_vulkan_physical_devices
| Call_get_physical_device_properties (id : Z) : request physical_properties
| Call_get_queue_family_properties (id : Z) : request (list Z)
| Call_get_memory_properties (id : Z) : request memory_properties
| Call_create_device_packed (r : bvb_vulkan_device_create_packed_request)
    (names : ptr (list bytes)) : request bvb_vulkan_device_create_response
| Call_create_device (r : bvb_vulkan_device_create_request)
    (names : ptr (list bytes)) : request bvb_vulkan_device_create_response
| Call_destroy_device (id : Z) : request unit
| Call_get_device_queue (r : bvb_vulkan_device_queue_request) : request Z
| Call_queue_submit_empty (id : Z) : request Z
| Call_queue_wait_idle (id : Z) : request Z
| Call_device_wait_idle (id : Z) : request Z
| Call_create_command_pool (r : bvb_vulkan_command_pool_create_request) :
    request bvb_vulkan_command_pool_create_response
| Call_destroy_command_pool (id : Z) : request unit
| Call_reset_command_pool (r : bvb_vulkan_command_pool_reset_request) :
    request Z
| Call_allocate_command_buffer
    (r : bvb_vulkan_command_buffer_allocate_request) :
    request bvb_vulkan_command_buffer_allocate_response
| Call_free_command_buffer (r : bvb_vulkan_command_buffer_free_request) :
    request unit
| Call_begin_command_buffer (r : bvb_vulkan_command_buffer_begin_request) :
    request Z
| Call_end_command_buffer (id : Z) : request Z
| Call_command_buffer_fill (r : bvb_vulkan_command_buffer_fill_request) :
    request unit
| Call_command_buffer_image_barrier
    (r : bvb_vulkan_command_buffer_image_barrier_request) : request unit
| Call_command_buffer_clear_color_image
    (r : bvb_vulkan_command_buffer_clear_color_image_request) : request unit
| Call_command_buffer_bind_descriptor_sets
    (r : bvb_vulkan_bind_descriptor_sets_request) : request unit
| Call_replay_command_stream (batch : ptr bytes) (length device_id : Z) :
    request unit
| Call_execute_immediate_record (batch : ptr bytes) (length : Z) :
    request unit
| Call_queue_submit_command (r : bvb_vulkan_queue_submit_command_request) :
    request Z
| Call_queue_submit_command_fence
    (r : bvb_vulkan_queue_submit_command_fence_request) : request Z
| Call_queue_submit_2 (r : bvb_vulkan_queue_submit_2_request) : request Z
| Call_create_fence (r : bvb_vulkan_fence_create_request) :
    request bvb_vulkan_object_create_response
| Call_destroy_fence (id : Z) : request unit
| Call_get_fence_status (id : Z) : request Z
| Call_wait_fence (r : bvb_vulkan_fence_wait_request) : request Z
| Call_reset_fence (id : Z) : request Z
| Call_create_semaphore (r : bvb_vulkan_semaphore_create_request) :
    request bvb_vulkan_object_create_response
| Call_destroy_semaphore (id : Z) : request unit
| Call_get_semaphore_counter (id : Z) :
    request bvb_vulkan_semaphore_counter_response
| Call_wait_semaphores (r : bvb_vulkan_semaphore_wait_request) : request Z
| Call_signal_semaphore (r : bvb_vulkan_semaphore_signal_request) : request Z
| Call_create_query_pool (r : bvb_vulkan_query_pool_create_request) :
    request bvb_vulkan_object_create_response
| Call_destroy_query_pool (id : Z) : request unit
| Call_get_query_pool_results (r : bvb_vulkan_query_pool_results_request) :
    request bvb_vulkan_query_pool_results_response
| Call_reset_query_pool (r : bvb_vulkan_query_pool_reset_request) : request unit
| Call_create_descriptor_set_layout
    (r : bvb_vulkan_descriptor_set_layout_create_request) :
    request bvb_vulkan_object_create_response
| Call_destroy_descriptor_set_layout (id : Z) : request unit
| Call_create_descriptor_update_template
    (r : bvb_vulkan_descriptor_update_template_create_request) :
    request bvb_vulkan_object_create_response
| Call_destroy_descriptor_update_template (id : Z) : request unit
| Call_create_descriptor_pool
    (r : bvb_vulkan_descriptor_pool_create_request) :
    request bvb_vulkan_object_create_response
| Call_destroy_descriptor_pool (id : Z) : request unit
| Call_reset_descriptor_pool (r : bvb_vulkan_descriptor_pool_reset_request) :
    request Z
| Call_allocate_descriptor_sets
    (r : bvb_vulkan_descriptor_set_allocate_request) :
    request bvb_vulkan_descriptor_set_allocate_response
| Call_create_sampler (r : bvb_vulkan_sampler_create_request) :
    request bvb_vulkan_object_create_response
| Call_destroy_sampler (id : Z) : request unit
| Call_update_descriptors (r : bvb_vulkan_descriptor_update_request) :
    request unit
| Call_update_descriptor_set_with_template
    (r : bvb_vulkan_descriptor_template_update_request) : request unit
| Call_create_pipeline_layout
    (r : bvb_vulkan_pipeline_layout_create_request) :
    request bvb_vulkan_object_create_response
| Call_destroy_pipeline_layout (id : Z) : request unit
| Call_destroy_pipeline (id : Z) : request unit
| Call_create_buffer (r : bvb_vulkan_buffer_create_request) :
    request bvb_vulkan_object_create_response
| Call_destroy_buffer (id : Z) : request unit
| Call_get_buffer_requirements (id : Z) : request bvb_vulkan_buffer_requirements
| Call_get_device_buffer_requirements
    (r : bvb_vulkan_device_buffer_requirements_request) :
    request bvb_vulkan_device_buffer_requirements_response
| Call_get_buffer_requirements_2
    (r : bvb_vulkan_buffer_requirements_2_request) :
    request bvb_vulkan_buffer_requirements_2_response
| Call_get_buffer_device_address
    (r : bvb_vulkan_buffer_device_address_request) :
    request bvb_vulkan_buffer_device_address_response
| Call_allocate_memory (r : bvb_vulkan_memory_allocate_request) :
    request bvb_vulkan_object_create_response
| Call_allocate_memory_extended
    (r : bvb_vulkan_memory_allocate_extended_request) :
    request bvb_vulkan_object_create_response
| Call_free_memory (id : Z) : request unit
| Call_bind_buffer_memory (r : bvb_vulkan_buffer_bind_request) : request Z
| Call_create_image (r : bvb_vulkan_image_create_request) :
    request bvb_vulkan_object_create_response
| Call_destroy_image (id : Z) : request unit
| Call_get_image_requirements (id : Z) : request bvb_vulkan_image_requirements
| Call_get_image_requirements_2 (r : bvb_vulkan_image_requirements_2_request) :
    request bvb_vulkan_image_requirements_2_response
| Call_bind_image_memory (r : bvb_vulkan_image_bind_request) : request Z
| Call_create_image_view (r : bvb_vulkan_image_view_create_request) :
    request bvb_vulkan_object_create_response
| Call_destroy_image_view (id : Z) : request unit
| Call_setup_memory_mirror (r : bvb_vulkan_memory_mirror_setup_request)
    (fd : received_fd) : request Z
| Call_setup_direct_memory (r : bvb_vulkan_memory_mirror_setup_request)
    (cloexec : result unit) : request (Z * Z)
| Call_flush_memory_mirror (r : bvb_vulkan_memory_mirror_range_request) :
    request Z
| Call_invalidate_memory_mirror (r : bvb_vulkan_memory_mirror_range_request) :
    request Z
| Call_unmap_memory_mirror (r : bvb_vulkan_memory_mirror_unmap_request) :
    request unit
| Call_verify_memory_fill (r : bvb_vulkan_memory_verify_fill_request) :
    request bvb_vulkan_memory_verify_fill_response
| Call_write_memory (r : bvb_vulkan_memory_io_request) (data : bytes) :
    request Z
| Call_read_memory (r : bvb_vulkan_memory_io_request) (capacity : Z) :
    request (Z * bytes).

(** ** Serving a request *)

Section service.
Context {VH : VulkanHeader} {VI : VulkanImage} {VC : VulkanCore}
  {VS : VulkanStream}.
Context (driver : list event -> vk_call -> vk_reply).

Definition serve {A} (c : request A) : M A :=
  match c with
  | Call_create_instance r names =>
      bvb_vulkan_global_context_create_instance driver r names
  | Call_destroy_instance id =>
      bvb_vulkan_global_context_destroy_instance driver id
  | Call_enumerate_physical_devices id =>
      bvb_vulkan_global_context_enumerate_physical_devices driver id
  | Call_get_physical_device_properties id =>
      bvb_vulkan_global_context_get_physical_device_properties driver id
  | Call_get_queue_family_properties id =>
      bvb_vulkan_global_context_get_queue_family_properties driver id
  | Call_get_memory_properties id =>
      bvb_vulkan_global_context_get_memory_properties driver id
  | Call_create_device_packed r names =>
      bvb_vulkan_global_context_create_device_packed driver r names
  | Call_create_device r names =>
      bvb_vulkan_global_context_create_device driver r names
  | Call_destroy_device id =>
      bvb_vulkan_global_context_destroy_device driver id
  | Call_get_device_queue r =>
      bvb_vulkan_global_context_get_device_queue driver r
  | Call_queue_submit_empty id =>
      bvb_vulkan_global_context_queue_submit_empty driver id
  | Call_queue_wait_idle id =>
      bvb_vulkan_global_context_queue_wait_idle driver id
  | Call_device_wait_idle id =>
      bvb_vulkan_global_context_device_wait_idle driver id
  | Call_create_command_pool r =>
      bvb_vulkan_global_context_create_command_pool driver r
  | Call_destroy_command_pool id =>
      bvb_vulkan_global_context_destroy_command_pool driver id
  | Call_reset_command_pool r =>
      bvb_vulkan_global_context_reset_command_pool driver r
  | Call_allocate_command_buffer r =>
      bvb_vulkan_global_context_allocate_command_buffer driver r
  | Call_free_command_buffer r =>
      bvb_vulkan_global_context_free_command_buffer driver r
  | Call_begin_command_buffer r =>
      bvb_vulkan_global_context_begin_command_buffer driver r
  | Call_end_command_buffer id =>
      bvb_vulkan_global_context_end_command_buffer driver id
  | Call_command_buffer_fill r =>
      bvb_vulkan_global_context_command_buffer_fill driver r
  | Call_command_buffer_image_barrier r =>
      bvb_vulkan_global_context_command_buffer_image_barrier driver r
  | Call_command_buffer_clear_color_image r =>
      bvb_vulkan_global_context_command_buffer_clear_color_image driver r
  | Call_command_buffer_bind_descriptor_sets r =>
      bvb_vulkan_global_context_command_buffer_bind_descriptor_sets driver r
  | Call_replay_command_stream batch length device_id =>
      bvb_vulkan_global_context_replay_command_stream driver batch length
        device_id
  | Call_execute_immediate_record batch length =>
      bvb_vulkan_global_context_execute_immediate_record driver batch length
  | Call_queue_submit_command r =>
      bvb_vulkan_global_context_queue_submit_command driver r
  | Call_queue_submit_command_fence r =>
      bvb_vulkan_global_context_queue_submit_command_fence driver r
  | Call_queue_submit_2 r => bvb_vulkan_global_context_queue_submit_2 driver r
  | Call_create_fence r =>
      bvb_vulkan_global_context_create_fence driver r
  | Call_destroy_fence id =>
      bvb_vulkan_global_context_destroy_fence driver id
  | Call_get_fence_status id =>
      bvb_vulkan_global_context_get_fence_status driver id
  | Call_wait_fence r =>
      bvb_vulkan_global_context_wait_fence driver r
  | Call_reset_fence id =>
      bvb_vulkan_global_context_reset_fence driver id
  | Call_create_semaphore r =>
      bvb_vulkan_global_context_create_semaphore driver r
  | Call_destroy_semaphore id =>
      bvb_vulkan_global_context_destroy_semaphore driver id
  | Call_get_semaphore_counter id =>
      bvb_vulkan_global_context_get_semaphore_counter driver id
  | Call_wait_semaphores r =>
      bvb_vulkan_global_context_wait_semaphores driver r
  | Call_signal_semaphore r =>
      bvb_vulkan_global_context_signal_semaphore driver r
  | Call_create_query_pool r =>
      bvb_vulkan_global_context_create_query_pool driver r
  | Call_destroy_query_pool id =>
      bvb_vulkan_global_context_destroy_query_pool driver id
  | Call_get_query_pool_results r =>
      bvb_vulkan_global_context_get_query_pool_results driver r
  | Call_reset_query_pool r =>
      bvb_vulkan_global_context_reset_query_pool driver r
  | Call_create_descriptor_set_layout r =>
      bvb_vulkan_global_context_create_descriptor_set_layout driver r
  | Call_destroy_descriptor_set_layout id =>
      bvb_vulkan_global_context_destroy_descriptor_set_layout driver id
  | Call_create_descriptor_update_template r =>
      bvb_vulkan_global_context_create_descriptor_update_template driver r
  | Call_destroy_descriptor_update_template id =>
      bvb_vulkan_global_context_destroy_descriptor_update_template driver id
  | Call_create_descriptor_pool r =>
      bvb_vulkan_global_context_create_descriptor_pool driver r
  | Call_destroy_descriptor_pool id =>
      bvb_vulkan_global_context_destroy_descriptor_pool driver id
  | Call_reset_descriptor_pool r =>
      bvb_vulkan_global_context_reset_descriptor_pool driver r
  | Call_allocate_descriptor_sets r =>
      bvb_vulkan_global_context_allocate_descriptor_sets driver r
  | Call_create_sampler r =>
      bvb_vulkan_global_context_create_sampler driver r
  | Call_destroy_sampler id =>
      bvb_vulkan_global_context_destroy_sampler driver id
  | Call_update_descriptors r =>
      bvb_vulkan_global_context_update_descriptors driver r
  | Call_update_descriptor_set_with_template r =>
      bvb_vulkan_global_context_update_descriptor_set_with_template driver r
  | Call_create_pipeline_layout r =>
      bvb_vulkan_global_context_create_pipeline_layout driver r
  | Call_destroy_pipeline_layout id =>
      bvb_vulkan_global_context_destroy_pipeline_layout driver id
  | Call_destroy_pipeline id =>
      bvb_vulkan_global_context_destroy_pipeline driver id
  | Call_create_buffer r =>
      bvb_vulkan_global_context_create_buffer driver r
  | Call_destroy_buffer id =>
      bvb_vulkan_global_context_destroy_buffer driver id
  | Call_get_buffer_requirements id =>
      bvb_vulkan_global_context_get_buffer_requirements driver id
  | Call_get_device_buffer_requirements r =>
      bvb_vulkan_global_context_get_device_buffer_requirements driver r
  | Call_get_buffer_requirements_2 r =>
      bvb_vulkan_global_context_get_buffer_requirements_2 driver r
  | Call_get_buffer_device_address r =>
      bvb_vulkan_global_context_get_buffer_device_address driver r
  | Call_allocate_memory r =>
      bvb_vulkan_global_context_allocate_memory driver r
  | Call_allocate_memory_extended r =>
      bvb_vulkan_global_context_allocate_memory_extended driver r
  | Call_free_memory id =>
      bvb_vulkan_global_context_free_memory driver id
  | Call_bind_buffer_memory r =>
      bvb_vulkan_global_context_bind_buffer_memory driver r
  | Call_create_image r =>
      bvb_vulkan_global_context_create_image driver r
  | Call_destroy_image id =>
      bvb_vulkan_global_context_destroy_image driver id
  | Call_get_image_requirements id =>
      bvb_vulkan_global_context_get_image_requirements driver id
  | Call_get_image_requirements_2 r =>
      bvb_vulkan_global_context_get_image_requirements_2 driver r
  | Call_bind_image_memory r =>
      bvb_vulkan_global_context_bind_image_memory driver r
  | Call_create_image_view r =>
      bvb_vulkan_global_context_create_image_view driver r
  | Call_destroy_image_view id =>
      bvb_vulkan_global_context_destroy_image_view driver id
  | Call_setup_memory_mirror r fd =>
      bvb_vulkan_global_context_setup_memory_mirror driver r fd
  | Call_setup_direct_memory r cloexec =>
      bvb_vulkan_global_context_setup_direct_memory driver r cloexec
  | Call_flush_memory_mirror r =>
      bvb_vulkan_global_context_flush_memory_mirror driver r
  | Call_invalidate_memory_mirror r =>
      bvb_vulkan_global_context_invalidate_memory_mirror driver r
  | Call_unmap_memory_mirror r =>
      bvb_vulkan_global_context_unmap_memory_mirror driver r
  | Call_verify_memory_fill r =>
      bvb_vulkan_global_context_verify_memory_fill driver r
  | Call_write_memory r data =>
      bvb_vulkan_global_context_write_memory driver r data
  | Call_read_memory r capacity =>
      bvb_vulkan_global_context_read_memory driver r capacity
  end.

(** ** The connection *)

(** What the service and the world around it do to the store: a request is
    served, or the client or the device writes a mapped range. *)
Inductive step :=
| Serve {A : Type} (c : request A)
| ClientWrites (memory_id : Z) (data : bytes)
| DeviceWrites (memory_id : Z) (data : bytes).

(** The bytes of a mapped range change; their number does not. *)
Definition overwrite (old data : bytes) : bytes :=
  if blen data =? blen old then data else old.

Definition with_shared (p : ptr bytes) (r : bvb_memory_mirror_metadata) :
    bvb_memory_mirror_metadata :=
  mk_memory_mirror_metadata r.(mr_device_id) r.(mr_memory_id)
    r.(mr_generation) r.(mr_offset) r.(mr_length) r.(mr_allocation_size)
    r.(mr_non_coherent_atom_size) r.(mr_property_flags) r.(mr_device)
    r.(mr_memory) p r.(mr_native) r.(mr_baseline) r.(mr_direct).

Definition client_writes (memory_id : Z) (data : bytes)
    (r : bvb_memory_mirror_metadata) : bvb_memory_mirror_metadata :=
  match r.(mr_mirror) with
  | Some shared => if r.(mr_memory_id) =? memory_id
                   then with_shared (Some (overwrite shared data)) r else r
  | None => r
  end.
Definition device_writes (memory_id : Z) (data : bytes)
    (r : bvb_memory_mirror_metadata) : bvb_memory_mirror_metadata :=
  match native_bytes r with
  | Some native =>
      if r.(mr_memory_id) =? memory_id
      then with_native (Some (Mapped (overwrite native data))) r else r
  | None => r
  end.

Definition map_mirrors (f : bvb_memory_mirror_metadata ->
      bvb_memory_mirror_metadata) (c : bvb_vulkan_global_context) :
    bvb_vulkan_global_context :=
  set_memory_mirrors (f <$> c.(ctx_memory_mirrors)) c.

Definition take_step (w : world) (s : step) : world :=
  match s with
  | Serve c => (serve c w).2
  | ClientWrites memory_id data =>
      (put_context (map_mirrors (client_writes memory_id data)) w).2
  | DeviceWrites memory_id data =>
      (put_context (map_mirrors (device_writes memory_id data)) w).2
  end.

Definition run (steps : list step) (w : world) : world :=
  fold_left take_step steps w.

(** The request does not map memory a mirror maps: it is no direct access, or
    one to memory without a mirror, or a check of memory that is mapped
    directly, which reads through that mapping. *)
Definition spares (w : world) (s : step) : bool :=
  let free id := negb (mirror_on w.(w_context) id) in
  match s with
  | @Serve _ c =>
      match c with
      | Call_write_memory r _ => free r.(mi_rq_memory_id)
      | Call_read_memory r _ => free r.(mi_rq_memory_id)
      | Call_verify_memory_fill r =>
          free r.(mvf_rq_memory_id) ||
          bool_decide (is_Some (direct_mapping w.(w_context)
                                  r.(mvf_rq_memory_id)))
      | _ => true
      end
  | _ => true
  end.

(** Every step of a run does. *)
Fixpoint all_spare (steps : list step) (w : world) : bool :=
  match steps with
  | [] => true
  | s :: rest => spares w s && all_spare rest (take_step w s)
  end.

(** The one request whose fields have to fit their wire types. *)
Definition representable (s : step) : bool :=
  match s with
  | @Serve _ c =>
      match c with
      | Call_setup_memory_mirror r _ => mms_rq_rep r
      | _ => true
      end
  | _ => true
  end.
End service.

(** ** A fresh context *)

Abbreviation BVB_DESCRIPTOR_TEMPLATE_METADATA_CAPACITY := 256 (only parsing).

(** The loop over the allowlist: an allowed extension the driver has. *)
Definition exposed_instance_extensions (allowlist native : list bytes) :
    list bytes :=
  omap (fun allowed => snd <$> list_find (fun name => name = allowed) native)
    allowlist.

(** [calloc] leaves everything zero; the counters start at one. *)
Definition fresh_context (get_device_proc_addr : bool)
    (allowlist native : list bytes) : result bvb_vulkan_global_context :=
  match bvb_handle_table_init (Some (mk_handle_table None 0 0))
          (Some (replicate (Z.to_nat BVB_GLOBAL_OBJECT_CAPACITY) zero_entry))
          BVB_GLOBAL_OBJECT_CAPACITY with
  | Err e => Err e
  | Ok objects =>
      let capacity := Z.to_nat BVB_GLOBAL_OBJECT_CAPACITY in
      Ok (mk_context get_device_proc_addr false
            (exposed_instance_extensions allowlist native) objects (fun _ => 1)
            (replicate capacity zero_device_metadata)
            (replicate capacity zero_memory_metadata)
            (replicate (Z.to_nat BVB_VULKAN_MEMORY_MIRROR_CAPACITY)
               zero_mirror_metadata) 0
            (replicate capacity zero_buffer_metadata)
            (replicate capacity zero_semaphore_metadata)
            (replicate capacity zero_query_pool_metadata)
            (replicate capacity zero_image_metadata)
            (replicate (Z.to_nat BVB_DESCRIPTOR_TEMPLATE_METADATA_CAPACITY)
               zero_template_metadata))
  end.

(** ** The invariant *)

(** What each operation keeps, for [eauto with keeps]. *)
Create HintDb keeps discriminated.
#[export] Hint Constants Opaque : keeps.
#[export] Hint Resolve
  create_instance_keeps enumerate_physical_devices_keeps
  create_device_packed_keeps create_device_keeps get_device_queue_keeps
  queue_submit_empty_keeps queue_wait_idle_keeps device_wait_idle_keeps
  create_command_pool_keeps reset_command_pool_keeps
  allocate_command_buffer_keeps free_command_buffer_keeps
  begin_command_buffer_keeps end_command_buffer_keeps
  command_buffer_fill_keeps command_buffer_image_barrier_keeps
  command_buffer_clear_color_image_keeps
  command_buffer_bind_descriptor_sets_keeps replay_command_stream_keeps
  execute_immediate_record_keeps
  queue_submit_command_keeps queue_submit_command_fence_keeps
  queue_submit_2_keeps create_fence_keeps get_fence_status_keeps
  wait_fence_keeps reset_fence_keeps create_semaphore_keeps
  get_semaphore_counter_keeps wait_semaphores_keeps signal_semaphore_keeps
  create_query_pool_keeps get_query_pool_results_keeps reset_query_pool_keeps
  create_descriptor_set_layout_keeps create_descriptor_update_template_keeps
  create_descriptor_pool_keeps reset_descriptor_pool_keeps
  allocate_descriptor_sets_keeps create_sampler_keeps update_descriptors_keeps
  update_descriptor_set_with_template_keeps create_pipeline_layout_keeps
  create_buffer_keeps get_buffer_requirements_keeps
  get_device_buffer_requirements_keeps get_buffer_requirements_2_keeps
  get_buffer_device_address_keeps allocate_memory_keeps
  allocate_memory_extended_keeps bind_buffer_memory_keeps create_image_keeps
  get_image_requirements_keeps get_image_requirements_2_keeps
  bind_image_memory_keeps create_image_view_keeps setup_direct_memory_keeps
  range_operation_keeps unmap_memory_mirror_keeps : keeps.
#[export] Hint Resolve
  destroy_instance_destroys destroy_device_destroys
  destroy_command_pool_destroys destroy_fence_destroys
  destroy_semaphore_destroys destroy_query_pool_destroys
  destroy_descriptor_set_layout_destroys
  destroy_descriptor_update_template_destroys destroy_descriptor_pool_destroys
  destroy_sampler_destroys destroy_pipeline_layout_destroys
  destroy_pipeline_destroys destroy_buffer_destroys free_memory_destroys
  destroy_image_destroys destroy_image_view_destroys : keeps.

Section invariant.
Context {VH : VulkanHeader} {VI : VulkanImage} {VC : VulkanCore}
  {VS : VulkanStream}.
Context (driver : list event -> vk_call -> vk_reply).
Context {CD : ConformingDriver driver} {AP : Apart}.

Lemma init_slots t entries capacity t' :
  bvb_handle_table_init (Some t) (Some entries) capacity = Ok t' -> clean t'.
Proof.
  unfold bvb_handle_table_init. cbn beta iota.
  destruct (_ || _); [done|]. intros [= <-] i e He.
  by apply lookup_replicate in He as [-> _]; right.
Qed.

Lemma fresh_settled proc allowlist native c :
  fresh_context proc allowlist native = Ok c -> settled (mk_world c []).
Proof.
  unfold fresh_context. destruct bvb_handle_table_init as [t|e] eqn:Ht; [|done].
  intros [= <-]. destruct (init_wf _ _ _ _ (eq_refl : is_u64 4096 = true) Ht) as (Hwf & Hcap & Hm).
  exists t. constructor; cbn [w_context w_log ctx_objects ctx_next_serial
    ctx_memory_mirrors]; rewrite ?Hm; try done.
  - by eapply init_slots.
  - constructor.
  - by apply Forall_replicate.
Qed.

(** *** Every request keeps the invariant *)

Lemma physical_properties_keeps id :
  keeps (bvb_vulkan_global_context_get_physical_device_properties driver id).
Proof.
  intros w [t I]. eapply wp_physical_properties; [exact I|].
  intros r w' I' _. by exists t.
Qed.

Lemma queue_families_keeps id :
  keeps (bvb_vulkan_global_context_get_queue_family_properties driver id).
Proof.
  intros w [t I]. eapply wp_queue_families; [exact I|].
  intros r w' I' _. by exists t.
Qed.

Lemma memory_properties_keeps id :
  keeps (bvb_vulkan_global_context_get_memory_properties driver id).
Proof.
  intros w [t I]. eapply wp_memory_properties; [exact I|].
  intros r w' I' _. by exists t.
Qed.
#[local] Hint Resolve physical_properties_keeps queue_families_keeps
  memory_properties_keeps : keeps.

(** Where mappings must not be lost, the step maps nothing a mirror maps. *)
Definition careful (s : step) (w : world) : Prop :=
  apart = true -> spares w s = true.

Lemma serve_keeps {A} (c : request A) :
  representable (Serve c) = true ->
  keeps_when (careful (Serve c)) (serve driver c).
Proof.
  destruct c; cbn [serve representable]; intros Hr;
    try solve [apply keeps_always; eauto 3 with keeps nocore
              |apply keeps_always, range_operation_keeps
              |apply keeps_always, destroys_keeps; eauto 3 with keeps nocore].
  - by apply keeps_always, setup_memory_mirror_keeps.
  - intros w Hc. apply verify_memory_fill_keeps. intros E Ha.
    specialize (Hc Ha). cbn in Hc. rewrite E in Hc. by destruct mirror_on.
  - intros w Hc. apply write_memory_keeps. intros Ha.
    by apply negb_true_iff, (Hc Ha).
  - intros w Hc. apply read_memory_keeps. intros Ha.
    by apply negb_true_iff, (Hc Ha).
Qed.

(** *** Every step keeps the invariant *)

Lemma blen_overwrite old data : blen (overwrite old data) = blen old.
Proof. unfold overwrite. by destruct (Z.eqb_spec (blen data) (blen old)). Qed.

Lemma client_writes_mirrored kept m memory_id data r :
  mirrored kept m r -> mirrored kept m (client_writes memory_id data r).
Proof.
  unfold client_writes. destruct (mr_mirror r) as [shared|] eqn:E; [|done].
  destruct (_ =? _); [|done]. intros Hr Hne.
  destruct (Hr Hne) as (H1 & H2 & H3 & H4 & H5 & H6). split_and!; try done.
  intros Hd Hl. destruct (H6 Hd Hl) as (old & native & baseline & E1 & Hb).
  rewrite E in E1. injection E1 as ->.
  exists (overwrite old data), native, baseline. cbn.
  by rewrite blen_overwrite.
Qed.

Lemma device_writes_mirrored kept m memory_id data r :
  mirrored kept m r -> mirrored kept m (device_writes memory_id data r).
Proof.
  unfold device_writes. destruct (native_bytes r) as [native|] eqn:E; [|done].
  destruct (_ =? _); [|done]. intros Hr Hne.
  destruct (Hr Hne) as (H1 & H2 & H3 & H4 & _ & H6). split_and!; try done.
  intros Hd _. specialize (H6 Hd (native_bytes_lost _ _ E)).
  destruct H6 as (shared & old & baseline & E1 & E2 & Hb).
  unfold native_bytes in E. rewrite E2 in E. injection E as ->.
  exists shared, (overwrite native data), baseline. cbn.
  by rewrite blen_overwrite.
Qed.

Lemma map_mirrors_keeps f :
  (forall m r, mirrored apart m r -> mirrored apart m (f r)) ->
  keeps (put_context (map_mirrors f)).
Proof.
  intros Hf w [t I]. eapply wp_put_mirrors; [exact I|done..| |].
  - cbn. apply Forall_fmap. eapply Forall_impl; [|exact (at_mirrors _ _ _ _ I)].
    intros r. apply Hf.
  - intros w' I' _ _. by exists t.
Qed.

Lemma take_step_settled w s :
  representable s = true -> careful s w -> settled w ->
  settled (take_step driver w s).
Proof.
  intros Hr Hc Hw. destruct s as [A c|id data|id data].
  - by apply (serve_keeps c).
  - by apply (map_mirrors_keeps _
      (fun m => client_writes_mirrored apart m id data)).
  - by apply (map_mirrors_keeps _
      (fun m => device_writes_mirrored apart m id data)).
Qed.

Lemma run_settled steps w :
  forallb representable steps = true ->
  (apart = true -> all_spare driver steps w = true) -> settled w ->
  settled (run driver steps w).
Proof.
  revert w. induction steps as [|s steps IH]; intros w Hr Hc Hw; [done|].
  cbn in *. apply andb_true_iff in Hr as [Hs Hr].
  apply IH; [done| |apply take_step_settled; [done| |done]];
    intros Ha; by destruct (proj1 (andb_true_iff _ _) (Hc Ha)).
Qed.

Lemma connection_settled proc allowlist native c steps :
  fresh_context proc allowlist native = Ok c ->
  forallb representable steps = true ->
  (apart = true -> all_spare driver steps (mk_world c []) = true) ->
  settled (run driver steps (mk_world c [])).
Proof. intros Hf Hr Hc. apply run_settled; [done..|by eapply fresh_settled]. Qed.

(** *** Destroying a device *)

Lemma destroy_device_type id w t :
  At [] none t w ->
  wp (bvb_vulkan_global_context_destroy_device driver id)
    (fun r _ => r = Ok tt -> bvb_handle_type id = BVB_OBJECT_DEVICE) w.
Proof.
  intros I. unfold bvb_vulkan_global_context_destroy_device.
  do 3 wp_step; [done|]. wp_step. wp_step; [|done]. cbn [then_wp].
  unfold wp. done.
Qed.

(** The handle of a destroyed device is no longer in the store. *)
Lemma device_handle_gone t t' w w' id p d :
  At [] none t w -> At [] none t' w' -> shrinks t t' ->
  table_map t !! id = Some (p, d) -> bvb_handle_type id = BVB_OBJECT_DEVICE ->
  table_map t' !! id = None ->
  forall did q, table_map t' !! did = Some (q, d) ->
    bvb_handle_type did <> BVB_OBJECT_DEVICE.
Proof.
  intros I I' Hsh Hm Hty Hgone did q Hm' Hty'.
  assert (Hold : table_map t !! did = Some (q, d)).
  { eapply (shrinks_lookup t t'); [apply I|apply I|apply I'|done| |done].
    by eapply typed_nonzero. }
  assert (did = id) as ->; [|congruence].
  apply (at_distinct _ _ _ _ I did id q p d); [done|done|congruence|].
  rewrite Hty'. decide_list.
Qed.
End invariant.

(** ** A connection *)

Abbreviation store w := (table_map w.(w_context).(ctx_objects)).

Section connection.
Context {VH : VulkanHeader} {VI : VulkanImage} {VC : VulkanCore}
  {VS : VulkanStream}.
Context (driver : list event -> vk_call -> vk_reply).
Context {CD : ConformingDriver driver}.
Context (proc : bool) (allowlist native : list bytes).
Context (c : bvb_vulkan_global_context) (steps : list step).

Abbreviation state w := (driver_after VK_SUCCESS w.(w_log)).
Abbreviation reached := (run driver steps (mk_world c [])).

(** C10: whatever a client asks for, in whatever order, and whatever it writes
    to the memory it shares, every call the service makes into the driver is
    valid when it is made: its handles are alive and of the right kind, what
    it destroys is owned by the device it names, and no device or instance
    goes before what was created from it. *)
Theorem service_respects_vulkan
    (Hfresh : fresh_context proc allowlist native = Ok c)
    (Hfit : forallb representable steps = true) :
  disciplined VK_SUCCESS reached.(w_log).
Proof.
  destruct (connection_settled (AP := false) driver proc allowlist native c
              steps Hfresh Hfit ltac:(done)) as [t I].
  apply (at_log _ _ _ _ I).
Qed.

(** C11: what the driver says the service owns is exactly what the store
    holds, object for object and under the same owner: no object is leaked,
    none is destroyed twice, and everything stored is alive. *)
Theorem service_owns_what_it_stores
    (Hfresh : fresh_context proc allowlist native = Ok c)
    (Hfit : forallb representable steps = true) :
  ds_owned (state reached) ≡ₚ owned_objs (store reached) /\
  forest (store reached) /\
  forall id p b, store reached !! id = Some (p, b) ->
    alive (state reached) (bvb_handle_type id) b.
Proof.
  destruct (connection_settled (AP := false) driver proc allowlist native c
              steps Hfresh Hfit ltac:(done)) as [t I].
  rewrite (at_objects _ _ _ _ I). split_and!.
  - apply (at_owned _ _ _ _ I).
  - apply (at_forest _ _ _ _ I).
  - intros id p b Hm. eapply at_alive; [done|done|]. right. by intros [].
Qed.

(** C14: at any time, every mirror in use is one of a stored allocation of a
    stored device and has their handles; and if it is a copy whose mapping has
    not been lost, its three buffers hold the mirrored range.  A mapping is
    lost when a direct access maps and unmaps memory that has a mirror, which
    the service does not refuse; in a connection that makes no such access, no
    mirror in use has lost its mapping. *)
Theorem mirrors_stay_in_bounds
    (Hfresh : fresh_context proc allowlist native = Ok c)
    (Hfit : forallb representable steps = true) :
  Forall (mirrored (all_spare driver steps (mk_world c [])) (store reached))
    reached.(w_context).(ctx_memory_mirrors).
Proof.
  destruct (connection_settled
    (AP := all_spare driver steps (mk_world c [])) driver proc allowlist native
    c steps Hfresh Hfit ltac:(done)) as [t I].
  rewrite (at_objects _ _ _ _ I). apply (at_mirrors _ _ _ _ I).
Qed.

(** C15: a device whose destruction succeeds leaves nothing behind: it is no
    longer in the store, and the driver has neither it nor anything created
    from it. *)
Theorem destroyed_device_leaves_nothing
    (Hfresh : fresh_context proc allowlist native = Ok c)
    (Hfit : forallb representable steps = true) (id : Z) :
  match serve driver (Call_destroy_device id) reached with
  | (Ok _, w) => forall p d, store reached !! id = Some (p, d) ->
      store w !! id = None /\
      (forall o, (BVB_OBJECT_DEVICE, o, d) ∉ ds_owned (state w)) /\
      (forall type b, type ∈ device_children ->
         (type, d, b) ∉ ds_owned (state w))
  | (Err _, _) => True
  end.
Proof.
  destruct (connection_settled (AP := false) driver proc allowlist native c
              steps Hfresh Hfit ltac:(done)) as [t I].
  pose proof (destroy_device_type driver id _ _ I) as Hty.
  pose proof (destroy_device_destroys driver _ _ id I) as Hd.
  unfold wp in *. cbn [serve].
  destruct (bvb_vulkan_global_context_destroy_device driver id reached)
    as [[[]|e] w]; cbn in *; [|done].
  rewrite (at_objects _ _ _ _ I). destruct Hd as (t' & I' & Hsh & Hgone).
  rewrite (at_objects _ _ _ _ I'). intros p d Hm.
  specialize (Hty ltac:(done)).
  pose proof (device_handle_gone _ _ _ _ _ _ _ I I' Hsh Hm Hty Hgone) as Hno.
  split_and!; [done|intros o|intros type b Hc];
    rewrite (at_owned _ _ _ _ I'); cbn [app].
  - intros (did & q & b & Hm' & _ & [= E _ <-])%elem_of_owned. by eapply Hno.
  - intros (did & q & Hm' & Hty')%owned_child_device; [by eapply Hno|apply I'|done].
Qed.
End connection.

(** ** An example

    A client creates an instance, lists its devices, creates a device, a
    fence and destroys the fence again; in between it writes shared memory. *)
Section example.
#[local] Existing Instance vulkan_1_4.
#[local] Existing Instance vulkan_1_4_core.
#[local] Existing Instance vulkan_1_4_image.
#[local] Existing Instance vulkan_1_4_stream.

Definition example_steps : list step :=
  [Serve (Call_create_instance
     (mk_bvb_vulkan_instance_create_request 4194304 0 0 0) None);
   Serve (Call_enumerate_physical_devices (bvb_handle_id BVB_OBJECT_INSTANCE 1));
   Serve (Call_create_device
     (mk_bvb_vulkan_device_create_request
        (bvb_handle_id BVB_OBJECT_PHYSICAL_DEVICE 1) 0 0 1 1065353216 0 0)
     None);
   ClientWrites 7 [];
   Serve (Call_create_fence
     (mk_bvb_vulkan_fence_create_request (bvb_handle_id BVB_OBJECT_DEVICE 1) 0));
   Serve (Call_create_fence
     (mk_bvb_vulkan_fence_create_request (bvb_handle_id BVB_OBJECT_DEVICE 1) 0));
   Serve (Call_destroy_fence (bvb_handle_id BVB_OBJECT_FENCE 1))].

(** What the driver owns at the end: the instance, the device and the second
    fence. *)
Example example_owned :
  match fresh_context true [] [] with
  | Ok c => ds_owned (driver_after VK_SUCCESS
      (run model_driver example_steps (mk_world c [])).(w_log))
  | Err _ => []
  end = [(BVB_OBJECT_FENCE, 65, 67); (BVB_OBJECT_DEVICE, 2, 65);
         (BVB_OBJECT_INSTANCE, 0, 1)].
Proof. vm_compute. reflexivity. Qed.

Lemma service_respects_vulkan_witness :
  exists c, fresh_context true [] [] = Ok c /\
    disciplined VK_SUCCESS
      (run model_driver example_steps (mk_world c [])).(w_log).
Proof.
  eexists. split; [reflexivity|].
  apply (service_respects_vulkan model_driver true [] [] _ example_steps);
    reflexivity.
Defined.

Lemma service_owns_what_it_stores_witness :
  exists c, fresh_context true [] [] = Ok c /\
    let w := run model_driver example_steps (mk_world c []) in
    ds_owned (driver_after VK_SUCCESS w.(w_log)) ≡ₚ owned_objs (store w).
Proof.
  eexists. split; [reflexivity|].
  apply (service_owns_what_it_stores model_driver true [] [] _ example_steps);
    reflexivity.
Defined.

(** A client that shares memory: it creates a buffer and an allocation of 16
    bytes, binds one to the other and mirrors the bytes 4 to 11; it writes
    them and flushes, then the device writes and the client invalidates half
    of the range. *)
Definition example_memory : Z := bvb_handle_id BVB_OBJECT_DEVICE_MEMORY 1.

Definition mirror_steps : list step :=
  let device := bvb_handle_id BVB_OBJECT_DEVICE 1 in
  let buffer := bvb_handle_id BVB_OBJECT_BUFFER 1 in
  let range := mk_bvb_vulkan_memory_mirror_range_request device
                 example_memory 1 in
  firstn 3 example_steps ++
  [Serve (Call_create_buffer (mk_bvb_vulkan_buffer_create_request device 16 2 0));
   Serve (Call_allocate_memory
     (mk_bvb_vulkan_memory_allocate_request device 16 0));
   Serve (Call_bind_buffer_memory
     (mk_bvb_vulkan_buffer_bind_request buffer example_memory 0));
   Serve (Call_setup_memory_mirror
     (mk_bvb_vulkan_memory_mirror_setup_request device example_memory 1 4 8)
     (mk_received_fd 3 (Some (true, 8)) 7 (Ok (blank 8)) true));
   ClientWrites example_memory (byte_of_Z <$> seqZ 20 8);
   Serve (Call_flush_memory_mirror (range 4 8));
   DeviceWrites example_memory (byte_of_Z <$> seqZ 40 16);
   Serve (Call_invalidate_memory_mirror (range 4 4))]%list.

(** The three buffers of the mirrors in use, as numbers. *)
Definition mirror_buffers (w : world) :
    list (option (list Z) * option (option (list Z)) * option (list Z)) :=
  let numbers := List.map Z_of_byte in
  List.map (fun r =>
    (option_map numbers r.(mr_mirror),
     option_map (fun p => match p with
                          | Mapped contents => Some (numbers contents)
                          | Unmapped => None
                          end) r.(mr_native),
     option_map numbers r.(mr_baseline)))
    (List.filter (fun r => negb (r.(mr_memory_id) =? 0))
       w.(w_context).(ctx_memory_mirrors)).

Definition buffers_after (steps : list step) :=
  match fresh_context true [] [] with
  | Ok c => mirror_buffers (run model_driver steps (mk_world c []))
  | Err _ => []
  end.

Example example_mirror :
  buffers_after mirror_steps =
  [(Some (seqZ 44 4 ++ seqZ 24 4)%list,
    Some (Some (seqZ 40 16)),
    Some (seqZ 44 4 ++ seqZ 24 4)%list)].
Proof. vm_compute. reflexivity. Qed.

(** A write to the mirrored allocation is served, and takes the mirror's
    mapping away. *)
Example example_lost_mapping :
  let steps := (mirror_steps ++ [Serve (Call_write_memory
    (mk_bvb_vulkan_memory_io_request example_memory 0 1) [Byte.x00])])%list in
  buffers_after steps =
  [(Some (seqZ 44 4 ++ seqZ 24 4)%list, Some None,
    Some (seqZ 44 4 ++ seqZ 24 4)%list)].
Proof. vm_compute. reflexivity. Qed.

Lemma mirrors_stay_in_bounds_witness :
  exists c, fresh_context true [] [] = Ok c /\
    all_spare model_driver mirror_steps (mk_world c []) = true /\
    let w := run model_driver mirror_steps (mk_world c []) in
    mirror_on w.(w_context) example_memory = true /\
    Forall (mirrored (all_spare model_driver mirror_steps (mk_world c []))
              (store w)) w.(w_context).(ctx_memory_mirrors).
Proof.
  eexists. split; [reflexivity|]. split; [vm_compute; reflexivity|].
  split; [vm_compute; reflexivity|].
  apply (mirrors_stay_in_bounds model_driver true [] [] _ mirror_steps);
    reflexivity.
Defined.

Lemma destroyed_device_leaves_nothing_witness :
  exists c, fresh_context true [] [] = Ok c /\
    let w := run model_driver example_steps (mk_world c []) in
    match serve model_driver
            (Call_destroy_device (bvb_handle_id BVB_OBJECT_DEVICE 1)) w with
    | (Ok _, w') => forall p d,
        store w !! bvb_handle_id BVB_OBJECT_DEVICE 1 = Some (p, d) ->
        store w' !! bvb_handle_id BVB_OBJECT_DEVICE 1 = None /\
        (forall o, (BVB_OBJECT_DEVICE, o, d)
                   ∉ ds_owned (driver_after VK_SUCCESS w'.(w_log))) /\
        (forall type b, type ∈ device_children ->
           (type, d, b) ∉ ds_owned (driver_after VK_SUCCESS w'.(w_log)))
    | (Err _, _) => True
    end.
Proof.
  eexists. split; [reflexivity|].
  apply (destroyed_device_leaves_nothing model_driver true [] [] _
           example_steps); reflexivity.
Defined.
End example.
