(* ===== verification/MessageCreate.v ===== *)
(** * MessageCreate: creation requests with names and features

    Models the messages of src/protocol.c that create instances and devices
    with extensions, each name in a 128-byte slot or one after the other, and
    two messages of fixed size with a counted array: the requirements of a
    buffer that does not exist yet and the first barrier of images. *)

From stdpp Require Import list.
From S2P Require Import Prelude Wire Abi Codec ProtocolBase ProtocolInstance ProtocolDevice ProtocolResource CommandTypes Window Element Frame MessageImage Backend BackendDevice BackendMemory StreamBase.

#[local] Open Scope list_scope.

(** [both] is [try] for an operation with two results. *)
Notation "'both' x y ':=' m ;; k" :=
  (match m with Ok (x, y) => k | Err e => Err e end)
  (at level 100, x name, y name, m at level 99, k at level 200) : c_scope.

(** ** Strings in arrays of characters *)

Fixpoint memchr_from (n : nat) (index : Z) (s : bytes) : option Z :=
  match n with
  | O => None
  | S n => if rd8 s index =? 0 then Some index else memchr_from n (index + 1) s
  end.

(** [memchr(s, '\0', n)], as an index into [s]. *)
Definition memchr (s : bytes) (n : Z) : option Z :=
  memchr_from (Z.to_nat n) 0 s.

(** The characters before the terminator: what [strcmp] and the driver see of
    an array that has one. *)
Definition c_string (name : bytes) : bytes :=
  match memchr name (blen name) with
  | Some terminator => rd_bytes name 0 terminator
  | None => name
  end.

Definition zero_name : bytes := blank BVB_VULKAN_ENABLED_EXTENSION_NAME_SIZE.

(** One turn of the loop that writes names into slots after [base]. *)
Definition encode_name_slot (base : Z) (names : list bytes) (index : Z)
    (output : bytes) : result bytes :=
  let name := elt zero_name names index in
  match memchr name BVB_VULKAN_ENABLED_EXTENSION_NAME_SIZE with
  | Some terminator =>
      fail_if rd8 name 0 =? 0 with (- EINVAL) ;;
      Ok (wr_bytes output
            (base + index * BVB_VULKAN_ENABLED_EXTENSION_NAME_SIZE)
            (rd_bytes name 0 (terminator + 1)))
  | None => Err (- EINVAL)
  end.

(** One turn of the loop that reads them back. *)
Definition decode_name_slot (base : Z) (input : bytes) (index : Z)
    (names : list bytes) : result (list bytes) :=
  let slot := input +! (base + index * BVB_VULKAN_ENABLED_EXTENSION_NAME_SIZE)
    in
  match memchr slot BVB_VULKAN_ENABLED_EXTENSION_NAME_SIZE with
  | Some terminator =>
      fail_if rd8 slot 0 =? 0 with (- EPROTO) ;;
      fail_if negb (for_all_from (terminator + 1)
                      BVB_VULKAN_ENABLED_EXTENSION_NAME_SIZE
                      (fun padding => rd8 slot padding =? 0)) with (- EPROTO) ;;
      Ok (<[Z.to_nat index :=
              rd_bytes slot 0 BVB_VULKAN_ENABLED_EXTENSION_NAME_SIZE]> names)
  | None => Err (- EPROTO)
  end.

(** ** Instances with extensions *)

Record bvb_vulkan_instance_create_extended_request :=
    mk_bvb_vulkan_instance_create_extended_request {
  insx_rq_base : bvb_vulkan_instance_create_request;
  insx_rq_enabled_extensions : list bytes
}.

Definition bvb_protocol_encode_vulkan_instance_create_extended_request
    (output : ptr bytes)
    (request : ptr bvb_vulkan_instance_create_extended_request)
    (output_length : ptr Z) : result (bytes * Z) :=
  deref output := output or (- EINVAL) ;;
  deref request := request or (- EINVAL) ;;
  deref _ := output_length or (- EINVAL) ;;
  let count := request.(insx_rq_base).(insc_rq_enabled_extension_count) in
  fail_if (count =? 0) || (BVB_VULKAN_MAX_ENABLED_EXTENSIONS <? count)
    with (- EINVAL) ;;
  let length := BVB_VULKAN_INSTANCE_CREATE_REQUEST_SIZE +
                count * BVB_VULKAN_ENABLED_EXTENSION_NAME_SIZE in
  let output := memset0 output 0 length in
  try output := bvb_protocol_encode_vulkan_instance_create_request
    (Some output) (Some request.(insx_rq_base)) ;;
  try output := for_loop count
    (encode_name_slot BVB_VULKAN_INSTANCE_CREATE_REQUEST_SIZE
       request.(insx_rq_enabled_extensions)) output ;;
  Ok (output, length).

Definition bvb_protocol_decode_vulkan_instance_create_extended_request
    (input : ptr bytes) (input_length : Z)
    (request : ptr bvb_vulkan_instance_create_extended_request) :
    result bvb_vulkan_instance_create_extended_request :=
  deref input := input or (- EINVAL) ;;
  deref request := request or (- EINVAL) ;;
  fail_if input_length <? BVB_VULKAN_INSTANCE_CREATE_REQUEST_SIZE
    with (- EINVAL) ;;
  try base := bvb_protocol_decode_vulkan_instance_create_request
    (Some input) (Some request.(insx_rq_base)) ;;
  let count := base.(insc_rq_enabled_extension_count) in
  fail_if (count =? 0) || (BVB_VULKAN_MAX_ENABLED_EXTENSIONS <? count)
    with (- EPROTO) ;;
  let expected := BVB_VULKAN_INSTANCE_CREATE_REQUEST_SIZE +
                  count * BVB_VULKAN_ENABLED_EXTENSION_NAME_SIZE in
  fail_if negb (input_length =? expected) with (- EPROTO) ;;
  try names := for_loop count
    (decode_name_slot BVB_VULKAN_INSTANCE_CREATE_REQUEST_SIZE input)
    (replicate 24 zero_name) ;;
  Ok (mk_bvb_vulkan_instance_create_extended_request base names).

(** ** Devices with extensions *)

Record bvb_vulkan_device_create_extended_request :=
    mk_bvb_vulkan_device_create_extended_request {
  dcx_rq_base : bvb_vulkan_device_create_request;
  dcx_rq_enabled_extensions : list bytes
}.

Definition bvb_protocol_encode_vulkan_device_create_extended_request
    (output : ptr bytes)
    (request : ptr bvb_vulkan_device_create_extended_request)
    (output_length : ptr Z) : result (bytes * Z) :=
  deref output := output or (- EINVAL) ;;
  deref request := request or (- EINVAL) ;;
  deref _ := output_length or (- EINVAL) ;;
  let count := request.(dcx_rq_base).(dc_rq_enabled_extension_count) in
  fail_if (count =? 0) || (BVB_VULKAN_MAX_ENABLED_EXTENSIONS <? count)
    with (- EINVAL) ;;
  let length := BVB_VULKAN_DEVICE_CREATE_REQUEST_SIZE +
                count * BVB_VULKAN_ENABLED_EXTENSION_NAME_SIZE in
  let output := memset0 output 0 length in
  try output := bvb_protocol_encode_vulkan_device_create_request
    (Some output) (Some request.(dcx_rq_base)) ;;
  try output := for_loop count
    (encode_name_slot BVB_VULKAN_DEVICE_CREATE_REQUEST_SIZE
       request.(dcx_rq_enabled_extensions)) output ;;
  Ok (output, length).

Definition bvb_protocol_decode_vulkan_device_create_extended_request
    (input : ptr bytes) (input_length : Z)
    (request : ptr bvb_vulkan_device_create_extended_request) :
    result bvb_vulkan_device_create_extended_request :=
  deref input := input or (- EINVAL) ;;
  deref request := request or (- EINVAL) ;;
  fail_if input_length <? BVB_VULKAN_DEVICE_CREATE_REQUEST_SIZE
    with (- EINVAL) ;;
  try base := bvb_protocol_decode_vulkan_device_create_request
    (Some input) (Some request.(dcx_rq_base)) ;;
  let count := base.(dc_rq_enabled_extension_count) in
  fail_if (count =? 0) || (BVB_VULKAN_MAX_ENABLED_EXTENSIONS <? count)
    with (- EPROTO) ;;
  let expected := BVB_VULKAN_DEVICE_CREATE_REQUEST_SIZE +
                  count * BVB_VULKAN_ENABLED_EXTENSION_NAME_SIZE in
  fail_if negb (input_length =? expected) with (- EPROTO) ;;
  try names := for_loop count
    (decode_name_slot BVB_VULKAN_DEVICE_CREATE_REQUEST_SIZE input)
    (replicate 24 zero_name) ;;
  Ok (mk_bvb_vulkan_device_create_extended_request base names).

(** ** Devices with several queues, features and extensions

    The names are beside the request: the backend is given both. *)

Definition validate_packed_device_create_counts
    (request : bvb_vulkan_device_create_packed_request) : result unit :=
  fail_if negb (wire_id_is_type request.(dcp_rq_physical_device_id) 2) ||
          (request.(dcp_rq_queue_create_info_count) =? 0) ||
          (BVB_VULKAN_MAX_DEVICE_QUEUE_CREATE_INFOS <?
             request.(dcp_rq_queue_create_info_count)) ||
          (request.(dcp_rq_queue_priority_count) =? 0) ||
          (BVB_VULKAN_MAX_DEVICE_QUEUE_PRIORITIES <?
             request.(dcp_rq_queue_priority_count)) ||
          (BVB_VULKAN_MAX_DEVICE_CREATE_EXTENSIONS <?
             request.(dcp_rq_enabled_extension_count)) ||
          negb (Z.ldiff request.(dcp_rq_enabled_feature_structs)
                  BVB_VULKAN_DEVICE_FEATURE_STRUCT_MASK =? 0)
    with (- EPROTO) ;;
  fail_if negb (for_all request.(dcp_rq_queue_create_info_count) (fun index =>
    let info := elt (mk_device_queue_create_info 0 0 0 0)
                  request.(dcp_rq_queue_create_infos) index in
    negb ((info.(qci_queue_count) =? 0) ||
          (request.(dcp_rq_queue_priority_count) <=?
             info.(qci_first_priority)) ||
          (request.(dcp_rq_queue_priority_count) -
             info.(qci_first_priority) <? info.(qci_queue_count)))))
    with (- EPROTO) ;;
  Ok tt.

(** The group of a structure that is not enabled is all zero. *)
Definition group_matches (enabled bit : Z) (fields : list Z) : bool :=
  negb (Z.land enabled bit =? 0) || forallb (fun field => field =? 0) fields.

Definition packed_device_feature_groups_match_mask
    (request : bvb_vulkan_device_create_packed_request) : bool :=
  let enabled := request.(dcp_rq_enabled_feature_structs) in
  let f := request.(dcp_rq_enabled_features) in
  group_matches enabled BVB_VULKAN_DEVICE_FEATURE_VULKAN_11
    [f.(cf_shader_draw_parameters)] &&
  group_matches enabled BVB_VULKAN_DEVICE_FEATURE_VULKAN_12
    [f.(cf_buffer_device_address); f.(cf_descriptor_indexing);
     f.(cf_descriptor_binding_sampled_image_update_after_bind);
     f.(cf_descriptor_binding_update_unused_while_pending);
     f.(cf_descriptor_binding_partially_bound); f.(cf_host_query_reset);
     f.(cf_runtime_descriptor_array); f.(cf_sampler_mirror_clamp_to_edge);
     f.(cf_scalar_block_layout); f.(cf_timeline_semaphore);
     f.(cf_uniform_buffer_standard_layout); f.(cf_vulkan_memory_model)] &&
  group_matches enabled BVB_VULKAN_DEVICE_FEATURE_VULKAN_13
    [f.(cf_compute_full_subgroups); f.(cf_dynamic_rendering);
     f.(cf_maintenance4); f.(cf_shader_demote_to_helper_invocation);
     f.(cf_shader_zero_initialize_workgroup_memory);
     f.(cf_subgroup_size_control); f.(cf_synchronization2)] &&
  group_matches enabled BVB_VULKAN_DEVICE_FEATURE_DEPTH_CLIP_ENABLE
    [f.(cf_depth_clip_enable)] &&
  group_matches enabled BVB_VULKAN_DEVICE_FEATURE_ROBUSTNESS_2
    [f.(cf_robust_buffer_access2); f.(cf_null_descriptor)] &&
  group_matches enabled BVB_VULKAN_DEVICE_FEATURE_MAINTENANCE_5
    [f.(cf_maintenance5)] &&
  group_matches enabled BVB_VULKAN_DEVICE_FEATURE_MAINTENANCE_6
    [f.(cf_maintenance6)] &&
  for_all 55 (fun index =>
    let value := elt 0 request.(dcp_rq_enabled_base_features) index in
    negb ((1 <? value) ||
          ((Z.land enabled BVB_VULKAN_DEVICE_FEATURE_BASE =? 0) &&
           negb (value =? 0)))).

Definition encode_vulkan_base_features (output : bytes) (values : list Z) :
    result bytes :=
  for_loop 55 (fun index output =>
    Ok (bvb_wire_put_u32 output (index * 4) (elt 0 values index))) output.

Definition decode_vulkan_base_features (input : bytes) : result (list Z) :=
  for_loop 55 (fun index values =>
    let value := bvb_wire_get_u32 input (index * 4) in
    fail_if 1 <? value with (- EPROTO) ;;
    Ok (<[Z.to_nat index := value]> values)) (replicate 55 0).

(** The loop that measures the names: what the message is long with them. *)
Definition packed_names_length (count : Z) (names : list bytes) (length : Z) :
    result Z :=
  for_loop count (fun index length =>
    let name := elt zero_name names index in
    match memchr name BVB_VULKAN_ENABLED_EXTENSION_NAME_SIZE with
    | Some terminator =>
        fail_if rd8 name 0 =? 0 with (- EINVAL) ;;
        fail_if BVB_PROTOCOL_MAX_PAYLOAD - length <? terminator + 1
          with (- EMSGSIZE) ;;
        Ok (length + (terminator + 1))
    | None => Err (- EINVAL)
    end) length.

Definition bvb_protocol_encode_vulkan_device_create_packed_request
    (output : ptr bytes)
    (request : ptr (bvb_vulkan_device_create_packed_request * list bytes))
    (output_length : ptr Z) : result (bytes * Z) :=
  deref output := output or (- EINVAL) ;;
  deref request := request or (- EINVAL) ;;
  deref _ := output_length or (- EINVAL) ;;
  let '(request, names) := request in
  let enabled := request.(dcp_rq_enabled_feature_structs) in
  let info_count := request.(dcp_rq_queue_create_info_count) in
  let priority_count := request.(dcp_rq_queue_priority_count) in
  fail_if negb (is_ok (validate_packed_device_create_counts request)) ||
          negb (packed_device_feature_groups_match_mask request)
    with (- EINVAL) ;;
  let base := Z.land enabled BVB_VULKAN_DEVICE_FEATURE_BASE in
  try length := packed_names_length request.(dcp_rq_enabled_extension_count)
    names
    (BVB_VULKAN_DEVICE_CREATE_PACKED_PREFIX_SIZE +
     (if enabled =? 0 then 0 else BVB_VULKAN_CORE_FEATURES_SIZE) +
     (if base =? 0 then 0 else BVB_VULKAN_BASE_FEATURES_SIZE) +
     info_count * BVB_VULKAN_DEVICE_QUEUE_CREATE_INFO_SIZE +
     priority_count * 4) ;;
  let output := memset0 output 0 length in
  let output := bvb_wire_put_u64 output 0 request.(dcp_rq_physical_device_id) in
  let output := bvb_wire_put_u32 output 8 request.(dcp_rq_flags) in
  let output := bvb_wire_put_u32 output 12 info_count in
  let output := bvb_wire_put_u32 output 16 priority_count in
  let output := bvb_wire_put_u32 output 20 request.(dcp_rq_enabled_layer_count)
    in
  let output := bvb_wire_put_u32 output 24
    request.(dcp_rq_enabled_extension_count) in
  let output := bvb_wire_put_u32 output 28 enabled in
  let cursor := BVB_VULKAN_DEVICE_CREATE_PACKED_PREFIX_SIZE in
  both output cursor :=
    (if enabled =? 0 then Ok (output, cursor) else
     call features := bvb_protocol_encode_vulkan_core_features
       (Some (output +! cursor)) (Some request.(dcp_rq_enabled_features))
       or (- EINVAL) ;;
     Ok (wr_bytes output cursor features,
         cursor + BVB_VULKAN_CORE_FEATURES_SIZE)) ;;
  both output cursor :=
    (if base =? 0 then Ok (output, cursor) else
     try features := encode_vulkan_base_features (output +! cursor)
       request.(dcp_rq_enabled_base_features) ;;
     Ok (wr_bytes output cursor features,
         cursor + BVB_VULKAN_BASE_FEATURES_SIZE)) ;;
  both output cursor := for_loop info_count (fun index '(output, cursor) =>
    let info := elt (mk_device_queue_create_info 0 0 0 0)
                  request.(dcp_rq_queue_create_infos) index in
    let output := bvb_wire_put_u32 output cursor info.(qci_flags) in
    let output := bvb_wire_put_u32 output (cursor + 4)
                    info.(qci_queue_family_index) in
    let output := bvb_wire_put_u32 output (cursor + 8)
                    info.(qci_queue_count) in
    let output := bvb_wire_put_u32 output (cursor + 12)
                    info.(qci_first_priority) in
    Ok (output, cursor + BVB_VULKAN_DEVICE_QUEUE_CREATE_INFO_SIZE))
    (output, cursor) ;;
  both output cursor := for_loop priority_count
    (fun index '(output, cursor) =>
       Ok (bvb_wire_put_u32 output cursor
             (elt 0 request.(dcp_rq_queue_priority_bits) index), cursor + 4))
    (output, cursor) ;;
  for_loop request.(dcp_rq_enabled_extension_count)
    (fun index '(output, cursor) =>
       let name := elt zero_name names index in
       let length := blen (c_string name) + 1 in
       Ok (wr_bytes output cursor (rd_bytes name 0 length), cursor + length))
    (output, cursor).

(** The loop that reads the names, and where it ends. *)
Definition packed_names (count : Z) (input : bytes) (input_length cursor : Z) :
    result (list bytes * Z) :=
  for_loop count (fun index '(names, cursor) =>
    fail_if cursor =? input_length with (- EPROTO) ;;
    let available := Z.min (input_length - cursor)
                       BVB_VULKAN_ENABLED_EXTENSION_NAME_SIZE in
    match memchr (input +! cursor) available with
    | Some terminator =>
        fail_if rd8 input cursor =? 0 with (- EPROTO) ;;
        Ok (<[Z.to_nat index :=
                wr_bytes zero_name 0 (rd_bytes input cursor (terminator + 1))]>
              names, cursor + (terminator + 1))
    | None => Err (- EPROTO)
    end) (replicate 64 zero_name, cursor).

Definition bvb_protocol_decode_vulkan_device_create_packed_request
    (input : ptr bytes) (input_length : Z)
    (request : ptr (bvb_vulkan_device_create_packed_request * list bytes)) :
    result (bvb_vulkan_device_create_packed_request * list bytes) :=
  deref input := input or (- EINVAL) ;;
  deref _ := request or (- EINVAL) ;;
  fail_if (input_length <? BVB_VULKAN_DEVICE_CREATE_PACKED_PREFIX_SIZE) ||
          (BVB_PROTOCOL_MAX_PAYLOAD <? input_length) with (- EINVAL) ;;
  let decoded features base_features infos priorities :=
    {| dcp_rq_physical_device_id := bvb_wire_get_u64 input 0;
       dcp_rq_flags := bvb_wire_get_u32 input 8;
       dcp_rq_queue_create_info_count := bvb_wire_get_u32 input 12;
       dcp_rq_queue_priority_count := bvb_wire_get_u32 input 16;
       dcp_rq_enabled_layer_count := bvb_wire_get_u32 input 20;
       dcp_rq_enabled_extension_count := bvb_wire_get_u32 input 24;
       dcp_rq_enabled_feature_structs := bvb_wire_get_u32 input 28;
       dcp_rq_enabled_features := features;
       dcp_rq_enabled_base_features := base_features;
       dcp_rq_queue_create_infos := infos;
       dcp_rq_queue_priority_bits := priorities |} in
  let no_infos := replicate 8 (mk_device_queue_create_info 0 0 0 0) in
  let no_priorities := replicate 16 0 in
  let enabled := bvb_wire_get_u32 input 28 in
  let info_count := bvb_wire_get_u32 input 12 in
  let priority_count := bvb_wire_get_u32 input 16 in
  fail_if negb (wire_id_is_type (bvb_wire_get_u64 input 0) 2) ||
          (info_count =? 0) ||
          (BVB_VULKAN_MAX_DEVICE_QUEUE_CREATE_INFOS <? info_count) ||
          (priority_count =? 0) ||
          (BVB_VULKAN_MAX_DEVICE_QUEUE_PRIORITIES <? priority_count) ||
          (BVB_VULKAN_MAX_DEVICE_CREATE_EXTENSIONS <?
             bvb_wire_get_u32 input 24) with (- EPROTO) ;;
  let cursor := BVB_VULKAN_DEVICE_CREATE_PACKED_PREFIX_SIZE in
  both features cursor :=
    (if enabled =? 0 then Ok (zero_core_features, cursor) else
     fail_if input_length - cursor <? BVB_VULKAN_CORE_FEATURES_SIZE
       with (- EPROTO) ;;
     call features := bvb_protocol_decode_vulkan_core_features
       (Some (input +! cursor)) (Some zero_core_features) or (- EPROTO) ;;
     Ok (features, cursor + BVB_VULKAN_CORE_FEATURES_SIZE)) ;;
  both base_features cursor :=
    (if Z.land enabled BVB_VULKAN_DEVICE_FEATURE_BASE =? 0
     then Ok (replicate 55 0, cursor) else
     fail_if input_length - cursor <? BVB_VULKAN_BASE_FEATURES_SIZE
       with (- EPROTO) ;;
     call values := decode_vulkan_base_features (input +! cursor)
       or (- EPROTO) ;;
     Ok (values, cursor + BVB_VULKAN_BASE_FEATURES_SIZE)) ;;
  fail_if negb (packed_device_feature_groups_match_mask
                  (decoded features base_features no_infos no_priorities))
    with (- EPROTO) ;;
  let fixed_tail := info_count * BVB_VULKAN_DEVICE_QUEUE_CREATE_INFO_SIZE +
                    priority_count * 4 in
  fail_if input_length - cursor <? fixed_tail with (- EPROTO) ;;
  let infos := fill_array info_count (fun index =>
    let at_ := cursor + index * BVB_VULKAN_DEVICE_QUEUE_CREATE_INFO_SIZE in
    mk_device_queue_create_info (bvb_wire_get_u32 input at_)
      (bvb_wire_get_u32 input (at_ + 4)) (bvb_wire_get_u32 input (at_ + 8))
      (bvb_wire_get_u32 input (at_ + 12))) no_infos in
  let cursor :=
    cursor + info_count * BVB_VULKAN_DEVICE_QUEUE_CREATE_INFO_SIZE in
  let priorities := fill_array priority_count (fun index =>
    bvb_wire_get_u32 input (cursor + index * 4)) no_priorities in
  let cursor := cursor + priority_count * 4 in
  let decoded := decoded features base_features infos priorities in
  fail_if negb (is_ok (validate_packed_device_create_counts decoded))
    with (- EPROTO) ;;
  both names cursor :=
    packed_names decoded.(dcp_rq_enabled_extension_count) input input_length
      cursor ;;
  fail_if negb (cursor =? input_length) with (- EPROTO) ;;
  Ok (decoded, names).

(** ** Requirements of a buffer that does not exist yet *)

Section header.
Context {VH : VulkanHeader}.

Definition bvb_protocol_encode_vulkan_device_buffer_requirements_request
    (output : ptr bytes)
    (request : ptr bvb_vulkan_device_buffer_requirements_request) :
    result bytes :=
  deref output := output or (- EINVAL) ;;
  deref request := request or (- EINVAL) ;;
  fail_if (request.(dbr_rq_size) =? 0) ||
          negb (wire_id_is_type request.(dbr_rq_device_id) 3) ||
          negb (device_buffer_sharing_is_valid request.(dbr_rq_sharing_mode)
                  request.(dbr_rq_queue_family_index_count))
    with (- EINVAL) ;;
  let output := memset0 output 0
    BVB_VULKAN_DEVICE_BUFFER_REQUIREMENTS_REQUEST_SIZE in
  let output := bvb_wire_put_u64 output 0 request.(dbr_rq_device_id) in
  let output := bvb_wire_put_u64 output 8 request.(dbr_rq_size) in
  let output := bvb_wire_put_u32 output 16 request.(dbr_rq_flags) in
  let output := bvb_wire_put_u32 output 20 request.(dbr_rq_usage) in
  let output := bvb_wire_put_u32 output 24 request.(dbr_rq_sharing_mode) in
  let output := bvb_wire_put_u32 output 28
    request.(dbr_rq_queue_family_index_count) in
  for_loop request.(dbr_rq_queue_family_index_count) (fun index output =>
    Ok (bvb_wire_put_u32 output (32 + index * 4)
          (elt 0 request.(dbr_rq_queue_family_indices) index))) output.

Definition bvb_protocol_decode_vulkan_device_buffer_requirements_request
    (input : ptr bytes)
    (request : ptr bvb_vulkan_device_buffer_requirements_request) :
    result bvb_vulkan_device_buffer_requirements_request :=
  deref input := input or (- EINVAL) ;;
  deref _ := request or (- EINVAL) ;;
  let count := bvb_wire_get_u32 input 28 in
  fail_if negb (wire_id_is_type (bvb_wire_get_u64 input 0) 3) ||
          (bvb_wire_get_u64 input 8 =? 0) || (bvb_wire_get_u32 input 20 =? 0) ||
          negb (device_buffer_sharing_is_valid (bvb_wire_get_u32 input 24)
                  count) with (- EPROTO) ;;
  try families := for_loop BVB_VULKAN_DEVICE_BUFFER_MAX_QUEUE_FAMILIES
    (fun index families =>
       let family := bvb_wire_get_u32 input (32 + index * 4) in
       fail_if (count <=? index) && negb (family =? 0) with (- EPROTO) ;;
       fail_if (index <? count) && negb (for_all index (fun earlier =>
           negb (elt 0 families earlier =? family))) with (- EPROTO) ;;
       Ok (<[Z.to_nat index := family]> families)) (replicate 8 0) ;;
  Ok {| dbr_rq_device_id := bvb_wire_get_u64 input 0;
        dbr_rq_size := bvb_wire_get_u64 input 8;
        dbr_rq_flags := bvb_wire_get_u32 input 16;
        dbr_rq_usage := bvb_wire_get_u32 input 20;
        dbr_rq_sharing_mode := bvb_wire_get_u32 input 24;
        dbr_rq_queue_family_index_count := count;
        dbr_rq_queue_family_indices := families |}.

Definition bvb_protocol_encode_vulkan_device_buffer_requirements_response
    (output : ptr bytes)
    (response : ptr bvb_vulkan_device_buffer_requirements_response) :
    result bytes :=
  deref output := output or (- EINVAL) ;;
  deref response := response or (- EINVAL) ;;
  fail_if (1 <? response.(dbr_rs_prefers_dedicated_allocation)) ||
          (1 <? response.(dbr_rs_requires_dedicated_allocation))
    with (- EINVAL) ;;
  call output := bvb_protocol_encode_vulkan_buffer_requirements (Some output)
    (Some response.(dbr_rs_memory)) or (- EINVAL) ;;
  let output := bvb_wire_put_u32 output 24
    response.(dbr_rs_prefers_dedicated_allocation) in
  let output := bvb_wire_put_u32 output 28
    response.(dbr_rs_requires_dedicated_allocation) in
  Ok output.

Definition bvb_protocol_decode_vulkan_device_buffer_requirements_response
    (input : ptr bytes)
    (response : ptr bvb_vulkan_device_buffer_requirements_response) :
    result bvb_vulkan_device_buffer_requirements_response :=
  deref input := input or (- EINVAL) ;;
  deref _ := response or (- EINVAL) ;;
  call memory := bvb_protocol_decode_vulkan_buffer_requirements (Some input)
    (Some (mk_bvb_vulkan_buffer_requirements 0 0 0)) or (- EPROTO) ;;
  let decoded :=
    {| dbr_rs_memory := memory;
       dbr_rs_prefers_dedicated_allocation := bvb_wire_get_u32 input 24;
       dbr_rs_requires_dedicated_allocation := bvb_wire_get_u32 input 28 |} in
  fail_if (1 <? decoded.(dbr_rs_prefers_dedicated_allocation)) ||
          (1 <? decoded.(dbr_rs_requires_dedicated_allocation))
    with (- EPROTO) ;;
  Ok decoded.
End header.

(** ** First barriers of images *)

Definition init_image_barrier_request_valid
    (request : ptr bvb_vulkan_command_buffer_image_barrier_request) : bool :=
  deref_bool request := request or false ;;
  let count := request.(cbib_rq_image_count) in
  let id := elt 0 request.(cbib_rq_image_ids) in
  if negb (wire_id_is_type request.(cbib_rq_command_buffer_id) 11) ||
     (count =? 0) || (BVB_VULKAN_INIT_IMAGE_MAX_BARRIERS <? count)
  then false
  else for_all count (fun index =>
    wire_id_is_type (id index) BVB_OBJECT_IMAGE &&
    for_all index (fun earlier => negb (id earlier =? id index))).

Definition bvb_protocol_encode_vulkan_command_buffer_image_barrier_request
    (output : ptr bytes)
    (request : ptr bvb_vulkan_command_buffer_image_barrier_request) :
    result bytes :=
  deref output := output or (- EINVAL) ;;
  fail_if negb (init_image_barrier_request_valid request) with (- EINVAL) ;;
  deref request := request or (- EINVAL) ;;
  let output := memset0 output 0
    BVB_VULKAN_COMMAND_BUFFER_IMAGE_BARRIER_REQUEST_SIZE in
  let output := bvb_wire_put_u64 output 0 request.(cbib_rq_command_buffer_id) in
  let output := bvb_wire_put_u32 output 8 request.(cbib_rq_image_count) in
  for_loop request.(cbib_rq_image_count) (fun index output =>
    Ok (bvb_wire_put_u64 output (16 + index * 8)
          (elt 0 request.(cbib_rq_image_ids) index))) output.

Definition bvb_protocol_decode_vulkan_command_buffer_image_barrier_request
    (input : ptr bytes)
    (request : ptr bvb_vulkan_command_buffer_image_barrier_request) :
    result bvb_vulkan_command_buffer_image_barrier_request :=
  deref input := input or (- EINVAL) ;;
  deref _ := request or (- EINVAL) ;;
  let count := bvb_wire_get_u32 input 8 in
  fail_if negb (bvb_wire_get_u32 input 12 =? 0) with (- EPROTO) ;;
  try ids := for_loop BVB_VULKAN_INIT_IMAGE_MAX_BARRIERS (fun index ids =>
    let id := bvb_wire_get_u64 input (16 + index * 8) in
    fail_if (count <=? index) && negb (id =? 0) with (- EPROTO) ;;
    Ok (<[Z.to_nat index := id]> ids)) (replicate 4 0) ;;
  let decoded := mk_bvb_vulkan_command_buffer_image_barrier_request
    (bvb_wire_get_u64 input 0) count ids in
  fail_if negb (init_image_barrier_request_valid (Some decoded))
    with (- EPROTO) ;;
  Ok decoded.
