(* ===== verification/ServiceBase.v ===== *)
(** * ServiceBase: packets, requests and replies

    The shape every request handler of src/bridge_service.c has: check that
    the connection is negotiated and has a context, check the length, decode
    the payload, run one operation of the context, encode its answer, and send
    one response whose status is the first code that was not zero.  The
    handlers end in [return bvb_transport_send(client_fd, &response)]; the
    model returns the response and leaves the sending to the loop. *)

From stdpp Require Import base list.
From S2P Require Import Prelude Wire Abi Codec ProtocolBase Transport Window Frame Backend BackendInvariant BackendRules StreamReplay.

#[local] Open Scope list_scope.

(** ** Opcodes *)

Abbreviation BVB_OPCODE_VULKAN_CAPS := 2 (only parsing).
Abbreviation BVB_OPCODE_VULKAN_SELFTEST := 3 (only parsing).
Abbreviation BVB_OPCODE_ACTIVITY_STATUS := 4 (only parsing).
Abbreviation BVB_OPCODE_VULKAN_BATCH_SELFTEST := 5 (only parsing).
Abbreviation BVB_OPCODE_SHARED_BATCH_SETUP := 6 (only parsing).
Abbreviation BVB_OPCODE_SHARED_BATCH_EXECUTE := 7 (only parsing).
Abbreviation BVB_OPCODE_VISIBLE_BATCH_SETUP := 8 (only parsing).
Abbreviation BVB_OPCODE_VISIBLE_BATCH_EXECUTE := 9 (only parsing).
Abbreviation BVB_OPCODE_VISIBLE_BATCH_INLINE := 10 (only parsing).
Abbreviation BVB_OPCODE_VULKAN_GLOBAL_INFO := 11 (only parsing).
Abbreviation BVB_OPCODE_VULKAN_INSTANCE_CREATE := 12 (only parsing).
Abbreviation BVB_OPCODE_VULKAN_INSTANCE_DESTROY := 13 (only parsing).
Abbreviation BVB_OPCODE_VULKAN_PHYSICAL_DEVICES := 14 (only parsing).
Abbreviation BVB_OPCODE_VULKAN_PHYSICAL_DEVICE_PROPERTIES := 15 (only parsing).
Abbreviation BVB_OPCODE_VULKAN_QUEUE_FAMILY_PROPERTIES := 16 (only parsing).
Abbreviation BVB_OPCODE_VULKAN_MEMORY_PROPERTIES := 17 (only parsing).
Abbreviation BVB_OPCODE_VULKAN_DEVICE_EXTENSIONS := 18 (only parsing).
Abbreviation BVB_OPCODE_VULKAN_PHYSICAL_DEVICE_FEATURES := 19 (only parsing).
Abbreviation BVB_OPCODE_VULKAN_DEVICE_CREATE := 20 (only parsing).
Abbreviation BVB_OPCODE_VULKAN_DEVICE_DESTROY := 21 (only parsing).
Abbreviation BVB_OPCODE_VULKAN_DEVICE_QUEUE := 22 (only parsing).
Abbreviation BVB_OPCODE_VULKAN_QUEUE_SUBMIT_EMPTY := 23 (only parsing).
Abbreviation BVB_OPCODE_VULKAN_QUEUE_WAIT_IDLE := 24 (only parsing).
Abbreviation BVB_OPCODE_VULKAN_DEVICE_WAIT_IDLE := 25 (only parsing).
Abbreviation BVB_OPCODE_VULKAN_COMMAND_POOL_CREATE := 26 (only parsing).
Abbreviation BVB_OPCODE_VULKAN_COMMAND_POOL_DESTROY := 27 (only parsing).
Abbreviation BVB_OPCODE_VULKAN_COMMAND_POOL_RESET := 28 (only parsing).
Abbreviation BVB_OPCODE_VULKAN_COMMAND_BUFFER_ALLOCATE := 29 (only parsing).
Abbreviation BVB_OPCODE_VULKAN_COMMAND_BUFFER_FREE := 30 (only parsing).
Abbreviation BVB_OPCODE_VULKAN_COMMAND_BUFFER_BEGIN := 31 (only parsing).
Abbreviation BVB_OPCODE_VULKAN_COMMAND_BUFFER_END := 32 (only parsing).
Abbreviation BVB_OPCODE_VULKAN_QUEUE_SUBMIT_COMMAND := 33 (only parsing).
Abbreviation BVB_OPCODE_VULKAN_BUFFER_CREATE := 34 (only parsing).
Abbreviation BVB_OPCODE_VULKAN_BUFFER_DESTROY := 35 (only parsing).
Abbreviation BVB_OPCODE_VULKAN_BUFFER_REQUIREMENTS := 36 (only parsing).
Abbreviation BVB_OPCODE_VULKAN_MEMORY_ALLOCATE := 37 (only parsing).
Abbreviation BVB_OPCODE_VULKAN_MEMORY_FREE := 38 (only parsing).
Abbreviation BVB_OPCODE_VULKAN_BUFFER_BIND := 39 (only parsing).
Abbreviation BVB_OPCODE_VULKAN_COMMAND_BUFFER_FILL := 40 (only parsing).
Abbreviation BVB_OPCODE_VULKAN_MEMORY_VERIFY_FILL := 41 (only parsing).
Abbreviation BVB_OPCODE_VULKAN_FENCE_CREATE := 42 (only parsing).
Abbreviation BVB_OPCODE_VULKAN_FENCE_DESTROY := 43 (only parsing).
Abbreviation BVB_OPCODE_VULKAN_FENCE_STATUS := 44 (only parsing).
Abbreviation BVB_OPCODE_VULKAN_FENCE_WAIT := 45 (only parsing).
Abbreviation BVB_OPCODE_VULKAN_FENCE_RESET := 46 (only parsing).
Abbreviation BVB_OPCODE_VULKAN_QUEUE_SUBMIT_COMMAND_FENCE := 47 (only parsing).
Abbreviation BVB_OPCODE_VULKAN_MEMORY_WRITE := 48 (only parsing).
Abbreviation BVB_OPCODE_VULKAN_MEMORY_READ := 49 (only parsing).
Abbreviation BVB_OPCODE_EXTERNAL_MEMORY_IMPORT_TEST := 50 (only parsing).
Abbreviation BVB_OPCODE_EXTERNAL_SYNC_IMPORT_TEST := 51 (only parsing).
Abbreviation BVB_OPCODE_EXTERNAL_IMAGE_IMPORT_TEST := 52 (only parsing).
Abbreviation BVB_OPCODE_EXTERNAL_IMAGE_FENCED_IMPORT_TEST := 53 (only parsing).
Abbreviation BVB_OPCODE_EXTERNAL_IMAGE_FRAME_RING_TEST := 54 (only parsing).
Abbreviation BVB_OPCODE_VULKAN_FORMAT_PROPERTIES := 55 (only parsing).
Abbreviation BVB_OPCODE_VULKAN_IMAGE_FORMAT_PROPERTIES := 56 (only parsing).
Abbreviation BVB_OPCODE_VULKAN_DEVICE_CREATE_EXTENDED := 57 (only parsing).
Abbreviation BVB_OPCODE_VULKAN_INSTANCE_EXTENSIONS := 58 (only parsing).
Abbreviation BVB_OPCODE_VULKAN_INSTANCE_CREATE_EXTENDED := 59 (only parsing).
Abbreviation BVB_OPCODE_VULKAN_EXTERNAL_BUFFER_PROPERTIES := 60 (only parsing).
Abbreviation BVB_OPCODE_VULKAN_EXTERNAL_SEMAPHORE_PROPERTIES := 61 (only parsing).
Abbreviation BVB_OPCODE_VULKAN_CORE_FEATURES := 62 (only parsing).
Abbreviation BVB_OPCODE_VULKAN_DEVICE_CREATE_PACKED := 63 (only parsing).
Abbreviation BVB_OPCODE_VULKAN_SWAPCHAIN_PREPARE := 64 (only parsing).
Abbreviation BVB_OPCODE_VULKAN_SWAPCHAIN_DESTROY := 65 (only parsing).
Abbreviation BVB_OPCODE_VULKAN_DESCRIPTOR_SET_LAYOUT_CREATE := 66 (only parsing).
Abbreviation BVB_OPCODE_VULKAN_DESCRIPTOR_POOL_CREATE := 67 (only parsing).
Abbreviation BVB_OPCODE_VULKAN_DESCRIPTOR_SET_ALLOCATE := 68 (only parsing).
Abbreviation BVB_OPCODE_VULKAN_SAMPLER_CREATE := 69 (only parsing).
Abbreviation BVB_OPCODE_VULKAN_DESCRIPTOR_UPDATE := 70 (only parsing).
Abbreviation BVB_OPCODE_VULKAN_DESCRIPTOR_OBJECT_DESTROY := 71 (only parsing).
Abbreviation BVB_OPCODE_VULKAN_PIPELINE_LAYOUT_CREATE := 72 (only parsing).
Abbreviation BVB_OPCODE_VULKAN_PIPELINE_LAYOUT_DESTROY := 73 (only parsing).
Abbreviation BVB_OPCODE_VULKAN_GRAPHICS_PIPELINE_CREATE := 74 (only parsing).
Abbreviation BVB_OPCODE_VULKAN_PIPELINE_DESTROY := 75 (only parsing).
Abbreviation BVB_OPCODE_VULKAN_DEVICE_BUFFER_REQUIREMENTS := 76 (only parsing).
Abbreviation BVB_OPCODE_VULKAN_BUFFER_REQUIREMENTS_2 := 78 (only parsing).
Abbreviation BVB_OPCODE_VULKAN_BUFFER_DEVICE_ADDRESS := 79 (only parsing).
Abbreviation BVB_OPCODE_VULKAN_SEMAPHORE_CREATE := 80 (only parsing).
Abbreviation BVB_OPCODE_VULKAN_SEMAPHORE_DESTROY := 81 (only parsing).
Abbreviation BVB_OPCODE_VULKAN_SEMAPHORE_COUNTER := 82 (only parsing).
Abbreviation BVB_OPCODE_VULKAN_SEMAPHORE_WAIT := 83 (only parsing).
Abbreviation BVB_OPCODE_VULKAN_SEMAPHORE_SIGNAL := 84 (only parsing).
Abbreviation BVB_OPCODE_VULKAN_QUEUE_SUBMIT_2 := 85 (only parsing).
Abbreviation BVB_OPCODE_VULKAN_IMAGE_CREATE := 90 (only parsing).
Abbreviation BVB_OPCODE_VULKAN_IMAGE_DESTROY := 91 (only parsing).
Abbreviation BVB_OPCODE_VULKAN_IMAGE_REQUIREMENTS := 92 (only parsing).
Abbreviation BVB_OPCODE_VULKAN_IMAGE_BIND := 93 (only parsing).
Abbreviation BVB_OPCODE_VULKAN_IMAGE_VIEW_CREATE := 94 (only parsing).
Abbreviation BVB_OPCODE_VULKAN_IMAGE_VIEW_DESTROY := 95 (only parsing).
Abbreviation BVB_OPCODE_VULKAN_IMAGE_REQUIREMENTS_2 := 96 (only parsing).
Abbreviation BVB_OPCODE_VULKAN_MEMORY_ALLOCATE_EXTENDED := 97 (only parsing).
Abbreviation BVB_OPCODE_VULKAN_SWAPCHAIN_ACQUIRE := 100 (only parsing).
Abbreviation BVB_OPCODE_VULKAN_SWAPCHAIN_PRESENT := 101 (only parsing).
Abbreviation BVB_OPCODE_VULKAN_COMMAND_BUFFER_IMAGE_BARRIER := 102 (only parsing).
Abbreviation BVB_OPCODE_VULKAN_COMMAND_BUFFER_CLEAR_COLOR_IMAGE := 103 (only parsing).
Abbreviation BVB_OPCODE_VULKAN_COMMAND_STREAM_SETUP := 104 (only parsing).
Abbreviation BVB_OPCODE_VULKAN_QUEUE_SUBMIT_2_STREAM := 105 (only parsing).
Abbreviation BVB_OPCODE_VULKAN_MEMORY_MIRROR_SETUP := 106 (only parsing).
Abbreviation BVB_OPCODE_VULKAN_MEMORY_MIRROR_FLUSH := 107 (only parsing).
Abbreviation BVB_OPCODE_VULKAN_MEMORY_MIRROR_INVALIDATE := 108 (only parsing).
Abbreviation BVB_OPCODE_VULKAN_MEMORY_MIRROR_UNMAP := 109 (only parsing).
Abbreviation BVB_OPCODE_VULKAN_DESCRIPTOR_UPDATE_TEMPLATE_CREATE := 110 (only parsing).
Abbreviation BVB_OPCODE_VULKAN_BUILTIN_GRAPHICS_PIPELINE_CREATE := 111 (only parsing).
Abbreviation BVB_OPCODE_VULKAN_DESCRIPTOR_UPDATE_TEMPLATE := 112 (only parsing).
Abbreviation BVB_OPCODE_VULKAN_COMMAND_BUFFER_BIND_DESCRIPTOR_SETS := 113 (only parsing).
Abbreviation BVB_OPCODE_VULKAN_COMMAND_BUFFER_IMMEDIATE_RECORD := 114 (only parsing).
Abbreviation BVB_OPCODE_VULKAN_FORMAT_PROPERTIES_3 := 115 (only parsing).
Abbreviation BVB_OPCODE_VULKAN_DESCRIPTOR_POOL_RESET := 116 (only parsing).
Abbreviation BVB_OPCODE_VULKAN_QUERY_POOL_CREATE := 117 (only parsing).
Abbreviation BVB_OPCODE_VULKAN_QUERY_POOL_DESTROY := 118 (only parsing).
Abbreviation BVB_OPCODE_VULKAN_QUERY_POOL_RESULTS := 119 (only parsing).
Abbreviation BVB_OPCODE_VULKAN_QUERY_POOL_RESET := 120 (only parsing).
Abbreviation BVB_OPCODE_VULKAN_DESCRIPTOR_JOURNAL_SETUP := 121 (only parsing).
Abbreviation BVB_OPCODE_VULKAN_DESCRIPTOR_JOURNAL_FLUSH := 122 (only parsing).
Abbreviation BVB_OPCODE_VULKAN_DESCRIPTOR_TRANSACTION_ALLOCATE := 123 (only parsing).
Abbreviation BVB_OPCODE_VULKAN_DESCRIPTOR_TRANSACTION_RING_SETUP := 124 (only parsing).
Abbreviation BVB_OPCODE_VULKAN_MEMORY_DIRECT_MAP_SETUP := 125 (only parsing).

(** ** Packets *)

Definition prepare_response (request : bvb_protocol_packet) :
    bvb_protocol_packet :=
  mk_packet
    (mk_bvb_protocol_header BVB_PROTOCOL_VERSION BVB_PROTOCOL_RESPONSE
       (opcode request) request.(pk_header).(hdr_request_id) 0 0)
    (blank BVB_PROTOCOL_MAX_PAYLOAD).

Definition with_status (status : Z) (p : bvb_protocol_packet) :
    bvb_protocol_packet :=
  mk_packet
    (mk_bvb_protocol_header p.(pk_header).(hdr_version)
       p.(pk_header).(hdr_kind) (opcode p) p.(pk_header).(hdr_request_id)
       (payload_length p) status)
    p.(pk_payload).
Definition with_payload (payload : bytes) (length : Z)
    (p : bvb_protocol_packet) : bvb_protocol_packet :=
  mk_packet
    (mk_bvb_protocol_header p.(pk_header).(hdr_version)
       p.(pk_header).(hdr_kind) (opcode p) p.(pk_header).(hdr_request_id)
       length p.(pk_header).(hdr_status))
    payload.

(** ** Handlers *)

(** What a handler is given: [negotiated], the request and the global
    context ([None] while the pointer is null, with the driver's log). *)
Definition handler := bool -> bvb_protocol_packet -> option world ->
  bvb_protocol_packet * option world.

Definition refuse (request : bvb_protocol_packet) : bvb_protocol_packet :=
  with_status (- EPROTO) (prepare_response request).

(** The response once the work is done. *)
Definition respond (request : bvb_protocol_packet)
    (outcome : result (bytes * Z)) : bvb_protocol_packet :=
  match outcome with
  | Ok (payload, length) => with_payload payload length (prepare_response request)
  | Err status => with_status status (prepare_response request)
  end.

Definition answer (body : bvb_protocol_packet -> M (bytes * Z)) : handler :=
  fun negotiated request context =>
    match context with
    | Some w =>
        if negotiated then
          let '(outcome, w) := body request w in
          (respond request outcome, Some w)
        else (refuse request, Some w)
    | None => (refuse request, None)
    end.

(** The check of the length and the decoder of a message of fixed size; the
    local variable it fills is not initialised. *)
Definition receive {T} `{!Inhabited T} (size : Z)
    (decode : ptr bytes -> ptr T -> result T) (request : bvb_protocol_packet) :
    M T :=
  stop_if negb (payload_length request =? size) with (- EPROTO) ;;
  of_result (decode (Some request.(pk_payload)) (Some inhabitant)).

(** The decoder of a message of varying length checks the length itself. *)
Definition receive_frame {T} `{!Inhabited T}
    (decode : ptr bytes -> Z -> ptr T -> result T)
    (request : bvb_protocol_packet) : M T :=
  of_result (decode (Some request.(pk_payload)) (payload_length request)
               (Some inhabitant)).

(** The encoder writes into the cleared payload of the response. *)
Abbreviation response_payload := (Some (blank BVB_PROTOCOL_MAX_PAYLOAD)).

Definition reply (size : Z) (encoded : result bytes) : M (bytes * Z) :=
  do payload := of_result encoded ;;
  ret (payload, size).
Definition no_reply : M (bytes * Z) :=
  ret (blank BVB_PROTOCOL_MAX_PAYLOAD, 0).

(** ** Procedures

    What a client is promised: a remote procedure is a message format for
    the request, one for the answer, and an operation of the context.  It is
    the specification of a handler. *)

(** [fmt_norm] is what arrives of a value that was sent. *)
Record format (T : Type) := mk_format {
  fmt_rep : T -> bool;
  fmt_norm : T -> T;
  fmt_send : T -> result (bytes * Z);
  fmt_receive : bytes -> Z -> result T
}.
Arguments mk_format {T}.
Arguments fmt_rep {T}.
Arguments fmt_norm {T}.
Arguments fmt_send {T}.
Arguments fmt_receive {T}.

(** What was sent fits a packet and is received, whatever follows it. *)
Class LawfulFormat {T} (f : format T) : Prop :=
  send_receive v p n :
    f.(fmt_rep) v = true -> f.(fmt_send) v = Ok (p, n) ->
    blen p = BVB_PROTOCOL_MAX_PAYLOAD /\ 0 <= n <= BVB_PROTOCOL_MAX_PAYLOAD /\
    forall q, n <= blen q -> agree q p 0 n ->
      f.(fmt_receive) q n = Ok (f.(fmt_norm) v).

Definition codec_format {T} `{!Inhabited T} (c : codec T) : format T := {|
  fmt_rep := c.(codec_rep);
  fmt_norm := id;
  fmt_send v := try p := c.(encode) response_payload (Some v) ;;
                Ok (p, c.(codec_size));
  fmt_receive q n :=
    if negb (n =? c.(codec_size)) then Err (- EPROTO)
    else c.(decode) (Some q) (Some inhabitant)
|}.

Definition frame_format {T} `{!Inhabited T} (f : framed T) : format T := {|
  fmt_rep := f.(fr_rep);
  fmt_norm := f.(fr_norm);
  fmt_send v := f.(fr_encode) response_payload (Some v) (Some 0);
  fmt_receive q n := f.(fr_decode) (Some q) n (Some inhabitant)
|}.

(** No payload at all. *)
Definition empty_format : format unit := {|
  fmt_rep _ := true;
  fmt_norm := id;
  fmt_send _ := Ok (blank BVB_PROTOCOL_MAX_PAYLOAD, 0);
  fmt_receive _ n := if n =? 0 then Ok tt else Err (- EPROTO)
|}.

Record procedure := mk_procedure {
  pr_opcode : Z;
  pr_request : Type;
  pr_answer : Type;
  pr_in : format pr_request;
  pr_out : format pr_answer;
  pr_run : pr_request -> M pr_answer
}.

Definition perform (p : procedure) : handler := answer (fun request =>
  do v := of_result (p.(pr_in).(fmt_receive) request.(pk_payload)
                       (payload_length request)) ;;
  do r := p.(pr_run) v ;;
  of_result (p.(pr_out).(fmt_send) r)).

(** A handler implements a procedure: it is the specification on every
    request that asks for it. *)
Definition implements (h : handler) (p : procedure) : Prop :=
  forall negotiated request context, opcode request = p.(pr_opcode) ->
    h negotiated request context = perform p negotiated request context.

(** ** Equality of computations

    Two computations are the same when they do the same in every world. *)

Definition same {A} (m1 m2 : M A) : Prop := forall w, m1 w = m2 w.
Infix "≐" := same (at level 70, no associativity).

#[export] Instance same_equivalence {A} : Equivalence (@same A).
Proof.
  split; [by intros m w|by intros m1 m2 H w|].
  intros m1 m2 m3 H1 H2 w. by rewrite H1.
Qed.

#[export] Instance bind_proper {A B} :
  Proper (same ==> pointwise_relation A same ==> same) (@bind A B).
Proof.
  intros m1 m2 Hm k1 k2 Hk w. unfold bind. rewrite Hm.
  destruct (m2 w) as [[x|e] w']; [apply Hk|done].
Qed.

#[export] Instance answer_proper :
  Proper (pointwise_relation _ same ==> pointwise_relation _
            (pointwise_relation _ (pointwise_relation _ eq))) answer.
Proof.
  intros b1 b2 Hb negotiated request [w|]; [|done]. unfold answer.
  destruct negotiated; [|done]. by rewrite Hb.
Qed.

Lemma receive_format {T} `{!Inhabited T} (c : codec T) request :
  receive c.(codec_size) c.(decode) request ≐
  of_result ((codec_format c).(fmt_receive) request.(pk_payload)
               (payload_length request)).
Proof. intros w. unfold receive. cbn. by destruct (negb _). Qed.

Lemma reply_format {T} `{!Inhabited T} (c : codec T) v :
  reply c.(codec_size) (c.(encode) response_payload (Some v)) ≐
  of_result ((codec_format c).(fmt_send) v).
Proof.
  intros w. unfold reply. cbn. unfold bind, of_result.
  by destruct (encode _ _ _).
Qed.

Lemma answer_implements body p :
  (forall request, opcode request = p.(pr_opcode) -> body request ≐
     (do v := of_result (p.(pr_in).(fmt_receive) request.(pk_payload)
                           (payload_length request)) ;;
      do r := p.(pr_run) v ;;
      of_result (p.(pr_out).(fmt_send) r))) ->
  implements (answer body) p.
Proof.
  intros Hb negotiated request [w|] Ho; [|done]. unfold perform, answer.
  destruct negotiated; [|done]. by rewrite (Hb request Ho w).
Qed.

(** ** Formats keep their promise *)

Lemma codec_format_lawful {T} `{!Inhabited T} (c : codec T) :
  Lawful c -> 0 <= c.(codec_size) <= BVB_PROTOCOL_MAX_PAYLOAD ->
  LawfulFormat (codec_format c).
Proof.
  intros Hc Hsize v p n Hrep H. cbn in *.
  destruct (encode _ _ _) as [out|] eqn:He; [|done]. injection H as <- <-.
  pose proof (encode_frame _ _ _ He) as [Hl _].
  rewrite blen_blank in Hl by lia. split_and!; [done|lia|lia|].
  intros q Hq Ha. rewrite Z.eqb_refl. cbn [negb].
  rewrite (decode_extent q out); [|done|lia|done].
  eapply decode_encode; [|done|exact He]. rewrite blen_blank; lia.
Qed.

Lemma frame_format_lawful {T} `{!Inhabited T} (f : framed T) :
  LawfulFrame f -> f.(fr_capacity) <= BVB_PROTOCOL_MAX_PAYLOAD ->
  LawfulFormat (frame_format f).
Proof.
  intros Hf Hsize v p n Hrep H. cbn in *.
  destruct (frame_sound (blank BVB_PROTOCOL_MAX_PAYLOAD) v 0 p n
    ltac:(rewrite blen_blank; lia) Hrep H) as (Hn & Hl & _ & Hr).
  rewrite blen_blank in Hl by lia. split_and!; [done|lia|lia|].
  intros q Hq Ha. by apply Hr.
Qed.

#[export] Instance empty_format_lawful : LawfulFormat empty_format.
Proof.
  intros [] p n _ [= <- <-]. rewrite blen_blank by lia.
  by split_and!; [done|lia|lia|intros].
Qed.
