(* ===== verification/ServiceHandlers.v ===== *)
(** * ServiceHandlers: instances, devices, commands and synchronisation

    The request handlers of src/bridge_service.c for the operations that do
    not create or destroy resources; one definition per function.  The
    messages they log and the times they profile are not modelled. *)

From stdpp Require Import base list.
From S2P Require Import Prelude Wire Abi Codec ProtocolBase Transport ProtocolInstance ProtocolDevice ProtocolCommand ProtocolResource ProtocolSync ProtocolSetup CommandTypes Window Frame MessageLists MessageData DescriptorTypes MessageImage Backend BackendInvariant BackendRules BackendSync BackendMirror BackendMemory BackendImage BackendCommand StreamBase StreamReplay BackendSubmit BackendInstance BackendDevice ServiceBase.

#[local] Open Scope list_scope.

(** Local variables that are not initialised. *)
Ltac inhabit := constructor; constructor; exact inhabitant.

#[export] Instance hello_request_inhabited : Inhabited bvb_hello_request.
Proof. inhabit. Defined.
#[export] Instance instance_create_request_inhabited :
  Inhabited bvb_vulkan_instance_create_request.
Proof. inhabit. Defined.
#[export] Instance device_create_request_inhabited :
  Inhabited bvb_vulkan_device_create_request.
Proof. inhabit. Defined.
#[export] Instance device_queue_request_inhabited :
  Inhabited bvb_vulkan_device_queue_request.
Proof. inhabit. Defined.
#[export] Instance command_pool_create_request_inhabited :
  Inhabited bvb_vulkan_command_pool_create_request.
Proof. inhabit. Defined.
#[export] Instance command_pool_reset_request_inhabited :
  Inhabited bvb_vulkan_command_pool_reset_request.
Proof. inhabit. Defined.
#[export] Instance command_buffer_allocate_request_inhabited :
  Inhabited bvb_vulkan_command_buffer_allocate_request.
Proof. inhabit. Defined.
#[export] Instance command_buffer_free_request_inhabited :
  Inhabited bvb_vulkan_command_buffer_free_request.
Proof. inhabit. Defined.
#[export] Instance command_buffer_begin_request_inhabited :
  Inhabited bvb_vulkan_command_buffer_begin_request.
Proof. inhabit. Defined.
#[export] Instance queue_submit_command_request_inhabited :
  Inhabited bvb_vulkan_queue_submit_command_request.
Proof. inhabit. Defined.
#[export] Instance query_pool_create_request_inhabited :
  Inhabited bvb_vulkan_query_pool_create_request.
Proof. inhabit. Defined.
#[export] Instance query_pool_results_request_inhabited :
  Inhabited bvb_vulkan_query_pool_results_request.
Proof. inhabit. Defined.
#[export] Instance query_pool_reset_request_inhabited :
  Inhabited bvb_vulkan_query_pool_reset_request.
Proof. inhabit. Defined.
#[export] Instance buffer_create_request_inhabited :
  Inhabited bvb_vulkan_buffer_create_request.
Proof. inhabit. Defined.
#[export] Instance buffer_requirements_2_request_inhabited :
  Inhabited bvb_vulkan_buffer_requirements_2_request.
Proof. inhabit. Defined.
#[export] Instance buffer_device_address_request_inhabited :
  Inhabited bvb_vulkan_buffer_device_address_request.
Proof. inhabit. Defined.
#[export] Instance buffer_bind_request_inhabited :
  Inhabited bvb_vulkan_buffer_bind_request.
Proof. inhabit. Defined.
#[export] Instance memory_allocate_request_inhabited :
  Inhabited bvb_vulkan_memory_allocate_request.
Proof. inhabit. Defined.
#[export] Instance memory_allocate_extended_request_inhabited :
  Inhabited bvb_vulkan_memory_allocate_extended_request.
Proof. inhabit. Defined.
#[export] Instance image_requirements_2_request_inhabited :
  Inhabited bvb_vulkan_image_requirements_2_request.
Proof. inhabit. Defined.
#[export] Instance image_bind_request_inhabited :
  Inhabited bvb_vulkan_image_bind_request.
Proof. inhabit. Defined.
#[export] Instance image_view_create_request_inhabited :
  Inhabited bvb_vulkan_image_view_create_request.
Proof. inhabit. Defined.
#[export] Instance command_buffer_fill_request_inhabited :
  Inhabited bvb_vulkan_command_buffer_fill_request.
Proof. inhabit. Defined.
#[export] Instance command_buffer_clear_color_image_request_inhabited :
  Inhabited bvb_vulkan_command_buffer_clear_color_image_request.
Proof. inhabit. Defined.
#[export] Instance memory_verify_fill_request_inhabited :
  Inhabited bvb_vulkan_memory_verify_fill_request.
Proof. inhabit. Defined.
#[export] Instance memory_io_request_inhabited :
  Inhabited bvb_vulkan_memory_io_request.
Proof. inhabit. Defined.
#[export] Instance memory_mirror_setup_request_inhabited :
  Inhabited bvb_vulkan_memory_mirror_setup_request.
Proof. inhabit. Defined.
#[export] Instance memory_mirror_range_request_inhabited :
  Inhabited bvb_vulkan_memory_mirror_range_request.
Proof. inhabit. Defined.
#[export] Instance memory_mirror_unmap_request_inhabited :
  Inhabited bvb_vulkan_memory_mirror_unmap_request.
Proof. inhabit. Defined.
#[export] Instance fence_create_request_inhabited :
  Inhabited bvb_vulkan_fence_create_request.
Proof. inhabit. Defined.
#[export] Instance fence_wait_request_inhabited :
  Inhabited bvb_vulkan_fence_wait_request.
Proof. inhabit. Defined.
#[export] Instance queue_submit_command_fence_request_inhabited :
  Inhabited bvb_vulkan_queue_submit_command_fence_request.
Proof. inhabit. Defined.
#[export] Instance semaphore_create_request_inhabited :
  Inhabited bvb_vulkan_semaphore_create_request.
Proof. inhabit. Defined.
#[export] Instance semaphore_wait_request_inhabited :
  Inhabited bvb_vulkan_semaphore_wait_request.
Proof. inhabit. Defined.
#[export] Instance semaphore_signal_request_inhabited :
  Inhabited bvb_vulkan_semaphore_signal_request.
Proof. inhabit. Defined.
#[export] Instance image_create_request_inhabited :
  Inhabited bvb_vulkan_image_create_request.
Proof. inhabit. Defined.
#[export] Instance instance_create_response_inhabited :
  Inhabited bvb_vulkan_instance_create_response.
Proof. inhabit. Defined.
#[export] Instance device_create_response_inhabited :
  Inhabited bvb_vulkan_device_create_response.
Proof. inhabit. Defined.
#[export] Instance command_pool_create_response_inhabited :
  Inhabited bvb_vulkan_command_pool_create_response.
Proof. inhabit. Defined.
#[export] Instance command_buffer_allocate_response_inhabited :
  Inhabited bvb_vulkan_command_buffer_allocate_response.
Proof. inhabit. Defined.
#[export] Instance object_create_response_inhabited :
  Inhabited bvb_vulkan_object_create_response.
Proof. inhabit. Defined.
#[export] Instance physical_devices_inhabited :
  Inhabited bvb_vulkan_physical_devices.
Proof. inhabit. Defined.
#[export] Instance query_pool_results_response_inhabited :
  Inhabited bvb_vulkan_query_pool_results_response.
Proof. inhabit. Defined.
#[export] Instance buffer_requirements_inhabited :
  Inhabited bvb_vulkan_buffer_requirements.
Proof. inhabit. Defined.
#[export] Instance buffer_requirements_2_response_inhabited :
  Inhabited bvb_vulkan_buffer_requirements_2_response.
Proof. inhabit. Defined.
#[export] Instance buffer_device_address_response_inhabited :
  Inhabited bvb_vulkan_buffer_device_address_response.
Proof. inhabit. Defined.
#[export] Instance image_requirements_inhabited :
  Inhabited bvb_vulkan_image_requirements.
Proof. inhabit. Defined.
#[export] Instance image_requirements_2_response_inhabited :
  Inhabited bvb_vulkan_image_requirements_2_response.
Proof. inhabit. Defined.
#[export] Instance memory_verify_fill_response_inhabited :
  Inhabited bvb_vulkan_memory_verify_fill_response.
Proof. inhabit. Defined.
#[export] Instance semaphore_counter_response_inhabited :
  Inhabited bvb_vulkan_semaphore_counter_response.
Proof. inhabit. Defined.
#[export] Instance memory_io_response_inhabited :
  Inhabited bvb_vulkan_memory_io_response.
Proof. inhabit. Defined.

(** ** Handlers *)

Section handlers.
Context {VH : VulkanHeader} {VI : VulkanImage} {VC : VulkanCore}
  {VS : VulkanStream}.
Context (driver : list event -> vk_call -> vk_reply).

(** The decoder of an identifier of a known type. *)
Definition receive_id (type : Z) (request : bvb_protocol_packet) : M Z :=
  receive BVB_VULKAN_OBJECT_ID_SIZE
    (fun input id => bvb_protocol_decode_vulkan_object_id input id type)
    request.

(** The answer of an operation whose only output is a [VkResult]. *)
Definition reply_result (vulkan_result : Z) : M (bytes * Z) :=
  reply BVB_VULKAN_RESULT_SIZE
    (bvb_protocol_encode_vulkan_result response_payload vulkan_result).

(** *** Instances, devices and queues *)

Definition answer_vulkan_instance_destroy : handler := answer (fun request =>
  do decoded := receive BVB_VULKAN_INSTANCE_ID_SIZE
    bvb_protocol_decode_vulkan_instance_id request ;;
  do _ := bvb_vulkan_global_context_destroy_instance driver decoded ;;
  no_reply).

Definition answer_vulkan_physical_devices : handler := answer (fun request =>
  do decoded := receive BVB_VULKAN_INSTANCE_ID_SIZE
    bvb_protocol_decode_vulkan_instance_id request ;;
  do result := bvb_vulkan_global_context_enumerate_physical_devices driver
    decoded ;;
  of_result (bvb_protocol_encode_vulkan_physical_devices response_payload
    (Some result) (Some 0))).

Definition answer_vulkan_device_destroy : handler := answer (fun request =>
  do decoded := receive BVB_VULKAN_DEVICE_ID_SIZE
    bvb_protocol_decode_vulkan_device_id request ;;
  do _ := bvb_vulkan_global_context_destroy_device driver decoded ;;
  no_reply).

Definition answer_vulkan_device_queue : handler := answer (fun request =>
  do decoded := receive BVB_VULKAN_DEVICE_QUEUE_REQUEST_SIZE
    bvb_protocol_decode_vulkan_device_queue_request request ;;
  do result := bvb_vulkan_global_context_get_device_queue driver decoded ;;
  reply BVB_VULKAN_QUEUE_ID_SIZE (bvb_protocol_encode_vulkan_queue_id
    response_payload result)).

Definition answer_vulkan_queue_operation : handler := answer (fun request =>
  stop_if negb (opcode request =? BVB_OPCODE_VULKAN_QUEUE_SUBMIT_EMPTY) &&
          negb (opcode request =? BVB_OPCODE_VULKAN_QUEUE_WAIT_IDLE)
    with (- EPROTO) ;;
  do queue_id := receive BVB_VULKAN_QUEUE_ID_SIZE
    bvb_protocol_decode_vulkan_queue_id request ;;
  do vulkan_result :=
    (if opcode request =? BVB_OPCODE_VULKAN_QUEUE_SUBMIT_EMPTY
     then bvb_vulkan_global_context_queue_submit_empty driver queue_id
     else bvb_vulkan_global_context_queue_wait_idle driver queue_id) ;;
  reply_result vulkan_result).

Definition answer_vulkan_device_wait_idle : handler := answer (fun request =>
  do decoded := receive BVB_VULKAN_DEVICE_ID_SIZE
    bvb_protocol_decode_vulkan_device_id request ;;
  do vulkan_result := bvb_vulkan_global_context_device_wait_idle driver
    decoded ;;
  reply_result vulkan_result).

(** *** Command pools, buffers and submission *)

Definition answer_vulkan_command_pool_create : handler :=
  answer (fun request =>
  do decoded := receive BVB_VULKAN_COMMAND_POOL_CREATE_REQUEST_SIZE
    bvb_protocol_decode_vulkan_command_pool_create_request request ;;
  do result := bvb_vulkan_global_context_create_command_pool driver decoded
    ;;
  reply BVB_VULKAN_COMMAND_POOL_CREATE_RESPONSE_SIZE
    (bvb_protocol_encode_vulkan_command_pool_create_response response_payload
    (Some result))).

Definition answer_vulkan_command_pool_destroy : handler :=
  answer (fun request =>
  do decoded := receive BVB_VULKAN_COMMAND_POOL_ID_SIZE
    bvb_protocol_decode_vulkan_command_pool_id request ;;
  do _ := bvb_vulkan_global_context_destroy_command_pool driver decoded ;;
  no_reply).

Definition answer_vulkan_command_pool_reset : handler :=
  answer (fun request =>
  do decoded := receive BVB_VULKAN_COMMAND_POOL_RESET_REQUEST_SIZE
    bvb_protocol_decode_vulkan_command_pool_reset_request request ;;
  do vulkan_result := bvb_vulkan_global_context_reset_command_pool driver
    decoded ;;
  reply_result vulkan_result).

Definition answer_vulkan_command_buffer_allocate : handler :=
  answer (fun request =>
  do decoded := receive BVB_VULKAN_COMMAND_BUFFER_ALLOCATE_REQUEST_SIZE
    bvb_protocol_decode_vulkan_command_buffer_allocate_request request ;;
  do result := bvb_vulkan_global_context_allocate_command_buffer driver
    decoded ;;
  reply BVB_VULKAN_COMMAND_BUFFER_ALLOCATE_RESPONSE_SIZE
    (bvb_protocol_encode_vulkan_command_buffer_allocate_response
    response_payload (Some result))).

Definition answer_vulkan_command_buffer_free : handler :=
  answer (fun request =>
  do decoded := receive BVB_VULKAN_COMMAND_BUFFER_FREE_REQUEST_SIZE
    bvb_protocol_decode_vulkan_command_buffer_free_request request ;;
  do _ := bvb_vulkan_global_context_free_command_buffer driver decoded ;;
  no_reply).

Definition answer_vulkan_command_buffer_begin : handler :=
  answer (fun request =>
  do decoded := receive BVB_VULKAN_COMMAND_BUFFER_BEGIN_REQUEST_SIZE
    bvb_protocol_decode_vulkan_command_buffer_begin_request request ;;
  do vulkan_result := bvb_vulkan_global_context_begin_command_buffer driver
    decoded ;;
  reply_result vulkan_result).

Definition answer_vulkan_command_buffer_end : handler :=
  answer (fun request =>
  do decoded := receive BVB_VULKAN_COMMAND_BUFFER_ID_SIZE
    bvb_protocol_decode_vulkan_command_buffer_id request ;;
  do vulkan_result := bvb_vulkan_global_context_end_command_buffer driver
    decoded ;;
  reply_result vulkan_result).

Definition answer_vulkan_queue_submit_command : handler :=
  answer (fun request =>
  do decoded := receive BVB_VULKAN_QUEUE_SUBMIT_COMMAND_REQUEST_SIZE
    bvb_protocol_decode_vulkan_queue_submit_command_request request ;;
  do vulkan_result := bvb_vulkan_global_context_queue_submit_command driver
    decoded ;;
  reply_result vulkan_result).

Definition answer_vulkan_command_buffer_fill : handler :=
  answer (fun request =>
  do decoded := receive BVB_VULKAN_COMMAND_BUFFER_FILL_REQUEST_SIZE
    bvb_protocol_decode_vulkan_command_buffer_fill_request request ;;
  do _ := bvb_vulkan_global_context_command_buffer_fill driver decoded ;;
  no_reply).

Definition answer_vulkan_command_buffer_clear_color_image : handler :=
  answer (fun request =>
  do decoded := receive
    BVB_VULKAN_COMMAND_BUFFER_CLEAR_COLOR_IMAGE_REQUEST_SIZE
    bvb_protocol_decode_vulkan_command_buffer_clear_color_image_request
    request ;;
  do _ := bvb_vulkan_global_context_command_buffer_clear_color_image driver
    decoded ;;
  no_reply).

(** The payload itself is a batch. *)
Definition answer_vulkan_command_buffer_immediate_record : handler :=
  answer (fun request =>
  stop_if (payload_length request <? BVB_COMMAND_BATCH_HEADER_SIZE) ||
          (BVB_PROTOCOL_MAX_PAYLOAD <? payload_length request)
    with (- EPROTO) ;;
  do _ := bvb_vulkan_global_context_execute_immediate_record driver
    (Some request.(pk_payload)) (payload_length request) ;;
  no_reply).

Definition answer_vulkan_queue_submit_command_fence : handler :=
  answer (fun request =>
  do decoded := receive BVB_VULKAN_QUEUE_SUBMIT_COMMAND_FENCE_REQUEST_SIZE
    bvb_protocol_decode_vulkan_queue_submit_command_fence_request request ;;
  do vulkan_result := bvb_vulkan_global_context_queue_submit_command_fence
    driver decoded ;;
  reply_result vulkan_result).

(** *** Fences, semaphores and queries *)

Definition answer_vulkan_fence_operation : handler := answer (fun request =>
  do fence_id := receive_id BVB_OBJECT_FENCE request ;;
  do vulkan_result :=
    (if opcode request =? BVB_OPCODE_VULKAN_FENCE_STATUS
     then bvb_vulkan_global_context_get_fence_status driver fence_id
     else if opcode request =? BVB_OPCODE_VULKAN_FENCE_RESET
     then bvb_vulkan_global_context_reset_fence driver fence_id
     else stop (- EPROTO)) ;;
  reply_result vulkan_result).

Definition answer_vulkan_query_pool_results : handler :=
  answer (fun request =>
  do decoded := receive BVB_VULKAN_QUERY_POOL_RESULTS_REQUEST_SIZE
    bvb_protocol_decode_vulkan_query_pool_results_request request ;;
  do result := bvb_vulkan_global_context_get_query_pool_results driver
    decoded ;;
  of_result (bvb_protocol_encode_vulkan_query_pool_results_response
    response_payload (Some result) (Some 0))).

Definition answer_vulkan_query_pool_reset : handler := answer (fun request =>
  do decoded := receive BVB_VULKAN_QUERY_POOL_RESET_REQUEST_SIZE
    bvb_protocol_decode_vulkan_query_pool_reset_request request ;;
  do _ := bvb_vulkan_global_context_reset_query_pool driver decoded ;;
  no_reply).

Definition answer_vulkan_fence_wait : handler := answer (fun request =>
  do decoded := receive BVB_VULKAN_FENCE_WAIT_REQUEST_SIZE
    bvb_protocol_decode_vulkan_fence_wait_request request ;;
  do vulkan_result := bvb_vulkan_global_context_wait_fence driver decoded ;;
  reply_result vulkan_result).

Definition answer_vulkan_semaphore_counter : handler := answer (fun request =>
  do decoded := receive_id BVB_OBJECT_SEMAPHORE request ;;
  do result := bvb_vulkan_global_context_get_semaphore_counter driver decoded
    ;;
  reply BVB_VULKAN_SEMAPHORE_COUNTER_RESPONSE_SIZE
    (bvb_protocol_encode_vulkan_semaphore_counter_response response_payload
    (Some result))).

Definition answer_vulkan_semaphore_wait : handler := answer (fun request =>
  do decoded := receive_frame
    bvb_protocol_decode_vulkan_semaphore_wait_request request ;;
  do vulkan_result := bvb_vulkan_global_context_wait_semaphores driver
    decoded ;;
  reply_result vulkan_result).

Definition answer_vulkan_semaphore_signal : handler := answer (fun request =>
  do decoded := receive BVB_VULKAN_SEMAPHORE_SIGNAL_REQUEST_SIZE
    bvb_protocol_decode_vulkan_semaphore_signal_request request ;;
  do vulkan_result := bvb_vulkan_global_context_signal_semaphore driver
    decoded ;;
  reply_result vulkan_result).

(** *** Memory of buffers and images *)

Definition answer_vulkan_buffer_requirements : handler :=
  answer (fun request =>
  do decoded := receive_id BVB_OBJECT_BUFFER request ;;
  do result := bvb_vulkan_global_context_get_buffer_requirements driver
    decoded ;;
  reply BVB_VULKAN_BUFFER_REQUIREMENTS_SIZE
    (bvb_protocol_encode_vulkan_buffer_requirements response_payload (Some
    result))).

Definition answer_vulkan_buffer_requirements_2 : handler :=
  answer (fun request =>
  do decoded := receive BVB_VULKAN_BUFFER_REQUIREMENTS_2_REQUEST_SIZE
    bvb_protocol_decode_vulkan_buffer_requirements_2_request request ;;
  do result := bvb_vulkan_global_context_get_buffer_requirements_2 driver
    decoded ;;
  reply BVB_VULKAN_BUFFER_REQUIREMENTS_2_RESPONSE_SIZE
    (bvb_protocol_encode_vulkan_buffer_requirements_2_response
    response_payload (Some result))).

Definition answer_vulkan_buffer_device_address : handler :=
  answer (fun request =>
  do decoded := receive BVB_VULKAN_BUFFER_DEVICE_ADDRESS_REQUEST_SIZE
    bvb_protocol_decode_vulkan_buffer_device_address_request request ;;
  do result := bvb_vulkan_global_context_get_buffer_device_address driver
    decoded ;;
  reply BVB_VULKAN_BUFFER_DEVICE_ADDRESS_RESPONSE_SIZE
    (bvb_protocol_encode_vulkan_buffer_device_address_response
    response_payload (Some result))).

Definition answer_vulkan_buffer_bind : handler := answer (fun request =>
  do decoded := receive BVB_VULKAN_BUFFER_BIND_REQUEST_SIZE
    bvb_protocol_decode_vulkan_buffer_bind_request request ;;
  do vulkan_result := bvb_vulkan_global_context_bind_buffer_memory driver
    decoded ;;
  reply_result vulkan_result).

Definition answer_vulkan_image_requirements : handler :=
  answer (fun request =>
  do decoded := receive_id BVB_OBJECT_IMAGE request ;;
  do result := bvb_vulkan_global_context_get_image_requirements driver
    decoded ;;
  reply BVB_VULKAN_IMAGE_REQUIREMENTS_SIZE
    (bvb_protocol_encode_vulkan_image_requirements response_payload (Some
    result))).

Definition answer_vulkan_image_requirements_2 : handler :=
  answer (fun request =>
  do decoded := receive BVB_VULKAN_IMAGE_REQUIREMENTS_2_REQUEST_SIZE
    bvb_protocol_decode_vulkan_image_requirements_2_request request ;;
  do result := bvb_vulkan_global_context_get_image_requirements_2 driver
    decoded ;;
  reply BVB_VULKAN_IMAGE_REQUIREMENTS_2_RESPONSE_SIZE
    (bvb_protocol_encode_vulkan_image_requirements_2_response
    response_payload (Some result))).

Definition answer_vulkan_image_bind : handler := answer (fun request =>
  do decoded := receive BVB_VULKAN_IMAGE_BIND_REQUEST_SIZE
    bvb_protocol_decode_vulkan_image_bind_request request ;;
  do vulkan_result := bvb_vulkan_global_context_bind_image_memory driver
    decoded ;;
  reply_result vulkan_result).

(** *** Mapped memory *)

Definition answer_vulkan_memory_verify_fill : handler :=
  answer (fun request =>
  do decoded := receive BVB_VULKAN_MEMORY_VERIFY_FILL_REQUEST_SIZE
    bvb_protocol_decode_vulkan_memory_verify_fill_request request ;;
  do result := bvb_vulkan_global_context_verify_memory_fill driver decoded ;;
  reply BVB_VULKAN_MEMORY_VERIFY_FILL_RESPONSE_SIZE
    (bvb_protocol_encode_vulkan_memory_verify_fill_response response_payload
    (Some result))).

(** The bytes to write follow the request. *)
Definition answer_vulkan_memory_write : handler := answer (fun request =>
  do (decoded, data) := of_result
    (bvb_protocol_decode_vulkan_memory_write_request
       (Some request.(pk_payload)) (payload_length request)
       (Some inhabitant) (Some inhabitant)) ;;
  do vulkan_result :=
    bvb_vulkan_global_context_write_memory driver decoded data ;;
  of_result (bvb_protocol_encode_vulkan_memory_io_response response_payload
    (Some (mk_bvb_vulkan_memory_io_response vulkan_result 0)) None (Some 0))).

Definition answer_vulkan_memory_read : handler := answer (fun request =>
  do decoded := receive BVB_VULKAN_MEMORY_IO_PREFIX_SIZE
    bvb_protocol_decode_vulkan_memory_read_request request ;;
  do (vulkan_result, data) := bvb_vulkan_global_context_read_memory driver
    decoded BVB_VULKAN_MEMORY_IO_MAX_BYTES ;;
  let length := blen data in
  of_result (bvb_protocol_encode_vulkan_memory_io_response response_payload
    (Some (mk_bvb_vulkan_memory_io_response vulkan_result
             (if vulkan_result =? VK_SUCCESS then length else 0)))
    (if length =? 0 then None else Some data) (Some 0))).

Definition answer_vulkan_memory_mirror_range : handler :=
  answer (fun request =>
  do decoded := receive BVB_VULKAN_MEMORY_MIRROR_RANGE_SIZE
    bvb_protocol_decode_vulkan_memory_mirror_range_request request ;;
  do vulkan_result :=
    (if opcode request =? BVB_OPCODE_VULKAN_MEMORY_MIRROR_FLUSH
     then bvb_vulkan_global_context_flush_memory_mirror driver decoded
     else if opcode request =? BVB_OPCODE_VULKAN_MEMORY_MIRROR_INVALIDATE
     then bvb_vulkan_global_context_invalidate_memory_mirror driver decoded
     else stop (- EPROTO)) ;;
  reply_result vulkan_result).

Definition answer_vulkan_memory_mirror_unmap : handler :=
  answer (fun request =>
  do decoded := receive BVB_VULKAN_MEMORY_MIRROR_UNMAP_SIZE
    bvb_protocol_decode_vulkan_memory_mirror_unmap_request request ;;
  do _ := bvb_vulkan_global_context_unmap_memory_mirror driver decoded ;;
  no_reply).

End handlers.
