(* ===== verification/ServiceResources.v ===== *)
(** * ServiceResources: requests that create, destroy and fill resources

    The handlers of src/bridge_service.c for instances and devices with
    extensions, for the objects of a device, descriptors, mapped memory,
    command streams and submissions.

    [descriptor_lease_forget_pool] and [descriptor_lease_after_pool_reset] do
    nothing while the connection has no transaction ring, and the loop of
    Service.v leaves the request that sets one up outside the model. *)

From stdpp Require Import base list.
From S2P Require Import Prelude Wire Abi Codec ProtocolBase Transport ProtocolInstance ProtocolDevice ProtocolCommand ProtocolResource ProtocolSync ProtocolSetup Handle Lifecycle CommandTypes Window Frame MessageLists MessageData DescriptorTypes MessageSubmit MessageDescriptor MessageBinding MessageImage StreamGeneration Backend BackendInvariant BackendRules BackendSync BackendDescriptor BackendPipeline BackendMirror BackendMemory BackendImage BackendCommand StreamBase StreamReplay BackendSubmit StreamSubmit BackendInstance BackendDevice BackendService MessageCreate ServiceBase ServiceHandlers.

#[local] Open Scope list_scope.

Abbreviation BVB_VULKAN_DESCRIPTOR_POOL_RESET_REQUEST_SIZE := 16 (only parsing).
Abbreviation BVB_VULKAN_SAMPLER_CREATE_REQUEST_SIZE := 72 (only parsing).

#[export] Instance sampler_create_request_inhabited :
  Inhabited bvb_vulkan_sampler_create_request.
Proof. inhabit. Defined.
#[export] Instance set_layout_create_request_inhabited :
  Inhabited bvb_vulkan_descriptor_set_layout_create_request.
Proof. inhabit. Defined.
#[export] Instance descriptor_pool_create_request_inhabited :
  Inhabited bvb_vulkan_descriptor_pool_create_request.
Proof. inhabit. Defined.
#[export] Instance descriptor_pool_reset_request_inhabited :
  Inhabited bvb_vulkan_descriptor_pool_reset_request.
Proof. inhabit. Defined.
#[export] Instance set_allocate_request_inhabited :
  Inhabited bvb_vulkan_descriptor_set_allocate_request.
Proof. inhabit. Defined.
#[export] Instance set_allocate_response_inhabited :
  Inhabited bvb_vulkan_descriptor_set_allocate_response.
Proof. inhabit. Defined.
#[export] Instance descriptor_update_request_inhabited :
  Inhabited bvb_vulkan_descriptor_update_request.
Proof. inhabit. Defined.
#[export] Instance template_create_request_inhabited :
  Inhabited bvb_vulkan_descriptor_update_template_create_request.
Proof. inhabit. Defined.
#[export] Instance template_update_request_inhabited :
  Inhabited bvb_vulkan_descriptor_template_update_request.
Proof. inhabit. Defined.
#[export] Instance bind_sets_request_inhabited :
  Inhabited bvb_vulkan_bind_descriptor_sets_request.
Proof. inhabit. Defined.
#[export] Instance pipeline_layout_request_inhabited :
  Inhabited bvb_vulkan_pipeline_layout_create_request.
Proof. inhabit. Defined.
#[export] Instance submit_2_request_inhabited :
  Inhabited bvb_vulkan_queue_submit_2_request.
Proof. inhabit. Defined.
#[export] Instance instance_extended_inhabited :
  Inhabited bvb_vulkan_instance_create_extended_request.
Proof. inhabit. Defined.
#[export] Instance device_extended_inhabited :
  Inhabited bvb_vulkan_device_create_extended_request.
Proof. inhabit. Defined.
#[export] Instance core_features_inhabited :
  Inhabited bvb_vulkan_core_features.
Proof. inhabit. Defined.
#[export] Instance device_packed_inhabited :
  Inhabited bvb_vulkan_device_create_packed_request.
Proof. inhabit. Defined.
#[export] Instance device_buffer_request_inhabited :
  Inhabited bvb_vulkan_device_buffer_requirements_request.
Proof. inhabit. Defined.
#[export] Instance image_barrier_request_inhabited :
  Inhabited bvb_vulkan_command_buffer_image_barrier_request.
Proof. inhabit. Defined.
#[export] Instance shared_batch_setup_inhabited :
  Inhabited bvb_shared_batch_setup.
Proof. inhabit. Defined.

Section handlers.
Context {VH : VulkanHeader} {VI : VulkanImage} {VC : VulkanCore}
  {VS : VulkanStream}.
Context (driver : list event -> vk_call -> vk_reply).

(** ** Instances and devices *)

(** The names passed on: those in use, [NULL] if there are none. *)
Definition enabled_names (count : Z) (names : list bytes) :
    ptr (list bytes) :=
  if count =? 0 then None else Some (c_string <$> in_use count names).

(** The context does not exist before the first request that needs it;
    [loader] is what loading the library and asking it for its instance
    extensions gives. *)
Definition bvb_vulkan_global_context_create
    (allowlist : list bytes) (loader : result (bool * list bytes)) :
    result bvb_vulkan_global_context :=
  try library := loader ;;
  fresh_context library.1 allowlist library.2.

Definition ensure_vulkan_global_context (allowlist : list bytes)
    (loader : result (bool * list bytes)) (context : option world) :
    result world :=
  match context with
  | Some w => Ok w
  | None =>
      try c := bvb_vulkan_global_context_create allowlist loader ;;
      Ok (mk_world c [])
  end.

(** The request and its names, of both messages. *)
Definition decode_instance_create (request : bvb_protocol_packet) :
    result (bvb_vulkan_instance_create_request * list bytes) :=
  if opcode request =? BVB_OPCODE_VULKAN_INSTANCE_CREATE then
    try create_request := bvb_protocol_decode_vulkan_instance_create_request
      (Some request.(pk_payload)) (Some inhabitant) ;;
    Ok (create_request, replicate 24 zero_name)
  else
    try extended :=
      bvb_protocol_decode_vulkan_instance_create_extended_request
        (Some request.(pk_payload)) (payload_length request)
        (Some inhabitant) ;;
    Ok (extended.(insx_rq_base), extended.(insx_rq_enabled_extensions)).

Definition answer_vulkan_instance_create (allowlist : list bytes)
    (loader : result (bool * list bytes)) : handler :=
  fun negotiated request context =>
    if negb negotiated ||
       ((opcode request =? BVB_OPCODE_VULKAN_INSTANCE_CREATE) &&
        negb (payload_length request =?
                BVB_VULKAN_INSTANCE_CREATE_REQUEST_SIZE)) ||
       (negb (opcode request =? BVB_OPCODE_VULKAN_INSTANCE_CREATE) &&
        negb (opcode request =? BVB_OPCODE_VULKAN_INSTANCE_CREATE_EXTENDED))
    then (refuse request, context)
    else match decode_instance_create request with
    | Err e => (respond request (Err e), context)
    | Ok (create_request, names) =>
        match ensure_vulkan_global_context allowlist loader context with
        | Err e => (respond request (Err e), context)
        | Ok w =>
            let '(outcome, w) :=
              (do create_response :=
                 bvb_vulkan_global_context_create_instance driver
                   create_request
                   (enabled_names
                      create_request.(insc_rq_enabled_extension_count) names) ;;
               reply BVB_VULKAN_INSTANCE_CREATE_RESPONSE_SIZE
                 (bvb_protocol_encode_vulkan_instance_create_response
                    response_payload (Some create_response))) w in
            (respond request outcome, Some w)
        end
    end.

Definition answer_vulkan_device_create : handler := answer (fun request =>
  let op := opcode request in
  stop_if ((op =? BVB_OPCODE_VULKAN_DEVICE_CREATE) &&
           negb (payload_length request =?
                   BVB_VULKAN_DEVICE_CREATE_REQUEST_SIZE)) ||
          (negb (op =? BVB_OPCODE_VULKAN_DEVICE_CREATE) &&
           negb (op =? BVB_OPCODE_VULKAN_DEVICE_CREATE_EXTENDED) &&
           negb (op =? BVB_OPCODE_VULKAN_DEVICE_CREATE_PACKED))
    with (- EPROTO) ;;
  do create_response :=
    (if op =? BVB_OPCODE_VULKAN_DEVICE_CREATE then
       do create_request := of_result
         (bvb_protocol_decode_vulkan_device_create_request
            (Some request.(pk_payload)) (Some inhabitant)) ;;
       bvb_vulkan_global_context_create_device driver create_request
         (enabled_names create_request.(dc_rq_enabled_extension_count)
            (replicate 64 zero_name))
     else if op =? BVB_OPCODE_VULKAN_DEVICE_CREATE_EXTENDED then
       do extended := of_result
         (bvb_protocol_decode_vulkan_device_create_extended_request
            (Some request.(pk_payload)) (payload_length request)
            (Some inhabitant)) ;;
       bvb_vulkan_global_context_create_device driver extended.(dcx_rq_base)
         (enabled_names extended.(dcx_rq_base).(dc_rq_enabled_extension_count)
            extended.(dcx_rq_enabled_extensions))
     else
       do (packed, names) := of_result
         (bvb_protocol_decode_vulkan_device_create_packed_request
            (Some request.(pk_payload)) (payload_length request)
            (Some (inhabitant, []))) ;;
       bvb_vulkan_global_context_create_device_packed driver packed
         (enabled_names packed.(dcp_rq_enabled_extension_count) names)) ;;
  reply BVB_VULKAN_DEVICE_CREATE_RESPONSE_SIZE
    (bvb_protocol_encode_vulkan_device_create_response response_payload
       (Some create_response))).

(** ** Objects of a device *)

(** One branch: decode, create, and the type the answer has to have. *)
Definition decode_and_create {T} (decoded : result T)
    (create : T -> M bvb_vulkan_object_create_response) (expected_type : Z) :
    M (bvb_vulkan_object_create_response * Z) :=
  do decoded := of_result decoded ;;
  do created := create decoded ;;
  ret (created, expected_type).

(** The branch for graphics pipelines is missing: the loop of Service.v has no
    answer to [BVB_OPCODE_VULKAN_GRAPHICS_PIPELINE_CREATE]. *)
Definition create_resource (request : bvb_protocol_packet) :
    M (bvb_vulkan_object_create_response * Z) :=
  let op := opcode request in
  let length := payload_length request in
  let payload := Some request.(pk_payload) in
  if (op =? BVB_OPCODE_VULKAN_BUFFER_CREATE) &&
     (length =? BVB_VULKAN_BUFFER_CREATE_REQUEST_SIZE) then
    decode_and_create (bvb_protocol_decode_vulkan_buffer_create_request
        payload (Some inhabitant))
      (bvb_vulkan_global_context_create_buffer driver) BVB_OBJECT_BUFFER
  else if (op =? BVB_OPCODE_VULKAN_MEMORY_ALLOCATE) &&
          (length =? BVB_VULKAN_MEMORY_ALLOCATE_REQUEST_SIZE) then
    decode_and_create (bvb_protocol_decode_vulkan_memory_allocate_request
        payload (Some inhabitant))
      (bvb_vulkan_global_context_allocate_memory driver)
      BVB_OBJECT_DEVICE_MEMORY
  else if (op =? BVB_OPCODE_VULKAN_MEMORY_ALLOCATE_EXTENDED) &&
          (length =? BVB_VULKAN_MEMORY_ALLOCATE_EXTENDED_REQUEST_SIZE) then
    decode_and_create
      (bvb_protocol_decode_vulkan_memory_allocate_extended_request
        payload (Some inhabitant))
      (bvb_vulkan_global_context_allocate_memory_extended driver)
      BVB_OBJECT_DEVICE_MEMORY
  else if (op =? BVB_OPCODE_VULKAN_FENCE_CREATE) &&
          (length =? BVB_VULKAN_FENCE_CREATE_REQUEST_SIZE) then
    decode_and_create (bvb_protocol_decode_vulkan_fence_create_request
        payload (Some inhabitant))
      (bvb_vulkan_global_context_create_fence driver) BVB_OBJECT_FENCE
  else if (op =? BVB_OPCODE_VULKAN_SEMAPHORE_CREATE) &&
          (length =? BVB_VULKAN_SEMAPHORE_CREATE_REQUEST_SIZE) then
    decode_and_create (bvb_protocol_decode_vulkan_semaphore_create_request
        payload (Some inhabitant))
      (bvb_vulkan_global_context_create_semaphore driver) BVB_OBJECT_SEMAPHORE
  else if op =? BVB_OPCODE_VULKAN_DESCRIPTOR_SET_LAYOUT_CREATE then
    decode_and_create
      (bvb_protocol_decode_vulkan_descriptor_set_layout_create_request
        payload length (Some inhabitant))
      (bvb_vulkan_global_context_create_descriptor_set_layout driver)
      BVB_OBJECT_DESCRIPTOR_SET_LAYOUT
  else if op =? BVB_OPCODE_VULKAN_DESCRIPTOR_POOL_CREATE then
    decode_and_create
      (bvb_protocol_decode_vulkan_descriptor_pool_create_request
        payload length (Some inhabitant))
      (bvb_vulkan_global_context_create_descriptor_pool driver)
      BVB_OBJECT_DESCRIPTOR_POOL
  else if (op =? BVB_OPCODE_VULKAN_QUERY_POOL_CREATE) &&
          (length =? BVB_VULKAN_QUERY_POOL_CREATE_REQUEST_SIZE) then
    decode_and_create (bvb_protocol_decode_vulkan_query_pool_create_request
        payload (Some inhabitant))
      (bvb_vulkan_global_context_create_query_pool driver)
      BVB_OBJECT_QUERY_POOL
  else if (op =? BVB_OPCODE_VULKAN_SAMPLER_CREATE) &&
          (length =? BVB_VULKAN_SAMPLER_CREATE_REQUEST_SIZE) then
    decode_and_create (bvb_protocol_decode_vulkan_sampler_create_request
        payload (Some inhabitant))
      (bvb_vulkan_global_context_create_sampler driver) BVB_OBJECT_SAMPLER
  else if op =? BVB_OPCODE_VULKAN_DESCRIPTOR_UPDATE_TEMPLATE_CREATE then
    decode_and_create
      (bvb_protocol_decode_vulkan_descriptor_update_template_create_request
        payload length (Some inhabitant))
      (bvb_vulkan_global_context_create_descriptor_update_template driver)
      BVB_OBJECT_DESCRIPTOR_UPDATE_TEMPLATE
  else if op =? BVB_OPCODE_VULKAN_PIPELINE_LAYOUT_CREATE then
    decode_and_create
      (bvb_protocol_decode_vulkan_pipeline_layout_create_request
        payload length (Some inhabitant))
      (bvb_vulkan_global_context_create_pipeline_layout driver)
      BVB_OBJECT_PIPELINE_LAYOUT
  else if (op =? BVB_OPCODE_VULKAN_IMAGE_CREATE) &&
          (length =? BVB_VULKAN_IMAGE_CREATE_REQUEST_SIZE) then
    decode_and_create (bvb_protocol_decode_vulkan_image_create_request
        payload (Some inhabitant))
      (bvb_vulkan_global_context_create_image driver) BVB_OBJECT_IMAGE
  else if (op =? BVB_OPCODE_VULKAN_IMAGE_VIEW_CREATE) &&
          (length =? BVB_VULKAN_IMAGE_VIEW_CREATE_REQUEST_SIZE) then
    decode_and_create (bvb_protocol_decode_vulkan_image_view_create_request
        payload (Some inhabitant))
      (bvb_vulkan_global_context_create_image_view driver)
      BVB_OBJECT_IMAGE_VIEW
  else stop (- EPROTO).

Definition answer_vulkan_resource_create : handler := answer (fun request =>
  do (created, expected_type) := create_resource request ;;
  reply BVB_VULKAN_OBJECT_CREATE_RESPONSE_SIZE
    (bvb_protocol_encode_vulkan_object_create_response response_payload
       (Some created) expected_type)).

(** Which operation the opcode, or the type of a descriptor object, selects,
    with the type its identifier has to have. *)
Definition select_destroy (op descriptor_type : Z) :
    option (Z * (Z -> M unit)) :=
  if op =? BVB_OPCODE_VULKAN_BUFFER_DESTROY then
    Some (BVB_OBJECT_BUFFER, bvb_vulkan_global_context_destroy_buffer driver)
  else if op =? BVB_OPCODE_VULKAN_MEMORY_FREE then
    Some (BVB_OBJECT_DEVICE_MEMORY,
          bvb_vulkan_global_context_free_memory driver)
  else if op =? BVB_OPCODE_VULKAN_FENCE_DESTROY then
    Some (BVB_OBJECT_FENCE, bvb_vulkan_global_context_destroy_fence driver)
  else if op =? BVB_OPCODE_VULKAN_SEMAPHORE_DESTROY then
    Some (BVB_OBJECT_SEMAPHORE,
          bvb_vulkan_global_context_destroy_semaphore driver)
  else if op =? BVB_OPCODE_VULKAN_PIPELINE_LAYOUT_DESTROY then
    Some (BVB_OBJECT_PIPELINE_LAYOUT,
          bvb_vulkan_global_context_destroy_pipeline_layout driver)
  else if op =? BVB_OPCODE_VULKAN_PIPELINE_DESTROY then
    Some (BVB_OBJECT_PIPELINE,
          bvb_vulkan_global_context_destroy_pipeline driver)
  else if op =? BVB_OPCODE_VULKAN_IMAGE_DESTROY then
    Some (BVB_OBJECT_IMAGE, bvb_vulkan_global_context_destroy_image driver)
  else if op =? BVB_OPCODE_VULKAN_IMAGE_VIEW_DESTROY then
    Some (BVB_OBJECT_IMAGE_VIEW,
          bvb_vulkan_global_context_destroy_image_view driver)
  else if op =? BVB_OPCODE_VULKAN_QUERY_POOL_DESTROY then
    Some (BVB_OBJECT_QUERY_POOL,
          bvb_vulkan_global_context_destroy_query_pool driver)
  else if descriptor_type =? BVB_OBJECT_DESCRIPTOR_SET_LAYOUT then
    Some (BVB_OBJECT_DESCRIPTOR_SET_LAYOUT,
          bvb_vulkan_global_context_destroy_descriptor_set_layout driver)
  else if descriptor_type =? BVB_OBJECT_DESCRIPTOR_POOL then
    Some (BVB_OBJECT_DESCRIPTOR_POOL,
          bvb_vulkan_global_context_destroy_descriptor_pool driver)
  else if descriptor_type =? BVB_OBJECT_DESCRIPTOR_UPDATE_TEMPLATE then
    Some (BVB_OBJECT_DESCRIPTOR_UPDATE_TEMPLATE,
          bvb_vulkan_global_context_destroy_descriptor_update_template driver)
  else if descriptor_type =? BVB_OBJECT_SAMPLER then
    Some (BVB_OBJECT_SAMPLER, bvb_vulkan_global_context_destroy_sampler driver)
  else None.

Definition answer_vulkan_resource_destroy : handler := answer (fun request =>
  stop_if negb (payload_length request =? BVB_VULKAN_OBJECT_ID_SIZE)
    with (- EPROTO) ;;
  let descriptor_type :=
    if opcode request =? BVB_OPCODE_VULKAN_DESCRIPTOR_OBJECT_DESTROY
    then bvb_handle_type (bvb_wire_get_u64 request.(pk_payload) 0) else 0 in
  match select_destroy (opcode request) descriptor_type with
  | None => stop (- EPROTO)
  | Some (type, destroy) =>
      do object_id := of_result (bvb_protocol_decode_vulkan_object_id
        (Some request.(pk_payload)) (Some 0) type) ;;
      do _ := destroy object_id ;;
      no_reply
  end).

(** ** Descriptors *)

Definition answer_vulkan_descriptor_set_allocate : handler :=
  answer (fun request =>
  do decoded := receive_frame
    bvb_protocol_decode_vulkan_descriptor_set_allocate_request request ;;
  do allocated := bvb_vulkan_global_context_allocate_descriptor_sets driver
    decoded ;;
  of_result (bvb_protocol_encode_vulkan_descriptor_set_allocate_response
    response_payload (Some allocated) (Some 0))).

Definition answer_vulkan_descriptor_pool_reset : handler :=
  answer (fun request =>
  do decoded := receive BVB_VULKAN_DESCRIPTOR_POOL_RESET_REQUEST_SIZE
    bvb_protocol_decode_vulkan_descriptor_pool_reset_request request ;;
  do vulkan_result := bvb_vulkan_global_context_reset_descriptor_pool driver
    decoded ;;
  reply_result vulkan_result).

Definition answer_vulkan_descriptor_update : handler := answer (fun request =>
  do decoded := receive_frame
    bvb_protocol_decode_vulkan_descriptor_update_request request ;;
  do _ := bvb_vulkan_global_context_update_descriptors driver decoded ;;
  no_reply).

Definition answer_vulkan_descriptor_template_update : handler :=
  answer (fun request =>
  do decoded := receive_frame
    bvb_protocol_decode_vulkan_descriptor_template_update_request request ;;
  do _ := bvb_vulkan_global_context_update_descriptor_set_with_template driver
    decoded ;;
  no_reply).

Definition answer_vulkan_command_buffer_bind_descriptor_sets : handler :=
  answer (fun request =>
  do decoded := receive_frame
    bvb_protocol_decode_vulkan_bind_descriptor_sets_request request ;;
  do _ := bvb_vulkan_global_context_command_buffer_bind_descriptor_sets driver
    decoded ;;
  no_reply).

(** ** Buffers and images *)

Definition answer_vulkan_device_buffer_requirements : handler :=
  answer (fun request =>
  do decoded := receive BVB_VULKAN_DEVICE_BUFFER_REQUIREMENTS_REQUEST_SIZE
    bvb_protocol_decode_vulkan_device_buffer_requirements_request request ;;
  do requirements := bvb_vulkan_global_context_get_device_buffer_requirements
    driver decoded ;;
  reply BVB_VULKAN_DEVICE_BUFFER_REQUIREMENTS_RESPONSE_SIZE
    (bvb_protocol_encode_vulkan_device_buffer_requirements_response
       response_payload (Some requirements))).

Definition answer_vulkan_command_buffer_image_barrier : handler :=
  answer (fun request =>
  do decoded := receive BVB_VULKAN_COMMAND_BUFFER_IMAGE_BARRIER_REQUEST_SIZE
    bvb_protocol_decode_vulkan_command_buffer_image_barrier_request request ;;
  do _ := bvb_vulkan_global_context_command_buffer_image_barrier driver
    decoded ;;
  no_reply).

(** ** Mapped memory *)

(** [received_fd] is absent when it is negative. *)
Definition answer_vulkan_memory_mirror_setup (received_fd : option received_fd) :
    handler := answer (fun request =>
  match received_fd with
  | None => stop (- EPROTO)
  | Some received_fd =>
      do decoded := receive BVB_VULKAN_MEMORY_MIRROR_SETUP_SIZE
        bvb_protocol_decode_vulkan_memory_mirror_setup_request request ;;
      do vulkan_result := bvb_vulkan_global_context_setup_memory_mirror driver
        decoded received_fd ;;
      reply_result vulkan_result
  end).

(** The descriptor that a successful answer carries along is not part of the
    packet; [cloexec] is what marking it close-on-exec gives. *)
Definition answer_vulkan_memory_direct_map_setup (cloexec : result unit) :
    handler := answer (fun request =>
  do decoded := receive BVB_VULKAN_MEMORY_MIRROR_SETUP_SIZE
    bvb_protocol_decode_vulkan_memory_mirror_setup_request request ;;
  do (vulkan_result, export_fd) :=
    bvb_vulkan_global_context_setup_direct_memory driver decoded cloexec ;;
  reply_result vulkan_result).

(** ** Submission *)

Definition answer_vulkan_queue_submit_2 (outside : surroundings)
    (region : shared_batch_region) (stream_wire negotiated : bool)
    (request : bvb_protocol_packet) (context : option world) :
    bvb_protocol_packet * option world * shared_batch_region :=
  match context with
  | Some w =>
    if negotiated then
      match decode_vulkan_queue_submit_2_request stream_wire
              (Some request.(pk_payload)) (payload_length request)
              (Some inhabitant) with
      | Err e => (respond request (Err e), Some w, region)
      | Ok decoded =>
          let '(replayed, w) :=
            (if stream_wire
             then replay_submit_command_streams driver outside (Some region)
                    decoded
             else ret (Ok tt, Some region)) w in
          match replayed with
          | Err e => (respond request (Err e), Some w, region)
          | Ok (result, region') =>
              let '(outcome, w) :=
                (do _ := of_result result ;;
                 do vulkan_result :=
                   bvb_vulkan_global_context_queue_submit_2 driver decoded ;;
                 reply_result vulkan_result) w in
              (respond request outcome, Some w, default region region')
          end
      end
    else (refuse request, Some w, region)
  | None => (refuse request, None, region)
  end.

End handlers.
