(* ===== verification/Service.v ===== *)
(** * Service: one connection, from the greeting to its end

    Models [serve_connection] of src/bridge_service.c: which requests may
    carry a descriptor, which handler an opcode selects, what the connection
    remembers between requests, and when it ends. *)

From stdpp Require Import base list.
From S2P Require Import Prelude Wire Abi Codec ProtocolBase Transport ProtocolSetup StreamGeneration Backend BackendMirror BackendService MessageImage StreamBase StreamSubmit ServiceBase ServiceHandlers ServiceResources.

#[local] Open Scope list_scope.

Definition EPERM : Z := 1.
Definition EPROTONOSUPPORT : Z := 93.

(** ** State *)

(** What a connection remembers. *)
Record connection := mk_connection {
  cn_negotiated : bool;
  cn_context : option world;
  cn_shared_region : shared_batch_region;
  cn_descriptor_journal_region : shared_batch_region
}.

Definition no_region : shared_batch_region :=
  mk_region false 0 0 0 (replicate 4096 zero_generation) false false.

Definition new_connection : connection :=
  mk_connection false None no_region no_region.

Definition with_negotiated (b : bool) (c : connection) : connection :=
  mk_connection b c.(cn_context) c.(cn_shared_region)
    c.(cn_descriptor_journal_region).
Definition with_context (w : option world) (c : connection) : connection :=
  mk_connection c.(cn_negotiated) w c.(cn_shared_region)
    c.(cn_descriptor_journal_region).
Definition with_shared_region (r : shared_batch_region) (c : connection) :
    connection :=
  mk_connection c.(cn_negotiated) c.(cn_context) r
    c.(cn_descriptor_journal_region).
Definition with_journal_region (r : shared_batch_region) (c : connection) :
    connection :=
  mk_connection c.(cn_negotiated) c.(cn_context) c.(cn_shared_region) r.

(** What the world decides about one request: the descriptor that came with
    it, what loading the library gives should the request need it, the call
    that marks an exported descriptor, the bytes of the shared region, and
    what sending the response returns. *)
Record circumstances := mk_circumstances {
  ci_received_fd : option received_fd;
  ci_loader : result (bool * list bytes);
  ci_cloexec : result unit;
  ci_outside : surroundings;
  ci_sent : Z
}.

(** What the service is started with. *)
Record settings := mk_settings {
  st_bionic : bool;
  st_loader_readable : bool;
  st_activity_ingress : bool;
  st_page_size : Z;
  st_allowlist : list bytes;
  st_activity_status : bvb_activity_status
}.

(** ** Requests without a context *)

(** [st_loader_readable] is the test of the path and of [access]. *)
Definition service_flags (s : settings) : Z :=
  Z.lor (if s.(st_bionic) then 1 else 0)
    (Z.lor (if s.(st_loader_readable) then 2 else 0)
       (if s.(st_activity_ingress) then 4 else 0)).

(** The response and the new [negotiated]; an error is returned without a
    response. *)
Definition answer_hello (s : settings) (sent : Z)
    (request : bvb_protocol_packet) : result bvb_protocol_packet * bool :=
  if negb (payload_length request =? BVB_HELLO_REQUEST_SIZE)
  then (Ok (refuse request), false)
  else match bvb_protocol_decode_hello_request (Some request.(pk_payload))
               (Some inhabitant) with
  | Err e => (Ok (respond request (Err e)), false)
  | Ok hello =>
      if (BVB_PROTOCOL_VERSION <? hello.(hello_rq_minimum_version)) ||
         (hello.(hello_rq_maximum_version) <? BVB_PROTOCOL_VERSION)
      then (Ok (respond request (Err (- EPROTONOSUPPORT))), false)
      else if (s.(st_page_size) <=? 0) || (4294967295 <? s.(st_page_size))
      then (Ok (respond request (Err (- EINVAL))), false)
      else match bvb_protocol_encode_hello_response response_payload
        (Some (mk_bvb_hello_response BVB_PROTOCOL_VERSION (service_flags s) 64
                 (u32 s.(st_page_size)))) with
      | Err e => (Err e, false)
      | Ok payload =>
          (Ok (respond request (Ok (payload, BVB_HELLO_RESPONSE_SIZE))),
           sent =? 0)
      end
  end.

Definition answer_activity_status (s : settings) (negotiated : bool)
    (request : bvb_protocol_packet) : result bvb_protocol_packet :=
  if negb negotiated || negb (payload_length request =? 0)
  then Ok (refuse request)
  else
    try payload := bvb_protocol_encode_activity_status response_payload
      (Some s.(st_activity_status)) ;;
    Ok (respond request (Ok (payload, BVB_ACTIVITY_STATUS_SIZE))).

(** The message that maps a region: one of three decoders. *)
Definition decode_region_setup (command_stream descriptor_journal : bool)
    (request : bvb_protocol_packet) : result bvb_shared_batch_setup :=
  (if command_stream then bvb_protocol_decode_vulkan_command_stream_setup
   else if descriptor_journal
   then bvb_protocol_decode_vulkan_descriptor_journal_setup
   else bvb_protocol_decode_shared_batch_setup)
    (Some request.(pk_payload)) (Some inhabitant).

(** The status of [answer_shared_batch_setup] and the region it leaves. *)
Definition setup_region (s : settings) (received_fd : option received_fd)
    (region : shared_batch_region) (command_stream descriptor_journal : bool)
    (negotiated : bool) (request : bvb_protocol_packet) :
    result shared_batch_region :=
  deref fd := received_fd or (- EPROTO) ;;
  fail_if negb negotiated || region.(rg_mapped) ||
          negb (payload_length request =? BVB_SHARED_BATCH_SETUP_SIZE)
    with (- EPROTO) ;;
  try setup := decode_region_setup command_stream descriptor_journal request ;;
  let bytes := setup.(sbs_region_bytes) in
  fail_if command_stream && negb (bytes =? BVB_COMMAND_STREAM_REGION_BYTES)
    with (- EINVAL) ;;
  fail_if descriptor_journal &&
          negb (bytes =? BVB_DESCRIPTOR_JOURNAL_REGION_BYTES)
    with (- EINVAL) ;;
  let required_seals := Z.lor F_SEAL_GROW (Z.lor F_SEAL_SHRINK F_SEAL_SEAL) in
  fail_if descriptor_journal &&
          ((fd.(fd_seals) <? 0) ||
           negb (Z.land fd.(fd_seals) required_seals =? required_seals))
    with (- EPERM) ;;
  fail_if match fd.(fd_stat) with
          | None => true
          | Some (regular, size) => negb regular || negb (size =? bytes)
          end with (- EINVAL) ;;
  fail_if (s.(st_page_size) <=? 0) ||
          negb (bytes mod (u32 s.(st_page_size)) =? 0) with (- EINVAL) ;;
  try _ := fd.(fd_mmap) ;;
  Ok (mk_region true bytes setup.(sbs_generation) 0
        (replicate 4096 zero_generation) command_stream descriptor_journal).

Definition answer_shared_batch_setup (s : settings)
    (received_fd : option received_fd) (region : shared_batch_region)
    (command_stream descriptor_journal negotiated : bool)
    (request : bvb_protocol_packet) :
    bvb_protocol_packet * shared_batch_region :=
  match setup_region s received_fd region command_stream descriptor_journal
          negotiated request with
  | Ok region => (prepare_response request, region)
  | Err status => (respond request (Err status), region)
  end.

(** ** The loop *)

Section service.
Context {VH : VulkanHeader} {VI : VulkanImage} {VC : VulkanCore}
  {VS : VulkanStream}.
Context (driver : list event -> vk_call -> vk_reply) (s : settings).

(** The handlers that only need the context, by opcode, in the order of the
    code; an opcode has one of them.  First instances, devices, queues and
    commands. *)
Definition device_handlers (ci : circumstances) : list (Z * handler) :=
  let instance_create := answer_vulkan_instance_create driver
    s.(st_allowlist) ci.(ci_loader) in
  let device_create := answer_vulkan_device_create driver in
  let queue_operation := answer_vulkan_queue_operation driver in
  [(BVB_OPCODE_VULKAN_INSTANCE_CREATE, instance_create);
   (BVB_OPCODE_VULKAN_INSTANCE_CREATE_EXTENDED, instance_create);
   (BVB_OPCODE_VULKAN_INSTANCE_DESTROY, answer_vulkan_instance_destroy driver);
   (BVB_OPCODE_VULKAN_PHYSICAL_DEVICES, answer_vulkan_physical_devices driver);
   (BVB_OPCODE_VULKAN_DEVICE_CREATE, device_create);
   (BVB_OPCODE_VULKAN_DEVICE_CREATE_EXTENDED, device_create);
   (BVB_OPCODE_VULKAN_DEVICE_CREATE_PACKED, device_create);
   (BVB_OPCODE_VULKAN_DEVICE_DESTROY, answer_vulkan_device_destroy driver);
   (BVB_OPCODE_VULKAN_DEVICE_QUEUE, answer_vulkan_device_queue driver);
   (BVB_OPCODE_VULKAN_QUEUE_SUBMIT_EMPTY, queue_operation);
   (BVB_OPCODE_VULKAN_QUEUE_WAIT_IDLE, queue_operation);
   (BVB_OPCODE_VULKAN_DEVICE_WAIT_IDLE, answer_vulkan_device_wait_idle driver);
   (BVB_OPCODE_VULKAN_COMMAND_POOL_CREATE,
    answer_vulkan_command_pool_create driver);
   (BVB_OPCODE_VULKAN_COMMAND_POOL_DESTROY,
    answer_vulkan_command_pool_destroy driver);
   (BVB_OPCODE_VULKAN_COMMAND_POOL_RESET,
    answer_vulkan_command_pool_reset driver);
   (BVB_OPCODE_VULKAN_COMMAND_BUFFER_ALLOCATE,
    answer_vulkan_command_buffer_allocate driver);
   (BVB_OPCODE_VULKAN_COMMAND_BUFFER_FREE,
    answer_vulkan_command_buffer_free driver);
   (BVB_OPCODE_VULKAN_COMMAND_BUFFER_BEGIN,
    answer_vulkan_command_buffer_begin driver);
   (BVB_OPCODE_VULKAN_COMMAND_BUFFER_END,
    answer_vulkan_command_buffer_end driver);
   (BVB_OPCODE_VULKAN_QUEUE_SUBMIT_COMMAND,
    answer_vulkan_queue_submit_command driver)].

(** Objects of a device, descriptors and queries. *)
Definition resource_handlers : list (Z * handler) :=
  let resource_create := answer_vulkan_resource_create driver in
  let resource_destroy := answer_vulkan_resource_destroy driver in
  [(BVB_OPCODE_VULKAN_BUFFER_CREATE, resource_create);
   (BVB_OPCODE_VULKAN_MEMORY_ALLOCATE, resource_create);
   (BVB_OPCODE_VULKAN_MEMORY_ALLOCATE_EXTENDED, resource_create);
   (BVB_OPCODE_VULKAN_FENCE_CREATE, resource_create);
   (BVB_OPCODE_VULKAN_SEMAPHORE_CREATE, resource_create);
   (BVB_OPCODE_VULKAN_DESCRIPTOR_SET_LAYOUT_CREATE, resource_create);
   (BVB_OPCODE_VULKAN_DESCRIPTOR_POOL_CREATE, resource_create);
   (BVB_OPCODE_VULKAN_QUERY_POOL_CREATE, resource_create);
   (BVB_OPCODE_VULKAN_SAMPLER_CREATE, resource_create);
   (BVB_OPCODE_VULKAN_DESCRIPTOR_UPDATE_TEMPLATE_CREATE, resource_create);
   (BVB_OPCODE_VULKAN_PIPELINE_LAYOUT_CREATE, resource_create);
   (BVB_OPCODE_VULKAN_IMAGE_CREATE, resource_create);
   (BVB_OPCODE_VULKAN_IMAGE_VIEW_CREATE, resource_create);
   (BVB_OPCODE_VULKAN_BUFFER_DESTROY, resource_destroy);
   (BVB_OPCODE_VULKAN_MEMORY_FREE, resource_destroy);
   (BVB_OPCODE_VULKAN_FENCE_DESTROY, resource_destroy);
   (BVB_OPCODE_VULKAN_SEMAPHORE_DESTROY, resource_destroy);
   (BVB_OPCODE_VULKAN_DESCRIPTOR_OBJECT_DESTROY, resource_destroy);
   (BVB_OPCODE_VULKAN_PIPELINE_LAYOUT_DESTROY, resource_destroy);
   (BVB_OPCODE_VULKAN_PIPELINE_DESTROY, resource_destroy);
   (BVB_OPCODE_VULKAN_IMAGE_DESTROY, resource_destroy);
   (BVB_OPCODE_VULKAN_QUERY_POOL_DESTROY, resource_destroy);
   (BVB_OPCODE_VULKAN_IMAGE_VIEW_DESTROY, resource_destroy);
   (BVB_OPCODE_VULKAN_DESCRIPTOR_SET_ALLOCATE,
    answer_vulkan_descriptor_set_allocate driver);
   (BVB_OPCODE_VULKAN_DESCRIPTOR_POOL_RESET,
    answer_vulkan_descriptor_pool_reset driver);
   (BVB_OPCODE_VULKAN_QUERY_POOL_RESULTS,
    answer_vulkan_query_pool_results driver);
   (BVB_OPCODE_VULKAN_QUERY_POOL_RESET, answer_vulkan_query_pool_reset driver);
   (BVB_OPCODE_VULKAN_DESCRIPTOR_UPDATE,
    answer_vulkan_descriptor_update driver);
   (BVB_OPCODE_VULKAN_DESCRIPTOR_UPDATE_TEMPLATE,
    answer_vulkan_descriptor_template_update driver)].

(** Buffers, images, recorded commands, memory and synchronisation. *)
Definition object_handlers (ci : circumstances) : list (Z * handler) :=
  let memory_mirror_range := answer_vulkan_memory_mirror_range driver in
  let fence_operation := answer_vulkan_fence_operation driver in
  [(BVB_OPCODE_VULKAN_BUFFER_REQUIREMENTS,
    answer_vulkan_buffer_requirements driver);
   (BVB_OPCODE_VULKAN_DEVICE_BUFFER_REQUIREMENTS,
    answer_vulkan_device_buffer_requirements driver);
   (BVB_OPCODE_VULKAN_BUFFER_REQUIREMENTS_2,
    answer_vulkan_buffer_requirements_2 driver);
   (BVB_OPCODE_VULKAN_BUFFER_DEVICE_ADDRESS,
    answer_vulkan_buffer_device_address driver);
   (BVB_OPCODE_VULKAN_BUFFER_BIND, answer_vulkan_buffer_bind driver);
   (BVB_OPCODE_VULKAN_IMAGE_REQUIREMENTS,
    answer_vulkan_image_requirements driver);
   (BVB_OPCODE_VULKAN_IMAGE_REQUIREMENTS_2,
    answer_vulkan_image_requirements_2 driver);
   (BVB_OPCODE_VULKAN_IMAGE_BIND, answer_vulkan_image_bind driver);
   (BVB_OPCODE_VULKAN_COMMAND_BUFFER_FILL,
    answer_vulkan_command_buffer_fill driver);
   (BVB_OPCODE_VULKAN_COMMAND_BUFFER_IMAGE_BARRIER,
    answer_vulkan_command_buffer_image_barrier driver);
   (BVB_OPCODE_VULKAN_COMMAND_BUFFER_CLEAR_COLOR_IMAGE,
    answer_vulkan_command_buffer_clear_color_image driver);
   (BVB_OPCODE_VULKAN_COMMAND_BUFFER_BIND_DESCRIPTOR_SETS,
    answer_vulkan_command_buffer_bind_descriptor_sets driver);
   (BVB_OPCODE_VULKAN_COMMAND_BUFFER_IMMEDIATE_RECORD,
    answer_vulkan_command_buffer_immediate_record driver);
   (BVB_OPCODE_VULKAN_MEMORY_VERIFY_FILL,
    answer_vulkan_memory_verify_fill driver);
   (BVB_OPCODE_VULKAN_MEMORY_WRITE, answer_vulkan_memory_write driver);
   (BVB_OPCODE_VULKAN_MEMORY_READ, answer_vulkan_memory_read driver);
   (BVB_OPCODE_VULKAN_MEMORY_MIRROR_SETUP,
    answer_vulkan_memory_mirror_setup driver ci.(ci_received_fd));
   (BVB_OPCODE_VULKAN_MEMORY_DIRECT_MAP_SETUP,
    answer_vulkan_memory_direct_map_setup driver ci.(ci_cloexec));
   (BVB_OPCODE_VULKAN_MEMORY_MIRROR_FLUSH, memory_mirror_range);
   (BVB_OPCODE_VULKAN_MEMORY_MIRROR_INVALIDATE, memory_mirror_range);
   (BVB_OPCODE_VULKAN_MEMORY_MIRROR_UNMAP,
    answer_vulkan_memory_mirror_unmap driver);
   (BVB_OPCODE_VULKAN_FENCE_STATUS, fence_operation);
   (BVB_OPCODE_VULKAN_FENCE_RESET, fence_operation);
   (BVB_OPCODE_VULKAN_FENCE_WAIT, answer_vulkan_fence_wait driver);
   (BVB_OPCODE_VULKAN_SEMAPHORE_COUNTER,
    answer_vulkan_semaphore_counter driver);
   (BVB_OPCODE_VULKAN_SEMAPHORE_WAIT, answer_vulkan_semaphore_wait driver);
   (BVB_OPCODE_VULKAN_SEMAPHORE_SIGNAL, answer_vulkan_semaphore_signal driver);
   (BVB_OPCODE_VULKAN_QUEUE_SUBMIT_COMMAND_FENCE,
    answer_vulkan_queue_submit_command_fence driver)].

Definition handlers (ci : circumstances) : list (Z * handler) :=
  device_handlers ci ++ resource_handlers ++ object_handlers ci.

Definition dispatch (ci : circumstances) (op : Z) : option handler :=
  snd <$> List.find (fun entry => entry.1 =? op) (handlers ci).

(** The opcodes whose handlers are outside the model: queries of physical
    devices, self-tests, graphics pipelines, swapchains, and the descriptor
    journal and transactions. *)
Definition outside_opcodes : list Z :=
  [BVB_OPCODE_VULKAN_CAPS; BVB_OPCODE_VULKAN_SELFTEST;
   BVB_OPCODE_VULKAN_BATCH_SELFTEST; BVB_OPCODE_SHARED_BATCH_EXECUTE;
   BVB_OPCODE_VULKAN_GLOBAL_INFO; BVB_OPCODE_VULKAN_INSTANCE_EXTENSIONS;
   BVB_OPCODE_VULKAN_PHYSICAL_DEVICE_PROPERTIES;
   BVB_OPCODE_VULKAN_QUEUE_FAMILY_PROPERTIES;
   BVB_OPCODE_VULKAN_MEMORY_PROPERTIES; BVB_OPCODE_VULKAN_DEVICE_EXTENSIONS;
   BVB_OPCODE_VULKAN_PHYSICAL_DEVICE_FEATURES; BVB_OPCODE_VULKAN_CORE_FEATURES;
   BVB_OPCODE_VULKAN_FORMAT_PROPERTIES; BVB_OPCODE_VULKAN_FORMAT_PROPERTIES_3;
   BVB_OPCODE_VULKAN_IMAGE_FORMAT_PROPERTIES;
   BVB_OPCODE_VULKAN_EXTERNAL_BUFFER_PROPERTIES;
   BVB_OPCODE_VULKAN_EXTERNAL_SEMAPHORE_PROPERTIES;
   BVB_OPCODE_VULKAN_GRAPHICS_PIPELINE_CREATE;
   BVB_OPCODE_VULKAN_BUILTIN_GRAPHICS_PIPELINE_CREATE;
   BVB_OPCODE_VULKAN_DESCRIPTOR_TRANSACTION_RING_SETUP;
   BVB_OPCODE_VULKAN_DESCRIPTOR_JOURNAL_FLUSH;
   BVB_OPCODE_VULKAN_DESCRIPTOR_TRANSACTION_ALLOCATE;
   BVB_OPCODE_VULKAN_SWAPCHAIN_PREPARE; BVB_OPCODE_VULKAN_SWAPCHAIN_DESTROY;
   BVB_OPCODE_VULKAN_SWAPCHAIN_ACQUIRE; BVB_OPCODE_VULKAN_SWAPCHAIN_PRESENT].

(** The requests that may carry a descriptor. *)
Definition may_carry_fd (op : Z) : bool :=
  existsb (Z.eqb op)
    [BVB_OPCODE_SHARED_BATCH_SETUP; BVB_OPCODE_VULKAN_COMMAND_STREAM_SETUP;
     BVB_OPCODE_VULKAN_DESCRIPTOR_JOURNAL_SETUP;
     BVB_OPCODE_VULKAN_DESCRIPTOR_TRANSACTION_RING_SETUP;
     BVB_OPCODE_VULKAN_MEMORY_MIRROR_SETUP;
     BVB_OPCODE_VULKAN_BUILTIN_GRAPHICS_PIPELINE_CREATE].

(** What one turn of the loop does: it prepares a response, it ends the
    connection without one, or it calls a handler outside the model. *)
Inductive outcome :=
| Answers (response : bvb_protocol_packet) (c : connection)
| Closes (status : Z) (c : connection)
| Outside.

Definition serve_request (request : bvb_protocol_packet) (ci : circumstances)
    (c : connection) : outcome :=
  let op := opcode request in
  let negotiated := c.(cn_negotiated) in
  if negb (request.(pk_header).(hdr_kind) =? BVB_PROTOCOL_REQUEST) ||
     (bool_decide (is_Some ci.(ci_received_fd)) && negb (may_carry_fd op))
  then Closes (- EPROTO) c
  else if op =? BVB_OPCODE_HELLO then
    match answer_hello s ci.(ci_sent) request with
    | (Ok response, b) => Answers response (with_negotiated b c)
    | (Err e, b) => Closes e (with_negotiated b c)
    end
  else if op =? BVB_OPCODE_ACTIVITY_STATUS then
    match answer_activity_status s negotiated request with
    | Ok response => Answers response c
    | Err e => Closes e c
    end
  else if op =? BVB_OPCODE_SHARED_BATCH_SETUP then
    let '(response, region) := answer_shared_batch_setup s ci.(ci_received_fd)
      c.(cn_shared_region) false false negotiated request in
    Answers response (with_shared_region region c)
  else if op =? BVB_OPCODE_VULKAN_COMMAND_STREAM_SETUP then
    let '(response, region) := answer_shared_batch_setup s ci.(ci_received_fd)
      c.(cn_shared_region) true false negotiated request in
    Answers response (with_shared_region region c)
  else if op =? BVB_OPCODE_VULKAN_DESCRIPTOR_JOURNAL_SETUP then
    let '(response, region) := answer_shared_batch_setup s ci.(ci_received_fd)
      c.(cn_descriptor_journal_region) false true negotiated request in
    Answers response (with_journal_region region c)
  else if (op =? BVB_OPCODE_VULKAN_QUEUE_SUBMIT_2) ||
          (op =? BVB_OPCODE_VULKAN_QUEUE_SUBMIT_2_STREAM) then
    let '(response, context, region) :=
      answer_vulkan_queue_submit_2 driver ci.(ci_outside)
        c.(cn_shared_region) (op =? BVB_OPCODE_VULKAN_QUEUE_SUBMIT_2_STREAM)
        negotiated request c.(cn_context) in
    Answers response (with_shared_region region (with_context context c))
  else match dispatch ci op with
  | Some h =>
      let '(response, context) := h negotiated request c.(cn_context) in
      Answers response (with_context context c)
  | None =>
      if existsb (Z.eqb op) outside_opcodes then Outside
      else Closes (- EPROTO) c
  end.

(** What happens to a connection: a packet arrives, or the client or the
    device writes a mapped range. *)
Inductive happening :=
| Arrives (request : bvb_protocol_packet) (ci : circumstances)
| ClientWrote (memory_id : Z) (data : bytes)
| DeviceWrote (memory_id : Z) (data : bytes).

Definition wrote (step : BackendService.step) (c : connection) : connection :=
  with_context ((fun w => take_step driver w step) <$> c.(cn_context)) c.

(** The responses, the connection at the end and its status: zero once the
    peer has closed its end, nothing after a handler outside the model. *)
Fixpoint serve_connection (happenings : list happening) (c : connection) :
    list bvb_protocol_packet * connection * option Z :=
  match happenings with
  | [] => ([], c, Some 0)
  | ClientWrote memory_id data :: rest =>
      serve_connection rest (wrote (ClientWrites memory_id data) c)
  | DeviceWrote memory_id data :: rest =>
      serve_connection rest (wrote (DeviceWrites memory_id data) c)
  | Arrives request ci :: rest =>
      match serve_request request ci c with
      | Answers response c =>
          if ci.(ci_sent) =? 0 then
            let '(responses, c, status) := serve_connection rest c in
            (response :: responses, c, status)
          else ([response], c, Some ci.(ci_sent))
      | Closes status c => ([], c, Some status)
      | Outside => ([], c, None)
      end
  end.
End service.
