(* ===== verification/ServiceExample.v ===== *)
(** * ServiceExample: one session

    A client greets the service, creates an instance, lists its devices,
    creates a device and two fences, destroys the first fence again and sends
    a malformed request; the witnesses of the theorems on connections run
    it. *)

From stdpp Require Import base list.
From S2P Require Import Prelude Wire Abi Codec ProtocolBase Transport ProtocolInstance ProtocolDevice ProtocolResource ProtocolSync ProtocolSetup ProtocolRegistry Handle CommandTypes MessageImage Backend BackendDriver StreamBase StreamReplay StreamSubmit ServiceBase ServiceHandlers ServiceResources Service.

#[local] Open Scope list_scope.

Definition sample_settings : settings :=
  mk_settings true true true 4096 []
    (mk_bvb_activity_status 0 0 0 0 0 0 0 0 0 0 0).

(** Nothing came with the request, the library loads, and the response is
    sent. *)
Definition usual : circumstances :=
  mk_circumstances None (Ok (true, [])) (Ok tt)
    (mk_surroundings (fun _ => []) (fun _ => true) true) 0.

Definition asked (op id size : Z) (encoded : result bytes) :
    bvb_protocol_packet :=
  mk_packet
    (mk_bvb_protocol_header BVB_PROTOCOL_VERSION BVB_PROTOCOL_REQUEST op id
       size 0)
    (match encoded with
     | Ok payload => payload
     | Err _ => blank BVB_PROTOCOL_MAX_PAYLOAD
     end).

Section requests.
#[local] Existing Instance vulkan_1_4.
#[local] Existing Instance vulkan_1_4_core.
#[local] Existing Instance vulkan_1_4_image.
#[local] Existing Instance vulkan_1_4_stream.

Definition greeting : bvb_protocol_packet :=
  asked BVB_OPCODE_HELLO 1 BVB_HELLO_REQUEST_SIZE
    (bvb_protocol_encode_hello_request response_payload
       (Some (mk_bvb_hello_request 1 1 0))).
Definition ask_instance : bvb_protocol_packet :=
  asked BVB_OPCODE_VULKAN_INSTANCE_CREATE 2
    BVB_VULKAN_INSTANCE_CREATE_REQUEST_SIZE
    (bvb_protocol_encode_vulkan_instance_create_request response_payload
       (Some (mk_bvb_vulkan_instance_create_request 4194304 0 0 0))).
Definition ask_physical_devices : bvb_protocol_packet :=
  asked BVB_OPCODE_VULKAN_PHYSICAL_DEVICES 3 BVB_VULKAN_INSTANCE_ID_SIZE
    (instance_id_codec.(encode) response_payload
       (Some (bvb_handle_id BVB_OBJECT_INSTANCE 1))).
Definition ask_device : bvb_protocol_packet :=
  asked BVB_OPCODE_VULKAN_DEVICE_CREATE 4 BVB_VULKAN_DEVICE_CREATE_REQUEST_SIZE
    (bvb_protocol_encode_vulkan_device_create_request response_payload
       (Some (mk_bvb_vulkan_device_create_request
          (bvb_handle_id BVB_OBJECT_PHYSICAL_DEVICE 1) 0 0 1 1065353216 0 0))).
Definition sample_fence : bvb_vulkan_fence_create_request :=
  mk_bvb_vulkan_fence_create_request (bvb_handle_id BVB_OBJECT_DEVICE 1) 0.
Definition ask_fence (id : Z) : bvb_protocol_packet :=
  asked BVB_OPCODE_VULKAN_FENCE_CREATE id BVB_VULKAN_FENCE_CREATE_REQUEST_SIZE
    (bvb_protocol_encode_vulkan_fence_create_request response_payload
       (Some sample_fence)).
Definition drop_fence (id : Z) : bvb_protocol_packet :=
  asked BVB_OPCODE_VULKAN_FENCE_DESTROY id BVB_VULKAN_OBJECT_ID_SIZE
    ((object_id_codec BVB_OBJECT_FENCE).(encode) response_payload
       (Some (bvb_handle_id BVB_OBJECT_FENCE 1))).
(** The length is not that of the message. *)
Definition malformed (id : Z) : bvb_protocol_packet :=
  asked BVB_OPCODE_VULKAN_MEMORY_FREE id 3 (Err 0).

Definition sample_session : list happening :=
  [Arrives greeting usual; Arrives ask_instance usual;
   Arrives ask_physical_devices usual; Arrives ask_device usual;
   ClientWrote 7 []; Arrives (ask_fence 5) usual; Arrives (ask_fence 6) usual;
   Arrives (drop_fence 7) usual; Arrives (malformed 8) usual].

Definition sample_served :=
  serve_connection model_driver sample_settings sample_session new_connection.

(** A client that does not greet. *)
Definition hasty_session : list happening :=
  [Arrives ask_instance usual; DeviceWrote 7 []; Arrives (ask_fence 3) usual].

(** The requests are answered in order, the last one with an error; the
    driver owns the instance, the device and the second fence. *)
Example sample_statuses :
  (fun r => (r.(pk_header).(hdr_request_id), r.(pk_header).(hdr_status)))
    <$> sample_served.1.1 =
  [(1, 0); (2, 0); (3, 0); (4, 0); (5, 0); (6, 0); (7, 0); (8, - EPROTO)].
Proof. vm_compute. reflexivity. Qed.

Example sample_session_owned :
  match sample_served.1.2.(cn_context) with
  | Some w => ds_owned (driver_after VK_SUCCESS w.(w_log))
  | None => []
  end = [(BVB_OBJECT_FENCE, 65, 67); (BVB_OBJECT_DEVICE, 2, 65);
         (BVB_OBJECT_INSTANCE, 0, 1)].
Proof. vm_compute. reflexivity. Qed.
End requests.
