(* ===== verification/ServiceCalls.v ===== *)
(** * ServiceCalls: a remote call is a local call

    The procedures a client can call over a connection, each with the format
    of its request, the operation of the object store it stands for, and the
    format of its answer; every handler of Service.v implements the procedure
    of its opcode, and so whoever encodes a request and decodes the response
    gets what the operation would have given them directly. *)

From stdpp Require Import base list.
From S2P Require Import Prelude Wire Abi Codec ProtocolBase Transport ProtocolInstance ProtocolDevice ProtocolCommand ProtocolResource ProtocolSync ProtocolSetup ProtocolRegistry CommandTypes Window Frame Segments MessageLists MessageData DescriptorTypes MessageSubmit MessageDescriptor MessageBinding MessageImage Backend BackendInvariant BackendRules BackendDriver BackendMirror StreamBase StreamReplay StreamSubmit BackendService ServiceBase ServiceHandlers ServiceResources Service ServiceExample.

#[local] Open Scope list_scope.

(** ** The procedures *)

Section procedures.
Context {VH : VulkanHeader} {VI : VulkanImage} {VC : VulkanCore}
  {VS : VulkanStream}.
Context (driver : list event -> vk_call -> vk_reply) (s : settings).
Context (ci : circumstances).

(** A request and an answer of fixed size. *)
Definition call_of {A B} `{!Inhabited A, !Inhabited B} (op : Z)
    (c : codec A) (c' : codec B) (f : A -> request B) : procedure :=
  mk_procedure op A B (codec_format c) (codec_format c')
    (fun v => serve driver (f v)).

(** No answer but the status. *)
Definition command_of {A} `{!Inhabited A} (op : Z) (c : codec A)
    (f : A -> request unit) : procedure :=
  mk_procedure op A unit (codec_format c) empty_format
    (fun v => serve driver (f v)).

(** Formats chosen one by one. *)
Definition general {A B} (op : Z) (f : format A) (f' : format B)
    (g : A -> request B) : procedure :=
  mk_procedure op A B f f' (fun v => serve driver (g v)).

Definition create_of {A} `{!Inhabited A} (op : Z) (c : codec A) (type : Z)
    (f : A -> request bvb_vulkan_object_create_response) : procedure :=
  call_of op c (object_create_response_codec type) f.
Definition destroy_of (op type : Z) (f : Z -> request unit) : procedure :=
  command_of op (object_id_codec type) f.

Definition device_procedures : list procedure :=
  [command_of BVB_OPCODE_VULKAN_INSTANCE_DESTROY instance_id_codec
     Call_destroy_instance;
   general BVB_OPCODE_VULKAN_PHYSICAL_DEVICES (codec_format instance_id_codec)
     (frame_format physical_devices_frame) Call_enumerate_physical_devices;
   call_of BVB_OPCODE_VULKAN_DEVICE_CREATE device_create_request_codec
     device_create_response_codec (fun r => Call_create_device r
       (enabled_names r.(dc_rq_enabled_extension_count)
          (replicate 64 MessageCreate.zero_name)));
   command_of BVB_OPCODE_VULKAN_DEVICE_DESTROY device_id_codec
     Call_destroy_device;
   call_of BVB_OPCODE_VULKAN_DEVICE_QUEUE device_queue_request_codec
     queue_id_codec Call_get_device_queue;
   call_of BVB_OPCODE_VULKAN_QUEUE_SUBMIT_EMPTY queue_id_codec result_codec
     Call_queue_submit_empty;
   call_of BVB_OPCODE_VULKAN_QUEUE_WAIT_IDLE queue_id_codec result_codec
     Call_queue_wait_idle;
   call_of BVB_OPCODE_VULKAN_DEVICE_WAIT_IDLE device_id_codec result_codec
     Call_device_wait_idle;
   call_of BVB_OPCODE_VULKAN_COMMAND_POOL_CREATE
     command_pool_create_request_codec command_pool_create_response_codec
     Call_create_command_pool;
   command_of BVB_OPCODE_VULKAN_COMMAND_POOL_DESTROY command_pool_id_codec
     Call_destroy_command_pool;
   call_of BVB_OPCODE_VULKAN_COMMAND_POOL_RESET
     command_pool_reset_request_codec result_codec Call_reset_command_pool;
   call_of BVB_OPCODE_VULKAN_COMMAND_BUFFER_ALLOCATE
     command_buffer_allocate_request_codec
     command_buffer_allocate_response_codec Call_allocate_command_buffer;
   command_of BVB_OPCODE_VULKAN_COMMAND_BUFFER_FREE
     command_buffer_free_request_codec Call_free_command_buffer;
   call_of BVB_OPCODE_VULKAN_COMMAND_BUFFER_BEGIN
     command_buffer_begin_request_codec result_codec
     Call_begin_command_buffer;
   call_of BVB_OPCODE_VULKAN_COMMAND_BUFFER_END command_buffer_id_codec
     result_codec Call_end_command_buffer;
   command_of BVB_OPCODE_VULKAN_COMMAND_BUFFER_FILL
     command_buffer_fill_request_codec Call_command_buffer_fill;
   command_of BVB_OPCODE_VULKAN_COMMAND_BUFFER_CLEAR_COLOR_IMAGE
     command_buffer_clear_color_image_request_codec
     Call_command_buffer_clear_color_image;
   general BVB_OPCODE_VULKAN_COMMAND_BUFFER_BIND_DESCRIPTOR_SETS
     (frame_format bind_sets_frame) empty_format
     Call_command_buffer_bind_descriptor_sets;
   call_of BVB_OPCODE_VULKAN_QUEUE_SUBMIT_COMMAND
     queue_submit_command_request_codec result_codec
     Call_queue_submit_command;
   call_of BVB_OPCODE_VULKAN_QUEUE_SUBMIT_COMMAND_FENCE
     queue_submit_command_fence_request_codec result_codec
     Call_queue_submit_command_fence].

Definition synchronisation_procedures : list procedure :=
  [create_of BVB_OPCODE_VULKAN_FENCE_CREATE fence_create_request_codec
     BVB_OBJECT_FENCE Call_create_fence;
   destroy_of BVB_OPCODE_VULKAN_FENCE_DESTROY BVB_OBJECT_FENCE
     Call_destroy_fence;
   call_of BVB_OPCODE_VULKAN_FENCE_STATUS (object_id_codec BVB_OBJECT_FENCE)
     result_codec Call_get_fence_status;
   call_of BVB_OPCODE_VULKAN_FENCE_RESET (object_id_codec BVB_OBJECT_FENCE)
     result_codec Call_reset_fence;
   call_of BVB_OPCODE_VULKAN_FENCE_WAIT fence_wait_request_codec result_codec
     Call_wait_fence;
   create_of BVB_OPCODE_VULKAN_SEMAPHORE_CREATE semaphore_create_request_codec
     BVB_OBJECT_SEMAPHORE Call_create_semaphore;
   destroy_of BVB_OPCODE_VULKAN_SEMAPHORE_DESTROY BVB_OBJECT_SEMAPHORE
     Call_destroy_semaphore;
   call_of BVB_OPCODE_VULKAN_SEMAPHORE_COUNTER
     (object_id_codec BVB_OBJECT_SEMAPHORE) semaphore_counter_response_codec
     Call_get_semaphore_counter;
   general BVB_OPCODE_VULKAN_SEMAPHORE_WAIT
     (frame_format semaphore_wait_request_frame) (codec_format result_codec)
     Call_wait_semaphores;
   call_of BVB_OPCODE_VULKAN_SEMAPHORE_SIGNAL semaphore_signal_request_codec
     result_codec Call_signal_semaphore;
   create_of BVB_OPCODE_VULKAN_QUERY_POOL_CREATE
     query_pool_create_request_codec BVB_OBJECT_QUERY_POOL
     Call_create_query_pool;
   destroy_of BVB_OPCODE_VULKAN_QUERY_POOL_DESTROY BVB_OBJECT_QUERY_POOL
     Call_destroy_query_pool;
   general BVB_OPCODE_VULKAN_QUERY_POOL_RESULTS
     (codec_format query_pool_results_request_codec)
     (frame_format query_pool_results_response_frame)
     Call_get_query_pool_results;
   command_of BVB_OPCODE_VULKAN_QUERY_POOL_RESET
     query_pool_reset_request_codec Call_reset_query_pool].

Definition descriptor_procedures : list procedure :=
  [general BVB_OPCODE_VULKAN_DESCRIPTOR_SET_LAYOUT_CREATE
     (frame_format set_layout_frame)
     (codec_format
        (object_create_response_codec BVB_OBJECT_DESCRIPTOR_SET_LAYOUT))
     Call_create_descriptor_set_layout;
   general BVB_OPCODE_VULKAN_DESCRIPTOR_POOL_CREATE
     (frame_format descriptor_pool_frame)
     (codec_format (object_create_response_codec BVB_OBJECT_DESCRIPTOR_POOL))
     Call_create_descriptor_pool;
   call_of BVB_OPCODE_VULKAN_DESCRIPTOR_POOL_RESET descriptor_pool_reset_codec
     result_codec Call_reset_descriptor_pool;
   general BVB_OPCODE_VULKAN_DESCRIPTOR_SET_ALLOCATE
     (frame_format set_allocate_frame)
     (frame_format set_allocate_response_frame) Call_allocate_descriptor_sets;
   create_of BVB_OPCODE_VULKAN_SAMPLER_CREATE sampler_create_codec
     BVB_OBJECT_SAMPLER Call_create_sampler;
   general BVB_OPCODE_VULKAN_DESCRIPTOR_UPDATE
     (frame_format descriptor_update_frame) empty_format
     Call_update_descriptors;
   general BVB_OPCODE_VULKAN_DESCRIPTOR_UPDATE_TEMPLATE_CREATE
     (frame_format template_create_frame)
     (codec_format
        (object_create_response_codec BVB_OBJECT_DESCRIPTOR_UPDATE_TEMPLATE))
     Call_create_descriptor_update_template;
   general BVB_OPCODE_VULKAN_DESCRIPTOR_UPDATE_TEMPLATE
     (frame_format template_update_frame) empty_format
     Call_update_descriptor_set_with_template;
   general BVB_OPCODE_VULKAN_PIPELINE_LAYOUT_CREATE
     (frame_format pipeline_layout_frame)
     (codec_format (object_create_response_codec BVB_OBJECT_PIPELINE_LAYOUT))
     Call_create_pipeline_layout;
   destroy_of BVB_OPCODE_VULKAN_PIPELINE_LAYOUT_DESTROY
     BVB_OBJECT_PIPELINE_LAYOUT Call_destroy_pipeline_layout;
   destroy_of BVB_OPCODE_VULKAN_PIPELINE_DESTROY BVB_OBJECT_PIPELINE
     Call_destroy_pipeline].

Definition memory_procedures : list procedure :=
  [create_of BVB_OPCODE_VULKAN_BUFFER_CREATE buffer_create_request_codec
     BVB_OBJECT_BUFFER Call_create_buffer;
   destroy_of BVB_OPCODE_VULKAN_BUFFER_DESTROY BVB_OBJECT_BUFFER
     Call_destroy_buffer;
   call_of BVB_OPCODE_VULKAN_BUFFER_REQUIREMENTS
     (object_id_codec BVB_OBJECT_BUFFER) buffer_requirements_codec
     Call_get_buffer_requirements;
   call_of BVB_OPCODE_VULKAN_BUFFER_REQUIREMENTS_2
     buffer_requirements_2_request_codec buffer_requirements_2_response_codec
     Call_get_buffer_requirements_2;
   call_of BVB_OPCODE_VULKAN_BUFFER_DEVICE_ADDRESS
     buffer_device_address_request_codec buffer_device_address_response_codec
     Call_get_buffer_device_address;
   call_of BVB_OPCODE_VULKAN_BUFFER_BIND buffer_bind_request_codec result_codec
     Call_bind_buffer_memory;
   create_of BVB_OPCODE_VULKAN_MEMORY_ALLOCATE memory_allocate_request_codec
     BVB_OBJECT_DEVICE_MEMORY Call_allocate_memory;
   create_of BVB_OPCODE_VULKAN_MEMORY_ALLOCATE_EXTENDED
     memory_allocate_extended_request_codec BVB_OBJECT_DEVICE_MEMORY
     Call_allocate_memory_extended;
   destroy_of BVB_OPCODE_VULKAN_MEMORY_FREE BVB_OBJECT_DEVICE_MEMORY
     Call_free_memory;
   destroy_of BVB_OPCODE_VULKAN_IMAGE_DESTROY BVB_OBJECT_IMAGE
     Call_destroy_image;
   call_of BVB_OPCODE_VULKAN_IMAGE_REQUIREMENTS
     (object_id_codec BVB_OBJECT_IMAGE) image_requirements_codec
     Call_get_image_requirements;
   call_of BVB_OPCODE_VULKAN_IMAGE_REQUIREMENTS_2
     image_requirements_2_request_codec image_requirements_2_response_codec
     Call_get_image_requirements_2;
   call_of BVB_OPCODE_VULKAN_IMAGE_BIND image_bind_request_codec result_codec
     Call_bind_image_memory;
   create_of BVB_OPCODE_VULKAN_IMAGE_VIEW_CREATE
     image_view_create_request_codec BVB_OBJECT_IMAGE_VIEW
     Call_create_image_view;
   destroy_of BVB_OPCODE_VULKAN_IMAGE_VIEW_DESTROY BVB_OBJECT_IMAGE_VIEW
     Call_destroy_image_view;
   call_of BVB_OPCODE_VULKAN_MEMORY_VERIFY_FILL
     memory_verify_fill_request_codec memory_verify_fill_response_codec
     Call_verify_memory_fill;
   call_of BVB_OPCODE_VULKAN_MEMORY_MIRROR_FLUSH
     memory_mirror_range_request_codec result_codec Call_flush_memory_mirror;
   call_of BVB_OPCODE_VULKAN_MEMORY_MIRROR_INVALIDATE
     memory_mirror_range_request_codec result_codec
     Call_invalidate_memory_mirror;
   command_of BVB_OPCODE_VULKAN_MEMORY_MIRROR_UNMAP
     memory_mirror_unmap_request_codec Call_unmap_memory_mirror].

(** The mirror is set up over the descriptor that came with the request. *)
Definition mirror_procedures : list procedure :=
  match ci.(ci_received_fd) with
  | Some fd =>
      [call_of BVB_OPCODE_VULKAN_MEMORY_MIRROR_SETUP
         memory_mirror_setup_request_codec result_codec
         (fun r => Call_setup_memory_mirror r fd)]
  | None => []
  end.

Definition procedures : list procedure :=
  device_procedures ++ synchronisation_procedures ++ descriptor_procedures ++
  memory_procedures ++ mirror_procedures.

End procedures.

(** ** Every handler implements its procedure *)

Section implementation.
Context {VH : VulkanHeader} {VI : VulkanImage} {VC : VulkanCore}
  {VS : VulkanStream}.
Context (driver : list event -> vk_call -> vk_reply) (s : settings).
Context (ci : circumstances).

(** The opcodes the loop takes care of before it looks for a handler. *)
Definition own_opcode (op : Z) : bool :=
  existsb (Z.eqb op)
    [BVB_OPCODE_HELLO; BVB_OPCODE_ACTIVITY_STATUS;
     BVB_OPCODE_SHARED_BATCH_SETUP; BVB_OPCODE_VULKAN_COMMAND_STREAM_SETUP;
     BVB_OPCODE_VULKAN_DESCRIPTOR_JOURNAL_SETUP;
     BVB_OPCODE_VULKAN_QUEUE_SUBMIT_2;
     BVB_OPCODE_VULKAN_QUEUE_SUBMIT_2_STREAM].

Definition implemented (p : procedure) : Prop :=
  own_opcode p.(pr_opcode) = false /\
  exists h, dispatch driver s ci p.(pr_opcode) = Some h /\ implements h p.

Lemma stop_if_bind {A B} (c : bool) e (m : M A) (k : A -> M B) :
  (stop_if c with e ;; do x := m ;; k x) ≐
  (do x := (stop_if c with e ;; m) ;; k x).
Proof. intros w. by destruct c. Qed.

Lemma stop_if_bind_bind {A B C} (c : bool) e (m : M A) (k : A -> M B)
    (l : B -> M C) :
  (stop_if c with e ;; do y := (do x := m ;; k x) ;; l y) ≐
  (do x := (stop_if c with e ;; m) ;; do y := k x ;; l y).
Proof.
  intros w. destruct c; [done|]. unfold bind. by destruct (m w) as [[x|e'] w'].
Qed.

Lemma decode_and_create_format {T} (decoded : result T) create type
    (encoded : bvb_vulkan_object_create_response -> Z -> M (bytes * Z)) :
  (do (created, expected_type) := decode_and_create decoded create type ;;
   encoded created expected_type) ≐
  (do d := of_result decoded ;; do created := create d ;; encoded created type).
Proof.
  intros w. unfold decode_and_create, bind, of_result, ret.
  destruct decoded as [d|e]; [|done]. by destruct (create d w) as [[x|e] w'].
Qed.

Definition created_reply (created : bvb_vulkan_object_create_response)
    (expected_type : Z) : M (bytes * Z) :=
  reply BVB_VULKAN_OBJECT_CREATE_RESPONSE_SIZE
    (bvb_protocol_encode_vulkan_object_create_response response_payload
       (Some created) expected_type).

(** The same behind a test of the length. *)
Lemma sized_create_format {T} (n size : Z) (decoded : result T) create type
    (encoded : bvb_vulkan_object_create_response -> Z -> M (bytes * Z)) :
  (do (created, expected_type) :=
     (if n =? size then decode_and_create decoded create type
      else stop (- EPROTO)) ;;
   encoded created expected_type) ≐
  (do d := of_result (if negb (n =? size) then Err (- EPROTO) else decoded) ;;
   do created := create d ;; encoded created type).
Proof.
  destruct (n =? size); [apply decode_and_create_format|done].
Qed.
End implementation.

(** The request, the operation and the answer of a handler, one by one. *)
Ltac match_reply :=
  lazymatch goal with
  | |- _ ≐ of_result (fmt_send (codec_format ?c) ?r) => exact (reply_format c r)
  | |- _ ≐ of_result (fmt_send empty_format ?r) => destruct r; reflexivity
  | |- _ => reflexivity
  end.
Ltac match_steps request :=
  lazymatch goal with
  | |- _ ≐ bind (of_result (fmt_receive (codec_format ?c) _ _)) _ =>
      apply bind_proper;
        [first [exact (receive_format c request)|reflexivity]|intros ?]
  | |- _ => apply bind_proper; [reflexivity|intros ?]
  end;
  apply bind_proper; [reflexivity|intros ?]; match_reply.

(** A handler whose opcode is known: its tests of the opcode are decided. *)
Ltac implement :=
  split; [reflexivity|]; eexists; split; [reflexivity|];
  apply answer_implements; let request := fresh "request" in
  intros request Ho; cbn beta;
  unfold call_of, command_of, general, create_of, destroy_of in *;
  unfold call_of, command_of in *;
  cbn [pr_in pr_out pr_run pr_opcode] in *;
  unfold create_resource, select_destroy; rewrite ?Ho;
  cbn [Z.eqb Pos.eqb andb orb negb]; cbv zeta;
  first
  [ match_steps request
  | etransitivity; [exact (sized_create_format _ _ _ _ _ created_reply)|];
    match_steps request
  | etransitivity; [exact (decode_and_create_format _ _ _ created_reply)|];
    match_steps request
  | etransitivity; [exact (stop_if_bind _ _ _ _)|]; match_steps request
  | rewrite orb_false_r;
    etransitivity; [exact (stop_if_bind_bind _ _ _ _ _)|]; match_steps request ].
Ltac implement_all :=
  repeat apply List.Forall_cons; try apply List.Forall_nil; implement.

Section theorems.
Context {VH : VulkanHeader} {VI : VulkanImage} {VC : VulkanCore}
  {VS : VulkanStream}.
Context (driver : list event -> vk_call -> vk_reply) (s : settings).
Context (ci : circumstances).

Lemma procedures_implemented :
  Forall (implemented driver s ci) (procedures driver ci).
Proof.
  unfold procedures. repeat apply list.Forall_app_2; [implement_all..|].
  unfold mirror_procedures. destruct ci as [[fd|] ? ? ? ?]; implement_all.
Qed.

(** Both formats of a procedure keep their promise. *)
Definition lawful_procedure (p : procedure) : Prop :=
  LawfulFormat p.(pr_in) /\ LawfulFormat p.(pr_out).

Lemma procedures_lawful : Forall lawful_procedure (procedures driver ci).
Proof.
  unfold procedures. repeat apply list.Forall_app_2.
  5: unfold mirror_procedures; destruct ci as [[fd|] ? ? ? ?].
  all: repeat apply List.Forall_cons; try apply List.Forall_nil; split;
    first [ apply empty_format_lawful
          | apply codec_format_lawful; [apply _|split; cbn; lia]
          | apply frame_format_lawful; [apply _|cbn; lia] ].
Qed.

(** A request past the loop's own opcodes goes to its handler. *)
Lemma serve_request_handler request c h :
  request.(pk_header).(hdr_kind) = BVB_PROTOCOL_REQUEST ->
  ci.(ci_received_fd) = None \/ may_carry_fd (opcode request) = true ->
  own_opcode (opcode request) = false ->
  dispatch driver s ci (opcode request) = Some h ->
  serve_request driver s request ci c =
  let '(response, context) := h c.(cn_negotiated) request c.(cn_context) in
  Answers response (with_context context c).
Proof.
  intros Hk Hfd Ho Hd. unfold serve_request. rewrite Hk, Hd. cbn [Z.eqb negb orb].
  replace (bool_decide (is_Some (ci_received_fd ci)) &&
    negb (may_carry_fd (opcode request))) with false.
  2: { destruct Hfd as [->| ->]; [done|]. by rewrite andb_false_r. }
  unfold own_opcode in Ho. cbn [existsb] in Ho.
  repeat match type of Ho with (?a || _) = false =>
    apply orb_false_iff in Ho as [?E Ho] end.
  repeat match goal with E : (_ =? opcode request) = false |- _ =>
    rewrite Z.eqb_sym in E end.
  by rewrite E, E0, E1, E2, E3, E4, E5.
Qed.

(** [request] asks for [p] with the argument [v]: what the client encoded is
    what arrived, in a buffer of any length. *)
Definition asks (p : procedure) (v : p.(pr_request))
    (request : bvb_protocol_packet) : Prop :=
  request.(pk_header).(hdr_kind) = BVB_PROTOCOL_REQUEST /\
  opcode request = p.(pr_opcode) /\
  exists payload, p.(pr_in).(fmt_send) v = Ok (payload, payload_length request) /\
    payload_length request <= blen request.(pk_payload) /\
    agree request.(pk_payload) payload 0 (payload_length request).

(** What a client that receives [response] learns: the status, and if it is
    zero what it decodes from any buffer the payload was received into. *)
Definition tells (p : procedure) (response : bvb_protocol_packet)
    (outcome : result p.(pr_answer)) : Prop :=
  match outcome with
  | Err e => response.(pk_header).(hdr_status) = e /\
             payload_length response = 0
  | Ok r =>
      response.(pk_header).(hdr_status) = 0 /\
      0 <= payload_length response <= BVB_PROTOCOL_MAX_PAYLOAD /\
      forall q, payload_length response <= blen q ->
        agree q response.(pk_payload) 0 (payload_length response) ->
        p.(pr_out).(fmt_receive) q (payload_length response) = Ok r
  end.

(** C8: a remote call is a local call.  A client that has negotiated and
    sends a request for a procedure gets, in one response to that request,
    what the operation of the object store returns for the argument when it
    is called directly, and the store is left as that call leaves it; if the
    answer cannot be encoded the client gets the encoder's status instead. *)
Theorem remote_calls_are_local_calls (p : procedure) (v : p.(pr_request))
    request c w outcome w'
    (Hp : In p (procedures driver ci)) (Hask : asks p v request)
    (Hrep : p.(pr_in).(fmt_rep) v = true)
    (Hfd : ci.(ci_received_fd) = None \/ may_carry_fd p.(pr_opcode) = true)
    (Hnegotiated : c.(cn_negotiated) = true)
    (Hcontext : c.(cn_context) = Some w)
    (Hrun : p.(pr_run) (p.(pr_in).(fmt_norm) v) w = (outcome, w')) :
  exists response,
    serve_request driver s request ci c =
      Answers response (with_context (Some w') c) /\
    response.(pk_header).(hdr_kind) = BVB_PROTOCOL_RESPONSE /\
    opcode response = opcode request /\
    response.(pk_header).(hdr_request_id) =
      request.(pk_header).(hdr_request_id) /\
    match outcome with
    | Err e => tells p response (Err e)
    | Ok r =>
        match p.(pr_out).(fmt_send) r with
        | Err e => tells p response (Err e)
        | Ok _ => p.(pr_out).(fmt_rep) r = true ->
                  tells p response (Ok (p.(pr_out).(fmt_norm) r))
        end
    end.
Proof.
  destruct Hask as (Hk & Ho & payload & Hsend & Hlen & Ha).
  destruct (proj1 (List.Forall_forall _ _) procedures_implemented p Hp)
    as (Hown & h & Hd & Hi).
  destruct (proj1 (List.Forall_forall _ _) procedures_lawful p Hp)
    as [Hin Hout].
  destruct (Hin v payload _ Hrep Hsend) as (_ & _ & Hreceive).
  rewrite <- Ho in Hfd, Hown, Hd.
  rewrite (serve_request_handler request c h Hk Hfd Hown Hd).
  rewrite Hi, Hnegotiated, Hcontext by done. unfold perform, answer, bind at 1.
  unfold of_result at 1. rewrite Hreceive by done. unfold bind. rewrite Hrun.
  destruct outcome as [r|e].
  - unfold of_result. destruct (p.(pr_out).(fmt_send) r) as [[q n]|e] eqn:E.
    2: { eexists. by split_and!. }
    eexists. split; [done|]. do 3 (split; [done|]).
    intros Hr. by destruct (Hout r q n Hr E) as (_ & Hn & Hq).
  - eexists. by split_and!.
Qed.
End theorems.

(** A request a client composes with the encoder asks for its procedure. *)
Lemma asked_asks {VH : VulkanHeader} {VI : VulkanImage} {VC : VulkanCore}
    {VS : VulkanStream} {A B} `{!Inhabited A, !Inhabited B} driver op
    (c : codec A) (c' : codec B) f id v :
  Lawful c -> 0 <= c.(codec_size) <= BVB_PROTOCOL_MAX_PAYLOAD ->
  is_ok (c.(encode) response_payload (Some v)) = true ->
  asks (call_of driver op c c' f) v
    (asked op id c.(codec_size) (c.(encode) response_payload (Some v))).
Proof.
  intros Hc Hsize Hok. split_and!; [done|done|].
  unfold asked. cbn [pr_in call_of codec_format fmt_send pk_payload pk_header
    hdr_payload_length].
  destruct (c.(encode) response_payload (Some v)) as [payload|] eqn:E; [|done].
  apply encode_frame in E as [Hl _]. rewrite blen_blank in Hl by lia.
  exists payload. split_and!; [done|lia|apply agree_refl].
Qed.

Lemma remote_calls_are_local_calls_witness :
  exists w response w',
    sample_served.1.2.(cn_context) = Some w /\
    @serve_request vulkan_1_4 vulkan_1_4_image vulkan_1_4_core
      vulkan_1_4_stream model_driver sample_settings (ask_fence 9) usual
      sample_served.1.2 =
      Answers response (with_context (Some w') sample_served.1.2) /\
    response.(pk_header).(hdr_request_id) = 9.
Proof.
  pose (p := @create_of vulkan_1_4 vulkan_1_4_image vulkan_1_4_core vulkan_1_4_stream model_driver _ _
    BVB_OPCODE_VULKAN_FENCE_CREATE fence_create_request_codec BVB_OBJECT_FENCE
    Call_create_fence).
  assert (Hw : (match cn_context sample_served.1.2 with
                | Some _ => true | None => false end) = true)
    by (vm_compute; reflexivity).
  destruct (cn_context sample_served.1.2) as [w|] eqn:E; [|discriminate Hw].
  clear Hw.
  destruct (p.(pr_run) sample_fence w) as [outcome w'] eqn:Hrun.
  destruct (@remote_calls_are_local_calls vulkan_1_4 vulkan_1_4_image
    vulkan_1_4_core vulkan_1_4_stream model_driver sample_settings usual p
    sample_fence (ask_fence 9) sample_served.1.2 w outcome w') as
    (response & Hs & _ & _ & Hid & _).
  - apply in_or_app. right. apply in_or_app. left. by left.
  - apply (asked_asks _ _ fence_create_request_codec _ _ 9 sample_fence).
    + apply _.
    + vm_compute. by split.
    + vm_compute. reflexivity.
  - reflexivity.
  - by left.
  - by vm_compute.
  - exact E.
  - exact Hrun.
  - exists w, response, w'. by split_and!.
Defined.
