(* ===== verification/ServiceSafety.v ===== *)
(** * ServiceSafety: whatever is sent, the driver's handles are used well

    The connection of Service.v fed with any packets, well formed or not:
    every handler keeps the invariant of the object store, so that what
    BackendService.v says of sequences of operations holds for sequences of
    packets. *)

From stdpp Require Import base list.
From S2P Require Import Prelude Wire Abi Codec ProtocolBase Transport ProtocolSetup ProtocolRegistry CommandTypes DescriptorTypes MessageImage MessageSubmit StreamGeneration Backend BackendInvariant BackendRules BackendDriver BackendMirror StreamBase StreamReplay BackendSubmit StreamSubmit BackendService ServiceBase ServiceHandlers ServiceResources Service ServiceExample.

#[local] Open Scope list_scope.

(** The packets are any, so that a mapping can be lost. *)
#[local] Instance any_access : Apart := false.

Section safety.
Context {VH : VulkanHeader} {VI : VulkanImage} {VC : VulkanCore}
  {VS : VulkanStream}.
Context (driver : list event -> vk_call -> vk_reply).
Context {CD : ConformingDriver driver}.

Definition context_settled (context : option world) : Prop :=
  match context with Some w => settled w | None => True end.

Definition handler_keeps (h : handler) : Prop :=
  forall negotiated request context,
    context_settled context ->
    context_settled (h negotiated request context).2.

Lemma answer_keeps body :
  (forall request, keeps (body request)) -> handler_keeps (answer body).
Proof.
  intros Hb negotiated request [w|] Hw; [|done]. unfold answer.
  destruct negotiated; [|done]. specialize (Hb request w Hw). unfold wp in Hb.
  by destruct (body request w).
Qed.

Lemma any_access_keeps {A} (P : world -> Prop) (m : M A) :
  keeps_when (fun w => apart = true -> P w) m -> keeps m.
Proof. apply keeps_when_any. done. Qed.

Lemma write_any_keeps r data :
  keeps (bvb_vulkan_global_context_write_memory driver r data).
Proof. eapply any_access_keeps, write_memory_keeps. Qed.

Lemma read_any_keeps r capacity :
  keeps (bvb_vulkan_global_context_read_memory driver r capacity).
Proof. eapply any_access_keeps, read_memory_keeps. Qed.

Lemma verify_any_keeps r :
  keeps (bvb_vulkan_global_context_verify_memory_fill driver r).
Proof.
  eapply keeps_when_any, verify_memory_fill_keeps. by intros w _ Ha.
Qed.

Lemma receive_looks {T} `{!Inhabited T} size (decode : ptr bytes -> ptr T -> result T)
    request : looks (receive size decode request).
Proof. unfold receive. destruct (negb _); [done|apply looks_of_result]. Qed.

Lemma receive_frame_looks {T} `{!Inhabited T}
    (decode : ptr bytes -> Z -> ptr T -> result T) request :
  looks (receive_frame decode request).
Proof. apply looks_of_result. Qed.

Lemma reply_looks size encoded : looks (reply size encoded).
Proof. apply looks_bind; [apply looks_of_result|done]. Qed.

End safety.

Ltac keep_leaf :=
  first
  [ solve [eauto 3 with keeps nocore]
  | solve [apply destroys_keeps; eauto 3 with keeps nocore]
  | solve [apply looks_keeps;
           first [apply receive_looks|apply receive_frame_looks
                 |apply looks_of_result|apply reply_looks|done]]
  | solve [apply range_operation_keeps]
  | solve [apply write_any_keeps|apply read_any_keeps
          |apply verify_any_keeps] ].
(** A handler: its steps one after the other, each branch of its tests. *)
Ltac keep_handler :=
  apply answer_keeps; intros ?;
  repeat first
    [ keep_leaf
    | lazymatch goal with
      | |- keeps (if ?c then _ else _) => destruct c
      | |- keeps (match ?x with _ => _ end) => destruct x
      | |- keeps (bind _ _) => apply keeps_bind; [|intros ?]
      | |- keeps _ => progress cbv zeta
      end ].

Section handlers.
Context {VH : VulkanHeader} {VI : VulkanImage} {VC : VulkanCore}
  {VS : VulkanStream}.
Context (driver : list event -> vk_call -> vk_reply).
Context {CD : ConformingDriver driver}.

Lemma select_destroy_keeps op descriptor_type type destroy id :
  select_destroy driver op descriptor_type = Some (type, destroy) ->
  keeps (destroy id).
Proof.
  unfold select_destroy. intros H.
  repeat case_match; simplify_eq; keep_leaf.
Qed.

Lemma resource_destroy_keeps :
  handler_keeps (answer_vulkan_resource_destroy driver).
Proof.
  apply answer_keeps. intros request.
  destruct (negb _); [keep_leaf|]. cbv zeta.
  destruct (select_destroy _ _ _) as [[type destroy]|] eqn:E; [|keep_leaf].
  apply keeps_bind; [keep_leaf|intros id].
  apply keeps_bind; [by eapply select_destroy_keeps|intros _; keep_leaf].
Qed.

Lemma decode_and_create_keeps {T} (decoded : result T) create type :
  (forall d, keeps (create d)) -> keeps (decode_and_create decoded create type).
Proof.
  intros H. apply keeps_bind; [keep_leaf|intros d].
  apply keeps_bind; [apply H|intros; keep_leaf].
Qed.

Lemma resource_create_keeps :
  handler_keeps (answer_vulkan_resource_create driver).
Proof.
  apply answer_keeps. intros request.
  apply keeps_bind; [|intros []; keep_leaf]. unfold create_resource.
  repeat case_match;
    first [apply decode_and_create_keeps; intros d|idtac]; keep_leaf.
Qed.

Lemma setup_request_rep (input : bytes) old r :
  bvb_protocol_decode_vulkan_memory_mirror_setup_request (Some input) old =
    Ok r -> mms_rq_rep r = true.
Proof.
  unfold bvb_protocol_decode_vulkan_memory_mirror_setup_request.
  destruct old; [|done]. cbv zeta. repeat case_match; try done. intros [= <-].
  unfold mms_rq_rep. cbn. by rewrite ?get_u64_range, ?get_u32_range.
Qed.

Lemma memory_mirror_setup_keeps fd :
  handler_keeps (answer_vulkan_memory_mirror_setup driver fd).
Proof.
  apply answer_keeps. intros request. destruct fd as [fd|]; [|keep_leaf].
  intros w Hw. unfold receive. case_match; [done|].
  unfold wp, bind at 1, of_result.
  destruct bvb_protocol_decode_vulkan_memory_mirror_setup_request eqn:E; [|done].
  apply setup_request_rep in E. revert w Hw.
  apply keeps_bind; [by apply setup_memory_mirror_keeps|intros; keep_leaf].
Qed.

Lemma ensure_settled allowlist loader context w :
  ensure_vulkan_global_context allowlist loader context = Ok w ->
  context_settled context -> settled w.
Proof.
  unfold ensure_vulkan_global_context, bvb_vulkan_global_context_create.
  destruct context as [w'|]; [by intros [= <-]|]. destruct loader as [l|]; [|done].
  destruct fresh_context eqn:E; [|done]. intros [= <-] _. by eapply fresh_settled.
Qed.

Lemma instance_create_keeps allowlist loader :
  handler_keeps (answer_vulkan_instance_create driver allowlist loader).
Proof.
  intros negotiated request context Hc. unfold answer_vulkan_instance_create.
  case_match; [done|]. destruct decode_instance_create as [[create names]|]; [|done].
  destruct ensure_vulkan_global_context as [w|] eqn:E; [|done].
  apply ensure_settled in E; [|done].
  match goal with |- context [bind ?m ?k w] => assert (Hk : keeps (bind m k)) end.
  { apply keeps_bind; [keep_leaf|intros; keep_leaf]. }
  specialize (Hk w E). unfold wp in Hk. by destruct (bind _ _ w).
Qed.

(** Every handler keeps the invariant. *)
Lemma handlers_keep s ci :
  Forall (fun entry => handler_keeps entry.2) (handlers driver s ci).
Proof.
  repeat apply List.Forall_cons; try apply List.Forall_nil; cbn [snd];
    first
    [ apply instance_create_keeps
    | apply resource_create_keeps
    | apply resource_destroy_keeps
    | apply memory_mirror_setup_keeps
    | keep_handler ].
Qed.

Lemma dispatch_keeps s ci op h :
  dispatch driver s ci op = Some h -> handler_keeps h.
Proof.
  unfold dispatch. destruct (List.find _ _) as [[o h']|] eqn:E; [|done].
  intros [= <-]. apply List.find_some in E as [Hin _].
  by eapply (proj1 (List.Forall_forall _ _) (handlers_keep s ci)) in Hin.
Qed.

Lemma keeps_catch {A} (m : M A) : keeps m -> keeps (catch m).
Proof.
  intros Hm w Hw. specialize (Hm w Hw). unfold wp, catch in *.
  by destruct (m w).
Qed.

Lemma replay_snapshots_keeps device_id streams :
  keeps (replay_snapshots driver device_id streams).
Proof.
  unfold replay_snapshots. induction streams as [|[command snapshot] streams IH];
    cbn [each]; [keep_leaf|].
  apply keeps_bind; [keep_leaf|by intros []].
Qed.

Lemma replay_submit_command_streams_keeps outside region request :
  keeps (replay_submit_command_streams driver outside region request).
Proof.
  unfold replay_submit_command_streams.
  destruct (negb _); [keep_leaf|]. destruct region as [r|]; [|keep_leaf].
  destruct (_ || _); [keep_leaf|]. apply keeps_bind.
  { apply looks_keeps, looks_catch, looks_bind;
      [apply looks_validate_submit_2|intros device_id].
    apply looks_bind; [apply looks_snapshot_streams|done]. }
  intros [[device_id streams]|e]; [|keep_leaf]. intros w Hw.
  unfold wp. cbv zeta.
  destruct bvb_command_stream_generations_apply as [generations [[] ?]]; [|done].
  revert w Hw. apply keeps_bind; [|intros; keep_leaf].
  apply keeps_catch, replay_snapshots_keeps.
Qed.

Lemma queue_submit_2_settled outside region stream_wire negotiated request
    context response context' region' :
  answer_vulkan_queue_submit_2 driver outside region stream_wire negotiated
    request context = (response, context', region') ->
  context_settled context -> context_settled context'.
Proof.
  unfold answer_vulkan_queue_submit_2. intros H Hc.
  destruct context as [w|]; [|by injection H as <- <- <-].
  destruct negotiated; [|by injection H as <- <- <-].
  destruct decode_vulkan_queue_submit_2_request as [decoded|];
    [|by injection H as <- <- <-].
  match type of H with context [(if stream_wire then ?m else ?k) w] =>
    assert (Hk : keeps (if stream_wire then m else k));
      [|specialize (Hk w Hc); unfold wp in Hk;
        destruct ((if stream_wire then m else k) w) as [[[result r']|e] w']] end.
  { destruct stream_wire; [apply replay_submit_command_streams_keeps|keep_leaf]. }
  2: { by injection H as <- <- <-. }
  match type of H with context [bind ?m ?k w'] =>
    assert (Hk2 : keeps (bind m k)) end.
  { apply keeps_bind; [keep_leaf|intros _].
    apply keeps_bind; [keep_leaf|intros; keep_leaf]. }
  specialize (Hk2 w' Hk). unfold wp in Hk2.
  destruct (bind _ _ w') as [outcome w'']. by injection H as <- <- <-.
Qed.

(** One turn of the loop. *)
Lemma serve_request_settled s request ci c :
  context_settled c.(cn_context) ->
  match serve_request driver s request ci c with
  | Answers _ c' | Closes _ c' => context_settled c'.(cn_context)
  | Outside => True
  end.
Proof.
  intros Hc. unfold serve_request.
  repeat case_match; simplify_eq; try done; cbn.
  all: try (by eapply queue_submit_2_settled).
  all: match goal with H : dispatch _ _ _ _ = Some ?h, E : ?h ?n ?r ?x = _ |- _ =>
    pose proof (dispatch_keeps _ _ _ _ H n r x Hc) as Hk; by rewrite E in Hk end.
Qed.

Lemma wrote_settled st c :
  representable st = true -> context_settled c.(cn_context) ->
  context_settled (wrote driver st c).(cn_context).
Proof.
  intros Hr Hc. unfold wrote. cbn. destruct cn_context; [|done].
  by apply (take_step_settled driver).
Qed.

Lemma serve_connection_settled s happenings : forall c,
  context_settled c.(cn_context) ->
  context_settled (serve_connection driver s happenings c).1.2.(cn_context).
Proof.
  induction happenings as [|[request ci|id data|id data] rest IH]; intros c Hc;
    cbn [serve_connection]; [done| | |].
  2,3: by apply IH, wrote_settled.
  pose proof (serve_request_settled s request ci c Hc) as Ht.
  destruct serve_request as [response c'|status c'|]; [|done|done].
  destruct (_ =? _); [|done]. specialize (IH c' Ht).
  by destruct serve_connection as [[? ?] ?].
Qed.
End handlers.

(** ** The connection *)

Section connection.
Context {VH : VulkanHeader} {VI : VulkanImage} {VC : VulkanCore}
  {VS : VulkanStream}.
Context (driver : list event -> vk_call -> vk_reply).
Context {CD : ConformingDriver driver}.

(** C9: whatever packets arrive on a connection, well formed or not and in
    whatever order, and whatever is written to shared memory in between, up to
    the first request for a handler outside the model ([outside_opcodes],
    where the modelled loop stops): every handle the service passes to the
    driver is alive and of the right kind when it is passed, what it destroys
    is owned by the device it names, and no device or instance goes before
    what was created from it; what the driver says is owned is what the object store
    holds; and every mirror in use is of a stored allocation and, if it is a
    copy, its buffers hold its range unless its mapping has been lost.
    Nothing is claimed of what Vulkan asks beyond handles: memory already
    mapped, or the recording state of a command buffer. *)
Theorem sessions_respect_vulkan (s : settings) (happenings : list happening) :
  match (serve_connection driver s happenings new_connection).1.2.(cn_context)
  with
  | Some w =>
      disciplined VK_SUCCESS w.(w_log) /\
      ds_owned (driver_after VK_SUCCESS w.(w_log)) ≡ₚ owned_objs (store w) /\
      Forall (mirrored false (store w)) w.(w_context).(ctx_memory_mirrors)
  | None => True
  end.
Proof.
  pose proof (serve_connection_settled driver s happenings new_connection I) as H.
  destruct cn_context as [w|]; [|done]. destruct H as [t A].
  rewrite (at_objects _ _ _ _ A).
  split; [apply (at_log _ _ _ _ A)|split; [apply (at_owned _ _ _ _ A)|]].
  apply (at_mirrors _ _ _ _ A).
Qed.
End connection.

Lemma sessions_respect_vulkan_witness :
  match sample_served.1.2.(cn_context) with
  | Some w => disciplined (@VK_SUCCESS vulkan_1_4_core) w.(w_log)
  | None => True
  end.
Proof.
  pose proof (@sessions_respect_vulkan vulkan_1_4 vulkan_1_4_image
    vulkan_1_4_core vulkan_1_4_stream model_driver model_driver_conforms
    sample_settings sample_session) as H.
  unfold sample_served. destruct cn_context as [w|]; [exact (proj1 H)|exact I].
Defined.

(** ** Responses *)

(** What every response has, whatever the outcome. *)
Definition replies_to (response request : bvb_protocol_packet) : Prop :=
  response.(pk_header).(hdr_version) = BVB_PROTOCOL_VERSION /\
  response.(pk_header).(hdr_kind) = BVB_PROTOCOL_RESPONSE /\
  opcode response = opcode request /\
  response.(pk_header).(hdr_request_id) = request.(pk_header).(hdr_request_id) /\
  (response.(pk_header).(hdr_status) = 0 \/ payload_length response = 0).

Lemma respond_replies request outcome :
  replies_to (respond request outcome) request.
Proof. destruct outcome as [[payload n]|e]; split_and!; try done; auto. Qed.

Lemma refuse_replies request : replies_to (refuse request) request.
Proof. split_and!; try done; auto. Qed.

(** A handler answers its request, and refuses it before the greeting. *)
Definition handler_replies (h : handler) : Prop :=
  forall negotiated request context,
    replies_to (h negotiated request context).1 request /\
    h false request context = (refuse request, context).

Lemma answer_replies body : handler_replies (answer body).
Proof.
  intros negotiated request [w|]; unfold answer.
  - split; [|done]. destruct negotiated; [|apply refuse_replies].
    destruct (body request w). apply respond_replies.
  - split; [apply refuse_replies|done].
Qed.

Section replies.
Context {VH : VulkanHeader} {VI : VulkanImage} {VC : VulkanCore}
  {VS : VulkanStream}.
Context (driver : list event -> vk_call -> vk_reply) (s : settings).

Lemma instance_create_replies allowlist loader :
  handler_replies (answer_vulkan_instance_create driver allowlist loader).
Proof.
  intros negotiated request context. split; [|done].
  unfold answer_vulkan_instance_create.
  repeat case_match; subst; first [apply respond_replies|apply refuse_replies].
Qed.

Lemma dispatch_replies ci op h :
  dispatch driver s ci op = Some h -> handler_replies h.
Proof.
  assert (Hall : Forall (fun entry => handler_replies entry.2)
                   (handlers driver s ci)).
  { repeat apply List.Forall_cons; try apply List.Forall_nil; cbn [snd];
      first [apply instance_create_replies|apply answer_replies]. }
  unfold dispatch. destruct (List.find _ _) as [[o h']|] eqn:E; [|done].
  intros [= <-]. apply List.find_some in E as [Hin _].
  by eapply (proj1 (List.Forall_forall _ _) Hall) in Hin.
Qed.

Lemma queue_submit_2_replies outside region stream_wire negotiated request
    context :
  let '(response, context', region') :=
    answer_vulkan_queue_submit_2 driver outside region stream_wire negotiated
      request context in
  replies_to response request /\
  (negotiated = false ->
   response = refuse request /\ context' = context /\ region' = region).
Proof.
  unfold answer_vulkan_queue_submit_2.
  destruct context; [|by split; [apply refuse_replies|]].
  destruct negotiated; [|by split; [apply refuse_replies|]].
  repeat case_match; simplify_eq; by split; [apply respond_replies|].
Qed.

Lemma setup_replies fd region command_stream descriptor_journal negotiated
    request :
  let '(response, region') :=
    answer_shared_batch_setup s fd region command_stream descriptor_journal
      negotiated request in
  replies_to response request /\
  (negotiated = false -> response = refuse request /\ region' = region).
Proof.
  unfold answer_shared_batch_setup. destruct setup_region as [r|e] eqn:E.
  - split; [split_and!; try done; auto|]. intros ->. unfold setup_region in E.
    by destruct fd.
  - split; [apply respond_replies|]. intros ->. unfold setup_region in E.
    destruct fd; by injection E as <-.
Qed.

Lemma hello_replies sent request response b :
  answer_hello s sent request = (Ok response, b) -> replies_to response request.
Proof.
  unfold answer_hello. intros H.
  repeat case_match; simplify_eq;
    first [ apply (respond_replies request (Err _))
          | apply (respond_replies request (Ok (_, _))) ].
Qed.

Lemma activity_status_replies negotiated request response :
  answer_activity_status s negotiated request = Ok response ->
  replies_to response request /\
  (negotiated = false -> response = refuse request).
Proof.
  unfold answer_activity_status. intros H.
  destruct (negb negotiated || _) eqn:E.
  { injection H as <-. by split; [apply refuse_replies|]. }
  case_match; [|done]. injection H as <-.
  split; [apply (respond_replies request (Ok (_, _)))|by intros ->].
Qed.

(** One turn of the loop answers the request it received. *)
Lemma serve_request_replies request ci c response c' :
  serve_request driver s request ci c = Answers response c' ->
  replies_to response request.
Proof.
  unfold serve_request. intros H.
  repeat case_match; simplify_eq;
    try (by eapply hello_replies); try (by eapply activity_status_replies).
  all: try match goal with E : answer_shared_batch_setup s ?fd ?r ?a ?b ?n ?q = _ |- _ =>
    pose proof (setup_replies fd r a b n q) as Hs; rewrite E in Hs; apply Hs end.
  all: try match goal with E : answer_vulkan_queue_submit_2 _ ?o ?r ?b ?n ?q ?x = _ |- _ =>
    pose proof (queue_submit_2_replies o r b n q x) as Hs; rewrite E in Hs; apply Hs end.
  match goal with E : dispatch _ _ _ _ = Some ?h, E' : ?h ?n ?q ?x = _ |- _ =>
    pose proof (dispatch_replies _ _ _ E n q x) as [Hs _]; by rewrite E' in Hs end.
Qed.

(** Before the greeting a request changes nothing. *)
Lemma serve_request_refuses request ci c :
  c.(cn_negotiated) = false -> (opcode request =? BVB_OPCODE_HELLO) = false ->
  match serve_request driver s request ci c with
  | Answers response c' => response = refuse request /\ c' = c
  | Closes status c' => status <> 0 /\ c' = c
  | Outside => True
  end.
Proof.
  intros Hn Ho. unfold serve_request. rewrite Ho, Hn.
  destruct c as [n w r j]; cbn in Hn; subst n;
    cbn [cn_negotiated cn_context cn_shared_region cn_descriptor_journal_region].
  destruct (negb (_ =? BVB_PROTOCOL_REQUEST) || _).
  { split; [discriminate|reflexivity]. }
  destruct (opcode request =? BVB_OPCODE_ACTIVITY_STATUS); [done|].
  destruct (opcode request =? BVB_OPCODE_SHARED_BATCH_SETUP);
    [|destruct (opcode request =? BVB_OPCODE_VULKAN_COMMAND_STREAM_SETUP);
      [|destruct (opcode request =? BVB_OPCODE_VULKAN_DESCRIPTOR_JOURNAL_SETUP)]].
  1-3: match goal with |- context [answer_shared_batch_setup s ?fd ?r ?a ?b ?n ?q] =>
    pose proof (setup_replies fd r a b n q) as Hs;
    destruct answer_shared_batch_setup; by destruct (proj2 Hs eq_refl) as [-> ->] end.
  destruct (_ || _).
  - match goal with |- context [answer_vulkan_queue_submit_2 _ ?o ?r ?b ?n ?q ?x] =>
      pose proof (queue_submit_2_replies o r b n q x) as Hs;
      destruct answer_vulkan_queue_submit_2 as [[] ?] end.
    by destruct (proj2 Hs eq_refl) as (-> & -> & ->).
  - destruct dispatch as [h|] eqn:E.
    + by rewrite (proj2 (dispatch_replies _ _ _ E false request w)).
    + destruct existsb; [done|]. split; [discriminate|reflexivity].
Qed.

(** The loop does not end without a status. *)
Lemma serve_request_closes request ci c status c' :
  serve_request driver s request ci c = Closes status c' -> status <> 0.
Proof.
  unfold serve_request, answer_hello, answer_activity_status. intros H.
  repeat case_match; simplify_eq; try done.
  - match goal with E : bvb_protocol_encode_hello_response _ _ = Err _ |- _ =>
      by apply (encode_error (c := hello_response_codec)) in E as -> end.
  - match goal with E : bvb_protocol_encode_activity_status _ _ = Err _ |- _ =>
      by apply (encode_error (c := activity_status_codec)) in E as -> end.
Qed.

Definition arrivals (happenings : list happening) : list bvb_protocol_packet :=
  omap (fun h => match h with Arrives request _ => Some request | _ => None end)
    happenings.

(** C12: the responses answer the requests one by one and in order: each has
    the opcode and the number of its request and carries a payload only if
    its status is zero, and a connection that ends well has answered all. *)
Theorem responses_follow_requests happenings c responses c' status
    (Hserve : serve_connection driver s happenings c = (responses, c', status)) :
  Forall2 replies_to responses
    (take (Datatypes.length responses) (arrivals happenings)) /\
  (status = Some 0 ->
   Datatypes.length responses = Datatypes.length (arrivals happenings)).
Proof.
  revert c responses c' status Hserve.
  induction happenings as [|[request ci|id data|id data] rest IH];
    intros c responses c' status H; cbn [serve_connection] in H.
  - injection H as <- <- <-. by split.
  - destruct serve_request as [response c1|e c1|] eqn:E.
    + apply serve_request_replies in E. destruct (Z.eqb_spec (ci_sent ci) 0).
      * destruct (serve_connection driver s rest c1) as [[rs c2] st] eqn:Es.
        injection H as <- <- <-. destruct (IH _ _ _ _ Es) as [Hr Hl]. cbn.
        split; [by constructor|]. intros Hst. by rewrite Hl.
      * injection H as <- <- <-. split; [|by intros [= ?]].
        apply List.Forall2_cons; [done|apply List.Forall2_nil].
    + apply serve_request_closes in E. injection H as <- <- <-.
      split; [by constructor|]. by intros [= ?].
    + by injection H as <- <- <-.
  - by eapply IH.
  - by eapply IH.
Qed.

Definition greets (h : happening) : bool :=
  match h with
  | Arrives request _ => opcode request =? BVB_OPCODE_HELLO
  | _ => false
  end.

(** C13: a client that never greets gets nothing but refusals: no library is
    opened, no region is mapped, and nothing of the connection changes. *)
Theorem nothing_before_the_greeting happenings responses c' status
    (Hgreet : existsb greets happenings = false)
    (Hserve : serve_connection driver s happenings new_connection =
              (responses, c', status)) :
  c' = new_connection /\
  Forall (fun r => r.(pk_header).(hdr_status) = - EPROTO /\
                   payload_length r = 0) responses.
Proof.
  revert responses c' status Hserve.
  induction happenings as [|[request ci|id data|id data] rest IH];
    intros responses c' status H; cbn [serve_connection] in H;
    cbn [existsb greets] in Hgreet.
  - injection H as <- <- <-. by split.
  - apply orb_false_iff in Hgreet as [Ho Hgreet].
    pose proof (serve_request_refuses request ci new_connection eq_refl Ho) as Hr.
    destruct serve_request as [response c1|e c1|].
    + destruct Hr as [-> ->]. destruct (ci_sent ci =? 0).
      * destruct (serve_connection driver s rest new_connection)
          as [[rs c2] st] eqn:Es. injection H as <- <- <-.
        destruct (IH Hgreet _ _ _ eq_refl) as [-> Hf]. split; [done|].
        by constructor.
      * injection H as <- <- <-. split; [done|]. by repeat constructor.
    + destruct Hr as [_ ->]. injection H as <- <- <-. by split.
    + injection H as <- <- <-. by split.
  - by eapply IH.
  - by eapply IH.
Qed.
End replies.

Lemma triple_eta {A B C} (p : A * B * C) : p = (p.1.1, p.1.2, p.2).
Proof. by destruct p as [[] ]. Qed.

Lemma responses_follow_requests_witness :
  let served := @serve_connection vulkan_1_4 vulkan_1_4_image vulkan_1_4_core
    vulkan_1_4_stream model_driver sample_settings sample_session
    new_connection in
  Datatypes.length served.1.1 = 8%nat /\
  Forall2 replies_to served.1.1 (take 8 (arrivals sample_session)).
Proof.
  set (served := serve_connection _ _ _ _). intros served'. subst served'.
  assert (Hl : Datatypes.length served.1.1 = 8%nat)
    by (vm_compute; reflexivity).
  split; [exact Hl|]. rewrite <- Hl.
  refine (proj1 (@responses_follow_requests vulkan_1_4 vulkan_1_4_image
    vulkan_1_4_core vulkan_1_4_stream model_driver sample_settings
    sample_session new_connection served.1.1 served.1.2 served.2 _)).
  exact (triple_eta _).
Defined.

Lemma nothing_before_the_greeting_witness :
  let served := @serve_connection vulkan_1_4 vulkan_1_4_image vulkan_1_4_core
    vulkan_1_4_stream model_driver sample_settings hasty_session
    new_connection in
  served.1.2 = new_connection /\
  Datatypes.length served.1.1 = 2%nat /\
  Forall (fun r => r.(pk_header).(hdr_status) = - EPROTO /\
                   payload_length r = 0) served.1.1.
Proof.
  set (served := serve_connection _ _ _ _). intros served'. subst served'.
  destruct (@nothing_before_the_greeting vulkan_1_4 vulkan_1_4_image
    vulkan_1_4_core vulkan_1_4_stream model_driver sample_settings
    hasty_session served.1.1 served.1.2 served.2) as [Hc Hf].
  - by vm_compute.
  - exact (triple_eta _).
  - split; [exact Hc|]. split; [by vm_compute|exact Hf].
Defined.
